(* ===== verification/_CoqProject ===== *)
-Q . S2P
Prelude.v
Bytes.v
Types.v
Addr.v
Net.v
Device.v
Fabric.v
Mr.v
Revoke.v
Verbs.v
Jetty.v
JettyLocks.v
Dedup.v
Frame.v
Float.v
Config.v
ReadCache.v
Session.v
Manager.v
Network.v
Dataplane.v
Pod.v
Linear.v
Faults.v
Message.v
Member.v
Control.v
Bootstrap.v
Mirror.v
Join.v
SubAlloc.v
Region.v
CachePool.v
CacheThreads.v
FetchAgent.v
Coherence.v
Registry.v
Placer.v
Json.v
Text.v
Api.v
Task.v
Daemon.v
Kv.v
Obs.v
Managed.v
Agreement.v
RegionData.v
Router.v
Ctl.v
Testing.v
TestCore.v
TestTransport.v
TestControl.v
TestManaged.v
TestDataplane.v
