(* ===== verification/Prelude.v ===== *)
(** * UniBus: a verification development for the unibus_toy workspace

    The program is a memory-semantics fabric for a pod of nodes: a node registers
    byte ranges of its devices as memory regions, and every node of the pod can
    read, write and update them atomically by a 128-bit address. Its crates are
    layers: [ub-core] holds addresses, devices, region tables, local verbs and the
    jetty queues; [ub-wire] the frame format; [ub-transport] reliable sessions over
    datagrams; [ub-dataplane] the remote verbs; [ub-control] membership, failure
    detection and the directory of remote regions; [ub-managed] a managed layer
    with placement, caching and single-writer coherence on top; [ub-fabric] sorts
    datagrams into sessions. The daemon [unibusd] joins them behind an HTTP API, and
    [unibusctl] is its command-line client.

    ** Files and sources

    - Prelude.v: results and panics, machine integers, record update, automation,
      generic lemmas. Bytes.v: byte strings, cursors and parsers, UTF-8.
    - Config.v (config.rs), Net.v (socket addresses of the standard library).
    - Types.v (types.rs, error.rs), Addr.v (addr.rs), Device.v (device.rs,
      device/memory.rs, device/npu.rs), Mr.v (mr.rs), Verbs.v (verbs.rs), Jetty.v
      (jetty.rs): ub-core. A device is an instance of the class [Device]; clients
      are proved against its laws. Revoke.v has the reference counter of a region and
      [deregister_async] again, at the grain of their atomic operations, JettyLocks.v the
      calls on a jetty at the grain of their critical sections.
    - Frame.v: ub-wire (frame.rs, codec.rs).
    - Dedup.v (dedup.rs), Float.v (the [f64] operations used), ReadCache.v
      (read_cache.rs), Session.v (session.rs), Manager.v (manager.rs): ub-transport.
      Network.v composes two sessions with a network that loses, repeats and
      reorders frames.
    - Dataplane.v: ub-dataplane (lib.rs), the client verbs and the handlers. Pod.v joins
      any number of engines by a network that loses, repeats and reorders datagrams; Linear.v
      proves that their memory is one history of local calls, in which the calls that wait for an
      answer are linearizable; Faults.v shows what goes wrong without each of the assumptions.
    - Fabric.v (udp.rs): ub-fabric.
    - Message.v (message.rs), Member.v (member.rs), Control.v and Bootstrap.v
      (control.rs): ub-control. Mirror.v composes the owner's region table, the control
      connection and a peer's cache; Join.v both ends of the connection by which a node
      joins through a seed.
    - SubAlloc.v, Region.v, CachePool.v, FetchAgent.v, Coherence.v, Registry.v,
      Placer.v: the files of the same names of ub-managed. CacheThreads.v cuts the insert of
      the cache pool where other calls can come in between.
    - Task.v: asynchronous handlers as tasks, run alone ([exec]) or interleaved
      ([Pool]). Json.v, Text.v, Api.v: the values, texts and request structs of the
      API. Daemon.v (startup, background tasks, handlers of regions, jettys, verbs and
      devices), Kv.v (the key-value store), Managed.v (regions with virtual
      addresses), Router.v (the routes): unibusd/src/main.rs. Agreement.v relates the
      placer, the region table and the coherence manager, RegionData.v the bytes
      behind virtual addresses. Obs.v: ub-obs and the metric calls of the other crates.
      Ctl.v: unibusctl/src/main.rs.
    - Testing.v (running a test body), TestCore.v, TestTransport.v, TestControl.v,
      TestManaged.v, TestDataplane.v: the unit tests inside the crates, translated.

    ** Conventions

    A Rust variant [E::V] is the constructor [E_V], a method [T::m] the definition
    [T_m], a struct a record with prefixed fields. A doc comment "Source: file:lines,
    [symbol]" names the code a definition translates. [Result] adds the outcome
    [Panic] to Rust's [Result]. Unsigned integers are [Z]; [+], [-] and [*] wrap at
    their width as in the release profile, [usize] is 64 bits and the target is
    little-endian. Times are nanoseconds or milliseconds passed as arguments. An
    object shared through [Arc] is an index into a heap; a [DashMap] or [HashMap] is
    a [gmap], and where its iteration order could matter the order is an argument
    ([MapOrder]). A handler of the data or control plane runs as one step; code that
    awaits an answer is split at the await. A handler of the daemon is a [Task]: each
    call on a shared component is a step, and between two steps other handlers and the
    rest of the node may act. JSON text is parsed and printed by a library; the model
    has the values.

    ** What the theorems show

    - Delivery: the duplicate window implements a set of numbers; sessions, the
      manager and the two-node network deliver one-way frames at most once and in
      order, and what the sender forgets was received; ACKs report exactly what was
      received; timers resend exactly what is due and give up in bounded time; after any
      loss two rounds of the timer bring what was queued across and empty the queue.
    - Memory: registered regions never overlap and keep their handles; lookup is
      exact; revocation is final; local verbs read back what was written and leave
      other regions alone; device atomics and bounds are exact.
    - Remote verbs: at the owner they do what the local verb does, once, and a read
      returns the owner's bytes from end to end. In a pod, whatever the network does, the
      memory is what a history of local calls at the owners makes of it: each execution
      follows its invocation, updates are executed once, and a call that waits for its
      answer is executed before it returns. Writes promise no more.
    - Formats: addresses, frames and all control messages survive encoding and
      decoding, and decoders never panic.
    - Control plane: the failure detector counts silent ticks exactly and never
      accuses a peer heard in time; a peer's directory of regions equals the owner's
      live regions; a join through a seed always completes, the same way under any
      interleaving of the two ends, and what it leaves the joiner unable to do is exhibited.
    - Revocation: every interleaving of verbs with a deregistration ends, and without a verb
      caught between its check and its increment a successful deregistration leaves nobody
      on the region; the races that are left are exhibited.
    - Jetty: the queues lose, repeat and reorder nothing; under any interleaving of critical
      sections the calls are atomic ([post_send] in two steps) and never deadlock.
    - Managed layer: allocators and placements never overlap, also under concurrent
      callers; a hit was not invalidated since its fetch was completed, and eviction is
      least recently used; a writer lease is exclusive; placement is cheapest.
    - Daemon: every request ends, in any interleaving and without deadlock; the client
      and the daemon agree on every request; the tables of the managed layer agree
      after any sequence of requests; versions of the key-value store are handed out
      once under any interleaving, and a put is read back; a region at home is memory,
      a cached read returns what the fetch returned as long as nothing writes over the
      copy, and a refused request changes nothing.
    - Fabric: a datagram reaches at most one reader, the one of its source.
    - Metrics: each counter is the number of the outcomes it counts (one of them is not
      what its name says), and reporting changes nothing else.
    - What the code gets wrong: theorems without a claim number, next to the property whose
      limit they mark, run the code into it (races, wrap-around, missing checks).
    - Tests: the unit tests inside the crates pass on the model, by computation; each is one
      element of the list a lemma of its file runs.

    Loops that are not structural run on fuel that is shown to suffice: the eviction
    loop gets the number of entries, the control read loop the length of the stream,
    the dedup window advances at most its size.

    ** Not modelled

    Sockets and timers themselves (they appear as the order in which operations are
    called), log output, and what third-party libraries do: HTTP, parsing of arguments,
    the metrics registry (a class with the laws it documents), YAML and JSON text, rendering of
    output. Atomic operations are sequentially consistent steps: weaker memory orders are not
    modelled. Of the unit tests, those that read YAML or the rendered metrics page and the one of
    the wall clock are left out. *)

From stdpp Require Export base list gmap strings.
From Stdlib Require Export ZArith Lia Bool Sorted.

#[global] Open Scope Z_scope.

(** ** Results, errors and panics

    [Result] is Rust's [Result<T, UbError>] together with the outcome
    [Panic] of an out-of-range slice, a failed [unwrap]/[expect] or a failed
    [assert!]; the absence of panics is then a theorem and not a convention. *)

(** Source: crates/ub-core/src/error.rs:35-68, [UbError].
    [Internal], [Io] and [Config] carry the literal part of the message; the
    values interpolated into it by [format!] are dropped. *)
Inductive UbError : Type :=
| AddrInvalid
| PermDenied
| Alignment
| LinkDown
| NoResources
| Timeout
| PayloadTooLarge
| Flushed
| Internal (msg : string)
| Io (msg : string)
| Config (msg : string).

#[global] Instance UbError_eq_dec : EqDecision UbError.
Proof. solve_decision. Defined.

Inductive Result (A : Type) : Type :=
| Ok (a : A)
| Err (e : UbError)
| Panic.

Arguments Ok {A} a.
Arguments Err {A} e.
Arguments Panic {A}.

Definition rbind {A B} (m : Result A) (k : A -> Result B) : Result B :=
  match m with
  | Ok a => k a
  | Err e => Err e
  | Panic => Panic
  end.

Definition ok_or {A} (o : option A) (e : UbError) : Result A :=
  match o with
  | Some a => Ok a
  | None => Err e
  end.

Definition is_ok {A} (m : Result A) : bool :=
  match m with
  | Ok _ => true
  | _ => false
  end.

Declare Scope ub_scope.
Delimit Scope ub_scope with ub.
#[global] Open Scope ub_scope.

Notation "'let?' x ':=' m 'in' k" := (rbind m (fun x => k))
  (at level 10, x pattern, m at level 200, k at level 200,
   format "'[v' 'let?'  x  ':='  m  'in' '/' k ']'") : ub_scope.

(** ** Record update

    [r <| f := v |>] is the struct [r] with field [f] assigned, as in
    [self.f = v]. A struct becomes updatable by an instance of [Settable] that
    eta-expands it through its fields. *)

Class Settable (R : Type) := eta_of : R -> R.

Class FieldOf {R E : Type} (proj : R -> E) := set_field : (E -> E) -> R -> R.
Arguments set_field {R E} proj {_} f r /.

Ltac derive_field R proj :=
  let eta := eval unfold eta_of in (eta_of (R := R)) in
  let eta := eval hnf in eta in
  let body := eval pattern proj in eta in
  lazymatch body with
  | ?ctx proj => exact (fun upd => ctx (fun r => upd (proj r)))
  end.

#[export] Hint Extern 1 (@FieldOf ?R _ ?proj) => derive_field R proj : typeclass_instances.

Notation "r <| f := v |>" := (set_field f (fun _ => v) r)
  (at level 1, f constr at level 1, v at level 200, left associativity,
   format "r  <| f  :=  v |>") : ub_scope.

(** ** Machine integers

    A [w]-bit unsigned integer is a [Z]; [+], [-] and [*] wrap, which is what
    the release profile of the workspace does. *)

Definition wrap (w x : Z) : Z := x mod 2 ^ w.
Definition fits (w x : Z) : Prop := 0 <= x < 2 ^ w.

Abbreviation u8 := (fits 8).
Abbreviation u16 := (fits 16).
Abbreviation u32 := (fits 32).
Abbreviation u64 := (fits 64).
Abbreviation u128 := (fits 128).

Definition U32_MAX : Z := 2 ^ 32 - 1.
Definition U64_MAX : Z := 2 ^ 64 - 1.

(** [saturating_sub], [saturating_add], [saturating_mul] of a [w]-bit type. *)
Definition sat_sub (x y : Z) : Z := Z.max 0 (x - y).
Definition sat_add (w x y : Z) : Z := Z.min (2 ^ w - 1) (x + y).
Definition sat_mul (w x y : Z) : Z := Z.min (2 ^ w - 1) (x * y).

(** [!x] on a [w]-bit type. *)
Definition bit_not (w x : Z) : Z := 2 ^ w - 1 - x.

#[global] Instance fits_dec w x : Decision (fits w x).
Proof. unfold fits. apply _. Defined.

(** ** Automation *)

Create HintDb ub discriminated.
Create HintDb codec discriminated.
Create Rewrite HintDb ub.
Create Rewrite HintDb codec.

(** Turns boolean comparisons of [Z] in the context into propositions. *)
Ltac zbool :=
  repeat match goal with
  | H : (_ <? _) = true |- _ => apply Z.ltb_lt in H
  | H : (_ <? _) = false |- _ => apply Z.ltb_ge in H
  | H : (_ <=? _) = true |- _ => apply Z.leb_le in H
  | H : (_ <=? _) = false |- _ => apply Z.leb_gt in H
  | H : (_ =? _) = true |- _ => apply Z.eqb_eq in H
  | H : (_ =? _) = false |- _ => apply Z.eqb_neq in H
  | H : (_ && _) = true |- _ => apply andb_true_iff in H as [? ?]
  | H : (_ || _) = false |- _ => apply orb_false_iff in H as [? ?]
  | H : (_ || _) = true |- _ => apply orb_true_iff in H
  | H : (_ && _) = false |- _ => apply andb_false_iff in H
  | H : negb _ = true |- _ => apply negb_true_iff in H
  | H : negb _ = false |- _ => apply negb_false_iff in H
  end.

(** Splits on the first scrutinee of a [match] or [if] in the goal. *)
Ltac case_goal :=
  match goal with
  | |- context [match ?x with _ => _ end] => destruct x eqn:?
  end.

(** The same for a hypothesis. *)
Ltac case_hyp H :=
  match type of H with
  | context [match ?x with _ => _ end] => destruct x eqn:?
  end.

Ltac case_all H := repeat (case_hyp H; simplify_eq/=).

(** [lia] after unfolding the widths. *)
Ltac ulia := unfold fits, wrap, sat_sub, sat_add, sat_mul, U32_MAX, U64_MAX in *; lia.

(** Decides a proposition by evaluation. *)
Ltac by_decide := apply (bool_decide_unpack _); vm_compute; exact I.

(** ** Generic lemmas *)

Lemma rbind_Ok {A B} (a : A) (k : A -> Result B) : rbind (Ok a) k = k a.
Proof. reflexivity. Qed.

Lemma rbind_Ok_inv {A B} (m : Result A) (k : A -> Result B) b :
  rbind m k = Ok b -> exists a, m = Ok a /\ k a = Ok b.
Proof. destruct m; simpl; intros H; simplify_eq; eauto. Qed.

Lemma rbind_no_panic {A B} (m : Result A) (k : A -> Result B) :
  m <> Panic -> (forall a, m = Ok a -> k a <> Panic) -> rbind m k <> Panic.
Proof. destruct m; simpl; eauto. Qed.

Lemma ok_or_no_panic {A} (o : option A) e : ok_or o e <> Panic.
Proof. by destruct o. Qed.

Lemma wrap_fits w x : 0 <= w -> fits w (wrap w x).
Proof. intros. apply Z.mod_pos_bound, Z.pow_pos_nonneg; lia. Qed.

Lemma wrap_small w x : fits w x -> wrap w x = x.
Proof. apply Z.mod_small. Qed.

Lemma pow2_pos n : 0 <= n -> 0 < 2 ^ n.
Proof. intros. apply Z.pow_pos_nonneg; lia. Qed.

(** *** Bit operations as arithmetic *)

Lemma lor_disjoint_add a b n :
  0 <= n -> a mod 2 ^ n = 0 -> 0 <= b < 2 ^ n -> Z.lor a b = a + b.
Proof.
  intros Hn Ha Hb. symmetry. apply Z.add_nocarry_lor.
  rewrite <- (Z.mod_small b (2 ^ n)), <- Z.land_ones by lia.
  rewrite (Z.land_comm b), Z.land_assoc, Z.land_ones, Ha by lia. apply Z.land_0_l.
Qed.

Lemma land_mask a n : 0 <= n -> Z.land a (2 ^ n - 1) = a mod 2 ^ n.
Proof. intros. rewrite <- Z.land_ones, Z.ones_equiv by lia. f_equal. Qed.

Lemma land_bit_not w a m :
  0 <= w -> fits w a -> fits w m -> Z.land a (bit_not w m) = a - Z.land a m.
Proof.
  intros Hw Ha Hm. unfold bit_not, fits in *.
  replace (2 ^ w - 1 - m) with ((Z.lnot m) mod 2 ^ w)
    by (unfold Z.lnot; symmetry; apply (Z.mod_unique_pos _ _ (-1)); lia).
  rewrite <- Z.land_ones, (Z.land_comm (Z.lnot m)), Z.land_assoc by lia.
  rewrite Z.land_ones, Z.mod_small by lia.
  rewrite <- Z.ldiff_land. pose proof (Z.add_lor_land (Z.ldiff a m) (Z.land a m)) as H.
  rewrite Z.lor_ldiff_and in H.
  replace (Z.land (Z.ldiff a m) (Z.land a m)) with 0 in H; [lia|].
  symmetry. apply Z.bits_inj'. intros n Hn.
  rewrite Z.land_spec, Z.ldiff_spec, Z.land_spec, Z.bits_0.
  by destruct (Z.testbit a n), (Z.testbit m n).
Qed.

Lemma land_shiftl_mask a k n :
  0 <= k -> 0 <= n -> Z.land a (Z.shiftl (2 ^ n - 1) k) = (a / 2 ^ k) mod 2 ^ n * 2 ^ k.
Proof.
  intros Hk Hn. rewrite <- land_mask, <- Z.shiftr_div_pow2, <- Z.shiftl_mul_pow2 by lia.
  apply Z.bits_inj'. intros i Hi.
  rewrite Z.land_spec, !Z.shiftl_spec, Z.land_spec by lia.
  destruct (Z.lt_ge_cases i k).
  - rewrite !(Z.testbit_neg_r _ (i - k)) by lia. by rewrite andb_false_r.
  - rewrite Z.shiftr_spec by lia. do 2 f_equal. lia.
Qed.

(** *** Sorted lists *)

Lemma StronglySorted_filter {A} (R : A -> A -> Prop) (P : A -> Prop) `{!forall x, Decision (P x)} l :
  StronglySorted R l -> StronglySorted R (filter P l).
Proof.
  induction 1 as [|x l _ IH Hx]; [constructor|]. rewrite filter_cons. case_decide; [|done].
  constructor; [done|]. apply Forall_forall. intros y [_ Hy]%list_elem_of_filter.
  by eapply Forall_forall in Hx.
Qed.

Lemma Forall_sublist {A} (P : A -> Prop) l l' : sublist l' l -> Forall P l -> Forall P l'.
Proof. rewrite !Forall_forall. eauto using elem_of_sublist. Qed.

Lemma StronglySorted_sublist {A} (R : A -> A -> Prop) l l' :
  sublist l' l -> StronglySorted R l -> StronglySorted R l'.
Proof.
  induction 1 as [|x l1 l2 Hs IH|x l1 l2 Hs IH]; intros H; [done| |].
  - apply StronglySorted_inv in H as [H Hx]. constructor; [by apply IH|].
    by eapply Forall_sublist.
  - apply StronglySorted_inv in H as [H _]. by apply IH.
Qed.

Lemma StronglySorted_snoc {A} (R : A -> A -> Prop) l x :
  StronglySorted R l -> Forall (fun y => R y x) l -> StronglySorted R (l ++ [x]).
Proof.
  induction 1 as [|y l _ IH Hy]; intros Hx; cbn; [repeat constructor|].
  apply Forall_cons in Hx as [Hyx Hx]. constructor; [by apply IH|].
  apply Forall_app. split; [done|by constructor].
Qed.

(** Keeping the last [k] can be done after each element. *)
Lemma drop_last_snoc {A} (k : nat) (l : list A) x :
  (0 < k)%nat ->
  drop (length (drop (length l - k) l ++ [x]) - k) (drop (length l - k) l ++ [x])
  = drop (length (l ++ [x]) - k) (l ++ [x]).
Proof.
  intros Hk. rewrite !length_app, length_drop. cbn [length]. destruct (decide (length l < k)%nat).
  - replace (length l - k)%nat with 0%nat by lia. rewrite drop_0. f_equal. lia.
  - assert (Hl : l ++ [x] = take (length l - k) l ++ drop (length l - k) l ++ [x])
      by (by rewrite app_assoc, take_drop). rewrite Hl.
    replace (length l + 1 - k)%nat with (length (take (length l - k) l) + 1)%nat by (rewrite length_take; lia).
    rewrite drop_app_add. f_equal. lia.
Qed.

Lemma StronglySorted_after {A} (R : A -> A -> Prop) pre x post :
  StronglySorted R (pre ++ x :: post) -> Forall (R x) post.
Proof. induction pre; cbn; intros [? ?]%StronglySorted_inv; auto. Qed.

Lemma NoDup_bounded (l : list Z) a k :
  NoDup l -> Forall (fun x => a <= x < a + Z.of_nat k) l -> (length l <= k)%nat.
Proof.
  intros Hnd Hb. rewrite Forall_forall in Hb.
  rewrite <- (length_map (fun x => Z.to_nat (x - a)) l), <- (length_seq k 0).
  apply submseteq_length, NoDup_submseteq.
  - apply NoDup_fmap_2_strong; [|done]. intros x y Hx Hy. pose proof (Hb x Hx). pose proof (Hb y Hy). lia.
  - intros i. rewrite list_elem_of_fmap, elem_of_seq. intros (x & -> & Hx). specialize (Hb x Hx). lia.
Qed.

Lemma snoc_split {A} (h h1 h2 : list A) ev x :
  h ++ [ev] = h1 ++ x :: h2 -> (h2 = [] /\ h1 = h /\ x = ev) \/ exists h2', h = h1 ++ x :: h2'.
Proof.
  destruct h2 as [|y h2 _] using rev_ind; intros H.
  - apply app_inj_tail in H as [-> ->]. by left.
  - rewrite app_comm_cons, app_assoc in H. apply app_inj_tail in H as [-> _]. right. by eexists.
Qed.

(** *** The least element of an iterator

    [iter.min_by_key(key)]: the first of the elements with the least key. *)

Definition min_step {A} (key : A -> Z) (best : option A) (x : A) : option A :=
  match best with
  | None => Some x
  | Some b => if key x <? key b then Some x else Some b
  end.

Definition min_by_key {A} (key : A -> Z) (l : list A) : option A := foldl (min_step key) None l.

Lemma foldl_min_step {A} (key : A -> Z) l best :
  match foldl (min_step key) best l with
  | Some b =>
    (Some b = best \/ b ∈ l)
    /\ (forall x, x ∈ l -> key b <= key x)
    /\ (forall b0, best = Some b0 -> key b <= key b0)
  | None => best = None /\ l = []
  end.
Proof.
  revert best. induction l as [|x l IH]; intros best; cbn [foldl].
  { destruct best as [b|]; [|done]. split; [by left|]. split; [by intros ? ?%elem_of_nil|].
    by intros ? [= ->]. }
  specialize (IH (min_step key best x)). destruct (foldl _ _ l) as [b|].
  - destruct IH as (Hin & Hl & Hb). unfold min_step in Hin, Hb.
    split; [|split].
    + destruct Hin as [Hin|Hin]; [|by right; apply elem_of_cons; right].
      destruct best as [b0|]; [case_match|]; simplify_eq;
        first [by left | right; apply elem_of_cons; by left].
    + intros y [->|Hy]%elem_of_cons; [|by apply Hl].
      destruct best as [b0|]; [case_match|]; zbool; pose proof (Hb _ eq_refl); lia.
    + intros b0 ->. case_match; zbool; pose proof (Hb _ eq_refl); lia.
  - destruct IH as [IH _]. unfold min_step in IH. destruct best; [by case_match|done].
Qed.

Lemma min_by_key_spec {A} (key : A -> Z) l :
  match min_by_key key l with
  | Some b => b ∈ l /\ forall x, x ∈ l -> key b <= key x
  | None => l = []
  end.
Proof.
  unfold min_by_key. pose proof (foldl_min_step key l None) as H.
  destruct (foldl _ _ _) as [b|]; [|tauto]. destruct H as ([|Hin] & Hmin & _); done.
Qed.

Lemma sum_list_with_insert {A} (f : A -> nat) l i x y :
  l !! i = Some x -> (sum_list_with f (<[i := y]> l) + f x = sum_list_with f l + f y)%nat.
Proof.
  revert i. induction l as [|z l IH]; intros i Hi; [done|].
  destruct i as [|i]; cbn in Hi; [simplify_eq; csimpl; lia|].
  specialize (IH _ Hi). csimpl. lia.
Qed.

(** *** Iterating over a hash map

    The order in which a [HashMap] is traversed is unspecified: operations whose
    outcome may depend on it take it as an argument, any function that lists the
    entries of the map. *)

Class MapOrder (K A : Type) `{Countable K} := {
  in_order : gmap K A -> list (K * A);
  in_order_perm : forall m, in_order m ≡ₚ map_to_list m;
}.

(** One such order. *)
Definition canonical_order {K A} `{Countable K} : MapOrder K A :=
  {| in_order := map_to_list; in_order_perm := fun m => reflexivity (map_to_list m) |}.

Lemma elem_of_in_order {K A} `{MapOrder K A} (m : gmap K A) k x :
  (k, x) ∈ in_order m <-> m !! k = Some x.
Proof. rewrite in_order_perm. apply elem_of_map_to_list. Qed.

Lemma in_order_nil {K A} `{MapOrder K A} (m : gmap K A) : in_order m = [] -> m = ∅.
Proof. intros H1. apply map_to_list_empty_iff, Permutation_nil. rewrite <- H1. apply in_order_perm. Qed.

#[export] Hint Resolve wrap_fits ok_or_no_panic : ub.
#[export] Hint Rewrite @rbind_Ok : ub.
