(* ===== verification/Bytes.v ===== *)
(** * Bytes: big-endian integers, cursors and UTF-8

    What the wire formats use of the standard library and of the [bytes] and
    [byteorder] crates: [put_u8] .. [put_u128] append an integer in big-endian
    order, [Cursor::read_uN::<BigEndian>] and [read_exact] consume one or fail
    with "failed to fill whole buffer", [String::from_utf8] accepts exactly the
    well-formed UTF-8 sequences. A byte string is a list of [Z]. *)

From S2P Require Import Prelude.

Abbreviation bytes := (list Z).

(** ** Big-endian integers *)

(** The [n] low bytes of [z], most significant first. *)
Fixpoint be_bytes (n : nat) (z : Z) : bytes :=
  match n with
  | O => []
  | S n' => (z / 2 ^ (8 * Z.of_nat n')) mod 256 :: be_bytes n' z
  end.

Definition be_value (l : bytes) : Z := fold_left (fun acc b => acc * 256 + b) l 0.

Lemma length_be_bytes n z : length (be_bytes n z) = n.
Proof. induction n; simpl; congruence. Qed.

Lemma be_bytes_u8 n z : Forall u8 (be_bytes n z).
Proof.
  induction n; simpl; constructor; [|done].
  apply (Z.mod_pos_bound _ 256). lia.
Qed.

Lemma be_fold_acc l acc :
  fold_left (fun acc b => acc * 256 + b) l acc
  = acc * 2 ^ (8 * Z.of_nat (length l)) + be_value l.
Proof.
  unfold be_value. revert acc.
  induction l as [|b l IH]; intros acc.
  - simpl. lia.
  - change (fold_left ?f (b :: l) ?a) with (fold_left f l (f a b)) at 1 2.
    cbv beta. rewrite IH, (IH (0 * 256 + b)). cbn [length].
    replace (8 * Z.of_nat (S (length l))) with (8 + 8 * Z.of_nat (length l)) by lia.
    rewrite Z.pow_add_r by lia. change (2 ^ 8) with 256. ring.
Qed.

Lemma be_value_cons b l : be_value (b :: l) = b * 2 ^ (8 * Z.of_nat (length l)) + be_value l.
Proof. unfold be_value at 1. cbn [fold_left]. rewrite be_fold_acc. f_equal. Qed.

Lemma be_value_bound l : Forall u8 l -> 0 <= be_value l < 2 ^ (8 * Z.of_nat (length l)).
Proof.
  induction 1 as [|b l Hb _ IH]; [done|].
  rewrite be_value_cons. cbn [length].
  replace (8 * Z.of_nat (S (length l))) with (8 + 8 * Z.of_nat (length l)) by lia.
  rewrite Z.pow_add_r by lia. unfold fits in Hb. change (2 ^ 8) with 256 in *. nia.
Qed.

Lemma be_value_be_bytes_mod n z :
  be_value (be_bytes n z) = z mod 2 ^ (8 * Z.of_nat n).
Proof.
  induction n as [|n IH]; [by rewrite Z.mod_1_r|].
  cbn [be_bytes]. rewrite be_value_cons, length_be_bytes, IH.
  replace (8 * Z.of_nat (S n)) with (8 * Z.of_nat n + 8) by lia.
  rewrite Z.pow_add_r by lia. change (2 ^ 8) with 256.
  pose proof (pow2_pos (8 * Z.of_nat n) ltac:(lia)).
  rewrite Z.rem_mul_r by lia. lia.
Qed.

Lemma be_value_be_bytes n z :
  fits (8 * Z.of_nat n) z -> be_value (be_bytes n z) = z.
Proof. intros. rewrite be_value_be_bytes_mod. by apply Z.mod_small. Qed.

Lemma be_bytes_add n z k :
  be_bytes n (z + k * 2 ^ (8 * Z.of_nat n)) = be_bytes n z.
Proof.
  revert k. induction n as [|n IH]; intros k; [done|].
  cbn [be_bytes].
  replace (8 * Z.of_nat (S n)) with (8 + 8 * Z.of_nat n) by lia.
  rewrite Z.pow_add_r by lia. change (2 ^ 8) with 256.
  pose proof (pow2_pos (8 * Z.of_nat n) ltac:(lia)).
  rewrite Z.mul_assoc, IH. f_equal.
  rewrite Z.div_add by lia. by rewrite Z.mod_add by lia.
Qed.

Lemma be_bytes_be_value l : Forall u8 l -> be_bytes (length l) (be_value l) = l.
Proof.
  induction 1 as [|b l Hb Hl IH]; [done|].
  cbn [length be_bytes]. rewrite be_value_cons.
  pose proof (be_value_bound l Hl). f_equal.
  - rewrite Z.div_add_l by lia. rewrite Z.div_small by lia.
    rewrite Z.add_0_r. apply Z.mod_small. exact Hb.
  - rewrite Z.add_comm, be_bytes_add. done.
Qed.

(** ** Cursors

    A cursor is the list of the bytes not read yet. *)

Definition Parser (A : Type) : Type := bytes -> Result (A * bytes).

Definition pret {A} (a : A) : Parser A := fun cur => Ok (a, cur).

Definition pbind {A B} (p : Parser A) (k : A -> Parser B) : Parser B :=
  fun cur =>
    match p cur with
    | Ok (a, cur') => k a cur'
    | Err e => Err e
    | Panic => Panic
    end.

Notation "x <- p ;; k" := (pbind p (fun x => k))
  (at level 100, p at next level, right associativity) : ub_scope.

Definition perr {A} (e : UbError) : Parser A := fun _ => Err e.

(** [o.ok_or_else(|| e)?] inside a parser. *)
Definition plift {A} (o : option A) (e : UbError) : Parser A :=
  match o with
  | Some a => pret a
  | None => perr e
  end.

Definition eof : UbError := Internal "failed to fill whole buffer".

(** [cur.read_exact(&mut buf)] with [buf.len() = n]. *)
Definition read_exact (n : nat) : Parser bytes :=
  fun cur => if (n <=? length cur)%nat then Ok (take n cur, drop n cur) else Err eof.

(** [cur.read_uN::<BigEndian>()] for an integer of [n] bytes. *)
Definition read_be (n : nat) : Parser Z :=
  buf <- read_exact n ;; pret (be_value buf).

Abbreviation read_u8 := (read_be 1).
Abbreviation read_u16 := (read_be 2).
Abbreviation read_u32 := (read_be 4).
Abbreviation read_u64 := (read_be 8).
Abbreviation read_u128 := (read_be 16).

Abbreviation put_u8 := (be_bytes 1).
Abbreviation put_u16 := (be_bytes 2).
Abbreviation put_u32 := (be_bytes 4).
Abbreviation put_u64 := (be_bytes 8).
Abbreviation put_u128 := (be_bytes 16).

(** [for _ in 0..count { .. push(p) }] *)
Fixpoint pmany {A} (count : nat) (p : Parser A) : Parser (list A) :=
  match count with
  | O => pret []
  | S c => x <- p ;; xs <- pmany c p ;; pret (x :: xs)
  end.

(** Decoding a whole buffer ignores what is left in the cursor. *)
Definition run {A} (p : Parser A) (data : bytes) : Result A :=
  match p data with
  | Ok (a, _) => Ok a
  | Err e => Err e
  | Panic => Panic
  end.

Lemma read_exact_app l rest :
  read_exact (length l) (l ++ rest) = Ok (l, rest).
Proof.
  unfold read_exact. rewrite length_app.
  replace (_ <=? _)%nat with true by (symmetry; apply Nat.leb_le; lia).
  by rewrite take_app_length, drop_app_length.
Qed.

Lemma pbind_ret {A B} (a : A) (k : A -> Parser B) cur : pbind (pret a) k cur = k a cur.
Proof. reflexivity. Qed.

Lemma pbind_assoc {A B C} (p : Parser A) (f : A -> Parser B) (g : B -> Parser C) cur :
  pbind (pbind p f) g cur = pbind p (fun a => pbind (f a) g) cur.
Proof. unfold pbind. by destruct (p cur) as [[]| |]. Qed.

Lemma pbind_read_exact {B} n l rest (k : bytes -> Parser B) :
  n = length l -> pbind (read_exact n) k (l ++ rest) = k l rest.
Proof. intros ->. unfold pbind. by rewrite read_exact_app. Qed.

Lemma pbind_read_be {B} n z rest (k : Z -> Parser B) :
  fits (8 * Z.of_nat n) z ->
  pbind (read_be n) k (be_bytes n z ++ rest) = k z rest.
Proof.
  intros Hz. unfold read_be. rewrite pbind_assoc.
  rewrite pbind_read_exact by (by rewrite length_be_bytes).
  rewrite pbind_ret, be_value_be_bytes; done.
Qed.

(** A parser [p] inverts an encoding [enc] of [x] when it consumes exactly
    the encoding, whatever follows it. *)
Definition inverts {A} (p : Parser A) (enc : bytes) (x : A) : Prop :=
  forall rest, p (enc ++ rest) = Ok (x, rest).

Lemma inverts_run {A} (p : Parser A) enc x : inverts p enc x -> run p enc = Ok x.
Proof. intros H. unfold run. rewrite <- (app_nil_r enc). by rewrite H. Qed.

Lemma pbind_inverts {A B} (p : Parser A) enc x rest (k : A -> Parser B) :
  inverts p enc x -> pbind p k (enc ++ rest) = k x rest.
Proof. intros H. unfold pbind. by rewrite H. Qed.

Lemma pmany_inverts {A} (p : Parser A) (enc : A -> bytes) (xs : list A) :
  Forall (fun x => inverts p (enc x) x) xs ->
  inverts (pmany (length xs) p) (concat (map enc xs)) xs.
Proof.
  induction 1 as [|x xs Hx _ IH]; intros rest; [done|].
  cbn [length pmany map concat]. rewrite <- app_assoc.
  rewrite (pbind_inverts _ _ _ _ _ Hx). by rewrite (pbind_inverts _ _ _ _ _ IH).
Qed.

(** *** Parsers never panic *)

Definition total {A} (p : Parser A) : Prop := forall cur, p cur <> Panic.

Lemma total_pret {A} (a : A) : total (pret a).
Proof. by intros cur. Qed.
Lemma total_perr {A} e : total (@perr A e).
Proof. by intros cur. Qed.
Lemma total_pbind {A B} (p : Parser A) (k : A -> Parser B) :
  total p -> (forall a, total (k a)) -> total (pbind p k).
Proof.
  intros Hp Hk cur. unfold pbind. specialize (Hp cur).
  destruct (p cur) as [[a cur']| |]; [apply Hk|done|done].
Qed.
Lemma total_plift {A} (o : option A) e : total (plift o e).
Proof. destruct o; [apply total_pret|apply total_perr]. Qed.
Lemma total_read_exact n : total (read_exact n).
Proof. intros cur. unfold read_exact. by destruct (_ <=? _)%nat. Qed.
Lemma total_read_be n : total (read_be n).
Proof. apply total_pbind; [apply total_read_exact|intros; apply total_pret]. Qed.
Lemma total_pmany {A} c (p : Parser A) : total p -> total (pmany c p).
Proof.
  intros Hp. induction c; simpl; [apply total_pret|].
  repeat (apply total_pbind; [done|intros]). apply total_pret.
Qed.
Lemma total_run {A} (p : Parser A) data : total p -> run p data <> Panic.
Proof. intros H. unfold run. specialize (H data). by destruct (p data) as [[]| |]. Qed.

#[export] Hint Resolve total_pret total_perr total_pbind total_plift total_read_exact
  total_read_be total_pmany : codec.

(** *** What an accepted buffer looks like *)

Lemma pbind_Ok_inv {A B} (p : Parser A) (k : A -> Parser B) cur b rest :
  pbind p k cur = Ok (b, rest) ->
  exists a cur', p cur = Ok (a, cur') /\ k a cur' = Ok (b, rest).
Proof. unfold pbind. destruct (p cur) as [[a cur']| |]; naive_solver. Qed.

Lemma read_exact_Ok_inv n cur buf rest :
  read_exact n cur = Ok (buf, rest) -> cur = buf ++ rest /\ length buf = n.
Proof.
  unfold read_exact. destruct (n <=? length cur)%nat eqn:E; intros H; simplify_eq.
  apply Nat.leb_le in E. split; [by rewrite take_drop|]. rewrite length_take. lia.
Qed.

Lemma read_be_Ok_inv n cur z rest :
  Forall u8 cur -> read_be n cur = Ok (z, rest) ->
  cur = be_bytes n z ++ rest /\ fits (8 * Z.of_nat n) z /\ Forall u8 rest.
Proof.
  intros Hu H. apply pbind_Ok_inv in H as (buf & cur' & H & Hr).
  apply read_exact_Ok_inv in H as [-> Hn]. unfold pret in Hr. simplify_eq.
  apply Forall_app in Hu as [Hb ?]. pose proof (be_value_bound buf Hb).
  by rewrite be_bytes_be_value.
Qed.

Lemma plift_Ok_inv {A} (o : option A) e cur a rest :
  plift o e cur = Ok (a, rest) -> o = Some a /\ cur = rest.
Proof. destruct o; unfold plift, pret, perr; naive_solver. Qed.

(** Runs an accepted decoder backwards, one read at a time. *)
Ltac unparse_step H :=
  let a := fresh "v" in let cur := fresh "cur" in let H1 := fresh "Hread" in
  apply pbind_Ok_inv in H as (a & cur & H1 & H);
  first
  [ apply read_be_Ok_inv in H1 as (-> & ? & ?); [|assumption]
  | apply read_exact_Ok_inv in H1 as [-> ?]
  | apply plift_Ok_inv in H1 as [? ->] ].

(** Runs a decoder over the concatenation it is meant to invert. *)
Ltac parse_step :=
  first
  [ rewrite pbind_read_be by ulia
  | rewrite pbind_read_exact by (rewrite ?length_be_bytes; first [reflexivity | lia])
  | rewrite pbind_ret ].
Ltac parse := rewrite <- ?app_assoc; repeat parse_step.

(** ** UTF-8 *)

Definition in_range (lo hi b : Z) : bool := (lo <=? b) && (b <=? hi).
Definition utf8_cont := in_range 128 191.

(** [std::str::from_utf8]: the well-formed sequences of the Unicode standard
    (no overlong forms, no surrogates, nothing above U+10FFFF). *)
Fixpoint utf8_valid (l : bytes) : bool :=
  match l with
  | [] => true
  | b0 :: r0 =>
    if b0 <? 128 then utf8_valid r0
    else
      match r0 with
      | [] => false
      | b1 :: r1 =>
        if in_range 194 223 b0 then utf8_cont b1 && utf8_valid r1
        else
          match r1 with
          | [] => false
          | b2 :: r2 =>
            if (b0 =? 224) && in_range 160 191 b1
               || in_range 225 236 b0 && utf8_cont b1
               || (b0 =? 237) && in_range 128 159 b1
               || in_range 238 239 b0 && utf8_cont b1
            then utf8_cont b2 && utf8_valid r2
            else
              match r2 with
              | [] => false
              | b3 :: r3 =>
                ((b0 =? 240) && in_range 144 191 b1
                 || in_range 241 243 b0 && utf8_cont b1
                 || (b0 =? 244) && in_range 128 143 b1)
                && utf8_cont b2 && utf8_cont b3 && utf8_valid r3
              end
          end
      end
  end.

(** A Rust [String] is its bytes; [from_utf8] checks them. *)
Definition from_utf8 (buf : bytes) (e : UbError) : Parser bytes :=
  plift (if utf8_valid buf then Some buf else None) e.

(** A [String] value: bytes, well formed, of a length a [u32] can hold. *)
Definition is_string (s : bytes) : Prop :=
  Forall u8 s /\ utf8_valid s = true /\ u32 (Z.of_nat (length s)).

Lemma from_utf8_string s e cur : is_string s -> from_utf8 s e cur = Ok (s, cur).
Proof. intros (_ & H & _). unfold from_utf8. by rewrite H. Qed.

Lemma total_from_utf8 buf e : total (from_utf8 buf e).
Proof. apply total_plift. Qed.
#[export] Hint Resolve total_from_utf8 : codec.

(** ** ASCII text *)

Definition str (s : String.string) : bytes :=
  map (fun a => Z.of_N (Ascii.N_of_ascii a)) (String.list_ascii_of_string s).

(** [s.strip_prefix(p)] *)
Fixpoint strip_prefix (p s : bytes) : option bytes :=
  match p, s with
  | [], _ => Some s
  | x :: p', y :: s' => if x =? y then strip_prefix p' s' else None
  | _ :: _, [] => None
  end.

(** [s.split(c).collect()]: always at least one segment. *)
Fixpoint split_on (c : Z) (s : bytes) : list bytes :=
  match s with
  | [] => [[]]
  | x :: s' =>
    if x =? c then [] :: split_on c s'
    else
      match split_on c s' with
      | seg :: segs => (x :: seg) :: segs
      | [] => [[x]]
      end
  end.

Lemma strip_prefix_app p s : strip_prefix p (p ++ s) = Some s.
Proof. induction p as [|x p IH]; [by destruct s|]. simpl. by rewrite Z.eqb_refl. Qed.

Lemma split_on_nil_inv c s : split_on c s <> [].
Proof. destruct s; simpl; [done|]. case_match; [done|]. by destruct (split_on c s). Qed.

Lemma split_on_last c seg : Forall (fun x => x <> c) seg -> split_on c seg = [seg].
Proof.
  induction 1 as [|x seg Hx _ IH]; [done|]. simpl.
  rewrite IH. by rewrite (proj2 (Z.eqb_neq x c)).
Qed.

Lemma split_on_cons c seg s :
  Forall (fun x => x <> c) seg -> split_on c (seg ++ c :: s) = seg :: split_on c s.
Proof.
  induction 1 as [|x seg Hx _ IH]; simpl.
  - by rewrite Z.eqb_refl.
  - rewrite IH. by rewrite (proj2 (Z.eqb_neq x c)).
Qed.
