(* ===== verification/Types.v ===== *)
(** * Types: the shared data types of ub-core

    crates/ub-core/src/types.rs and the status codes of error.rs. A Rust
    variant [E::V] is the constructor [E_V], a method [T::m] the definition
    [T_m]. Every [#[repr(u8)]] enum with a [from_u8] is an instance of
    [WireEnum], the interface the codecs are proved against. *)

From S2P Require Import Prelude Bytes.

(** ** Byte-sized enums *)

Class WireEnum (E : Type) := {
  as_u8 : E -> Z;
  from_u8 : Z -> option E;
  from_as_u8 : forall e, from_u8 (as_u8 e) = Some e;
  as_from_u8 : forall v e, from_u8 v = Some e -> as_u8 e = v;
  as_u8_fits : forall e, u8 (as_u8 e);
}.

(** Reading back an enum byte, as every decoder of the workspace does. *)
Lemma pbind_read_enum {E B} `{WireEnum E} (e : E) err (k : E -> Parser B) rest :
  pbind read_u8 (fun v => pbind (plift (from_u8 v) err) k) (be_bytes 1 (as_u8 e) ++ rest)
  = k e rest.
Proof. rewrite pbind_read_be by apply as_u8_fits. by rewrite from_as_u8. Qed.

(** Decoders written with the class run over an enum byte as well. *)
Ltac parse_step ::=
  first
  [ rewrite pbind_read_enum
  | rewrite pbind_read_be by ulia
  | rewrite pbind_read_exact by (rewrite ?length_be_bytes; first [reflexivity | lia])
  | rewrite pbind_ret ].

(** Solves the three laws of a [WireEnum] by cases. *)
Ltac wire_enum :=
  first
  [ solve [intros []; reflexivity]
  | solve [intros []; unfold fits; simpl; lia]
  | let H := fresh "H" in
    intros ? ? H;
    match type of H with ?f _ = _ => unfold f in H end;
    repeat match type of H with
    | (if ?b then _ else _) = _ =>
      let E := fresh "E" in destruct b eqn:E; [apply Z.eqb_eq in E; by simplify_eq|]
    end; done ].

(** Source: crates/ub-core/src/types.rs:35-45, [Verb]. *)
Inductive Verb : Type :=
| Verb_ReadReq
| Verb_ReadResp
| Verb_Write
| Verb_AtomicCas
| Verb_AtomicFaa
| Verb_Send
| Verb_WriteImm
| Verb_AtomicCasResp
| Verb_AtomicFaaResp.

#[global] Instance Verb_eq_dec : EqDecision Verb.
Proof. solve_decision. Defined.

(** Source: crates/ub-core/src/types.rs:35-45, [Verb as u8]. *)
Definition Verb_as_u8 (v : Verb) : Z :=
  match v with
  | Verb_ReadReq => 1
  | Verb_ReadResp => 2
  | Verb_Write => 3
  | Verb_AtomicCas => 4
  | Verb_AtomicFaa => 5
  | Verb_Send => 6
  | Verb_WriteImm => 7
  | Verb_AtomicCasResp => 8
  | Verb_AtomicFaaResp => 9
  end.

(** Source: crates/ub-core/src/types.rs:48-61, [Verb::from_u8]. *)
Definition Verb_from_u8 (v : Z) : option Verb :=
  if v =? 1 then Some Verb_ReadReq
  else if v =? 2 then Some Verb_ReadResp
  else if v =? 3 then Some Verb_Write
  else if v =? 4 then Some Verb_AtomicCas
  else if v =? 5 then Some Verb_AtomicFaa
  else if v =? 6 then Some Verb_Send
  else if v =? 7 then Some Verb_WriteImm
  else if v =? 8 then Some Verb_AtomicCasResp
  else if v =? 9 then Some Verb_AtomicFaaResp
  else None.

#[global, refine] Instance Verb_wire : WireEnum Verb :=
  {| as_u8 := Verb_as_u8; from_u8 := Verb_from_u8 |}.
Proof. all: wire_enum. Defined.

(** Source: crates/ub-core/src/types.rs:78-81, [DeviceKind]. *)
Inductive DeviceKind : Type :=
| DeviceKind_Memory
| DeviceKind_Npu.

#[global] Instance DeviceKind_eq_dec : EqDecision DeviceKind.
Proof. solve_decision. Defined.

Definition DeviceKind_as_u8 (k : DeviceKind) : Z :=
  match k with
  | DeviceKind_Memory => 0
  | DeviceKind_Npu => 1
  end.

(** Source: crates/ub-core/src/types.rs:84-90, [DeviceKind::from_u8]. *)
Definition DeviceKind_from_u8 (v : Z) : option DeviceKind :=
  if v =? 0 then Some DeviceKind_Memory
  else if v =? 1 then Some DeviceKind_Npu
  else None.

#[global, refine] Instance DeviceKind_wire : WireEnum DeviceKind :=
  {| as_u8 := DeviceKind_as_u8; from_u8 := DeviceKind_from_u8 |}.
Proof. all: wire_enum. Defined.

(** Source: crates/ub-core/src/types.rs:113-117, [StorageTier]. *)
Inductive StorageTier : Type :=
| StorageTier_Hot
| StorageTier_Warm
| StorageTier_Cold.

#[global] Instance StorageTier_eq_dec : EqDecision StorageTier.
Proof. solve_decision. Defined.

Definition StorageTier_as_u8 (t : StorageTier) : Z :=
  match t with
  | StorageTier_Hot => 0
  | StorageTier_Warm => 1
  | StorageTier_Cold => 2
  end.

(** Source: crates/ub-core/src/types.rs:120-127, [StorageTier::from_u8]. *)
Definition StorageTier_from_u8 (v : Z) : option StorageTier :=
  if v =? 0 then Some StorageTier_Hot
  else if v =? 1 then Some StorageTier_Warm
  else if v =? 2 then Some StorageTier_Cold
  else None.

#[global, refine] Instance StorageTier_wire : WireEnum StorageTier :=
  {| as_u8 := StorageTier_as_u8; from_u8 := StorageTier_from_u8 |}.
Proof. all: wire_enum. Defined.

(** Source: crates/ub-core/src/types.rs:196-200, [LatencyClass]. *)
Inductive LatencyClass : Type :=
| LatencyClass_Critical
| LatencyClass_Normal
| LatencyClass_Bulk.

Definition LatencyClass_as_u8 (c : LatencyClass) : Z :=
  match c with
  | LatencyClass_Critical => 0
  | LatencyClass_Normal => 1
  | LatencyClass_Bulk => 2
  end.

(** Source: crates/ub-core/src/types.rs:203-210, [LatencyClass::from_u8]. *)
Definition LatencyClass_from_u8 (v : Z) : option LatencyClass :=
  if v =? 0 then Some LatencyClass_Critical
  else if v =? 1 then Some LatencyClass_Normal
  else if v =? 2 then Some LatencyClass_Bulk
  else None.

#[global, refine] Instance LatencyClass_wire : WireEnum LatencyClass :=
  {| as_u8 := LatencyClass_as_u8; from_u8 := LatencyClass_from_u8 |}.
Proof. all: wire_enum. Defined.

(** Source: crates/ub-core/src/types.rs:216-220, [CapacityClass]. *)
Inductive CapacityClass : Type :=
| CapacityClass_Small
| CapacityClass_Large
| CapacityClass_Huge.

Definition CapacityClass_as_u8 (c : CapacityClass) : Z :=
  match c with
  | CapacityClass_Small => 0
  | CapacityClass_Large => 1
  | CapacityClass_Huge => 2
  end.

(** Source: crates/ub-core/src/types.rs:223-230, [CapacityClass::from_u8]. *)
Definition CapacityClass_from_u8 (v : Z) : option CapacityClass :=
  if v =? 0 then Some CapacityClass_Small
  else if v =? 1 then Some CapacityClass_Large
  else if v =? 2 then Some CapacityClass_Huge
  else None.

#[global, refine] Instance CapacityClass_wire : WireEnum CapacityClass :=
  {| as_u8 := CapacityClass_as_u8; from_u8 := CapacityClass_from_u8 |}.
Proof. all: wire_enum. Defined.

(** Source: crates/ub-core/src/types.rs:262-266, [AccessPattern]. *)
Inductive AccessPattern : Type :=
| AccessPattern_ReadHeavy
| AccessPattern_WriteHeavy
| AccessPattern_Mixed.

Definition AccessPattern_as_u8 (a : AccessPattern) : Z :=
  match a with
  | AccessPattern_ReadHeavy => 0
  | AccessPattern_WriteHeavy => 1
  | AccessPattern_Mixed => 2
  end.

(** Source: crates/ub-core/src/types.rs:269-276, [AccessPattern::from_u8]. *)
Definition AccessPattern_from_u8 (v : Z) : option AccessPattern :=
  if v =? 0 then Some AccessPattern_ReadHeavy
  else if v =? 1 then Some AccessPattern_WriteHeavy
  else if v =? 2 then Some AccessPattern_Mixed
  else None.

#[global, refine] Instance AccessPattern_wire : WireEnum AccessPattern :=
  {| as_u8 := AccessPattern_as_u8; from_u8 := AccessPattern_from_u8 |}.
Proof. all: wire_enum. Defined.

(** ** Status codes *)

(** Source: crates/ub-core/src/error.rs:6-15, [UB_OK .. UB_ERR_INTERNAL]. *)
Definition UB_OK : Z := 0.
Definition UB_ERR_ADDR_INVALID : Z := 1.
Definition UB_ERR_PERM_DENIED : Z := 2.
Definition UB_ERR_ALIGNMENT : Z := 3.
Definition UB_ERR_LINK_DOWN : Z := 4.
Definition UB_ERR_NO_RESOURCES : Z := 5.
Definition UB_ERR_TIMEOUT : Z := 6.
Definition UB_ERR_PAYLOAD_TOO_LARGE : Z := 7.
Definition UB_ERR_FLUSHED : Z := 8.
Definition UB_ERR_INTERNAL : Z := 9.

(** Source: crates/ub-core/src/error.rs:70-86, [UbError::status_code]. *)
Definition UbError_status_code (e : UbError) : Z :=
  match e with
  | AddrInvalid => UB_ERR_ADDR_INVALID
  | PermDenied => UB_ERR_PERM_DENIED
  | Alignment => UB_ERR_ALIGNMENT
  | LinkDown => UB_ERR_LINK_DOWN
  | NoResources => UB_ERR_NO_RESOURCES
  | Timeout => UB_ERR_TIMEOUT
  | PayloadTooLarge => UB_ERR_PAYLOAD_TOO_LARGE
  | Flushed => UB_ERR_FLUSHED
  | Internal _ => UB_ERR_INTERNAL
  | Io _ => UB_ERR_INTERNAL
  | Config _ => UB_ERR_INTERNAL
  end.

(** ** Permission bits

    A [bitflags] set over [u8] is its bits; [contains] tests inclusion and
    [from_bits_truncate] drops the unknown bits. *)

Definition flags_contains (bits other : Z) : bool := Z.land bits other =? other.
Definition from_bits_truncate (all bits : Z) : Z := Z.land bits all.

(** Source: crates/ub-core/src/types.rs:4-12, [MrPerms]. *)
Definition MrPerms_READ : Z := 1.
Definition MrPerms_WRITE : Z := 2.
Definition MrPerms_ATOMIC : Z := 4.
Definition MrPerms_all : Z := 7.

(** ** Jetty data *)

(** Source: crates/ub-core/src/types.rs:22-27, [JettyAddr]. *)
Record JettyAddr : Type := mkJettyAddr {
  ja_node_id : Z;
  ja_jetty_id : Z;
}.

(** Source: crates/ub-core/src/types.rs:64-73, [Cqe]. *)
Record Cqe : Type := mkCqe {
  cqe_wr_id : Z;
  cqe_status : Z;
  cqe_imm : option Z;
  cqe_byte_len : Z;
  cqe_jetty_id : Z;
  cqe_verb : Verb;
}.

(** ** Membership events *)

(** Source: crates/ub-core/src/types.rs:96-108, [PeerChangeEvent]. *)
Inductive PeerChangeEvent : Type :=
| PeerChangeEvent_Joined (node_id epoch : Z)
| PeerChangeEvent_Recovered (node_id : Z)
| PeerChangeEvent_Suspect (node_id : Z)
| PeerChangeEvent_Down (node_id epoch : Z).

(** Source: crates/ub-core/src/types.rs:338-346, [NodeState]. *)
Inductive NodeState : Type :=
| NodeState_Joining
| NodeState_Active
| NodeState_Suspect
| NodeState_Leaving
| NodeState_Down.

#[global] Instance NodeState_eq_dec : EqDecision NodeState.
Proof. solve_decision. Defined.

(** ** Regions *)

(** Source: crates/ub-core/src/types.rs:303-312, [RegionState]. *)
Inductive RegionState : Type :=
| RegionState_Invalid
| RegionState_Shared (epoch : Z)
| RegionState_Home.

#[global] Instance RegionState_eq_dec : EqDecision RegionState.
Proof. solve_decision. Defined.

(** Source: crates/ub-core/src/types.rs:314-327, [RegionInfo]. *)
Record RegionInfo : Type := mkRegionInfo {
  ri_region_id : Z;
  ri_home_node_id : Z;
  ri_device_id : Z;
  ri_mr_handle : Z;
  ri_base_offset : Z;
  ri_len : Z;
  ri_epoch : Z;
  ri_state : RegionState;
  ri_local_mr_handle : option Z;
}.

#[global] Instance RegionInfo_settable : Settable RegionInfo := fun r =>
  mkRegionInfo (ri_region_id r) (ri_home_node_id r) (ri_device_id r) (ri_mr_handle r)
    (ri_base_offset r) (ri_len r) (ri_epoch r) (ri_state r) (ri_local_mr_handle r).

(** Source: crates/ub-core/src/types.rs:279-288, [AllocHints]. *)
Record AllocHints : Type := mkAllocHints {
  ah_size : Z;
  ah_access : AccessPattern;
  ah_latency_class : LatencyClass;
  ah_capacity_class : CapacityClass;
  ah_pin : option DeviceKind;
  ah_expected_readers : Z;
}.

(** Source: crates/ub-core/src/types.rs:290-301, [AllocHints::default]. *)
Definition AllocHints_default : AllocHints :=
  mkAllocHints 4096 AccessPattern_Mixed LatencyClass_Normal CapacityClass_Small None 0.

(** ** Memory-region life cycle *)

(** Source: crates/ub-core/src/types.rs:329-336, [MrState]. *)
Inductive MrState : Type :=
| MrState_Active
| MrState_Revoking
| MrState_Released.

#[global] Instance MrState_eq_dec : EqDecision MrState.
Proof. solve_decision. Defined.

(** ** Device profiles *)

(** Source: crates/ub-core/src/types.rs:130-143, [DeviceProfile]. *)
Record DeviceProfile : Type := mkDeviceProfile {
  dp_device_key : Z * Z;
  dp_kind : DeviceKind;
  dp_tier : StorageTier;
  dp_capacity_bytes : Z;
  dp_peak_read_bw_mbps : Z;
  dp_peak_write_bw_mbps : Z;
  dp_read_latency_ns_p50 : Z;
  dp_write_latency_ns_p50 : Z;
  dp_used_bytes : Z;
  dp_recent_rps : Z;
}.

#[global] Instance DeviceProfile_settable : Settable DeviceProfile := fun p =>
  mkDeviceProfile (dp_device_key p) (dp_kind p) (dp_tier p) (dp_capacity_bytes p)
    (dp_peak_read_bw_mbps p) (dp_peak_write_bw_mbps p) (dp_read_latency_ns_p50 p)
    (dp_write_latency_ns_p50 p) (dp_used_bytes p) (dp_recent_rps p).

(** Source: crates/ub-core/src/types.rs:147-160, [DeviceProfile::memory_default]. *)
Definition DeviceProfile_memory_default (node_id capacity_bytes : Z) : DeviceProfile :=
  mkDeviceProfile (node_id, 0) DeviceKind_Memory StorageTier_Warm capacity_bytes
    10000 10000 200 200 0 0.

(** Source: crates/ub-core/src/types.rs:163-176, [DeviceProfile::npu_default]. *)
Definition DeviceProfile_npu_default (node_id device_id capacity_bytes : Z) : DeviceProfile :=
  mkDeviceProfile (node_id, device_id) DeviceKind_Npu StorageTier_Hot capacity_bytes
    50000 50000 50 50 0 0.

(** Source: crates/ub-core/src/types.rs:178-181, [DeviceProfile::free_bytes]. *)
Definition DeviceProfile_free_bytes (p : DeviceProfile) : Z :=
  sat_sub (dp_capacity_bytes p) (dp_used_bytes p).
