(* ===== verification/Addr.v ===== *)
(** * Addr: 128-bit UB addresses and global virtual addresses

    crates/ub-core/src/addr.rs ([UbAddr]: bit packing, text and byte forms) and
    the [UbVa] of types.rs. An address is its [u128]. *)

From S2P Require Import Prelude Bytes Types.

(** ** Operations *)

(** Source: crates/ub-core/src/addr.rs:8-15, [UbAddr::new]. *)
Definition UbAddr_new (pod_id node_id device_id offset reserved : Z) : Z :=
  Z.lor (Z.lor (Z.lor (Z.lor
    (Z.shiftl pod_id 112)
    (Z.shiftl node_id 96))
    (Z.shiftl device_id 80))
    (Z.shiftl offset 16))
    reserved.

(** Source: crates/ub-core/src/addr.rs:17-19, [UbAddr::pod_id]. *)
Definition UbAddr_pod_id (a : Z) : Z := Z.land (Z.shiftr a 112) 0xFFFF.
(** Source: crates/ub-core/src/addr.rs:21-23, [UbAddr::node_id]. *)
Definition UbAddr_node_id (a : Z) : Z := Z.land (Z.shiftr a 96) 0xFFFF.
(** Source: crates/ub-core/src/addr.rs:25-27, [UbAddr::device_id]. *)
Definition UbAddr_device_id (a : Z) : Z := Z.land (Z.shiftr a 80) 0xFFFF.
(** Source: crates/ub-core/src/addr.rs:29-31, [UbAddr::offset]. *)
Definition UbAddr_offset (a : Z) : Z := Z.land (Z.shiftr a 16) 0xFFFFFFFFFFFFFFFF.
(** Source: crates/ub-core/src/addr.rs:33-35, [UbAddr::reserved]. *)
Definition UbAddr_reserved (a : Z) : Z := Z.land a 0xFFFF.

(** Source: crates/ub-core/src/addr.rs:37-40, [UbAddr::with_offset]. *)
Definition UbAddr_with_offset (a new_offset : Z) : Z :=
  let mask := bit_not 128 (Z.shiftl 0xFFFFFFFFFFFFFFFF 16) in
  Z.lor (Z.land a mask) (Z.shiftl new_offset 16).

(** One lower-case hexadecimal digit. *)
Definition hex_digit (d : Z) : Z := if d <? 10 then 48 + d else 87 + d.

(** [{:0nx}] of a value below [16 ^ n]: exactly [n] digits. *)
Fixpoint hex_fixed (n : nat) (v : Z) : bytes :=
  match n with
  | O => []
  | S n' => hex_digit ((v / 16 ^ Z.of_nat n') mod 16) :: hex_fixed n' v
  end.

Definition colon : Z := 58.

(** Source: crates/ub-core/src/addr.rs:43-52, [UbAddr::to_text]. *)
Definition UbAddr_to_text (a : Z) : bytes :=
  str "0x" ++ hex_fixed 4 (UbAddr_pod_id a)
  ++ [colon] ++ hex_fixed 4 (UbAddr_node_id a)
  ++ [colon] ++ hex_fixed 4 (UbAddr_device_id a)
  ++ [colon] ++ hex_fixed 16 (UbAddr_offset a)
  ++ [colon] ++ hex_fixed 4 (UbAddr_reserved a).

(** [char::to_digit(16)] *)
Definition hex_value (c : Z) : option Z :=
  if (48 <=? c) && (c <=? 57) then Some (c - 48)
  else if (97 <=? c) && (c <=? 102) then Some (c - 87)
  else if (65 <=? c) && (c <=? 70) then Some (c - 55)
  else None.

(** The accumulation loop of [from_str_radix]: checked at every digit. *)
Fixpoint hex_accum (w acc : Z) (s : bytes) : option Z :=
  match s with
  | [] => Some acc
  | c :: s' =>
    match hex_value c with
    | None => None
    | Some d =>
      let acc' := acc * 16 + d in
      if acc' <? 2 ^ w then hex_accum w acc' s' else None
    end
  end.

(** [uW::from_str_radix(s, 16)]: a non-empty digit string that fits, with an
    optional leading [+]; a lone sign is rejected. *)
Definition from_str_radix_16 (w : Z) (s : bytes) : option Z :=
  match s with
  | [] => None
  | [c] => if (c =? 43) || (c =? 45) then None else hex_accum w 0 s
  | c :: s' => if c =? 43 then hex_accum w 0 s' else hex_accum w 0 s
  end.

(** Source: crates/ub-core/src/addr.rs:55-84, [UbAddr::from_text]. *)
Definition UbAddr_from_text (s : bytes) : Result Z :=
  let? s := ok_or (strip_prefix (str "0x") s) (Internal "UB address must start with '0x': ") in
  match split_on colon s with
  | [p0; p1; p2; p3; p4] =>
    let? pod_id := ok_or (from_str_radix_16 16 p0) (Internal "invalid pod_id") in
    let? node_id := ok_or (from_str_radix_16 16 p1) (Internal "invalid node_id") in
    let? device_id := ok_or (from_str_radix_16 16 p2) (Internal "invalid device_id") in
    let? offset := ok_or (from_str_radix_16 64 p3) (Internal "invalid offset") in
    let? reserved := ok_or (from_str_radix_16 16 p4) (Internal "invalid reserved") in
    Ok (UbAddr_new pod_id node_id device_id offset reserved)
  | _ => Err (Internal "UB address must have 5 colon-separated segments: ")
  end.

(** Source: crates/ub-core/src/addr.rs:87-89, [UbAddr::to_bytes]. *)
Definition UbAddr_to_bytes (a : Z) : bytes := be_bytes 16 a.
(** Source: crates/ub-core/src/addr.rs:92-94, [UbAddr::from_bytes]. *)
Definition UbAddr_from_bytes (buf : bytes) : Z := be_value buf.

(** Source: crates/ub-core/src/types.rs:244-246, [UbVa::new]. *)
Definition UbVa_new (region_id offset : Z) : Z := Z.lor (Z.shiftl region_id 64) offset.
(** Source: crates/ub-core/src/types.rs:249-251, [UbVa::region_id]. *)
Definition UbVa_region_id (va : Z) : Z := wrap 64 (Z.shiftr va 64).
(** Source: crates/ub-core/src/types.rs:254-256, [UbVa::offset]. *)
Definition UbVa_offset (va : Z) : Z := wrap 64 va.

(** ** Packing as arithmetic *)

Lemma UbAddr_new_sum p n d o r :
  u16 p -> u16 n -> u16 d -> u64 o -> u16 r ->
  UbAddr_new p n d o r = p * 2 ^ 112 + n * 2 ^ 96 + d * 2 ^ 80 + o * 2 ^ 16 + r.
Proof.
  unfold fits. intros. unfold UbAddr_new. rewrite !Z.shiftl_mul_pow2 by lia.
  assert (Hdiv : forall x n k, 0 <= n -> x = k * 2 ^ n -> x mod 2 ^ n = 0)
    by (intros ? n' k ? ->; apply Z.mod_mul, Z.pow_nonzero; lia).
  rewrite (lor_disjoint_add (p * 2 ^ 112) _ 112) by (try lia; apply Hdiv with p; lia).
  rewrite (lor_disjoint_add (p * 2 ^ 112 + n * 2 ^ 96) _ 96) by (try lia; apply Hdiv with (p * 2 ^ 16 + n); lia).
  rewrite (lor_disjoint_add (p * 2 ^ 112 + n * 2 ^ 96 + d * 2 ^ 80) _ 80)
    by (try lia; apply Hdiv with (p * 2 ^ 32 + n * 2 ^ 16 + d); lia).
  rewrite (lor_disjoint_add _ _ 16)
    by (try lia; apply Hdiv with (p * 2 ^ 96 + n * 2 ^ 80 + d * 2 ^ 64 + o); lia).
  reflexivity.
Qed.

(** The accessors as digits of the [u128]. *)
Lemma UbAddr_accessors_div a :
  UbAddr_pod_id a = (a / 2 ^ 112) mod 2 ^ 16
  /\ UbAddr_node_id a = (a / 2 ^ 96) mod 2 ^ 16
  /\ UbAddr_device_id a = (a / 2 ^ 80) mod 2 ^ 16
  /\ UbAddr_offset a = (a / 2 ^ 16) mod 2 ^ 64
  /\ UbAddr_reserved a = a mod 2 ^ 16.
Proof.
  unfold UbAddr_pod_id, UbAddr_node_id, UbAddr_device_id, UbAddr_offset, UbAddr_reserved.
  change 0xFFFF with (2 ^ 16 - 1). change 0xFFFFFFFFFFFFFFFF with (2 ^ 64 - 1).
  rewrite !land_mask, !Z.shiftr_div_pow2 by lia. auto.
Qed.

Lemma UbAddr_accessors_new p n d o r :
  u16 p -> u16 n -> u16 d -> u64 o -> u16 r ->
  UbAddr_pod_id (UbAddr_new p n d o r) = p
  /\ UbAddr_node_id (UbAddr_new p n d o r) = n
  /\ UbAddr_device_id (UbAddr_new p n d o r) = d
  /\ UbAddr_offset (UbAddr_new p n d o r) = o
  /\ UbAddr_reserved (UbAddr_new p n d o r) = r.
Proof.
  intros Hp Hn Hd Ho Hr.
  destruct (UbAddr_accessors_div (UbAddr_new p n d o r)) as (-> & -> & -> & -> & ->).
  rewrite UbAddr_new_sum by done. unfold fits in *.
  repeat split; Z.div_mod_to_equations; lia.
Qed.

Lemma UbAddr_accessors_fit a :
  u16 (UbAddr_pod_id a) /\ u16 (UbAddr_node_id a) /\ u16 (UbAddr_device_id a)
  /\ u64 (UbAddr_offset a) /\ u16 (UbAddr_reserved a).
Proof.
  destruct (UbAddr_accessors_div a) as (-> & -> & -> & -> & ->).
  repeat split; apply Z.mod_pos_bound; lia.
Qed.

Lemma UbAddr_eta a :
  u128 a ->
  UbAddr_new (UbAddr_pod_id a) (UbAddr_node_id a) (UbAddr_device_id a)
    (UbAddr_offset a) (UbAddr_reserved a) = a.
Proof.
  intros Ha. pose proof (UbAddr_accessors_fit a) as (? & ? & ? & ? & ?).
  rewrite UbAddr_new_sum by done.
  destruct (UbAddr_accessors_div a) as (-> & -> & -> & -> & ->).
  unfold fits in *. Z.div_mod_to_equations. lia.
Qed.

Lemma UbAddr_with_offset_new a o :
  u128 a -> u64 o ->
  UbAddr_with_offset a o
  = UbAddr_new (UbAddr_pod_id a) (UbAddr_node_id a) (UbAddr_device_id a) o (UbAddr_reserved a).
Proof.
  intros Ha Ho. unfold UbAddr_with_offset. cbv zeta.
  change 0xFFFFFFFFFFFFFFFF with (2 ^ 64 - 1).
  rewrite (land_bit_not 128) by (try done; cbn; lia).
  rewrite land_shiftl_mask, Z.shiftl_mul_pow2 by lia.
  pose proof (UbAddr_accessors_fit a) as (? & ? & ? & ? & ?).
  rewrite UbAddr_new_sum by done.
  destruct (UbAddr_accessors_div a) as (-> & -> & -> & _ & ->).
  set (hi := a / 2 ^ 80). set (lo := a mod 2 ^ 16).
  assert (Hsplit : a - (a / 2 ^ 16) mod 2 ^ 64 * 2 ^ 16 = hi * 2 ^ 80 + lo)
    by (subst hi lo; unfold fits in *; Z.div_mod_to_equations; lia).
  rewrite Hsplit. rewrite Z.lor_comm, (Z.lor_comm (o * 2 ^ 16)).
  replace (Z.lor (hi * 2 ^ 80 + lo) (o * 2 ^ 16))
    with (Z.lor (Z.lor (hi * 2 ^ 80) (o * 2 ^ 16)) lo).
  2:{ rewrite <- Z.lor_assoc, (Z.lor_comm (o * 2 ^ 16)), Z.lor_assoc. f_equal.
      apply (lor_disjoint_add _ _ 80); [lia|apply Z.mod_mul; lia|subst lo; Z.div_mod_to_equations; lia]. }
  rewrite (lor_disjoint_add (hi * 2 ^ 80) _ 80)
    by (try lia; first [apply Z.mod_mul; lia | unfold fits in *; lia]).
  rewrite (lor_disjoint_add _ _ 16); [|lia| |subst lo; Z.div_mod_to_equations; lia].
  - subst hi lo. unfold fits in *. Z.div_mod_to_equations. lia.
  - replace (hi * 2 ^ 80 + o * 2 ^ 16) with ((hi * 2 ^ 64 + o) * 2 ^ 16) by lia.
    apply Z.mod_mul. lia.
Qed.

(** ** Text form *)

Lemma hex_digit_value d : 0 <= d < 16 -> hex_value (hex_digit d) = Some d.
Proof.
  intros. unfold hex_digit, hex_value. destruct (d <? 10) eqn:E; zbool.
  - replace ((48 <=? 48 + d) && (48 + d <=? 57)) with true
      by (symmetry; apply andb_true_iff; split; apply Z.leb_le; lia). f_equal. lia.
  - replace (87 + d <=? 57) with false by (symmetry; apply Z.leb_gt; lia).
    replace ((97 <=? 87 + d) && (87 + d <=? 102)) with true
      by (symmetry; apply andb_true_iff; split; apply Z.leb_le; lia).
    rewrite andb_false_r. f_equal. lia.
Qed.

Lemma hex_digit_range d : 0 <= d < 16 -> 48 <= hex_digit d <= 57 \/ 97 <= hex_digit d <= 102.
Proof. unfold hex_digit. intros. destruct (d <? 10) eqn:E; zbool; lia. Qed.

Lemma hex_fixed_no_colon n v : Forall (fun x => x <> colon) (hex_fixed n v).
Proof.
  induction n; simpl; constructor; [|done].
  pose proof (hex_digit_range ((v / 16 ^ Z.of_nat n) mod 16) ltac:(apply Z.mod_pos_bound; lia)).
  unfold colon. lia.
Qed.

Lemma hex_accum_fixed w n v acc :
  0 <= acc -> 0 <= v ->
  acc * 16 ^ Z.of_nat n + v mod 16 ^ Z.of_nat n < 2 ^ w ->
  hex_accum w acc (hex_fixed n v) = Some (acc * 16 ^ Z.of_nat n + v mod 16 ^ Z.of_nat n).
Proof.
  revert acc. induction n as [|n IH]; intros acc Hacc Hv Hlt.
  - simpl in *. rewrite Z.mod_1_r. f_equal. lia.
  - cbn [hex_fixed hex_accum].
    set (d := (v / 16 ^ Z.of_nat n) mod 16).
    assert (Hd : 0 <= d < 16) by (apply Z.mod_pos_bound; lia).
    assert (Hstep : acc * 16 ^ Z.of_nat (S n) + v mod 16 ^ Z.of_nat (S n)
                    = (acc * 16 + d) * 16 ^ Z.of_nat n + v mod 16 ^ Z.of_nat n).
    { rewrite Nat2Z.inj_succ, Z.pow_succ_r, (Z.mul_comm 16) by lia.
      pose proof (Z.pow_pos_nonneg 16 (Z.of_nat n) ltac:(lia) ltac:(lia)).
      rewrite Z.rem_mul_r by lia. subst d. ring. }
    pose proof (Z.pow_pos_nonneg 16 (Z.of_nat n) ltac:(lia) ltac:(lia)).
    pose proof (Z.mod_pos_bound v (16 ^ Z.of_nat n) ltac:(lia)).
    rewrite (hex_digit_value d) by done.
    rewrite (proj2 (Z.ltb_lt (acc * 16 + d) (2 ^ w))) by nia.
    rewrite Hstep in *. apply IH; lia.
Qed.

Lemma from_str_radix_hex_fixed w n v :
  (2 <= n)%nat -> fits w v -> v < 16 ^ Z.of_nat n ->
  from_str_radix_16 w (hex_fixed n v) = Some v.
Proof.
  intros Hn Hv Hlt. unfold fits in Hv.
  transitivity (hex_accum w 0 (hex_fixed n v)).
  - destruct n as [|[|n]]; [lia..|]. cbn [hex_fixed from_str_radix_16].
    pose proof (hex_digit_range ((v / 16 ^ Z.of_nat (S n)) mod 16)
                  ltac:(apply Z.mod_pos_bound; lia)).
    by rewrite (proj2 (Z.eqb_neq _ 43)) by lia.
  - rewrite hex_accum_fixed by (rewrite ?Z.mod_small; lia).
    by rewrite Z.mod_small by lia.
Qed.

Lemma UbAddr_from_to_text a : u128 a -> UbAddr_from_text (UbAddr_to_text a) = Ok a.
Proof.
  intros Ha. pose proof (UbAddr_accessors_fit a) as (Hp & Hn & Hd & Ho & Hr).
  unfold UbAddr_from_text, UbAddr_to_text. rewrite strip_prefix_app. cbn [ok_or rbind app].
  rewrite !split_on_cons, split_on_last by apply hex_fixed_no_colon.
  rewrite !from_str_radix_hex_fixed by (unfold fits in *; lia).
  cbn [ok_or rbind]. by rewrite UbAddr_eta.
Qed.

(** ** Virtual addresses *)

Lemma UbVa_fields rid off :
  u64 rid -> u64 off ->
  UbVa_region_id (UbVa_new rid off) = rid /\ UbVa_offset (UbVa_new rid off) = off.
Proof.
  unfold fits. intros. unfold UbVa_region_id, UbVa_offset, UbVa_new, wrap.
  rewrite Z.shiftl_mul_pow2, Z.shiftr_div_pow2 by lia.
  rewrite (lor_disjoint_add _ _ 64) by (try lia; apply Z.mod_mul; lia).
  split; Z.div_mod_to_equations; lia.
Qed.

Lemma UbAddr_from_to_bytes a : u128 a -> UbAddr_from_bytes (UbAddr_to_bytes a) = a.
Proof. apply (be_value_be_bytes 16). Qed.

(** ** Properties *)

(** The bit packing of [UbAddr::new] is a bijection between
    in-range field tuples and [u128] values: the five accessors recover the
    fields, and packing the accessors of any 128-bit address gives it back. *)
Theorem addr_pack_unpack :
  (forall p n d o r, u16 p -> u16 n -> u16 d -> u64 o -> u16 r ->
     let a := UbAddr_new p n d o r in
     u128 a /\ (UbAddr_pod_id a, UbAddr_node_id a, UbAddr_device_id a,
                UbAddr_offset a, UbAddr_reserved a) = (p, n, d, o, r))
  /\ (forall a, u128 a ->
        UbAddr_new (UbAddr_pod_id a) (UbAddr_node_id a) (UbAddr_device_id a)
          (UbAddr_offset a) (UbAddr_reserved a) = a).
Proof.
  split; [|apply UbAddr_eta].
  intros p n d o r Hp Hn Hd Ho Hr. cbv zeta. split.
  - rewrite UbAddr_new_sum by done. unfold fits in *. lia.
  - by destruct (UbAddr_accessors_new p n d o r Hp Hn Hd Ho Hr) as (-> & -> & -> & -> & ->).
Qed.

(** [with_offset] replaces the 64-bit offset and leaves the
    pod, node, device and reserved fields as they were. *)
Theorem addr_with_offset_frame a o :
  u128 a -> u64 o ->
  let b := UbAddr_with_offset a o in
  UbAddr_offset b = o /\ UbAddr_pod_id b = UbAddr_pod_id a
  /\ UbAddr_node_id b = UbAddr_node_id a /\ UbAddr_device_id b = UbAddr_device_id a
  /\ UbAddr_reserved b = UbAddr_reserved a.
Proof.
  intros Ha Ho. cbv zeta. rewrite UbAddr_with_offset_new by done.
  pose proof (UbAddr_accessors_fit a) as (Hp & Hn & Hd & _ & Hr).
  destruct (UbAddr_accessors_new _ _ _ _ _ Hp Hn Hd Ho Hr) as (-> & -> & -> & -> & ->).
  done.
Qed.

Lemma addr_with_offset_frame_witness :
  let a := UbAddr_new 1 42 0 7 3 in
  UbAddr_offset (UbAddr_with_offset a 1024) = 1024
  /\ UbAddr_node_id (UbAddr_with_offset a 1024) = 42.
Proof.
  cbv zeta.
  destruct (addr_with_offset_frame (UbAddr_new 1 42 0 7 3) 1024) as (H1 & _ & H2 & _);
    [vm_compute; intuition discriminate | vm_compute; intuition discriminate |].
  split; [exact H1 | rewrite H2; reflexivity].
Defined.

(** Printing an address with [to_text] and parsing the text
    with [from_text] returns the same address, for every 128-bit address. *)
Theorem addr_text_roundtrip a :
  u128 a -> UbAddr_from_text (UbAddr_to_text a) = Ok a.
Proof. apply UbAddr_from_to_text. Qed.

Lemma addr_text_roundtrip_witness :
  UbAddr_to_text (UbAddr_new 1 0x42 0 0xDEADBEEF 0)
    = str "0x0001:0042:0000:00000000deadbeef:0000"
  /\ UbAddr_from_text (UbAddr_to_text (UbAddr_new 1 0x42 0 0xDEADBEEF 0))
     = Ok (UbAddr_new 1 0x42 0 0xDEADBEEF 0).
Proof.
  split; [vm_compute; reflexivity|].
  apply addr_text_roundtrip. vm_compute; intuition discriminate.
Defined.

(** The parse errors of the unit test [test_ub_addr_parse_errors]. *)
Example from_text_rejects :
  map (fun s => is_ok (UbAddr_from_text (str s)))
    ["invalid"; "0x1:2:3"; "1:2:3:4:5"; "0x1:2:3:4:5:6"; "0x1:2:3:4:5"; "0x10000:0:0:0:0"]
  = [false; false; false; false; true; false].
Proof. vm_compute. reflexivity. Qed.
