(* ===== verification/Net.v ===== *)
(** * Net: socket addresses

    [SocketAddr] and its [FromStr] of the Rust standard library, which the daemon
    uses on the addresses of the configuration and of the members: IPv4 with a
    port, or IPv6 in brackets with an optional scope and a port. *)

From S2P Require Import Prelude Bytes Addr.
#[local] Open Scope Z_scope.

Inductive SocketAddr : Type :=
| SocketAddr_V4 (octets : list Z) (port : Z)
| SocketAddr_V6 (groups : list Z) (scope_id port : Z).

#[global] Instance SocketAddr_eq_dec : EqDecision SocketAddr.
Proof. solve_decision. Defined.

#[global] Instance SocketAddr_countable : Countable SocketAddr.
Proof.
  refine (inj_countable'
    (fun a => match a with
              | SocketAddr_V4 o p => inl (o, p)
              | SocketAddr_V6 g s p => inr (g, s, p)
              end)
    (fun x => match x with
              | inl (o, p) => SocketAddr_V4 o p
              | inr (g, s, p) => SocketAddr_V6 g s p
              end) _).
  by intros [].
Defined.

(** A reader consumes a prefix, or fails and consumes nothing. *)
Abbreviation Reader A := (bytes -> option (A * bytes)).

Definition read_char (c : Z) : Reader unit := fun s =>
  match s with x :: s' => if x =? c then Some (tt, s') else None | [] => None end.

(** The value of a digit in [radix]. *)
Definition digit_value (radix c : Z) : option Z :=
  d ← hex_value c; if d <? radix then Some d else None.

(** The digits from here on: their value, their number and the rest; [None]
    when the value exceeds [max] or there are more than [max_digits]. *)
Fixpoint read_digits (radix max : Z) (max_digits : option nat) (acc : Z) (count : nat) (s : bytes)
  : option (Z * nat * bytes) :=
  match s with
  | [] => Some (acc, count, [])
  | c :: s' =>
    match digit_value radix c with
    | None => Some (acc, count, s)
    | Some d =>
      let acc := acc * radix + d in
      if max <? acc then None
      else
        match max_digits with
        | Some m => if (m <? S count)%nat then None else read_digits radix max max_digits acc (S count) s'
        | None => read_digits radix max max_digits acc (S count) s'
        end
    end
  end.

(** [read_number]: an unsigned number of at most [max]. *)
Definition read_number (radix max : Z) (max_digits : option nat) (allow_zero_prefix : bool) : Reader Z :=
  fun s =>
    '(v, count, rest) ← read_digits radix max max_digits 0 0%nat s;
    let has_leading_zero := match s with c :: _ => c =? 48 | [] => false end in
    if (count =? 0)%nat then None
    else if negb allow_zero_prefix && has_leading_zero && (1 <? count)%nat then None
    else Some (v, rest).

(** [read_separator]: the separator before every item but the first. *)
Definition read_separator {A} (sep : Z) (index : nat) (inner : Reader A) : Reader A := fun s =>
  match index with
  | O => inner s
  | S _ => '(_, s) ← read_char sep s; inner s
  end.

Definition dot : Z := 46.

Fixpoint read_octets (n index : nat) : Reader (list Z) := fun s =>
  match n with
  | O => Some ([], s)
  | S n =>
    '(o, s) ← read_separator dot index (read_number 10 255 (Some 3%nat) false) s;
    '(os, s) ← read_octets n (S index) s;
    Some (o :: os, s)
  end.

Definition read_ipv4_addr : Reader (list Z) := read_octets 4 0.

(** [read_groups]: up to [limit] groups, the last two possibly as an IPv4
    address; the groups, whether they ended with one, and the rest. *)
Fixpoint read_groups (limit index : nat) (s : bytes) : list Z * bool * bytes :=
  match limit with
  | O => ([], false, s)
  | S limit' =>
    let ipv4 := if (0 <? limit')%nat then read_separator colon index read_ipv4_addr s else None in
    match ipv4 with
    | Some ([a; b; c; d], s) => ([a * 256 + b; c * 256 + d], true, s)
    | _ =>
      match read_separator colon index (read_number 16 65535 (Some 4%nat) true) s with
      | Some (g, s) => let '(gs, v4, s) := read_groups limit' (S index) s in (g :: gs, v4, s)
      | None => ([], false, s)
      end
    end
  end.

Definition read_ipv6_addr : Reader (list Z) := fun s =>
  let '(head, head_ipv4, s) := read_groups 8 0 s in
  if (length head =? 8)%nat then Some (head, s)
  else if head_ipv4 : bool then None
  else
    '(_, s) ← read_char colon s;
    '(_, s) ← read_char colon s;
    let '(tail, _, s) := read_groups (7 - length head) 0 s in
    Some (head ++ replicate (8 - length head - length tail) 0 ++ tail, s).

Definition read_port : Reader Z := fun s =>
  '(_, s) ← read_char colon s; read_number 10 65535 None true s.

Definition read_socket_addr_v4 : Reader SocketAddr := fun s =>
  '(ip, s) ← read_ipv4_addr s;
  '(port, s) ← read_port s;
  Some (SocketAddr_V4 ip port, s).

Definition read_scope_id : Reader Z := fun s =>
  '(_, s) ← read_char 37 s; read_number 10 U32_MAX None true s.

Definition read_socket_addr_v6 : Reader SocketAddr := fun s =>
  '(_, s) ← read_char 91 s;
  '(ip, s) ← read_ipv6_addr s;
  let '(scope, s) := match read_scope_id s with Some (z, s) => (z, s) | None => (0, s) end in
  '(_, s) ← read_char 93 s;
  '(port, s) ← read_port s;
  Some (SocketAddr_V6 ip scope port, s).

(** [s.parse::<SocketAddr>()]: the whole text is an address. *)
Definition parse_socket_addr (s : bytes) : option SocketAddr :=
  match read_socket_addr_v4 s with
  | Some (a, []) => Some a
  | Some (_, _ :: _) => None
  | None =>
    match read_socket_addr_v6 s with
    | Some (a, []) => Some a
    | _ => None
    end
  end.

Example parse_v4 : parse_socket_addr (str "127.0.0.1:7901") = Some (SocketAddr_V4 [127; 0; 0; 1] 7901).
Proof. reflexivity. Qed.
Example parse_v4_octal : parse_socket_addr (str "127.0.0.01:7901") = None.
Proof. reflexivity. Qed.
Example parse_v6 : parse_socket_addr (str "[fe80::1%2]:80") = Some (SocketAddr_V6 [65152; 0; 0; 0; 0; 0; 0; 1] 2 80).
Proof. reflexivity. Qed.
Example parse_v6_v4 : parse_socket_addr (str "[::ffff:10.0.0.1]:1") = Some (SocketAddr_V6 [0; 0; 0; 0; 0; 65535; 2560; 1] 0 1).
Proof. reflexivity. Qed.
