(* ===== verification/Device.v ===== *)
(** * Device: memory devices

    crates/ub-core/src/device.rs (the [Device] trait), device/memory.rs and
    device/npu.rs. [Device] is the interface: the operations of the trait and
    a flat byte array every implementation behaves as. [MemoryDevice] and
    [NpuDevice] discharge it; [DynDevice] is the [dyn Device] behind an [Arc].
    The target is a 64-bit little-endian machine ([usize] is [u64], an
    [AtomicU64] lies in memory least significant byte first). *)

From S2P Require Import Prelude Bytes Types.

(** ** Slices *)

(** [&data[start..end]]: panics when the range is not inside the data. *)
Definition slice (data : bytes) (start end_ : Z) : Result bytes :=
  if (start <=? end_) && (end_ <=? Z.of_nat (length data))
  then Ok (take (Z.to_nat (end_ - start)) (drop (Z.to_nat start) data))
  else Panic.

(** [data[start..end].copy_from_slice(buf)] *)
Definition slice_copy (data : bytes) (start end_ : Z) (buf : bytes) : Result bytes :=
  if (start <=? end_) && (end_ <=? Z.of_nat (length data))
     && (end_ - start =? Z.of_nat (length buf))
  then Ok (take (Z.to_nat start) data ++ buf ++ drop (Z.to_nat end_) data)
  else Panic.

(** Reads and writes of the abstract byte array. *)
Definition mem_read (m : bytes) (off len : Z) : bytes :=
  take (Z.to_nat len) (drop (Z.to_nat off) m).
Definition mem_write (m : bytes) (off : Z) (buf : bytes) : bytes :=
  take (Z.to_nat off) m ++ buf ++ drop (Z.to_nat off + length buf) m.

(** An [AtomicU64] in memory. *)
Definition le_bytes (z : Z) : bytes := rev (be_bytes 8 z).
Definition le_value (l : bytes) : Z := be_value (rev l).

Definition in_bounds (m : bytes) (off len : Z) : bool := off + len <=? Z.of_nat (length m).

(** ** The interface *)

(** Source: crates/ub-core/src/device.rs:17-36, [Device::peak_read_bw_mbps].
    The default figures of the trait: peak bandwidths for reads and writes in MiB/s, then the
    read and write latencies in ns. *)
Definition Device_default_figures : Z * Z * Z * Z := (10000, 10000, 200, 200).

(** Source: crates/ub-core/src/device.rs:8-51, [Device].
    The trait with the contract its clients rely on. [dev_figures] is its four methods of
    figures; [dev_mem] is the content of the device, [dev_wf] its invariant. *)
Class Device (D : Type) := {
  dev_kind : D -> DeviceKind;
  dev_device_id : D -> Z;
  dev_capacity : D -> Z;
  dev_tier : D -> StorageTier;
  dev_figures : D -> Z * Z * Z * Z;
  dev_read : D -> Z -> Z -> Result bytes;
  dev_write : D -> Z -> bytes -> Result D;
  dev_atomic_cas : D -> Z -> Z -> Z -> Result (Z * D);
  dev_atomic_faa : D -> Z -> Z -> Result (Z * D);
  dev_mem : D -> bytes;
  dev_wf : D -> Prop;
  (** Same device, new content. *)
  dev_same (d d' : D) : Prop :=
    dev_wf d' /\ dev_kind d' = dev_kind d /\ dev_device_id d' = dev_device_id d
    /\ dev_capacity d' = dev_capacity d;
  dev_capacity_spec : forall d, dev_wf d -> dev_capacity d = Z.of_nat (length (dev_mem d));
  dev_read_spec : forall d off len, dev_wf d -> u64 off -> 0 <= len < 2 ^ 63 ->
    dev_read d off len
    = if in_bounds (dev_mem d) off len then Ok (mem_read (dev_mem d) off len) else Err AddrInvalid;
  dev_write_spec : forall d off buf, dev_wf d -> u64 off -> Forall u8 buf ->
    Z.of_nat (length buf) < 2 ^ 63 ->
    if in_bounds (dev_mem d) off (Z.of_nat (length buf))
    then exists d', dev_write d off buf = Ok d' /\ dev_same d d'
                    /\ dev_mem d' = mem_write (dev_mem d) off buf
    else dev_write d off buf = Err AddrInvalid;
  dev_cas_spec : forall d off expect new, dev_wf d -> u64 off -> u64 new ->
    if negb (off mod 8 =? 0) then dev_atomic_cas d off expect new = Err Alignment
    else if in_bounds (dev_mem d) off 8
    then let old := le_value (mem_read (dev_mem d) off 8) in
         exists d', dev_atomic_cas d off expect new = Ok (old, d') /\ dev_same d d'
           /\ dev_mem d' = (if old =? expect then mem_write (dev_mem d) off (le_bytes new)
                            else dev_mem d)
    else dev_atomic_cas d off expect new = Err AddrInvalid;
  dev_faa_spec : forall d off add, dev_wf d -> u64 off ->
    if negb (off mod 8 =? 0) then dev_atomic_faa d off add = Err Alignment
    else if in_bounds (dev_mem d) off 8
    then let old := le_value (mem_read (dev_mem d) off 8) in
         exists d', dev_atomic_faa d off add = Ok (old, d') /\ dev_same d d'
           /\ dev_mem d' = mem_write (dev_mem d) off (le_bytes (wrap 64 (old + add)))
    else dev_atomic_faa d off add = Err AddrInvalid;
}.

(** ** Operations on a raw buffer shared by both devices *)

(** Source: crates/ub-core/src/device/memory.rs:26-32, [MemoryDevice::check_bounds]. *)
Definition check_bounds (capacity offset len : Z) : Result unit :=
  let end_ := wrap 64 (offset + len) in
  if (capacity <? offset) || (capacity <? end_) then Err AddrInvalid else Ok tt.

(** Source: crates/ub-core/src/device/memory.rs:34-39, [MemoryDevice::check_alignment]. *)
Definition check_alignment (offset : Z) : Result unit :=
  if negb (offset mod 8 =? 0) then Err Alignment else Ok tt.

(** [&data[offset] as *const AtomicU64] and a sequentially consistent view of
    [compare_exchange] / [fetch_add] on it. Only [&data[offset]] is checked. *)
Definition atomic_load (data : bytes) (offset : Z) : Result Z :=
  if offset <? Z.of_nat (length data) then Ok (le_value (mem_read data offset 8)) else Panic.
Definition atomic_store (data : bytes) (offset v : Z) : bytes :=
  mem_write data offset (le_bytes v).

(** ** CPU memory *)

(** Source: crates/ub-core/src/device/memory.rs:11-14, [MemoryDevice]. *)
Record MemoryDevice : Type := mkMemoryDevice {
  md_data : bytes;
  md_capacity : Z;
}.

(** Source: crates/ub-core/src/device/memory.rs:17-24, [MemoryDevice::new]. *)
Definition MemoryDevice_new (size : Z) : MemoryDevice :=
  mkMemoryDevice (repeat 0 (Z.to_nat size)) size.

(** Source: crates/ub-core/src/device/memory.rs:59-65, [MemoryDevice::read]. *)
Definition MemoryDevice_read (d : MemoryDevice) (offset len : Z) : Result bytes :=
  let? _ := check_bounds (md_capacity d) offset len in
  slice (md_data d) offset (wrap 64 (offset + len)).

(** Source: crates/ub-core/src/device/memory.rs:67-73, [MemoryDevice::write]. *)
Definition MemoryDevice_write (d : MemoryDevice) (offset : Z) (buf : bytes) : Result MemoryDevice :=
  let? _ := check_bounds (md_capacity d) offset (Z.of_nat (length buf)) in
  let? data := slice_copy (md_data d) offset (wrap 64 (offset + Z.of_nat (length buf))) buf in
  Ok (mkMemoryDevice data (md_capacity d)).

(** Source: crates/ub-core/src/device/memory.rs:75-86, [MemoryDevice::atomic_cas]. *)
Definition MemoryDevice_atomic_cas (d : MemoryDevice) (offset expect new : Z)
  : Result (Z * MemoryDevice) :=
  let? _ := check_alignment offset in
  let? _ := check_bounds (md_capacity d) offset 8 in
  let? old := atomic_load (md_data d) offset in
  let data := if old =? expect then atomic_store (md_data d) offset new else md_data d in
  Ok (old, mkMemoryDevice data (md_capacity d)).

(** Source: crates/ub-core/src/device/memory.rs:88-95, [MemoryDevice::atomic_faa]. *)
Definition MemoryDevice_atomic_faa (d : MemoryDevice) (offset add : Z)
  : Result (Z * MemoryDevice) :=
  let? _ := check_alignment offset in
  let? _ := check_bounds (md_capacity d) offset 8 in
  let? old := atomic_load (md_data d) offset in
  let data := atomic_store (md_data d) offset (wrap 64 (old + add)) in
  Ok (old, mkMemoryDevice data (md_capacity d)).

(** ** Simulated NPU memory *)

(** Source: crates/ub-core/src/device/npu.rs:11-16, [NpuDevice]. *)
Record NpuDevice : Type := mkNpuDevice {
  npu_device_id : Z;
  npu_data : bytes;
  npu_capacity : Z;
  npu_alloc_cursor : Z;
}.

(** Source: crates/ub-core/src/device/npu.rs:19-27, [NpuDevice::new]. *)
Definition NpuDevice_new (device_id mem_size_mib : Z) : NpuDevice :=
  let size := wrap 64 (mem_size_mib * 1024 * 1024) in
  mkNpuDevice device_id (repeat 0 (Z.to_nat size)) size 0.

(** [(x + align - 1) & !(align - 1)] on [u64]. *)
Definition align_up (x align : Z) : Z :=
  Z.land (wrap 64 (x + align - 1)) (bit_not 64 (wrap 64 (align - 1))).

(** Source: crates/ub-core/src/device/npu.rs:31-41, [NpuDevice::alloc]. *)
Definition NpuDevice_alloc (d : NpuDevice) (len align : Z) : Result (Z * Z) * NpuDevice :=
  let aligned := align_up (npu_alloc_cursor d) align in
  let end_ := wrap 64 (aligned + len) in
  if npu_capacity d <? end_ then (Err NoResources, d)
  else (Ok (aligned, len),
        mkNpuDevice (npu_device_id d) (npu_data d) (npu_capacity d) end_).

(** Source: crates/ub-core/src/device/npu.rs:92-98, [NpuDevice::read]. *)
Definition NpuDevice_read (d : NpuDevice) (offset len : Z) : Result bytes :=
  let? _ := check_bounds (npu_capacity d) offset len in
  slice (npu_data d) offset (wrap 64 (offset + len)).

Definition npu_with_data (d : NpuDevice) (data : bytes) : NpuDevice :=
  mkNpuDevice (npu_device_id d) data (npu_capacity d) (npu_alloc_cursor d).

(** Source: crates/ub-core/src/device/npu.rs:100-106, [NpuDevice::write]. *)
Definition NpuDevice_write (d : NpuDevice) (offset : Z) (buf : bytes) : Result NpuDevice :=
  let? _ := check_bounds (npu_capacity d) offset (Z.of_nat (length buf)) in
  let? data := slice_copy (npu_data d) offset (wrap 64 (offset + Z.of_nat (length buf))) buf in
  Ok (npu_with_data d data).

(** Source: crates/ub-core/src/device/npu.rs:108-119, [NpuDevice::atomic_cas]. *)
Definition NpuDevice_atomic_cas (d : NpuDevice) (offset expect new : Z)
  : Result (Z * NpuDevice) :=
  let? _ := check_alignment offset in
  let? _ := check_bounds (npu_capacity d) offset 8 in
  let? old := atomic_load (npu_data d) offset in
  let data := if old =? expect then atomic_store (npu_data d) offset new else npu_data d in
  Ok (old, npu_with_data d data).

(** Source: crates/ub-core/src/device/npu.rs:121-128, [NpuDevice::atomic_faa]. *)
Definition NpuDevice_atomic_faa (d : NpuDevice) (offset add : Z)
  : Result (Z * NpuDevice) :=
  let? _ := check_alignment offset in
  let? _ := check_bounds (npu_capacity d) offset 8 in
  let? old := atomic_load (npu_data d) offset in
  Ok (old, npu_with_data d (atomic_store (npu_data d) offset (wrap 64 (old + add)))).

(** Source: crates/ub-core/src/device/npu.rs:76-90, [NpuDevice::peak_read_bw_mbps].
    With the write bandwidth and the two latencies. *)
Definition NpuDevice_figures (_ : NpuDevice) : Z * Z * Z * Z := (50000, 50000, 50, 50).

(** Source: crates/ub-core/src/device/npu.rs:131-138, [ub_npu_open].
    [next_npu_device_id] is the global counter, 1 at first. *)
Definition ub_npu_open (next_npu_device_id mem_size_mib : Z) : Z * NpuDevice :=
  (wrap 16 (next_npu_device_id + 1), NpuDevice_new next_npu_device_id mem_size_mib).

(** Source: crates/ub-core/src/device/npu.rs:140-143, [ub_npu_alloc]. *)
Definition ub_npu_alloc (npu : NpuDevice) (len align : Z) : Result (Z * Z) * NpuDevice :=
  NpuDevice_alloc npu len align.

(** ** The byte array *)

Lemma length_mem_write m off buf :
  0 <= off -> in_bounds m off (Z.of_nat (length buf)) = true ->
  length (mem_write m off buf) = length m.
Proof.
  unfold in_bounds, mem_write. intros ? H%Z.leb_le.
  rewrite !length_app, length_take, length_drop. lia.
Qed.

Lemma mem_write_u8 m off buf : Forall u8 m -> Forall u8 buf -> Forall u8 (mem_write m off buf).
Proof. intros. unfold mem_write. auto using Forall_app_2, Forall_take, Forall_drop. Qed.

Lemma mem_read_u8 m off len : Forall u8 m -> Forall u8 (mem_read m off len).
Proof. intros. unfold mem_read. auto using Forall_take, Forall_drop. Qed.

Lemma length_mem_read m off len :
  0 <= off -> 0 <= len -> in_bounds m off len = true -> Z.of_nat (length (mem_read m off len)) = len.
Proof. unfold in_bounds, mem_read. intros ?? ?%Z.leb_le. rewrite length_take, length_drop. lia. Qed.

Lemma mem_read_write_same m off buf :
  0 <= off -> in_bounds m off (Z.of_nat (length buf)) = true ->
  mem_read (mem_write m off buf) off (Z.of_nat (length buf)) = buf.
Proof.
  unfold in_bounds, mem_read, mem_write. intros ? ?%Z.leb_le.
  rewrite Nat2Z.id, drop_app_length' by (rewrite length_take; lia).
  by rewrite take_app_length.
Qed.

Lemma lookup_mem_write m off buf i :
  0 <= off -> in_bounds m off (Z.of_nat (length buf)) = true ->
  mem_write m off buf !! i
  = (if decide (Z.to_nat off <= i < Z.to_nat off + length buf)%nat
     then buf !! (i - Z.to_nat off)%nat else m !! i).
Proof.
  unfold in_bounds, mem_write. intros ? ?%Z.leb_le. case_decide as Hi.
  - rewrite lookup_app_r by (rewrite length_take; lia).
    rewrite length_take, Nat.min_l by lia. apply lookup_app_l. lia.
  - destruct (decide (i < Z.to_nat off)%nat).
    + rewrite lookup_app_l by (rewrite length_take; lia). apply lookup_take_lt. lia.
    + rewrite !lookup_app_r by (rewrite ?length_take; lia).
      rewrite length_take, Nat.min_l, lookup_drop by lia. f_equal. lia.
Qed.

Lemma lookup_mem_read m off len i :
  mem_read m off len !! i
  = (if decide (i < Z.to_nat len)%nat then m !! (Z.to_nat off + i)%nat else None).
Proof.
  unfold mem_read. case_decide.
  - by rewrite lookup_take_lt, lookup_drop by done.
  - by rewrite lookup_take_ge by lia.
Qed.

(** A write leaves every disjoint range as it was. *)
Lemma mem_read_write_disjoint m off buf off' len' :
  0 <= off -> 0 <= off' -> in_bounds m off (Z.of_nat (length buf)) = true ->
  off' + len' <= off \/ off + Z.of_nat (length buf) <= off' ->
  mem_read (mem_write m off buf) off' len' = mem_read m off' len'.
Proof.
  intros Hoff Hoff' Hin Hdis. apply list_eq. intros i.
  rewrite !lookup_mem_read. case_decide; [|done].
  rewrite lookup_mem_write by done. case_decide; [lia|done].
Qed.

Lemma length_le_bytes v : length (le_bytes v) = 8%nat.
Proof. unfold le_bytes. by rewrite length_rev, length_be_bytes. Qed.

Lemma le_bytes_u8 v : Forall u8 (le_bytes v).
Proof. unfold le_bytes. apply Forall_rev, be_bytes_u8. Qed.

Lemma le_value_le_bytes v : u64 v -> le_value (le_bytes v) = v.
Proof. unfold le_value, le_bytes. rewrite rev_involutive. apply (be_value_be_bytes 8). Qed.

Lemma le_value_fits l : Forall u8 l -> length l = 8%nat -> u64 (le_value l).
Proof.
  intros Hl Hlen. unfold le_value. pose proof (be_value_bound (rev l) (Forall_rev Hl)) as H.
  by rewrite length_rev, Hlen in H.
Qed.

(** ** A buffer and its capacity *)

Definition raw_wf (data : bytes) (capacity : Z) : Prop :=
  capacity = Z.of_nat (length data) /\ capacity < 2 ^ 63 /\ Forall u8 data.

Section Raw.
Context (data : bytes) (capacity : Z) (Hwf : raw_wf data capacity).

Lemma check_bounds_raw off len :
  u64 off -> 0 <= len < 2 ^ 63 ->
  check_bounds capacity off len = if in_bounds data off len then Ok tt else Err AddrInvalid.
Proof.
  destruct Hwf as (Hcap & Hmax & _). unfold fits, check_bounds, in_bounds. intros Hoff Hlen.
  rewrite <- Hcap. destruct (capacity <? off) eqn:E1; zbool; cbn [orb].
  - by rewrite (proj2 (Z.leb_gt _ _)) by lia.
  - rewrite wrap_small by ulia.
    destruct (capacity <? off + len) eqn:E2; zbool.
    + by rewrite (proj2 (Z.leb_gt _ _)) by lia.
    + by rewrite (proj2 (Z.leb_le _ _)) by lia.
Qed.

Lemma in_bounds_wrap off len :
  u64 off -> 0 <= len < 2 ^ 63 -> in_bounds data off len = true -> wrap 64 (off + len) = off + len.
Proof.
  destruct Hwf as (Hcap & Hmax & _). unfold in_bounds. intros ? ? ?%Z.leb_le.
  apply wrap_small. ulia.
Qed.

Lemma slice_raw off len :
  u64 off -> 0 <= len < 2 ^ 63 -> in_bounds data off len = true ->
  slice data off (wrap 64 (off + len)) = Ok (mem_read data off len).
Proof.
  intros Hoff Hlen Hin. rewrite in_bounds_wrap by done.
  apply Z.leb_le in Hin. unfold slice, fits in *.
  rewrite (proj2 (Z.leb_le off (off + len))), (proj2 (Z.leb_le (off + len) _)) by lia.
  unfold mem_read. repeat f_equal. lia.
Qed.

Lemma slice_copy_raw off buf :
  u64 off -> Z.of_nat (length buf) < 2 ^ 63 ->
  in_bounds data off (Z.of_nat (length buf)) = true ->
  slice_copy data off (wrap 64 (off + Z.of_nat (length buf))) buf = Ok (mem_write data off buf).
Proof.
  intros Hoff Hlen Hin. rewrite in_bounds_wrap by (done || lia).
  apply Z.leb_le in Hin. unfold slice_copy, fits in *.
  rewrite (proj2 (Z.leb_le off _)), (proj2 (Z.leb_le _ (Z.of_nat (length data)))) by lia.
  rewrite (proj2 (Z.eqb_eq _ (Z.of_nat (length buf)))) by lia.
  unfold mem_write. cbn. repeat f_equal. lia.
Qed.

Lemma atomic_load_raw off :
  u64 off -> in_bounds data off 8 = true ->
  atomic_load data off = Ok (le_value (mem_read data off 8)).
Proof.
  intros Hoff ?%Z.leb_le. unfold atomic_load. by rewrite (proj2 (Z.ltb_lt _ _)) by lia.
Qed.

Lemma raw_wf_write off buf :
  u64 off -> Forall u8 buf -> in_bounds data off (Z.of_nat (length buf)) = true ->
  raw_wf (mem_write data off buf) capacity.
Proof.
  destruct Hwf as (Hcap & Hmax & Hu8). intros Hoff Hbuf Hin. unfold fits in Hoff.
  split; [by rewrite length_mem_write by (done || lia)|]. split; [done|by apply mem_write_u8].
Qed.

Lemma raw_wf_store off v :
  u64 off -> in_bounds data off 8 = true -> raw_wf (atomic_store data off v) capacity.
Proof.
  intros. apply raw_wf_write; [done|apply le_bytes_u8|by rewrite length_le_bytes].
Qed.

End Raw.

Lemma check_alignment_spec off :
  check_alignment off = if negb (off mod 8 =? 0) then Err Alignment else Ok tt.
Proof. reflexivity. Qed.

(** Discharges the laws of [Device] for a device made of a raw buffer. *)
Ltac raw_device :=
  repeat match goal with
  | |- context [check_alignment ?o] => rewrite (check_alignment_spec o)
  | |- context [negb ?b] => destruct b; cbn [negb rbind]; [|reflexivity]
  end;
  match goal with
  | H : raw_wf _ _ |- context [check_bounds _ _ _] =>
    erewrite (check_bounds_raw _ _ H) by (done || ulia)
  end;
  match goal with
  | |- context [in_bounds ?m ?o ?l] => destruct (in_bounds m o l) eqn:?; cbn [rbind]; [|done]
  end;
  try match goal with
  | H : raw_wf _ _ |- _ =>
    first [ erewrite (slice_raw _ _ H) by (done || ulia)
          | erewrite (slice_copy_raw _ _ H) by (done || ulia)
          | erewrite (atomic_load_raw _ _ ) by (done || ulia) ]
  end; cbn [rbind].

#[global, refine] Instance MemoryDevice_device : Device MemoryDevice := {|
  dev_kind _ := DeviceKind_Memory;
  dev_device_id _ := 0;
  dev_capacity := md_capacity;
  dev_tier _ := StorageTier_Warm;
  dev_figures _ := Device_default_figures;
  dev_read := MemoryDevice_read;
  dev_write := MemoryDevice_write;
  dev_atomic_cas := MemoryDevice_atomic_cas;
  dev_atomic_faa := MemoryDevice_atomic_faa;
  dev_mem := md_data;
  dev_wf d := raw_wf (md_data d) (md_capacity d);
|}.
Proof.
  - by intros d [? _].
  - intros d off len Hwf ??. unfold MemoryDevice_read. raw_device. done.
  - intros d off buf Hwf ???. unfold MemoryDevice_write. raw_device.
    eexists. split; [done|]. split; [split; [by apply raw_wf_write|done]|done].
  - intros d off expect new Hwf ??. unfold MemoryDevice_atomic_cas. raw_device.
    eexists. split; [done|]. split; [split; [|done]|done].
    cbn. case_match; [by apply raw_wf_store|done].
  - intros d off add Hwf ?. unfold MemoryDevice_atomic_faa. raw_device.
    eexists. split; [done|]. split; [split; [by apply raw_wf_store|done]|done].
Defined.

#[global, refine] Instance NpuDevice_device : Device NpuDevice := {|
  dev_kind _ := DeviceKind_Npu;
  dev_device_id := npu_device_id;
  dev_capacity := npu_capacity;
  dev_tier _ := StorageTier_Hot;
  dev_figures := NpuDevice_figures;
  dev_read := NpuDevice_read;
  dev_write := NpuDevice_write;
  dev_atomic_cas := NpuDevice_atomic_cas;
  dev_atomic_faa := NpuDevice_atomic_faa;
  dev_mem := npu_data;
  dev_wf d := raw_wf (npu_data d) (npu_capacity d);
|}.
Proof.
  - by intros d [? _].
  - intros d off len Hwf ??. unfold NpuDevice_read. raw_device. done.
  - intros d off buf Hwf ???. unfold NpuDevice_write. raw_device.
    eexists. split; [done|]. split; [split; [by apply raw_wf_write|done]|done].
  - intros d off expect new Hwf ??. unfold NpuDevice_atomic_cas. raw_device.
    eexists. split; [done|]. split; [split; [|done]|done].
    cbn. case_match; [by apply raw_wf_store|done].
  - intros d off add Hwf ?. unfold NpuDevice_atomic_faa. raw_device.
    eexists. split; [done|]. split; [split; [by apply raw_wf_store|done]|done].
Defined.

(** ** Trait objects *)

(** [dyn Device]: the two implementations of the trait. *)
Inductive DynDevice : Type :=
| DynMemory (d : MemoryDevice)
| DynNpu (d : NpuDevice).

Definition on_dyn {A} (f : MemoryDevice -> A) (g : NpuDevice -> A) (d : DynDevice) : A :=
  match d with
  | DynMemory m => f m
  | DynNpu n => g n
  end.

(** Rewraps a device returned by an operation. *)
Definition rmap {A B} (f : A -> B) (r : Result A) : Result B := let? a := r in Ok (f a).

#[global, refine] Instance DynDevice_device : Device DynDevice := {|
  dev_kind := on_dyn dev_kind dev_kind;
  dev_device_id := on_dyn dev_device_id dev_device_id;
  dev_capacity := on_dyn dev_capacity dev_capacity;
  dev_tier := on_dyn dev_tier dev_tier;
  dev_figures := on_dyn dev_figures dev_figures;
  dev_read d off len := on_dyn (fun m => dev_read m off len) (fun n => dev_read n off len) d;
  dev_write d off buf :=
    on_dyn (fun m => rmap DynMemory (dev_write m off buf))
           (fun n => rmap DynNpu (dev_write n off buf)) d;
  dev_atomic_cas d off expect new :=
    on_dyn (fun m => rmap (fun '(v, m') => (v, DynMemory m')) (dev_atomic_cas m off expect new))
           (fun n => rmap (fun '(v, n') => (v, DynNpu n')) (dev_atomic_cas n off expect new)) d;
  dev_atomic_faa d off add :=
    on_dyn (fun m => rmap (fun '(v, m') => (v, DynMemory m')) (dev_atomic_faa m off add))
           (fun n => rmap (fun '(v, n') => (v, DynNpu n')) (dev_atomic_faa n off add)) d;
  dev_mem := on_dyn dev_mem dev_mem;
  dev_wf := on_dyn dev_wf dev_wf;
|}.
Proof.
  - intros []; apply dev_capacity_spec.
  - intros []; apply dev_read_spec.
  - intros [d|d] off buf Hwf Hoff Hbuf Hlen; cbn [on_dyn] in *;
      pose proof (dev_write_spec d off buf Hwf Hoff Hbuf Hlen) as H;
      destruct (in_bounds _ _ _); [|by rewrite H| |by rewrite H];
      destruct H as (d' & -> & Hs & Hm); by eexists.
  - intros [d|d] off expect new Hwf Hoff Hnew; cbn [on_dyn] in *;
      pose proof (dev_cas_spec d off expect new Hwf Hoff Hnew) as H;
      destruct (negb _); [by rewrite H| |by rewrite H|];
      (destruct (in_bounds _ _ _); [|by rewrite H]);
      destruct H as (d' & -> & Hs & Hm); by eexists.
  - intros [d|d] off add Hwf Hoff; cbn [on_dyn] in *;
      pose proof (dev_faa_spec d off add Hwf Hoff) as H;
      destruct (negb _); [by rewrite H| |by rewrite H|];
      (destruct (in_bounds _ _ _); [|by rewrite H]);
      destruct H as (d' & -> & Hs & Hm); by eexists.
Defined.

(** ** Bump allocation *)

Lemma align_up_spec x k :
  0 <= k < 64 -> 0 <= x -> x + 2 ^ k - 1 < 2 ^ 64 ->
  let a := align_up x (2 ^ k) in a mod 2 ^ k = 0 /\ x <= a < x + 2 ^ k.
Proof.
  intros Hk Hx Hmax. cbv zeta. unfold align_up.
  pose proof (pow2_pos k ltac:(lia)).
  assert (2 ^ k < 2 ^ 64) by (apply Z.pow_lt_mono_r; lia).
  rewrite !wrap_small by (unfold fits; lia).
  rewrite land_bit_not by (unfold fits; lia).
  rewrite land_mask by lia. set (y := x + 2 ^ k - 1).
  pose proof (Z.mod_pos_bound y (2 ^ k) ltac:(lia)).
  pose proof (Z.div_mod y (2 ^ k) ltac:(lia)).
  split; [|lia].
  replace (y - y mod 2 ^ k) with (y / 2 ^ k * 2 ^ k) by lia.
  apply Z.mod_mul. lia.
Qed.

(** One allocation: where the block lies, or why there is none. *)
Lemma NpuDevice_alloc_spec d len k :
  0 <= npu_alloc_cursor d <= npu_capacity d -> npu_capacity d < 2 ^ 62 ->
  0 <= len < 2 ^ 62 -> 0 <= k <= 62 ->
  let a := align_up (npu_alloc_cursor d) (2 ^ k) in
  a mod 2 ^ k = 0 /\ npu_alloc_cursor d <= a < npu_alloc_cursor d + 2 ^ k
  /\ NpuDevice_alloc d len (2 ^ k)
     = if npu_capacity d <? a + len then (Err NoResources, d)
       else (Ok (a, len), mkNpuDevice (npu_device_id d) (npu_data d) (npu_capacity d) (a + len)).
Proof.
  intros Hc Hcap Hlen Hk. cbv zeta.
  assert (2 ^ k <= 2 ^ 62) by (apply Z.pow_le_mono_r; lia).
  destruct (align_up_spec (npu_alloc_cursor d) k) as [Hmod Ha]; [lia..|].
  split; [done|]. split; [done|].
  unfold NpuDevice_alloc. rewrite wrap_small by (unfold fits; lia). done.
Qed.

(** A run of allocation requests [(len, align)], with what each returned. *)
Fixpoint npu_alloc_many (d : NpuDevice) (reqs : list (Z * Z)) : list (Result (Z * Z)) * NpuDevice :=
  match reqs with
  | [] => ([], d)
  | (len, align) :: reqs' =>
    let '(r, d') := NpuDevice_alloc d len align in
    let '(rs, d'') := npu_alloc_many d' reqs' in
    (r :: rs, d'')
  end.

Definition blocks_disjoint (b1 b2 : Z * Z) : Prop :=
  b1.1 + b1.2 <= b2.1 \/ b2.1 + b2.2 <= b1.1.

(** Requests whose sizes do not overflow and whose alignments are powers of two. *)
Definition npu_req_ok (r : Z * Z) : Prop :=
  0 <= r.1 < 2 ^ 62 /\ exists k, 0 <= k <= 62 /\ r.2 = 2 ^ k.

Lemma npu_alloc_many_after d reqs rs d' off len :
  0 <= npu_alloc_cursor d <= npu_capacity d -> npu_capacity d < 2 ^ 62 ->
  Forall npu_req_ok reqs -> npu_alloc_many d reqs = (rs, d') -> Ok (off, len) ∈ rs ->
  npu_alloc_cursor d <= off /\ off + len <= npu_capacity d /\ 0 <= len.
Proof.
  intros Hc Hcap Hreqs. revert d rs d' Hc Hcap.
  induction Hreqs as [|[l al] reqs ((Hl1 & Hl2) & k & Hk & Hal) _ IH]; cbn; intros d rs d' Hc Hcap Hrun Hin.
  { simplify_eq. by apply not_elem_of_nil in Hin. }
  cbn in Hl1, Hl2, Hal. subst al.
  destruct (NpuDevice_alloc_spec d l k) as (Hmod & Ha & Heq); [done..|].
  rewrite Heq in Hrun. destruct (_ <? _) eqn:E; zbool.
  - destruct (npu_alloc_many d reqs) as [rs1 d1] eqn:Hm. simplify_eq.
    apply elem_of_cons in Hin as [?|Hin]; [done|]. by eapply IH.
  - set (d1 := mkNpuDevice _ _ _ _) in Hrun.
    destruct (npu_alloc_many d1 reqs) as [rs1 d2] eqn:Hm. simplify_eq.
    apply elem_of_cons in Hin as [[= -> ->]|Hin]; [lia|].
    destruct (IH d1 rs1 d' ltac:(cbn; lia) ltac:(cbn; lia) Hm Hin) as (? & ? & ?).
    cbn in *. lia.
Qed.

Lemma npu_alloc_many_lt d reqs rs d' i j b1 b2 :
  0 <= npu_alloc_cursor d <= npu_capacity d -> npu_capacity d < 2 ^ 62 ->
  Forall npu_req_ok reqs -> npu_alloc_many d reqs = (rs, d') ->
  rs !! i = Some (Ok b1) -> rs !! j = Some (Ok b2) -> (i < j)%nat ->
  b1.1 + b1.2 <= b2.1.
Proof.
  intros Hc Hcap Hreqs. revert d rs d' i j Hc Hcap.
  induction Hreqs as [|[l al] reqs ((Hl1 & Hl2) & k & Hk & Hal) Hreqs IH];
    cbn; intros d rs d' i j Hc Hcap Hrun Hi Hj Hij.
  { by simplify_eq. }
  cbn in Hl1, Hl2, Hal. subst al.
  destruct (NpuDevice_alloc_spec d l k) as (Hmod & Ha & Heq); [done..|].
  rewrite Heq in Hrun. destruct j as [|j]; [lia|]. destruct (_ <? _) eqn:E; zbool.
  - destruct (npu_alloc_many d reqs) as [rs1 d1] eqn:Hm. simplify_eq.
    destruct i as [|i]; [by simplify_eq|]. eapply (IH d); eauto with lia.
  - set (d1 := mkNpuDevice _ _ _ _) in Hrun.
    destruct (npu_alloc_many d1 reqs) as [rs1 d2] eqn:Hm. simplify_eq. cbn in Hj.
    destruct i as [|i]; cbn in Hi; simplify_eq; cbn.
    + destruct b2 as [o2 l2].
      destruct (npu_alloc_many_after d1 reqs rs1 d' o2 l2) as (? & _);
        [cbn; lia..|done|done|by eapply list_elem_of_lookup_2|]. cbn in *. lia.
    + eapply (IH d1); eauto with lia; cbn; lia.
Qed.

(** The unsigned 64-bit word an atomic verb sees at an offset. *)
Definition dev_word {D} `{Device D} (d : D) (off : Z) : Z := le_value (mem_read (dev_mem d) off 8).

Lemma dev_word_write m off v :
  0 <= off -> u64 v -> in_bounds m off 8 = true ->
  le_value (mem_read (mem_write m off (le_bytes v)) off 8) = v.
Proof.
  intros Hoff Hv Hin. change 8 with (Z.of_nat (length (le_bytes v))) at 1.
  rewrite mem_read_write_same by (rewrite ?length_le_bytes; done). by apply le_value_le_bytes.
Qed.

Lemma in_bounds_iff {D} `{Device D} (d : D) off len :
  dev_wf d -> in_bounds (dev_mem d) off len = true <-> off + len <= dev_capacity d.
Proof. intros Hwf. unfold in_bounds. rewrite (dev_capacity_spec d Hwf). apply Z.leb_le. Qed.

(** ** Properties *)

(** A device is a byte array. An in-range write succeeds, is
    read back by the same range and changes no disjoint range; a range that
    ends beyond the capacity is refused with [AddrInvalid] and nothing panics,
    whatever the offset (also where [offset + len] overflows a [u64]). *)
Theorem device_write_then_read (d : DynDevice) off buf :
  dev_wf d -> u64 off -> Forall u8 buf -> Z.of_nat (length buf) < 2 ^ 63 ->
  if off + Z.of_nat (length buf) <=? dev_capacity d
  then exists d', dev_write d off buf = Ok d' /\ dev_wf d'
       /\ dev_read d' off (Z.of_nat (length buf)) = Ok buf
       /\ (forall off' len', u64 off' -> 0 <= len' < 2 ^ 63 ->
             off' + len' <= off \/ off + Z.of_nat (length buf) <= off' ->
             dev_read d' off' len' = dev_read d off' len')
  else dev_write d off buf = Err AddrInvalid
       /\ dev_read d off (Z.of_nat (length buf)) = Err AddrInvalid.
Proof.
  intros Hwf Hoff Hbuf Hlen. pose proof (dev_write_spec d off buf Hwf Hoff Hbuf Hlen) as Hw.
  rewrite (dev_capacity_spec d Hwf). fold (in_bounds (dev_mem d) off (Z.of_nat (length buf))).
  destruct (in_bounds _ _ _) eqn:Hin.
  - destruct Hw as (d' & Hw & (Hwf' & _) & Hm). exists d'. split; [done|]. split; [done|].
    unfold fits in Hoff.
    assert (Hb : forall o l, in_bounds (dev_mem d') o l = in_bounds (dev_mem d) o l).
    { intros. unfold in_bounds. by rewrite Hm, length_mem_write by (done || lia). }
    split.
    + rewrite dev_read_spec by (done || lia).
      rewrite Hb, Hin, Hm, mem_read_write_same; done || lia.
    + intros off' len' Hoff' Hlen' Hdis. rewrite !dev_read_spec by done. rewrite Hb, Hm.
      unfold fits in Hoff'. by rewrite mem_read_write_disjoint by (done || lia).
  - split; [done|]. rewrite dev_read_spec by (done || lia). by rewrite Hin.
Qed.

Lemma device_write_then_read_witness :
  let d := DynMemory (MemoryDevice_new 16) in
  (exists d', dev_write d 4 [1; 2; 3] = Ok d' /\ dev_read d' 4 3 = Ok [1; 2; 3])
  /\ dev_write d (2 ^ 64 - 1) [7; 8] = Err AddrInvalid.
Proof.
  cbv zeta. set (d := DynMemory (MemoryDevice_new 16)).
  assert (Hwf : dev_wf d) by (split; [reflexivity|split; [reflexivity|repeat constructor; discriminate]]).
  split.
  - destruct (device_write_then_read d 4 [1; 2; 3] Hwf) as (d' & H1 & _ & H2 & _);
      [split; [discriminate|reflexivity] | repeat constructor; discriminate | reflexivity |].
    exists d'. split; [exact H1|exact H2].
  - destruct (device_write_then_read d (2 ^ 64 - 1) [7; 8] Hwf) as [H _];
      [split; [discriminate|reflexivity] | repeat constructor; discriminate | reflexivity |].
    exact H.
Defined.

(** The 8-byte atomics return the old word; compare-and-swap
    stores the new one exactly when the old one was expected, fetch-and-add
    stores the sum modulo 2^64, neither touches any other byte; a misaligned
    offset is refused with [Alignment] before the bounds are looked at. *)
Theorem device_atomics (d : DynDevice) off expect new add :
  dev_wf d -> u64 off -> u64 new ->
  if negb (off mod 8 =? 0)
  then dev_atomic_cas d off expect new = Err Alignment
       /\ dev_atomic_faa d off add = Err Alignment
  else if off + 8 <=? dev_capacity d
  then (exists d', dev_atomic_cas d off expect new = Ok (dev_word d off, d')
          /\ dev_word d' off = (if dev_word d off =? expect then new else dev_word d off)
          /\ forall i, ~ (Z.to_nat off <= i < Z.to_nat off + 8)%nat -> dev_mem d' !! i = dev_mem d !! i)
       /\ (exists d', dev_atomic_faa d off add = Ok (dev_word d off, d')
          /\ dev_word d' off = wrap 64 (dev_word d off + add)
          /\ forall i, ~ (Z.to_nat off <= i < Z.to_nat off + 8)%nat -> dev_mem d' !! i = dev_mem d !! i)
  else dev_atomic_cas d off expect new = Err AddrInvalid
       /\ dev_atomic_faa d off add = Err AddrInvalid.
Proof.
  intros Hwf Hoff Hnew.
  pose proof (dev_cas_spec d off expect new Hwf Hoff Hnew) as Hc.
  pose proof (dev_faa_spec d off add Hwf Hoff) as Hf.
  destruct (negb _); [done|]. rewrite (dev_capacity_spec d Hwf).
  fold (in_bounds (dev_mem d) off 8). destruct (in_bounds _ _ _) eqn:Hin; [|done].
  unfold fits in Hoff.
  assert (Hout : forall v i, ~ (Z.to_nat off <= i < Z.to_nat off + 8)%nat ->
            mem_write (dev_mem d) off (le_bytes v) !! i = dev_mem d !! i).
  { intros v i Hi. rewrite lookup_mem_write by (rewrite ?length_le_bytes; done || lia).
    rewrite length_le_bytes. by case_decide. }
  split.
  - destruct Hc as (d' & -> & _ & Hm). exists d'. split; [done|]. unfold dev_word. rewrite Hm.
    destruct (_ =? expect); [|done]. by rewrite dev_word_write by (done || lia); auto.
  - destruct Hf as (d' & -> & _ & Hm). exists d'. split; [done|]. unfold dev_word. rewrite Hm.
    rewrite dev_word_write by (done || lia || by apply wrap_fits). auto.
Qed.

Lemma device_atomics_witness :
  let d := DynMemory (MemoryDevice_new 16) in
  (exists d', dev_atomic_faa d 8 5 = Ok (0, d') /\ dev_word d' 8 = 5)
  /\ dev_atomic_cas d 3 0 1 = Err Alignment.
Proof.
  cbv zeta. set (d := DynMemory (MemoryDevice_new 16)).
  assert (Hwf : dev_wf d) by (split; [reflexivity|split; [reflexivity|repeat constructor; discriminate]]).
  split.
  - destruct (device_atomics d 8 0 1 5 Hwf) as [_ (d' & H1 & H2 & _)];
      [split; [discriminate|reflexivity] | split; [discriminate|reflexivity] |].
    exists d'. split; [exact H1 | rewrite H2; reflexivity].
  - destruct (device_atomics d 3 0 1 5 Hwf) as [H _];
      [split; [discriminate|reflexivity] | split; [discriminate|reflexivity] |].
    exact H.
Defined.

(** The NPU bump allocator never hands out overlapping blocks:
    over any sequence of requests with power-of-two alignments and sizes that
    do not overflow, two granted blocks are disjoint and every granted block lies
    inside the capacity. *)
Theorem npu_alloc_disjoint d reqs rs d' i j b1 b2 :
  0 <= npu_alloc_cursor d <= npu_capacity d -> npu_capacity d < 2 ^ 62 ->
  Forall npu_req_ok reqs -> npu_alloc_many d reqs = (rs, d') ->
  rs !! i = Some (Ok b1) -> rs !! j = Some (Ok b2) -> i <> j ->
  blocks_disjoint b1 b2 /\ 0 <= b1.1 /\ b1.1 + b1.2 <= npu_capacity d.
Proof.
  intros Hc Hcap Hreqs Hrun Hi Hj Hij. split.
  - destruct (Nat.lt_total i j) as [?|[?|?]]; [left|done|right];
      by eapply npu_alloc_many_lt.
  - destruct b1 as [o l].
    destruct (npu_alloc_many_after d reqs rs d' o l) as (? & ? & ?);
      [done..|by eapply list_elem_of_lookup_2|]. cbn. lia.
Qed.

Lemma npu_alloc_disjoint_witness :
  let d := mkNpuDevice 1 [] 4096 0 in
  blocks_disjoint (0, 100) (128, 64) /\ (npu_alloc_many d [(100, 64); (5000, 8); (64, 64)]).1
    = [Ok (0, 100); Err NoResources; Ok (128, 64)].
Proof.
  cbv zeta. split; [|vm_compute; reflexivity].
  eapply (npu_alloc_disjoint (mkNpuDevice 1 [] 4096 0) [(100, 64); (5000, 8); (64, 64)] _ _ 0 2);
    [split; discriminate | reflexivity | | vm_compute; reflexivity | reflexivity | reflexivity | discriminate].
  repeat constructor; cbn; try discriminate; try reflexivity;
    (exists 6 + exists 3); repeat split; discriminate || reflexivity.
Defined.

(** The overflow case the previous theorem excludes is real:
    from any cursor that is a positive multiple of 8, a request for [2^64 - 8]
    bytes wraps [aligned + len], passes the capacity test, is granted, and
    moves the cursor backwards by 8, over memory already handed out. *)
Theorem npu_alloc_overflow d :
  npu_alloc_cursor d mod 8 = 0 -> 8 <= npu_alloc_cursor d <= npu_capacity d ->
  npu_capacity d < 2 ^ 62 ->
  exists d', NpuDevice_alloc d (2 ^ 64 - 8) 8 = (Ok (npu_alloc_cursor d, 2 ^ 64 - 8), d')
    /\ npu_alloc_cursor d' = npu_alloc_cursor d - 8.
Proof.
  intros Hmod Hc Hcap. destruct (align_up_spec (npu_alloc_cursor d) 3) as [Ha Hb]; [lia..|].
  change (2 ^ 3) with 8 in *. unfold NpuDevice_alloc. cbv zeta.
  replace (align_up (npu_alloc_cursor d) 8) with (npu_alloc_cursor d)
    by (Z.div_mod_to_equations; lia).
  assert (wrap 64 (npu_alloc_cursor d + (2 ^ 64 - 8)) = npu_alloc_cursor d - 8) as ->.
  { unfold wrap. symmetry. apply (Z.mod_unique_pos _ _ 1); lia. }
  rewrite (proj2 (Z.ltb_ge _ _)) by lia. by eexists.
Qed.

Lemma npu_alloc_overflow_witness :
  exists d', NpuDevice_alloc (mkNpuDevice 1 [] 4096 64) (2 ^ 64 - 8) 8
             = (Ok (64, 2 ^ 64 - 8), d') /\ npu_alloc_cursor d' = 56.
Proof.
  apply (npu_alloc_overflow (mkNpuDevice 1 [] 4096 64));
    [reflexivity | split; discriminate | reflexivity].
Defined.
