(* ===== verification/Fabric.v ===== *)
(** * Fabric: datagrams to sessions

    crates/ub-fabric/src: the UDP fabric sorts incoming datagrams by their source
    into the channels of its sessions. The receive loop, [accept], [dial] and the
    readers of the sessions run side by side; each of them is cut at the points
    where another can get in between. The socket is the source of the arrivals;
    sending is a call to it. The entry of an address in [demux] is locked while a
    reference to it is alive; of the locks only the one on the same address is
    modelled, so that the model has the runs of any placement of the addresses. *)

From S2P Require Import Prelude Bytes Types Net.
From stdpp Require Import gmultiset.
#[local] Open Scope Z_scope.

Definition UDP_CHANNEL_SIZE : Z := 1024.

(** Source: crates/ub-fabric/src/peer_addr.rs:6-9, [PeerAddr]. *)
Inductive PeerAddr : Type :=
| PeerAddr_Inet (addr : SocketAddr)
| PeerAddr_Unix (path : bytes).

(** Source: crates/ub-fabric/src/udp.rs:148-152, [UdpSession].
    A session with the channel it reads from; [us_open] while it is alive. *)
Record UdpSession : Type := mkUdpSession {
  us_peer_addr : SocketAddr;
  us_inbound : list bytes;
  us_open : bool;
}.

#[global] Instance UdpSession_settable : Settable UdpSession :=
  fun x => mkUdpSession (us_peer_addr x) (us_inbound x) (us_open x).

(** Where the receive loop stands: waiting for a datagram, sending one to a
    session, about to store one of an unknown peer, about to announce the peer, or
    removing an entry it still holds a reference to. *)
Inductive RecvState : Type :=
| Recv_idle
| Recv_send (src : SocketAddr) (session : nat) (pkt : bytes)
| Recv_push (src : SocketAddr) (pkt : bytes)
| Recv_notify (src : SocketAddr)
| Recv_remove (src : SocketAddr).

(** Where [accept] stands: waiting, with the address of a new peer, with the new
    entry in place, or passing on the stored datagrams. *)
Inductive AcceptState : Type :=
| Accept_idle
| Accept_insert (addr : SocketAddr)
| Accept_take (addr : SocketAddr) (session : nat)
| Accept_deliver (addr : SocketAddr) (session : nat) (pkts : list bytes).

(** Source: crates/ub-fabric/src/udp.rs:19-28, [UdpFabric].
    With the sessions made so far; a channel is named by its session. *)
Record UdpFabric : Type := mkUdpFabric {
  uf_sessions : list UdpSession;
  uf_demux : gmap SocketAddr nat;
  uf_pending : gmap SocketAddr (list bytes);
  uf_new_peers : list SocketAddr;
  uf_recv : RecvState;
  uf_accept : AcceptState;
}.

#[global] Instance UdpFabric_settable : Settable UdpFabric := fun x =>
  mkUdpFabric (uf_sessions x) (uf_demux x) (uf_pending x) (uf_new_peers x) (uf_recv x) (uf_accept x).

(** Source: crates/ub-fabric/src/udp.rs:84-91, [UdpFabric::bind_with_loss].
    A fabric that was just bound. *)
Definition UdpFabric_new : UdpFabric := mkUdpFabric [] ∅ ∅ [] Recv_idle Accept_idle.

(** Source: crates/ub-fabric/src/peer_addr.rs:12-14, [PeerAddr::inet]. *)
Definition PeerAddr_inet (addr : SocketAddr) : PeerAddr := PeerAddr_Inet addr.

(** Source: crates/ub-fabric/src/udp.rs:176-178, [UdpFabric::kind]. *)
Definition UdpFabric_kind (_ : UdpFabric) : bytes := str "udp".

(** Source: crates/ub-fabric/src/udp.rs:180-187, [UdpFabric::listen].
    A listener is the fabric's own tables, whatever address is asked for. *)
Definition UdpFabric_listen (f : UdpFabric) (_local : PeerAddr) : UdpFabric := f.

(** Source: crates/ub-fabric/src/udp.rs:156-158, [UdpSession::peer]. *)
Definition UdpSession_peer (us : UdpSession) : PeerAddr := PeerAddr_Inet (us_peer_addr us).

(** Source: crates/ub-fabric/src/udp.rs:160-163, [UdpSession::send].
    The datagram the socket is given, and [sent], what the socket makes of it. *)
Definition UdpSession_send (us : UdpSession) (pkt : bytes) (sent : Result unit)
  : option (SocketAddr * bytes) * Result unit :=
  match sent with
  | Ok _ => (Some (us_peer_addr us, pkt), Ok tt)
  | Err e => (None, Err e)
  | Panic => (None, Panic)
  end.

(** [sender.send(pkt).await]: [None] while the channel is full, the flag tells
    whether the receiver is alive. *)
Definition channel_send (f : UdpFabric) (session : nat) (pkt : bytes) : option (UdpFabric * bool) :=
  match uf_sessions f !! session with
  | None => Some (f, false)
  | Some us =>
    if negb (us_open us) then Some (f, false)
    else if Z.of_nat (length (us_inbound us)) <? UDP_CHANNEL_SIZE
    then Some (f <| uf_sessions := <[session := us <| us_inbound := us_inbound us ++ [pkt] |>]> (uf_sessions f) |>, true)
    else None
  end.

(** Nobody holds a reference to the entry of [addr]. *)
Definition unlocked (f : UdpFabric) (addr : SocketAddr) : bool :=
  match uf_recv f with
  | Recv_send src _ _ | Recv_remove src => bool_decide (src <> addr)
  | _ => true
  end.

(** Source: crates/ub-fabric/src/udp.rs:52-61, [UdpFabric::bind_with_loss].
    A datagram arrives; [lost] is the outcome of the loss injection. *)
Definition recv_arrive (f : UdpFabric) (src : SocketAddr) (pkt : bytes) (lost : bool) : option UdpFabric :=
  match uf_recv f with
  | Recv_idle =>
    if lost then Some f
    else Some (f <| uf_recv := match uf_demux f !! src with
                              | Some session => Recv_send src session pkt
                              | None => Recv_push src pkt
                              end |>)
  | _ => None
  end.

(** Source: crates/ub-fabric/src/udp.rs:61-75, [UdpFabric::bind_with_loss].
    The next step of the receive loop; [None] while it cannot move. *)
Definition recv_step (f : UdpFabric) : option UdpFabric :=
  match uf_recv f with
  | Recv_idle => None
  | Recv_send src session pkt =>
    '(f, alive) ← channel_send f session pkt;
    Some (f <| uf_recv := if alive : bool then Recv_idle else Recv_remove src |>)
  | Recv_remove src =>
    if unlocked f src then Some (f <| uf_demux := delete src (uf_demux f) |> <| uf_recv := Recv_idle |>) else None
  | Recv_push src pkt =>
    Some (f <| uf_pending := <[src := default [] (uf_pending f !! src) ++ [pkt]]> (uf_pending f) |>
            <| uf_recv := Recv_notify src |>)
  | Recv_notify src =>
    let f := f <| uf_recv := Recv_idle |> in
    Some (if decide (is_Some (uf_demux f !! src)) then f
          else f <| uf_new_peers := uf_new_peers f ++ [src] |>)
  end.

(** A channel and a session that reads from it. *)
Definition new_session (f : UdpFabric) (addr : SocketAddr) : UdpFabric * nat :=
  (f <| uf_sessions := uf_sessions f ++ [mkUdpSession addr [] true] |>
     <| uf_demux := <[addr := length (uf_sessions f)]> (uf_demux f) |>, length (uf_sessions f)).

(** Source: crates/ub-fabric/src/udp.rs:116-144, [UdpListener::accept].
    Its next step, and the session when it returns. *)
Definition accept_step (f : UdpFabric) : option (UdpFabric * option nat) :=
  match uf_accept f with
  | Accept_idle =>
    match uf_new_peers f with
    | addr :: rest => Some (f <| uf_new_peers := rest |> <| uf_accept := Accept_insert addr |>, None)
    | [] => None
    end
  | Accept_insert addr =>
    if unlocked f addr then
      let '(f, session) := new_session f addr in
      Some (f <| uf_accept := Accept_take addr session |>, None)
    else None
  | Accept_take addr session =>
    Some (f <| uf_pending := delete addr (uf_pending f) |>
            <| uf_accept := Accept_deliver addr session (default [] (uf_pending f !! addr)) |>, None)
  | Accept_deliver addr session [] => Some (f <| uf_accept := Accept_idle |>, Some session)
  | Accept_deliver addr session (pkt :: pkts) =>
    match uf_demux f !! addr with
    | None => Some (f <| uf_accept := Accept_deliver addr session [] |>, None)
    | Some sender =>
      '(f, alive) ← channel_send f sender pkt;
      Some (f <| uf_accept := Accept_deliver addr session (if alive : bool then pkts else []) |>, None)
    end
  end.

(** Source: crates/ub-fabric/src/udp.rs:189-202, [UdpFabric::dial]. *)
Definition UdpFabric_dial (f : UdpFabric) (peer : PeerAddr) : option (UdpFabric * Result nat) :=
  match peer with
  | PeerAddr_Inet addr =>
    if unlocked f addr then let '(f, session) := new_session f addr in Some (f, Ok session) else None
  | PeerAddr_Unix _ => Some (f, Err (Internal "UDP fabric does not support Unix sockets"))
  end.

(** Some sender of the channel is left: the entry of its peer, or one a task is
    using. *)
Definition has_sender (f : UdpFabric) (session : nat) : bool :=
  match uf_sessions f !! session with
  | Some us => bool_decide (uf_demux f !! us_peer_addr us = Some session)
               || match uf_recv f with Recv_send _ c _ => bool_decide (c = session) | _ => false end
  | None => false
  end.

(** Source: crates/ub-fabric/src/udp.rs:165-171, [UdpSession::recv].
    [None] while the channel is empty and a sender is left. *)
Definition UdpSession_recv (f : UdpFabric) (session : nat) : option (UdpFabric * Result bytes) :=
  us ← uf_sessions f !! session;
  match us_inbound us with
  | pkt :: rest => Some (f <| uf_sessions := <[session := us <| us_inbound := rest |>]> (uf_sessions f) |>, Ok pkt)
  | [] => if has_sender f session then None else Some (f, Err LinkDown)
  end.

(** Dropping a session closes its channel. *)
Definition UdpSession_drop (f : UdpFabric) (session : nat) : UdpFabric :=
  match uf_sessions f !! session with
  | Some us => f <| uf_sessions := <[session := us <| us_open := false |> <| us_inbound := [] |>]> (uf_sessions f) |>
  | None => f
  end.

(** ** Runs *)

Inductive FabricEvent : Type :=
| Fabric_arrive (src : SocketAddr) (pkt : bytes) (lost : bool)
| Fabric_recv
| Fabric_accept
| Fabric_dial (peer : PeerAddr)
| Fabric_read (session : nat)
| Fabric_drop (session : nat).

(** One event; [None] if it cannot happen now. *)
Definition fabric_step (f : UdpFabric) (ev : FabricEvent) : option UdpFabric :=
  match ev with
  | Fabric_arrive src pkt lost => recv_arrive f src pkt lost
  | Fabric_recv => recv_step f
  | Fabric_accept => fst <$> accept_step f
  | Fabric_dial peer => fst <$> UdpFabric_dial f peer
  | Fabric_read session => fst <$> UdpSession_recv f session
  | Fabric_drop session => Some (UdpSession_drop f session)
  end.

(** The datagram an event brings in, and the one it hands to a reader, each with
    its source. *)
Definition arrival (ev : FabricEvent) : list (SocketAddr * bytes) :=
  match ev with Fabric_arrive src pkt false => [(src, pkt)] | _ => [] end.
Definition delivery (f : UdpFabric) (ev : FabricEvent) : list (SocketAddr * bytes) :=
  match ev with
  | Fabric_read session =>
    match uf_sessions f !! session, UdpSession_recv f session with
    | Some us, Some (_, Ok pkt) => [(us_peer_addr us, pkt)]
    | _, _ => []
    end
  | _ => []
  end.

(** A run from [f]: the events, what arrived and what was delivered, in order. *)
Fixpoint fabric_run (f : UdpFabric) (evs : list FabricEvent)
  : option (UdpFabric * list (SocketAddr * bytes) * list (SocketAddr * bytes)) :=
  match evs with
  | [] => Some (f, [], [])
  | ev :: evs =>
    f' ← fabric_step f ev;
    '(f'', arrived, delivered) ← fabric_run f' evs;
    Some (f'', arrival ev ++ arrived, delivery f ev ++ delivered)
  end.

(** ** Where the datagrams are *)

Abbreviation Datagrams := (gmultiset (SocketAddr * bytes)).

(** A list with its order forgotten. *)
Definition bag (l : list (SocketAddr * bytes)) : Datagrams := list_to_set_disj l.
#[local] Arguments bag : simpl never.

(** Datagrams of one source. *)
Definition from (src : SocketAddr) (pkts : list bytes) : Datagrams := bag (map (pair src) pkts).
#[local] Arguments from : simpl never.

Definition session_held (us : UdpSession) : Datagrams := from (us_peer_addr us) (us_inbound us).
Definition sessions_held (l : list UdpSession) : Datagrams := foldr (fun us m => session_held us ⊎ m) ∅ l.
Definition pending_held (m : gmap SocketAddr (list bytes)) : Datagrams :=
  foldr (fun '(src, pkts) m => from src pkts ⊎ m) ∅ (map_to_list m).
Definition recv_held (r : RecvState) : Datagrams :=
  match r with Recv_send src _ pkt | Recv_push src pkt => {[+ (src, pkt) +]} | _ => ∅ end.
Definition accept_held (a : AcceptState) : Datagrams :=
  match a with Accept_deliver addr _ pkts => from addr pkts | _ => ∅ end.

Definition held (f : UdpFabric) : Datagrams :=
  sessions_held (uf_sessions f) ⊎ pending_held (uf_pending f) ⊎ recv_held (uf_recv f) ⊎ accept_held (uf_accept f).

#[local] Arguments sessions_held : simpl never.
#[local] Arguments pending_held : simpl never.

Lemma bag_nil : bag [] = ∅.
Proof. done. Qed.
Lemma bag_one x : bag [x] = {[+ x +]}.
Proof. unfold bag. cbn [list_to_set_disj foldr]. by rewrite (right_id_L ∅ (⊎)). Qed.
Lemma bag_app l1 l2 : bag (l1 ++ l2) = bag l1 ⊎ bag l2.
Proof. apply list_to_set_disj_app. Qed.

Lemma from_app src l1 l2 : from src (l1 ++ l2) = from src l1 ⊎ from src l2.
Proof. unfold from. by rewrite map_app, bag_app. Qed.
Lemma from_nil src : from src [] = ∅.
Proof. done. Qed.
Lemma from_one src pkt : from src [pkt] = {[+ (src, pkt) +]}.
Proof. apply bag_one. Qed.
Lemma from_cons src pkt l : from src (pkt :: l) = {[+ (src, pkt) +]} ⊎ from src l.
Proof. done. Qed.

Lemma sessions_held_nil : sessions_held [] = ∅.
Proof. done. Qed.
Lemma sessions_held_cons us l : sessions_held (us :: l) = session_held us ⊎ sessions_held l.
Proof. done. Qed.
Lemma sessions_held_app l1 l2 : sessions_held (l1 ++ l2) = sessions_held l1 ⊎ sessions_held l2.
Proof.
  induction l1 as [|us l1 IH]; cbn [app]; rewrite ?sessions_held_nil, ?sessions_held_cons; [multiset_solver|].
  rewrite IH. multiset_solver.
Qed.

Lemma sessions_held_lookup l i us : l !! i = Some us ->
  exists rest, sessions_held l = session_held us ⊎ rest
    /\ forall us', sessions_held (<[i := us']> l) = session_held us' ⊎ rest.
Proof.
  intros Hi. exists (sessions_held (take i l) ⊎ sessions_held (drop (S i) l)). split.
  - rewrite <- (take_drop_middle l i us) at 1 by done. rewrite sessions_held_app, sessions_held_cons. multiset_solver.
  - intros us'. rewrite insert_take_drop by (by eapply lookup_lt_Some). rewrite sessions_held_app, sessions_held_cons. multiset_solver.
Qed.

Lemma pending_fold_perm l1 l2 : l1 ≡ₚ l2 ->
  foldr (fun '(src, pkts) m => from src pkts ⊎ m) (∅ : Datagrams) l1
  = foldr (fun '(src, pkts) m => from src pkts ⊎ m) ∅ l2.
Proof.
  induction 1 as [|[a p] l1 l2 _ IH|[a p] [b q] l|l1 l2 l3 _ IH1 _ IH2]; cbn [foldr]; [done|by rewrite IH| |congruence].
  multiset_solver.
Qed.

Lemma pending_held_delete m src :
  pending_held m = from src (default [] (m !! src)) ⊎ pending_held (delete src m).
Proof.
  destruct (m !! src) as [pkts|] eqn:E.
  - unfold pending_held. rewrite (pending_fold_perm _ _ (Permutation_sym (map_to_list_delete m src pkts E))). done.
  - rewrite delete_id by done. cbn [default]. rewrite from_nil. multiset_solver.
Qed.

Lemma pending_held_insert m src pkts :
  pending_held (<[src := pkts]> m) = from src pkts ⊎ pending_held (delete src m).
Proof. rewrite (pending_held_delete _ src), lookup_insert_eq, delete_insert_eq. done. Qed.

(** ** Datagrams are passed on once and to the right session *)

Ltac bags := rewrite ?bag_nil, ?bag_one, ?from_nil, ?from_one, ?sessions_held_nil; multiset_solver.

Definition session_of (f : UdpFabric) (addr : SocketAddr) (session : nat) : Prop :=
  exists us, uf_sessions f !! session = Some us /\ us_peer_addr us = addr.

(** The entry of an address names a session with that address. *)
Record fabric_ok (f : UdpFabric) : Prop := {
  fo_demux : forall addr session, uf_demux f !! addr = Some session -> session_of f addr session;
  fo_recv : forall src session pkt, uf_recv f = Recv_send src session pkt -> session_of f src session;
}.

(** Sessions keep their place and their peer. *)
Definition keeps_sessions (f f' : UdpFabric) : Prop :=
  forall addr session, session_of f addr session -> session_of f' addr session.

Lemma keeps_same f f' : uf_sessions f' = uf_sessions f -> keeps_sessions f f'.
Proof. intros Hs addr c. unfold session_of. by rewrite Hs. Qed.

Lemma keeps_insert f f' i us us' : uf_sessions f !! i = Some us -> us_peer_addr us' = us_peer_addr us ->
  uf_sessions f' = <[i := us']> (uf_sessions f) -> keeps_sessions f f'.
Proof.
  intros Hi Hp Hs addr c (x & Hc & Ha). unfold session_of. rewrite Hs.
  destruct (decide (i = c)) as [->|Hne].
  - exists us'. split; [by apply list_lookup_insert_eq; eapply lookup_lt_Some|]. congruence.
  - exists x. by rewrite list_lookup_insert_ne.
Qed.

Lemma ok_keeps f f' : fabric_ok f -> keeps_sessions f f' -> uf_demux f' = uf_demux f ->
  (forall src c pkt, uf_recv f' = Recv_send src c pkt -> session_of f src c) -> fabric_ok f'.
Proof. intros [Hd _] Hk He Hr. constructor; rewrite ?He; eauto. Qed.

(** The receive loop sends to the same session as before, or not at all. *)
Lemma ok_same f f' : fabric_ok f -> uf_sessions f' = uf_sessions f -> uf_demux f' = uf_demux f ->
  (uf_recv f' = uf_recv f \/ forall src c pkt, uf_recv f' <> Recv_send src c pkt) -> fabric_ok f'.
Proof.
  intros Hok Hs Hd Hr. apply (ok_keeps f); [done|by apply keeps_same|done|].
  intros src c pkt Hc. destruct Hr as [Hr|Hr]; [|by destruct (Hr src c pkt)].
  rewrite Hr in Hc. by apply (fo_recv f Hok) in Hc.
Qed.

Lemma ok_insert f i us us' : fabric_ok f -> uf_sessions f !! i = Some us -> us_peer_addr us' = us_peer_addr us ->
  fabric_ok (f <| uf_sessions := <[i := us']> (uf_sessions f) |>).
Proof.
  intros Hok Hi Hp.
  assert (Hk : keeps_sessions f (f <| uf_sessions := <[i := us']> (uf_sessions f) |>))
    by (eapply keeps_insert; [exact Hi|exact Hp|reflexivity]).
  apply (ok_keeps f); [done..|]. intros src c pkt Hc. exact (fo_recv f Hok src c pkt Hc).
Qed.

Lemma channel_send_spec f addr c pkt f' alive :
  session_of f addr c -> channel_send f c pkt = Some (f', alive) ->
  keeps_sessions f f' /\ uf_demux f' = uf_demux f /\ uf_pending f' = uf_pending f
  /\ uf_recv f' = uf_recv f /\ uf_accept f' = uf_accept f /\ uf_new_peers f' = uf_new_peers f
  /\ if alive then sessions_held (uf_sessions f') = sessions_held (uf_sessions f) ⊎ {[+ (addr, pkt) +]}
     else f' = f.
Proof.
  intros (us & Hc & Ha). unfold channel_send. rewrite Hc. destruct (us_open us); cbn [negb].
  2: { intros [= <- <-]. split; [by apply keeps_same|done]. }
  case_match; [|done]. intros [= <- <-]. split; [eapply keeps_insert; [eassumption| |reflexivity]; reflexivity|]. split_and!; try done.
  destruct (sessions_held_lookup _ _ _ Hc) as (rest & -> & Hnew). cbn [uf_sessions set_field]. cbn.
  rewrite Hnew. unfold session_held. cbn. rewrite Ha, from_app, from_one. bags.
Qed.

Lemma new_session_spec f addr f' c : new_session f addr = (f', c) -> fabric_ok f -> 
  (forall pkt c, uf_recv f <> Recv_send addr c pkt) ->
  fabric_ok f' /\ session_of f' addr c /\ sessions_held (uf_sessions f') = sessions_held (uf_sessions f)
  /\ uf_pending f' = uf_pending f /\ uf_recv f' = uf_recv f /\ uf_accept f' = uf_accept f.
Proof.
  intros Hnew [Hd Hr] Hno.
  assert (f' = (new_session f addr).1 /\ c = length (uf_sessions f)) as [-> ->] by (by rewrite Hnew; injection Hnew).
  clear Hnew. set (f' := (new_session f addr).1).
  assert (Hk : keeps_sessions f f').
  { intros a c (us & Hc & Ha). exists us. split; [|done]. by apply lookup_app_l_Some. }
  assert (Hnew : session_of f' addr (length (uf_sessions f))).
  { exists (mkUdpSession addr [] true). split; [|done]. cbn. by apply list_lookup_middle. }
  split_and!; try done.
  - constructor.
    + intros a c. cbn. rewrite lookup_insert_Some. intros [[<- <-]|[_ Hc]]; [done|]. apply Hk. eauto.
    + intros src c pkt Hc. apply Hk. by eapply Hr.
  - change (uf_sessions f') with (uf_sessions f ++ [mkUdpSession addr [] true]).
    rewrite sessions_held_app, sessions_held_cons.
    change (session_held (mkUdpSession addr [] true)) with (from addr []). bags.
Qed.

Lemma unlocked_free f addr : unlocked f addr = true -> forall pkt c, uf_recv f <> Recv_send addr c pkt.
Proof. unfold unlocked. intros Hu pkt c Hr. rewrite Hr in Hu. by apply bool_decide_eq_true in Hu. Qed.

(** One step moves datagrams, or loses them. *)
Definition moves (f : UdpFabric) (came gone : list (SocketAddr * bytes)) (f' : UdpFabric) : Prop :=
  fabric_ok f' /\ held f' ⊎ bag gone ⊆ held f ⊎ bag came.

Lemma recv_arrive_moves f src pkt lost f' : fabric_ok f -> recv_arrive f src pkt lost = Some f' ->
  moves f (arrival (Fabric_arrive src pkt lost)) [] f'.
Proof.
  intros Hok. unfold recv_arrive. destruct (uf_recv f) eqn:Er; try done.
  destruct lost; intros [= <-].
  - split; [done|]. cbn. bags.
  - split.
    + apply (ok_keeps f); [done|by apply keeps_same|done|]. cbn. intros s c p.
      destruct (uf_demux f !! src) eqn:Ed; [|done]. intros [= <- <- <-]. by apply (fo_demux f Hok).
    + unfold held. cbn. rewrite Er. destruct (uf_demux f !! src); cbn; bags.
Qed.

Lemma recv_step_moves f f' : fabric_ok f -> recv_step f = Some f' -> moves f [] [] f'.
Proof.
  intros Hok. unfold recv_step. destruct (uf_recv f) as [|src c pkt|src pkt|src|src] eqn:Er; [done|..].
  - destruct (channel_send f c pkt) as [[f1 alive]|] eqn:Es; [|done]. cbn. intros [= <-].
    destruct (channel_send_spec f src c pkt f1 alive (fo_recv f Hok _ _ _ Er) Es)
      as (Hk & Hd & Hp & Hr & Ha & Hn & Hs).
    split; [apply (ok_keeps f); [done|exact Hk|exact Hd|by destruct alive]|].
    unfold held. cbn. rewrite Hp, Ha, Er. destruct alive; cbn.
    + rewrite Hs. bags.
    + subst f1. bags.
  - intros [= <-]. split; [apply (ok_same f); auto; by right|]. unfold held. cbn. rewrite Er, pending_held_insert.
    rewrite (pending_held_delete (uf_pending f) src), from_app, from_one. bags.
  - intros [= <-]. case_decide; (split; [apply (ok_same f); auto; by right|]); unfold held; cbn; rewrite Er; bags.
  - unfold unlocked. rewrite Er, bool_decide_false by by intros []. done.
Qed.

Lemma accept_step_moves f f' r : fabric_ok f -> accept_step f = Some (f', r) -> moves f [] [] f'.
Proof.
  intros Hok. unfold accept_step.
  destruct (uf_accept f) as [|addr|addr c|addr c [|pkt pkts]] eqn:Ea.
  - destruct (uf_new_peers f); [done|]. intros [= <- <-]. split; [apply (ok_same f); auto|].
    unfold held. cbn. rewrite Ea. bags.
  - destruct (unlocked f addr) eqn:Eu; [|done].
    destruct (new_session f addr) as [f1 c] eqn:En. intros [= <- <-].
    destruct (new_session_spec f addr f1 c En Hok (unlocked_free f addr Eu)) as ([Hd Hr] & _ & Hs & Hp & Hre & _).
    split; [by constructor|]. unfold held. cbn. rewrite Hs, Hp, Hre, Ea. bags.
  - intros [= <- <-]. split; [apply (ok_same f); auto|]. unfold held. cbn. rewrite Ea.
    rewrite (pending_held_delete (uf_pending f) addr). cbn. bags.
  - intros [= <- <-]. split; [apply (ok_same f); auto|]. unfold held. cbn. rewrite Ea.
    cbn. rewrite from_nil. bags.
  - destruct (uf_demux f !! addr) as [c'|] eqn:Ed.
    + destruct (channel_send f c' pkt) as [[f1 alive]|] eqn:Es; [|done]. cbn. intros [= <- <-].
      destruct (channel_send_spec f addr c' pkt f1 alive (fo_demux f Hok _ _ Ed) Es)
        as (Hk & Hd & Hp & Hr & Ha & Hn & Hs).
      split; [apply (ok_keeps f); [done|exact Hk|exact Hd|]; cbn; rewrite Hr; apply Hok|].
      unfold held. cbn. rewrite Hp, Hr, Ea. cbn [accept_held]. rewrite from_cons. destruct alive.
      * rewrite Hs. bags.
      * subst f1. rewrite from_nil. bags.
    + intros [= <- <-]. split; [apply (ok_same f); auto|]. unfold held. cbn. rewrite Ea.
      cbn [accept_held]. rewrite from_cons. rewrite from_nil. bags.
Qed.

Lemma fabric_step_moves f ev f' : fabric_ok f -> fabric_step f ev = Some f' ->
  moves f (arrival ev) (delivery f ev) f'.
Proof.
  intros Hok Hs. destruct ev as [src pkt lost| | |peer|c|c]; cbn [fabric_step arrival delivery] in *.
  - exact (recv_arrive_moves f src pkt lost f' Hok Hs).
  - by apply recv_step_moves.
  - destruct (accept_step f) as [[f1 r]|] eqn:E; [|done]. injection Hs as <-. by eapply accept_step_moves.
  - destruct peer as [addr|path]; unfold UdpFabric_dial in Hs; [|injection Hs as <-; split; [done|]; bags].
    destruct (unlocked f addr) eqn:Eu; [|done]. destruct (new_session f addr) as [f1 c] eqn:En.
    apply (inj Some) in Hs. cbn [fst] in Hs. subst f'.
    destruct (new_session_spec f addr f1 c En Hok (unlocked_free f addr Eu)) as (Hok1 & _ & Hsh & Hp & Hre & Ha).
    split; [done|]. unfold held. cbn. rewrite Hsh, Hp, Hre, Ha. bags.
  - unfold UdpSession_recv in *. destruct (uf_sessions f !! c) as [us|] eqn:Ec; [|done]. cbn in *.
    destruct (us_inbound us) as [|pkt rest] eqn:Ei.
    + destruct (has_sender f c); [done|]. injection Hs as <-. split; [done|]. cbn. bags.
    + injection Hs as <-. cbn [fst]. split; [by eapply (ok_insert f)|].
      destruct (sessions_held_lookup _ _ _ Ec) as (others & Ho & Hnew). unfold held. cbn. rewrite Ho, Hnew.
      unfold session_held. cbn. rewrite Ei, from_cons. bags.
  - injection Hs as <-. unfold UdpSession_drop. destruct (uf_sessions f !! c) as [us|] eqn:Ec.
    + split; [by eapply (ok_insert f)|].
      destruct (sessions_held_lookup _ _ _ Ec) as (others & Ho & Hnew). unfold held. cbn. rewrite Ho, Hnew.
      unfold session_held. cbn. rewrite from_nil. bags.
    + split; [done|]. cbn. bags.
Qed.

Lemma fabric_run_moves f evs f' arrived delivered : fabric_ok f ->
  fabric_run f evs = Some (f', arrived, delivered) ->
  fabric_ok f' /\ held f' ⊎ bag delivered ⊆ held f ⊎ bag arrived.
Proof.
  revert f f' arrived delivered. induction evs as [|ev evs IH]; intros f f' arrived delivered Hok Hrun; cbn in Hrun.
  - injection Hrun as <- <- <-. done.
  - destruct (fabric_step f ev) as [f1|] eqn:Es; [|done]. cbn in Hrun.
    destruct (fabric_run f1 evs) as [[[f2 a2] d2]|] eqn:Er; [|done]. cbn in Hrun. injection Hrun as <- <- <-.
    destruct (fabric_step_moves f ev f1 Hok Es) as [Hok1 Hm1].
    destruct (IH f1 f2 a2 d2 Hok1 Er) as [Hok2 Hm2]. split; [done|].
    rewrite !bag_app. bags.
Qed.

(** C21 (safety): A datagram reaches one reader at most, and the right one. In every
    run of the fabric (any interleaving of arriving datagrams, the steps of the
    receive loop, [accept], [dial] and the readers, with sessions replaced and
    dropped at any time), the datagrams the sessions have returned, each with the
    address of its session, are among the datagrams that arrived, each with its
    source, counted with repetition: nothing is made up, delivered twice or given
    to the session of another peer. *)
Theorem fabric_delivers_once (evs : list FabricEvent) (f : UdpFabric) (arrived delivered : list (SocketAddr * bytes)) :
  fabric_run UdpFabric_new evs = Some (f, arrived, delivered) ->
  bag delivered ⊆ bag arrived.
Proof.
  intros Hrun. destruct (fabric_run_moves _ _ _ _ _ (Build_fabric_ok UdpFabric_new ltac:(done) ltac:(done)) Hrun)
    as [_ Hm]. unfold held at 2 in Hm. cbn in Hm. unfold pending_held in Hm. rewrite map_to_list_empty in Hm.
  cbn in Hm. bags.
Qed.

(** ** Examples *)

Definition peer_a : SocketAddr := SocketAddr_V4 [10; 0; 0; 1] 7000.
Definition peer_b : SocketAddr := SocketAddr_V4 [10; 0; 0; 2] 7000.

(** A session is dialed to one peer, another peer is accepted. *)
Definition sample_events : list FabricEvent :=
  [Fabric_dial (PeerAddr_Inet peer_a); Fabric_arrive peer_a [1] false; Fabric_recv;
   Fabric_arrive peer_b [2] false; Fabric_recv; Fabric_recv; Fabric_arrive peer_b [3] true;
   Fabric_accept; Fabric_accept; Fabric_accept; Fabric_accept; Fabric_accept;
   Fabric_arrive peer_b [4] false; Fabric_recv; Fabric_read 1; Fabric_read 0; Fabric_read 1].

Lemma fabric_delivers_once_witness : exists f,
  fabric_run UdpFabric_new sample_events
  = Some (f, [(peer_a, [1]); (peer_b, [2]); (peer_b, [4])], [(peer_b, [2]); (peer_a, [1]); (peer_b, [4])])
  /\ bag [(peer_b, [2]); (peer_a, [1]); (peer_b, [4])] ⊆ bag [(peer_a, [1]); (peer_b, [2]); (peer_b, [4])].
Proof.
  destruct (fabric_run UdpFabric_new sample_events) as [[[f a] d]|] eqn:E; [|exfalso; vm_compute in E; discriminate E].
  assert (a = [(peer_a, [1]); (peer_b, [2]); (peer_b, [4])] /\ d = [(peer_b, [2]); (peer_a, [1]); (peer_b, [4])])
    as [-> ->] by (vm_compute in E; by injection E as _ <- <-).
  exists f. split; [reflexivity|]. exact (fabric_delivers_once sample_events f _ _ E).
Defined.

(** ** What the fabric gets wrong *)

(** The state after some events, and what was delivered. *)
Definition after (evs : list FabricEvent) : UdpFabric :=
  match fabric_run UdpFabric_new evs with Some (f, _, _) => f | None => UdpFabric_new end.
Definition delivered_by (evs : list FabricEvent) : option (list (SocketAddr * bytes)) :=
  snd <$> fabric_run UdpFabric_new evs.

Definition accept_all : list FabricEvent := repeat Fabric_accept 4.

(** Two datagrams of a new peer before [accept] announce it twice: the second
    [accept] replaces the session of the first, whose reader gets the two datagrams
    and then an error, while its peer goes on sending. *)
Theorem announced_twice :
  let f := after ([Fabric_arrive peer_a [1] false; Fabric_recv; Fabric_recv;
                   Fabric_arrive peer_a [2] false; Fabric_recv; Fabric_recv]
                  ++ accept_all ++ [Fabric_accept; Fabric_accept; Fabric_accept; Fabric_accept; Fabric_accept]
                  ++ [Fabric_arrive peer_a [3] false; Fabric_recv; Fabric_read 0; Fabric_read 0]) in
  snd <$> UdpSession_recv f 0 = Some (Err LinkDown) /\ snd <$> UdpSession_recv f 1 = Some (Ok [3]).
Proof. vm_compute. split; reflexivity. Qed.

(** A datagram for a session that was dropped: the receive loop removes the entry
    while it holds a reference to it and never gets any further; no datagram of any
    peer is received again. *)
Theorem dropped_session_blocks_fabric :
  let f := after [Fabric_dial (PeerAddr_Inet peer_a); Fabric_drop 0; Fabric_arrive peer_a [1] false; Fabric_recv] in
  recv_step f = None /\ forall src pkt lost, recv_arrive f src pkt lost = None.
Proof. split; reflexivity. Qed.

(** A datagram can be stored after [accept] took the stored ones: it stays there and
    nobody is told. *)
Theorem datagram_stranded :
  let f := after ([Fabric_arrive peer_a [1] false; Fabric_recv; Fabric_recv; Fabric_arrive peer_a [2] false]
                  ++ accept_all ++ [Fabric_accept; Fabric_recv; Fabric_recv; Fabric_read 0]) in
  uf_pending f !! peer_a = Some [[2]] /\ uf_new_peers f = [] /\ uf_recv f = Recv_idle
  /\ uf_accept f = Accept_idle /\ UdpSession_recv f 0 = None.
Proof. vm_compute. split_and!; reflexivity. Qed.

(** Datagrams that arrive while [accept] passes on the stored ones overtake them. *)
Theorem stored_datagram_overtaken :
  delivered_by ([Fabric_arrive peer_a [1] false; Fabric_recv; Fabric_recv; Fabric_accept; Fabric_accept;
                 Fabric_arrive peer_a [2] false; Fabric_recv; Fabric_accept; Fabric_accept; Fabric_accept;
                 Fabric_read 0; Fabric_read 0])
  = Some [(peer_a, [2]); (peer_a, [1])].
Proof. vm_compute. reflexivity. Qed.
