(* ===== verification/Mr.v ===== *)
(** * Mr: memory regions

    crates/ub-core/src/mr.rs: the local table of registered memory regions and
    the cache of remote ones. An [MrEntry] lives behind an [Arc] and outlives
    its removal from the table, so entries sit in a heap, an [Arc] is its index
    and the table maps handles to indices. The device of an entry is an index
    into the node's devices, shared by all regions on it. [deregister_async]
    is split at its only [await]. *)

From S2P Require Import Prelude Bytes Types Addr Device.

(** ** Data *)

(** Source: crates/ub-core/src/mr.rs:14-25, [MrEntry]. *)
Record MrEntry : Type := mkMrEntry {
  me_handle : Z;
  me_device : nat;
  me_base_offset : Z;
  me_len : Z;
  me_perms : Z;
  me_base_ub_addr : Z;
  me_state : MrState;
  me_inflight_refs : Z;
}.

(** Source: crates/ub-core/src/mr.rs:86-93, [MrPublishInfo]. *)
Record MrPublishInfo : Type := mkMrPublishInfo {
  pi_mr_handle : Z;
  pi_owner_node : Z;
  pi_base_ub_addr : Z;
  pi_len : Z;
  pi_perms : Z;
  pi_device_kind : DeviceKind;
}.

(** Source: crates/ub-core/src/mr.rs:96-99, [MrPublishEvent]. *)
Inductive MrPublishEvent : Type :=
| MrPublishEvent_Publish (info : MrPublishInfo)
| MrPublishEvent_Revoke (owner_node mr_handle : Z).

(** Source: crates/ub-core/src/mr.rs:119-127, [MrTable].
    [mt_publish] is what was sent into the event channel, when there is one. *)
Record MrTable : Type := mkMrTable {
  mt_heap : list MrEntry;
  mt_entries : gmap Z nat;
  mt_next_handle : Z;
  mt_allocators : gmap Z Z;
  mt_pod_id : Z;
  mt_node_id : Z;
  mt_publish : option (list MrPublishEvent);
}.

#[global] Instance MrEntry_settable : Settable MrEntry :=
  fun x => mkMrEntry (me_handle x) (me_device x) (me_base_offset x) (me_len x) (me_perms x)
    (me_base_ub_addr x) (me_state x) (me_inflight_refs x).
#[global] Instance MrTable_settable : Settable MrTable :=
  fun x => mkMrTable (mt_heap x) (mt_entries x) (mt_next_handle x) (mt_allocators x)
    (mt_pod_id x) (mt_node_id x) (mt_publish x).

(** ** Entries *)

(** Source: crates/ub-core/src/mr.rs:42-48, [MrEntry::try_inflight_inc]. *)
Definition MrEntry_try_inflight_inc (e : MrEntry) : MrEntry * bool :=
  if decide (me_state e <> MrState_Active) then (e, false)
  else (e <| me_inflight_refs := me_inflight_refs e + 1 |>, true).

(** Source: crates/ub-core/src/mr.rs:50-56, [MrEntry::inflight_dec].
    The flag says whether the waiters are notified. *)
Definition MrEntry_inflight_dec (e : MrEntry) : MrEntry * bool :=
  let prev := me_inflight_refs e in
  (e <| me_inflight_refs := me_inflight_refs e - 1 |>, prev =? 1).

(** The permission a verb needs. *)
Definition required_perm (verb : Verb) : Z :=
  match verb with
  | Verb_ReadReq | Verb_ReadResp => MrPerms_READ
  | Verb_Write | Verb_WriteImm => MrPerms_WRITE
  | Verb_AtomicCas | Verb_AtomicFaa | Verb_AtomicCasResp | Verb_AtomicFaaResp => MrPerms_ATOMIC
  | Verb_Send => MrPerms_WRITE
  end.

(** Source: crates/ub-core/src/mr.rs:68-80, [MrEntry::check_perms]. *)
Definition MrEntry_check_perms (e : MrEntry) (verb : Verb) : Result unit :=
  if flags_contains (me_perms e) (required_perm verb) then Ok tt else Err PermDenied.

(** ** The table *)

(** Source: crates/ub-core/src/mr.rs:130-143, [MrTable::new]. *)
Definition MrTable_new (pod_id node_id : Z) : MrTable :=
  mkMrTable [] ∅ 1 {[ 0 := 0 ]} pod_id node_id None.

(** Source: crates/ub-core/src/mr.rs:147-152, [MrTable::new_with_channel]. *)
Definition MrTable_new_with_channel (pod_id node_id : Z) : MrTable :=
  (MrTable_new pod_id node_id) <| mt_publish := Some [] |>.

(** [if let Some(ref tx) = self.publish_tx { let _ = tx.send(ev); }] *)
Definition publish (t : MrTable) (ev : MrPublishEvent) : MrTable :=
  match mt_publish t with
  | Some evs => t <| mt_publish := Some (evs ++ [ev]) |>
  | None => t
  end.

(** Source: crates/ub-core/src/mr.rs:111-115, [OffsetAllocator::alloc]. *)
Definition OffsetAllocator_alloc (next len align : Z) : Z * Z :=
  let aligned := align_up next align in
  (aligned, wrap 64 (aligned + len)).

(** Source: crates/ub-core/src/mr.rs:155-215, [MrTable::register].
    [device] is the shared device, an index into [devices]. *)
Definition MrTable_register (t : MrTable) (devices : list DynDevice) (device : nat)
    (len perms : Z) : Result (MrTable * (Z * Z)) :=
  if len =? 0 then Err AddrInvalid
  else
    match devices !! device with
    | None => Panic
    | Some d =>
      let device_id := dev_device_id d in
      let next := default 0 (mt_allocators t !! device_id) in
      let '(offset, next) := OffsetAllocator_alloc next len 8 in
      let t := t <| mt_allocators := <[device_id := next]> (mt_allocators t) |> in
      let handle := mt_next_handle t in
      let t := t <| mt_next_handle := wrap 32 (mt_next_handle t + 1) |> in
      let base_ub_addr := UbAddr_new (mt_pod_id t) (mt_node_id t) device_id offset 0 in
      let entry := mkMrEntry handle device offset len perms base_ub_addr MrState_Active 0 in
      let arc := length (mt_heap t) in
      let t := t <| mt_heap := mt_heap t ++ [entry] |>
                 <| mt_entries := <[handle := arc]> (mt_entries t) |> in
      let t := publish t (MrPublishEvent_Publish
        (mkMrPublishInfo handle (mt_node_id t) base_ub_addr len perms (dev_kind d))) in
      Ok (t, (base_ub_addr, handle))
    end.

(** Assigning through an [Arc]. *)
Definition arc_set_state (t : MrTable) (arc : nat) (st : MrState) : MrTable :=
  match mt_heap t !! arc with
  | Some e => t <| mt_heap := <[arc := e <| me_state := st |>]> (mt_heap t) |>
  | None => t
  end.

Definition mr_busy : UbError := Internal "MR is already being deregistered or released".

(** Source: crates/ub-core/src/mr.rs:220-252, [MrTable::deregister]. *)
Definition MrTable_deregister (t : MrTable) (handle : Z) : Result MrTable :=
  match mt_entries t !! handle with
  | None => Err AddrInvalid
  | Some arc =>
    match mt_heap t !! arc with
    | None => Panic
    | Some entry =>
      if decide (me_state entry = MrState_Active) then
        let t := arc_set_state t arc MrState_Revoking in
        let t := publish t (MrPublishEvent_Revoke (mt_node_id t) handle) in
        Ok (t <| mt_entries := delete handle (mt_entries t) |>)
      else Err mr_busy
    end
  end.

(** Source: crates/ub-core/src/mr.rs:257-283, [MrTable::deregister_async].
    Up to the wait: [Some arc] when references are in flight. *)
Definition MrTable_deregister_async_start (t : MrTable) (handle : Z)
  : Result (MrTable * option nat) :=
  match mt_entries t !! handle with
  | None => Err AddrInvalid
  | Some arc =>
    match mt_heap t !! arc with
    | None => Panic
    | Some entry =>
      if decide (me_state entry = MrState_Active) then
        let t := arc_set_state t arc MrState_Revoking in
        let t := publish t (MrPublishEvent_Revoke (mt_node_id t) handle) in
        if 0 <? me_inflight_refs entry then Ok (t, Some arc)
        else
          let t := arc_set_state t arc MrState_Released in
          Ok (t <| mt_entries := delete handle (mt_entries t) |>, None)
      else Err mr_busy
    end
  end.

(** Source: crates/ub-core/src/mr.rs:284-302, [MrTable::deregister_async].
    After the wait, which ended by the notification or by the timeout. *)
Definition MrTable_deregister_async_finish (t : MrTable) (handle : Z) (arc : nat)
    (timed_out : bool) : MrTable * Result unit :=
  let t := arc_set_state t arc MrState_Released in
  let t := t <| mt_entries := delete handle (mt_entries t) |> in
  (t, if timed_out then Err Timeout else Ok tt).

(** Source: crates/ub-core/src/mr.rs:306-308, [MrTable::lookup]. *)
Definition MrTable_lookup (t : MrTable) (handle : Z) : option nat := mt_entries t !! handle.

(** The test of [lookup_by_addr] on one region: the offset inside it. *)
Definition addr_in_region (base_ub_addr len addr : Z) : option Z :=
  if (UbAddr_node_id base_ub_addr =? UbAddr_node_id addr)
     && (UbAddr_device_id base_ub_addr =? UbAddr_device_id addr)
  then
    let mr_start := UbAddr_offset base_ub_addr in
    let mr_end := wrap 64 (mr_start + len) in
    let req_offset := UbAddr_offset addr in
    if (mr_start <=? req_offset) && (req_offset <? mr_end)
    then Some (req_offset - mr_start) else None
  else None.

(** The [for] loop with its early return: the first hit. *)
Fixpoint first_hit {A B} (f : A -> option B) (l : list A) : option B :=
  match l with
  | [] => None
  | x :: l => match f x with Some b => Some b | None => first_hit f l end
  end.

(** Source: crates/ub-core/src/mr.rs:311-327, [MrTable::lookup_by_addr]. *)
Definition MrTable_lookup_by_addr (t : MrTable) (addr : Z) : option (nat * Z) :=
  first_hit (fun kv : Z * nat =>
    e ← mt_heap t !! kv.2;
    offset_in_mr ← addr_in_region (me_base_ub_addr e) (me_len e) addr;
    Some (kv.2, offset_in_mr)) (map_to_list (mt_entries t)).

(** Source: crates/ub-core/src/mr.rs:330-332, [MrTable::list]. *)
Definition MrTable_list (t : MrTable) : list nat := map snd (map_to_list (mt_entries t)).

(** ** The cache of remote regions *)

(** Source: crates/ub-core/src/mr.rs:337-344, [MrCacheEntry]. *)
Record MrCacheEntry : Type := mkMrCacheEntry {
  mc_remote_mr_handle : Z;
  mc_owner_node : Z;
  mc_base_ub_addr : Z;
  mc_len : Z;
  mc_perms : Z;
  mc_device_kind : DeviceKind;
}.

(** Source: crates/ub-core/src/mr.rs:347-356, [MrCacheTable]. *)
Definition MrCacheTable : Type := gmap (Z * Z) MrCacheEntry.
Definition MrCacheTable_new : gmap (Z * Z) MrCacheEntry := ∅.

(** Source: crates/ub-core/src/mr.rs:358-361, [MrCacheTable::insert]. *)
Definition MrCacheTable_insert (t : gmap (Z * Z) MrCacheEntry) (entry : MrCacheEntry)
  : gmap (Z * Z) MrCacheEntry :=
  <[(mc_owner_node entry, mc_remote_mr_handle entry) := entry]> t.

(** Source: crates/ub-core/src/mr.rs:363-365, [MrCacheTable::remove]. *)
Definition MrCacheTable_remove (t : gmap (Z * Z) MrCacheEntry) (owner_node mr_handle : Z)
  : gmap (Z * Z) MrCacheEntry :=
  delete (owner_node, mr_handle) t.

(** Source: crates/ub-core/src/mr.rs:367-382, [MrCacheTable::lookup_by_addr]. *)
Definition MrCacheTable_lookup_by_addr (t : gmap (Z * Z) MrCacheEntry) (addr : Z)
  : option MrCacheEntry :=
  first_hit (fun kv : (Z * Z) * MrCacheEntry =>
    _ ← addr_in_region (mc_base_ub_addr kv.2) (mc_len kv.2) addr; Some kv.2) (map_to_list t).

(** Source: crates/ub-core/src/mr.rs:384-386, [MrCacheTable::list]. *)
Definition MrCacheTable_list (t : gmap (Z * Z) MrCacheEntry) : list MrCacheEntry :=
  map snd (map_to_list t).

(** ** The table as a state machine *)

(** Everything that changes the table or an entry. *)
Inductive MrOp : Type :=
| MrOp_register (device : nat) (len perms : Z)
| MrOp_deregister (handle : Z)
| MrOp_deregister_async_start (handle : Z)
| MrOp_deregister_async_finish (handle : Z) (arc : nat) (timed_out : bool)
| MrOp_inflight_inc (arc : nat)
| MrOp_inflight_dec (arc : nat).

Definition arc_update (t : MrTable) (arc : nat) (f : MrEntry -> MrEntry) : MrTable :=
  t <| mt_heap := alter f arc (mt_heap t) |>.

Definition mr_step (devices : list DynDevice) (t : MrTable) (op : MrOp) : MrTable :=
  match op with
  | MrOp_register device len perms =>
    match MrTable_register t devices device len perms with Ok (t', _) => t' | _ => t end
  | MrOp_deregister handle =>
    match MrTable_deregister t handle with Ok t' => t' | _ => t end
  | MrOp_deregister_async_start handle =>
    match MrTable_deregister_async_start t handle with Ok (t', _) => t' | _ => t end
  | MrOp_deregister_async_finish handle arc timed_out =>
    (MrTable_deregister_async_finish t handle arc timed_out).1
  | MrOp_inflight_inc arc => arc_update t arc (fun e => (MrEntry_try_inflight_inc e).1)
  | MrOp_inflight_dec arc => arc_update t arc (fun e => (MrEntry_inflight_dec e).1)
  end.

(** The call is within the types, and a registration does not exhaust the
    64-bit offsets of its device or the 32-bit handles. *)
Definition mr_op_ok (devices : list DynDevice) (t : MrTable) (op : MrOp) : Prop :=
  match op with
  | MrOp_register device len perms =>
    0 <= len /\ mt_next_handle t + 1 < 2 ^ 32
    /\ forall d, devices !! device = Some d ->
         u16 (dev_device_id d)
         /\ default 0 (mt_allocators t !! dev_device_id d) + 8 + len < 2 ^ 64
  | _ => True
  end.

Inductive mr_reachable (devices : list DynDevice) (pod node : Z) : MrTable -> Prop :=
| mr_reachable_new : mr_reachable devices pod node (MrTable_new_with_channel pod node)
| mr_reachable_step t op :
    mr_reachable devices pod node t -> mr_op_ok devices t op ->
    mr_reachable devices pod node (mr_step devices t op).

(** ** Invariant *)

Definition me_device_id (e : MrEntry) : Z := UbAddr_device_id (me_base_ub_addr e).

(** The bytes of two regions do not overlap, when they lie on one device. *)
Definition me_disjoint (e1 e2 : MrEntry) : Prop :=
  me_device_id e1 = me_device_id e2 ->
  me_base_offset e1 + me_len e1 <= me_base_offset e2
  \/ me_base_offset e2 + me_len e2 <= me_base_offset e1.

Record entry_wf (t : MrTable) (e : MrEntry) : Prop := {
  ew_len : 0 < me_len e;
  ew_base : 0 <= me_base_offset e;
  ew_align : me_base_offset e mod 8 = 0;
  ew_dev : u16 (me_device_id e);
  ew_addr : me_base_ub_addr e
            = UbAddr_new (mt_pod_id t) (mt_node_id t) (me_device_id e) (me_base_offset e) 0;
  ew_alloc : exists next, mt_allocators t !! me_device_id e = Some next
             /\ me_base_offset e + me_len e <= next < 2 ^ 64;
  ew_handle : 1 <= me_handle e < mt_next_handle t;
}.

Record mr_ok (t : MrTable) : Prop := {
  mo_ids : u16 (mt_pod_id t) /\ u16 (mt_node_id t);
  mo_next : 1 <= mt_next_handle t < 2 ^ 32;
  mo_alloc : forall d next, mt_allocators t !! d = Some next -> 0 <= next < 2 ^ 64;
  mo_entries : forall i e, mt_heap t !! i = Some e -> entry_wf t e;
  mo_disjoint : forall i j e1 e2, mt_heap t !! i = Some e1 -> mt_heap t !! j = Some e2 ->
    i <> j -> me_disjoint e1 e2 /\ me_handle e1 <> me_handle e2;
  mo_table : forall h i, mt_entries t !! h = Some i ->
    exists e, mt_heap t !! i = Some e /\ me_handle e = h;
}.

(** Two versions of one entry: only the state and the references differ. *)
Definition same_region (e e' : MrEntry) : Prop :=
  me_handle e' = me_handle e /\ me_device e' = me_device e
  /\ me_base_offset e' = me_base_offset e /\ me_len e' = me_len e
  /\ me_perms e' = me_perms e /\ me_base_ub_addr e' = me_base_ub_addr e.

(** The state of an entry only moves forward. *)
Definition state_rank (s : MrState) : Z :=
  match s with
  | MrState_Active => 0
  | MrState_Revoking => 1
  | MrState_Released => 2
  end.

(** [t'] is [t] with entries changed in state and references only, and with
    handles possibly removed. *)
Record mr_shrinks (t t' : MrTable) : Prop := {
  ms_heap : forall i, match mt_heap t' !! i with
                      | Some e' => exists e, mt_heap t !! i = Some e /\ same_region e e'
                          /\ state_rank (me_state e) <= state_rank (me_state e')
                      | None => mt_heap t !! i = None
                      end;
  ms_table : mt_entries t' ⊆ mt_entries t;
  ms_next : mt_next_handle t' = mt_next_handle t;
  ms_alloc : mt_allocators t' = mt_allocators t;
  ms_pod : mt_pod_id t' = mt_pod_id t;
  ms_node : mt_node_id t' = mt_node_id t;
}.

Lemma same_region_refl e : same_region e e.
Proof. done. Qed.

Lemma mr_shrinks_refl t : mr_shrinks t t.
Proof. constructor; try done. intros i. destruct (mt_heap t !! i); [|done]. eexists. done. Qed.

Lemma mr_shrinks_trans t1 t2 t3 : mr_shrinks t1 t2 -> mr_shrinks t2 t3 -> mr_shrinks t1 t3.
Proof.
  intros [H1 T1 N1 A1 P1 D1] [H2 T2 N2 A2 P2 D2]. constructor; try congruence; [|by etrans].
  intros i. specialize (H1 i). specialize (H2 i).
  destruct (mt_heap t3 !! i) as [e3|].
  - destruct H2 as (e2 & Hi2 & S2 & R2). rewrite Hi2 in H1. destruct H1 as (e1 & Hi1 & S1 & R1).
    exists e1. split; [done|]. split; [|lia]. unfold same_region in *.
    destruct S1 as (? & ? & ? & ? & ? & ?), S2 as (? & ? & ? & ? & ? & ?). split_and!; congruence.
  - by rewrite H2 in H1.
Qed.

Lemma same_region_wf t t' e e' :
  same_region e e' -> mt_pod_id t' = mt_pod_id t -> mt_node_id t' = mt_node_id t ->
  mt_allocators t' = mt_allocators t -> mt_next_handle t' = mt_next_handle t ->
  entry_wf t e -> entry_wf t' e'.
Proof.
  intros (Hh & _ & Hb & Hl & _ & Ha) Hp Hn Hal Hnx [? ? ? ? ? ? ?].
  unfold me_device_id in *. constructor; unfold me_device_id; rewrite ?Hh, ?Hb, ?Hl, ?Ha, ?Hp, ?Hn, ?Hal, ?Hnx; done.
Qed.

Lemma mr_shrinks_ok t t' : mr_shrinks t t' -> mr_ok t -> mr_ok t'.
Proof.
  intros [Hh Ht Hn Ha Hp Hd] [Oi On Oa Oe Od Ot]. constructor; rewrite ?Hn, ?Ha, ?Hp, ?Hd; try done.
  - intros i e' Hi. specialize (Hh i). rewrite Hi in Hh. destruct Hh as (e & Hi' & Hs & _).
    eapply same_region_wf; eauto.
  - intros i j e1 e2 Hi Hj Hij. pose proof (Hh i) as H1. pose proof (Hh j) as H2.
    rewrite Hi in H1. rewrite Hj in H2.
    destruct H1 as (f1 & Hi' & (Ha1 & _ & Hb1 & Hl1 & _ & Hu1) & _).
    destruct H2 as (f2 & Hj' & (Ha2 & _ & Hb2 & Hl2 & _ & Hu2) & _).
    destruct (Od i j f1 f2 Hi' Hj' Hij) as [Hdis Hne].
    unfold me_disjoint, me_device_id in *. rewrite Ha1, Ha2, Hb1, Hb2, Hl1, Hl2, Hu1, Hu2. done.
  - intros h i Hi. destruct (Ot h i) as (e & He & Hhe); [by eapply lookup_weaken|].
    specialize (Hh i). destruct (mt_heap t' !! i) as [e'|]; [|congruence].
    destruct Hh as (e0 & He0 & (Hhd & _) & _). exists e'. split; [done|]. congruence.
Qed.

Lemma alter_shrinks t arc f :
  (forall e, same_region e (f e) /\ state_rank (me_state e) <= state_rank (me_state (f e))) ->
  mr_shrinks t (arc_update t arc f).
Proof.
  intros Hf. constructor; try done. intros i. cbn.
  destruct (decide (arc = i)) as [->|Hne].
  - rewrite list_lookup_alter_eq. destruct (mt_heap t !! i) as [e|]; cbn; [|done].
    exists e. split; [done|]. apply Hf.
  - rewrite list_lookup_alter_ne by done. destruct (mt_heap t !! i) as [e|]; [|done].
    by exists e.
Qed.

Lemma arc_set_state_shrinks t arc st e :
  mt_heap t !! arc = Some e -> state_rank (me_state e) <= state_rank st ->
  mr_shrinks t (arc_set_state t arc st).
Proof.
  intros He Hr. unfold arc_set_state. rewrite He. constructor; try done. intros i. cbn.
  rewrite list_lookup_insert. case_decide as Hi.
  - destruct Hi as [-> _]. by exists e.
  - destruct (mt_heap t !! i) as [e'|]; [by exists e'|done].
Qed.

Lemma arc_released_shrinks t arc : mr_shrinks t (arc_set_state t arc MrState_Released).
Proof.
  destruct (mt_heap t !! arc) as [e|] eqn:He.
  - eapply arc_set_state_shrinks; [done|]. by destruct (me_state e).
  - unfold arc_set_state. rewrite He. apply mr_shrinks_refl.
Qed.

Lemma publish_shrinks t ev : mr_shrinks t (publish t ev).
Proof.
  unfold publish. destruct (mt_publish t); [|apply mr_shrinks_refl].
  constructor; try done. intros i. cbn. destruct (mt_heap t !! i) as [e|]; [by exists e|done].
Qed.

Lemma delete_shrinks t h : mr_shrinks t (t <| mt_entries := delete h (mt_entries t) |>).
Proof.
  constructor; try done; cbn; [|apply delete_subseteq].
  intros i. destruct (mt_heap t !! i) as [e|]; [by exists e|done].
Qed.

(** Everything but a registration shrinks the table. *)
Lemma mr_step_shrinks devices t op :
  match op with MrOp_register _ _ _ => True | _ => mr_shrinks t (mr_step devices t op) end.
Proof.
  destruct op as [|h|h|h arc to|arc|arc]; [done|..]; cbn [mr_step].
  - unfold MrTable_deregister. destruct (mt_entries t !! h) as [arc|]; [|apply mr_shrinks_refl].
    destruct (mt_heap t !! arc) as [e|] eqn:He; [|apply mr_shrinks_refl].
    case_decide as Ha; [|apply mr_shrinks_refl]. cbv zeta.
    eapply mr_shrinks_trans; [|apply delete_shrinks].
    eapply mr_shrinks_trans; [|apply publish_shrinks].
    eapply arc_set_state_shrinks; [done|]. by rewrite Ha.
  - unfold MrTable_deregister_async_start.
    destruct (mt_entries t !! h) as [arc|]; [|apply mr_shrinks_refl].
    destruct (mt_heap t !! arc) as [e|] eqn:He; [|apply mr_shrinks_refl].
    case_decide as Ha; [|apply mr_shrinks_refl]. cbv zeta.
    assert (Hrev : mr_shrinks t (publish (arc_set_state t arc MrState_Revoking)
              (MrPublishEvent_Revoke (mt_node_id (arc_set_state t arc MrState_Revoking)) h))).
    { eapply mr_shrinks_trans; [|apply publish_shrinks].
      eapply arc_set_state_shrinks; [done|]. by rewrite Ha. }
    destruct (0 <? me_inflight_refs e); [exact Hrev|]. eapply mr_shrinks_trans; [|apply delete_shrinks].
    eapply mr_shrinks_trans; [exact Hrev|]. apply arc_released_shrinks.
  - cbn. eapply mr_shrinks_trans; [|apply delete_shrinks]. apply arc_released_shrinks.
  - apply alter_shrinks. intros e. unfold MrEntry_try_inflight_inc.
    case_decide; cbn; (split; [done|lia]).
  - apply alter_shrinks. intros e. cbn. split; [done|lia].
Qed.

Lemma publish_fields t ev :
  mt_heap (publish t ev) = mt_heap t /\ mt_entries (publish t ev) = mt_entries t
  /\ mt_next_handle (publish t ev) = mt_next_handle t
  /\ mt_allocators (publish t ev) = mt_allocators t
  /\ mt_pod_id (publish t ev) = mt_pod_id t /\ mt_node_id (publish t ev) = mt_node_id t.
Proof. unfold publish. by destruct (mt_publish t). Qed.

Lemma next_nonneg t d : mr_ok t -> 0 <= default 0 (mt_allocators t !! d).
Proof.
  intros Hok. destruct (mt_allocators t !! d) as [nx|] eqn:E; cbn; [|lia].
  destruct (mo_alloc _ Hok _ _ E). lia.
Qed.

(** A registration in closed form. *)
Lemma register_spec t devices device len perms d :
  mr_ok t -> mr_op_ok devices t (MrOp_register device len perms) ->
  0 < len -> devices !! device = Some d ->
  let next := default 0 (mt_allocators t !! dev_device_id d) in
  exists t' base, MrTable_register t devices device len perms
    = Ok (t', (UbAddr_new (mt_pod_id t) (mt_node_id t) (dev_device_id d) base 0, mt_next_handle t))
  /\ next <= base /\ base + len < 2 ^ 64 /\ base mod 8 = 0
  /\ mt_heap t' = mt_heap t ++ [mkMrEntry (mt_next_handle t) device base len perms
       (UbAddr_new (mt_pod_id t) (mt_node_id t) (dev_device_id d) base 0) MrState_Active 0]
  /\ mt_entries t' = <[mt_next_handle t := length (mt_heap t)]> (mt_entries t)
  /\ mt_next_handle t' = mt_next_handle t + 1
  /\ mt_allocators t' = <[dev_device_id d := base + len]> (mt_allocators t)
  /\ mt_pod_id t' = mt_pod_id t /\ mt_node_id t' = mt_node_id t.
Proof.
  intros Hok (_ & Hnh & Hroom) Hlen Hd. cbv zeta. destruct (Hroom d Hd) as [Hdid Hfree].
  set (next := default 0 (mt_allocators t !! dev_device_id d)) in *.
  assert (Hnext : 0 <= next) by (by apply next_nonneg).
  destruct (align_up_spec next 3) as [Hal Hbase]; [lia|lia|lia|]. change (2 ^ 3) with 8 in *.
  unfold MrTable_register. rewrite (proj2 (Z.eqb_neq len 0)) by lia. rewrite Hd.
  unfold OffsetAllocator_alloc. cbv zeta. fold next. cbn [set_field mt_allocators mt_next_handle
    mt_heap mt_entries mt_pod_id mt_node_id mt_publish].
  set (base := align_up next 8) in *.
  eexists _, base. split; [reflexivity|].
  match goal with |- context [publish ?t0 ?ev] => destruct (publish_fields t0 ev) as (-> & -> & -> & -> & -> & ->) end.
  cbn [mt_heap mt_entries mt_next_handle mt_allocators mt_pod_id mt_node_id].
  pose proof (mo_next _ Hok). rewrite !wrap_small by ulia. split_and!; done || lia.
Qed.

Lemma register_ok t devices device len perms :
  mr_ok t -> mr_op_ok devices t (MrOp_register device len perms) ->
  mr_ok (mr_step devices t (MrOp_register device len perms)).
Proof.
  intros Hok Hop. cbn [mr_step].
  destruct (decide (len = 0)) as [->|Hlen]; [done|].
  destruct (devices !! device) as [d|] eqn:Hd.
  2: { unfold MrTable_register. by rewrite (proj2 (Z.eqb_neq len 0)), Hd by done. }
  destruct (register_spec t devices device len perms d Hok Hop) as
    (t' & base & -> & Hnb & Hbl & Hal & Hheap & Htab & Hnh & Hallo & Hpod & Hnode);
    [destruct Hop; lia|done|].
  destruct Hop as (Hlen0 & Hnh32 & Hroom). destruct (Hroom d Hd) as [Hdid _].
  pose proof Hok as [[Hp Hn] Onx Oal Oe Od Ot].
  set (next := default 0 (mt_allocators t !! dev_device_id d)) in *.
  assert (Hnext : 0 <= next) by (by apply next_nonneg).
  set (e0 := mkMrEntry _ _ _ _ _ _ _ _) in Hheap.
  assert (Hfields : me_device_id e0 = dev_device_id d /\ UbAddr_offset (me_base_ub_addr e0) = base)
    by (unfold me_device_id, e0; cbn [me_base_ub_addr];
        destruct (UbAddr_accessors_new (mt_pod_id t) (mt_node_id t) (dev_device_id d) base 0)
          as (_ & _ & -> & -> & _); done || ulia).
  destruct Hfields as [Hdev0 Hoff0].
  (* an old entry on the same device ends before [next] *)
  assert (Hold : forall i e, mt_heap t !! i = Some e -> me_disjoint e e0 /\ me_handle e <> me_handle e0).
  { intros i e Hi. destruct (Oe i e Hi) as [? ? ? ? ? (nx & Hnx & Hend) Hh]. split; [|cbn; lia].
    intros Hsame. rewrite Hdev0 in Hsame. rewrite Hsame in Hnx. left.
    subst next. rewrite Hnx in Hnb. cbn in *. lia. }
  constructor; rewrite ?Hpod, ?Hnode, ?Hnh; try done; try lia.
  - intros d' nx. rewrite Hallo. intros [[<- <-]|[_ H]]%lookup_insert_Some; [lia|by eapply Oal].
  - intros i e Hi. rewrite Hheap in Hi. apply lookup_app_Some in Hi as [Hi|[_ Hi]].
    + destruct (Oe i e Hi) as [? ? ? ? ? (nx & Hnx & Hend) ?].
      constructor; rewrite ?Hpod, ?Hnode, ?Hnh, ?Hallo; try done; [|lia].
      destruct (decide (me_device_id e = dev_device_id d)) as [Heq|Hne].
      * exists (base + len). rewrite Heq, lookup_insert_eq. split; [done|].
        rewrite Heq in Hnx. subst next. rewrite Hnx in Hnb. cbn in *. lia.
      * exists nx. by rewrite lookup_insert_ne.
    + apply list_lookup_singleton_Some in Hi as [_ <-].
      constructor; rewrite ?Hpod, ?Hnode, ?Hnh, ?Hallo, ?Hdev0; cbn; try done; try lia.
      exists (base + len). rewrite lookup_insert_eq. split; [done|lia].
  - intros i j e1 e2 Hi Hj Hij. rewrite Hheap in Hi, Hj.
    apply lookup_app_Some in Hi as [Hi|[Hil Hi]]; apply lookup_app_Some in Hj as [Hj|[Hjl Hj]].
    + by eapply Od.
    + apply list_lookup_singleton_Some in Hj as [_ <-]. by eapply Hold.
    + apply list_lookup_singleton_Some in Hi as [_ <-]. destruct (Hold _ _ Hj) as [Hdis Hne].
      split; [|done]. intros Hs. destruct Hdis; [done|right; done|left; done].
    + apply list_lookup_singleton_Some in Hi as [? _]. apply list_lookup_singleton_Some in Hj as [? _]. lia.
  - intros h i. rewrite Htab, Hheap. intros [[<- <-]|[_ H]]%lookup_insert_Some.
    + exists e0. split; [|done]. rewrite lookup_app_r, Nat.sub_diag by lia. done.
    + destruct (Ot h i H) as (e & He & ?). exists e. split; [|done]. by apply lookup_app_l_Some.
Qed.

Lemma mr_reachable_ok devices pod node t :
  u16 pod -> u16 node -> mr_reachable devices pod node t -> mr_ok t.
Proof.
  intros Hp Hn. induction 1 as [|t op Hr IH Hop].
  - constructor; cbn; try done; try lia.
    intros d next [<- <-]%lookup_singleton_Some. lia.
  - destruct op; [by apply register_ok|..];
      (eapply mr_shrinks_ok; [|exact IH]);
      match goal with |- mr_shrinks _ (mr_step _ _ ?op) => exact (mr_step_shrinks devices t op) end.
Qed.

(** ** Lookup by address *)

Lemma first_hit_spec {A B} (f : A -> option B) l :
  match first_hit f l with
  | Some b => exists x, x ∈ l /\ f x = Some b
  | None => forall x, x ∈ l -> f x = None
  end.
Proof.
  induction l as [|x l IH]; cbn; [by intros ? ?%elem_of_nil|].
  destruct (f x) as [b|] eqn:Hx; [exists x; split; [by left|done]|].
  destruct (first_hit f l) as [b|].
  - destruct IH as (y & Hy & ?). exists y. split; [by right|done].
  - intros y [->|Hy]%elem_of_cons; auto.
Qed.

Lemma addr_in_region_spec t e addr off :
  mr_ok t -> entry_wf t e ->
  addr_in_region (me_base_ub_addr e) (me_len e) addr = Some off
  <-> mt_node_id t = UbAddr_node_id addr /\ me_device_id e = UbAddr_device_id addr
      /\ off = UbAddr_offset addr - me_base_offset e /\ 0 <= off < me_len e.
Proof.
  intros [[Hp Hn] _ _ _ _ _] [Hl Hb Hal Hd Ha (nx & _ & Hend) Hh].
  unfold addr_in_region. fold (me_device_id e).
  assert (Hbase : u64 (me_base_offset e)) by ulia.
  destruct (UbAddr_accessors_new (mt_pod_id t) (mt_node_id t) (me_device_id e) (me_base_offset e) 0)
    as (_ & Hnid & _ & Hoff & _); [done..|ulia|].
  rewrite Ha, Hnid, Hoff, wrap_small by ulia.
  destruct (mt_node_id t =? _) eqn:E1, (me_device_id e =? _) eqn:E2; cbn [andb]; zbool;
    try (split; [done|]; intros (? & ? & _); congruence).
  destruct (me_base_offset e <=? _) eqn:E3, (UbAddr_offset addr <? _) eqn:E4; cbn [andb]; zbool;
    try (split; [done|]; intros (_ & _ & ? & ?); lia).
  split; [intros [= <-]; split_and!; done || lia|]. by intros (_ & _ & -> & _).
Qed.

(** An address lies in a live region, at an offset. *)
Definition addr_hits (t : MrTable) (addr : Z) (arc : nat) (off : Z) : Prop :=
  exists h e, mt_entries t !! h = Some arc /\ mt_heap t !! arc = Some e
    /\ mt_node_id t = UbAddr_node_id addr /\ me_device_id e = UbAddr_device_id addr
    /\ off = UbAddr_offset addr - me_base_offset e /\ 0 <= off < me_len e.

Lemma addr_hits_unique t addr a1 o1 a2 o2 :
  mr_ok t -> addr_hits t addr a1 o1 -> addr_hits t addr a2 o2 -> a1 = a2 /\ o1 = o2.
Proof.
  intros Hok (h1 & e1 & _ & H1 & _ & Hd1 & -> & Hr1) (h2 & e2 & _ & H2 & _ & Hd2 & -> & Hr2).
  destruct (decide (a1 = a2)) as [->|Hne]; [split; [done|congruence]|].
  destruct (mo_disjoint _ Hok _ _ _ _ H1 H2 Hne) as [Hdis _].
  destruct Hdis; [congruence|lia|lia].
Qed.

Lemma lookup_by_addr_spec t addr arc off :
  mr_ok t -> MrTable_lookup_by_addr t addr = Some (arc, off) <-> addr_hits t addr arc off.
Proof.
  intros Hok. unfold MrTable_lookup_by_addr.
  set (f := fun kv : Z * nat => _).
  assert (Hf : forall h i a o, mt_entries t !! h = Some i ->
            f (h, i) = Some (a, o) <-> i = a /\ addr_hits t addr a o).
  { intros h i a o Hi. subst f. cbn. destruct (mo_table _ Hok _ _ Hi) as (e & He & _).
    rewrite He. cbn. pose proof (mo_entries _ Hok _ _ He) as Hwf. split.
    - intros H. destruct (addr_in_region _ _ _) as [o'|] eqn:Hr; [|done].
      cbn in H. simplify_eq. apply (addr_in_region_spec t) in Hr; [|done..].
      split; [done|]. exists h, e. done.
    - intros [-> (h' & e' & _ & He' & Hspec)]. assert (e' = e) as -> by congruence.
      apply (addr_in_region_spec t e addr o Hok Hwf) in Hspec. by rewrite Hspec. }
  pose proof (first_hit_spec f (map_to_list (mt_entries t))) as Hhit. split.
  - intros Heq. rewrite Heq in Hhit. destruct Hhit as ([h i] & Hin & Hfx).
    apply elem_of_map_to_list in Hin. by apply (Hf h i arc off Hin) in Hfx as [_ ?].
  - intros Ha. pose proof Ha as (h & e & Hh & _).
    destruct (first_hit f _) as [[a o]|].
    + destruct Hhit as ([h' i] & Hin & Hfx). apply elem_of_map_to_list in Hin.
      apply (Hf h' i a o Hin) in Hfx as [_ Ha'].
      by destruct (addr_hits_unique _ _ _ _ _ _ Hok Ha Ha') as [-> ->].
    + assert (Hsome : f (h, arc) = Some (arc, off)) by (by apply (Hf h arc arc off Hh)).
      rewrite Hhit in Hsome; [done|]. by apply elem_of_map_to_list.
Qed.

(** ** Properties *)

(** C23 (invariant): The registered memory regions of a node never overlap. In every state the table
    can reach by registrations, deregistrations (synchronous or waiting, timed out or not) and
    reference counting, in any order, as long as the handles stay below 2^32 and the offsets
    handed out per device below 2^64 (beyond, they wrap: [offsets_wrap]): two different
    registrations on one device occupy disjoint, 8-byte aligned byte ranges, also after one of
    them was removed, and carry different handles; the handle of a live region leads to that
    region. *)
Theorem mr_regions_disjoint devices pod node t :
  u16 pod -> u16 node -> mr_reachable devices pod node t ->
  (forall i j e1 e2, mt_heap t !! i = Some e1 -> mt_heap t !! j = Some e2 -> i <> j ->
     me_disjoint e1 e2 /\ me_handle e1 <> me_handle e2)
  /\ (forall i e, mt_heap t !! i = Some e -> 0 < me_len e /\ me_base_offset e mod 8 = 0)
  /\ (forall h arc, MrTable_lookup t h = Some arc ->
        exists e, mt_heap t !! arc = Some e /\ me_handle e = h).
Proof.
  intros Hp Hn Hr. destruct (mr_reachable_ok _ _ _ _ Hp Hn Hr) as [_ _ _ Oe Od Ot].
  split; [done|]. split; [|done]. intros i e Hi. by destruct (Oe i e Hi).
Qed.

Definition sample_devices : list DynDevice := [DynMemory (MemoryDevice_new 64)].

Definition sample_table : MrTable :=
  mr_step sample_devices
    (mr_step sample_devices (MrTable_new_with_channel 1 42) (MrOp_register 0 10 3))
    (MrOp_register 0 16 3).

Lemma sample_table_reachable : mr_reachable sample_devices 1 42 sample_table.
Proof.
  assert (Hok : forall t len, mt_next_handle t + 1 < 2 ^ 32 ->
            0 <= len -> default 0 (mt_allocators t !! 0) + 8 + len < 2 ^ 64 ->
            mr_op_ok sample_devices t (MrOp_register 0 len 3)).
  { intros t len H1 H2 H3. split; [done|]. split; [done|].
    intros d [= <-]. split; [split; [discriminate|reflexivity]|exact H3]. }
  apply mr_reachable_step; [apply mr_reachable_step; [apply mr_reachable_new|]|];
    apply Hok; vm_compute; (reflexivity || discriminate).
Qed.

Lemma mr_regions_disjoint_witness :
  exists e1 e2, mt_heap sample_table !! 0%nat = Some e1 /\ mt_heap sample_table !! 1%nat = Some e2
    /\ me_disjoint e1 e2 /\ me_handle e1 <> me_handle e2.
Proof.
  eexists _, _. split; [vm_compute; reflexivity|]. split; [vm_compute; reflexivity|].
  apply (proj1 (mr_regions_disjoint sample_devices 1 42 sample_table
    ltac:(split; [discriminate|reflexivity]) ltac:(split; [discriminate|reflexivity])
    sample_table_reachable) 0%nat 1%nat); [vm_compute; reflexivity|vm_compute; reflexivity|discriminate].
Defined.

(** Address lookup finds exactly the live region that contains the address, with the
    right offset into it, and nothing when there is none, whatever the iteration order of the
    table. *)
Theorem mr_lookup_exact devices pod node t addr :
  u16 pod -> u16 node -> mr_reachable devices pod node t ->
  (forall arc off, MrTable_lookup_by_addr t addr = Some (arc, off) <-> addr_hits t addr arc off)
  /\ (MrTable_lookup_by_addr t addr = None <-> forall arc off, ~ addr_hits t addr arc off).
Proof.
  intros Hp Hn Hr. pose proof (mr_reachable_ok _ _ _ _ Hp Hn Hr) as Hok.
  assert (Hs : forall arc off, MrTable_lookup_by_addr t addr = Some (arc, off)
                               <-> addr_hits t addr arc off) by (intros; by apply lookup_by_addr_spec).
  split; [done|]. split.
  - intros Hnone arc off Hh%Hs. congruence.
  - intros Hno. destruct (MrTable_lookup_by_addr t addr) as [[arc off]|] eqn:E; [|done].
    by destruct (Hno arc off); apply Hs.
Qed.

Lemma mr_lookup_exact_witness :
  MrTable_lookup_by_addr sample_table (UbAddr_new 1 42 0 20 0) = Some (1%nat, 4)
  /\ addr_hits sample_table (UbAddr_new 1 42 0 20 0) 1%nat 4.
Proof.
  assert (H : MrTable_lookup_by_addr sample_table (UbAddr_new 1 42 0 20 0) = Some (1%nat, 4))
    by (vm_compute; reflexivity).
  split; [exact H|].
  apply (mr_lookup_exact sample_devices 1 42 sample_table (UbAddr_new 1 42 0 20 0));
    [split; [discriminate|reflexivity]|split; [discriminate|reflexivity]|
     apply sample_table_reachable|exact H].
Defined.

Definition mr_run (devices : list DynDevice) (t : MrTable) (ops : list MrOp) : MrTable :=
  foldl (mr_step devices) t ops.

Lemma register_keeps devices t device len perms arc e :
  mt_heap t !! arc = Some e ->
  mt_heap (mr_step devices t (MrOp_register device len perms)) !! arc = Some e.
Proof.
  intros He. cbn [mr_step]. unfold MrTable_register. destruct (len =? 0); [done|].
  destruct (devices !! device); [|done].
  unfold OffsetAllocator_alloc. cbv zeta.
  match goal with |- context [publish ?t0 ?ev] => destruct (publish_fields t0 ev) as (-> & _) end.
  cbn. by apply lookup_app_l_Some.
Qed.

Lemma shrinks_keeps t t' arc e :
  mr_shrinks t t' -> mt_heap t !! arc = Some e -> me_state e <> MrState_Active ->
  exists e', mt_heap t' !! arc = Some e' /\ same_region e e' /\ me_state e' <> MrState_Active.
Proof.
  intros [Hs _ _ _ _ _] He Hna. specialize (Hs arc). destruct (mt_heap t' !! arc) as [e'|]; [|congruence].
  destruct Hs as (e0 & He0 & Hsame & Hrank). assert (e0 = e) as -> by congruence.
  exists e'. split; [done|]. split; [done|]. intros Ha. rewrite Ha in Hrank.
  destruct (me_state e); cbn in Hrank; done || lia.
Qed.

(** Revocation is final. Once a region has left the Active state, no sequence of calls
    makes it Active again or changes what it covers: every later attempt to take a reference
    to it fails, and deregistering a handle that is gone fails with [AddrInvalid]. *)
Theorem mr_revocation_final devices t arc e ops :
  mt_heap t !! arc = Some e -> me_state e <> MrState_Active ->
  exists e', mt_heap (mr_run devices t ops) !! arc = Some e' /\ same_region e e'
    /\ me_state e' <> MrState_Active /\ (MrEntry_try_inflight_inc e').2 = false
    /\ forall h, MrTable_lookup (mr_run devices t ops) h = None ->
         MrTable_deregister (mr_run devices t ops) h = Err AddrInvalid.
Proof.
  intros He Hna.
  assert (H : exists e', mt_heap (mr_run devices t ops) !! arc = Some e' /\ same_region e e'
                         /\ me_state e' <> MrState_Active).
  { unfold mr_run. revert t e He Hna. induction ops as [|op ops IH]; intros t e He Hna; [by exists e|].
    cbn [foldl].
    assert (Hstep : exists e1, mt_heap (mr_step devices t op) !! arc = Some e1 /\ same_region e e1
                               /\ me_state e1 <> MrState_Active).
    { pose proof (mr_step_shrinks devices t op) as Hs.
      destruct op; [exists e; split; [by apply register_keeps|done]|..];
        by eapply shrinks_keeps. }
    destruct Hstep as (e1 & He1 & Hs1 & Hna1).
    destruct (IH _ e1 He1 Hna1) as (e2 & He2 & Hs2 & Hna2). exists e2. split; [done|]. split; [|done].
    unfold same_region in *. destruct Hs1 as (? & ? & ? & ? & ? & ?), Hs2 as (? & ? & ? & ? & ? & ?).
    split_and!; congruence. }
  destruct H as (e' & He' & Hs & Hn). exists e'. split_and!; try done.
  - unfold MrEntry_try_inflight_inc. by rewrite decide_True.
  - intros h Hh. unfold MrTable_deregister, MrTable_lookup in *. by rewrite Hh.
Qed.

Lemma mr_revocation_final_witness :
  exists e', mt_heap (mr_run sample_devices (mr_step sample_devices sample_table (MrOp_deregister 1))
      [MrOp_register 0 8 3; MrOp_inflight_inc 0]) !! 0%nat = Some e'
    /\ me_state e' <> MrState_Active.
Proof.
  destruct (mr_revocation_final sample_devices
    (mr_step sample_devices sample_table (MrOp_deregister 1)) 0
    (mkMrEntry 1 0 0 10 3 (UbAddr_new 1 42 0 0 0) MrState_Revoking 0)
    [MrOp_register 0 8 3; MrOp_inflight_inc 0]) as (e' & H1 & _ & H2 & _);
    [vm_compute; reflexivity|discriminate|].
  exists e'. split; [exact H1|exact H2].
Defined.

(** The length of a registration is compared neither with its device nor with the offsets that are
    left: the sum wraps, and the region registered last lies inside the first. *)
Theorem offsets_wrap :
  map (fun e => (me_base_offset e, me_len e, me_state e))
    (mt_heap (mr_run sample_devices (MrTable_new_with_channel 1 42)
      [MrOp_register 0 (2 ^ 64 - 8) 3; MrOp_register 0 16 3; MrOp_register 0 8 3]))
  = [(0, 2 ^ 64 - 8, MrState_Active); (2 ^ 64 - 8, 16, MrState_Active); (8, 8, MrState_Active)].
Proof. vm_compute. reflexivity. Qed.
