(* ===== verification/Revoke.v ===== *)
(** * Revoke: revoking a region under concurrent verbs

    crates/ub-core/src/mr.rs at the grain of its atomic operations: verbs that take and give back
    a reference on a region ([try_inflight_inc], [inflight_dec]) while [deregister_async]
    revokes it, waits until the references are gone and releases it. Mr.v runs each of these
    calls as one step; here they interleave. *)

From S2P Require Import Prelude Types Addr Device Mr.
#[local] Open Scope Z_scope.

(** ** Tasks *)

(** A verb: before its check, between check and increment, while it uses the
    region, after a decrement that must notify, and at its end. *)
Inductive VerbTask : Type :=
| Verb_start
| Verb_checked
| Verb_holding
| Verb_notifying
| Verb_finished
| Verb_refused.

#[global] Instance VerbTask_eq_dec : EqDecision VerbTask.
Proof. solve_decision. Defined.

(** The deregistration, between two of its atomic operations; its result is
    [true] for [Ok] and [false] for [Timeout]. *)
Inductive DrainTask : Type :=
| Drain_start
| Drain_revoked
| Drain_counted
| Drain_checked
| Drain_waiting
| Drain_notified
| Drain_done (ok : bool)
| Drain_busy.

(** Source: crates/ub-core/src/mr.rs:42-56, [MrEntry::try_inflight_inc].
    One atomic operation of a verb, with [MrEntry::inflight_dec]; the flag says that it called
    [notify_waiters]. *)
Definition verb_step (e : MrEntry) (v : VerbTask) : option (MrEntry * VerbTask * bool) :=
  match v with
  | Verb_start => Some (e, if decide (me_state e = MrState_Active) then Verb_checked else Verb_refused, false)
  | Verb_checked => Some (e <| me_inflight_refs := me_inflight_refs e + 1 |>, Verb_holding, false)
  | Verb_holding =>
    Some (e <| me_inflight_refs := me_inflight_refs e - 1 |>,
          if me_inflight_refs e =? 1 then Verb_notifying else Verb_finished, false)
  | Verb_notifying => Some (e, Verb_finished, true)
  | Verb_finished | Verb_refused => None
  end.

(** Source: crates/ub-core/src/mr.rs:59-64, [MrEntry::wait_inflight_zero].
    From [Drain_checked] the next operation creates the future of [notified()], which only sees
    notifications from then on. *)
Definition wait_step (e : MrEntry) (d : DrainTask) : option DrainTask :=
  match d with
  | Drain_counted => Some (if me_inflight_refs e =? 0 then Drain_notified else Drain_checked)
  | Drain_checked => Some Drain_waiting
  | _ => None
  end.

(** Source: crates/ub-core/src/mr.rs:257-301, [MrTable::deregister_async].
    One atomic operation of it. *)
Definition drain_step (e : MrEntry) (d : DrainTask) : option (MrEntry * DrainTask) :=
  match d with
  | Drain_start =>
    Some (if decide (me_state e = MrState_Active)
          then (e <| me_state := MrState_Revoking |>, Drain_revoked) else (e, Drain_busy))
  | Drain_revoked =>
    Some (if 0 <? me_inflight_refs e then (e, Drain_counted)
          else (e <| me_state := MrState_Released |>, Drain_done true))
  | Drain_counted | Drain_checked | Drain_waiting => pair e <$> wait_step e d
  | Drain_notified => Some (e <| me_state := MrState_Released |>, Drain_done true)
  | Drain_done _ | Drain_busy => None
  end.

(** [notify_waiters] wakes a task that waits and leaves nothing for later ones. *)
Definition notify_waiters (d : DrainTask) : DrainTask :=
  match d with
  | Drain_waiting => Drain_notified
  | _ => d
  end.

(** ** The region with its tasks *)

Record World : Type := mkWorld {
  w_entry : MrEntry;
  w_verbs : list VerbTask;
  w_drain : DrainTask;
}.

Inductive Move : Type :=
| Move_verb (i : nat)
| Move_drain
| Move_timeout.

(** Source: crates/ub-core/src/mr.rs:279-292, [MrTable::deregister_async].
    A task moves; the time of a waiting deregistration may run out. *)
Definition move (w : World) (m : Move) : option World :=
  let '(mkWorld e vs d) := w in
  match m with
  | Move_verb i =>
    v ← vs !! i;
    '(e, v, notify) ← verb_step e v;
    Some (mkWorld e (<[i := v]> vs) (if notify : bool then notify_waiters d else d))
  | Move_drain => '(e, d) ← drain_step e d; Some (mkWorld e vs d)
  | Move_timeout =>
    match d with
    | Drain_waiting => Some (mkWorld (e <| me_state := MrState_Released |>) vs (Drain_done false))
    | _ => None
    end
  end.

Definition revoke_step (w w' : World) : Prop := exists m, move w m = Some w'.

Fixpoint moves (w : World) (ms : list Move) : option World :=
  match ms with
  | [] => Some w
  | m :: ms => w ← move w m; moves w ms
  end.

(** Any number of verbs on an active region nobody uses yet. *)
Definition world_start (e : MrEntry) (n : nat) : World :=
  mkWorld (e <| me_state := MrState_Active |> <| me_inflight_refs := 0 |>) (repeat Verb_start n) Drain_start.

(** How many verbs are at a point. *)
Definition at_point (v : VerbTask) (w : World) : nat := length (filter (fun v' => v' = v) (w_verbs w)).

Definition holders (w : World) : nat := at_point Verb_holding w.

(** The deregistration has revoked the region. *)
Definition revoking (d : DrainTask) : bool :=
  match d with
  | Drain_start | Drain_busy => false
  | _ => true
  end.

(** ** Run alone, the operations are those of Mr.v *)

Lemma inflight_inc_alone e d vs i :
  vs !! i = Some Verb_start ->
  moves (mkWorld e vs d) (Move_verb i :: if (MrEntry_try_inflight_inc e).2 then [Move_verb i] else [])
  = Some (mkWorld (MrEntry_try_inflight_inc e).1
            (<[i := if (MrEntry_try_inflight_inc e).2 then Verb_holding else Verb_refused]> vs) d).
Proof.
  intros Hv. pose proof (lookup_lt_Some _ _ _ Hv) as Hlt.
  unfold MrEntry_try_inflight_inc. case_decide as Ha; cbn; rewrite Hv; cbn.
  - by rewrite decide_False by done.
  - rewrite decide_True by (by destruct (me_state e); try (exfalso; apply Ha)).
    cbn. rewrite list_lookup_insert_eq by done. cbn. by rewrite list_insert_insert_eq.
Qed.

Lemma inflight_dec_alone e d vs i :
  vs !! i = Some Verb_holding ->
  moves (mkWorld e vs d) (Move_verb i :: if (MrEntry_inflight_dec e).2 then [Move_verb i] else [])
  = Some (mkWorld (MrEntry_inflight_dec e).1 (<[i := Verb_finished]> vs)
            (if (MrEntry_inflight_dec e).2 then notify_waiters d else d)).
Proof.
  intros Hv. pose proof (lookup_lt_Some _ _ _ Hv) as Hlt.
  unfold MrEntry_inflight_dec. cbn. rewrite Hv. cbn. destruct (_ =? 1); cbn; [|done].
  rewrite list_lookup_insert_eq by done. cbn. by rewrite list_insert_insert_eq.
Qed.

(** ** What holds in every interleaving *)

Lemma at_point_insert w i v v' x :
  w_verbs w !! i = Some v ->
  (length (filter (fun y => y = x) (<[i := v']> (w_verbs w)))
   + (if decide (v = x) then 1 else 0)
   = at_point x w + (if decide (v' = x) then 1 else 0))%nat.
Proof.
  intros Hi. unfold at_point. rewrite insert_take_drop by (by eapply lookup_lt_Some).
  rewrite <- (take_drop_middle _ _ _ Hi) at 3. rewrite !filter_app, !length_app, !filter_cons.
  repeat case_decide; cbn; lia.
Qed.

(** The counter is the number of verbs that use the region, and the state is the
    deregistration's. *)
Record world_inv (w : World) : Prop := {
  wi_refs : me_inflight_refs (w_entry w) = Z.of_nat (holders w);
  wi_active : me_state (w_entry w) = MrState_Active <-> w_drain w = Drain_start;
  wi_not_busy : w_drain w <> Drain_busy;
}.

Lemma world_start_inv e n : world_inv (world_start e n).
Proof.
  split; cbn; [|done|done]. unfold holders, at_point. cbn.
  induction n as [|n IH]; [done|]. cbn [repeat]. rewrite filter_cons. by case_decide.
Qed.

Lemma move_cases w m w' :
  move w m = Some w' ->
  (exists i v e' v' notify, m = Move_verb i /\ w_verbs w !! i = Some v
     /\ verb_step (w_entry w) v = Some (e', v', notify)
     /\ w' = mkWorld e' (<[i := v']> (w_verbs w))
               (if notify : bool then notify_waiters (w_drain w) else w_drain w))
  \/ (exists e' d', m = Move_drain /\ drain_step (w_entry w) (w_drain w) = Some (e', d')
     /\ w' = mkWorld e' (w_verbs w) d')
  \/ (m = Move_timeout /\ w_drain w = Drain_waiting
     /\ w' = mkWorld ((w_entry w) <| me_state := MrState_Released |>) (w_verbs w) (Drain_done false)).
Proof.
  destruct w as [e vs d], m as [i| |]; cbn.
  - destruct (vs !! i) as [v|] eqn:Hv; cbn; [|done].
    destruct (verb_step e v) as [[[e' v'] n]|] eqn:Hs; cbn; [|done]. intros [= <-].
    left. by exists i, v, e', v', n.
  - destruct (drain_step e d) as [[e' d']|] eqn:Hs; cbn; [|done]. intros [= <-]. right. left. by exists e', d'.
  - destruct d; try done. intros [= <-]. by right; right.
Qed.

(** The cases of a move, with the task that moved taken apart. *)
Ltac move_cases H :=
  apply move_cases in H as [(i & v & e' & v' & n & -> & Hv & Hs & ->)
                           |[(e' & d' & -> & Hs & ->)|(-> & Hd & ->)]].

Lemma drain_step_active e d e' d' :
  (me_state e = MrState_Active <-> d = Drain_start) -> d <> Drain_busy ->
  drain_step e d = Some (e', d') ->
  me_inflight_refs e' = me_inflight_refs e /\ me_state e' <> MrState_Active
  /\ d' <> Drain_start /\ d' <> Drain_busy.
Proof.
  intros [Ha1 Ha2] Hb Hs. destruct d; cbn in Hs; simplify_eq.
  - rewrite decide_True in Hs by auto. by simplify_eq.
  - case_match; simplify_eq/=; repeat split; try done. intros He. by apply Ha1 in He.
  - repeat case_match; simplify_eq/=; repeat split; try done; intros He; by apply Ha1 in He.
  - repeat split; try done. intros He. by apply Ha1 in He.
  - by repeat split.
Qed.

Lemma verb_step_entry e v e' v' n :
  verb_step e v = Some (e', v', n) -> me_state e' = me_state e.
Proof. destruct v; cbn; intros; by simplify_eq/=. Qed.

Lemma world_inv_move w m w' : world_inv w -> move w m = Some w' -> world_inv w'.
Proof.
  intros [Hr Ha Hb] Hm. move_cases Hm.
  - pose proof (at_point_insert _ _ _ v' Verb_holding Hv) as Hc. fold (holders w) in Hc.
    pose proof (verb_step_entry _ _ _ _ _ Hs) as He.
    split; cbn; unfold holders, at_point; cbn [w_verbs w_entry w_drain].
    + destruct v; cbn in Hs; simplify_eq/=; repeat case_decide; repeat case_match; simplify_eq/=; lia.
    + rewrite He, Ha. destruct n, (w_drain w); cbn; split; congruence.
    + destruct n, (w_drain w); cbn; congruence.
  - destruct (drain_step_active _ _ _ _ Ha Hb Hs) as (He & ? & ? & ?).
    split; cbn; [by rewrite He|split; congruence|done].
  - split; cbn; [done|split; congruence|done].
Qed.

Lemma world_inv_steps w w' : world_inv w -> rtc revoke_step w w' -> world_inv w'.
Proof. intros Hi Hs. induction Hs as [|? ? ? [m Hm] _ IH]; [done|]. eapply IH, world_inv_move, Hm; done. Qed.

Lemma moves_rtc w ms w' : moves w ms = Some w' -> rtc revoke_step w w'.
Proof.
  revert w. induction ms as [|m ms IH]; intros w Hm; cbn in *; [by simplify_eq|].
  destruct (move w m) as [x|] eqn:Hx; cbn in Hm; [|done].
  eapply rtc_l; [by exists m|by apply IH].
Qed.

(** ** Revocation without a race *)

(** After revocation, when no verb is between its check and its increment: the counter only
    falls, and whatever wakes the deregistration saw it at zero. *)
Record quiet (w : World) : Prop := {
  qu_inv : world_inv w;
  qu_revoking : revoking (w_drain w);
  qu_checked : at_point Verb_checked w = 0%nat;
  qu_notifying : at_point Verb_notifying w <> 0%nat -> holders w = 0%nat;
  qu_woken : w_drain w = Drain_notified \/ w_drain w = Drain_done true -> holders w = 0%nat;
}.

Lemma revoking_not_active w : world_inv w -> revoking (w_drain w) -> me_state (w_entry w) <> MrState_Active.
Proof. intros [_ Ha _] Hr He. apply Ha in He. by rewrite He in Hr. Qed.

Lemma revoking_move w m w' : revoking (w_drain w) -> move w m = Some w' -> revoking (w_drain w').
Proof.
  intros Hr Hm. move_cases Hm; cbn; [by destruct n, (w_drain w)| |done].
  destruct (w_drain w); cbn in *; repeat case_match; by simplify_eq/=.
Qed.

Lemma quiet_move w m w' : quiet w -> move w m = Some w' -> quiet w' /\ (holders w' <= holders w)%nat.
Proof.
  intros [Hi Hr Hc Hn Hw] Hm.
  pose proof (world_inv_move _ _ _ Hi Hm) as Hi'. pose proof (revoking_move _ _ _ Hr Hm) as Hr'.
  pose proof (revoking_not_active _ Hi Hr) as Hna. pose proof (wi_refs _ Hi) as Hrefs.
  move_cases Hm.
  - pose proof (at_point_insert _ _ _ v' Verb_holding Hv) as Hh.
    pose proof (at_point_insert _ _ _ v' Verb_checked Hv) as Hk.
    pose proof (at_point_insert _ _ _ v' Verb_notifying Hv) as Hf.
    fold (holders w) in Hh.
    assert (holders (mkWorld e' (<[i := v']> (w_verbs w))
              (if n then notify_waiters (w_drain w) else w_drain w)) <= holders w)%nat as Hle.
    { unfold holders at 1, at_point. cbn [w_verbs].
      destruct v; cbn in Hs; simplify_eq/=; repeat case_decide; repeat case_match; simplify_eq/=; lia. }
    split; [split; [done..| | |]|done].
    + unfold at_point; cbn [w_verbs].
      destruct v; cbn in Hs; simplify_eq/=; repeat case_decide; repeat case_match; simplify_eq/=; lia.
    + unfold holders, at_point in *; cbn [w_verbs] in *.
      destruct v; cbn in Hs; simplify_eq/=; repeat case_decide; repeat case_match; simplify_eq/=; lia.
    + cbn [w_drain]. intros Hd.
      assert (holders w = 0%nat); [|lia].
      destruct n; [|auto]. destruct v; cbn in Hs; repeat case_match; simplify_eq/=.
      apply Hn. lia.
  - split; [|done]. split; [done..|].
    cbn [w_drain]. unfold holders in *. change (at_point Verb_holding (mkWorld e' (w_verbs w) d')) with (at_point Verb_holding w).
    destruct (w_drain w); cbn in *; repeat case_match; simplify_eq/=; intros [?|?]; simplify_eq; auto; lia.
  - split; [|done]. split; [done..|]. cbn. intros [?|?]; done.
Qed.

Lemma quiet_steps w w' :
  quiet w -> rtc revoke_step w w' -> quiet w' /\ (holders w' <= holders w)%nat.
Proof.
  intros Hq Hs. induction Hs as [|w x w' [m Hm] _ IH]; [done|].
  destruct (quiet_move _ _ _ Hq Hm) as [Hx ?]. destruct (IH Hx). split; [done|lia].
Qed.

(** A verb that has not read the state before the revocation is refused. *)
Lemma late_verb_refused w w' k :
  world_inv w -> revoking (w_drain w) -> rtc revoke_step w w' -> w_verbs w !! k = Some Verb_start ->
  w_verbs w' !! k = Some Verb_start \/ w_verbs w' !! k = Some Verb_refused.
Proof.
  intros Hi Hr Hs Hv.
  enough (forall v, v = Verb_start \/ v = Verb_refused -> w_verbs w !! k = Some v ->
    w_verbs w' !! k = Some Verb_start \/ w_verbs w' !! k = Some Verb_refused) as Hx by (eapply Hx; [by left|done]).
  clear Hv. induction Hs as [w|w x w' [m Hm] _ IH]; intros u Hu Hl.
  { destruct Hu as [-> | ->]; auto. }
  pose proof (revoking_not_active _ Hi Hr) as Hna.
  specialize (IH (world_inv_move _ _ _ Hi Hm) (revoking_move _ _ _ Hr Hm)).
  move_cases Hm; cbn in IH; [|by eauto..].
  destruct (decide (i = k)) as [->|]; [|eapply IH; [done|by rewrite list_lookup_insert_ne]].
  simplify_eq. apply (IH Verb_refused); [by right|].
  destruct Hu as [-> | ->]; cbn in Hs; [|done]. rewrite decide_False in Hs by done. simplify_eq.
  apply list_lookup_insert_eq. by eapply lookup_lt_Some.
Qed.

(** C35 (safety): Let any number of verbs run on a region while it is deregistered. When at the
    moment of revocation no verb is between its check of the state and its increment, and none
    has still to notify, then in every later interleaving verbs only leave the region, those
    that had not started are refused, and when the deregistration reports success no verb uses
    the region. *)
Theorem revocation_waits e n w w' :
  rtc revoke_step (world_start e n) w -> w_drain w = Drain_revoked ->
  at_point Verb_checked w = 0%nat -> at_point Verb_notifying w = 0%nat ->
  rtc revoke_step w w' ->
  (holders w' <= holders w)%nat
  /\ me_state (w_entry w') <> MrState_Active
  /\ (forall i, w_verbs w !! i = Some Verb_start ->
        w_verbs w' !! i = Some Verb_start \/ w_verbs w' !! i = Some Verb_refused)
  /\ (w_drain w' = Drain_done true -> holders w' = 0%nat /\ me_inflight_refs (w_entry w') = 0).
Proof.
  intros Hreach Hd Hc Hn Hs.
  pose proof (world_inv_steps _ _ (world_start_inv e n) Hreach) as Hi.
  assert (revoking (w_drain w)) as Hr by (by rewrite Hd).
  assert (quiet w) as Hq by (split; [done..| |]; intros; intuition congruence).
  destruct (quiet_steps _ _ Hq Hs) as [Hq' Hle].
  split; [done|]. split; [apply revoking_not_active, Hq'; apply Hq'|].
  split; [intros i; by apply late_verb_refused|].
  intros Hok. assert (holders w' = 0%nat) as Hz by (apply (qu_woken _ Hq'); by right).
  split; [done|]. rewrite (wi_refs _ (qu_inv _ Hq')), Hz. done.
Qed.

Definition some_entry : MrEntry := mkMrEntry 1 0 0 16 3 (UbAddr_new 1 42 0 0 0) MrState_Active 0.

(** One verb holds the region at the revocation and leaves it, one comes too late. *)
Lemma revocation_waits_witness :
  let w := mkWorld (some_entry <| me_state := MrState_Revoking |> <| me_inflight_refs := 1 |>)
             [Verb_holding; Verb_start] Drain_revoked in
  let w' := mkWorld (some_entry <| me_state := MrState_Released |>)
             [Verb_finished; Verb_refused] (Drain_done true) in
  rtc revoke_step (world_start some_entry 2) w /\ rtc revoke_step w w' /\ holders w' = 0%nat.
Proof.
  intros w w'.
  assert (rtc revoke_step (world_start some_entry 2) w) as Hw
    by (apply (moves_rtc _ [Move_verb 0; Move_verb 0; Move_drain]); reflexivity).
  assert (rtc revoke_step w w') as Hw'
    by (apply (moves_rtc _ [Move_drain; Move_drain; Move_verb 1; Move_drain; Move_verb 0; Move_verb 0; Move_drain]);
        reflexivity).
  split; [done|]. split; [done|].
  apply (revocation_waits some_entry 2 w w' Hw eq_refl eq_refl eq_refl Hw'). reflexivity.
Defined.

(** ** Every run ends *)

Definition verb_rank (v : VerbTask) : nat :=
  match v with
  | Verb_start => 4
  | Verb_checked => 3
  | Verb_holding => 2
  | Verb_notifying => 1
  | Verb_finished | Verb_refused => 0
  end.

Definition drain_rank (d : DrainTask) : nat :=
  match d with
  | Drain_start => 5
  | Drain_revoked => 4
  | Drain_counted => 3
  | Drain_checked => 2
  | Drain_waiting | Drain_notified => 1
  | Drain_done _ | Drain_busy => 0
  end.

Definition rank (w : World) : nat := (sum_list_with verb_rank (w_verbs w) + drain_rank (w_drain w))%nat.

Lemma rank_start e n : rank (world_start e n) = (4 * n + 5)%nat.
Proof.
  unfold rank, world_start. cbn [w_verbs w_drain drain_rank]. f_equal.
  induction n as [|n IH]; [done|]. cbn [repeat sum_list_with verb_rank]. lia.
Qed.

Lemma rank_move w m w' : move w m = Some w' -> (rank w' < rank w)%nat.
Proof.
  intros Hm. move_cases Hm; unfold rank; cbn [w_verbs w_drain].
  - pose proof (sum_list_with_insert verb_rank _ _ _ v' Hv).
    assert (drain_rank (if n then notify_waiters (w_drain w) else w_drain w) = drain_rank (w_drain w))
      as -> by (by destruct n, (w_drain w)).
    destruct v; cbn in Hs; repeat case_match; simplify_eq/=; lia.
  - destruct (w_drain w); cbn in Hs; repeat case_match; simplify_eq/=; lia.
  - rewrite Hd. cbn. lia.
Qed.

Lemma rank_moves w ms w' : moves w ms = Some w' -> (rank w' + length ms <= rank w)%nat.
Proof.
  revert w. induction ms as [|m ms IH]; intros w Hm; cbn in *; [simplify_eq; lia|].
  destruct (move w m) as [x|] eqn:Hx; cbn in Hm; [|done].
  apply rank_move in Hx. specialize (IH _ Hm). lia.
Qed.

(** However the verbs and the deregistration interleave, the run of [n] verbs
    ends within [4 n + 5] operations, and it only ends when every verb has finished or was
    refused and the deregistration has returned. *)
Theorem revocation_ends e n ms w :
  moves (world_start e n) ms = Some w ->
  (length ms <= 4 * n + 5)%nat
  /\ ((forall m, move w m = None) ->
      (exists ok, w_drain w = Drain_done ok)
      /\ Forall (fun v => v = Verb_finished \/ v = Verb_refused) (w_verbs w)).
Proof.
  intros Hm. pose proof (rank_moves _ _ _ Hm) as Hr.
  rewrite rank_start in Hr. split; [lia|]. intros Hstuck.
  pose proof (world_inv_steps _ _ (world_start_inv e n) (moves_rtc _ _ _ Hm)) as [_ _ Hb].
  destruct w as [e' vs d]. split.
  - pose proof (Hstuck Move_drain) as H1. pose proof (Hstuck Move_timeout) as H2.
    destruct d; cbn in H1, H2; repeat case_match; simplify_eq/=; eauto.
  - apply Forall_lookup. intros i v Hv. specialize (Hstuck (Move_verb i)). cbn in Hstuck, Hv.
    rewrite Hv in Hstuck. destruct v; cbn in Hstuck; auto; done.
Qed.

(** One verb, from its check to its end, meets the deregistration. *)
Lemma revocation_ends_witness :
  exists w, moves (world_start some_entry 1)
      [Move_verb 0; Move_verb 0; Move_drain; Move_drain; Move_drain; Move_drain; Move_timeout; Move_verb 0; Move_verb 0]
    = Some w /\ (exists ok, w_drain w = Drain_done ok).
Proof.
  eexists. split; [reflexivity|].
  apply (revocation_ends some_entry 1
    [Move_verb 0; Move_verb 0; Move_drain; Move_drain; Move_drain; Move_drain; Move_timeout; Move_verb 0; Move_verb 0]
    _ eq_refl).
  intros [[|[|i]]| |]; reflexivity.
Defined.

(** ** The races *)

(** A verb between its check and its increment is not seen: the deregistration succeeds at
    once and the verb goes on to use the released region. *)
Theorem use_after_release :
  exists w, moves (world_start some_entry 1) [Move_verb 0; Move_drain; Move_drain; Move_verb 0] = Some w
    /\ w_drain w = Drain_done true /\ me_state (w_entry w) = MrState_Released /\ holders w = 1%nat.
Proof. eexists. split; [reflexivity|]. by vm_compute. Qed.

(** The last verb leaves between the last look at the counter and the creation of the future:
    its notification is lost. No verb is left and the counter is zero, but the deregistration
    waits until its time runs out and reports [Timeout]. *)
Theorem last_notification_lost :
  exists w, moves (world_start some_entry 1)
      [Move_verb 0; Move_verb 0; Move_drain; Move_drain; Move_drain; Move_verb 0; Move_verb 0; Move_drain] = Some w
    /\ w_drain w = Drain_waiting /\ me_inflight_refs (w_entry w) = 0 /\ w_verbs w = [Verb_finished]
    /\ (forall m w', move w m = Some w' -> m = Move_timeout /\ w_drain w' = Drain_done false).
Proof.
  eexists. split; [reflexivity|]. do 3 (split; [reflexivity|]).
  intros [[|[|i]]| |] w' Hm; cbn in Hm; by simplify_eq/=.
Qed.

(** A verb that was the last one before the revocation notifies late, while another verb uses
    the region: [wait_inflight_zero] does not look at the counter again, and the
    deregistration succeeds although the region is in use. *)
Theorem late_notification_ends_wait :
  exists w, moves (world_start some_entry 2)
      [Move_verb 0; Move_verb 0; Move_verb 0; Move_verb 1; Move_verb 1; Move_drain; Move_drain; Move_drain;
       Move_drain; Move_verb 0; Move_drain] = Some w
    /\ w_drain w = Drain_done true /\ me_inflight_refs (w_entry w) = 1 /\ holders w = 1%nat.
Proof. eexists. split; [reflexivity|]. by vm_compute. Qed.
