(* ===== verification/Verbs.v ===== *)
(** * Verbs: synchronous local verbs

    crates/ub-core/src/verbs.rs. The node's memory is the region table of Mr and
    the list of its devices; an entry names its device by index, so two regions
    on one device see each other's writes where they overlap. *)

From S2P Require Import Prelude Bytes Types Addr Device Mr.

(** ** Operations *)

(** [mr_table.lookup_by_addr(addr).ok_or(AddrInvalid)?], [check_perms] and the
    device offset, which every verb starts with. *)
Definition resolve (t : MrTable) (addr : Z) (verb : Verb) : Result (nat * Z) :=
  let? (arc, offset_in_mr) := ok_or (MrTable_lookup_by_addr t addr) AddrInvalid in
  match mt_heap t !! arc with
  | None => Panic
  | Some entry =>
    let? _ := MrEntry_check_perms entry verb in
    Ok (me_device entry, wrap 64 (me_base_offset entry + offset_in_mr))
  end.

(** [entry.device.op(..)] on the shared device. *)
Definition with_device {A} (devices : list DynDevice) (device : nat)
    (op : DynDevice -> Result (A * DynDevice)) : Result (A * list DynDevice) :=
  match devices !! device with
  | None => Panic
  | Some d => let? (a, d') := op d in Ok (a, <[device := d']> devices)
  end.

(** Source: crates/ub-core/src/verbs.rs:7-14, [ub_read_sync]. *)
Definition ub_read_sync (t : MrTable) (devices : list DynDevice) (addr len : Z) : Result bytes :=
  let? (device, device_offset) := resolve t addr Verb_ReadReq in
  match devices !! device with
  | None => Panic
  | Some d => dev_read d device_offset len
  end.

(** Source: crates/ub-core/src/verbs.rs:17-24, [ub_write_sync]. *)
Definition ub_write_sync (t : MrTable) (devices : list DynDevice) (addr : Z) (buf : bytes)
  : Result (list DynDevice) :=
  let? (device, device_offset) := resolve t addr Verb_Write in
  let? (_, devices) := with_device devices device
    (fun d => let? d' := dev_write d device_offset buf in Ok (tt, d')) in
  Ok devices.

(** Source: crates/ub-core/src/verbs.rs:28-43, [ub_atomic_cas_sync]. *)
Definition ub_atomic_cas_sync (t : MrTable) (devices : list DynDevice) (addr expect new : Z)
  : Result (Z * list DynDevice) :=
  if negb (UbAddr_offset addr mod 8 =? 0) then Err Alignment
  else
    let? (device, device_offset) := resolve t addr Verb_AtomicCas in
    with_device devices device (fun d => dev_atomic_cas d device_offset expect new).

(** Source: crates/ub-core/src/verbs.rs:47-61, [ub_atomic_faa_sync]. *)
Definition ub_atomic_faa_sync (t : MrTable) (devices : list DynDevice) (addr add : Z)
  : Result (Z * list DynDevice) :=
  if negb (UbAddr_offset addr mod 8 =? 0) then Err Alignment
  else
    let? (device, device_offset) := resolve t addr Verb_AtomicFaa in
    with_device devices device (fun d => dev_atomic_faa d device_offset add).

(** ** The node's memory *)

Record node_ok (t : MrTable) (devices : list DynDevice) : Prop := {
  nd_table : mr_ok t;
  nd_devices : Forall dev_wf devices;
  nd_device : forall i e, mt_heap t !! i = Some e ->
    exists d, devices !! me_device e = Some d /\ dev_device_id d = me_device_id e;
}.

(** Registering keeps it. *)
Lemma node_ok_register t devices device len perms :
  node_ok t devices -> mr_op_ok devices t (MrOp_register device len perms) ->
  node_ok (mr_step devices t (MrOp_register device len perms)) devices.
Proof.
  intros [Ht Hd He] Hop. constructor; [by apply register_ok|done|].
  cbn [mr_step]. destruct (decide (len = 0)) as [->|Hlen]; [done|].
  destruct (devices !! device) as [d|] eqn:Hdev.
  2: { unfold MrTable_register. by rewrite (proj2 (Z.eqb_neq len 0)), Hdev by done. }
  destruct (register_spec t devices device len perms d Ht Hop) as
    (t' & base & -> & Hnb & Hbl & _ & Hheap & _); [destruct Hop; lia|done|].
  intros i e Hi. rewrite Hheap in Hi. apply lookup_app_Some in Hi as [Hi|[_ Hi]]; [by eapply He|].
  apply list_lookup_singleton_Some in Hi as [_ <-]. exists d. split; [done|].
  destruct Hop as (Hl0 & _ & Hroom). destruct (Hroom d Hdev) as [Hdid _].
  unfold me_device_id. cbn [me_base_ub_addr]. destruct (mo_ids _ Ht) as [Hp Hn].
  assert (0 <= default 0 (mt_allocators t !! dev_device_id d)).
  { destruct (mt_allocators t !! dev_device_id d) eqn:E; cbn; [|lia]. by destruct (mo_alloc _ Ht _ _ E). }
  destruct (UbAddr_accessors_new (mt_pod_id t) (mt_node_id t) (dev_device_id d) base 0)
    as (_ & _ & -> & _ & _); done || ulia.
Qed.

(** So does every other table operation. *)
Lemma node_ok_shrinks t t' devices : mr_shrinks t t' -> node_ok t devices -> node_ok t' devices.
Proof.
  intros Hs [Ht Hd He]. constructor; [by eapply mr_shrinks_ok|done|].
  intros i e' Hi. destruct Hs as [Hh _ _ _ _ _]. specialize (Hh i). rewrite Hi in Hh.
  destruct Hh as (e & Hie & (_ & Hdev & _ & _ & _ & Ha) & _).
  unfold me_device_id. rewrite Hdev, Ha. by eapply He.
Qed.

(** And so does a device changing its content. *)
Lemma node_ok_device t devices i d d' :
  node_ok t devices -> devices !! i = Some d -> dev_same d d' -> node_ok t (<[i := d']> devices).
Proof.
  intros [Ht Hd He] Hi (Hwf & _ & Hid & _). constructor; [done|by apply Forall_insert|].
  intros j e Hj. destruct (He j e Hj) as (d0 & Hd0 & Hid0).
  destruct (decide (i = me_device e)) as [Heq|Hne].
  - exists d'. subst i. rewrite list_lookup_insert_eq by (by eapply lookup_lt_Some).
    split; [done|]. assert (d0 = d) as -> by congruence. congruence.
  - exists d0. by rewrite list_lookup_insert_ne.
Qed.

Lemma resolve_spec t devices addr verb :
  node_ok t devices ->
  match MrTable_lookup_by_addr t addr with
  | None => resolve t addr verb = Err AddrInvalid
  | Some (arc, off) => exists e d, mt_heap t !! arc = Some e /\ devices !! me_device e = Some d
      /\ dev_wf d /\ dev_device_id d = me_device_id e /\ 0 <= me_base_offset e
      /\ 0 <= off < me_len e /\ me_base_offset e + me_len e < 2 ^ 64
      /\ resolve t addr verb
         = if flags_contains (me_perms e) (required_perm verb)
           then Ok (me_device e, me_base_offset e + off) else Err PermDenied
  end.
Proof.
  intros [Ht Hd He]. unfold resolve.
  destruct (MrTable_lookup_by_addr t addr) as [[arc off]|] eqn:Hl; [|done].
  apply lookup_by_addr_spec in Hl as (h & e & _ & Hh & _ & _ & _ & Hoff); [|done].
  destruct (He arc e Hh) as (d & Hdev & Hid). exists e, d.
  destruct (mo_entries _ Ht _ _ Hh) as [? ? ? ? ? (nx & _ & Hend) ?].
  split_and!; try done; try lia.
  - by eapply Forall_lookup_1 in Hd.
  - cbn [ok_or rbind]. rewrite Hh. unfold MrEntry_check_perms.
    case_match; cbn [rbind]; [|done]. rewrite wrap_small by ulia. done.
Qed.

Lemma ub_write_sync_spec t devices addr buf :
  node_ok t devices -> Forall u8 buf -> Z.of_nat (length buf) < 2 ^ 63 ->
  match MrTable_lookup_by_addr t addr with
  | None => ub_write_sync t devices addr buf = Err AddrInvalid
  | Some (arc, off) => exists e d, mt_heap t !! arc = Some e /\ devices !! me_device e = Some d
      /\ dev_wf d /\ 0 <= me_base_offset e /\ 0 <= off < me_len e /\ me_base_offset e + me_len e < 2 ^ 64
      /\ if flags_contains (me_perms e) MrPerms_WRITE then
           if in_bounds (dev_mem d) (me_base_offset e + off) (Z.of_nat (length buf))
           then exists d', ub_write_sync t devices addr buf = Ok (<[me_device e := d']> devices)
                  /\ dev_same d d'
                  /\ dev_mem d' = mem_write (dev_mem d) (me_base_offset e + off) buf
           else ub_write_sync t devices addr buf = Err AddrInvalid
         else ub_write_sync t devices addr buf = Err PermDenied
  end.
Proof.
  intros Hn Hbuf Hlen. pose proof (resolve_spec t devices addr Verb_Write Hn) as H.
  unfold ub_write_sync. destruct (MrTable_lookup_by_addr t addr) as [[arc off]|]; [|by rewrite H].
  destruct H as (e & d & He & Hd & Hwf & Hid & Hb & Hoff & Hend & ->). exists e, d.
  split_and!; try done; try lia. cbn [required_perm]. destruct (flags_contains _ _); cbn [rbind]; [|done].
  unfold with_device. rewrite Hd.
  pose proof (dev_write_spec d (me_base_offset e + off) buf Hwf ltac:(ulia) Hbuf Hlen) as Hw.
  destruct (in_bounds _ _ _).
  - destruct Hw as (d' & -> & Hs & Hm). exists d'. done.
  - by rewrite Hw.
Qed.

Lemma ub_read_sync_spec t devices addr len :
  node_ok t devices -> 0 <= len < 2 ^ 63 ->
  match MrTable_lookup_by_addr t addr with
  | None => ub_read_sync t devices addr len = Err AddrInvalid
  | Some (arc, off) => exists e d, mt_heap t !! arc = Some e /\ devices !! me_device e = Some d
      /\ dev_device_id d = me_device_id e
      /\ ub_read_sync t devices addr len
         = if flags_contains (me_perms e) MrPerms_READ then
             if in_bounds (dev_mem d) (me_base_offset e + off) len
             then Ok (mem_read (dev_mem d) (me_base_offset e + off) len) else Err AddrInvalid
           else Err PermDenied
  end.
Proof.
  intros Hn Hlen. pose proof (resolve_spec t devices addr Verb_ReadReq Hn) as H.
  unfold ub_read_sync. destruct (MrTable_lookup_by_addr t addr) as [[arc off]|]; [|by rewrite H].
  destruct H as (e & d & He & Hd & Hwf & Hid & Hb & Hoff & Hend & ->). exists e, d.
  split_and!; try done. cbn [required_perm]. destruct (flags_contains _ _); cbn [rbind]; [|done].
  rewrite Hd. apply dev_read_spec; done || ulia.
Qed.

(** ** Properties *)

(** A local write, on every path, and reading it back. The write is refused with
    [AddrInvalid] outside every region or past the end of the device and with [PermDenied]
    without the WRITE permission; it never panics. When it succeeds the memory stays sound and
    reading the same address and length returns what was written, provided the region can be
    read. *)
Theorem verbs_write_read t devices addr buf :
  node_ok t devices -> Forall u8 buf -> Z.of_nat (length buf) < 2 ^ 63 ->
  match MrTable_lookup_by_addr t addr with
  | None => ub_write_sync t devices addr buf = Err AddrInvalid
  | Some (arc, off) => exists e d, mt_heap t !! arc = Some e /\ devices !! me_device e = Some d
      /\ if flags_contains (me_perms e) MrPerms_WRITE then
           if me_base_offset e + off + Z.of_nat (length buf) <=? dev_capacity d
           then exists devices', ub_write_sync t devices addr buf = Ok devices'
                  /\ node_ok t devices'
                  /\ ub_read_sync t devices' addr (Z.of_nat (length buf))
                     = (if flags_contains (me_perms e) MrPerms_READ then Ok buf else Err PermDenied)
           else ub_write_sync t devices addr buf = Err AddrInvalid
         else ub_write_sync t devices addr buf = Err PermDenied
  end.
Proof.
  intros Hn Hbuf Hlen. pose proof (ub_write_sync_spec t devices addr buf Hn Hbuf Hlen) as H.
  destruct (MrTable_lookup_by_addr t addr) as [[arc off]|] eqn:Hl; [|done].
  destruct H as (e & d & He & Hd & Hwf & Hb & Hoff & Hend & H). exists e, d. split; [done|]. split; [done|].
  destruct (flags_contains _ MrPerms_WRITE); [|done].
  rewrite (dev_capacity_spec d Hwf). fold (in_bounds (dev_mem d) (me_base_offset e + off) (Z.of_nat (length buf))).
  destruct (in_bounds _ _ _) eqn:Hin; [|done]. destruct H as (d' & -> & Hs & Hm).
  pose proof (node_ok_device t devices _ d d' Hn Hd Hs) as Hn'. eexists. split; [done|]. split; [done|].
  pose proof (ub_read_sync_spec t (<[me_device e := d']> devices) addr (Z.of_nat (length buf)) Hn' ltac:(lia)) as Hr.
  rewrite Hl in Hr. destruct Hr as (e' & d1 & He' & Hd1 & _ & ->).
  assert (e' = e) as -> by congruence.
  rewrite list_lookup_insert_eq in Hd1 by (by eapply lookup_lt_Some). simplify_eq.
  assert (Hin' : in_bounds (dev_mem d1) (me_base_offset e + off) (Z.of_nat (length buf)) = true)
    by (unfold in_bounds in *; by rewrite Hm, length_mem_write by (done || lia)).
  rewrite Hin', Hm, mem_read_write_same by (done || lia). done.
Qed.

Lemma sample_node_ok : node_ok sample_table sample_devices.
Proof.
  assert (Hwf : Forall dev_wf sample_devices).
  { repeat constructor; cbn; try lia. all: refine (bool_decide_unpack _ _); vm_compute; reflexivity. }
  constructor; [|done|].
  - apply (mr_reachable_ok sample_devices 1 42);
      [split; [discriminate|reflexivity]|split; [discriminate|reflexivity]|apply sample_table_reachable].
  - intros [|[|i]] e [= <-]; eexists; split; reflexivity.
Qed.

Lemma verbs_write_read_witness :
  MrTable_lookup_by_addr sample_table (UbAddr_new 1 42 0 20 0) = Some (1%nat, 4)
  /\ match MrTable_lookup_by_addr sample_table (UbAddr_new 1 42 0 20 0) with
     | None => False
     | Some (arc, off) => exists e, mt_heap sample_table !! arc = Some e
     end.
Proof.
  split; [vm_compute; reflexivity|].
  pose proof (verbs_write_read sample_table sample_devices (UbAddr_new 1 42 0 20 0) [1; 2; 3]
    sample_node_ok (bool_decide_unpack (Forall u8 [1; 2; 3]) I) eq_refl) as H.
  destruct (MrTable_lookup_by_addr sample_table (UbAddr_new 1 42 0 20 0)) as [[arc off]|] eqn:E.
  - destruct H as (e & d & He & _). exists e. exact He.
  - vm_compute in E. discriminate.
Defined.

(** C24 (safety): Regions are isolated from each other as long as accesses stay inside them: a write
    within one region changes nothing that can be read within any other region of the node. *)
Theorem verbs_isolated t devices devices' addr buf arc off e addr2 arc2 off2 e2 len2 :
  node_ok t devices -> Forall u8 buf -> Z.of_nat (length buf) < 2 ^ 63 -> 0 <= len2 < 2 ^ 63 ->
  ub_write_sync t devices addr buf = Ok devices' ->
  MrTable_lookup_by_addr t addr = Some (arc, off) -> mt_heap t !! arc = Some e ->
  off + Z.of_nat (length buf) <= me_len e ->
  MrTable_lookup_by_addr t addr2 = Some (arc2, off2) -> mt_heap t !! arc2 = Some e2 ->
  off2 + len2 <= me_len e2 -> arc <> arc2 ->
  ub_read_sync t devices' addr2 len2 = ub_read_sync t devices addr2 len2.
Proof.
  intros Hn Hbuf Hlen Hlen2 Hw Hl He Hfit Hl2 He2 Hfit2 Hne.
  pose proof (ub_write_sync_spec t devices addr buf Hn Hbuf Hlen) as H. rewrite Hl in H.
  destruct H as (e' & d & He' & Hd & Hwf & Hb & Hoff & Hend & H). assert (e' = e) as -> by congruence.
  destruct (flags_contains _ MrPerms_WRITE); [|congruence].
  destruct (in_bounds (dev_mem d) _ _) eqn:Hin; [|congruence]. destruct H as (d' & Hw' & Hs & Hm).
  assert (devices' = <[me_device e := d']> devices) as -> by congruence.
  pose proof (node_ok_device t devices _ d d' Hn Hd Hs) as Hn'.
  pose proof (ub_read_sync_spec t _ addr2 len2 Hn' Hlen2) as Hr'.
  pose proof (ub_read_sync_spec t devices addr2 len2 Hn Hlen2) as Hr.
  rewrite Hl2 in Hr, Hr'. destruct Hr as (f & g & Hf & Hg & Hid & ->), Hr' as (f' & g' & Hf' & Hg' & _ & ->).
  assert (f = e2) as -> by congruence. assert (f' = e2) as -> by congruence.
  destruct (decide (me_device e = me_device e2)) as [Heq|Hned].
  - rewrite <- Heq, list_lookup_insert_eq in Hg' by (by eapply lookup_lt_Some).
    assert (g' = d') as -> by congruence. assert (g = d) as -> by congruence.
    apply lookup_by_addr_spec in Hl2 as (_ & e2' & _ & He2' & _ & _ & _ & Hoff2); [|apply Hn].
    assert (e2' = e2) as -> by congruence.
    destruct (nd_device _ _ Hn arc e He) as (d0 & Hd0 & Hdid). assert (d0 = d) as -> by congruence.
    destruct (mo_disjoint _ (nd_table _ _ Hn) _ _ _ _ He He2 Hne) as [Hdis _].
    destruct (mo_entries _ (nd_table _ _ Hn) _ _ He2) as [_ Hb2 _ _ _ _ _].
    assert (Hsep : me_base_offset e + me_len e <= me_base_offset e2
                   \/ me_base_offset e2 + me_len e2 <= me_base_offset e) by (apply Hdis; congruence).
    assert (Hib : in_bounds (dev_mem d') (me_base_offset e2 + off2) len2
                  = in_bounds (dev_mem d) (me_base_offset e2 + off2) len2)
      by (unfold in_bounds; by rewrite Hm, length_mem_write by (done || lia)).
    rewrite Hib, Hm, mem_read_write_disjoint by (done || lia). done.
  - rewrite list_lookup_insert_ne in Hg' by done. by assert (g' = g) as -> by congruence.
Qed.

Lemma verbs_isolated_witness :
  exists devices', ub_write_sync sample_table sample_devices (UbAddr_new 1 42 0 0 0) [9; 9] = Ok devices'
    /\ ub_read_sync sample_table devices' (UbAddr_new 1 42 0 16 0) 4
       = ub_read_sync sample_table sample_devices (UbAddr_new 1 42 0 16 0) 4.
Proof.
  destruct (ub_write_sync sample_table sample_devices (UbAddr_new 1 42 0 0 0) [9; 9])
    as [devices'| |] eqn:E; [|vm_compute in E; discriminate|vm_compute in E; discriminate].
  exists devices'. split; [reflexivity|].
  apply (verbs_isolated sample_table sample_devices devices' (UbAddr_new 1 42 0 0 0) [9; 9] 0 0
    (mkMrEntry 1 0 0 10 3 (UbAddr_new 1 42 0 0 0) MrState_Active 0)
    (UbAddr_new 1 42 0 16 0) 1 0 (mkMrEntry 2 0 16 16 3 (UbAddr_new 1 42 0 16 0) MrState_Active 0) 4
    sample_node_ok); [| | |exact E|..]; try (vm_compute; reflexivity); try (cbn; lia); try discriminate.
  refine (bool_decide_unpack _ _). vm_compute. reflexivity.
Defined.

(** Only the start address of an access is checked against the region. There is a state in
    which a write that starts inside one region and runs over its end changes the bytes of the
    next region. *)
Theorem write_spills_over :
  exists t devices devices', node_ok t devices
    /\ MrTable_lookup_by_addr t (UbAddr_new 1 42 0 8 0) = Some (0%nat, 8)
    /\ MrTable_lookup_by_addr t (UbAddr_new 1 42 0 16 0) = Some (1%nat, 0)
    /\ ub_write_sync t devices (UbAddr_new 1 42 0 8 0) (repeat 7 12) = Ok devices'
    /\ ub_read_sync t devices (UbAddr_new 1 42 0 16 0) 4 = Ok [0; 0; 0; 0]
    /\ ub_read_sync t devices' (UbAddr_new 1 42 0 16 0) 4 = Ok [7; 7; 7; 7].
Proof.
  destruct (ub_write_sync sample_table sample_devices (UbAddr_new 1 42 0 8 0) (repeat 7 12))
    as [devices'| |] eqn:E; [|vm_compute in E; discriminate|vm_compute in E; discriminate].
  exists sample_table, sample_devices, devices'. split; [apply sample_node_ok|].
  split; [vm_compute; reflexivity|]. split; [vm_compute; reflexivity|]. split; [exact E|].
  split; [vm_compute; reflexivity|].
  vm_compute in E. injection E as <-. vm_compute. reflexivity.
Qed.
