(* ===== verification/Jetty.v ===== *)
(** * Jetty: connectionless send and receive queues

    crates/ub-core/src/jetty.rs: a jetty with its send, receive and completion
    queues, and the table of jettys. A jetty lives behind an [Arc] and outlives
    its removal from the table, so jettys sit in a heap and the table maps
    handles to indices. Each operation runs under the locks it takes, as one
    step. *)

From S2P Require Import Prelude Bytes Types Addr.

(** ** Data *)

(** Source: crates/ub-core/src/jetty.rs:15-18, [RecvBuffer]. *)
Record RecvBuffer : Type := mkRecvBuffer {
  rb_buf : bytes;
  rb_wr_id : Z;
}.

(** Source: crates/ub-core/src/jetty.rs:22-32, [WorkRequest]. *)
Record WorkRequest : Type := mkWorkRequest {
  wr_wr_id : Z;
  wr_dst_jetty : JettyAddr;
  wr_data : bytes;
  wr_imm : option Z;
  wr_verb : Verb;
  wr_ub_addr : option Z;
  wr_mr_handle : option Z;
}.

(** Source: crates/ub-core/src/config.rs:256-268, [JettyConfig]. *)
Record JettyConfig : Type := mkJettyConfig {
  jc_jfs_depth : Z;
  jc_jfr_depth : Z;
  jc_jfc_depth : Z;
  jc_jfc_high_watermark : Z;
}.

(** Source: crates/ub-core/src/config.rs:270-295, [JettyConfig::default]. *)
Definition JettyConfig_default : JettyConfig := mkJettyConfig 1024 1024 1024 896.

(** Source: crates/ub-core/src/jetty.rs:40-58, [Jetty].
    [jt_permit] is the wake-up permit stored in [notify]. *)
Record Jetty : Type := mkJetty {
  jt_handle : Z;
  jt_node_id : Z;
  jt_jfs : list WorkRequest;
  jt_jfr : list RecvBuffer;
  jt_jfc : list Cqe;
  jt_jfs_depth : Z;
  jt_jfr_depth : Z;
  jt_jfc_depth : Z;
  jt_jfc_high_watermark : Z;
  jt_permit : bool;
  jt_closed : bool;
}.

#[global] Instance Jetty_settable : Settable Jetty :=
  fun x => mkJetty (jt_handle x) (jt_node_id x) (jt_jfs x) (jt_jfr x) (jt_jfc x) (jt_jfs_depth x)
    (jt_jfr_depth x) (jt_jfc_depth x) (jt_jfc_high_watermark x) (jt_permit x) (jt_closed x).

(** ** Operations *)

(** Source: crates/ub-core/src/jetty.rs:61-75, [Jetty::new]. *)
Definition Jetty_new (handle node_id : Z) (config : JettyConfig) : Jetty :=
  mkJetty handle node_id [] [] [] (jc_jfs_depth config) (jc_jfr_depth config)
    (jc_jfc_depth config) (jc_jfc_high_watermark config) false false.

(** Source: crates/ub-core/src/jetty.rs:79-86, [Jetty::post_recv]. *)
Definition Jetty_post_recv (j : Jetty) (buf : bytes) (wr_id : Z) : Result Jetty :=
  if jt_jfr_depth j <=? Z.of_nat (length (jt_jfr j)) then Err NoResources
  else Ok (j <| jt_jfr := jt_jfr j ++ [mkRecvBuffer buf wr_id] |>).

(** Source: crates/ub-core/src/jetty.rs:90-106, [Jetty::post_send]. *)
Definition Jetty_post_send (j : Jetty) (wr : WorkRequest) : Result Jetty :=
  if jt_jfc_high_watermark j <=? Z.of_nat (length (jt_jfc j)) then Err NoResources
  else if jt_jfs_depth j <=? Z.of_nat (length (jt_jfs j)) then Err NoResources
  else Ok (j <| jt_jfs := jt_jfs j ++ [wr] |> <| jt_permit := true |>).

(** [VecDeque::pop_front] *)
Definition pop_front {A} (q : list A) : option A * list A :=
  match q with
  | [] => (None, [])
  | x :: q => (Some x, q)
  end.

(** Source: crates/ub-core/src/jetty.rs:109-112, [Jetty::pop_send]. *)
Definition Jetty_pop_send (j : Jetty) : option WorkRequest * Jetty :=
  let '(wr, q) := pop_front (jt_jfs j) in (wr, j <| jt_jfs := q |>).

(** Source: crates/ub-core/src/jetty.rs:120-123, [Jetty::pop_recv]. *)
Definition Jetty_pop_recv (j : Jetty) : option RecvBuffer * Jetty :=
  let '(rb, q) := pop_front (jt_jfr j) in (rb, j <| jt_jfr := q |>).

(** Source: crates/ub-core/src/jetty.rs:126-133, [Jetty::push_cqe]. *)
Definition Jetty_push_cqe (j : Jetty) (cqe : Cqe) : Result Jetty :=
  if jt_jfc_depth j <=? Z.of_nat (length (jt_jfc j)) then Err NoResources
  else Ok (j <| jt_jfc := jt_jfc j ++ [cqe] |>).

(** Source: crates/ub-core/src/jetty.rs:136-139, [Jetty::poll_cqe]. *)
Definition Jetty_poll_cqe (j : Jetty) : option Cqe * Jetty :=
  let '(cqe, q) := pop_front (jt_jfc j) in (cqe, j <| jt_jfc := q |>).

(** Source: crates/ub-core/src/jetty.rs:142-144, [Jetty::cqe_count]. *)
Definition Jetty_cqe_count (j : Jetty) : Z := Z.of_nat (length (jt_jfc j)).

(** Source: crates/ub-core/src/jetty.rs:147-152, [Jetty::addr]. *)
Definition Jetty_addr (j : Jetty) : JettyAddr := mkJettyAddr (jt_node_id j) (jt_handle j).

(** The completion [close] makes for a pending request. *)
Definition flushed_send (j : Jetty) (wr : WorkRequest) : Cqe :=
  mkCqe (wr_wr_id wr) UB_ERR_FLUSHED None 0 (jt_handle j) (wr_verb wr).
Definition flushed_recv (j : Jetty) (rb : RecvBuffer) : Cqe :=
  mkCqe (rb_wr_id rb) UB_ERR_FLUSHED None 0 (jt_handle j) Verb_Send.

(** [while let Some(x) = q.pop_front() { jfc.push_back(f(x)) }] *)
Fixpoint drain_into {A} (f : A -> Cqe) (q : list A) (jfc : list Cqe) : list Cqe :=
  match q with
  | [] => jfc
  | x :: q => drain_into f q (jfc ++ [f x])
  end.

(** Source: crates/ub-core/src/jetty.rs:155-190, [Jetty::close]. *)
Definition Jetty_close (j : Jetty) : Jetty :=
  if jt_closed j then j
  else
    let j := j <| jt_closed := true |> in
    let jfc := drain_into (flushed_send j) (jt_jfs j) (jt_jfc j) in
    let j := j <| jt_jfs := [] |> <| jt_jfc := jfc |> in
    let jfc := drain_into (flushed_recv j) (jt_jfr j) (jt_jfc j) in
    j <| jt_jfr := [] |> <| jt_jfc := jfc |>.

(** Source: crates/ub-core/src/jetty.rs:193-195, [Jetty::is_closed]. *)
Definition Jetty_is_closed (j : Jetty) : bool := jt_closed j.

(** ** The table *)

(** Source: crates/ub-core/src/jetty.rs:199-206, [JettyTable]. *)
Record JettyTable : Type := mkJettyTable {
  jb_heap : list Jetty;
  jb_entries : gmap Z nat;
  jb_next_handle : Z;
  jb_node_id : Z;
  jb_config : JettyConfig;
  jb_default_jetty : Z;
}.

#[global] Instance JettyTable_settable : Settable JettyTable :=
  fun x => mkJettyTable (jb_heap x) (jb_entries x) (jb_next_handle x) (jb_node_id x) (jb_config x)
    (jb_default_jetty x).

(** Source: crates/ub-core/src/jetty.rs:209-217, [JettyTable::new]. *)
Definition JettyTable_new (node_id : Z) (config : JettyConfig) : JettyTable :=
  mkJettyTable [] ∅ 1 node_id config 0.

(** Source: crates/ub-core/src/jetty.rs:222-237, [JettyTable::create]. *)
Definition JettyTable_create (t : JettyTable) : JettyTable * Z :=
  let handle_val := jb_next_handle t in
  let t := t <| jb_next_handle := wrap 32 (jb_next_handle t + 1) |> in
  let jetty := Jetty_new handle_val (jb_node_id t) (jb_config t) in
  let arc := length (jb_heap t) in
  let t := t <| jb_heap := jb_heap t ++ [jetty] |>
             <| jb_entries := <[handle_val := arc]> (jb_entries t) |> in
  let t := if jb_default_jetty t =? 0 then t <| jb_default_jetty := handle_val |> else t in
  (t, handle_val).

(** Source: crates/ub-core/src/jetty.rs:241-253, [JettyTable::default_jetty]. *)
Definition JettyTable_default_jetty (t : JettyTable) : option Z :=
  let h := jb_default_jetty t in
  if h =? 0 then None
  else match jb_entries t !! h with Some _ => Some h | None => None end.

(** Source: crates/ub-core/src/jetty.rs:256-258, [JettyTable::lookup]. *)
Definition JettyTable_lookup (t : JettyTable) (handle : Z) : option nat := jb_entries t !! handle.

(** Source: crates/ub-core/src/jetty.rs:262-276, [JettyTable::deregister]. *)
Definition JettyTable_deregister (t : JettyTable) (handle : Z) : Result JettyTable :=
  match jb_entries t !! handle with
  | Some arc =>
    let t := t <| jb_entries := delete handle (jb_entries t) |> in
    let t := if jb_default_jetty t =? handle then t <| jb_default_jetty := 0 |> else t in
    Ok (t <| jb_heap := alter Jetty_close arc (jb_heap t) |>)
  | None => Err AddrInvalid
  end.

(** Source: crates/ub-core/src/jetty.rs:299-309, [JettyInfo]. *)
Record JettyInfo : Type := mkJettyInfo {
  jn_handle : Z;
  jn_node_id : Z;
  jn_config : JettyConfig;
  jn_cqe_count : Z;
  jn_jfs_count : Z;
  jn_jfr_count : Z;
}.

(** Source: crates/ub-core/src/jetty.rs:279-294, [JettyTable::list]. *)
Definition JettyTable_list (t : JettyTable) : list JettyInfo :=
  omap (fun kv =>
    jetty ← jb_heap t !! kv.2;
    Some (mkJettyInfo (jt_handle jetty) (jt_node_id jetty)
            (mkJettyConfig (jt_jfs_depth jetty) (jt_jfr_depth jetty) (jt_jfc_depth jetty)
               (jt_jfc_high_watermark jetty))
            (Jetty_cqe_count jetty) (Z.of_nat (length (jt_jfs jetty))) (Z.of_nat (length (jt_jfr jetty)))))
    (map_to_list (jb_entries t)).

(** ** A jetty as a state machine *)

Inductive JettyOp : Type :=
| JettyOp_post_recv (buf : bytes) (wr_id : Z)
| JettyOp_post_send (wr : WorkRequest)
| JettyOp_pop_send
| JettyOp_pop_recv
| JettyOp_push_cqe (cqe : Cqe)
| JettyOp_poll_cqe
| JettyOp_close.

(** What a call did: requests that went in, requests that came out (handed to
    the worker or flushed), completions that went in and came out. *)
Record JettyEffect : Type := mkJettyEffect {
  ef_sent : list WorkRequest;
  ef_send_out : list WorkRequest;
  ef_posted : list RecvBuffer;
  ef_recv_out : list RecvBuffer;
  ef_completed : list Cqe;
  ef_polled : list Cqe;
}.

Definition no_effect : JettyEffect := mkJettyEffect [] [] [] [] [] [].

Definition join_effect (a b : JettyEffect) : JettyEffect :=
  mkJettyEffect (ef_sent a ++ ef_sent b) (ef_send_out a ++ ef_send_out b)
    (ef_posted a ++ ef_posted b) (ef_recv_out a ++ ef_recv_out b)
    (ef_completed a ++ ef_completed b) (ef_polled a ++ ef_polled b).

Definition opt_list {A} (o : option A) : list A := match o with Some a => [a] | None => [] end.

Definition jetty_step (j : Jetty) (op : JettyOp) : Jetty * JettyEffect :=
  match op with
  | JettyOp_post_recv buf wr_id =>
    match Jetty_post_recv j buf wr_id with
    | Ok j' => (j', mkJettyEffect [] [] [mkRecvBuffer buf wr_id] [] [] [])
    | _ => (j, no_effect)
    end
  | JettyOp_post_send wr =>
    match Jetty_post_send j wr with
    | Ok j' => (j', mkJettyEffect [wr] [] [] [] [] [])
    | _ => (j, no_effect)
    end
  | JettyOp_pop_send =>
    let '(wr, j') := Jetty_pop_send j in (j', mkJettyEffect [] (opt_list wr) [] [] [] [])
  | JettyOp_pop_recv =>
    let '(rb, j') := Jetty_pop_recv j in (j', mkJettyEffect [] [] [] (opt_list rb) [] [])
  | JettyOp_push_cqe cqe =>
    match Jetty_push_cqe j cqe with
    | Ok j' => (j', mkJettyEffect [] [] [] [] [cqe] [])
    | _ => (j, no_effect)
    end
  | JettyOp_poll_cqe =>
    let '(cqe, j') := Jetty_poll_cqe j in (j', mkJettyEffect [] [] [] [] [] (opt_list cqe))
  | JettyOp_close =>
    (Jetty_close j,
     if jt_closed j then no_effect
     else mkJettyEffect [] (jt_jfs j) [] (jt_jfr j)
            (map (flushed_send j) (jt_jfs j) ++ map (flushed_recv j) (jt_jfr j)) [])
  end.

Fixpoint jetty_run (j : Jetty) (ops : list JettyOp) : Jetty * JettyEffect :=
  match ops with
  | [] => (j, no_effect)
  | op :: ops =>
    let '(j1, ef1) := jetty_step j op in
    let '(j2, ef2) := jetty_run j1 ops in
    (j2, join_effect ef1 ef2)
  end.

Lemma drain_into_map {A} (f : A -> Cqe) q jfc : drain_into f q jfc = jfc ++ map f q.
Proof.
  revert jfc. induction q as [|x q IH]; intros jfc; cbn; [by rewrite app_nil_r|].
  by rewrite IH, <- app_assoc.
Qed.

(** What went in is what came out followed by what is still queued. *)
Definition conserves (j j' : Jetty) (ef : JettyEffect) : Prop :=
  jt_jfs j ++ ef_sent ef = ef_send_out ef ++ jt_jfs j'
  /\ jt_jfr j ++ ef_posted ef = ef_recv_out ef ++ jt_jfr j'
  /\ jt_jfc j ++ ef_completed ef = ef_polled ef ++ jt_jfc j'.

Lemma conserves_join j j1 j2 ef1 ef2 :
  conserves j j1 ef1 -> conserves j1 j2 ef2 -> conserves j j2 (join_effect ef1 ef2).
Proof.
  intros (A1 & B1 & C1) (A2 & B2 & C2). unfold conserves. cbn.
  split_and!; rewrite !app_assoc.
  - rewrite A1, <- app_assoc, A2, app_assoc. done.
  - rewrite B1, <- app_assoc, B2, app_assoc. done.
  - rewrite C1, <- app_assoc, C2, app_assoc. done.
Qed.

Lemma pop_front_spec {A} (q : list A) : q = opt_list (pop_front q).1 ++ (pop_front q).2.
Proof. by destruct q. Qed.

Lemma jetty_step_conserves j op : conserves j (jetty_step j op).1 (jetty_step j op).2.
Proof.
  unfold conserves. destruct op; cbn [jetty_step].
  - unfold Jetty_post_recv. destruct (_ <=? _); cbn; rewrite ?app_nil_r; done.
  - unfold Jetty_post_send. destruct (jt_jfc_high_watermark j <=? _);
      [|destruct (jt_jfs_depth j <=? _)]; cbn; rewrite ?app_nil_r; done.
  - unfold Jetty_pop_send. pose proof (pop_front_spec (jt_jfs j)) as H.
    destruct (pop_front (jt_jfs j)). cbn in *. rewrite ?app_nil_r. done.
  - unfold Jetty_pop_recv. pose proof (pop_front_spec (jt_jfr j)) as H.
    destruct (pop_front (jt_jfr j)). cbn in *. rewrite ?app_nil_r. done.
  - unfold Jetty_push_cqe. destruct (_ <=? _); cbn; rewrite ?app_nil_r; done.
  - unfold Jetty_poll_cqe. pose proof (pop_front_spec (jt_jfc j)) as H.
    destruct (pop_front (jt_jfc j)). cbn in *. rewrite ?app_nil_r. done.
  - unfold Jetty_close. destruct (jt_closed j); cbn; rewrite ?app_nil_r; [done|].
    split_and!; try done. rewrite !drain_into_map, <- app_assoc. done.
Qed.

Lemma jetty_run_conserves ops j : conserves j (jetty_run j ops).1 (jetty_run j ops).2.
Proof.
  revert j. induction ops as [|op ops IH]; intros j; cbn.
  { unfold conserves. cbn. by rewrite !app_nil_r. }
  pose proof (jetty_step_conserves j op) as H1. destruct (jetty_step j op) as [j1 ef1].
  specialize (IH j1). destruct (jetty_run j1 ops) as [j2 ef2]. cbn in *.
  by eapply conserves_join.
Qed.

Record jetty_ok (j : Jetty) : Prop := {
  jo_jfs : Z.of_nat (length (jt_jfs j)) <= jt_jfs_depth j;
  jo_jfr : Z.of_nat (length (jt_jfr j)) <= jt_jfr_depth j;
  jo_jfc : Z.of_nat (length (jt_jfc j))
           <= jt_jfc_depth j + if jt_closed j then jt_jfs_depth j + jt_jfr_depth j else 0;
}.

Definition same_limits (j j' : Jetty) : Prop :=
  jt_jfs_depth j' = jt_jfs_depth j /\ jt_jfr_depth j' = jt_jfr_depth j
  /\ jt_jfc_depth j' = jt_jfc_depth j /\ jt_jfc_high_watermark j' = jt_jfc_high_watermark j
  /\ (jt_closed j = true -> jt_closed j' = true).

Lemma length_pop_front {A} (q : list A) : (length (pop_front q).2 <= length q)%nat.
Proof. destruct q; cbn; lia. Qed.

Lemma jetty_step_ok j op :
  jetty_ok j -> jetty_ok (jetty_step j op).1 /\ same_limits j (jetty_step j op).1.
Proof.
  intros [Hs Hr Hc]. unfold same_limits. destruct op; cbn [jetty_step].
  - unfold Jetty_post_recv. destruct (_ <=? _) eqn:E; zbool; cbn; (split; [|by split_and!]); constructor;
      cbn; rewrite ?length_app; cbn; lia.
  - unfold Jetty_post_send. destruct (jt_jfc_high_watermark j <=? _) eqn:E1;
      [|destruct (jt_jfs_depth j <=? _) eqn:E2]; zbool; cbn;
      (split; [|by split_and!]); constructor; cbn; rewrite ?length_app; cbn; lia.
  - unfold Jetty_pop_send. pose proof (length_pop_front (jt_jfs j)).
    destruct (pop_front (jt_jfs j)). cbn in *. split; [constructor; cbn; lia|by split_and!].
  - unfold Jetty_pop_recv. pose proof (length_pop_front (jt_jfr j)).
    destruct (pop_front (jt_jfr j)). cbn in *. split; [constructor; cbn; lia|by split_and!].
  - unfold Jetty_push_cqe. destruct (_ <=? _) eqn:E; zbool; cbn; (split; [|by split_and!]); constructor;
      cbn; rewrite ?length_app; cbn; try lia. destruct (jt_closed j); lia.
  - unfold Jetty_poll_cqe. pose proof (length_pop_front (jt_jfc j)).
    destruct (pop_front (jt_jfc j)). cbn in *. split; [constructor; cbn; lia|by split_and!].
  - unfold Jetty_close. destruct (jt_closed j) eqn:Hcl; cbn; (split; [|by split_and!]); constructor; cbn;
      rewrite ?Hcl in *; try lia. rewrite !drain_into_map, !length_app, !length_map. lia.
Qed.

Lemma jetty_run_ok ops j :
  jetty_ok j -> jetty_ok (jetty_run j ops).1 /\ same_limits j (jetty_run j ops).1.
Proof.
  revert j. induction ops as [|op ops IH]; intros j Hj; [by split|]. cbn [jetty_run].
  destruct (jetty_step_ok j op Hj) as [Hj1 Hl1]. destruct (jetty_step j op) as [j1 ef1].
  destruct (IH j1 Hj1) as [Hj2 Hl2]. destruct (jetty_run j1 ops) as [j2 ef2]. cbn in *.
  split; [done|]. destruct Hl1 as (? & ? & ? & ? & ?), Hl2 as (? & ? & ? & ? & ?).
  split_and!; congruence || auto.
Qed.

(** ** Properties *)

(** C37 (functional): No request is lost, duplicated or reordered. For any sequence of calls on a
    fresh jetty: the send requests it accepted are, in order, those handed to the worker or
    flushed by [close] followed by those still queued; the same holds for receive buffers; and
    the completions polled followed by those still queued are exactly those pushed, together
    with one FLUSHED completion for each request [close] found pending. *)
Theorem jetty_fifo handle node_id config ops :
  let '(j, ef) := jetty_run (Jetty_new handle node_id config) ops in
  ef_sent ef = ef_send_out ef ++ jt_jfs j
  /\ ef_posted ef = ef_recv_out ef ++ jt_jfr j
  /\ ef_completed ef = ef_polled ef ++ jt_jfc j.
Proof.
  pose proof (jetty_run_conserves ops (Jetty_new handle node_id config)) as H.
  destruct (jetty_run _ _) as [j ef]. exact H.
Qed.

(** C38 (bounds): The queues stay within their configured depths whatever is called: the send and
    receive queues always, the completion queue until the jetty is closed; [close] may add one
    completion per pending request on top. A full queue, or a completion queue at its high
    watermark, makes [post_send] fail without any effect. *)
Theorem jetty_bounds handle node_id config ops wr :
  0 <= jc_jfs_depth config -> 0 <= jc_jfr_depth config -> 0 <= jc_jfc_depth config ->
  let j := (jetty_run (Jetty_new handle node_id config) ops).1 in
  Z.of_nat (length (jt_jfs j)) <= jc_jfs_depth config
  /\ Z.of_nat (length (jt_jfr j)) <= jc_jfr_depth config
  /\ Jetty_cqe_count j <= jc_jfc_depth config
       + (if Jetty_is_closed j then jc_jfs_depth config + jc_jfr_depth config else 0)
  /\ (Jetty_post_send j wr = Err NoResources
       <-> jc_jfc_high_watermark config <= Jetty_cqe_count j
           \/ jc_jfs_depth config <= Z.of_nat (length (jt_jfs j))).
Proof.
  intros Hs Hr Hc. cbv zeta.
  destruct (jetty_run_ok ops (Jetty_new handle node_id config)) as [Hok Hlim];
    [constructor; cbn; lia|].
  destruct (jetty_run _ _) as [j ef]. cbn [fst] in *.
  destruct Hlim as (L1 & L2 & L3 & L4 & _). destruct Hok as [O1 O2 O3]. cbn in L1, L2, L3, L4.
  rewrite L1 in O1. rewrite L2 in O2. rewrite L1, L2, L3 in O3.
  split_and!; try done. unfold Jetty_post_send, Jetty_cqe_count. rewrite L1, L4.
  destruct (_ <=? _) eqn:E1; zbool; [tauto|]. destruct (_ <=? _) eqn:E2; zbool; [tauto|].
  split; [done|lia].
Qed.

Definition sample_wr (id : Z) : WorkRequest :=
  mkWorkRequest id (mkJettyAddr 2 1) [1; 2] None Verb_Send None None.

Lemma jetty_bounds_witness :
  Jetty_cqe_count (jetty_run (Jetty_new 1 1 (mkJettyConfig 2 2 2 1))
    [JettyOp_post_send (sample_wr 1); JettyOp_post_send (sample_wr 2); JettyOp_close]).1 <= 6.
Proof.
  apply (jetty_bounds 1 1 (mkJettyConfig 2 2 2 1)
    [JettyOp_post_send (sample_wr 1); JettyOp_post_send (sample_wr 2); JettyOp_close] (sample_wr 3));
    discriminate.
Defined.

Lemma closes (heap : list Jetty) arc j :
  heap !! arc = Some j -> exists j', alter Jetty_close arc heap !! arc = Some j'
    /\ jt_closed j' = true
    /\ (jt_closed j = false -> jt_jfs j' = [] /\ jt_jfr j' = []
        /\ jt_jfc j' = jt_jfc j ++ map (flushed_send j) (jt_jfs j) ++ map (flushed_recv j) (jt_jfr j)).
Proof.
  intros Hj. exists (Jetty_close j). rewrite list_lookup_alter_eq, Hj. split; [done|].
  unfold Jetty_close. destruct (jt_closed j) eqn:Hc; [done|]. split; [done|]. intros _. cbn.
  by rewrite !drain_into_map, <- app_assoc.
Qed.

(** Creating and closing jettys. A created jetty is found under its handle; the
    first one becomes the default; deregistering removes the handle, clears the default when it
    was this one, closes the jetty so that every pending request completes as FLUSHED, and leaves
    all other jettys alone; deregistering an unknown handle fails. *)
Theorem jetty_table_lifecycle t handle :
  (let '(t', h) := JettyTable_create t in
   h = jb_next_handle t
   /\ exists arc, JettyTable_lookup t' h = Some arc
      /\ jb_heap t' !! arc = Some (Jetty_new h (jb_node_id t) (jb_config t))
   /\ (jb_default_jetty t = 0 -> h <> 0 -> JettyTable_default_jetty t' = Some h))
  /\ match JettyTable_lookup t handle with
     | None => JettyTable_deregister t handle = Err AddrInvalid
     | Some arc => exists t', JettyTable_deregister t handle = Ok t'
         /\ JettyTable_lookup t' handle = None
         /\ (forall h, h <> handle -> JettyTable_lookup t' h = JettyTable_lookup t h)
         /\ JettyTable_default_jetty t' <> Some handle
         /\ (forall i, i <> arc -> jb_heap t' !! i = jb_heap t !! i)
         /\ forall j, jb_heap t !! arc = Some j -> exists j', jb_heap t' !! arc = Some j'
              /\ jt_closed j' = true
              /\ (jt_closed j = false -> jt_jfs j' = [] /\ jt_jfr j' = []
                  /\ jt_jfc j' = jt_jfc j ++ map (flushed_send j) (jt_jfs j)
                                  ++ map (flushed_recv j) (jt_jfr j))
     end.
Proof.
  split.
  - unfold JettyTable_create. cbv zeta. split; [done|]. exists (length (jb_heap t)).
    unfold JettyTable_lookup, JettyTable_default_jetty. cbn [set_field jb_default_jetty].
    destruct (jb_default_jetty t =? 0) eqn:E; cbn;
      rewrite lookup_insert_eq, lookup_app_r, Nat.sub_diag by lia; split_and!; try done.
    + intros _ Hne. by rewrite (proj2 (Z.eqb_neq _ _) Hne).
    + intros H0. by rewrite H0 in E.
  - unfold JettyTable_lookup, JettyTable_deregister, JettyTable_default_jetty.
    destruct (jb_entries t !! handle) as [arc|]; [|done]. cbv zeta. eexists. split; [reflexivity|].
    cbn [set_field jb_default_jetty jb_entries jb_heap].
    destruct (jb_default_jetty t =? handle) eqn:E; cbn [jb_default_jetty jb_entries jb_heap]; zbool;
      split_and!; try (apply lookup_delete_eq); try (intros; by apply lookup_delete_ne);
      try (intros; by apply list_lookup_alter_ne); try apply closes; [done|].
    destruct (jb_default_jetty t =? 0); [done|]. case_match; congruence.
Qed.
