(* ===== verification/JettyLocks.v ===== *)
(** * JettyLocks: a jetty under concurrent callers

    crates/ub-core/src/jetty.rs at the grain of its critical sections. Jetty.v runs a call as
    one step; here calls of any number of threads interleave, a thread that needs a lock
    waits for it, and [close] and [list] hold locks while they wait for others. *)

From S2P Require Import Prelude Bytes Types Addr Jetty.
#[local] Open Scope Z_scope.

(** ** Calls and their locks *)

(** The mutexes of a [Jetty]; [limits] are not guarded. *)
Inductive Lock : Type := Lock_closed | Lock_jfs | Lock_jfc | Lock_jfr.

#[global] Instance Lock_eq_dec : EqDecision Lock.
Proof. solve_decision. Defined.

Inductive Reply : Type :=
| Reply_ok
| Reply_no_resources
| Reply_send (wr : option WorkRequest)
| Reply_recv (rb : option RecvBuffer)
| Reply_cqe (cqe : option Cqe)
| Reply_count (n : Z)
| Reply_closed (b : bool)
| Reply_counts (cqes sends recvs : Z).

(** A call before its next critical section. *)
Inductive JettyTask : Type :=
| JTask_post_recv (buf : bytes) (wr_id : Z)
| JTask_post_send (wr : WorkRequest)
| JTask_post_send_checked (wr : WorkRequest)
| JTask_pop_send
| JTask_pop_recv
| JTask_push_cqe (cqe : Cqe)
| JTask_poll_cqe
| JTask_cqe_count
| JTask_is_closed
| JTask_close
| JTask_close_marked
| JTask_close_sends
| JTask_close_flushed
| JTask_list
| JTask_list_cqes (cqes : Z)
| JTask_list_sends (cqes sends : Z)
| JTask_done (r : Reply).

(** Source: crates/ub-core/src/jetty.rs:155-190, [Jetty::close].
    The guards a call keeps between two of its steps, in [close] and in the [JettyInfo] of
    [JettyTable::list], whose second guard lives to the end of the expression. *)
Definition held (t : JettyTask) : list Lock :=
  match t with
  | JTask_close_marked => [Lock_closed]
  | JTask_close_sends => [Lock_closed; Lock_jfs]
  | JTask_close_flushed => [Lock_closed; Lock_jfs; Lock_jfc]
  | JTask_list_sends _ _ => [Lock_jfs]
  | _ => []
  end.

(** Source: crates/ub-core/src/jetty.rs:79-195, [Jetty].
    The lock its next step begins with. *)
Definition needs (t : JettyTask) : option Lock :=
  match t with
  | JTask_post_recv _ _ | JTask_pop_recv | JTask_close_flushed | JTask_list_sends _ _ => Some Lock_jfr
  | JTask_post_send _ | JTask_push_cqe _ | JTask_poll_cqe | JTask_cqe_count | JTask_close_sends
  | JTask_list => Some Lock_jfc
  | JTask_post_send_checked _ | JTask_pop_send | JTask_close_marked | JTask_list_cqes _ => Some Lock_jfs
  | JTask_is_closed | JTask_close => Some Lock_closed
  | JTask_done _ => None
  end.

(** ** One critical section *)

Definition unit_reply (j : Jetty) (r : Result Jetty) : Jetty * JettyTask :=
  match r with
  | Ok j => (j, JTask_done Reply_ok)
  | _ => (j, JTask_done Reply_no_resources)
  end.

(** Source: crates/ub-core/src/jetty.rs:92-97, [Jetty::post_send]. *)
Definition post_send_check (j : Jetty) (wr : WorkRequest) : JettyTask :=
  if jt_jfc_high_watermark j <=? Z.of_nat (length (jt_jfc j)) then JTask_done Reply_no_resources
  else JTask_post_send_checked wr.

(** Source: crates/ub-core/src/jetty.rs:99-105, [Jetty::post_send]. *)
Definition post_send_push (j : Jetty) (wr : WorkRequest) : Result Jetty :=
  if jt_jfs_depth j <=? Z.of_nat (length (jt_jfs j)) then Err NoResources
  else Ok (j <| jt_jfs := jt_jfs j ++ [wr] |> <| jt_permit := true |>).

(** Source: crates/ub-core/src/jetty.rs:155-160, [Jetty::close]. *)
Definition close_mark (j : Jetty) : Jetty * JettyTask :=
  if jt_closed j then (j, JTask_done Reply_ok)
  else (j <| jt_closed := true |>, JTask_close_marked).

(** Source: crates/ub-core/src/jetty.rs:164-175, [Jetty::close]. *)
Definition close_flush_sends (j : Jetty) : Jetty :=
  let jfc := drain_into (flushed_send j) (jt_jfs j) (jt_jfc j) in
  j <| jt_jfs := [] |> <| jt_jfc := jfc |>.

(** Source: crates/ub-core/src/jetty.rs:178-190, [Jetty::close]. *)
Definition close_flush_recvs (j : Jetty) : Jetty :=
  let jfc := drain_into (flushed_recv j) (jt_jfr j) (jt_jfc j) in
  j <| jt_jfr := [] |> <| jt_jfc := jfc |>.

(** Source: crates/ub-core/src/jetty.rs:79-195, [Jetty].
    The step of a call that has its lock. *)
Definition section_step (j : Jetty) (t : JettyTask) : option (Jetty * JettyTask) :=
  match t with
  | JTask_post_recv buf wr_id => Some (unit_reply j (Jetty_post_recv j buf wr_id))
  | JTask_post_send wr => Some (j, post_send_check j wr)
  | JTask_post_send_checked wr => Some (unit_reply j (post_send_push j wr))
  | JTask_pop_send => let '(wr, j) := Jetty_pop_send j in Some (j, JTask_done (Reply_send wr))
  | JTask_pop_recv => let '(rb, j) := Jetty_pop_recv j in Some (j, JTask_done (Reply_recv rb))
  | JTask_push_cqe cqe => Some (unit_reply j (Jetty_push_cqe j cqe))
  | JTask_poll_cqe => let '(cqe, j) := Jetty_poll_cqe j in Some (j, JTask_done (Reply_cqe cqe))
  | JTask_cqe_count => Some (j, JTask_done (Reply_count (Jetty_cqe_count j)))
  | JTask_is_closed => Some (j, JTask_done (Reply_closed (Jetty_is_closed j)))
  | JTask_close => Some (close_mark j)
  | JTask_close_marked => Some (j, JTask_close_sends)
  | JTask_close_sends => Some (close_flush_sends j, JTask_close_flushed)
  | JTask_close_flushed => Some (close_flush_recvs j, JTask_done Reply_ok)
  | JTask_list => Some (j, JTask_list_cqes (Jetty_cqe_count j))
  | JTask_list_cqes cqes => Some (j, JTask_list_sends cqes (Z.of_nat (length (jt_jfs j))))
  | JTask_list_sends cqes sends =>
    Some (j, JTask_done (Reply_counts cqes sends (Z.of_nat (length (jt_jfr j)))))
  | JTask_done _ => None
  end.

(** ** A jetty with its callers *)

Record Callers : Type := mkCallers {
  ca_jetty : Jetty;
  ca_tasks : list JettyTask;
}.

Definition free (ts : list JettyTask) (l : Lock) : bool :=
  forallb (fun t => negb (bool_decide (l ∈ held t))) ts.

(** Task [i] takes its lock, if nobody has it, and runs up to its next lock. *)
Definition call_move (w : Callers) (i : nat) : option Callers :=
  t ← ca_tasks w !! i;
  l ← needs t;
  if free (ca_tasks w) l then
    '(j, t') ← section_step (ca_jetty w) t;
    Some (mkCallers j (<[i := t']> (ca_tasks w)))
  else None.

Definition call_step (w w' : Callers) : Prop := exists i, call_move w i = Some w'.

Fixpoint call_moves (w : Callers) (ms : list nat) : option Callers :=
  match ms with
  | [] => Some w
  | i :: ms => w ← call_move w i; call_moves w ms
  end.

(** A call that has not begun. *)
Definition fresh (t : JettyTask) : bool :=
  match t with
  | JTask_post_send_checked _ | JTask_close_marked | JTask_close_sends | JTask_close_flushed
  | JTask_list_cqes _ | JTask_list_sends _ _ | JTask_done _ => false
  | _ => true
  end.

(** [close] between its first step and its last. *)
Definition closing (t : JettyTask) : bool :=
  match t with
  | JTask_close_marked | JTask_close_sends | JTask_close_flushed => true
  | _ => false
  end.

(** ** Atomic calls *)

(** The same calls without locks and with [close] as one step: the operations of Jetty.v, where
    [post_send] looks at the completion queue before it enters the request. *)
Definition atomic_step (j : Jetty) (t : JettyTask) : option (Jetty * JettyTask) :=
  match t with
  | JTask_close => Some (Jetty_close j, JTask_done Reply_ok)
  | JTask_close_marked | JTask_close_sends | JTask_close_flushed => None
  | _ => section_step j t
  end.

Definition atomic_call (w w' : Callers) : Prop :=
  exists i t j' t', ca_tasks w !! i = Some t /\ atomic_step (ca_jetty w) t = Some (j', t')
    /\ w' = mkCallers j' (<[i := t']> (ca_tasks w)).

(** Without another call in between, the two steps of [post_send] are the call of Jetty.v. *)
Lemma post_send_atomic j wr :
  match Jetty_post_send j wr with
  | Ok j' => post_send_check j wr = JTask_post_send_checked wr /\ post_send_push j wr = Ok j'
  | _ => post_send_check j wr = JTask_done Reply_no_resources
         \/ post_send_check j wr = JTask_post_send_checked wr /\ post_send_push j wr = Err NoResources
  end.
Proof.
  unfold Jetty_post_send, post_send_check, post_send_push.
  destruct (_ <=? _); [by left|]. destruct (_ <=? _); [by right|done].
Qed.

Lemma close_sections j :
  jt_closed j = false -> Jetty_close j = close_flush_recvs (close_flush_sends (j <| jt_closed := true |>)).
Proof. intros Hc. unfold Jetty_close. by rewrite Hc. Qed.

(** ** Mutual exclusion *)

Lemma free_spec ts l : free ts l = true <-> forall i t, ts !! i = Some t -> l ∉ held t.
Proof.
  unfold free. rewrite forallb_forall. setoid_rewrite <- list_elem_of_In. split.
  - intros H i t Ht. apply list_elem_of_lookup_2 in Ht. specialize (H _ Ht).
    by apply negb_true_iff, bool_decide_eq_false in H.
  - intros H t Ht. apply list_elem_of_lookup_1 in Ht as [i Hi].
    apply negb_true_iff, bool_decide_eq_false. by eapply H.
Qed.

Lemma not_free ts l : free ts l = false -> exists i t, ts !! i = Some t /\ l ∈ held t.
Proof.
  induction ts as [|t ts IH]; [done|]. unfold free. cbn [forallb]. intros [H|H]%andb_false_iff.
  - apply negb_false_iff, bool_decide_eq_true in H. by exists 0%nat, t.
  - destruct (IH H) as (i & u & Hu & Hl). by exists (S i), u.
Qed.

(** Two calls never have the same lock. *)
Definition exclusive (ts : list JettyTask) : Prop :=
  forall i k t u l, ts !! i = Some t -> ts !! k = Some u -> l ∈ held t -> l ∈ held u -> i = k.

Lemma section_held j t j' t' :
  section_step j t = Some (j', t') -> forall l, l ∈ held t' -> needs t = Some l \/ l ∈ held t.
Proof.
  intros Hs l Hl.
  destruct t; cbn in Hs; unfold unit_reply, post_send_check, close_mark in Hs; repeat case_match; simplify_eq;
    cbn in Hl |- *; set_unfold; intuition (subst; auto).
Qed.

(** A move: who moved, and that its lock was free. *)
Lemma call_move_inv w i w' :
  call_move w i = Some w' ->
  exists t l j' t', ca_tasks w !! i = Some t /\ needs t = Some l
    /\ (forall k u, ca_tasks w !! k = Some u -> l ∉ held u)
    /\ section_step (ca_jetty w) t = Some (j', t') /\ w' = mkCallers j' (<[i := t']> (ca_tasks w)).
Proof.
  unfold call_move. destruct (ca_tasks w !! i) as [t|]; cbn; [|done].
  destruct (needs t) as [l|] eqn:Hn; cbn; [|done]. destruct (free _ l) eqn:Hf; [|done].
  destruct (section_step _ t) as [[j' t']|] eqn:Hs; cbn; [|done]. intros [= <-].
  exists t, l, j', t'. split_and!; try done. by apply free_spec.
Qed.

Lemma exclusive_move w i w' : exclusive (ca_tasks w) -> call_move w i = Some w' -> exclusive (ca_tasks w').
Proof.
  intros Hx Hm. apply call_move_inv in Hm as (t & l & j' & t' & Ht & Hn & Hfree & Hs & ->).
  cbn [ca_tasks]. pose proof (section_held _ _ _ _ Hs) as Hh.
  assert (forall k u m, k <> i -> ca_tasks w !! k = Some u -> m ∈ held t' -> m ∈ held u -> False) as Hno.
  { intros k u m Hk Hu Hm1 Hm2. destruct (Hh _ Hm1) as [Hneed|Hold].
    - assert (m = l) as -> by congruence. by eapply Hfree.
    - apply Hk. by eapply Hx. }
  intros a b u v m Ha Hb Hu Hv.
  apply list_lookup_insert_Some in Ha as [(<- & <- & _)|(Hai & Ha)];
    apply list_lookup_insert_Some in Hb as [(<- & <- & _)|(Hbi & Hb)]; [done| | |by eapply Hx].
  - exfalso. by eapply (Hno b v m).
  - exfalso. by eapply (Hno a u m).
Qed.

Lemma exclusive_fresh ts : Forall (fun t => fresh t) ts -> exclusive ts.
Proof.
  intros Hf i k t u l Ht _ Hl. rewrite Forall_lookup in Hf. specialize (Hf _ _ Ht).
  exfalso. destruct t; cbn in *; try done; set_solver.
Qed.

(** ** Every interleaving is one of atomic calls *)

(** A call on its way through [close] has not happened yet. *)
Definition abs_task (t : JettyTask) : JettyTask := if closing t then JTask_close else t.

(** The atomic jetty behind a jetty in the middle of [close]: still open, and with the requests
    that [close] has flushed back in their queue. *)
Definition reopened (j : Jetty) (t : JettyTask) (a : Jetty) : Prop :=
  jt_closed j = true
  /\ match t with
     | JTask_close_marked | JTask_close_sends => a = j <| jt_closed := false |>
     | JTask_close_flushed => exists sends cqes,
         jt_jfs j = [] /\ jt_jfc j = drain_into (flushed_send j) sends cqes
         /\ a = j <| jt_closed := false |> <| jt_jfs := sends |> <| jt_jfc := cqes |>
     | _ => False
     end.

Definition simulates (w : Callers) (a : Jetty) : Prop :=
  (Forall (fun t => closing t = false) (ca_tasks w) /\ a = ca_jetty w)
  \/ exists k t, ca_tasks w !! k = Some t /\ closing t = true /\ reopened (ca_jetty w) t a.

Lemma closing_held t : closing t = true -> Lock_closed ∈ held t.
Proof. destruct t; cbn; set_solver. Qed.

(** What a step may do depends on [closed] only in [close] and [is_closed]. *)
Lemma section_unclosed j t l j' t' :
  needs t = Some l -> l <> Lock_closed -> closing t = false -> section_step j t = Some (j', t') ->
  section_step (j <| jt_closed := false |>) t = Some (j' <| jt_closed := false |>, t')
  /\ jt_closed j' = jt_closed j /\ closing t' = false.
Proof.
  intros Hn Hl Hc Hs. destruct j as [h nd js jr jc ds dr dc wm pm cl].
  destruct t; try discriminate Hc; try (by injection Hn as <-);
    cbn in Hs |- *;
    unfold unit_reply, Jetty_post_recv, Jetty_push_cqe, post_send_check, post_send_push, Jetty_pop_send,
      Jetty_pop_recv, Jetty_poll_cqe in Hs |- *; cbn in Hs |- *;
    repeat case_match; try done; injection Hs as <- <-; by simplify_eq/=.
Qed.

(** Nor does a step on the receive queue depend on the other queues. *)
Lemma section_recvs j t j' t' sends cqes :
  needs t = Some Lock_jfr -> closing t = false -> Lock_jfs ∉ held t -> section_step j t = Some (j', t') ->
  section_step (j <| jt_closed := false |> <| jt_jfs := sends |> <| jt_jfc := cqes |>) t
  = Some (j' <| jt_closed := false |> <| jt_jfs := sends |> <| jt_jfc := cqes |>, t')
  /\ jt_closed j' = jt_closed j /\ jt_jfs j' = jt_jfs j /\ jt_jfc j' = jt_jfc j /\ jt_handle j' = jt_handle j
  /\ closing t' = false.
Proof.
  intros Hn Hc Hl Hs. destruct j as [h nd js jr jc ds dr dc wm pm cl].
  destruct t; try discriminate Hc; try discriminate Hn; [| |by exfalso; apply Hl; left];
    cbn in Hs |- *; unfold unit_reply, Jetty_post_recv, Jetty_pop_recv in Hs |- *; cbn in Hs |- *;
    repeat case_match; try done; injection Hs as <- <-; by simplify_eq/=.
Qed.

(** A step that does not take a lock of the closing call does the same to both jettys. *)
Lemma section_reopened j u a t l j' t' :
  reopened j u a -> needs t = Some l -> l ∉ held u -> closing t = false ->
  (forall m, m ∈ held t -> m ∉ held u) ->
  section_step j t = Some (j', t') ->
  exists a', section_step a t = Some (a', t') /\ reopened j' u a' /\ closing t' = false.
Proof.
  intros [Hcl Hu] Hn Hl Hnc Hh Hs.
  assert (closing u = true) as Hcu by (by destruct u).
  assert (l <> Lock_closed) as Hlc by (intros ->; by apply Hl, closing_held).
  destruct u; try done.
  1, 2: subst a; destruct (section_unclosed _ _ _ _ _ Hn Hlc Hnc Hs) as (Ha & Hc & Ht);
    eexists; split; [exact Ha|]; (split; [by split; [congruence|]|done]).
  destruct Hu as (sends & cqes & Hjs & Hjc & ->).
  assert (l = Lock_jfr) as -> by (destruct l; [done|exfalso; apply Hl; cbn; set_solver..|done]).
  destruct (section_recvs j t j' t' sends cqes Hn Hnc) as (Ha & Hc & E1 & E2 & E3 & Ht); [|done|].
  { intros Hm. apply (Hh _ Hm). cbn. set_solver. }
  eexists. split; [exact Ha|]. split; [|done]. split; [congruence|].
  exists sends, cqes. split; [congruence|]. split; [|done]. rewrite E2, Hjc.
  unfold flushed_send. by rewrite E3.
Qed.

Lemma close_or_not t : t = JTask_close \/ t <> JTask_close.
Proof. destruct t; first [by left|by right]. Qed.

(** Only one call is on its way through [close]. *)
Lemma closing_unique ts k u i t :
  exclusive ts -> ts !! k = Some u -> closing u = true -> ts !! i = Some t -> i <> k -> closing t = false.
Proof.
  intros Hx Hu Hcu Ht Hik. destruct (closing t) eqn:Hc; [|done]. exfalso. apply Hik.
  eapply (Hx i k t u Lock_closed); auto using closing_held.
Qed.

Lemma section_settled j t j' t' :
  closing t = false -> t <> JTask_close -> section_step j t = Some (j', t') ->
  atomic_step j t = Some (j', t') /\ closing t' = false.
Proof.
  intros Hc Hn Hs. destruct t; try done; (split; [exact Hs|]);
    cbn in Hs; unfold unit_reply, post_send_check in Hs; repeat case_match; by simplify_eq.
Qed.

Lemma abs_tasks_insert i ts t :
  map abs_task (<[i := t]> ts) = <[i := abs_task t]> (map abs_task ts).
Proof. apply list_fmap_insert. Qed.

Lemma abs_tasks_same i ts t t' :
  ts !! i = Some t -> abs_task t' = abs_task t -> map abs_task (<[i := t']> ts) = map abs_task ts.
Proof.
  intros Ht He. rewrite abs_tasks_insert, He. apply list_insert_id.
  change (map abs_task ts) with (abs_task <$> ts). by rewrite list_lookup_fmap, Ht.
Qed.

(** A call of the atomic jetty. *)
Lemma atomic_call_intro i ts t a a' t' :
  ts !! i = Some t -> closing t = false -> atomic_step a t = Some (a', t') -> closing t' = false ->
  rtc atomic_call (mkCallers a (map abs_task ts)) (mkCallers a' (map abs_task (<[i := t']> ts))).
Proof.
  intros Ht Hc Hs Hc'. apply rtc_once. exists i, t, a', t'. cbn [ca_tasks ca_jetty].
  rewrite abs_tasks_insert. unfold abs_task at 2. rewrite Hc'. split_and!; [|done|done].
  change (map abs_task ts) with (abs_task <$> ts). rewrite list_lookup_fmap, Ht. cbn.
  unfold abs_task. by rewrite Hc.
Qed.

(** The last step of [close] is where it happens. *)
Lemma close_happens j a sends cqes :
  a = j <| jt_closed := false |> <| jt_jfs := sends |> <| jt_jfc := cqes |> ->
  jt_closed j = true -> jt_jfs j = [] -> jt_jfc j = drain_into (flushed_send j) sends cqes ->
  Jetty_close a = close_flush_recvs j.
Proof.
  intros -> Hc Hs Hq. destruct j; cbn in Hc, Hs, Hq. subst jt_closed jt_jfs.
  unfold Jetty_close, close_flush_recvs. cbn. f_equal. rewrite drain_into_map in Hq.
  rewrite !drain_into_map. f_equal. symmetry. exact Hq.
Qed.

Lemma move_simulated w i w' a :
  exclusive (ca_tasks w) -> simulates w a -> call_move w i = Some w' ->
  exists a', rtc atomic_call (mkCallers a (map abs_task (ca_tasks w)))
               (mkCallers a' (map abs_task (ca_tasks w'))) /\ simulates w' a'.
Proof.
  destruct w as [j ts]. cbn [ca_tasks ca_jetty]. intros Hx Hsim Hm.
  apply call_move_inv in Hm as (t & l & j' & t' & Ht & Hn & Hfree & Hs & ->). cbn [ca_tasks ca_jetty] in *.
  destruct Hsim as [[Hall ->]|(k & u & Hu & Hcu & Hr)]; cbn [ca_tasks ca_jetty] in *.
  - (* nobody is closing *)
    pose proof (proj1 (Forall_lookup _ _) Hall _ _ Ht) as Hct. cbn in Hct.
    destruct (close_or_not t) as [->|Hne].
    + cbn in Hs. unfold close_mark in Hs. destruct (jt_closed j) eqn:Hcl; simplify_eq.
      * exists j'. split; [|left; split; [by apply Forall_insert|done]].
        eapply atomic_call_intro; [done|done| |done]. cbn. unfold Jetty_close. by rewrite Hcl.
      * exists j. rewrite (abs_tasks_same i ts JTask_close) by done. split; [done|]. right.
        exists i, JTask_close_marked. cbn [ca_tasks ca_jetty].
        split; [apply list_lookup_insert_eq; by eapply lookup_lt_Some|]. split; [done|].
        split; [done|]. destruct j; cbn in *. by subst.
    + destruct (section_settled _ _ _ _ Hct Hne Hs) as [Ha Hct'].
      exists j'. split; [by eapply atomic_call_intro|]. left. split; [by apply Forall_insert|done].
  - destruct (decide (i = k)) as [->|Hik].
    + (* the closing call itself *)
      assert (u = t) as -> by congruence. clear Hu. destruct Hr as [Hcl Hr].
      pose proof (lookup_lt_Some _ _ _ Ht) as Hlt.
      assert (forall t2 a2, closing t2 = true -> reopened j' t2 a2 -> t' = t2 -> a2 = a ->
        exists a', rtc atomic_call (mkCallers a (map abs_task ts)) (mkCallers a' (map abs_task (<[k:=t']> ts)))
          /\ simulates (mkCallers j' (<[k:=t']> ts)) a') as Hstay.
      { intros t2 a2 H2 Hr2 -> ->. exists a. rewrite (abs_tasks_same k ts t _ Ht) by
          (unfold abs_task; by rewrite H2, Hcu). split; [done|]. right. exists k, t2.
        cbn [ca_tasks ca_jetty]. by rewrite list_lookup_insert_eq. }
      destruct t; try done; cbn in Hs; simplify_eq.
      * by apply (Hstay JTask_close_sends (j' <| jt_closed := false |>)).
      * apply (Hstay JTask_close_flushed (j <| jt_closed := false |>)); [done| |done|done].
        split; [done|]. exists (jt_jfs j), (jt_jfc j). split_and!; [done|done|by destruct j].
      * destruct Hr as (sends & cqes & Hjs & Hjc & Ha).
        exists (close_flush_recvs j). split.
        -- apply rtc_once. exists k, JTask_close, (close_flush_recvs j), (JTask_done Reply_ok). cbn [ca_tasks ca_jetty].
           rewrite abs_tasks_insert. split_and!; [|cbn; by erewrite close_happens|done].
           change (map abs_task ts) with (abs_task <$> ts). by rewrite list_lookup_fmap, Ht.
        -- left. split; [|done]. apply Forall_lookup. intros m v Hv. cbn [ca_tasks] in Hv.
           apply list_lookup_insert_Some in Hv as [(_ & <- & _)|[Hmk Hv]]; [done|].
           by eapply (closing_unique ts k JTask_close_flushed m).
    + (* another call *)
      pose proof (closing_unique _ _ _ _ _ Hx Hu Hcu Ht Hik) as Hct.
      pose proof (Hfree _ _ Hu) as Hl.
      assert (t <> JTask_close) as Hne.
      { intros ->. cbn in Hn. simplify_eq. by apply Hl, closing_held. }
      destruct (section_reopened j u a t l j' t' Hr Hn Hl Hct) as (a' & Ha & Hr' & Hct'); [|done|].
      { intros m Hm1 Hm2. apply Hik. by eapply Hx. }
      exists a'. split.
      * eapply atomic_call_intro; [done|done| |done]. by apply (section_settled a t a' t').
      * right. exists k, u. cbn [ca_tasks ca_jetty]. by rewrite list_lookup_insert_ne.
Qed.

Lemma moves_simulated w w' a :
  exclusive (ca_tasks w) -> simulates w a -> rtc call_step w w' ->
  exclusive (ca_tasks w')
  /\ exists a', rtc atomic_call (mkCallers a (map abs_task (ca_tasks w)))
                  (mkCallers a' (map abs_task (ca_tasks w'))) /\ simulates w' a'.
Proof.
  intros Hx Hs Hr. revert a Hx Hs. induction Hr as [w|w x w' [i Hm] _ IH]; intros a Hx Hs.
  { split; [done|]. by exists a. }
  destruct (move_simulated _ _ _ _ Hx Hs Hm) as (b & Hab & Hb).
  destruct (IH b (exclusive_move _ _ _ Hx Hm) Hb) as [Hx' (c & Hbc & Hc)].
  split; [done|]. exists c. split; [by etrans|done].
Qed.

Lemma abs_tasks_settled ts : Forall (fun t => closing t = false) ts -> map abs_task ts = ts.
Proof.
  intros H. induction H as [|t ts Ht _ IH]; [done|]. cbn. rewrite IH. f_equal. unfold abs_task. by rewrite Ht.
Qed.

Lemma fresh_settled ts : Forall (fun t => fresh t) ts -> Forall (fun t => closing t = false) ts.
Proof. intros H. eapply Forall_impl; [exact H|]. intros t Ht. by destruct t. Qed.

(** C36 (refinement): A jetty may be used from any number of threads at once. Take any calls, in
    any number, and any interleaving of their critical sections under the locks the code takes:
    whenever no [close] is half way, the queues and the answers of all calls are those of a run
    in which every call is one operation on the jetty, [close] included, and [post_send] two. *)
Theorem jetty_calls_atomic j calls w :
  Forall (fun t => fresh t) calls -> rtc call_step (mkCallers j calls) w ->
  Forall (fun t => closing t = false) (ca_tasks w) ->
  rtc atomic_call (mkCallers j calls) w.
Proof.
  intros Hf Hr Hw. pose proof (fresh_settled _ Hf) as Hc.
  destruct (moves_simulated (mkCallers j calls) w j) as [_ (a & Ha & Hs)];
    [by apply exclusive_fresh|by left|done|].
  cbn [ca_tasks] in Ha. rewrite !abs_tasks_settled in Ha by done.
  destruct Hs as [[_ ->]|(k & t & Ht & Hct & _)]; [by destruct w|].
  rewrite Forall_lookup in Hw. specialize (Hw _ _ Ht). cbn in Hw. congruence.
Qed.

(** ** No deadlock *)

(** The steps a call has left. *)
Definition steps_left (t : JettyTask) : nat :=
  match t with
  | JTask_done _ => 0
  | JTask_post_send _ => 2
  | JTask_close => 4
  | JTask_close_marked | JTask_list => 3
  | JTask_close_sends | JTask_list_cqes _ => 2
  | _ => 1
  end.

Definition lock_order (l : Lock) : nat :=
  match l with
  | Lock_closed => 0
  | Lock_jfs => 1
  | Lock_jfc => 2
  | Lock_jfr => 3
  end.

(** Locks are taken in one order. *)
Lemma locks_ordered t l m : m ∈ held t -> needs t = Some l -> (lock_order m < lock_order l)%nat.
Proof.
  intros Hm Hn. destruct t; cbn in Hm, Hn; try done; try (by apply not_elem_of_nil in Hm); injection Hn as <-;
    set_unfold in Hm; intuition (subst; cbn; lia).
Qed.

Lemma section_steps_left j t j' t' : section_step j t = Some (j', t') -> (steps_left t' < steps_left t)%nat.
Proof.
  intros Hs. destruct t; cbn in Hs; unfold unit_reply, post_send_check, close_mark in Hs; repeat case_match;
    try done; injection Hs as <- <-; cbn; lia.
Qed.

Lemma holder_waits t m : m ∈ held t -> is_Some (needs t).
Proof. destruct t; cbn; (by intros ?%not_elem_of_nil) || (intros _; eauto). Qed.

Lemma section_enabled j t l : needs t = Some l -> is_Some (section_step j t).
Proof. destruct t; cbn; try done; intros _; repeat case_match; eauto. Qed.

(** Where somebody waits, somebody can move: the one whose lock is last in the order. *)
Lemma someone_moves w i t :
  ca_tasks w !! i = Some t -> is_Some (needs t) -> exists k, is_Some (call_move w k).
Proof.
  intros Ht [l Hn]. remember (4 - lock_order l)%nat as n eqn:Heqn.
  revert i t l Ht Hn Heqn. induction (lt_wf n) as [n _ IH]. intros i t l Ht Hn ->.
  destruct (free (ca_tasks w) l) eqn:Hf.
  - exists i. unfold call_move. rewrite Ht. cbn. rewrite Hn. cbn. rewrite Hf.
    destruct (section_enabled (ca_jetty w) t l Hn) as [[j' t'] ->]. cbn. eauto.
  - destruct (not_free _ _ Hf) as (k & u & Hu & Hl).
    destruct (holder_waits _ _ Hl) as [m Hm]. pose proof (locks_ordered _ _ _ Hl Hm).
    eapply (IH (4 - lock_order m)%nat); [destruct l, m; cbn in *; lia|done|done|done].
Qed.


Lemma calls_measure w ms w' :
  call_moves w ms = Some w' ->
  (sum_list_with steps_left (ca_tasks w') + length ms <= sum_list_with steps_left (ca_tasks w))%nat
  /\ length (ca_tasks w') = length (ca_tasks w).
Proof.
  revert w. induction ms as [|i ms IH]; intros w Hm; cbn in Hm; [simplify_eq; cbn; split; [lia|done]|].
  destruct (call_move w i) as [x|] eqn:Hx; cbn in Hm; [|done]. destruct (IH _ Hm) as [Hle Hlen].
  apply call_move_inv in Hx as (t & l & j' & t' & Ht & _ & _ & Hs & ->). cbn [ca_tasks] in *.
  pose proof (sum_list_with_insert steps_left _ _ _ t' Ht). apply section_steps_left in Hs. cbn [length].
  rewrite length_insert in Hlen. split; [lia|done].
Qed.

(** No interleaving of calls on a jetty deadlocks: [n] calls take at most [4 n]
    critical sections, and as long as one has not returned, some call finds its lock free. *)
Theorem jetty_calls_return j calls ms w :
  Forall (fun t => fresh t) calls -> call_moves (mkCallers j calls) ms = Some w ->
  (length ms <= 4 * length calls)%nat
  /\ ((forall i, call_move w i = None) -> exists replies, ca_tasks w = map JTask_done replies).
Proof.
  intros _ Hm. pose proof (calls_measure _ _ _ Hm) as [Hle Hlen]. cbn [ca_tasks] in *. split.
  - assert (sum_list_with steps_left calls <= 4 * length calls)%nat; [|lia].
    clear. induction calls as [|t ts IH]; cbn [sum_list_with length]; [lia|]. destruct t; cbn [steps_left]; lia.
  - intros Hstuck.
    assert (Forall (fun t => exists r, t = JTask_done r) (ca_tasks w)) as Hall.
    { apply Forall_lookup. intros i t Ht. destruct (needs t) as [l|] eqn:Hn.
      - destruct (someone_moves w i t Ht) as [k [w' Hk]]; [by exists l|]. by rewrite Hstuck in Hk.
      - destruct t; try done. eauto. }
    clear -Hall. induction Hall as [|t ts [r ->] _ [rs IH]]; [by exists []|].
    exists (r :: rs). cbn. by rewrite IH.
Qed.

(** ** One jetty, three callers *)

Definition small_jetty : Jetty := Jetty_new 1 42 (mkJettyConfig 4 4 4 1).

Definition small_request : WorkRequest := mkWorkRequest 7 (mkJettyAddr 43 1) [] None Verb_Send None None.

Definition small_cqe : Cqe := mkCqe 9 0 None 0 1 Verb_Send.

(** A receive buffer arrives while [close] is half way, and is flushed with the rest. *)
Definition small_run : list nat := [1; 1; 0; 0; 0; 2; 0]%nat.

Definition small_end : Callers :=
  mkCallers (mkJetty 1 42 [] [] [flushed_send small_jetty small_request; flushed_recv small_jetty (mkRecvBuffer [] 8)]
               4 4 4 1 true true)
    [JTask_done Reply_ok; JTask_done Reply_ok; JTask_done Reply_ok].

Lemma call_moves_rtc w ms w' : call_moves w ms = Some w' -> rtc call_step w w'.
Proof.
  revert w. induction ms as [|i ms IH]; intros w Hm; cbn in Hm; [by simplify_eq|].
  destruct (call_move w i) as [x|] eqn:Hx; cbn in Hm; [|done].
  eapply rtc_l; [by exists i|by apply IH].
Qed.

Lemma jetty_calls_atomic_witness :
  rtc atomic_call (mkCallers small_jetty [JTask_close; JTask_post_send small_request; JTask_post_recv [] 8]) small_end.
Proof.
  apply jetty_calls_atomic; [by repeat constructor| |by repeat constructor].
  apply (call_moves_rtc _ small_run). reflexivity.
Defined.

Lemma jetty_calls_return_witness :
  exists replies, ca_tasks small_end = map JTask_done replies.
Proof.
  apply (jetty_calls_return small_jetty [JTask_close; JTask_post_send small_request; JTask_post_recv [] 8]
           small_run small_end); [by repeat constructor|reflexivity|].
  intros [|[|[|i]]]; reflexivity.
Defined.

(** ** What calls do not promise *)

(** [post_send] looks at the completion queue, lets it go and enters the request later: a
    completion in between, and the request is accepted at the high watermark. *)
Theorem post_send_passes_watermark :
  exists w, call_moves (mkCallers small_jetty [JTask_post_send small_request; JTask_push_cqe small_cqe]) [0; 1; 0]%nat
    = Some w
    /\ ca_tasks w = [JTask_done Reply_ok; JTask_done Reply_ok]
    /\ Jetty_cqe_count (ca_jetty w) = jt_jfc_high_watermark (ca_jetty w).
Proof. eexists. split; [reflexivity|]. by split. Qed.

(** Nothing but [close] and [is_closed] looks at [closed]: a request posted to a closed jetty is
    accepted, and a second [close] does not flush it. *)
Theorem posted_after_close j wr buf wr_id :
  jt_closed j = true ->
  (forall j', Jetty_post_send j wr = Ok j' -> Jetty_close j' = j' /\ jt_jfs j' = jt_jfs j ++ [wr])
  /\ (forall j', Jetty_post_recv j buf wr_id = Ok j' ->
        Jetty_close j' = j' /\ jt_jfr j' = jt_jfr j ++ [mkRecvBuffer buf wr_id])
  /\ (Jetty_cqe_count j < jt_jfc_high_watermark j -> Z.of_nat (length (jt_jfs j)) < jt_jfs_depth j ->
        is_ok (Jetty_post_send j wr)).
Proof.
  intros Hc. split_and!.
  - unfold Jetty_post_send. intros j'. destruct (_ <=? _); [done|]. destruct (_ <=? _); [done|].
    intros [= <-]. unfold Jetty_close. cbn. by rewrite Hc.
  - unfold Jetty_post_recv. intros j'. destruct (_ <=? _); [done|].
    intros [= <-]. unfold Jetty_close. cbn. by rewrite Hc.
  - unfold Jetty_cqe_count, Jetty_post_send. intros H1 H2.
    destruct (_ <=? _) eqn:E1; zbool; [lia|]. destruct (_ <=? _) eqn:E2; zbool; [lia|done].
Qed.
