(* ===== verification/Dedup.v ===== *)
(** * Dedup: the sliding receive window

    crates/ub-transport/src/dedup.rs. The window is sixteen 64-bit words; the
    development reads them as one 1024-bit number [seen_bits], so that marking
    is setting a bit and sliding is halving, and shows that the window
    implements its abstract specification: a set of sequence numbers whose
    least missing element is [next_expected]. *)

From S2P Require Import Prelude.

(** ** Operations *)

(** Source: crates/ub-transport/src/dedup.rs:1-12, [DedupResult]. *)
Inductive DedupResult : Type :=
| DedupResult_AlreadySeen
| DedupResult_InOrder
| DedupResult_OutOfOrder
| DedupResult_BeyondWindow.

#[global] Instance DedupResult_eq_dec : EqDecision DedupResult.
Proof. solve_decision. Defined.

(** Source: crates/ub-transport/src/dedup.rs:18-26, [DedupWindow]. *)
Record DedupWindow : Type := mkDedupWindow {
  dw_next_expected : Z;
  dw_seen : list Z;
  dw_window_size : Z;
}.

#[global] Instance DedupWindow_settable : Settable DedupWindow := fun w =>
  mkDedupWindow (dw_next_expected w) (dw_seen w) (dw_window_size w).

(** Source: crates/ub-transport/src/dedup.rs:30-36, [DedupWindow::new]. *)
Definition DedupWindow_new (initial_seq : Z) : DedupWindow :=
  mkDedupWindow initial_seq (repeat 0 16) 1024.

(** Source: crates/ub-transport/src/dedup.rs:39-46, [DedupWindow::with_window_size]. *)
Definition DedupWindow_with_window_size (initial_seq window_size : Z) : Result DedupWindow :=
  if window_size <=? 1024 then Ok (mkDedupWindow initial_seq (repeat 0 16) window_size)
  else Panic.

(** The word holding a bit; the words are [u64]. *)
Definition word_at (seen : list Z) (i : Z) : Z := nth (Z.to_nat i) seen 0.

(** Source: crates/ub-transport/src/dedup.rs:121-128, [DedupWindow::is_bit_set]. *)
Definition is_bit_set (dw : DedupWindow) (offset : Z) : bool :=
  if dw_window_size dw <=? offset then false
  else
    let word := offset / 64 in
    let bit := offset mod 64 in
    Z.land (Z.shiftr (word_at (dw_seen dw) word) bit) 1 =? 1.

(** Source: crates/ub-transport/src/dedup.rs:130-137, [DedupWindow::set_bit]. *)
Definition set_bit (dw : DedupWindow) (offset : Z) : DedupWindow :=
  if dw_window_size dw <=? offset then dw
  else
    let word := offset / 64 in
    let bit := offset mod 64 in
    dw <| dw_seen := <[Z.to_nat word := Z.lor (word_at (dw_seen dw) word) (Z.shiftl 1 bit)]>
                       (dw_seen dw) |>.

(** The [for i in 0..16] loop of [slide_one], in place. *)
Fixpoint slide_loop (fuel i : nat) (seen : list Z) : list Z :=
  match fuel with
  | O => seen
  | S f =>
    let low_bit_of_next :=
      if (i + 1 <? 16)%nat
      then wrap 64 (Z.shiftl (Z.land (nth (i + 1) seen 0) 1) 63)
      else 0 in
    slide_loop f (S i)
      (<[i := Z.lor (Z.shiftr (nth i seen 0) 1) low_bit_of_next]> seen)
  end.

(** Source: crates/ub-transport/src/dedup.rs:139-153, [DedupWindow::slide_one]. *)
Definition slide_one (dw : DedupWindow) : DedupWindow :=
  dw <| dw_next_expected := wrap 64 (dw_next_expected dw + 1) |>
     <| dw_seen := slide_loop 16 0 (dw_seen dw) |>.

(** [while self.is_bit_set(0) { self.slide_one(); }]. Every slide shifts a
    zero in at the top, so [window_size] slides clear the window: the fuel
    1024 is never exhausted ([advance_stops]). *)
Fixpoint advance (fuel : nat) (dw : DedupWindow) : DedupWindow :=
  match fuel with
  | O => dw
  | S f => if is_bit_set dw 0 then advance f (slide_one dw) else dw
  end.

(** Source: crates/ub-transport/src/dedup.rs:49-65, [DedupWindow::check]. *)
Definition DedupWindow_check (dw : DedupWindow) (seq : Z) : DedupResult :=
  if seq <? dw_next_expected dw then DedupResult_AlreadySeen
  else if seq =? dw_next_expected dw then DedupResult_InOrder
  else
    let offset := seq - dw_next_expected dw in
    if dw_window_size dw <=? offset then DedupResult_BeyondWindow
    else if is_bit_set dw offset then DedupResult_AlreadySeen
    else DedupResult_OutOfOrder.

(** Source: crates/ub-transport/src/dedup.rs:69-90, [DedupWindow::mark_and_advance].
    The returned value is the new [next_expected]. *)
Definition DedupWindow_mark_and_advance (dw : DedupWindow) (seq : Z) : DedupWindow :=
  if seq <? dw_next_expected dw then dw
  else
    let offset := seq - dw_next_expected dw in
    if dw_window_size dw <=? offset then dw
    else advance 1024 (set_bit dw offset).

(** Source: crates/ub-transport/src/dedup.rs:93-102, [DedupWindow::is_seen]. *)
Definition DedupWindow_is_seen (dw : DedupWindow) (seq : Z) : bool :=
  if seq <? dw_next_expected dw then true
  else
    let offset := seq - dw_next_expected dw in
    if dw_window_size dw <=? offset then false
    else is_bit_set dw offset.

(** Source: crates/ub-transport/src/dedup.rs:105-108, [DedupWindow::reset]. *)
Definition DedupWindow_reset (dw : DedupWindow) : DedupWindow :=
  dw <| dw_next_expected := 0 |> <| dw_seen := repeat 0 16 |>.

(** Source: crates/ub-transport/src/dedup.rs:111-114, [DedupWindow::reset_to]. *)
Definition DedupWindow_reset_to (dw : DedupWindow) (initial_seq : Z) : DedupWindow :=
  dw <| dw_next_expected := initial_seq |> <| dw_seen := repeat 0 16 |>.

(** ** The words as one number *)

Fixpoint seen_bits (ws : list Z) : Z :=
  match ws with
  | [] => 0
  | w :: ws' => w + 2 ^ 64 * seen_bits ws'
  end.

(** Sixteen words; no bit beyond the window is set. *)
Record dw_ok (dw : DedupWindow) : Prop := {
  dw_ok_words : Forall u64 (dw_seen dw);
  dw_ok_length : length (dw_seen dw) = 16%nat;
  dw_ok_window : 0 < dw_window_size dw <= 1024;
  dw_ok_next : u64 (dw_next_expected dw);
  dw_ok_bits : seen_bits (dw_seen dw) < 2 ^ dw_window_size dw;
}.

Lemma seen_bits_nonneg ws : Forall u64 ws -> 0 <= seen_bits ws.
Proof. induction 1 as [|w ws Hw _ IH]; simpl; [lia|]. unfold fits in Hw. lia. Qed.

Lemma seen_bits_testbit ws off :
  Forall u64 ws -> 0 <= off ->
  Z.testbit (seen_bits ws) off = Z.testbit (word_at ws (off / 64)) (off mod 64).
Proof.
  intros Hws. revert off. induction Hws as [|w ws Hw Hws IH]; intros off Hoff; simpl.
  - unfold word_at. rewrite Z.bits_0. by destruct (Z.to_nat _); rewrite Z.bits_0.
  - rewrite Z.add_comm, (Z.mul_comm (2 ^ 64)). unfold fits in Hw.
    rewrite <- (lor_disjoint_add _ _ 64) by (lia || apply Z.mod_mul; lia).
    rewrite Z.lor_spec, <- Z.shiftl_mul_pow2, Z.shiftl_spec by lia.
    destruct (Z.lt_ge_cases off 64).
    + rewrite Z.testbit_neg_r by lia. rewrite Z.div_small, Z.mod_small by lia. done.
    + rewrite (Z.bits_above_log2 w) by (lia || (destruct (decide (w = 0)) as [->|];
        [simpl; lia|apply Z.log2_lt_pow2; [lia|]; apply Z.lt_le_trans with (2 ^ 64); [lia|];
        apply Z.pow_le_mono_r; lia])).
      rewrite orb_false_r, IH by lia. unfold word_at.
      replace (off / 64) with ((off - 64) / 64 + 1) by (Z.div_mod_to_equations; lia).
      replace (off mod 64) with ((off - 64) mod 64) by (Z.div_mod_to_equations; lia).
      rewrite Z2Nat.inj_add by (try lia; apply Z.div_pos; lia).
      rewrite Nat.add_comm. done.
Qed.

Lemma is_bit_set_testbit dw off :
  Forall u64 (dw_seen dw) -> 0 <= off ->
  is_bit_set dw off = (off <? dw_window_size dw) && Z.testbit (seen_bits (dw_seen dw)) off.
Proof.
  intros Hws Hoff. unfold is_bit_set. rewrite Z.ltb_antisym.
  destruct (dw_window_size dw <=? off); [done|]. cbn [negb andb].
  rewrite seen_bits_testbit, (Z.testbit_odd (word_at _ _)) by done.
  change 1 with (Z.ones 1) at 1. rewrite Z.land_ones, Zmod_odd by lia.
  by destruct (Z.odd _).
Qed.

(** *** Marking *)

Lemma lor_u64 a b : u64 a -> u64 b -> u64 (Z.lor a b).
Proof.
  unfold fits. intros Ha Hb. split; [apply Z.lor_nonneg; lia|].
  destruct (decide (Z.lor a b = 0)) as [->|Hne]; [lia|].
  apply Z.log2_lt_cancel. rewrite Z.log2_lor, Z.log2_pow2 by lia.
  destruct (decide (a = 0)) as [->|], (decide (b = 0)) as [->|]; simpl;
    rewrite ?Z.max_l, ?Z.max_r by apply Z.log2_nonneg; try lia.
  - apply Z.log2_lt_pow2; lia.
  - apply Z.log2_lt_pow2; lia.
  - apply Z.max_lub_lt; apply Z.log2_lt_pow2; lia.
Qed.

Lemma shiftl_1_u64 b : 0 <= b < 64 -> u64 (Z.shiftl 1 b).
Proof.
  intros. rewrite Z.shiftl_mul_pow2, Z.mul_1_l by lia. unfold fits.
  pose proof (pow2_pos b). split; [lia|]. apply Z.pow_lt_mono_r; lia.
Qed.

Lemma word_at_u64 ws i : Forall u64 ws -> u64 (word_at ws i).
Proof.
  intros Hws. unfold word_at. destruct (nth_in_or_default (Z.to_nat i) ws 0) as [Hin| ->].
  - rewrite Forall_forall in Hws. apply Hws. by apply list_elem_of_In.
  - by split.
Qed.

Lemma set_bit_words dw off :
  Forall u64 (dw_seen dw) -> Forall u64 (dw_seen (set_bit dw off)).
Proof.
  intros Hws. unfold set_bit. case_match; [done|]. cbn. apply Forall_insert; [done|].
  apply lor_u64; [by apply word_at_u64|]. apply shiftl_1_u64. apply Z.mod_pos_bound. lia.
Qed.

Lemma word_at_insert ws i j w :
  0 <= i < Z.of_nat (length ws) -> 0 <= j ->
  word_at (<[Z.to_nat i := w]> ws) j = if decide (i = j) then w else word_at ws j.
Proof.
  intros Hi Hj. unfold word_at.
  rewrite !nth_lookup. case_decide as E.
  - subst j. by rewrite list_lookup_insert_eq by lia.
  - by rewrite list_lookup_insert_ne by lia.
Qed.

Lemma set_bit_testbit dw off i :
  dw_ok dw -> 0 <= off < dw_window_size dw -> 0 <= i ->
  Z.testbit (seen_bits (dw_seen (set_bit dw off))) i
  = Z.testbit (seen_bits (dw_seen dw)) i || (i =? off).
Proof.
  intros [Hws Hlen Hwin _ _] Hoff Hi.
  rewrite seen_bits_testbit by (by try apply set_bit_words).
  rewrite seen_bits_testbit by done.
  unfold set_bit. rewrite (proj2 (Z.leb_gt _ _)) by lia. cbn [set_field dw_seen].
  assert (0 <= off / 64 < 16) by (Z.div_mod_to_equations; lia).
  rewrite word_at_insert by (rewrite ?Hlen; try lia; apply Z.div_pos; lia).
  pose proof (Z.mod_pos_bound i 64 ltac:(lia)). pose proof (Z.mod_pos_bound off 64 ltac:(lia)).
  case_decide as E.
  - rewrite Z.lor_spec, E, Z.shiftl_1_l, Z.pow2_bits_eqb by lia. f_equal.
    destruct (Z.eqb_spec i off) as [->|]; [apply Z.eqb_refl|].
    apply Z.eqb_neq. Z.div_mod_to_equations. lia.
  - rewrite (proj2 (Z.eqb_neq i off)) by (intros ->; done). by rewrite orb_false_r.
Qed.

Lemma bits_lt_pow2 a n :
  0 <= a -> 0 <= n -> (forall i, n <= i -> Z.testbit a i = false) -> a < 2 ^ n.
Proof.
  intros Ha Hn H. destruct (decide (a = 0)) as [->|]; [by apply pow2_pos|].
  apply Z.log2_lt_pow2; [lia|]. destruct (Z.lt_ge_cases (Z.log2 a) n); [done|].
  specialize (H (Z.log2 a) ltac:(done)). rewrite Z.bit_log2 in H by lia. done.
Qed.

Lemma lt_pow2_bits a n i : 0 <= a < 2 ^ n -> n <= i -> Z.testbit a i = false.
Proof.
  intros Ha Hi. destruct (decide (a = 0)) as [->|]; [apply Z.bits_0|].
  apply Z.bits_above_log2; [lia|]. apply Z.lt_le_trans with n; [|done].
  apply Z.log2_lt_pow2; lia.
Qed.

Lemma set_bit_ok dw off : dw_ok dw -> 0 <= off < dw_window_size dw -> dw_ok (set_bit dw off).
Proof.
  intros Hok Hoff. pose proof Hok as [Hws Hlen Hwin Hnext Hbits].
  assert (Hseen : Forall u64 (dw_seen (set_bit dw off))) by by apply set_bit_words.
  assert (Hrest : dw_window_size (set_bit dw off) = dw_window_size dw
                  /\ dw_next_expected (set_bit dw off) = dw_next_expected dw
                  /\ length (dw_seen (set_bit dw off)) = 16%nat).
  { unfold set_bit. case_match; cbn; rewrite ?length_insert; done. }
  destruct Hrest as (Hw & Hn & Hl). constructor; rewrite ?Hw, ?Hn; try done.
  apply bits_lt_pow2; [by apply seen_bits_nonneg|lia|].
  intros i Hi. rewrite set_bit_testbit by (done || lia).
  rewrite (lt_pow2_bits _ (dw_window_size dw)) by (try split; done || by apply seen_bits_nonneg).
  apply Z.eqb_neq. lia.
Qed.

(** *** Sliding *)

(** The loop as a function of the list of words. *)
Fixpoint shift_words (ws : list Z) : list Z :=
  match ws with
  | [] => []
  | w :: ws' =>
    Z.lor (Z.shiftr w 1)
      (match ws' with [] => 0 | w' :: _ => wrap 64 (Z.shiftl (Z.land w' 1) 63) end)
    :: shift_words ws'
  end.

Lemma slide_loop_shift_words ws :
  length ws = 16%nat -> slide_loop 16 0 ws = shift_words ws.
Proof.
  intros Hlen. do 16 (destruct ws as [|? ws]; [done|]). destruct ws; [|done]. reflexivity.
Qed.

Lemma shift_word_value w b :
  u64 w -> Z.lor (Z.shiftr w 1) (wrap 64 (Z.shiftl (Z.land b 1) 63)) = w / 2 + 2 ^ 63 * (b mod 2).
Proof.
  intros Hw. unfold fits in Hw. change 1 with (Z.ones 1) at 2. rewrite Z.land_ones by lia.
  change (2 ^ 1) with 2. pose proof (Z.mod_pos_bound b 2 ltac:(lia)).
  rewrite Z.shiftl_mul_pow2, wrap_small by (unfold fits; lia).
  rewrite Z.shiftr_div_pow2 by lia. change (2 ^ 1) with 2.
  rewrite Z.lor_comm, (lor_disjoint_add _ _ 63); [lia|lia|apply Z.mod_mul; lia|].
  Z.div_mod_to_equations; lia.
Qed.

Lemma shift_words_bits ws :
  Forall u64 ws -> Forall u64 (shift_words ws) /\ seen_bits (shift_words ws) = seen_bits ws / 2.
Proof.
  induction 1 as [|w ws Hw Hws [IHu IHb]]; [done|]. cbn [shift_words seen_bits].
  rewrite IHb. unfold fits in Hw. destruct ws as [|w' ws'].
  - rewrite Z.lor_0_r, Z.shiftr_div_pow2 by lia. change (2 ^ 1) with 2. cbn [seen_bits].
    split; [repeat constructor; unfold fits; Z.div_mod_to_equations; lia|].
    Z.div_mod_to_equations. lia.
  - rewrite shift_word_value by done. pose proof (seen_bits_nonneg _ Hws).
    pose proof (Z.mod_pos_bound w' 2 ltac:(lia)).
    split; [constructor; [unfold fits; Z.div_mod_to_equations; lia|done]|].
    set (r := seen_bits (w' :: ws')) in *.
    assert (Hpar : w' mod 2 = r mod 2).
    { subst r. cbn [seen_bits]. replace (w' + 2 ^ 64 * seen_bits ws')
        with (w' + (2 ^ 63 * seen_bits ws') * 2) by lia. by rewrite Z.mod_add. }
    rewrite Hpar. Z.div_mod_to_equations. lia.
Qed.

Lemma slide_one_ok dw :
  dw_ok dw -> dw_ok (slide_one dw)
  /\ seen_bits (dw_seen (slide_one dw)) = seen_bits (dw_seen dw) / 2
  /\ dw_window_size (slide_one dw) = dw_window_size dw.
Proof.
  intros [Hws Hlen Hwin Hnext Hbits]. unfold slide_one. cbn [set_field dw_seen dw_window_size].
  pose proof (shift_words_bits _ Hws) as [Hu Hb].
  pose proof (seen_bits_nonneg _ Hws).
  split; [|by rewrite slide_loop_shift_words].
  constructor; cbn -[slide_loop]; rewrite ?slide_loop_shift_words by done; try done.
  - rewrite <- Hlen. clear. induction (dw_seen dw); simpl; congruence.
  - apply wrap_fits. lia.
  - rewrite Hb. apply Z.div_lt_upper_bound; lia.
Qed.

(** *** Advancing *)

Lemma advance_spec n dw :
  dw_ok dw -> seen_bits (dw_seen dw) < 2 ^ Z.of_nat n ->
  dw_next_expected dw + Z.of_nat n < 2 ^ 64 ->
  let dw' := advance n dw in
  dw_ok dw' /\ dw_window_size dw' = dw_window_size dw /\ is_bit_set dw' 0 = false
  /\ exists k, 0 <= k <= Z.of_nat n /\ dw_next_expected dw' = dw_next_expected dw + k
     /\ seen_bits (dw_seen dw') = seen_bits (dw_seen dw) / 2 ^ k
     /\ forall i, 0 <= i < k -> Z.testbit (seen_bits (dw_seen dw)) i = true.
Proof.
  revert dw. induction n as [|n IH]; intros dw Hok Hlt Hmax; cbv zeta.
  - cbn [advance]. split; [done|]. split; [done|].
    pose proof (seen_bits_nonneg _ (dw_ok_words _ Hok)). simpl in Hlt.
    split.
    + rewrite is_bit_set_testbit by (try lia; apply Hok).
      replace (seen_bits (dw_seen dw)) with 0 by lia. rewrite Z.bits_0. apply andb_false_r.
    + exists 0. rewrite Z.div_1_r. repeat split; lia.
  - cbn [advance]. destruct (is_bit_set dw 0) eqn:Hbit.
    + destruct (slide_one_ok dw Hok) as (Hok1 & Hb1 & Hw1).
      pose proof (dw_ok_next _ Hok) as Hn. unfold fits in Hn.
      assert (Hn1 : dw_next_expected (slide_one dw) = dw_next_expected dw + 1).
      { unfold slide_one. cbn -[slide_loop]. apply wrap_small. unfold fits. lia. }
      destruct (IH (slide_one dw) Hok1) as (Hok2 & Hw2 & Hbit2 & k & Hk & Hn2 & Hb2 & Hall).
      { rewrite Hb1. apply Z.div_lt_upper_bound; [lia|].
        rewrite Nat2Z.inj_succ, Z.pow_succ_r in Hlt; lia. }
      { lia. }
      split; [done|]. split; [congruence|]. split; [done|].
      exists (k + 1). split; [lia|]. split; [lia|]. split.
      * rewrite Hb2, Hb1, Z.div_div by (lia || apply Z.pow_nonzero; lia).
        f_equal. rewrite Z.pow_add_r by lia. lia.
      * intros i Hi. destruct (decide (i = 0)) as [->|].
        -- rewrite is_bit_set_testbit in Hbit by (try lia; apply Hok). by zbool.
        -- specialize (Hall (i - 1) ltac:(lia)). rewrite Hb1, <- Z.div2_div, Z.div2_spec in Hall.
           rewrite Z.shiftr_spec in Hall by lia. by replace (i - 1 + 1) with i in Hall by lia.
    + split; [done|]. split; [done|]. split; [done|].
      exists 0. rewrite Z.div_1_r. repeat split; lia.
Qed.

(** The [while] loop terminates within the fuel of the model. *)
Lemma advance_stops dw :
  dw_ok dw -> dw_next_expected dw + 1024 < 2 ^ 64 -> is_bit_set (advance 1024 dw) 0 = false.
Proof.
  intros Hok Hmax. eapply (advance_spec 1024 dw Hok); [|done].
  apply Z.lt_le_trans with (2 ^ dw_window_size dw); [apply Hok|].
  apply Z.pow_le_mono_r; [lia|]. destruct Hok; lia.
Qed.

(** ** The abstract specification

    A window that started at [base] stands for the set [S] of the sequence
    numbers marked so far. *)

(** The invariant between calls: bit 0 is clear, so [next_expected] itself has
    not been seen. *)
Definition dw_inv (dw : DedupWindow) : Prop := dw_ok dw /\ is_bit_set dw 0 = false.

Definition window_refines (base : Z) (S : gset Z) (dw : DedupWindow) : Prop :=
  dw_inv dw /\ base <= dw_next_expected dw
  /\ forall s, 0 <= s -> DedupWindow_is_seen dw s = true <-> s < base \/ s ∈ S.

Lemma is_seen_bits dw s :
  dw_ok dw -> 0 <= s ->
  DedupWindow_is_seen dw s
  = (s <? dw_next_expected dw) || Z.testbit (seen_bits (dw_seen dw)) (s - dw_next_expected dw).
Proof.
  intros Hok Hs. unfold DedupWindow_is_seen. destruct (s <? _) eqn:E; [done|]. zbool.
  pose proof Hok as [Hws _ Hwin _ Hbits]. cbn [orb].
  destruct (dw_window_size dw <=? s - dw_next_expected dw) eqn:E2; zbool.
  - symmetry. apply lt_pow2_bits with (dw_window_size dw); [|done].
    split; [by apply seen_bits_nonneg|done].
  - rewrite is_bit_set_testbit by (done || lia). by rewrite (proj2 (Z.ltb_lt _ _)) by lia.
Qed.

Lemma is_seen_next dw : dw_inv dw -> DedupWindow_is_seen dw (dw_next_expected dw) = false.
Proof.
  intros [Hok H0]. pose proof (dw_ok_next _ Hok) as Hn. unfold fits in Hn.
  unfold DedupWindow_is_seen. rewrite Z.ltb_irrefl, Z.sub_diag. by case_match.
Qed.

Lemma mark_and_advance_spec dw seq :
  dw_inv dw -> dw_next_expected dw + 1024 < 2 ^ 64 ->
  let dw' := DedupWindow_mark_and_advance dw seq in
  dw_inv dw' /\ dw_window_size dw' = dw_window_size dw
  /\ dw_next_expected dw <= dw_next_expected dw' <= dw_next_expected dw + 1024
  /\ forall s, 0 <= s ->
     DedupWindow_is_seen dw' s
     = DedupWindow_is_seen dw s || ((s =? seq) && (seq <? dw_next_expected dw + dw_window_size dw)).
Proof.
  intros [Hok H0] Hmax. cbv zeta. unfold DedupWindow_mark_and_advance.
  pose proof (dw_ok_next _ Hok) as Hn. unfold fits in Hn.
  destruct (seq <? _) eqn:E1; zbool.
  { split; [done|]. split; [done|]. split; [lia|]. intros s Hs.
    destruct (Z.eqb_spec s seq) as [->|]; [|by rewrite orb_false_r].
    rewrite (is_seen_bits dw seq) by done. by rewrite (proj2 (Z.ltb_lt _ _)) by lia. }
  destruct (_ <=? _) eqn:E2; zbool.
  { split; [done|]. split; [done|]. split; [lia|]. intros s Hs.
    rewrite (proj2 (Z.ltb_ge seq _)) by lia. by rewrite andb_false_r, orb_false_r. }
  set (off := seq - dw_next_expected dw) in *.
  pose proof (set_bit_ok dw off Hok ltac:(lia)) as Hok1.
  assert (Hkeep : dw_next_expected (set_bit dw off) = dw_next_expected dw
                  /\ dw_window_size (set_bit dw off) = dw_window_size dw)
    by (unfold set_bit; case_match; done).
  destruct Hkeep as [Hn1 Hw1].
  destruct (advance_spec 1024 (set_bit dw off) Hok1) as (Hok2 & Hw2 & Hbit & k & Hk & Hn2 & Hb2 & Hall).
  { apply Z.lt_le_trans with (2 ^ dw_window_size (set_bit dw off)); [apply Hok1|].
    apply Z.pow_le_mono_r; [lia|]. destruct Hok1; lia. }
  { by rewrite Hn1. }
  split; [done|]. split; [congruence|]. split; [lia|].
  intros s Hs. rewrite !is_seen_bits, Hn2, Hn1, Hb2 by done.
  rewrite (proj2 (Z.ltb_lt seq _)), andb_true_r by lia.
  rewrite <- Z.shiftr_div_pow2 by lia.
  assert (Hsb : forall i, 0 <= i -> Z.testbit (seen_bits (dw_seen (set_bit dw off))) i
                = Z.testbit (seen_bits (dw_seen dw)) i || (i =? off))
    by (intros; apply set_bit_testbit; [done|lia|done]).
  assert (Hoff : (s - dw_next_expected dw =? off) = (s =? seq))
    by (subst off; destruct (Z.eqb_spec s seq); [apply Z.eqb_eq|apply Z.eqb_neq]; lia).
  destruct (s <? dw_next_expected dw) eqn:E3; zbool.
  - by rewrite (proj2 (Z.ltb_lt s _)) by lia.
  - cbn [orb]. rewrite <- Hoff, <- Hsb by lia.
    destruct (s <? dw_next_expected dw + k) eqn:E4; zbool; cbn [orb].
    + symmetry. apply Hall. lia.
    + rewrite Z.shiftr_spec by lia. f_equal. lia.
Qed.

Lemma DedupWindow_new_inv base : u64 base -> dw_inv (DedupWindow_new base).
Proof.
  intros Hb. split; [|reflexivity].
  constructor; cbn; [repeat constructor; discriminate|done|lia|done|done].
Qed.

Lemma check_seen dw seq :
  dw_inv dw -> 0 <= seq ->
  DedupWindow_check dw seq
  = if DedupWindow_is_seen dw seq then DedupResult_AlreadySeen
    else if seq =? dw_next_expected dw then DedupResult_InOrder
    else if dw_next_expected dw + dw_window_size dw <=? seq then DedupResult_BeyondWindow
    else DedupResult_OutOfOrder.
Proof.
  intros Hinv Hseq. unfold DedupWindow_check, DedupWindow_is_seen.
  destruct (seq <? _) eqn:E1; [done|]. zbool.
  destruct (Z.eqb_spec seq (dw_next_expected dw)) as [->|Hne].
  - pose proof (is_seen_next dw Hinv) as H. unfold DedupWindow_is_seen in H.
    rewrite Z.ltb_irrefl in H. by rewrite H.
  - destruct (_ <=? seq - _) eqn:E2; zbool.
    + by rewrite (proj2 (Z.leb_le _ seq)) by lia.
    + rewrite (proj2 (Z.leb_gt _ seq)) by lia. done.
Qed.

(** ** Properties *)

(** C13 (refinement): The sixteen-word window implements a set of sequence
    numbers. A fresh window stands for the empty set. [check] answers
    [AlreadySeen] exactly on the members, [InOrder] exactly on the least number
    not yet in the set, [BeyondWindow] exactly on numbers a window or more
    ahead; [mark_and_advance] adds the number (if it is inside the window) and
    nothing else, and moves [next_expected] to the least missing number. *)
Theorem dedup_refines_set base :
  u64 base ->
  window_refines base ∅ (DedupWindow_new base)
  /\ forall S dw seq, window_refines base S dw -> base <= seq ->
     dw_next_expected dw + 1024 < 2 ^ 64 ->
     (match DedupWindow_check dw seq with
      | DedupResult_AlreadySeen => seq ∈ S
      | DedupResult_InOrder => (seq ∉ S) /\ seq = dw_next_expected dw
      | DedupResult_OutOfOrder =>
        (seq ∉ S) /\ dw_next_expected dw < seq < dw_next_expected dw + dw_window_size dw
      | DedupResult_BeyondWindow => dw_next_expected dw + dw_window_size dw <= seq
      end)
     /\ (forall s, base <= s < dw_next_expected dw -> s ∈ S) /\ (dw_next_expected dw ∉ S)
     /\ window_refines base
          (if seq <? dw_next_expected dw + dw_window_size dw then {[seq]} ∪ S else S)
          (DedupWindow_mark_and_advance dw seq).
Proof.
  intros Hbase. split.
  - split; [by apply DedupWindow_new_inv|]. split; [done|]. intros s Hs.
    rewrite is_seen_bits by (done || by apply DedupWindow_new_inv). cbn.
    rewrite Z.bits_0, orb_false_r, Z.ltb_lt. split; [by left|intros [?|?%elem_of_empty]; done].
  - intros S dw seq (Hinv & Hle & Hseen) Hseq Hmax.
    unfold fits in Hbase. pose proof (is_seen_next dw Hinv) as Hnext.
    assert (Hin : DedupWindow_is_seen dw seq = true <-> seq ∈ S)
      by (rewrite Hseen by lia; split; [intros [?|?]; [lia|done]|by right]).
    split.
    { rewrite check_seen by (done || lia).
      destruct (DedupWindow_is_seen dw seq) eqn:E; [by apply Hin|].
      assert (seq ∉ S) by (intros HS; apply Hin in HS; congruence).
      destruct (seq =? _) eqn:E2; zbool; [done|]. destruct (_ <=? seq) eqn:E3; zbool; [done|].
      split; [done|]. split; [|done].
      rewrite is_seen_bits in E by (lia || apply Hinv). zbool. lia. }
    split.
    { intros s Hs. destruct (proj1 (Hseen s ltac:(lia))); [|lia|done].
      rewrite is_seen_bits by (lia || apply Hinv). by rewrite (proj2 (Z.ltb_lt s _)) by lia. }
    split.
    { intros HS. assert (DedupWindow_is_seen dw (dw_next_expected dw) = true); [|congruence].
      apply Hseen; [lia|by right]. }
    destruct (mark_and_advance_spec dw seq Hinv Hmax) as (Hinv' & Hw' & Hn' & Hs').
    split; [done|]. split; [lia|]. intros s Hs. rewrite Hs' by done.
    rewrite orb_true_iff, (Hseen s Hs).
    destruct (seq <? _); rewrite ?andb_true_r, ?andb_false_r, ?Z.eqb_eq; [|intuition discriminate].
    rewrite elem_of_union, elem_of_singleton. tauto.
Qed.

Lemma dedup_refines_set_witness :
  window_refines 1 ∅ (DedupWindow_new 1)
  /\ window_refines 1 {[3]} (DedupWindow_mark_and_advance (DedupWindow_new 1) 3)
  /\ DedupWindow_check (DedupWindow_mark_and_advance (DedupWindow_new 1) 3) 3
     = DedupResult_AlreadySeen.
Proof.
  destruct (dedup_refines_set 1) as [H0 Hstep]; [split; [discriminate|reflexivity]|].
  split; [exact H0|]. split; [|vm_compute; reflexivity].
  destruct (Hstep ∅ (DedupWindow_new 1) 3 H0) as (_ & _ & _ & H);
    [discriminate | reflexivity |].
  change (window_refines 1 ({[3]} ∪ ∅) (DedupWindow_mark_and_advance (DedupWindow_new 1) 3)) in H.
  rewrite (right_id_L ∅ (∪)) in H. exact H.
Defined.
