(* ===== verification/Frame.v ===== *)
(** * Frame: the data-plane wire format

    crates/ub-wire/src/frame.rs (headers, flags, payloads) and codec.rs (their
    encoding and decoding). Decoding runs over a cursor and slices the rest of
    the buffer as the code does; an out-of-range slice is a [Panic]. *)

From S2P Require Import Prelude Bytes Types Addr.

(** ** Data *)

(** Source: crates/ub-wire/src/frame.rs:5-9, [MAGIC .. DATA_EXT_HEADER_IMM_SIZE]. *)
Definition MAGIC : Z := 0x55425459.
Definition VERSION : Z := 1.
Definition FRAME_HEADER_SIZE : nat := 32.
Definition DATA_EXT_HEADER_SIZE : nat := 48.
Definition DATA_EXT_HEADER_IMM_SIZE : nat := 56.

(** Source: crates/ub-wire/src/frame.rs:11-18, [FrameType]. *)
Inductive FrameType : Type :=
| FrameType_Data
| FrameType_Ack
| FrameType_Credit.

#[global] Instance FrameType_eq_dec : EqDecision FrameType.
Proof. solve_decision. Defined.

Definition FrameType_as_u8 (t : FrameType) : Z :=
  match t with
  | FrameType_Data => 1
  | FrameType_Ack => 2
  | FrameType_Credit => 3
  end.

(** Source: crates/ub-wire/src/frame.rs:20-29, [FrameType::from_u8]. *)
Definition FrameType_from_u8 (v : Z) : option FrameType :=
  if v =? 1 then Some FrameType_Data
  else if v =? 2 then Some FrameType_Ack
  else if v =? 3 then Some FrameType_Credit
  else None.

#[global, refine] Instance FrameType_wire : WireEnum FrameType :=
  {| as_u8 := FrameType_as_u8; from_u8 := FrameType_from_u8 |}.
Proof. all: wire_enum. Defined.

(** Source: crates/ub-wire/src/frame.rs:31-42, [FrameFlags]. *)
Definition FrameFlags_ACK_REQ : Z := 0x01.
Definition FrameFlags_FRAG_FIRST : Z := 0x02.
Definition FrameFlags_FRAG_MIDDLE : Z := 0x04.
Definition FrameFlags_FRAG_LAST : Z := 0x08.
Definition FrameFlags_HAS_IMM : Z := 0x10.
Definition FrameFlags_HAS_SACK : Z := 0x20.
Definition FrameFlags_ERR_RESP : Z := 0x40.
Definition FrameFlags_all : Z := 0x7F.

(** Source: crates/ub-wire/src/frame.rs:44-51, [ExtFlags]. *)
Definition ExtFlags_HAS_IMM : Z := 0x01.
Definition ExtFlags_FRAG : Z := 0x02.
Definition ExtFlags_ERR_RESP : Z := 0x04.
Definition ExtFlags_all : Z := 0x07.

(** Source: crates/ub-wire/src/frame.rs:53-66, [FrameHeader]. *)
Record FrameHeader : Type := mkFrameHeader {
  fh_magic : Z;
  fh_version : Z;
  fh_frame_type : FrameType;
  fh_flags : Z;
  fh_src_node : Z;
  fh_dst_node : Z;
  fh_reserved : Z;
  fh_stream_seq : Z;
  fh_payload_len : Z;
  fh_header_crc : Z;
}.

(** Source: crates/ub-wire/src/frame.rs:68-82, [DataExtHeader]. *)
Record DataExtHeader : Type := mkDataExtHeader {
  de_verb : Verb;
  de_ext_flags : Z;
  de_mr_handle : Z;
  de_jetty_src : Z;
  de_jetty_dst : Z;
  de_opaque : Z;
  de_frag_id : Z;
  de_frag_index : Z;
  de_frag_total : Z;
  de_ub_addr : Z;
  de_imm : option Z;
}.

(** Source: crates/ub-wire/src/frame.rs:84-91, [AckPayload]. *)
Record AckPayload : Type := mkAckPayload {
  ack_ack_seq : Z;
  ack_credit_grant : Z;
  ack_reserved : Z;
  ack_sack_bitmap : option bytes;
}.

(** Source: crates/ub-wire/src/frame.rs:93-98, [CreditPayload]. *)
Record CreditPayload : Type := mkCreditPayload {
  cp_credits : Z;
  cp_reserved : Z;
}.

(** ** Encoding *)

Definition encode_header (h : FrameHeader) : bytes :=
  put_u32 (fh_magic h) ++ put_u8 (fh_version h) ++ put_u8 (as_u8 (fh_frame_type h))
  ++ put_u16 (fh_flags h) ++ put_u16 (fh_src_node h) ++ put_u16 (fh_dst_node h)
  ++ put_u32 (fh_reserved h) ++ put_u64 (fh_stream_seq h) ++ put_u32 (fh_payload_len h)
  ++ put_u32 (fh_header_crc h).

Definition encode_ext (e : DataExtHeader) : bytes :=
  put_u8 (as_u8 (de_verb e)) ++ put_u8 (de_ext_flags e) ++ put_u16 0
  ++ put_u32 (de_mr_handle e) ++ put_u32 (de_jetty_src e) ++ put_u32 (de_jetty_dst e)
  ++ put_u64 (de_opaque e) ++ put_u32 (de_frag_id e) ++ put_u16 (de_frag_index e)
  ++ put_u16 (de_frag_total e) ++ UbAddr_to_bytes (de_ub_addr e)
  ++ match de_imm e with Some imm => put_u64 imm | None => [] end.

(** Source: crates/ub-wire/src/codec.rs:11-61, [encode_frame]. *)
Definition encode_frame (header : FrameHeader) (ext : option DataExtHeader) (payload : bytes)
  : bytes :=
  encode_header header
  ++ match ext with Some e => encode_ext e | None => [] end
  ++ payload.

(** Source: crates/ub-wire/src/codec.rs:178-188, [encode_ack_payload]. *)
Definition encode_ack_payload (ack : AckPayload) : bytes :=
  put_u64 (ack_ack_seq ack) ++ put_u32 (ack_credit_grant ack) ++ put_u32 (ack_reserved ack)
  ++ match ack_sack_bitmap ack with Some bitmap => bitmap | None => [] end.

(** Source: crates/ub-wire/src/codec.rs:220-226, [encode_credit_payload]. *)
Definition encode_credit_payload (credit : CreditPayload) : bytes :=
  put_u32 (cp_credits credit) ++ put_u32 (cp_reserved credit).

(** ** Decoding *)

(** [&buf[n..]] *)
Definition slice_from (buf : bytes) (n : nat) : Result bytes :=
  if (n <=? length buf)%nat then Ok (drop n buf) else Panic.

(** The cursor over the generic header, codec.rs 70-106. *)
Definition header_parser : Parser FrameHeader :=
  magic <- read_u32 ;;
  if negb (magic =? MAGIC) then perr (Internal "invalid magic: ") else
  version <- read_u8 ;;
  if negb (version =? VERSION) then perr (Internal "version mismatch: ") else
  frame_type_u8 <- read_u8 ;;
  frame_type <- plift (from_u8 (E := FrameType) frame_type_u8) (Internal "unknown frame type: ") ;;
  flags_u16 <- read_u16 ;;
  src_node <- read_u16 ;;
  dst_node <- read_u16 ;;
  reserved <- read_u32 ;;
  stream_seq <- read_u64 ;;
  payload_len <- read_u32 ;;
  header_crc <- read_u32 ;;
  pret (mkFrameHeader magic version frame_type
          (from_bits_truncate FrameFlags_all flags_u16)
          src_node dst_node reserved stream_seq payload_len header_crc).

(** The cursor over the DATA extension header, codec.rs 136-175. *)
Definition ext_parser : Parser DataExtHeader :=
  verb_u8 <- read_u8 ;;
  verb <- plift (from_u8 (E := Verb) verb_u8) (Internal "unknown verb: ") ;;
  ext_flags_u8 <- read_u8 ;;
  _reserved <- read_u16 ;;
  mr_handle <- read_u32 ;;
  jetty_src <- read_u32 ;;
  jetty_dst <- read_u32 ;;
  opaque <- read_u64 ;;
  frag_id <- read_u32 ;;
  frag_index <- read_u16 ;;
  frag_total <- read_u16 ;;
  addr_bytes <- read_exact 16 ;;
  let ext_flags := from_bits_truncate ExtFlags_all ext_flags_u8 in
  let ub_addr := UbAddr_from_bytes addr_bytes in
  imm <- (if flags_contains ext_flags ExtFlags_HAS_IMM
          then imm <- read_u64 ;; pret (Some imm) else pret None) ;;
  pret (mkDataExtHeader verb ext_flags mr_handle jetty_src jetty_dst opaque
          frag_id frag_index frag_total ub_addr imm).

(** Source: crates/ub-wire/src/codec.rs:131-176, [decode_data_ext_header]. *)
Definition decode_data_ext_header (buf : bytes) : Result DataExtHeader :=
  if (length buf <? DATA_EXT_HEADER_SIZE)%nat then Err (Internal "DATA ext header too short")
  else run ext_parser buf.

(** Source: crates/ub-wire/src/codec.rs:63-129, [decode_frame]. *)
Definition decode_frame (buf : bytes) : Result (FrameHeader * option DataExtHeader * bytes) :=
  if (length buf <? FRAME_HEADER_SIZE)%nat then Err (Internal "frame too short for header")
  else
    let? header := run header_parser buf in
    let? rest := slice_from buf FRAME_HEADER_SIZE in
    let? ext := (if decide (fh_frame_type header = FrameType_Data)
                 then let? e := decode_data_ext_header rest in Ok (Some e)
                 else Ok None) in
    let ext_size :=
      match ext with
      | Some e => match de_imm e with
                  | Some _ => DATA_EXT_HEADER_IMM_SIZE
                  | None => DATA_EXT_HEADER_SIZE
                  end
      | None => O
      end in
    let? payload := slice_from buf (FRAME_HEADER_SIZE + ext_size) in
    Ok (header, ext, payload).

(** Source: crates/ub-wire/src/codec.rs:190-218, [decode_ack_payload]. *)
Definition decode_ack_payload (buf : bytes) (has_sack : bool) : Result AckPayload :=
  if (length buf <? 16)%nat then Err (Internal "ACK payload too short")
  else run (
    ack_seq <- read_u64 ;;
    credit_grant <- read_u32 ;;
    reserved <- read_u32 ;;
    sack_bitmap <-
      (if has_sack
       then if (length buf <? 48)%nat
            then perr (Internal "ACK payload too short for SACK")
            else bitmap <- read_exact 32 ;; pret (Some bitmap)
       else pret None) ;;
    pret (mkAckPayload ack_seq credit_grant reserved sack_bitmap)) buf.

(** Source: crates/ub-wire/src/codec.rs:228-237, [decode_credit_payload]. *)
Definition decode_credit_payload (buf : bytes) : Result CreditPayload :=
  if (length buf <? 8)%nat then Err (Internal "CREDIT payload too short")
  else run (
    credits <- read_u32 ;;
    reserved <- read_u32 ;;
    pret (mkCreditPayload credits reserved)) buf.

(** ** Well-formed values *)

(** Flag sets hold known bits only. *)
Definition flags_ok (all bits : Z) : Prop := 0 <= bits /\ Z.land bits all = bits.

Definition header_wf (h : FrameHeader) : Prop :=
  fh_magic h = MAGIC /\ fh_version h = VERSION /\ flags_ok FrameFlags_all (fh_flags h)
  /\ u16 (fh_src_node h) /\ u16 (fh_dst_node h) /\ u32 (fh_reserved h)
  /\ u64 (fh_stream_seq h) /\ u32 (fh_payload_len h) /\ u32 (fh_header_crc h).

(** The immediate is present exactly when its flag is set. *)
Definition ext_wf (e : DataExtHeader) : Prop :=
  flags_ok ExtFlags_all (de_ext_flags e)
  /\ u32 (de_mr_handle e) /\ u32 (de_jetty_src e) /\ u32 (de_jetty_dst e)
  /\ u64 (de_opaque e) /\ u32 (de_frag_id e) /\ u16 (de_frag_index e)
  /\ u16 (de_frag_total e) /\ u128 (de_ub_addr e)
  /\ match de_imm e with
     | Some imm => u64 imm /\ flags_contains (de_ext_flags e) ExtFlags_HAS_IMM = true
     | None => flags_contains (de_ext_flags e) ExtFlags_HAS_IMM = false
     end.

Definition ext_matches (h : FrameHeader) (ext : option DataExtHeader) : Prop :=
  match ext with
  | Some e => fh_frame_type h = FrameType_Data /\ ext_wf e
  | None => fh_frame_type h <> FrameType_Data
  end.

(** ** Round trips *)

Lemma flags_ok_fits n bits : 0 <= n -> flags_ok (2 ^ n - 1) bits -> fits n bits.
Proof.
  intros Hn [Hb <-]. rewrite land_mask by done. apply Z.mod_pos_bound. by apply pow2_pos.
Qed.

Lemma flags_ok_truncate all bits : flags_ok all bits -> from_bits_truncate all bits = bits.
Proof. by intros [_ ?]. Qed.

Lemma header_inverts h : header_wf h -> inverts header_parser (encode_header h) h.
Proof.
  intros (Hm & Hv & Hf & Hs & Hd & Hr & Hq & Hp & Hc) rest.
  pose proof (flags_ok_fits 7 _ ltac:(done) Hf).
  unfold header_parser, encode_header.
  rewrite <- !app_assoc.
  rewrite pbind_read_be by (rewrite Hm; unfold MAGIC; ulia).
  rewrite (proj2 (Z.eqb_eq _ _) Hm). cbn [negb].
  rewrite pbind_read_be by (rewrite Hv; unfold VERSION; ulia).
  rewrite (proj2 (Z.eqb_eq _ _) Hv). cbn [negb].
  parse.
  rewrite flags_ok_truncate by done. by destruct h.
Qed.

Lemma ext_inverts e : ext_wf e -> inverts ext_parser (encode_ext e) e.
Proof.
  intros (Hf & ? & ? & ? & ? & ? & ? & ? & Haddr & Himm) rest.
  pose proof (flags_ok_fits 3 _ ltac:(done) Hf).
  unfold ext_parser, encode_ext.
  rewrite <- !app_assoc.
  parse.
  rewrite flags_ok_truncate by done. cbv zeta. rewrite UbAddr_from_to_bytes by done.
  destruct e as [v fl ? ? ? ? ? ? ? ? [imm|]]; cbn [de_imm de_ext_flags] in *.
  - destruct Himm as [Hi ->]. rewrite pbind_assoc. by parse.
  - by rewrite Himm.
Qed.

Lemma length_encode_header h : length (encode_header h) = FRAME_HEADER_SIZE.
Proof. unfold encode_header. by rewrite !length_app, !length_be_bytes. Qed.

Lemma length_encode_ext e :
  length (encode_ext e)
  = match de_imm e with Some _ => DATA_EXT_HEADER_IMM_SIZE | None => DATA_EXT_HEADER_SIZE end.
Proof.
  unfold encode_ext, UbAddr_to_bytes. rewrite !length_app, !length_be_bytes.
  destruct (de_imm e); [by rewrite length_be_bytes|done].
Qed.

Lemma run_app {A} (p : Parser A) enc x rest : inverts p enc x -> run p (enc ++ rest) = Ok x.
Proof. intros H. unfold run. by rewrite H. Qed.

Lemma slice_from_app l1 l2 n : length l1 = n -> slice_from (l1 ++ l2) n = Ok l2.
Proof.
  intros <-. unfold slice_from. rewrite length_app.
  rewrite (proj2 (Nat.leb_le _ _)) by lia. by rewrite drop_app_length.
Qed.

Lemma decode_encode_frame h ext payload :
  header_wf h -> ext_matches h ext ->
  decode_frame (encode_frame h ext payload) = Ok (h, ext, payload).
Proof.
  intros Hh Hext. unfold decode_frame, encode_frame. rewrite length_app, length_encode_header.
  rewrite (proj2 (Nat.ltb_ge _ _)) by lia.
  rewrite (run_app _ _ _ _ (header_inverts h Hh)). cbn [rbind].
  rewrite slice_from_app by apply length_encode_header. cbn [rbind].
  destruct ext as [e|]; cbn [ext_matches] in Hext.
  - destruct Hext as [Ht He]. rewrite decide_True by done.
    unfold decode_data_ext_header. rewrite length_app, length_encode_ext.
    rewrite (proj2 (Nat.ltb_ge _ _))
      by (destruct (de_imm e); unfold DATA_EXT_HEADER_SIZE, DATA_EXT_HEADER_IMM_SIZE; lia).
    rewrite (run_app _ _ _ _ (ext_inverts e He)). cbn [rbind].
    rewrite app_assoc, slice_from_app; [done|].
    by rewrite length_app, length_encode_header, length_encode_ext; destruct (de_imm e).
  - rewrite decide_False by done. cbn [rbind app].
    by rewrite slice_from_app by apply length_encode_header.
Qed.

Definition ack_wf (a : AckPayload) : Prop :=
  u64 (ack_ack_seq a) /\ u32 (ack_credit_grant a) /\ u32 (ack_reserved a)
  /\ match ack_sack_bitmap a with Some b => length b = 32%nat | None => True end.

Lemma decode_encode_ack a :
  ack_wf a ->
  decode_ack_payload (encode_ack_payload a)
    (match ack_sack_bitmap a with Some _ => true | None => false end) = Ok a.
Proof.
  intros (Hs & Hc & Hr & Hb). unfold decode_ack_payload, encode_ack_payload.
  rewrite !length_app. rewrite !length_be_bytes.
  rewrite (proj2 (Nat.ltb_ge _ 16)) by lia. unfold run.
  destruct a as [sq cg rs [b|]]; cbn [ack_sack_bitmap ack_ack_seq ack_credit_grant ack_reserved] in *.
  - rewrite Hb. rewrite (proj2 (Nat.ltb_ge _ 48)) by lia. rewrite <- (app_nil_r b) at 1.
    parse. rewrite pbind_assoc. by rewrite pbind_read_exact by done.
  - by parse.
Qed.

Lemma decode_encode_credit c :
  u32 (cp_credits c) -> u32 (cp_reserved c) ->
  decode_credit_payload (encode_credit_payload c) = Ok c.
Proof.
  intros Hc Hr. unfold decode_credit_payload, encode_credit_payload.
  rewrite length_app. rewrite !length_be_bytes.
  rewrite (proj2 (Nat.ltb_ge _ 8)) by lia. unfold run.
  rewrite <- (app_nil_r (be_bytes 4 (cp_reserved c))). parse. by destruct c.
Qed.

(** ** Accepted frames *)

Lemma flags_truncate_ok n bits :
  0 <= n -> flags_ok (2 ^ n - 1) (from_bits_truncate (2 ^ n - 1) bits).
Proof.
  intros Hn. unfold flags_ok, from_bits_truncate. rewrite !land_mask by done.
  pose proof (pow2_pos n Hn). split; [apply Z.mod_pos_bound; lia|]. by rewrite Z.mod_mod by lia.
Qed.

Lemma header_parser_Ok_inv cur h rest :
  Forall u8 cur -> header_parser cur = Ok (h, rest) ->
  header_wf h /\ length cur = (FRAME_HEADER_SIZE + length rest)%nat /\ Forall u8 rest.
Proof.
  intros Hu H. unfold header_parser in H.
  unparse_step H. case_hyp H; [done|]. zbool.
  unparse_step H. case_hyp H; [done|]. zbool.
  do 9 unparse_step H. unfold pret in H. simplify_eq.
  split; [|split; [by rewrite !length_app, !length_be_bytes; simpl; lia|done]].
  split; [done|]. split; [done|]. split; [apply (flags_truncate_ok 7); lia|]. done.
Qed.

Lemma ext_parser_Ok_inv cur e rest :
  Forall u8 cur -> ext_parser cur = Ok (e, rest) ->
  ext_wf e
  /\ length cur
     = (match de_imm e with Some _ => DATA_EXT_HEADER_IMM_SIZE | None => DATA_EXT_HEADER_SIZE end
        + length rest)%nat.
Proof.
  intros Hu H. unfold ext_parser in H. do 12 unparse_step H. cbv zeta in H.
  apply pbind_Ok_inv in H as (imm & cur' & Himm & H). unfold pret in H. simplify_eq.
  match goal with H : Forall u8 (_ ++ _) |- _ => apply Forall_app in H as [Ha Hc] end.
  assert (u128 (UbAddr_from_bytes v10)).
  { unfold UbAddr_from_bytes. pose proof (be_value_bound v10 Ha).
    replace (length v10) with 16%nat in * by done. done. }
  case_hyp Himm.
  - unparse_step Himm. unfold pret in Himm. simplify_eq. split.
    + do 9 (split; [first [done | apply (flags_truncate_ok 3); lia]|]). done.
    + rewrite !length_app, !length_be_bytes. cbn [de_imm]. unfold DATA_EXT_HEADER_IMM_SIZE. lia.
  - unfold pret in Himm. simplify_eq. split.
    + do 9 (split; [first [done | apply (flags_truncate_ok 3); lia]|]). done.
    + rewrite !length_app, !length_be_bytes. cbn [de_imm]. unfold DATA_EXT_HEADER_SIZE. lia.
Qed.

Lemma run_Ok_inv {A} (p : Parser A) buf a : run p buf = Ok a -> exists rest, p buf = Ok (a, rest).
Proof. unfold run. destruct (p buf) as [[]| |]; naive_solver. Qed.

Lemma total_header_parser : total header_parser.
Proof. unfold header_parser. repeat (case_goal || (apply total_pbind; intros)); auto with codec. Qed.

Lemma total_ext_parser : total ext_parser.
Proof. unfold ext_parser. repeat (case_goal || (apply total_pbind; intros)); auto with codec. Qed.

Lemma decode_data_ext_header_Ok_inv rest e :
  Forall u8 rest -> decode_data_ext_header rest = Ok e ->
  ext_wf e
  /\ (match de_imm e with Some _ => DATA_EXT_HEADER_IMM_SIZE | None => DATA_EXT_HEADER_SIZE end
      <= length rest)%nat.
Proof.
  intros Hu H. unfold decode_data_ext_header in H. case_hyp H; [done|].
  apply run_Ok_inv in H as [r H]. apply ext_parser_Ok_inv in H as [? ?]; [|done].
  split; [done|lia].
Qed.

Lemma decode_frame_cases buf :
  Forall u8 buf ->
  (exists e, decode_frame buf = Err e)
  \/ exists h ext payload pre,
      decode_frame buf = Ok (h, ext, payload) /\ header_wf h /\ ext_matches h ext
      /\ buf = pre ++ payload
      /\ length pre
         = (FRAME_HEADER_SIZE
            + match ext with
              | Some e => match de_imm e with
                          | Some _ => DATA_EXT_HEADER_IMM_SIZE
                          | None => DATA_EXT_HEADER_SIZE
                          end
              | None => 0
              end)%nat.
Proof.
  intros Hu. unfold decode_frame. case_goal; [by eauto|].
  destruct (run header_parser buf) as [h| |] eqn:Hr; cbn [rbind];
    [|by eauto|by destruct (total_run _ buf total_header_parser)].
  apply run_Ok_inv in Hr as [rest Hr].
  apply header_parser_Ok_inv in Hr as (Hh & Hlen & _); [|done].
  unfold slice_from. rewrite (proj2 (Nat.leb_le _ _)) by lia. cbn [rbind].
  destruct (decide (fh_frame_type h = FrameType_Data)) as [Ht|Ht]; cbn [rbind].
  - destruct (decode_data_ext_header _) as [e| |] eqn:He; cbn [rbind]; [|by eauto|].
    + apply decode_data_ext_header_Ok_inv in He as [He Hle]; [|by apply Forall_drop].
      rewrite length_drop in Hle. set (n := match de_imm e with Some _ => _ | None => _ end) in *.
      rewrite (proj2 (Nat.leb_le _ _)) by (unfold FRAME_HEADER_SIZE in *; lia).
      cbn [rbind]. right. exists h, (Some e), (drop (FRAME_HEADER_SIZE + n) buf),
        (take (FRAME_HEADER_SIZE + n) buf).
      rewrite take_drop, length_take. split_and!; try done. unfold FRAME_HEADER_SIZE in *; lia.
    + unfold decode_data_ext_header in He. case_hyp He; [done|].
      by destruct (total_run _ (drop FRAME_HEADER_SIZE buf) total_ext_parser).
  - rewrite Nat.add_0_r, (proj2 (Nat.leb_le _ _)) by lia. cbn [rbind]. right.
    exists h, None, (drop FRAME_HEADER_SIZE buf), (take FRAME_HEADER_SIZE buf).
    rewrite take_drop, length_take. split_and!; try done. lia.
Qed.

(** C29 (roundtrip): Decoding an encoded DATA, ACK or CREDIT frame gives back the header, the
    extension header and the payload, whenever the fields fit their widths, the extension header
    is there exactly for DATA frames and the immediate exactly when its flag is set; the ACK
    payload with its optional SACK bitmap and the CREDIT payload round-trip as well. *)
Theorem frame_roundtrip h ext payload a c :
  header_wf h -> ext_matches h ext -> ack_wf a -> u32 (cp_credits c) -> u32 (cp_reserved c) ->
  decode_frame (encode_frame h ext payload) = Ok (h, ext, payload)
  /\ decode_ack_payload (encode_ack_payload a)
       (match ack_sack_bitmap a with Some _ => true | None => false end) = Ok a
  /\ decode_credit_payload (encode_credit_payload c) = Ok c.
Proof.
  intros. split; [by apply decode_encode_frame|].
  split; [by apply decode_encode_ack|by apply decode_encode_credit].
Qed.

Definition sample_header : FrameHeader :=
  mkFrameHeader MAGIC VERSION FrameType_Data FrameFlags_HAS_IMM 1 2 0 7 3 0.
Definition sample_ext : DataExtHeader :=
  mkDataExtHeader Verb_WriteImm ExtFlags_HAS_IMM 5 0 9 77 0 0 1 (2 ^ 100) (Some 42).

Lemma frame_roundtrip_witness :
  decode_frame (encode_frame sample_header (Some sample_ext) [1; 2; 3])
  = Ok (sample_header, Some sample_ext, [1; 2; 3]).
Proof.
  refine (proj1 (frame_roundtrip sample_header (Some sample_ext) [1; 2; 3]
    (mkAckPayload 1 2 0 (Some (repeat 0 32))) (mkCreditPayload 8 0) _ _ _ _ _));
    unfold header_wf, ext_matches, ext_wf, ack_wf, flags_ok, fits, FrameFlags_HAS_IMM,
      ExtFlags_HAS_IMM; simpl;
    repeat (lia || reflexivity || done || split).
Defined.

(** C30 (safety): Whatever bytes arrive, [decode_frame] returns and never slices out of range; an
    accepted frame has the right magic and version, fields within their widths and only known
    flag bits, carries an extension header exactly when it is a DATA frame, and its payload is
    the buffer without the headers. Re-encoding what was accepted therefore decodes to the same
    frame again. *)
Theorem decode_frame_sound buf :
  Forall u8 buf ->
  decode_frame buf <> Panic
  /\ forall h ext payload, decode_frame buf = Ok (h, ext, payload) ->
      header_wf h /\ ext_matches h ext /\ (exists pre, buf = pre ++ payload)
      /\ decode_frame (encode_frame h ext payload) = Ok (h, ext, payload).
Proof.
  intros Hu. destruct (decode_frame_cases buf Hu) as [[e ->]|(h & ext & pl & pre & -> & ? & ? & ? & _)].
  - split; [done|]. by intros.
  - split; [done|]. intros ??? [= <- <- <-]. split_and!; eauto. by apply decode_encode_frame.
Qed.

Lemma decode_frame_sound_witness :
  decode_frame (repeat 0 40) <> Panic
  /\ decode_frame (encode_frame sample_header (Some sample_ext) [1; 2; 3])
     = Ok (sample_header, Some sample_ext, [1; 2; 3]).
Proof.
  split.
  - apply decode_frame_sound. refine (bool_decide_unpack _ _). vm_compute. reflexivity.
  - apply (decode_frame_sound (encode_frame sample_header (Some sample_ext) [1; 2; 3])).
    + refine (bool_decide_unpack _ _). vm_compute. reflexivity.
    + vm_compute. reflexivity.
Defined.

(** ** Accepted ACK and CREDIT payloads *)

Lemma decode_ack_payload_Ok_inv buf has_sack a :
  Forall u8 buf -> decode_ack_payload buf has_sack = Ok a ->
  u64 (ack_ack_seq a) /\ u32 (ack_credit_grant a).
Proof.
  intros Hu H. unfold decode_ack_payload in H. case_hyp H; [done|].
  apply run_Ok_inv in H as [rest H]. do 3 unparse_step H.
  apply pbind_Ok_inv in H as (x & cur' & _ & H). unfold pret in H. by simplify_eq.
Qed.

Lemma decode_credit_payload_Ok_inv buf c :
  Forall u8 buf -> decode_credit_payload buf = Ok c -> u32 (cp_credits c).
Proof.
  intros Hu H. unfold decode_credit_payload in H. case_hyp H; [done|].
  apply run_Ok_inv in H as [rest H]. do 2 unparse_step H. unfold pret in H. by simplify_eq.
Qed.
