(* ===== verification/Float.v ===== *)
(** * Float: IEEE 754 binary64

    The [f64] arithmetic of the workspace (round-trip estimation, placement
    scores), through the Standard Library's executable specification of
    floating-point numbers at precision 53 and exponent bound 1024. *)

From S2P Require Import Prelude.
From Stdlib Require Export SpecFloat.

Abbreviation f64 := spec_float.

(** The literal [m * 2 ^ e], rounded to nearest, ties to even. *)
Definition f64_lit (m e : Z) : f64 := binary_normalize 53 1024 m e false.

(** [n as f64] for an integer. *)
Definition f64_of_int (n : Z) : f64 := f64_lit n 0.

Definition f64_add : f64 -> f64 -> f64 := SFadd 53 1024.
Definition f64_sub : f64 -> f64 -> f64 := SFsub 53 1024.
Definition f64_mul : f64 -> f64 -> f64 := SFmul 53 1024.
Definition f64_div : f64 -> f64 -> f64 := SFdiv 53 1024.
Definition f64_abs : f64 -> f64 := SFabs.
Definition f64_ltb : f64 -> f64 -> bool := SFltb.
Definition f64_leb : f64 -> f64 -> bool := SFleb.

(** [f64::max]: a NaN operand loses. *)
Definition f64_max (x y : f64) : f64 :=
  match x, y with
  | S754_nan, _ => y
  | _, S754_nan => x
  | _, _ => if f64_ltb x y then y else x
  end.

Declare Scope f64_scope.
Delimit Scope f64_scope with f64.
Infix "+" := f64_add : f64_scope.
Infix "-" := f64_sub : f64_scope.
Infix "*" := f64_mul : f64_scope.
Infix "/" := f64_div : f64_scope.

(** [x.round() as u64]: halves go away from zero, the cast saturates and maps
    NaN and negative numbers to zero. *)
Definition f64_round_u64 (x : f64) : Z :=
  match x with
  | S754_zero _ | S754_nan | S754_infinity true | S754_finite true _ _ => 0
  | S754_infinity false => U64_MAX
  | S754_finite false m e =>
    let r := if 0 <=? e then Zpos m * 2 ^ e
             else (2 * Zpos m + 2 ^ (- e)) / (2 * 2 ^ (- e)) in
    Z.min U64_MAX r
  end.

(** [x as u64]: towards zero, with the same saturation. *)
Definition f64_as_u64 (x : f64) : Z :=
  match x with
  | S754_zero _ | S754_nan | S754_infinity true | S754_finite true _ _ => 0
  | S754_infinity false => U64_MAX
  | S754_finite false m e => Z.min U64_MAX (if 0 <=? e then Zpos m * 2 ^ e else Zpos m / 2 ^ (- e))
  end.

(** ** Order *)

(** [<] on floats is transitive; a NaN is below nothing and above nothing. *)
Lemma f64_ltb_trans x y z : f64_ltb x y = true -> f64_ltb y z = true -> f64_ltb x z = true.
Proof.
  assert (Hlex : forall e1 m1 e2 m2,
    match Z.compare e1 e2 with Eq => Pos.compare m1 m2 | c => c end = Lt <->
    e1 < e2 \/ e1 = e2 /\ Zpos m1 < Zpos m2).
  { intros. destruct (Z.compare_spec e1 e2); [|split; [by left|done]|].
    - subst. change (Pos.compare m1 m2 = Lt) with (Zpos m1 < Zpos m2). lia.
    - split; [done|lia]. }
  assert (Hgt : forall e1 m1 e2 m2,
    match Z.compare e1 e2 with Lt => Gt | Gt => Lt | Eq => CompOpp (Pos.compare_cont Eq m1 m2) end = Lt <->
    e2 < e1 \/ e1 = e2 /\ Zpos m2 < Zpos m1).
  { intros. change (Pos.compare_cont Eq m1 m2) with (Pos.compare m1 m2). rewrite <- Pos.compare_antisym.
    destruct (Z.compare_spec e1 e2); [|split; [done|lia]|split; [by left|done]].
    subst. change (Pos.compare m2 m1 = Lt) with (Zpos m2 < Zpos m1). lia. }
  unfold f64_ltb, SFltb. intros H1 H2.
  destruct (SFcompare x y) as [[]|] eqn:E1; try done.
  destruct (SFcompare y z) as [[]|] eqn:E2; try done.
  destruct x as [sx|sx| |sx mx ex], y as [sy|sy| |sy my ey], z as [sz|sz| |sz mz ez];
    try destruct sx; try destruct sy; try destruct sz; cbn in *; try done;
    apply (inj Some) in E1, E2.
  - apply Hgt in E1. apply Hgt in E2.
    assert (H : ez < ex \/ ex = ez /\ Zpos mz < Zpos mx) by lia. apply Hgt in H. by rewrite H.
  - apply Hlex in E1. apply Hlex in E2.
    assert (H : ex < ez \/ ex = ez /\ Zpos mx < Zpos mz) by lia. apply Hlex in H.
    unfold Pos.compare in H. by rewrite H.
Qed.
