(* ===== verification/Config.v ===== *)
(** * Config: the node configuration

    crates/ub-core/src/config.rs: the configuration structures and the values a
    field takes when the file leaves it out. Reading the YAML file is serde's
    work; a [String] is its bytes. *)

From S2P Require Import Prelude Bytes Float Jetty.
#[local] Open Scope Z_scope.

(** A decimal literal [n / d]: both are exact, and the quotient is rounded once. *)
Definition f64_dec (n d : Z) : f64 := f64_div (f64_of_int n) (f64_of_int d).

(** Source: crates/ub-core/src/config.rs:66-81, [ControlConfig]. *)
Record ControlConfig : Type := mkControlConfig {
  cc_listen : bytes;
  cc_bootstrap : bytes;
  cc_peers : list bytes;
  cc_seed_addrs : list bytes;
  cc_hub_node_id : Z;
}.

(** Source: crates/ub-core/src/config.rs:83-101, [ControlConfig::default]. *)
Definition ControlConfig_default : ControlConfig :=
  mkControlConfig (str "0.0.0.0:7900") (str "static") [] [] 0.

(** Source: crates/ub-core/src/config.rs:104-113, [DataConfig]. *)
Record DataConfig : Type := mkDataConfig {
  dc_listen : bytes;
  dc_fabric : bytes;
  dc_mtu : Z;
}.

(** Source: crates/ub-core/src/config.rs:115-135, [DataConfig::default]. *)
Definition DataConfig_default : DataConfig := mkDataConfig (str "0.0.0.0:7901") (str "udp") 1400.

(** Source: crates/ub-core/src/config.rs:138-141, [MrConfig]. *)
Record MrConfig : Type := mkMrConfig {
  rc_deregister_timeout_ms : Z;
}.

(** Source: crates/ub-core/src/config.rs:143-153, [MrConfig::default]. *)
Definition MrConfig_default : MrConfig := mkMrConfig 500.

(** Source: crates/ub-core/src/config.rs:155-168, [NpuConfig].
    [DeviceConfig] holds nothing else. *)
Record NpuConfig : Type := mkNpuConfig {
  np_enabled : bool;
  np_mem_size_mib : Z;
}.

(** Source: crates/ub-core/src/config.rs:170-193, [NpuConfig::default]. *)
Definition NpuConfig_default : NpuConfig := mkNpuConfig true 256.

(** Source: crates/ub-core/src/config.rs:196-208, [TransportConfig]. *)
Record TransportConfig : Type := mkTransportConfig {
  tc_rto_ms : Z;
  tc_max_retries : Z;
  tc_sack_bitmap_bits : Z;
  tc_reassembly_budget_bytes : Z;
}.

(** Source: crates/ub-core/src/config.rs:210-235, [TransportConfig::default]. *)
Definition TransportConfig_default : TransportConfig := mkTransportConfig 200 8 256 67108864.

(** Source: crates/ub-core/src/config.rs:238-241, [FlowConfig]. *)
Record FlowConfig : Type := mkFlowConfig {
  fl_initial_credits : Z;
}.

(** Source: crates/ub-core/src/config.rs:243-253, [FlowConfig::default]. *)
Definition FlowConfig_default : FlowConfig := mkFlowConfig 64.

(** Source: crates/ub-core/src/config.rs:298-301, [ObsConfig]. *)
Record ObsConfig : Type := mkObsConfig {
  ob_metrics_listen : bytes;
}.

(** Source: crates/ub-core/src/config.rs:303-313, [ObsConfig::default]. *)
Definition ObsConfig_default : ObsConfig := mkObsConfig (str "127.0.0.1:9090").

(** Source: crates/ub-core/src/config.rs:316-322, [HeartbeatConfig]. *)
Record HeartbeatConfig : Type := mkHeartbeatConfig {
  hc_interval_ms : Z;
  hc_fail_after : Z;
}.

(** Source: crates/ub-core/src/config.rs:324-339, [HeartbeatConfig::default]. *)
Definition HeartbeatConfig_default : HeartbeatConfig := mkHeartbeatConfig 1000 3.

(** Source: crates/ub-core/src/config.rs:378-384, [PoolConfig]. *)
Record PoolConfig : Type := mkPoolConfig {
  po_memory_reserve_ratio : f64;
  po_npu_reserve_ratio : f64;
}.

(** Source: crates/ub-core/src/config.rs:386-397, [PoolConfig::default]. *)
Definition PoolConfig_default : PoolConfig := mkPoolConfig (f64_dec 25 100) (f64_dec 50 100).

(** Source: crates/ub-core/src/config.rs:400-406, [CacheConfig]. *)
Record CacheConfig : Type := mkCacheConfig {
  ca_max_bytes : Z;
  ca_eviction : bytes;
}.

(** Source: crates/ub-core/src/config.rs:408-423, [CacheConfig::default]. *)
Definition CacheConfig_default : CacheConfig := mkCacheConfig 536870912 (str "lru").

(** Source: crates/ub-core/src/config.rs:426-438, [CostWeights]. *)
Record CostWeights : Type := mkCostWeights {
  cw_latency : f64;
  cw_capacity : f64;
  cw_tier_match : f64;
  cw_load : f64;
}.

(** Source: crates/ub-core/src/config.rs:440-454, [CostWeights::default]. *)
Definition CostWeights_default : CostWeights :=
  mkCostWeights (f64_of_int 1) (f64_dec 3 10) (f64_dec 5 10) (f64_dec 2 10).

(** Source: crates/ub-core/src/config.rs:342-363, [ManagedConfig]. *)
Record ManagedConfig : Type := mkManagedConfig {
  mg_enabled : bool;
  mg_placer_node_id : Z;
  mg_pool : PoolConfig;
  mg_writer_lease_ms : Z;
  mg_fetch_block_on_writer : bool;
  mg_cache : CacheConfig;
  mg_cost_weights : CostWeights;
}.

(** Source: crates/ub-core/src/config.rs:369-371, [default_writer_lease_ms]. *)
Definition default_writer_lease_ms : Z := 5000.

(** Source: crates/ub-core/src/config.rs:456-468, [ManagedConfig::default]. *)
Definition ManagedConfig_default : ManagedConfig :=
  mkManagedConfig false 0 PoolConfig_default default_writer_lease_ms true CacheConfig_default
    CostWeights_default.

(** Source: crates/ub-core/src/config.rs:5-40, [NodeConfig]. *)
Record NodeConfig : Type := mkNodeConfig {
  cfg_pod_id : Z;
  cfg_node_id : Z;
  cfg_control : ControlConfig;
  cfg_data : DataConfig;
  cfg_mr : MrConfig;
  cfg_npu : NpuConfig;
  cfg_transport : TransportConfig;
  cfg_flow : FlowConfig;
  cfg_jetty : JettyConfig;
  cfg_obs : ObsConfig;
  cfg_heartbeat : HeartbeatConfig;
  cfg_managed : ManagedConfig;
}.

#[global] Instance NodeConfig_settable : Settable NodeConfig := fun c =>
  mkNodeConfig (cfg_pod_id c) (cfg_node_id c) (cfg_control c) (cfg_data c) (cfg_mr c) (cfg_npu c)
    (cfg_transport c) (cfg_flow c) (cfg_jetty c) (cfg_obs c) (cfg_heartbeat c) (cfg_managed c).

(** Source: crates/ub-core/src/config.rs:42-63, [NodeConfig::default]. *)
Definition NodeConfig_default : NodeConfig :=
  mkNodeConfig 1 0 ControlConfig_default DataConfig_default MrConfig_default NpuConfig_default
    TransportConfig_default FlowConfig_default JettyConfig_default ObsConfig_default
    HeartbeatConfig_default ManagedConfig_default.

(** The paths the code reads. *)
Definition cfg_control_listen (c : NodeConfig) : bytes := cc_listen (cfg_control c).
Definition cfg_data_listen (c : NodeConfig) : bytes := dc_listen (cfg_data c).
Definition cfg_initial_credits (c : NodeConfig) : Z := fl_initial_credits (cfg_flow c).
Definition cfg_interval_ms (c : NodeConfig) : Z := hc_interval_ms (cfg_heartbeat c).
Definition cfg_fail_after (c : NodeConfig) : Z := hc_fail_after (cfg_heartbeat c).
