(* ===== verification/ReadCache.v ===== *)
(** * ReadCache: the read response cache of a session

    crates/ub-transport/src/read_cache.rs. The [HashMap] is a finite map; the
    clock readings the code takes are arguments, in nanoseconds. Entries carry
    distinct orders, so the key [find_lru_key] chooses does not depend on the
    order in which the map is iterated. *)

From S2P Require Import Prelude Bytes.

(** ** Data and operations *)

(** (source node, opaque id) *)
Abbreviation CacheKey := (Z * Z)%type.

(** Source: crates/ub-transport/src/read_cache.rs:8-13, [CacheEntry]. *)
Record CacheEntry : Type := mkCacheEntry {
  ce_response : bytes;
  ce_inserted_at : Z;
  ce_order : Z;
}.

(** Source: crates/ub-transport/src/read_cache.rs:23-28, [ReadResponseCache]. *)
Record ReadResponseCache : Type := mkReadResponseCache {
  rc_entries : gmap (Z * Z) CacheEntry;
  rc_capacity : Z;
  rc_ttl : Z;
  rc_next_order : Z;
}.

#[global] Instance CacheEntry_settable : Settable CacheEntry :=
  fun x => mkCacheEntry (ce_response x) (ce_inserted_at x) (ce_order x).
#[global] Instance ReadResponseCache_settable : Settable ReadResponseCache :=
  fun x => mkReadResponseCache (rc_entries x) (rc_capacity x) (rc_ttl x) (rc_next_order x).

(** Source: crates/ub-transport/src/read_cache.rs:32-39, [ReadResponseCache::new]. *)
Definition ReadResponseCache_new (capacity ttl : Z) : ReadResponseCache :=
  mkReadResponseCache ∅ capacity ttl 0.

(** Source: crates/ub-transport/src/read_cache.rs:42-44, [ReadResponseCache::default_cache]. *)
Definition ReadResponseCache_default_cache : ReadResponseCache :=
  ReadResponseCache_new 1024 (5 * 10 ^ 9).

(** Source: crates/ub-transport/src/read_cache.rs:48-63, [ReadResponseCache::get].
    [elapsed] saturates at zero. *)
Definition ReadResponseCache_get (c : ReadResponseCache) (now : Z) (key : CacheKey)
  : ReadResponseCache * option bytes :=
  match rc_entries c !! key with
  | None => (c <| rc_entries := delete key (rc_entries c) |>, None)
  | Some e =>
    if rc_ttl c <? sat_sub now (ce_inserted_at e)
    then (c <| rc_entries := delete key (rc_entries c) |>, None)
    else
      (c <| rc_entries := <[key := e <| ce_order := rc_next_order c |>]> (rc_entries c) |>
         <| rc_next_order := wrap 64 (rc_next_order c + 1) |>,
       Some (ce_response e))
  end.

(** Source: crates/ub-transport/src/read_cache.rs:89-92, [ReadResponseCache::remove_expired]. *)
Definition ReadResponseCache_remove_expired (c : ReadResponseCache) (now : Z)
  : ReadResponseCache :=
  c <| rc_entries := filter (fun kv => sat_sub now (ce_inserted_at kv.2) <= rc_ttl c)
                       (rc_entries c) |>.

(** Source: crates/ub-transport/src/read_cache.rs:109-113, [ReadResponseCache::find_lru_key]. *)
Definition ReadResponseCache_find_lru_key (c : ReadResponseCache) : option CacheKey :=
  fst <$> min_by_key (fun kv => ce_order kv.2) (map_to_list (rc_entries c)).

(** Source: crates/ub-transport/src/read_cache.rs:67-86, [ReadResponseCache::insert].
    [now] is read by [remove_expired], [now'] for the new entry. *)
Definition ReadResponseCache_insert (c : ReadResponseCache) (now now' : Z) (key : CacheKey)
    (response : bytes) : ReadResponseCache :=
  let c := ReadResponseCache_remove_expired c now in
  let c :=
    if rc_capacity c <=? Z.of_nat (size (rc_entries c))
    then match ReadResponseCache_find_lru_key c with
         | Some lru_key => c <| rc_entries := delete lru_key (rc_entries c) |>
         | None => c
         end
    else c in
  let order := rc_next_order c in
  let c := c <| rc_next_order := wrap 64 (rc_next_order c + 1) |> in
  c <| rc_entries := <[key := mkCacheEntry response now' order]> (rc_entries c) |>.

(** Source: crates/ub-transport/src/read_cache.rs:95-97, [ReadResponseCache::clear]. *)
Definition ReadResponseCache_clear (c : ReadResponseCache) : ReadResponseCache :=
  c <| rc_entries := ∅ |>.

(** Source: crates/ub-transport/src/read_cache.rs:100-107, [ReadResponseCache::len]. *)
Definition ReadResponseCache_len (c : ReadResponseCache) : Z := Z.of_nat (size (rc_entries c)).
Definition ReadResponseCache_is_empty (c : ReadResponseCache) : bool :=
  ReadResponseCache_len c =? 0.

(** ** Invariant *)

(** Every order was issued and was issued once. *)
Record rc_ok (c : ReadResponseCache) : Prop := {
  rc_ok_order : forall k e, rc_entries c !! k = Some e -> 0 <= ce_order e < rc_next_order c;
  rc_ok_inj : forall k1 k2 e1 e2,
    rc_entries c !! k1 = Some e1 -> rc_entries c !! k2 = Some e2 ->
    ce_order e1 = ce_order e2 -> k1 = k2;
  rc_ok_size : Z.of_nat (size (rc_entries c)) <= Z.max 1 (rc_capacity c);
  rc_ok_next : 0 <= rc_next_order c;
}.

Lemma rc_ok_new capacity ttl : rc_ok (ReadResponseCache_new capacity ttl).
Proof.
  constructor; cbn; [by intros ?? ?%lookup_empty_Some|by intros ???? ?%lookup_empty_Some|
    rewrite map_size_empty; lia|lia].
Qed.

(** Dropping entries keeps the invariant. *)
Lemma rc_ok_sub c m :
  rc_ok c -> m ⊆ rc_entries c -> rc_ok (c <| rc_entries := m |>).
Proof.
  intros [Ho Hi Hs Hn] Hm. constructor; cbn; [| | |done].
  - intros k e Hk. apply (Ho k), (lookup_weaken _ _ _ _ Hk Hm).
  - intros k1 k2 e1 e2 H1 H2. apply (Hi k1 k2 e1 e2); by eapply lookup_weaken.
  - pose proof (map_subseteq_size _ _ Hm). lia.
Qed.

(** Adding an entry with the next order keeps it, when there is room. *)
Lemma rc_ok_touch c k e :
  rc_ok c -> u64 (rc_next_order c + 1) ->
  Z.of_nat (size (<[k := e <| ce_order := rc_next_order c |>]> (rc_entries c)))
    <= Z.max 1 (rc_capacity c) ->
  rc_ok (c <| rc_entries := <[k := e <| ce_order := rc_next_order c |>]> (rc_entries c) |>
           <| rc_next_order := wrap 64 (rc_next_order c + 1) |>).
Proof.
  intros [Ho Hi Hs Hn] Hu Hroom. constructor; cbn; rewrite ?wrap_small by done; [| |done|lia].
  - intros k' e' [[<- <-]|[? Hk]]%lookup_insert_Some; [cbn; lia|]. pose proof (Ho _ _ Hk). lia.
  - intros k1 k2 e1 e2 [[<- <-]|[? H1]]%lookup_insert_Some [[<- <-]|[? H2]]%lookup_insert_Some;
      cbn; intros Heq; [done| | |by apply (Hi k1 k2 e1 e2)].
    + pose proof (Ho _ _ H2). lia.
    + pose proof (Ho _ _ H1). lia.
Qed.

(** ** The least recently used key *)

Lemma find_lru_key_spec c :
  match ReadResponseCache_find_lru_key c with
  | Some k => exists e, rc_entries c !! k = Some e
      /\ forall k' e', rc_entries c !! k' = Some e' -> ce_order e <= ce_order e'
  | None => rc_entries c = ∅
  end.
Proof.
  unfold ReadResponseCache_find_lru_key.
  pose proof (min_by_key_spec (fun kv : CacheKey * CacheEntry => ce_order kv.2)
                (map_to_list (rc_entries c))) as H.
  destruct (min_by_key _ _) as [[k e]|]; cbn in *.
  - destruct H as [Hin Hmin]. exists e. split; [by apply elem_of_map_to_list|].
    intros k' e' Hk'. apply (Hmin (k', e')). by apply elem_of_map_to_list.
  - by apply map_to_list_empty_iff.
Qed.

(** ** Operations *)

(** The keys used after the entry of order [o]. *)
Definition newer (m : gmap (Z * Z) CacheEntry) (o : Z) : gset (Z * Z) :=
  dom (filter (fun kv => o < ce_order kv.2) m).

Lemma elem_of_newer m o k : k ∈ newer m o <-> exists e, m !! k = Some e /\ o < ce_order e.
Proof.
  unfold newer. rewrite elem_of_dom. unfold is_Some.
  setoid_rewrite map_lookup_filter_Some. naive_solver.
Qed.

Lemma newer_insert m o k e : newer (<[k := e]> m) o ⊆ {[k]} ∪ newer m o.
Proof.
  intros k'. rewrite elem_of_union, elem_of_singleton, !elem_of_newer.
  intros (e' & [[<- _]|[_ ?]]%lookup_insert_Some & ?); [by left|right; eauto].
Qed.

Lemma newer_mono m1 m2 o : m1 ⊆ m2 -> newer m1 o ⊆ newer m2 o.
Proof.
  intros Hm k. rewrite !elem_of_newer. intros (e & He & ?).
  exists e. split; [by eapply lookup_weaken|done].
Qed.

(** A call on the cache, with the clock readings it takes. *)
Inductive CacheOp : Type :=
| CacheOp_get (now : Z) (key : CacheKey)
| CacheOp_insert (now now' : Z) (key : CacheKey) (response : bytes)
| CacheOp_remove_expired (now : Z).

Definition cache_step (c : ReadResponseCache) (op : CacheOp) : ReadResponseCache :=
  match op with
  | CacheOp_get now key => (ReadResponseCache_get c now key).1
  | CacheOp_insert now now' key response => ReadResponseCache_insert c now now' key response
  | CacheOp_remove_expired now => ReadResponseCache_remove_expired c now
  end.

Lemma remove_expired_sub c now :
  rc_entries (ReadResponseCache_remove_expired c now) ⊆ rc_entries c.
Proof. apply map_filter_subseteq. Qed.

(** The cache just before the new entry goes in: a part of the old one, with
    room, and an entry is missing only when it expired or was the least recent. *)
Lemma insert_room c now key now' response :
  rc_ok c -> 0 <= rc_next_order c ->
  exists m,
    m ⊆ rc_entries c
    /\ ReadResponseCache_insert c now now' key response
       = c <| rc_entries := <[key := mkCacheEntry response now' (rc_next_order c)]> m |>
           <| rc_next_order := wrap 64 (rc_next_order c + 1) |>
    /\ Z.of_nat (size m) + 1 <= Z.max 1 (rc_capacity c)
    /\ forall k e, rc_entries c !! k = Some e -> m !! k = None ->
         rc_ttl c < sat_sub now (ce_inserted_at e)
         \/ rc_capacity c <= Z.of_nat (size (newer (rc_entries c) (ce_order e))) + 1.
Proof.
  intros Hok Hn. unfold ReadResponseCache_insert.
  set (c1 := ReadResponseCache_remove_expired c now).
  assert (Hsub : rc_entries c1 ⊆ rc_entries c) by apply remove_expired_sub.
  assert (Hok1 : rc_ok c1) by (apply rc_ok_sub; [done|apply map_filter_subseteq]).
  assert (Hkeep : forall k e, rc_entries c !! k = Some e ->
            rc_entries c1 !! k = Some e \/ rc_ttl c < sat_sub now (ce_inserted_at e)).
  { intros k e Hk. destruct (Z.le_gt_cases (sat_sub now (ce_inserted_at e)) (rc_ttl c)); [left|by right].
    by apply map_lookup_filter_Some. }
  assert (Hcap : rc_capacity c1 = rc_capacity c) by done.
  assert (Hord : rc_next_order c1 = rc_next_order c) by done.
  assert (Httl : rc_ttl c1 = rc_ttl c) by done. clearbody c1.
  destruct (rc_capacity c1 <=? _) eqn:Ecap; zbool.
  2: { exists (rc_entries c1). split; [done|]. split; [|split; [lia|]].
       - cbn. by rewrite Hord, Hcap, Httl.
       - intros k e Hk Hnone. destruct (Hkeep k e Hk); [congruence|by left]. }
  pose proof (find_lru_key_spec c1) as Hlru.
  destruct (ReadResponseCache_find_lru_key c1) as [lru|].
  - destruct Hlru as (el & Hel & Hmin). exists (delete lru (rc_entries c1)).
    split; [by etrans; [apply delete_subseteq|]|]. split; [|split].
    + cbn. by rewrite Hord, Hcap, Httl.
    + rewrite map_size_delete_Some by eauto. destruct Hok1 as [_ _ Hs _].
      assert (size (rc_entries c1) <> 0%nat).
      { intros Hz%map_size_empty_inv. by rewrite Hz, lookup_empty in Hel. } lia.
    + intros k e Hk [Heq|Hnone]%lookup_delete_None; [subst k|].
      2: { destruct (Hkeep k e Hk); [congruence|by left]. }
      right. assert (Hle : rc_entries c1 ⊆ rc_entries c) by done.
      assert (He : rc_entries c1 !! lru = Some e) by (rewrite (lookup_weaken _ _ _ _ Hel Hle) in Hk; congruence).
      assert (Hd : dom (rc_entries c1) ⊆ {[lru]} ∪ newer (rc_entries c) (ce_order e)).
      { intros k' [e' Hk']%elem_of_dom. rewrite elem_of_union, elem_of_singleton, elem_of_newer.
        destruct (decide (k' = lru)); [by left|right]. exists e'.
        split; [by eapply lookup_weaken|]. assert (e = el) as -> by congruence.
        pose proof (Hmin _ _ Hk'). destruct (decide (ce_order el = ce_order e')) as [Ho|]; [|lia].
        destruct Hok1 as [_ Hi _ _]. destruct n. symmetry. by apply (Hi lru k' el e'). }
      apply subseteq_size in Hd. rewrite size_union_alt, size_singleton, size_dom in Hd.
      pose proof (subseteq_size (newer (rc_entries c) (ce_order e) ∖ {[lru]})
                    (newer (rc_entries c) (ce_order e)) (subseteq_difference_l _ _ _ (reflexivity _))). lia.
  - exists ∅. rewrite Hlru in *. split; [apply map_empty_subseteq|]. split; [|split].
    + cbn. by rewrite Hord, Hcap, Httl, Hlru.
    + rewrite map_size_empty. lia.
    + intros k e Hk _. destruct (Hkeep k e Hk) as [?%lookup_empty_Some|]; [done|by left].
Qed.

Lemma insert_preserves c now now' key response :
  rc_ok c -> u64 (rc_next_order c + 1) ->
  rc_ok (ReadResponseCache_insert c now now' key response).
Proof.
  intros Hok Hu. pose proof (rc_ok_next _ Hok).
  destruct (insert_room c now key now' response Hok) as (m & Hm & -> & Hsz & _); [done|].
  refine (rc_ok_touch (c <| rc_entries := m |>) key (mkCacheEntry response now' 0) _ _ _).
  - by apply rc_ok_sub.
  - done.
  - cbn. rewrite map_size_insert. destruct (m !! key); cbn; lia.
Qed.

Lemma get_preserves c now key :
  rc_ok c -> u64 (rc_next_order c + 1) -> rc_ok (ReadResponseCache_get c now key).1.
Proof.
  intros Hok Hu. unfold ReadResponseCache_get. destruct (rc_entries c !! key) as [e|] eqn:He.
  - case_match; cbn [fst]; [apply rc_ok_sub; [done|apply delete_subseteq]|].
    apply rc_ok_touch; [done|done|]. rewrite map_size_insert_Some by eauto. apply Hok.
  - cbn [fst]. apply rc_ok_sub; [done|apply delete_subseteq].
Qed.

Lemma cache_step_preserves c op :
  rc_ok c -> u64 (rc_next_order c + 1) -> rc_ok (cache_step c op).
Proof.
  intros Hok Hu. destruct op; cbn [cache_step];
    [by apply get_preserves|by apply insert_preserves|].
  apply rc_ok_sub; [done|apply remove_expired_sub].
Qed.

Lemma cache_step_next c op :
  u64 (rc_next_order c) -> u64 (rc_next_order c + 1) ->
  rc_capacity (cache_step c op) = rc_capacity c /\ rc_ttl (cache_step c op) = rc_ttl c
  /\ rc_next_order c <= rc_next_order (cache_step c op) <= rc_next_order c + 1.
Proof.
  intros Hu Hu'. destruct op; cbn [cache_step].
  - unfold ReadResponseCache_get. repeat case_match; cbn; rewrite ?wrap_small by done; lia.
  - unfold ReadResponseCache_insert, ReadResponseCache_remove_expired.
    repeat case_match; cbn; rewrite ?wrap_small by done; lia.
  - cbn. lia.
Qed.

(** An operation that leaves [key] alone and reads the clock before [deadline]. *)
Definition op_spares (key : CacheKey) (deadline : Z) (op : CacheOp) : Prop :=
  match op with
  | CacheOp_get now key' => key' <> key /\ now <= deadline
  | CacheOp_insert now _ key' _ => key' <> key /\ now <= deadline
  | CacheOp_remove_expired now => now <= deadline
  end.

Lemma cache_step_keeps c op key e :
  rc_ok c -> 0 <= rc_ttl c -> rc_entries c !! key = Some e ->
  op_spares key (ce_inserted_at e + rc_ttl c) op ->
  Z.of_nat (size (newer (rc_entries c) (ce_order e))) + 1 < rc_capacity c ->
  rc_entries (cache_step c op) !! key = Some e
  /\ (size (newer (rc_entries (cache_step c op)) (ce_order e))
      <= size (newer (rc_entries c) (ce_order e)) + 1)%nat.
Proof.
  intros Hok Httl He Hop Hroom.
  assert (Htouch : forall k' e', (size (newer (<[k' := e']> (rc_entries c)) (ce_order e))
            <= size (newer (rc_entries c) (ce_order e)) + 1)%nat).
  { intros k' e'. pose proof (subseteq_size _ _ (newer_insert (rc_entries c) (ce_order e) k' e')) as H.
    rewrite size_union_alt, size_singleton in H.
    pose proof (subseteq_size (newer (rc_entries c) (ce_order e) ∖ {[k']})
                  (newer (rc_entries c) (ce_order e)) (subseteq_difference_l _ _ _ (reflexivity _))). lia. }
  assert (Hsub : forall m, m ⊆ rc_entries c ->
            (size (newer m (ce_order e)) <= size (newer (rc_entries c) (ce_order e)) + 1)%nat).
  { intros m Hm. pose proof (subseteq_size _ _ (newer_mono m _ (ce_order e) Hm)). lia. }
  destruct op as [now k'|now now' k' r|now]; cbn [op_spares cache_step] in *.
  - destruct Hop as [Hne Hnow]. unfold ReadResponseCache_get.
    destruct (rc_entries c !! k') eqn:Hk'; [case_match|]; cbn;
      rewrite ?lookup_delete_ne, ?lookup_insert_ne by done; split; try done;
      try apply Htouch; apply Hsub, delete_subseteq.
  - destruct Hop as [Hne Hnow].
    destruct (insert_room c now k' now' r Hok (rc_ok_next _ Hok)) as (m & Hm & -> & _ & Hlost).
    cbn. rewrite lookup_insert_ne by done. destruct (m !! key) as [e'|] eqn:Hme.
    + rewrite (lookup_weaken _ _ _ _ Hme Hm) in He. simplify_eq. split; [done|].
      pose proof (subseteq_size _ _ (newer_mono _ _ (ce_order e)
        (insert_mono m (rc_entries c) k' (mkCacheEntry r now' (rc_next_order c)) Hm))).
      pose proof (Htouch k' (mkCacheEntry r now' (rc_next_order c))). lia.
    + destruct (Hlost key e He Hme); [ulia|lia].
  - split; [|apply Hsub, remove_expired_sub].
    cbn. apply map_lookup_filter_Some. split; [done|]. cbn. ulia.
Qed.

Lemma cache_run_keeps ops c key e :
  rc_ok c -> 0 <= rc_ttl c -> rc_entries c !! key = Some e ->
  Forall (op_spares key (ce_inserted_at e + rc_ttl c)) ops ->
  rc_next_order c + Z.of_nat (length ops) < 2 ^ 64 ->
  Z.of_nat (size (newer (rc_entries c) (ce_order e))) + Z.of_nat (length ops) < rc_capacity c ->
  rc_entries (foldl cache_step c ops) !! key = Some e
  /\ rc_ttl (foldl cache_step c ops) = rc_ttl c.
Proof.
  revert c. induction ops as [|op ops IH]; intros c Hok Httl He Hops Hnext Hroom; [done|].
  apply Forall_cons in Hops as [Hop Hops]. cbn [foldl length] in *.
  pose proof (rc_ok_next _ Hok).
  destruct (cache_step_next c op) as (Hcap & Ht & Hn); [ulia|ulia|].
  destruct (cache_step_keeps c op key e) as [He' Hs]; [done|done|done|done|lia|].
  destruct (IH (cache_step c op)) as [IH1 IH2];
    [apply cache_step_preserves; [done|ulia]|by rewrite Ht|done|by rewrite Ht|lia|lia|].
  split; [done|congruence].
Qed.

(** ** Properties *)

(** C39 (functional): The read cache keeps a response until its TTL runs out or it becomes the
    least recently used: after a response is inserted, at most [capacity - 1] further calls on
    other keys (lookups, inserts, sweeps, in any order) within the TTL leave it in place, and a
    lookup within the TTL returns exactly that response. The cache never holds more than
    [capacity] entries. *)
Theorem read_cache_lru c now now' key response ops t :
  rc_ok c -> 0 <= rc_ttl c ->
  rc_next_order c + Z.of_nat (length ops) + 1 < 2 ^ 64 ->
  Z.of_nat (length ops) < rc_capacity c ->
  Forall (op_spares key (now' + rc_ttl c)) ops -> t <= now' + rc_ttl c ->
  let c' := foldl cache_step (ReadResponseCache_insert c now now' key response) ops in
  (ReadResponseCache_get c' t key).2 = Some response /\ ReadResponseCache_len c' <= rc_capacity c.
Proof.
  intros Hok Httl Hnext Hlen Hops Ht. cbv zeta. pose proof (rc_ok_next _ Hok).
  set (c1 := ReadResponseCache_insert c now now' key response).
  destruct (insert_room c now key now' response Hok) as (m & Hm & Hc1 & _); [done|].
  fold c1 in Hc1.
  assert (Hok1 : rc_ok c1) by (apply insert_preserves; [done|ulia]).
  set (e := mkCacheEntry response now' (rc_next_order c)).
  assert (He : rc_entries c1 !! key = Some e) by (rewrite Hc1; cbn; by rewrite lookup_insert_eq).
  assert (Hsz : size (newer (rc_entries c1) (ce_order e)) = 0%nat).
  { apply size_empty_iff. intros k. rewrite elem_of_newer.
    split; [|by intros ?%elem_of_empty]. intros (e' & Hk & Ho).
    destruct Hok1 as [Hord _ _ _]. pose proof (Hord _ _ Hk) as Hlt. rewrite Hc1 in Hlt.
    cbn in Hlt, Ho. rewrite wrap_small in Hlt by ulia. lia. }
  assert (Hcn : rc_capacity c1 = rc_capacity c /\ rc_ttl c1 = rc_ttl c
                /\ rc_next_order c1 = rc_next_order c + 1)
    by (rewrite Hc1; cbn; rewrite wrap_small by ulia; done).
  destruct Hcn as (Hcap & Httl1 & Hn1).
  destruct (cache_run_keeps ops c1 key e) as [Hk Htt];
    [done|by rewrite Httl1|done|by rewrite Httl1|lia|lia|].
  split.
  - unfold ReadResponseCache_get. rewrite Hk, Htt, Httl1. cbn [ce_inserted_at e].
    rewrite (proj2 (Z.ltb_ge _ _)) by ulia. done.
  - clear He Hk Htt Hsz Hops Hc1. clearbody c1.
    assert (Hrun : forall ops c, rc_ok c -> rc_next_order c + Z.of_nat (length ops) < 2 ^ 64 ->
              rc_ok (foldl cache_step c ops) /\ rc_capacity (foldl cache_step c ops) = rc_capacity c).
    { clear. induction ops as [|op ops IH]; intros c Hok Hn; [done|]. cbn [foldl length] in *.
      pose proof (rc_ok_next _ Hok). destruct (cache_step_next c op) as (Hcap & _ & ?); [ulia|ulia|].
      rewrite <- Hcap. apply IH; [apply cache_step_preserves; [done|ulia]|lia]. }
    destruct (Hrun ops c1) as [Hokf Hcf]; [done|lia|]. destruct Hokf as [_ _ Hs _].
    unfold ReadResponseCache_len. lia.
Qed.

Lemma read_cache_lru_witness :
  (ReadResponseCache_get
     (cache_step (ReadResponseCache_insert (ReadResponseCache_new 2 100) 0 0 (1, 1) [7; 8])
        (CacheOp_insert 10 10 (1, 2) [9])) 50 (1, 1)).2 = Some [7; 8].
Proof.
  apply (read_cache_lru (ReadResponseCache_new 2 100) 0 0 (1, 1) [7; 8]
           [CacheOp_insert 10 10 (1, 2) [9]] 50).
  - apply rc_ok_new.
  - discriminate.
  - reflexivity.
  - reflexivity.
  - constructor; [split; [discriminate|cbn; lia]|constructor].
  - cbn. lia.
Defined.
