(* ===== verification/Session.v ===== *)
(** * Session: one reliable session with a peer

    crates/ub-transport/src/session.rs. Instants and durations are nanosecond
    counts; the clock readings an operation takes are arguments. Counters keep
    their width. *)

From S2P Require Import Prelude Bytes Types Addr Frame Float Dedup ReadCache.

(** ** Data *)

(** Source: crates/ub-transport/src/session.rs:12-16, [SessionKey]. *)
Record SessionKey : Type := mkSessionKey {
  sk_local_node : Z;
  sk_remote_node : Z;
  sk_epoch : Z;
}.

#[global] Instance SessionKey_eq_dec : EqDecision SessionKey.
Proof. solve_decision. Defined.
#[global] Instance SessionKey_countable : Countable SessionKey.
Proof.
  refine (inj_countable' (fun k => (sk_local_node k, sk_remote_node k, sk_epoch k))
            (fun t => mkSessionKey t.1.1 t.1.2 t.2) _).
  by intros [].
Defined.

(** Source: crates/ub-transport/src/session.rs:20-23, [SessionState]. *)
Inductive SessionState : Type :=
| SessionState_Active
| SessionState_Dead.

#[global] Instance SessionState_eq_dec : EqDecision SessionState.
Proof. solve_decision. Defined.

(** Source: crates/ub-transport/src/session.rs:27-35, [RetransmitEntry]. *)
Record RetransmitEntry : Type := mkRetransmitEntry {
  re_seq : Z;
  re_frame : bytes;
  re_first_sent_at : Z;
  re_rto_deadline : Z;
  re_retry_count : Z;
  re_is_fire_and_forget : bool;
  re_opaque : Z;
}.

(** Source: crates/ub-transport/src/session.rs:39-48, [ReceiveAction]. *)
Inductive ReceiveAction : Type :=
| ReceiveAction_Deliver
| ReceiveAction_Duplicate
| ReceiveAction_OutOfOrder
| ReceiveAction_BeyondWindow.

#[global] Instance ReceiveAction_eq_dec : EqDecision ReceiveAction.
Proof. solve_decision. Defined.

(** Source: crates/ub-transport/src/session.rs:54-101, [ReliableSession]. *)
Record ReliableSession : Type := mkReliableSession {
  rs_key : SessionKey;
  rs_state : SessionState;
  rs_next_seq : Z;
  rs_available_credits : Z;
  rs_retransmit_queue : list RetransmitEntry;
  rs_rto_base_ms : Z;
  rs_max_retries : Z;
  rs_cwnd : Z;
  rs_ssthresh : Z;
  rs_srtt : f64;
  rs_rttvar : f64;
  rs_rto : Z;
  rs_dup_ack_count : Z;
  rs_last_ack_seq : Z;
  rs_dedup : DedupWindow;
  rs_execution_records : list (Z * bool);
  rs_read_cache : ReadResponseCache;
  rs_credits_to_grant : Z;
  rs_frames_since_last_ack : Z;
}.

#[global] Instance RetransmitEntry_settable : Settable RetransmitEntry :=
  fun x => mkRetransmitEntry (re_seq x) (re_frame x) (re_first_sent_at x) (re_rto_deadline x)
    (re_retry_count x) (re_is_fire_and_forget x) (re_opaque x).
#[global] Instance ReliableSession_settable : Settable ReliableSession :=
  fun x => mkReliableSession (rs_key x) (rs_state x) (rs_next_seq x) (rs_available_credits x)
    (rs_retransmit_queue x) (rs_rto_base_ms x) (rs_max_retries x) (rs_cwnd x) (rs_ssthresh x)
    (rs_srtt x) (rs_rttvar x) (rs_rto x) (rs_dup_ack_count x) (rs_last_ack_seq x) (rs_dedup x)
    (rs_execution_records x) (rs_read_cache x) (rs_credits_to_grant x)
    (rs_frames_since_last_ack x).

(** [Duration::from_millis]. *)
Definition from_millis (ms : Z) : Z := ms * 10 ^ 6.

(** ** Operations *)

(** Source: crates/ub-transport/src/session.rs:105-135, [ReliableSession::new]. *)
Definition ReliableSession_new (local_node remote_node epoch rto_base_ms max_retries
    initial_credits : Z) : ReliableSession :=
  let rto := Z.min (Z.max rto_base_ms 200) 60000 in
  {| rs_key := mkSessionKey local_node remote_node epoch;
     rs_state := SessionState_Active;
     rs_next_seq := 1;
     rs_available_credits := initial_credits;
     rs_retransmit_queue := [];
     rs_rto_base_ms := rto_base_ms;
     rs_max_retries := max_retries;
     rs_cwnd := initial_credits;
     rs_ssthresh := U32_MAX;
     rs_srtt := f64_of_int rto_base_ms;
     rs_rttvar := f64_div (f64_of_int rto_base_ms) (f64_lit 2 0);
     rs_rto := rto;
     rs_dup_ack_count := 0;
     rs_last_ack_seq := 0;
     rs_dedup := DedupWindow_new 1;
     rs_execution_records := [];
     rs_read_cache := ReadResponseCache_default_cache;
     rs_credits_to_grant := 0;
     rs_frames_since_last_ack := 0 |}.

(** [frame[off..off + bs.len()].copy_from_slice(bs)], in range. *)
Definition patch (frame : bytes) (off : nat) (bs : bytes) : bytes :=
  take off frame ++ bs ++ drop (off + length bs) frame.

(** The two writes of [assign_seq] into the frame: the sequence number at 16
    and ACK_REQ in the flags at 6. *)
Definition stamp_frame (seq : Z) (frame : bytes) : bytes :=
  let frame := if (24 <=? length frame)%nat then patch frame 16 (be_bytes 8 seq) else frame in
  if (8 <=? length frame)%nat
  then let flags := be_value [nth 6 frame 0; nth 7 frame 0] in
       patch frame 6 (be_bytes 2 (Z.lor flags FrameFlags_ACK_REQ))
  else frame.

(** Source: crates/ub-transport/src/session.rs:141-181, [ReliableSession::assign_seq].
    [t1] and [t2] are the two readings of the clock. *)
Definition ReliableSession_assign_seq (s : ReliableSession) (t1 t2 : Z) (frame : bytes)
    (is_fire_and_forget : bool) (opaque : Z) : ReliableSession * bytes * Z :=
  let seq := rs_next_seq s in
  let s := s <| rs_next_seq := wrap 64 (rs_next_seq s + 1) |> in
  let frame := stamp_frame seq frame in
  let rto := from_millis (rs_rto s) in
  let entry := {| re_seq := seq; re_frame := frame; re_first_sent_at := t1;
                  re_rto_deadline := t2 + rto; re_retry_count := 0;
                  re_is_fire_and_forget := is_fire_and_forget; re_opaque := opaque |} in
  (s <| rs_retransmit_queue := rs_retransmit_queue s ++ [entry] |>, frame, seq).

(** Source: crates/ub-transport/src/session.rs:278-280, [ReliableSession::add_credits]. *)
Definition ReliableSession_add_credits (s : ReliableSession) (credits : Z) : ReliableSession :=
  s <| rs_available_credits := sat_add 32 (rs_available_credits s) credits |>.

(** Source: crates/ub-transport/src/session.rs:283-289, [ReliableSession::consume_credit]. *)
Definition ReliableSession_consume_credit (s : ReliableSession) : Result ReliableSession :=
  if rs_available_credits s =? 0 then Err NoResources
  else Ok (s <| rs_available_credits := wrap 32 (rs_available_credits s - 1) |>).

(** Source: crates/ub-transport/src/session.rs:293-296, [ReliableSession::send_available]. *)
Definition ReliableSession_send_available (s : ReliableSession) : Z :=
  let outstanding := wrap 32 (Z.of_nat (length (rs_retransmit_queue s))) in
  sat_sub (rs_cwnd s) outstanding.

(** Source: crates/ub-transport/src/session.rs:300-308, [ReliableSession::update_rtt]. *)
Definition ReliableSession_update_rtt (s : ReliableSession) (sample_ms : f64) : ReliableSession :=
  let s := s <| rs_srtt := (f64_lit 7 (-3) * rs_srtt s + f64_lit 1 (-3) * sample_ms)%f64 |> in
  let s := s <| rs_rttvar := (f64_lit 3 (-2) * rs_rttvar s
                              + f64_lit 1 (-2) * f64_abs (sample_ms - rs_srtt s))%f64 |> in
  let s := s <| rs_rto := f64_round_u64 (rs_srtt s + f64_lit 4 0 * rs_rttvar s)%f64 |> in
  s <| rs_rto := Z.min (Z.max (rs_rto s) 200) 60000 |>.

(** Source: crates/ub-transport/src/session.rs:312-322, [ReliableSession::on_new_ack]. *)
Definition ReliableSession_on_new_ack (s : ReliableSession) : ReliableSession :=
  let s := if rs_cwnd s <? rs_ssthresh s
           then s <| rs_cwnd := sat_mul 32 (rs_cwnd s) 2 |>
           else s <| rs_cwnd := wrap 32 (rs_cwnd s + 1) |> in
  s <| rs_dup_ack_count := 0 |>.

(** Source: crates/ub-transport/src/session.rs:326-333, [ReliableSession::on_loss]. *)
Definition ReliableSession_on_loss (s : ReliableSession) : ReliableSession :=
  let s := s <| rs_ssthresh := rs_cwnd s / 2 |> in
  let s := if rs_ssthresh s <? 2 then s <| rs_ssthresh := 2 |> else s in
  let s := s <| rs_cwnd := 1 |> in
  s <| rs_dup_ack_count := 0 |>.

(** The loop of [process_ack]: the queue is popped from the front; acknowledged
    fire-and-forget entries go to [removed], the others to [keep]. [clock] gives
    the reading taken when the entry of a sequence number is sampled. *)
Fixpoint process_ack_loop (clock : Z -> Z) (ack_seq : Z) (is_new_ack : bool)
    (queue : list RetransmitEntry) (s : ReliableSession)
    (removed keep : list RetransmitEntry)
  : ReliableSession * list RetransmitEntry * list RetransmitEntry :=
  match queue with
  | [] => (s, removed, keep)
  | entry :: queue =>
    if (re_seq entry <=? ack_seq) && re_is_fire_and_forget entry then
      let s :=
        if is_new_ack && (re_retry_count entry =? 0) then
          let elapsed := sat_sub (clock (re_seq entry)) (re_first_sent_at entry) in
          let sample_ms := f64_of_int (elapsed / 10 ^ 6) in
          if f64_ltb (f64_lit 0 0) sample_ms then ReliableSession_update_rtt s sample_ms else s
        else s in
      process_ack_loop clock ack_seq is_new_ack queue s (removed ++ [entry]) keep
    else process_ack_loop clock ack_seq is_new_ack queue s removed (keep ++ [entry])
  end.

(** Source: crates/ub-transport/src/session.rs:187-222, [ReliableSession::process_ack]. *)
Definition ReliableSession_process_ack (s : ReliableSession) (clock : Z -> Z) (ack : AckPayload)
  : ReliableSession * list RetransmitEntry :=
  let ack_seq := ack_ack_seq ack in
  let is_new_ack := rs_last_ack_seq s <? ack_seq in
  let '(s, removed, keep) :=
    process_ack_loop clock ack_seq is_new_ack (rs_retransmit_queue s) s [] [] in
  let s := s <| rs_retransmit_queue := keep |> in
  let s := ReliableSession_add_credits s (ack_credit_grant ack) in
  let s := if is_new_ack then ReliableSession_on_new_ack s else s in
  (s, removed).

(** [queue.remove(position(p))]: drops the first element satisfying [p]. *)
Fixpoint remove_first {A} (p : A -> bool) (l : list A) : option (list A) :=
  match l with
  | [] => None
  | x :: l' => if p x then Some l' else option_map (cons x) (remove_first p l')
  end.

(** Source: crates/ub-transport/src/session.rs:226-233, [ReliableSession::complete_request]. *)
Definition ReliableSession_complete_request (s : ReliableSession) (opaque : Z)
  : ReliableSession * bool :=
  match remove_first (fun e => (re_opaque e =? opaque) && negb (re_is_fire_and_forget e))
          (rs_retransmit_queue s) with
  | Some queue => (s <| rs_retransmit_queue := queue |>, true)
  | None => (s, false)
  end.

(** Source: crates/ub-transport/src/session.rs:237-256, [ReliableSession::receive_frame]. *)
Definition ReliableSession_receive_frame (s : ReliableSession) (seq : Z)
  : ReliableSession * ReceiveAction :=
  let s := s <| rs_frames_since_last_ack := wrap 32 (rs_frames_since_last_ack s + 1) |> in
  let s := s <| rs_credits_to_grant := wrap 32 (rs_credits_to_grant s + 1) |> in
  match DedupWindow_check (rs_dedup s) seq with
  | DedupResult_InOrder =>
    (s <| rs_dedup := DedupWindow_mark_and_advance (rs_dedup s) seq |>, ReceiveAction_Deliver)
  | DedupResult_AlreadySeen => (s, ReceiveAction_Duplicate)
  | DedupResult_OutOfOrder =>
    (s <| rs_dedup := DedupWindow_mark_and_advance (rs_dedup s) seq |>, ReceiveAction_OutOfOrder)
  | DedupResult_BeyondWindow => (s, ReceiveAction_BeyondWindow)
  end.

(** [iter_mut().find(..)] with [record.1 = true]. *)
Fixpoint set_executed (seq : Z) (records : list (Z * bool)) : option (list (Z * bool)) :=
  match records with
  | [] => None
  | (sq, x) :: records' =>
    if sq =? seq then Some ((sq, true) :: records')
    else option_map (cons (sq, x)) (set_executed seq records')
  end.

(** Source: crates/ub-transport/src/session.rs:259-270, [ReliableSession::mark_executed].
    The trimming loop pops from the front until 1024 records are left. *)
Definition ReliableSession_mark_executed (s : ReliableSession) (seq : Z) : ReliableSession :=
  match set_executed seq (rs_execution_records s) with
  | Some records => s <| rs_execution_records := records |>
  | None =>
    let records := rs_execution_records s ++ [(seq, true)] in
    s <| rs_execution_records := drop (length records - 1024) records |>
  end.

(** Source: crates/ub-transport/src/session.rs:273-275, [ReliableSession::is_executed]. *)
Definition ReliableSession_is_executed (s : ReliableSession) (seq : Z) : bool :=
  existsb (fun r => (r.1 =? seq) && r.2) (rs_execution_records s).

(** Source: crates/ub-transport/src/session.rs:338-365, [ReliableSession::process_ack_for_fast_retransmit]. *)
Definition ReliableSession_process_ack_for_fast_retransmit (s : ReliableSession)
    (ack : AckPayload) : ReliableSession * option Z :=
  let ack_seq := ack_ack_seq ack in
  if rs_last_ack_seq s <? ack_seq then
    (s <| rs_last_ack_seq := ack_seq |> <| rs_dup_ack_count := 0 |>, None)
  else
    match ack_sack_bitmap ack with
    | Some _ =>
      let s := s <| rs_dup_ack_count := wrap 32 (rs_dup_ack_count s + 1) |> in
      if 3 <=? rs_dup_ack_count s
      then (s <| rs_dup_ack_count := 0 |>, Some (wrap 64 (ack_seq + 1)))
      else (s, None)
    | None =>
      let s := s <| rs_dup_ack_count := wrap 32 (rs_dup_ack_count s + 1) |> in
      if 3 <=? rs_dup_ack_count s
      then (s <| rs_dup_ack_count := 0 |>, Some (wrap 64 (ack_seq + 1)))
      else (s, None)
    end.

(** Source: crates/ub-transport/src/session.rs:368-371, [ReliableSession::kill]. *)
Definition ReliableSession_kill (s : ReliableSession) : ReliableSession * list RetransmitEntry :=
  let s := s <| rs_state := SessionState_Dead |> in
  (s <| rs_retransmit_queue := [] |>, rs_retransmit_queue s).

(** The loop over [i in 0..256] of [build_ack_payload]. *)
Fixpoint sack_loop (fuel : nat) (i : Z) (dedup : DedupWindow) (base : Z) (bitmap : bytes)
  : bytes :=
  match fuel with
  | O => bitmap
  | S fuel =>
    let seq := wrap 64 (base + i) in
    let bitmap :=
      if DedupWindow_is_seen dedup seq
      then <[Z.to_nat (i / 8) :=
               Z.lor (nth (Z.to_nat (i / 8)) bitmap 0) (Z.shiftl 1 (i mod 8))]> bitmap
      else bitmap in
    sack_loop fuel (i + 1) dedup base bitmap
  end.

(** Source: crates/ub-transport/src/session.rs:374-401, [ReliableSession::build_ack_payload]. *)
Definition ReliableSession_build_ack_payload (s : ReliableSession) (has_gap : bool)
  : ReliableSession * AckPayload :=
  let ack_seq := sat_sub (dw_next_expected (rs_dedup s)) 1 in
  let credit_grant := rs_credits_to_grant s in
  let s := s <| rs_credits_to_grant := 0 |> <| rs_frames_since_last_ack := 0 |> in
  let sack_bitmap :=
    if has_gap
    then Some (sack_loop 256 0 (rs_dedup s) (wrap 64 (ack_seq + 1)) (repeat 0 32))
    else None in
  (s, mkAckPayload ack_seq credit_grant 0 sack_bitmap).

(** The loop of [check_rto] over the queue: the updated queue, the sequence
    numbers to resend and [should_kill]. The loop stops at the entry that ran
    out of retries. *)
Fixpoint check_rto_loop (now rto_base_ms max_retries : Z) (queue : list RetransmitEntry)
  : list RetransmitEntry * list Z * bool :=
  match queue with
  | [] => ([], [], false)
  | entry :: queue' =>
    if re_rto_deadline entry <=? now then
      let entry := entry <| re_retry_count := wrap 32 (re_retry_count entry + 1) |> in
      if max_retries <? re_retry_count entry then (entry :: queue', [], true)
      else
        let backoff := wrap 64 (rto_base_ms * Z.shiftl 1 (Z.min (re_retry_count entry) 10)) in
        let entry := entry <| re_rto_deadline := now + from_millis backoff |> in
        let '(queue', seqs, should_kill) := check_rto_loop now rto_base_ms max_retries queue' in
        (entry :: queue', re_seq entry :: seqs, should_kill)
    else
      let '(queue', seqs, should_kill) := check_rto_loop now rto_base_ms max_retries queue' in
      (entry :: queue', seqs, should_kill)
  end.

(** Source: crates/ub-transport/src/session.rs:405-438, [ReliableSession::check_rto]. *)
Definition ReliableSession_check_rto (s : ReliableSession) (now : Z) : ReliableSession * list Z :=
  if decide (rs_state s <> SessionState_Active) then (s, [])
  else
    let '(queue, timeout_seqs, should_kill) :=
      check_rto_loop now (rs_rto_base_ms s) (rs_max_retries s) (rs_retransmit_queue s) in
    let s := s <| rs_retransmit_queue := queue |> in
    if should_kill then ((ReliableSession_kill s).1, [])
    else
      let s := match timeout_seqs with [] => s | _ => ReliableSession_on_loss s end in
      (s, timeout_seqs).

(** Source: crates/ub-transport/src/session.rs:441-443, [ReliableSession::get_retransmit_entry]. *)
Definition ReliableSession_get_retransmit_entry (s : ReliableSession) (seq : Z)
  : option RetransmitEntry :=
  List.find (fun e => re_seq e =? seq) (rs_retransmit_queue s).

(** Source: crates/ub-transport/src/session.rs:446-448, [ReliableSession::pending_count]. *)
Definition ReliableSession_pending_count (s : ReliableSession) : Z :=
  Z.of_nat (length (rs_retransmit_queue s)).

(** Source: crates/ub-transport/src/session.rs:451-453, [ReliableSession::should_send_ack]. *)
Definition ReliableSession_should_send_ack (s : ReliableSession) : bool :=
  (8 <=? rs_frames_since_last_ack s) || (8 <=? rs_credits_to_grant s).

(** ** Lemmas on the loops *)

Definition acked (ack_seq : Z) (e : RetransmitEntry) : bool :=
  (re_seq e <=? ack_seq) && re_is_fire_and_forget e.

(** The sessions that differ from [s] in the round-trip estimate only. *)
Definition rtt_only (s s' : ReliableSession) : Prop :=
  exists srtt rttvar rto,
    s' = s <| rs_srtt := srtt |> <| rs_rttvar := rttvar |> <| rs_rto := rto |>
    /\ (200 <= rs_rto s <= 60000 -> 200 <= rto <= 60000).

Lemma rtt_only_refl s : rtt_only s s.
Proof. exists (rs_srtt s), (rs_rttvar s), (rs_rto s). by destruct s. Qed.

Lemma rtt_only_update s s' x : rtt_only s s' -> rtt_only s (ReliableSession_update_rtt s' x).
Proof.
  intros (a & b & r & -> & Hr). unfold ReliableSession_update_rtt. cbv zeta.
  do 3 eexists. split; [cbn; reflexivity|]. cbn. lia.
Qed.

Lemma process_ack_loop_spec clock a new q s0 s removed keep :
  rtt_only s0 s -> (new = false -> s = s0) ->
  exists s', process_ack_loop clock a new q s removed keep
             = (s', removed ++ filter (fun e => acked a e = true) q,
                keep ++ filter (fun e => acked a e <> true) q)
    /\ rtt_only s0 s' /\ (new = false -> s' = s0).
Proof.
  revert s removed keep. induction q as [|e q IH]; intros s removed keep Hs Hn; cbn [process_ack_loop].
  { exists s. by rewrite !app_nil_r. }
  fold (acked a e). destruct (acked a e) eqn:E.
  - rewrite filter_cons_True, filter_cons_False by (done || congruence).
    destruct (IH (if new && (re_retry_count e =? 0) then
      if f64_ltb (f64_lit 0 0) (f64_of_int (sat_sub (clock (re_seq e)) (re_first_sent_at e) / 10 ^ 6))
      then ReliableSession_update_rtt s
             (f64_of_int (sat_sub (clock (re_seq e)) (re_first_sent_at e) / 10 ^ 6)) else s
      else s) (removed ++ [e]) keep) as (s' & Heq & ? & ?).
    + repeat case_match; auto using rtt_only_update.
    + intros ->. cbn. auto.
    + exists s'. cbv zeta. rewrite Heq, <- app_assoc. done.
  - rewrite filter_cons_False, filter_cons_True by (done || congruence).
    destruct (IH s removed (keep ++ [e]) Hs Hn) as (s' & Heq & ? & ?).
    exists s'. rewrite Heq, <- app_assoc. done.
Qed.

(** What [process_ack] does to the queue and to the rest of the session. *)
Lemma process_ack_spec s clock ack :
  let '(s', removed) := ReliableSession_process_ack s clock ack in
  removed = filter (fun e => acked (ack_ack_seq ack) e = true) (rs_retransmit_queue s)
  /\ rs_retransmit_queue s'
     = filter (fun e => acked (ack_ack_seq ack) e <> true) (rs_retransmit_queue s)
  /\ rs_available_credits s' = sat_add 32 (rs_available_credits s) (ack_credit_grant ack)
  /\ rs_state s' = rs_state s /\ rs_next_seq s' = rs_next_seq s /\ rs_dedup s' = rs_dedup s
  /\ rs_key s' = rs_key s
  /\ rs_max_retries s' = rs_max_retries s /\ rs_rto_base_ms s' = rs_rto_base_ms s
  /\ rs_execution_records s' = rs_execution_records s /\ rs_read_cache s' = rs_read_cache s
  /\ rs_last_ack_seq s' = rs_last_ack_seq s
  /\ rs_credits_to_grant s' = rs_credits_to_grant s
  /\ rs_frames_since_last_ack s' = rs_frames_since_last_ack s
  /\ (200 <= rs_rto s <= 60000 -> 200 <= rs_rto s' <= 60000)
  /\ (u32 (rs_cwnd s) -> u32 (rs_cwnd s'))
  /\ (ack_ack_seq ack <= rs_last_ack_seq s ->
      rs_cwnd s' = rs_cwnd s /\ rs_srtt s' = rs_srtt s /\ rs_rttvar s' = rs_rttvar s
      /\ rs_rto s' = rs_rto s).
Proof.
  unfold ReliableSession_process_ack. cbv zeta.
  destruct (process_ack_loop_spec clock (ack_ack_seq ack) (rs_last_ack_seq s <? ack_ack_seq ack)
    (rs_retransmit_queue s) s s [] [] (rtt_only_refl s) ltac:(done))
    as (s' & -> & (x & y & z & -> & Hz) & Hsame).
  cbn [app]. destruct (rs_last_ack_seq s <? _) eqn:E; zbool.
  - unfold ReliableSession_on_new_ack.
    destruct (_ <? _); cbn; split_and!; try done; try lia;
      intros; first [apply wrap_fits; lia | ulia].
  - specialize (Hsame eq_refl). apply (f_equal (fun s => (rs_srtt s, rs_rttvar s, rs_rto s))) in Hsame.
    cbn in Hsame. simplify_eq. cbn. split_and!; done.
Qed.

(** The entry after one expired check. *)
Definition bump_entry (now rto_base_ms : Z) (e : RetransmitEntry) : RetransmitEntry :=
  if re_rto_deadline e <=? now then
    e <| re_retry_count := wrap 32 (re_retry_count e + 1) |>
      <| re_rto_deadline :=
           now + from_millis (wrap 64 (rto_base_ms
                   * Z.shiftl 1 (Z.min (wrap 32 (re_retry_count e + 1)) 10))) |>
  else e.

Definition expired (now : Z) (e : RetransmitEntry) : bool := re_rto_deadline e <=? now.
Definition exhausted (now max_retries : Z) (e : RetransmitEntry) : bool :=
  expired now e && (max_retries <? wrap 32 (re_retry_count e + 1)).

Lemma check_rto_loop_spec now base mx q :
  (existsb (exhausted now mx) q = true /\ (check_rto_loop now base mx q).2 = true)
  \/ (existsb (exhausted now mx) q = false
      /\ check_rto_loop now base mx q
         = (map (bump_entry now base) q, map re_seq (filter (fun e => expired now e = true) q), false)).
Proof.
  induction q as [|e q IH]; [by right|].
  cbn [check_rto_loop existsb map].
  assert (Hx : exhausted now mx e = expired now e && (mx <? wrap 32 (re_retry_count e + 1))) by done.
  assert (Hb : bump_entry now base e = if expired now e then bump_entry now base e else e)
    by (unfold bump_entry; fold (expired now e); by destruct (expired now e)).
  rewrite Hx. fold (expired now e).
  destruct (check_rto_loop now base mx q) as [[q' sq] k].
  destruct (expired now e) eqn:E; cbn [andb orb].
  - rewrite filter_cons_True by done. cbn [set_field re_retry_count re_seq map].
    destruct (mx <? _) eqn:E2; cbn [orb]; [by left|].
    destruct IH as [[-> IH]|[-> IH]]; [by left|right]. simplify_eq.
    split; [done|]. unfold bump_entry at 2. fold (expired now e). by rewrite E.
  - rewrite filter_cons_False by congruence. rewrite Hb.
    destruct IH as [[-> IH]|[-> IH]]; [by left|right]. by simplify_eq.
Qed.

(** The bitmap [build_ack_payload] fills, bit by bit. *)
Definition bitmap_bit (bm : bytes) (j : Z) : bool :=
  Z.testbit (nth (Z.to_nat (j / 8)) bm 0) (j mod 8).

Lemma bitmap_set_bit bm i j :
  0 <= i < 8 * Z.of_nat (length bm) -> 0 <= j ->
  bitmap_bit (<[Z.to_nat (i / 8) :=
     Z.lor (nth (Z.to_nat (i / 8)) bm 0) (Z.shiftl 1 (i mod 8))]> bm) j
  = bitmap_bit bm j || (j =? i).
Proof.
  intros Hi Hj. unfold bitmap_bit.
  pose proof (Z.div_mod i 8 ltac:(lia)). pose proof (Z.mod_pos_bound i 8 ltac:(lia)).
  pose proof (Z.div_mod j 8 ltac:(lia)). pose proof (Z.mod_pos_bound j 8 ltac:(lia)).
  rewrite !nth_lookup.
  destruct (decide (j / 8 = i / 8)) as [Heq|Hne].
  - rewrite Heq, list_lookup_insert_eq by lia. cbn [from_option id].
    rewrite Z.lor_spec, Z.shiftl_spec by lia. f_equal.
    destruct (Z.eqb_spec j i) as [->|Hji]; [by rewrite Z.sub_diag|].
    destruct (Z.lt_ge_cases (j mod 8 - i mod 8) 0); [by rewrite Z.testbit_neg_r|].
    apply (Z.bits_above_log2 1); [lia|]. cbn. lia.
  - rewrite list_lookup_insert_ne by lia.
    rewrite (proj2 (Z.eqb_neq j i)) by (intros ->; done). by rewrite orb_false_r.
Qed.

Lemma sack_loop_spec fuel i dedup base bm :
  0 <= i -> length bm = 32%nat -> i + Z.of_nat fuel <= 256 ->
  length (sack_loop fuel i dedup base bm) = 32%nat
  /\ forall j, 0 <= j -> bitmap_bit (sack_loop fuel i dedup base bm) j
     = bitmap_bit bm j
       || ((i <=? j) && (j <? i + Z.of_nat fuel) && DedupWindow_is_seen dedup (wrap 64 (base + j))).
Proof.
  revert i bm. induction fuel as [|fuel IH]; intros i bm Hi Hlen Hle; cbn [sack_loop].
  { split; [done|]. intros j Hj. destruct (i <=? j) eqn:?, (j <? i + _) eqn:?; zbool; cbn;
      rewrite ?orb_false_r; done || lia. }
  cbv zeta. set (bm' := if DedupWindow_is_seen dedup (wrap 64 (base + i)) then _ else bm).
  destruct (IH (i + 1) bm') as [Hl Hb]; [lia| |lia|].
  { subst bm'. case_match; [by rewrite length_insert|done]. }
  split; [done|]. intros j Hj. rewrite Hb by done.
  assert (Hbm : bitmap_bit bm' j
    = bitmap_bit bm j || ((j =? i) && DedupWindow_is_seen dedup (wrap 64 (base + i)))).
  { subst bm'. destruct (DedupWindow_is_seen _ _).
    - rewrite andb_true_r. apply bitmap_set_bit; [rewrite Hlen; lia|done].
    - by rewrite andb_false_r, orb_false_r. }
  rewrite Hbm, <- orb_assoc. f_equal.
  destruct (Z.eqb_spec j i) as [->|Hne].
  - rewrite (proj2 (Z.leb_gt (i + 1) i)), (proj2 (Z.leb_le i i)), !(proj2 (Z.ltb_lt i _)) by lia.
    cbn [andb orb]. by rewrite orb_false_r.
  - cbn [andb orb]. f_equal. f_equal.
    + destruct (i + 1 <=? j) eqn:?, (i <=? j) eqn:?; zbool; done || lia.
    + f_equal. lia.
Qed.

(** ** Stamping a frame

    [assign_seq] patches bytes; on an encoded frame this is the encoding of the
    header with the sequence number set and ACK_REQ added. *)

Lemma patch_app (a b b' c : bytes) n :
  length a = n -> length b = length b' -> patch (a ++ b ++ c) n b' = a ++ b' ++ c.
Proof.
  intros <- Hb. unfold patch. rewrite take_app_length. f_equal. f_equal.
  by rewrite app_assoc, drop_app_length' by (rewrite length_app; lia).
Qed.

Definition stamped_header (seq : Z) (h : FrameHeader) : FrameHeader :=
  mkFrameHeader (fh_magic h) (fh_version h) (fh_frame_type h)
    (Z.lor (fh_flags h) FrameFlags_ACK_REQ) (fh_src_node h) (fh_dst_node h) (fh_reserved h)
    seq (fh_payload_len h) (fh_header_crc h).

Lemma stamp_encode_frame seq h ext payload :
  header_wf h ->
  stamp_frame seq (encode_frame h ext payload) = encode_frame (stamped_header seq h) ext payload.
Proof.
  intros (_ & _ & Hf & _). pose proof (flags_ok_fits 7 _ ltac:(done) Hf) as Hfit.
  unfold encode_frame. set (tail := match ext with Some e => _ | None => _ end ++ payload).
  set (pre := be_bytes 4 (fh_magic h) ++ be_bytes 1 (fh_version h) ++ be_bytes 1 (as_u8 (fh_frame_type h))).
  set (mid := be_bytes 2 (fh_src_node h) ++ be_bytes 2 (fh_dst_node h) ++ be_bytes 4 (fh_reserved h)).
  set (post := be_bytes 4 (fh_payload_len h) ++ be_bytes 4 (fh_header_crc h) ++ tail).
  assert (Hshape : forall fl sq, encode_header (mkFrameHeader (fh_magic h) (fh_version h)
    (fh_frame_type h) fl (fh_src_node h) (fh_dst_node h) (fh_reserved h) sq (fh_payload_len h)
    (fh_header_crc h)) ++ tail = pre ++ be_bytes 2 fl ++ mid ++ be_bytes 8 sq ++ post).
  { intros. unfold encode_header, pre, mid, post. cbn [fh_magic fh_version fh_frame_type fh_flags
      fh_src_node fh_dst_node fh_reserved fh_stream_seq fh_payload_len fh_header_crc].
    by rewrite <- !app_assoc. }
  assert (Hpre : length pre = 6%nat) by (unfold pre; by rewrite !length_app, !length_be_bytes).
  assert (Hmid : length mid = 8%nat) by (unfold mid; by rewrite !length_app, !length_be_bytes).
  unfold stamped_header. rewrite Hshape.
  pose proof (Hshape (fh_flags h) (fh_stream_seq h)) as Hh.
  assert (encode_header h ++ tail = pre ++ be_bytes 2 (fh_flags h) ++ mid
            ++ be_bytes 8 (fh_stream_seq h) ++ post) as -> by (rewrite <- Hh; by destruct h).
  clear Hshape Hh. unfold stamp_frame.
  rewrite (proj2 (Nat.leb_le 24 _)) by (rewrite !length_app, !length_be_bytes; lia).
  replace (pre ++ be_bytes 2 (fh_flags h) ++ mid ++ be_bytes 8 (fh_stream_seq h) ++ post)
    with ((pre ++ be_bytes 2 (fh_flags h) ++ mid) ++ be_bytes 8 (fh_stream_seq h) ++ post)
    by (by rewrite <- !app_assoc).
  rewrite patch_app by (rewrite ?length_app, ?length_be_bytes; lia).
  rewrite (proj2 (Nat.leb_le 8 _)) by (rewrite !length_app, !length_be_bytes; lia).
  rewrite <- !app_assoc.
  assert (Hnth : forall i, (i < 2)%nat -> nth (6 + i) (pre ++ be_bytes 2 (fh_flags h) ++ mid
            ++ be_bytes 8 seq ++ post) 0 = nth i (be_bytes 2 (fh_flags h)) 0).
  { intros i Hi. rewrite app_nth2 by lia. rewrite Hpre.
    replace (6 + i - 6)%nat with i by lia. apply app_nth1. by rewrite length_be_bytes. }
  pose proof (Hnth 0%nat ltac:(lia)) as H6. pose proof (Hnth 1%nat ltac:(lia)) as H7.
  cbn [Nat.add] in H6, H7. rewrite H6, H7.
  change [nth 0 (be_bytes 2 (fh_flags h)) 0; nth 1 (be_bytes 2 (fh_flags h)) 0]
    with (be_bytes 2 (fh_flags h)).
  rewrite be_value_be_bytes by (unfold fits in *; lia).
  by rewrite patch_app by (rewrite ?length_be_bytes; lia).
Qed.

Lemma stamped_header_wf seq h : header_wf h -> u64 seq -> header_wf (stamped_header seq h).
Proof.
  intros (? & ? & [Hf0 Hf] & ? & ? & ? & ? & ? & ?) Hs. unfold header_wf. cbn.
  split_and!; try done; try apply Hs. split; [by apply Z.lor_nonneg|].
  rewrite Z.land_lor_distr_l, Hf. done.
Qed.

(** ** The session as a state machine *)

(** A call on the session, with the clock readings it takes. *)
Inductive SessionOp : Type :=
| Op_assign_seq (t1 t2 : Z) (frame : bytes) (is_fire_and_forget : bool) (opaque : Z)
| Op_process_ack (clock : Z -> Z) (ack : AckPayload)
| Op_complete_request (opaque : Z)
| Op_receive_frame (seq : Z)
| Op_mark_executed (seq : Z)
| Op_add_credits (credits : Z)
| Op_consume_credit
| Op_update_rtt (sample_ms : f64)
| Op_on_new_ack
| Op_on_loss
| Op_fast_retransmit (ack : AckPayload)
| Op_kill
| Op_build_ack (has_gap : bool)
| Op_check_rto (now : Z).

(** The next state, and the arrival it recorded if it was one. *)
Definition session_step (s : ReliableSession) (op : SessionOp)
  : ReliableSession * option (Z * ReceiveAction) :=
  match op with
  | Op_assign_seq t1 t2 frame ff opaque =>
    ((ReliableSession_assign_seq s t1 t2 frame ff opaque).1.1, None)
  | Op_process_ack clock ack => ((ReliableSession_process_ack s clock ack).1, None)
  | Op_complete_request opaque => ((ReliableSession_complete_request s opaque).1, None)
  | Op_receive_frame seq =>
    let '(s', act) := ReliableSession_receive_frame s seq in (s', Some (seq, act))
  | Op_mark_executed seq => (ReliableSession_mark_executed s seq, None)
  | Op_add_credits credits => (ReliableSession_add_credits s credits, None)
  | Op_consume_credit =>
    (match ReliableSession_consume_credit s with Ok s' => s' | _ => s end, None)
  | Op_update_rtt x => (ReliableSession_update_rtt s x, None)
  | Op_on_new_ack => (ReliableSession_on_new_ack s, None)
  | Op_on_loss => (ReliableSession_on_loss s, None)
  | Op_fast_retransmit ack => ((ReliableSession_process_ack_for_fast_retransmit s ack).1, None)
  | Op_kill => ((ReliableSession_kill s).1, None)
  | Op_build_ack gap => ((ReliableSession_build_ack_payload s gap).1, None)
  | Op_check_rto now => ((ReliableSession_check_rto s now).1, None)
  end.

Fixpoint session_run (s : ReliableSession) (ops : list SessionOp)
  : ReliableSession * list (Z * ReceiveAction) :=
  match ops with
  | [] => (s, [])
  | op :: ops =>
    let '(s1, ev) := session_step s op in
    let '(s2, evs) := session_run s1 ops in
    (s2, match ev with Some e => e :: evs | None => evs end)
  end.

(** Arguments within their types. *)
Definition op_ok (op : SessionOp) : Prop :=
  match op with
  | Op_process_ack _ ack | Op_fast_retransmit ack =>
    u64 (ack_ack_seq ack) /\ u32 (ack_credit_grant ack)
  | Op_receive_frame seq => 1 <= seq < 2 ^ 64
  | Op_add_credits credits => u32 credits
  | _ => True
  end.

Definition entry_ok (next_seq max_retries : Z) (e : RetransmitEntry) : Prop :=
  1 <= re_seq e < next_seq /\ 0 <= re_retry_count e <= max_retries.

Definition seq_lt (a b : RetransmitEntry) : Prop := re_seq a < re_seq b.

Record session_ok (s : ReliableSession) : Prop := {
  so_next : 1 <= rs_next_seq s < 2 ^ 64;
  so_retries : 0 <= rs_max_retries s < 2 ^ 32 - 1;
  so_entries : Forall (entry_ok (rs_next_seq s) (rs_max_retries s)) (rs_retransmit_queue s);
  so_sorted : StronglySorted seq_lt (rs_retransmit_queue s);
  so_credits : u32 (rs_available_credits s);
  so_cwnd : u32 (rs_cwnd s);
  so_rto : 200 <= rs_rto s <= 60000;
  so_dedup : dw_inv (rs_dedup s);
  so_first : 1 <= dw_next_expected (rs_dedup s);
  so_records : (length (rs_execution_records s) <= 1024)%nat;
}.

Lemma session_new_ok l r e rto mx credits :
  0 <= mx < 2 ^ 32 - 1 -> u32 credits -> session_ok (ReliableSession_new l r e rto mx credits).
Proof.
  intros. constructor; cbn [ReliableSession_new rs_next_seq rs_max_retries rs_retransmit_queue
    rs_available_credits rs_cwnd rs_rto rs_dedup rs_execution_records length]; try done; try lia.
  - constructor.
  - by apply DedupWindow_new_inv.
Qed.

Lemma remove_first_spec {A} p (l : list A) :
  match remove_first p l with
  | Some l' => exists pre e post, l = pre ++ e :: post /\ l' = pre ++ post /\ p e = true
  | None => forall e, e ∈ l -> p e = false
  end.
Proof.
  induction l as [|x l IH]; cbn; [by intros ? ?%elem_of_nil|].
  destruct (p x) eqn:Ep; [by exists [], x, l|]. destruct (remove_first p l) as [l'|]; cbn.
  - destruct IH as (pre & e & post & -> & -> & ?). by exists (x :: pre), e, post.
  - intros e [->|He]%elem_of_cons; auto.
Qed.

Lemma remove_first_sublist {A} p (l l' : list A) : remove_first p l = Some l' -> sublist l' l.
Proof.
  intros H. pose proof (remove_first_spec p l) as Hs. rewrite H in Hs.
  destruct Hs as (pre & e & post & -> & -> & _). apply sublist_app; [done|by apply sublist_cons].
Qed.

Lemma set_executed_length seq r r' : set_executed seq r = Some r' -> length r' = length r.
Proof.
  revert r'. induction r as [|[q x] r IH]; intros r' H; cbn in H; [done|].
  destruct (q =? seq); simplify_eq/=; [done|].
  destruct (set_executed seq r); simplify_eq/=. by rewrite (IH _ eq_refl).
Qed.

Lemma bump_entry_seq now base e : re_seq (bump_entry now base e) = re_seq e.
Proof. unfold bump_entry. by case_match. Qed.

Lemma check_rto_ok s now : session_ok s -> session_ok (ReliableSession_check_rto s now).1.
Proof.
  intros Hs. unfold ReliableSession_check_rto. case_decide; [done|].
  destruct (check_rto_loop_spec now (rs_rto_base_ms s) (rs_max_retries s) (rs_retransmit_queue s))
    as [[_ Hk]|[Hx ->]].
  - destruct (check_rto_loop _ _ _ _) as [[q sq] k]. cbn in Hk. subst k.
    destruct Hs. constructor; cbn; try done; constructor.
  - assert (Hent : Forall (entry_ok (rs_next_seq s) (rs_max_retries s))
              (map (bump_entry now (rs_rto_base_ms s)) (rs_retransmit_queue s))).
    { apply Forall_forall. intros e' (e & -> & He)%list_elem_of_fmap.
      destruct Hs as [_ Hmx Hents _ _ _ _ _ _ _].
      eapply Forall_forall in Hents as [Hq Hr]; [|done].
      split; [by rewrite bump_entry_seq|]. unfold bump_entry.
      destruct (re_rto_deadline e <=? now) eqn:E; [|done]. cbn.
      destruct (decide (exhausted now (rs_max_retries s) e = true)) as [Hex|Hex].
      { rewrite (proj2 (existsb_exists _ _)) in Hx; [done|].
        exists e. split; [by apply list_elem_of_In|done]. }
      unfold exhausted, expired in Hex. rewrite E in Hex. cbn [andb] in Hex.
      apply not_true_is_false in Hex. zbool. split; [|done].
      apply (wrap_fits 32). lia. }
    assert (Hsort : StronglySorted seq_lt
              (map (bump_entry now (rs_rto_base_ms s)) (rs_retransmit_queue s))).
    { destruct Hs as [_ _ _ Hsorted _ _ _ _ _ _]. clear -Hsorted.
      induction Hsorted as [|e q _ IH He]; cbn; [constructor|]. constructor; [done|].
      apply Forall_fmap. eapply Forall_impl; [done|]. intros e' Hlt.
      unfold seq_lt. cbn. by rewrite !bump_entry_seq. }
    destruct Hs. destruct (map re_seq _); [constructor; done|].
    unfold ReliableSession_on_loss. cbv zeta.
    case_match; constructor; cbn; try done; ulia.
Qed.

Lemma receive_frame_dedup s seq :
  rs_dedup (ReliableSession_receive_frame s seq).1
  = if (ReliableSession_receive_frame s seq).2 is (ReceiveAction_Deliver | ReceiveAction_OutOfOrder)
    then DedupWindow_mark_and_advance (rs_dedup s) seq else rs_dedup s.
Proof. unfold ReliableSession_receive_frame. cbn. by destruct (DedupWindow_check _ _). Qed.

(** Only arrivals move the window. *)
Lemma session_step_dedup s op :
  match op with
  | Op_receive_frame seq =>
    rs_dedup (session_step s op).1 = DedupWindow_mark_and_advance (rs_dedup s) seq
    \/ rs_dedup (session_step s op).1 = rs_dedup s
  | _ => rs_dedup (session_step s op).1 = rs_dedup s /\ (session_step s op).2 = None
  end.
Proof.
  destruct op as [| clock ack | | seq | sq | | | | | | ack | | | now ]; cbn [session_step fst snd];
    try (split; [|done]); try done.
  - pose proof (process_ack_spec s clock ack) as H.
    destruct (ReliableSession_process_ack s clock ack). cbn. by destruct_and! H.
  - unfold ReliableSession_complete_request. by case_match.
  - pose proof (receive_frame_dedup s seq) as H.
    destruct (ReliableSession_receive_frame s seq) as [s' []]; cbn in *; auto.
  - unfold ReliableSession_mark_executed. by case_match.
  - unfold ReliableSession_consume_credit. by destruct (_ =? 0).
  - unfold ReliableSession_on_new_ack. by case_match.
  - unfold ReliableSession_on_loss. cbv zeta. by case_match.
  - unfold ReliableSession_process_ack_for_fast_retransmit. cbv zeta. by repeat case_match.
  - unfold ReliableSession_check_rto. case_decide; [done|].
    destruct (check_rto_loop _ _ _ _) as [[q sq] []]; [done|].
    destruct sq; [done|]. unfold ReliableSession_on_loss. cbv zeta. by case_match.
Qed.

Lemma entry_ok_mono n n' mx e : n <= n' -> entry_ok n mx e -> entry_ok n' mx e.
Proof. unfold entry_ok. lia. Qed.

Lemma session_step_ok s op :
  session_ok s -> op_ok op -> rs_next_seq s + 1 < 2 ^ 64 ->
  dw_next_expected (rs_dedup s) + 1024 < 2 ^ 64 ->
  session_ok (session_step s op).1
  /\ rs_next_seq (session_step s op).1 <= rs_next_seq s + 1
  /\ dw_next_expected (rs_dedup (session_step s op).1) <= dw_next_expected (rs_dedup s) + 1024.
Proof.
  intros Hs Hop Hn Hd.
  assert (Hdd : dw_inv (rs_dedup (session_step s op).1)
     /\ dw_next_expected (rs_dedup s) <= dw_next_expected (rs_dedup (session_step s op).1)
        <= dw_next_expected (rs_dedup s) + 1024).
  { pose proof (session_step_dedup s op) as H. pose proof (so_dedup _ Hs).
    destruct op; try (destruct H as [-> _]; split; [done|lia]).
    destruct H as [-> | ->]; [|split; [done|lia]].
    destruct (mark_and_advance_spec (rs_dedup s) seq) as (? & _ & ? & _); done. }
  destruct Hdd as [Hd1 Hd2]. pose proof (so_first _ Hs). pose proof (so_next _ Hs).
  destruct op as [t1 t2 fr ff op | clock ack | op | seq | sq | cr | | x | | | ack | | gap | now ];
    cbn [session_step fst] in *.
  - split; [|cbn; rewrite wrap_small by ulia; lia]. destruct Hs.
    constructor; cbn; rewrite ?wrap_small by ulia; try done; [lia| |].
    + apply Forall_app. split; [eapply Forall_impl; [done|]; intros ??; eapply entry_ok_mono; [|done]; lia|].
      constructor; [|done]. split; cbn; lia.
    + apply StronglySorted_snoc; [done|]. eapply Forall_impl; [done|].
      intros e [He _]. unfold seq_lt. cbn. lia.
  - pose proof (process_ack_spec s clock ack) as Hspec.
    destruct (ReliableSession_process_ack s clock ack) as [s' r]. cbn in *.
    destruct Hspec as (_ & Hq & Hc & Hst & Hns & Hdp & _ & Hmx & _ & Hrec & _ & _ & _ & _ & Hrto & Hcw & _).
    split; [|rewrite Hns, ?Hdp; lia]. destruct Hs, Hop.
    constructor; rewrite ?Hq, ?Hc, ?Hns, ?Hdp, ?Hmx, ?Hrec; try done; try auto; [| |ulia].
    + eapply Forall_sublist; [apply sublist_filter|done].
    + by apply StronglySorted_filter.
  - unfold ReliableSession_complete_request in *. destruct (remove_first _ _) as [q|] eqn:Hr; [|split; [done|cbn; lia]].
    apply remove_first_sublist in Hr. split; [|cbn; lia].
    destruct Hs; constructor; cbn; try done; [by eapply Forall_sublist|by eapply StronglySorted_sublist].
  - assert (rs_next_seq (let '(s', act) := ReliableSession_receive_frame s seq in
                         (s', Some (seq, act))).1 = rs_next_seq s)
      by (unfold ReliableSession_receive_frame; cbv zeta; by destruct (DedupWindow_check _ _)).
    split; [|lia]. revert Hd1 Hd2. unfold ReliableSession_receive_frame. cbv zeta.
    destruct (DedupWindow_check _ _); cbn; intros; destruct Hs; constructor; cbn; done || lia.
  - unfold ReliableSession_mark_executed in *.
    destruct (set_executed _ _) as [r|] eqn:Hr; (split; [|cbn; lia]);
      destruct Hs; constructor; cbn; try done.
    + by rewrite (set_executed_length _ _ _ Hr).
    + rewrite length_drop, length_app. cbn. lia.
  - split; [|cbn; lia]. destruct Hs; constructor; cbn; try done. cbn in Hop. ulia.
  - unfold ReliableSession_consume_credit in *. destruct (_ =? 0); (split; [|cbn; lia]); [done|].
    destruct Hs; constructor; cbn; try done. apply wrap_fits. lia.
  - split; [|cbn; lia]. destruct Hs; constructor; cbn; try done. lia.
  - unfold ReliableSession_on_new_ack in *. destruct (_ <? _); (split; [|cbn; lia]);
      destruct Hs; constructor; cbn; try done; [ulia|apply wrap_fits; lia].
  - unfold ReliableSession_on_loss in *. cbv zeta in *. destruct (_ <? _); (split; [|cbn; lia]);
      destruct Hs; constructor; cbn; done || ulia.
  - unfold ReliableSession_process_ack_for_fast_retransmit in *. cbv zeta in *.
    repeat case_match; (split; [|cbn; lia]); destruct Hs; constructor; cbn; done.
  - split; [|cbn; lia]. destruct Hs; constructor; cbn; try done; constructor.
  - split; [|cbn; lia]. destruct Hs; constructor; cbn; done.
  - split; [by apply check_rto_ok|]. split; [|lia].
    unfold ReliableSession_check_rto. case_decide; [cbn; lia|].
    destruct (check_rto_loop _ _ _ _) as [[q sq] []]; [cbn; lia|].
    destruct sq; [cbn; lia|]. unfold ReliableSession_on_loss. cbv zeta. case_match; cbn; lia.
Qed.

(** ** Runs *)

Lemma session_run_cons s op ops :
  session_run s (op :: ops)
  = ((session_run (session_step s op).1 ops).1,
     match (session_step s op).2 with
     | Some e => e :: (session_run (session_step s op).1 ops).2
     | None => (session_run (session_step s op).1 ops).2
     end).
Proof.
  cbn [session_run]. destruct (session_step s op) as [s1 ev]. cbn [fst snd].
  by destruct (session_run s1 ops).
Qed.

(** [n] calls cannot exhaust the sequence numbers. *)
Definition room_for (n : nat) (s : ReliableSession) : Prop :=
  rs_next_seq s + Z.of_nat n < 2 ^ 64
  /\ dw_next_expected (rs_dedup s) + 1024 * Z.of_nat n < 2 ^ 64.

Lemma room_for_step s op n :
  session_ok s -> op_ok op -> room_for (S n) s ->
  session_ok (session_step s op).1 /\ room_for n (session_step s op).1.
Proof.
  intros Hs Hop [Hn Hd].
  destruct (session_step_ok s op Hs Hop) as (? & ? & ?); [lia|lia|].
  split; [done|]. split; lia.
Qed.

Lemma session_run_ok ops s :
  session_ok s -> Forall op_ok ops -> room_for (length ops) s -> session_ok (session_run s ops).1.
Proof.
  revert s. induction ops as [|op ops IH]; intros s Hs Hops Hroom; [done|].
  apply Forall_cons in Hops as [Hop Hops]. rewrite session_run_cons. cbn [fst].
  destruct (room_for_step s op (length ops) Hs Hop Hroom). by apply IH.
Qed.

(** The arrivals the session took in, delivered or buffered by the window. *)
Definition accepted (a : ReceiveAction) : bool :=
  match a with
  | ReceiveAction_Deliver | ReceiveAction_OutOfOrder => true
  | ReceiveAction_Duplicate | ReceiveAction_BeyondWindow => false
  end.

Definition accepted_seqs (evs : list (Z * ReceiveAction)) : list Z :=
  map fst (filter (fun e => accepted e.2 = true) evs).

Definition delivered_seqs (evs : list (Z * ReceiveAction)) : list Z :=
  map fst (filter (fun e => e.2 = ReceiveAction_Deliver) evs).

Lemma receive_frame_spec s seq :
  session_ok s -> 1 <= seq < 2 ^ 64 -> dw_next_expected (rs_dedup s) + 1024 < 2 ^ 64 ->
  let '(s', act) := ReliableSession_receive_frame s seq in
  (act = ReceiveAction_Duplicate <-> DedupWindow_is_seen (rs_dedup s) seq = true)
  /\ (act = ReceiveAction_Deliver -> seq = dw_next_expected (rs_dedup s))
  /\ (act = ReceiveAction_Deliver -> dw_next_expected (rs_dedup s) < dw_next_expected (rs_dedup s'))
  /\ dw_next_expected (rs_dedup s) <= dw_next_expected (rs_dedup s')
  /\ forall q, 0 <= q -> DedupWindow_is_seen (rs_dedup s') q
       = DedupWindow_is_seen (rs_dedup s) q || ((q =? seq) && accepted act).
Proof.
  intros Hs Hseq Hroom. pose proof (so_dedup _ Hs) as Hinv. pose proof (so_first _ Hs).
  destruct (mark_and_advance_spec (rs_dedup s) seq Hinv Hroom) as (Hinv' & _ & Hn & Hm).
  unfold ReliableSession_receive_frame. cbv zeta. cbn [set_field rs_dedup].
  rewrite check_seen by (done || lia).
  destruct (DedupWindow_is_seen (rs_dedup s) seq) eqn:Eseen.
  { cbn [rs_dedup accepted]. split_and!; try done. intros q Hq. by rewrite andb_false_r, orb_false_r. }
  destruct (seq =? dw_next_expected (rs_dedup s)) eqn:Eeq; zbool.
  { cbn [rs_dedup accepted]. split_and!; try done; try lia.
    - intros _. destruct (Z.eq_dec (dw_next_expected (rs_dedup s))
        (dw_next_expected (DedupWindow_mark_and_advance (rs_dedup s) seq))) as [E|]; [|lia].
      pose proof (is_seen_next _ Hinv') as Hnext. rewrite <- E, Hm in Hnext by lia.
      rewrite (proj2 (Z.eqb_eq _ seq)), (proj2 (Z.ltb_lt _ _)) in Hnext
        by (destruct Hinv as [[] _]; lia). by rewrite orb_true_r in Hnext.
    - intros q Hq. rewrite Hm by done. rewrite (proj2 (Z.ltb_lt seq _)) by (destruct Hinv as [[] _]; lia).
      done. }
  destruct (_ <=? seq) eqn:Ewin; zbool; cbn [rs_dedup accepted]; split_and!; try done; try lia;
    intros q Hq.
  - by rewrite andb_false_r, orb_false_r.
  - rewrite Hm by done. by rewrite (proj2 (Z.ltb_lt seq _)) by lia.
Qed.

Lemma session_run_events ops s :
  Forall op_ok ops -> Forall (fun e => 1 <= e.1) (session_run s ops).2.
Proof.
  revert s. induction ops as [|op ops IH]; intros s Hops; [constructor|].
  apply Forall_cons in Hops as [Hop Hops]. rewrite session_run_cons. cbn [snd].
  destruct op; try apply IH, Hops. cbn [session_step].
  destruct (ReliableSession_receive_frame s seq) as [s1 act]. cbn [snd fst].
  constructor; [cbn in *; lia|by apply IH].
Qed.

Lemma accepted_seqs_pos evs :
  Forall (fun e => 1 <= e.1) evs -> Forall (fun q => 1 <= q) (accepted_seqs evs).
Proof.
  intros H. apply Forall_fmap. eapply Forall_sublist; [apply sublist_filter|]. exact H.
Qed.

Lemma accepted_seqs_cons q act evs :
  accepted_seqs ((q, act) :: evs)
  = if accepted act then q :: accepted_seqs evs else accepted_seqs evs.
Proof.
  unfold accepted_seqs. destruct (accepted act) eqn:E.
  - by rewrite filter_cons_True.
  - by rewrite filter_cons_False by (cbn; congruence).
Qed.

Lemma delivered_seqs_cons q act evs :
  delivered_seqs ((q, act) :: evs)
  = if decide (act = ReceiveAction_Deliver) then q :: delivered_seqs evs else delivered_seqs evs.
Proof. unfold delivered_seqs. rewrite filter_cons. cbn [snd]. by case_decide. Qed.

(** What a run did to the window: [s'] has seen what [s] had seen and what the
    run accepted; nothing was accepted twice; deliveries are in order. *)
Definition run_summary (s s' : ReliableSession) (evs : list (Z * ReceiveAction)) : Prop :=
  dw_next_expected (rs_dedup s) <= dw_next_expected (rs_dedup s')
  /\ (forall q, 1 <= q -> DedupWindow_is_seen (rs_dedup s') q = true
        <-> DedupWindow_is_seen (rs_dedup s) q = true \/ q ∈ accepted_seqs evs)
  /\ (StronglySorted Z.lt (delivered_seqs evs)
      /\ Forall (fun q => dw_next_expected (rs_dedup s) <= q) (delivered_seqs evs))
  /\ NoDup (accepted_seqs evs)
  /\ Forall (fun q => DedupWindow_is_seen (rs_dedup s) q = false) (accepted_seqs evs)
  /\ forall pre q act post, evs = pre ++ (q, act) :: post ->
       act = ReceiveAction_Duplicate
       <-> DedupWindow_is_seen (rs_dedup s) q = true \/ q ∈ accepted_seqs pre.

Lemma run_summary_nil s : run_summary s s [].
Proof.
  split; [lia|]. split; [intros; rewrite elem_of_nil; tauto|]. split; [split; constructor|].
  split; [constructor|]. split; [constructor|]. by intros [].
Qed.

Lemma run_summary_cons s s1 s2 seq act evs :
  session_ok s -> 1 <= seq < 2 ^ 64 -> dw_next_expected (rs_dedup s) + 1024 < 2 ^ 64 ->
  ReliableSession_receive_frame s seq = (s1, act) ->
  Forall (fun e => 1 <= e.1) evs -> run_summary s1 s2 evs ->
  run_summary s s2 ((seq, act) :: evs).
Proof.
  intros Hs Hseq Hroom Hrecv Hpos (IHn & IHseen & [IHsort IHge] & IHnd & IHfresh & IHdup).
  pose proof (receive_frame_spec s seq Hs Hseq Hroom) as H. rewrite Hrecv in H.
  destruct H as (Hdup & Hdel & Hdel' & Hmono & Hseen).
  pose proof (accepted_seqs_pos _ Hpos) as Hapos.
  assert (Hin : forall q, q ∈ accepted_seqs evs ->
            1 <= q /\ DedupWindow_is_seen (rs_dedup s) q = false /\ (accepted act = true -> q <> seq)).
  { intros q Hq. rewrite Forall_forall in Hapos, IHfresh. specialize (Hapos q Hq).
    specialize (IHfresh q Hq). cbn in *. rewrite Hseen in IHfresh by lia. zbool.
    split_and!; [done|done|]. intros Ha ->. rewrite Ha, Z.eqb_refl in *. intuition discriminate. }
  assert (Hfresh : accepted act = true -> DedupWindow_is_seen (rs_dedup s) seq = false).
  { intros Ha. apply not_true_is_false. intros ?%Hdup. by subst act. }
  split; [lia|]. rewrite accepted_seqs_cons, delivered_seqs_cons.
  split; [|split; [|split; [|split]]].
  - intros q Hq. rewrite IHseen, Hseen by lia. rewrite orb_true_iff, andb_true_iff, Z.eqb_eq.
    destruct (accepted act); rewrite ?elem_of_cons; intuition discriminate.
  - assert (Hge : Forall (fun q => dw_next_expected (rs_dedup s) <= q) (delivered_seqs evs))
      by (eapply Forall_impl; [exact IHge|]; intros; cbn in *; lia).
    case_decide as Ea; [|done]. specialize (Hdel Ea). specialize (Hdel' Ea).
    split; constructor; try done; [|lia]. eapply Forall_impl; [exact IHge|]. intros; cbn in *; lia.
  - destruct (accepted act); [|done]. constructor; [|done]. intros Hq.
    by destruct (Hin seq Hq) as (_ & _ & Hne); destruct Hne.
  - assert (Forall (fun q => DedupWindow_is_seen (rs_dedup s) q = false) (accepted_seqs evs))
      by (apply Forall_forall; intros q Hq; apply (Hin q Hq)).
    destruct (accepted act); [|done]. constructor; auto.
  - intros [|[q0 a0] pre] q a post [= ]; subst.
    + rewrite Hdup. cbn. rewrite elem_of_nil. tauto.
    + rewrite (IHdup pre q a post eq_refl), accepted_seqs_cons.
      assert (1 <= q) by (by apply Forall_app in Hpos as [_ [? _]%Forall_cons]).
      rewrite Hseen by lia. rewrite orb_true_iff, andb_true_iff, Z.eqb_eq.
      destruct (accepted a0); rewrite ?elem_of_cons; intuition discriminate.
Qed.

Lemma session_run_summary ops s :
  session_ok s -> Forall op_ok ops -> room_for (length ops) s ->
  run_summary s (session_run s ops).1 (session_run s ops).2.
Proof.
  revert s. induction ops as [|op ops IH]; intros s Hs Hops Hroom; [apply run_summary_nil|].
  pose proof Hops as [Hop Hops']%Forall_cons. rewrite session_run_cons. cbn [fst snd].
  destruct (room_for_step s op (length ops) Hs Hop Hroom) as [Hs1 Hr1].
  specialize (IH _ Hs1 Hops' Hr1). pose proof (session_step_dedup s op) as Hdd.
  destruct op as [| | |seq| | | | | | | | | |];
    try (destruct Hdd as [Hdd ->]; unfold run_summary in *; rewrite Hdd in IH; exact IH).
  cbn [op_ok] in Hop. destruct Hroom as [_ Hroom]. cbn [length] in Hroom.
  cbn [session_step] in *.
  destruct (ReliableSession_receive_frame s seq) as [s1 act] eqn:Hrecv. cbn [fst snd] in *.
  eapply run_summary_cons; [done|done|lia|done|by apply session_run_events|done].
Qed.

(** ** Timeouts *)

Lemma check_rto_alive s now :
  rs_state s = SessionState_Active ->
  existsb (exhausted now (rs_max_retries s)) (rs_retransmit_queue s) = false ->
  let '(s', seqs) := ReliableSession_check_rto s now in
  rs_state s' = SessionState_Active /\ rs_max_retries s' = rs_max_retries s
  /\ rs_rto_base_ms s' = rs_rto_base_ms s
  /\ rs_retransmit_queue s' = map (bump_entry now (rs_rto_base_ms s)) (rs_retransmit_queue s)
  /\ seqs = map re_seq (filter (fun e => expired now e = true) (rs_retransmit_queue s))
  /\ rs_cwnd s' = match seqs with [] => rs_cwnd s | _ => 1 end.
Proof.
  intros Ha Hx. unfold ReliableSession_check_rto. rewrite decide_False by congruence.
  destruct (check_rto_loop_spec now (rs_rto_base_ms s) (rs_max_retries s) (rs_retransmit_queue s))
    as [[? _]|[_ ->]]; [congruence|].
  destruct (map re_seq _) eqn:E; [done|]. unfold ReliableSession_on_loss. cbv zeta.
  destruct (_ <? 2); done.
Qed.

Lemma check_rto_kills s now :
  rs_state s = SessionState_Active ->
  existsb (exhausted now (rs_max_retries s)) (rs_retransmit_queue s) = true ->
  let '(s', seqs) := ReliableSession_check_rto s now in
  rs_state s' = SessionState_Dead /\ rs_retransmit_queue s' = [] /\ seqs = [].
Proof.
  intros Ha Hx. unfold ReliableSession_check_rto. rewrite decide_False by congruence.
  destruct (check_rto_loop_spec now (rs_rto_base_ms s) (rs_max_retries s) (rs_retransmit_queue s))
    as [[_ Hk]|[? _]]; [|congruence].
  destruct (check_rto_loop _ _ _ _) as [[q sq] k]. cbn in Hk. by subst k.
Qed.

(** The timer fires at the times [nows]. *)
Definition rto_ticks (s : ReliableSession) (nows : list Z) : ReliableSession :=
  foldl (fun s now => (ReliableSession_check_rto s now).1) s nows.

Lemma rto_ticks_dead s nows :
  rs_state s = SessionState_Dead -> rto_ticks s nows = s.
Proof.
  intros Hd. induction nows as [|now nows IH]; [done|]. cbn.
  unfold ReliableSession_check_rto. by rewrite decide_True by congruence.
Qed.

(** Consecutive ticks at least [gap] apart, the first not before [start]. *)
Fixpoint spaced (start gap : Z) (nows : list Z) : Prop :=
  match nows with
  | [] => True
  | now :: nows => start <= now /\ spaced (now + gap) gap nows
  end.

Lemma backoff_bound base k : 0 <= base -> base * 1024 < 2 ^ 64 -> 0 <= k ->
  wrap 64 (base * Z.shiftl 1 (Z.min k 10)) <= base * 1024.
Proof.
  intros Hb Hm Hk. rewrite Z.shiftl_mul_pow2, Z.mul_1_l by lia.
  assert (2 ^ Z.min k 10 <= 2 ^ 10) by (apply Z.pow_le_mono_r; lia). change (2 ^ 10) with 1024 in *.
  pose proof (pow2_pos (Z.min k 10) ltac:(lia)). rewrite wrap_small; [nia|]. unfold fits. nia.
Qed.

Lemma rto_ticks_give_up nows s e start :
  session_ok s -> rs_state s = SessionState_Active ->
  0 <= rs_rto_base_ms s -> rs_rto_base_ms s * 1024 < 2 ^ 64 ->
  e ∈ rs_retransmit_queue s -> re_rto_deadline e <= start ->
  spaced start (from_millis (rs_rto_base_ms s * 1024)) nows ->
  rs_max_retries s < re_retry_count e + Z.of_nat (length nows) ->
  rs_state (rto_ticks s nows) = SessionState_Dead /\ rs_retransmit_queue (rto_ticks s nows) = [].
Proof.
  revert s e start. induction nows as [|now nows IH]; intros s e start Hs Ha Hb Hb' He Hdl Hsp Hlen.
  { cbn in Hlen. pose proof (so_entries _ Hs) as Hent. eapply Forall_forall in Hent as [_ Hr]; [|done].
    cbn in *. lia. }
  cbn [rto_ticks foldl spaced length] in *. destruct Hsp as [Hstart Hsp].
  fold (rto_ticks (ReliableSession_check_rto s now).1 nows).
  pose proof (check_rto_ok s now Hs) as Hs'.
  destruct (existsb (exhausted now (rs_max_retries s)) (rs_retransmit_queue s)) eqn:Ex.
  { pose proof (check_rto_kills s now Ha Ex) as H.
    destruct (ReliableSession_check_rto s now) as [s' sq]. destruct H as (Hd & Hq & _).
    cbn [fst]. by rewrite rto_ticks_dead. }
  pose proof (check_rto_alive s now Ha Ex) as H.
  destruct (ReliableSession_check_rto s now) as [s' sq]. destruct H as (Ha' & Hmx & Hbase & Hq & _ & _).
  cbn [fst] in *. pose proof (so_entries _ Hs) as Hent. eapply Forall_forall in Hent as [_ Hr]; [|done].
  pose proof (so_retries _ Hs).
  assert (Hbump : re_retry_count (bump_entry now (rs_rto_base_ms s) e) = re_retry_count e + 1
    /\ re_rto_deadline (bump_entry now (rs_rto_base_ms s) e)
       <= now + from_millis (rs_rto_base_ms s * 1024)).
  { unfold bump_entry. rewrite (proj2 (Z.leb_le _ _)) by lia. cbn.
    rewrite wrap_small by ulia. split; [done|].
    pose proof (backoff_bound (rs_rto_base_ms s) (re_retry_count e + 1) Hb Hb' ltac:(lia)).
    unfold from_millis. nia. }
  destruct Hbump as [Hb1 Hb2].
  eapply (IH s' (bump_entry now (rs_rto_base_ms s) e)); rewrite ?Hbase, ?Hmx; try done; [|lia].
  rewrite Hq. by apply list_elem_of_fmap_2.
Qed.

(** ** Execution records *)

Lemma set_executed_None seq r : seq ∉ map fst r -> set_executed seq r = None.
Proof.
  induction r as [|[q x] r IH]; cbn; intros Hn; [done|]. apply not_elem_of_cons in Hn as [Hne Hn].
  rewrite (proj2 (Z.eqb_neq q seq)) by congruence. by rewrite IH.
Qed.

Lemma set_executed_keeps seq seq' r r' pre post :
  set_executed seq' r = Some r' -> r = pre ++ (seq, true) :: post ->
  exists pre' post', r' = pre' ++ (seq, true) :: post' /\ length post' = length post.
Proof.
  revert r r'. induction pre as [|[q x] pre IH]; intros r r' Hset ->; cbn in Hset.
  - destruct (seq =? seq') eqn:E; simplify_eq/=; [by exists [], post|].
    destruct (set_executed seq' post) as [post'|] eqn:Ep; simplify_eq/=.
    exists [], post'. split; [done|]. by eapply set_executed_length.
  - destruct (q =? seq') eqn:E; simplify_eq/=; [by exists ((q, true) :: pre), post|].
    destruct (set_executed seq' _) as [r1|] eqn:Ep; simplify_eq/=.
    destruct (IH _ _ Ep eq_refl) as (pre' & post' & -> & ?). by exists ((q, x) :: pre'), post'.
Qed.

Lemma marks_keep marks s seq pre post :
  rs_execution_records s = pre ++ (seq, true) :: post ->
  (length post + length marks < 1024)%nat ->
  ReliableSession_is_executed (foldl ReliableSession_mark_executed s marks) seq = true.
Proof.
  revert s pre post. induction marks as [|m marks IH]; intros s pre post Hr Hlen; cbn [foldl length] in *.
  { unfold ReliableSession_is_executed. rewrite Hr, existsb_app. cbn.
    by rewrite Z.eqb_refl, orb_true_r. }
  unfold ReliableSession_mark_executed at 2. destruct (set_executed m _) as [r'|] eqn:Em.
  - destruct (set_executed_keeps _ _ _ _ _ _ Em Hr) as (pre' & post' & Hr' & Hl).
    apply (IH _ pre' post'); [done|lia].
  - assert (Hd : exists pre', drop (length (rs_execution_records s ++ [(m, true)]) - 1024)
       (rs_execution_records s ++ [(m, true)]) = pre' ++ (seq, true) :: post ++ [(m, true)]).
    { rewrite Hr, !length_app. cbn [length].
      exists (drop (length pre + S (length post) + 1 - 1024) pre).
      rewrite <- app_assoc, drop_app_le by lia. done. }
    destruct Hd as [pre' Hd]. apply (IH _ pre' (post ++ [(m, true)])); [done|].
    rewrite length_app. cbn. lia.
Qed.

(** ** Properties *)

(** C31 (invariant): Whatever sequence of calls a session receives, its queue stays strictly
    ordered by sequence number with every number already assigned, retry counts never pass
    [max_retries], the RTO stays between 200 and 60000 ms, credits and window stay within a
    [u32], at most 1024 execution records are kept and the deduplication window keeps its
    invariant. *)
Theorem session_invariant local remote epoch rto_base_ms max_retries credits ops :
  0 <= max_retries < 2 ^ 32 - 1 -> u32 credits -> Forall op_ok ops ->
  Z.of_nat (length ops) < 2 ^ 53 ->
  session_ok
    (session_run (ReliableSession_new local remote epoch rto_base_ms max_retries credits) ops).1.
Proof.
  intros Hm Hc Hops Hlen. apply session_run_ok; [by apply session_new_ok|done|].
  split; cbn [ReliableSession_new rs_next_seq rs_dedup DedupWindow_new dw_next_expected]; lia.
Qed.

Definition sample_ack : AckPayload := mkAckPayload 1 4 0 None.

Lemma session_invariant_witness :
  session_ok
    (session_run (ReliableSession_new 1 2 100 200 8 64)
       [Op_assign_seq 0 0 [] true 0; Op_process_ack (fun _ => 5) sample_ack;
        Op_check_rto (10 ^ 9)]).1.
Proof.
  apply session_invariant; [lia|split; [discriminate|reflexivity]| |reflexivity].
  repeat constructor; discriminate.
Defined.

(** At-most-once, in-order delivery on the receive side. In any run of a session,
    whatever the order, the repetitions and the gaps of the arrivals and whatever other calls
    come between them: the delivered sequence numbers are strictly increasing, no number is
    accepted twice, and an arrival is reported as a duplicate exactly when its number was
    accepted before. *)
Theorem session_at_most_once local remote epoch rto_base_ms max_retries credits ops :
  0 <= max_retries < 2 ^ 32 - 1 -> u32 credits -> Forall op_ok ops ->
  Z.of_nat (length ops) < 2 ^ 53 ->
  let evs := (session_run
    (ReliableSession_new local remote epoch rto_base_ms max_retries credits) ops).2 in
  StronglySorted Z.lt (delivered_seqs evs) /\ NoDup (accepted_seqs evs)
  /\ forall pre q act post, evs = pre ++ (q, act) :: post ->
       act = ReceiveAction_Duplicate <-> q ∈ accepted_seqs pre.
Proof.
  intros Hm Hc Hops Hlen. cbv zeta.
  set (s := ReliableSession_new local remote epoch rto_base_ms max_retries credits).
  destruct (session_run_summary ops s) as (_ & _ & [Hsort _] & Hnd & _ & Hdup);
    [by apply session_new_ok|done|split; cbn [s ReliableSession_new rs_next_seq rs_dedup
       DedupWindow_new dw_next_expected]; lia|].
  split; [done|]. split; [done|]. intros pre q act post Heq.
  rewrite (Hdup _ _ _ _ Heq).
  assert (1 <= q).
  { pose proof (session_run_events ops s Hops) as H. rewrite Heq in H.
    by apply Forall_app in H as [_ [? _]%Forall_cons]. }
  assert (DedupWindow_is_seen (rs_dedup s) q = false) as ->.
  { cbn [s ReliableSession_new rs_dedup].
    rewrite is_seen_bits by (lia || by apply DedupWindow_new_inv). cbn.
    rewrite Z.bits_0, orb_false_r. apply Z.ltb_ge. lia. }
  intuition discriminate.
Qed.

Lemma session_at_most_once_witness :
  delivered_seqs
    (session_run (ReliableSession_new 1 2 100 200 8 64)
       [Op_receive_frame 1; Op_receive_frame 1; Op_receive_frame 3; Op_receive_frame 2]).2 = [1; 2]
  /\ NoDup (accepted_seqs
    (session_run (ReliableSession_new 1 2 100 200 8 64)
       [Op_receive_frame 1; Op_receive_frame 1; Op_receive_frame 3; Op_receive_frame 2]).2).
Proof.
  split; [vm_compute; reflexivity|].
  apply (session_at_most_once 1 2 100 200 8 64
    [Op_receive_frame 1; Op_receive_frame 1; Op_receive_frame 3; Op_receive_frame 2]);
    [lia|split; [discriminate|reflexivity]| |reflexivity].
  repeat constructor; discriminate.
Defined.

(** An ACK tells the truth about the receive side. Its cumulative [ack_seq]
    covers only sequence numbers that were received, the next one was not, it grants exactly
    the credits collected since the last ACK and resets them, and bit [i] of the SACK bitmap is
    set exactly when [ack_seq + 1 + i] was received. *)
Theorem ack_reports_received s :
  session_ok s -> dw_next_expected (rs_dedup s) + 1024 < 2 ^ 64 ->
  let '(s', ack) := ReliableSession_build_ack_payload s true in
  (forall q, 1 <= q <= ack_ack_seq ack -> DedupWindow_is_seen (rs_dedup s) q = true)
  /\ DedupWindow_is_seen (rs_dedup s) (ack_ack_seq ack + 1) = false
  /\ ack_credit_grant ack = rs_credits_to_grant s
  /\ rs_credits_to_grant s' = 0 /\ rs_dedup s' = rs_dedup s
  /\ exists bm, ack_sack_bitmap ack = Some bm /\ length bm = 32%nat
     /\ forall i, 0 <= i < 256 ->
          bitmap_bit bm i = DedupWindow_is_seen (rs_dedup s) (ack_ack_seq ack + 1 + i).
Proof.
  intros Hs Hroom. pose proof (so_dedup _ Hs) as Hinv. pose proof (so_first _ Hs).
  unfold ReliableSession_build_ack_payload. cbv zeta.
  cbn [set_field rs_dedup rs_credits_to_grant ack_ack_seq ack_credit_grant ack_sack_bitmap].
  assert (Hseq : sat_sub (dw_next_expected (rs_dedup s)) 1 = dw_next_expected (rs_dedup s) - 1) by ulia.
  rewrite Hseq, Z.sub_add. split_and!; try done.
  - intros q Hq. rewrite is_seen_bits by (lia || apply Hinv). by rewrite (proj2 (Z.ltb_lt q _)) by lia.
  - by apply is_seen_next.
  - rewrite wrap_small by ulia. eexists. split; [reflexivity|].
    destruct (sack_loop_spec 256 0 (rs_dedup s) (dw_next_expected (rs_dedup s)) (repeat 0 32))
      as [Hl Hb]; [lia|done|cbn; lia|].
    split; [exact Hl|]. intros i Hi. rewrite Hb by lia.
    rewrite (proj2 (Z.leb_le 0 i)), (proj2 (Z.ltb_lt i _)), wrap_small by ulia.
    cbn [andb]. replace (bitmap_bit (repeat 0 32) i) with false; [done|].
    unfold bitmap_bit. rewrite nth_repeat. by rewrite Z.bits_0.
Qed.

Lemma ack_reports_received_witness :
  let s := (session_run (ReliableSession_new 1 2 100 200 8 64)
              [Op_receive_frame 1; Op_receive_frame 3]).1 in
  ack_ack_seq (ReliableSession_build_ack_payload s true).2 = 1
  /\ (let '(s', ack) := ReliableSession_build_ack_payload s true in
      DedupWindow_is_seen (rs_dedup s) (ack_ack_seq ack + 1) = false).
Proof.
  cbv zeta. split; [vm_compute; reflexivity|].
  pose proof (ack_reports_received (session_run (ReliableSession_new 1 2 100 200 8 64)
              [Op_receive_frame 1; Op_receive_frame 3]).1) as H.
  destruct (ReliableSession_build_ack_payload _ true) as [s' ack].
  refine (proj1 (proj2 (H _ _))); [|vm_compute; reflexivity].
  apply session_run_ok; [apply session_new_ok; [lia|split; [discriminate|reflexivity]]|
    repeat constructor; discriminate|split; vm_compute; reflexivity].
Defined.

(** [assign_seq] stamps an encoded frame: what is queued for retransmission and
    handed to the network decodes to the same frame with the next sequence number and ACK_REQ
    set, every other header field, the extension header and the payload unchanged. *)
Theorem assign_seq_stamps s t1 t2 h ext payload ff opaque :
  session_ok s -> header_wf h -> ext_matches h ext ->
  let '(s', frame, seq) :=
    ReliableSession_assign_seq s t1 t2 (encode_frame h ext payload) ff opaque in
  seq = rs_next_seq s
  /\ decode_frame frame = Ok (stamped_header seq h, ext, payload)
  /\ exists e, rs_retransmit_queue s' = rs_retransmit_queue s ++ [e]
     /\ re_frame e = frame /\ re_seq e = seq /\ re_retry_count e = 0
     /\ re_rto_deadline e = t2 + from_millis (rs_rto s).
Proof.
  intros Hs Hh Hext. unfold ReliableSession_assign_seq. cbv zeta. split; [done|].
  rewrite stamp_encode_frame by done. split.
  - apply decode_encode_frame; [|by destruct ext].
    apply stamped_header_wf; [done|]. pose proof (so_next _ Hs). ulia.
  - eexists. split; [reflexivity|]. cbn. done.
Qed.

Lemma assign_seq_stamps_witness :
  let '(s', frame, seq) := ReliableSession_assign_seq (ReliableSession_new 1 2 100 200 8 64) 5 6
    (encode_frame sample_header (Some sample_ext) [1; 2; 3]) true 77 in
  seq = 1 /\ decode_frame frame = Ok (stamped_header 1 sample_header, Some sample_ext, [1; 2; 3]).
Proof.
  pose proof (assign_seq_stamps (ReliableSession_new 1 2 100 200 8 64) 5 6 sample_header
    (Some sample_ext) [1; 2; 3] true 77) as H.
  destruct (ReliableSession_assign_seq _ _ _ _ _ _) as [[s' frame] seq].
  destruct H as (Hseq & Hd & _).
  - apply session_new_ok; [lia|split; [discriminate|reflexivity]].
  - unfold header_wf, flags_ok, fits, sample_header, FrameFlags_HAS_IMM; simpl.
    repeat (lia || reflexivity || done || split).
  - unfold ext_matches, ext_wf, flags_ok, fits, sample_ext, ExtFlags_HAS_IMM; simpl.
    repeat (lia || reflexivity || done || split).
  - change (rs_next_seq (ReliableSession_new 1 2 100 200 8 64)) with 1 in Hseq. subst seq.
    split; [reflexivity|exact Hd].
Defined.

(** An ACK removes exactly the acknowledged fire-and-forget entries from the
    retransmit queue and returns them; request entries and later entries stay, in their order.
    The granted credits are added, saturating. A request entry leaves the queue through
    [complete_request], which takes out one entry of that opaque and reports whether there was
    one. *)
Theorem process_ack_exact s clock ack opaque :
  (let '(s', removed) := ReliableSession_process_ack s clock ack in
   (forall e, e ∈ removed <-> e ∈ rs_retransmit_queue s
      /\ re_is_fire_and_forget e = true /\ re_seq e <= ack_ack_seq ack)
   /\ (forall e, e ∈ rs_retransmit_queue s' <-> e ∈ rs_retransmit_queue s
      /\ (re_is_fire_and_forget e = false \/ ack_ack_seq ack < re_seq e))
   /\ sublist (rs_retransmit_queue s') (rs_retransmit_queue s)
   /\ rs_available_credits s' = Z.min U32_MAX (rs_available_credits s + ack_credit_grant ack))
  /\ (let '(s', found) := ReliableSession_complete_request s opaque in
      if found
      then exists pre e post, rs_retransmit_queue s = pre ++ e :: post
           /\ rs_retransmit_queue s' = pre ++ post
           /\ re_opaque e = opaque /\ re_is_fire_and_forget e = false
      else s' = s /\ forall e, e ∈ rs_retransmit_queue s -> re_opaque e = opaque ->
           re_is_fire_and_forget e = true).
Proof.
  split.
  - pose proof (process_ack_spec s clock ack) as H.
    destruct (ReliableSession_process_ack s clock ack) as [s' removed].
    destruct H as (-> & Hq & Hc & _). split; [|split; [|split]].
    + intros e. rewrite list_elem_of_filter. unfold acked.
      rewrite andb_true_iff, Z.leb_le. tauto.
    + intros e. rewrite Hq, list_elem_of_filter. unfold acked.
      rewrite andb_true_iff, Z.leb_le. destruct (re_is_fire_and_forget e);
        (split; [intros [Hn ?]; split; [done|]|intros [? [?|?]]; split; try done]);
        try (intros [? ?]; lia); try tauto; try lia; try discriminate.
    + rewrite Hq. apply sublist_filter.
    + rewrite Hc. done.
  - unfold ReliableSession_complete_request.
    pose proof (remove_first_spec (fun e => (re_opaque e =? opaque) && negb (re_is_fire_and_forget e))
      (rs_retransmit_queue s)) as Hrf.
    destruct (remove_first _ _) as [q'|]; cbn.
    + destruct Hrf as (pre & e & post & Hq & -> & [? ?]%andb_true_iff). zbool.
      by exists pre, e, post.
    + split; [done|]. intros e He Ho. specialize (Hrf e He). cbn in Hrf.
      rewrite (proj2 (Z.eqb_eq _ _) Ho) in Hrf. cbn in Hrf. by apply negb_false_iff in Hrf.
Qed.

(** C34 (liveness): Retransmission gives up in bounded time. If an entry is still queued and the
    timer keeps firing, no earlier than its deadline and at intervals of at least the longest
    backoff [rto_base_ms * 2^10] (which fits 64 bits), then after at most [max_retries + 1] firings
    (counting those the entry already had) the session is dead, and its queue is empty. *)
Theorem rto_gives_up s e start nows :
  session_ok s -> rs_state s = SessionState_Active ->
  0 <= rs_rto_base_ms s -> rs_rto_base_ms s * 1024 < 2 ^ 64 ->
  e ∈ rs_retransmit_queue s -> re_rto_deadline e <= start ->
  spaced start (from_millis (rs_rto_base_ms s * 1024)) nows ->
  rs_max_retries s < re_retry_count e + Z.of_nat (length nows) ->
  rs_state (rto_ticks s nows) = SessionState_Dead /\ rs_retransmit_queue (rto_ticks s nows) = [].
Proof. apply rto_ticks_give_up. Qed.

Lemma rto_gives_up_witness :
  let s := (ReliableSession_assign_seq (ReliableSession_new 1 2 100 1 2 64) 0 0 [] true 0).1.1 in
  rs_state (rto_ticks s [10 ^ 9; 4 * 10 ^ 9; 8 * 10 ^ 9]) = SessionState_Dead
  /\ rs_retransmit_queue (rto_ticks s [10 ^ 9; 4 * 10 ^ 9; 8 * 10 ^ 9]) = [].
Proof.
  cbv zeta.
  apply (rto_gives_up _ (mkRetransmitEntry 1 [] 0 (from_millis 200) 0 true 0) (10 ^ 9)).
  - apply (session_run_ok [Op_assign_seq 0 0 [] true 0] (ReliableSession_new 1 2 100 1 2 64));
      [apply session_new_ok; [lia|split; [discriminate|reflexivity]]|
       repeat constructor|split; vm_compute; reflexivity].
  - reflexivity.
  - discriminate.
  - reflexivity.
  - left.
  - discriminate.
  - repeat split; discriminate.
  - reflexivity.
Defined.

(** A timer firing resends exactly the entries whose deadline passed. If none of
    them has used up its retries, the returned sequence numbers are those of the expired
    entries in queue order, each expired entry gets one more retry and a deadline doubled per
    retry (at most 2^10 times the base), the others are untouched, and the window collapses
    to 1 if anything expired. If one has, the session is dead, nothing is resent and the queue is
    empty. A dead session never resends. *)
Theorem check_rto_exact s now :
  let '(s', seqs) := ReliableSession_check_rto s now in
  if decide (rs_state s = SessionState_Active) then
    if existsb (exhausted now (rs_max_retries s)) (rs_retransmit_queue s)
    then rs_state s' = SessionState_Dead /\ rs_retransmit_queue s' = [] /\ seqs = []
    else rs_state s' = SessionState_Active
         /\ seqs = map re_seq (filter (fun e => re_rto_deadline e <= now) (rs_retransmit_queue s))
         /\ rs_retransmit_queue s'
            = map (bump_entry now (rs_rto_base_ms s)) (rs_retransmit_queue s)
         /\ rs_cwnd s' = match seqs with [] => rs_cwnd s | _ => 1 end
  else s' = s /\ seqs = [].
Proof.
  case_decide as Ha.
  - destruct (existsb _ _) eqn:Ex; [by apply check_rto_kills|].
    pose proof (check_rto_alive s now Ha Ex) as H.
    destruct (ReliableSession_check_rto s now) as [s' seqs].
    destruct H as (? & _ & _ & ? & -> & ?). split_and!; try done. f_equal.
    apply list_filter_iff. intros e. apply Z.leb_le.
  - unfold ReliableSession_check_rto. by rewrite decide_True.
Qed.

(** A sequence number marked as executed is remembered for the next 1023 marks:
    if it had no record, then after marking it and at most 1023 further numbers (repeated or
    not) [is_executed] still answers true. *)
Theorem executed_remembered s seq marks :
  seq ∉ map fst (rs_execution_records s) -> (length marks <= 1023)%nat ->
  ReliableSession_is_executed
    (foldl ReliableSession_mark_executed (ReliableSession_mark_executed s seq) marks) seq = true.
Proof.
  intros Hn Hlen.
  assert (Hd : exists pre, rs_execution_records (ReliableSession_mark_executed s seq)
                           = pre ++ [(seq, true)]).
  { unfold ReliableSession_mark_executed. rewrite set_executed_None by done. cbn.
    rewrite drop_app_le by (rewrite length_app; cbn; lia). eauto. }
  destruct Hd as [pre Hd]. apply (marks_keep marks _ seq pre []); [done|cbn; lia].
Qed.

Lemma executed_remembered_witness :
  ReliableSession_is_executed
    (foldl ReliableSession_mark_executed
       (ReliableSession_mark_executed (ReliableSession_new 1 2 100 200 8 64) 7) [8; 9; 7]) 7 = true.
Proof.
  apply executed_remembered; [|cbn; lia]. intros H. inversion H.
Defined.
