(* ===== verification/Manager.v ===== *)
(** * Manager: the transport manager

    crates/ub-transport/src/manager.rs. The concurrent maps are finite maps, a
    session behind its mutex is a value of the session map, and a handler runs
    as one step. A peer sender is the bounded channel to the fabric task, the
    inbound channel is the list of the frames sent into it. Counters and log
    lines are left out. *)

From S2P Require Import Prelude Bytes Types Addr Frame Float Dedup ReadCache Session.

(** ** Channels *)

(** A bounded [mpsc] channel: what is queued, and whether the receiver lives. *)
Record Chan : Type := mkChan {
  ch_capacity : Z;
  ch_queue : list bytes;
  ch_open : bool;
}.

#[global] Instance Chan_settable : Settable Chan :=
  fun x => mkChan (ch_capacity x) (ch_queue x) (ch_open x).

(** [try_send]: fails on a full or closed channel. *)
Definition try_send (ch : Chan) (data : bytes) : option Chan :=
  if ch_open ch && (Z.of_nat (length (ch_queue ch)) <? ch_capacity ch)
  then Some (ch <| ch_queue := ch_queue ch ++ [data] |>)
  else None.

(** [send(..).await], once it completed: the receiver made room, or is gone. *)
Definition send_await (ch : Chan) (data : bytes) : Chan :=
  if ch_open ch then ch <| ch_queue := ch_queue ch ++ [data] |> else ch.

(** ** State *)

(** Source: crates/ub-transport/src/manager.rs:23-28, [InboundFrame]. *)
Record InboundFrame : Type := mkInboundFrame {
  if_header : FrameHeader;
  if_ext : DataExtHeader;
  if_payload : bytes;
  if_seq : Z;
}.

(** Source: crates/ub-transport/src/manager.rs:32-43, [TransportManager].
    [tm_rto_ms] and [tm_max_retries] are the fields of [config] it uses. *)
Record TransportManager : Type := mkTransportManager {
  tm_local_node_id : Z;
  tm_sessions : gmap SessionKey ReliableSession;
  tm_peer_senders : gmap Z Chan;
  tm_inbound : list InboundFrame;
  tm_rto_ms : Z;
  tm_max_retries : Z;
  tm_peer_epochs : gmap Z Z;
}.

#[global] Instance TransportManager_settable : Settable TransportManager :=
  fun x => mkTransportManager (tm_local_node_id x) (tm_sessions x) (tm_peer_senders x)
    (tm_inbound x) (tm_rto_ms x) (tm_max_retries x) (tm_peer_epochs x).

(** Source: crates/ub-transport/src/manager.rs:47-64, [TransportManager::new]. *)
Definition TransportManager_new (local_node_id rto_ms max_retries : Z) : TransportManager :=
  mkTransportManager local_node_id ∅ ∅ [] rto_ms max_retries ∅.

(** ** Frame construction *)

(** Source: crates/ub-transport/src/manager.rs:568-597, [build_ack_frame]. *)
Definition build_ack_frame (local_node remote_node : Z) (ack : AckPayload) : bytes :=
  let header :=
    {| fh_magic := MAGIC; fh_version := VERSION; fh_frame_type := FrameType_Ack;
       fh_flags := match ack_sack_bitmap ack with
                   | Some _ => FrameFlags_HAS_SACK
                   | None => 0
                   end;
       fh_src_node := local_node; fh_dst_node := remote_node; fh_reserved := 0;
       fh_stream_seq := 0; fh_payload_len := 0; fh_header_crc := 0 |} in
  let payload :=
    put_u64 (ack_ack_seq ack) ++ put_u32 (ack_credit_grant ack) ++ put_u32 (ack_reserved ack)
    ++ match ack_sack_bitmap ack with Some bitmap => bitmap | None => [] end in
  encode_frame header None payload.

(** Source: crates/ub-transport/src/manager.rs:599-618, [build_credit_frame]. *)
Definition build_credit_frame (local_node remote_node credits : Z) : bytes :=
  let header :=
    {| fh_magic := MAGIC; fh_version := VERSION; fh_frame_type := FrameType_Credit;
       fh_flags := 0; fh_src_node := local_node; fh_dst_node := remote_node; fh_reserved := 0;
       fh_stream_seq := 0; fh_payload_len := 0; fh_header_crc := 0 |} in
  encode_frame header None (put_u32 credits ++ put_u32 0).

(** ** Operations *)

(** The key of the session of a peer at an epoch. *)
Definition session_key (m : TransportManager) (remote_node epoch : Z) : SessionKey :=
  mkSessionKey (tm_local_node_id m) remote_node epoch.

(** The key at the epoch on record, as the API calls look it up. *)
Definition current_key (m : TransportManager) (remote_node : Z) : option SessionKey :=
  session_key m remote_node <$> tm_peer_epochs m !! remote_node.

(** The key the frame handlers use: epoch 0 when none is on record. *)
Definition handler_key (m : TransportManager) (remote_node : Z) : SessionKey :=
  session_key m remote_node (default 0 (tm_peer_epochs m !! remote_node)).

Definition put_session (m : TransportManager) (key : SessionKey) (s : ReliableSession)
  : TransportManager :=
  m <| tm_sessions := <[key := s]> (tm_sessions m) |>.

(** The session of the epoch on record, [if let Some(epoch) .. if let Some(session) ..]. *)
Definition current_session (m : TransportManager) (remote_node : Z)
  : option (SessionKey * ReliableSession) :=
  key ← current_key m remote_node;
  s ← tm_sessions m !! key;
  Some (key, s).

(** Source: crates/ub-transport/src/manager.rs:124-157, [TransportManager::create_session]. *)
Definition TransportManager_create_session (m : TransportManager)
    (remote_node epoch initial_credits : Z) : Result TransportManager :=
  let key := session_key m remote_node epoch in
  match tm_sessions m !! key with
  | Some _ => Err (Internal "session already exists for ")
  | None =>
    let session := ReliableSession_new (tm_local_node_id m) remote_node epoch
                     (tm_rto_ms m) (tm_max_retries m) initial_credits in
    let m := put_session m key session in
    Ok (m <| tm_peer_epochs := <[remote_node := epoch]> (tm_peer_epochs m) |>)
  end.

(** Source: crates/ub-transport/src/manager.rs:161-178, [TransportManager::invalidate_session]. *)
Definition TransportManager_invalidate_session (m : TransportManager)
    (remote_node old_epoch : Z) : TransportManager * list RetransmitEntry :=
  let key := session_key m remote_node old_epoch in
  match tm_sessions m !! key with
  | Some session =>
    (m <| tm_sessions := delete key (tm_sessions m) |>, (ReliableSession_kill session).2)
  | None => (m, [])
  end.

(** Source: crates/ub-transport/src/manager.rs:554-558, [TransportManager::send_frame_to_peer]. *)
Definition TransportManager_send_frame_to_peer (m : TransportManager) (remote_node : Z)
    (data : bytes) : TransportManager :=
  match tm_peer_senders m !! remote_node with
  | Some sender =>
    match try_send sender data with
    | Some sender => m <| tm_peer_senders := <[remote_node := sender]> (tm_peer_senders m) |>
    | None => m
    end
  | None => m
  end.

(** Source: crates/ub-transport/src/manager.rs:183-225, [TransportManager::send].
    The frame is patched in place, so it is part of the result on every path. *)
Definition TransportManager_send (m : TransportManager) (t1 t2 : Z) (remote_node : Z)
    (frame_data : bytes) (is_fire_and_forget : bool) (opaque : Z)
  : TransportManager * bytes * Result Z :=
  match tm_peer_epochs m !! remote_node with
  | None => (m, frame_data, Err LinkDown)
  | Some epoch =>
    let key := session_key m remote_node epoch in
    match tm_sessions m !! key with
    | None => (m, frame_data, Err LinkDown)
    | Some session =>
      if decide (rs_state session <> SessionState_Active) then (m, frame_data, Err LinkDown)
      else
        match ReliableSession_consume_credit session with
        | Err e => (m, frame_data, Err e)
        | Panic => (m, frame_data, Panic)
        | Ok session =>
          let '(session, frame_data, seq) :=
            ReliableSession_assign_seq session t1 t2 frame_data is_fire_and_forget opaque in
          let m := put_session m key session in
          match tm_peer_senders m !! remote_node with
          | None => (m, frame_data, Err LinkDown)
          | Some sender =>
            match try_send sender frame_data with
            | Some sender =>
              (m <| tm_peer_senders := <[remote_node := sender]> (tm_peer_senders m) |>,
               frame_data, Ok seq)
            | None => (m, frame_data, Err LinkDown)
            end
          end
        end
    end
  end.

(** Source: crates/ub-transport/src/manager.rs:249-251, [TransportManager::register_peer_sender]. *)
Definition TransportManager_register_peer_sender (m : TransportManager) (node_id : Z)
    (sender : Chan) : TransportManager :=
  m <| tm_peer_senders := <[node_id := sender]> (tm_peer_senders m) |>.

(** Source: crates/ub-transport/src/manager.rs:254-256, [TransportManager::remove_peer_sender]. *)
Definition TransportManager_remove_peer_sender (m : TransportManager) (node_id : Z)
  : TransportManager :=
  m <| tm_peer_senders := delete node_id (tm_peer_senders m) |>.

(** Source: crates/ub-transport/src/manager.rs:260-283, [TransportManager::notify_peer_down]. *)
Definition TransportManager_notify_peer_down (m : TransportManager) (node_id : Z)
  : TransportManager * list RetransmitEntry :=
  let m := m <| tm_peer_senders := delete node_id (tm_peer_senders m) |> in
  let keys_to_remove :=
    filter (fun key => sk_remote_node key = node_id) (map fst (map_to_list (tm_sessions m))) in
  let '(sessions, all_entries) :=
    foldl (fun acc key =>
      let '(sessions, all_entries) := acc in
      match sessions !! key with
      | Some session => (delete key sessions, all_entries ++ (ReliableSession_kill session).2)
      | None => (sessions, all_entries)
      end) (tm_sessions m, []) keys_to_remove in
  (m <| tm_sessions := sessions |>
     <| tm_peer_epochs := delete node_id (tm_peer_epochs m) |>, all_entries).

(** Source: crates/ub-transport/src/manager.rs:286-298, [TransportManager::mark_executed]. *)
Definition TransportManager_mark_executed (m : TransportManager) (remote_node seq : Z)
  : TransportManager :=
  match current_session m remote_node with
  | Some (key, session) => put_session m key (ReliableSession_mark_executed session seq)
  | None => m
  end.

(** Source: crates/ub-transport/src/manager.rs:301-314, [TransportManager::is_executed]. *)
Definition TransportManager_is_executed (m : TransportManager) (remote_node seq : Z) : bool :=
  match current_session m remote_node with
  | Some (_, session) => ReliableSession_is_executed session seq
  | None => false
  end.

(** Source: crates/ub-transport/src/manager.rs:319-331, [TransportManager::complete_request]. *)
Definition TransportManager_complete_request (m : TransportManager) (remote_node opaque : Z)
  : TransportManager :=
  match current_session m remote_node with
  | Some (key, session) => put_session m key (ReliableSession_complete_request session opaque).1
  | None => m
  end.

(** Source: crates/ub-transport/src/manager.rs:560-563, [TransportManager::send_credit_frame]. *)
Definition TransportManager_send_credit_frame (m : TransportManager) (remote_node credits : Z)
  : TransportManager :=
  TransportManager_send_frame_to_peer m remote_node
    (build_credit_frame (tm_local_node_id m) remote_node credits).

(** Source: crates/ub-transport/src/manager.rs:334-354, [TransportManager::grant_credits]. *)
Definition TransportManager_grant_credits (m : TransportManager) (remote_node count : Z)
  : TransportManager :=
  match current_session m remote_node with
  | Some (key, session) =>
    let session :=
      session <| rs_credits_to_grant := wrap 32 (rs_credits_to_grant session + count) |> in
    if (8 <=? rs_credits_to_grant session) && negb (ReliableSession_should_send_ack session)
    then
      let credits := rs_credits_to_grant session in
      let session := session <| rs_credits_to_grant := 0 |> in
      TransportManager_send_credit_frame (put_session m key session) remote_node credits
    else put_session m key session
  | None => m
  end.

(** Source: crates/ub-transport/src/manager.rs:357-370, [TransportManager::read_cache_get]. *)
Definition TransportManager_read_cache_get (m : TransportManager) (now : Z) (remote_node : Z)
    (key : CacheKey) : TransportManager * option bytes :=
  match current_session m remote_node with
  | Some (skey, session) =>
    let '(cache, r) := ReadResponseCache_get (rs_read_cache session) now key in
    (put_session m skey (session <| rs_read_cache := cache |>), r)
  | None => (m, None)
  end.

(** Source: crates/ub-transport/src/manager.rs:373-385, [TransportManager::read_cache_insert]. *)
Definition TransportManager_read_cache_insert (m : TransportManager) (now now' : Z)
    (remote_node : Z) (key : CacheKey) (response : bytes) : TransportManager :=
  match current_session m remote_node with
  | Some (skey, session) =>
    put_session m skey
      (session <| rs_read_cache :=
                    ReadResponseCache_insert (rs_read_cache session) now now' key response |>)
  | None => m
  end.

(** [inbound_tx.send(..)] on the unbounded channel. *)
Definition send_inbound (m : TransportManager) (f : InboundFrame) : TransportManager :=
  m <| tm_inbound := tm_inbound m ++ [f] |>.

(** [matches!(ext.verb, ReadReq | AtomicCas | AtomicFaa)] *)
Definition is_request_verb (v : Verb) : bool :=
  match v with
  | Verb_ReadReq | Verb_AtomicCas | Verb_AtomicFaa => true
  | _ => false
  end.

(** Source: crates/ub-transport/src/manager.rs:389-487, [TransportManager::handle_data_frame]. *)
Definition TransportManager_handle_data_frame (m : TransportManager) (header : FrameHeader)
    (ext : DataExtHeader) (payload : bytes) : TransportManager :=
  let remote_node := fh_src_node header in
  let seq := fh_stream_seq header in
  let frame := mkInboundFrame header ext payload seq in
  if seq =? 0 then send_inbound m frame
  else
    let key := handler_key m remote_node in
    match tm_sessions m !! key with
    | None => send_inbound m frame
    | Some session =>
      if decide (rs_state session <> SessionState_Active) then m
      else
        let '(session, action) := ReliableSession_receive_frame session seq in
        let m := put_session m key session in
        let m :=
          match action with
          | ReceiveAction_Deliver => send_inbound m frame
          | ReceiveAction_Duplicate =>
            if is_request_verb (de_verb ext) then send_inbound m frame else m
          | ReceiveAction_OutOfOrder | ReceiveAction_BeyondWindow => m
          end in
        if decide (action = ReceiveAction_BeyondWindow) then m
        else
          let should_ack :=
            bool_decide (action = ReceiveAction_Duplicate)
            || bool_decide (action = ReceiveAction_OutOfOrder)
            || ReliableSession_should_send_ack session in
          if should_ack then
            let has_gap := bool_decide (action = ReceiveAction_OutOfOrder) in
            let '(session, ack) := ReliableSession_build_ack_payload session has_gap in
            let m := put_session m key session in
            let frame := build_ack_frame (tm_local_node_id m) remote_node ack in
            TransportManager_send_frame_to_peer m (sk_remote_node (rs_key session)) frame
          else m
    end.

(** Source: crates/ub-transport/src/manager.rs:489-528, [TransportManager::handle_ack_frame].
    [clock] gives the readings [process_ack] takes. *)
Definition TransportManager_handle_ack_frame (m : TransportManager) (clock : Z -> Z)
    (header : FrameHeader) (payload : bytes) : TransportManager :=
  let remote_node := fh_src_node header in
  let has_sack := flags_contains (fh_flags header) FrameFlags_HAS_SACK in
  match decode_ack_payload payload has_sack with
  | Ok ack =>
    let key := handler_key m remote_node in
    match tm_sessions m !! key with
    | Some session =>
      let '(session, retransmit) :=
        ReliableSession_process_ack_for_fast_retransmit session ack in
      let m :=
        match retransmit with
        | Some retransmit_seq =>
          match ReliableSession_get_retransmit_entry session retransmit_seq with
          | Some re_entry =>
            TransportManager_send_frame_to_peer m (sk_remote_node (rs_key session))
              (re_frame re_entry)
          | None => m
          end
        | None => m
        end in
      put_session m key (ReliableSession_process_ack session clock ack).1
    | None => m
    end
  | _ => m
  end.

(** Source: crates/ub-transport/src/manager.rs:530-550, [TransportManager::handle_credit_frame]. *)
Definition TransportManager_handle_credit_frame (m : TransportManager)
    (header : FrameHeader) (payload : bytes) : TransportManager :=
  match decode_credit_payload payload with
  | Ok credit =>
    let key := handler_key m (fh_src_node header) in
    match tm_sessions m !! key with
    | Some session => put_session m key (ReliableSession_add_credits session (cp_credits credit))
    | None => m
    end
  | _ => m
  end.

(** Source: crates/ub-transport/src/manager.rs:230-246, [TransportManager::handle_incoming]. *)
Definition TransportManager_handle_incoming (m : TransportManager) (clock : Z -> Z)
    (raw : bytes) : TransportManager :=
  match decode_frame raw with
  | Ok (header, ext, payload) =>
    match fh_frame_type header with
    | FrameType_Data =>
      match ext with
      | Some ext_header => TransportManager_handle_data_frame m header ext_header payload
      | None => m
      end
    | FrameType_Ack => TransportManager_handle_ack_frame m clock header payload
    | FrameType_Credit => TransportManager_handle_credit_frame m header payload
    end
  | _ => m
  end.

(** One round of the retransmission task over one session: the session after
    it and the frames to resend. *)
Definition rto_session (now : Z) (session : ReliableSession)
  : ReliableSession * list (Z * bytes) :=
  if decide (rs_state session <> SessionState_Active) then (session, [])
  else
    let '(session, timeout_seqs) := ReliableSession_check_rto session now in
    if decide (rs_state session = SessionState_Dead) then (session, [])
    else (session,
          omap (fun seq =>
            re_entry ← ReliableSession_get_retransmit_entry session seq;
            Some (sk_remote_node (rs_key session), re_frame re_entry)) timeout_seqs).

(** Source: crates/ub-transport/src/manager.rs:72-121, [TransportManager::start_rto_task].
    One tick of the task's loop. *)
Definition rto_tick (m : TransportManager) (now : Z) : TransportManager :=
  let retransmit_frames :=
    concat (map (fun kv => (rto_session now kv.2).2) (map_to_list (tm_sessions m))) in
  let m := m <| tm_sessions := (fun s => (rto_session now s).1) <$> tm_sessions m |> in
  foldl (fun m '(remote_node, frame) =>
    match tm_peer_senders m !! remote_node with
    | Some sender =>
      m <| tm_peer_senders := <[remote_node := send_await sender frame]> (tm_peer_senders m) |>
    | None => m
    end) m retransmit_frames.

(** ** The manager runs its sessions

    Handling a buffer, whatever its bytes, is a short run of session calls on
    the session of the sender, and leaves the other sessions alone. *)

Lemma handler_key_inj m r1 r2 : handler_key m r1 = handler_key m r2 -> r1 = r2.
Proof. unfold handler_key, session_key. congruence. Qed.

(** The non-request frames of peer [r] in the inbound channel, by number. *)
Definition ff_seqs (r : Z) (fs : list InboundFrame) : list Z :=
  map if_seq (filter (fun f => fh_src_node (if_header f) = r /\ if_seq f <> 0
                               /\ is_request_verb (de_verb (if_ext f)) = false) fs).

Lemma ff_seqs_app r fs1 fs2 : ff_seqs r (fs1 ++ fs2) = ff_seqs r fs1 ++ ff_seqs r fs2.
Proof. unfold ff_seqs. by rewrite filter_app, map_app. Qed.

(** What a call may do to the manager, seen from the session of peer [r]. *)
Definition simulates (r : Z) (m m' : TransportManager) (s : ReliableSession) : Prop :=
  exists ops new,
    (length ops <= 2)%nat /\ Forall op_ok ops
    /\ (forall r', handler_key m' r' = handler_key m r')
    /\ tm_sessions m' !! handler_key m r = Some (session_run s ops).1
    /\ tm_inbound m' = tm_inbound m ++ new
    /\ sublist (ff_seqs r new) (delivered_seqs (session_run s ops).2).

Lemma simulates_refl r m s : tm_sessions m !! handler_key m r = Some s -> simulates r m m s.
Proof.
  intros Hs. exists [], []. rewrite app_nil_r. split_and!; try done. cbn. lia.
Qed.

Lemma send_frame_to_peer_fields m r d :
  tm_sessions (TransportManager_send_frame_to_peer m r d) = tm_sessions m
  /\ tm_inbound (TransportManager_send_frame_to_peer m r d) = tm_inbound m
  /\ (forall r', handler_key (TransportManager_send_frame_to_peer m r d) r' = handler_key m r').
Proof. unfold TransportManager_send_frame_to_peer. by repeat case_match. Qed.

Lemma simulates_send_frame r m m' s d x :
  simulates r m m' s -> simulates r m (TransportManager_send_frame_to_peer m' x d) s.
Proof.
  intros (ops & new & ? & ? & Hk & Hs & Hi & ?). exists ops, new.
  destruct (send_frame_to_peer_fields m' x d) as (Hs' & Hi' & Hk').
  split_and!; try done; [intros; by rewrite Hk'|by rewrite Hs'|by rewrite Hi'].
Qed.

(** The session of another peer changed. *)
Lemma simulates_other r r' m s s1 new :
  r' <> r -> tm_sessions m !! handler_key m r = Some s -> ff_seqs r new = [] ->
  simulates r m ((put_session m (handler_key m r') s1) <| tm_inbound := tm_inbound m ++ new |>) s.
Proof.
  intros Hne Hs Hnew. exists [], new. split_and!; try done; [cbn; lia| |by rewrite Hnew].
  cbn. rewrite lookup_insert_ne; [done|]. by intros ?%handler_key_inj.
Qed.

(** The session of [r] ran [ops]. *)
Lemma simulates_own r m s ops new :
  (length ops <= 2)%nat -> Forall op_ok ops ->
  sublist (ff_seqs r new) (delivered_seqs (session_run s ops).2) ->
  simulates r m ((put_session m (handler_key m r) (session_run s ops).1)
                   <| tm_inbound := tm_inbound m ++ new |>) s.
Proof.
  intros. exists ops, new. split_and!; try done. cbn. by rewrite lookup_insert_eq.
Qed.

Lemma put_session_inbound m k s :
  put_session m k s = (put_session m k s) <| tm_inbound := tm_inbound m ++ [] |>.
Proof. rewrite app_nil_r. by destruct m. Qed.

Lemma ff_seqs_unsequenced r f : if_seq f = 0 -> ff_seqs r [f] = [].
Proof. intros H. unfold ff_seqs. rewrite filter_cons_False; [done|]. tauto. Qed.

Lemma ff_seqs_other r f : fh_src_node (if_header f) <> r -> ff_seqs r [f] = [].
Proof. intros H. unfold ff_seqs. rewrite filter_cons_False; [done|]. tauto. Qed.

Lemma ff_seqs_request r f : is_request_verb (de_verb (if_ext f)) = true -> ff_seqs r [f] = [].
Proof. intros H. unfold ff_seqs. rewrite filter_cons_False; [done|]. rewrite H. by intros (_ & _ & ?). Qed.

Lemma ff_seqs_one r f : sublist (ff_seqs r [f]) [if_seq f].
Proof.
  unfold ff_seqs. rewrite filter_cons. case_decide; cbn; [done|apply sublist_nil_l].
Qed.

Lemma simulates_inbound_only r m s f :
  tm_sessions m !! handler_key m r = Some s -> ff_seqs r [f] = [] ->
  simulates r m (send_inbound m f) s.
Proof. intros Hs Hf. exists [], [f]. rewrite Hf. split_and!; try done. cbn. lia. Qed.

(** [handle_data_frame] after the lookup: the inbound frames and the calls. *)
Definition data_new (s : ReliableSession) (f : InboundFrame) : list InboundFrame :=
  match (ReliableSession_receive_frame s (if_seq f)).2 with
  | ReceiveAction_Deliver => [f]
  | ReceiveAction_Duplicate => if is_request_verb (de_verb (if_ext f)) then [f] else []
  | _ => []
  end.

Lemma handle_data_run m f s ops_tail :
  1 <= if_seq f < 2 ^ 64 -> (length ops_tail <= 1)%nat -> Forall op_ok ops_tail ->
  (forall s', (session_run s' ops_tail).2 = []) ->
  fh_stream_seq (if_header f) = if_seq f ->
  let r := fh_src_node (if_header f) in
  simulates r m
    ((put_session m (handler_key m r) (session_run (ReliableSession_receive_frame s (if_seq f)).1 ops_tail).1)
       <| tm_inbound := tm_inbound m ++ data_new s f |>) s.
Proof.
  intros Hseq Hlen Hops Hev Hf r.
  pose proof (simulates_own r m s (Op_receive_frame (if_seq f) :: ops_tail) (data_new s f)) as H.
  rewrite session_run_cons in H. cbn [session_step length] in H. unfold data_new in *.
  destruct (ReliableSession_receive_frame s (if_seq f)) as [s1 act]. cbn [fst snd] in *.
  rewrite Hev in H. apply H; [lia|by constructor|]. rewrite delivered_seqs_cons.
  destruct act; try (apply sublist_nil_l).
  - apply ff_seqs_one.
  - destruct (is_request_verb _) eqn:E; [by rewrite ff_seqs_request|apply sublist_nil_l].
Qed.

Lemma handle_data_own m header ext payload s :
  1 <= fh_stream_seq header < 2 ^ 64 ->
  tm_sessions m !! handler_key m (fh_src_node header) = Some s ->
  simulates (fh_src_node header) m (TransportManager_handle_data_frame m header ext payload) s.
Proof.
  intros Hseq Hs. set (f := mkInboundFrame header ext payload (fh_stream_seq header)).
  unfold TransportManager_handle_data_frame.
  rewrite (proj2 (Z.eqb_neq _ _)), Hs by lia. case_decide; [by apply simulates_refl|].
  pose proof (handle_data_run m f s [] Hseq ltac:(cbn; lia) ltac:(done) ltac:(done) eq_refl) as H0.
  pose proof (fun g => handle_data_run m f s [Op_build_ack g] Hseq ltac:(cbn; lia)
                ltac:(by repeat constructor) ltac:(done) eq_refl) as H1.
  unfold data_new in H0, H1. cbn [if_seq f if_header if_ext session_run] in *.
  destruct (ReliableSession_receive_frame s (fh_stream_seq header)) as [s1 act].
  cbn [fst snd session_step] in *. 
  destruct (decide (act = ReceiveAction_BeyondWindow)) as [->|Hb]; [by rewrite put_session_inbound|].
  specialize (H1 (bool_decide (act = ReceiveAction_OutOfOrder))).
  destruct (ReliableSession_build_ack_payload s1 _) as [s2 ack]. cbn [fst] in *.
  set (key := handler_key m (fh_src_node header)) in *.
  assert (Hm1 : match act with
     | ReceiveAction_Deliver => send_inbound (put_session m key s1) f
     | ReceiveAction_Duplicate =>
       if is_request_verb (de_verb ext) then send_inbound (put_session m key s1) f
       else put_session m key s1
     | _ => put_session m key s1 end
    = (put_session m key s1) <| tm_inbound := tm_inbound m ++
     match act with
     | ReceiveAction_Deliver => [f]
     | ReceiveAction_Duplicate => if is_request_verb (de_verb ext) then [f] else []
     | _ => [] end |>).
  { destruct act; try done; try apply put_session_inbound.
    destruct (is_request_verb _); [done|apply put_session_inbound]. }
  cbv zeta. fold f. rewrite Hm1. destruct (_ || ReliableSession_should_send_ack s1); [|exact H0].
  apply simulates_send_frame. unfold put_session in *. cbn in *. rewrite insert_insert_eq. exact H1.
Qed.

Lemma handle_data_other m header ext payload s r :
  fh_src_node header <> r -> tm_sessions m !! handler_key m r = Some s ->
  simulates r m (TransportManager_handle_data_frame m header ext payload) s.
Proof.
  intros Hne Hs. set (f := mkInboundFrame header ext payload (fh_stream_seq header)).
  assert (Hf : ff_seqs r [f] = []) by (by apply ff_seqs_other).
  unfold TransportManager_handle_data_frame.
  case_match; [by apply simulates_inbound_only|].
  destruct (tm_sessions m !! handler_key m (fh_src_node header)) as [s0|];
    [|by apply simulates_inbound_only].
  case_decide; [by apply simulates_refl|].
  destruct (ReliableSession_receive_frame s0 _) as [s1 act].
  pose proof (fun s1 => simulates_other r (fh_src_node header) m s s1 [] Hne Hs eq_refl) as Hg0.
  pose proof (fun s1 => simulates_other r (fh_src_node header) m s s1 [f] Hne Hs Hf) as Hg1.
  destruct (decide (act = ReceiveAction_BeyondWindow)) as [->|Hb]; [rewrite put_session_inbound; apply Hg0|].
  destruct (ReliableSession_build_ack_payload s1 _) as [s2 ack].
  unfold put_session in *. cbn in *. rewrite app_nil_r in Hg0.
  destruct (_ || ReliableSession_should_send_ack s1); [apply simulates_send_frame|]; destruct act; cbn in *; try done;
    try (destruct (is_request_verb (de_verb ext))); cbn; rewrite ?insert_insert_eq; try apply Hg1; apply Hg0.
Qed.

Lemma handle_incoming_simulates m clock raw r s :
  Forall u8 raw -> tm_sessions m !! handler_key m r = Some s ->
  simulates r m (TransportManager_handle_incoming m clock raw) s.
Proof.
  intros Hu Hs. unfold TransportManager_handle_incoming.
  destruct (decode_frame_cases raw Hu) as [[e ->]|(h & ext & pl & pre & -> & Hh & Hext & -> & _)];
    [by apply simulates_refl|].
  apply Forall_app in Hu as [_ Hu]. destruct Hh as (_ & _ & _ & _ & _ & _ & Hq & _).
  destruct (fh_frame_type h).
  - destruct ext as [e|]; [|by apply simulates_refl].
    destruct (decide (fh_src_node h = r)) as [<-|Hne]; [|by apply handle_data_other].
    destruct (decide (fh_stream_seq h = 0)) as [H0|H0].
    + unfold TransportManager_handle_data_frame. rewrite (proj2 (Z.eqb_eq _ _) H0).
      apply simulates_inbound_only; [done|]. by apply ff_seqs_unsequenced.
    + apply handle_data_own; [ulia|done].
  - unfold TransportManager_handle_ack_frame.
    destruct (decode_ack_payload _ _) as [ack| |] eqn:Hack; [|by apply simulates_refl..].
    apply decode_ack_payload_Ok_inv in Hack as Hok; [|done].
    destruct (tm_sessions m !! handler_key m (fh_src_node h)) as [s0|] eqn:Hs0; [|by apply simulates_refl].
    pose proof (simulates_own r m s [Op_fast_retransmit ack; Op_process_ack clock ack] []
      ltac:(cbn; lia) ltac:(constructor; [done|by constructor]) (sublist_nil_l _)) as Hown.
    cbn [session_run session_step] in Hown. rewrite <- put_session_inbound in Hown.
    pose proof (fun s1 => simulates_other r (fh_src_node h) m s s1 []) as Hother.
    destruct (ReliableSession_process_ack_for_fast_retransmit s0 ack) as [s1 rt] eqn:Hf.
    assert (Hgen : simulates r m (put_session m (handler_key m (fh_src_node h))
                     (ReliableSession_process_ack s1 clock ack).1) s).
    { destruct (decide (fh_src_node h = r)) as [<-|Hne].
      - assert (s0 = s) as -> by congruence. by rewrite Hf in Hown.
      - rewrite put_session_inbound. by apply Hother. }
    assert (Hcomm : forall m' x d, put_session (TransportManager_send_frame_to_peer m x d) m' 
       (ReliableSession_process_ack s1 clock ack).1
       = TransportManager_send_frame_to_peer (put_session m m' (ReliableSession_process_ack s1 clock ack).1) x d).
    { intros. unfold TransportManager_send_frame_to_peer. cbn. by repeat case_match. }
    destruct rt as [q|]; [|done]. destruct (ReliableSession_get_retransmit_entry s1 q); [|done].
    rewrite Hcomm. by apply simulates_send_frame.
  - unfold TransportManager_handle_credit_frame.
    destruct (decode_credit_payload pl) as [c| |] eqn:Hc; [|by apply simulates_refl..].
    apply decode_credit_payload_Ok_inv in Hc as Hok; [|done].
    destruct (tm_sessions m !! handler_key m (fh_src_node h)) as [s0|] eqn:Hs0; [|by apply simulates_refl].
    rewrite put_session_inbound. destruct (decide (fh_src_node h = r)) as [<-|Hne].
    + assert (s0 = s) as -> by congruence.
      apply (simulates_own (fh_src_node h) m s [Op_add_credits (cp_credits c)] []);
        [cbn; lia|by constructor|apply sublist_nil_l].
    + by apply simulates_other.
Qed.

(** A stream of buffers, each with the clock its handling sees. *)
Definition handle_all (m : TransportManager) (raws : list ((Z -> Z) * bytes)) : TransportManager :=
  foldl (fun m cr => TransportManager_handle_incoming m cr.1 cr.2) m raws.

Lemma session_run_app s ops1 ops2 :
  session_run s (ops1 ++ ops2)
  = ((session_run (session_run s ops1).1 ops2).1,
     (session_run s ops1).2 ++ (session_run (session_run s ops1).1 ops2).2).
Proof.
  revert s. induction ops1 as [|op ops1 IH]; intros s; cbn [app].
  { cbn. by destruct (session_run s ops2). }
  rewrite !session_run_cons, IH. cbn [fst snd]. by destruct (session_step s op) as [s1 [e|]].
Qed.

Lemma handle_all_run raws m r s :
  Forall (fun cr => Forall u8 cr.2) raws -> tm_sessions m !! handler_key m r = Some s ->
  exists ops new,
    (length ops <= 2 * length raws)%nat /\ Forall op_ok ops
    /\ tm_sessions (handle_all m raws) !! handler_key m r = Some (session_run s ops).1
    /\ tm_inbound (handle_all m raws) = tm_inbound m ++ new
    /\ sublist (ff_seqs r new) (delivered_seqs (session_run s ops).2).
Proof.
  revert m s. induction raws as [|[clock raw] raws IH]; intros m s Hu Hs.
  { exists [], []. cbn. rewrite app_nil_r. done. }
  apply Forall_cons in Hu as [Hu Hus]. cbn [handle_all foldl fst snd] in *.
  destruct (handle_incoming_simulates m clock raw r s Hu Hs)
    as (ops1 & new1 & Hl1 & Hok1 & Hk1 & Hs1 & Hi1 & Hsub1).
  rewrite <- Hk1 in Hs1.
  destruct (IH _ _ Hus Hs1) as (ops2 & new2 & Hl2 & Hok2 & Hs2 & Hi2 & Hsub2).
  exists (ops1 ++ ops2), (new1 ++ new2). rewrite session_run_app. cbn [fst snd].
  split_and!.
  - rewrite length_app. cbn [length]. lia.
  - by apply Forall_app.
  - by rewrite <- Hk1.
  - fold (handle_all (TransportManager_handle_incoming m clock raw) raws).
    by rewrite Hi2, Hi1, app_assoc.
  - rewrite ff_seqs_app. unfold delivered_seqs in *. rewrite filter_app, map_app.
    by apply sublist_app.
Qed.

(** ** Peers going down *)

(** The loop of [notify_peer_down] over the keys it collected. *)
Definition kill_step (acc : gmap SessionKey ReliableSession * list RetransmitEntry)
    (key : SessionKey) : gmap SessionKey ReliableSession * list RetransmitEntry :=
  let '(sessions, all_entries) := acc in
  match sessions !! key with
  | Some session => (delete key sessions, all_entries ++ (ReliableSession_kill session).2)
  | None => (sessions, all_entries)
  end.

Lemma kill_loop_spec keys sessions acc :
  let '(sessions', entries) := foldl kill_step (sessions, acc) keys in
  (forall k, sessions' !! k = if decide (k ∈ keys) then None else sessions !! k)
  /\ forall e, e ∈ entries <-> e ∈ acc \/ exists k s, k ∈ keys /\ sessions !! k = Some s
                                               /\ e ∈ rs_retransmit_queue s.
Proof.
  revert sessions acc. induction keys as [|key keys IH]; intros sessions acc; cbn [foldl].
  { split; [done|]. intros e. split; [by left|]. by intros [?|(? & ? & ?%elem_of_nil & _)]. }
  unfold kill_step at 2. destruct (sessions !! key) as [s|] eqn:Hk.
  - specialize (IH (delete key sessions) (acc ++ (ReliableSession_kill s).2)).
    destruct (foldl _ _ keys) as [sessions' entries]. destruct IH as [IH1 IH2].
    split.
    + intros k. rewrite IH1. destruct (decide (k = key)) as [->|Hne].
      * rewrite lookup_delete_eq, (decide_True (P := key ∈ key :: keys)) by (by left). by case_decide.
      * rewrite lookup_delete_ne by done.
        destruct (decide (k ∈ keys)); [rewrite decide_True by (by right)|rewrite decide_False]; try done.
        by intros [?|?]%elem_of_cons.
    + intros e. rewrite IH2, elem_of_app. cbn [ReliableSession_kill snd]. cbn.
      setoid_rewrite elem_of_cons. split.
      * intros [[?|?]|(k & s' & Hin & Hl & ?)]; [by left|right; exists key, s; auto|right].
        apply lookup_delete_Some in Hl as [? ?]. exists k, s'. auto.
      * intros [?|(k & s' & Hin & Hl & ?)]; [auto|].
        destruct (decide (k = key)) as [->|Hne]; [left; right; congruence|].
        destruct Hin as [?|Hin]; [done|]. right. exists k, s'.
        by rewrite lookup_delete_ne.
  - specialize (IH sessions acc). destruct (foldl _ _ keys) as [sessions' entries].
    destruct IH as [IH1 IH2]. split.
    + intros k. rewrite IH1. destruct (decide (k = key)) as [->|Hne].
      * rewrite (decide_True (P := key ∈ key :: keys)) by (by left). rewrite Hk. by case_decide.
      * destruct (decide (k ∈ keys)); [rewrite decide_True by (by right)|rewrite decide_False]; try done.
        by intros [?|?]%elem_of_cons.
    + intros e. rewrite IH2. setoid_rewrite elem_of_cons. split.
      * intros [?|(k & s' & ? & ? & ?)]; [by left|right; exists k, s'; auto].
      * intros [?|(k & s' & [->|?] & ? & ?)]; [by left|congruence|right; exists k, s'; auto].
Qed.

Lemma peer_keys_elem (sessions : gmap SessionKey ReliableSession) node_id k :
  k ∈ filter (fun key => sk_remote_node key = node_id) (map fst (map_to_list sessions))
  <-> sk_remote_node k = node_id /\ is_Some (sessions !! k).
Proof.
  rewrite list_elem_of_filter. split; intros [? H]; split; try done.
  - apply list_elem_of_fmap in H as ([k' s] & -> & H). apply elem_of_map_to_list in H. by exists s.
  - destruct H as [s H]. apply list_elem_of_fmap. exists (k, s). split; [done|].
    by apply elem_of_map_to_list.
Qed.

(** ** Properties *)

(** C4 (safety): The manager delivers the numbered one-way frames of a peer at most once and in order,
    whatever bytes the network hands it. From any state that has a session with peer [r], sound and
    with numbers left for the run, and for any stream of buffers (well-formed or not, from any
    peer, in any order, with any repetitions), the frames of [r] that reach the inbound channel,
    carry a number and are no requests have strictly increasing numbers. [send] numbers every
    frame, from 1 on. Not covered, since the code passes them on as they come: frames with the
    number 0 (answers), requests, whose duplicates the handlers must answer, and frames of a peer
    without a session. *)
Theorem manager_at_most_once m raws r s :
  Forall (fun cr => Forall u8 cr.2) raws -> tm_sessions m !! handler_key m r = Some s ->
  session_ok s -> room_for (2 * length raws) s ->
  exists new, tm_inbound (handle_all m raws) = tm_inbound m ++ new
    /\ StronglySorted Z.lt (ff_seqs r new).
Proof.
  intros Hu Hs Hok [Hr1 Hr2].
  destruct (handle_all_run raws m r s Hu Hs) as (ops & new & Hl & Hops & _ & Hi & Hsub).
  exists new. split; [done|]. eapply StronglySorted_sublist; [exact Hsub|].
  apply session_run_summary; [done|done|]. split; lia.
Qed.

Definition sample_manager : TransportManager :=
  match TransportManager_create_session (TransportManager_new 1 200 8) 2 100 64 with
  | Ok m => TransportManager_register_peer_sender m 2 (mkChan 16 [] true)
  | _ => TransportManager_new 1 200 8
  end.

Definition sample_data (seq : Z) : bytes :=
  encode_frame (mkFrameHeader MAGIC VERSION FrameType_Data 0 2 1 0 seq 0 0)
    (Some (mkDataExtHeader Verb_Write 0 5 0 0 0 0 0 1 0 None)) [7].

Lemma manager_at_most_once_witness :
  exists new,
    tm_inbound (handle_all sample_manager
      [((fun _ => 0), sample_data 1); ((fun _ => 0), sample_data 1); ((fun _ => 0), sample_data 2)])
    = tm_inbound sample_manager ++ new
    /\ StronglySorted Z.lt (ff_seqs 2 new).
Proof.
  apply (manager_at_most_once sample_manager
    [((fun _ => 0), sample_data 1); ((fun _ => 0), sample_data 1); ((fun _ => 0), sample_data 2)] 2
    (ReliableSession_new 1 2 100 200 8 64)).
  - repeat constructor; refine (bool_decide_unpack _ _); vm_compute; reflexivity.
  - reflexivity.
  - apply session_new_ok; [lia|split; [discriminate|reflexivity]].
  - split; vm_compute; reflexivity.
Defined.

(** C33 (functional): [send], on every path. Success takes one credit, queues the stamped frame for
    retransmission under the session's next number and hands the same bytes to the peer's
    channel. Without credits nothing changes. [LinkDown] means either that there is no live
    session, and nothing changes, or that the peer's channel refused the frame; in that case the
    credit is spent and the frame stays queued for retransmission although the caller is told
    that the send failed. *)
Theorem send_outcomes m t1 t2 r frame ff opaque :
  let '(m', frame', res) := TransportManager_send m t1 t2 r frame ff opaque in
  let queued key s :=
    current_session m r = Some (key, s) /\ rs_state s = SessionState_Active
    /\ rs_available_credits s <> 0 /\ frame' = stamp_frame (rs_next_seq s) frame
    /\ exists s1 e, tm_sessions m' = <[key := s1]> (tm_sessions m)
       /\ rs_available_credits s1 = wrap 32 (rs_available_credits s - 1)
       /\ rs_retransmit_queue s1 = rs_retransmit_queue s ++ [e]
       /\ re_seq e = rs_next_seq s /\ re_frame e = frame' in
  match res with
  | Ok seq => exists key s ch ch',
      queued key s /\ seq = rs_next_seq s
      /\ tm_peer_senders m !! r = Some ch /\ try_send ch frame' = Some ch'
      /\ tm_peer_senders m' = <[r := ch']> (tm_peer_senders m)
  | Err NoResources => m' = m /\ exists key s,
      current_session m r = Some (key, s) /\ rs_available_credits s = 0
  | Err LinkDown =>
      (m' = m /\ forall key s, current_session m r = Some (key, s) -> rs_state s = SessionState_Dead)
      \/ exists key s, queued key s /\ tm_peer_senders m' = tm_peer_senders m
         /\ forall ch, tm_peer_senders m !! r = Some ch -> try_send ch frame' = None
  | _ => False
  end.
Proof.
  unfold TransportManager_send, current_session, current_key.
  destruct (tm_peer_epochs m !! r) as [epoch|]; cbn; [|by left].
  destruct (tm_sessions m !! session_key m r epoch) as [s|] eqn:Hs; cbn; [|by left].
  case_decide as Ha.
  { left. split; [done|]. intros ?? [= <- <-]. by destruct (rs_state s). }
  assert (rs_state s = SessionState_Active) by (by destruct (rs_state s); destruct Ha).
  unfold ReliableSession_consume_credit. destruct (_ =? 0) eqn:Ec; zbool; cbn [rbind].
  { split; [done|]. eauto. }
  unfold ReliableSession_assign_seq. cbv zeta. cbn.
  destruct (tm_peer_senders m !! r) as [ch|] eqn:Hch.
  - destruct (try_send ch _) as [ch'|] eqn:Ht.
    + eexists _, s, ch, ch'. split_and!; try done. do 2 eexists. split_and!; reflexivity.
    + right. eexists _, s. split_and!; try done; [|by intros ? [= <-]].
      do 2 eexists. split_and!; reflexivity.
  - right. eexists _, s. split_and!; try done. do 2 eexists. split_and!; reflexivity.
Qed.

(** Only credits limit the sender: with a credit and room in the channel a frame goes out even
    when the congestion window has no room ([send_available] is 0). *)
Theorem send_ignores_window m t1 t2 r frame ff opaque key s ch :
  current_session m r = Some (key, s) -> rs_state s = SessionState_Active ->
  rs_available_credits s <> 0 -> ReliableSession_send_available s = 0 ->
  tm_peer_senders m !! r = Some ch -> is_Some (try_send ch (stamp_frame (rs_next_seq s) frame)) ->
  (TransportManager_send m t1 t2 r frame ff opaque).2 = Ok (rs_next_seq s).
Proof.
  intros Hc Ha Hcr _ Hch [ch' Hs]. unfold TransportManager_send, current_session, current_key in *.
  destruct (tm_peer_epochs m !! r) as [epoch|]; cbn in *; [|done].
  destruct (tm_sessions m !! session_key m r epoch) as [s'|]; cbn in Hc; [|done]. simplify_eq.
  rewrite decide_False by (intros Hne; by apply Hne).
  unfold ReliableSession_consume_credit. apply Z.eqb_neq in Hcr. rewrite Hcr. cbn [rbind].
  unfold ReliableSession_assign_seq. cbv zeta. cbn. rewrite Hch.
  match goal with |- context [try_send ch ?f] =>
    replace (try_send ch f) with (Some ch') by (symmetry; exact Hs) end. done.
Qed.

(** When a peer goes down every session with it, at whatever epoch, its epoch
    and its channel are gone, the other sessions are untouched, the unacknowledged entries of
    exactly those sessions are returned, and a send to that peer fails with [LinkDown] until a
    session is created again, which then starts at sequence number 1. *)
Theorem peer_down_forgets m r t1 t2 frame ff opaque :
  let '(m', entries) := TransportManager_notify_peer_down m r in
  (forall key, tm_sessions m' !! key
     = if decide (sk_remote_node key = r) then None else tm_sessions m !! key)
  /\ tm_peer_epochs m' !! r = None /\ tm_peer_senders m' !! r = None
  /\ (forall e, e ∈ entries <-> exists key s, tm_sessions m !! key = Some s
        /\ sk_remote_node key = r /\ e ∈ rs_retransmit_queue s)
  /\ TransportManager_send m' t1 t2 r frame ff opaque = (m', frame, Err LinkDown)
  /\ forall epoch credits, exists m2,
       TransportManager_create_session m' r epoch credits = Ok m2
       /\ exists s, current_session m2 r = Some (session_key m' r epoch, s) /\ rs_next_seq s = 1
          /\ rs_retransmit_queue s = [].
Proof.
  unfold TransportManager_notify_peer_down. cbv zeta.
  cbn [set_field tm_sessions tm_peer_senders tm_peer_epochs].
  change (fun acc key => let '(sessions, all_entries) := acc in _) with kill_step.
  pose proof (kill_loop_spec (filter (fun key => sk_remote_node key = r)
    (map fst (map_to_list (tm_sessions m)))) (tm_sessions m) []) as H.
  destruct (foldl kill_step _ _) as [sessions entries]. destruct H as [Hs He].
  assert (Hsess : forall key, sessions !! key
     = if decide (sk_remote_node key = r) then None else tm_sessions m !! key).
  { intros key. rewrite Hs. destruct (decide (_ ∈ _)) as [Hin|Hin]; rewrite peer_keys_elem in Hin.
    - by rewrite decide_True by tauto.
    - case_decide; [|done]. apply eq_None_not_Some. tauto. }
  split_and!; try (cbn; by rewrite lookup_delete_eq).
  - exact Hsess.
  - intros e. rewrite He. split.
    + intros [?%elem_of_nil|(k & s & [? _]%peer_keys_elem & ? & ?)]; [done|eauto].
    + intros (k & s & ? & ? & ?). right. exists k, s. by rewrite peer_keys_elem.
  - unfold TransportManager_send. cbn. by rewrite lookup_delete_eq.
  - intros epoch credits. unfold TransportManager_create_session. cbn.
    rewrite Hsess, decide_True by done. eexists. split; [done|].
    unfold current_session, current_key. cbn. rewrite lookup_insert_eq. cbn.
    rewrite lookup_insert_eq. eexists. done.
Qed.

(** The ACK and CREDIT frames the manager builds decode to frames of that type
    from this node, the SACK flag is set exactly when a bitmap is there, and the payloads decode
    to the ACK and the credits they were built from. *)
Theorem ack_credit_frames_decode l r ack credits :
  u16 l -> u16 r -> ack_wf ack -> u32 credits ->
  (exists h payload, decode_frame (build_ack_frame l r ack) = Ok (h, None, payload)
     /\ fh_frame_type h = FrameType_Ack /\ fh_src_node h = l /\ fh_dst_node h = r
     /\ decode_ack_payload payload (flags_contains (fh_flags h) FrameFlags_HAS_SACK) = Ok ack)
  /\ exists h payload, decode_frame (build_credit_frame l r credits) = Ok (h, None, payload)
     /\ fh_frame_type h = FrameType_Credit /\ fh_src_node h = l /\ fh_dst_node h = r
     /\ decode_credit_payload payload = Ok (mkCreditPayload credits 0).
Proof.
  intros Hl Hr Hack Hc. split.
  - unfold build_ack_frame. cbv zeta. eexists _, _. rewrite decode_encode_frame; [split; [done|]| |done].
    + cbn [fh_frame_type fh_src_node fh_dst_node fh_flags]. split_and!; try done.
      pose proof (decode_encode_ack ack Hack) as H. unfold encode_ack_payload in H.
      by destruct (ack_sack_bitmap ack).
    + unfold header_wf, flags_ok. cbn. destruct (ack_sack_bitmap ack); cbn;
        split_and!; try done; apply Hl || apply Hr.
  - unfold build_credit_frame. cbv zeta. eexists _, _. rewrite decode_encode_frame; [split; [done|]| |done].
    + split_and!; try done. apply (decode_encode_credit (mkCreditPayload credits 0)); done.
    + unfold header_wf, flags_ok. cbn. split_and!; try done; apply Hl || apply Hr.
Qed.

Lemma ack_credit_frames_decode_witness :
  exists h payload,
    decode_frame (build_ack_frame 1 2 (mkAckPayload 9 3 0 (Some (repeat 1 32)))) = Ok (h, None, payload)
    /\ decode_ack_payload payload (flags_contains (fh_flags h) FrameFlags_HAS_SACK)
       = Ok (mkAckPayload 9 3 0 (Some (repeat 1 32))).
Proof.
  destruct (ack_credit_frames_decode 1 2 (mkAckPayload 9 3 0 (Some (repeat 1 32))) 5)
    as [(h & payload & H1 & _ & _ & _ & H2) _].
  - split; [discriminate|reflexivity].
  - split; [discriminate|reflexivity].
  - repeat split; discriminate.
  - split; [discriminate|reflexivity].
  - exists h, payload. split; [exact H1|exact H2].
Defined.

(** Handling an ACK never moves the congestion window or the round-trip estimate:
    the fast-retransmit check records the new [ack_seq] first, so the acknowledgement is never
    new to [process_ack]. *)
Theorem ack_never_moves_window m clock header payload r s :
  tm_sessions m !! handler_key m r = Some s ->
  exists s', tm_sessions (TransportManager_handle_ack_frame m clock header payload)
               !! handler_key m r = Some s'
    /\ rs_cwnd s' = rs_cwnd s /\ rs_srtt s' = rs_srtt s /\ rs_rttvar s' = rs_rttvar s
    /\ rs_rto s' = rs_rto s.
Proof.
  intros Hs. unfold TransportManager_handle_ack_frame.
  destruct (decode_ack_payload _ _) as [ack| |]; [|by exists s..].
  destruct (tm_sessions m !! handler_key m (fh_src_node header)) as [s0|] eqn:Hs0; [|by exists s].
  assert (Hf : let s1 := (ReliableSession_process_ack_for_fast_retransmit s0 ack).1 in
     ack_ack_seq ack <= rs_last_ack_seq s1 /\ rs_cwnd s1 = rs_cwnd s0 /\ rs_srtt s1 = rs_srtt s0
     /\ rs_rttvar s1 = rs_rttvar s0 /\ rs_rto s1 = rs_rto s0).
  { unfold ReliableSession_process_ack_for_fast_retransmit. cbv zeta.
    repeat case_match; cbn; zbool; split_and!; done || lia. }
  destruct (ReliableSession_process_ack_for_fast_retransmit s0 ack) as [s1 rt]. cbn in Hf.
  destruct Hf as (Hle & Hc & Hrt & Hrv & Hro).
  pose proof (process_ack_spec s1 clock ack) as Hp.
  destruct (ReliableSession_process_ack s1 clock ack) as [s2 removed].
  destruct Hp as (_ & _ & _ & _ & _ & _ & _ & _ & _ & _ & _ & _ & _ & _ & _ & _ & Hp).
  destruct (Hp Hle) as (Hc2 & Hrt2 & Hrv2 & Hro2). cbn [fst].
  match goal with |- context [put_session ?m1 _ s2] => set (m1' := m1) end.
  assert (Hm1 : tm_sessions m1' = tm_sessions m).
  { subst m1'. destruct rt; [|done]. case_match; [apply send_frame_to_peer_fields|done]. }
  cbn. rewrite Hm1. destruct (decide (fh_src_node header = r)) as [<-|Hne].
  - rewrite lookup_insert_eq. eexists. split; [done|].
    assert (s0 = s) as -> by congruence. split_and!; congruence.
  - rewrite lookup_insert_ne by (by intros ?%handler_key_inj). by exists s.
Qed.

Lemma ack_never_moves_window_witness :
  exists s', tm_sessions (TransportManager_handle_ack_frame sample_manager (fun _ => 10 ^ 9)
      (mkFrameHeader MAGIC VERSION FrameType_Ack 0 2 1 0 0 0 0) (encode_ack_payload (mkAckPayload 5 1 0 None)))
      !! handler_key sample_manager 2 = Some s' /\ rs_cwnd s' = 64.
Proof.
  destruct (ack_never_moves_window sample_manager (fun _ => 10 ^ 9)
    (mkFrameHeader MAGIC VERSION FrameType_Ack 0 2 1 0 0 0 0)
    (encode_ack_payload (mkAckPayload 5 1 0 None)) 2 (ReliableSession_new 1 2 100 200 8 64))
    as (s' & H1 & H2 & _); [reflexivity|].
  exists s'. split; [exact H1|exact H2].
Defined.

(** [grant_credits] never sends a CREDIT frame: the condition for sending one
    includes that no ACK is due, and eight credits make an ACK due. The credits only wait for the
    next ACK. *)
Theorem grant_credits_waits m r count :
  tm_peer_senders (TransportManager_grant_credits m r count) = tm_peer_senders m.
Proof.
  unfold TransportManager_grant_credits. destruct (current_session m r) as [[key s]|]; [|done].
  cbv zeta. unfold ReliableSession_should_send_ack.
  cbn [set_field rs_credits_to_grant rs_frames_since_last_ack].
  destruct (8 <=? wrap 32 _); [by rewrite orb_true_r|done].
Qed.
