(* ===== verification/Network.v ===== *)
(** * Network: two sessions over an unreliable network

    A sender session and a receiver session of crates/ub-transport/src/session.rs
    joined by a network that may lose, repeat, delay and reorder: everything
    ever put on the wire may arrive any number of times, or never. The steps are
    the calls the manager makes: [send] (credit, then [assign_seq]), the arrival
    of a data frame ([receive_frame]), an ACK being built, an ACK arriving (the
    fast-retransmit check, then [process_ack]) and the retransmission timer. Safety holds
    whatever the network does; recovery is shown from what the timer sends again and the
    manager of the receiver answers, nothing else being delivered. *)

From stdpp Require Import relations.
From S2P Require Import Prelude Bytes Types Addr Frame Float Dedup ReadCache Session Manager.

Record Net : Type := mkNet {
  nt_sender : ReliableSession;
  nt_receiver : ReliableSession;
  nt_data : list Z;                   (** numbers of the frames put on the wire *)
  nt_acks : list AckPayload;          (** ACKs put on the wire *)
  nt_removed : list RetransmitEntry;  (** entries the sender dropped on an ACK *)
  nt_delivered : list Z;              (** what the receiver delivered, in order *)
}.

Definition net_init (rto_base_ms max_retries credits : Z) : Net :=
  mkNet (ReliableSession_new 1 2 100 rto_base_ms max_retries credits)
        (ReliableSession_new 2 1 100 rto_base_ms max_retries credits) [] [] [] [].

Definition net_send (n : Net) (t1 t2 : Z) (frame : bytes) (ff : bool) (opaque : Z) : option Net :=
  if decide (rs_state (nt_sender n) = SessionState_Active) then
    match ReliableSession_consume_credit (nt_sender n) with
    | Ok s =>
      let '(s, _, seq) := ReliableSession_assign_seq s t1 t2 frame ff opaque in
      Some (mkNet s (nt_receiver n) (nt_data n ++ [seq]) (nt_acks n) (nt_removed n) (nt_delivered n))
    | _ => None
    end
  else None.

Definition net_arrive (n : Net) (seq : Z) : Net :=
  let '(r, act) := ReliableSession_receive_frame (nt_receiver n) seq in
  mkNet (nt_sender n) r (nt_data n) (nt_acks n) (nt_removed n)
    (if decide (act = ReceiveAction_Deliver) then nt_delivered n ++ [seq] else nt_delivered n).

Definition net_build_ack (n : Net) (has_gap : bool) : Net :=
  let '(r, ack) := ReliableSession_build_ack_payload (nt_receiver n) has_gap in
  mkNet (nt_sender n) r (nt_data n) (nt_acks n ++ [ack]) (nt_removed n) (nt_delivered n).

Definition net_ack (n : Net) (clock : Z -> Z) (ack : AckPayload) : Net :=
  let '(s, _) := ReliableSession_process_ack_for_fast_retransmit (nt_sender n) ack in
  let '(s, removed) := ReliableSession_process_ack s clock ack in
  mkNet s (nt_receiver n) (nt_data n) (nt_acks n) (nt_removed n ++ removed) (nt_delivered n).

Definition net_timer (n : Net) (now : Z) : Net :=
  let '(s, seqs) := ReliableSession_check_rto (nt_sender n) now in
  mkNet s (nt_receiver n) (nt_data n ++ seqs) (nt_acks n) (nt_removed n) (nt_delivered n).

(** The numbers of a session do not run out. *)
Definition has_numbers (n : Net) : Prop := rs_next_seq (nt_sender n) + 1026 < 2 ^ 64.

Inductive net_step : Net -> Net -> Prop :=
| step_send n n' t1 t2 frame ff opaque :
    has_numbers n -> net_send n t1 t2 frame ff opaque = Some n' -> net_step n n'
| step_arrive n seq : seq ∈ nt_data n -> net_step n (net_arrive n seq)
| step_build_ack n has_gap : net_step n (net_build_ack n has_gap)
| step_ack n clock ack : ack ∈ nt_acks n -> net_step n (net_ack n clock ack)
| step_timer n now : net_step n (net_timer n now).

(** ** Invariant *)

Definition seen (n : Net) (q : Z) : Prop := DedupWindow_is_seen (rs_dedup (nt_receiver n)) q = true.

(** The number of an entry that is still queued. *)
Definition queued (n : Net) (q : Z) : Prop := q ∈ map re_seq (rs_retransmit_queue (nt_sender n)).

Record net_ok (n : Net) : Prop := {
  no_sender : session_ok (nt_sender n);
  no_receiver : session_ok (nt_receiver n);
  no_sdedup : dw_next_expected (rs_dedup (nt_sender n)) = 1;
  no_rnext : rs_next_seq (nt_receiver n) = 1;
  no_numbers : rs_next_seq (nt_sender n) + 1025 < 2 ^ 64;
  no_data : Forall (fun q => 1 <= q < rs_next_seq (nt_sender n)) (nt_data n);
  no_sent : forall q, 1 <= q < rs_next_seq (nt_sender n) -> q ∈ nt_data n;
  no_seen : forall q, 1 <= q -> seen n q -> q < rs_next_seq (nt_sender n);
  no_grants : u32 (rs_credits_to_grant (nt_receiver n));
  no_acks : forall ack, ack ∈ nt_acks n ->
    u64 (ack_ack_seq ack) /\ u32 (ack_credit_grant ack)
    /\ forall q, 1 <= q <= ack_ack_seq ack -> seen n q;
  no_removed : forall e, e ∈ nt_removed n -> seen n (re_seq e);
  no_kept : rs_state (nt_sender n) = SessionState_Active ->
    forall q, 1 <= q < rs_next_seq (nt_sender n) -> queued n q \/ q ∈ map re_seq (nt_removed n);
  no_delivered : StronglySorted Z.lt (nt_delivered n)
    /\ Forall (fun q => 1 <= q < dw_next_expected (rs_dedup (nt_receiver n))) (nt_delivered n);
}.

Lemma net_init_ok rto mx credits :
  0 <= mx < 2 ^ 32 - 1 -> u32 credits -> net_ok (net_init rto mx credits).
Proof.
  intros Hm Hc.
  assert (Hns : forall q, 1 <= q -> ~ seen (net_init rto mx credits) q).
  { intros q Hq. unfold seen. cbn [net_init nt_receiver ReliableSession_new rs_dedup].
    rewrite is_seen_bits by (lia || by apply DedupWindow_new_inv). cbn.
    rewrite Z.bits_0, orb_false_r, Z.ltb_lt. lia. }
  constructor; try (by apply session_new_ok); cbn [net_init nt_sender nt_receiver nt_data nt_acks
    nt_removed nt_delivered ReliableSession_new rs_next_seq rs_credits_to_grant rs_dedup DedupWindow_new dw_next_expected]; try done; try lia.
  - intros q Hq Hs. by destruct (Hns q Hq).
  - intros ack ?%elem_of_nil. done.
  - intros e ?%elem_of_nil. done.
  - split; constructor.
Qed.

(** The receiver is never ahead of the sender. *)
Lemma net_next_expected n :
  net_ok n -> dw_next_expected (rs_dedup (nt_receiver n)) <= rs_next_seq (nt_sender n).
Proof.
  intros Hn. destruct (Z.le_gt_cases (dw_next_expected (rs_dedup (nt_receiver n)))
    (rs_next_seq (nt_sender n))) as [|Hgt]; [done|].
  pose proof (so_next _ (no_sender _ Hn)).
  assert (seen n (rs_next_seq (nt_sender n))) as Hs.
  { unfold seen. rewrite is_seen_bits by (lia || apply (so_dedup _ (no_receiver _ Hn))).
    by rewrite (proj2 (Z.ltb_lt _ _)) by lia. }
  apply (no_seen _ Hn) in Hs; lia.
Qed.

Lemma consume_credit_fields s s1 :
  ReliableSession_consume_credit s = Ok s1 ->
  rs_next_seq s1 = rs_next_seq s /\ rs_retransmit_queue s1 = rs_retransmit_queue s
  /\ rs_dedup s1 = rs_dedup s /\ rs_state s1 = rs_state s.
Proof. unfold ReliableSession_consume_credit. case_match; [done|]. intros [= <-]. done. Qed.

Lemma net_send_ok n t1 t2 frame ff opaque n' :
  net_ok n -> has_numbers n -> net_send n t1 t2 frame ff opaque = Some n' -> net_ok n'.
Proof.
  intros Hn Hnum Hstep. unfold net_send, has_numbers in *.
  case_decide as Ha; [|done]. destruct Hn as [Hs Hr Hsd Hrn Hnm Hd Hst Hsn Hg Hak Hrm Hk Hdl].
  pose proof (so_next _ Hs) as Hpos.
  pose proof (session_step_ok (nt_sender n) Op_consume_credit Hs I ltac:(lia) ltac:(lia)) as [Hs1 _].
  cbn [session_step fst] in Hs1.
  destruct (ReliableSession_consume_credit (nt_sender n)) as [s1| |] eqn:Econs; try done.
  destruct (consume_credit_fields _ _ Econs) as (Hn1 & Hq1 & Hd1 & Hst1).
  pose proof (session_step_ok s1 (Op_assign_seq t1 t2 frame ff opaque) Hs1 I ltac:(lia)
    ltac:(rewrite Hd1; lia)) as [Hs2 _].
  assert (Hw : wrap 64 (rs_next_seq s1 + 1) = rs_next_seq (nt_sender n) + 1)
    by (rewrite wrap_small; [|unfold fits]; lia).
  cbn in Hs2. unfold ReliableSession_assign_seq in Hstep. cbv zeta in Hstep. simplify_eq.
  constructor; cbn; try exact Hs2; rewrite ?Hw, ?Hd1, ?Hq1, ?Hn1; try done; try lia.
  - apply Forall_app. split; [eapply Forall_impl; [exact Hd|]; cbn; lia|].
    constructor; [lia|constructor].
  - intros q Hq. rewrite elem_of_app, elem_of_cons.
    destruct (decide (q = rs_next_seq (nt_sender n))); [by right; left|left; apply Hst; lia].
  - intros q Hq Hse. specialize (Hsn q Hq Hse). lia.
  - intros _ q Hq. unfold queued in *. cbn. rewrite ?Hq1, ?Hn1, map_app, elem_of_app.
    destruct (decide (q = rs_next_seq (nt_sender n))) as [->|].
    + left. right. by left.
    + destruct (Hk Ha q ltac:(lia)); [left; by left|by right].
Qed.

Lemma net_arrive_ok n seq : net_ok n -> seq ∈ nt_data n -> net_ok (net_arrive n seq).
Proof.
  intros Hn Hin. pose proof (net_next_expected n Hn) as Hne.
  destruct Hn as [Hs Hr Hsd Hrn Hnm Hd Hst Hsn Hg Hak Hrm Hk [Hdl1 Hdl2]].
  pose proof (so_next _ Hs). pose proof Hd as Hd'. eapply Forall_forall in Hd'; [|done].
  assert (Hseq : 1 <= seq < 2 ^ 64) by lia.
  pose proof (session_step_ok (nt_receiver n) (Op_receive_frame seq) Hr Hseq ltac:(lia) ltac:(lia)) as [Hr1 _].
  pose proof (receive_frame_spec (nt_receiver n) seq Hr Hseq ltac:(lia)) as Hspec.
  assert (Hf : u32 (rs_credits_to_grant (ReliableSession_receive_frame (nt_receiver n) seq).1)
    /\ rs_next_seq (ReliableSession_receive_frame (nt_receiver n) seq).1 = 1).
  { unfold ReliableSession_receive_frame. cbv zeta.
    destruct (DedupWindow_check _ _); (split; [apply wrap_fits; lia|done]). }
  unfold net_arrive. cbn [session_step] in Hr1.
  destruct (ReliableSession_receive_frame (nt_receiver n) seq) as [r1 act]. cbn [fst] in *.
  destruct Hspec as (_ & Hdel & Hdel' & Hmono & Hseen).
  assert (Hmseen : forall q, 1 <= q -> seen n q -> DedupWindow_is_seen (rs_dedup r1) q = true).
  { intros q Hq Hse. unfold seen in Hse. rewrite Hseen, Hse by lia. done. }
  constructor; cbn; try done; try apply Hf.
  - intros q Hq. unfold seen. cbn. rewrite Hseen by lia. intros [Hse|[Heq _]%andb_true_iff]%orb_true_iff.
    + by apply Hsn.
    + zbool. lia.
  - intros ack Ha. destruct (Hak ack Ha) as (? & ? & Hq). split_and!; try done.
    intros q Hqq. apply Hmseen; [lia|by apply Hq].
  - intros e He. destruct (decide (1 <= re_seq e)).
    + apply Hmseen; [done|by apply Hrm].
    + unfold seen. cbn. pose proof (so_first _ Hr1). cbn.
      unfold DedupWindow_is_seen. by rewrite (proj2 (Z.ltb_lt _ _)) by lia.
  - pose proof (so_first _ Hr). case_decide as Hact; [|split; [done|eapply Forall_impl; [exact Hdl2|]; cbn; lia]].
    specialize (Hdel Hact). specialize (Hdel' Hact). split.
    + apply StronglySorted_snoc; [done|]. eapply Forall_impl; [exact Hdl2|]. cbn. lia.
    + apply Forall_app. split; [eapply Forall_impl; [exact Hdl2|]; cbn; lia|].
      constructor; [lia|constructor].
Qed.

Lemma net_build_ack_ok n g : net_ok n -> net_ok (net_build_ack n g).
Proof.
  intros Hn. pose proof (net_next_expected n Hn) as Hne.
  destruct Hn as [Hs Hr Hsd Hrn Hnm Hd Hst Hsn Hg Hak Hrm Hk Hdl].
  pose proof (so_first _ Hr). pose proof (so_next _ Hs).
  pose proof (session_step_ok (nt_receiver n) (Op_build_ack g) Hr I ltac:(lia) ltac:(lia)) as [Hr1 _].
  unfold net_build_ack. cbn [session_step] in Hr1. unfold ReliableSession_build_ack_payload in *.
  cbv zeta in *. set (bm := if g then Some _ else None) in *. clearbody bm. cbn in Hr1.
  constructor; cbn; try done.
  intros ack [Ha|[->|?%elem_of_nil]%elem_of_cons]%elem_of_app; [by apply Hak| |done].
  cbn. split; [ulia|]. split; [done|]. intros q Hq. unfold seen. cbn.
  rewrite is_seen_bits by (lia || apply (so_dedup _ Hr)).
  rewrite (proj2 (Z.ltb_lt _ _)); [done|]. ulia.
Qed.

Lemma net_ack_ok n clock ack : net_ok n -> ack ∈ nt_acks n -> net_ok (net_ack n clock ack).
Proof.
  intros Hn Hin. destruct Hn as [Hs Hr Hsd Hrn Hnm Hd Hst Hsn Hg Hak Hrm Hk Hdl].
  destruct (Hak ack Hin) as (Ha1 & Ha2 & Hseen). pose proof (so_next _ Hs).
  pose proof (session_step_ok (nt_sender n) (Op_fast_retransmit ack) Hs (conj Ha1 Ha2)
    ltac:(lia) ltac:(lia)) as [Hs1 _].
  assert (Hf : let s1 := (ReliableSession_process_ack_for_fast_retransmit (nt_sender n) ack).1 in
    rs_next_seq s1 = rs_next_seq (nt_sender n) /\ rs_dedup s1 = rs_dedup (nt_sender n)
    /\ rs_retransmit_queue s1 = rs_retransmit_queue (nt_sender n)
    /\ rs_state s1 = rs_state (nt_sender n)).
  { unfold ReliableSession_process_ack_for_fast_retransmit. cbv zeta. by repeat case_match. }
  unfold net_ack. cbn [session_step] in Hs1.
  destruct (ReliableSession_process_ack_for_fast_retransmit (nt_sender n) ack) as [s1 rt].
  cbn [fst] in *. destruct Hf as (Hn1 & Hd1 & Hq1 & Hst1).
  pose proof (session_step_ok s1 (Op_process_ack clock ack) Hs1 (conj Ha1 Ha2)
    ltac:(lia) ltac:(rewrite Hd1; lia)) as [Hs2 _].
  pose proof (process_ack_spec s1 clock ack) as Hp. cbn [session_step] in Hs2.
  destruct (ReliableSession_process_ack s1 clock ack) as [s2 removed]. cbn [fst] in *.
  destruct Hp as (Hrem & Hq2 & _ & Hst2 & Hn2 & Hd2 & _).
  constructor; cbn; rewrite ?Hn2, ?Hn1, ?Hd2, ?Hd1; try done.
  - intros e [He|He]%elem_of_app; [by apply Hrm|]. rewrite Hrem in He.
    apply list_elem_of_filter in He as [Hacked He]. unfold acked in Hacked. zbool.
    pose proof (so_entries _ Hs1) as Hent. eapply Forall_forall in Hent as [Hpos _]; [|done].
    apply Hseen. lia.
  - intros Hact q Hq. unfold queued. cbn. rewrite map_app, elem_of_app.
    destruct (Hk ltac:(congruence) q Hq) as [Hqq|?]; [|by right; left].
    unfold queued in Hqq. apply list_elem_of_fmap in Hqq as (e & -> & He).
    destruct (decide (acked (ack_ack_seq ack) e = true)).
    + right. right. rewrite Hrem. apply list_elem_of_fmap_2. apply list_elem_of_filter. by rewrite Hq1.
    + left. rewrite Hq2. apply list_elem_of_fmap_2. apply list_elem_of_filter. by rewrite Hq1.
Qed.

Lemma net_timer_ok n now : net_ok n -> net_ok (net_timer n now).
Proof.
  intros Hn. destruct Hn as [Hs Hr Hsd Hrn Hnm Hd Hst Hsn Hg Hak Hrm Hk Hdl].
  pose proof (check_rto_ok (nt_sender n) now Hs) as Hs1.
  assert (Hf : let '(s1, seqs) := ReliableSession_check_rto (nt_sender n) now in
    rs_next_seq s1 = rs_next_seq (nt_sender n) /\ rs_dedup s1 = rs_dedup (nt_sender n)
    /\ Forall (fun q => 1 <= q < rs_next_seq (nt_sender n)) seqs
    /\ (rs_state s1 = SessionState_Active -> rs_state (nt_sender n) = SessionState_Active
         /\ map re_seq (rs_retransmit_queue s1) = map re_seq (rs_retransmit_queue (nt_sender n)))).
  { pose proof (so_entries _ Hs) as Hent. unfold ReliableSession_check_rto. case_decide; [done|].
    destruct (check_rto_loop_spec now (rs_rto_base_ms (nt_sender n)) (rs_max_retries (nt_sender n))
      (rs_retransmit_queue (nt_sender n))) as [[_ Hkill]|[_ ->]].
    - destruct (check_rto_loop _ _ _ _) as [[q sq] k]. cbn in Hkill. subst k. by split_and!.
    - assert (Hsq : Forall (fun q => 1 <= q < rs_next_seq (nt_sender n))
        (map re_seq (filter (fun e => expired now e = true) (rs_retransmit_queue (nt_sender n))))).
      { apply Forall_fmap. eapply Forall_sublist; [apply sublist_filter|].
        eapply Forall_impl; [exact Hent|]. by intros e [? _]. }
      assert (Hm : map re_seq (map (bump_entry now (rs_rto_base_ms (nt_sender n)))
          (rs_retransmit_queue (nt_sender n))) = map re_seq (rs_retransmit_queue (nt_sender n))).
      { rewrite map_map. apply map_ext. intros. apply bump_entry_seq. }
      destruct (map re_seq (filter _ _)) eqn:E; [by split_and!|].
      unfold ReliableSession_on_loss. cbv zeta. destruct (_ <? 2); by split_and!. }
  unfold net_timer. destruct (ReliableSession_check_rto (nt_sender n) now) as [s1 seqs].
  cbn [fst] in *. destruct Hf as (Hn1 & Hd1 & Hsq & Hstate).
  constructor; cbn; rewrite ?Hn1, ?Hd1; try done.
  - by apply Forall_app.
  - intros q Hq. apply elem_of_app. left. by apply Hst.
  - intros Hact q Hq. destruct (Hstate Hact) as [Ha Hm].
    destruct (Hk Ha q Hq) as [Hqq|?]; [left|by right]. unfold queued in *. cbn. by rewrite Hm.
Qed.

Lemma net_step_ok n n' : net_ok n -> net_step n n' -> net_ok n'.
Proof.
  intros Hn. inversion 1; subst;
    eauto using net_send_ok, net_arrive_ok, net_build_ack_ok, net_ack_ok, net_timer_ok.
Qed.

Lemma net_reachable_ok n n' : net_ok n -> rtc net_step n n' -> net_ok n'.
Proof. intros Hn. induction 1; eauto using net_step_ok. Qed.

(** ** Properties *)

(** C2 (safety): End to end over a network that loses, repeats and reorders. In every reachable
    state: while the sender's session lives, each frame it ever sent is either still queued for
    retransmission or has been received; an entry leaves the queue on an ACK only if the
    receiver really received it; the receiver accepted nothing that was not sent; and what it
    delivered was sent and is strictly increasing, so nothing is delivered twice. *)
Theorem network_reliable rto_base_ms max_retries credits n :
  0 <= max_retries < 2 ^ 32 - 1 -> u32 credits ->
  rtc net_step (net_init rto_base_ms max_retries credits) n ->
  (rs_state (nt_sender n) = SessionState_Active ->
     forall q, 1 <= q < rs_next_seq (nt_sender n) -> queued n q \/ seen n q)
  /\ (forall e, e ∈ nt_removed n -> seen n (re_seq e))
  /\ (forall q, 1 <= q -> seen n q -> q ∈ nt_data n)
  /\ StronglySorted Z.lt (nt_delivered n) /\ Forall (fun q => q ∈ nt_data n) (nt_delivered n).
Proof.
  intros Hm Hc Hrun. pose proof (net_reachable_ok _ _ (net_init_ok rto_base_ms _ _ Hm Hc) Hrun) as Hn.
  pose proof (net_next_expected n Hn) as Hne.
  destruct Hn as [Hs Hr Hsd Hrn Hnm Hd Hst Hsn Hg Hak Hrm Hk [Hdl1 Hdl2]].
  split_and!; try done.
  - intros Ha q Hq. destruct (Hk Ha q Hq) as [?|Hin]; [by left|right].
    apply list_elem_of_fmap in Hin as (e & -> & He). by apply Hrm.
  - intros q Hq Hse. apply Hst. split; [done|by apply Hsn].
  - eapply Forall_impl; [exact Hdl2|]. intros q Hq. cbn in Hq. apply Hst. lia.
Qed.

(** *** Recovery

    Everything that was on the wire may be gone. What is left to rely on is the timer of the sender,
    which sends again what is still queued, and the receiver, which answers. *)

(** Whether the receiver acknowledges at once ([handle_data_frame]). *)
Definition acks_now (act : ReceiveAction) (receiver : ReliableSession) : bool :=
  match act with
  | ReceiveAction_BeyondWindow => false
  | ReceiveAction_Duplicate | ReceiveAction_OutOfOrder => true
  | ReceiveAction_Deliver => ReliableSession_should_send_ack receiver
  end.

(** A frame arrives and the receiver reacts: the part of
    [TransportManager_handle_data_frame] that concerns the session. *)
Definition net_receive (n : Net) (seq : Z) : Net :=
  let act := (ReliableSession_receive_frame (nt_receiver n) seq).2 in
  let n := net_arrive n seq in
  if acks_now act (nt_receiver n) then net_build_ack n (bool_decide (act = ReceiveAction_OutOfOrder)) else n.

Lemma send_frame_senders m m' peer frame :
  tm_peer_senders m = tm_peer_senders m' ->
  tm_peer_senders (TransportManager_send_frame_to_peer m peer frame)
  = tm_peer_senders (TransportManager_send_frame_to_peer m' peer frame).
Proof. intros H. unfold TransportManager_send_frame_to_peer. rewrite H. by repeat case_match. Qed.

Lemma build_ack_key s g : rs_key (ReliableSession_build_ack_payload s g).1 = rs_key s.
Proof. reflexivity. Qed.

(** The manager of the receiving node does this to its session, and sends these ACKs. *)
Lemma net_receive_manager m header ext payload n :
  let key := handler_key m (fh_src_node header) in
  tm_sessions m !! key = Some (nt_receiver n) -> rs_state (nt_receiver n) = SessionState_Active ->
  fh_stream_seq header <> 0 ->
  let m' := TransportManager_handle_data_frame m header ext payload in
  let n' := net_receive n (fh_stream_seq header) in
  tm_sessions m' !! key = Some (nt_receiver n')
  /\ exists acks, nt_acks n' = nt_acks n ++ acks
     /\ tm_peer_senders m' = tm_peer_senders (foldl (fun m ack =>
          TransportManager_send_frame_to_peer m (sk_remote_node (rs_key (nt_receiver n)))
            (build_ack_frame (tm_local_node_id m) (fh_src_node header) ack)) m acks).
Proof.
  intros key Hs Ha Hseq. cbv zeta. unfold TransportManager_handle_data_frame.
  rewrite (proj2 (Z.eqb_neq _ _)) by done. fold key. rewrite Hs, decide_False by congruence.
  assert (Hkey : rs_key (ReliableSession_receive_frame (nt_receiver n) (fh_stream_seq header)).1 = rs_key (nt_receiver n)).
  { unfold ReliableSession_receive_frame. cbv zeta. by destruct (DedupWindow_check _ _). }
  unfold net_receive, net_arrive.
  destruct (ReliableSession_receive_frame (nt_receiver n) (fh_stream_seq header)) as [s act]. cbn [fst snd] in *.
  cbn [nt_receiver]. rewrite <- Hkey. set (m1 := put_session m key s).
  assert (Hm2 : exists m2, match act with
            | ReceiveAction_Deliver => send_inbound m1 (mkInboundFrame header ext payload (fh_stream_seq header))
            | ReceiveAction_Duplicate => if is_request_verb (de_verb ext)
                then send_inbound m1 (mkInboundFrame header ext payload (fh_stream_seq header)) else m1
            | _ => m1 end = m2 /\ tm_sessions m2 !! key = Some s /\ tm_peer_senders m2 = tm_peer_senders m
            /\ tm_local_node_id m2 = tm_local_node_id m).
  { eexists. split; [reflexivity|]. destruct act; try destruct (is_request_verb _);
      (split; [apply lookup_insert_eq|done]). }
  destruct Hm2 as (m2 & -> & Hs2 & Hp2 & Hl2).
  assert (Hcond : acks_now act s = if decide (act = ReceiveAction_BeyondWindow) then false
            else bool_decide (act = ReceiveAction_Duplicate) || bool_decide (act = ReceiveAction_OutOfOrder)
                 || ReliableSession_should_send_ack s) by (by destruct act).
  rewrite Hcond. case_decide.
  { split; [done|]. exists []. by rewrite app_nil_r. }
  destruct (_ || _).
  - unfold net_build_ack. cbn [nt_receiver nt_acks nt_sender nt_data nt_removed nt_delivered].
    destruct (ReliableSession_build_ack_payload s _) as [s' ack] eqn:Eb.
    assert (rs_key s' = rs_key s) as -> by (by rewrite <- (build_ack_key s (bool_decide (act = ReceiveAction_OutOfOrder))), Eb).
    cbn [nt_receiver nt_acks]. split.
    + destruct (send_frame_to_peer_fields (put_session m2 key s') (sk_remote_node (rs_key s))
        (build_ack_frame (tm_local_node_id (put_session m2 key s')) (fh_src_node header) ack)) as (-> & _).
      apply lookup_insert_eq.
    + exists [ack]. split; [done|]. cbn [foldl]. rewrite <- Hl2. by apply send_frame_senders.
  - split; [done|]. exists []. by rewrite app_nil_r.
Qed.

Definition receive_all (n : Net) (seqs : list Z) : Net := foldl net_receive n seqs.

(** One round: the timer of the sender fires; of all that was ever on the wire only what it sends
    again arrives, and then the ACKs this brings about. *)
Definition recovery_round (n : Net) (now : Z) (clock : Z -> Z) : Net :=
  let resent := (ReliableSession_check_rto (nt_sender n) now).2 in
  let n1 := net_timer n now in
  let n2 := receive_all n1 resent in
  foldl (fun n ack => net_ack n clock ack) n2 (drop (length (nt_acks n1)) (nt_acks n2)).

Definition due (n : Net) (now : Z) : Prop :=
  Forall (fun e => re_rto_deadline e <= now) (rs_retransmit_queue (nt_sender n)).

Definition requests (q : list RetransmitEntry) : list Z :=
  map re_seq (filter (fun e => re_is_fire_and_forget e = false) q).

Definition all_seen (n : Net) : Prop := forall q, 1 <= q < rs_next_seq (nt_sender n) -> seen n q.

(** What a part of a round leaves alone, and what it adds. *)
Record extends (n n' : Net) : Prop := {
  ex_steps : rtc net_step n n';
  ex_next : rs_next_seq (nt_sender n') = rs_next_seq (nt_sender n);
  ex_requests : requests (rs_retransmit_queue (nt_sender n')) = requests (rs_retransmit_queue (nt_sender n));
  ex_delivered : nt_delivered n `prefix_of` nt_delivered n';
  ex_seen : forall q, 1 <= q -> seen n q -> seen n' q;
  ex_new : forall q, 1 <= q -> seen n' q -> seen n q \/ q ∈ nt_delivered n';
}.

Lemma extends_refl n : extends n n.
Proof. constructor; done || auto. Qed.

Lemma extends_trans n1 n2 n3 : extends n1 n2 -> extends n2 n3 -> extends n1 n3.
Proof.
  intros [A1 A2 A3 A4 A5 A6] [B1 B2 B3 B4 B5 B6]. constructor; try (by etransitivity); try congruence; auto.
  intros q Hq Hs. destruct (B6 q Hq Hs) as [Hs2|]; [|by right]. destruct (A6 q Hq Hs2) as [|Hd]; [by left|right].
  destruct B4 as [l ->]. apply elem_of_app. by left.
Qed.

Lemma extends_sender n n' :
  rtc net_step n n' -> nt_receiver n' = nt_receiver n -> nt_delivered n' = nt_delivered n ->
  rs_next_seq (nt_sender n') = rs_next_seq (nt_sender n) ->
  requests (rs_retransmit_queue (nt_sender n')) = requests (rs_retransmit_queue (nt_sender n)) ->
  extends n n'.
Proof. intros ? Hr Hd ? ?. constructor; unfold seen; rewrite ?Hr, ?Hd; done || auto. Qed.

(** *** The receiver *)

Lemma net_build_ack_extends n g : extends n (net_build_ack n g).
Proof.
  unfold net_build_ack, ReliableSession_build_ack_payload. cbv zeta.
  constructor; cbn [nt_sender nt_delivered]; [apply rtc_once, (step_build_ack n g)|done || auto..].
Qed.

Lemma receive_frame_next s :
  session_ok s -> dw_next_expected (rs_dedup s) + 1024 < 2 ^ 64 ->
  (ReliableSession_receive_frame s (dw_next_expected (rs_dedup s))).2 = ReceiveAction_Deliver.
Proof.
  intros Hs Hroom. pose proof (so_dedup _ Hs) as Hinv. pose proof (so_first _ Hs).
  unfold ReliableSession_receive_frame. cbv zeta. cbn [set_field rs_dedup].
  by rewrite check_seen, (is_seen_next _ Hinv), Z.eqb_refl by (done || lia).
Qed.

(** The next frame the receiver misses is the lowest number it has not seen. *)
Lemma unseen_next n q :
  net_ok n -> 1 <= q < rs_next_seq (nt_sender n) -> ~ seen n q -> (forall p, 1 <= p < q -> seen n p) ->
  q = dw_next_expected (rs_dedup (nt_receiver n)).
Proof.
  intros Hn Hq Hns Hlow. pose proof (no_receiver _ Hn) as Hr. pose proof (so_first _ Hr).
  pose proof (is_seen_next _ (so_dedup _ Hr)) as Hnext.
  destruct (Z.lt_trichotomy q (dw_next_expected (rs_dedup (nt_receiver n)))) as [Hlt|[?|Hgt]]; [|done|].
  - destruct Hns. unfold seen. rewrite is_seen_bits by (lia || apply (so_dedup _ Hr)).
    by rewrite (proj2 (Z.ltb_lt _ _)) by lia.
  - specialize (Hlow (dw_next_expected (rs_dedup (nt_receiver n))) ltac:(lia)). unfold seen in Hlow. congruence.
Qed.

(** A frame that is a duplicate or the next to come. *)
Lemma net_arrive_extends n q :
  net_ok n -> q ∈ nt_data n -> seen n q \/ q = dw_next_expected (rs_dedup (nt_receiver n)) ->
  let n' := net_arrive n q in
  extends n n' /\ nt_sender n' = nt_sender n /\ nt_data n' = nt_data n /\ nt_acks n' = nt_acks n /\ seen n' q
  /\ (seen n q -> (ReliableSession_receive_frame (nt_receiver n) q).2 = ReceiveAction_Duplicate).
Proof.
  intros Hn Hin Hc. cbv zeta. pose proof (no_receiver _ Hn) as Hr. pose proof (no_numbers _ Hn).
  pose proof (net_next_expected n Hn).
  pose proof (no_data _ Hn) as Hd. eapply Forall_forall in Hd; [|done]. cbn in Hd.
  pose proof (receive_frame_spec (nt_receiver n) q Hr ltac:(lia) ltac:(lia)) as Hspec.
  assert (Hnext : q = dw_next_expected (rs_dedup (nt_receiver n)) ->
            (ReliableSession_receive_frame (nt_receiver n) q).2 = ReceiveAction_Deliver)
    by (intros ->; apply receive_frame_next; [done|lia]).
  assert (Hstep : rtc net_step n (net_arrive n q)) by (by apply rtc_once, step_arrive).
  unfold net_arrive in *. destruct (ReliableSession_receive_frame (nt_receiver n) q) as [r act].
  destruct Hspec as (Hdup & _ & _ & _ & Hseen). cbn [snd] in *.
  assert (Hkeep : forall p, 1 <= p -> seen n p -> DedupWindow_is_seen (rs_dedup r) p = true)
    by (intros p Hp Hs; unfold seen in Hs; by rewrite Hseen, Hs by lia).
  split_and!; try done; [constructor; try done|..]; unfold seen in *; cbn [nt_receiver nt_delivered nt_sender].
  - case_decide; [by eexists|done].
  - intros p Hp Hs. rewrite Hseen in Hs by lia. apply orb_true_iff in Hs as [|[Heq Hacc]%andb_true_iff]; [by left|].
    zbool. subst p. destruct Hc as [Hc|Hc]; [by left|]. right. rewrite (Hnext Hc), decide_True by done.
    apply elem_of_app. right. by left.
  - destruct Hc as [Hc|Hc]; [apply Hkeep; [lia|done]|]. rewrite Hseen by lia.
    rewrite (Hnext Hc), Z.eqb_refl. by rewrite orb_true_r.
  - apply Hdup.
Qed.

Lemma net_receive_extends n q :
  net_ok n -> q ∈ nt_data n -> seen n q \/ q = dw_next_expected (rs_dedup (nt_receiver n)) ->
  let n' := net_receive n q in
  extends n n' /\ nt_sender n' = nt_sender n /\ nt_data n' = nt_data n /\ seen n' q
  /\ (exists acks, nt_acks n' = nt_acks n ++ acks /\ (seen n q -> acks <> [])
        /\ Forall (fun a => ack_ack_seq a = sat_sub (dw_next_expected (rs_dedup (nt_receiver n'))) 1) acks).
Proof.
  intros Hn Hin Hc. cbv zeta. destruct (net_arrive_extends n q Hn Hin Hc) as (Hx & Hs & Hd & Hk & Hq & Hdup).
  unfold net_receive. destruct (acks_now _ _) eqn:Ea.
  - pose proof (net_build_ack_extends (net_arrive n q)
      (bool_decide ((ReliableSession_receive_frame (nt_receiver n) q).2 = ReceiveAction_OutOfOrder))) as Hb.
    split; [by eapply extends_trans|].
    unfold net_build_ack, ReliableSession_build_ack_payload in *.
    cbn [nt_sender nt_data nt_acks nt_receiver] in *. split_and!; try done.
    rewrite Hk. match goal with |- context [nt_acks n ++ [?a]] => exists [a] end.
      split; [done|]. split; [done|]. by constructor.
  - split_and!; try done. exists []. split; [by rewrite app_nil_r|]. split; [|done]. intros H. by rewrite (Hdup H) in Ea.
Qed.

Lemma all_seen_next n :
  net_ok n -> all_seen n -> dw_next_expected (rs_dedup (nt_receiver n)) = rs_next_seq (nt_sender n).
Proof.
  intros Hn Hall. pose proof (net_next_expected n Hn). pose proof (so_first _ (no_receiver _ Hn)).
  destruct (decide (dw_next_expected (rs_dedup (nt_receiver n)) < rs_next_seq (nt_sender n))) as [Hlt|]; [|lia].
  pose proof (is_seen_next _ (so_dedup _ (no_receiver _ Hn))) as Hnext.
  specialize (Hall (dw_next_expected (rs_dedup (nt_receiver n))) ltac:(lia)). unfold seen in Hall. congruence.
Qed.

Lemma extends_all_seen n n' : extends n n' -> all_seen n -> all_seen n'.
Proof.
  intros Hx Hall q Hq. rewrite (ex_next _ _ Hx) in Hq. apply (ex_seen _ _ Hx); [lia|by apply Hall].
Qed.

(** The frames the receiver misses arrive in order, among duplicates. *)
Lemma receive_all_fills seqs n :
  net_ok n -> Forall (fun q => q ∈ nt_data n) seqs -> StronglySorted Z.lt seqs ->
  (forall q, 1 <= q < rs_next_seq (nt_sender n) -> seen n q \/ q ∈ seqs) ->
  let n' := receive_all n seqs in
  extends n n' /\ nt_sender n' = nt_sender n /\ all_seen n'
  /\ (exists acks, nt_acks n' = nt_acks n ++ acks
        /\ (all_seen n -> seqs <> [] -> acks <> [])
        /\ (all_seen n -> Forall (fun a => ack_ack_seq a = rs_next_seq (nt_sender n) - 1) acks)).
Proof.
  revert n. induction seqs as [|q seqs IH]; intros n Hn Hin Hsort Hcov; cbv zeta; cbn [receive_all foldl].
  { split; [apply extends_refl|]. split; [done|]. split.
    - intros q Hq. destruct (Hcov q Hq) as [|Hx]; [done|]. by apply elem_of_nil in Hx.
    - exists []. rewrite app_nil_r. split_and!; done || by constructor. }
  apply Forall_cons in Hin as [Hq Hin]. apply StronglySorted_inv in Hsort as [Hsort Hlt].
  pose proof (no_data _ Hn) as Hd. eapply Forall_forall in Hd as Hqr; [|done]. cbn in Hqr.
  assert (Hlow : forall p, 1 <= p < q -> seen n p).
  { intros p Hp. destruct (Hcov p ltac:(lia)) as [|[->|Hx]%elem_of_cons]; [done|lia|].
    eapply Forall_forall in Hlt; [|exact Hx]. cbn in Hlt. lia. }
  assert (Hc : seen n q \/ q = dw_next_expected (rs_dedup (nt_receiver n))).
  { destruct (decide (DedupWindow_is_seen (rs_dedup (nt_receiver n)) q = true)); [by left|right].
    apply unseen_next; [done|done| |done]. done. }
  destruct (net_receive_extends n q Hn Hq Hc) as (Hx & Hs & Hdt & Hqs & acks1 & Hk1 & Hne & Hval1).
  assert (Hn1 : net_ok (net_receive n q)) by (eapply net_reachable_ok; [exact Hn|apply Hx]).
  destruct (IH (net_receive n q) Hn1) as (Hx' & Hs' & Hall & acks2 & Hk2 & _ & Hval2);
    [by rewrite Hdt|done| |].
  { intros p Hp. rewrite Hs in Hp. destruct (Hcov p Hp) as [Hsn|[->|?]%elem_of_cons]; [left|by left|by right].
    apply (ex_seen _ _ Hx); [lia|done]. }
  split; [by eapply extends_trans|]. split; [unfold receive_all in *; congruence|]. split; [done|].
  exists (acks1 ++ acks2). split; [unfold receive_all in *; rewrite Hk2, Hk1, app_assoc; done|]. split.
  - intros Ha _. specialize (Hne (Ha q Hqr)). by destruct acks1.
  - intros Ha. pose proof (extends_all_seen _ _ Hx Ha) as Ha1. rewrite Hs in Hval2.
    apply Forall_app. split; [|by apply Hval2]. rewrite (all_seen_next _ Hn1 Ha1), Hs in Hval1.
    eapply Forall_impl; [exact Hval1|]. cbn. intros a ->. unfold sat_sub. lia.
Qed.

(** *** The sender *)

Lemma net_ack_effect n clock ack :
  let n' := net_ack n clock ack in
  nt_receiver n' = nt_receiver n /\ nt_delivered n' = nt_delivered n /\ nt_acks n' = nt_acks n
  /\ rs_state (nt_sender n') = rs_state (nt_sender n)
  /\ rs_next_seq (nt_sender n') = rs_next_seq (nt_sender n)
  /\ rs_max_retries (nt_sender n') = rs_max_retries (nt_sender n)
  /\ rs_retransmit_queue (nt_sender n')
     = filter (fun e => acked (ack_ack_seq ack) e <> true) (rs_retransmit_queue (nt_sender n)).
Proof.
  assert (Hf : let s1 := (ReliableSession_process_ack_for_fast_retransmit (nt_sender n) ack).1 in
    rs_next_seq s1 = rs_next_seq (nt_sender n) /\ rs_retransmit_queue s1 = rs_retransmit_queue (nt_sender n)
    /\ rs_state s1 = rs_state (nt_sender n) /\ rs_max_retries s1 = rs_max_retries (nt_sender n)).
  { unfold ReliableSession_process_ack_for_fast_retransmit. cbv zeta. by repeat case_match. }
  cbv zeta in *. unfold net_ack.
  destruct (ReliableSession_process_ack_for_fast_retransmit (nt_sender n) ack) as [s1 rt].
  cbn [fst] in Hf. destruct Hf as (H1 & H2 & H3 & H4). pose proof (process_ack_spec s1 clock ack) as Hp.
  destruct (ReliableSession_process_ack s1 clock ack) as [s2 removed].
  destruct Hp as (_ & Hq & _ & Hst & Hn & _ & _ & Hmx & _). cbn [nt_receiver nt_delivered nt_sender nt_acks].
  by rewrite Hst, Hn, Hq, Hmx, H1, H2, H3, H4.
Qed.

Lemma requests_unacked a q : requests (filter (fun e => acked a e <> true) q) = requests q.
Proof.
  unfold requests. induction q as [|e q IH]; [done|]. unfold acked in *. rewrite !filter_cons.
  destruct (re_is_fire_and_forget e) eqn:E; rewrite ?andb_true_r, ?andb_false_r.
  - case_decide; rewrite ?filter_cons, ?E; done.
  - rewrite decide_True by done. rewrite filter_cons, E, !decide_True by done. cbn. by f_equal.
Qed.

Definition ack_all (n : Net) (clock : Z -> Z) (acks : list AckPayload) : Net :=
  foldl (fun n ack => net_ack n clock ack) n acks.

Lemma ack_all_extends acks n clock :
  net_ok n -> Forall (fun a => a ∈ nt_acks n) acks ->
  let n' := ack_all n clock acks in
  extends n n' /\ rs_state (nt_sender n') = rs_state (nt_sender n)
  /\ rs_max_retries (nt_sender n') = rs_max_retries (nt_sender n)
  /\ sublist (rs_retransmit_queue (nt_sender n')) (rs_retransmit_queue (nt_sender n))
  /\ Forall (fun e => forall a, a ∈ acks -> acked (ack_ack_seq a) e <> true) (rs_retransmit_queue (nt_sender n')).
Proof.
  revert n. induction acks as [|a acks IH]; intros n Hn Hin; cbv zeta; cbn [ack_all foldl].
  { split; [apply extends_refl|]. split_and!; try done. apply Forall_forall. intros e _ a Ha. by apply elem_of_nil in Ha. }
  apply Forall_cons in Hin as [Ha Hin].
  destruct (net_ack_effect n clock a) as (Hr & Hd & Hk & Hst & Hnx & Hmx & Hq).
  assert (Hx : extends n (net_ack n clock a)).
  { apply extends_sender; try done; [by apply rtc_once, step_ack|]. by rewrite Hq, requests_unacked. }
  assert (Hn1 : net_ok (net_ack n clock a)) by (by apply net_ack_ok).
  destruct (IH _ Hn1) as (Hx' & Hst' & Hmx' & Hsub & Hall); [by rewrite Hk|]. unfold ack_all in *.
  assert (Hsub' : sublist (rs_retransmit_queue (nt_sender (net_ack n clock a))) (rs_retransmit_queue (nt_sender n)))
    by (rewrite Hq; apply sublist_filter).
  split; [by eapply extends_trans|]. split; [congruence|]. split; [congruence|]. split; [by etransitivity|].
  assert (Hfirst : Forall (fun e => acked (ack_ack_seq a) e <> true) (rs_retransmit_queue (nt_sender (net_ack n clock a))))
    by (rewrite Hq; apply Forall_forall; intros e [He _]%list_elem_of_filter; exact He).
  pose proof (Forall_sublist _ _ _ Hsub Hfirst) as Hf'.
  apply Forall_forall. intros e He b [->|Hb]%elem_of_cons.
  - eapply Forall_forall in Hf'; [exact Hf'|done].
  - eapply Forall_forall in Hall; [by apply Hall|done].
Qed.

Lemma bump_entry_one_way now base e : re_is_fire_and_forget (bump_entry now base e) = re_is_fire_and_forget e.
Proof. unfold bump_entry. by destruct (_ <=? _). Qed.

(** The timer sends everything again while there are retries left. *)
Lemma net_timer_extends n now :
  net_ok n -> rs_state (nt_sender n) = SessionState_Active -> due n now ->
  Forall (fun e => re_retry_count e < rs_max_retries (nt_sender n)) (rs_retransmit_queue (nt_sender n)) ->
  let n' := net_timer n now in
  extends n n' /\ rs_state (nt_sender n') = SessionState_Active /\ nt_receiver n' = nt_receiver n
  /\ nt_acks n' = nt_acks n
  /\ rs_max_retries (nt_sender n') = rs_max_retries (nt_sender n)
  /\ rs_retransmit_queue (nt_sender n')
     = map (bump_entry now (rs_rto_base_ms (nt_sender n))) (rs_retransmit_queue (nt_sender n))
  /\ (ReliableSession_check_rto (nt_sender n) now).2 = map re_seq (rs_retransmit_queue (nt_sender n))
  /\ Forall (fun q => q ∈ nt_data n') (map re_seq (rs_retransmit_queue (nt_sender n))).
Proof.
  intros Hn Hact Hdue Hleft. cbv zeta. pose proof (so_retries _ (no_sender _ Hn)) as Hmx.
  pose proof (so_entries _ (no_sender _ Hn)) as Hent.
  assert (Hx : existsb (exhausted now (rs_max_retries (nt_sender n))) (rs_retransmit_queue (nt_sender n)) = false).
  { apply not_true_is_false. intros (e & He & Hb)%existsb_exists. apply list_elem_of_In in He.
    eapply Forall_forall in Hleft; [|exact He]. eapply Forall_forall in Hent as [_ ?]; [|exact He]. cbn in *.
    apply andb_true_iff in Hb as [_ Hb]. rewrite wrap_small in Hb by ulia. zbool. lia. }
  assert (Hall : filter (fun e => expired now e = true) (rs_retransmit_queue (nt_sender n)) = rs_retransmit_queue (nt_sender n)).
  { unfold due in Hdue. revert Hdue. generalize (rs_retransmit_queue (nt_sender n)) as l.
    induction 1 as [|e l He _ IH]; [done|]. rewrite filter_cons, IH, decide_True; [done|]. by apply Z.leb_le. }
  pose proof (check_rto_alive (nt_sender n) now Hact Hx) as H. rewrite Hall in H.
  assert (Hreq : forall l, requests (map (bump_entry now (rs_rto_base_ms (nt_sender n))) l) = requests l).
  { unfold requests. induction l as [|e l IH]; [done|]. cbn [map]. rewrite !filter_cons.
    rewrite bump_entry_one_way. case_decide; cbn [map]; rewrite ?IH, ?bump_entry_seq; done. }
  assert (Hnx : rs_next_seq (ReliableSession_check_rto (nt_sender n) now).1 = rs_next_seq (nt_sender n)).
  { unfold ReliableSession_check_rto. case_decide; [done|]. destruct (check_rto_loop _ _ _ _) as [[? sq] k].
    destruct k; [done|]. destruct sq; [done|]. unfold ReliableSession_on_loss. cbv zeta. by destruct (_ <? 2). }
  assert (Hstep : rtc net_step n (net_timer n now)) by apply rtc_once, step_timer.
  unfold net_timer in *. destruct (ReliableSession_check_rto (nt_sender n) now) as [s seqs].
  destruct H as (? & ? & Hbase & Hq & Hsq & _). cbn [fst snd nt_sender nt_receiver nt_acks nt_data] in *.
  split; [apply extends_sender; cbn [nt_sender nt_receiver nt_delivered]; try done; by rewrite Hq|].
  split_and!; try done. rewrite <- Hsq. apply Forall_forall. intros q Hin. apply elem_of_app. by right.
Qed.

(** One round: everything was seen, one more retry was used, and if everything had been seen before
    only requests are left in the queue. *)
Lemma recovery_round_spec n now clock :
  net_ok n -> rs_state (nt_sender n) = SessionState_Active -> due n now ->
  Forall (fun e => re_retry_count e < rs_max_retries (nt_sender n)) (rs_retransmit_queue (nt_sender n)) ->
  let n' := recovery_round n now clock in
  extends n n' /\ rs_state (nt_sender n') = SessionState_Active /\ all_seen n'
  /\ rs_max_retries (nt_sender n') = rs_max_retries (nt_sender n)
  /\ sublist (rs_retransmit_queue (nt_sender n'))
       (map (bump_entry now (rs_rto_base_ms (nt_sender n))) (rs_retransmit_queue (nt_sender n)))
  /\ (all_seen n -> Forall (fun e => re_is_fire_and_forget e = false) (rs_retransmit_queue (nt_sender n'))).
Proof.
  intros Hn Hact Hdue Hleft. cbv zeta. unfold recovery_round.
  destruct (net_timer_extends n now Hn Hact Hdue Hleft) as (X1 & A1 & R1 & K1 & M1 & Q1 & -> & D1).
  set (seqs := map re_seq (rs_retransmit_queue (nt_sender n))) in *. set (n1 := net_timer n now) in *.
  assert (Hn1 : net_ok n1) by (eapply net_reachable_ok; [exact Hn|apply X1]).
  assert (Hsort : StronglySorted Z.lt seqs).
  { unfold seqs. pose proof (so_sorted _ (no_sender _ Hn)) as Hs. clear -Hs.
    induction Hs as [|e l _ IH Hlt]; cbn [map]; constructor; [done|]. apply Forall_fmap. exact Hlt. }
  assert (Hcov : forall q, 1 <= q < rs_next_seq (nt_sender n1) -> seen n1 q \/ q ∈ seqs).
  { intros q Hq. rewrite (ex_next _ _ X1) in Hq. destruct (no_kept _ Hn Hact q Hq) as [Hqq|Hrm]; [by right|left].
    apply list_elem_of_fmap in Hrm as (e & -> & He). unfold seen. rewrite R1. by apply (no_removed _ Hn). }
  destruct (receive_all_fills seqs n1 Hn1 D1 Hsort Hcov) as (X2 & S2 & H2 & acks & K2 & Hne & Hval).
  set (n2 := receive_all n1 seqs) in *. rewrite K2, drop_app_length.
  assert (Hn2 : net_ok n2) by (eapply net_reachable_ok; [exact Hn1|apply X2]).
  destruct (ack_all_extends acks n2 clock Hn2) as (X3 & A3 & M3 & S3 & F3).
  { apply Forall_forall. intros a Ha. rewrite K2. apply elem_of_app. by right. }
  unfold ack_all in *. set (n3 := foldl _ n2 acks) in *.
  split; [by do 2 (eapply extends_trans; [eassumption|])|]. rewrite A3, S2.
  split; [done|]. split.
  { intros q Hq. rewrite (ex_next _ _ X3) in Hq. apply (ex_seen _ _ X3); [lia|by apply H2]. }
  split; [by rewrite M3, S2|]. split; [by rewrite <- Q1, <- S2|].
  intros Hall. assert (Hall1 : all_seen n1) by (by eapply extends_all_seen).
  apply Forall_forall. intros e He. specialize (Hval Hall1).
  assert (Hen : e ∈ rs_retransmit_queue (nt_sender n1)) by (rewrite <- S2; by eapply elem_of_sublist).
  destruct acks as [|a acks].
  { destruct (decide (seqs = [])) as [E|E]; [|by destruct (Hne Hall1 E)].
    rewrite Q1 in Hen. unfold seqs in E. apply fmap_nil_inv in E. rewrite E in Hen. by apply elem_of_nil in Hen. }
  eapply Forall_forall in F3; [|exact He]. specialize (F3 a ltac:(left)).
  apply Forall_cons in Hval as [Ha _]. pose proof (so_entries _ (no_sender _ Hn1)) as Hent.
  eapply Forall_forall in Hent as [Hlt _]; [|exact Hen]. unfold acked in F3. rewrite Ha in F3. cbn in Hlt.
  rewrite (proj2 (Z.leb_le _ _)) in F3 by lia. by destruct (re_is_fire_and_forget e).
Qed.

Lemma requests_only q : Forall (fun e => re_is_fire_and_forget e = false) q -> map re_seq q = requests q.
Proof.
  unfold requests. induction 1 as [|e q He _ IH]; [done|]. rewrite filter_cons, decide_True by done.
  cbn [map]. by rewrite IH.
Qed.

(** C14 (liveness): The transport recovers from any loss. Take any state two sessions can reach over
    a network that loses, repeats and reorders, with the sender alive and two retries left for every
    queued frame, and let everything on the wire be gone. If the timer of the sender then fires twice,
    each time when the queued frames are due, and what it sends again arrives, and the ACKs the
    receiver answers with (for a duplicate, a gap, or enough frames, as [handle_data_frame] decides)
    come back, then: every number ever sent is recorded by the receiver, each frame it had not
    recorded before is delivered, and what was delivered stays delivered; the sender lives, has
    dropped every one-way frame, and keeps exactly the requests that wait for a response. (A one-way
    frame that had arrived out of order was recorded without being delivered, and is not
    delivered now: [overtaking_frame_lost].) *)
Theorem network_drains rto_base_ms max_retries credits n now1 now2 clock1 clock2 :
  0 <= max_retries < 2 ^ 32 - 1 -> u32 credits ->
  rtc net_step (net_init rto_base_ms max_retries credits) n ->
  rs_state (nt_sender n) = SessionState_Active ->
  Forall (fun e => re_retry_count e + 2 <= rs_max_retries (nt_sender n)) (rs_retransmit_queue (nt_sender n)) ->
  let n1 := recovery_round n now1 clock1 in
  let n2 := recovery_round n1 now2 clock2 in
  due n now1 -> due n1 now2 ->
  (forall q, 1 <= q < rs_next_seq (nt_sender n) -> seen n2 q /\ (seen n q \/ q ∈ nt_delivered n2))
  /\ nt_delivered n `prefix_of` nt_delivered n2 /\ StronglySorted Z.lt (nt_delivered n2)
  /\ rs_state (nt_sender n2) = SessionState_Active
  /\ map re_seq (rs_retransmit_queue (nt_sender n2)) = requests (rs_retransmit_queue (nt_sender n)).
Proof.
  intros Hm Hc Hrun Hact Hleft n1 n2 Hdue1 Hdue2.
  pose proof (net_reachable_ok _ _ (net_init_ok rto_base_ms _ _ Hm Hc) Hrun) as Hn.
  destruct (recovery_round_spec n now1 clock1 Hn Hact Hdue1) as (X1 & A1 & S1 & M1 & Q1 & _).
  { eapply Forall_impl; [exact Hleft|]. cbn. lia. }
  fold n1 in X1, A1, S1, M1, Q1.
  assert (Hn1 : net_ok n1) by (eapply net_reachable_ok; [exact Hn|apply X1]).
  pose proof (so_retries _ (no_sender _ Hn)) as Hmx.
  destruct (recovery_round_spec n1 now2 clock2 Hn1 A1 Hdue2) as (X2 & A2 & S2 & _ & _ & F2).
  { rewrite M1. eapply Forall_sublist; [exact Q1|]. apply Forall_fmap. apply Forall_forall. intros e He.
    eapply Forall_forall in Hleft; [|exact He]. pose proof (so_entries _ (no_sender _ Hn)) as Hent.
    eapply Forall_forall in Hent as [_ ?]; [|exact He]. cbn in *. unfold bump_entry.
    destruct (_ <=? now1); cbn; [|lia]. rewrite wrap_small by ulia. lia. }
  fold n2 in X2, A2, S2, F2. pose proof (extends_trans _ _ _ X1 X2) as X.
  split; [|split; [apply X|split; [|split; [done|]]]].
  - intros q Hq. rewrite <- (ex_next _ _ X) in Hq. split; [by apply S2|]. apply (ex_new _ _ X); [lia|by apply S2].
  - apply (no_delivered n2). eapply net_reachable_ok; [exact Hn|apply X].
  - rewrite requests_only by (by apply F2). apply X.
Qed.

(** One request and one one-way frame, both lost. *)
Definition lost_sent : Net :=
  default (net_init 200 8 64)
    (n ← net_send (net_init 200 8 64) 0 0 [] false 7; net_send n 0 0 [] true 0).

Lemma lost_sent_reachable : rtc net_step (net_init 200 8 64) lost_sent.
Proof.
  assert (H1 : exists n1, net_send (net_init 200 8 64) 0 0 [] false 7 = Some n1
                /\ has_numbers n1 /\ net_send n1 0 0 [] true 0 = Some lost_sent)
    by (eexists; split; [reflexivity|split; reflexivity]).
  destruct H1 as (n1 & H1 & Hn1 & H2).
  assert (Hn0 : has_numbers (net_init 200 8 64)) by reflexivity.
  eapply rtc_l; [by apply (step_send _ _ 0 0 [] false 7 Hn0 H1)|].
  by apply rtc_once, (step_send _ _ 0 0 [] true 0 Hn1 H2).
Qed.

Lemma network_drains_witness :
  let n1 := recovery_round lost_sent (10 ^ 9) (fun _ => 0) in
  let n2 := recovery_round n1 (2 * 10 ^ 9) (fun _ => 0) in
  map re_seq (rs_retransmit_queue (nt_sender lost_sent)) = [1; 2]
  /\ map re_seq (rs_retransmit_queue (nt_sender n1)) = [1; 2]
  /\ (seen n2 1 /\ (seen lost_sent 1 \/ 1 ∈ nt_delivered n2))
  /\ map re_seq (rs_retransmit_queue (nt_sender n2)) = [1].
Proof.
  cbv zeta. split; [vm_compute; reflexivity|]. split; [vm_compute; reflexivity|].
  destruct (network_drains 200 8 64 lost_sent (10 ^ 9) (2 * 10 ^ 9) (fun _ => 0) (fun _ => 0))
    as (Hs & _ & _ & _ & Hq);
    [lia|split; [discriminate|reflexivity]|apply lost_sent_reachable|reflexivity
    |by_decide|unfold due; by_decide|unfold due; by_decide|].
  split; [apply Hs; split; [discriminate|reflexivity]|]. rewrite Hq. vm_compute. reflexivity.
Defined.

(** Two one-way frames, the second overtaking the first. *)
Definition overtake_ack : AckPayload := mkAckPayload 2 2 0 None.

Definition overtake_sent : Net :=
  default (net_init 200 8 64)
    (n ← net_send (net_init 200 8 64) 0 0 [] true 0; net_send n 0 0 [] true 1).

Definition overtake : Net :=
  net_ack (net_build_ack (net_arrive (net_arrive overtake_sent 2) 1) false)
    (fun _ => 0) overtake_ack.

Lemma overtake_reachable : rtc net_step (net_init 200 8 64) overtake.
Proof.
  assert (H1 : exists n1, net_send (net_init 200 8 64) 0 0 [] true 0 = Some n1
                /\ has_numbers n1 /\ net_send n1 0 0 [] true 1 = Some overtake_sent)
    by (eexists; split; [reflexivity|split; reflexivity]).
  destruct H1 as (n1 & H1 & Hn1 & H2).
  assert (Hn0 : has_numbers (net_init 200 8 64)) by reflexivity.
  eapply rtc_l; [by apply (step_send _ _ 0 0 [] true 0 Hn0 H1)|].
  eapply rtc_l; [by apply (step_send _ _ 0 0 [] true 1 Hn1 H2)|].
  eapply rtc_l; [apply (step_arrive _ 2); right; left|].
  eapply rtc_l; [apply (step_arrive _ 1); left|].
  eapply rtc_l; [apply (step_build_ack _ false)|].
  apply rtc_once, (step_ack _ (fun _ => 0) overtake_ack). vm_compute. left.
Qed.

Lemma network_reliable_witness :
  Forall (fun e => seen overtake (re_seq e)) (nt_removed overtake)
  /\ map re_seq (nt_removed overtake) = [1; 2].
Proof.
  split; [|vm_compute; reflexivity]. apply Forall_forall.
  apply (network_reliable 200 8 64 overtake); [lia|split; [discriminate|reflexivity]|].
  apply overtake_reachable.
Defined.

(** A one-way frame that overtakes another is lost. There is a run in which the
    receiver takes frame 2 before frame 1: both are acknowledged and the sender drops both
    from its queue, but only frame 1 is ever delivered; frame 2 stays marked as seen, so no later
    copy of it will be delivered either. *)
Theorem overtaking_frame_lost :
  exists n, rtc net_step (net_init 200 8 64) n
    /\ map re_seq (nt_removed n) = [1; 2] /\ rs_retransmit_queue (nt_sender n) = []
    /\ nt_delivered n = [1] /\ nt_delivered (net_arrive n 2) = [1].
Proof.
  exists overtake. split; [apply overtake_reachable|].
  split; [vm_compute; reflexivity|]. split; [vm_compute; reflexivity|].
  split; vm_compute; reflexivity.
Qed.
