(* ===== verification/Dataplane.v ===== *)
(** * Dataplane: remote verbs

    crates/ub-dataplane/src/lib.rs: the client side of the remote verbs and the
    handlers that execute the frames the transport delivers. The engine holds
    the node's region table and devices (Mr, Device), its jetties (Jetty), the
    cache of remote regions and the transport (Manager). A request-response
    verb is split at its [await]: the first half registers the request and
    hands the frame to the transport, the second takes the answer or times
    out. A handler runs as one step; [Panic] would be a panic of its task.
    Log lines, counters and the UDP fabric are left out. *)

From S2P Require Import Prelude Bytes Types Addr Device Mr Verbs Jetty Frame Float Dedup ReadCache Session Manager.
#[local] Open Scope Z_scope.

(** Source: crates/ub-dataplane/src/lib.rs:24-24, [MAX_PAYLOAD_SIZE]. *)
Definition MAX_PAYLOAD_SIZE : Z := 1320.

(** Source: crates/ub-dataplane/src/lib.rs:31-34, [VerbResponse]. *)
Record VerbResponse : Type := mkVerbResponse {
  vr_status : Z;
  vr_data : bytes;
}.

(** Source: crates/ub-dataplane/src/lib.rs:37-48, [DataPlaneEngine].
    [en_devices] are the devices the regions lie on. A pending request is an
    opaque id with a live [oneshot] sender; [en_answers] is what was sent into
    the channels. *)
Record Engine : Type := mkEngine {
  en_local_node_id : Z;
  en_mr_table : MrTable;
  en_devices : list DynDevice;
  en_mr_cache : gmap (Z * Z) MrCacheEntry;
  en_jetty_table : JettyTable;
  en_transport : TransportManager;
  en_pending : gset Z;
  en_answers : gmap Z VerbResponse;
  en_next_opaque : Z;
}.

#[global] Instance Engine_settable : Settable Engine := fun x =>
  mkEngine (en_local_node_id x) (en_mr_table x) (en_devices x) (en_mr_cache x) (en_jetty_table x)
    (en_transport x) (en_pending x) (en_answers x) (en_next_opaque x).

(** Source: crates/ub-dataplane/src/lib.rs:68-89, [DataPlaneEngine::new]. *)
Definition DataPlaneEngine_new (local_node_id : Z) (mr_table : MrTable) (devices : list DynDevice)
    (mr_cache : gmap (Z * Z) MrCacheEntry) (jetty_table : JettyTable) (transport : TransportManager)
  : Engine :=
  mkEngine local_node_id mr_table devices mr_cache jetty_table transport ∅ ∅ 1.

(** ** Frames *)

(** The header of every frame the engine builds. *)
Definition data_header (src_node dst_node flags : Z) (payload : bytes) : FrameHeader :=
  {| fh_magic := MAGIC; fh_version := VERSION; fh_frame_type := FrameType_Data; fh_flags := flags;
     fh_src_node := src_node; fh_dst_node := dst_node; fh_reserved := 0; fh_stream_seq := 0;
     fh_payload_len := wrap 32 (Z.of_nat (length payload)); fh_header_crc := 0 |}.

Definition data_ext (verb : Verb) (ext_flags mr_handle ub_addr opaque jetty_src jetty_dst : Z)
    (imm : option Z) : DataExtHeader :=
  {| de_verb := verb; de_ext_flags := ext_flags; de_mr_handle := mr_handle;
     de_jetty_src := jetty_src; de_jetty_dst := jetty_dst; de_opaque := opaque; de_frag_id := 0;
     de_frag_index := 0; de_frag_total := 1; de_ub_addr := ub_addr; de_imm := imm |}.

(** Source: crates/ub-dataplane/src/lib.rs:1000-1038, [build_data_frame_with_flags]. *)
Definition build_data_frame_with_flags (src_node dst_node : Z) (verb : Verb)
    (mr_handle ub_addr opaque : Z) (payload : bytes) (ext_flags : Z) : bytes :=
  encode_frame (data_header src_node dst_node 0 payload)
    (Some (data_ext verb ext_flags mr_handle ub_addr opaque 0 0 None)) payload.

(** Source: crates/ub-dataplane/src/lib.rs:988-998, [build_data_frame]. *)
Definition build_data_frame (src_node dst_node : Z) (verb : Verb) (mr_handle ub_addr opaque : Z)
    (payload : bytes) : bytes :=
  build_data_frame_with_flags src_node dst_node verb mr_handle ub_addr opaque payload 0.

(** Source: crates/ub-dataplane/src/lib.rs:1041-1088, [build_data_frame_ex]. *)
Definition build_data_frame_ex (src_node dst_node : Z) (verb : Verb) (mr_handle ub_addr opaque : Z)
    (jetty_src jetty_dst : Z) (imm : option Z) (payload : bytes) : bytes :=
  let ext_flags := match imm with Some _ => ExtFlags_HAS_IMM | None => 0 end in
  let frame_flags := match imm with Some _ => FrameFlags_HAS_IMM | None => 0 end in
  encode_frame (data_header src_node dst_node frame_flags payload)
    (Some (data_ext verb ext_flags mr_handle ub_addr opaque jetty_src jetty_dst imm)) payload.

(** Source: crates/ub-dataplane/src/lib.rs:1090-1102, [status_to_error]. *)
Definition status_to_error (status : Z) : UbError :=
  if status =? 1 then AddrInvalid
  else if status =? 2 then PermDenied
  else if status =? 3 then Alignment
  else if status =? 4 then LinkDown
  else if status =? 5 then NoResources
  else if status =? 6 then Timeout
  else if status =? 7 then PayloadTooLarge
  else if status =? 8 then Flushed
  else Internal "unknown status: ".

(** ** The client side *)

(** [self.transport.send(..)] with the two clock readings of [assign_seq]. *)
Definition engine_send (e : Engine) (t1 t2 remote_node : Z) (frame : bytes) (fire_and_forget : bool)
    (opaque : Z) : Engine * Result Z :=
  let '(m, _, r) := TransportManager_send (en_transport e) t1 t2 remote_node frame fire_and_forget opaque in
  (e <| en_transport := m |>, r).

(** [..?; Ok(())] *)
Definition discard {A} (r : Result A) : Result unit := let? _ := r in Ok tt.

(** Source: crates/ub-dataplane/src/lib.rs:195-221, [DataPlaneEngine::ub_write_remote]. *)
Definition ub_write_remote (e : Engine) (t1 t2 addr : Z) (data : bytes) : Engine * Result unit :=
  if MAX_PAYLOAD_SIZE <? Z.of_nat (length data) then (e, Err PayloadTooLarge)
  else
    match MrCacheTable_lookup_by_addr (en_mr_cache e) addr with
    | None => (e, Err AddrInvalid)
    | Some cache_entry =>
      let frame := build_data_frame (en_local_node_id e) (mc_owner_node cache_entry) Verb_Write
                     (mc_remote_mr_handle cache_entry) addr 0 data in
      let '(e, r) := engine_send e t1 t2 (mc_owner_node cache_entry) frame true 0 in
      (e, discard r)
    end.

(** [next_opaque.fetch_add(1)] and [pending_requests.insert(opaque, tx)] *)
Definition new_request (e : Engine) : Engine * Z :=
  let opaque := en_next_opaque e in
  (e <| en_next_opaque := wrap 64 (opaque + 1) |> <| en_pending := {[opaque]} ∪ en_pending e |>
     <| en_answers := delete opaque (en_answers e) |>, opaque).

(** The first half of a request-response verb: the opaque id to wait on. *)
Definition start_request (e : Engine) (t1 t2 addr : Z) (verb : Verb) (payload : bytes)
  : Engine * Result Z :=
  match MrCacheTable_lookup_by_addr (en_mr_cache e) addr with
  | None => (e, Err AddrInvalid)
  | Some cache_entry =>
    let '(e, opaque) := new_request e in
    let frame := build_data_frame (en_local_node_id e) (mc_owner_node cache_entry) verb
                   (mc_remote_mr_handle cache_entry) addr opaque payload in
    let '(e, r) := engine_send e t1 t2 (mc_owner_node cache_entry) frame false opaque in
    (e, let? _ := r in Ok opaque)
  end.

(** The second half, when [timeout(VERB_TIMEOUT, rx).await] returns: with the
    answer if one was sent, which is looked at before the deadline is, and
    otherwise because the time is up or the sender is gone. *)
Definition await_response (e : Engine) (opaque : Z) : Engine * Result bytes :=
  match en_answers e !! opaque with
  | Some resp =>
    (e, if negb (vr_status resp =? 0) then Err (status_to_error (vr_status resp)) else Ok (vr_data resp))
  | None => (e <| en_pending := en_pending e ∖ {[opaque]} |>, Err Timeout)
  end.

(** Source: crates/ub-dataplane/src/lib.rs:225-251, [DataPlaneEngine::ub_read_remote].
    Up to the [await]. *)
Definition ub_read_remote_start (e : Engine) (t1 t2 addr len : Z) : Engine * Result Z :=
  start_request e t1 t2 addr Verb_ReadReq (put_u32 len).

(** Source: crates/ub-dataplane/src/lib.rs:253-265, [DataPlaneEngine::ub_read_remote].
    After the [await]. *)
Definition ub_read_remote_finish (e : Engine) (opaque : Z) : Engine * Result bytes :=
  await_response e opaque.

(** Source: crates/ub-dataplane/src/lib.rs:269-297, [DataPlaneEngine::ub_atomic_cas_remote].
    Up to the [await]. *)
Definition ub_atomic_cas_remote_start (e : Engine) (t1 t2 addr expect new : Z) : Engine * Result Z :=
  start_request e t1 t2 addr Verb_AtomicCas (put_u64 expect ++ put_u64 new).

(** Source: crates/ub-dataplane/src/lib.rs:320-346, [DataPlaneEngine::ub_atomic_faa_remote].
    Up to the [await]. *)
Definition ub_atomic_faa_remote_start (e : Engine) (t1 t2 addr add : Z) : Engine * Result Z :=
  start_request e t1 t2 addr Verb_AtomicFaa (put_u64 add).

(** The old value in the answer to an atomic. *)
Definition atomic_result (r : Result bytes) (too_short : string) : Result Z :=
  let? data := r in
  if 8 <=? Z.of_nat (length data) then Ok (be_value (take 8 data)) else Err (Internal too_short).

(** Source: crates/ub-dataplane/src/lib.rs:299-316, [DataPlaneEngine::ub_atomic_cas_remote].
    After the [await]. *)
Definition ub_atomic_cas_remote_finish (e : Engine) (opaque : Z) : Engine * Result Z :=
  let '(e, r) := await_response e opaque in
  (e, atomic_result r "atomic CAS response too short").

(** Source: crates/ub-dataplane/src/lib.rs:348-365, [DataPlaneEngine::ub_atomic_faa_remote].
    After the [await]. *)
Definition ub_atomic_faa_remote_finish (e : Engine) (opaque : Z) : Engine * Result Z :=
  let '(e, r) := await_response e opaque in
  (e, atomic_result r "atomic FAA response too short").

(** Source: crates/ub-dataplane/src/lib.rs:368-394, [DataPlaneEngine::ub_send_remote]. *)
Definition ub_send_remote (e : Engine) (t1 t2 jetty_src : Z) (dst_jetty : JettyAddr) (data : bytes)
  : Engine * Result unit :=
  if MAX_PAYLOAD_SIZE <? Z.of_nat (length data) then (e, Err PayloadTooLarge)
  else
    let frame := build_data_frame_ex (en_local_node_id e) (ja_node_id dst_jetty) Verb_Send 0
                   (UbAddr_new 0 0 0 0 0) 0 jetty_src (ja_jetty_id dst_jetty) None data in
    let '(e, r) := engine_send e t1 t2 (ja_node_id dst_jetty) frame true 0 in
    (e, discard r).

(** Source: crates/ub-dataplane/src/lib.rs:397-424, [DataPlaneEngine::ub_send_with_imm_remote]. *)
Definition ub_send_with_imm_remote (e : Engine) (t1 t2 jetty_src : Z) (dst_jetty : JettyAddr)
    (data : bytes) (imm : Z) : Engine * Result unit :=
  if MAX_PAYLOAD_SIZE <? Z.of_nat (length data) then (e, Err PayloadTooLarge)
  else
    let frame := build_data_frame_ex (en_local_node_id e) (ja_node_id dst_jetty) Verb_Send 0
                   (UbAddr_new 0 0 0 0 0) 0 jetty_src (ja_jetty_id dst_jetty) (Some imm) data in
    let '(e, r) := engine_send e t1 t2 (ja_node_id dst_jetty) frame true 0 in
    (e, discard r).

(** Source: crates/ub-dataplane/src/lib.rs:427-458, [DataPlaneEngine::ub_write_imm_remote]. *)
Definition ub_write_imm_remote (e : Engine) (t1 t2 addr : Z) (data : bytes) (imm jetty_src : Z)
    (dst_jetty : JettyAddr) : Engine * Result unit :=
  if MAX_PAYLOAD_SIZE <? Z.of_nat (length data) then (e, Err PayloadTooLarge)
  else
    match MrCacheTable_lookup_by_addr (en_mr_cache e) addr with
    | None => (e, Err AddrInvalid)
    | Some cache_entry =>
      let frame := build_data_frame_ex (en_local_node_id e) (mc_owner_node cache_entry) Verb_WriteImm
                     (mc_remote_mr_handle cache_entry) addr 0 jetty_src (ja_jetty_id dst_jetty)
                     (Some imm) data in
      let '(e, r) := engine_send e t1 t2 (mc_owner_node cache_entry) frame true 0 in
      (e, discard r)
    end.

(** [tx.send(resp)] for the request [opaque], if it is still pending. *)
Definition answer (e : Engine) (opaque : Z) (resp : VerbResponse) : Engine :=
  if decide (opaque ∈ en_pending e)
  then e <| en_pending := en_pending e ∖ {[opaque]} |> <| en_answers := <[opaque := resp]> (en_answers e) |>
  else e.

(** Source: crates/ub-dataplane/src/lib.rs:180-191, [DataPlaneEngine::disconnect_peer]. *)
Definition disconnect_peer (e : Engine) (node_id : Z) : Engine :=
  let '(m, entries) := TransportManager_notify_peer_down (en_transport e) node_id in
  foldl (fun e entry =>
    if negb (re_is_fire_and_forget entry) then answer e (re_opaque entry) (mkVerbResponse 4 []) else e)
    (e <| en_transport := m |>) entries.

(** Source: crates/ub-dataplane/src/lib.rs:159-176, [DataPlaneEngine::connect_peer].
    The channel is new and empty; a turn of the write loop that drains it is [peer_write_turn]. *)
Definition connect_peer (e : Engine) (node_id : Z) : Engine :=
  e <| en_transport := TransportManager_register_peer_sender (en_transport e) node_id (mkChan 256 [] true) |>.

(** Source: crates/ub-dataplane/src/lib.rs:163-171, [DataPlaneEngine::connect_peer].
    One turn of the write loop of [peer], with the frame it wrote; [sent] is what the fabric
    makes of a datagram. The first error ends the loop, which drops its end of the channel. *)
Definition peer_write_turn (e : Engine) (peer : Z) (sent : bytes -> Result unit) : Engine * option bytes :=
  match tm_peer_senders (en_transport e) !! peer with
  | Some ch =>
    match ch_queue ch with
    | data :: rest =>
      let put ch := e <| en_transport := (en_transport e) <| tm_peer_senders :=
                           <[peer := ch]> (tm_peer_senders (en_transport e)) |> |> in
      match sent data with
      | Ok _ => (put (ch <| ch_queue := rest |>), Some data)
      | _ => (put (ch <| ch_queue := [] |> <| ch_open := false |>), None)
      end
    | [] => (e, None)
    end
  | None => (e, None)
  end.

(** ** The server side *)

(** [transport.send_frame_to_peer(..)] *)
Definition reply (e : Engine) (node : Z) (frame : bytes) : Engine :=
  e <| en_transport := TransportManager_send_frame_to_peer (en_transport e) node frame |>.

(** Source: crates/ub-dataplane/src/lib.rs:964-986, [send_error_response]. *)
Definition send_error_response (e : Engine) (dst_node : Z) (req_ext : DataExtHeader) (status : Z) : Engine :=
  reply e dst_node
    (build_data_frame_with_flags (en_local_node_id e) dst_node (de_verb req_ext) (de_mr_handle req_ext)
       (de_ub_addr req_ext) (de_opaque req_ext) (put_u32 status) ExtFlags_ERR_RESP).

(** Assigning through the [Arc] of an entry. *)
Definition update_entry (e : Engine) (arc : nat) (f : MrEntry -> MrEntry) : Engine :=
  e <| en_mr_table := arc_update (en_mr_table e) arc f |>.

(** [entry.inflight_dec()] *)
Definition release_entry (e : Engine) (arc : nat) : Engine :=
  update_entry e arc (fun x => (MrEntry_inflight_dec x).1).

(** How every memory handler starts: [mr_table.lookup], [try_inflight_inc],
    [check_perms]. The first three outcomes end the handler. *)
Inductive Access : Type :=
| Access_NotFound
| Access_Revoked
| Access_Denied (e : Engine)
| Access_Granted (e : Engine) (arc : nat) (entry : MrEntry).

Definition begin_access (e : Engine) (handle : Z) (verb : Verb) : Result Access :=
  match MrTable_lookup (en_mr_table e) handle with
  | None => Ok Access_NotFound
  | Some arc =>
    match mt_heap (en_mr_table e) !! arc with
    | None => Panic
    | Some entry =>
      let '(entry', live) := MrEntry_try_inflight_inc entry in
      if negb live then Ok Access_Revoked
      else
        let e := update_entry e arc (fun _ => entry') in
        match MrEntry_check_perms entry' verb with
        | Ok _ => Ok (Access_Granted e arc entry')
        | _ => Ok (Access_Denied (release_entry e arc))
        end
    end
  end.

(** The offset of the request inside the region; a request below the region is
    taken as one at its start. *)
Definition offset_in_mr (ext : DataExtHeader) (entry : MrEntry) : Z :=
  if UbAddr_offset (me_base_ub_addr entry) <=? UbAddr_offset (de_ub_addr ext)
  then UbAddr_offset (de_ub_addr ext) - UbAddr_offset (me_base_ub_addr entry) else 0.

Definition device_offset (ext : DataExtHeader) (entry : MrEntry) : Z :=
  wrap 64 (me_base_offset entry + offset_in_mr ext entry).

(** [entry.device.op(..)]: the result, and the engine with the device changed. *)
Definition entry_device {A} (e : Engine) (entry : MrEntry) (op : DynDevice -> Result (A * DynDevice))
  : Engine * Result A :=
  match with_device (en_devices e) (me_device entry) op with
  | Ok (a, devices) => (e <| en_devices := devices |>, Ok a)
  | Err err => (e, Err err)
  | Panic => (e, Panic)
  end.

Definition entry_write (e : Engine) (entry : MrEntry) (off : Z) (buf : bytes) : Engine * Result unit :=
  entry_device e entry (fun d => let? d' := dev_write d off buf in Ok (tt, d')).

(** Source: crates/ub-dataplane/src/lib.rs:569-604, [handle_write]. *)
Definition handle_write (e : Engine) (payload : bytes) (ext : DataExtHeader) : Result Engine :=
  let? access := begin_access e (de_mr_handle ext) Verb_Write in
  match access with
  | Access_NotFound | Access_Revoked => Ok e
  | Access_Denied e => Ok e
  | Access_Granted e arc entry =>
    match entry_write e entry (device_offset ext entry) payload with
    | (_, Panic) => Panic
    | (e, _) => Ok (release_entry e arc)
    end
  end.

(** [entry.device.read(..)] into a buffer of [len] bytes. *)
Definition devices_read (e : Engine) (entry : MrEntry) (off len : Z) : Result bytes :=
  match en_devices e !! me_device entry with
  | Some d => dev_read d off len
  | None => Panic
  end.

(** Source: crates/ub-dataplane/src/lib.rs:606-671, [handle_read_req].
    [now] and [now'] are the readings of [read_cache_insert]. *)
Definition handle_read_req (e : Engine) (now now' : Z) (payload : bytes) (ext : DataExtHeader)
    (header : FrameHeader) (remote_node : Z) (cache_key : CacheKey) : Result Engine :=
  let? access := begin_access e (de_mr_handle ext) Verb_ReadReq in
  match access with
  | Access_NotFound | Access_Revoked => Ok (send_error_response e (fh_src_node header) ext 1)
  | Access_Denied e => Ok (send_error_response e (fh_src_node header) ext 2)
  | Access_Granted e arc entry =>
    let read_len := if 4 <=? Z.of_nat (length payload) then be_value (take 4 payload) else 1024 in
    match devices_read e entry (device_offset ext entry) read_len with
    | Panic => Panic
    | Err _ => Ok (release_entry (send_error_response e (fh_src_node header) ext 1) arc)
    | Ok buf =>
      let resp := build_data_frame (en_local_node_id e) (fh_src_node header) Verb_ReadResp
                    (de_mr_handle ext) (de_ub_addr ext) (de_opaque ext) buf in
      let e := e <| en_transport :=
                 TransportManager_read_cache_insert (en_transport e) now now' remote_node cache_key resp |> in
      Ok (release_entry (reply e remote_node resp) arc)
    end
  end.

(** The end of both atomic handlers, given the result of the device. *)
Definition finish_atomic (e : Engine) (now now' : Z) (ext : DataExtHeader) (header : FrameHeader)
    (remote_node : Z) (arc : nat) (resp_verb : Verb) (r : Result Z) : Result Engine :=
  match r with
  | Panic => Panic
  | Err _ => Ok (release_entry (send_error_response e (fh_src_node header) ext 9) arc)
  | Ok old_value =>
    let resp := build_data_frame (en_local_node_id e) (fh_src_node header) resp_verb (de_mr_handle ext)
                  (de_ub_addr ext) (de_opaque ext) (put_u64 old_value ++ put_u32 0 ++ put_u32 0) in
    let e := e <| en_transport :=
               TransportManager_read_cache_insert (en_transport e) now now' remote_node
                 (remote_node, de_opaque ext) resp |> in
    Ok (release_entry (reply e remote_node resp) arc)
  end.

(** Source: crates/ub-dataplane/src/lib.rs:673-749, [handle_atomic_cas]. *)
Definition handle_atomic_cas (e : Engine) (now now' : Z) (payload : bytes) (ext : DataExtHeader)
    (header : FrameHeader) (remote_node : Z) : Result Engine :=
  let? access := begin_access e (de_mr_handle ext) Verb_AtomicCas in
  match access with
  | Access_NotFound | Access_Revoked => Ok (send_error_response e (fh_src_node header) ext 1)
  | Access_Denied e => Ok (send_error_response e (fh_src_node header) ext 2)
  | Access_Granted e arc entry =>
    if negb (offset_in_mr ext entry mod 8 =? 0)
    then Ok (send_error_response (release_entry e arc) (fh_src_node header) ext 3)
    else if Z.of_nat (length payload) <? 16
    then Ok (send_error_response (release_entry e arc) (fh_src_node header) ext 9)
    else
      let expect := be_value (take 8 payload) in
      let new := be_value (take 8 (drop 8 payload)) in
      let '(e, r) := entry_device e entry
                       (fun d => dev_atomic_cas d (device_offset ext entry) expect new) in
      finish_atomic e now now' ext header remote_node arc Verb_AtomicCasResp r
  end.

(** Source: crates/ub-dataplane/src/lib.rs:751-826, [handle_atomic_faa]. *)
Definition handle_atomic_faa (e : Engine) (now now' : Z) (payload : bytes) (ext : DataExtHeader)
    (header : FrameHeader) (remote_node : Z) : Result Engine :=
  let? access := begin_access e (de_mr_handle ext) Verb_AtomicFaa in
  match access with
  | Access_NotFound | Access_Revoked => Ok (send_error_response e (fh_src_node header) ext 1)
  | Access_Denied e => Ok (send_error_response e (fh_src_node header) ext 2)
  | Access_Granted e arc entry =>
    if negb (offset_in_mr ext entry mod 8 =? 0)
    then Ok (send_error_response (release_entry e arc) (fh_src_node header) ext 3)
    else if Z.of_nat (length payload) <? 8
    then Ok (send_error_response (release_entry e arc) (fh_src_node header) ext 9)
    else
      let add := be_value (take 8 payload) in
      let '(e, r) := entry_device e entry (fun d => dev_atomic_faa d (device_offset ext entry) add) in
      finish_atomic e now now' ext header remote_node arc Verb_AtomicFaaResp r
  end.

(** Source: crates/ub-dataplane/src/lib.rs:828-851, [complete_pending_request]. *)
Definition complete_pending_request (e : Engine) (ext : DataExtHeader) (payload : bytes)
    (remote_node : Z) : Engine :=
  if decide (de_opaque ext ∈ en_pending e) then
    let is_error := flags_contains (de_ext_flags ext) ExtFlags_ERR_RESP in
    let status := if is_error && (4 <=? Z.of_nat (length payload)) then be_value (take 4 payload) else 0 in
    let data := if is_error then [] else payload in
    let e := answer e (de_opaque ext) (mkVerbResponse status data) in
    e <| en_transport := TransportManager_complete_request (en_transport e) remote_node (de_opaque ext) |>
  else e.

(** Assigning through the [Arc] of a jetty. *)
Definition put_jetty (e : Engine) (arc : nat) (j : Jetty) : Engine :=
  e <| en_jetty_table := (en_jetty_table e) <| jb_heap := <[arc := j]> (jb_heap (en_jetty_table e)) |> |>.

(** [if let Err(..) = jetty.push_cqe(cqe)]: a full queue drops the completion. *)
Definition push_or_drop (e : Engine) (arc : nat) (j : Jetty) (cqe : Cqe) : Engine :=
  match Jetty_push_cqe j cqe with
  | Ok j => put_jetty e arc j
  | _ => e
  end.

(** Source: crates/ub-dataplane/src/lib.rs:854-895, [handle_send].
    The payload is copied into the buffer taken from the queue, which is then
    dropped. *)
Definition handle_send (e : Engine) (payload : bytes) (ext : DataExtHeader) : Result Engine :=
  match JettyTable_lookup (en_jetty_table e) (de_jetty_dst ext) with
  | None => Ok e
  | Some arc =>
    match jb_heap (en_jetty_table e) !! arc with
    | None => Panic
    | Some jetty =>
      let '(popped, jetty) := Jetty_pop_recv jetty in
      let e := put_jetty e arc jetty in
      match popped with
      | None => Ok e
      | Some recv_buf =>
        let copy_len := Nat.min (length payload) (length (rb_buf recv_buf)) in
        let _recv_buf := mkRecvBuffer (take copy_len payload ++ drop copy_len (rb_buf recv_buf))
                           (rb_wr_id recv_buf) in
        let cqe := mkCqe (rb_wr_id recv_buf) UB_OK (de_imm ext) (wrap 32 (Z.of_nat copy_len))
                     (de_jetty_dst ext) Verb_Send in
        Ok (push_or_drop e arc jetty cqe)
      end
    end
  end.

(** Source: crates/ub-dataplane/src/lib.rs:898-962, [handle_write_imm]. *)
Definition handle_write_imm (e : Engine) (payload : bytes) (ext : DataExtHeader) : Result Engine :=
  let? access := begin_access e (de_mr_handle ext) Verb_WriteImm in
  match access with
  | Access_NotFound | Access_Revoked => Ok e
  | Access_Denied e => Ok e
  | Access_Granted e arc entry =>
    match entry_write e entry (device_offset ext entry) payload with
    | (_, Panic) => Panic
    | (e, Err _) => Ok (release_entry e arc)
    | (e, Ok _) =>
      match JettyTable_lookup (en_jetty_table e) (de_jetty_dst ext) with
      | None => Ok (release_entry e arc)
      | Some jarc =>
        match jb_heap (en_jetty_table e) !! jarc with
        | None => Panic
        | Some jetty =>
          let cqe := mkCqe 0 UB_OK (de_imm ext) (wrap 32 (Z.of_nat (length payload)))
                       (de_jetty_dst ext) Verb_WriteImm in
          Ok (release_entry (push_or_drop e jarc jetty cqe) arc)
        end
      end
    end
  end.

(** [transport.mark_executed(..)] *)
Definition mark_executed (e : Engine) (remote_node seq : Z) : Engine :=
  e <| en_transport := TransportManager_mark_executed (en_transport e) remote_node seq |>.

(** [if let Some(cached) = transport.read_cache_get(..) { send_frame_to_peer }]:
    whether the answer was in the cache. *)
Definition resend_cached (e : Engine) (now remote_node : Z) (key : CacheKey) : Engine * bool :=
  let '(m, cached) := TransportManager_read_cache_get (en_transport e) now remote_node key in
  let e := e <| en_transport := m |> in
  match cached with
  | Some response => (reply e remote_node response, true)
  | None => (e, false)
  end.

(** Source: crates/ub-dataplane/src/lib.rs:487-567, [handle_verb_frame].
    [clock] gives the readings taken, in order. *)
Definition handle_verb_frame (e : Engine) (clock : nat -> Z) (inbound : InboundFrame) : Result Engine :=
  let header := if_header inbound in
  let ext := if_ext inbound in
  let payload := if_payload inbound in
  let remote_node := fh_src_node header in
  let seq := if_seq inbound in
  match de_verb ext with
  | Verb_Write =>
    if TransportManager_is_executed (en_transport e) remote_node seq then Ok e
    else let? e := handle_write e payload ext in Ok (mark_executed e remote_node seq)
  | Verb_ReadReq =>
    let cache_key := (remote_node, de_opaque ext) in
    let '(e, hit) := resend_cached e (clock 0%nat) remote_node cache_key in
    if hit then Ok e
    else handle_read_req e (clock 1%nat) (clock 2%nat) payload ext header remote_node cache_key
  | Verb_AtomicCas =>
    if TransportManager_is_executed (en_transport e) remote_node seq
    then Ok (resend_cached e (clock 0%nat) remote_node (remote_node, de_opaque ext)).1
    else
      let? e := handle_atomic_cas e (clock 1%nat) (clock 2%nat) payload ext header remote_node in
      Ok (mark_executed e remote_node seq)
  | Verb_AtomicFaa =>
    if TransportManager_is_executed (en_transport e) remote_node seq
    then Ok (resend_cached e (clock 0%nat) remote_node (remote_node, de_opaque ext)).1
    else
      let? e := handle_atomic_faa e (clock 1%nat) (clock 2%nat) payload ext header remote_node in
      Ok (mark_executed e remote_node seq)
  | Verb_Send => handle_send e payload ext
  | Verb_WriteImm =>
    if TransportManager_is_executed (en_transport e) remote_node seq then Ok e
    else let? e := handle_write_imm e payload ext in Ok (mark_executed e remote_node seq)
  | Verb_ReadResp | Verb_AtomicCasResp | Verb_AtomicFaaResp =>
    Ok (complete_pending_request e ext payload remote_node)
  end.

(** Source: crates/ub-dataplane/src/lib.rs:101-113, [DataPlaneEngine::start].
    The receive task: one datagram into the transport. *)
Definition receive_datagram (e : Engine) (clock : Z -> Z) (raw : bytes) : Engine :=
  e <| en_transport := TransportManager_handle_incoming (en_transport e) clock raw |>.

(** Source: crates/ub-dataplane/src/lib.rs:136-150, [DataPlaneEngine::start].
    The dispatch task: one frame out of the inbound channel. *)
Definition dispatch_one (e : Engine) (clock : nat -> Z) : Result Engine :=
  match tm_inbound (en_transport e) with
  | [] => Ok e
  | inbound :: rest =>
    handle_verb_frame (e <| en_transport := (en_transport e) <| tm_inbound := rest |> |>) clock inbound
  end.

(** ** Requests for a live region *)

(** The region [ext] names is live, and its address lies in it. *)
Record addressed (e : Engine) (ext : DataExtHeader) (arc : nat) (entry : MrEntry) (off : Z) : Prop := {
  ad_node : node_ok (en_mr_table e) (en_devices e);
  ad_handle : MrTable_lookup (en_mr_table e) (de_mr_handle ext) = Some arc;
  ad_addr : MrTable_lookup_by_addr (en_mr_table e) (de_ub_addr ext) = Some (arc, off);
  ad_entry : mt_heap (en_mr_table e) !! arc = Some entry;
  ad_live : me_state entry = MrState_Active;
}.

Definition referenced (entry : MrEntry) : MrEntry :=
  entry <| me_inflight_refs := me_inflight_refs entry + 1 |>.

(** The engine while a handler holds a reference. *)
Definition held (e : Engine) (arc : nat) (entry : MrEntry) : Engine :=
  update_entry e arc (fun _ => referenced entry).

(** Whatever a handler did meanwhile, giving the reference back restores the table. *)
Lemma release_held e e' arc entry :
  mt_heap (en_mr_table e) !! arc = Some entry ->
  en_mr_table e' = en_mr_table (held e arc entry) ->
  release_entry e' arc = e' <| en_mr_table := en_mr_table e |>.
Proof.
  intros He Ht. unfold release_entry, update_entry. rewrite Ht.
  assert (Hx : arc_update (en_mr_table (held e arc entry)) arc (fun x => (MrEntry_inflight_dec x).1)
               = en_mr_table e); [|by rewrite Hx].
  unfold held, update_entry, arc_update. cbn. destruct (en_mr_table e) as [heap ? ? ? ? ? ?]. cbn in *.
  f_equal. apply list_eq. intros i. destruct (decide (i = arc)) as [->|Hne].
  - rewrite !list_lookup_alter_eq, He. cbn. f_equal. destruct entry. unfold referenced. cbn. f_equal. lia.
  - by rewrite !list_lookup_alter_ne by done.
Qed.

Lemma begin_access_live e ext arc entry off verb :
  addressed e ext arc entry off ->
  begin_access e (de_mr_handle ext) verb
  = Ok (if flags_contains (me_perms entry) (required_perm verb)
        then Access_Granted (held e arc entry) arc (referenced entry) else Access_Denied e).
Proof.
  intros [Hn Hh Ha He Hl]. unfold begin_access. rewrite Hh, He.
  unfold MrEntry_try_inflight_inc. rewrite decide_False by (intros Hc; by apply Hc). cbn [negb].
  unfold MrEntry_check_perms. cbn [me_perms set_field]. destruct (flags_contains _ _); [done|].
  do 2 f_equal. change (update_entry e arc _) with (held e arc entry).
  rewrite (release_held e _ arc entry) by done. by destruct e.
Qed.

Lemma addressed_offset e ext arc entry off :
  addressed e ext arc entry off ->
  offset_in_mr ext (referenced entry) = off
  /\ device_offset ext (referenced entry) = me_base_offset entry + off
  /\ off = UbAddr_offset (de_ub_addr ext) - me_base_offset entry
  /\ me_base_offset entry mod 8 = 0
  /\ u64 (me_base_offset entry + off).
Proof.
  intros [Hn Hh Ha He _].
  apply lookup_by_addr_spec in Ha as (h & x & _ & Hx & _ & _ & Hoff & Hr); [|apply Hn].
  assert (x = entry) as -> by congruence.
  destruct (mo_entries _ (nd_table _ _ Hn) _ _ He) as [? Hb Hal Hd Haddr (next & _ & Hnext) _].
  destruct (mo_ids _ (nd_table _ _ Hn)) as [Hp Hnode].
  assert (Hbase : UbAddr_offset (me_base_ub_addr entry) = me_base_offset entry).
  { rewrite Haddr. by destruct (UbAddr_accessors_new (mt_pod_id (en_mr_table e)) (mt_node_id (en_mr_table e))
      (me_device_id entry) (me_base_offset entry) 0) as (_ & _ & _ & -> & _); try done; ulia. }
  assert (Hin : offset_in_mr ext (referenced entry) = off).
  { unfold offset_in_mr. cbn. rewrite Hbase, (proj2 (Z.leb_le _ _)) by lia. lia. }
  split; [done|]. unfold device_offset. rewrite Hin. cbn. rewrite wrap_small by ulia.
  split_and!; done || ulia.
Qed.

(** [resolve] on the same request. *)
Lemma addressed_resolve e ext arc entry off verb :
  addressed e ext arc entry off ->
  resolve (en_mr_table e) (de_ub_addr ext) verb
  = (if flags_contains (me_perms entry) (required_perm verb)
     then Ok (me_device entry, me_base_offset entry + off) else Err PermDenied)
  /\ exists d, en_devices e !! me_device entry = Some d /\ dev_wf d.
Proof.
  intros Had. pose proof (resolve_spec _ _ (de_ub_addr ext) verb (ad_node _ _ _ _ _ Had)) as H.
  rewrite (ad_addr _ _ _ _ _ Had) in H. destruct H as (x & d & Hx & Hd & Hwf & _ & _ & _ & _ & ->).
  assert (x = entry) as -> by (pose proof (ad_entry _ _ _ _ _ Had); congruence). eauto.
Qed.

Definition devices_after (devices : list DynDevice) (r : Result (list DynDevice)) : list DynDevice :=
  match r with Ok devices' => devices' | _ => devices end.

Lemma handle_write_local e ext payload arc entry off :
  addressed e ext arc entry off -> Forall u8 payload -> Z.of_nat (length payload) < 2 ^ 63 ->
  handle_write e payload ext
  = Ok (e <| en_devices := devices_after (en_devices e)
              (ub_write_sync (en_mr_table e) (en_devices e) (de_ub_addr ext) payload) |>).
Proof.
  intros Had Hp Hlen. unfold handle_write. rewrite (begin_access_live _ _ _ _ _ _ Had). cbn [rbind].
  destruct (addressed_resolve _ _ _ _ _ Verb_Write Had) as (Hres & d & Hd & Hwf).
  destruct (addressed_offset _ _ _ _ _ Had) as (_ & Hoff & _ & _ & Hu).
  unfold ub_write_sync. rewrite Hres. destruct (flags_contains _ _); cbn [rbind]; [|by destruct e].
  rewrite Hoff. unfold entry_write, entry_device, with_device.
  change (me_device (referenced entry)) with (me_device entry).
  change (en_devices (held e arc entry)) with (en_devices e). rewrite Hd.
  pose proof (dev_write_spec d (me_base_offset entry + off) payload Hwf Hu Hp Hlen) as Hw.
  destruct (in_bounds _ _ _).
  - destruct Hw as (d' & -> & _). cbn [rbind devices_after].
    rewrite (release_held e _ arc entry) by (done || apply (ad_entry _ _ _ _ _ Had)). by destruct e.
  - rewrite Hw. cbn [rbind devices_after].
    rewrite (release_held e _ arc entry) by (done || apply (ad_entry _ _ _ _ _ Had)). by destruct e.
Qed.

(** The answer to a request: remembered for a repeated request, and sent. *)
Definition answer_request (e : Engine) (now now' : Z) (ext : DataExtHeader) (remote_node : Z)
    (verb : Verb) (buf : bytes) : Engine :=
  let resp := build_data_frame (en_local_node_id e) remote_node verb (de_mr_handle ext)
                (de_ub_addr ext) (de_opaque ext) buf in
  reply (e <| en_transport := TransportManager_read_cache_insert (en_transport e) now now' remote_node
                                (remote_node, de_opaque ext) resp |>) remote_node resp.

Definition read_status (err : UbError) : Z := if decide (err = PermDenied) then 2 else 1.

Lemma handle_read_local e now now' ext payload header arc entry off :
  addressed e ext arc entry off -> 4 <= Z.of_nat (length payload) -> Forall u8 payload ->
  handle_read_req e now now' payload ext header (fh_src_node header) (fh_src_node header, de_opaque ext)
  = Ok (match ub_read_sync (en_mr_table e) (en_devices e) (de_ub_addr ext) (be_value (take 4 payload)) with
        | Ok buf => answer_request e now now' ext (fh_src_node header) Verb_ReadResp buf
        | Err err => send_error_response e (fh_src_node header) ext (read_status err)
        | Panic => e
        end).
Proof.
  intros Had Hlen Hp. unfold handle_read_req. rewrite (begin_access_live _ _ _ _ _ _ Had). cbn [rbind].
  destruct (addressed_resolve _ _ _ _ _ Verb_ReadReq Had) as (Hres & d & Hd & Hwf).
  destruct (addressed_offset _ _ _ _ _ Had) as (_ & Hoff & _ & _ & Hu).
  unfold ub_read_sync. rewrite Hres. destruct (flags_contains _ _); cbn [rbind]; [|done].
  rewrite Hoff, (proj2 (Z.leb_le _ _)) by done. unfold devices_read.
  change (me_device (referenced entry)) with (me_device entry).
  change (en_devices (held e arc entry)) with (en_devices e). rewrite Hd.
  assert (Hlen4 : 0 <= be_value (take 4 payload) < 2 ^ 63).
  { pose proof (be_value_bound (take 4 payload) ltac:(by apply Forall_take)) as Hb.
    rewrite length_take in Hb. replace (Nat.min 4 (length payload)) with 4%nat in Hb by lia. lia. }
  rewrite (dev_read_spec d (me_base_offset entry + off) _ Hwf Hu Hlen4).
  destruct (in_bounds _ _ _).
  - rewrite (release_held e _ arc entry) by (done || apply (ad_entry _ _ _ _ _ Had)). by destruct e.
  - rewrite (release_held e _ arc entry) by (done || apply (ad_entry _ _ _ _ _ Had)). by destruct e.
Qed.

Lemma aligned_offset e ext arc entry off :
  addressed e ext arc entry off ->
  (off mod 8 =? 0) = (UbAddr_offset (de_ub_addr ext) mod 8 =? 0)
  /\ ((me_base_offset entry + off) mod 8 =? 0) = (UbAddr_offset (de_ub_addr ext) mod 8 =? 0).
Proof.
  intros Had. destruct (addressed_offset _ _ _ _ _ Had) as (_ & _ & -> & Hal & _).
  replace (me_base_offset entry + (UbAddr_offset (de_ub_addr ext) - me_base_offset entry))
    with (UbAddr_offset (de_ub_addr ext)) by lia.
  split; [|done]. rewrite Zminus_mod, Hal, Z.sub_0_r, Zmod_mod. done.
Qed.

(** The end of a successful atomic, with the reference given back. *)
Lemma finish_atomic_held e devices now now' ext header arc entry resp_verb old :
  mt_heap (en_mr_table e) !! arc = Some entry ->
  finish_atomic ((held e arc entry) <| en_devices := devices |>) now now' ext header (fh_src_node header)
    arc resp_verb (Ok old)
  = Ok (answer_request (e <| en_devices := devices |>) now now' ext (fh_src_node header) resp_verb
          (put_u64 old ++ put_u32 0 ++ put_u32 0)).
Proof.
  intros He. unfold finish_atomic. rewrite (release_held e _ arc entry) by done. by destruct e.
Qed.

Section Atomics.
Context (e : Engine) (now now' : Z) (ext : DataExtHeader) (header : FrameHeader).
Context (arc : nat) (entry : MrEntry) (off : Z).
Context (Had : addressed e ext arc entry off).

(** Both atomic handlers on a request that is long enough. *)
Definition atomic_handler (verb resp_verb : Verb) (op : DynDevice -> Result (Z * DynDevice)) : Result Engine :=
  let? access := begin_access e (de_mr_handle ext) verb in
  match access with
  | Access_NotFound | Access_Revoked => Ok (send_error_response e (fh_src_node header) ext 1)
  | Access_Denied e => Ok (send_error_response e (fh_src_node header) ext 2)
  | Access_Granted e arc entry =>
    if negb (offset_in_mr ext entry mod 8 =? 0)
    then Ok (send_error_response (release_entry e arc) (fh_src_node header) ext 3)
    else
      let '(e, r) := entry_device e entry op in
      finish_atomic e now now' ext header (fh_src_node header) arc resp_verb r
  end.

(** [handler] answers with the outcome of the local verb. *)
Definition answers_as (resp_verb : Verb) (local : Result (Z * list DynDevice)) (handler : Result Engine) : Prop :=
  match local with
  | Ok (old, devices) =>
    handler = Ok (answer_request (e <| en_devices := devices |>) now now' ext (fh_src_node header) resp_verb
                    (put_u64 old ++ put_u32 0 ++ put_u32 0))
  | _ => exists status, 1 <= status <= 9 /\ handler = Ok (send_error_response e (fh_src_node header) ext status)
  end.

Lemma atomic_refines verb resp_verb (op : DynDevice -> Result (Z * DynDevice)) :
  (forall d, dev_wf d -> UbAddr_offset (de_ub_addr ext) mod 8 = 0 ->
     (exists old d', op d = Ok (old, d')) \/ exists err, op d = Err err) ->
  answers_as resp_verb
    (if negb (UbAddr_offset (de_ub_addr ext) mod 8 =? 0) then Err Alignment
     else let? (device, _) := resolve (en_mr_table e) (de_ub_addr ext) verb in
          with_device (en_devices e) device op)
    (atomic_handler verb resp_verb op).
Proof.
  intros Hop. unfold answers_as, atomic_handler. rewrite (begin_access_live _ _ _ _ _ _ Had). cbn [rbind].
  destruct (addressed_resolve _ _ _ _ _ verb Had) as (Hres & d & Hd & Hwf).
  destruct (addressed_offset _ _ _ _ _ Had) as (Hin & _).
  destruct (aligned_offset _ _ _ _ _ Had) as (Hal & _).
  assert (He : mt_heap (en_mr_table e) !! arc = Some entry) by apply Had.
  rewrite Hres. destruct (flags_contains _ _); cbn [rbind].
  2: { destruct (negb _); exists 2; split; done || lia. }
  rewrite Hin, Hal. destruct (UbAddr_offset (de_ub_addr ext) mod 8 =? 0) eqn:Ea; cbn [negb].
  2: { exists 3. split; [lia|]. rewrite (release_held e _ arc entry) by done. by destruct e. }
  unfold entry_device, with_device. change (me_device (referenced entry)) with (me_device entry).
  change (en_devices (held e arc entry)) with (en_devices e). rewrite Hd.
  destruct (Hop d Hwf ltac:(by apply Z.eqb_eq)) as [(old & d' & ->)|(err & ->)]; cbn [rbind].
  - by apply finish_atomic_held.
  - exists 9. split; [lia|]. unfold finish_atomic. rewrite (release_held e _ arc entry) by done. by destruct e.
Qed.

(** The atomic handlers with the device offset resolved. *)
Lemma atomic_handler_offset verb resp_verb (op : Z -> DynDevice -> Result (Z * DynDevice)) :
  (let? access := begin_access e (de_mr_handle ext) verb in
   match access with
   | Access_NotFound | Access_Revoked => Ok (send_error_response e (fh_src_node header) ext 1)
   | Access_Denied e => Ok (send_error_response e (fh_src_node header) ext 2)
   | Access_Granted e arc entry =>
     if negb (offset_in_mr ext entry mod 8 =? 0)
     then Ok (send_error_response (release_entry e arc) (fh_src_node header) ext 3)
     else
       let '(e, r) := entry_device e entry (op (device_offset ext entry)) in
       finish_atomic e now now' ext header (fh_src_node header) arc resp_verb r
   end) = atomic_handler verb resp_verb (op (me_base_offset entry + off)).
Proof.
  unfold atomic_handler. destruct (addressed_offset _ _ _ _ _ Had) as (_ & Hoff & _).
  rewrite (begin_access_live _ _ _ _ _ _ Had). cbn [rbind].
  destruct (flags_contains _ _); [by rewrite Hoff|done].
Qed.

Lemma handle_cas_local payload :
  16 <= Z.of_nat (length payload) -> Forall u8 payload ->
  answers_as Verb_AtomicCasResp
    (ub_atomic_cas_sync (en_mr_table e) (en_devices e) (de_ub_addr ext)
       (be_value (take 8 payload)) (be_value (take 8 (drop 8 payload))))
    (handle_atomic_cas e now now' payload ext header (fh_src_node header)).
Proof.
  intros Hlen Hp. set (expect := be_value (take 8 payload)). set (new := be_value (take 8 (drop 8 payload))).
  destruct (addressed_offset _ _ _ _ _ Had) as (_ & _ & _ & _ & Hu).
  destruct (aligned_offset _ _ _ _ _ Had) as (_ & Hal).
  assert (Hnew : u64 new).
  { unfold new. pose proof (be_value_bound (take 8 (drop 8 payload)) ltac:(by apply Forall_take, Forall_drop)) as Hb.
    rewrite length_take, length_drop in Hb.
    replace (Nat.min 8 (length payload - 8)) with 8%nat in Hb by lia. unfold fits. lia. }
  assert (Heq : handle_atomic_cas e now now' payload ext header (fh_src_node header)
    = atomic_handler Verb_AtomicCas Verb_AtomicCasResp
        (fun d => dev_atomic_cas d (me_base_offset entry + off) expect new)).
  { rewrite <- (atomic_handler_offset _ _ (fun o d => dev_atomic_cas d o expect new)).
    unfold handle_atomic_cas. by rewrite (proj2 (Z.ltb_ge _ 16)) by done. }
  rewrite Heq. unfold ub_atomic_cas_sync.
  replace (let? (device, device_offset) := resolve (en_mr_table e) (de_ub_addr ext) Verb_AtomicCas in
           with_device (en_devices e) device (fun d => dev_atomic_cas d device_offset expect new))
    with (let? (device, _) := resolve (en_mr_table e) (de_ub_addr ext) Verb_AtomicCas in
          with_device (en_devices e) device (fun d => dev_atomic_cas d (me_base_offset entry + off) expect new))
    by (destruct (addressed_resolve _ _ _ _ _ Verb_AtomicCas Had) as (-> & _); by destruct (flags_contains _ _)).
  apply atomic_refines. intros d Hwf Ha.
  pose proof (dev_cas_spec d (me_base_offset entry + off) expect new Hwf Hu Hnew) as Hs.
  rewrite Hal, Ha in Hs. cbn [Z.eqb negb] in Hs. destruct (in_bounds _ _ _); [left|by right; eauto].
  destruct Hs as (d' & Hs & _). eauto.
Qed.

Lemma handle_faa_local payload :
  8 <= Z.of_nat (length payload) ->
  answers_as Verb_AtomicFaaResp
    (ub_atomic_faa_sync (en_mr_table e) (en_devices e) (de_ub_addr ext) (be_value (take 8 payload)))
    (handle_atomic_faa e now now' payload ext header (fh_src_node header)).
Proof.
  intros Hlen. set (add := be_value (take 8 payload)).
  destruct (addressed_offset _ _ _ _ _ Had) as (_ & _ & _ & _ & Hu).
  destruct (aligned_offset _ _ _ _ _ Had) as (_ & Hal).
  assert (Heq : handle_atomic_faa e now now' payload ext header (fh_src_node header)
    = atomic_handler Verb_AtomicFaa Verb_AtomicFaaResp
        (fun d => dev_atomic_faa d (me_base_offset entry + off) add)).
  { rewrite <- (atomic_handler_offset _ _ (fun o d => dev_atomic_faa d o add)).
    unfold handle_atomic_faa. by rewrite (proj2 (Z.ltb_ge _ 8)) by done. }
  rewrite Heq. unfold ub_atomic_faa_sync.
  replace (let? (device, device_offset) := resolve (en_mr_table e) (de_ub_addr ext) Verb_AtomicFaa in
           with_device (en_devices e) device (fun d => dev_atomic_faa d device_offset add))
    with (let? (device, _) := resolve (en_mr_table e) (de_ub_addr ext) Verb_AtomicFaa in
          with_device (en_devices e) device (fun d => dev_atomic_faa d (me_base_offset entry + off) add))
    by (destruct (addressed_resolve _ _ _ _ _ Verb_AtomicFaa Had) as (-> & _); by destruct (flags_contains _ _)).
  apply atomic_refines. intros d Hwf Ha.
  pose proof (dev_faa_spec d (me_base_offset entry + off) add Hwf Hu) as Hs.
  rewrite Hal, Ha in Hs. cbn [Z.eqb negb] in Hs. destruct (in_bounds _ _ _); [left|by right; eauto].
  destruct Hs as (d' & Hs & _). eauto.
Qed.
End Atomics.

(** ** What the handlers do to the execution records *)

(** The records of the current session with a peer. *)
Definition exec_view (m : TransportManager) (r : Z) : option (list (Z * bool)) :=
  (fun ks => rs_execution_records ks.2) <$> current_session m r.

Definition same_exec (m m' : TransportManager) : Prop := forall r, exec_view m' r = exec_view m r.

Definition mark_records (seq : Z) (records : list (Z * bool)) : list (Z * bool) :=
  match set_executed seq records with
  | Some records => records
  | None => drop (length (records ++ [(seq, true)]) - 1024) (records ++ [(seq, true)])
  end.

Lemma mark_executed_records s seq :
  rs_execution_records (ReliableSession_mark_executed s seq) = mark_records seq (rs_execution_records s).
Proof. unfold ReliableSession_mark_executed, mark_records. by destruct (set_executed _ _). Qed.

Lemma current_session_put m r key s s' r' :
  current_session m r = Some (key, s) ->
  current_session (put_session m key s') r' = if decide (r' = r) then Some (key, s') else current_session m r'.
Proof.
  unfold current_session, current_key. intros H.
  destruct (tm_peer_epochs m !! r) as [ep|] eqn:Ee; [|done]. cbn in H.
  destruct (tm_sessions m !! session_key m r ep) eqn:Es; [|done]. cbn in H. simplify_eq.
  cbn. case_decide as Hr.
  - subst r'. rewrite Ee. cbn. change (session_key _ r ep) with (session_key m r ep).
    by rewrite lookup_insert_eq.
  - destruct (tm_peer_epochs m !! r') as [ep'|]; [|done]. cbn.
    change (session_key _ r' ep') with (session_key m r' ep').
    rewrite lookup_insert_ne; [done|]. unfold session_key. congruence.
Qed.

Lemma same_exec_put m r key s s' :
  current_session m r = Some (key, s) -> rs_execution_records s' = rs_execution_records s ->
  same_exec m (put_session m key s').
Proof.
  intros Hc Hr r'. unfold exec_view. rewrite (current_session_put _ _ _ _ _ _ Hc).
  case_decide; [subst|done]. rewrite Hc. cbn. by rewrite Hr.
Qed.

Lemma same_exec_trans m1 m2 m3 : same_exec m1 m2 -> same_exec m2 m3 -> same_exec m1 m3.
Proof. intros H1 H2 r. by rewrite H2. Qed.

Lemma same_exec_reply m r d : same_exec m (TransportManager_send_frame_to_peer m r d).
Proof. intros r'. unfold TransportManager_send_frame_to_peer. by repeat case_match. Qed.

Lemma same_exec_cache_insert m t t' r key d : same_exec m (TransportManager_read_cache_insert m t t' r key d).
Proof.
  unfold TransportManager_read_cache_insert. destruct (current_session m r) as [[k s]|] eqn:E; [|done].
  by eapply same_exec_put.
Qed.

Lemma same_exec_cache_get m t r key : same_exec m (TransportManager_read_cache_get m t r key).1.
Proof.
  unfold TransportManager_read_cache_get. destruct (current_session m r) as [[k s]|] eqn:E; [|done].
  destruct (ReadResponseCache_get _ _ _). by eapply same_exec_put.
Qed.

Lemma same_exec_complete m r opaque : same_exec m (TransportManager_complete_request m r opaque).
Proof.
  unfold TransportManager_complete_request. destruct (current_session m r) as [[k s]|] eqn:E; [|done].
  eapply same_exec_put; [done|]. unfold ReliableSession_complete_request. by destruct (remove_first _ _).
Qed.

Lemma mark_executed_view m r seq r' :
  exec_view (TransportManager_mark_executed m r seq) r'
  = if decide (r' = r) then mark_records seq <$> exec_view m r' else exec_view m r'.
Proof.
  unfold TransportManager_mark_executed. destruct (current_session m r) as [[k s]|] eqn:E.
  - unfold exec_view. rewrite (current_session_put _ _ _ _ _ _ E). case_decide; [subst|done].
    rewrite E. cbn. by rewrite mark_executed_records.
  - case_decide; [subst|done]. unfold exec_view. by rewrite E.
Qed.

Lemma is_executed_view m r seq :
  TransportManager_is_executed m r seq
  = match exec_view m r with Some recs => existsb (fun x => (x.1 =? seq) && x.2) recs | None => false end.
Proof.
  unfold TransportManager_is_executed, exec_view. by destruct (current_session m r) as [[k s]|].
Qed.

Lemma begin_access_transport e h verb access :
  begin_access e h verb = Ok access ->
  match access with
  | Access_Denied e' | Access_Granted e' _ _ =>
    en_transport e' = en_transport e /\ en_jetty_table e' = en_jetty_table e /\ en_devices e' = en_devices e
  | _ => True
  end.
Proof.
  unfold begin_access. destruct (MrTable_lookup _ _); [|by intros [= <-]].
  destruct (mt_heap _ !! _) as [entry|]; [|done].
  destruct (MrEntry_try_inflight_inc entry) as [entry' []]; cbn [negb]; [|by intros [= <-]].
  destruct (MrEntry_check_perms _ _); by intros [= <-].
Qed.

Lemma same_exec_error e dst ext status :
  same_exec (en_transport e) (en_transport (send_error_response e dst ext status)).
Proof. apply same_exec_reply. Qed.

Lemma entry_device_transport {A} e entry (op : DynDevice -> Result (A * DynDevice)) :
  en_transport (entry_device e entry op).1 = en_transport e
  /\ en_jetty_table (entry_device e entry op).1 = en_jetty_table e.
Proof. unfold entry_device. by destruct (with_device _ _ _) as [[? ?]| |]. Qed.

Lemma handle_write_exec e payload ext e' :
  handle_write e payload ext = Ok e' -> same_exec (en_transport e) (en_transport e').
Proof.
  unfold handle_write. intros (access & Ha & H)%rbind_Ok_inv.
  apply begin_access_transport in Ha. destruct access as [| |e1|e1 arc entry]; simplify_eq; try done.
  - intros r. destruct Ha as (-> & _). done.
  - destruct Ha as (Ht & _). unfold entry_write in H.
    pose proof (entry_device_transport e1 entry
      (fun d => let? d' := dev_write d (device_offset ext entry) payload in Ok (tt, d'))) as [Hd _].
    destruct (entry_device e1 entry _) as [e2 []]; simplify_eq; intros r; cbn in *; by rewrite Hd, Ht.
Qed.

Lemma handle_write_imm_exec e payload ext e' :
  handle_write_imm e payload ext = Ok e' -> same_exec (en_transport e) (en_transport e').
Proof.
  unfold handle_write_imm. intros (access & Ha & H)%rbind_Ok_inv.
  apply begin_access_transport in Ha. destruct access as [| |e1|e1 arc entry]; simplify_eq; try done.
  - intros r. destruct Ha as (-> & _). done.
  - destruct Ha as (Ht & _). unfold entry_write in H.
    pose proof (entry_device_transport e1 entry
      (fun d => let? d' := dev_write d (device_offset ext entry) payload in Ok (tt, d'))) as [Hd _].
    destruct (entry_device e1 entry _) as [e2 [|err|]]; [|simplify_eq; intros r; cbn in *; by rewrite Hd, Ht|done].
    cbn [fst] in Hd. destruct (JettyTable_lookup _ _); [|simplify_eq; intros r; cbn; by rewrite Hd, Ht].
    destruct (jb_heap _ !! _) as [j|]; [|done]. simplify_eq. intros r. unfold push_or_drop.
    destruct (Jetty_push_cqe _ _); cbn; by rewrite Hd, Ht.
Qed.

Lemma handle_read_exec e now now' payload ext header r key e' :
  handle_read_req e now now' payload ext header r key = Ok e' ->
  same_exec (en_transport e) (en_transport e').
Proof.
  unfold handle_read_req. intros (access & Ha & H)%rbind_Ok_inv.
  apply begin_access_transport in Ha. destruct access as [| |e1|e1 arc entry]; simplify_eq.
  - apply same_exec_error.
  - apply same_exec_error.
  - destruct Ha as (<- & _). apply same_exec_error.
  - destruct Ha as (<- & _). destruct (devices_read _ _ _ _); simplify_eq.
    + eapply same_exec_trans; [apply same_exec_cache_insert|apply same_exec_reply].
    + apply same_exec_error.
Qed.

Lemma finish_atomic_exec e now now' ext header r arc resp_verb res e' :
  finish_atomic e now now' ext header r arc resp_verb res = Ok e' ->
  same_exec (en_transport e) (en_transport e').
Proof.
  unfold finish_atomic. destruct res; intros H; simplify_eq.
  - eapply same_exec_trans; [apply same_exec_cache_insert|apply same_exec_reply].
  - apply same_exec_error.
Qed.

Lemma handle_cas_exec e now now' payload ext header r e' :
  handle_atomic_cas e now now' payload ext header r = Ok e' ->
  same_exec (en_transport e) (en_transport e').
Proof.
  unfold handle_atomic_cas. intros (access & Ha & H)%rbind_Ok_inv.
  apply begin_access_transport in Ha. destruct access as [| |e1|e1 arc entry]; simplify_eq.
  - apply same_exec_error.
  - apply same_exec_error.
  - destruct Ha as (<- & _). apply same_exec_error.
  - destruct Ha as (<- & _). destruct (negb _); [simplify_eq; apply same_exec_reply|].
    destruct (_ <? 16); [simplify_eq; apply same_exec_reply|].
    match type of H with context [entry_device e1 entry ?f] =>
      pose proof (entry_device_transport e1 entry f) as [Hd _]; destruct (entry_device e1 entry f) as [e2 res] end.
    apply finish_atomic_exec in H. cbn in Hd. by rewrite Hd in H.
Qed.

Lemma handle_faa_exec e now now' payload ext header r e' :
  handle_atomic_faa e now now' payload ext header r = Ok e' ->
  same_exec (en_transport e) (en_transport e').
Proof.
  unfold handle_atomic_faa. intros (access & Ha & H)%rbind_Ok_inv.
  apply begin_access_transport in Ha. destruct access as [| |e1|e1 arc entry]; simplify_eq.
  - apply same_exec_error.
  - apply same_exec_error.
  - destruct Ha as (<- & _). apply same_exec_error.
  - destruct Ha as (<- & _). destruct (negb _); [simplify_eq; apply same_exec_reply|].
    destruct (_ <? 8); [simplify_eq; apply same_exec_reply|].
    match type of H with context [entry_device e1 entry ?f] =>
      pose proof (entry_device_transport e1 entry f) as [Hd _]; destruct (entry_device e1 entry f) as [e2 res] end.
    apply finish_atomic_exec in H. cbn in Hd. by rewrite Hd in H.
Qed.

Lemma handle_send_exec e payload ext e' :
  handle_send e payload ext = Ok e' -> same_exec (en_transport e) (en_transport e').
Proof.
  unfold handle_send. destruct (JettyTable_lookup _ _); [|by intros [= <-]].
  destruct (jb_heap _ !! _) as [j|]; [|done]. destruct (Jetty_pop_recv j) as [[rb|] j'].
  - intros [= <-] r. unfold push_or_drop. by destruct (Jetty_push_cqe _ _).
  - by intros [= <-].
Qed.

Lemma resend_cached_exec e now r key : same_exec (en_transport e) (en_transport (resend_cached e now r key).1).
Proof.
  unfold resend_cached. pose proof (same_exec_cache_get (en_transport e) now r key) as H.
  destruct (TransportManager_read_cache_get _ _ _ _) as [m [resp|]]; cbn [fst] in *; [|done].
  eapply same_exec_trans; [exact H|apply same_exec_reply].
Qed.

(** A frame adds at most its own number to the records, and only to those of its sender. *)
Lemma handle_verb_frame_exec e clock f e' r :
  handle_verb_frame e clock f = Ok e' ->
  exec_view (en_transport e') r = exec_view (en_transport e) r
  \/ exec_view (en_transport e') r = mark_records (if_seq f) <$> exec_view (en_transport e) r.
Proof.
  assert (Hmark : forall e1 e2, same_exec (en_transport e) (en_transport e1) ->
    Ok (mark_executed e1 (fh_src_node (if_header f)) (if_seq f)) = Ok e2 ->
    exec_view (en_transport e2) r = exec_view (en_transport e) r
    \/ exec_view (en_transport e2) r = mark_records (if_seq f) <$> exec_view (en_transport e) r).
  { intros e1 e2 H1 [= <-]. cbn. rewrite mark_executed_view, H1. case_decide; [by right|by left]. }
  unfold handle_verb_frame. intros H. destruct (de_verb (if_ext f)).
  - pose proof (resend_cached_exec e (clock 0%nat) (fh_src_node (if_header f))
      (fh_src_node (if_header f), de_opaque (if_ext f))) as Hc.
    destruct (resend_cached _ _ _ _) as [e1 []]; [simplify_eq; left; apply Hc|].
    apply handle_read_exec in H. left. by rewrite H, Hc.
  - simplify_eq. unfold complete_pending_request. case_decide; [|by left].
    left. cbn. rewrite same_exec_complete. unfold answer. by rewrite decide_True.
  - destruct (TransportManager_is_executed _ _ _); [simplify_eq; by left|].
    apply rbind_Ok_inv in H as (e1 & H1 & H). eapply Hmark; [by eapply handle_write_exec|done].
  - destruct (TransportManager_is_executed _ _ _); [simplify_eq; left; apply resend_cached_exec|].
    apply rbind_Ok_inv in H as (e1 & H1 & H). eapply Hmark; [by eapply handle_cas_exec|done].
  - destruct (TransportManager_is_executed _ _ _); [simplify_eq; left; apply resend_cached_exec|].
    apply rbind_Ok_inv in H as (e1 & H1 & H). eapply Hmark; [by eapply handle_faa_exec|done].
  - left. by apply handle_send_exec in H.
  - destruct (TransportManager_is_executed _ _ _); [simplify_eq; by left|].
    apply rbind_Ok_inv in H as (e1 & H1 & H). eapply Hmark; [by eapply handle_write_imm_exec|done].
  - simplify_eq. unfold complete_pending_request. case_decide; [|by left].
    left. cbn. rewrite same_exec_complete. unfold answer. by rewrite decide_True.
  - simplify_eq. unfold complete_pending_request. case_decide; [|by left].
    left. cbn. rewrite same_exec_complete. unfold answer. by rewrite decide_True.
Qed.

(** Frames handled one after the other. *)
Fixpoint handle_frames (e : Engine) (fs : list ((nat -> Z) * InboundFrame)) : Result Engine :=
  match fs with
  | [] => Ok e
  | (clock, f) :: fs => let? e := handle_verb_frame e clock f in handle_frames e fs
  end.

Lemma handle_frames_exec fs e e' r :
  handle_frames e fs = Ok e' -> exists marks, (length marks <= length fs)%nat
  /\ exec_view (en_transport e') r
     = (fun recs => foldl (fun l seq => mark_records seq l) recs marks) <$> exec_view (en_transport e) r.
Proof.
  revert e. induction fs as [|[clock f] fs IH]; intros e H; cbn in H.
  { simplify_eq. exists []. split; [done|]. cbn. by destruct (exec_view _ _). }
  apply rbind_Ok_inv in H as (e1 & H1 & H). destruct (IH e1 H) as (marks & Hlen & Hv).
  rewrite Hv. destruct (handle_verb_frame_exec _ _ _ _ r H1) as [->| ->].
  - exists marks. split; [cbn; lia|done].
  - exists (if_seq f :: marks). split; [cbn; lia|]. cbn [foldl].
    destruct (exec_view (en_transport e) r); cbn; done.
Qed.

(** Verbs that change the receiver's memory. *)
Definition is_update_verb (v : Verb) : bool :=
  match v with
  | Verb_Write | Verb_WriteImm | Verb_AtomicCas | Verb_AtomicFaa => true
  | _ => false
  end.

(** ** Properties *)

(** C6 (refinement): A remote verb does at its owner what the local verb does. For a frame that names a
    live region by its handle and an address inside it, the handlers of WRITE, READ, CAS and FAA
    leave the devices exactly as [ub_write_sync], [ub_read_sync], [ub_atomic_cas_sync] and
    [ub_atomic_faa_sync] would, give back the reference they took on the region, and answer with
    the bytes or the old value the local verb returns, or with an error frame when it fails. *)
Theorem remote_verbs_refine_local e now now' ext payload header arc entry off :
  addressed e ext arc entry off -> Forall u8 payload -> Z.of_nat (length payload) < 2 ^ 63 ->
  let src := fh_src_node header in
  let t := en_mr_table e in
  let addr := de_ub_addr ext in
  handle_write e payload ext
    = Ok (e <| en_devices := devices_after (en_devices e) (ub_write_sync t (en_devices e) addr payload) |>)
  /\ (4 <= Z.of_nat (length payload) ->
      handle_read_req e now now' payload ext header src (src, de_opaque ext)
      = Ok (match ub_read_sync t (en_devices e) addr (be_value (take 4 payload)) with
            | Ok buf => answer_request e now now' ext src Verb_ReadResp buf
            | Err err => send_error_response e src ext (read_status err)
            | Panic => e
            end))
  /\ (16 <= Z.of_nat (length payload) ->
      answers_as e now now' ext header Verb_AtomicCasResp
        (ub_atomic_cas_sync t (en_devices e) addr (be_value (take 8 payload)) (be_value (take 8 (drop 8 payload))))
        (handle_atomic_cas e now now' payload ext header src))
  /\ (8 <= Z.of_nat (length payload) ->
      answers_as e now now' ext header Verb_AtomicFaaResp
        (ub_atomic_faa_sync t (en_devices e) addr (be_value (take 8 payload)))
        (handle_atomic_faa e now now' payload ext header src)).
Proof.
  intros Had Hp Hlen. cbv zeta. split; [by eapply handle_write_local|].
  split; [intros; by eapply handle_read_local|].
  split; intros;
    [by apply (handle_cas_local e now now' ext header arc entry off Had)
    |by apply (handle_faa_local e now now' ext header arc entry off Had)].
Qed.

(** What the transport does with a request it finds executed: an atomic is answered from the
    read cache, if its answer is still there; nothing else is sent. *)
Definition answered_again (m : TransportManager) (now r : Z) (ext : DataExtHeader) : TransportManager :=
  if is_request_verb (de_verb ext) then
    let '(m, cached) := TransportManager_read_cache_get m now r (r, de_opaque ext) in
    from_option (TransportManager_send_frame_to_peer m r) m cached
  else m.

(** C5 (safety): A repeated request is executed once. After a WRITE, WRITE_IMM, CAS or FAA frame with a
    sequence number not on record was handled, and at most 1023 further frames (from any peer, of
    any kind) after it, handling the same frame again changes no device, no region, no jetty, no
    pending call and no answer: of the whole engine only the transport changes, and that only in
    that the answer to an atomic, if the read cache of the peer's session still has it, is sent to
    the peer once more, byte for byte as it was cached; the repetition of a write changes nothing. *)
Theorem remote_update_once e clock f e1 others e2 clock' recs :
  is_update_verb (de_verb (if_ext f)) = true ->
  exec_view (en_transport e) (fh_src_node (if_header f)) = Some recs -> if_seq f ∉ map fst recs ->
  handle_verb_frame e clock f = Ok e1 ->
  (length others <= 1023)%nat -> handle_frames e1 others = Ok e2 ->
  handle_verb_frame e2 clock' f
  = Ok (e2 <| en_transport :=
              answered_again (en_transport e2) (clock' 0%nat) (fh_src_node (if_header f)) (if_ext f) |>).
Proof.
  intros Hv Hrec Hfresh H1 Hlen H2. set (r := fh_src_node (if_header f)) in *.
  assert (Hnew : TransportManager_is_executed (en_transport e) r (if_seq f) = false).
  { rewrite is_executed_view, Hrec. apply not_true_is_false. intros Hx.
    apply existsb_exists in Hx as ([sq b] & Hin & Hx). cbn in Hx. zbool. subst sq.
    apply Hfresh, list_elem_of_In, in_map_iff. by exists (if_seq f, b). }
  assert (Hview : exec_view (en_transport e1) r = Some (mark_records (if_seq f) recs)).
  { unfold handle_verb_frame in H1. fold r in H1.
    destruct (de_verb (if_ext f)); try done; rewrite Hnew in H1; apply rbind_Ok_inv in H1 as (x & Hx & H1);
      injection H1 as <-; cbn; rewrite mark_executed_view, decide_True by done;
      first [apply handle_write_exec in Hx | apply handle_cas_exec in Hx | apply handle_faa_exec in Hx
            | apply handle_write_imm_exec in Hx]; by rewrite Hx, Hrec. }
  assert (Hdone : TransportManager_is_executed (en_transport e2) r (if_seq f) = true).
  { destruct (handle_frames_exec others e1 e2 r H2) as (marks & Hml & Hv2).
    rewrite is_executed_view, Hv2, Hview. cbn [fmap option_fmap option_map].
    set (s0 := (ReliableSession_new 0 0 0 0 0 0) <| rs_execution_records := mark_records (if_seq f) recs |>).
    assert (Hfold : forall ms s, rs_execution_records (foldl ReliableSession_mark_executed s ms)
              = foldl (fun l seq => mark_records seq l) (rs_execution_records s) ms).
    { induction ms as [|m ms IH]; intros s; cbn [foldl]; [done|]. by rewrite IH, mark_executed_records. }
    pose proof (Hfold marks s0) as Hf. cbn [rs_execution_records set_field s0] in Hf. rewrite <- Hf.
    change (ReliableSession_is_executed (foldl ReliableSession_mark_executed s0 marks) (if_seq f) = true).
    assert (Hpre : exists pre, mark_records (if_seq f) recs = pre ++ [(if_seq f, true)]).
    { unfold mark_records. rewrite set_executed_None by done.
      rewrite drop_app_le by (rewrite length_app; cbn; lia). eauto. }
    destruct Hpre as [pre Hpre]. apply (marks_keep marks s0 (if_seq f) pre []); [exact Hpre|cbn; lia]. }
  assert (Hsame : e2 <| en_transport := en_transport e2 |> = e2) by (by destruct e2).
  unfold handle_verb_frame, answered_again, resend_cached, reply. fold r.
  destruct (de_verb (if_ext f)); try done; rewrite Hdone; cbn [is_request_verb]; rewrite ?Hsame; try done;
    by destruct (TransportManager_read_cache_get _ _ _ _) as [m [?|]].
Qed.

(** ** A remote read from end to end *)

(** The frame most recently handed to the fabric for a peer. *)
Definition last_sent (e : Engine) (node : Z) : option bytes :=
  ch ← tm_peer_senders (en_transport e) !! node; last (ch_queue ch).

Lemma data_header_wf src dst payload : u16 src -> u16 dst -> header_wf (data_header src dst 0 payload).
Proof. intros. unfold header_wf. cbn. split_and!; done || apply wrap_fits; lia. Qed.

Lemma data_ext_wf verb mr_handle ub_addr opaque :
  u32 mr_handle -> u128 ub_addr -> u64 opaque -> ext_wf (data_ext verb 0 mr_handle ub_addr opaque 0 0 None).
Proof. intros. unfold ext_wf. cbn. split_and!; done. Qed.

(** A successful send queues the stamped frame for the peer. *)
Lemma send_Ok_inv m t1 t2 r frame ff opaque m' frame' seq :
  TransportManager_send m t1 t2 r frame ff opaque = (m', frame', Ok seq) ->
  exists key s ch, current_session m r = Some (key, s) /\ seq = rs_next_seq s
  /\ frame' = stamp_frame seq frame
  /\ tm_peer_senders m' !! r = Some ch /\ last (ch_queue ch) = Some frame'
  /\ tm_inbound m' = tm_inbound m.
Proof.
  unfold TransportManager_send, current_session, current_key.
  destruct (tm_peer_epochs m !! r) as [ep|]; [|done]. cbn.
  destruct (tm_sessions m !! session_key m r ep) as [s|] eqn:Es; [|done]. cbn.
  case_decide; [done|]. unfold ReliableSession_consume_credit.
  destruct (_ =? 0); [done|]. unfold ReliableSession_assign_seq. cbv zeta. cbn.
  destruct (tm_peer_senders m !! r) as [ch|] eqn:Ech; [|done].
  unfold try_send. destruct (_ && _); [|done]. intros Heq. injection Heq as <- <- <-.
  eexists _, s, _. split; [done|]. split; [done|]. split; [done|].
  cbn. rewrite lookup_insert_eq. split; [done|]. cbn. by rewrite last_snoc.
Qed.

(** A peer's frame with the next expected number: it is delivered, the session
    keeps its cache, and at most one frame is queued for the peer. *)
Lemma receive_in_order m header ext payload key s ch :
  current_session m (fh_src_node header) = Some (key, s) -> rs_state s = SessionState_Active ->
  fh_stream_seq header <> 0 -> DedupWindow_check (rs_dedup s) (fh_stream_seq header) = DedupResult_InOrder ->
  tm_peer_senders m !! fh_src_node header = Some ch ->
  let m' := TransportManager_handle_data_frame m header ext payload in
  tm_inbound m' = tm_inbound m ++ [mkInboundFrame header ext payload (fh_stream_seq header)]
  /\ (exists s', current_session m' (fh_src_node header) = Some (key, s') /\ rs_read_cache s' = rs_read_cache s)
  /\ exists ch', tm_peer_senders m' !! fh_src_node header = Some ch' /\ ch_open ch' = ch_open ch
       /\ ch_capacity ch' = ch_capacity ch /\ (length (ch_queue ch') <= length (ch_queue ch) + 1)%nat.
Proof.
  intros Hc Hact Hseq Hdw Hch. set (r := fh_src_node header) in *.
  assert (Hkey : handler_key m r = key /\ tm_sessions m !! key = Some s).
  { unfold current_session, current_key in Hc. unfold handler_key.
    destruct (tm_peer_epochs m !! r) as [ep|]; [|done]. cbn in *.
    destruct (tm_sessions m !! session_key m r ep) eqn:Es; [|done]. cbn in Hc. by simplify_eq. }
  destruct Hkey as [Hk Hs]. unfold TransportManager_handle_data_frame. fold r.
  rewrite (proj2 (Z.eqb_neq _ _)), Hk, Hs by done.
  rewrite decide_False by (intros Hx; by apply Hx).
  assert (Hrf : exists s1, ReliableSession_receive_frame s (fh_stream_seq header) = (s1, ReceiveAction_Deliver)
                           /\ rs_read_cache s1 = rs_read_cache s).
  { unfold ReliableSession_receive_frame. cbn [rs_dedup set_field]. rewrite Hdw. by eexists. }
  destruct Hrf as (s1 & -> & Hcache1). rewrite decide_False by done.
  set (f := mkInboundFrame header ext payload _).
  assert (Hc1 : forall s', current_session (send_inbound (put_session m key s') f) r = Some (key, s')).
  { intros s'. change (current_session (put_session m key s') r = Some (key, s')).
    by rewrite (current_session_put _ _ _ _ _ _ Hc), decide_True. }
  destruct (_ || _).
  - assert (Hcache : rs_read_cache (ReliableSession_build_ack_payload s1 (bool_decide (ReceiveAction_Deliver = ReceiveAction_OutOfOrder))).1 = rs_read_cache s).
    { rewrite <- Hcache1. unfold ReliableSession_build_ack_payload. by destruct (bool_decide _). }
    destruct (ReliableSession_build_ack_payload s1 _) as [s2 ack]. cbn [fst] in Hcache.
    set (m1 := put_session (send_inbound (put_session m key s1) f) key s2).
    unfold TransportManager_send_frame_to_peer.
    change (tm_peer_senders m1) with (tm_peer_senders m).
    assert (Hm1 : tm_inbound m1 = tm_inbound m ++ [f]) by done.
    assert (Hcur : current_session m1 r = Some (key, s2)).
    { unfold m1. by rewrite (current_session_put _ _ _ _ _ _ (Hc1 s1)), decide_True. }
    destruct (tm_peer_senders m !! sk_remote_node (rs_key s2)) as [ch2|] eqn:E2;
      [destruct (try_send ch2 _) as [ch3|] eqn:E3|].
    + split; [done|]. split; [by exists s2|]. cbn.
      destruct (decide (sk_remote_node (rs_key s2) = r)) as [Heq|Hne].
      * rewrite Heq, lookup_insert_eq. exists ch3. split; [done|].
        assert (ch2 = ch) as -> by (rewrite Heq in E2; congruence).
        unfold try_send in E3. destruct (_ && _); [|done]. injection E3 as <-. cbn.
        rewrite length_app. cbn. split_and!; done || lia.
      * rewrite lookup_insert_ne by done. exists ch. split_and!; done || lia.
    + split; [done|]. split; [by exists s2|]. exists ch. split_and!; done || lia.
    + split; [done|]. split; [by exists s2|]. exists ch. split_and!; done || lia.
  - split; [done|]. split; [by exists s1; split; [apply Hc1|]|]. exists ch. split_and!; done || lia.
Qed.

Lemma reply_last_sent e node frame ch :
  tm_peer_senders (en_transport e) !! node = Some ch -> ch_open ch = true ->
  Z.of_nat (length (ch_queue ch)) < ch_capacity ch -> last_sent (reply e node frame) node = Some frame.
Proof.
  intros Hch Hopen Hroom. unfold reply, last_sent, TransportManager_send_frame_to_peer. cbn.
  rewrite Hch. unfold try_send. rewrite Hopen, (proj2 (Z.ltb_lt _ _)) by done. cbn.
  rewrite lookup_insert_eq. cbn. apply last_snoc.
Qed.

(** The owner serves a read request it has not answered before. *)
Lemma serve_read e clock f ext payload key s ch arc entry off buf :
  if_ext f = ext -> if_payload f = payload -> de_verb ext = Verb_ReadReq ->
  4 <= Z.of_nat (length payload) -> Forall u8 payload ->
  addressed e ext arc entry off ->
  ub_read_sync (en_mr_table e) (en_devices e) (de_ub_addr ext) (be_value (take 4 payload)) = Ok buf ->
  let r := fh_src_node (if_header f) in
  current_session (en_transport e) r = Some (key, s) ->
  rc_entries (rs_read_cache s) !! (r, de_opaque ext) = None ->
  tm_peer_senders (en_transport e) !! r = Some ch -> ch_open ch = true ->
  Z.of_nat (length (ch_queue ch)) < ch_capacity ch ->
  exists e', handle_verb_frame e clock f = Ok e' /\ en_devices e' = en_devices e
  /\ last_sent e' r = Some (build_data_frame (en_local_node_id e) r Verb_ReadResp (de_mr_handle ext)
                              (de_ub_addr ext) (de_opaque ext) buf).
Proof.
  intros Hext Hpay Hverb Hlen Hu Had Hread r Hcur Hcache Hch Hopen Hroom.
  unfold handle_verb_frame. rewrite Hext, Hverb, Hpay. fold r.
  unfold resend_cached, TransportManager_read_cache_get. rewrite Hcur.
  unfold ReadResponseCache_get. rewrite Hcache. cbv beta iota zeta.
  set (m1 := put_session (en_transport e) key _). set (e1 := e <| en_transport := m1 |>).
  assert (Had1 : addressed e1 ext arc entry off) by (by destruct Had).
  unfold r. rewrite (handle_read_local e1 (clock 1%nat) (clock 2%nat) ext payload (if_header f) arc entry off Had1 Hlen Hu).
  fold r.
  change (en_mr_table e1) with (en_mr_table e). change (en_devices e1) with (en_devices e).
  rewrite Hread. eexists. split; [reflexivity|]. split; [done|]. unfold answer_request.
  apply (reply_last_sent _ _ _ ch); [|done|done].
  unfold TransportManager_read_cache_insert. cbn. by destruct (current_session m1 r) as [[? ?]|].
Qed.

(** A request that could not be sent returns its error at once, and nobody waits for its number;
    the entry made for it stays in [pending_requests]. *)
Theorem failed_request_stays_pending e t1 t2 addr verb payload ce :
  MrCacheTable_lookup_by_addr (en_mr_cache e) addr = Some ce ->
  match start_request e t1 t2 addr verb payload with
  | (e', Ok opaque) => opaque = en_next_opaque e
  | (e', _) => en_next_opaque e ∈ en_pending e' /\ en_answers e' !! en_next_opaque e = None
  end.
Proof.
  intros Hce. unfold start_request, new_request, engine_send. rewrite Hce. cbn [fst snd].
  match goal with |- context [TransportManager_send ?m ?a ?b ?r ?fr ?x ?y] =>
    destruct (TransportManager_send m a b r fr x y) as [[m' frame'] [seq| |]] end;
    cbn; [done|split; [set_solver|apply lookup_delete_eq]..].
Qed.

(** The client's half of a read: the request it sends decodes to what the owner needs. *)
Lemma read_request_sent c t1 t2 addr len c1 opaque ce ck cs req :
  let owner := mc_owner_node ce in
  let client := en_local_node_id c in
  u16 owner -> u16 client -> u32 (mc_remote_mr_handle ce) -> u128 addr -> u64 (en_next_opaque c) ->
  MrCacheTable_lookup_by_addr (en_mr_cache c) addr = Some ce ->
  current_session (en_transport c) owner = Some (ck, cs) -> session_ok cs ->
  ub_read_remote_start c t1 t2 addr len = (c1, Ok opaque) -> last_sent c1 owner = Some req ->
  opaque = en_next_opaque c /\ opaque ∈ en_pending c1
  /\ tm_inbound (en_transport c1) = tm_inbound (en_transport c)
  /\ decode_frame req = Ok (stamped_header (rs_next_seq cs) (data_header client owner 0 (put_u32 len)),
       Some (data_ext Verb_ReadReq 0 (mc_remote_mr_handle ce) addr opaque 0 0 None), put_u32 len).
Proof.
  intros owner client Ho Hcl Hmr Haddr Hop Hce Hcs Hcsok Hstart Hreq.
  unfold ub_read_remote_start, start_request in Hstart. rewrite Hce in Hstart.
  unfold new_request, engine_send in Hstart. cbn [fst snd] in Hstart. fold owner in Hstart.
  match type of Hstart with context [TransportManager_send ?m ?a ?b ?r ?fr ?x ?y] =>
    destruct (TransportManager_send m a b r fr x y) as [[m' frame'] res] eqn:Esend end.
  destruct res as [seq| |]; cbn [rbind] in Hstart; [|done|done]. injection Hstart as <- <-.
  apply send_Ok_inv in Esend as (key & cs' & ch' & Hcur & -> & Hframe & Hch' & Hlast & Hin').
  cbn [en_transport set_field] in Hcur, Hin'. assert (cs' = cs) as -> by congruence.
  assert (req = frame') as ->.
  { unfold last_sent in Hreq. cbn in Hreq. rewrite Hch' in Hreq. cbn in Hreq. congruence. }
  split; [done|]. split; [apply elem_of_union_l, elem_of_singleton; done|]. split; [exact Hin'|].
  cbn [en_local_node_id set_field] in Hframe. fold client in Hframe.
  unfold build_data_frame, build_data_frame_with_flags in Hframe.
  rewrite stamp_encode_frame in Hframe by (by apply data_header_wf).
  pose proof (so_next _ Hcsok) as Hnext. rewrite Hframe. apply decode_encode_frame.
  - apply stamped_header_wf; [by apply data_header_wf|ulia].
  - split; [done|by apply data_ext_wf].
Qed.

(** The owner's half: a read request it expects is delivered and answered. *)
Lemma read_request_served s clk1 clk2 req h ext len sk ss ch arc entry off buf :
  let client := fh_src_node h in
  decode_frame req = Ok (h, Some ext, put_u32 len) -> fh_frame_type h = FrameType_Data ->
  de_verb ext = Verb_ReadReq -> u32 len -> fh_stream_seq h <> 0 ->
  current_session (en_transport s) client = Some (sk, ss) -> rs_state ss = SessionState_Active ->
  DedupWindow_check (rs_dedup ss) (fh_stream_seq h) = DedupResult_InOrder ->
  rc_entries (rs_read_cache ss) !! (client, de_opaque ext) = None ->
  tm_inbound (en_transport s) = [] ->
  tm_peer_senders (en_transport s) !! client = Some ch -> ch_open ch = true ->
  Z.of_nat (length (ch_queue ch)) + 1 < ch_capacity ch ->
  addressed s ext arc entry off ->
  ub_read_sync (en_mr_table s) (en_devices s) (de_ub_addr ext) len = Ok buf ->
  exists s2, dispatch_one (receive_datagram s clk1 req) clk2 = Ok s2 /\ en_devices s2 = en_devices s
  /\ last_sent s2 client = Some (build_data_frame (en_local_node_id s) client Verb_ReadResp
       (de_mr_handle ext) (de_ub_addr ext) (de_opaque ext) buf).
Proof.
  intros client Hdec Htype Hverb Hlen Hseq Hss Hact Hdw Hcache Hsin Hch Hopen Hroom Had Hread.
  assert (Hrecv : TransportManager_handle_incoming (en_transport s) clk1 req
                  = TransportManager_handle_data_frame (en_transport s) h ext (put_u32 len))
    by (unfold TransportManager_handle_incoming; by rewrite Hdec, Htype).
  destruct (receive_in_order (en_transport s) h ext (put_u32 len) sk ss ch Hss Hact Hseq Hdw Hch)
    as (Hsin1 & (ss1 & Hss1 & Hcache1) & ch1 & Hch1 & Hopen1 & Hcap1 & Hlen1).
  rewrite <- Hrecv in *. rewrite Hsin in Hsin1.
  set (m1 := TransportManager_handle_incoming (en_transport s) clk1 req) in *.
  set (f1 := mkInboundFrame h ext (put_u32 len) (fh_stream_seq h)) in *.
  set (s1 := (receive_datagram s clk1 req) <| en_transport := m1 <| tm_inbound := [] |> |>).
  assert (Hd1 : dispatch_one (receive_datagram s clk1 req) clk2 = handle_verb_frame s1 clk2 f1).
  { unfold dispatch_one, receive_datagram. cbn [en_transport set_field]. fold m1. by rewrite Hsin1. }
  assert (Hpl : length (put_u32 len) = 4%nat) by apply length_be_bytes.
  assert (Hval : be_value (take 4 (put_u32 len)) = len)
    by (rewrite take_ge by lia; by apply be_value_be_bytes).
  destruct (serve_read s1 clk2 f1 ext (put_u32 len) sk ss1 ch1 arc entry off buf)
    as (s2 & Hs2 & Hdev & Hresp); try done.
  { apply be_bytes_u8. }
  { by destruct Had. }
  { rewrite Hval. exact Hread. }
  { cbn. by rewrite Hcache1. }
  { congruence. }
  { rewrite Hcap1. lia. }
  exists s2. by rewrite Hd1.
Qed.

(** The client gets the answer it waits for. *)
Lemma read_response_completes c clk3 clk4 owner client mr_handle addr opaque buf :
  u16 owner -> u16 client -> u32 mr_handle -> u128 addr -> u64 opaque ->
  opaque ∈ en_pending c -> tm_inbound (en_transport c) = [] ->
  let resp := build_data_frame owner client Verb_ReadResp mr_handle addr opaque buf in
  exists c', dispatch_one (receive_datagram c clk3 resp) clk4 = Ok c'
  /\ (ub_read_remote_finish c' opaque).2 = Ok buf.
Proof.
  intros Ho Hcl Hmr Haddr Hop Hpend Hin resp.
  assert (Hdec : decode_frame resp = Ok (data_header owner client 0 buf,
            Some (data_ext Verb_ReadResp 0 mr_handle addr opaque 0 0 None), buf)).
  { apply decode_encode_frame; [by apply data_header_wf|]. split; [done|by apply data_ext_wf]. }
  eexists. unfold dispatch_one, receive_datagram. cbn [en_transport set_field].
  unfold TransportManager_handle_incoming. rewrite Hdec. cbn [fh_frame_type data_header].
  unfold TransportManager_handle_data_frame. cbn [fh_stream_seq data_header Z.eqb].
  unfold send_inbound. cbn [tm_inbound set_field]. rewrite Hin. cbn [app].
  split; [reflexivity|]. unfold complete_pending_request. cbn [de_opaque if_ext data_ext].
  rewrite decide_True by exact Hpend. unfold answer. rewrite decide_True by exact Hpend.
  unfold ub_read_remote_finish, await_response. cbn. by rewrite lookup_insert_eq.
Qed.

(** C3 (functional): A remote read returns the owner's bytes. The client sends a READ request for an
    address it knows; the owner's transport delivers it, its handler answers, and the answer
    travels back: the client's call returns exactly the bytes [ub_read_sync] reads at the owner at
    that moment, and the owner's memory is unchanged. Assumed: the owner expects the request's
    sequence number, has not answered this request before, knows the region under the handle the
    client uses, and its queue to the client has room for the acknowledgement and the answer. *)
Theorem remote_read_end_to_end c t1 t2 addr len c1 opaque ce ck cs req s sk ss ch arc entry off buf
    clk1 clk2 clk3 clk4 :
  let owner := en_local_node_id s in
  let client := en_local_node_id c in
  let ext := data_ext Verb_ReadReq 0 (mc_remote_mr_handle ce) addr opaque 0 0 None in
  u16 owner -> u16 client -> u32 len -> u32 (mc_remote_mr_handle ce) -> u128 addr -> u64 (en_next_opaque c) ->
  (* the client *)
  MrCacheTable_lookup_by_addr (en_mr_cache c) addr = Some ce -> mc_owner_node ce = owner ->
  current_session (en_transport c) owner = Some (ck, cs) -> session_ok cs ->
  tm_inbound (en_transport c) = [] ->
  ub_read_remote_start c t1 t2 addr len = (c1, Ok opaque) -> last_sent c1 owner = Some req ->
  (* the owner *)
  current_session (en_transport s) client = Some (sk, ss) -> rs_state ss = SessionState_Active ->
  DedupWindow_check (rs_dedup ss) (rs_next_seq cs) = DedupResult_InOrder ->
  rc_entries (rs_read_cache ss) !! (client, opaque) = None ->
  tm_inbound (en_transport s) = [] ->
  tm_peer_senders (en_transport s) !! client = Some ch -> ch_open ch = true ->
  Z.of_nat (length (ch_queue ch)) + 1 < ch_capacity ch ->
  addressed s ext arc entry off ->
  ub_read_sync (en_mr_table s) (en_devices s) addr len = Ok buf ->
  exists s2 resp c3,
    dispatch_one (receive_datagram s clk1 req) clk2 = Ok s2
    /\ en_devices s2 = en_devices s
    /\ last_sent s2 client = Some resp
    /\ dispatch_one (receive_datagram c1 clk3 resp) clk4 = Ok c3
    /\ (ub_read_remote_finish c3 opaque).2 = Ok buf.
Proof.
  intros owner client ext Ho Hcl Hlen Hmr Haddr Hop Hce Hown Hcs Hcsok Hcin Hstart Hreq
    Hss Hact Hdw Hcache Hsin Hch Hopen Hroom Had Hread.
  unfold owner in *. rewrite <- Hown in *.
  destruct (read_request_sent c t1 t2 addr len c1 opaque ce ck cs req) as (-> & Hpend & Hin & Hdec); try done.
  pose proof (so_next _ Hcsok) as Hnext.
  destruct (read_request_served s clk1 clk2 req _ ext len sk ss ch arc entry off buf Hdec)
    as (s2 & Hs2 & Hdev & Hresp); try done.
  { cbn. lia. }
  destruct (read_response_completes c1 clk3 clk4 (mc_owner_node ce) client (mc_remote_mr_handle ce) addr
    (en_next_opaque c) buf) as (c3 & Hc3 & Hfin); try done.
  { by rewrite Hin. }
  rewrite Hown in *. eexists s2, _, c3. done.
Qed.

(** ** Two nodes *)

(** The transport of [node] with a session and an open queue to [peer]. *)
Definition transport_to (node peer : Z) : TransportManager :=
  match TransportManager_create_session (TransportManager_new node 200 8) peer 100 64 with
  | Ok m => TransportManager_register_peer_sender m peer (mkChan 256 [] true)
  | _ => TransportManager_new node 200 8
  end.

(** Node 42 owns the two regions of [sample_table]; node 7 knows the second. *)
Definition owner_node : Engine :=
  DataPlaneEngine_new 42 sample_table sample_devices ∅ (JettyTable_new 42 JettyConfig_default) (transport_to 42 7).

Definition client_node : Engine :=
  DataPlaneEngine_new 7 (MrTable_new 1 7) []
    (MrCacheTable_insert ∅ (mkMrCacheEntry 2 42 (UbAddr_new 1 42 0 16 0) 16 3 DeviceKind_Memory))
    (JettyTable_new 7 JettyConfig_default) (transport_to 7 42).

Definition sample_addr : Z := UbAddr_new 1 42 0 20 0.

Definition request_ext (verb : Verb) (opaque : Z) : DataExtHeader :=
  data_ext verb 0 2 sample_addr opaque 0 0 None.

Definition second_region : MrEntry := mkMrEntry 2 0 16 16 3 (UbAddr_new 1 42 0 16 0) MrState_Active 0.

Lemma owner_addressed verb opaque : addressed owner_node (request_ext verb opaque) 1 second_region 4.
Proof. constructor; [apply sample_node_ok|vm_compute; reflexivity..]. Qed.

Definition sample_request_header (seq : Z) : FrameHeader := stamped_header seq (data_header 7 42 0 [1; 2; 3]).

Lemma remote_verbs_refine_local_witness :
  handle_write owner_node [1; 2; 3] (request_ext Verb_Write 0)
  = Ok (owner_node <| en_devices := devices_after (en_devices owner_node)
          (ub_write_sync (en_mr_table owner_node) (en_devices owner_node)
             (de_ub_addr (request_ext Verb_Write 0)) [1; 2; 3]) |>).
Proof.
  exact (proj1 (remote_verbs_refine_local owner_node 0 0 (request_ext Verb_Write 0) [1; 2; 3]
    (sample_request_header 1) 1 second_region 4 (owner_addressed _ _)
    (bool_decide_unpack (Forall u8 [1; 2; 3]) I) eq_refl)).
Defined.

Definition sample_write : InboundFrame :=
  mkInboundFrame (sample_request_header 1) (request_ext Verb_Write 0) [1; 2; 3] 1.

Definition engine_of (r : Result Engine) : Engine := match r with Ok e => e | _ => owner_node end.

Lemma remote_update_once_witness : exists e3,
  handle_verb_frame (engine_of (handle_verb_frame owner_node (fun _ => 0) sample_write)) (fun _ => 9) sample_write
  = Ok e3.
Proof.
  eexists. refine (remote_update_once owner_node (fun _ => 0) sample_write
    (engine_of (handle_verb_frame owner_node (fun _ => 0) sample_write)) []
    (engine_of (handle_verb_frame owner_node (fun _ => 0) sample_write)) (fun _ => 9) [] _ _ _ _ _ _).
  - reflexivity.
  - vm_compute. reflexivity.
  - intros H. inversion H.
  - vm_compute. reflexivity.
  - cbn. lia.
  - reflexivity.
Defined.

Definition read_started : Engine := (ub_read_remote_start client_node 1 2 sample_addr 4).1.

Definition wire (e : Engine) (node : Z) : bytes := default [] (last_sent e node).

Lemma client_session_ok :
  session_ok (ReliableSession_new 7 42 100 200 8 64).
Proof. apply session_new_ok; [lia|split; [discriminate|reflexivity]]. Qed.

Lemma remote_read_end_to_end_witness : exists s2 resp c3,
  dispatch_one (receive_datagram owner_node (fun _ => 0) (wire read_started 42)) (fun _ => 0) = Ok s2
  /\ last_sent s2 7 = Some resp
  /\ dispatch_one (receive_datagram read_started (fun _ => 0) resp) (fun _ => 0) = Ok c3
  /\ (ub_read_remote_finish c3 1).2 = Ok [0; 0; 0; 0].
Proof.
  assert (Hs : ub_read_remote_start client_node 1 2 sample_addr 4 = (read_started, Ok 1))
    by (vm_compute; reflexivity).
  pose proof (remote_read_end_to_end client_node 1 2 sample_addr 4 read_started 1
    (mkMrCacheEntry 2 42 (UbAddr_new 1 42 0 16 0) 16 3 DeviceKind_Memory)
    (mkSessionKey 7 42 100) (ReliableSession_new 7 42 100 200 8 64) (wire read_started 42)
    owner_node (mkSessionKey 42 7 100) (ReliableSession_new 42 7 100 200 8 64) (mkChan 256 [] true)
    1 second_region 4 [0; 0; 0; 0] (fun _ => 0) (fun _ => 0) (fun _ => 0) (fun _ => 0)) as H.
  cbv zeta in H.
  specialize (H ltac:(split; [discriminate|reflexivity]) ltac:(split; [discriminate|reflexivity])
    ltac:(split; [discriminate|reflexivity]) ltac:(split; [discriminate|reflexivity])
    ltac:(split; vm_compute; [discriminate|reflexivity]) ltac:(split; [discriminate|reflexivity])).
  specialize (H ltac:(vm_compute; reflexivity) eq_refl ltac:(vm_compute; reflexivity) client_session_ok
    eq_refl Hs ltac:(vm_compute; reflexivity)).
  specialize (H ltac:(vm_compute; reflexivity) eq_refl ltac:(vm_compute; reflexivity)
    ltac:(vm_compute; reflexivity) eq_refl ltac:(vm_compute; reflexivity) eq_refl ltac:(reflexivity)
    (owner_addressed Verb_ReadReq 1) ltac:(vm_compute; reflexivity)).
  destruct H as (s2 & resp & c3 & H1 & _ & H2 & H3 & H4).
  exists s2, resp, c3. split; [exact H1|]. split; [exact H2|]. split; [exact H3|exact H4].
Defined.

(** ** What the handlers get wrong *)

(** An error answer carries the verb of the request, so the client's dispatcher
    takes it for a request and drops it: the call of a client that may not read
    the region ends with [Timeout], not with [PermDenied]. *)
Definition write_only_node : Engine :=
  owner_node <| en_mr_table := arc_update sample_table 1 (fun x => x <| me_perms := MrPerms_WRITE |>) |>.

Theorem remote_error_lost :
  ub_read_sync (en_mr_table write_only_node) sample_devices sample_addr 4 = Err PermDenied
  /\ match dispatch_one (receive_datagram write_only_node (fun _ => 0) (wire read_started 42)) (fun _ => 0) with
     | Ok s2 =>
       (match decode_frame (wire s2 7) with
        | Ok (_, Some ext, payload) => de_verb ext = Verb_ReadReq /\ payload = put_u32 2
        | _ => False
        end)
       /\ match dispatch_one (receive_datagram read_started (fun _ => 0) (wire s2 7)) (fun _ => 0) with
          | Ok c3 => (ub_read_remote_finish c3 1).2 = Err Timeout
          | _ => False
          end
     | _ => False
     end.
Proof. split; [vm_compute; reflexivity|]. vm_compute. split; [split; reflexivity|reflexivity]. Qed.

(** The handlers never compare the address with the length of the region: a
    write under the handle of the first region (10 bytes at 0) lands in the
    second, where the local verb refuses the address. *)
Theorem remote_write_escapes :
  let ext := data_ext Verb_Write 0 1 sample_addr 0 0 0 None in
  let e' := engine_of (handle_write owner_node [9; 9; 9; 9] ext) in
  handle_write owner_node [9; 9; 9; 9] ext = Ok e'
  /\ MrTable_lookup sample_table 1 = Some 0%nat
  /\ (me_len <$> mt_heap sample_table !! 0%nat) = Some 10
  /\ ub_read_sync sample_table (en_devices e') sample_addr 4 = Ok [9; 9; 9; 9].
Proof. vm_compute. split_and!; reflexivity. Qed.

(** The bytes of a SEND reach nobody: two messages of one length leave the same
    state behind. *)
Theorem send_payload_lost e ext payload1 payload2 :
  length payload1 = length payload2 -> handle_send e payload1 ext = handle_send e payload2 ext.
Proof. intros H. unfold handle_send. by rewrite H. Qed.
