(* ===== verification/Pod.v ===== *)
(** * Pod: nodes calling each other over an unreliable network

    Any number of data-plane engines (Dataplane) joined by a network that may
    lose, repeat, delay and reorder datagrams: whatever was ever sent may arrive
    any number of times, or never. Every node calls the remote memory verbs of
    the others and serves theirs. The steps are the tasks of
    crates/ub-dataplane/src/lib.rs and crates/ub-transport/src/manager.rs: a
    call, the write loop of a peer, a new connection to a peer, the receive task, the
    dispatch task, the retransmission timer, the end of a call, and a local verb. The history
    records when a call was made, executed at its owner, and returned. *)

From stdpp Require Import relations.
From S2P Require Import Prelude Bytes Types Addr Device Mr Verbs Jetty Frame Float Dedup ReadCache.
From S2P Require Import Session Manager Dataplane.
#[local] Open Scope Z_scope.

(** ** Calls *)

Inductive CallOp : Type :=
| CallOp_write (data : bytes)
| CallOp_read (len : Z)
| CallOp_cas (expect new : Z)
| CallOp_faa (add : Z).

Inductive CallValue : Type :=
| Val_unit
| Val_bytes (data : bytes)
| Val_word (old : Z).

(** The widths of the arguments. *)
Definition op_wf (op : CallOp) : Prop :=
  match op with
  | CallOp_write data => Forall u8 data /\ Z.of_nat (length data) < 2 ^ 63
  | CallOp_read len => u32 len
  | CallOp_cas expect new => u64 expect /\ u64 new
  | CallOp_faa add => u64 add
  end.

(** A call that waits for an answer. *)
Definition is_request (op : CallOp) : bool :=
  match op with CallOp_write _ => false | _ => true end.

(** A call that changes memory. *)
Definition is_update (op : CallOp) : bool :=
  match op with CallOp_read _ => false | _ => true end.

Definition op_verb (op : CallOp) : Verb :=
  match op with
  | CallOp_write _ => Verb_Write
  | CallOp_read _ => Verb_ReadReq
  | CallOp_cas _ _ => Verb_AtomicCas
  | CallOp_faa _ => Verb_AtomicFaa
  end.

Definition op_payload (op : CallOp) : bytes :=
  match op with
  | CallOp_write data => data
  | CallOp_read len => put_u32 len
  | CallOp_cas expect new => put_u64 expect ++ put_u64 new
  | CallOp_faa add => put_u64 add
  end.

Definition resp_verb (op : CallOp) : Verb :=
  match op with
  | CallOp_cas _ _ => Verb_AtomicCasResp
  | CallOp_faa _ => Verb_AtomicFaaResp
  | _ => Verb_ReadResp
  end.

Definition value_bytes (v : CallValue) : bytes :=
  match v with
  | Val_unit => []
  | Val_bytes data => data
  | Val_word old => put_u64 old ++ put_u32 0 ++ put_u32 0
  end.

(** The client's half of a call up to its [await], with the id to wait on. *)
Definition issue (e : Engine) (t1 t2 addr : Z) (op : CallOp) : Engine * Result Z :=
  match op with
  | CallOp_write data =>
    let '(e, r) := ub_write_remote e t1 t2 addr data in (e, let? _ := r in Ok 0)
  | CallOp_read len => ub_read_remote_start e t1 t2 addr len
  | CallOp_cas expect new => ub_atomic_cas_remote_start e t1 t2 addr expect new
  | CallOp_faa add => ub_atomic_faa_remote_start e t1 t2 addr add
  end.

(** The half after the [await]. *)
Definition finish (e : Engine) (opaque : Z) (op : CallOp) : Engine * Result CallValue :=
  match op with
  | CallOp_write _ => (e, Ok Val_unit)
  | CallOp_read _ => let '(e, r) := ub_read_remote_finish e opaque in (e, let? b := r in Ok (Val_bytes b))
  | CallOp_cas _ _ => let '(e, r) := ub_atomic_cas_remote_finish e opaque in (e, let? z := r in Ok (Val_word z))
  | CallOp_faa _ => let '(e, r) := ub_atomic_faa_remote_finish e opaque in (e, let? z := r in Ok (Val_word z))
  end.

(** The local verb the call stands for: the specification of the call. *)
Definition local_call (t : MrTable) (devices : list DynDevice) (addr : Z) (op : CallOp)
  : Result (CallValue * list DynDevice) :=
  match op with
  | CallOp_write data => let? devices' := ub_write_sync t devices addr data in Ok (Val_unit, devices')
  | CallOp_read len => let? buf := ub_read_sync t devices addr len in Ok (Val_bytes buf, devices)
  | CallOp_cas expect new =>
    let? (old, devices') := ub_atomic_cas_sync t devices addr expect new in Ok (Val_word old, devices')
  | CallOp_faa add =>
    let? (old, devices') := ub_atomic_faa_sync t devices addr add in Ok (Val_word old, devices')
  end.

(** What a request frame asks for. *)
Definition op_of_frame (f : InboundFrame) : option CallOp :=
  let payload := if_payload f in
  match de_verb (if_ext f) with
  | Verb_Write => Some (CallOp_write payload)
  | Verb_ReadReq => Some (CallOp_read (be_value (take 4 payload)))
  | Verb_AtomicCas => Some (CallOp_cas (be_value (take 8 payload)) (be_value (take 8 (drop 8 payload))))
  | Verb_AtomicFaa => Some (CallOp_faa (be_value (take 8 payload)))
  | _ => None
  end.

(** Whether the handler of a frame gets past the records of earlier requests. *)
Definition executes (e : Engine) (clock : nat -> Z) (f : InboundFrame) : bool :=
  let r := fh_src_node (if_header f) in
  match de_verb (if_ext f) with
  | Verb_ReadReq =>
    match (TransportManager_read_cache_get (en_transport e) (clock 0%nat) r (r, de_opaque (if_ext f))).2 with
    | Some _ => false
    | None => true
    end
  | Verb_Write | Verb_AtomicCas | Verb_AtomicFaa =>
    negb (TransportManager_is_executed (en_transport e) r (if_seq f))
  | _ => false
  end.

(** ** The pod *)

(** A call is named by its caller [c], its owner [o] and its sequence number. *)
Inductive Event : Type :=
| Ev_invoke (c o seq opaque addr : Z) (op : CallOp)
| Ev_execute (c o seq addr : Z) (op : CallOp)
| Ev_local (o addr : Z) (op : CallOp)
| Ev_return (c opaque : Z) (r : Result CallValue).

Record Pod : Type := mkPod {
  pd_nodes : gmap Z Engine;
  pd_wire : list (Z * bytes);   (** every datagram ever sent, with its destination *)
  pd_history : list Event;
}.

Definition set_node (p : Pod) (n : Z) (e : Engine) (wire : list (Z * bytes)) (events : list Event) : Pod :=
  mkPod (<[n := e]> (pd_nodes p)) (pd_wire p ++ wire) (pd_history p ++ events).

(** The next sequence number towards [o]. *)
Definition seq_view (m : TransportManager) (o : Z) : option Z :=
  (fun ks => rs_next_seq ks.2) <$> current_session m o.
Definition seq_to (e : Engine) (o : Z) : Z := default 0 (seq_view (en_transport e) o).

(** [handle] names at the owner the region that [addr] lies in, and the owner's
    own verb would accept the call. *)
Definition servable (t : MrTable) (devices : list DynDevice) (handle addr : Z) (op : CallOp) : Prop :=
  (exists arc off entry, MrTable_lookup t handle = Some arc
     /\ MrTable_lookup_by_addr t addr = Some (arc, off)
     /\ mt_heap t !! arc = Some entry /\ me_state entry = MrState_Active)
  /\ exists v devices', local_call t devices addr op = Ok (v, devices').

(** Numbers of the frame about to be handled are not outrun: its sender has
    issued fewer than 512 later ones. *)
Definition timely (p : Pod) (n : Z) (f : InboundFrame) : Prop :=
  if_seq f <> 0 -> forall e, pd_nodes p !! fh_src_node (if_header f) = Some e ->
  seq_to e n <= if_seq f + 512.

Definition invocation (e e' : Engine) (c o addr : Z) (op : CallOp) : list Event :=
  if seq_to e' o =? seq_to e o then []
  else [Ev_invoke c o (seq_to e o) (if is_request op then en_next_opaque e else 0) addr op].

Definition execution (e : Engine) (clock : nat -> Z) (n : Z) (f : InboundFrame) : list Event :=
  match op_of_frame f with
  | Some op =>
    if executes e clock f
    then [Ev_execute (fh_src_node (if_header f)) n (if_seq f) (de_ub_addr (if_ext f)) op] else []
  | None => []
  end.

(** What is still in the channel to [peer]. *)
Definition unwritten (e : Engine) (peer : Z) : list bytes :=
  default [] (ch_queue <$> tm_peer_senders (en_transport e) !! peer).

(** The socket may take a datagram or fail. A write loop that is replaced by a new
    connection still writes what is in its channel. *)
Inductive pod_step : Pod -> Pod -> Prop :=
| step_call p c o e eo ce t1 t2 addr op :
    pd_nodes p !! c = Some e -> pd_nodes p !! o = Some eo -> c <> o ->
    MrCacheTable_lookup_by_addr (en_mr_cache e) addr = Some ce -> mc_owner_node ce = o ->
    servable (en_mr_table eo) (en_devices eo) (mc_remote_mr_handle ce) addr op ->
    op_wf op -> u128 addr -> u32 (mc_remote_mr_handle ce) ->
    seq_to e o + 1 < 2 ^ 64 -> en_next_opaque e + 1 < 2 ^ 64 ->
    let e' := (issue e t1 t2 addr op).1 in
    pod_step p (set_node p c e' [] (invocation e e' c o addr op))
| step_transmit p n e peer sent e' out :
    pd_nodes p !! n = Some e -> peer_write_turn e peer sent = (e', out) ->
    pod_step p (set_node p n e' (map (pair peer) (option_list out)) [])
| step_connect p n e peer :
    pd_nodes p !! n = Some e ->
    pod_step p (set_node p n (connect_peer e peer) (map (pair peer) (unwritten e peer)) [])
| step_deliver p n e clock raw :
    pd_nodes p !! n = Some e -> (n, raw) ∈ pd_wire p ->
    pod_step p (set_node p n (receive_datagram e clock raw) [] [])
| step_dispatch p n e clock f rest e' :
    pd_nodes p !! n = Some e -> tm_inbound (en_transport e) = f :: rest -> timely p n f ->
    dispatch_one e clock = Ok e' ->
    pod_step p (set_node p n e' [] (execution e clock n f))
| step_timer p n e now :
    pd_nodes p !! n = Some e ->
    pod_step p (set_node p n (e <| en_transport := rto_tick (en_transport e) now |>) [] [])
| step_return p c o e seq opaque addr op e' r :
    pd_nodes p !! c = Some e -> Ev_invoke c o seq opaque addr op ∈ pd_history p -> is_request op = true ->
    finish e opaque op = (e', r) ->
    pod_step p (set_node p c e' [] [Ev_return c opaque r])
| step_local p n e addr op v devices :
    pd_nodes p !! n = Some e -> op_wf op ->
    local_call (en_mr_table e) (en_devices e) addr op = Ok (v, devices) ->
    pod_step p (set_node p n (e <| en_devices := devices |>) [] [Ev_local n addr op]).

(** Where a pod starts: the nodes' memory is sound, every pair of nodes has a
    fresh session, and nothing is under way. *)
Record engine_start (nodes : gmap Z Engine) (n : Z) (e : Engine) : Prop := {
  es_id : u16 n /\ en_local_node_id e = n /\ tm_local_node_id (en_transport e) = n;
  es_node : node_ok (en_mr_table e) (en_devices e);
  es_opaque : en_next_opaque e = 1;
  es_answers : en_answers e = ∅;
  es_inbound : tm_inbound (en_transport e) = [];
  es_chans : forall r ch, tm_peer_senders (en_transport e) !! r = Some ch -> ch_queue ch = [];
  es_sessions : forall key s, tm_sessions (en_transport e) !! key = Some s ->
    exists l r epoch rto retries credits, s = ReliableSession_new l r epoch rto retries credits /\ rs_key s = key;
  es_peers : forall r, is_Some (nodes !! r) -> r <> n -> is_Some (current_session (en_transport e) r);
}.

Definition pod_start (p : Pod) : Prop :=
  pd_wire p = [] /\ pd_history p = [] /\ forall n e, pd_nodes p !! n = Some e -> engine_start (pd_nodes p) n e.

(** ** The specification: one memory per node, calls taking effect one by one *)

Definition spec_event (tbl : Z -> MrTable) (mem : Z -> list DynDevice) (ev : Event) : Z -> list DynDevice :=
  match ev with
  | Ev_execute _ o _ addr op | Ev_local o addr op =>
    match local_call (tbl o) (mem o) addr op with
    | Ok (_, devices) => fun n => if decide (n = o) then devices else mem n
    | _ => mem
    end
  | _ => mem
  end.

Definition replay (tbl : Z -> MrTable) (mem : Z -> list DynDevice) (h : list Event) : Z -> list DynDevice :=
  foldl (spec_event tbl) mem h.

(** The tables and the memory of a pod. *)
Definition pod_table (p : Pod) (n : Z) : MrTable :=
  match pd_nodes p !! n with Some e => en_mr_table e | None => MrTable_new 0 0 end.
Definition pod_memory (p : Pod) (n : Z) : list DynDevice :=
  match pd_nodes p !! n with Some e => en_devices e | None => [] end.

(** ** Local calls

    Whether a local call succeeds depends on the table and the capacities only,
    so it does not change while a pod runs. *)

Definition op_len (op : CallOp) : Z :=
  match op with
  | CallOp_write data => Z.of_nat (length data)
  | CallOp_read len => len
  | _ => 8
  end.

Definition op_aligned (addr off : Z) (op : CallOp) : bool :=
  match op with
  | CallOp_cas _ _ | CallOp_faa _ => (UbAddr_offset addr mod 8 =? 0) && (off mod 8 =? 0)
  | _ => true
  end.

(** The kind of value an operation returns. *)
Definition value_of (op : CallOp) (v : CallValue) : Prop :=
  match op, v with
  | CallOp_write _, Val_unit => True
  | CallOp_read _, Val_bytes _ => True
  | CallOp_cas _ _, Val_word old | CallOp_faa _, Val_word old => u64 old
  | _, _ => False
  end.

Definition accepted (addr off : Z) (op : CallOp) (entry : MrEntry) (d : DynDevice) : bool :=
  flags_contains (me_perms entry) (required_perm (op_verb op))
  && op_aligned addr (me_base_offset entry + off) op
  && (me_base_offset entry + off + op_len op <=? dev_capacity d).

Lemma dev_same_refl (d : DynDevice) : dev_wf d -> dev_same d d.
Proof. by split. Qed.

Lemma mem_word_fits (d : DynDevice) off :
  dev_wf d -> 0 <= off -> in_bounds (dev_mem d) off 8 = true -> u64 (le_value (mem_read (dev_mem d) off 8)).
Proof.
  intros Hwf Ho Hb. apply le_value_fits.
  - apply mem_read_u8. destruct d as [d|d]; cbn in *; by destruct Hwf as (_ & _ & ?).
  - apply Nat2Z.inj. by rewrite (length_mem_read _ off 8).
Qed.

Lemma in_bounds_capacity (d : DynDevice) off len :
  dev_wf d -> in_bounds (dev_mem d) off len = (off + len <=? dev_capacity d).
Proof. intros Hwf. unfold in_bounds. by rewrite dev_capacity_spec. Qed.

Lemma local_call_spec t ds addr op :
  node_ok t ds -> op_wf op ->
  match MrTable_lookup_by_addr t addr with
  | None => exists err, local_call t ds addr op = Err err
  | Some (arc, off) => exists e d, mt_heap t !! arc = Some e /\ ds !! me_device e = Some d
      /\ if accepted addr off op e d
         then exists v d', local_call t ds addr op = Ok (v, <[me_device e := d']> ds)
                /\ dev_same d d' /\ value_of op v
         else exists err, local_call t ds addr op = Err err
  end.
Proof.
  intros Hok Hwf. pose proof (resolve_spec t ds addr (op_verb op) Hok) as Hres.
  destruct (MrTable_lookup_by_addr t addr) as [[arc off]|]; last first.
  { destruct op; cbn [local_call op_verb] in *;
      unfold ub_write_sync, ub_read_sync, ub_atomic_cas_sync, ub_atomic_faa_sync; rewrite ?Hres; eauto;
      destruct (negb _); cbn; eauto. }
  destruct Hres as (e & d & He & Hd & Hdwf & _ & Hb & Ho & Hlt & Hres). exists e, d. split; [done|]. split; [done|].
  assert (Hu : u64 (me_base_offset e + off)) by ulia.
  unfold accepted. destruct (flags_contains _ _); cbn [andb]; last first.
  { destruct op; cbn [local_call op_verb] in *;
      unfold ub_write_sync, ub_read_sync, ub_atomic_cas_sync, ub_atomic_faa_sync; rewrite Hres; cbn [rbind];
      try (destruct (negb _); cbn [rbind]); eexists; reflexivity. }
  destruct op as [data|len|expect new|add]; cbn [local_call op_verb op_aligned op_len op_wf] in *;
    unfold ub_write_sync, ub_read_sync, ub_atomic_cas_sync, ub_atomic_faa_sync, with_device;
    rewrite Hres, <- ?in_bounds_capacity by assumption; cbn [rbind andb]; rewrite ?Hd.
  - pose proof (dev_write_spec d _ data Hdwf Hu (proj1 Hwf) (proj2 Hwf)) as Hs.
    destruct (in_bounds _ _ _); [destruct Hs as (d' & -> & ? & ?)|rewrite Hs; cbn; eauto]. cbn.
    exists Val_unit, d'. done.
  - rewrite dev_read_spec by (done || ulia). destruct (in_bounds _ _ _); cbn; [|eauto].
    eexists _, d. rewrite list_insert_id by done. split; [done|]. split; [by apply dev_same_refl|done].
  - destruct (UbAddr_offset addr mod 8 =? 0); cbn [negb andb]; [|eauto].
    pose proof (dev_cas_spec d _ expect new Hdwf Hu (proj2 Hwf)) as Hs.
    destruct (_ mod 8 =? 0); cbn [negb andb] in *; [|rewrite Hs; cbn; eauto].
    destruct (in_bounds _ _ 8) eqn:Hin; [destruct Hs as (d' & -> & ? & ?)|rewrite Hs; cbn; eauto]. cbn.
    eexists _, d'. split; [done|]. split; [done|]. apply (mem_word_fits d); (done || ulia).
  - destruct (UbAddr_offset addr mod 8 =? 0); cbn [negb andb]; [|eauto].
    pose proof (dev_faa_spec d _ add Hdwf Hu) as Hs.
    destruct (_ mod 8 =? 0); cbn [negb andb] in *; [|rewrite Hs; cbn; eauto].
    destruct (in_bounds _ _ 8) eqn:Hin; [destruct Hs as (d' & -> & ? & ?)|rewrite Hs; cbn; eauto]. cbn.
    eexists _, d'. split; [done|]. split; [done|]. apply (mem_word_fits d); (done || ulia).
Qed.

(** The same devices with other contents. *)
Definition same_devices : list DynDevice -> list DynDevice -> Prop := Forall2 dev_same.

Lemma same_devices_refl ds : Forall dev_wf ds -> same_devices ds ds.
Proof. induction 1; constructor; [by apply dev_same_refl|done]. Qed.

Lemma dev_same_trans (d1 d2 d3 : DynDevice) : dev_same d1 d2 -> dev_same d2 d3 -> dev_same d1 d3.
Proof. intros (? & ? & ? & ?) (? & ? & ? & ?). split_and!; congruence. Qed.

Lemma local_call_ok t ds0 ds addr op v ds' :
  node_ok t ds -> same_devices ds0 ds -> op_wf op -> local_call t ds addr op = Ok (v, ds') ->
  node_ok t ds' /\ same_devices ds0 ds' /\ value_of op v.
Proof.
  intros Hok Hsame Hwf Hcall. pose proof (local_call_spec t ds addr op Hok Hwf) as Hs.
  destruct (MrTable_lookup_by_addr t addr) as [[arc off]|]; [|destruct Hs; congruence].
  destruct Hs as (e & d & He & Hd & Hs). destruct (accepted _ _ _ _ _); [|destruct Hs; congruence].
  destruct Hs as (v' & d' & Heq & Hdd & Hv). rewrite Heq in Hcall. simplify_eq.
  split; [by eapply node_ok_device|]. split; [|done].
  destruct (Forall2_lookup_r _ _ _ _ _ Hsame Hd) as (d0 & Hd0 & Hl0).
  rewrite <- (list_insert_id ds0 (me_device e) d0) by done.
  apply Forall2_insert; [done|by eapply dev_same_trans].
Qed.

(** A call that was accepted once is accepted as long as the devices are the same. *)
Lemma local_call_again t ds0 ds addr op v ds' :
  node_ok t ds0 -> node_ok t ds -> same_devices ds0 ds -> op_wf op ->
  local_call t ds0 addr op = Ok (v, ds') -> exists v2 ds2, local_call t ds addr op = Ok (v2, ds2).
Proof.
  intros Hok0 Hok Hsame Hwf Hcall.
  pose proof (local_call_spec t ds0 addr op Hok0 Hwf) as H0.
  pose proof (local_call_spec t ds addr op Hok Hwf) as H1.
  destruct (MrTable_lookup_by_addr t addr) as [[arc off]|]; [|destruct H0; congruence].
  destruct H0 as (e & d0 & He & Hd0 & H0), H1 as (e1 & d & He1 & Hd & H1). simplify_eq.
  assert (Hacc : accepted addr off op e d = accepted addr off op e d0).
  { unfold accepted. destruct (Forall2_lookup_r _ _ _ _ _ Hsame Hd) as (d1 & Hd1 & _ & _ & _ & ->).
    by simplify_eq. }
  rewrite Hacc in H1. destruct (accepted _ _ _ _ _); [|destruct H0; congruence].
  destruct H1 as (v1 & d' & ? & _). eauto.
Qed.
