(* ===== verification/Linear.v ===== *)
(** * Linear: remote memory is one history of local calls

    The invariant of a running pod (Pod): what every datagram, queue, cache and
    channel may hold, what the execution records say, and how the memory of the
    nodes relates to the history. It is kept by every step, and with it every
    call is executed after its invocation, an update at most once, and a call that waits
    for its answer before it returns. *)

From stdpp Require Import relations.
From S2P Require Import Prelude Bytes Types Addr Device Mr Verbs Jetty Frame Float Dedup ReadCache.
From S2P Require Import Session Manager Dataplane Pod.
#[local] Open Scope Z_scope.

(** ** What is under way

    Every datagram on the wire, in a queue, in a cache or in an inbound channel
    is a request that was made, the answer to a request that was executed, or an
    acknowledgement. *)

Section Pod.
Context (tbl : Z -> MrTable) (mem0 : Z -> list DynDevice).

(** Call [(c, o, q)] was executed, after it was made, and its value was [v]. *)
Definition served (h : list Event) (c o q opaque addr : Z) (op : CallOp) (v : CallValue) : Prop :=
  exists h1 h2 devices, h = h1 ++ Ev_execute c o q addr op :: h2
    /\ Ev_invoke c o q opaque addr op ∈ h1
    /\ local_call (tbl o) (replay tbl mem0 h1 o) addr op = Ok (v, devices).

Record request_ok (h : list Event) (c o q opaque handle addr : Z) (op : CallOp) : Prop := {
  rq_invoked : Ev_invoke c o q opaque addr op ∈ h;
  rq_client : u16 c;
  rq_owner : u16 o;
  rq_remote : c <> o;
  rq_seq : 1 <= q < 2 ^ 64;
  rq_opaque : u64 opaque;
  rq_handle : u32 handle;
  rq_addr : u128 addr;
  rq_wf : op_wf op;
  rq_servable : servable (tbl o) (mem0 o) handle addr op;
}.

Record response_ok (h : list Event) (o c handle opaque addr : Z) (op : CallOp) (v : CallValue) : Prop := {
  rp_served : exists q, served h c o q opaque addr op v;
  rp_request : is_request op = true;
  rp_value : value_of op v;
  rp_owner : u16 o;
  rp_client : u16 c;
  rp_handle : u32 handle;
  rp_opaque : u64 opaque;
  rp_addr : u128 addr;
}.

Definition request_bytes (c o q opaque handle addr : Z) (op : CallOp) : bytes :=
  stamp_frame q (build_data_frame c o (op_verb op) handle addr opaque (op_payload op)).

Definition response_bytes (o c handle opaque addr : Z) (op : CallOp) (v : CallValue) : bytes :=
  build_data_frame o c (resp_verb op) handle addr opaque (value_bytes v).

Inductive frame_ok (h : list Event) (src dst : Z) : bytes -> Prop :=
| frame_request q opaque handle addr op :
    request_ok h src dst q opaque handle addr op ->
    frame_ok h src dst (request_bytes src dst q opaque handle addr op)
| frame_response handle opaque addr op v :
    response_ok h src dst handle opaque addr op v ->
    frame_ok h src dst (response_bytes src dst handle opaque addr op v)
| frame_ack hd payload raw :
    decode_frame raw = Ok (hd, None, payload) -> fh_frame_type hd <> FrameType_Data -> frame_ok h src dst raw.

Inductive inbound_ok (h : list Event) (n : Z) : InboundFrame -> Prop :=
| inbound_request c q opaque handle addr op :
    request_ok h c n q opaque handle addr op ->
    inbound_ok h n (mkInboundFrame (stamped_header q (data_header c n 0 (op_payload op)))
      (data_ext (op_verb op) 0 handle addr opaque 0 0 None) (op_payload op) q)
| inbound_response o handle opaque addr op v :
    response_ok h o n handle opaque addr op v ->
    inbound_ok h n (mkInboundFrame (data_header o n 0 (value_bytes v))
      (data_ext (resp_verb op) 0 handle addr opaque 0 0 None) (value_bytes v) 0).

Definition cached_ok (h : list Event) (n r : Z) (k : CacheKey) (raw : bytes) : Prop :=
  exists handle addr op v, response_ok h n r handle k.2 addr op v /\ raw = response_bytes n r handle k.2 addr op v.

Record session_inv (h : list Event) (n : Z) (key : SessionKey) (s : ReliableSession) : Prop := {
  si_key : rs_key s = key;
  si_queue : forall en, en ∈ rs_retransmit_queue s -> frame_ok h n (sk_remote_node key) (re_frame en);
  si_cache : forall k ce, rc_entries (rs_read_cache s) !! k = Some ce ->
    cached_ok h n (sk_remote_node key) k (ce_response ce);
}.

Record tm_inv (h : list Event) (n : Z) (m : TransportManager) : Prop := {
  ti_local : u16 n /\ tm_local_node_id m = n;
  ti_session : forall key s, tm_sessions m !! key = Some s -> session_inv h n key s;
  ti_chan : forall r ch raw, tm_peer_senders m !! r = Some ch -> raw ∈ ch_queue ch -> frame_ok h n r raw;
  ti_inbound : forall f, f ∈ tm_inbound m -> inbound_ok h n f;
}.

(** Sequence numbers and execution records are as they were. *)
Definition same_views (m m' : TransportManager) : Prop :=
  (forall r, seq_view m' r = seq_view m r) /\ same_exec m m'.

#[local] Instance same_views_refl : Reflexive same_views.
Proof. by split. Qed.
#[local] Instance same_views_trans : Transitive same_views.
Proof. intros m1 m2 m3 [H1 E1] [H2 E2]. split; [intros r; by rewrite H2|by eapply same_exec_trans]. Qed.

(** *** A longer history keeps what holds *)

Lemma served_mono h evs c o q opaque addr op v :
  served h c o q opaque addr op v -> served (h ++ evs) c o q opaque addr op v.
Proof. intros (h1 & h2 & ds & -> & ? & ?). exists h1, (h2 ++ evs), ds. by rewrite <- app_assoc. Qed.

Lemma request_ok_mono h evs c o q opaque handle addr op :
  request_ok h c o q opaque handle addr op -> request_ok (h ++ evs) c o q opaque handle addr op.
Proof. intros []. split; try done. apply elem_of_app. by left. Qed.

Lemma response_ok_mono h evs o c handle opaque addr op v :
  response_ok h o c handle opaque addr op v -> response_ok (h ++ evs) o c handle opaque addr op v.
Proof. intros [(q & ?)]. split; try done. exists q. by apply served_mono. Qed.

#[local] Hint Resolve served_mono request_ok_mono response_ok_mono : ub.

Lemma frame_ok_mono h evs src dst raw : frame_ok h src dst raw -> frame_ok (h ++ evs) src dst raw.
Proof. destruct 1; [constructor 1|constructor 2|econstructor 3]; eauto with ub. Qed.

Lemma inbound_ok_mono h evs n f : inbound_ok h n f -> inbound_ok (h ++ evs) n f.
Proof. destruct 1; constructor; eauto with ub. Qed.

#[local] Hint Resolve frame_ok_mono inbound_ok_mono : ub.

Lemma session_inv_mono h evs n key s : session_inv h n key s -> session_inv (h ++ evs) n key s.
Proof.
  intros [Hk Hq Hc]. split; [done|eauto with ub|]. intros k ce Hce.
  destruct (Hc k ce Hce) as (handle & addr & op & v & ? & ?). do 4 eexists. eauto with ub.
Qed.

Lemma tm_inv_mono h evs n m : tm_inv h n m -> tm_inv (h ++ evs) n m.
Proof. intros [Hl Hs Hc Hi]. split; eauto using session_inv_mono with ub. Qed.

(** *** Sessions and channels *)

Lemma session_inv_evolve h n key s s' :
  session_inv h n key s -> rs_key s' = rs_key s -> rs_read_cache s' = rs_read_cache s ->
  (forall en, en ∈ rs_retransmit_queue s' ->
     exists en0, en0 ∈ rs_retransmit_queue s /\ re_frame en0 = re_frame en) ->
  session_inv h n key s'.
Proof.
  intros [Hk Hq Hc] Hk' Hc' Hq'. split; [congruence| |by rewrite Hc'].
  intros en Hen. destruct (Hq' en Hen) as (en0 & ? & <-). auto.
Qed.

Lemma tm_inv_put h n m key s : tm_inv h n m -> session_inv h n key s -> tm_inv h n (put_session m key s).
Proof.
  intros [Hl Hs Hc Hi] Hnew. split; try done. intros key' s'. cbn.
  rewrite lookup_insert_Some. intros [[<- <-]|[_ ?]]; auto.
Qed.

Lemma same_views_put m key s s' :
  tm_sessions m !! key = Some s -> rs_next_seq s' = rs_next_seq s ->
  rs_execution_records s' = rs_execution_records s -> same_views m (put_session m key s').
Proof.
  intros Hs Hn He. unfold same_views, same_exec, seq_view, exec_view, current_session.
  split; intros r; replace (current_key (put_session m key s') r) with (current_key m r) by done;
    destruct (current_key m r) as [k|]; cbn; [|done| |done];
    (destruct (decide (key = k)) as [->|]; [rewrite lookup_insert_eq, Hs|by rewrite lookup_insert_ne]);
    cbn; congruence.
Qed.

Lemma tm_inv_reply h n m r raw :
  tm_inv h n m -> frame_ok h n r raw -> tm_inv h n (TransportManager_send_frame_to_peer m r raw).
Proof.
  intros [Hl Hs Hc Hi] Hok. unfold TransportManager_send_frame_to_peer.
  destruct (tm_peer_senders m !! r) as [ch|] eqn:Hch; [|by split].
  unfold try_send. destruct (_ && _); [|by split]. split; try done. intros r' ch' raw'. cbn.
  rewrite lookup_insert_Some. intros [[<- <-]|[_ ?]]; [|by eauto]. cbn.
  rewrite elem_of_app, list_elem_of_singleton. intros [?| ->]; eauto.
Qed.

Lemma same_views_reply m r raw : same_views m (TransportManager_send_frame_to_peer m r raw).
Proof.
  split; [|apply same_exec_reply]. intros r'. unfold TransportManager_send_frame_to_peer.
  repeat case_match; done.
Qed.

Lemma tm_inv_inbound h n m f : tm_inv h n m -> inbound_ok h n f -> tm_inv h n (send_inbound m f).
Proof.
  intros [Hl Hs Hc Hi] Hf. split; try done. intros f'. cbn.
  rewrite elem_of_app, list_elem_of_singleton. intros [?| ->]; auto.
Qed.

(** *** Datagrams arriving *)

Lemma decode_request h c o q opaque handle addr op :
  request_ok h c o q opaque handle addr op ->
  decode_frame (request_bytes c o q opaque handle addr op)
  = Ok (stamped_header q (data_header c o 0 (op_payload op)),
        Some (data_ext (op_verb op) 0 handle addr opaque 0 0 None), op_payload op).
Proof.
  intros []. unfold request_bytes, build_data_frame, build_data_frame_with_flags.
  rewrite stamp_encode_frame by (by apply data_header_wf). apply decode_encode_frame.
  - apply stamped_header_wf; [by apply data_header_wf|ulia].
  - split; [done|by apply data_ext_wf].
Qed.

Lemma decode_response h o c handle opaque addr op v :
  response_ok h o c handle opaque addr op v ->
  decode_frame (response_bytes o c handle opaque addr op v)
  = Ok (data_header o c 0 (value_bytes v),
        Some (data_ext (resp_verb op) 0 handle addr opaque 0 0 None), value_bytes v).
Proof.
  intros []. apply decode_encode_frame; [by apply data_header_wf|]. split; [done|by apply data_ext_wf].
Qed.

Lemma ack_frame_ok h n r ack : u16 n -> u16 r -> frame_ok h n r (build_ack_frame n r ack).
Proof.
  intros Hn Hr. eapply frame_ack; [apply decode_encode_frame; [|done]|done].
  unfold header_wf. cbn. split_and!; try done; try apply Hn; try apply Hr; try lia.
  destruct (ack_sack_bitmap ack); split; done.
Qed.

Lemma inbound_src h n f : inbound_ok h n f -> u16 (fh_src_node (if_header f)).
Proof. by intros [? ? ? ? ? ? []|? ? ? ? ? ? []]. Qed.

Lemma receive_frame_evolve s seq s' act :
  ReliableSession_receive_frame s seq = (s', act) ->
  rs_key s' = rs_key s /\ rs_read_cache s' = rs_read_cache s
  /\ rs_retransmit_queue s' = rs_retransmit_queue s /\ rs_next_seq s' = rs_next_seq s
  /\ rs_execution_records s' = rs_execution_records s.
Proof. unfold ReliableSession_receive_frame. destruct (DedupWindow_check _ _); intros; by simplify_eq/=. Qed.

Lemma handle_data_frame_inv h n m header ext payload :
  tm_inv h n m -> inbound_ok h n (mkInboundFrame header ext payload (fh_stream_seq header)) ->
  let m' := TransportManager_handle_data_frame m header ext payload in
  tm_inv h n m' /\ same_views m m'.
Proof.
  intros Hm Hf. unfold TransportManager_handle_data_frame. pose proof (inbound_src _ _ _ Hf) as Hsrc. cbn in Hsrc.
  set (f := mkInboundFrame header ext payload (fh_stream_seq header)) in *.
  set (key := handler_key m (fh_src_node header)).
  destruct (fh_stream_seq header =? 0); [split; [by apply tm_inv_inbound|done]|].
  destruct (tm_sessions m !! key) as [s|] eqn:Hs; [|split; [by apply tm_inv_inbound|done]].
  destruct (decide _); [by split|].
  destruct (ReliableSession_receive_frame s (fh_stream_seq header)) as [s1 act] eqn:Er.
  apply receive_frame_evolve in Er as (Hk1 & Hc1 & Hq1 & Hn1 & He1).
  pose proof (ti_session _ _ _ Hm _ _ Hs) as Hsi.
  assert (Hs1 : session_inv h n key s1) by (eapply session_inv_evolve; eauto; rewrite Hq1; eauto).
  set (m1 := match act with ReceiveAction_Deliver => _ | _ => _ end).
  assert (H1 : tm_inv h n m1 /\ same_views m m1 /\ tm_sessions m1 !! key = Some s1
               /\ tm_local_node_id m1 = n).
  { assert (Hput : tm_inv h n (put_session m key s1)) by (by apply tm_inv_put).
    assert (Hv : same_views m (put_session m key s1)) by (by eapply same_views_put).
    assert (Hl : tm_sessions (put_session m key s1) !! key = Some s1) by apply lookup_insert_eq.
    assert (tm_local_node_id m = n) by apply (ti_local _ _ _ Hm).
    unfold m1. destruct act; [|destruct (is_request_verb _)|..]; split_and!; try done; by apply tm_inv_inbound. }
  clearbody m1. destruct H1 as (Hm1 & Hv1 & Hl1 & Hid). destruct (decide _); [done|].
  destruct (_ || _); [|done].
  unfold ReliableSession_build_ack_payload. cbn [fst snd]. set (ack := mkAckPayload _ _ _ _).
  set (s2 := s1 <| rs_credits_to_grant := 0 |> <| rs_frames_since_last_ack := 0 |>).
  assert (Hs2 : session_inv h n key s2) by (eapply session_inv_evolve; eauto).
  assert (Hkr : sk_remote_node (rs_key s2) = fh_src_node header) by (cbn; by rewrite (si_key _ _ _ _ Hs1)).
  rewrite Hkr. split.
  - apply tm_inv_reply; [by apply tm_inv_put|]. cbn [tm_local_node_id put_session set_field]. rewrite Hid.
    apply ack_frame_ok; [apply (ti_local _ _ _ Hm)|done].
  - etransitivity; [exact Hv1|]. etransitivity; [|apply same_views_reply]. by eapply same_views_put.
Qed.

Lemma fast_retransmit_evolve s ack :
  let s' := (ReliableSession_process_ack_for_fast_retransmit s ack).1 in
  rs_key s' = rs_key s /\ rs_read_cache s' = rs_read_cache s
  /\ rs_retransmit_queue s' = rs_retransmit_queue s /\ rs_next_seq s' = rs_next_seq s
  /\ rs_execution_records s' = rs_execution_records s.
Proof. unfold ReliableSession_process_ack_for_fast_retransmit. repeat case_match; done. Qed.

Lemma get_retransmit_entry_elem s seq en :
  ReliableSession_get_retransmit_entry s seq = Some en -> en ∈ rs_retransmit_queue s.
Proof. intros H. apply find_some in H as [H _]. by apply list_elem_of_In. Qed.

Lemma handle_ack_frame_inv h n m clock header payload :
  tm_inv h n m ->
  let m' := TransportManager_handle_ack_frame m clock header payload in tm_inv h n m' /\ same_views m m'.
Proof.
  intros Hm. unfold TransportManager_handle_ack_frame.
  destruct (decode_ack_payload _ _) as [ack| |]; [|by split|by split].
  set (key := handler_key m (fh_src_node header)).
  destruct (tm_sessions m !! key) as [s|] eqn:Hs; [|by split].
  pose proof (fast_retransmit_evolve s ack) as H1.
  destruct (ReliableSession_process_ack_for_fast_retransmit s ack) as [s1 re]. cbn [fst] in H1.
  destruct H1 as (Hk1 & Hc1 & Hq1 & Hn1 & He1).
  pose proof (ti_session _ _ _ Hm _ _ Hs) as Hsi.
  assert (Hs1 : session_inv h n key s1) by (eapply session_inv_evolve; eauto; rewrite Hq1; eauto).
  pose proof (process_ack_spec s1 clock ack) as H2.
  destruct (ReliableSession_process_ack s1 clock ack) as [s2 removed].
  destruct H2 as (_ & Hq2 & _ & _ & Hn2 & _ & Hk2 & _ & _ & He2 & Hc2 & _).
  assert (Hs2 : session_inv h n key s2).
  { eapply session_inv_evolve; eauto. intros en. rewrite Hq2, list_elem_of_filter. intros [_ ?]. eauto. }
  set (m1 := match re with Some _ => _ | None => _ end).
  assert (Hm1 : tm_inv h n m1 /\ same_views m m1 /\ tm_sessions m1 = tm_sessions m).
  { unfold m1. destruct re as [q|]; [|done].
    destruct (ReliableSession_get_retransmit_entry s1 q) as [en|] eqn:Hen; [|done]. split; [|split].
    - apply tm_inv_reply; [done|]. rewrite (si_key _ _ _ _ Hs1).
      apply (si_queue _ _ _ _ Hs1), (get_retransmit_entry_elem _ _ _ Hen).
    - apply same_views_reply.
    - apply send_frame_to_peer_fields. }
  clearbody m1. destruct Hm1 as (Hm1 & Hv1 & Hl1). cbn [fst]. split; [by apply tm_inv_put|].
  etransitivity; [exact Hv1|]. eapply same_views_put; [by rewrite Hl1| |]; congruence.
Qed.

Lemma handle_credit_frame_inv h n m header payload :
  tm_inv h n m ->
  let m' := TransportManager_handle_credit_frame m header payload in tm_inv h n m' /\ same_views m m'.
Proof.
  intros Hm. unfold TransportManager_handle_credit_frame.
  destruct (decode_credit_payload _) as [cr| |]; [|by split|by split].
  destruct (tm_sessions m !! _) as [s|] eqn:Hs; [|by split].
  pose proof (ti_session _ _ _ Hm _ _ Hs) as Hsi. split; [|by eapply same_views_put].
  apply tm_inv_put; [done|]. eapply session_inv_evolve; eauto.
Qed.

Lemma handle_incoming_inv h n m clock src raw :
  tm_inv h n m -> frame_ok h src n raw ->
  let m' := TransportManager_handle_incoming m clock raw in tm_inv h n m' /\ same_views m m'.
Proof.
  intros Hm Hf. unfold TransportManager_handle_incoming. destruct Hf as [q op' hd addr op H|hd op' addr op v H|hd payload raw H Ht].
  - rewrite (decode_request _ _ _ _ _ _ _ _ H). cbn [fh_frame_type stamped_header data_header].
    apply handle_data_frame_inv; [done|]. by constructor.
  - rewrite (decode_response _ _ _ _ _ _ _ _ H). cbn [fh_frame_type data_header].
    apply handle_data_frame_inv; [done|]. by constructor.
  - rewrite H. destruct (fh_frame_type hd); [done|by apply handle_ack_frame_inv|by apply handle_credit_frame_inv].
Qed.

(** *** The retransmission timer *)

Lemma check_rto_loop_frames now base mx queue en :
  en ∈ (check_rto_loop now base mx queue).1.1 -> exists en0, en0 ∈ queue /\ re_frame en0 = re_frame en.
Proof.
  revert en. induction queue as [|e q IH]; intros en; cbn [check_rto_loop]; [by intros []%elem_of_nil|].
  assert (Hrec : en ∈ (check_rto_loop now base mx q).1.1 ->
                 exists en0, en0 ∈ e :: q /\ re_frame en0 = re_frame en).
  { intros (en0 & ? & ?)%IH. exists en0. split; [by right|done]. }
  destruct (_ <=? _); [destruct (_ <? _)|]; cbn [fst].
  2, 3: destruct (check_rto_loop now base mx q) as [[q' seqs] k]; cbn [fst] in *.
  all: rewrite elem_of_cons; intros [->|Hin]; [exists e; split; [by left|done]|].
  - exists en. split; [by right|done].
  - by apply Hrec.
  - by apply Hrec.
Qed.

Lemma check_rto_evolve s now :
  let s' := (ReliableSession_check_rto s now).1 in
  rs_key s' = rs_key s /\ rs_read_cache s' = rs_read_cache s /\ rs_next_seq s' = rs_next_seq s
  /\ rs_execution_records s' = rs_execution_records s
  /\ forall en, en ∈ rs_retransmit_queue s' ->
       exists en0, en0 ∈ rs_retransmit_queue s /\ re_frame en0 = re_frame en.
Proof.
  unfold ReliableSession_check_rto. destruct (decide _); [split_and!; eauto|].
  pose proof (check_rto_loop_frames now (rs_rto_base_ms s) (rs_max_retries s) (rs_retransmit_queue s)) as Hl.
  destruct (check_rto_loop _ _ _ _) as [[q seqs] kill]. cbn [fst] in Hl.
  destruct kill; cbn; [split_and!; try done; by intros ? []%elem_of_nil|].
  destruct seqs; cbn; [by split_and!|]. unfold ReliableSession_on_loss. cbn.
  destruct (_ <? _); by split_and!.
Qed.

Lemma rto_session_evolve now s :
  let s' := (rto_session now s).1 in
  rs_key s' = rs_key s /\ rs_read_cache s' = rs_read_cache s /\ rs_next_seq s' = rs_next_seq s
  /\ rs_execution_records s' = rs_execution_records s
  /\ (forall en, en ∈ rs_retransmit_queue s' ->
        exists en0, en0 ∈ rs_retransmit_queue s /\ re_frame en0 = re_frame en)
  /\ forall r frame, (r, frame) ∈ (rto_session now s).2 ->
        r = sk_remote_node (rs_key s) /\ exists en, en ∈ rs_retransmit_queue s /\ re_frame en = frame.
Proof.
  unfold rto_session. destruct (decide _); [split_and!; eauto; by intros ? ? []%elem_of_nil|].
  pose proof (check_rto_evolve s now) as H. destruct (ReliableSession_check_rto s now) as [s' seqs]. cbn [fst] in H.
  destruct H as (Hk & Hc & Hn & He & Hq).
  destruct (decide _); cbn [fst snd]; split_and!; try done; [by intros ? ? []%elem_of_nil|].
  intros r frame. rewrite list_elem_of_omap. intros (q & _ & Hen).
  destruct (ReliableSession_get_retransmit_entry s' q) as [en|] eqn:E; [|done]. cbn in Hen. simplify_eq.
  split; [congruence|]. apply Hq, (get_retransmit_entry_elem _ _ _ E).
Qed.

Lemma resend_all_inv h n frames m :
  tm_inv h n m -> (forall r frame, (r, frame) ∈ frames -> frame_ok h n r frame) ->
  let m' := foldl (fun m '(remote_node, frame) =>
    match tm_peer_senders m !! remote_node with
    | Some sender => m <| tm_peer_senders := <[remote_node := send_await sender frame]> (tm_peer_senders m) |>
    | None => m
    end) m frames in
  tm_inv h n m' /\ same_views m m'.
Proof.
  revert m. induction frames as [|[r frame] frames IH]; intros m Hm Hf; [by split|]. cbn [foldl].
  set (m1 := match tm_peer_senders m !! r with Some _ => _ | None => _ end).
  assert (H1 : tm_inv h n m1 /\ same_views m m1).
  { unfold m1. destruct (tm_peer_senders m !! r) as [ch|] eqn:Hch; [|by split]. split; [|done].
    destruct Hm as [Hl Hs Hc Hi]. split; try done. intros r' ch' raw. cbn.
    rewrite lookup_insert_Some. intros [[<- <-]|[_ ?]]; [|by eauto]. unfold send_await.
    destruct (ch_open ch); [|by eauto]. cbn. rewrite elem_of_app, list_elem_of_singleton.
    intros [?| ->]; [by eauto|]. apply Hf. by left. }
  destruct H1 as [Hm1 Hv1]. destruct (IH m1 Hm1) as [? Hv2].
  { intros r' f' ?. apply Hf. by right. }
  split; [done|]. by etransitivity.
Qed.

Lemma rto_tick_inv h n m now :
  tm_inv h n m -> let m' := rto_tick m now in tm_inv h n m' /\ same_views m m'.
Proof.
  intros Hm. unfold rto_tick. set (m1 := m <| tm_sessions := _ |>).
  assert (H1 : tm_inv h n m1 /\ same_views m m1).
  { split.
    - destruct Hm as [Hl Hs Hc Hi]. split; try done. intros key s'. cbn. rewrite lookup_fmap.
      destruct (tm_sessions m !! key) as [s|] eqn:E; [|done]. intros [= <-].
      destruct (rto_session_evolve now s) as (? & ? & _ & _ & ? & _). eapply session_inv_evolve; eauto.
    - unfold same_views, same_exec, seq_view, exec_view, current_session.
      split; intros r; replace (current_key m1 r) with (current_key m r) by done;
        destruct (current_key m r) as [key|]; cbn; [|done| |done]; rewrite lookup_fmap;
        destruct (tm_sessions m !! key) as [s|]; cbn; [|done| |done];
        destruct (rto_session_evolve now s) as (_ & _ & ? & ? & _); congruence. }
  destruct H1 as [Hm1 Hv1].
  destruct (resend_all_inv h n (concat (map (fun kv => (rto_session now kv.2).2) (map_to_list (tm_sessions m)))) m1 Hm1)
    as [? Hv2]; [|split; [done|by etransitivity]].
  intros r frame. rewrite list_elem_of_In, in_concat. intros (l & Hl & Hin). apply in_map_iff in Hl as ([key s] & <- & Hkv).
  apply list_elem_of_In, elem_of_map_to_list in Hkv. apply list_elem_of_In in Hin. cbn in Hin.
  destruct (rto_session_evolve now s) as (_ & _ & _ & _ & _ & Hfr).
  destruct (Hfr _ _ Hin) as (-> & en & Hen & <-).
  destruct (ti_session _ _ _ Hm _ _ Hkv) as [<- Hq _]. by apply Hq.
Qed.

(** *** Records of earlier requests *)

Lemma cache_get_entries c now key :
  let '(c', r) := ReadResponseCache_get c now key in
  (forall k ce, rc_entries c' !! k = Some ce ->
     exists ce0, rc_entries c !! k = Some ce0 /\ ce_response ce0 = ce_response ce)
  /\ forall raw, r = Some raw -> exists ce, rc_entries c !! key = Some ce /\ ce_response ce = raw.
Proof.
  unfold ReadResponseCache_get. destruct (rc_entries c !! key) as [e|] eqn:He; [destruct (_ <? _)|].
  1, 3: split; [|done]; intros k ce; cbn; intros [_ ?]%lookup_delete_Some; eauto.
  split; [|intros raw [= <-]; eauto]. intros k ce. cbn. rewrite lookup_insert_Some.
  intros [[<- <-]|[_ ?]]; eauto.
Qed.

Lemma cache_insert_entries c now now' key raw k ce :
  rc_entries (ReadResponseCache_insert c now now' key raw) !! k = Some ce ->
  (k = key /\ ce_response ce = raw) \/ rc_entries c !! k = Some ce.
Proof.
  unfold ReadResponseCache_insert. cbn. rewrite lookup_insert_Some. intros [[<- <-]|[_ H]]; [by left|]. right.
  assert (Hx : rc_entries (ReadResponseCache_remove_expired c now) !! k = Some ce ->
               rc_entries c !! k = Some ce) by (cbn; by intros [? _]%map_lookup_filter_Some).
  destruct (_ <=? _); [|by apply Hx]. destruct (ReadResponseCache_find_lru_key _); [|by apply Hx].
  apply Hx. cbn in H |- *. by apply lookup_delete_Some in H as [_ ?].
Qed.

Lemma current_lookup m r key s :
  current_session m r = Some (key, s) -> tm_sessions m !! key = Some s /\ sk_remote_node key = r.
Proof.
  unfold current_session, current_key. destruct (tm_peer_epochs m !! r) as [ep|]; cbn; [|done].
  destruct (tm_sessions m !! session_key m r ep) eqn:E; cbn; [|done]. by intros [= <- <-].
Qed.

Lemma cache_get_inv h n m now r key :
  tm_inv h n m ->
  let '(m', cached) := TransportManager_read_cache_get m now r key in
  tm_inv h n m' /\ same_views m m' /\ forall raw, cached = Some raw -> cached_ok h n r key raw.
Proof.
  intros Hm. unfold TransportManager_read_cache_get.
  destruct (current_session m r) as [[sk s]|] eqn:Hs; [|by split_and!].
  apply current_lookup in Hs as [Hs Hr]. pose proof (ti_session _ _ _ Hm _ _ Hs) as [Hk Hq Hc].
  pose proof (cache_get_entries (rs_read_cache s) now key) as Hg.
  destruct (ReadResponseCache_get _ _ _) as [c cached]. destruct Hg as [Hg1 Hg2].
  split; [|split; [by eapply same_views_put|]].
  - apply tm_inv_put; [done|]. split; [done|done|]. cbn. intros k ce Hce.
    destruct (Hg1 k ce Hce) as (ce0 & Hce0 & <-). auto.
  - intros raw Hraw. destruct (Hg2 raw Hraw) as (ce & Hce & <-). rewrite <- Hr. auto.
Qed.

Lemma cache_insert_inv h n m now now' r key raw :
  tm_inv h n m -> cached_ok h n r key raw ->
  let m' := TransportManager_read_cache_insert m now now' r key raw in tm_inv h n m' /\ same_views m m'.
Proof.
  intros Hm Hraw. unfold TransportManager_read_cache_insert.
  destruct (current_session m r) as [[sk s]|] eqn:Hs; [|by split].
  apply current_lookup in Hs as [Hs Hr]. pose proof (ti_session _ _ _ Hm _ _ Hs) as [Hk Hq Hc].
  split; [|by eapply same_views_put]. apply tm_inv_put; [done|]. split; [done|done|]. cbn [rs_read_cache set_field].
  intros k ce [[-> <-]|?]%cache_insert_entries; [by rewrite Hr|auto].
Qed.

Lemma remove_first_elem {A} (f : A -> bool) l l' x : remove_first f l = Some l' -> x ∈ l' -> x ∈ l.
Proof.
  revert l'. induction l as [|y l IH]; intros l'; cbn; [done|]. destruct (f y); [intros [= <-]; by right|].
  destruct (remove_first f l) as [l0|]; [|done]. intros [= <-]. rewrite elem_of_cons.
  intros [->|?]; [by left|right; eauto].
Qed.

Lemma complete_request_inv h n m r opaque :
  tm_inv h n m ->
  let m' := TransportManager_complete_request m r opaque in tm_inv h n m' /\ same_views m m'.
Proof.
  intros Hm. unfold TransportManager_complete_request.
  destruct (current_session m r) as [[sk s]|] eqn:Hs; [|by split].
  apply current_lookup in Hs as [Hs Hr]. pose proof (ti_session _ _ _ Hm _ _ Hs) as Hsi.
  unfold ReliableSession_complete_request. destruct (remove_first _ _) as [q|] eqn:Hq; cbn [fst].
  - split; [|by eapply same_views_put]. apply tm_inv_put; [done|].
    eapply session_inv_evolve; eauto. cbn. intros en Hen. exists en. split; [|done]. by eapply remove_first_elem.
  - split; [by apply tm_inv_put|by eapply same_views_put].
Qed.

Lemma mark_executed_inv h n m r seq :
  tm_inv h n m ->
  let m' := TransportManager_mark_executed m r seq in
  tm_inv h n m' /\ (forall r', seq_view m' r' = seq_view m r')
  /\ forall r', exec_view m' r' = if decide (r' = r) then mark_records seq <$> exec_view m r' else exec_view m r'.
Proof.
  intros Hm. cbv zeta. split; [|split; [|intros; apply mark_executed_view]];
    unfold TransportManager_mark_executed; destruct (current_session m r) as [[sk s]|] eqn:Hs; try done.
  - apply current_lookup in Hs as [Hs Hr]. apply tm_inv_put; [done|].
    eapply session_inv_evolve; [by apply (ti_session _ _ _ Hm)|..];
      unfold ReliableSession_mark_executed; destruct (set_executed _ _); cbn; eauto.
  - intros r'. unfold seq_view. rewrite (current_session_put m r sk s) by done.
    destruct (decide (r' = r)) as [->|]; [|done]. rewrite Hs. cbn. unfold ReliableSession_mark_executed.
    by destruct (set_executed _ _).
Qed.

(** *** Sending *)

Lemma send_inv h n m t1 t2 o frame ff opaque :
  tm_inv h n m ->
  let m' := (TransportManager_send m t1 t2 o frame ff opaque).1.1 in
  m' = m
  \/ exists q, seq_view m o = Some q
     /\ (forall r, seq_view m' r = if decide (r = o) then Some (wrap 64 (q + 1)) else seq_view m r)
     /\ same_exec m m'
     /\ forall evs, frame_ok (h ++ evs) n o (stamp_frame q frame) -> tm_inv (h ++ evs) n m'.
Proof.
  intros Hm. unfold TransportManager_send. destruct (tm_peer_epochs m !! o) as [ep|] eqn:Hep; [|by left].
  destruct (tm_sessions m !! session_key m o ep) as [s|] eqn:Hs; [|by left]. destruct (decide _); [by left|].
  unfold ReliableSession_consume_credit. destruct (_ =? _); [by left|].
  unfold ReliableSession_assign_seq. cbv zeta. right. exists (rs_next_seq s).
  set (key := session_key m o ep) in *. set (s1 := set_field rs_retransmit_queue _ _). set (m1 := put_session m key s1).
  assert (Hcur : current_session m o = Some (key, s))
    by (unfold current_session, current_key; rewrite Hep; cbn; fold key; by rewrite Hs).
  assert (Hm1 : forall evs, frame_ok (h ++ evs) n o (stamp_frame (rs_next_seq s) frame) -> tm_inv (h ++ evs) n m1).
  { intros evs Hf. apply tm_inv_put; [by apply tm_inv_mono|].
    destruct (session_inv_mono h evs n key s (ti_session _ _ _ Hm _ _ Hs)) as [Hk Hq Hc].
    split; [done| |done]. intros en. cbn. rewrite elem_of_app, list_elem_of_singleton. intros [?| ->]; auto. }
  assert (Hv1 : forall r, seq_view m1 r = if decide (r = o) then Some (wrap 64 (rs_next_seq s + 1)) else seq_view m r).
  { intros r. unfold seq_view, m1. rewrite (current_session_put m o key s) by done. by destruct (decide (r = o)). }
  assert (He1 : same_exec m m1) by (by eapply same_exec_put).
  assert (Hq : seq_view m o = Some (rs_next_seq s)) by (unfold seq_view; by rewrite Hcur).
  change (tm_peer_senders m1) with (tm_peer_senders m). cbn [rs_next_seq].
  destruct (tm_peer_senders m !! o) as [ch|] eqn:Hch; [|by split_and!].
  unfold try_send. destruct (_ && _); [|by split_and!]. split_and!; try done. intros evs Hf.
  destruct (Hm1 evs Hf) as [Hl2 Hs2 Hc2 Hi2]. split; try done. intros r ch' raw. cbn.
  rewrite lookup_insert_Some. intros [[<- <-]|[_ ?]]; [|by eauto]. cbn.
  rewrite elem_of_app, list_elem_of_singleton. intros [?| ->]; [by eauto|done].
Qed.

(** The first half of a request besides handing a frame to the transport. *)
Lemma start_request_send e t1 t2 addr verb payload ce :
  MrCacheTable_lookup_by_addr (en_mr_cache e) addr = Some ce ->
  let e' := (start_request e t1 t2 addr verb payload).1 in
  let frame := build_data_frame (en_local_node_id e) (mc_owner_node ce) verb
                 (mc_remote_mr_handle ce) addr (en_next_opaque e) payload in
  en_local_node_id e' = en_local_node_id e /\ en_mr_table e' = en_mr_table e
  /\ en_devices e' = en_devices e /\ en_next_opaque e' = wrap 64 (en_next_opaque e + 1)
  /\ (forall k resp, en_answers e' !! k = Some resp -> en_answers e !! k = Some resp)
  /\ en_transport e'
     = (TransportManager_send (en_transport e) t1 t2 (mc_owner_node ce) frame false (en_next_opaque e)).1.1.
Proof.
  intros Hce. unfold start_request, new_request, engine_send. rewrite Hce. cbn [fst snd].
  destruct (TransportManager_send _ _ _ _ _ _ _) as [[m fr] r]. cbn [fst].
  split_and!; try done. intros k resp. cbn. by intros [_ ?]%lookup_delete_Some.
Qed.

(** What [issue] does to the engine. *)
Lemma issue_send e t1 t2 addr op ce :
  MrCacheTable_lookup_by_addr (en_mr_cache e) addr = Some ce ->
  let e' := (issue e t1 t2 addr op).1 in
  let opaque := if is_request op then en_next_opaque e else 0 in
  let frame := build_data_frame (en_local_node_id e) (mc_owner_node ce) (op_verb op)
                 (mc_remote_mr_handle ce) addr opaque (op_payload op) in
  en_local_node_id e' = en_local_node_id e /\ en_mr_table e' = en_mr_table e
  /\ en_devices e' = en_devices e
  /\ en_next_opaque e' = (if is_request op then wrap 64 (en_next_opaque e + 1) else en_next_opaque e)
  /\ (forall k resp, en_answers e' !! k = Some resp -> en_answers e !! k = Some resp)
  /\ (en_transport e' = en_transport e
      \/ exists ff, en_transport e'
           = (TransportManager_send (en_transport e) t1 t2 (mc_owner_node ce) frame ff opaque).1.1).
Proof.
  intros Hce. destruct op as [data|len|x y|add]; cbn [issue is_request op_verb op_payload]; cbv zeta.
  2-4: edestruct start_request_send as (? & ? & ? & ? & ? & ?); [exact Hce|]; split_and!; eauto.
  unfold ub_write_remote, engine_send. rewrite Hce. destruct (_ <? _); cbn [fst]; [split_and!; auto|].
  destruct (TransportManager_send _ _ _ _ _ _ _) as [[m fr] r] eqn:E. cbn [fst].
  split_and!; try done. right. exists true. by rewrite E.
Qed.

(** ** The history *)

(** The updates of [c] that [o] executed, in order, by sequence number. *)
Definition exec_of (c o : Z) (ev : Event) : option Z :=
  match ev with
  | Ev_execute c' o' q _ op => if decide (c' = c /\ o' = o) then if is_update op then Some q else None else None
  | _ => None
  end.
Definition execs (h : list Event) (c o : Z) : list Z := omap (exec_of c o) h.

(** The records a session keeps of them: the last 1024. *)
Definition last_records (l : list Z) : list (Z * bool) :=
  map (fun q => (q, true)) (drop (length l - 1024) l).

Record history_inv (nodes : gmap Z Engine) (h : list Event) : Prop := {
  hi_nodes : forall c o q opaque addr op, Ev_invoke c o q opaque addr op ∈ h ->
    is_Some (nodes !! c) /\ is_Some (nodes !! o) /\ c <> o;
  hi_seq : forall c o q opaque addr op opaque' addr' op',
    Ev_invoke c o q opaque addr op ∈ h -> Ev_invoke c o q opaque' addr' op' ∈ h ->
    opaque = opaque' /\ addr = addr' /\ op = op';
  hi_opaque : forall c o q opaque addr op o' q' addr' op',
    Ev_invoke c o q opaque addr op ∈ h -> Ev_invoke c o' q' opaque addr' op' ∈ h ->
    is_request op = true -> is_request op' = true -> o = o' /\ q = q' /\ addr = addr' /\ op = op';
  hi_once : forall c o, NoDup (execs h c o);
  hi_spaced : forall c o, StronglySorted (fun q q' => q < q' + 512) (execs h c o);
  hi_execute : forall h1 h2 c o q addr op, h = h1 ++ Ev_execute c o q addr op :: h2 ->
    exists opaque v devices, Ev_invoke c o q opaque addr op ∈ h1
      /\ local_call (tbl o) (replay tbl mem0 h1 o) addr op = Ok (v, devices);
  hi_return : forall h1 h2 c opaque v, h = h1 ++ Ev_return c opaque (Ok v) :: h2 ->
    exists o q addr op, served h1 c o q opaque addr op v;
}.

Lemma execs_snoc h ev c o : execs (h ++ [ev]) c o = execs h c o ++ option_list (exec_of c o ev).
Proof. unfold execs. rewrite omap_app. cbn. by destruct (exec_of c o ev). Qed.

Lemma last_records_elem l q b : (q, b) ∈ last_records l -> q ∈ l.
Proof.
  unfold last_records. rewrite list_elem_of_fmap. intros (x & [= -> ->] & Hx).
  rewrite <- (take_drop (length l - 1024) l), elem_of_app. by right.
Qed.

Lemma last_records_mark l q : q ∉ l -> mark_records q (last_records l) = last_records (l ++ [q]).
Proof.
  intros Hq. unfold mark_records.
  assert (set_executed q (last_records l) = None) as ->.
  { assert (Hd : forall b, (q, b) ∉ last_records l) by (intros b ?%last_records_elem; done).
    induction (last_records l) as [|[x b] l' IH]; cbn; [done|].
    rewrite (proj2 (Z.eqb_neq x q)) by (intros ->; apply (Hd b); by left).
    rewrite IH; [done|]. intros b' ?. apply (Hd b'). by right. }
  unfold last_records. change [(q, true)] with (map (fun q => (q, true)) [q]).
  rewrite <- map_app, skipn_map, length_map. f_equal. apply (drop_last_snoc 1024). lia.
Qed.

Lemma last_records_executed l q :
  existsb (fun x : Z * bool => (x.1 =? q) && x.2) (last_records l) = true -> q ∈ l.
Proof.
  rewrite existsb_exists. intros ([x b] & Hin & Hx). cbn in Hx. zbool. subst.
  apply list_elem_of_In in Hin. by eapply last_records_elem.
Qed.

(** A number that was executed and is not outrun is still on record. *)
Lemma timely_recorded l q next :
  NoDup l -> StronglySorted (fun q q' => q < q' + 512) l -> Forall (fun q' => q' < next) l ->
  next <= q + 512 -> q ∈ l ->
  existsb (fun x : Z * bool => (x.1 =? q) && x.2) (last_records l) = true.
Proof.
  intros Hnd Hsp Hlt Hq (pre & post & ->)%list_elem_of_split.
  assert (Hpost : Forall (fun p => q - 512 < p < q + 512) post).
  { pose proof (StronglySorted_after _ _ _ _ Hsp) as Hsp'.
    apply Forall_app in Hlt as [_ Hlt]. apply Forall_cons in Hlt as [_ Hlt].
    rewrite Forall_forall in *. intros p Hp. specialize (Hsp' p Hp). specialize (Hlt p Hp). lia. }
  assert (Hlen : (length post <= 1023)%nat).
  { apply NoDup_app in Hnd as (_ & _ & [_ Hnd]%NoDup_cons).
    apply (NoDup_bounded post (q - 511)); [done|]. eapply Forall_impl; [exact Hpost|]. cbn. lia. }
  apply existsb_exists. exists (q, true). split; [|cbn; by rewrite Z.eqb_refl].
  apply list_elem_of_In, list_elem_of_fmap. exists q. split; [done|].
  rewrite drop_app_le by (rewrite length_app; cbn; lia). apply elem_of_app. right. by left.
Qed.
(** *** One event more *)

Lemma served_invoked h c o q opaque addr op v :
  served h c o q opaque addr op v -> Ev_invoke c o q opaque addr op ∈ h.
Proof. intros (h1 & h2 & ds & -> & ? & _). apply elem_of_app. by left. Qed.

Lemma execs_invoked nodes h c o q :
  history_inv nodes h -> q ∈ execs h c o ->
  exists opaque addr op, Ev_invoke c o q opaque addr op ∈ h.
Proof.
  intros Hh. unfold execs. rewrite list_elem_of_omap. intros (ev & Hev & Hx).
  destruct ev as [| c' o' q' addr op| |]; cbn in Hx; try done.
  destruct (decide _) as [[-> ->]|]; [|done]. destruct (is_update op); [|done]. injection Hx as ->.
  apply list_elem_of_split in Hev as (h1 & h2 & ->).
  destruct (hi_execute _ _ Hh _ _ _ _ _ _ _ eq_refl) as (opq & v & ds & Hin & _).
  exists opq, addr, op. apply elem_of_app. by left.
Qed.

(** An event that is not an execution or a return adds nothing to those clauses. *)
Lemma history_inv_quiet nodes h ev :
  history_inv nodes h ->
  match ev with Ev_execute _ _ _ _ _ | Ev_return _ _ (Ok _) => False | _ => True end ->
  (forall c o, execs (h ++ [ev]) c o = execs h c o)
  /\ (forall h1 h2 c o q addr op, h ++ [ev] = h1 ++ Ev_execute c o q addr op :: h2 ->
        exists opaque v devices, Ev_invoke c o q opaque addr op ∈ h1
          /\ local_call (tbl o) (replay tbl mem0 h1 o) addr op = Ok (v, devices))
  /\ (forall h1 h2 c opaque v, h ++ [ev] = h1 ++ Ev_return c opaque (Ok v) :: h2 ->
        exists o q addr op, served h1 c o q opaque addr op v).
Proof.
  intros Hh Hev. split_and!.
  - intros c o. rewrite execs_snoc. destruct ev; cbn; by rewrite ?app_nil_r.
  - intros h1 h2 c o q addr op [(_ & _ & <-)|(h2' & ->)]%snoc_split; [done|]. by eapply (hi_execute _ _ Hh).
  - intros h1 h2 c opq v [(_ & _ & <-)|(h2' & ->)]%snoc_split; [done|]. by eapply (hi_return _ _ Hh).
Qed.

(** Invocations are the same in a history extended by something else. *)
Lemma invoke_snoc h ev c o q opaque addr op :
  Ev_invoke c o q opaque addr op ∈ h ++ [ev] -> (forall c o q opaque addr op, ev <> Ev_invoke c o q opaque addr op) ->
  Ev_invoke c o q opaque addr op ∈ h.
Proof. rewrite elem_of_app, list_elem_of_singleton. intros [?|<-] Hne; [done|]. by destruct (Hne c o q opaque addr op). Qed.

Lemma history_inv_other nodes h ev :
  history_inv nodes h -> (forall c o q opaque addr op, ev <> Ev_invoke c o q opaque addr op) ->
  (forall c o, NoDup (execs (h ++ [ev]) c o)) ->
  (forall c o, StronglySorted (fun q q' => q < q' + 512) (execs (h ++ [ev]) c o)) ->
  (forall h1 h2 c o q addr op, h ++ [ev] = h1 ++ Ev_execute c o q addr op :: h2 ->
      exists opaque v devices, Ev_invoke c o q opaque addr op ∈ h1
        /\ local_call (tbl o) (replay tbl mem0 h1 o) addr op = Ok (v, devices)) ->
  (forall h1 h2 c opaque v, h ++ [ev] = h1 ++ Ev_return c opaque (Ok v) :: h2 ->
      exists o q addr op, served h1 c o q opaque addr op v) ->
  history_inv nodes (h ++ [ev]).
Proof.
  intros [Hn Hs Ho H1 H2 H3 H4] Hne. split; try done; intros *.
  - intros Hin. apply invoke_snoc in Hin; [|done]. by eapply Hn.
  - intros Ha Hb. apply invoke_snoc in Ha, Hb; [|done..]. by eapply Hs.
  - intros Ha Hb. apply invoke_snoc in Ha, Hb; [|done..]. by eapply Ho.
Qed.

Lemma history_inv_local nodes h o addr op : history_inv nodes h -> history_inv nodes (h ++ [Ev_local o addr op]).
Proof.
  intros Hh. destruct (history_inv_quiet _ _ (Ev_local o addr op) Hh I) as (He & Hx & Hr).
  apply history_inv_other; try done; intros c' o'; rewrite He; [apply (hi_once _ _ Hh)|apply (hi_spaced _ _ Hh)].
Qed.

Lemma history_inv_return nodes h c opaque r :
  history_inv nodes h -> (forall v, r = Ok v -> exists o q addr op, served h c o q opaque addr op v) ->
  history_inv nodes (h ++ [Ev_return c opaque r]).
Proof.
  intros Hh Hr. apply history_inv_other; try done.
  - intros c' o'. rewrite execs_snoc. cbn. rewrite app_nil_r. apply (hi_once _ _ Hh).
  - intros c' o'. rewrite execs_snoc. cbn. rewrite app_nil_r. apply (hi_spaced _ _ Hh).
  - intros h1 h2 c' o q addr op [(_ & _ & ?)|(h2' & ->)]%snoc_split; [done|]. by eapply (hi_execute _ _ Hh).
  - intros h1 h2 c' opq v [(_ & -> & [= -> -> <-])|(h2' & ->)]%snoc_split; [by apply Hr|].
    by eapply (hi_return _ _ Hh).
Qed.

Lemma history_inv_execute nodes h c o q opaque addr op v devices :
  history_inv nodes h -> Ev_invoke c o q opaque addr op ∈ h ->
  local_call (tbl o) (replay tbl mem0 h o) addr op = Ok (v, devices) ->
  (is_update op = true -> (q ∉ execs h c o) /\ Forall (fun q' => q' < q + 512) (execs h c o)) ->
  history_inv nodes (h ++ [Ev_execute c o q addr op]).
Proof.
  intros Hh Hin Hcall Hup. apply history_inv_other; try done.
  - intros c' o'. rewrite execs_snoc. cbn. destruct (decide _) as [[-> ->]|]; [|rewrite app_nil_r; apply (hi_once _ _ Hh)].
    destruct (is_update op); cbn; [|rewrite app_nil_r; apply (hi_once _ _ Hh)].
    destruct (Hup eq_refl) as [Hq _]. apply NoDup_app. split; [apply (hi_once _ _ Hh)|]. split; [|apply NoDup_singleton].
    intros x Hx ->%list_elem_of_singleton. done.
  - intros c' o'. rewrite execs_snoc. cbn. destruct (decide _) as [[-> ->]|]; [|rewrite app_nil_r; apply (hi_spaced _ _ Hh)].
    destruct (is_update op); cbn; [|rewrite app_nil_r; apply (hi_spaced _ _ Hh)].
    destruct (Hup eq_refl) as [_ Hq]. apply StronglySorted_snoc; [apply (hi_spaced _ _ Hh)|done].
  - intros h1 h2 c' o' q' addr' op' [(_ & -> & [= -> -> -> -> ->])|(h2' & ->)]%snoc_split; [by eauto|].
    by eapply (hi_execute _ _ Hh).
  - intros h1 h2 c' opq v' [(_ & _ & ?)|(h2' & ->)]%snoc_split; [done|]. by eapply (hi_return _ _ Hh).
Qed.

Lemma history_inv_invoke nodes h c o q opaque addr op :
  history_inv nodes h -> is_Some (nodes !! c) -> is_Some (nodes !! o) -> c <> o ->
  (forall q' opaque' addr' op', Ev_invoke c o q' opaque' addr' op' ∈ h -> q' < q) ->
  (is_request op = true -> forall o' q' opaque' addr' op', Ev_invoke c o' q' opaque' addr' op' ∈ h ->
     is_request op' = true -> opaque' < opaque) ->
  history_inv nodes (h ++ [Ev_invoke c o q opaque addr op]).
Proof.
  intros Hh Hc Ho Hco Hq Hop.
  destruct (history_inv_quiet _ _ (Ev_invoke c o q opaque addr op) Hh I) as (He & Hx & Hr).
  split; try done; intros *; rewrite ?elem_of_app, ?list_elem_of_singleton, ?He.
  - intros [?|[= -> -> -> -> -> ->]]; [by eapply (hi_nodes _ _ Hh)|done].
  - intros [H1|H1] [H2|H2]; simplify_eq; try done.
    + by eapply (hi_seq _ _ Hh).
    + specialize (Hq _ _ _ _ H1). lia.
    + specialize (Hq _ _ _ _ H2). lia.
  - intros [H1|H1] [H2|H2] Hr1 Hr2; simplify_eq; try done.
    + by eapply (hi_opaque _ _ Hh).
    + specialize (Hop Hr2 _ _ _ _ _ H1 Hr1). lia.
    + specialize (Hop Hr1 _ _ _ _ _ H2 Hr2). lia.
  - apply (hi_once _ _ Hh).
  - apply (hi_spaced _ _ Hh).
Qed.

(** ** Serving a request *)

Record node_inv (nodes : gmap Z Engine) (h : list Event) (n : Z) (e : Engine) : Prop := {
  ni_id : en_local_node_id e = n;
  ni_tm : tm_inv h n (en_transport e);
  ni_table : en_mr_table e = tbl n;
  ni_mem : en_devices e = replay tbl mem0 h n;
  ni_start : node_ok (tbl n) (mem0 n);
  ni_ok : node_ok (tbl n) (en_devices e);
  ni_same : same_devices (mem0 n) (en_devices e);
  ni_records : forall r, is_Some (nodes !! r) -> r <> n ->
    exec_view (en_transport e) r = Some (last_records (execs h r n));
  ni_seq : forall o, is_Some (nodes !! o) -> o <> n -> exists q, seq_view (en_transport e) o = Some q
    /\ 1 <= q < 2 ^ 64 /\ forall q' opaque addr op, Ev_invoke n o q' opaque addr op ∈ h -> q' < q;
  ni_opaque : 1 <= en_next_opaque e < 2 ^ 64 /\ forall o q opaque addr op,
    Ev_invoke n o q opaque addr op ∈ h -> is_request op = true -> opaque < en_next_opaque e;
  ni_answers : forall opaque resp, en_answers e !! opaque = Some resp ->
    vr_status resp = 0 /\ exists o q addr op v, served h n o q opaque addr op v /\ is_request op = true
      /\ value_of op v /\ vr_data resp = value_bytes v;
}.

Lemma read_payload len : u32 len -> be_value (take 4 (put_u32 len)) = len.
Proof. intros. by rewrite take_ge, be_value_be_bytes by (rewrite ?length_be_bytes; (done || ulia)). Qed.

Lemma faa_payload add : u64 add -> be_value (take 8 (put_u64 add)) = add.
Proof. intros. by rewrite take_ge, be_value_be_bytes by (rewrite ?length_be_bytes; (done || ulia)). Qed.

Lemma cas_payload x y :
  u64 x -> u64 y ->
  be_value (take 8 (put_u64 x ++ put_u64 y)) = x /\ be_value (take 8 (drop 8 (put_u64 x ++ put_u64 y))) = y.
Proof.
  intros Hx Hy. rewrite take_app_length', drop_app_length' by (symmetry; apply length_be_bytes).
  rewrite take_ge by (by rewrite length_be_bytes). by rewrite !be_value_be_bytes by ulia.
Qed.

Lemma op_of_request hd q handle addr opaque op :
  op_wf op ->
  op_of_frame (mkInboundFrame hd (data_ext (op_verb op) 0 handle addr opaque 0 0 None) (op_payload op) q) = Some op.
Proof.
  unfold op_of_frame. destruct op as [data|len|x y|add]; intros Hwf; cbn [de_verb data_ext op_verb if_ext if_payload op_payload]; try done.
  - by rewrite read_payload.
  - by destruct Hwf, (cas_payload x y) as [-> ->].
  - by rewrite faa_payload.
Qed.

Lemma respond_inv h n e now now' c handle opaque addr op v :
  tm_inv h n (en_transport e) -> en_local_node_id e = n -> response_ok h n c handle opaque addr op v ->
  let e' := answer_request e now now' (data_ext (op_verb op) 0 handle addr opaque 0 0 None) c (resp_verb op) (value_bytes v) in
  tm_inv h n (en_transport e') /\ same_views (en_transport e) (en_transport e').
Proof.
  intros Hm Hid Hr. unfold answer_request. cbn [de_mr_handle de_ub_addr de_opaque data_ext]. rewrite Hid.
  fold (response_bytes n c handle opaque addr op v).
  destruct (cache_insert_inv h n (en_transport e) now now' c (c, opaque) (response_bytes n c handle opaque addr op v) Hm)
    as [Hm1 Hv1]; [by exists handle, addr, op, v|].
  unfold reply. cbn [en_transport set_field]. split.
  - apply tm_inv_reply; [done|]. by apply frame_response.
  - etransitivity; [exact Hv1|apply same_views_reply].
Qed.

Lemma resend_cached_inv h n e now c opaque :
  tm_inv h n (en_transport e) ->
  let '(e', hit) := resend_cached e now c (c, opaque) in
  tm_inv h n (en_transport e') /\ same_views (en_transport e) (en_transport e')
  /\ (exists m, e' = e <| en_transport := m |>)
  /\ hit = match (TransportManager_read_cache_get (en_transport e) now c (c, opaque)).2 with Some _ => true | None => false end.
Proof.
  intros Hm. unfold resend_cached. pose proof (cache_get_inv h n (en_transport e) now c (c, opaque) Hm) as Hg.
  destruct (TransportManager_read_cache_get _ _ _ _) as [m cached]. destruct Hg as (Hm1 & Hv1 & Hc).
  destruct cached as [raw|]; cbn [snd]; [|by split_and!; try done; eexists].
  destruct (Hc raw eq_refl) as (handle & addr & op & v & Hr & ->). unfold reply. cbn [en_transport set_field].
  split_and!; try done; [|etransitivity; [exact Hv1|apply same_views_reply]|by eexists].
  apply tm_inv_reply; [done|]. by apply frame_response.
Qed.

Lemma replay_snoc h ev n : replay tbl mem0 (h ++ [ev]) n = spec_event tbl (replay tbl mem0 h) ev n.
Proof. unfold replay. by rewrite foldl_app. Qed.

Lemma replay_execute h c o q addr op v devices :
  local_call (tbl o) (replay tbl mem0 h o) addr op = Ok (v, devices) ->
  replay tbl mem0 (h ++ [Ev_execute c o q addr op]) o = devices.
Proof. intros H. rewrite replay_snoc. cbn. rewrite H. by rewrite decide_True. Qed.

(** A request for a region of this node, in the terms of the handlers. *)
Lemma request_addressed nodes h n e c q opaque handle addr op :
  node_inv nodes h n e -> request_ok h c n q opaque handle addr op ->
  (exists arc entry off, addressed e (data_ext (op_verb op) 0 handle addr opaque 0 0 None) arc entry off)
  /\ exists v devices, local_call (tbl n) (en_devices e) addr op = Ok (v, devices).
Proof.
  intros Hn Hr. destruct (rq_servable _ _ _ _ _ _ _ _ Hr) as ((arc & off & entry & ? & ? & ? & ?) & v & ds & Hc).
  split.
  - exists arc, entry, off. rewrite <- (ni_table _ _ _ _ Hn) in *. split; try done.
    by rewrite (ni_table _ _ _ _ Hn); apply (ni_ok _ _ _ _ Hn).
  - eapply local_call_again; [apply (ni_start _ _ _ _ Hn)|apply (ni_ok _ _ _ _ Hn)|apply (ni_same _ _ _ _ Hn)
      |apply (rq_wf _ _ _ _ _ _ _ _ Hr)|exact Hc].
Qed.

(** The engine after a request, apart from transport and devices. *)
Definition same_rest (e e' : Engine) : Prop :=
  en_local_node_id e' = en_local_node_id e /\ en_mr_table e' = en_mr_table e
  /\ en_answers e' = en_answers e /\ en_next_opaque e' = en_next_opaque e.

(** A request that is executed. *)
Lemma handler_executes nodes h n e clock c q opaque handle addr op v devices :
  node_inv nodes h n e -> request_ok h c n q opaque handle addr op ->
  local_call (tbl n) (en_devices e) addr op = Ok (v, devices) ->
  let ext := data_ext (op_verb op) 0 handle addr opaque 0 0 None in
  let hd := stamped_header q (data_header c n 0 (op_payload op)) in
  let h' := h ++ [Ev_execute c n q addr op] in
  exists e',
    match op with
    | CallOp_write _ => handle_write e (op_payload op) ext
    | CallOp_read _ => handle_read_req e (clock 1%nat) (clock 2%nat) (op_payload op) ext hd c (c, opaque)
    | CallOp_cas _ _ => handle_atomic_cas e (clock 1%nat) (clock 2%nat) (op_payload op) ext hd c
    | CallOp_faa _ => handle_atomic_faa e (clock 1%nat) (clock 2%nat) (op_payload op) ext hd c
    end = Ok e'
    /\ tm_inv h' n (en_transport e') /\ same_views (en_transport e) (en_transport e')
    /\ same_rest e e' /\ en_devices e' = devices.
Proof.
  intros Hn Hr Hcall ext hd h'. destruct (request_addressed _ _ _ _ _ _ _ _ _ _ Hn Hr) as ((arc & entry & off & Had) & _).
  pose proof (tm_inv_mono h [Ev_execute c n q addr op] _ _ (ni_tm _ _ _ _ Hn)) as Hm. fold h' in Hm.
  assert (Hsv : served h' c n q opaque addr op v).
  { exists h, [], devices. rewrite <- (ni_mem _ _ _ _ Hn). split_and!; [done|apply Hr|done]. }
  assert (Hval : value_of op v).
  { eapply local_call_ok; [apply (ni_ok _ _ _ _ Hn)|apply (ni_same _ _ _ _ Hn)|apply (rq_wf _ _ _ _ _ _ _ _ Hr)|done]. }
  assert (Hresp : is_request op = true -> response_ok h' n c handle opaque addr op v) by (destruct Hr; split; eauto).
  destruct Hr as [_ _ _ _ Hq Hopq Hhd Haddr Hwf _].
  assert (Hans : is_request op = true -> forall e1, en_transport e1 = en_transport e -> same_rest e e1 ->
     en_devices e1 = devices ->
     let e' := answer_request e1 (clock 1%nat) (clock 2%nat) ext c (resp_verb op) (value_bytes v) in
     tm_inv h' n (en_transport e') /\ same_views (en_transport e) (en_transport e')
     /\ same_rest e e' /\ en_devices e' = devices).
  { intros Hreq e1 Ht Hrest Hd. cbv zeta. rewrite <- Ht.
    edestruct (respond_inv h' n e1) as [? ?]; [by rewrite Ht|rewrite (proj1 Hrest); apply (ni_id _ _ _ _ Hn)|by apply Hresp|].
    split_and!; eauto. }
  destruct op as [data|len|x y|add]; cbn [local_call op_payload op_verb is_request op_wf resp_verb value_bytes] in *.
  - rewrite (handle_write_local _ _ _ _ _ _ Had) by apply Hwf. cbn [de_ub_addr ext data_ext].
    rewrite (ni_table _ _ _ _ Hn). destruct (ub_write_sync _ _ _ _) as [ds| |]; cbn [rbind] in Hcall; simplify_eq.
    eexists. split; [reflexivity|]. by split_and!.
  - assert (Hlen : length (put_u32 len) = 4%nat) by apply length_be_bytes.
    change c with (fh_src_node hd) at 1 2.
    rewrite (handle_read_local e (clock 1%nat) (clock 2%nat) ext _ hd arc entry off Had)
      by (rewrite ?Hlen; (lia || apply be_bytes_u8)).
    rewrite read_payload by done. cbn [de_ub_addr ext data_ext].
    rewrite (ni_table _ _ _ _ Hn). destruct (ub_read_sync _ _ _ _) as [buf| |]; cbn [rbind] in Hcall; simplify_eq.
    eexists. split; [reflexivity|]. by apply Hans.
  - assert (Hlen : length (put_u64 x ++ put_u64 y) = 16%nat) by (by rewrite length_app, !length_be_bytes).
    pose proof (handle_cas_local e (clock 1%nat) (clock 2%nat) ext hd arc entry off Had (put_u64 x ++ put_u64 y)) as Hh.
    destruct Hwf as [Hx Hy]. destruct (cas_payload x y Hx Hy) as [Hex Hey]. rewrite Hex, Hey, Hlen in Hh.
    specialize (Hh ltac:(lia) ltac:(apply Forall_app; split; apply be_bytes_u8)).
    cbn [de_ub_addr ext data_ext] in Hh. rewrite (ni_table _ _ _ _ Hn) in Hh. unfold answers_as in Hh.
    destruct (ub_atomic_cas_sync _ _ _ _ _) as [[old ds]| |]; cbn [rbind] in Hcall; simplify_eq.
    eexists. split; [exact Hh|]. by apply Hans.
  - assert (Hlen : length (put_u64 add) = 8%nat) by apply length_be_bytes.
    pose proof (handle_faa_local e (clock 1%nat) (clock 2%nat) ext hd arc entry off Had (put_u64 add)) as Hh.
    rewrite faa_payload, Hlen in Hh by done. specialize (Hh ltac:(lia)).
    cbn [de_ub_addr ext data_ext] in Hh. rewrite (ni_table _ _ _ _ Hn) in Hh. unfold answers_as in Hh.
    destruct (ub_atomic_faa_sync _ _ _ _) as [[old ds]| |]; cbn [rbind] in Hcall; simplify_eq.
    eexists. split; [exact Hh|]. by apply Hans.
Qed.

(** The frame of a request, as the dispatch task takes it from the channel. *)
Definition request_frame (c n q opaque handle addr : Z) (op : CallOp) : InboundFrame :=
  mkInboundFrame (stamped_header q (data_header c n 0 (op_payload op)))
    (data_ext (op_verb op) 0 handle addr opaque 0 0 None) (op_payload op) q.

Lemma execution_request e clock c n q opaque handle addr op :
  op_wf op ->
  let f := request_frame c n q opaque handle addr op in
  execution e clock n f = if executes e clock f then [Ev_execute c n q addr op] else [].
Proof. intros Hwf f. unfold execution, f, request_frame. by rewrite op_of_request. Qed.

(** A request that was answered before: at most the answer is sent again. *)
Lemma handler_repeats nodes h n e clock c q opaque handle addr op :
  node_inv nodes h n e ->
  let f := request_frame c n q opaque handle addr op in
  executes e clock f = false ->
  exists e', handle_verb_frame e clock f = Ok e'
    /\ tm_inv h n (en_transport e') /\ same_views (en_transport e) (en_transport e')
    /\ same_rest e e' /\ en_devices e' = en_devices e.
Proof.
  intros Hn f Hex. pose proof (ni_tm _ _ _ _ Hn) as Hm.
  pose proof (resend_cached_inv h n e (clock 0%nat) c opaque Hm) as Hre.
  destruct (resend_cached e (clock 0%nat) c (c, opaque)) as [e' hit] eqn:Er.
  destruct Hre as (Hm' & Hv' & [m ->] & Hhit).
  unfold handle_verb_frame, f, request_frame. unfold executes, f, request_frame in Hex.
  cbn [if_header if_ext if_payload if_seq fh_src_node stamped_header data_header de_verb data_ext de_opaque] in *.
  destruct op as [data|len|x y|add]; cbn [op_verb] in *.
  - apply negb_false_iff in Hex. rewrite Hex. exists e. by split_and!.
  - rewrite Er. destruct (TransportManager_read_cache_get _ _ _ _).2; [|done]. subst hit. eexists. split; [reflexivity|done].
  - apply negb_false_iff in Hex. rewrite Hex, Er. eexists. split; [reflexivity|done].
  - apply negb_false_iff in Hex. rewrite Hex, Er. eexists. split; [reflexivity|done].
Qed.

Lemma node_inv_transport nodes h n e m :
  node_inv nodes h n e -> tm_inv h n m -> same_views (en_transport e) m ->
  node_inv nodes h n (e <| en_transport := m |>).
Proof.
  intros [] Hm [Hseq Hex]. split; cbn; try done.
  - intros r ? ?. rewrite (Hex r). auto.
  - intros o ? ?. rewrite Hseq. auto.
Qed.

(** A request that was not. *)
Lemma handler_serves nodes h n e clock c q opaque handle addr op :
  node_inv nodes h n e -> request_ok h c n q opaque handle addr op ->
  let f := request_frame c n q opaque handle addr op in
  let h' := h ++ [Ev_execute c n q addr op] in
  executes e clock f = true ->
  exists e' v devices, handle_verb_frame e clock f = Ok e'
    /\ local_call (tbl n) (en_devices e) addr op = Ok (v, devices) /\ en_devices e' = devices
    /\ tm_inv h' n (en_transport e') /\ same_rest e e'
    /\ (forall r, seq_view (en_transport e') r = seq_view (en_transport e) r)
    /\ forall r, exec_view (en_transport e') r
         = if decide (r = c) then (if is_update op then mark_records q else id) <$> exec_view (en_transport e) r
           else exec_view (en_transport e) r.
Proof.
  intros Hn Hr f h' Hex. pose proof (ni_tm _ _ _ _ Hn) as Hm.
  destruct (request_addressed _ _ _ _ _ _ _ _ _ _ Hn Hr) as (_ & v & ds & Hcall).
  assert (Hmark : forall e1, tm_inv h' n (en_transport e1) /\ same_views (en_transport e) (en_transport e1)
            /\ same_rest e e1 /\ en_devices e1 = ds ->
     let e' := mark_executed e1 c q in
     en_devices e' = ds /\ tm_inv h' n (en_transport e') /\ same_rest e e'
     /\ (forall r, seq_view (en_transport e') r = seq_view (en_transport e) r)
     /\ forall r, exec_view (en_transport e') r
          = if decide (r = c) then mark_records q <$> exec_view (en_transport e) r else exec_view (en_transport e) r).
  { intros e1 (Hm1 & [Hs1 He1] & Hrest & Hd). destruct (mark_executed_inv h' n (en_transport e1) c q Hm1) as (? & Hs & Hx).
    unfold mark_executed. cbn. split_and!; try done; intros r; [by rewrite Hs|rewrite Hx, He1; done]. }
  pose proof (handler_executes nodes h n e clock c q opaque handle addr op v ds Hn Hr Hcall) as Hh.
  unfold handle_verb_frame, f, request_frame. unfold executes, f, request_frame in Hex.
  cbn [if_header if_ext if_payload if_seq fh_src_node stamped_header data_header de_verb data_ext de_opaque] in *.
  destruct op as [data|len|x y|add]; cbn [op_verb] in *.
  1, 3, 4: apply negb_true_iff in Hex; rewrite Hex; destruct Hh as (e1 & -> & He1); cbn [rbind];
    eexists _, v, ds; split; [reflexivity|]; split; [done|]; apply Hmark, He1.
  pose proof (resend_cached_inv h n e (clock 0%nat) c opaque Hm) as Hre.
  destruct (resend_cached e (clock 0%nat) c (c, opaque)) as [e1 hit].
  destruct Hre as (Hm1 & Hv1 & [m ->] & ->). destruct (TransportManager_read_cache_get _ _ _ _).2; [done|].
  pose proof (node_inv_transport nodes h n e m Hn Hm1 Hv1) as Hn1.
  destruct (handler_executes nodes h n _ clock c q opaque handle addr (CallOp_read len) v ds Hn1 Hr Hcall)
    as (e2 & Heq & Hm2 & Hv2 & Hrest & Hd). exists e2, v, ds.
  destruct Hv1 as [Hs1 Hx1], Hv2 as [Hs2 Hx2]. split_and!; try done.
  - intros r. by rewrite Hs2, Hs1.
  - intros r. rewrite Hx2, Hx1. destruct (decide (r = c)); [|done]. by destruct (exec_view _ _).
Qed.

(** An answer that arrives. *)
Lemma handler_completes nodes h n e clock o handle opaque addr op v :
  node_inv nodes h n e -> response_ok h o n handle opaque addr op v ->
  exists e', handle_verb_frame e clock (mkInboundFrame (data_header o n 0 (value_bytes v))
               (data_ext (resp_verb op) 0 handle addr opaque 0 0 None) (value_bytes v) 0) = Ok e'
    /\ node_inv nodes h n e'.
Proof.
  intros Hn Hr. unfold handle_verb_frame. cbn [if_header if_ext if_payload if_seq de_verb data_ext fh_src_node data_header].
  exists (complete_pending_request e (data_ext (resp_verb op) 0 handle addr opaque 0 0 None) (value_bytes v) o).
  split; [by destruct op|]. unfold complete_pending_request. cbn [de_opaque data_ext de_ext_flags].
  destruct (decide (opaque ∈ en_pending e)) as [Hp|]; [|done].
  unfold answer. rewrite decide_True by done.
  destruct (complete_request_inv h n (en_transport e) o opaque (ni_tm _ _ _ _ Hn)) as [Hm [Hs Hx]].
  destruct Hn as [? ? ? ? ? ? ? Hrec Hseq Hopq Hans]. split; cbn; try done.
  - intros r ? ?. rewrite (Hx r). auto.
  - intros o' ? ?. rewrite Hs. auto.
  - intros k resp. rewrite lookup_insert_Some. intros [[<- <-]|[_ ?]]; [|by apply Hans].
    split; [done|]. destruct (rp_served _ _ _ _ _ _ _ _ Hr) as (q & ?).
    exists o, q, addr, op, v. split_and!; [done|apply (rp_request _ _ _ _ _ _ _ _ Hr)|apply (rp_value _ _ _ _ _ _ _ _ Hr)|done].
Qed.

(** ** The invariant of the pod *)

Record pod_inv (p : Pod) : Prop := {
  pv_nodes : forall n e, pd_nodes p !! n = Some e -> node_inv (pd_nodes p) (pd_history p) n e;
  pv_wire : forall dst raw, (dst, raw) ∈ pd_wire p -> exists src, frame_ok (pd_history p) src dst raw;
  pv_history : history_inv (pd_nodes p) (pd_history p);
}.

(** The node an event happens at. *)
Definition event_at (n : Z) (ev : Event) : Prop :=
  match ev with
  | Ev_invoke c _ _ _ _ _ => c = n
  | Ev_execute _ o _ _ _ => o = n
  | Ev_local o _ _ => o = n
  | Ev_return c _ _ => c = n
  end.

Lemma node_inv_other nodes h n n' e ev :
  node_inv nodes h n' e -> n' <> n -> event_at n ev -> node_inv nodes (h ++ [ev]) n' e.
Proof.
  intros [Hid Htm Htbl Hmem Hst Hok Hsame Hrec Hseq [Ho1 Ho2] Hans] Hne Hev.
  assert (Hinv : forall o q opaque addr op, Ev_invoke n' o q opaque addr op ∈ h ++ [ev] ->
                 Ev_invoke n' o q opaque addr op ∈ h).
  { intros *. rewrite elem_of_app, list_elem_of_singleton. intros [?|<-]; [done|]. cbn in Hev. congruence. }
  split; try done.
  - by apply tm_inv_mono.
  - rewrite Hmem, replay_snoc. destruct ev; cbn in *; try done;
      (destruct (local_call _ _ _ _) as [[??]| |]; [rewrite decide_False by congruence|..]; done).
  - intros r ? ?. rewrite Hrec, execs_snoc by done. do 2 f_equal.
    destruct ev; cbn in *; try (by rewrite app_nil_r).
    rewrite decide_False by (intros [_ ?]; congruence). by rewrite app_nil_r.
  - intros o ? ?. destruct (Hseq o) as (q & ? & ? & ?); [done..|]. exists q. split_and!; eauto; lia.
  - split; [done|]. intros *. eauto.
  - intros opq resp Hr. destruct (Hans opq resp Hr) as (? & o & q & addr & op & v & ? & ? & ? & ?).
    split; [done|]. exists o, q, addr, op, v. split_and!; try done. by apply served_mono.
Qed.

Lemma node_inv_dom nodes nodes' h n e :
  (forall r, is_Some (nodes' !! r) -> is_Some (nodes !! r)) -> node_inv nodes h n e -> node_inv nodes' h n e.
Proof. intros Hd []. split; eauto. Qed.

Lemma history_inv_dom nodes nodes' h :
  (forall r, is_Some (nodes !! r) -> is_Some (nodes' !! r)) -> history_inv nodes h -> history_inv nodes' h.
Proof. intros Hd [Hn]. split; try done. intros * Hin. destruct (Hn _ _ _ _ _ _ Hin) as (? & ? & ?). eauto. Qed.

(** One node acted. *)
Lemma pod_inv_update p n e e' wire (ev : option Event) :
  pod_inv p -> pd_nodes p !! n = Some e ->
  let h' := pd_history p ++ option_list ev in
  node_inv (pd_nodes p) h' n e' -> history_inv (pd_nodes p) h' ->
  (forall dst raw, (dst, raw) ∈ wire -> frame_ok h' n dst raw) ->
  (forall x, ev = Some x -> event_at n x) ->
  pod_inv (set_node p n e' wire (option_list ev)).
Proof.
  intros [Hnodes Hwire Hh] Hn h' He' Hh' Hw Hev.
  assert (Hdom : forall r, is_Some (<[n := e']> (pd_nodes p) !! r) <-> is_Some (pd_nodes p !! r)).
  { intros r. destruct (decide (n = r)) as [<-|]; [rewrite lookup_insert_eq, Hn|by rewrite lookup_insert_ne].
    by split; eexists. }
  split; cbn [set_node pd_nodes pd_wire pd_history].
  - intros r x. rewrite lookup_insert_Some. intros [[<- <-]|[Hne Hx]].
    + eapply node_inv_dom; [|done]. intros. by apply Hdom.
    + apply (node_inv_dom (pd_nodes p)); [intros; by apply Hdom|]. destruct ev as [ev|]; cbn; [|rewrite app_nil_r; auto].
      eapply (node_inv_other _ _ n); auto.
  - intros dst raw. rewrite elem_of_app. intros [Hin|Hin]; [|by exists n; apply Hw].
    destruct (Hwire dst raw Hin) as (src & ?). exists src. by apply frame_ok_mono.
  - eapply history_inv_dom; [|done]. intros. by apply Hdom.
Qed.

Lemma pod_inv_event p n e e' (ev : option Event) :
  pod_inv p -> pd_nodes p !! n = Some e ->
  let h' := pd_history p ++ option_list ev in
  node_inv (pd_nodes p) h' n e' -> history_inv (pd_nodes p) h' ->
  (forall x, ev = Some x -> event_at n x) ->
  pod_inv (set_node p n e' [] (option_list ev)).
Proof. intros. eapply pod_inv_update; eauto. by intros ? ? []%elem_of_nil. Qed.

(** One node changed its transport only. *)
Lemma pod_inv_transport p n e m wire :
  pod_inv p -> pd_nodes p !! n = Some e -> tm_inv (pd_history p) n m -> same_views (en_transport e) m ->
  (forall dst raw, (dst, raw) ∈ wire -> frame_ok (pd_history p) n dst raw) ->
  pod_inv (set_node p n (e <| en_transport := m |>) wire []).
Proof.
  intros Hp Hn Hm Hv Hw. apply (pod_inv_update p n e _ wire None); cbn; rewrite ?app_nil_r; try done.
  - apply node_inv_transport; [by apply (pv_nodes _ Hp)|done|done].
  - apply (pv_history _ Hp).
Qed.

(** *** The steps *)

Lemma same_devices_sym ds ds' : Forall dev_wf ds -> same_devices ds ds' -> same_devices ds' ds.
Proof.
  intros Hwf. induction 1 as [|d d' ds ds' Hd _ IH]; constructor; apply Forall_cons in Hwf as [? ?].
  - destruct Hd as (? & ? & ? & ?). by split_and!.
  - by apply IH.
Qed.

Lemma servable_start nodes h o eo handle addr op :
  node_inv nodes h o eo -> op_wf op -> servable (en_mr_table eo) (en_devices eo) handle addr op ->
  servable (tbl o) (mem0 o) handle addr op.
Proof.
  intros Hn Hwf [Hr (v & ds & Hc)]. rewrite (ni_table _ _ _ _ Hn) in *. split; [done|].
  eapply local_call_again; [apply (ni_ok _ _ _ _ Hn)|apply (ni_start _ _ _ _ Hn)| |done|done].
  apply same_devices_sym; [apply (nd_devices _ _ (ni_start _ _ _ _ Hn))|apply (ni_same _ _ _ _ Hn)].
Qed.

Lemma step_call_inv p c o e eo ce t1 t2 addr op :
  pod_inv p -> pd_nodes p !! c = Some e -> pd_nodes p !! o = Some eo -> c <> o ->
  MrCacheTable_lookup_by_addr (en_mr_cache e) addr = Some ce -> mc_owner_node ce = o ->
  servable (en_mr_table eo) (en_devices eo) (mc_remote_mr_handle ce) addr op ->
  op_wf op -> u128 addr -> u32 (mc_remote_mr_handle ce) ->
  seq_to e o + 1 < 2 ^ 64 -> en_next_opaque e + 1 < 2 ^ 64 ->
  let e' := (issue e t1 t2 addr op).1 in
  pod_inv (set_node p c e' [] (invocation e e' c o addr op)).
Proof.
  intros Hp Hc Ho Hco Hce Hown Hserv Hwf Haddr Hhd Hq Hopq e'.
  pose proof (pv_nodes _ Hp _ _ Hc) as Hn. pose proof (pv_nodes _ Hp _ _ Ho) as Hno.
  destruct (issue_send e t1 t2 addr op ce Hce) as (Hid & Htbl & Hdev & Hnext & Hans & Htr). fold e' in Hid, Htbl, Hdev, Hnext, Hans, Htr.
  set (opq := if is_request op then en_next_opaque e else 0) in *. rewrite (ni_id _ _ _ _ Hn), Hown in Htr.
  destruct Hn as [Hid0 Htm Htbl0 Hmem Hst Hok Hsame Hrec Hseq [Ho1 Ho2] Ha0].
  destruct (Hseq o ltac:(by eexists) ltac:(done)) as (q & Hq0 & Hq1 & Hq2).
  assert (Hseqto : seq_to e o = q) by (unfold seq_to; by rewrite Hq0).
  assert (Hnx : en_next_opaque e <= en_next_opaque e' < 2 ^ 64
                /\ (is_request op = true -> en_next_opaque e < en_next_opaque e')).
  { rewrite Hnext. destruct (is_request op); rewrite ?wrap_small by ulia; lia. }
  assert (Hans' : forall opaque resp, en_answers e' !! opaque = Some resp ->
    vr_status resp = 0 /\ exists o q addr op v, served (pd_history p) c o q opaque addr op v
      /\ is_request op = true /\ value_of op v /\ vr_data resp = value_bytes v) by eauto.
  assert (Hcase : en_transport e' = en_transport e
    \/ exists m', en_transport e' = m' /\ (forall r, seq_view m' r = if decide (r = o) then Some (wrap 64 (q + 1)) else seq_view (en_transport e) r)
       /\ same_exec (en_transport e) m'
       /\ forall evs, frame_ok (pd_history p ++ evs) c o (request_bytes c o q opq (mc_remote_mr_handle ce) addr op) ->
            tm_inv (pd_history p ++ evs) c m').
  { destruct Htr as [?|(ff & Htr)]; [by left|]. edestruct (send_inv (pd_history p) c (en_transport e)) as [Hs|Hs]; [done|..].
    { left. rewrite Htr. exact Hs. }
    right. destruct Hs as (q' & Hq' & Hs). assert (q' = q) as -> by congruence. eexists. split; [exact Htr|]. exact Hs. }
  unfold invocation. destruct Hcase as [Heq|(m' & Hm' & Hsv & Hex & Htm')].
  - unfold seq_to. rewrite Heq, Z.eqb_refl.
    apply (pod_inv_event p c e _ None); cbn [option_list]; rewrite ?app_nil_r; try done; [|apply (pv_history _ Hp)].
    split; rewrite ?Heq, ?Hdev, ?Htbl; try done; [congruence|]. split; [lia|]. intros * ? ?.
    specialize (Ho2 _ _ _ _ _ ltac:(done) ltac:(done)). lia.
  - unfold seq_to. rewrite Hm', Hsv, Hq0, decide_True, wrap_small by (done || ulia). cbn [from_option id].
    rewrite (proj2 (Z.eqb_neq (q + 1) q)) by lia. fold opq.
    set (ev := Ev_invoke c o q opq addr op).
    assert (Hreq : request_ok (pd_history p ++ [ev]) c o q opq (mc_remote_mr_handle ce) addr op).
    { split; try done; [apply elem_of_app; right; by left|apply (ti_local _ _ _ Htm)|apply (ti_local _ _ _ (ni_tm _ _ _ _ Hno))
        |unfold opq; destruct (is_request op); ulia|by eapply servable_start]. }
    apply (pod_inv_event p c e _ (Some ev)); change (option_list (Some ev)) with [ev]; try done.
    + split; rewrite ?Hm', ?Hdev, ?Htbl; try done; [congruence|by apply Htm', frame_request|rewrite replay_snoc; done|..].
      * intros r ? ?. rewrite (Hex r), Hrec, execs_snoc by done. cbn. by rewrite app_nil_r.
      * intros r Hr Hrc. rewrite Hsv. destruct (decide (r = o)) as [->|].
        -- exists (q + 1). rewrite wrap_small by ulia. split_and!; [done|lia|ulia|]. intros *.
           rewrite elem_of_app, list_elem_of_singleton. intros [Hin|[= -> -> -> ->]]; [specialize (Hq2 _ _ _ _ Hin)|]; lia.
        -- destruct (Hseq r Hr Hrc) as (q' & ? & ? & Hlt). exists q'. split_and!; [done|lia|lia|]. intros *.
           rewrite elem_of_app, list_elem_of_singleton. intros [Hin|[= -> -> -> -> ->]]; [by eapply Hlt|done].
      * split; [lia|]. intros *. rewrite elem_of_app, list_elem_of_singleton.
        intros [Hin|[= -> -> -> -> ->]] Hisr; [specialize (Ho2 _ _ _ _ _ Hin Hisr); lia|].
        unfold opq. rewrite Hisr. by apply Hnx.
      * intros opaque resp Hr. destruct (Hans' opaque resp Hr) as (? & o1 & q1 & a1 & op1 & v1 & ? & ? & ? & ?).
        split; [done|]. exists o1, q1, a1, op1, v1. split_and!; try done. by apply served_mono.
    + apply history_inv_invoke; [apply (pv_history _ Hp)|by eexists|by eexists|done|done|].
      unfold opq. intros Hisr. rewrite Hisr. intros * Hin ?. by eapply Ho2.
    + by intros x [= <-].
Qed.

(** Frames that leave a channel were meant for its peer. *)
Lemma chan_frames_ok p n e peer raw :
  pod_inv p -> pd_nodes p !! n = Some e -> raw ∈ unwritten e peer -> frame_ok (pd_history p) n peer raw.
Proof.
  intros Hp Hn. unfold unwritten. destruct (_ !! peer) as [ch|] eqn:Hch; [cbn|by intros ?%elem_of_nil].
  by apply (ti_chan _ _ _ (ni_tm _ _ _ _ (pv_nodes _ Hp _ _ Hn))).
Qed.

(** A channel to [peer] with nothing in it but frames of the old one. *)
Lemma pod_inv_chan p n e peer ch raws :
  pod_inv p -> pd_nodes p !! n = Some e ->
  (forall raw, raw ∈ ch_queue ch -> raw ∈ unwritten e peer) ->
  (forall raw, raw ∈ raws -> raw ∈ unwritten e peer) ->
  pod_inv (set_node p n
    (e <| en_transport := (en_transport e) <| tm_peer_senders :=
            <[peer := ch]> (tm_peer_senders (en_transport e)) |> |>) (map (pair peer) raws) []).
Proof.
  intros Hp Hn Hch Hraws. destruct (ni_tm _ _ _ _ (pv_nodes _ Hp _ _ Hn)) as [Hl Hs Hc Hi].
  apply pod_inv_transport; [done|done| |done|].
  - split; try done. intros r ch' x. cbn. rewrite lookup_insert_Some.
    intros [[<- <-]|[_ ?]] Hx; [|by eauto]. eapply chan_frames_ok; eauto.
  - intros dst x (raw & [= -> ->] & Hr)%list_elem_of_fmap. eapply chan_frames_ok; eauto.
Qed.

Lemma step_transmit_inv p n e peer sent e' out :
  pod_inv p -> pd_nodes p !! n = Some e -> peer_write_turn e peer sent = (e', out) ->
  pod_inv (set_node p n e' (map (pair peer) (option_list out)) []).
Proof.
  intros Hp Hn. unfold peer_write_turn.
  assert (Hsame : pod_inv (set_node p n e [] [])).
  { replace e with (e <| en_transport := en_transport e |>) by (by destruct e).
    apply pod_inv_transport; try done; [apply (ni_tm _ _ _ _ (pv_nodes _ Hp _ _ Hn))|by intros ? ? ?%elem_of_nil]. }
  destruct (tm_peer_senders (en_transport e) !! peer) as [ch|] eqn:Hch; [|by intros [= <- <-]].
  destruct (ch_queue ch) as [|data rest] eqn:Hq; [by intros [= <- <-]|].
  assert (Hu : unwritten e peer = data :: rest) by (unfold unwritten; by rewrite Hch).
  destruct (sent data); intros [= <- <-]; cbn [option_list];
    (apply pod_inv_chan; [done|done|..]; rewrite Hu; cbn [set_field ch_queue]; intros raw Hr;
     first [by apply elem_of_nil in Hr|by right|by apply list_elem_of_singleton in Hr as ->; left]).
Qed.

Lemma step_connect_inv p n e peer :
  pod_inv p -> pd_nodes p !! n = Some e ->
  pod_inv (set_node p n (connect_peer e peer) (map (pair peer) (unwritten e peer)) []).
Proof. intros Hp Hn. apply (pod_inv_chan p n e peer (mkChan 256 [] true)); try done. by intros raw ?%elem_of_nil. Qed.

Lemma step_deliver_inv p n e clock raw :
  pod_inv p -> pd_nodes p !! n = Some e -> (n, raw) ∈ pd_wire p ->
  pod_inv (set_node p n (receive_datagram e clock raw) [] []).
Proof.
  intros Hp Hn Hw. destruct (pv_wire _ Hp _ _ Hw) as (src & Hf).
  destruct (handle_incoming_inv (pd_history p) n (en_transport e) clock src raw (ni_tm _ _ _ _ (pv_nodes _ Hp _ _ Hn)) Hf).
  apply pod_inv_transport; try done. by intros ? ? []%elem_of_nil.
Qed.

Lemma step_timer_inv p n e now :
  pod_inv p -> pd_nodes p !! n = Some e ->
  pod_inv (set_node p n (e <| en_transport := rto_tick (en_transport e) now |>) [] []).
Proof.
  intros Hp Hn. destruct (rto_tick_inv (pd_history p) n (en_transport e) now (ni_tm _ _ _ _ (pv_nodes _ Hp _ _ Hn))).
  apply pod_inv_transport; try done. by intros ? ? []%elem_of_nil.
Qed.

Lemma node_inv_event nodes h n e ev :
  node_inv nodes h n e -> match ev with Ev_return _ _ _ => True | _ => False end -> node_inv nodes (h ++ [ev]) n e.
Proof.
  intros [Hid Htm Htbl Hmem Hst Hok Hsame Hrec Hseq [Ho1 Ho2] Hans] Hev. destruct ev; try done.
  assert (Hinv : forall c' o q opaque' addr op, Ev_invoke c' o q opaque' addr op ∈ h ++ [Ev_return c opaque r] ->
                 Ev_invoke c' o q opaque' addr op ∈ h) by (intros; by eapply invoke_snoc).
  split; try done.
  - by apply tm_inv_mono.
  - by rewrite replay_snoc.
  - intros x ? ?. rewrite Hrec, execs_snoc by done. cbn. by rewrite app_nil_r.
  - intros o ? ?. destruct (Hseq o) as (q & ? & ? & ?); [done..|]. exists q. split_and!; eauto; lia.
  - split; [done|]. intros *. eauto.
  - intros opq resp Hr. destruct (Hans opq resp Hr) as (? & o & q & addr & op & v & ? & ? & ? & ?).
    split; [done|]. exists o, q, addr, op, v. split_and!; try done. by apply served_mono.
Qed.

(** What [finish] returns is the value in the answer. *)
Lemma finish_value e opaque op v resp :
  is_request op = true -> value_of op v -> en_answers e !! opaque = Some resp -> vr_status resp = 0 ->
  vr_data resp = value_bytes v -> finish e opaque op = (e, Ok v).
Proof.
  intros Hr Hv Hans Hst Hd.
  assert (Hw : await_response e opaque = (e, Ok (value_bytes v))).
  { unfold await_response. by rewrite Hans, Hst, Hd. }
  destruct op, v as [|buf|old]; cbn in Hr, Hv; try done; cbn [finish].
  - unfold ub_read_remote_finish. by rewrite Hw.
  - unfold ub_atomic_cas_remote_finish, atomic_result. rewrite Hw. cbn [rbind value_bytes].
    rewrite !length_app, !length_be_bytes. cbn [Z.leb Z.of_nat Nat.add]. cbn -[be_bytes be_value take].
    by rewrite take_app_length', be_value_be_bytes by (rewrite ?length_be_bytes; (done || ulia)).
  - unfold ub_atomic_faa_remote_finish, atomic_result. rewrite Hw. cbn [rbind value_bytes].
    rewrite !length_app, !length_be_bytes. cbn -[be_bytes be_value take].
    by rewrite take_app_length', be_value_be_bytes by (rewrite ?length_be_bytes; (done || ulia)).
Qed.

Lemma finish_none e opaque op :
  is_request op = true -> en_answers e !! opaque = None ->
  finish e opaque op = (e <| en_pending := en_pending e ∖ {[opaque]} |>, Err Timeout).
Proof.
  intros Hr Hans. assert (Hw : await_response e opaque = (e <| en_pending := en_pending e ∖ {[opaque]} |>, Err Timeout))
    by (unfold await_response; by rewrite Hans).
  destruct op; try done; cbn [finish];
    unfold ub_read_remote_finish, ub_atomic_cas_remote_finish, ub_atomic_faa_remote_finish; by rewrite Hw.
Qed.

Lemma step_return_inv p c o e seq opaque addr op e' r :
  pod_inv p -> pd_nodes p !! c = Some e -> Ev_invoke c o seq opaque addr op ∈ pd_history p ->
  is_request op = true -> finish e opaque op = (e', r) ->
  pod_inv (set_node p c e' [] [Ev_return c opaque r]).
Proof.
  intros Hp Hc Hin Hr Hf. pose proof (pv_nodes _ Hp _ _ Hc) as Hn.
  destruct (en_answers e !! opaque) as [resp|] eqn:Hans.
  - destruct (ni_answers _ _ _ _ Hn _ _ Hans) as (Hst & o' & q' & addr' & op' & v & Hs & Hr' & Hv & Hd).
    destruct (hi_opaque _ _ (pv_history _ Hp) _ _ _ _ _ _ _ _ _ _ Hin (served_invoked _ _ _ _ _ _ _ _ Hs) Hr Hr')
      as (<- & <- & <- & <-).
    rewrite (finish_value e opaque op v resp) in Hf by done. simplify_eq.
    apply (pod_inv_event p c e' e' (Some (Ev_return c opaque (Ok v)))); try done.
    + by apply node_inv_event.
    + apply history_inv_return; [apply (pv_history _ Hp)|]. intros v' [= <-]. eauto.
    + by intros x [= <-].
  - rewrite finish_none in Hf by done. simplify_eq.
    apply (pod_inv_event p c e _ (Some (Ev_return c opaque (Err Timeout)))); try done.
    + apply node_inv_event; [|done]. by destruct Hn.
    + apply history_inv_return; [apply (pv_history _ Hp)|done].
    + by intros x [= <-].
Qed.

(** A node whose memory the event changed. *)
Lemma node_inv_memory nodes h n e ev devices m :
  node_inv nodes h n e -> tm_inv (h ++ [ev]) n m ->
  (forall c o q opaque addr op, ev <> Ev_invoke c o q opaque addr op) ->
  replay tbl mem0 (h ++ [ev]) n = devices -> node_ok (tbl n) devices -> same_devices (mem0 n) devices ->
  (forall r, seq_view m r = seq_view (en_transport e) r) ->
  (forall r, is_Some (nodes !! r) -> r <> n -> exec_view m r = Some (last_records (execs (h ++ [ev]) r n))) ->
  forall e', same_rest e e' -> en_transport e' = m -> en_devices e' = devices -> node_inv nodes (h ++ [ev]) n e'.
Proof.
  intros [Hid Htm Htbl Hmem Hst Hok Hsame Hrec Hseq [Ho1 Ho2] Hans] Hm Hne Hr Hok' Hsame' Hsv Hx e' (Hi' & Ht' & Ha' & Hn') <- <-.
  split; rewrite ?Hi', ?Ht', ?Ha', ?Hn'; try done.
  - intros o ? ?. rewrite Hsv. destruct (Hseq o) as (q & ? & ? & Hlt); [done..|]. exists q. split_and!; try done; try lia.
    intros * Hin%invoke_snoc; [|done]. by eapply Hlt.
  - split; [done|]. intros * Hin%invoke_snoc; [|done]. by eapply Ho2.
  - intros opq resp Hq. destruct (Hans opq resp Hq) as (? & o & q & addr & op & v & ? & ? & ? & ?).
    split; [done|]. exists o, q, addr, op, v. split_and!; try done. by apply served_mono.
Qed.

Lemma step_local_inv p n e addr op v devices :
  pod_inv p -> pd_nodes p !! n = Some e -> op_wf op ->
  local_call (en_mr_table e) (en_devices e) addr op = Ok (v, devices) ->
  pod_inv (set_node p n (e <| en_devices := devices |>) [] [Ev_local n addr op]).
Proof.
  intros Hp Hn Hwf Hc. pose proof (pv_nodes _ Hp _ _ Hn) as Hi. rewrite (ni_table _ _ _ _ Hi) in Hc.
  destruct (local_call_ok _ _ _ _ _ _ _ (ni_ok _ _ _ _ Hi) (ni_same _ _ _ _ Hi) Hwf Hc) as (? & ? & _).
  apply (pod_inv_event p n e _ (Some (Ev_local n addr op))); try done.
  - apply (node_inv_memory _ _ n e (Ev_local n addr op) devices (en_transport e)); try done; [apply tm_inv_mono, Hi| |].
    + rewrite replay_snoc. cbn. rewrite <- (ni_mem _ _ _ _ Hi), Hc. by rewrite decide_True.
    + intros r ? ?. rewrite execs_snoc. cbn. rewrite app_nil_r. by apply (ni_records _ _ _ _ Hi).
  - apply history_inv_local, (pv_history _ Hp).
  - by intros x [= <-].
Qed.

(** The engine once the dispatch task has taken the head of the channel. *)
Definition popped (e : Engine) (rest : list InboundFrame) : Engine :=
  e <| en_transport := (en_transport e) <| tm_inbound := rest |> |>.

Lemma popped_inv nodes h n e f rest :
  node_inv nodes h n e -> tm_inbound (en_transport e) = f :: rest ->
  node_inv nodes h n (popped e rest) /\ inbound_ok h n f.
Proof.
  intros Hn Hi. destruct (ni_tm _ _ _ _ Hn) as [Hl Hs Hc Hin]. rewrite Hi in Hin. split; [|apply Hin; by left].
  apply node_inv_transport; [done| |done]. split; try done. intros g Hg. apply Hin. by right.
Qed.

Lemma execution_popped e rest clock n f : execution (popped e rest) clock n f = execution e clock n f.
Proof.
  unfold execution. destruct (op_of_frame f); [|done].
  replace (executes (popped e rest) clock f) with (executes e clock f); [done|].
  unfold executes. destruct (de_verb (if_ext f)); try done.
  unfold TransportManager_read_cache_get.
  change (current_session (en_transport (popped e rest))) with (current_session (en_transport e)).
  destruct (current_session (en_transport e) _) as [[k s]|]; [|done]. by destruct (ReadResponseCache_get _ _ _).
Qed.

(** An executed update that is not outrun is on record. *)
Lemma executed_on_record p n e c q opaque handle addr op :
  pod_inv p -> pd_nodes p !! n = Some e -> request_ok (pd_history p) c n q opaque handle addr op ->
  timely p n (request_frame c n q opaque handle addr op) ->
  (q ∈ execs (pd_history p) c n -> TransportManager_is_executed (en_transport e) c q = true)
  /\ Forall (fun q' => q' < q + 512) (execs (pd_history p) c n)
  /\ exec_view (en_transport e) c = Some (last_records (execs (pd_history p) c n)).
Proof.
  intros Hp Hn Hr Ht. pose proof (pv_history _ Hp) as Hh.
  destruct (hi_nodes _ _ Hh _ _ _ _ _ _ (rq_invoked _ _ _ _ _ _ _ _ Hr)) as ((ec & Hc) & _ & Hcn).
  pose proof (ni_records _ _ _ _ (pv_nodes _ Hp _ _ Hn) c ltac:(by eexists) Hcn) as Hrec.
  destruct (ni_seq _ _ _ _ (pv_nodes _ Hp _ _ Hc) n ltac:(by eexists) ltac:(done)) as (next & Hnext & _ & Hlt).
  assert (Hn512 : next <= q + 512).
  { specialize (Ht ltac:(pose proof (rq_seq _ _ _ _ _ _ _ _ Hr); cbn; lia) ec Hc). unfold seq_to in Ht. by rewrite Hnext in Ht. }
  assert (Hall : Forall (fun q' => q' < next) (execs (pd_history p) c n)).
  { apply Forall_forall. intros q' Hq'. destruct (execs_invoked _ _ _ _ _ Hh Hq') as (? & ? & ? & Hin). by eapply Hlt. }
  split_and!; [|eapply Forall_impl; [exact Hall|]; cbn; lia|done].
  intros Hq. rewrite is_executed_view, Hrec.
  apply (timely_recorded _ q next); [apply (hi_once _ _ Hh)|apply (hi_spaced _ _ Hh)|done..].
Qed.

Lemma step_dispatch_inv p n e clock f rest e' :
  pod_inv p -> pd_nodes p !! n = Some e -> tm_inbound (en_transport e) = f :: rest -> timely p n f ->
  dispatch_one e clock = Ok e' -> pod_inv (set_node p n e' [] (execution e clock n f)).
Proof.
  intros Hp Hn Hi Ht Hd. destruct (popped_inv _ _ _ _ _ _ (pv_nodes _ Hp _ _ Hn) Hi) as [Hn1 Hf].
  unfold dispatch_one in Hd. rewrite Hi in Hd. fold (popped e rest) in Hd.
  rewrite <- (execution_popped e rest).
  destruct Hf as [c q opaque handle addr op Hr|o handle opaque addr op v Hr]; last first.
  { destruct (handler_completes _ _ _ _ clock _ _ _ _ _ _ Hn1 Hr) as (e2 & He2 & Hn2). rewrite Hd in He2. simplify_eq.
    assert (execution (popped e rest) clock n (mkInboundFrame (data_header o n 0 (value_bytes v))
      (data_ext (resp_verb op) 0 handle addr opaque 0 0 None) (value_bytes v) 0) = []) as ->
      by (destruct (rp_request _ _ _ _ _ _ _ _ Hr); by destruct op).
    apply (pod_inv_event p n e _ None); cbn [option_list]; rewrite ?app_nil_r; [done|done|done|apply (pv_history _ Hp)|done]. }
  fold (request_frame c n q opaque handle addr op) in *.
  rewrite execution_request by apply Hr. destruct (executes (popped e rest) clock _) eqn:Hex; last first.
  { destruct (handler_repeats _ _ _ _ clock _ _ _ _ _ _ Hn1 Hex) as (e2 & He2 & Hm2 & Hv2 & (Hi2 & Ht2 & Ha2 & Ho2) & Hd2).
    rewrite Hd in He2. simplify_eq.
    apply (pod_inv_event p n e _ None); cbn [option_list]; rewrite ?app_nil_r; [done|done| |apply (pv_history _ Hp)|done].
    destruct Hn1, Hv2 as [Hsv Hxv]. split; rewrite ?Hi2, ?Ht2, ?Hd2, ?Ha2, ?Ho2; try done.
    - intros r ? ?. rewrite (Hxv r). auto.
    - intros r ? ?. rewrite Hsv. auto. }
  destruct (handler_serves _ _ _ _ clock _ _ _ _ _ _ Hn1 Hr Hex) as (e2 & v & ds & He2 & Hcall & Hd2 & Hm2 & Hrest & Hsv & Hxv).
  rewrite Hd in He2. simplify_eq.
  destruct (executed_on_record _ _ _ _ _ _ _ _ _ Hp Hn Hr Ht) as (Hon & H512 & Hrec).
  assert (Hup : is_update op = true -> q ∉ execs (pd_history p) c n).
  { intros Hu Hq. specialize (Hon Hq). unfold executes, request_frame in Hex.
    destruct op; try done; apply negb_true_iff in Hex;
      change (TransportManager_is_executed (en_transport e) c q = false) in Hex; congruence. }
  destruct (local_call_ok _ _ _ _ _ _ _ (ni_ok _ _ _ _ Hn1) (ni_same _ _ _ _ Hn1) (rq_wf _ _ _ _ _ _ _ _ Hr) Hcall) as (? & ? & _).
  rewrite (ni_mem _ _ _ _ Hn1) in Hcall.
  apply (pod_inv_event p n e _ (Some (Ev_execute c n q addr op))); [done|done| | |by intros x [= <-]].
  - apply (node_inv_memory _ _ n (popped e rest) (Ev_execute c n q addr op) (en_devices e2) (en_transport e2)); try done; [exact (replay_execute _ c n q _ _ _ _ Hcall)|].
    intros r Hr1 Hr2. rewrite Hxv, execs_snoc. cbn [exec_of]. change (exec_view (en_transport (popped e rest)) r) with (exec_view (en_transport e) r).
    destruct (decide (r = c)) as [->|].
    + rewrite decide_True, Hrec by done. cbn. destruct (is_update op); cbn; [by rewrite last_records_mark by auto|by rewrite app_nil_r].
    + rewrite decide_False by (intros [? _]; congruence). cbn. rewrite app_nil_r.
      by apply (ni_records _ _ _ _ (pv_nodes _ Hp _ _ Hn)).
  - eapply history_inv_execute; [apply (pv_history _ Hp)|apply (rq_invoked _ _ _ _ _ _ _ _ Hr)|exact Hcall|auto].
Qed.

Lemma pod_step_inv p p' : pod_inv p -> pod_step p p' -> pod_inv p'.
Proof.
  intros Hp. destruct 1.
  - by eapply step_call_inv.
  - by eapply step_transmit_inv.
  - by eapply step_connect_inv.
  - by eapply step_deliver_inv.
  - by eapply step_dispatch_inv.
  - by eapply step_timer_inv.
  - by eapply step_return_inv.
  - by eapply step_local_inv.
Qed.

(** No handler panics. *)
Lemma dispatch_total p n e clock :
  pod_inv p -> pd_nodes p !! n = Some e -> exists e', dispatch_one e clock = Ok e'.
Proof.
  intros Hp Hn. unfold dispatch_one. destruct (tm_inbound (en_transport e)) as [|f rest] eqn:Hi; [by eexists|].
  destruct (popped_inv _ _ _ _ _ _ (pv_nodes _ Hp _ _ Hn) Hi) as [Hn1 Hf]. fold (popped e rest).
  destruct Hf as [c q opaque handle addr op Hr|o handle opaque addr op v Hr]; last first.
  { destruct (handler_completes _ _ _ _ clock _ _ _ _ _ _ Hn1 Hr) as (e2 & He2 & _). by eexists. }
  fold (request_frame c n q opaque handle addr op).
  destruct (executes (popped e rest) clock (request_frame c n q opaque handle addr op)) eqn:Hex.
  - destruct (handler_serves _ _ _ _ clock _ _ _ _ _ _ Hn1 Hr Hex) as (e2 & ? & ? & He2 & _). by eexists.
  - destruct (handler_repeats _ _ _ _ clock _ _ _ _ _ _ Hn1 Hex) as (e2 & He2 & _). by eexists.
Qed.

Lemma pod_start_inv p :
  pod_start p -> (forall n e, pd_nodes p !! n = Some e -> tbl n = en_mr_table e /\ mem0 n = en_devices e) -> pod_inv p.
Proof.
  intros (Hw & Hh & Hn) Htm.
  assert (Hfresh : forall n e, pd_nodes p !! n = Some e -> forall key s, tm_sessions (en_transport e) !! key = Some s ->
    rs_key s = key /\ rs_retransmit_queue s = [] /\ rc_entries (rs_read_cache s) = ∅
    /\ rs_next_seq s = 1 /\ rs_execution_records s = []).
  { intros n e He key s Hs. destruct (es_sessions _ _ _ (Hn _ _ He) _ _ Hs) as (l & r & ep & rto & mx & cr & -> & <-).
    by split_and!. }
  split; rewrite ?Hw, ?Hh.
  - intros n e He. destruct (Htm n e He) as [Ht Hm]. specialize (Hn n e He). specialize (Hfresh n e He).
    assert (Hcur : forall r, is_Some (pd_nodes p !! r) -> r <> n -> exists key s,
      current_session (en_transport e) r = Some (key, s) /\ tm_sessions (en_transport e) !! key = Some s).
    { intros r Hr Hne. destruct (es_peers _ _ _ Hn r Hr Hne) as [[key s] Hs]. exists key, s. split; [done|].
      by apply current_lookup in Hs as [? _]. }
    destruct Hn as [(Hu & Hid & Hid') Hnode Hopq Hans Hinb Hch _ _]. split; try done.
    + split; [done| | |rewrite Hinb; by intros ? []%elem_of_nil].
      * intros key s Hs. destruct (Hfresh key s Hs) as (? & Hq & Hc & _). split; [done| |].
        -- rewrite Hq. by intros ? []%elem_of_nil.
        -- rewrite Hc. intros k ce. by rewrite lookup_empty.
      * intros r ch raw Hc. rewrite (Hch r ch Hc). by intros []%elem_of_nil.
    + by rewrite Ht, Hm.
    + by rewrite Ht.
    + rewrite Hm. apply same_devices_refl, Hnode.
    + intros r Hr Hne. destruct (Hcur r Hr Hne) as (key & s & Hs & Hl). unfold exec_view. rewrite Hs. cbn.
      by destruct (Hfresh key s Hl) as (_ & _ & _ & _ & ->).
    + intros o Hr Hne. destruct (Hcur o Hr Hne) as (key & s & Hs & Hl). unfold seq_view. rewrite Hs. cbn.
      destruct (Hfresh key s Hl) as (_ & _ & _ & -> & _). exists 1. split_and!; [done|lia|lia|]. by intros * []%elem_of_nil.
    + rewrite Hopq. split; [lia|]. by intros * []%elem_of_nil.
    + rewrite Hans. intros k resp. by rewrite lookup_empty.
  - by intros ? ? []%elem_of_nil.
  - split; try (by intros * []%elem_of_nil); try (by intros * H%(f_equal length); rewrite length_app in H; cbn in H; lia).
    + intros c o. apply NoDup_nil_2.
    + intros c o. constructor.
Qed.

Lemma pod_reachable_inv p0 p :
  pod_start p0 -> (forall n e, pd_nodes p0 !! n = Some e -> tbl n = en_mr_table e /\ mem0 n = en_devices e) ->
  rtc pod_step p0 p -> pod_inv p.
Proof.
  intros Hs Htm Hr. assert (Hp : pod_inv p0) by (by apply pod_start_inv).
  clear Hs Htm. induction Hr; eauto using pod_step_inv.
Qed.

(** An update is in the history once. *)
Lemma execute_once nodes h h1 h2 c o q addr op addr' op' :
  history_inv nodes h -> h = h1 ++ Ev_execute c o q addr op :: h2 -> is_update op = true ->
  Ev_execute c o q addr' op' ∉ h1 ++ h2.
Proof.
  intros Hh Heq Hup Hin.
  assert (Hinv : forall a x g1 g2, h = g1 ++ Ev_execute c o q a x :: g2 -> exists opaque, Ev_invoke c o q opaque a x ∈ h).
  { intros a x g1 g2 Hg. destruct (hi_execute _ _ Hh _ _ _ _ _ _ _ Hg) as (opq & _ & _ & Ho & _).
    exists opq. rewrite Hg. apply elem_of_app. by left. }
  assert (Hx : exec_of c o (Ev_execute c o q addr' op') = Some q).
  { assert (Hin' : Ev_execute c o q addr' op' ∈ h)
      by (rewrite Heq; rewrite elem_of_app, elem_of_cons in *; tauto).
    apply list_elem_of_split in Hin' as (g1 & g2 & Hg).
    destruct (Hinv _ _ _ _ Heq) as (opq & H1), (Hinv _ _ _ _ Hg) as (opq' & H2).
    destruct (hi_seq _ _ Hh _ _ _ _ _ _ _ _ _ H1 H2) as (_ & _ & <-). cbn. by rewrite decide_True, Hup. }
  pose proof (hi_once _ _ Hh c o) as Hnd. rewrite Heq in Hnd. unfold execs in Hnd.
  rewrite omap_app in Hnd. cbn in Hnd. rewrite decide_True, Hup in Hnd by done.
  apply NoDup_app in Hnd as (_ & Hd & [Hn _]%NoDup_cons).
  apply elem_of_app in Hin as [Hin|Hin].
  - apply (Hd q); [|by left]. apply list_elem_of_omap. eauto.
  - apply Hn, list_elem_of_omap. eauto.
Qed.
End Pod.

(** ** Properties *)

(** C1 (refinement): Remote memory is one history of local calls. Any number of nodes call each
    other's memory (write, read, compare-and-swap, fetch-and-add) and use their own, over a network
    that loses, repeats, delays and reorders, with retransmissions; a send may fail, which closes
    the channel to that peer, and a peer may be connected again. The memory of every node is what
    results from applying the executions of the history one by one with the local verbs. Every
    execution follows the invocation of its call, and an update is executed at most once, whatever
    copies of its frame arrive. The calls that wait for an answer (read, compare-and-swap,
    fetch-and-add) are linearizable: one that returns a value was executed between its invocation
    and its return, with exactly the value the local verb gives at that point of the history. A
    write is not waited for: it returns when it is invoked, and is executed at most once after
    that, or never, in no promised order with other calls (FR-MEM-7). No handler panics. Assumed:
    the nodes have their sessions before they call, and none is disconnected; regions are neither
    registered nor deregistered meanwhile; a call addresses a live region in a way its owner
    accepts; the calls of a node on a peer enter the channel one at a time; and a frame is handled
    before its sender has issued 512 later ones. What goes wrong without the last two and without
    a session is in Faults.v. *)
Theorem remote_calls_one_history p0 p :
  pod_start p0 -> rtc pod_step p0 p ->
  let tbl := pod_table p0 in
  let mem := pod_memory p0 in
  let h := pd_history p in
  (forall n e, pd_nodes p !! n = Some e -> en_devices e = replay tbl mem h n)
  /\ (forall h1 h2 c o q addr op, h = h1 ++ Ev_execute c o q addr op :: h2 ->
        (exists opaque, Ev_invoke c o q opaque addr op ∈ h1)
        /\ (exists v devices, local_call (tbl o) (replay tbl mem h1 o) addr op = Ok (v, devices))
        /\ (is_update op = true -> forall addr' op', Ev_execute c o q addr' op' ∉ h1 ++ h2))
  /\ (forall h1 h2 c opaque v, h = h1 ++ Ev_return c opaque (Ok v) :: h2 ->
        exists h11 h12 o q addr op devices,
          h1 = h11 ++ Ev_execute c o q addr op :: h12
          /\ Ev_invoke c o q opaque addr op ∈ h11
          /\ local_call (tbl o) (replay tbl mem h11 o) addr op = Ok (v, devices))
  /\ (forall n e clock, pd_nodes p !! n = Some e -> exists e', dispatch_one e clock = Ok e').
Proof.
  intros Hs Hr tbl mem h.
  assert (Hp : pod_inv tbl mem p).
  { eapply pod_reachable_inv; [done| |done]. intros n e Hn. unfold tbl, mem, pod_table, pod_memory. by rewrite Hn. }
  pose proof (pv_history _ _ _ Hp) as Hh. split_and!.
  - intros n e Hn. apply (ni_mem _ _ _ _ _ _ (pv_nodes _ _ _ Hp _ _ Hn)).
  - intros h1 h2 c o q addr op Heq. destruct (hi_execute _ _ _ _ Hh _ _ _ _ _ _ _ Heq) as (opq & v & ds & ? & ?).
    split_and!; eauto. intros Hup addr' op'. by eapply execute_once.
  - intros h1 h2 c opq v Heq. destruct (hi_return _ _ _ _ Hh _ _ _ _ _ Heq) as (o & q & addr & op & h11 & h12 & ds & ? & ? & ?).
    exists h11, h12, o, q, addr, op, ds. done.
  - intros n e clock Hn. by eapply dispatch_total.
Qed.

(** ** Two nodes

    Node 7 writes two bytes into a region of node 42 and reads them back; the
    frame of the write arrives a second time. *)

Definition pair_start : Pod := mkPod (<[7 := client_node]> {[42 := owner_node]}) [] [].

Lemma node_ok_empty : node_ok (MrTable_new 1 7) [].
Proof.
  assert (Hh : forall i, mt_heap (MrTable_new 1 7) !! i = None) by (intros; apply lookup_nil).
  split; [split|by constructor|].
  - cbn. ulia.
  - cbn. lia.
  - intros d next Hd. change (({[0 := 0]} : gmap Z Z) !! d = Some next) in Hd.
    apply lookup_singleton_Some in Hd as [_ <-]. lia.
  - intros i e. by rewrite Hh.
  - intros i j e1 e2. by rewrite Hh.
  - intros k i Hd. change ((∅ : gmap Z nat) !! k = Some i) in Hd. by rewrite lookup_empty in Hd.
  - intros i e. by rewrite Hh.
Qed.

Lemma pair_started : pod_start pair_start.
Proof.
  split_and!; [done|done|]. intros n e. cbn. rewrite lookup_insert_Some, lookup_singleton_Some.
  assert (Hpeer : forall a b r, is_Some ((<[7 := client_node]> {[42 := owner_node]} : gmap Z Engine) !! r) ->
            r <> a -> (a = 7 /\ b = 42 \/ a = 42 /\ b = 7) -> r = b).
  { intros a b r [x Hx]. rewrite lookup_insert_Some, lookup_singleton_Some in Hx. lia. }
  assert (Hsess : forall a b key s, tm_sessions (transport_to a b) !! key = Some s ->
     exists l r epoch rto retries credits, s = ReliableSession_new l r epoch rto retries credits /\ rs_key s = key).
  { intros a b key s Hs. unfold transport_to, TransportManager_create_session in Hs. cbn in Hs.
    rewrite lookup_empty in Hs. cbn in Hs. apply lookup_insert_Some in Hs as [[<- <-]|[_ Hs]]; [|by rewrite lookup_empty in Hs].
    do 6 eexists. split; [reflexivity|done]. }
  assert (Hch : forall a b r ch, tm_peer_senders (transport_to a b) !! r = Some ch -> ch_queue ch = []).
  { intros a b r ch Hs. unfold transport_to, TransportManager_create_session in Hs. cbn in Hs. rewrite lookup_empty in Hs. cbn in Hs.
    apply lookup_insert_Some in Hs as [[_ <-]|[_ Hs]]; [done|by rewrite lookup_empty in Hs]. }
  intros [[<- <-]|(_ & <- & <-)]; split; cbn [en_transport client_node owner_node DataPlaneEngine_new]; try done; eauto.
  - apply node_ok_empty.
  - intros r Hr Hne. rewrite (Hpeer 7 42 r) by auto. by eexists.
  - apply sample_node_ok.
  - intros r Hr Hne. rewrite (Hpeer 42 7 r) by auto. by eexists.
Qed.

Definition pair_write : CallOp := CallOp_write [5; 6].
Definition pair_read : CallOp := CallOp_read 2.

(** The write loop of [peer] writes a frame. *)
Definition transmitted (e : Engine) (peer : Z) : Engine := (peer_write_turn e peer (fun _ => Ok tt)).1.

Definition first_queued (e : Engine) (peer : Z) : option bytes :=
  (peer_write_turn e peer (fun _ => Ok tt)).2.

Lemma transmit_step p n e peer raw :
  pd_nodes p !! n = Some e -> first_queued e peer = Some raw ->
  pod_step p (set_node p n (transmitted e peer) [(peer, raw)] []).
Proof.
  unfold first_queued, transmitted. intros Hn Hq.
  destruct (peer_write_turn e peer (fun _ => Ok tt)) as [e' out] eqn:E. cbn in Hq. subst out.
  exact (step_transmit p n e peer _ e' _ Hn E).
Qed.

(** The client sends both calls. *)
Definition client1 : Engine := (issue client_node 1 2 sample_addr pair_write).1.
Definition client2 : Engine := (issue client1 3 4 sample_addr pair_read).1.
Definition frame1 : bytes := wire client1 42.
Definition frame2 : bytes := wire client2 42.
Definition client3 : Engine := transmitted client2 42.
Definition client4 : Engine := transmitted client3 42.

(** The owner receives both, the first one again, and serves them. *)
Definition owner1 : Engine := receive_datagram owner_node (fun _ => 0) frame1.
Definition owner2 : Engine := receive_datagram owner1 (fun _ => 0) frame2.
Definition owner3 : Engine := receive_datagram owner2 (fun _ => 0) frame1.
Definition owner4 : Engine := engine_of (dispatch_one owner3 (fun _ => 0)).
Definition owner5 : Engine := engine_of (dispatch_one owner4 (fun _ => 0)).
Definition owner6 : Engine := transmitted owner5 7.
Definition ack1 : bytes := default [] (first_queued owner5 7).
Definition answer1 : bytes := default [] (first_queued owner6 7).

(** The client gets the answer. *)
Definition client5 : Engine := receive_datagram client4 (fun _ => 0) answer1.
Definition client6 : Engine := engine_of (dispatch_one client5 (fun _ => 0)).

Definition pair_requests : list Event :=
  [Ev_invoke 7 42 1 0 sample_addr pair_write; Ev_invoke 7 42 2 1 sample_addr pair_read].
Definition pair_history : list Event :=
  pair_requests ++ [Ev_execute 7 42 1 sample_addr pair_write; Ev_execute 7 42 2 sample_addr pair_read].

(** Both nodes, what was sent and what happened. *)
Definition pair (c o : Engine) (wire : list (Z * bytes)) (h : list Event) : Pod :=
  mkPod (<[7 := c]> {[42 := o]}) wire h.

Lemma set_client c o c' wire h wire' h' :
  set_node (pair c o wire h) 7 c' wire' h' = pair c' o (wire ++ wire') (h ++ h').
Proof. unfold set_node, pair. cbn [pd_nodes pd_wire pd_history]. by rewrite insert_insert_eq. Qed.

Lemma set_owner c o o' wire h wire' h' :
  set_node (pair c o wire h) 42 o' wire' h' = pair c o' (wire ++ wire') (h ++ h').
Proof.
  unfold set_node, pair. cbn [pd_nodes pd_wire pd_history].
  rewrite insert_insert_ne by done. by rewrite insert_singleton_eq.
Qed.

Lemma pair_client c o wire h : pd_nodes (pair c o wire h) !! 7 = Some c.
Proof. apply lookup_insert_eq. Qed.
Lemma pair_owner c o wire h : pd_nodes (pair c o wire h) !! 42 = Some o.
Proof. cbn. rewrite lookup_insert_ne by done. apply lookup_singleton_eq. Qed.

(** Evaluating a premise, and the two calls, which the owner accepts. *)
Ltac evaluate := vm_compute; reflexivity.
Ltac decided := refine (bool_decide_unpack _ _); evaluate.
Ltac accepted_call := split; [do 3 eexists; split_and!; evaluate | do 2 eexists; evaluate].
Ltac pair_call :=
  eapply step_call;
    [apply pair_client|apply pair_owner|discriminate|evaluate|reflexivity|accepted_call
    |hnf; decided|decided|decided|evaluate|evaluate].

Lemma pair_calls : rtc pod_step pair_start (pair client2 owner_node [] pair_requests).
Proof.
  assert (H1 : invocation client_node client1 7 42 sample_addr pair_write = [Ev_invoke 7 42 1 0 sample_addr pair_write]) by evaluate.
  assert (H2 : invocation client1 client2 7 42 sample_addr pair_read = [Ev_invoke 7 42 2 1 sample_addr pair_read]) by evaluate.
  assert (S1 : pod_step (pair client_node owner_node [] []) (set_node (pair client_node owner_node [] []) 7
    (issue client_node 1 2 sample_addr pair_write).1 [] (invocation client_node client1 7 42 sample_addr pair_write)))
    by pair_call.
  rewrite set_client, H1 in S1. eapply rtc_l; [exact S1|]. apply rtc_once.
  pose (h := [Ev_invoke 7 42 1 0 sample_addr pair_write]).
  assert (S2 : pod_step (pair client1 owner_node [] h) (set_node (pair client1 owner_node [] h) 7
    (issue client1 3 4 sample_addr pair_read).1 [] (invocation client1 client2 7 42 sample_addr pair_read)))
    by pair_call.
  rewrite set_client, H2 in S2. exact S2.
Qed.

Lemma pair_delivered :
  rtc pod_step (pair client2 owner_node [] pair_requests)
    (pair client4 owner3 [(42, frame1); (42, frame2)] pair_requests).
Proof.
  assert (S1 := transmit_step (pair client2 owner_node [] pair_requests) 7 client2 42 frame1
                  (pair_client _ _ _ _) ltac:(evaluate)). rewrite set_client in S1.
  eapply rtc_l; [exact S1|].
  assert (S2 := transmit_step (pair client3 owner_node [(42, frame1)] pair_requests) 7 client3 42 frame2
                  (pair_client _ _ _ _) ltac:(evaluate)). rewrite set_client in S2.
  eapply rtc_l; [exact S2|].
  assert (Hd : forall o raw, raw ∈ [frame1; frame2] ->
    pod_step (pair client4 o [(42, frame1); (42, frame2)] pair_requests)
             (pair client4 (receive_datagram o (fun _ => 0) raw) [(42, frame1); (42, frame2)] pair_requests)).
  { intros o raw Hraw.
    assert (S3 := step_deliver (pair client4 o [(42, frame1); (42, frame2)] pair_requests) 42 o (fun _ => 0) raw
                    (pair_owner _ _ _ _)).
    rewrite set_owner in S3. apply S3. apply elem_of_cons in Hraw as [->| ->%list_elem_of_singleton]; [left|right; left]. }
  eapply rtc_l; [apply (Hd _ frame1); left|]. eapply rtc_l; [apply (Hd _ frame2); right; left|].
  eapply rtc_l; [apply (Hd _ frame1); left|]. apply rtc_refl.
Qed.

Definition pair_wire : list (Z * bytes) := [(42, frame1); (42, frame2); (7, ack1); (7, answer1)].

(** The frame [f] at the head of the owner's channel is handled. *)
Lemma pair_dispatch c o o' f wire h :
  head (tm_inbound (en_transport o)) = Some f -> seq_to c 42 <= if_seq f + 512 ->
  fh_src_node (if_header f) = 7 -> dispatch_one o (fun _ => 0) = Ok o' ->
  pod_step (pair c o wire h) (pair c o' wire (h ++ execution o (fun _ => 0) 42 f)).
Proof.
  intros Hf Hseq Hsrc Hd. destruct (tm_inbound (en_transport o)) as [|g rest] eqn:Hin; [done|]. injection Hf as ->.
  assert (S := step_dispatch (pair c o wire h) 42 o (fun _ => 0) f rest o' (pair_owner _ _ _ _) Hin).
  rewrite set_owner, app_nil_r in S. apply S; [|done]. intros _ e. rewrite Hsrc, pair_client. by intros [= <-].
Qed.

Lemma pair_served :
  rtc pod_step (pair client4 owner3 [(42, frame1); (42, frame2)] pair_requests)
    (pair client4 (transmitted owner6 7) pair_wire pair_history).
Proof.
  pose (f1 := default (mkInboundFrame sample_header sample_ext [] 0) (head (tm_inbound (en_transport owner3)))).
  pose (f2 := default (mkInboundFrame sample_header sample_ext [] 0) (head (tm_inbound (en_transport owner4)))).
  assert (E1 : execution owner3 (fun _ => 0) 42 f1 = [Ev_execute 7 42 1 sample_addr pair_write]) by evaluate.
  assert (E2 : execution owner4 (fun _ => 0) 42 f2 = [Ev_execute 7 42 2 sample_addr pair_read]) by evaluate.
  eapply rtc_l. { apply (pair_dispatch client4 owner3 owner4 f1); [evaluate|vm_compute; discriminate|evaluate|evaluate]. }
  rewrite E1.
  eapply rtc_l. { apply (pair_dispatch client4 owner4 owner5 f2); [evaluate|vm_compute; discriminate|evaluate|evaluate]. }
  rewrite E2.
  assert (S1 := transmit_step (pair client4 owner5 [(42, frame1); (42, frame2)] pair_history) 42 owner5 7 ack1
                  (pair_owner _ _ _ _) ltac:(evaluate)). rewrite set_owner in S1.
  eapply rtc_l; [exact S1|].
  assert (S2 := transmit_step (pair client4 owner6 [(42, frame1); (42, frame2); (7, ack1)] pair_history) 42 owner6 7
                  answer1 (pair_owner _ _ _ _) ltac:(evaluate)). rewrite set_owner in S2.
  eapply rtc_l; [exact S2|]. apply rtc_refl.
Qed.

Lemma pair_returned :
  rtc pod_step (pair client4 (transmitted owner6 7) pair_wire pair_history)
    (pair client6 (transmitted owner6 7) pair_wire (pair_history ++ [Ev_return 7 1 (Ok (Val_bytes [5; 6]))])).
Proof.
  set (o := transmitted owner6 7).
  assert (S1 := step_deliver (pair client4 o pair_wire pair_history) 7 client4 (fun _ => 0) answer1 (pair_client _ _ _ _)).
  rewrite set_client in S1. eapply rtc_l; [apply S1; do 3 right; left|].
  pose (f := default (mkInboundFrame sample_header sample_ext [] 0) (head (tm_inbound (en_transport client5)))).
  assert (S2 := step_dispatch (pair client5 o pair_wire pair_history) 7 client5 (fun _ => 0) f [] client6
                  (pair_client _ _ _ _) ltac:(evaluate) ltac:(intros Hs; by destruct Hs) ltac:(evaluate)).
  rewrite set_client in S2. assert (E : execution client5 (fun _ => 0) 7 f = []) by evaluate. rewrite E in S2.
  eapply rtc_l; [exact S2|].
  assert (S3 := step_return (pair client6 o pair_wire pair_history) 7 42 client6 2 1 sample_addr pair_read client6
                  (Ok (Val_bytes [5; 6])) (pair_client _ _ _ _) ltac:(right; left)
                  eq_refl ltac:(evaluate)).
  rewrite set_client in S3. apply rtc_once. exact S3.
Qed.

Lemma remote_calls_one_history_witness : exists p,
  rtc pod_step pair_start p /\ Ev_return 7 1 (Ok (Val_bytes [5; 6])) ∈ pd_history p
  /\ forall n e, pd_nodes p !! n = Some e ->
       en_devices e = replay (pod_table pair_start) (pod_memory pair_start) (pd_history p) n.
Proof.
  assert (Hr : rtc pod_step pair_start (pair client6 (transmitted owner6 7) pair_wire
                 (pair_history ++ [Ev_return 7 1 (Ok (Val_bytes [5; 6]))]))).
  { etransitivity; [exact pair_calls|]. etransitivity; [exact pair_delivered|].
    etransitivity; [exact pair_served|exact pair_returned]. }
  eexists. split; [exact Hr|]. split.
  - do 4 right. left.
  - exact (proj1 (remote_calls_one_history pair_start _ pair_started Hr)).
Defined.
