(* ===== verification/Faults.v ===== *)
(** * Faults: what the assumptions of Linear are needed for

    Runs of the data plane (crates/ub-dataplane/src/lib.rs over
    crates/ub-transport/src/manager.rs) in which a remote call goes wrong: a frame
    that is outrun, a peer without a session, and calls the owner refuses. *)

From S2P Require Import Prelude Bytes Types Addr Device Mr Verbs Jetty Frame Float Dedup ReadCache.
From S2P Require Import Session Manager Dataplane Pod.
#[local] Open Scope Z_scope.

(** A datagram is received and what it put into the channel is dispatched. *)
Definition serve (e : Engine) (raw : bytes) : Engine :=
  engine_of (dispatch_one (receive_datagram e (fun _ => 0) raw) (fun _ => 0)).

Definition serve_all (e : Engine) (raws : list bytes) : Engine := foldl serve e raws.

(** Node 42 with one region that allows atomics, at offset 0. *)
Definition counter_table : MrTable :=
  mr_step sample_devices (MrTable_new_with_channel 1 42) (MrOp_register 0 16 7).

Definition counter_node (m : TransportManager) : Engine :=
  DataPlaneEngine_new 42 counter_table sample_devices ∅ (JettyTable_new 42 JettyConfig_default) m.

Definition counter_addr : Z := UbAddr_new 1 42 0 0 0.

Definition counter (e : Engine) : Result (CallValue * list DynDevice) :=
  local_call (en_mr_table e) (en_devices e) counter_addr (CallOp_faa 0).

Definition counter_value (e : Engine) : option CallValue :=
  match counter e with Ok (v, _) => Some v | _ => None end.

(** The frame of the [q]-th call of node 7, an addition of [add]. *)
Definition faa_frame (q add : Z) : bytes :=
  stamp_frame q (build_data_frame 7 42 Verb_AtomicFaa 1 counter_addr q (put_u64 add)).

(** The frame of a write of its second word. *)
Definition write_frame (q : Z) : bytes :=
  stamp_frame q (build_data_frame 7 42 Verb_Write 1 (UbAddr_new 1 42 0 8 0) 0 [5]).

(** The owner remembers the last 1024 updates of a session. A copy of an older
    fetch-and-add that arrives late is taken for a new request: the transport passes
    duplicates of requests on, and the record is gone, so 1 is added twice. *)
Theorem stale_update_repeated :
  let e := serve_all (counter_node (transport_to 42 7))
             (faa_frame 1 1 :: map (fun q => write_frame (Z.of_nat q)) (seq 2 1024)) in
  (counter_value e, counter_value (serve e (faa_frame 1 1))) = (Some (Val_word 1), Some (Val_word 2)).
Proof. vm_compute; reflexivity. Qed.

(** Without a session for the sender there is no record at all: every copy of a
    frame is executed. *)
Theorem sessionless_update_repeated :
  let e := counter_node (TransportManager_new 42 200 8) in
  counter_value (serve e (faa_frame 1 1)) = Some (Val_word 1)
  /\ counter_value (serve (serve e (faa_frame 1 1)) (faa_frame 1 1)) = Some (Val_word 2).
Proof. split; vm_compute; reflexivity. Qed.

(** ** Refused calls *)

(** The client asks for more bytes than the owner's device has. *)
Definition long_read : Engine := (ub_read_remote_start client_node 1 2 sample_addr 1000).1.

(** A refused read can return bytes. The owner's error answer looks like a read
    request with the error status where the length is; the client does not know the region
    and sends the error back; for the owner that is a request for one byte, which it serves;
    and the client's call, which the owner had refused, returns that byte. *)
Theorem refused_read_returns_bytes :
  let owner1 := serve owner_node (wire long_read 42) in
  let client1 := serve long_read (wire owner1 7) in
  let owner2 := serve owner1 (wire client1 42) in
  let client2 := serve client1 (wire owner2 7) in
  ub_read_sync sample_table sample_devices sample_addr 1000 = Err AddrInvalid
  /\ (ub_read_remote_finish client2 1).2 = Ok [0].
Proof. split; vm_compute; reflexivity. Qed.

(** Node 7 with a region of its own, filled with 9, under the handle 1. *)
Definition busy_table : MrTable :=
  mr_step sample_devices (MrTable_new_with_channel 1 7) (MrOp_register 0 16 3).

Definition busy_client : Engine :=
  DataPlaneEngine_new 7 busy_table [DynMemory (mkMemoryDevice (repeat 9 64) 64)]
    (MrCacheTable_insert ∅ (mkMrCacheEntry 1 42 (UbAddr_new 1 42 0 0 0) 4096 3 DeviceKind_Memory))
    (JettyTable_new 7 JettyConfig_default) (transport_to 7 42).

(** Node 42 waits for the answer to a read of its own, to node 7. *)
Definition busy_owner : Engine :=
  owner_node <| en_mr_cache :=
    MrCacheTable_insert ∅ (mkMrCacheEntry 5 7 (UbAddr_new 1 7 0 64 0) 16 3 DeviceKind_Memory) |>.
Definition waiting_owner : Engine := (ub_read_remote_start busy_owner 1 2 (UbAddr_new 1 7 0 64 0) 8).1.
Definition misread : Engine := (ub_read_remote_start busy_client 1 2 (UbAddr_new 1 42 0 0 0) 1000).1.

(** An error answer can complete another call with wrong bytes. The client serves the
    error of its own refused read as if it were a request, from its own region of the same
    handle, and its answer carries the number of its own call: it completes the call the owner
    made to it under the same number, a read of eight bytes at another address, with one byte. *)
Theorem error_answers_other_call :
  let owner1 := serve waiting_owner (wire misread 42) in
  let client1 := serve misread (wire owner1 7) in
  let owner2 := serve owner1 (wire client1 42) in
  (ub_read_remote_finish owner2 1).2 = Ok [9].
Proof. vm_compute; reflexivity. Qed.

(** ** Errors answering errors *)

(** The error answer to a read of an unknown region, from [src] to [dst]. *)
Definition read_error (src dst handle addr opaque : Z) : bytes :=
  build_data_frame_with_flags src dst Verb_ReadReq handle addr opaque (put_u32 1) ExtFlags_ERR_RESP.

(** [e] does not know the region, has not answered the call, and can send to [peer]. *)
Record stranger (e : Engine) (peer handle opaque : Z) : Prop := {
  sg_node : u16 (en_local_node_id e);
  sg_handle : MrTable_lookup (en_mr_table e) handle = None;
  sg_cache : forall key s, current_session (en_transport e) peer = Some (key, s) ->
    rc_entries (rs_read_cache s) !! (peer, opaque) = None;
  sg_inbound : tm_inbound (en_transport e) = [];
  sg_chan : exists cap, 0 < cap /\ tm_peer_senders (en_transport e) !! peer = Some (mkChan cap [] true);
}.

(** The write loop has taken everything queued for [peer]. *)
Definition drained (e : Engine) (peer : Z) : Engine :=
  e <| en_transport := (en_transport e) <| tm_peer_senders :=
         alter (fun ch => ch <| ch_queue := [] |>) peer (tm_peer_senders (en_transport e)) |> |>.

Lemma decode_read_error src dst handle addr opaque :
  u16 src -> u16 dst -> u32 handle -> u128 addr -> u64 opaque ->
  decode_frame (read_error src dst handle addr opaque)
  = Ok (data_header src dst 0 (put_u32 1),
        Some (data_ext Verb_ReadReq ExtFlags_ERR_RESP handle addr opaque 0 0 None), put_u32 1).
Proof.
  intros. apply decode_encode_frame; [by apply data_header_wf|]. split; [done|].
  unfold ext_wf. cbn. split_and!; try done; ulia.
Qed.

(** A stranger answers an error with the same error. *)
Lemma error_echoed e peer handle addr opaque :
  stranger e peer handle opaque -> u16 peer -> u32 handle -> u128 addr -> u64 opaque ->
  let e' := serve e (read_error peer (en_local_node_id e) handle addr opaque) in
  wire e' peer = read_error (en_local_node_id e) peer handle addr opaque
  /\ stranger (drained e' peer) peer handle opaque /\ en_local_node_id (drained e' peer) = en_local_node_id e.
Proof.
  intros [Hn Hh Hc Hi (cap & Hcap & Hch)] Hp Hhd Ha Ho. unfold serve, receive_datagram, TransportManager_handle_incoming.
  rewrite decode_read_error by done. cbn [fh_frame_type data_header].
  unfold TransportManager_handle_data_frame. cbn [fh_stream_seq data_header Z.eqb].
  unfold dispatch_one, send_inbound. cbn [en_transport set_field tm_inbound]. rewrite Hi. cbn [app].
  unfold handle_verb_frame. cbn [if_header if_ext if_payload if_seq de_verb data_ext fh_src_node data_header de_opaque].
  unfold resend_cached, TransportManager_read_cache_get. cbn [en_transport set_field].
  set (m0 := (en_transport e) <| tm_inbound := [] |>).
  change (current_session _ peer) with (current_session (en_transport e) peer).
  assert (Hsend : forall m, tm_peer_senders m = tm_peer_senders (en_transport e) -> tm_inbound m = [] ->
    (forall key s, current_session m peer = Some (key, s) -> rc_entries (rs_read_cache s) !! (peer, opaque) = None) ->
    let e1 := e <| en_transport := m |> in
    let e' := engine_of (handle_read_req e1 0 0 (put_u32 1)
       (data_ext Verb_ReadReq ExtFlags_ERR_RESP handle addr opaque 0 0 None) (data_header peer (en_local_node_id e) 0 (put_u32 1))
       peer (peer, opaque)) in
    wire e' peer = read_error (en_local_node_id e) peer handle addr opaque
    /\ stranger (drained e' peer) peer handle opaque /\ en_local_node_id (drained e' peer) = en_local_node_id e).
  { intros m Hs Hin Hcm. unfold handle_read_req, begin_access. cbn [en_mr_table set_field de_mr_handle data_ext]. rewrite Hh.
    cbn [rbind engine_of]. unfold send_error_response, reply, TransportManager_send_frame_to_peer.
    cbn [en_transport set_field fh_src_node data_header]. rewrite Hs, Hch. unfold try_send. cbn [ch_open ch_queue ch_capacity length].
    rewrite (proj2 (Z.ltb_lt (Z.of_nat 0) cap)) by lia. cbn [andb app]. split; [|split; [|done]].
    - unfold wire, last_sent. cbn. rewrite lookup_insert_eq. done.
    - split; try done. exists cap. split; [done|]. cbn. rewrite lookup_alter_eq, lookup_insert_eq. done. }
  destruct (current_session (en_transport e) peer) as [[key s]|] eqn:Hs; last first.
  { apply (Hsend m0); try done. intros key s. change (current_session m0 peer) with (current_session (en_transport e) peer).
    by rewrite Hs. }
  unfold ReadResponseCache_get. rewrite (Hc key s) by done. cbn [fst snd].
  apply (Hsend (put_session m0 key _)); try done. intros key' s' Hs'.
  assert (Hs0 : current_session m0 peer = Some (key, s)) by exact Hs.
  rewrite (current_session_put m0 peer key s _ peer Hs0), decide_True in Hs' by done. injection Hs' as <- <-.
  cbn. apply lookup_delete_eq.
Qed.

(** One round: the error goes from the owner to the client and back. *)
Definition error_round (handle addr opaque : Z) (pair : Engine * Engine) : Engine * Engine :=
  let '(c, o) := pair in
  let c' := serve c (read_error (en_local_node_id o) (en_local_node_id c) handle addr opaque) in
  let o' := serve o (wire c' (en_local_node_id o)) in
  (drained c' (en_local_node_id o), drained o' (en_local_node_id c)).

(** The error of a read is answered for ever. Two nodes that do not know a region
    send the error of a read of it back and forth without end: after any number of rounds the
    client again answers the error with an error. *)
Theorem error_answered_forever c o handle addr opaque (k : nat) :
  let cn := en_local_node_id c in
  let on := en_local_node_id o in
  stranger c on handle opaque -> stranger o cn handle opaque -> u32 handle -> u128 addr -> u64 opaque ->
  let '(c', o') := Nat.iter k (error_round handle addr opaque) (c, o) in
  wire (serve c' (read_error on cn handle addr opaque)) on = read_error cn on handle addr opaque.
Proof.
  intros cn on Hc Ho Hh Ha Hop.
  assert (Hinv : let '(c', o') := Nat.iter k (error_round handle addr opaque) (c, o) in
    stranger c' on handle opaque /\ stranger o' cn handle opaque
    /\ en_local_node_id c' = cn /\ en_local_node_id o' = on).
  { induction k as [|k IH]; [done|]. cbn [Nat.iter nat_rect]. fold (Nat.iter k (error_round handle addr opaque) (c, o)).
    destruct (Nat.iter k _ (c, o)) as [c1 o1]. destruct IH as (H1 & H2 & E1 & E2).
    unfold error_round. rewrite E1, E2.
    destruct (error_echoed c1 on handle addr opaque H1) as (W1 & S1 & I1); [apply (sg_node _ _ _ _ Ho)|done..|].
    rewrite E1 in W1, S1, I1. rewrite W1. 
    destruct (error_echoed o1 cn handle addr opaque H2) as (W2 & S2 & I2); [apply (sg_node _ _ _ _ Hc)|done..|].
    rewrite E2 in W2, S2, I2. done. }
  destruct (Nat.iter k _ (c, o)) as [c1 o1]. destruct Hinv as (H1 & H2 & E1 & E2).
  destruct (error_echoed c1 on handle addr opaque H1) as (W1 & _); [apply (sg_node _ _ _ _ Ho)|done..|]. by rewrite E1 in W1.
Qed.

Lemma strangers : stranger client_node 42 9 1 /\ stranger owner_node 7 9 1.
Proof.
  split; split; try (by vm_compute); try (exists 256; done); try (split; done).
  all: intros key s Hs; vm_compute in Hs; injection Hs as _ <-; reflexivity.
Qed.

Example error_answered_forever_here (k : nat) :
  let '(c, o) := Nat.iter k (error_round 9 sample_addr 1) (client_node, owner_node) in
  wire (serve c (read_error 42 7 9 sample_addr 1)) 42 = read_error 7 42 9 sample_addr 1.
Proof.
  destruct strangers as [Hc Ho].
  apply (error_answered_forever client_node owner_node 9 sample_addr 1 k Hc Ho);
    refine (bool_decide_unpack _ _); vm_compute; reflexivity.
Qed.

(** ** Two senders at once *)

(** Source: crates/ub-transport/src/manager.rs:190-211, [TransportManager::send].
    The first half of a send: the frame gets its number under the lock of the session. *)
Definition send_number (m : TransportManager) (t1 t2 : Z) (remote_node : Z) (frame_data : bytes)
    (is_fire_and_forget : bool) (opaque : Z) : TransportManager * bytes * Result Z :=
  match current_session m remote_node with
  | None => (m, frame_data, Err LinkDown)
  | Some (key, session) =>
    if decide (rs_state session <> SessionState_Active) then (m, frame_data, Err LinkDown)
    else
      match ReliableSession_consume_credit session with
      | Err e => (m, frame_data, Err e)
      | Panic => (m, frame_data, Panic)
      | Ok session =>
        let '(session, frame_data, seq) :=
          ReliableSession_assign_seq session t1 t2 frame_data is_fire_and_forget opaque in
        (put_session m key session, frame_data, Ok seq)
      end
  end.

(** Source: crates/ub-transport/src/manager.rs:213-224, [TransportManager::send].
    The second half: the lock is gone, and the frame enters the channel of the peer. *)
Definition send_enqueue (m : TransportManager) (remote_node : Z) (frame_data : bytes) (seq : Z)
  : TransportManager * Result Z :=
  match tm_peer_senders m !! remote_node with
  | None => (m, Err LinkDown)
  | Some sender =>
    match try_send sender frame_data with
    | Some sender => (m <| tm_peer_senders := <[remote_node := sender]> (tm_peer_senders m) |>, Ok seq)
    | None => (m, Err LinkDown)
    end
  end.

Lemma send_halves m t1 t2 r frame ff opaque :
  TransportManager_send m t1 t2 r frame ff opaque
  = match send_number m t1 t2 r frame ff opaque with
    | (m, frame, Ok seq) => let '(m, res) := send_enqueue m r frame seq in (m, frame, res)
    | (m, frame, res) => (m, frame, res)
    end.
Proof.
  unfold TransportManager_send, send_number, current_session, current_key.
  destruct (tm_peer_epochs m !! r) as [epoch|]; cbn [fmap option_fmap option_map mbind option_bind]; [|done].
  destruct (tm_sessions m !! session_key m r epoch) as [s|]; cbn [mbind option_bind]; [|done]. case_decide; [done|].
  destruct (ReliableSession_consume_credit s) as [s1| |]; [|done..].
  destruct (ReliableSession_assign_seq _ _ _ _ _ _) as [[s2 frame'] seq]. unfold send_enqueue.
  destruct (tm_peer_senders _ !! r) as [ch|]; [|done].
  by destruct (try_send ch frame').
Qed.

(** The write of one byte of node 7 to its word of node 42. *)
Definition byte_write (offset value : Z) : bytes :=
  build_data_frame 7 42 Verb_Write 1 (UbAddr_new 1 42 0 offset 0) 0 [value].

(** Two tasks of node 7 write, each with one call of [send]. The first gets number 1, the
    second number 2; then the second is the first to enter the channel. *)
Definition crossed_sends : TransportManager * list (Result Z) :=
  let m := transport_to 7 42 in
  let '(m, frame1, r1) := send_number m 0 0 42 (byte_write 0 5) true 0 in
  let '(m, frame2, r2) := send_number m 0 0 42 (byte_write 1 6) true 0 in
  let '(m, s2) := send_enqueue m 42 frame2 2 in
  let '(m, s1) := send_enqueue m 42 frame1 1 in
  (m, [r1; r2; s1; s2]).

Definition channel_to (m : TransportManager) (peer : Z) : list bytes :=
  match tm_peer_senders m !! peer with Some ch => ch_queue ch | None => [] end.

Definition stored_bytes (e : Engine) : Result bytes :=
  ub_read_sync (en_mr_table e) (en_devices e) counter_addr 2.

(** A perfect network does not help: it delivers the two frames in the order of the channel, and
    the second write is lost although both calls returned [Ok]. Sent again, it is a duplicate. *)
Theorem crossed_write_lost :
  let '(m, results) := crossed_sends in
  let owner := serve_all (counter_node (transport_to 42 7)) (channel_to m 42) in
  results = [Ok 1; Ok 2; Ok 1; Ok 2]
  /\ stored_bytes owner = Ok [5; 0]
  /\ stored_bytes (serve_all owner (channel_to m 42)) = Ok [5; 0].
Proof. vm_compute. split_and!; reflexivity. Qed.

(** ** A datagram the socket refuses *)

(** [UdpFabric::send_to] on a socket that takes the payload of a UDP/IPv4 datagram and no more. *)
Definition udp_sent (data : bytes) : Result unit :=
  if Z.of_nat (length data) <=? 65507 then Ok tt else Err (Io "").

(** Node 42 with a region of 70000 bytes. *)
Definition large_devices : list DynDevice := [DynMemory (MemoryDevice_new 70000)].

Definition large_node : Engine :=
  DataPlaneEngine_new 42 (mr_step large_devices (MrTable_new_with_channel 1 42) (MrOp_register 0 70000 7))
    large_devices ∅ (JettyTable_new 42 JettyConfig_default) (transport_to 42 7).

Definition large_client : Engine :=
  DataPlaneEngine_new 7 (MrTable_new 1 7) []
    (MrCacheTable_insert ∅ (mkMrCacheEntry 1 42 counter_addr 70000 7 DeviceKind_Memory))
    (JettyTable_new 7 JettyConfig_default) (transport_to 7 42).

(** All that was queued for [peer] is written, [fuel] frames at most. *)
Fixpoint write_loop (fuel : nat) (e : Engine) (peer : Z) : Engine :=
  match fuel with
  | O => e
  | S fuel => write_loop fuel (peer_write_turn e peer udp_sent).1 peer
  end.

Definition channel_open (e : Engine) (peer : Z) : option bool :=
  ch_open <$> tm_peer_senders (en_transport e) !! peer.

(** A remote read has no limit on its length where the writes have one. The owner queues an answer
    that no datagram holds; the error of the socket ends the write loop, so the channel to the
    client is closed: the answers and acknowledgements to the client that follow are dropped, and
    what the owner calls on the client is a [LinkDown], until the nodes connect again. A read of
    less, served before, leaves the channel open. *)
Theorem large_read_closes_channel :
  let read len := ub_read_remote_start large_client 1 2 counter_addr len in
  let served len := write_loop 4 (serve large_node (wire (read len).1 42)) 7 in
  let owner := served 70000 in
  ((read 70000).2, channel_open (served 100) 7, channel_open owner 7,
   (ub_read_remote_finish (serve (read 70000).1 (wire owner 7)) 1).2,
   channel_to (TransportManager_send_frame_to_peer (en_transport owner) 7 [1]) 7,
   (TransportManager_send (en_transport owner) 3 4 7 (byte_write 0 1) true 0).2)
  = (Ok 1, Some true, Some false, Err Timeout, [], Err LinkDown).
Proof. vm_compute. reflexivity. Qed.
