(* ===== verification/Message.v ===== *)
(** * Message: control-plane messages

    crates/ub-control/src/message.rs: the framing and the payloads of the control
    plane. [Payload] is the interface of a payload type: its encoder, its decoder
    over a cursor, the values that fit the wire, and the two laws every client
    relies on (decoding inverts encoding, decoding never panics). Each payload
    type of the source is an instance; [ControlMsg] is proved against the
    interface. *)

From S2P Require Import Prelude Bytes Types Addr Frame.

(** ** The interface *)

Class Payload (P : Type) := {
  p_encode : P -> bytes;
  p_parser : Parser P;
  p_ok : P -> Prop;
  p_inverts : forall p, p_ok p -> inverts p_parser (p_encode p) p;
  p_total : total p_parser;
}.

(** [P::decode(data)] *)
Definition p_decode {P} `{Payload P} (data : bytes) : Result P := run p_parser data.

(** A length-prefixed byte string: [put_u32(len); put_slice] and
    [read_u32; vec![0; len]; read_exact]. *)
Definition put_bytes (s : bytes) : bytes := put_u32 (Z.of_nat (length s)) ++ s.
Definition read_bytes : Parser bytes := len <- read_u32 ;; read_exact (Z.to_nat len).

(** A result inside a parser, [r?]. *)
Definition presult {A} (r : Result A) : Parser A :=
  fun cur => match r with Ok a => Ok (a, cur) | Err e => Err e | Panic => Panic end.

Lemma pbind_read_bytes {B} s rest (k : bytes -> Parser B) :
  u32 (Z.of_nat (length s)) -> pbind read_bytes k (put_bytes s ++ rest) = k s rest.
Proof.
  intros Hs. unfold read_bytes, put_bytes. rewrite pbind_assoc, <- app_assoc.
  rewrite pbind_read_be by exact Hs. rewrite Nat2Z.id. by apply pbind_read_exact.
Qed.

Lemma pbind_from_utf8 {B} s e rest (k : bytes -> Parser B) :
  is_string s -> pbind (from_utf8 s e) k rest = k s rest.
Proof. intros Hs. unfold pbind. by rewrite from_utf8_string. Qed.

Lemma total_read_bytes : total read_bytes.
Proof. apply total_pbind; [apply total_read_be|]. intros. apply total_read_exact. Qed.

Lemma total_presult {A} (r : Result A) : r <> Panic -> total (presult r).
Proof. intros Hr cur. unfold presult. by destruct r. Qed.

#[export] Hint Resolve total_read_bytes : codec.

(** Decoders of payloads run over strings and addresses as well. *)
Ltac parse_step ::=
  first
  [ rewrite pbind_read_enum
  | rewrite pbind_read_be by ulia
  | rewrite pbind_read_bytes by (first [assumption | match goal with H : is_string _ |- _ => apply H end])
  | rewrite pbind_from_utf8 by assumption
  | rewrite pbind_read_exact by (unfold UbAddr_to_bytes; rewrite ?length_be_bytes; first [reflexivity | lia])
  | rewrite pbind_ret ].

(** The two laws of a payload made of fields. *)
Ltac payload enc parser :=
  first
  [ let p := fresh "p" in let H := fresh "H" in let rest := fresh "rest" in
    intros p H rest; unfold enc, parser;
    repeat match goal with H : _ /\ _ |- _ => destruct H as [? ?] end;
    repeat match goal with H : flags_ok MrPerms_all _ |- _ =>
      pose proof (flags_ok_fits 3 _ ltac:(done) H); apply flags_ok_truncate in H end;
    parse; cbv zeta;
    repeat first
      [ rewrite UbAddr_from_to_bytes by assumption
      | match goal with H : from_bits_truncate _ _ = _ |- _ => rewrite H end
      | progress parse ];
    destruct p; reflexivity
  | unfold parser; repeat (apply total_pbind; intros); auto with codec ].

(** ** Payloads *)

(** Source: crates/ub-control/src/message.rs:99-105, [HelloPayload]. *)
Record HelloPayload : Type := mkHelloPayload {
  hp_node_id : Z;
  hp_version : Z;
  hp_local_epoch : Z;
  hp_initial_credits : Z;
  hp_data_addr : bytes;
}.

(** Source: crates/ub-control/src/message.rs:108-118, [HelloPayload::encode]. *)
Definition HelloPayload_encode (p : HelloPayload) : bytes :=
  put_u16 (hp_node_id p) ++ put_u16 (hp_version p) ++ put_u32 (hp_local_epoch p)
  ++ put_u32 (hp_initial_credits p) ++ put_bytes (hp_data_addr p).

(** Source: crates/ub-control/src/message.rs:120-139, [HelloPayload::decode]. *)
Definition HelloPayload_parser : Parser HelloPayload :=
  node_id <- read_u16 ;;
  version <- read_u16 ;;
  local_epoch <- read_u32 ;;
  initial_credits <- read_u32 ;;
  buf <- read_bytes ;;
  data_addr <- from_utf8 buf (Internal "invalid data_addr: ") ;;
  pret (mkHelloPayload node_id version local_epoch initial_credits data_addr).

#[global, refine] Instance HelloPayload_payload : Payload HelloPayload := {|
  p_encode := HelloPayload_encode;
  p_parser := HelloPayload_parser;
  p_ok p :=
    u16 (hp_node_id p) /\ u16 (hp_version p) /\ u32 (hp_local_epoch p)
    /\ u32 (hp_initial_credits p) /\ is_string (hp_data_addr p);
|}.
Proof. all: payload HelloPayload_encode HelloPayload_parser. Defined.

(** Source: crates/ub-control/src/message.rs:144-147, [HeartbeatPayload]. *)
Record HeartbeatPayload : Type := mkHeartbeatPayload {
  hb_node_id : Z;
  hb_timestamp : Z;
}.

(** Source: crates/ub-control/src/message.rs:150-155, [HeartbeatPayload::encode]. *)
Definition HeartbeatPayload_encode (p : HeartbeatPayload) : bytes :=
  put_u16 (hb_node_id p) ++ put_u64 (hb_timestamp p).

(** Source: crates/ub-control/src/message.rs:157-162, [HeartbeatPayload::decode]. *)
Definition HeartbeatPayload_parser : Parser HeartbeatPayload :=
  node_id <- read_u16 ;;
  timestamp <- read_u64 ;;
  pret (mkHeartbeatPayload node_id timestamp).

#[global, refine] Instance HeartbeatPayload_payload : Payload HeartbeatPayload := {|
  p_encode := HeartbeatPayload_encode;
  p_parser := HeartbeatPayload_parser;
  p_ok p :=
    u16 (hb_node_id p) /\ u64 (hb_timestamp p);
|}.
Proof. all: payload HeartbeatPayload_encode HeartbeatPayload_parser. Defined.

(** Source: crates/ub-control/src/message.rs:167-174, [MrPublishPayload]. *)
Record MrPublishPayload : Type := mkMrPublishPayload {
  mp_owner_node : Z;
  mp_mr_handle : Z;
  mp_base_ub_addr : Z;
  mp_len : Z;
  mp_perms : Z;
  mp_device_kind : DeviceKind;
}.

(** Source: crates/ub-control/src/message.rs:177-186, [MrPublishPayload::encode]. *)
Definition MrPublishPayload_encode (p : MrPublishPayload) : bytes :=
  put_u16 (mp_owner_node p) ++ put_u32 (mp_mr_handle p) ++ UbAddr_to_bytes (mp_base_ub_addr p)
  ++ put_u64 (mp_len p) ++ put_u8 (mp_perms p) ++ put_u8 (as_u8 (mp_device_kind p)).

(** Source: crates/ub-control/src/message.rs:188-210, [MrPublishPayload::decode]. *)
Definition MrPublishPayload_parser : Parser MrPublishPayload :=
  owner_node <- read_u16 ;;
  mr_handle <- read_u32 ;;
  addr_bytes <- read_exact 16 ;;
  let base_ub_addr := UbAddr_from_bytes addr_bytes in
  len <- read_u64 ;;
  perms_bits <- read_u8 ;;
  let perms := from_bits_truncate MrPerms_all perms_bits in
  device_kind_u8 <- read_u8 ;;
  device_kind <- plift (from_u8 (E := DeviceKind) device_kind_u8) (Internal "invalid device_kind: ") ;;
  pret (mkMrPublishPayload owner_node mr_handle base_ub_addr len perms device_kind).

#[global, refine] Instance MrPublishPayload_payload : Payload MrPublishPayload := {|
  p_encode := MrPublishPayload_encode;
  p_parser := MrPublishPayload_parser;
  p_ok p :=
    u16 (mp_owner_node p) /\ u32 (mp_mr_handle p) /\ u128 (mp_base_ub_addr p) /\ u64 (mp_len p)
    /\ flags_ok MrPerms_all (mp_perms p);
|}.
Proof. all: payload MrPublishPayload_encode MrPublishPayload_parser. Defined.

(** Source: crates/ub-control/src/message.rs:215-218, [MrRevokePayload]. *)
Record MrRevokePayload : Type := mkMrRevokePayload {
  mv_owner_node : Z;
  mv_mr_handle : Z;
}.

(** Source: crates/ub-control/src/message.rs:221-226, [MrRevokePayload::encode]. *)
Definition MrRevokePayload_encode (p : MrRevokePayload) : bytes :=
  put_u16 (mv_owner_node p) ++ put_u32 (mv_mr_handle p).

(** Source: crates/ub-control/src/message.rs:228-233, [MrRevokePayload::decode]. *)
Definition MrRevokePayload_parser : Parser MrRevokePayload :=
  owner_node <- read_u16 ;;
  mr_handle <- read_u32 ;;
  pret (mkMrRevokePayload owner_node mr_handle).

#[global, refine] Instance MrRevokePayload_payload : Payload MrRevokePayload := {|
  p_encode := MrRevokePayload_encode;
  p_parser := MrRevokePayload_parser;
  p_ok p :=
    u16 (mv_owner_node p) /\ u32 (mv_mr_handle p);
|}.
Proof. all: payload MrRevokePayload_encode MrRevokePayload_parser. Defined.

(** Source: crates/ub-control/src/message.rs:238-241, [MemberDownPayload]. *)
Record MemberDownPayload : Type := mkMemberDownPayload {
  md_node_id : Z;
  md_reason : Z;
}.

(** Source: crates/ub-control/src/message.rs:244-249, [MemberDownPayload::encode]. *)
Definition MemberDownPayload_encode (p : MemberDownPayload) : bytes :=
  put_u16 (md_node_id p) ++ put_u8 (md_reason p).

(** Source: crates/ub-control/src/message.rs:251-256, [MemberDownPayload::decode]. *)
Definition MemberDownPayload_parser : Parser MemberDownPayload :=
  node_id <- read_u16 ;;
  reason <- read_u8 ;;
  pret (mkMemberDownPayload node_id reason).

#[global, refine] Instance MemberDownPayload_payload : Payload MemberDownPayload := {|
  p_encode := MemberDownPayload_encode;
  p_parser := MemberDownPayload_parser;
  p_ok p :=
    u16 (md_node_id p) /\ u8 (md_reason p);
|}.
Proof. all: payload MemberDownPayload_encode MemberDownPayload_parser. Defined.

(** Source: crates/ub-control/src/message.rs:261-267, [JoinPayload]. *)
Record JoinPayload : Type := mkJoinPayload {
  jp_node_id : Z;
  jp_epoch : Z;
  jp_data_addr : bytes;
  jp_control_addr : bytes;
  jp_initial_credits : Z;
}.

(** Source: crates/ub-control/src/message.rs:270-282, [JoinPayload::encode]. *)
Definition JoinPayload_encode (p : JoinPayload) : bytes :=
  put_u16 (jp_node_id p) ++ put_u32 (jp_epoch p) ++ put_bytes (jp_data_addr p)
  ++ put_bytes (jp_control_addr p) ++ put_u32 (jp_initial_credits p).

(** Source: crates/ub-control/src/message.rs:284-306, [JoinPayload::decode]. *)
Definition JoinPayload_parser : Parser JoinPayload :=
  node_id <- read_u16 ;;
  epoch <- read_u32 ;;
  buf <- read_bytes ;;
  data_addr <- from_utf8 buf (Internal "invalid data_addr: ") ;;
  buf <- read_bytes ;;
  control_addr <- from_utf8 buf (Internal "invalid control_addr: ") ;;
  initial_credits <- read_u32 ;;
  pret (mkJoinPayload node_id epoch data_addr control_addr initial_credits).

#[global, refine] Instance JoinPayload_payload : Payload JoinPayload := {|
  p_encode := JoinPayload_encode;
  p_parser := JoinPayload_parser;
  p_ok p :=
    u16 (jp_node_id p) /\ u32 (jp_epoch p) /\ is_string (jp_data_addr p)
    /\ is_string (jp_control_addr p) /\ u32 (jp_initial_credits p);
|}.
Proof. all: payload JoinPayload_encode JoinPayload_parser. Defined.

(** Source: crates/ub-control/src/message.rs:311-317, [SnapshotNodeInfo]. *)
Record SnapshotNodeInfo : Type := mkSnapshotNodeInfo {
  sn_node_id : Z;
  sn_state : Z;
  sn_data_addr : bytes;
  sn_control_addr : bytes;
  sn_epoch : Z;
}.

(** One node in the loops of [MemberSnapshotPayload]. *)
Definition SnapshotNodeInfo_encode (p : SnapshotNodeInfo) : bytes :=
  put_u16 (sn_node_id p) ++ put_u8 (sn_state p) ++ put_u32 (sn_epoch p)
  ++ put_bytes (sn_data_addr p) ++ put_bytes (sn_control_addr p).

Definition SnapshotNodeInfo_parser : Parser SnapshotNodeInfo :=
  node_id <- read_u16 ;;
  state <- read_u8 ;;
  epoch <- read_u32 ;;
  buf <- read_bytes ;;
  data_addr <- from_utf8 buf (Internal "invalid data_addr: ") ;;
  buf <- read_bytes ;;
  control_addr <- from_utf8 buf (Internal "invalid control_addr: ") ;;
  pret (mkSnapshotNodeInfo node_id state data_addr control_addr epoch).

#[global, refine] Instance SnapshotNodeInfo_payload : Payload SnapshotNodeInfo := {|
  p_encode := SnapshotNodeInfo_encode;
  p_parser := SnapshotNodeInfo_parser;
  p_ok p :=
    u16 (sn_node_id p) /\ u8 (sn_state p) /\ is_string (sn_data_addr p)
    /\ is_string (sn_control_addr p) /\ u32 (sn_epoch p);
|}.
Proof. all: payload SnapshotNodeInfo_encode SnapshotNodeInfo_parser. Defined.

(** Source: crates/ub-control/src/message.rs:321-323, [MemberSnapshotPayload]. *)
Record MemberSnapshotPayload : Type := mkMemberSnapshotPayload {
  ms_nodes : list SnapshotNodeInfo;
}.

(** Source: crates/ub-control/src/message.rs:326-339, [MemberSnapshotPayload::encode]. *)
Definition MemberSnapshotPayload_encode (p : MemberSnapshotPayload) : bytes :=
  put_u32 (Z.of_nat (length (ms_nodes p))) ++ concat (map SnapshotNodeInfo_encode (ms_nodes p)).

(** Source: crates/ub-control/src/message.rs:341-368, [MemberSnapshotPayload::decode]. *)
Definition MemberSnapshotPayload_parser : Parser MemberSnapshotPayload :=
  count <- read_u32 ;;
  nodes <- pmany (Z.to_nat count) SnapshotNodeInfo_parser ;;
  pret (mkMemberSnapshotPayload nodes).

#[global, refine] Instance MemberSnapshotPayload_payload : Payload MemberSnapshotPayload := {|
  p_encode := MemberSnapshotPayload_encode;
  p_parser := MemberSnapshotPayload_parser;
  p_ok p := Forall p_ok (ms_nodes p) /\ u32 (Z.of_nat (length (ms_nodes p)));
|}.
Proof.
  - intros [nodes] [Hn Hl] rest. unfold MemberSnapshotPayload_encode, MemberSnapshotPayload_parser.
    cbn [ms_nodes] in *. parse. rewrite Nat2Z.id.
    rewrite (pbind_inverts _ _ nodes); [done|]. apply pmany_inverts.
    eapply Forall_impl; [exact Hn|]. intros x Hx. exact (p_inverts x Hx).
  - unfold MemberSnapshotPayload_parser. apply total_pbind; [apply total_read_be|]. intros.
    apply total_pbind; [|intros; apply total_pret]. apply total_pmany.
    exact (p_total (P := SnapshotNodeInfo)).
Defined.

(** Source: crates/ub-control/src/message.rs:373-385, [DeviceProfileEntry]. *)
Record DeviceProfileEntry : Type := mkDeviceProfileEntry {
  dp_node_id : Z;
  dp_device_id : Z;
  dp_kind : DeviceKind;
  dp_tier : StorageTier;
  dp_capacity_bytes : Z;
  dp_peak_read_bw_mbps : Z;
  dp_peak_write_bw_mbps : Z;
  dp_read_latency_ns_p50 : Z;
  dp_write_latency_ns_p50 : Z;
  dp_used_bytes : Z;
  dp_recent_rps : Z;
}.

(** Source: crates/ub-control/src/message.rs:388-402, [DeviceProfileEntry::encode]. *)
Definition DeviceProfileEntry_encode (p : DeviceProfileEntry) : bytes :=
  put_u16 (dp_node_id p) ++ put_u16 (dp_device_id p) ++ put_u8 (as_u8 (dp_kind p))
  ++ put_u8 (as_u8 (dp_tier p)) ++ put_u64 (dp_capacity_bytes p)
  ++ put_u32 (dp_peak_read_bw_mbps p) ++ put_u32 (dp_peak_write_bw_mbps p)
  ++ put_u32 (dp_read_latency_ns_p50 p) ++ put_u32 (dp_write_latency_ns_p50 p)
  ++ put_u64 (dp_used_bytes p) ++ put_u32 (dp_recent_rps p).

(** Source: crates/ub-control/src/message.rs:404-434, [DeviceProfileEntry::decode]. *)
Definition DeviceProfileEntry_parser : Parser DeviceProfileEntry :=
  node_id <- read_u16 ;;
  device_id <- read_u16 ;;
  kind_u8 <- read_u8 ;;
  kind <- plift (from_u8 (E := DeviceKind) kind_u8) (Internal "invalid device_kind: ") ;;
  tier_u8 <- read_u8 ;;
  tier <- plift (from_u8 (E := StorageTier) tier_u8) (Internal "invalid storage_tier: ") ;;
  capacity_bytes <- read_u64 ;;
  peak_read_bw_mbps <- read_u32 ;;
  peak_write_bw_mbps <- read_u32 ;;
  read_latency_ns_p50 <- read_u32 ;;
  write_latency_ns_p50 <- read_u32 ;;
  used_bytes <- read_u64 ;;
  recent_rps <- read_u32 ;;
  pret (mkDeviceProfileEntry node_id device_id kind tier capacity_bytes peak_read_bw_mbps peak_write_bw_mbps read_latency_ns_p50 write_latency_ns_p50 used_bytes recent_rps).

#[global, refine] Instance DeviceProfileEntry_payload : Payload DeviceProfileEntry := {|
  p_encode := DeviceProfileEntry_encode;
  p_parser := DeviceProfileEntry_parser;
  p_ok p :=
    u16 (dp_node_id p) /\ u16 (dp_device_id p) /\ u64 (dp_capacity_bytes p)
    /\ u32 (dp_peak_read_bw_mbps p) /\ u32 (dp_peak_write_bw_mbps p)
    /\ u32 (dp_read_latency_ns_p50 p) /\ u32 (dp_write_latency_ns_p50 p)
    /\ u64 (dp_used_bytes p) /\ u32 (dp_recent_rps p);
|}.
Proof. all: payload DeviceProfileEntry_encode DeviceProfileEntry_parser. Defined.

(** Source: crates/ub-control/src/message.rs:439-441, [DeviceProfilePublishPayload]. *)
Record DeviceProfilePublishPayload : Type := mkDeviceProfilePublishPayload {
  pp_entries : list DeviceProfileEntry;
}.

(** Source: crates/ub-control/src/message.rs:444-452, [DeviceProfilePublishPayload::encode]. *)
Definition DeviceProfilePublishPayload_encode (p : DeviceProfilePublishPayload) : bytes :=
  put_u32 (Z.of_nat (length (pp_entries p)))
  ++ concat (map (fun entry => put_bytes (DeviceProfileEntry_encode entry)) (pp_entries p)).

(** One turn of the loop: a length-prefixed entry, decoded on its own. *)
Definition entry_parser : Parser DeviceProfileEntry :=
  entry_buf <- read_bytes ;;
  presult (run DeviceProfileEntry_parser entry_buf).

(** Source: crates/ub-control/src/message.rs:454-465, [DeviceProfilePublishPayload::decode]. *)
Definition DeviceProfilePublishPayload_parser : Parser DeviceProfilePublishPayload :=
  count <- read_u32 ;;
  entries <- pmany (Z.to_nat count) entry_parser ;;
  pret (mkDeviceProfilePublishPayload entries).

Lemma entry_inverts e :
  p_ok e -> inverts entry_parser (put_bytes (DeviceProfileEntry_encode e)) e.
Proof.
  intros He rest. unfold entry_parser. rewrite pbind_read_bytes.
  - rewrite (inverts_run _ _ e); [done|]. exact (p_inverts e He).
  - unfold DeviceProfileEntry_encode. rewrite !length_app, !length_be_bytes. ulia.
Qed.

#[global, refine] Instance DeviceProfilePublishPayload_payload
  : Payload DeviceProfilePublishPayload := {|
  p_encode := DeviceProfilePublishPayload_encode;
  p_parser := DeviceProfilePublishPayload_parser;
  p_ok p := Forall p_ok (pp_entries p) /\ u32 (Z.of_nat (length (pp_entries p)));
|}.
Proof.
  - intros [entries] [Hn Hl] rest.
    unfold DeviceProfilePublishPayload_encode, DeviceProfilePublishPayload_parser.
    cbn [pp_entries] in *. parse. rewrite Nat2Z.id.
    rewrite (pbind_inverts _ _ entries); [done|]. apply pmany_inverts.
    eapply Forall_impl; [exact Hn|]. intros x Hx. by apply entry_inverts.
  - unfold DeviceProfilePublishPayload_parser. apply total_pbind; [apply total_read_be|]. intros.
    apply total_pbind; [|intros; apply total_pret]. apply total_pmany.
    apply total_pbind; [apply total_read_bytes|]. intros. apply total_presult, total_run.
    exact (p_total (P := DeviceProfileEntry)).
Defined.

(** Source: crates/ub-control/src/message.rs:470-479, [AllocReqPayload]. *)
Record AllocReqPayload : Type := mkAllocReqPayload {
  aq_region_id : Z;
  aq_size : Z;
  aq_access : AccessPattern;
  aq_latency_class : LatencyClass;
  aq_capacity_class : CapacityClass;
  aq_pin_kind : Z;
  aq_expected_readers : Z;
  aq_requester_node_id : Z;
}.

(** Source: crates/ub-control/src/message.rs:482-493, [AllocReqPayload::encode]. *)
Definition AllocReqPayload_encode (p : AllocReqPayload) : bytes :=
  put_u64 (aq_region_id p) ++ put_u64 (aq_size p) ++ put_u8 (as_u8 (aq_access p))
  ++ put_u8 (as_u8 (aq_latency_class p)) ++ put_u8 (as_u8 (aq_capacity_class p))
  ++ put_u8 (aq_pin_kind p) ++ put_u32 (aq_expected_readers p)
  ++ put_u16 (aq_requester_node_id p).

(** Source: crates/ub-control/src/message.rs:495-515, [AllocReqPayload::decode]. *)
Definition AllocReqPayload_parser : Parser AllocReqPayload :=
  region_id <- read_u64 ;;
  size <- read_u64 ;;
  access_u8 <- read_u8 ;;
  access <- plift (from_u8 (E := AccessPattern) access_u8) (Internal "invalid access_pattern: ") ;;
  latency_class_u8 <- read_u8 ;;
  latency_class <- plift (from_u8 (E := LatencyClass) latency_class_u8) (Internal "invalid latency_class: ") ;;
  capacity_class_u8 <- read_u8 ;;
  capacity_class <- plift (from_u8 (E := CapacityClass) capacity_class_u8) (Internal "invalid capacity_class: ") ;;
  pin_kind <- read_u8 ;;
  expected_readers <- read_u32 ;;
  requester_node_id <- read_u16 ;;
  pret (mkAllocReqPayload region_id size access latency_class capacity_class pin_kind expected_readers requester_node_id).

#[global, refine] Instance AllocReqPayload_payload : Payload AllocReqPayload := {|
  p_encode := AllocReqPayload_encode;
  p_parser := AllocReqPayload_parser;
  p_ok p :=
    u64 (aq_region_id p) /\ u64 (aq_size p) /\ u8 (aq_pin_kind p) /\ u32 (aq_expected_readers p)
    /\ u16 (aq_requester_node_id p);
|}.
Proof. all: payload AllocReqPayload_encode AllocReqPayload_parser. Defined.

(** Source: crates/ub-control/src/message.rs:520-529, [AllocRespPayload]. *)
Record AllocRespPayload : Type := mkAllocRespPayload {
  ar_region_id : Z;
  ar_ub_va : Z;
  ar_home_node_id : Z;
  ar_device_id : Z;
  ar_mr_handle : Z;
  ar_base_offset : Z;
  ar_error_code : Z;
}.

(** Source: crates/ub-control/src/message.rs:532-542, [AllocRespPayload::encode]. *)
Definition AllocRespPayload_encode (p : AllocRespPayload) : bytes :=
  put_u64 (ar_region_id p) ++ put_u128 (ar_ub_va p) ++ put_u16 (ar_home_node_id p)
  ++ put_u16 (ar_device_id p) ++ put_u32 (ar_mr_handle p) ++ put_u64 (ar_base_offset p)
  ++ put_u32 (ar_error_code p).

(** Source: crates/ub-control/src/message.rs:544-556, [AllocRespPayload::decode]. *)
Definition AllocRespPayload_parser : Parser AllocRespPayload :=
  region_id <- read_u64 ;;
  ub_va <- read_u128 ;;
  home_node_id <- read_u16 ;;
  device_id <- read_u16 ;;
  mr_handle <- read_u32 ;;
  base_offset <- read_u64 ;;
  error_code <- read_u32 ;;
  pret (mkAllocRespPayload region_id ub_va home_node_id device_id mr_handle base_offset error_code).

#[global, refine] Instance AllocRespPayload_payload : Payload AllocRespPayload := {|
  p_encode := AllocRespPayload_encode;
  p_parser := AllocRespPayload_parser;
  p_ok p :=
    u64 (ar_region_id p) /\ u128 (ar_ub_va p) /\ u16 (ar_home_node_id p) /\ u16 (ar_device_id p)
    /\ u32 (ar_mr_handle p) /\ u64 (ar_base_offset p) /\ u32 (ar_error_code p);
|}.
Proof. all: payload AllocRespPayload_encode AllocRespPayload_parser. Defined.

(** Source: crates/ub-control/src/message.rs:561-565, [RegionCreatePayload]. *)
Record RegionCreatePayload : Type := mkRegionCreatePayload {
  rc_region_id : Z;
  rc_size : Z;
  rc_device_kind : DeviceKind;
}.

(** Source: crates/ub-control/src/message.rs:568-574, [RegionCreatePayload::encode]. *)
Definition RegionCreatePayload_encode (p : RegionCreatePayload) : bytes :=
  put_u64 (rc_region_id p) ++ put_u64 (rc_size p) ++ put_u8 (as_u8 (rc_device_kind p)).

(** Source: crates/ub-control/src/message.rs:576-584, [RegionCreatePayload::decode]. *)
Definition RegionCreatePayload_parser : Parser RegionCreatePayload :=
  region_id <- read_u64 ;;
  size <- read_u64 ;;
  device_kind_u8 <- read_u8 ;;
  device_kind <- plift (from_u8 (E := DeviceKind) device_kind_u8) (Internal "invalid device_kind: ") ;;
  pret (mkRegionCreatePayload region_id size device_kind).

#[global, refine] Instance RegionCreatePayload_payload : Payload RegionCreatePayload := {|
  p_encode := RegionCreatePayload_encode;
  p_parser := RegionCreatePayload_parser;
  p_ok p :=
    u64 (rc_region_id p) /\ u64 (rc_size p);
|}.
Proof. all: payload RegionCreatePayload_encode RegionCreatePayload_parser. Defined.

(** Source: crates/ub-control/src/message.rs:589-594, [RegionCreateOkPayload]. *)
Record RegionCreateOkPayload : Type := mkRegionCreateOkPayload {
  ro_region_id : Z;
  ro_mr_handle : Z;
  ro_base_offset : Z;
  ro_device_id : Z;
}.

(** Source: crates/ub-control/src/message.rs:597-604, [RegionCreateOkPayload::encode]. *)
Definition RegionCreateOkPayload_encode (p : RegionCreateOkPayload) : bytes :=
  put_u64 (ro_region_id p) ++ put_u32 (ro_mr_handle p) ++ put_u64 (ro_base_offset p)
  ++ put_u16 (ro_device_id p).

(** Source: crates/ub-control/src/message.rs:606-613, [RegionCreateOkPayload::decode]. *)
Definition RegionCreateOkPayload_parser : Parser RegionCreateOkPayload :=
  region_id <- read_u64 ;;
  mr_handle <- read_u32 ;;
  base_offset <- read_u64 ;;
  device_id <- read_u16 ;;
  pret (mkRegionCreateOkPayload region_id mr_handle base_offset device_id).

#[global, refine] Instance RegionCreateOkPayload_payload : Payload RegionCreateOkPayload := {|
  p_encode := RegionCreateOkPayload_encode;
  p_parser := RegionCreateOkPayload_parser;
  p_ok p :=
    u64 (ro_region_id p) /\ u32 (ro_mr_handle p) /\ u64 (ro_base_offset p)
    /\ u16 (ro_device_id p);
|}.
Proof. all: payload RegionCreateOkPayload_encode RegionCreateOkPayload_parser. Defined.

(** Source: crates/ub-control/src/message.rs:618-620, [RegionDeletePayload]. *)
Record RegionDeletePayload : Type := mkRegionDeletePayload {
  rd_region_id : Z;
}.

(** Source: crates/ub-control/src/message.rs:623-627, [RegionDeletePayload::encode]. *)
Definition RegionDeletePayload_encode (p : RegionDeletePayload) : bytes :=
  put_u64 (rd_region_id p).

(** Source: crates/ub-control/src/message.rs:629-633, [RegionDeletePayload::decode]. *)
Definition RegionDeletePayload_parser : Parser RegionDeletePayload :=
  region_id <- read_u64 ;;
  pret (mkRegionDeletePayload region_id).

#[global, refine] Instance RegionDeletePayload_payload : Payload RegionDeletePayload := {|
  p_encode := RegionDeletePayload_encode;
  p_parser := RegionDeletePayload_parser;
  p_ok p :=
    u64 (rd_region_id p);
|}.
Proof. all: payload RegionDeletePayload_encode RegionDeletePayload_parser. Defined.

(** Source: crates/ub-control/src/message.rs:638-643, [FetchPayload]. *)
Record FetchPayload : Type := mkFetchPayload {
  fp_region_id : Z;
  fp_offset : Z;
  fp_len : Z;
  fp_requester_node_id : Z;
}.

(** Source: crates/ub-control/src/message.rs:646-653, [FetchPayload::encode]. *)
Definition FetchPayload_encode (p : FetchPayload) : bytes :=
  put_u64 (fp_region_id p) ++ put_u64 (fp_offset p) ++ put_u32 (fp_len p)
  ++ put_u16 (fp_requester_node_id p).

(** Source: crates/ub-control/src/message.rs:655-662, [FetchPayload::decode]. *)
Definition FetchPayload_parser : Parser FetchPayload :=
  region_id <- read_u64 ;;
  offset <- read_u64 ;;
  len <- read_u32 ;;
  requester_node_id <- read_u16 ;;
  pret (mkFetchPayload region_id offset len requester_node_id).

#[global, refine] Instance FetchPayload_payload : Payload FetchPayload := {|
  p_encode := FetchPayload_encode;
  p_parser := FetchPayload_parser;
  p_ok p :=
    u64 (fp_region_id p) /\ u64 (fp_offset p) /\ u32 (fp_len p) /\ u16 (fp_requester_node_id p);
|}.
Proof. all: payload FetchPayload_encode FetchPayload_parser. Defined.

(** Source: crates/ub-control/src/message.rs:667-672, [FetchRespPayload]. *)
Record FetchRespPayload : Type := mkFetchRespPayload {
  fr_region_id : Z;
  fr_epoch : Z;
  fr_payload : bytes;
  fr_error_code : Z;
}.

(** Source: crates/ub-control/src/message.rs:675-683, [FetchRespPayload::encode]. *)
Definition FetchRespPayload_encode (p : FetchRespPayload) : bytes :=
  put_u64 (fr_region_id p) ++ put_u64 (fr_epoch p) ++ put_bytes (fr_payload p)
  ++ put_u32 (fr_error_code p).

(** Source: crates/ub-control/src/message.rs:685-694, [FetchRespPayload::decode]. *)
Definition FetchRespPayload_parser : Parser FetchRespPayload :=
  region_id <- read_u64 ;;
  epoch <- read_u64 ;;
  payload <- read_bytes ;;
  error_code <- read_u32 ;;
  pret (mkFetchRespPayload region_id epoch payload error_code).

#[global, refine] Instance FetchRespPayload_payload : Payload FetchRespPayload := {|
  p_encode := FetchRespPayload_encode;
  p_parser := FetchRespPayload_parser;
  p_ok p :=
    u64 (fr_region_id p) /\ u64 (fr_epoch p) /\ u32 (Z.of_nat (length (fr_payload p)))
    /\ u32 (fr_error_code p);
|}.
Proof. all: payload FetchRespPayload_encode FetchRespPayload_parser. Defined.

(** Source: crates/ub-control/src/message.rs:699-702, [WriteLockReqPayload]. *)
Record WriteLockReqPayload : Type := mkWriteLockReqPayload {
  wq_region_id : Z;
  wq_writer_node_id : Z;
}.

(** Source: crates/ub-control/src/message.rs:705-710, [WriteLockReqPayload::encode]. *)
Definition WriteLockReqPayload_encode (p : WriteLockReqPayload) : bytes :=
  put_u64 (wq_region_id p) ++ put_u16 (wq_writer_node_id p).

(** Source: crates/ub-control/src/message.rs:712-717, [WriteLockReqPayload::decode]. *)
Definition WriteLockReqPayload_parser : Parser WriteLockReqPayload :=
  region_id <- read_u64 ;;
  writer_node_id <- read_u16 ;;
  pret (mkWriteLockReqPayload region_id writer_node_id).

#[global, refine] Instance WriteLockReqPayload_payload : Payload WriteLockReqPayload := {|
  p_encode := WriteLockReqPayload_encode;
  p_parser := WriteLockReqPayload_parser;
  p_ok p :=
    u64 (wq_region_id p) /\ u16 (wq_writer_node_id p);
|}.
Proof. all: payload WriteLockReqPayload_encode WriteLockReqPayload_parser. Defined.

(** Source: crates/ub-control/src/message.rs:722-726, [WriteLockGrantedPayload]. *)
Record WriteLockGrantedPayload : Type := mkWriteLockGrantedPayload {
  wg_region_id : Z;
  wg_epoch : Z;
  wg_error_code : Z;
}.

(** Source: crates/ub-control/src/message.rs:729-735, [WriteLockGrantedPayload::encode]. *)
Definition WriteLockGrantedPayload_encode (p : WriteLockGrantedPayload) : bytes :=
  put_u64 (wg_region_id p) ++ put_u64 (wg_epoch p) ++ put_u32 (wg_error_code p).

(** Source: crates/ub-control/src/message.rs:737-743, [WriteLockGrantedPayload::decode]. *)
Definition WriteLockGrantedPayload_parser : Parser WriteLockGrantedPayload :=
  region_id <- read_u64 ;;
  epoch <- read_u64 ;;
  error_code <- read_u32 ;;
  pret (mkWriteLockGrantedPayload region_id epoch error_code).

#[global, refine] Instance WriteLockGrantedPayload_payload : Payload WriteLockGrantedPayload := {|
  p_encode := WriteLockGrantedPayload_encode;
  p_parser := WriteLockGrantedPayload_parser;
  p_ok p :=
    u64 (wg_region_id p) /\ u64 (wg_epoch p) /\ u32 (wg_error_code p);
|}.
Proof. all: payload WriteLockGrantedPayload_encode WriteLockGrantedPayload_parser. Defined.

(** Source: crates/ub-control/src/message.rs:748-751, [WriteUnlockPayload]. *)
Record WriteUnlockPayload : Type := mkWriteUnlockPayload {
  wu_region_id : Z;
  wu_writer_node_id : Z;
}.

(** Source: crates/ub-control/src/message.rs:754-759, [WriteUnlockPayload::encode]. *)
Definition WriteUnlockPayload_encode (p : WriteUnlockPayload) : bytes :=
  put_u64 (wu_region_id p) ++ put_u16 (wu_writer_node_id p).

(** Source: crates/ub-control/src/message.rs:761-766, [WriteUnlockPayload::decode]. *)
Definition WriteUnlockPayload_parser : Parser WriteUnlockPayload :=
  region_id <- read_u64 ;;
  writer_node_id <- read_u16 ;;
  pret (mkWriteUnlockPayload region_id writer_node_id).

#[global, refine] Instance WriteUnlockPayload_payload : Payload WriteUnlockPayload := {|
  p_encode := WriteUnlockPayload_encode;
  p_parser := WriteUnlockPayload_parser;
  p_ok p :=
    u64 (wu_region_id p) /\ u16 (wu_writer_node_id p);
|}.
Proof. all: payload WriteUnlockPayload_encode WriteUnlockPayload_parser. Defined.

(** Source: crates/ub-control/src/message.rs:771-774, [InvalidatePayload]. *)
Record InvalidatePayload : Type := mkInvalidatePayload {
  iv_region_id : Z;
  iv_new_epoch : Z;
}.

(** Source: crates/ub-control/src/message.rs:777-782, [InvalidatePayload::encode]. *)
Definition InvalidatePayload_encode (p : InvalidatePayload) : bytes :=
  put_u64 (iv_region_id p) ++ put_u64 (iv_new_epoch p).

(** Source: crates/ub-control/src/message.rs:784-789, [InvalidatePayload::decode]. *)
Definition InvalidatePayload_parser : Parser InvalidatePayload :=
  region_id <- read_u64 ;;
  new_epoch <- read_u64 ;;
  pret (mkInvalidatePayload region_id new_epoch).

#[global, refine] Instance InvalidatePayload_payload : Payload InvalidatePayload := {|
  p_encode := InvalidatePayload_encode;
  p_parser := InvalidatePayload_parser;
  p_ok p :=
    u64 (iv_region_id p) /\ u64 (iv_new_epoch p);
|}.
Proof. all: payload InvalidatePayload_encode InvalidatePayload_parser. Defined.

(** Source: crates/ub-control/src/message.rs:794-796, [InvalidateAckPayload]. *)
Record InvalidateAckPayload : Type := mkInvalidateAckPayload {
  ia_region_id : Z;
}.

(** Source: crates/ub-control/src/message.rs:799-803, [InvalidateAckPayload::encode]. *)
Definition InvalidateAckPayload_encode (p : InvalidateAckPayload) : bytes :=
  put_u64 (ia_region_id p).

(** Source: crates/ub-control/src/message.rs:805-809, [InvalidateAckPayload::decode]. *)
Definition InvalidateAckPayload_parser : Parser InvalidateAckPayload :=
  region_id <- read_u64 ;;
  pret (mkInvalidateAckPayload region_id).

#[global, refine] Instance InvalidateAckPayload_payload : Payload InvalidateAckPayload := {|
  p_encode := InvalidateAckPayload_encode;
  p_parser := InvalidateAckPayload_parser;
  p_ok p :=
    u64 (ia_region_id p);
|}.
Proof. all: payload InvalidateAckPayload_encode InvalidateAckPayload_parser. Defined.

(** ** Messages *)

(** Source: crates/ub-control/src/message.rs:12-36, [CtrlMsgType]. *)
Inductive CtrlMsgType : Type :=
| CtrlMsgType_Hello
| CtrlMsgType_HelloAck
| CtrlMsgType_MemberUp
| CtrlMsgType_MemberDown
| CtrlMsgType_MemberSnapshot
| CtrlMsgType_MrPublish
| CtrlMsgType_MrRevoke
| CtrlMsgType_Heartbeat
| CtrlMsgType_HeartbeatAck
| CtrlMsgType_Join
| CtrlMsgType_DeviceProfilePublish
| CtrlMsgType_AllocReq
| CtrlMsgType_AllocResp
| CtrlMsgType_RegionCreate
| CtrlMsgType_RegionCreateOk
| CtrlMsgType_RegionDelete
| CtrlMsgType_Fetch
| CtrlMsgType_FetchResp
| CtrlMsgType_WriteLockReq
| CtrlMsgType_WriteLockGranted
| CtrlMsgType_WriteUnlock
| CtrlMsgType_Invalidate
| CtrlMsgType_InvalidateAck.

#[global] Instance CtrlMsgType_eq_dec : EqDecision CtrlMsgType.
Proof. solve_decision. Defined.

(** [msg_type as u8] *)
Definition CtrlMsgType_as_u8 (t : CtrlMsgType) : Z :=
  match t with
  | CtrlMsgType_Hello => 0x01
  | CtrlMsgType_HelloAck => 0x02
  | CtrlMsgType_MemberUp => 0x03
  | CtrlMsgType_MemberDown => 0x04
  | CtrlMsgType_MemberSnapshot => 0x05
  | CtrlMsgType_MrPublish => 0x06
  | CtrlMsgType_MrRevoke => 0x07
  | CtrlMsgType_Heartbeat => 0x08
  | CtrlMsgType_HeartbeatAck => 0x09
  | CtrlMsgType_Join => 0x10
  | CtrlMsgType_DeviceProfilePublish => 0x11
  | CtrlMsgType_AllocReq => 0x12
  | CtrlMsgType_AllocResp => 0x13
  | CtrlMsgType_RegionCreate => 0x14
  | CtrlMsgType_RegionCreateOk => 0x15
  | CtrlMsgType_RegionDelete => 0x16
  | CtrlMsgType_Fetch => 0x17
  | CtrlMsgType_FetchResp => 0x18
  | CtrlMsgType_WriteLockReq => 0x19
  | CtrlMsgType_WriteLockGranted => 0x1A
  | CtrlMsgType_WriteUnlock => 0x1B
  | CtrlMsgType_Invalidate => 0x1C
  | CtrlMsgType_InvalidateAck => 0x1D
  end.

(** Source: crates/ub-control/src/message.rs:39-66, [CtrlMsgType::from_u8]. *)
Definition CtrlMsgType_from_u8 (v : Z) : option CtrlMsgType :=
  if v =? 0x01 then Some CtrlMsgType_Hello
  else if v =? 0x02 then Some CtrlMsgType_HelloAck
  else if v =? 0x03 then Some CtrlMsgType_MemberUp
  else if v =? 0x04 then Some CtrlMsgType_MemberDown
  else if v =? 0x05 then Some CtrlMsgType_MemberSnapshot
  else if v =? 0x06 then Some CtrlMsgType_MrPublish
  else if v =? 0x07 then Some CtrlMsgType_MrRevoke
  else if v =? 0x08 then Some CtrlMsgType_Heartbeat
  else if v =? 0x09 then Some CtrlMsgType_HeartbeatAck
  else if v =? 0x10 then Some CtrlMsgType_Join
  else if v =? 0x11 then Some CtrlMsgType_DeviceProfilePublish
  else if v =? 0x12 then Some CtrlMsgType_AllocReq
  else if v =? 0x13 then Some CtrlMsgType_AllocResp
  else if v =? 0x14 then Some CtrlMsgType_RegionCreate
  else if v =? 0x15 then Some CtrlMsgType_RegionCreateOk
  else if v =? 0x16 then Some CtrlMsgType_RegionDelete
  else if v =? 0x17 then Some CtrlMsgType_Fetch
  else if v =? 0x18 then Some CtrlMsgType_FetchResp
  else if v =? 0x19 then Some CtrlMsgType_WriteLockReq
  else if v =? 0x1A then Some CtrlMsgType_WriteLockGranted
  else if v =? 0x1B then Some CtrlMsgType_WriteUnlock
  else if v =? 0x1C then Some CtrlMsgType_Invalidate
  else if v =? 0x1D then Some CtrlMsgType_InvalidateAck
  else None.

#[global, refine] Instance CtrlMsgType_wire : WireEnum CtrlMsgType :=
  {| as_u8 := CtrlMsgType_as_u8; from_u8 := CtrlMsgType_from_u8 |}.
Proof. all: wire_enum. Defined.

(** Source: crates/ub-control/src/message.rs:70-77, [encode_ctrl_message]. *)
Definition encode_ctrl_message (msg_type : CtrlMsgType) (payload : bytes) : bytes :=
  put_u32 (Z.of_nat (length payload)) ++ put_u8 (as_u8 msg_type) ++ payload.

(** Source: crates/ub-control/src/message.rs:80-95, [decode_ctrl_message]. *)
Definition decode_ctrl_message (buf : bytes) : Result (CtrlMsgType * bytes) :=
  if (length buf <? 5)%nat then Err (Internal "control message too short")
  else
    let? (len, msg_type) := run (
      len <- read_u32 ;;
      msg_type_u8 <- read_u8 ;;
      msg_type <- plift (from_u8 (E := CtrlMsgType) msg_type_u8) (Internal "unknown ctrl msg type: ") ;;
      pret (len, msg_type)) buf in
    if Z.of_nat (length buf) <? 5 + len then Err (Internal "control message truncated")
    else Ok (msg_type, take (Z.to_nat len) (drop 5 buf)).

(** Source: crates/ub-control/src/message.rs:814-838, [ControlMsg]. *)
Inductive ControlMsg : Type :=
| ControlMsg_Hello (p : HelloPayload)
| ControlMsg_HelloAck (p : HelloPayload)
| ControlMsg_MemberUp (p : HelloPayload)
| ControlMsg_MemberDown (p : MemberDownPayload)
| ControlMsg_MemberSnapshot (p : MemberSnapshotPayload)
| ControlMsg_Heartbeat (p : HeartbeatPayload)
| ControlMsg_HeartbeatAck (p : HeartbeatPayload)
| ControlMsg_MrPublish (p : MrPublishPayload)
| ControlMsg_MrRevoke (p : MrRevokePayload)
| ControlMsg_Join (p : JoinPayload)
| ControlMsg_DeviceProfilePublish (p : DeviceProfilePublishPayload)
| ControlMsg_AllocReq (p : AllocReqPayload)
| ControlMsg_AllocResp (p : AllocRespPayload)
| ControlMsg_RegionCreate (p : RegionCreatePayload)
| ControlMsg_RegionCreateOk (p : RegionCreateOkPayload)
| ControlMsg_RegionDelete (p : RegionDeletePayload)
| ControlMsg_Fetch (p : FetchPayload)
| ControlMsg_FetchResp (p : FetchRespPayload)
| ControlMsg_WriteLockReq (p : WriteLockReqPayload)
| ControlMsg_WriteLockGranted (p : WriteLockGrantedPayload)
| ControlMsg_WriteUnlock (p : WriteUnlockPayload)
| ControlMsg_Invalidate (p : InvalidatePayload)
| ControlMsg_InvalidateAck (p : InvalidateAckPayload).

(** Source: crates/ub-control/src/message.rs:841-867, [ControlMsg::msg_type]. *)
Definition ControlMsg_msg_type (m : ControlMsg) : CtrlMsgType :=
  match m with
  | ControlMsg_Hello _ => CtrlMsgType_Hello
  | ControlMsg_HelloAck _ => CtrlMsgType_HelloAck
  | ControlMsg_MemberUp _ => CtrlMsgType_MemberUp
  | ControlMsg_MemberDown _ => CtrlMsgType_MemberDown
  | ControlMsg_MemberSnapshot _ => CtrlMsgType_MemberSnapshot
  | ControlMsg_Heartbeat _ => CtrlMsgType_Heartbeat
  | ControlMsg_HeartbeatAck _ => CtrlMsgType_HeartbeatAck
  | ControlMsg_MrPublish _ => CtrlMsgType_MrPublish
  | ControlMsg_MrRevoke _ => CtrlMsgType_MrRevoke
  | ControlMsg_Join _ => CtrlMsgType_Join
  | ControlMsg_DeviceProfilePublish _ => CtrlMsgType_DeviceProfilePublish
  | ControlMsg_AllocReq _ => CtrlMsgType_AllocReq
  | ControlMsg_AllocResp _ => CtrlMsgType_AllocResp
  | ControlMsg_RegionCreate _ => CtrlMsgType_RegionCreate
  | ControlMsg_RegionCreateOk _ => CtrlMsgType_RegionCreateOk
  | ControlMsg_RegionDelete _ => CtrlMsgType_RegionDelete
  | ControlMsg_Fetch _ => CtrlMsgType_Fetch
  | ControlMsg_FetchResp _ => CtrlMsgType_FetchResp
  | ControlMsg_WriteLockReq _ => CtrlMsgType_WriteLockReq
  | ControlMsg_WriteLockGranted _ => CtrlMsgType_WriteLockGranted
  | ControlMsg_WriteUnlock _ => CtrlMsgType_WriteUnlock
  | ControlMsg_Invalidate _ => CtrlMsgType_Invalidate
  | ControlMsg_InvalidateAck _ => CtrlMsgType_InvalidateAck
  end.

(** Source: crates/ub-control/src/message.rs:869-895, [ControlMsg::encode_payload]. *)
Definition ControlMsg_encode_payload (m : ControlMsg) : bytes :=
  match m with
  | ControlMsg_Hello p => p_encode p
  | ControlMsg_HelloAck p => p_encode p
  | ControlMsg_MemberUp p => p_encode p
  | ControlMsg_MemberDown p => p_encode p
  | ControlMsg_MemberSnapshot p => p_encode p
  | ControlMsg_Heartbeat p => p_encode p
  | ControlMsg_HeartbeatAck p => p_encode p
  | ControlMsg_MrPublish p => p_encode p
  | ControlMsg_MrRevoke p => p_encode p
  | ControlMsg_Join p => p_encode p
  | ControlMsg_DeviceProfilePublish p => p_encode p
  | ControlMsg_AllocReq p => p_encode p
  | ControlMsg_AllocResp p => p_encode p
  | ControlMsg_RegionCreate p => p_encode p
  | ControlMsg_RegionCreateOk p => p_encode p
  | ControlMsg_RegionDelete p => p_encode p
  | ControlMsg_Fetch p => p_encode p
  | ControlMsg_FetchResp p => p_encode p
  | ControlMsg_WriteLockReq p => p_encode p
  | ControlMsg_WriteLockGranted p => p_encode p
  | ControlMsg_WriteUnlock p => p_encode p
  | ControlMsg_Invalidate p => p_encode p
  | ControlMsg_InvalidateAck p => p_encode p
  end.

(** Source: crates/ub-control/src/message.rs:898-901, [ControlMsg::encode]. *)
Definition ControlMsg_encode (m : ControlMsg) : bytes :=
  encode_ctrl_message (ControlMsg_msg_type m) (ControlMsg_encode_payload m).

(** Source: crates/ub-control/src/message.rs:904-931, [ControlMsg::decode]. *)
Definition ControlMsg_decode (buf : bytes) : Result ControlMsg :=
  let? (msg_type, payload) := decode_ctrl_message buf in
  match msg_type with
  | CtrlMsgType_Hello => let? p := p_decode payload in Ok (ControlMsg_Hello p)
  | CtrlMsgType_HelloAck => let? p := p_decode payload in Ok (ControlMsg_HelloAck p)
  | CtrlMsgType_MemberUp => let? p := p_decode payload in Ok (ControlMsg_MemberUp p)
  | CtrlMsgType_MemberDown => let? p := p_decode payload in Ok (ControlMsg_MemberDown p)
  | CtrlMsgType_MemberSnapshot => let? p := p_decode payload in Ok (ControlMsg_MemberSnapshot p)
  | CtrlMsgType_Heartbeat => let? p := p_decode payload in Ok (ControlMsg_Heartbeat p)
  | CtrlMsgType_HeartbeatAck => let? p := p_decode payload in Ok (ControlMsg_HeartbeatAck p)
  | CtrlMsgType_MrPublish => let? p := p_decode payload in Ok (ControlMsg_MrPublish p)
  | CtrlMsgType_MrRevoke => let? p := p_decode payload in Ok (ControlMsg_MrRevoke p)
  | CtrlMsgType_Join => let? p := p_decode payload in Ok (ControlMsg_Join p)
  | CtrlMsgType_DeviceProfilePublish => let? p := p_decode payload in Ok (ControlMsg_DeviceProfilePublish p)
  | CtrlMsgType_AllocReq => let? p := p_decode payload in Ok (ControlMsg_AllocReq p)
  | CtrlMsgType_AllocResp => let? p := p_decode payload in Ok (ControlMsg_AllocResp p)
  | CtrlMsgType_RegionCreate => let? p := p_decode payload in Ok (ControlMsg_RegionCreate p)
  | CtrlMsgType_RegionCreateOk => let? p := p_decode payload in Ok (ControlMsg_RegionCreateOk p)
  | CtrlMsgType_RegionDelete => let? p := p_decode payload in Ok (ControlMsg_RegionDelete p)
  | CtrlMsgType_Fetch => let? p := p_decode payload in Ok (ControlMsg_Fetch p)
  | CtrlMsgType_FetchResp => let? p := p_decode payload in Ok (ControlMsg_FetchResp p)
  | CtrlMsgType_WriteLockReq => let? p := p_decode payload in Ok (ControlMsg_WriteLockReq p)
  | CtrlMsgType_WriteLockGranted => let? p := p_decode payload in Ok (ControlMsg_WriteLockGranted p)
  | CtrlMsgType_WriteUnlock => let? p := p_decode payload in Ok (ControlMsg_WriteUnlock p)
  | CtrlMsgType_Invalidate => let? p := p_decode payload in Ok (ControlMsg_Invalidate p)
  | CtrlMsgType_InvalidateAck => let? p := p_decode payload in Ok (ControlMsg_InvalidateAck p)
  end.

(** The fields fit the wire. *)
Definition msg_ok (m : ControlMsg) : Prop :=
  match m with
  | ControlMsg_Hello p => p_ok p
  | ControlMsg_HelloAck p => p_ok p
  | ControlMsg_MemberUp p => p_ok p
  | ControlMsg_MemberDown p => p_ok p
  | ControlMsg_MemberSnapshot p => p_ok p
  | ControlMsg_Heartbeat p => p_ok p
  | ControlMsg_HeartbeatAck p => p_ok p
  | ControlMsg_MrPublish p => p_ok p
  | ControlMsg_MrRevoke p => p_ok p
  | ControlMsg_Join p => p_ok p
  | ControlMsg_DeviceProfilePublish p => p_ok p
  | ControlMsg_AllocReq p => p_ok p
  | ControlMsg_AllocResp p => p_ok p
  | ControlMsg_RegionCreate p => p_ok p
  | ControlMsg_RegionCreateOk p => p_ok p
  | ControlMsg_RegionDelete p => p_ok p
  | ControlMsg_Fetch p => p_ok p
  | ControlMsg_FetchResp p => p_ok p
  | ControlMsg_WriteLockReq p => p_ok p
  | ControlMsg_WriteLockGranted p => p_ok p
  | ControlMsg_WriteUnlock p => p_ok p
  | ControlMsg_Invalidate p => p_ok p
  | ControlMsg_InvalidateAck p => p_ok p
  end.

(** ** Properties *)

Lemma p_decode_encode {P} `{Payload P} (p : P) : p_ok p -> p_decode (p_encode p) = Ok p.
Proof. intros Hp. by apply inverts_run, p_inverts. Qed.

Lemma p_decode_no_panic {P} `{Payload P} data : p_decode (P := P) data <> Panic.
Proof. apply total_run, p_total. Qed.

Lemma decode_encode_ctrl t payload rest :
  u32 (Z.of_nat (length payload)) ->
  decode_ctrl_message (encode_ctrl_message t payload ++ rest) = Ok (t, payload).
Proof.
  intros Hl. unfold decode_ctrl_message, encode_ctrl_message.
  rewrite (proj2 (Nat.ltb_ge _ _)) by (rewrite !length_app, !length_be_bytes; lia).
  rewrite <- !app_assoc. unfold run at 1. parse. cbn [pret rbind].
  rewrite (proj2 (Z.ltb_ge _ _)) by (rewrite !length_app, !length_be_bytes; lia).
  rewrite Nat2Z.id. do 2 f_equal.
  rewrite app_assoc, drop_app_length' by (by rewrite !length_app, !length_be_bytes).
  by rewrite take_app_length.
Qed.

Lemma decode_ctrl_no_panic buf : decode_ctrl_message buf <> Panic.
Proof.
  unfold decode_ctrl_message. case_goal; [done|]. apply rbind_no_panic.
  - apply total_run. repeat (apply total_pbind; intros); auto with codec.
  - intros [len t] _. by case_goal.
Qed.

Lemma decode_encode_msg m rest :
  msg_ok m -> u32 (Z.of_nat (length (ControlMsg_encode_payload m))) ->
  ControlMsg_decode (ControlMsg_encode m ++ rest) = Ok m.
Proof.
  intros Hm Hl. unfold ControlMsg_decode, ControlMsg_encode.
  rewrite decode_encode_ctrl by done. cbn [rbind].
  destruct m; cbn [ControlMsg_msg_type ControlMsg_encode_payload msg_ok] in *;
    by rewrite p_decode_encode.
Qed.

(** C28 (roundtrip): Every control message whose fields fit the wire survives encoding and decoding,
    whatever bytes follow it in the stream: all 23 message types, with their strings, lists of
    nodes and lists of device profiles. *)
Theorem control_msg_roundtrip m rest :
  msg_ok m -> u32 (Z.of_nat (length (ControlMsg_encode_payload m))) ->
  ControlMsg_decode (ControlMsg_encode m ++ rest) = Ok m.
Proof. apply decode_encode_msg. Qed.

Definition sample_join : ControlMsg :=
  ControlMsg_Join (mkJoinPayload 7 3 (str "10.0.0.1:7901") (str "10.0.0.1:7900") 64).

Lemma control_msg_roundtrip_witness :
  ControlMsg_decode (ControlMsg_encode sample_join ++ [1; 2; 3]) = Ok sample_join.
Proof.
  apply control_msg_roundtrip.
  - refine (conj (bool_decide_unpack _ _) (conj (bool_decide_unpack _ _)
      (conj (conj (bool_decide_unpack _ _) (conj eq_refl (bool_decide_unpack _ _)))
      (conj (conj (bool_decide_unpack _ _) (conj eq_refl (bool_decide_unpack _ _)))
            (bool_decide_unpack _ _))))); vm_compute; exact I.
  - split; [discriminate|reflexivity].
Defined.

(** Whatever bytes a peer sends, decoding a control message returns a message or an
    error: no length, count, enum byte or string in it makes the decoder panic. *)
Theorem control_msg_no_panic buf : ControlMsg_decode buf <> Panic.
Proof.
  unfold ControlMsg_decode. apply rbind_no_panic; [apply decode_ctrl_no_panic|].
  intros [t payload] _. destruct t; (apply rbind_no_panic; [apply p_decode_no_panic|done]).
Qed.
