(* ===== verification/Member.v ===== *)
(** * Member: the member table of the SuperPod

    crates/ub-control/src/member.rs. The table is a vector of rows; a row's sender
    is the identity of an [mpsc] channel in the store [Chan]s, because clones of a
    [Sender] share their queue. The bound of a queue (256) only makes its sender
    wait for the connection's writer and is not modelled. *)

From S2P Require Import Prelude Bytes Types.

(** ** Channels to peers *)

(** The queue of one connection; [ch_open] until its receiver is dropped. *)
Record Chan : Type := mkChan {
  ch_open : bool;
  ch_queue : list bytes;
}.

Abbreviation Chans := (list Chan).

(** [tx.send(data).await]; the flag is [is_ok()]. *)
Definition chan_send (chans : Chans) (tx : nat) (data : bytes) : Chans * bool :=
  match chans !! tx with
  | Some (mkChan true q) => (<[tx := mkChan true (q ++ [data])]> chans, true)
  | _ => (chans, false)
  end.

(** What is queued on a channel. *)
Definition queued (chans : Chans) (tx : nat) : list bytes :=
  match chans !! tx with
  | Some c => ch_queue c
  | None => []
  end.

(** ** Rows and the table *)

(** Source: crates/ub-control/src/member.rs:9-19, [NodeInfo]. *)
Record NodeInfo : Type := mkNodeInfo {
  ni_node_id : Z;
  ni_state : NodeState;
  ni_control_addr : bytes;
  ni_data_addr : bytes;
  ni_epoch : Z;
  ni_initial_credits : Z;
  ni_last_seen : option Z;
  ni_tx : option nat;
}.

#[global] Instance NodeInfo_settable : Settable NodeInfo := fun n =>
  mkNodeInfo (ni_node_id n) (ni_state n) (ni_control_addr n) (ni_data_addr n) (ni_epoch n)
    (ni_initial_credits n) (ni_last_seen n) (ni_tx n).

(** Source: crates/ub-control/src/member.rs:22-25, [MemberTable]. *)
Record MemberTable : Type := mkMemberTable {
  mb_local_node_id : Z;
  mb_nodes : list NodeInfo;
}.

#[global] Instance MemberTable_settable : Settable MemberTable := fun t =>
  mkMemberTable (mb_local_node_id t) (mb_nodes t).

(** Source: crates/ub-control/src/member.rs:28-33, [MemberTable::new]. *)
Definition MemberTable_new (local_node_id : Z) : MemberTable := mkMemberTable local_node_id [].

(** [nodes.iter().find(|n| n.node_id == node_id)] *)
Fixpoint find_node (node_id : Z) (nodes : list NodeInfo) : option NodeInfo :=
  match nodes with
  | [] => None
  | n :: nodes => if ni_node_id n =? node_id then Some n else find_node node_id nodes
  end.

(** Assigning through [nodes.iter_mut().find(|n| n.node_id == node_id)]. *)
Fixpoint update_node (node_id : Z) (f : NodeInfo -> NodeInfo) (nodes : list NodeInfo)
  : list NodeInfo :=
  match nodes with
  | [] => []
  | n :: nodes =>
    if ni_node_id n =? node_id then f n :: nodes else n :: update_node node_id f nodes
  end.

(** Source: crates/ub-control/src/member.rs:36-48, [MemberTable::upsert].
    An existing row keeps its [last_seen]. *)
Definition MemberTable_upsert (t : MemberTable) (info : NodeInfo) : MemberTable :=
  match find_node (ni_node_id info) (mb_nodes t) with
  | Some _ =>
    t <| mb_nodes := update_node (ni_node_id info) (fun existing =>
           existing <| ni_state := ni_state info |>
                    <| ni_control_addr := ni_control_addr info |>
                    <| ni_data_addr := ni_data_addr info |>
                    <| ni_epoch := ni_epoch info |>
                    <| ni_initial_credits := ni_initial_credits info |>
                    <| ni_tx := ni_tx info |>) (mb_nodes t) |>
  | None => t <| mb_nodes := mb_nodes t ++ [info] |>
  end.

(** Source: crates/ub-control/src/member.rs:51-56, [MemberTable::mark_down]. *)
Definition MemberTable_mark_down (t : MemberTable) (node_id : Z) : MemberTable :=
  t <| mb_nodes := update_node node_id (fun n => n <| ni_state := NodeState_Down |>) (mb_nodes t) |>.

(** Source: crates/ub-control/src/member.rs:59-66, [MemberTable::mark_suspect]. *)
Definition MemberTable_mark_suspect (t : MemberTable) (node_id : Z) : MemberTable :=
  t <| mb_nodes := update_node node_id (fun n =>
         if decide (ni_state n = NodeState_Active) then n <| ni_state := NodeState_Suspect |> else n)
         (mb_nodes t) |>.

(** Source: crates/ub-control/src/member.rs:69-74, [MemberTable::mark_active]. *)
Definition MemberTable_mark_active (t : MemberTable) (node_id : Z) : MemberTable :=
  t <| mb_nodes := update_node node_id (fun n => n <| ni_state := NodeState_Active |>) (mb_nodes t) |>.

(** Source: crates/ub-control/src/member.rs:77-82, [MemberTable::update_last_seen]. *)
Definition MemberTable_update_last_seen (t : MemberTable) (node_id ts : Z) : MemberTable :=
  t <| mb_nodes := update_node node_id (fun n => n <| ni_last_seen := Some ts |>) (mb_nodes t) |>.

(** Source: crates/ub-control/src/member.rs:85-88, [MemberTable::get_peer_tx]. *)
Definition MemberTable_get_peer_tx (t : MemberTable) (node_id : Z) : option nat :=
  n ← find_node node_id (mb_nodes t); ni_tx n.

(** [n.node_id != self.local_node_id && n.state != NodeState::Down] *)
Definition is_live_peer (t : MemberTable) (n : NodeInfo) : bool :=
  negb (ni_node_id n =? mb_local_node_id t) && negb (bool_decide (ni_state n = NodeState_Down)).

(** Source: crates/ub-control/src/member.rs:91-97, [MemberTable::active_peer_ids]. *)
Definition MemberTable_active_peer_ids (t : MemberTable) : list Z :=
  map ni_node_id (List.filter (is_live_peer t) (mb_nodes t)).

(** Source: crates/ub-control/src/member.rs:100-107, [MemberTable::list]. *)
Definition MemberTable_list (t : MemberTable) : list NodeInfo :=
  map (fun n => n <| ni_tx := None |>) (mb_nodes t).

(** Source: crates/ub-control/src/member.rs:110-116, [MemberTable::active_peer_senders]. *)
Definition MemberTable_active_peer_senders (t : MemberTable) : list (Z * nat) :=
  omap (fun n => tx ← ni_tx n; Some (ni_node_id n, tx))
    (List.filter (is_live_peer t) (mb_nodes t)).

(** Source: crates/ub-control/src/member.rs:119-126, [MemberTable::get]. *)
Definition MemberTable_get (t : MemberTable) (node_id : Z) : option NodeInfo :=
  n ← find_node node_id (mb_nodes t); Some (n <| ni_tx := None |>).

(** [for (_, tx) in senders { let _ = tx.send(data.clone()).await; }] *)
Definition send_to_all (chans : Chans) (senders : list (Z * nat)) (data : bytes) : Chans :=
  foldl (fun chans s => (chan_send chans s.2 data).1) chans senders.

(** Source: crates/ub-control/src/member.rs:135-148, [MemberTable::broadcast]. *)
Definition MemberTable_broadcast (t : MemberTable) (chans : Chans) (data : bytes) : Chans :=
  let senders :=
    omap (fun n => tx ← ni_tx n; Some (ni_node_id n, tx))
      (List.filter (fun n => negb (ni_node_id n =? mb_local_node_id t)
                             && bool_decide (ni_state n = NodeState_Active)) (mb_nodes t)) in
  send_to_all chans senders data.

(** ** The table as a map

    Each node has at most one row, so the table is a finite map from node ids to
    rows, and each operation changes the row of one node. *)

Definition member_ids (t : MemberTable) : list Z := map ni_node_id (mb_nodes t).

Definition row (t : MemberTable) (node_id : Z) : option NodeInfo := find_node node_id (mb_nodes t).

Lemma find_node_Some node_id nodes n :
  find_node node_id nodes = Some n -> n ∈ nodes /\ ni_node_id n = node_id.
Proof.
  induction nodes as [|m nodes IH]; cbn; [done|]. case_match; zbool.
  - intros [= ->]. split; [by apply elem_of_cons; left|done].
  - intros [Hn Hid]%IH. split; [by apply elem_of_cons; right|done].
Qed.

Lemma find_node_None node_id nodes :
  find_node node_id nodes = None <-> node_id ∉ map ni_node_id nodes.
Proof.
  induction nodes as [|m nodes IH]; cbn; [split; [by intros _ ?%elem_of_nil|done]|].
  rewrite not_elem_of_cons, <- IH. case_match; zbool; [split; [done|by intros []]|].
  split; [by split|by intros []].
Qed.

(** With unique ids, a row in the vector is the one [find] returns. *)
Lemma find_node_elem nodes n :
  NoDup (map ni_node_id nodes) -> n ∈ nodes -> find_node (ni_node_id n) nodes = Some n.
Proof.
  induction nodes as [|m nodes IH]; cbn; [by intros _ ?%elem_of_nil|].
  intros [Hm Hnd]%NoDup_cons [->|Hn]%elem_of_cons; [by rewrite Z.eqb_refl|].
  case_match; zbool; [|by apply IH]. destruct Hm. rewrite H. by apply list_elem_of_fmap_2.
Qed.

Section update.
Context (f : NodeInfo -> NodeInfo) (Hf : forall n, ni_node_id (f n) = ni_node_id n).

Lemma update_node_ids node_id nodes :
  map ni_node_id (update_node node_id f nodes) = map ni_node_id nodes.
Proof. induction nodes as [|n nodes IH]; cbn; [done|]. case_match; cbn; rewrite ?Hf, ?IH; done. Qed.

Lemma find_update_node node_id nodes j :
  find_node j (update_node node_id f nodes)
  = if j =? node_id then f <$> find_node j nodes else find_node j nodes.
Proof.
  induction nodes as [|n nodes IH]; cbn; [by case_match|].
  destruct (ni_node_id n =? node_id) eqn:E1; cbn; rewrite ?Hf.
  - destruct (ni_node_id n =? j) eqn:E2; zbool.
    + rewrite (proj2 (Z.eqb_eq j node_id)) by congruence. done.
    + rewrite (proj2 (Z.eqb_neq j node_id)) by congruence. done.
  - destruct (ni_node_id n =? j) eqn:E2; [|done]. zbool.
    by rewrite (proj2 (Z.eqb_neq j node_id)) by congruence.
Qed.
End update.

Lemma find_node_snoc j nodes n :
  find_node j (nodes ++ [n])
  = match find_node j nodes with Some m => Some m | None => if ni_node_id n =? j then Some n else None end.
Proof. induction nodes as [|m nodes IH]; cbn [find_node app]; [done|]. by destruct (ni_node_id m =? j). Qed.

(** [update_last_seen] and the [mark_] operations on the rows. *)
Lemma row_mark_down t k j :
  row (MemberTable_mark_down t k) j
  = if j =? k then (fun n => n <| ni_state := NodeState_Down |>) <$> row t j else row t j.
Proof. by apply (find_update_node (fun n => n <| ni_state := NodeState_Down |>)). Qed.

Lemma row_mark_active t k j :
  row (MemberTable_mark_active t k) j
  = if j =? k then (fun n => n <| ni_state := NodeState_Active |>) <$> row t j else row t j.
Proof. by apply (find_update_node (fun n => n <| ni_state := NodeState_Active |>)). Qed.

Lemma row_mark_suspect t k j :
  row (MemberTable_mark_suspect t k) j
  = if j =? k
    then (fun n => if decide (ni_state n = NodeState_Active)
                   then n <| ni_state := NodeState_Suspect |> else n) <$> row t j
    else row t j.
Proof. apply find_update_node. intros n. by case_decide. Qed.

Lemma row_update_last_seen t k ts j :
  row (MemberTable_update_last_seen t k ts) j
  = if j =? k then (fun n => n <| ni_last_seen := Some ts |>) <$> row t j else row t j.
Proof. by apply (find_update_node (fun n => n <| ni_last_seen := Some ts |>)). Qed.

(** The row a node has after it announced itself: everything it announced, but
    the time it was last seen when it was known already. *)
Lemma row_upsert t info j :
  row (MemberTable_upsert t info) j
  = if j =? ni_node_id info
    then Some (match row t j with
               | Some old => info <| ni_last_seen := ni_last_seen old |>
               | None => info
               end)
    else row t j.
Proof.
  unfold row, MemberTable_upsert. destruct (find_node (ni_node_id info) (mb_nodes t)) as [old|] eqn:E.
  - cbn [mb_nodes set_field]. rewrite find_update_node by done.
    destruct (j =? _) eqn:Ej; [|done]. zbool. subst j. rewrite E. cbn.
    apply find_node_Some in E as [_ <-]. by destruct info.
  - cbn. rewrite find_node_snoc. destruct (j =? _) eqn:Ej; zbool.
    + subst j. by rewrite E, Z.eqb_refl.
    + destruct (find_node j _); [done|]. by rewrite (proj2 (Z.eqb_neq _ _)) by congruence.
Qed.

(** Every operation keeps the ids unique. *)
Lemma upsert_ids t info :
  NoDup (member_ids t) -> NoDup (member_ids (MemberTable_upsert t info)).
Proof.
  unfold member_ids, MemberTable_upsert. intros Hnd.
  destruct (find_node (ni_node_id info) (mb_nodes t)) as [old|] eqn:E; cbn.
  - by rewrite update_node_ids.
  - rewrite map_app. apply NoDup_app. split; [done|]. split; [|apply NoDup_singleton].
    intros x Hx ->%list_elem_of_singleton. by apply find_node_None in E.
Qed.

Lemma mark_down_ids t k : member_ids (MemberTable_mark_down t k) = member_ids t.
Proof. by apply (update_node_ids (fun n => n <| ni_state := NodeState_Down |>)). Qed.
Lemma mark_active_ids t k : member_ids (MemberTable_mark_active t k) = member_ids t.
Proof. by apply (update_node_ids (fun n => n <| ni_state := NodeState_Active |>)). Qed.
Lemma mark_suspect_ids t k : member_ids (MemberTable_mark_suspect t k) = member_ids t.
Proof. apply update_node_ids. intros n. by case_decide. Qed.
Lemma update_last_seen_ids t k ts : member_ids (MemberTable_update_last_seen t k ts) = member_ids t.
Proof. by apply (update_node_ids (fun n => n <| ni_last_seen := Some ts |>)). Qed.

(** ** Channels *)

Lemma queued_send chans tx data tx' :
  queued (chan_send chans tx data).1 tx'
  = if decide (tx' = tx) then
      queued chans tx ++ (if (chan_send chans tx data).2 then [data] else [])
    else queued chans tx'.
Proof.
  unfold chan_send, queued. destruct (chans !! tx) as [[[|] q]|] eqn:E; cbn.
  - case_decide; [subst|by rewrite list_lookup_insert_ne].
    rewrite list_lookup_insert_eq by (by eapply lookup_lt_Some). done.
  - case_decide; [subst; rewrite E; by rewrite app_nil_r|done].
  - case_decide; [subst; rewrite E; done|done].
Qed.
