(* ===== verification/Control.v ===== *)
(** * Control: the control plane

    crates/ub-control/src/control.rs: the handlers of the control connections, the
    heartbeat failure detector, the broadcast of memory-region events and the
    read loop that cuts a byte stream into messages. [ControlPlane] joins what the
    tasks of one node share. A handler runs as one step; the [watch] channel to
    the data plane keeps the last event only, as [tokio::sync::watch] does. *)

From S2P Require Import Prelude Bytes Types Addr Net Device Mr Config.
From S2P Require Import Frame Message Member.

(** ** State *)

(** A [watch] channel: the current value and how often it was sent. *)
Record Watch (A : Type) : Type := mkWatch {
  w_value : A;
  w_version : Z;
}.
Arguments mkWatch {A} _ _.
Arguments w_value {A} _.
Arguments w_version {A} _.

Definition watch_send {A} (w : Watch A) (a : A) : Watch A := mkWatch a (w_version w + 1).

(** Source: crates/ub-control/src/control.rs:19-32, [ControlPlane].
    With the channels of its connections, the devices behind the memory regions
    and [missed_count], the local state of the heartbeat task. *)
Record ControlPlane : Type := mkControlPlane {
  cp_config : NodeConfig;
  cp_members : MemberTable;
  cp_mr_cache : gmap (Z * Z) MrCacheEntry;
  cp_mr_table : option MrTable;
  cp_local_epoch : Z;
  cp_peer_change : Watch PeerChangeEvent;
  cp_shutdown : bool;
  cp_chans : Chans;
  cp_devices : list DynDevice;
  cp_missed : gmap Z Z;
}.

#[global] Instance ControlPlane_settable : Settable ControlPlane := fun c =>
  mkControlPlane (cp_config c) (cp_members c) (cp_mr_cache c) (cp_mr_table c) (cp_local_epoch c)
    (cp_peer_change c) (cp_shutdown c) (cp_chans c) (cp_devices c) (cp_missed c).

(** Source: crates/ub-control/src/control.rs:35-52, [ControlPlane::new].
    [local_epoch] is the random number drawn. *)
Definition ControlPlane_new (config : NodeConfig) (members : MemberTable)
    (mr_cache : gmap (Z * Z) MrCacheEntry) (devices : list DynDevice) (local_epoch : Z)
  : ControlPlane :=
  mkControlPlane config members mr_cache None local_epoch
    (mkWatch (PeerChangeEvent_Joined 0 0) 0) false [] devices ∅.

(** Source: crates/ub-control/src/control.rs:56-59, [ControlPlane::set_mr_table]. *)
Definition ControlPlane_set_mr_table (cp : ControlPlane) (mr_table : MrTable) : ControlPlane :=
  cp <| cp_mr_table := Some mr_table |>.

(** Source: crates/ub-control/src/control.rs:82-93, [ControlPlane::start].
    The registration of the node itself. *)
Definition ControlPlane_register_self (cp : ControlPlane) (now : Z) : ControlPlane :=
  let cfg := cp_config cp in
  cp <| cp_members := MemberTable_upsert (cp_members cp)
          (mkNodeInfo (cfg_node_id cfg) NodeState_Active (cfg_control_listen cfg)
             (cfg_data_listen cfg) (cp_local_epoch cp) (cfg_initial_credits cfg) (Some now) None) |>.

(** Source: crates/ub-control/src/control.rs:74-82, [ControlPlane::start].
    Up to the registration of the node; [bound] is the outcome of binding the listener.
    The tasks it then spawns are the steps below. *)
Definition ControlPlane_start (cp : ControlPlane) (bound : Result unit) (now : Z) : Result ControlPlane :=
  let? _ := ok_or (parse_socket_addr (cfg_control_listen (cp_config cp)))
                  (Config "invalid control listen addr: ") in
  let? _ := bound in
  Ok (ControlPlane_register_self cp now).

(** Source: crates/ub-control/src/control.rs:61-63, [ControlPlane::local_epoch]. *)
Definition ControlPlane_local_epoch (cp : ControlPlane) : Z := cp_local_epoch cp.

(** [let _ = peer_change_tx.send(ev);] *)
Definition notify (cp : ControlPlane) (ev : PeerChangeEvent) : ControlPlane :=
  cp <| cp_peer_change := watch_send (cp_peer_change cp) ev |>.

(** [let _ = peer_tx.send(msg.encode().to_vec()).await;] *)
Definition reply (cp : ControlPlane) (peer_tx : nat) (msg : ControlMsg) : ControlPlane :=
  cp <| cp_chans := (chan_send (cp_chans cp) peer_tx (ControlMsg_encode msg)).1 |>.

(** ** Connections *)

(** Source: crates/ub-control/src/control.rs:370-380, [handle_peer_connection].
    The channel of the connection and the greeting written to its socket. *)
Definition handle_peer_connection_open (cp : ControlPlane) : ControlPlane * nat * bytes :=
  let cfg := cp_config cp in
  let tx := length (cp_chans cp) in
  let hello := ControlMsg_Hello (mkHelloPayload (cfg_node_id cfg) 1 (cp_local_epoch cp)
                 (cfg_initial_credits cfg) (cfg_data_listen cfg)) in
  (cp <| cp_chans := cp_chans cp ++ [mkChan true []] |>, tx, ControlMsg_encode hello).

(** Source: crates/ub-control/src/control.rs:467-478, [handle_seed_join].
    The same for a seed, which is sent JOIN. *)
Definition handle_seed_join_open (cp : ControlPlane) : ControlPlane * nat * bytes :=
  let cfg := cp_config cp in
  let tx := length (cp_chans cp) in
  let join := ControlMsg_Join (mkJoinPayload (cfg_node_id cfg) (cp_local_epoch cp)
                (cfg_data_listen cfg) (cfg_control_listen cfg) (cfg_initial_credits cfg)) in
  (cp <| cp_chans := cp_chans cp ++ [mkChan true []] |>, tx, ControlMsg_encode join).

(** Source: crates/ub-control/src/control.rs:450-452, [handle_peer_connection].
    [write_handle.abort()] drops the receiver. *)
Definition connection_closed (cp : ControlPlane) (tx : nat) : ControlPlane :=
  cp <| cp_chans := alter (fun c => mkChan false (ch_queue c)) tx (cp_chans cp) |>.

(** Source: crates/ub-control/src/control.rs:441-448, [handle_peer_connection].
    One turn of the write loop: [rx.recv()] and [write_all]. *)
Definition write_loop_turn (cp : ControlPlane) (tx : nat) : ControlPlane * option bytes :=
  match cp_chans cp !! tx with
  | Some (mkChan open (data :: q)) =>
    (cp <| cp_chans := <[tx := mkChan open q]> (cp_chans cp) |>, Some data)
  | _ => (cp, None)
  end.

(** ** Memory regions *)

(** The message that announces a region of the local table. *)
Definition entry_publish (devices : list DynDevice) (e : MrEntry) : option ControlMsg :=
  d ← devices !! me_device e;
  Some (ControlMsg_MrPublish (mkMrPublishPayload (UbAddr_node_id (me_base_ub_addr e)) (me_handle e)
          (me_base_ub_addr e) (me_len e) (me_perms e) (dev_kind d))).

(** The loop that stops at the first send that fails. *)
Fixpoint send_while_open (chans : Chans) (tx : nat) (msgs : list ControlMsg) : Chans :=
  match msgs with
  | [] => chans
  | msg :: msgs =>
    match chan_send chans tx (ControlMsg_encode msg) with
    | (chans, true) => send_while_open chans tx msgs
    | (chans, false) => chans
    end
  end.

(** Source: crates/ub-control/src/control.rs:757-779, [send_existing_mrs]. *)
Definition send_existing_mrs (cp : ControlPlane) (peer_tx : nat) : ControlPlane :=
  match cp_mr_table cp with
  | Some table =>
    let entries := omap (fun arc => mt_heap table !! arc) (MrTable_list table) in
    cp <| cp_chans := send_while_open (cp_chans cp) peer_tx
                        (omap (entry_publish (cp_devices cp)) entries) |>
  | None => cp
  end.

(** Source: crates/ub-control/src/control.rs:210-244, [ControlPlane::start].
    The message a region event is broadcast as. *)
Definition mr_event_msg (event : MrPublishEvent) : ControlMsg :=
  match event with
  | MrPublishEvent_Publish info =>
    ControlMsg_MrPublish (mkMrPublishPayload (pi_owner_node info) (pi_mr_handle info)
      (pi_base_ub_addr info) (pi_len info) (pi_perms info) (pi_device_kind info))
  | MrPublishEvent_Revoke owner_node mr_handle =>
    ControlMsg_MrRevoke (mkMrRevokePayload owner_node mr_handle)
  end.

(** Source: crates/ub-control/src/control.rs:201-256, [ControlPlane::start].
    One turn of the drain loop: the oldest event leaves the queue of the table
    and goes to every peer that is not down. *)
Definition mr_drain_turn (cp : ControlPlane) : ControlPlane :=
  match cp_mr_table cp with
  | Some table =>
    match mt_publish table with
    | Some (event :: events) =>
      let encoded := ControlMsg_encode (mr_event_msg event) in
      let senders := MemberTable_active_peer_senders (cp_members cp) in
      cp <| cp_mr_table := Some (table <| mt_publish := Some events |>) |>
         <| cp_chans := send_to_all (cp_chans cp) senders encoded |>
    | _ => cp
    end
  | None => cp
  end.

(** ** The heartbeat task *)

(** Source: crates/ub-control/src/control.rs:288-330, [ControlPlane::start].
    The loop body: the check of one node. *)
Definition heartbeat_check (now : Z) (cp : ControlPlane) (node : NodeInfo) : ControlPlane :=
  let interval_ms := cfg_interval_ms (cp_config cp) in
  let fail_after := cfg_fail_after (cp_config cp) in
  let id := ni_node_id node in
  if id =? mb_local_node_id (cp_members cp) then cp
  else if decide (ni_state node = NodeState_Down) then cp
  else
    match ni_last_seen node with
    | None => cp
    | Some last_seen =>
      if wrap 64 (last_seen + wrap 64 (interval_ms * fail_after)) <? now then
        let count := wrap 32 (default 0 (cp_missed cp !! id) + 1) in
        let cp := cp <| cp_missed := <[id := count]> (cp_missed cp) |> in
        if fail_after <=? count then
          let cp :=
            if decide (ni_state node = NodeState_Active) then
              notify (cp <| cp_members := MemberTable_mark_suspect (cp_members cp) id |>)
                (PeerChangeEvent_Suspect id)
            else cp in
          if wrap 32 (fail_after * 2) <=? count then
            notify (cp <| cp_members := MemberTable_mark_down (cp_members cp) id |>)
              (PeerChangeEvent_Down id (ni_epoch node))
          else cp
        else cp
      else
        match cp_missed cp !! id with
        | Some _ =>
          let cp := cp <| cp_missed := delete id (cp_missed cp) |> in
          if decide (ni_state node = NodeState_Suspect) then
            notify (cp <| cp_members := MemberTable_mark_active (cp_members cp) id |>)
              (PeerChangeEvent_Recovered id)
          else cp
        | None => cp
        end
    end.

(** Source: crates/ub-control/src/control.rs:266-332, [ControlPlane::start].
    One tick: heartbeats to the peers, then the check of every node. *)
Definition heartbeat_tick (cp : ControlPlane) (now : Z) : ControlPlane :=
  let msg := ControlMsg_Heartbeat (mkHeartbeatPayload (mb_local_node_id (cp_members cp)) now) in
  let senders := MemberTable_active_peer_senders (cp_members cp) in
  let cp := cp <| cp_chans := send_to_all (cp_chans cp) senders (ControlMsg_encode msg) |> in
  foldl (heartbeat_check now) cp (MemberTable_list (cp_members cp)).

(** Source: crates/ub-control/src/control.rs:343-352, [ControlPlane::shutdown]. *)
Definition ControlPlane_shutdown (cp : ControlPlane) : ControlPlane :=
  let cp := cp <| cp_shutdown := true |> in
  let msg := ControlMsg_MemberDown (mkMemberDownPayload (cfg_node_id (cp_config cp)) 0) in
  cp <| cp_chans := MemberTable_broadcast (cp_members cp) (cp_chans cp) (ControlMsg_encode msg) |>.

(** ** Messages *)

(** Source: crates/ub-control/src/control.rs:686-692, [process_control_message].
    The state byte of a snapshot. *)
Definition NodeState_to_byte (s : NodeState) : Z :=
  match s with
  | NodeState_Joining => 0
  | NodeState_Active => 1
  | NodeState_Suspect => 2
  | NodeState_Leaving => 3
  | NodeState_Down => 4
  end.

(** Source: crates/ub-control/src/control.rs:720-726, [process_control_message]. *)
Definition NodeState_of_byte (b : Z) : NodeState :=
  if b =? 0 then NodeState_Joining
  else if b =? 1 then NodeState_Active
  else if b =? 2 then NodeState_Suspect
  else if b =? 3 then NodeState_Leaving
  else NodeState_Down.

(** Source: crates/ub-control/src/control.rs:685-700, [process_control_message].
    A row as a snapshot lists it. *)
Definition snapshot_of (n : NodeInfo) : SnapshotNodeInfo :=
  mkSnapshotNodeInfo (ni_node_id n) (NodeState_to_byte (ni_state n)) (ni_data_addr n)
    (ni_control_addr n) (ni_epoch n).

(** Source: crates/ub-control/src/control.rs:719-747, [process_control_message].
    The loop body for one node of a received snapshot. *)
Definition snapshot_node (now : Z) (cp : ControlPlane) (node : SnapshotNodeInfo) : ControlPlane :=
  if sn_node_id node =? cfg_node_id (cp_config cp) then cp
  else
    let info := mkNodeInfo (sn_node_id node) (NodeState_of_byte (sn_state node))
                  (sn_control_addr node) (sn_data_addr node) (sn_epoch node) 0 (Some now) None in
    let cp := cp <| cp_members := MemberTable_upsert (cp_members cp) info |> in
    notify cp (PeerChangeEvent_Joined (sn_node_id node) (sn_epoch node)).

(** The row of a peer that said HELLO. *)
Definition hello_info (hello : HelloPayload) (now : Z) (peer_tx : nat) : NodeInfo :=
  mkNodeInfo (hp_node_id hello) NodeState_Active [] (hp_data_addr hello) (hp_local_epoch hello)
    (hp_initial_credits hello) (Some now) (Some peer_tx).

(** Source: crates/ub-control/src/control.rs:548-754, [process_control_message]. *)
Definition process_control_message (cp : ControlPlane) (peer_tx : nat) (now : Z)
    (msg : ControlMsg) : ControlPlane :=
  let cfg := cp_config cp in
  match msg with
  | ControlMsg_Hello hello =>
    let cp := cp <| cp_members := MemberTable_upsert (cp_members cp) (hello_info hello now peer_tx) |> in
    let cp := reply cp peer_tx (ControlMsg_HelloAck (mkHelloPayload (cfg_node_id cfg) 1
                (cp_local_epoch cp) (cfg_initial_credits cfg) (cfg_data_listen cfg))) in
    let cp := send_existing_mrs cp peer_tx in
    notify cp (PeerChangeEvent_Joined (hp_node_id hello) (hp_local_epoch hello))
  | ControlMsg_HelloAck hello =>
    let cp := cp <| cp_members := MemberTable_upsert (cp_members cp) (hello_info hello now peer_tx) |> in
    let cp := send_existing_mrs cp peer_tx in
    notify cp (PeerChangeEvent_Joined (hp_node_id hello) (hp_local_epoch hello))
  | ControlMsg_Heartbeat hb =>
    let cp := cp <| cp_members := MemberTable_update_last_seen (cp_members cp) (hb_node_id hb) now |> in
    reply cp peer_tx (ControlMsg_HeartbeatAck (mkHeartbeatPayload (cfg_node_id cfg) (hb_timestamp hb)))
  | ControlMsg_HeartbeatAck hb =>
    cp <| cp_members := MemberTable_update_last_seen (cp_members cp) (hb_node_id hb) now |>
  | ControlMsg_MemberDown md =>
    let cp := cp <| cp_members := MemberTable_mark_down (cp_members cp) (md_node_id md) |> in
    let epoch := default 0 (ni_epoch <$> MemberTable_get (cp_members cp) (md_node_id md)) in
    notify cp (PeerChangeEvent_Down (md_node_id md) epoch)
  | ControlMsg_MrPublish mr =>
    cp <| cp_mr_cache := MrCacheTable_insert (cp_mr_cache cp)
            (mkMrCacheEntry (mp_mr_handle mr) (mp_owner_node mr) (mp_base_ub_addr mr) (mp_len mr)
               (mp_perms mr) (mp_device_kind mr)) |>
  | ControlMsg_MrRevoke revoke =>
    cp <| cp_mr_cache := MrCacheTable_remove (cp_mr_cache cp) (mv_owner_node revoke)
            (mv_mr_handle revoke) |>
  | ControlMsg_Join join =>
    let cp := cp <| cp_members := MemberTable_upsert (cp_members cp)
                (mkNodeInfo (jp_node_id join) NodeState_Active (jp_control_addr join)
                   (jp_data_addr join) (jp_epoch join) (jp_initial_credits join) (Some now)
                   (Some peer_tx)) |> in
    let all_nodes := MemberTable_list (cp_members cp) in
    let cp := reply cp peer_tx
                (ControlMsg_MemberSnapshot (mkMemberSnapshotPayload (map snapshot_of all_nodes))) in
    let cp := send_existing_mrs cp peer_tx in
    notify cp (PeerChangeEvent_Joined (jp_node_id join) (jp_epoch join))
  | ControlMsg_MemberSnapshot snapshot => foldl (snapshot_node now) cp (ms_nodes snapshot)
  | _ => cp
  end.

(** ** The read loop *)

(** Source: crates/ub-control/src/control.rs:396-437, [handle_peer_connection].
    The loop over what the socket delivers before it closes; [clock i] is the time
    at which message [i] is handled. A connection to a seed runs the same loop
    (control.rs:493-529). *)
Fixpoint read_loop (fuel : nat) (clock : nat -> Z) (peer_tx : nat) (cp : ControlPlane)
    (stream : bytes) : ControlPlane :=
  match fuel with
  | O => cp
  | S fuel =>
    match read_exact 4 stream with
    | Ok (len_buf, stream) =>
      let len := be_value len_buf in
      if 1000000 <? len then cp
      else
        match read_exact (Z.to_nat (1 + len)) stream with
        | Ok (msg_buf, stream) =>
          let full_msg := len_buf ++ msg_buf in
          match ControlMsg_decode full_msg with
          | Ok msg =>
            read_loop fuel (fun i => clock (S i)) peer_tx
              (process_control_message cp peer_tx (clock 0%nat) msg) stream
          | Err _ => read_loop fuel (fun i => clock (S i)) peer_tx cp stream
          | Panic => cp
          end
        | _ => cp
        end
    | _ => cp
    end
  end.

(** Each turn takes at least five bytes, so the length of the stream is enough. *)
Definition read_stream (clock : nat -> Z) (peer_tx : nat) (cp : ControlPlane) (stream : bytes)
  : ControlPlane := read_loop (length stream) clock peer_tx cp stream.

(** ** The control plane as a state machine *)

(** What the tasks of a running node do. *)
Inductive ControlEvent : Type :=
| ControlEvent_tick (now : Z)
| ControlEvent_message (peer_tx : nat) (now : Z) (msg : ControlMsg)
| ControlEvent_drain
| ControlEvent_connect (to_seed : bool)
| ControlEvent_close (tx : nat)
| ControlEvent_write (tx : nat)
| ControlEvent_mr (op : MrOp)
| ControlEvent_shutdown.

Definition control_step (cp : ControlPlane) (ev : ControlEvent) : ControlPlane :=
  match ev with
  | ControlEvent_tick now => heartbeat_tick cp now
  | ControlEvent_message peer_tx now msg => process_control_message cp peer_tx now msg
  | ControlEvent_drain => mr_drain_turn cp
  | ControlEvent_connect false => (handle_peer_connection_open cp).1.1
  | ControlEvent_connect true => (handle_seed_join_open cp).1.1
  | ControlEvent_close tx => connection_closed cp tx
  | ControlEvent_write tx => (write_loop_turn cp tx).1
  | ControlEvent_mr op =>
    cp <| cp_mr_table := (fun t => mr_step (cp_devices cp) t op) <$> cp_mr_table cp |>
  | ControlEvent_shutdown => ControlPlane_shutdown cp
  end.

Definition control_run : ControlPlane -> list ControlEvent -> ControlPlane := foldl control_step.

(** The member ids are unique. *)
Definition unique_members (cp : ControlPlane) : Prop := NoDup (member_ids (cp_members cp)).

(** What is fixed for the life of a control plane. *)
Definition same_identity (cp cp' : ControlPlane) : Prop :=
  cp_config cp' = cp_config cp
  /\ mb_local_node_id (cp_members cp') = mb_local_node_id (cp_members cp).

(** What the detector knows of one peer. *)
Definition peer_view (cp : ControlPlane) (id : Z) : option NodeInfo * option Z :=
  (row (cp_members cp) id, cp_missed cp !! id).

Lemma upsert_local t info : mb_local_node_id (MemberTable_upsert t info) = mb_local_node_id t.
Proof. unfold MemberTable_upsert. by case_match. Qed.

Lemma send_existing_mrs_frame cp tx :
  cp_members (send_existing_mrs cp tx) = cp_members cp
  /\ cp_missed (send_existing_mrs cp tx) = cp_missed cp
  /\ cp_config (send_existing_mrs cp tx) = cp_config cp
  /\ cp_mr_cache (send_existing_mrs cp tx) = cp_mr_cache cp.
Proof. unfold send_existing_mrs. by case_match. Qed.

Lemma mr_drain_turn_frame cp :
  cp_members (mr_drain_turn cp) = cp_members cp
  /\ cp_missed (mr_drain_turn cp) = cp_missed cp
  /\ cp_config (mr_drain_turn cp) = cp_config cp.
Proof. unfold mr_drain_turn. by repeat case_match. Qed.

Lemma write_loop_turn_frame cp tx :
  cp_members (write_loop_turn cp tx).1 = cp_members cp
  /\ cp_missed (write_loop_turn cp tx).1 = cp_missed cp
  /\ cp_config (write_loop_turn cp tx).1 = cp_config cp.
Proof. unfold write_loop_turn. by repeat case_match. Qed.

(** Reduces the fields of an updated control plane and nothing else. *)
Ltac cp_cbn :=
  cbn [notify reply set_field cp_config cp_members cp_mr_cache cp_mr_table cp_local_epoch
       cp_peer_change cp_shutdown cp_chans cp_devices cp_missed] in *.

(** *** One check *)

(** The detector as a function of one row and its count of silent ticks. *)
Definition detect (cfg : NodeConfig) (now : Z) (n : NodeInfo) (missed : option Z)
  : NodeInfo * option Z :=
  let fail_after := cfg_fail_after cfg in
  if decide (ni_state n = NodeState_Down) then (n, missed)
  else
    match ni_last_seen n with
    | None => (n, missed)
    | Some last_seen =>
      if wrap 64 (last_seen + wrap 64 (cfg_interval_ms cfg * fail_after)) <? now then
        let count := wrap 32 (default 0 missed + 1) in
        let st :=
          if fail_after <=? count then
            if wrap 32 (fail_after * 2) <=? count then NodeState_Down
            else if decide (ni_state n = NodeState_Active) then NodeState_Suspect else ni_state n
          else ni_state n in
        (n <| ni_state := st |>, Some count)
      else
        (if missed is Some _ then
           if decide (ni_state n = NodeState_Suspect) then n <| ni_state := NodeState_Active |> else n
         else n, None)
    end.

Lemma heartbeat_check_frame now cp node :
  same_identity cp (heartbeat_check now cp node)
  /\ member_ids (cp_members (heartbeat_check now cp node)) = member_ids (cp_members cp)
  /\ forall j, j <> ni_node_id node -> peer_view (heartbeat_check now cp node) j = peer_view cp j.
Proof.
  unfold heartbeat_check, same_identity, peer_view.
  repeat case_match; cp_cbn; rewrite ?mark_down_ids, ?mark_active_ids, ?mark_suspect_ids;
    (split; [done|]; split; [done|]; intros j Hj;
     rewrite ?row_mark_down, ?row_mark_active, ?row_mark_suspect, ?(proj2 (Z.eqb_neq j _)) by done;
     rewrite ?lookup_insert_ne, ?lookup_delete_ne by done; done).
Qed.

Lemma heartbeat_check_row now cp n :
  ni_node_id n <> mb_local_node_id (cp_members cp) ->
  row (cp_members cp) (ni_node_id n) = Some n ->
  peer_view (heartbeat_check now cp (n <| ni_tx := None |>)) (ni_node_id n)
  = let (n', missed') := detect (cp_config cp) now n (cp_missed cp !! ni_node_id n) in
    (Some n', missed').
Proof.
  intros Hl Hrow. unfold heartbeat_check, detect, peer_view. destruct n as [id st ca da ep ic ls tx].
  cbn [set_field ni_node_id ni_state ni_last_seen ni_epoch] in *.
  rewrite (proj2 (Z.eqb_neq id _)) by done.
  repeat case_match; cp_cbn; simplify_eq;
    rewrite ?row_mark_down, ?row_mark_suspect, ?row_mark_active, ?Z.eqb_refl, ?Hrow; cbn;
    rewrite ?lookup_insert_eq, ?lookup_delete_eq; cbn; rewrite ?decide_True by done; done || congruence.
Qed.

(** *** One tick *)

Lemma heartbeat_fold_frame now l cp :
  same_identity cp (foldl (heartbeat_check now) cp l)
  /\ member_ids (cp_members (foldl (heartbeat_check now) cp l)) = member_ids (cp_members cp)
  /\ forall j, j ∉ map ni_node_id l ->
       peer_view (foldl (heartbeat_check now) cp l) j = peer_view cp j.
Proof.
  revert cp. induction l as [|n l IH]; intros cp; cbn [foldl map]; [done|].
  destruct (heartbeat_check_frame now cp n) as ([Hc Hl] & Hids & Hv).
  destruct (IH (heartbeat_check now cp n)) as ([Hc' Hl'] & Hids' & Hv').
  split; [split; congruence|]. split; [congruence|].
  intros j [Hj Hjl]%not_elem_of_cons. by rewrite Hv', Hv.
Qed.

Lemma heartbeat_fold_row now l cp n :
  NoDup (map ni_node_id l) -> n ∈ l ->
  ni_node_id n <> mb_local_node_id (cp_members cp) ->
  row (cp_members cp) (ni_node_id n) = Some n ->
  peer_view (foldl (heartbeat_check now) cp (map (fun n => n <| ni_tx := None |>) l)) (ni_node_id n)
  = let (n', missed') := detect (cp_config cp) now n (cp_missed cp !! ni_node_id n) in
    (Some n', missed').
Proof.
  revert cp. induction l as [|m l IH]; intros cp; [by intros _ ?%elem_of_nil|].
  cbn [foldl map]. intros [Hm Hnd]%NoDup_cons Hn Hl Hrow. apply elem_of_cons in Hn as [<-|Hn].
  - rewrite <- (heartbeat_check_row now cp n) by done.
    apply heartbeat_fold_frame. rewrite map_map. exact Hm.
  - assert (Hne : ni_node_id n <> ni_node_id m)
      by (intros Heq; apply Hm; rewrite <- Heq; by apply list_elem_of_fmap_2).
    destruct (heartbeat_check_frame now cp (m <| ni_tx := None |>)) as ([Hc Hl'] & _ & Hv).
    specialize (Hv _ Hne). unfold peer_view in Hv. apply pair_equal_spec in Hv as [Hv1 Hv2].
    rewrite IH; [by rewrite Hc, Hv2|done|done|by rewrite Hl'|by rewrite Hv1].
Qed.

Lemma heartbeat_tick_frame cp now :
  same_identity cp (heartbeat_tick cp now)
  /\ member_ids (cp_members (heartbeat_tick cp now)) = member_ids (cp_members cp).
Proof.
  unfold heartbeat_tick. cbv zeta.
  match goal with |- context [foldl _ ?c ?l] => destruct (heartbeat_fold_frame now l c) as (Hs & Hids & _) end.
  split; [exact Hs|exact Hids].
Qed.

(** A tick runs the detector on every peer, independently. *)
Lemma heartbeat_tick_row cp now id n :
  unique_members cp -> id <> mb_local_node_id (cp_members cp) ->
  row (cp_members cp) id = Some n ->
  peer_view (heartbeat_tick cp now) id
  = let (n', missed') := detect (cp_config cp) now n (cp_missed cp !! id) in (Some n', missed').
Proof.
  intros Hnd Hl Hrow. pose proof (find_node_Some _ _ _ Hrow) as [Hin Hid]. subst id.
  unfold heartbeat_tick, MemberTable_list. cbv zeta.
  match goal with |- context [foldl _ ?c _] =>
    exact (heartbeat_fold_row now (mb_nodes (cp_members cp)) c n Hnd Hin Hl Hrow) end.
Qed.

(** *** One message *)

(** The message tells something about node [id]. *)
Definition about (id : Z) (msg : ControlMsg) : bool :=
  match msg with
  | ControlMsg_Hello p | ControlMsg_HelloAck p => hp_node_id p =? id
  | ControlMsg_Heartbeat p | ControlMsg_HeartbeatAck p => hb_node_id p =? id
  | ControlMsg_MemberDown p => md_node_id p =? id
  | ControlMsg_Join p => jp_node_id p =? id
  | ControlMsg_MemberSnapshot p => existsb (fun n => sn_node_id n =? id) (ms_nodes p)
  | _ => false
  end.

Lemma snapshot_frame now l cp :
  let cp' := foldl (snapshot_node now) cp l in
  same_identity cp cp' /\ (unique_members cp -> unique_members cp')
  /\ forall id, existsb (fun n => sn_node_id n =? id) l = false -> peer_view cp' id = peer_view cp id.
Proof.
  cbv zeta. revert cp. induction l as [|n l IH]; intros cp; cbn [foldl existsb]; [done|].
  assert (H1 : same_identity cp (snapshot_node now cp n)
    /\ (unique_members cp -> unique_members (snapshot_node now cp n))
    /\ forall id, (sn_node_id n =? id) = false ->
         peer_view (snapshot_node now cp n) id = peer_view cp id).
  { unfold snapshot_node. destruct (sn_node_id n =? _); [done|]. unfold same_identity, unique_members, peer_view.
    cp_cbn. split; [by rewrite upsert_local|]. split; [apply upsert_ids|].
    intros id Hid. rewrite row_upsert. cbn [ni_node_id]. by rewrite Z.eqb_sym, Hid. }
  destruct H1 as ([Hc Hl] & Hu & Hv), (IH (snapshot_node now cp n)) as ([Hc' Hl'] & Hu' & Hv').
  split; [split; congruence|]. split; [auto|].
  intros id [Hid Hids]%orb_false_iff. by rewrite Hv', Hv.
Qed.

Lemma message_frame cp tx now msg :
  let cp' := process_control_message cp tx now msg in
  same_identity cp cp' /\ (unique_members cp -> unique_members cp')
  /\ forall id, about id msg = false -> peer_view cp' id = peer_view cp id.
Proof.
  cbv zeta. destruct msg; cbn [process_control_message about]; cbv zeta; try done;
    try apply snapshot_frame;
    unfold same_identity, unique_members, peer_view; cp_cbn;
    try match goal with |- context [send_existing_mrs ?c ?t] =>
      destruct (send_existing_mrs_frame c t) as (-> & -> & -> & _) end; cp_cbn;
    rewrite ?upsert_local, ?mark_down_ids, ?update_last_seen_ids;
    (split; [done|]; split; [first [apply upsert_ids | done]|]; intros id Hid;
     rewrite ?row_upsert, ?row_mark_down, ?row_update_last_seen;
     unfold hello_info; cbn [ni_node_id]; by rewrite 1?(Z.eqb_sym id), ?Hid).
Qed.

(** A heartbeat, or its acknowledgement, only moves [last_seen]. *)
Definition heartbeat_of (msg : ControlMsg) : option HeartbeatPayload :=
  match msg with
  | ControlMsg_Heartbeat p | ControlMsg_HeartbeatAck p => Some p
  | _ => None
  end.

Lemma heartbeat_message cp tx now msg p id :
  heartbeat_of msg = Some p ->
  peer_view (process_control_message cp tx now msg) id
  = (if id =? hb_node_id p then (fun n => n <| ni_last_seen := Some now |>) <$> row (cp_members cp) id
     else row (cp_members cp) id, cp_missed cp !! id).
Proof.
  destruct msg; intros [= ->]; cbn [process_control_message]; unfold peer_view; cbv zeta; cp_cbn;
    by rewrite row_update_last_seen.
Qed.

(** *** One step *)

(** The event is not a message about node [id], nor a tick. *)
Definition elsewhere (id : Z) (ev : ControlEvent) : bool :=
  match ev with
  | ControlEvent_tick _ => false
  | ControlEvent_message _ _ msg => negb (about id msg)
  | _ => true
  end.

Lemma control_step_frame cp ev :
  let cp' := control_step cp ev in
  same_identity cp cp' /\ (unique_members cp -> unique_members cp')
  /\ forall id, elsewhere id ev = true -> peer_view cp' id = peer_view cp id.
Proof.
  cbv zeta. destruct ev as [now|tx now msg| |[|]|tx|tx|op|]; cbn [control_step elsewhere]; try done.
  - destruct (heartbeat_tick_frame cp now) as [Hs Hids]. split; [done|]. split; [|done].
    unfold unique_members. by rewrite Hids.
  - destruct (message_frame cp tx now msg) as (Hs & Hu & Hv). split; [done|]. split; [done|].
    intros id Hid%negb_true_iff. by apply Hv.
  - destruct (mr_drain_turn_frame cp) as (Hm & Hmi & Hc).
    unfold same_identity, unique_members, peer_view. by rewrite Hm, Hmi, Hc.
  - destruct (write_loop_turn_frame cp tx) as (Hm & Hmi & Hc).
    unfold same_identity, unique_members, peer_view. by rewrite Hm, Hmi, Hc.
Qed.

(** ** Failure detection *)

Definition ticks (evs : list ControlEvent) : Z :=
  Z.of_nat (length (List.filter (fun ev => if ev is ControlEvent_tick _ then true else false) evs)).

(** A peer's state after [k] silent ticks. *)
Definition state_after (fail_after k : Z) : NodeState :=
  if k <? fail_after then NodeState_Active
  else if k <? 2 * fail_after then NodeState_Suspect
  else NodeState_Down.

(** The silence after which a tick counts against a peer. *)
Definition patience (cfg : NodeConfig) : Z := cfg_interval_ms cfg * cfg_fail_after cfg.

(** The settings the detector's arithmetic is exact for. *)
Record config_ok (cfg : NodeConfig) : Prop := {
  co_fail_after : 0 < cfg_fail_after cfg;
  co_twice : 2 * cfg_fail_after cfg < 2 ^ 32;
  co_interval : 0 <= cfg_interval_ms cfg;
}.

(** The event is a silent tick for a peer last seen at [ls], or elsewhere. *)
Definition silence (cfg : NodeConfig) (id ls : Z) (ev : ControlEvent) : Prop :=
  match ev with
  | ControlEvent_tick now => ls + patience cfg < now
  | _ => elsewhere id ev = true
  end.

(** The count of silent ticks, which stops at the verdict. *)
Definition missed_after (fail_after k : Z) : option Z :=
  if k =? 0 then None else Some (Z.min k (2 * fail_after)).

Lemma patience_exact cfg ls :
  config_ok cfg -> 0 <= ls -> ls + patience cfg < 2 ^ 64 ->
  wrap 64 (ls + wrap 64 (cfg_interval_ms cfg * cfg_fail_after cfg)) = ls + patience cfg.
Proof.
  intros [? ? ?] ? ?. assert (0 <= patience cfg) by (unfold patience; lia).
  fold (patience cfg). by rewrite (wrap_small 64 (patience cfg)), wrap_small by ulia.
Qed.

Lemma detect_silent cfg now n ls k :
  config_ok cfg -> 0 <= ls -> ls + patience cfg < 2 ^ 64 -> 0 <= k ->
  ni_last_seen n = Some ls -> ls + patience cfg < now ->
  let fail_after := cfg_fail_after cfg in
  detect cfg now (n <| ni_state := state_after fail_after k |>) (missed_after fail_after k)
  = (n <| ni_state := state_after fail_after (k + 1) |>, missed_after fail_after (k + 1)).
Proof.
  intros Hc Hls Hwrap Hk Hseen Hnow. cbv zeta. pose proof Hc as [HF H2F _].
  unfold detect. cbn [set_field ni_state ni_last_seen]. rewrite Hseen, patience_exact by done.
  rewrite (proj2 (Z.ltb_lt _ _)) by done.
  unfold missed_after. set (F := cfg_fail_after cfg) in *.
  rewrite (proj2 (Z.eqb_neq (k + 1) 0)) by lia.
  case_decide as Hd.
  - assert (2 * F <= k) by (unfold state_after in Hd; repeat case_match; zbool; done || lia).
    rewrite (proj2 (Z.eqb_neq k 0)) by lia. rewrite !Z.min_r by lia.
    unfold state_after. by rewrite !(proj2 (Z.ltb_ge _ _)) by lia.
  - assert (k < 2 * F) by (unfold state_after in Hd; repeat case_match; zbool; done || lia).
    replace (default 0 _) with k by (destruct (k =? 0) eqn:Ek; zbool; cbn; lia).
    rewrite Z.min_l, !wrap_small by ulia. f_equal.
    destruct n; cbn [set_field]; f_equal. unfold state_after.
    destruct (k <? F) eqn:E1, (k + 1 <? F) eqn:E2, (F <=? k + 1) eqn:E3, (F * 2 <=? k + 1) eqn:E4,
      (k + 1 <? 2 * F) eqn:E5; zbool; try lia; cbn; try done;
      by rewrite (proj2 (Z.ltb_lt k (2 * F))) by lia.
Qed.

Lemma ticks_cons ev evs :
  ticks (ev :: evs) = ticks evs + (if ev is ControlEvent_tick _ then 1 else 0).
Proof. unfold ticks. cbn [List.filter]. destruct ev; cbn [length]; lia. Qed.

(** The count of silent ticks decides the state, from any count on. *)
Lemma silent_run cp id n ls k evs :
  unique_members cp -> id <> mb_local_node_id (cp_members cp) -> config_ok (cp_config cp) ->
  0 <= ls -> ls + patience (cp_config cp) < 2 ^ 64 -> 0 <= k -> ni_last_seen n = Some ls ->
  peer_view cp id = (Some (n <| ni_state := state_after (cfg_fail_after (cp_config cp)) k |>),
                     missed_after (cfg_fail_after (cp_config cp)) k) ->
  Forall (silence (cp_config cp) id ls) evs ->
  peer_view (control_run cp evs) id
  = (Some (n <| ni_state := state_after (cfg_fail_after (cp_config cp)) (k + ticks evs) |>),
     missed_after (cfg_fail_after (cp_config cp)) (k + ticks evs)).
Proof.
  intros Hu Hl Hc Hls Hw Hk Hseen Hview Hevs. revert cp k Hu Hl Hc Hw Hk Hview Hevs.
  induction evs as [|ev evs IH]; intros cp k Hu Hl Hc Hw Hk Hview Hevs;
    [by rewrite Z.add_0_r|].
  apply Forall_cons in Hevs as [Hev Hevs]. cbn [control_run foldl]. rewrite ticks_cons.
  destruct (control_step_frame cp ev) as ([Hcfg Hloc] & Hu' & Hother).
  set (cp' := control_step cp ev) in *.
  assert (Hgoal : forall k', 0 <= k' -> k' = k + (if ev is ControlEvent_tick _ then 1 else 0) ->
    peer_view cp' id = (Some (n <| ni_state := state_after (cfg_fail_after (cp_config cp)) k' |>),
                        missed_after (cfg_fail_after (cp_config cp)) k') ->
    peer_view (control_run cp' evs) id
    = (Some (n <| ni_state := state_after (cfg_fail_after (cp_config cp))
          (k + (ticks evs + (if ev is ControlEvent_tick _ then 1 else 0))) |>),
       missed_after (cfg_fail_after (cp_config cp))
          (k + (ticks evs + (if ev is ControlEvent_tick _ then 1 else 0))))).
  { intros k' Hk' Hkk Hv. rewrite <- Hcfg in *.
    rewrite (IH cp' k') by (try done; auto; by rewrite Hloc).
    by replace (k' + ticks evs) with (k + (ticks evs + (if ev is ControlEvent_tick _ then 1 else 0))) by lia. }
  destruct ev as [now|tx now msg| |b|tx|tx|op|];
    try (apply (Hgoal k); [done|lia|by rewrite Hother]).
  apply (Hgoal (k + 1)); [lia|done|]. apply pair_equal_spec in Hview as [Hrow Hmiss].
  cbn [silence] in Hev. subst cp'. cbn [control_step].
  rewrite (heartbeat_tick_row _ _ _ _ Hu Hl Hrow), Hmiss.
  by rewrite (detect_silent _ now n ls k).
Qed.

Lemma active_peer_ids_row t id n :
  NoDup (member_ids t) -> id <> mb_local_node_id t -> row t id = Some n ->
  id ∈ MemberTable_active_peer_ids t <-> ni_state n <> NodeState_Down.
Proof.
  intros Hnd Hl Hrow. unfold MemberTable_active_peer_ids.
  rewrite list_elem_of_In, in_map_iff. setoid_rewrite filter_In. split.
  - intros (m & Hid & Hin & Hlive). apply list_elem_of_In, (find_node_elem _ _ Hnd) in Hin.
    assert (m = n) as -> by (unfold row in Hrow; congruence). unfold is_live_peer in Hlive. zbool.
    by apply bool_decide_eq_false in H0.
  - intros Hst. exists n. apply find_node_Some in Hrow as [Hin <-]. split; [done|].
    split; [by apply list_elem_of_In|]. unfold is_live_peer.
    by rewrite (proj2 (Z.eqb_neq _ _)), bool_decide_false by done.
Qed.

Lemma control_run_frame cp evs :
  same_identity cp (control_run cp evs) /\ (unique_members cp -> unique_members (control_run cp evs)).
Proof.
  revert cp. induction evs as [|ev evs IH]; intros cp; [done|]. cbn [control_run foldl].
  destruct (control_step_frame cp ev) as ([Hc Hl] & Hu & _), (IH (control_step cp ev)) as ([Hc' Hl'] & Hu').
  split; [split; unfold control_run in *; congruence|auto].
Qed.


Definition sample_config : NodeConfig :=
  NodeConfig_default <| cfg_node_id := 1 |>.

(** Node 1, which knows itself and node 2, last seen at 5000 ms. *)
Definition sample_control : ControlPlane :=
  let cp := ControlPlane_new sample_config (MemberTable_new 1) MrCacheTable_new sample_devices 99 in
  let cp := ControlPlane_register_self cp 0 in
  let '(cp, tx, _) := handle_peer_connection_open cp in
  process_control_message cp tx 5000
    (ControlMsg_Hello (mkHelloPayload 2 1 7 64 (str "10.0.0.2:7901"))).

Lemma sample_control_unique : unique_members sample_control.
Proof. apply (bool_decide_unpack _). vm_compute. exact I. Qed.

Lemma sample_config_ok : config_ok sample_config.
Proof. split; [reflexivity|reflexivity|discriminate]. Qed.


(** Every tick comes within [patience] of the last heartbeat before it. *)
Fixpoint timely (cfg : NodeConfig) (id ls : Z) (evs : list ControlEvent) : Prop :=
  match evs with
  | [] => True
  | ControlEvent_tick now :: evs =>
    now <= ls + patience cfg < 2 ^ 64 /\ timely cfg id ls evs
  | ControlEvent_message _ now msg :: evs =>
    match heartbeat_of msg with
    | Some p => 0 <= now /\ timely cfg id (if hb_node_id p =? id then now else ls) evs
    | None => about id msg = false /\ timely cfg id ls evs
    end
  | _ :: evs => timely cfg id ls evs
  end.

(** Active, or Suspect because of the detector. *)
Definition alive (st : NodeState) (missed : option Z) : Prop :=
  st = NodeState_Active \/ (st = NodeState_Suspect /\ missed <> None).

Lemma detect_timely cfg now n ls missed :
  config_ok cfg -> 0 <= ls -> ni_last_seen n = Some ls -> now <= ls + patience cfg < 2 ^ 64 ->
  alive (ni_state n) missed ->
  detect cfg now n missed = (n <| ni_state := NodeState_Active |>, None).
Proof.
  intros Hc H0 Hls [Hnow Hw] Ha. unfold detect. rewrite Hls, patience_exact by done.
  rewrite (proj2 (Z.ltb_ge _ _)) by done. destruct n as [id st ? ? ? ? ? ?]; cbn in *.
  destruct Ha as [->|[-> Hm]]; cbn; [by destruct missed|]. destruct missed; [done|by destruct Hm].
Qed.

Lemma timely_run cp id n ls evs :
  unique_members cp -> id <> mb_local_node_id (cp_members cp) -> config_ok (cp_config cp) ->
  row (cp_members cp) id = Some n -> ni_last_seen n = Some ls -> 0 <= ls ->
  alive (ni_state n) (cp_missed cp !! id) -> timely (cp_config cp) id ls evs ->
  exists n', row (cp_members (control_run cp evs)) id = Some n'
    /\ alive (ni_state n') (cp_missed (control_run cp evs) !! id)
    /\ (ni_state n = NodeState_Active \/ 0 < ticks evs -> ni_state n' = NodeState_Active).
Proof.
  revert cp n ls. induction evs as [|ev evs IH]; intros cp n ls Hu Hl Hc Hrow Hls H0 Ha Ht.
  { exists n. split; [done|]. split; [done|]. intros [?|?]; [done|]. unfold ticks in *. cbn in *. lia. }
  cbn [control_run foldl]. rewrite ticks_cons.
  destruct (control_step_frame cp ev) as ([Hcfg Hloc] & Hu' & Hother).
  assert (Hgo : forall n1 ls1, peer_view (control_step cp ev) id = (Some n1, cp_missed (control_step cp ev) !! id) ->
    ni_last_seen n1 = Some ls1 -> 0 <= ls1 -> alive (ni_state n1) (cp_missed (control_step cp ev) !! id) ->
    timely (cp_config cp) id ls1 evs ->
    (ni_state n = NodeState_Active \/ (if ev is ControlEvent_tick _ then True else False)
     -> ni_state n1 = NodeState_Active) ->
    exists n', row (cp_members (control_run (control_step cp ev) evs)) id = Some n'
      /\ alive (ni_state n') (cp_missed (control_run (control_step cp ev) evs) !! id)
      /\ (ni_state n = NodeState_Active \/ 0 < ticks evs + (if ev is ControlEvent_tick _ then 1 else 0)
          -> ni_state n' = NodeState_Active)).
  { intros n1 ls1 Hv Hls1 H01 Ha1 Ht1 Hact. apply pair_equal_spec in Hv as [Hrow1 _].
    rewrite <- Hcfg in Hc, Ht1. rewrite <- Hloc in Hl.
    destruct (IH _ n1 ls1 (Hu' Hu) Hl Hc Hrow1 Hls1 H01 Ha1 Ht1) as (n' & Hr' & Ha' & Hact').
    exists n'. split; [done|]. split; [done|]. intros Hor. apply Hact'.
    destruct Hor as [Hst|Hk]; [left; auto|]. destruct ev; try (right; lia); left; auto. }
  assert (Hsame : elsewhere id ev = true -> timely (cp_config cp) id ls evs ->
    (if ev is ControlEvent_tick _ then False else True) -> _)
    by (intros He Ht' Hnt; refine (Hgo n ls _ Hls H0 _ Ht' _);
        pose proof (Hother id He) as Hv; apply pair_equal_spec in Hv as [Hv1 Hv2];
        [unfold peer_view; by rewrite Hv1, Hrow|by rewrite Hv2|intros [?|?]; [done|by destruct ev]]).
  destruct ev as [now|tx now msg| |b|tx|tx|op|]; cbn [timely] in Ht;
    try (by apply Hsame).
  - destruct Ht as [Hnow Ht]. pose proof (heartbeat_tick_row cp now id n Hu Hl Hrow) as Hv.
    rewrite (detect_timely _ now n ls) in Hv by done.
    assert (Hm : cp_missed (heartbeat_tick cp now) !! id = None)
      by (by apply pair_equal_spec in Hv as [_ ?]).
    apply (Hgo (n <| ni_state := NodeState_Active |>) ls); cbn [control_step]; rewrite ?Hm; try done.
    by left.
  - destruct (heartbeat_of msg) as [p|] eqn:Hp.
    + destruct Ht as [Hn0 Ht]. pose proof (heartbeat_message cp tx now msg p id Hp) as Hv.
      cbn [control_step] in *. pose proof Hv as Hv'. apply pair_equal_spec in Hv' as [_ Hm].
      rewrite Z.eqb_sym, Hrow in Hv. destruct (hb_node_id p =? id); cbn [fmap option_fmap option_map] in Hv.
      * apply (Hgo (n <| ni_last_seen := Some now |>) now); rewrite ?Hm; try done. by intros [?|[]].
      * apply (Hgo n ls); rewrite ?Hm; try done. by intros [?|[]].
    + destruct Ht as [Hab Ht]. apply Hsame; [cbn; by rewrite Hab|done|done].
Qed.

(** C32 (safety): The failure detector never accuses a peer that is heard in time. As long as every
    heartbeat tick comes within [interval_ms * fail_after] of the last heartbeat (or its
    acknowledgement) from the peer, and no other message names it, an Active peer is Active
    throughout; a peer that was Suspect because of missed heartbeats is Active again from the
    first such tick on. Messages about other nodes, failures of others and connections that
    open and close do not matter. *)
Theorem timely_peer_active cp id n ls evs :
  unique_members cp -> config_ok (cp_config cp) -> id <> mb_local_node_id (cp_members cp) ->
  row (cp_members cp) id = Some n -> ni_last_seen n = Some ls -> 0 <= ls ->
  alive (ni_state n) (cp_missed cp !! id) -> timely (cp_config cp) id ls evs ->
  ni_state n = NodeState_Active \/ 0 < ticks evs ->
  exists n', row (cp_members (control_run cp evs)) id = Some n' /\ ni_state n' = NodeState_Active.
Proof.
  intros Hu Hc Hl Hrow Hls H0 Ha Ht Hor.
  destruct (timely_run cp id n ls evs Hu Hl Hc Hrow Hls H0 Ha Ht) as (n' & Hr & _ & Hact).
  exists n'. auto.
Qed.

(** Node 2 misses three ticks, is Suspect, and is heard again. *)
Definition sample_suspect : ControlPlane :=
  control_run sample_control (map ControlEvent_tick [9000; 10000; 11000]).

Lemma timely_peer_active_witness :
  option_map ni_state (row (cp_members sample_suspect) 2) = Some NodeState_Suspect
  /\ exists n', row (cp_members (control_run sample_suspect
      [ControlEvent_message 0 11500 (ControlMsg_Heartbeat (mkHeartbeatPayload 2 11400));
       ControlEvent_message 0 11600 (ControlMsg_HeartbeatAck (mkHeartbeatPayload 2 11400));
       ControlEvent_tick 12000])) 2 = Some n' /\ ni_state n' = NodeState_Active.
Proof.
  split; [vm_compute; reflexivity|].
  apply (timely_peer_active sample_suspect 2
    (mkNodeInfo 2 NodeState_Suspect [] (str "10.0.0.2:7901") 7 64 (Some 5000) (Some 0%nat)) 5000).
  - apply (bool_decide_unpack _). vm_compute. exact I.
  - exact sample_config_ok.
  - discriminate.
  - vm_compute. reflexivity.
  - reflexivity.
  - lia.
  - right. split; [reflexivity|]. vm_compute. discriminate.
  - vm_compute. repeat split; discriminate.
  - right. reflexivity.
Defined.

(** A node that was declared Down and says HELLO again is declared Down by the next
    tick unless a heartbeat comes first: its row keeps the old [last_seen], and its
    count of silent ticks was never reset. *)
Theorem rejoined_peer_down_again :
  let cp := control_run sample_control (map ControlEvent_tick [9000; 10000; 11000; 12000; 13000; 14000]) in
  let cp := process_control_message cp 0 60000
              (ControlMsg_Hello (mkHelloPayload 2 1 8 64 (str "10.0.0.2:7901"))) in
  option_map ni_state (row (cp_members cp) 2) = Some NodeState_Active
  /\ option_map ni_state (row (cp_members (heartbeat_tick cp 60100)) 2) = Some NodeState_Down.
Proof. split; vm_compute; reflexivity. Qed.

(** Two nodes of one snapshot: the data plane can only see the second. *)
Theorem snapshot_joins_coalesce :
  let cp := process_control_message sample_control 0 6000
    (ControlMsg_MemberSnapshot (mkMemberSnapshotPayload
      [mkSnapshotNodeInfo 3 1 (str "10.0.0.3:7901") (str "10.0.0.3:7900") 30;
       mkSnapshotNodeInfo 4 1 (str "10.0.0.4:7901") (str "10.0.0.4:7900") 40])) in
  w_value (cp_peer_change cp) = PeerChangeEvent_Joined 4 40
  /\ w_version (cp_peer_change cp) = w_version (cp_peer_change sample_control) + 2.
Proof. split; vm_compute; reflexivity. Qed.

(** ** The read loop *)

(** A stream of messages, cut anywhere by the network, is handled message by message. *)
Fixpoint handle_all (clock : nat -> Z) (peer_tx : nat) (cp : ControlPlane) (msgs : list ControlMsg)
  : ControlPlane :=
  match msgs with
  | [] => cp
  | msg :: msgs =>
    handle_all (fun i => clock (S i)) peer_tx (process_control_message cp peer_tx (clock 0%nat) msg) msgs
  end.

(** The message fits the wire and the limit of the read loop. *)
Definition sendable (msg : ControlMsg) : Prop :=
  msg_ok msg /\ Z.of_nat (length (ControlMsg_encode_payload msg)) <= 1000000.

Lemma read_loop_message fuel clock tx cp msg stream :
  sendable msg ->
  read_loop (S fuel) clock tx cp (ControlMsg_encode msg ++ stream)
  = read_loop fuel (fun i => clock (S i)) tx
      (process_control_message cp tx (clock 0%nat) msg) stream.
Proof.
  intros [Hok Hlen]. set (pay := ControlMsg_encode_payload msg) in *.
  assert (Hdec : ControlMsg_decode (ControlMsg_encode msg) = Ok msg).
  { rewrite <- (app_nil_r (ControlMsg_encode msg)). apply decode_encode_msg; [done|subst pay; ulia]. }
  assert (Henc : ControlMsg_encode msg
    = put_u32 (Z.of_nat (length pay)) ++ put_u8 (CtrlMsgType_as_u8 (ControlMsg_msg_type msg)) ++ pay)
    by reflexivity.
  cbn [read_loop]. rewrite Henc, <- app_assoc.
  change 4%nat with (length (put_u32 (Z.of_nat (length pay)))) at 1.
  rewrite read_exact_app, be_value_be_bytes by (change (8 * Z.of_nat 4) with 32; ulia).
  rewrite (proj2 (Z.ltb_ge _ _)) by done.
  replace (Z.to_nat (1 + Z.of_nat (length pay))) with
    (length (put_u8 (CtrlMsgType_as_u8 (ControlMsg_msg_type msg)) ++ pay))
    by (rewrite length_app, length_be_bytes; lia).
  rewrite read_exact_app, <- Henc, Hdec. done.
Qed.

Lemma encode_nonempty msg : (0 < length (ControlMsg_encode msg))%nat.
Proof. unfold ControlMsg_encode, encode_ctrl_message. rewrite !length_app, length_be_bytes. lia. Qed.

Lemma read_loop_messages msgs fuel clock tx cp :
  Forall sendable msgs -> (length msgs <= fuel)%nat ->
  read_loop fuel clock tx cp (concat (map ControlMsg_encode msgs)) = handle_all clock tx cp msgs.
Proof.
  revert fuel clock cp. induction msgs as [|msg msgs IH]; intros fuel clock cp Hs Hf.
  - destruct fuel; [done|reflexivity].
  - apply Forall_cons in Hs as [Hm Hs]. destruct fuel as [|fuel]; [cbn in Hf; lia|]. cbn [map concat].
    rewrite read_loop_message by done. apply IH; [done|cbn in Hf; lia].
Qed.

Lemma read_stream_messages msgs clock tx cp :
  Forall sendable msgs ->
  read_stream clock tx cp (concat (map ControlMsg_encode msgs)) = handle_all clock tx cp msgs.
Proof.
  intros Hs. apply read_loop_messages; [done|]. clear. induction msgs as [|msg msgs IH]; cbn; [lia|].
  rewrite length_app. pose proof (encode_nonempty msg). lia.
Qed.
