(* ===== verification/Bootstrap.v ===== *)
(** * Bootstrap: connections of the control plane

    crates/ub-control/src/control.rs, [start] and the life of a connection: whom a
    node connects to, how it retries, and what happens on a connection from the
    greeting to its end (Control.v has the parts). TCP is the outcome of each
    attempt and the bytes it delivers. *)

From S2P Require Import Prelude Bytes Types Net Config Message Member Control.
#[local] Open Scope Z_scope.

(** Source: crates/ub-control/src/control.rs:134-199, [ControlPlane::start].
    The nodes a node connects to, and whether it joins through them; an address
    that does not parse is skipped. *)
Definition bootstrap_targets (config : NodeConfig) : list (SocketAddr * bool) :=
  let control := cfg_control config in
  if decide (cc_bootstrap control = str "static")
  then map (fun a => (a, false)) (omap parse_socket_addr (cc_peers control))
  else if decide (cc_bootstrap control = str "seed")
  then map (fun a => (a, true)) (omap parse_socket_addr (cc_seed_addrs control))
  else [].

(** Source: crates/ub-control/src/control.rs:146-164, [ControlPlane::start].
    The loop that connects: [attempts] is the outcome of each attempt in turn, the
    result the delays in seconds it slept and whether it got through. The loop for a
    seed (control.rs:179-195) is the same. *)
Fixpoint connect_loop (delay : Z) (attempts : list bool) : list Z * bool :=
  match attempts with
  | [] => ([], false)
  | true :: _ => ([], true)
  | false :: attempts =>
    let '(slept, connected) := connect_loop (Z.min (delay * 2) 30) attempts in (delay :: slept, connected)
  end.

Definition first_delay : Z := 1.

(** Source: crates/ub-control/src/control.rs:356-452, [handle_peer_connection].
    A connection from the greeting, which the socket takes or not, over the bytes
    it delivers until it closes. *)
Definition handle_peer_connection (cp : ControlPlane) (hello_sent : bool) (clock : nat -> Z) (stream : bytes)
  : ControlPlane * bytes :=
  let '(cp, tx, hello) := handle_peer_connection_open cp in
  let cp := if hello_sent then read_stream clock tx cp stream else cp in
  (connection_closed cp tx, hello).

(** Source: crates/ub-control/src/control.rs:455-544, [handle_seed_join]. *)
Definition handle_seed_join (cp : ControlPlane) (join_sent : bool) (clock : nat -> Z) (stream : bytes)
  : ControlPlane * bytes :=
  let '(cp, tx, join) := handle_seed_join_open cp in
  let cp := if join_sent then read_stream clock tx cp stream else cp in
  (connection_closed cp tx, join).

(** ** The retry loop *)

(** The delay doubles up to thirty seconds. *)
Definition backoff (k : nat) : Z := Z.min (2 ^ Z.of_nat k) 30.

Lemma backoff_next k : backoff (S k) = Z.min (backoff k * 2) 30.
Proof. unfold backoff. rewrite Nat2Z.inj_succ, Z.pow_succ_r by lia. lia. Qed.

Lemma connect_loop_spec attempts k :
  exists n, (n <= length attempts)%nat
    /\ connect_loop (backoff k) attempts = (map backoff (seq k n), bool_decide (true ∈ attempts))
    /\ Forall (eq false) (take n attempts)
    /\ (true ∈ attempts -> attempts !! n = Some true).
Proof.
  revert k. induction attempts as [|[] attempts IH]; intros k.
  - exists 0%nat. split; [done|]. split; [done|]. split; [constructor|]. by intros ?%not_elem_of_nil.
  - exists 0%nat. split; [cbn; lia|]. split; [|split; [constructor|done]].
    cbn. by rewrite bool_decide_true by (by left).
  - destruct (IH (S k)) as (n & Hn & Hl & Hf & Ht). exists (S n). cbn [connect_loop].
    rewrite <- backoff_next, Hl. split; [cbn; lia|]. split; [|split].
    + cbn [seq map]. do 2 f_equal. apply bool_decide_ext. rewrite elem_of_cons. naive_solver.
    + cbn [take]. by constructor.
    + rewrite elem_of_cons. intros [?|?]; [done|]. cbn. auto.
Qed.

(** The connection is made at the first attempt that succeeds, after the delays
    1, 2, 4, 8, 16, 30, 30, .. seconds. *)
Lemma connect_loop_delays attempts : exists n,
  connect_loop first_delay attempts = (map backoff (seq 0 n), bool_decide (true ∈ attempts))
  /\ (true ∈ attempts -> attempts !! n = Some true) /\ Forall (eq false) (take n attempts).
Proof.
  destruct (connect_loop_spec attempts 0) as (n & _ & Hl & Hf & Ht). exists n. split; [exact Hl|done].
Qed.

(** ** What the design promises and the code does not do *)

(** Once a connection is made the loop is over: a node does not connect again to a
    peer or a seed whose connection closed, whatever further attempts would give. *)
Theorem no_reconnection attempts : connect_loop first_delay (true :: attempts) = ([], true).
Proof. reflexivity. Qed.
