(* ===== verification/Mirror.v ===== *)
(** * Mirror: the directory of remote regions

    The components of a node that announce its memory regions, put together: the
    events of its [MrTable] (Mr.v), the drain loop that broadcasts them, the
    connection's queue and byte stream, and the read loop of a peer that fills its
    [MrCacheTable] (Control.v). The abstract directory is [live_region]: the
    regions of the owner that are registered and not being revoked. *)

From S2P Require Import Prelude Bytes Types Addr Device Mr Config Frame Message Member Control.

(** ** The specification *)

(** What a peer should know of a region. *)
Definition region_entry (devices : list DynDevice) (t : MrTable) (e : MrEntry) : option MrCacheEntry :=
  d ← devices !! me_device e;
  Some (mkMrCacheEntry (me_handle e) (mt_node_id t) (me_base_ub_addr e) (me_len e) (me_perms e)
          (dev_kind d)).

Definition live_region (devices : list DynDevice) (t : MrTable) (h : Z) : option MrCacheEntry :=
  arc ← mt_entries t !! h;
  e ← mt_heap t !! arc;
  if decide (me_state e = MrState_Active) then region_entry devices t e else None.

(** The calls as the code makes them: permissions are [MrPerms], and the second half
    of [deregister_async] follows its first half on the same entry. *)
Definition mr_call_ok (devices : list DynDevice) (t : MrTable) (op : MrOp) : Prop :=
  mr_op_ok devices t op
  /\ match op with
     | MrOp_register _ _ perms => flags_ok MrPerms_all perms
     | MrOp_deregister_async_finish h arc _ =>
       mt_entries t !! h = Some arc
       /\ exists e, mt_heap t !! arc = Some e /\ me_state e = MrState_Revoking
     | _ => True
     end.

Inductive mr_history (devices : list DynDevice) (pod node : Z) : MrTable -> Prop :=
| mr_history_new : mr_history devices pod node (MrTable_new_with_channel pod node)
| mr_history_step t op :
    mr_history devices pod node t -> mr_call_ok devices t op ->
    mr_history devices pod node (mr_step devices t op).

Lemma mr_history_ok devices pod node t :
  u16 pod -> u16 node -> mr_history devices pod node t -> mr_ok t.
Proof.
  intros Hp Hn Hh. apply (mr_reachable_ok devices pod node); [done..|].
  induction Hh as [|t op _ IH [Hop _]]; by constructor.
Qed.

(** ** What the events do to a cache *)

Definition apply_event (c : gmap (Z * Z) MrCacheEntry) (ev : MrPublishEvent)
  : gmap (Z * Z) MrCacheEntry :=
  match ev with
  | MrPublishEvent_Publish i =>
    <[(pi_owner_node i, pi_mr_handle i) :=
        mkMrCacheEntry (pi_mr_handle i) (pi_owner_node i) (pi_base_ub_addr i) (pi_len i)
          (pi_perms i) (pi_device_kind i)]> c
  | MrPublishEvent_Revoke o h => delete (o, h) c
  end.

Lemma handle_all_events evs clock tx cp :
  cp_mr_cache (handle_all clock tx cp (map mr_event_msg evs)) = foldl apply_event (cp_mr_cache cp) evs.
Proof.
  revert clock cp. induction evs as [|ev evs IH]; intros clock cp; [done|]. cbn [map handle_all foldl].
  rewrite IH. by destruct ev.
Qed.

(** ** The invariant of the owner

    [c] is any cache that knows nothing of the owner yet. *)

Section mirror.
Context (devices : list DynDevice) (pod node : Z) (c : gmap (Z * Z) MrCacheEntry).
Context (Hpod : u16 pod) (Hnode : u16 node) (Hc : forall h, c !! (node, h) = None).

Record mirrored (t : MrTable) (evs : list MrPublishEvent) : Prop := {
  mi_node : mt_node_id t = node;
  mi_events : mt_publish t = Some evs;
  mi_cache : forall o h, foldl apply_event c evs !! (o, h)
                         = if decide (o = node) then live_region devices t h else c !! (o, h);
  mi_wire : Forall (fun ev => sendable (mr_event_msg ev)) evs;
}.

(** An entry other than the one of [h] is not affected by what happens to [h]. *)
Lemma live_region_other t t' h arc e e' h' :
  mr_ok t -> mt_heap t !! arc = Some e -> me_handle e = h ->
  mt_heap t' = <[arc := e']> (mt_heap t) -> mt_node_id t' = mt_node_id t ->
  mt_entries t' !! h' = mt_entries t !! h' -> h' <> h ->
  live_region devices t' h' = live_region devices t h'.
Proof.
  intros Hok He Hh Hheap Hn Hent Hne. unfold live_region. rewrite Hent, Hheap.
  destruct (mt_entries t !! h') as [arc'|] eqn:E; [cbn|done].
  destruct (mo_table _ Hok _ _ E) as (e2 & He2 & Hh2).
  rewrite list_lookup_insert_ne by congruence. rewrite He2. cbn. unfold region_entry. by rewrite Hn.
Qed.

(** The table keeps its events when nothing is announced. *)
Lemma mirrored_quiet t t' evs :
  mirrored t evs -> mt_node_id t' = mt_node_id t -> mt_publish t' = mt_publish t ->
  (forall h, live_region devices t' h = live_region devices t h) -> mirrored t' evs.
Proof.
  intros [Hn He Hca Hw] Hn' Hp' Hl. split; [congruence|congruence| |done].
  intros o h. rewrite Hca, Hl. done.
Qed.

(** A revocation announces itself and takes its region out of the directory. *)
Lemma mirrored_revoke t t' evs h arc e e' :
  mr_ok t -> mirrored t evs -> mt_heap t !! arc = Some e -> me_handle e = h ->
  mt_heap t' = <[arc := e']> (mt_heap t) -> me_state e' <> MrState_Active ->
  mt_node_id t' = mt_node_id t -> mt_publish t' = Some (evs ++ [MrPublishEvent_Revoke node h]) ->
  mt_entries t' !! h = None \/ mt_entries t' !! h = Some arc ->
  (forall h', h' <> h -> mt_entries t' !! h' = mt_entries t !! h') ->
  mirrored t' (evs ++ [MrPublishEvent_Revoke node h]).
Proof.
  intros Hok [Hn He Hca Hw] Ha Hh Hheap Hst Hn' Hp' Hent Hother. split; [congruence|done| |].
  - intros o h'. rewrite foldl_app. cbn [foldl apply_event].
    destruct (decide ((node, h) = (o, h'))) as [[= <- <-]|Hne].
    + rewrite lookup_delete_eq, decide_True by done. unfold live_region.
      destruct Hent as [->| ->]; [done|]. cbn. rewrite Hheap, list_lookup_insert_eq; [cbn|].
      * by rewrite decide_False.
      * by eapply lookup_lt_Some.
    + rewrite lookup_delete_ne, Hca by done. case_decide; [|done]. subst o.
      assert (h' <> h) by congruence. symmetry. eapply live_region_other; eauto.
  - apply Forall_app. split; [done|]. constructor; [|constructor]. split; [|cbn; lia].
    destruct (mo_entries _ Hok _ _ Ha). pose proof (mo_next _ Hok). cbn. ulia.
Qed.

(** The node's events grow by [publish] only. *)
Lemma publish_events t evs ev : mt_publish t = Some evs -> mt_publish (publish t ev) = Some (evs ++ [ev]).
Proof. intros H. unfold publish. by rewrite H. Qed.

Lemma mirrored_register t evs device len perms :
  mr_ok t -> mirrored t evs -> mr_call_ok devices t (MrOp_register device len perms) ->
  exists evs', mirrored (mr_step devices t (MrOp_register device len perms)) evs'.
Proof.
  intros Hok Hm [Hop Hperms]. cbn [mr_step].
  destruct (decide (len = 0)) as [->|Hlen]; [by exists evs|].
  destruct (devices !! device) as [d|] eqn:Hd.
  2: { exists evs. unfold MrTable_register. by rewrite (proj2 (Z.eqb_neq len 0)), Hd by done. }
  assert (0 < len) by (destruct Hop; lia).
  destruct (register_spec t devices device len perms d Hok Hop) as
    (t' & base & Hreg & Hnb & Hbl & Hal & Hheap & Htab & Hnh & _ & _ & Hnd); [done..|].
  destruct Hm as [Hn He Hca Hw]. pose proof (mo_next _ Hok).
  pose proof (next_nonneg t (dev_device_id d) Hok).
  set (a := UbAddr_new _ _ _ _ _) in *.
  set (ev := MrPublishEvent_Publish
               (mkMrPublishInfo (mt_next_handle t) node a len perms (dev_kind d))).
  assert (Hp : mt_publish t' = Some (evs ++ [ev])).
  { revert Hreg. unfold MrTable_register. rewrite (proj2 (Z.eqb_neq len 0)), Hd by done.
    unfold OffsetAllocator_alloc. cbv zeta. intros [= <- Ha]. rewrite Ha. cbn [set_field mt_node_id].
    rewrite Hn. by apply publish_events. }
  assert (Hnew : mt_entries t !! mt_next_handle t = None).
  { destruct (mt_entries t !! mt_next_handle t) as [i|] eqn:E; [|done].
    destruct (mo_table _ Hok _ _ E) as (e & Hi & Hh). destruct (mo_entries _ Hok _ _ Hi). lia. }
  exists (evs ++ [ev]). rewrite Hreg. split; [congruence|done| |].
  - intros o h. rewrite foldl_app. subst ev. cbn [foldl apply_event pi_owner_node pi_mr_handle
      pi_base_ub_addr pi_len pi_perms pi_device_kind].
    unfold live_region. rewrite Htab, Hheap.
    destruct (decide ((node, mt_next_handle t) = (o, h))) as [[= <- <-]|Hne].
    + rewrite lookup_insert_eq, decide_True by done. rewrite lookup_insert_eq. cbn.
      rewrite lookup_app_r, Nat.sub_diag by lia. cbn. unfold region_entry. cbn. rewrite Hd. cbn.
      rewrite decide_True by done. congruence.
    + rewrite lookup_insert_ne, Hca by done. case_decide; [|done]. subst o.
      rewrite lookup_insert_ne by congruence. unfold live_region.
      destruct (mt_entries t !! h) as [i|] eqn:E; [cbn|done].
      destruct (mo_table _ Hok _ _ E) as (e & Hi & _).
      rewrite Hi, (lookup_app_l_Some _ _ _ _ Hi). unfold region_entry. by rewrite Hnd.
  - apply Forall_app. split; [done|]. constructor; [|constructor]. split; [|cbn; lia].
    pose proof (mo_ids _ Hok) as [Hpd Hnid]. destruct Hop as (_ & _ & Hroom).
    destruct (Hroom d Hd) as [Hdid _]. unfold ev. cbn.
    split_and!; try done; try ulia. subst a. rewrite UbAddr_new_sum by (done || ulia). ulia.
Qed.

Lemma arc_set_state_fields t arc st e :
  mt_heap t !! arc = Some e ->
  mt_heap (arc_set_state t arc st) = <[arc := e <| me_state := st |>]> (mt_heap t)
  /\ mt_entries (arc_set_state t arc st) = mt_entries t
  /\ mt_node_id (arc_set_state t arc st) = mt_node_id t
  /\ mt_publish (arc_set_state t arc st) = mt_publish t.
Proof. intros He. unfold arc_set_state. by rewrite He. Qed.

Lemma mirrored_deregister t evs h :
  mr_ok t -> mirrored t evs -> exists evs', mirrored (mr_step devices t (MrOp_deregister h)) evs'.
Proof.
  intros Hok Hm. cbn [mr_step]. unfold MrTable_deregister.
  destruct (mt_entries t !! h) as [arc|] eqn:Hh; [|by exists evs].
  destruct (mo_table _ Hok _ _ Hh) as (e & He & Hhe). rewrite He.
  case_decide as Ha; [|by exists evs]. cbv zeta.
  destruct (arc_set_state_fields t arc MrState_Revoking e He) as (F1 & F2 & F3 & F4).
  set (t1 := arc_set_state t arc MrState_Revoking) in *.
  destruct (publish_fields t1 (MrPublishEvent_Revoke (mt_node_id t1) h)) as (P1 & P2 & _ & _ & _ & P3).
  pose proof Hm as [Hn Hev _ _].
  exists (evs ++ [MrPublishEvent_Revoke node h]).
  eapply (mirrored_revoke t _ evs h arc e); try done; cbn [set_field mt_heap mt_node_id mt_publish mt_entries].
  - by rewrite P1, F1.
  - done.
  - congruence.
  - rewrite <- Hn, <- F3. apply publish_events. congruence.
  - left. apply lookup_delete_eq.
  - intros h' Hne. rewrite lookup_delete_ne, P2, F2 by done. done.
Qed.

Lemma mirrored_async_start t evs h :
  mr_ok t -> mirrored t evs ->
  exists evs', mirrored (mr_step devices t (MrOp_deregister_async_start h)) evs'.
Proof.
  intros Hok Hm. cbn [mr_step]. unfold MrTable_deregister_async_start.
  destruct (mt_entries t !! h) as [arc|] eqn:Hh; [|by exists evs].
  destruct (mo_table _ Hok _ _ Hh) as (e & He & Hhe). rewrite He.
  case_decide as Ha; [|by exists evs]. cbv zeta.
  destruct (arc_set_state_fields t arc MrState_Revoking e He) as (F1 & F2 & F3 & F4).
  set (t1 := arc_set_state t arc MrState_Revoking) in *.
  destruct (publish_fields t1 (MrPublishEvent_Revoke (mt_node_id t1) h)) as (P1 & P2 & _ & _ & _ & P3).
  pose proof Hm as [Hn Hev _ _].
  assert (P4 : mt_publish (publish t1 (MrPublishEvent_Revoke (mt_node_id t1) h))
               = Some (evs ++ [MrPublishEvent_Revoke node h]))
    by (rewrite <- Hn, <- F3; apply publish_events; congruence).
  set (t2 := publish t1 _) in *.
  assert (He2 : mt_heap t2 !! arc = Some (e <| me_state := MrState_Revoking |>))
    by (rewrite P1, F1; apply list_lookup_insert_eq; by eapply lookup_lt_Some).
  exists (evs ++ [MrPublishEvent_Revoke node h]). destruct (0 <? me_inflight_refs e).
  - eapply (mirrored_revoke t t2 evs h arc e); try done; [by rewrite P1, F1|done|congruence| |].
    + right. by rewrite P2, F2.
    + intros h' _. by rewrite P2, F2.
  - destruct (arc_set_state_fields t2 arc MrState_Released _ He2) as (G1 & G2 & G3 & G4).
    eapply (mirrored_revoke t _ evs h arc e); try done; cbn [set_field mt_heap mt_node_id mt_publish mt_entries].
    + rewrite G1, P1, F1. apply list_insert_insert_eq.
    + done.
    + congruence.
    + congruence.
    + left. apply lookup_delete_eq.
    + intros h' Hne. rewrite lookup_delete_ne, G2, P2, F2 by done. done.
Qed.

Lemma mirrored_async_finish t evs h arc timed_out :
  mr_ok t -> mirrored t evs -> mr_call_ok devices t (MrOp_deregister_async_finish h arc timed_out) ->
  mirrored (mr_step devices t (MrOp_deregister_async_finish h arc timed_out)) evs.
Proof.
  intros Hok Hm [_ (Hh & e & He & Hst)]. cbn [mr_step MrTable_deregister_async_finish fst].
  destruct (mo_table _ Hok _ _ Hh) as (e0 & He0 & Hhe). assert (e0 = e) as -> by congruence.
  destruct (arc_set_state_fields t arc MrState_Released e He) as (F1 & F2 & F3 & F4).
  apply (mirrored_quiet t); [done|by cbn..|]. intros h'.
  destruct (decide (h' = h)) as [->|Hne].
  - unfold live_region. cbn [set_field mt_entries]. rewrite lookup_delete_eq, Hh. cbn. rewrite He. cbn.
    by rewrite decide_False by congruence.
  - eapply (live_region_other t _ h arc e); cbn [set_field mt_heap mt_entries mt_node_id]; try done.
    by rewrite lookup_delete_ne, F2 by done.
Qed.

(** Counting references changes nothing a peer can see. *)
Lemma mirrored_refs t evs arc f :
  mirrored t evs -> (forall e, same_region e (f e) /\ me_state (f e) = me_state e) ->
  mirrored (arc_update t arc f) evs.
Proof.
  intros Hm Hf. apply (mirrored_quiet t); [done..|]. intros h. unfold live_region, arc_update. cbn.
  destruct (mt_entries t !! h) as [i|]; [cbn|done].
  destruct (decide (arc = i)) as [->|Hne]; [|by rewrite list_lookup_alter_ne].
  rewrite list_lookup_alter_eq. destruct (mt_heap t !! i) as [e|]; [cbn|done].
  destruct (Hf e) as [(Hhd & Hdv & _ & Hl & Hp & Hu) ->]. unfold region_entry. cbn.
  by rewrite Hhd, Hdv, Hl, Hp, Hu.
Qed.

Lemma mr_history_mirrored t : mr_history devices pod node t -> exists evs, mirrored t evs.
Proof.
  induction 1 as [|t op Hh [evs IH] Hop].
  - exists []. split; [done|done| |constructor]. intros o h. cbn. case_decide; [subst; by rewrite Hc|done].
  - pose proof (mr_history_ok _ _ _ _ Hpod Hnode Hh) as Hok.
    destruct op as [dev len perms|h|h|h arc to|arc|arc].
    + by eapply mirrored_register.
    + by eapply mirrored_deregister.
    + by eapply mirrored_async_start.
    + exists evs. by apply mirrored_async_finish.
    + exists evs. apply mirrored_refs; [done|]. intros e. unfold MrEntry_try_inflight_inc. by case_decide.
    + exists evs. by apply mirrored_refs.
Qed.
End mirror.

(** ** The owner's side of the connection *)

Lemma send_to_all_queue senders chans tx q data :
  chans !! tx = Some (mkChan true q) ->
  send_to_all chans senders data !! tx
  = Some (mkChan true (q ++ map (fun _ => data) (filter (fun s => s.2 = tx) senders))).
Proof.
  revert chans q. induction senders as [|[i s] senders IH]; intros chans q Hq;
    cbn [send_to_all foldl snd]; [by rewrite app_nil_r|]. fold (send_to_all (chan_send chans s data).1 senders data).
  rewrite filter_cons. cbn [snd]. case_decide as Hs.
  - subst s. unfold chan_send. rewrite Hq. cbn [fst]. rewrite (IH _ (q ++ [data])).
    + by rewrite <- app_assoc.
    + apply list_lookup_insert_eq. by eapply lookup_lt_Some.
  - apply IH. unfold chan_send. destruct (chans !! s) as [[[|] ?]|]; cbn; try done.
    by rewrite list_lookup_insert_ne.
Qed.

(** The drain loop moves the events, in order, into the queue of every live peer. *)
Lemma mr_drain_queue evs cp table id tx q :
  cp_mr_table cp = Some table -> mt_publish table = Some evs ->
  filter (fun s => s.2 = tx) (MemberTable_active_peer_senders (cp_members cp)) = [(id, tx)] ->
  cp_chans cp !! tx = Some (mkChan true q) ->
  cp_chans (Nat.iter (length evs) mr_drain_turn cp) !! tx
  = Some (mkChan true (q ++ map (fun ev => ControlMsg_encode (mr_event_msg ev)) evs)).
Proof.
  revert cp table q. induction evs as [|ev evs IH]; intros cp table q Ht Hp Hs Hq;
    [cbn; by rewrite app_nil_r|].
  cbn [length map]. rewrite Nat.iter_succ_r.
  rewrite (IH _ (table <| mt_publish := Some evs |>) (q ++ [ControlMsg_encode (mr_event_msg ev)])).
  - by rewrite <- app_assoc.
  - unfold mr_drain_turn. by rewrite Ht, Hp.
  - done.
  - by destruct (mr_drain_turn_frame cp) as (-> & _).
  - unfold mr_drain_turn. rewrite Ht, Hp. cp_cbn. rewrite (send_to_all_queue _ _ _ _ _ Hq), Hs. done.
Qed.

(** ** Properties *)

(** C7 (refinement): The directory of remote regions of a peer that was connected from the start is
    exactly the owner's table. Let the peer be, of the owner's active members, the one with
    this sender, its channel open and empty, and know nothing yet of the owner. Whatever sequence of
    registrations, deregistrations (immediate, waiting for references, or timed out) and
    reference counting the owner's table went through since it was created, within the range of
    its handles and offsets: once the drain loop has sent its events and the peer's read loop
    has handled the bytes of the connection, the peer knows precisely the regions of the owner
    that are registered and not being revoked, with their addresses, lengths, permissions and
    device kinds; a revoked region is gone, and what the peer knew of other nodes is unchanged.
    The bytes go through the encoders, the framing limit of the read loop and the decoders.
    (What a peer that comes later is told when it joins is [join_handshake]; that this includes
    regions under revocation is [revoking_region_announced].) *)
Theorem mr_cache_mirrors_owner devices pod node t evs owner id tx peer peer_tx clock :
  u16 pod -> u16 node -> mr_history devices pod node t -> mt_publish t = Some evs ->
  cp_mr_table owner = Some t ->
  filter (fun s => s.2 = tx) (MemberTable_active_peer_senders (cp_members owner)) = [(id, tx)] ->
  cp_chans owner !! tx = Some (mkChan true []) ->
  (forall h, cp_mr_cache peer !! (node, h) = None) ->
  let owner' := Nat.iter (length evs) mr_drain_turn owner in
  let peer' := read_stream clock peer_tx peer (concat (queued (cp_chans owner') tx)) in
  forall o h, cp_mr_cache peer' !! (o, h)
    = if decide (o = node) then live_region devices t h else cp_mr_cache peer !! (o, h).
Proof.
  intros Hp Hn Hh Hevs Ht Hs Hq Hpeer. cbv zeta. intros o h.
  destruct (mr_history_mirrored devices pod node (cp_mr_cache peer) Hp Hn Hpeer t Hh)
    as [evs' [_ Hevs' Hca Hw]].
  assert (evs' = evs) as -> by congruence.
  unfold queued. rewrite (mr_drain_queue evs owner t id tx [] Ht Hevs Hs Hq). cbn [ch_queue app].
  rewrite <- map_map, read_stream_messages, handle_all_events; [apply Hca|].
  apply Forall_forall. intros msg Hmsg. apply list_elem_of_fmap in Hmsg as (ev & -> & Hev).
  by eapply Forall_forall in Hw.
Qed.

(** Node 42 registers two regions, takes the first back, and has node 2 as a peer. *)
Definition mirror_table : MrTable := mr_step sample_devices sample_table (MrOp_deregister 1).

Definition mirror_owner : ControlPlane :=
  let cfg := NodeConfig_default <| cfg_node_id := 42 |> in
  let cp := ControlPlane_new cfg (MemberTable_new 42) MrCacheTable_new sample_devices 7 in
  let '(cp, tx, _) := handle_peer_connection_open (ControlPlane_register_self cp 0) in
  let cp := process_control_message cp tx 10
              (ControlMsg_Hello (mkHelloPayload 2 1 7 64 (str "10.0.0.2:7901"))) in
  ControlPlane_set_mr_table (write_loop_turn cp tx).1 mirror_table.

Lemma mirror_table_history : mr_history sample_devices 1 42 mirror_table.
Proof.
  assert (Hok : forall t len, mt_next_handle t + 1 < 2 ^ 32 ->
            0 <= len -> default 0 (mt_allocators t !! 0) + 8 + len < 2 ^ 64 ->
            mr_call_ok sample_devices t (MrOp_register 0 len 3)).
  { intros t len H1 H2 H3. split; [|by split]. split; [done|]. split; [done|].
    intros d [= <-]. split; [split; [discriminate|reflexivity]|exact H3]. }
  apply mr_history_step; [|done].
  apply mr_history_step; [apply mr_history_step; [apply mr_history_new|]|];
    apply Hok; vm_compute; (reflexivity || discriminate).
Qed.

Lemma mr_cache_mirrors_owner_witness :
  let owner' := Nat.iter 3 mr_drain_turn mirror_owner in
  let peer' := read_stream (fun _ => 0) 0 sample_control (concat (queued (cp_chans owner') 0)) in
  cp_mr_cache peer' !! (42, 1) = None
  /\ cp_mr_cache peer' !! (42, 2)
     = Some (mkMrCacheEntry 2 42 (UbAddr_new 1 42 0 16 0) 16 3 DeviceKind_Memory).
Proof.
  cbv zeta.
  assert (H := mr_cache_mirrors_owner sample_devices 1 42 mirror_table
    [MrPublishEvent_Publish (mkMrPublishInfo 1 42 (UbAddr_new 1 42 0 0 0) 10 3 DeviceKind_Memory);
     MrPublishEvent_Publish (mkMrPublishInfo 2 42 (UbAddr_new 1 42 0 16 0) 16 3 DeviceKind_Memory);
     MrPublishEvent_Revoke 42 1]
    mirror_owner 2 0 sample_control 0 (fun _ => 0)
    ltac:(split; [discriminate|reflexivity]) ltac:(split; [discriminate|reflexivity])
    mirror_table_history ltac:(vm_compute; reflexivity) ltac:(vm_compute; reflexivity)
    ltac:(vm_compute; reflexivity) ltac:(vm_compute; reflexivity) ltac:(intros h; reflexivity)).
  split; [refine (eq_trans (H 42 1) _)|refine (eq_trans (H 42 2) _)]; vm_compute; reflexivity.
Defined.

(** A node that joins while a region waits for its last references is told about
    the region by [send_existing_mrs] although its revocation was already
    announced, and is never told that it is gone. *)
Theorem revoking_region_announced :
  let t := arc_update sample_table 0 (fun e => (MrEntry_try_inflight_inc e).1) in
  let t := mr_step sample_devices t (MrOp_deregister_async_start 1) in
  let cp := ControlPlane_set_mr_table mirror_owner (t <| mt_publish := Some [] |>) in
  let '(cp, tx, _) := handle_peer_connection_open cp in
  let cp := send_existing_mrs cp tx in
  let peer := read_stream (fun _ => 0) 0 sample_control (concat (queued (cp_chans cp) tx)) in
  let done := mr_step sample_devices t (MrOp_deregister_async_finish 1 0 false) in
  option_map mc_len (cp_mr_cache peer !! (42, 1)) = Some 10
  /\ live_region sample_devices t 1 = None /\ mt_entries done !! 1 = None
  /\ mt_publish done = mt_publish t.
Proof. vm_compute. repeat split. Qed.
