(* ===== verification/Join.v ===== *)
(** * Join: a node joins the SuperPod through a seed

    The handlers of crates/ub-control/src/control.rs on both ends of one connection:
    the joiner opens it with JOIN ([handle_seed_join]), the seed accepts it with HELLO
    ([handle_peer_connection]), and their read and write loops run in any order
    until nothing is left to say. What either node says does not depend on how the
    loops interleave, so every complete run ends the same. *)

From stdpp Require Import relations.
From S2P Require Import Prelude Bytes Types Addr Device Mr Config.
From S2P Require Import Message Member Control Mirror.

(** ** The connection *)

(** The two nodes, and the writes on the wire in each direction. *)
Record Joining : Type := mkJoining {
  jo_joiner : ControlPlane;
  jo_seed : ControlPlane;
  jo_to_seed : list bytes;
  jo_to_joiner : list bytes;
}.

(** One message arrives: a turn of the read loop. *)
Definition read_turn (now : Z) (tx : nat) (cp : ControlPlane) (data : bytes) : ControlPlane :=
  read_stream (fun _ => now) tx cp data.

Section join.
Context (joiner seed : ControlPlane).

(** The channels the connection gets on either side. *)
Definition joiner_tx : nat := length (cp_chans joiner).
Definition seed_tx : nat := length (cp_chans seed).

Definition join_start : Joining :=
  let '(j, _, join) := handle_seed_join_open joiner in
  let '(s, _, hello) := handle_peer_connection_open seed in
  mkJoining j s [join] [hello].

Inductive join_step : Joining -> Joining -> Prop :=
| joiner_writes j j' s to_s to_j data :
    write_loop_turn j joiner_tx = (j', Some data) ->
    join_step (mkJoining j s to_s to_j) (mkJoining j' s (to_s ++ [data]) to_j)
| seed_writes j s s' to_s to_j data :
    write_loop_turn s seed_tx = (s', Some data) ->
    join_step (mkJoining j s to_s to_j) (mkJoining j s' to_s (to_j ++ [data]))
| joiner_reads j s to_s to_j data now :
    join_step (mkJoining j s to_s (data :: to_j))
              (mkJoining (read_turn now joiner_tx j data) s to_s to_j)
| seed_reads j s to_s to_j data now :
    join_step (mkJoining j s (data :: to_s) to_j)
              (mkJoining j (read_turn now seed_tx s data) to_s to_j).

(** Nothing is queued and nothing is on the wire. *)
Definition quiet (st : Joining) : Prop :=
  jo_to_seed st = [] /\ jo_to_joiner st = []
  /\ queued (cp_chans (jo_joiner st)) joiner_tx = [] /\ queued (cp_chans (jo_seed st)) seed_tx = [].
End join.

(** ** What a node says *)

(** The regions [send_existing_mrs] announces. *)
Definition existing_mrs (cp : ControlPlane) : list ControlMsg :=
  match cp_mr_table cp with
  | Some table =>
    omap (entry_publish (cp_devices cp)) (omap (fun arc => mt_heap table !! arc) (MrTable_list table))
  | None => []
  end.

Definition greeting (cp : ControlPlane) : HelloPayload :=
  mkHelloPayload (cfg_node_id (cp_config cp)) 1 (cp_local_epoch cp)
    (cfg_initial_credits (cp_config cp)) (cfg_data_listen (cp_config cp)).

Definition join_request (cp : ControlPlane) : JoinPayload :=
  mkJoinPayload (cfg_node_id (cp_config cp)) (cp_local_epoch cp) (cfg_data_listen (cp_config cp))
    (cfg_control_listen (cp_config cp)) (cfg_initial_credits (cp_config cp)).

(** The row the seed gives the node that asked. *)
Definition join_info (join : JoinPayload) (now : Z) (tx : nat) : NodeInfo :=
  mkNodeInfo (jp_node_id join) NodeState_Active (jp_control_addr join) (jp_data_addr join)
    (jp_epoch join) (jp_initial_credits join) (Some now) (Some tx).

Definition snapshot_after (cp : ControlPlane) (join : JoinPayload) (now : Z) (tx : nat)
  : MemberSnapshotPayload :=
  mkMemberSnapshotPayload
    (map snapshot_of (MemberTable_list (MemberTable_upsert (cp_members cp) (join_info join now tx)))).

(** What the handler of a message puts into the channel of its connection. *)
Definition replies (cp : ControlPlane) (tx : nat) (now : Z) (msg : ControlMsg) : list ControlMsg :=
  match msg with
  | ControlMsg_Hello _ => ControlMsg_HelloAck (greeting cp) :: existing_mrs cp
  | ControlMsg_HelloAck _ => existing_mrs cp
  | ControlMsg_Heartbeat hb =>
    [ControlMsg_HeartbeatAck (mkHeartbeatPayload (cfg_node_id (cp_config cp)) (hb_timestamp hb))]
  | ControlMsg_Join join => ControlMsg_MemberSnapshot (snapshot_after cp join now tx) :: existing_mrs cp
  | _ => []
  end.

(** What a node is apart from its channels. *)
Definition core (cp : ControlPlane) : ControlPlane := cp <| cp_chans := [] |>.

(** What its messages are made of. *)
Definition same_speaker (cp cp' : ControlPlane) : Prop :=
  cp_config cp' = cp_config cp /\ cp_local_epoch cp' = cp_local_epoch cp
  /\ cp_mr_table cp' = cp_mr_table cp /\ cp_devices cp' = cp_devices cp.

Lemma speaker_says cp cp' :
  same_speaker cp cp' -> greeting cp' = greeting cp /\ existing_mrs cp' = existing_mrs cp.
Proof. intros (Hc & He & Ht & Hd). unfold greeting, existing_mrs. by rewrite Hc, He, Ht, Hd. Qed.

Lemma same_speaker_trans cp1 cp2 cp3 : same_speaker cp1 cp2 -> same_speaker cp2 cp3 -> same_speaker cp1 cp3.
Proof. intros (? & ? & ? & ?) (? & ? & ? & ?). unfold same_speaker. split_and!; congruence. Qed.

Lemma core_speaker cp cp' : core cp = core cp' -> same_speaker cp' cp.
Proof. destruct cp, cp'. unfold core, same_speaker. cbn. intros [=]. by subst. Qed.

Lemma core_members cp cp' :
  core cp = core cp' -> cp_members cp = cp_members cp' /\ cp_mr_cache cp = cp_mr_cache cp'.
Proof. destruct cp, cp'. unfold core. cbn. intros [=]. by subst. Qed.

(** *** The handlers *)

Lemma send_while_open_queue chans tx q msgs :
  chans !! tx = Some (mkChan true q) ->
  send_while_open chans tx msgs !! tx = Some (mkChan true (q ++ map ControlMsg_encode msgs)).
Proof.
  revert chans q. induction msgs as [|msg msgs IH]; intros chans q Hq; cbn [send_while_open map];
    [by rewrite app_nil_r|].
  unfold chan_send. rewrite Hq. rewrite (IH _ (q ++ [ControlMsg_encode msg])).
  - by rewrite <- app_assoc.
  - apply list_lookup_insert_eq. by eapply lookup_lt_Some.
Qed.

Lemma chan_send_queue chans tx q data :
  chans !! tx = Some (mkChan true q) ->
  (chan_send chans tx data).1 !! tx = Some (mkChan true (q ++ [data])).
Proof.
  intros Hq. unfold chan_send. rewrite Hq. apply list_lookup_insert_eq. by eapply lookup_lt_Some.
Qed.

Lemma send_existing_mrs_queue cp tx q :
  cp_chans cp !! tx = Some (mkChan true q) ->
  cp_chans (send_existing_mrs cp tx) !! tx
  = Some (mkChan true (q ++ map ControlMsg_encode (existing_mrs cp))).
Proof.
  intros Hq. unfold send_existing_mrs, existing_mrs. destruct (cp_mr_table cp); cp_cbn.
  - by apply send_while_open_queue.
  - by rewrite app_nil_r.
Qed.

Lemma snapshot_chans now l cp : cp_chans (foldl (snapshot_node now) cp l) = cp_chans cp.
Proof.
  revert cp. induction l as [|n l IH]; intros cp; cbn [foldl]; [done|]. rewrite IH.
  unfold snapshot_node. by case_match.
Qed.

Lemma process_queue cp tx now msg q :
  cp_chans cp !! tx = Some (mkChan true q) ->
  cp_chans (process_control_message cp tx now msg) !! tx
  = Some (mkChan true (q ++ map ControlMsg_encode (replies cp tx now msg))).
Proof.
  intros Hq. destruct msg; cbn [process_control_message replies map]; cbv zeta; cp_cbn;
    rewrite ?app_nil_r, ?snapshot_chans; try exact Hq.
  - erewrite send_existing_mrs_queue; [|cp_cbn; by apply chan_send_queue]. by rewrite <- app_assoc.
  - by erewrite send_existing_mrs_queue.
  - by apply chan_send_queue.
  - erewrite send_existing_mrs_queue; [|cp_cbn; by apply chan_send_queue]. by rewrite <- app_assoc.
Qed.

Lemma snapshot_core now l cp cp' :
  core cp = core cp' -> core (foldl (snapshot_node now) cp l) = core (foldl (snapshot_node now) cp' l).
Proof.
  revert cp cp'. induction l as [|n l IH]; intros cp cp' Hc; cbn [foldl]; [done|]. apply IH.
  destruct cp, cp'. unfold core in *. cbn in Hc. injection Hc. intros. subst. unfold snapshot_node.
  cbn [cp_config]. by case_match.
Qed.

Lemma process_core cp cp' tx now msg :
  core cp = core cp' ->
  core (process_control_message cp tx now msg) = core (process_control_message cp' tx now msg).
Proof.
  intros Hc. destruct msg; try by apply snapshot_core.
  all: destruct cp, cp'; unfold core in *; cbn in Hc; injection Hc; intros; subst;
    cbn [process_control_message]; cbv zeta; unfold send_existing_mrs; cp_cbn; by repeat case_match.
Qed.

Lemma snapshot_speaker now l cp : same_speaker cp (foldl (snapshot_node now) cp l).
Proof.
  revert cp. induction l as [|n l IH]; intros cp; cbn [foldl]; [done|].
  destruct (IH (snapshot_node now cp n)) as (H1 & H2 & H3 & H4). unfold same_speaker.
  rewrite H1, H2, H3, H4. unfold snapshot_node. by case_match.
Qed.

Lemma process_speaker cp tx now msg : same_speaker cp (process_control_message cp tx now msg).
Proof.
  destruct msg; try by apply snapshot_speaker.
  all: cbn [process_control_message]; cbv zeta; unfold send_existing_mrs; cp_cbn; by repeat case_match.
Qed.


Lemma upsert_nodes t info :
  mb_nodes (MemberTable_upsert t info)
  = match find_node (ni_node_id info) (mb_nodes t) with
    | Some _ =>
      update_node (ni_node_id info) (fun n =>
        mkNodeInfo (ni_node_id n) (ni_state info) (ni_control_addr info) (ni_data_addr info)
          (ni_epoch info) (ni_initial_credits info) (ni_last_seen n) (ni_tx info)) (mb_nodes t)
    | None => mb_nodes t ++ [info]
    end.
Proof. unfold MemberTable_upsert. by destruct (find_node _ _). Qed.

Lemma map_update_node {A} (g : NodeInfo -> A) f1 f2 id nodes :
  (forall n, g (f1 n) = g (f2 n)) -> map g (update_node id f1 nodes) = map g (update_node id f2 nodes).
Proof.
  intros Hg. induction nodes as [|n nodes IH]; [done|]. cbn [update_node].
  destruct (ni_node_id n =? id); cbn [map]; by rewrite ?Hg, ?IH.
Qed.

(** The members of a snapshot do not show when they were last seen. *)
Lemma snapshot_now cp join now now' tx : snapshot_after cp join now tx = snapshot_after cp join now' tx.
Proof.
  unfold snapshot_after, MemberTable_list. f_equal. rewrite !map_map, !upsert_nodes.
  cbn [join_info ni_node_id]. destruct (find_node _ _); [by apply map_update_node|by rewrite !map_app].
Qed.

Lemma existing_mrs_publish cp msg : msg ∈ existing_mrs cp -> exists mr, msg = ControlMsg_MrPublish mr.
Proof.
  unfold existing_mrs. destruct (cp_mr_table cp); [|by intros ?%elem_of_nil].
  intros (e & _ & He)%list_elem_of_omap. unfold entry_publish in He.
  destruct (cp_devices cp !! me_device e); [|done]. cbn in He. simplify_eq. by eexists.
Qed.

(** ** The conversation *)

(** What a node's read loop made of the messages it got, at the times it got them. *)
Definition handle (tx : nat) (cp : ControlPlane) (msgs : list (Z * ControlMsg)) : ControlPlane :=
  foldl (fun cp m => process_control_message cp tx m.1 m.2) cp msgs.

Lemma handle_core tx cp cp' msgs : core cp = core cp' -> core (handle tx cp msgs) = core (handle tx cp' msgs).
Proof.
  revert cp cp'. induction msgs as [|m msgs IH]; intros cp cp' Hc; [done|]. apply IH. by apply process_core.
Qed.

Lemma handle_speaker tx cp msgs : same_speaker cp (handle tx cp msgs).
Proof.
  revert cp. induction msgs as [|m msgs IH]; intros cp; [done|]. cbn [handle foldl].
  eapply same_speaker_trans; [apply process_speaker|apply IH].
Qed.

Section conversation.
Context (joiner seed : ControlPlane).

(** What each node has said once it was told [k] messages. *)
Definition joiner_says (k : nat) : list ControlMsg :=
  ControlMsg_Join (join_request joiner)
  :: match k with
     | O => []
     | S _ => ControlMsg_HelloAck (greeting joiner) :: existing_mrs joiner
     end.

Definition seed_says (k : nat) : list ControlMsg :=
  ControlMsg_Hello (greeting seed)
  :: match k with
     | O => []
     | S k =>
       ControlMsg_MemberSnapshot (snapshot_after seed (join_request joiner) 0 (seed_tx seed))
       :: existing_mrs seed ++ match k with O => [] | S _ => existing_mrs seed end
     end.

(** Everything they say fits the wire and the limit of the read loop. *)
Context (Hjoiner : Forall sendable (joiner_says 1)) (Hseed : Forall sendable (seed_says 2)).

Lemma says_sendable k : Forall sendable (joiner_says k) /\ Forall sendable (seed_says k).
Proof.
  unfold joiner_says, seed_says in *.
  cbn iota in Hjoiner, Hseed. rewrite !Forall_cons in Hjoiner. rewrite !Forall_cons, Forall_app in Hseed.
  destruct k as [|[|k]]; cbn iota; rewrite ?Forall_cons, ?Forall_app, ?Forall_nil; tauto.
Qed.

(** [lj] is what the joiner read, [ls] what the seed read. *)
Record conversation (st : Joining) (lj ls : list (Z * ControlMsg)) : Prop := {
  cv_joiner : core (jo_joiner st) = core (handle (joiner_tx joiner) joiner lj);
  cv_seed : core (jo_seed st) = core (handle (seed_tx seed) seed ls);
  cv_to_seed : exists q rest,
    cp_chans (jo_joiner st) !! joiner_tx joiner = Some (mkChan true q)
    /\ joiner_says (length lj) = map snd ls ++ rest /\ jo_to_seed st ++ q = map ControlMsg_encode rest;
  cv_to_joiner : exists q rest,
    cp_chans (jo_seed st) !! seed_tx seed = Some (mkChan true q)
    /\ seed_says (length ls) = map snd lj ++ rest /\ jo_to_joiner st ++ q = map ControlMsg_encode rest;
}.

Lemma conversation_start : conversation (join_start joiner seed) [] [].
Proof.
  split; [done|done| |].
  - exists [], (joiner_says 0). split; [|done]. cbn. unfold joiner_tx. by rewrite lookup_app_r, Nat.sub_diag.
  - exists [], (seed_says 0). split; [|done]. cbn. unfold seed_tx. by rewrite lookup_app_r, Nat.sub_diag.
Qed.

(** A read of the other end's next write is the handling of its message. *)
Lemma read_turn_encode now tx cp msg :
  sendable msg -> read_turn now tx cp (ControlMsg_encode msg) = process_control_message cp tx now msg.
Proof.
  intros Hm. unfold read_turn. pose proof (read_stream_messages [msg] (fun _ => now) tx cp) as H.
  cbn [map concat handle_all] in H. rewrite app_nil_r in H. apply H. by constructor.
Qed.

Lemma handle_snoc tx cp msgs now msg :
  handle tx cp (msgs ++ [(now, msg)]) = process_control_message (handle tx cp msgs) tx now msg.
Proof. unfold handle. by rewrite foldl_app. Qed.

(** The joiner answers HELLO and nothing else. *)
Lemma joiner_answers cp lj now msg rest k :
  core cp = core (handle (joiner_tx joiner) joiner lj) -> seed_says k = map snd lj ++ msg :: rest ->
  joiner_says (S (length lj)) = joiner_says (length lj) ++ replies cp (joiner_tx joiner) now msg.
Proof.
  intros Hc Hs. destruct lj as [|m lj].
  - injection Hs as <- _. destruct (speaker_says joiner cp) as [Hg He]; [by apply core_speaker|].
    cbn [length joiner_says replies app]. by rewrite Hg, He.
  - injection Hs as _ Hs.
    assert (Hm : msg ∈ map snd lj ++ msg :: rest) by (apply elem_of_app; right; by left).
    rewrite <- Hs in Hm. destruct k as [|k]; [by apply elem_of_nil in Hm|].
    assert (replies cp (joiner_tx joiner) now msg = []) as ->; [|by rewrite app_nil_r].
    apply elem_of_cons in Hm as [->|Hm]; [done|].
    assert (exists mr, msg = ControlMsg_MrPublish mr) as [mr ->]; [|done].
    apply elem_of_app in Hm as [Hm|Hm]; [by eapply existing_mrs_publish|].
    destruct k; [by apply elem_of_nil in Hm|by eapply existing_mrs_publish].
Qed.

(** The seed answers JOIN and HELLO_ACK. *)
Lemma seed_answers cp ls now msg rest k :
  core cp = core (handle (seed_tx seed) seed ls) -> joiner_says k = map snd ls ++ msg :: rest ->
  seed_says (S (length ls)) = seed_says (length ls) ++ replies cp (seed_tx seed) now msg.
Proof.
  intros Hc Hs.
  assert (existing_mrs cp = existing_mrs seed) as He.
  { apply speaker_says. eapply same_speaker_trans; [apply handle_speaker|by apply core_speaker]. }
  destruct ls as [|m [|m' ls]].
  - injection Hs as <- _. unfold seed_says. cbn [replies length app]. rewrite He, app_nil_r.
    rewrite (snapshot_now cp _ now 0). unfold snapshot_after.
    destruct (core_members _ _ Hc) as [-> _]. done.
  - destruct k as [|k]; [by injection Hs|]. injection Hs as _ <- _. unfold seed_says. cbn [replies length app].
    by rewrite He, app_nil_r.
  - destruct k as [|k]; [by injection Hs|]. injection Hs as _ _ Hs.
    assert (Hm : msg ∈ existing_mrs joiner) by (rewrite Hs; apply elem_of_app; right; by left).
    apply existing_mrs_publish in Hm as [mr ->]. cbn [replies]. by rewrite app_nil_r.
Qed.

(** A write moves the oldest entry of the queue to the wire. *)
Lemma write_moves cp cp' tx data q :
  write_loop_turn cp tx = (cp', Some data) -> cp_chans cp !! tx = Some (mkChan true q) ->
  core cp' = core cp /\ exists q', q = data :: q' /\ cp_chans cp' !! tx = Some (mkChan true q').
Proof.
  unfold write_loop_turn. intros Hw Hq. rewrite Hq in Hw. destruct q as [|d q]; [done|].
  injection Hw as <- <-. split; [done|]. exists q. split; [done|]. cp_cbn.
  apply list_lookup_insert_eq. by eapply lookup_lt_Some.
Qed.

(** Each step writes or reads one message. *)
Definition done_so_far (st : Joining) (lj ls : list (Z * ControlMsg)) : nat :=
  2 * length lj + 2 * length ls + length (jo_to_seed st) + length (jo_to_joiner st).

Lemma conversation_step st st' lj ls :
  conversation st lj ls -> join_step joiner seed st st' ->
  exists lj' ls', conversation st' lj' ls' /\ done_so_far st' lj' ls' = S (done_so_far st lj ls).
Proof.
  intros [Hj Hs (qj & rj & Hqj & Hrj & Hwj) (qs & rs & Hqs & Hrs & Hws)] Hstep.
  destruct Hstep as [j j' s to_s to_j data Hw|j s s' to_s to_j data Hw|j s to_s to_j data now
                    |j s to_s to_j data now]; cbn [jo_joiner jo_seed jo_to_seed jo_to_joiner] in *.
  - destruct (write_moves _ _ _ _ _ Hw Hqj) as (Hc & q' & -> & Hq').
    exists lj, ls. split; [|unfold done_so_far; cbn; rewrite length_app; cbn; lia].
    split; cbn [jo_joiner jo_seed jo_to_seed jo_to_joiner];
      [by rewrite <- Hj|done| |by exists qs, rs]. exists q', rj. by rewrite <- app_assoc.
  - destruct (write_moves _ _ _ _ _ Hw Hqs) as (Hc & q' & -> & Hq').
    exists lj, ls. split; [|unfold done_so_far; cbn; rewrite length_app; cbn; lia].
    split; cbn [jo_joiner jo_seed jo_to_seed jo_to_joiner];
      [done|by rewrite <- Hs|by exists qj, rj|]. exists q', rs. by rewrite <- app_assoc.
  - destruct rs as [|msg rs]; [done|]. injection Hws as -> Hws.
    rewrite read_turn_encode by (eapply Forall_forall;
      [apply (proj2 (says_sendable (length ls)))|rewrite Hrs; apply elem_of_app; right; by left]).
    exists (lj ++ [(now, msg)]), ls. split; [|unfold done_so_far; cbn; rewrite length_app; cbn; lia].
    split; cbn [jo_joiner jo_seed jo_to_seed jo_to_joiner].
    + rewrite handle_snoc. by apply process_core.
    + done.
    + exists (qj ++ map ControlMsg_encode (replies j (joiner_tx joiner) now msg)),
        (rj ++ replies j (joiner_tx joiner) now msg).
      split; [by apply process_queue|]. split.
      * rewrite length_app, Nat.add_1_r, (joiner_answers _ _ now _ _ _ Hj Hrs), Hrj. by rewrite <- app_assoc.
      * by rewrite app_assoc, Hwj, map_app.
    + exists qs, rs. split; [done|]. split; [|done]. by rewrite Hrs, map_app, <- app_assoc.
  - destruct rj as [|msg rj]; [done|]. injection Hwj as -> Hwj.
    rewrite read_turn_encode by (eapply Forall_forall;
      [apply (proj1 (says_sendable (length lj)))|rewrite Hrj; apply elem_of_app; right; by left]).
    exists lj, (ls ++ [(now, msg)]). split; [|unfold done_so_far; cbn; rewrite length_app; cbn; lia].
    split; cbn [jo_joiner jo_seed jo_to_seed jo_to_joiner].
    + done.
    + rewrite handle_snoc. by apply process_core.
    + exists qj, rj. split; [done|]. split; [|done]. by rewrite Hrj, map_app, <- app_assoc.
    + exists (qs ++ map ControlMsg_encode (replies s (seed_tx seed) now msg)),
        (rs ++ replies s (seed_tx seed) now msg).
      split; [by apply process_queue|]. split.
      * rewrite length_app, Nat.add_1_r, (seed_answers _ _ now _ _ _ Hs Hrj), Hrs. by rewrite <- app_assoc.
      * by rewrite app_assoc, Hws, map_app.
Qed.

Lemma conversation_reachable st :
  rtc (join_step joiner seed) (join_start joiner seed) st -> exists lj ls, conversation st lj ls.
Proof.
  revert st. apply rtc_ind_r; [exists [], []; apply conversation_start|].
  intros st st' _ Hstep (lj & ls & H).
  destruct (conversation_step _ _ _ _ H Hstep) as (lj' & ls' & H' & _). eauto.
Qed.

(** When nothing is left to say, each node has read all the other ever says. *)
Lemma conversation_quiet st lj ls :
  conversation st lj ls -> quiet joiner seed st ->
  map snd lj = seed_says 2 /\ map snd ls = joiner_says 1.
Proof.
  intros [_ _ (qj & rj & Hqj & Hrj & Hwj) (qs & rs & Hqs & Hrs & Hws)] (H1 & H2 & H3 & H4).
  unfold queued in H3, H4. rewrite Hqj in H3. rewrite Hqs in H4. cbn in H3, H4. subst qj qs.
  rewrite H1 in Hwj. rewrite H2 in Hws. cbn in Hwj, Hws. symmetry in Hwj, Hws.
  apply fmap_nil_inv in Hwj, Hws. subst rj rs. rewrite app_nil_r in Hrj, Hrs.
  destruct lj as [|m lj]; [by unfold seed_says in Hrs|]. cbn [length] in Hrj.
  destruct ls as [|m1 [|m2 ls]]; [by unfold joiner_says in Hrj..|].
  split; symmetry; assumption.
Qed.

(** *** Every run can be completed *)

Lemma says_length k :
  (length (joiner_says k) <= length (joiner_says 1))%nat
  /\ (length (seed_says k) <= length (seed_says 2))%nat.
Proof. destruct k as [|[|k]]; unfold joiner_says, seed_says;
  cbn iota; cbn [length]; rewrite ?length_app; cbn [length]; lia. Qed.

Lemma conversation_bound st lj ls :
  conversation st lj ls ->
  (done_so_far st lj ls <= 2 * (length (joiner_says 1) + length (seed_says 2)))%nat.
Proof.
  intros [_ _ (qj & rj & _ & Hrj & Hwj) (qs & rs & _ & Hrs & Hws)].
  pose proof (says_length (length lj)) as [H1 _]. pose proof (says_length (length ls)) as [_ H2].
  apply (f_equal length) in Hrj, Hwj, Hrs, Hws. rewrite ?length_app, ?length_map in *.
  unfold done_so_far. lia.
Qed.

Lemma conversation_progress st lj ls :
  conversation st lj ls -> quiet joiner seed st \/ exists st', join_step joiner seed st st'.
Proof.
  intros [_ _ (qj & rj & Hqj & _ & _) (qs & rs & Hqs & _ & _)]. destruct st as [j s to_s to_j]. cbn in *.
  destruct to_s as [|d to_s]; [|right; eexists; apply (seed_reads _ _ _ _ _ _ _ 0)].
  destruct to_j as [|d to_j]; [|right; eexists; apply (joiner_reads _ _ _ _ _ _ _ 0)].
  destruct qj as [|d qj].
  - destruct qs as [|d qs].
    + left. unfold quiet, queued. cbn. by rewrite Hqj, Hqs.
    + right. eexists. apply seed_writes. unfold write_loop_turn. by rewrite Hqs.
  - right. eexists. apply joiner_writes. unfold write_loop_turn. by rewrite Hqj.
Qed.

Lemma conversation_finishes st lj ls :
  conversation st lj ls -> exists st', rtc (join_step joiner seed) st st' /\ quiet joiner seed st'.
Proof.
  remember (2 * (length (joiner_says 1) + length (seed_says 2)) - done_so_far st lj ls)%nat as k eqn:Hk.
  revert st lj ls Hk. induction k as [|k IH]; intros st lj ls Hk Hc;
    (destruct (conversation_progress _ _ _ Hc) as [Hq|[st' Hst]]; [by exists st|]);
    destruct (conversation_step _ _ _ _ Hc Hst) as (lj' & ls' & Hc' & Hd);
    pose proof (conversation_bound _ _ _ Hc').
  - lia.
  - destruct (IH st' lj' ls' ltac:(lia) Hc') as (st'' & Hr & Hq). exists st''. split; [by eapply rtc_l|done].
Qed.
End conversation.

(** ** What the messages leave behind *)

(** The region a node would look up under a handle of its own. *)
Definition directory (cp : ControlPlane) (h : Z) : option MrCacheEntry :=
  t ← cp_mr_table cp; arc ← mt_entries t !! h; e ← mt_heap t !! arc; region_entry (cp_devices cp) t e.

Definition regions_ok (cp : ControlPlane) : Prop :=
  forall t, cp_mr_table cp = Some t -> mr_ok t /\ mt_node_id t = cfg_node_id (cp_config cp).

Lemma regions_ok_table cp t :
  cp_mr_table cp = Some t -> mr_ok t -> mt_node_id t = cfg_node_id (cp_config cp) -> regions_ok cp.
Proof. intros Ht Hok Hn t' Ht'. rewrite Ht in Ht'. by injection Ht' as <-. Qed.

(** The cache entry a region message is stored as. *)
Definition published (msg : ControlMsg) : option MrCacheEntry :=
  match msg with
  | ControlMsg_MrPublish mr =>
    Some (mkMrCacheEntry (mp_mr_handle mr) (mp_owner_node mr) (mp_base_ub_addr mr) (mp_len mr)
            (mp_perms mr) (mp_device_kind mr))
  | _ => None
  end.

Lemma handle_publishes tx cp l :
  Forall (fun msg => exists mr, msg = ControlMsg_MrPublish mr) (map snd l) ->
  cp_members (handle tx cp l) = cp_members cp
  /\ cp_mr_cache (handle tx cp l) = foldl MrCacheTable_insert (cp_mr_cache cp) (omap published (map snd l)).
Proof.
  revert cp. induction l as [|[now msg] l IH]; intros cp Hl; [done|]. cbn [map snd] in *.
  apply Forall_cons in Hl as [[mr ->] Hl]. cbn [handle foldl omap list_omap published fst snd].
  destruct (IH (process_control_message cp tx now (ControlMsg_MrPublish mr)) Hl) as [H1 H2].
  unfold handle in *. by rewrite H1, H2.
Qed.

(** Entries that agree where their keys do can be inserted in any order, twice too. *)
Lemma insert_all_lookup (es : list MrCacheEntry) c k e :
  (forall e', e' ∈ es -> (mc_owner_node e', mc_remote_mr_handle e') = k -> e' = e) ->
  foldl MrCacheTable_insert c es !! k
  = if decide (k ∈ map (fun e => (mc_owner_node e, mc_remote_mr_handle e)) es) then Some e else c !! k.
Proof.
  revert c. induction es as [|e1 es IH]; intros c He; cbn [foldl map].
  - case_decide as Hk; [by apply elem_of_nil in Hk|done].
  - rewrite IH by (intros; apply He; [by right|done]). unfold MrCacheTable_insert.
    destruct (decide (k = (mc_owner_node e1, mc_remote_mr_handle e1))) as [->|Hne].
    + rewrite lookup_insert_eq, (decide_True (P := _ ∈ _ :: _)) by (by left).
      case_decide; [done|]. f_equal. apply He; [by left|done].
    + rewrite lookup_insert_ne by congruence.
      case_decide as H1; case_decide as H2; try done.
      * destruct H2. by right.
      * apply elem_of_cons in H2 as [?|?]; done.
Qed.

Lemma directory_published cp e :
  regions_ok cp ->
  e ∈ omap published (existing_mrs cp)
  <-> directory cp (mc_remote_mr_handle e) = Some e /\ mc_owner_node e = cfg_node_id (cp_config cp).
Proof.
  intros Hok. unfold existing_mrs, directory. destruct (cp_mr_table cp) as [t|] eqn:Ht; cbn [mbind option_bind].
  2: { split; [by intros ?%elem_of_nil|by intros [? _]]. }
  destruct (Hok t Ht) as [Hmr Hn].
  assert (Hpub : forall arc e1, mt_heap t !! arc = Some e1 ->
    (entry_publish (cp_devices cp) e1 ≫= published) = region_entry (cp_devices cp) t e1).
  { intros arc e1 He1. destruct (mo_ids _ Hmr) as [Hp Hnid]. destruct (mo_entries _ Hmr _ _ He1).
    unfold entry_publish, region_entry. destruct (cp_devices cp !! me_device e1); [cbn|done].
    cbn [mbind option_bind published mp_mr_handle mp_owner_node mp_base_ub_addr mp_len mp_perms mp_device_kind].
    rewrite ew_addr. destruct ew_alloc as (next & _ & Hnext).
    by destruct (UbAddr_accessors_new (mt_pod_id t) (mt_node_id t) (me_device_id e1)
      (me_base_offset e1) 0) as (_ & -> & _); [done|done|done|ulia|done|]. }
  unfold MrTable_list. split.
  - intros (msg & (e1 & (arc & Harc & He1)%list_elem_of_omap & Hm)%list_elem_of_omap & He)%list_elem_of_omap.
    apply list_elem_of_fmap in Harc as ([h a] & -> & Hh%elem_of_map_to_list). cbn [snd] in *.
    destruct (mo_table _ Hmr _ _ Hh) as (e2 & He2 & Hh2). assert (e2 = e1) as -> by congruence.
    assert (Hr : region_entry (cp_devices cp) t e1 = Some e) by (rewrite <- (Hpub _ _ He1), Hm; exact He).
    assert (mc_remote_mr_handle e = h /\ mc_owner_node e = mt_node_id t) as [-> ->].
    { revert Hr. unfold region_entry. destruct (_ !! me_device e1); [cbn; intros [= <-]|done]. done. }
    rewrite Hh. cbn. rewrite He1. cbn. by rewrite Hr, Hn.
  - intros [Hd _]. destruct (mt_entries t !! mc_remote_mr_handle e) as [arc|] eqn:Hh; [cbn in Hd|done].
    destruct (mt_heap t !! arc) as [e1|] eqn:He1; [cbn in Hd|done].
    assert (Hr := Hpub _ _ He1). rewrite Hd in Hr.
    destruct (entry_publish (cp_devices cp) e1) as [msg|] eqn:Hm; [cbn in Hr|done].
    apply list_elem_of_omap. exists msg. split; [|done]. apply list_elem_of_omap. exists e1. split; [|done].
    apply list_elem_of_omap. exists arc. split; [|done]. apply list_elem_of_fmap.
    exists (mc_remote_mr_handle e, arc). split; [done|]. by apply elem_of_map_to_list.
Qed.

(** *** The snapshot *)

Lemma state_byte_roundtrip st : NodeState_of_byte (NodeState_to_byte st) = st.
Proof. by destruct st. Qed.

Lemma snapshot_node_frame now cp n :
  cp_config (snapshot_node now cp n) = cp_config cp
  /\ cp_mr_cache (snapshot_node now cp n) = cp_mr_cache cp.
Proof. unfold snapshot_node. by case_match. Qed.

Lemma snapshot_cache now l cp : cp_mr_cache (foldl (snapshot_node now) cp l) = cp_mr_cache cp.
Proof.
  revert cp. induction l as [|n l IH]; intros cp; [done|]. cbn [foldl]. rewrite IH. apply snapshot_node_frame.
Qed.

Lemma snapshot_own now l cp :
  row (cp_members (foldl (snapshot_node now) cp l)) (cfg_node_id (cp_config cp))
  = row (cp_members cp) (cfg_node_id (cp_config cp)).
Proof.
  revert cp. induction l as [|n l IH]; intros cp; [done|]. cbn [foldl].
  destruct (snapshot_node_frame now cp n) as [Hc _]. rewrite <- Hc, IH, Hc.
  unfold snapshot_node. destruct (sn_node_id n =? _) eqn:E; [done|]. cp_cbn.
  rewrite row_upsert. cbn [ni_node_id]. by rewrite Z.eqb_sym, E.
Qed.

Lemma existsb_id id l :
  id ∉ map sn_node_id l -> existsb (fun n => sn_node_id n =? id) l = false.
Proof.
  induction l as [|n l IH]; [done|]. cbn [map existsb]. intros [H1 H2]%not_elem_of_cons.
  rewrite IH by done. by rewrite (proj2 (Z.eqb_neq _ _)) by congruence.
Qed.

(** A listed node is entered as listed, without credits and without a sender. *)
Lemma snapshot_row now l cp n :
  NoDup (map sn_node_id l) -> n ∈ l -> sn_node_id n <> cfg_node_id (cp_config cp) ->
  exists last, row (cp_members (foldl (snapshot_node now) cp l)) (sn_node_id n)
    = Some (mkNodeInfo (sn_node_id n) (NodeState_of_byte (sn_state n)) (sn_control_addr n)
              (sn_data_addr n) (sn_epoch n) 0 last None).
Proof.
  revert cp. induction l as [|m l IH]; intros cp; [by intros _ ?%elem_of_nil|]. cbn [map foldl].
  intros [Hm Hnd]%NoDup_cons Hn Hid. apply elem_of_cons in Hn as [<-|Hn].
  - destruct (snapshot_frame now l (snapshot_node now cp n)) as (_ & _ & Hv).
    specialize (Hv _ (existsb_id _ _ Hm)). apply pair_equal_spec in Hv as [-> _].
    unfold snapshot_node. rewrite (proj2 (Z.eqb_neq _ _)) by done. cp_cbn.
    rewrite row_upsert. cbn [ni_node_id]. rewrite Z.eqb_refl.
    destruct (row (cp_members cp) (sn_node_id n)); by eexists.
  - apply IH; [done|done|]. by destruct (snapshot_node_frame now cp m) as [-> _].
Qed.

(** *** Both ends *)

Definition node_of (cp : ControlPlane) : Z := cfg_node_id (cp_config cp).

Lemma published_lookup cp es c o h :
  regions_ok cp -> (forall e, e ∈ es <-> e ∈ omap published (existing_mrs cp)) ->
  foldl MrCacheTable_insert c es !! (o, h)
  = if decide (o = node_of cp) then from_option Some (c !! (o, h)) (directory cp h) else c !! (o, h).
Proof.
  intros Hok Hes. unfold node_of.
  assert (Hin : (o, h) ∈ map (fun e => (mc_owner_node e, mc_remote_mr_handle e)) es
    <-> o = cfg_node_id (cp_config cp) /\ exists e, directory cp h = Some e).
  { split.
    - intros (e & [= -> ->] & He)%list_elem_of_fmap.
      apply Hes, (directory_published _ _ Hok) in He as [? ?]. eauto.
    - intros [-> [e He]]. apply list_elem_of_fmap. exists e.
      assert (mc_remote_mr_handle e = h /\ mc_owner_node e = cfg_node_id (cp_config cp)) as [Hh Ho].
      { revert He. unfold directory. destruct (cp_mr_table cp) as [t|] eqn:Ht; [cbn|done].
        destruct (mt_entries t !! h) as [arc|] eqn:Harc; [cbn|done].
        destruct (Hok t Ht) as [Hmr Hn]. destruct (mo_table _ Hmr _ _ Harc) as (e1 & -> & <-). cbn.
        unfold region_entry. destruct (_ !! me_device e1); [cbn|done]. by intros [= <-]. }
      split; [by rewrite Hh, Ho|]. apply Hes, directory_published; [done|]. by rewrite Hh. }
  assert (Huniq : forall e e', directory cp h = Some e -> e' ∈ es ->
    (mc_owner_node e', mc_remote_mr_handle e') = (o, h) -> e' = e).
  { intros e e' He He' [= _ Hh]. apply Hes, (directory_published _ _ Hok) in He' as [He' _].
    rewrite Hh in He'. congruence. }
  destruct (directory cp h) as [e|] eqn:Hd.
  - rewrite (insert_all_lookup _ _ _ e) by eauto. cbn [from_option].
    case_decide as H1; case_decide as H2; try done; [by apply Hin in H1 as [? _]|].
    destruct H1. apply Hin. eauto.
  - rewrite (insert_all_lookup _ _ _ (mkMrCacheEntry 0 0 0 0 0 DeviceKind_Memory)).
    + rewrite decide_False by (by intros [_ [? ?]]%Hin). by case_decide.
    + intros e' He' Hk. assert (Hx : (o, h) ∈ map (fun e => (mc_owner_node e, mc_remote_mr_handle e)) es)
        by (apply list_elem_of_fmap; by exists e'). by apply Hin in Hx as [_ [? ?]].
Qed.

Lemma existing_publishes cp :
  Forall (fun msg => exists mr, msg = ControlMsg_MrPublish mr) (existing_mrs cp).
Proof. apply Forall_forall. intros msg. apply existing_mrs_publish. Qed.

(** The joiner once it read everything. *)
Lemma joiner_outcome joiner seed lj :
  let joined := handle (joiner_tx joiner) joiner lj in
  node_of joiner <> node_of seed -> unique_members seed -> regions_ok seed ->
  map snd lj = seed_says joiner seed 2 ->
  (forall id n, row (cp_members seed) id = Some n -> id <> node_of joiner ->
     exists last, row (cp_members joined) id
       = Some (mkNodeInfo id (ni_state n) (ni_control_addr n) (ni_data_addr n) (ni_epoch n) 0 last None))
  /\ (forall id, id = node_of joiner \/ row (cp_members seed) id = None /\ id <> node_of seed ->
       row (cp_members joined) id = row (cp_members joiner) id)
  /\ forall o h, cp_mr_cache joined !! (o, h)
       = if decide (o = node_of seed)
         then from_option Some (cp_mr_cache joiner !! (o, h)) (directory seed h)
         else cp_mr_cache joiner !! (o, h).
Proof.
  cbv zeta. intros Hne Hu Hok Hl. destruct lj as [|[t1 m1] [|[t2 m2] lj]]; try (by unfold seed_says in Hl).
  unfold seed_says in Hl. cbn [map snd] in Hl. injection Hl as -> -> Hl.
  change (handle (joiner_tx joiner) joiner _) with
    (handle (joiner_tx joiner) (process_control_message (process_control_message joiner (joiner_tx joiner) t1
       (ControlMsg_Hello (greeting seed))) (joiner_tx joiner) t2
       (ControlMsg_MemberSnapshot (snapshot_after seed (join_request joiner) 0 (seed_tx seed)))) lj).
  set (cp1 := process_control_message joiner _ _ _).
  assert (Hpub : Forall (fun msg => exists mr, msg = ControlMsg_MrPublish mr) (map snd lj))
    by (rewrite Hl; apply Forall_app; split; apply existing_publishes).
  destruct (handle_publishes (joiner_tx joiner) (process_control_message cp1 (joiner_tx joiner) t2
    (ControlMsg_MemberSnapshot (snapshot_after seed (join_request joiner) 0 (seed_tx seed)))) lj Hpub) as [-> ->].
  assert (Hcfg : cp_config cp1 = cp_config joiner) by apply process_speaker.
  assert (Hrow : forall id, id <> node_of seed -> row (cp_members cp1) id = row (cp_members joiner) id).
  { intros id Hid. destruct (message_frame joiner (joiner_tx joiner) t1 (ControlMsg_Hello (greeting seed)))
      as (_ & _ & Hv). assert (Hab : about id (ControlMsg_Hello (greeting seed)) = false)
      by (cbn; apply Z.eqb_neq; unfold node_of in Hid; congruence). apply Hv in Hab. by apply pair_equal_spec in Hab as [? _]. }
  assert (Hcache : cp_mr_cache cp1 = cp_mr_cache joiner).
  { subst cp1. cbn [process_control_message]. cbv zeta. cp_cbn.
    by match goal with |- context [send_existing_mrs ?c ?t] =>
      destruct (send_existing_mrs_frame c t) as (_ & _ & _ & ->) end. }
  clearbody cp1. cbn [process_control_message]. unfold snapshot_after. cbn [ms_nodes].
  set (info := join_info (join_request joiner) 0 (seed_tx seed)).
  set (listed := map snapshot_of (MemberTable_list (MemberTable_upsert (cp_members seed) info))).
  assert (Hids : map sn_node_id listed = member_ids (MemberTable_upsert (cp_members seed) info))
    by (unfold listed, MemberTable_list, member_ids; by rewrite !map_map).
  split_and!.
  - intros id n Hn Hid. pose proof (snapshot_row t2 listed cp1 (snapshot_of (n <| ni_tx := None |>))) as Hs.
    pose proof (find_node_Some _ _ _ Hn) as [_ Hidn]. cbn in Hs. rewrite state_byte_roundtrip, Hidn, Hcfg in Hs.
    apply Hs; [rewrite Hids; by apply upsert_ids| |done].
    unfold listed, MemberTable_list. rewrite map_map. apply list_elem_of_fmap. exists n. split; [by rewrite <- Hidn|].
    apply (find_node_Some id). fold (row (MemberTable_upsert (cp_members seed) info) id).
    rewrite row_upsert. cbn [ni_node_id info join_info join_request jp_node_id].
    by rewrite (proj2 (Z.eqb_neq _ _)) by done.
  - intros id [->|[Hn Hid]].
    + unfold node_of. rewrite <- Hcfg, snapshot_own. rewrite Hcfg. by apply Hrow.
    + destruct (decide (id = node_of joiner)) as [->|Hid'];
        [unfold node_of; rewrite <- Hcfg, snapshot_own; rewrite Hcfg; by apply Hrow|].
      destruct (snapshot_frame t2 listed cp1) as (_ & _ & Hv).
      assert (Hni : id ∉ map sn_node_id listed).
      { rewrite Hids. unfold member_ids. apply find_node_None.
        fold (row (MemberTable_upsert (cp_members seed) info) id). rewrite row_upsert.
        cbn [ni_node_id info join_info join_request jp_node_id].
        by rewrite (proj2 (Z.eqb_neq _ _)) by done. }
      specialize (Hv id (existsb_id _ _ Hni)). apply pair_equal_spec in Hv as [-> _]. by apply Hrow.
  - intros o h. rewrite snapshot_cache, Hcache. apply published_lookup; [done|].
    intros e. rewrite Hl, omap_app, elem_of_app. tauto.
Qed.

(** The seed once it read everything. *)
Lemma seed_outcome joiner seed ls :
  let joined := handle (seed_tx seed) seed ls in
  regions_ok joiner -> map snd ls = joiner_says joiner 1 ->
  (exists last, row (cp_members joined) (node_of joiner)
     = Some (mkNodeInfo (node_of joiner) NodeState_Active [] (cfg_data_listen (cp_config joiner))
               (cp_local_epoch joiner) (cfg_initial_credits (cp_config joiner)) last (Some (seed_tx seed))))
  /\ (forall id, id <> node_of joiner -> row (cp_members joined) id = row (cp_members seed) id)
  /\ forall o h, cp_mr_cache joined !! (o, h)
       = if decide (o = node_of joiner)
         then from_option Some (cp_mr_cache seed !! (o, h)) (directory joiner h)
         else cp_mr_cache seed !! (o, h).
Proof.
  cbv zeta. intros Hok Hl. destruct ls as [|[t1 m1] [|[t2 m2] ls]]; try (by unfold joiner_says in Hl).
  unfold joiner_says in Hl. cbn [map snd] in Hl. injection Hl as -> -> Hl.
  set (join := ControlMsg_Join (join_request joiner)). set (ack := ControlMsg_HelloAck (greeting joiner)).
  change (handle (seed_tx seed) seed _) with
    (handle (seed_tx seed) (process_control_message (process_control_message seed (seed_tx seed) t1 join)
       (seed_tx seed) t2 ack) ls).
  assert (Hpub : Forall (fun msg => exists mr, msg = ControlMsg_MrPublish mr) (map snd ls))
    by (rewrite Hl; apply existing_publishes).
  destruct (handle_publishes (seed_tx seed) (process_control_message
    (process_control_message seed (seed_tx seed) t1 join) (seed_tx seed) t2 ack) ls Hpub) as [-> ->].
  set (cp1 := process_control_message seed (seed_tx seed) t1 join).
  assert (Habout : forall id, id <> node_of joiner -> about id join = false /\ about id ack = false)
    by (intros id Hid; cbn; unfold node_of in Hid; split; apply Z.eqb_neq; congruence).
  assert (Hcache : cp_mr_cache (process_control_message cp1 (seed_tx seed) t2 ack) = cp_mr_cache seed).
  { transitivity (cp_mr_cache cp1); subst cp1; unfold join, ack; cbn [process_control_message]; cbv zeta; cp_cbn;
      by match goal with |- context [send_existing_mrs ?c ?t] =>
        destruct (send_existing_mrs_frame c t) as (_ & _ & _ & ->) end. }
  split_and!.
  - unfold ack at 1. cbn [process_control_message]. cbv zeta. cp_cbn.
    match goal with |- context [send_existing_mrs ?c ?t] =>
      destruct (send_existing_mrs_frame c t) as (-> & _) end. cp_cbn.
    rewrite row_upsert. cbn [hello_info greeting ni_node_id hp_node_id]. unfold node_of at 1.
    rewrite Z.eqb_refl. destruct (row (cp_members cp1) (node_of joiner)); by eexists.
  - intros id Hid. destruct (Habout id Hid) as [H1 H2].
    destruct (message_frame cp1 (seed_tx seed) t2 ack) as (_ & _ & Hv2).
    destruct (message_frame seed (seed_tx seed) t1 join) as (_ & _ & Hv1).
    apply Hv2 in H2. apply Hv1 in H1. apply pair_equal_spec in H1 as [H1 _], H2 as [H2 _].
    exact (eq_trans H2 H1).
  - intros o h. rewrite Hcache. apply published_lookup; [done|]. intros e. by rewrite Hl.
Qed.

(** ** Properties *)

(** What the two nodes must satisfy: different ids, well-formed tables, and messages
    that fit the wire and the limit of the read loop. *)
Record may_join (joiner seed : ControlPlane) : Prop := {
  mj_ids : node_of joiner <> node_of seed;
  mj_members : unique_members seed;
  mj_joiner_regions : regions_ok joiner;
  mj_seed_regions : regions_ok seed;
  mj_joiner_says : Forall sendable (joiner_says joiner 1);
  mj_seed_says : Forall sendable (seed_says joiner seed 2);
}.

(** C8 (functional): A node joins the pod through a seed. Take two nodes of different ids, with
    well-formed tables, whose messages fit the wire. However the read and write loops on the two
    ends of the connection interleave, and whatever the times, the exchange of JOIN, HELLO,
    MEMBER_SNAPSHOT, HELLO_ACK and MR_PUBLISH can always be completed, and every complete one
    ends the same: the joiner has entered every member the seed lists, in the state and with
    the addresses and the epoch listed (but no credits and no sender), has changed no other row
    and not its own, and knows every region the seed has registered; the seed has the joiner as
    an Active member with the data address, epoch and credits it announced, but with an empty
    control address (HELLO_ACK replaces the one JOIN announced, see [joined_control_addr_lost]),
    and knows all its regions; neither forgot a region of another node. *)
Theorem join_handshake joiner seed st :
  may_join joiner seed ->
  rtc (join_step joiner seed) (join_start joiner seed) st ->
  (exists st', rtc (join_step joiner seed) st st' /\ quiet joiner seed st')
  /\ (quiet joiner seed st ->
      (forall id n, row (cp_members seed) id = Some n -> id <> node_of joiner ->
         exists last, row (cp_members (jo_joiner st)) id
           = Some (mkNodeInfo id (ni_state n) (ni_control_addr n) (ni_data_addr n) (ni_epoch n) 0 last None))
      /\ (forall id, id = node_of joiner \/ row (cp_members seed) id = None /\ id <> node_of seed ->
           row (cp_members (jo_joiner st)) id = row (cp_members joiner) id)
      /\ (exists last, row (cp_members (jo_seed st)) (node_of joiner)
           = Some (mkNodeInfo (node_of joiner) NodeState_Active [] (cfg_data_listen (cp_config joiner))
                     (cp_local_epoch joiner) (cfg_initial_credits (cp_config joiner)) last
                     (Some (seed_tx seed))))
      /\ (forall id, id <> node_of joiner -> row (cp_members (jo_seed st)) id = row (cp_members seed) id)
      /\ forall o h,
           cp_mr_cache (jo_joiner st) !! (o, h)
           = (if decide (o = node_of seed)
              then from_option Some (cp_mr_cache joiner !! (o, h)) (directory seed h)
              else cp_mr_cache joiner !! (o, h))
           /\ cp_mr_cache (jo_seed st) !! (o, h)
              = (if decide (o = node_of joiner)
                 then from_option Some (cp_mr_cache seed !! (o, h)) (directory joiner h)
                 else cp_mr_cache seed !! (o, h))).
Proof.
  intros [Hid Hu Hokj Hoks Hsj Hss] Hr.
  destruct (conversation_reachable joiner seed Hsj Hss st Hr) as (lj & ls & Hc).
  split; [by eapply conversation_finishes|]. intros Hq.
  destruct (conversation_quiet _ _ _ _ _ Hc Hq) as [Hlj Hls]. destruct Hc as [Hcj Hcs _ _].
  destruct (core_members _ _ Hcj) as [-> ->], (core_members _ _ Hcs) as [-> ->].
  destruct (joiner_outcome joiner seed lj Hid Hu Hoks Hlj) as (J1 & J2 & J3).
  destruct (seed_outcome joiner seed ls Hokj Hls) as (S1 & S2 & S3). auto 10.
Qed.

(** Node 5, with one region, joins through node 42 of Mirror.v, which knows node 2. *)
Definition join_joiner : ControlPlane :=
  let cfg := NodeConfig_default <| cfg_node_id := 5 |> in
  let cp := ControlPlane_new cfg (MemberTable_new 5) MrCacheTable_new sample_devices 77 in
  ControlPlane_set_mr_table (ControlPlane_register_self cp 0)
    (mr_step sample_devices (MrTable_new_with_channel 1 5) (MrOp_register 0 24 3)).

Lemma join_joiner_history :
  mr_history sample_devices 1 5
    (mr_step sample_devices (MrTable_new_with_channel 1 5) (MrOp_register 0 24 3)).
Proof.
  apply mr_history_step; [apply mr_history_new|]. split; [|by split]. split; [discriminate|].
  split; [reflexivity|]. intros d [= <-]. split; [split; [discriminate|reflexivity]|reflexivity].
Qed.

Lemma join_example_ok : may_join join_joiner mirror_owner.
Proof.
  split.
  - discriminate.
  - apply (bool_decide_unpack _). vm_compute. exact I.
  - apply (regions_ok_table join_joiner
      (mr_step sample_devices (MrTable_new_with_channel 1 5) (MrOp_register 0 24 3))); [done| |done].
    refine (mr_history_ok _ _ _ _ _ _ join_joiner_history); split; (discriminate || reflexivity).
  - apply (regions_ok_table mirror_owner mirror_table); [done| |done].
    refine (mr_history_ok _ _ _ _ _ _ mirror_table_history); split; (discriminate || reflexivity).
  - repeat constructor; vm_compute; discriminate.
  - repeat constructor; vm_compute; discriminate.
Qed.

Lemma join_handshake_witness :
  exists st, rtc (join_step join_joiner mirror_owner) (join_start join_joiner mirror_owner) st
    /\ quiet join_joiner mirror_owner st
    /\ (exists last, row (cp_members (jo_joiner st)) 2
         = Some (mkNodeInfo 2 NodeState_Active [] (str "10.0.0.2:7901") 7 0 last None))
    /\ cp_mr_cache (jo_joiner st) !! (42, 2)
       = Some (mkMrCacheEntry 2 42 (UbAddr_new 1 42 0 16 0) 16 3 DeviceKind_Memory)
    /\ cp_mr_cache (jo_seed st) !! (5, 1)
       = Some (mkMrCacheEntry 1 5 (UbAddr_new 1 5 0 0 0) 24 3 DeviceKind_Memory).
Proof.
  destruct (join_handshake join_joiner mirror_owner _ join_example_ok (rtc_refl _ _)) as [(st & Hr & Hq) _].
  destruct (join_handshake join_joiner mirror_owner st join_example_ok Hr) as [_ H].
  destruct (H Hq) as (H1 & _ & _ & _ & H2). exists st. split; [done|]. split; [done|]. split_and!.
  - exact (H1 2 (mkNodeInfo 2 NodeState_Active [] (str "10.0.0.2:7901") 7 64 (Some 10) (Some 0%nat))
      ltac:(vm_compute; reflexivity) ltac:(discriminate)).
  - destruct (H2 42 2) as [-> _]. vm_compute. reflexivity.
  - destruct (H2 5 1) as [_ ->]. vm_compute. reflexivity.
Defined.

(** *** What is lost *)

(** The seed enters the control address the joiner announces with JOIN, and wipes it when the
    HELLO_ACK of the same joiner arrives: the members that join later are told an empty one. *)
Theorem joined_control_addr_lost joiner seed tx t1 t2 :
  let entered := process_control_message seed tx t1 (ControlMsg_Join (join_request joiner)) in
  let greeted := process_control_message entered tx t2 (ControlMsg_HelloAck (greeting joiner)) in
  ni_control_addr <$> row (cp_members entered) (node_of joiner) = Some (cfg_control_listen (cp_config joiner))
  /\ ni_control_addr <$> row (cp_members greeted) (node_of joiner) = Some [].
Proof.
  cbv zeta. split; cbn [process_control_message]; cbv zeta; cp_cbn;
    match goal with |- context [send_existing_mrs ?c ?t] =>
      destruct (send_existing_mrs_frame c t) as (-> & _) end; cp_cbn; rewrite row_upsert;
    cbn [hello_info greeting ni_node_id hp_node_id join_request jp_node_id]; unfold node_of at 1;
    rewrite Z.eqb_refl; by case_match.
Qed.

(** *** What the joiner cannot do *)

Lemma handle_unique tx cp l : unique_members cp -> unique_members (handle tx cp l).
Proof.
  revert cp. induction l as [|m l IH]; intros cp Hu; [done|]. cbn [handle foldl]. apply IH.
  by apply (message_frame cp tx m.1 m.2).
Qed.

(** A node that joined through a seed that lists itself has no way to reach it, nor any
    member listed: the snapshot comes after HELLO and enters every member without a
    sender, over the sender of the seed too. No later region event and no heartbeat of
    the joiner is sent to anyone. *)
Theorem joined_node_mute joiner seed st :
  may_join joiner seed -> unique_members joiner -> row (cp_members seed) (node_of seed) <> None ->
  (forall id n, row (cp_members joiner) id = Some n -> ni_tx n = None) ->
  rtc (join_step joiner seed) (join_start joiner seed) st -> quiet joiner seed st ->
  MemberTable_active_peer_senders (cp_members (jo_joiner st)) = []
  /\ cp_chans (mr_drain_turn (jo_joiner st)) = cp_chans (jo_joiner st).
Proof.
  intros [Hid Hu Hokj Hoks Hsj Hss] Huj Hself Htx Hr Hq.
  destruct (conversation_reachable joiner seed Hsj Hss st Hr) as (lj & ls & Hc).
  destruct (conversation_quiet _ _ _ _ _ Hc Hq) as [Hlj _]. destruct Hc as [Hcj _ _ _].
  destruct (core_members _ _ Hcj) as [Hm _].
  destruct (joiner_outcome joiner seed lj Hid Hu Hoks Hlj) as (J1 & J2 & _).
  assert (Hs : MemberTable_active_peer_senders (cp_members (jo_joiner st)) = []).
  { assert (Hnone : forall n, n ∈ mb_nodes (cp_members (jo_joiner st)) -> ni_tx n = None).
    { rewrite Hm. intros n Hn. pose proof (handle_unique (joiner_tx joiner) joiner lj Huj) as Hnd.
      pose proof (find_node_elem _ _ Hnd Hn) as Hrow.
      fold (row (cp_members (handle (joiner_tx joiner) joiner lj)) (ni_node_id n)) in Hrow.
      destruct (decide (ni_node_id n = node_of joiner)) as [Hj|Hj]; [rewrite J2 in Hrow by auto; eauto|].
      destruct (row (cp_members seed) (ni_node_id n)) as [m|] eqn:Hm'.
      - destruct (J1 _ _ Hm' Hj) as [last Hl]. rewrite Hl in Hrow. by injection Hrow as <-.
      - rewrite J2 in Hrow; [eauto|]. right. split; [done|]. intros Heq. by rewrite Heq in Hm'. }
    unfold MemberTable_active_peer_senders.
    assert (Hf : forall n, n ∈ List.filter (is_live_peer (cp_members (jo_joiner st)))
      (mb_nodes (cp_members (jo_joiner st))) -> ni_tx n = None)
      by (intros n Hn; apply Hnone; apply list_elem_of_In, filter_In in Hn as [Hn _]; by apply list_elem_of_In).
    revert Hf. induction (List.filter _ _) as [|n l IH]; intros Hf; [done|]. cbn [omap list_omap].
    rewrite (Hf n) by (by left). cbn. apply IH. intros m Hin. apply Hf. by right. }
  split; [done|]. unfold mr_drain_turn. rewrite Hs. by repeat case_match.
Qed.

(** Nobody connects to the members listed, so nothing is heard of them: the joiner declares
    node 2, which is alive and Active at the seed, Suspect and then Down. *)
Theorem listed_member_down :
  let tx := joiner_tx join_joiner in
  let cp := handle tx (handle_seed_join_open join_joiner).1.1
    [(5000, ControlMsg_Hello (greeting mirror_owner));
     (5000, ControlMsg_MemberSnapshot (snapshot_after mirror_owner (join_request join_joiner) 5000 1))] in
  option_map ni_state (row (cp_members cp) 2) = Some NodeState_Active
  /\ option_map ni_state (row (cp_members (control_run cp
       (map ControlEvent_tick [9000; 10000; 11000]))) 2) = Some NodeState_Suspect
  /\ option_map ni_state (row (cp_members (control_run cp
       (map ControlEvent_tick [9000; 10000; 11000; 12000; 13000; 14000]))) 2) = Some NodeState_Down.
Proof. vm_compute. repeat split. Qed.

(** The other members are told nothing of the new one: the seed sends no MEMBER_UP and no
    snapshot to anyone but the joiner. *)
Theorem join_not_announced cp tx now join tx' :
  tx' <> tx ->
  queued (cp_chans (process_control_message cp tx now (ControlMsg_Join join))) tx' = queued (cp_chans cp) tx'.
Proof.
  intros Hne. cbn [process_control_message]. cbv zeta. cp_cbn. unfold send_existing_mrs. cp_cbn.
  assert (Hsend : forall chans msgs, queued (send_while_open chans tx msgs) tx' = queued chans tx').
  { intros chans msgs. revert chans. induction msgs as [|msg msgs IH]; intros chans; [done|].
    cbn [send_while_open]. pose proof (queued_send chans tx (ControlMsg_encode msg) tx') as Hq.
    rewrite decide_False in Hq by done. destruct (chan_send chans tx _) as [chans' [|]]; [by rewrite IH|done]. }
  destruct (cp_mr_table cp); cp_cbn; rewrite ?Hsend, queued_send, decide_False by done; done.
Qed.
