(* ===== verification/SubAlloc.v ===== *)
(** * SubAlloc: the lock-free bump allocator of a pool

    crates/ub-managed/src/sub_alloc.rs. [alloc] is a load followed by a
    compare-and-swap, retried when another thread got in between: it is modelled
    both as the function a caller sees and as the small steps of any number of
    threads that share the counter. *)

From S2P Require Import Prelude.
From stdpp Require Import relations.
#[local] Open Scope Z_scope.

(** Source: crates/ub-managed/src/sub_alloc.rs:7-11, [SubAllocator]. *)
Record SubAllocator : Type := mkSubAllocator {
  sa_base_offset : Z;
  sa_total_len : Z;
  sa_allocated : Z;
}.

#[global] Instance SubAllocator_settable : Settable SubAllocator :=
  fun x => mkSubAllocator (sa_base_offset x) (sa_total_len x) (sa_allocated x).

(** Source: crates/ub-managed/src/sub_alloc.rs:14-20, [SubAllocator::new]. *)
Definition SubAllocator_new (base_offset total_len : Z) : SubAllocator :=
  mkSubAllocator base_offset total_len 0.

(** Where a thread is in the loop of [alloc]: about to load, holding the loaded
    value, or returned. *)
Inductive AllocThread : Type :=
| AllocThread_Load (size : Z)
| AllocThread_Cas (size current : Z)
| AllocThread_Done (size : Z) (result : option Z).

(** Source: crates/ub-managed/src/sub_alloc.rs:24-35, [SubAllocator::alloc].
    One atomic step of a thread inside the loop. *)
Definition alloc_step (a : SubAllocator) (th : AllocThread) : SubAllocator * AllocThread :=
  match th with
  | AllocThread_Load size =>
    let current := sa_allocated a in
    if sa_total_len a <? wrap 64 (current + size) then (a, AllocThread_Done size None)
    else (a, AllocThread_Cas size current)
  | AllocThread_Cas size current =>
    if sa_allocated a =? current
    then (a <| sa_allocated := wrap 64 (current + size) |>,
          AllocThread_Done size (Some (wrap 64 (sa_base_offset a + current))))
    else (a, AllocThread_Load size)
  | AllocThread_Done _ _ => (a, th)
  end.

(** The call without interference: both steps in a row. *)
Definition SubAllocator_alloc (a : SubAllocator) (size : Z) : SubAllocator * option Z :=
  let '(a, th) := alloc_step a (AllocThread_Load size) in
  let '(a, th) := alloc_step a th in
  (a, match th with AllocThread_Done _ r => r | _ => None end).

(** Source: crates/ub-managed/src/sub_alloc.rs:38-40, [SubAllocator::free]. *)
Definition SubAllocator_free (a : SubAllocator) (_offset _size : Z) : SubAllocator := a.

(** Source: crates/ub-managed/src/sub_alloc.rs:43-45, [SubAllocator::allocated_bytes]. *)
Definition SubAllocator_allocated_bytes (a : SubAllocator) : Z := sa_allocated a.

(** Source: crates/ub-managed/src/sub_alloc.rs:48-50, [SubAllocator::free_bytes]. *)
Definition SubAllocator_free_bytes (a : SubAllocator) : Z :=
  sat_sub (sa_total_len a) (sa_allocated a).

(** ** Threads sharing the allocator *)

Record AllocWorld : Type := mkAllocWorld {
  aw_alloc : SubAllocator;
  aw_threads : list AllocThread;
}.

(** Some thread takes one step. *)
Inductive world_step : AllocWorld -> AllocWorld -> Prop :=
| world_step_thread a ths i th :
    ths !! i = Some th ->
    world_step (mkAllocWorld a ths)
      (mkAllocWorld (alloc_step a th).1 (<[i := (alloc_step a th).2]> ths)).

Definition world_init (a : SubAllocator) (sizes : list Z) : AllocWorld :=
  mkAllocWorld a (map AllocThread_Load sizes).

(** The block a thread was granted. *)
Definition granted (th : AllocThread) : option (Z * Z) :=
  match th with
  | AllocThread_Done size (Some off) => Some (off, size)
  | _ => None
  end.

Definition thread_size (th : AllocThread) : Z :=
  match th with
  | AllocThread_Load size | AllocThread_Cas size _ | AllocThread_Done size _ => size
  end.

(** Bytes granted so far. *)
Definition granted_bytes (ths : list AllocThread) : Z :=
  foldr (fun th acc => match granted th with Some (_, size) => size + acc | None => acc end) 0 ths.

Definition separate (b1 b2 : Z * Z) : Prop := b1.1 + b1.2 <= b2.1 \/ b2.1 + b2.2 <= b1.1.

Section Concurrent.
Variables (base total : Z).
Hypothesis Hbase : 0 <= base.
Hypothesis Htotal : 0 <= total < 2 ^ 63.
Hypothesis Hfit : base + total < 2 ^ 64.

(** A loaded value is a past value of the counter, and granted blocks lie below
    the counter, apart from each other. *)
Record world_ok (w : AllocWorld) : Prop := {
  wo_base : sa_base_offset (aw_alloc w) = base;
  wo_total : sa_total_len (aw_alloc w) = total;
  wo_allocated : 0 <= sa_allocated (aw_alloc w) <= total;
  wo_sizes : Forall (fun th => 0 <= thread_size th < 2 ^ 63) (aw_threads w);
  wo_loaded : forall i size current, aw_threads w !! i = Some (AllocThread_Cas size current) ->
    0 <= current /\ current + size <= total;
  wo_blocks : forall i th b, aw_threads w !! i = Some th -> granted th = Some b ->
    base <= b.1 /\ b.1 + b.2 <= base + sa_allocated (aw_alloc w);
  wo_separate : forall i j t1 t2 b1 b2, i <> j ->
    aw_threads w !! i = Some t1 -> aw_threads w !! j = Some t2 ->
    granted t1 = Some b1 -> granted t2 = Some b2 -> separate b1 b2;
  wo_sum : granted_bytes (aw_threads w) <= sa_allocated (aw_alloc w);
}.

Lemma granted_bytes_insert ths i th th' :
  ths !! i = Some th ->
  granted_bytes (<[i := th']> ths)
  = granted_bytes ths
    + (match granted th' with Some (_, s) => s | None => 0 end)
    - (match granted th with Some (_, s) => s | None => 0 end).
Proof.
  revert i. induction ths as [|t ths IH]; intros [|i] Hi; simplify_eq/=.
  - destruct (granted th') as [[]|], (granted th) as [[]|]; lia.
  - rewrite (IH i Hi). destruct (granted t) as [[]|]; lia.
Qed.

(** A step that grants nothing and changes only the thread's position. *)
Lemma world_ok_move w i th th' :
  world_ok w -> aw_threads w !! i = Some th -> granted th = None -> granted th' = None ->
  thread_size th' = thread_size th ->
  (forall size current, th' = AllocThread_Cas size current -> 0 <= current /\ current + size <= total) ->
  world_ok (mkAllocWorld (aw_alloc w) (<[i := th']> (aw_threads w))).
Proof.
  intros [? ? ? Hsz Hl Hb Hs Hsum] Hi Hg Hg' Hts Hc.
  assert (Hlook : forall j t, <[i := th']> (aw_threads w) !! j = Some t ->
            (j = i /\ t = th') \/ (j <> i /\ aw_threads w !! j = Some t)).
  { intros j t Hj. apply list_lookup_insert_Some in Hj as [(-> & -> & _)|[? ?]]; auto. }
  constructor; cbn; try done.
  - apply Forall_insert; [done|]. rewrite Hts. by eapply Forall_lookup_1 in Hsz.
  - intros j size current Hj. destruct (Hlook _ _ Hj) as [[_ Heq]|[_ ?]]; eauto.
  - intros j t b Hj Hgt. destruct (Hlook _ _ Hj) as [[_ ->]|[_ ?]]; [congruence|eauto].
  - intros j k t1 t2 b1 b2 Hjk Hj Hk H1 H2.
    destruct (Hlook _ _ Hj) as [[_ ->]|[_ ?]]; [congruence|].
    destruct (Hlook _ _ Hk) as [[_ ->]|[_ ?]]; [congruence|eauto].
  - rewrite (granted_bytes_insert _ _ _ _ Hi), Hg, Hg'. lia.
Qed.

Lemma world_step_ok w w' : world_ok w -> world_step w w' -> world_ok w'.
Proof.
  intros Hw Hstep. destruct Hstep as [a ths i th Hi].
  pose proof Hw as [Hb Ht Ha Hsz Hl Hbl Hs Hsum]. cbn [aw_alloc aw_threads] in *.
  assert (Hth : 0 <= thread_size th < 2 ^ 63) by (by eapply Forall_lookup_1 in Hsz).
  destruct th as [size|size current|size r]; cbn [alloc_step thread_size] in *.
  - rewrite Ht. destruct (total <? _) eqn:E; zbool; cbn [fst snd].
    + by eapply (world_ok_move (mkAllocWorld a ths)).
    + eapply (world_ok_move (mkAllocWorld a ths)); try done.
      intros ? ? [= <- <-]. rewrite wrap_small in E by ulia. lia.
  - destruct (sa_allocated a =? current) eqn:E; zbool; cbn [fst snd].
    2: { by eapply (world_ok_move (mkAllocWorld a ths)). }
    destruct (Hl i size current Hi) as [Hc0 Hc1].
    assert (Hw1 : wrap 64 (current + size) = current + size) by (apply wrap_small; ulia).
    assert (Hw2 : wrap 64 (sa_base_offset a + current) = base + current)
      by (rewrite Hb; apply wrap_small; ulia).
    rewrite Hw1, Hw2. set (th' := AllocThread_Done size (Some (base + current))).
    assert (Hlook : forall j t, <[i := th']> ths !! j = Some t ->
              (j = i /\ t = th') \/ (j <> i /\ ths !! j = Some t)).
    { intros j t Hj. apply list_lookup_insert_Some in Hj as [(-> & -> & _)|[? ?]]; auto. }
    constructor; cbn [aw_alloc aw_threads set_field sa_base_offset sa_total_len sa_allocated];
      try done; try lia.
    + by apply Forall_insert.
    + intros j size' current' Hj. destruct (Hlook _ _ Hj) as [[_ ?]|[_ ?]]; [done|eauto].
    + intros j t b Hj Hgt. destruct (Hlook _ _ Hj) as [[_ ->]|[_ Hj']].
      * cbn in Hgt. simplify_eq. cbn. lia.
      * destruct (Hbl _ _ _ Hj' Hgt). lia.
    + intros j k t1 t2 b1 b2 Hjk Hj Hk H1 H2.
      destruct (Hlook _ _ Hj) as [[-> ->]|[_ Hj']], (Hlook _ _ Hk) as [[-> ->]|[_ Hk']].
      * done.
      * cbn in H1. simplify_eq. right. cbn. destruct (Hbl _ _ _ Hk' H2). lia.
      * cbn in H2. simplify_eq. left. cbn. destruct (Hbl _ _ _ Hj' H1). lia.
      * eauto.
    + rewrite (granted_bytes_insert _ _ _ _ Hi). unfold th'. cbn [granted]. lia.
  - cbn [fst snd]. by rewrite list_insert_id.
Qed.

Lemma world_init_ok sizes :
  Forall (fun s => 0 <= s < 2 ^ 63) sizes -> world_ok (world_init (SubAllocator_new base total) sizes).
Proof.
  intros Hs. constructor; cbn; try done; try lia.
  - by apply Forall_fmap.
  - intros i size current Hi. apply list_lookup_fmap_Some in Hi as (? & ? & ?). done.
  - intros i th b Hi Hg. apply list_lookup_fmap_Some in Hi as (? & -> & ?). done.
  - intros i j t1 t2 b1 b2 _ Hi _ H1. apply list_lookup_fmap_Some in Hi as (? & -> & ?). done.
  - clear Hs. induction sizes; cbn; lia.
Qed.

Lemma world_reachable_ok w w' : world_ok w -> rtc world_step w w' -> world_ok w'.
Proof. intros Hw. induction 1; eauto using world_step_ok. Qed.
End Concurrent.

(** ** Properties *)

(** C25 (safety): The lock-free allocator hands out disjoint blocks under every interleaving. Let the
    pool and every request be shorter than 2^63 bytes and the pool end below 2^64 (a request near
    2^64 wraps past the bound: [sub_alloc_overflow]). However many threads call [alloc] at once and
    however their loads and compare-and-swaps interleave: two granted blocks never overlap, every
    block lies inside the pool, and the bytes granted never exceed the pool. *)
Theorem sub_alloc_concurrent base total sizes w :
  0 <= base -> 0 <= total < 2 ^ 63 -> base + total < 2 ^ 64 ->
  Forall (fun s => 0 <= s < 2 ^ 63) sizes ->
  rtc world_step (world_init (SubAllocator_new base total) sizes) w ->
  (forall i j t1 t2 b1 b2, i <> j -> aw_threads w !! i = Some t1 -> aw_threads w !! j = Some t2 ->
     granted t1 = Some b1 -> granted t2 = Some b2 -> separate b1 b2)
  /\ (forall i th b, aw_threads w !! i = Some th -> granted th = Some b ->
        base <= b.1 /\ b.1 + b.2 <= base + total)
  /\ granted_bytes (aw_threads w) <= SubAllocator_allocated_bytes (aw_alloc w) <= total.
Proof.
  intros Hb Ht Hf Hs Hrun.
  pose proof (world_reachable_ok base total Hb Ht Hf _ _ (world_init_ok base total Ht sizes Hs) Hrun)
    as [_ _ Ha _ _ Hbl Hsep Hsum].
  split; [done|]. split; [|unfold SubAllocator_allocated_bytes; lia].
  intros i th b Hi Hg. destruct (Hbl _ _ _ Hi Hg). lia.
Qed.

Definition sample_world : AllocWorld :=
  mkAllocWorld (mkSubAllocator 100 50 30)
    [AllocThread_Done 10 (Some 120); AllocThread_Done 20 (Some 100)].

Lemma sample_world_reachable :
  rtc world_step (world_init (SubAllocator_new 100 50) [10; 20]) sample_world.
Proof.
  (* both threads load 0; the second wins; the first retries *)
  eapply rtc_l; [apply (world_step_thread _ _ 0); reflexivity|].
  eapply rtc_l; [apply (world_step_thread _ _ 1); reflexivity|].
  eapply rtc_l; [apply (world_step_thread _ _ 1); reflexivity|].
  eapply rtc_l; [apply (world_step_thread _ _ 0); reflexivity|].
  eapply rtc_l; [apply (world_step_thread _ _ 0); reflexivity|].
  eapply rtc_l; [apply (world_step_thread _ _ 0); reflexivity|].
  vm_compute. apply rtc_refl.
Qed.

Lemma sub_alloc_concurrent_witness : separate (120, 10) (100, 20).
Proof.
  apply (proj1 (sub_alloc_concurrent 100 50 [10; 20] sample_world ltac:(lia) ltac:(lia) ltac:(lia)
    ltac:(repeat constructor; lia) sample_world_reachable) 0%nat 1%nat
    (AllocThread_Done 10 (Some 120)) (AllocThread_Done 20 (Some 100)));
    reflexivity || discriminate.
Defined.

(** A size close to the end of the [u64] range wraps past the bound: the
    request is granted and the counter goes backwards. *)
Lemma sub_alloc_overflow :
  SubAllocator_alloc (mkSubAllocator 0 100 10) (2 ^ 64 - 5) = (mkSubAllocator 0 100 5, Some 10).
Proof. reflexivity. Qed.

(** Without interference the call is one bump. *)
Lemma SubAllocator_alloc_spec a size :
  0 <= sa_allocated a -> 0 <= size -> sa_allocated a + size < 2 ^ 64 ->
  SubAllocator_alloc a size
  = if sa_total_len a <? sa_allocated a + size then (a, None)
    else (a <| sa_allocated := sa_allocated a + size |>,
          Some (wrap 64 (sa_base_offset a + sa_allocated a))).
Proof.
  intros. unfold SubAllocator_alloc. cbn [alloc_step]. rewrite wrap_small by ulia.
  destruct (_ <? _); [done|]. cbn [alloc_step]. by rewrite Z.eqb_refl, wrap_small by ulia.
Qed.
