(* ===== verification/Region.v ===== *)
(** * Region: the region table of a node

    crates/ub-managed/src/region.rs. The table is reached through [Arc]s held by
    the cache pool, the fetch agent and the daemon: [Tables] is the store of the
    tables, and a handle is an index into it. *)

From S2P Require Import Prelude Bytes Types.
#[local] Open Scope Z_scope.

(** Source: crates/ub-managed/src/region.rs:11-13, [RegionTable]. *)
Record RegionTable : Type := mkRegionTable {
  rt_entries : gmap Z RegionInfo;
}.

#[global] Instance RegionTable_settable : Settable RegionTable :=
  fun t => mkRegionTable (rt_entries t).

(** Source: crates/ub-managed/src/region.rs:16-20, [RegionTable::new]. *)
Definition RegionTable_new : RegionTable := mkRegionTable ∅.

(** Source: crates/ub-managed/src/region.rs:23-26, [RegionTable::insert]. *)
Definition RegionTable_insert (t : RegionTable) (info : RegionInfo) : RegionTable :=
  t <| rt_entries := <[ri_region_id info := info]> (rt_entries t) |>.

(** Source: crates/ub-managed/src/region.rs:29-32, [RegionTable::lookup]. *)
Definition RegionTable_lookup (t : RegionTable) (region_id : Z) : option RegionInfo :=
  rt_entries t !! region_id.

(** Source: crates/ub-managed/src/region.rs:35-38, [RegionTable::remove]. *)
Definition RegionTable_remove (t : RegionTable) (region_id : Z) : RegionTable * option RegionInfo :=
  (t <| rt_entries := delete region_id (rt_entries t) |>, rt_entries t !! region_id).

(** Source: crates/ub-managed/src/region.rs:41-49, [RegionTable::set_state]. *)
Definition RegionTable_set_state (t : RegionTable) (region_id : Z) (state : RegionState)
  : RegionTable * bool :=
  match rt_entries t !! region_id with
  | Some entry => (t <| rt_entries := <[region_id := entry <| ri_state := state |>]> (rt_entries t) |>, true)
  | None => (t, false)
  end.

(** Source: crates/ub-managed/src/region.rs:52-60, [RegionTable::set_epoch]. *)
Definition RegionTable_set_epoch (t : RegionTable) (region_id epoch : Z) : RegionTable * bool :=
  match rt_entries t !! region_id with
  | Some entry => (t <| rt_entries := <[region_id := entry <| ri_epoch := epoch |>]> (rt_entries t) |>, true)
  | None => (t, false)
  end.

Section Listing.
Context {iteration : MapOrder Z RegionInfo}.

(** Source: crates/ub-managed/src/region.rs:63-65, [RegionTable::list]. *)
Definition RegionTable_list (t : RegionTable) : list RegionInfo := (in_order (rt_entries t)).*2.

(** Source: crates/ub-managed/src/region.rs:68-70, [RegionTable::list_by_state]. *)
Definition RegionTable_list_by_state (t : RegionTable) (state : RegionState) : list RegionInfo :=
  filter (fun e => ri_state e = state) (RegionTable_list t).

(** Source: crates/ub-managed/src/region.rs:73-86, [RegionTable::count_by_state]. *)
Definition RegionTable_count_by_state (t : RegionTable) : nat * nat * nat :=
  foldl (fun '(home, shared, invalid) e =>
           match ri_state e with
           | RegionState_Home => (S home, shared, invalid)
           | RegionState_Shared _ => (home, S shared, invalid)
           | RegionState_Invalid => (home, shared, S invalid)
           end) (0, 0, 0)%nat (RegionTable_list t).

Lemma count_by_state_total t home shared invalid :
  RegionTable_count_by_state t = (home, shared, invalid) ->
  (home + shared + invalid = size (rt_entries t))%nat.
Proof.
  unfold RegionTable_count_by_state, RegionTable_list. rewrite <- length_map_to_list.
  rewrite <- (length_fmap snd), <- in_order_perm.
  generalize (in_order (rt_entries t)).*2. intros l.
  assert (Hg : forall h s i home shared invalid,
    foldl (fun '(home, shared, invalid) e =>
           match ri_state e with
           | RegionState_Home => (S home, shared, invalid)
           | RegionState_Shared _ => (home, S shared, invalid)
           | RegionState_Invalid => (home, shared, S invalid)
           end) (h, s, i) l = (home, shared, invalid) ->
    (home + shared + invalid = h + s + i + length l)%nat).
  { induction l as [|e l IH]; intros h s i ??? Heq; cbn [foldl length] in *; [simplify_eq; lia|].
    destruct (ri_state e); apply IH in Heq; lia. }
  intros Heq%Hg. lia.
Qed.
End Listing.

(** ** The store of tables *)

Abbreviation Tables := (list RegionTable).

Definition table_of (h : Tables) (r : nat) : RegionTable := default RegionTable_new (h !! r).

(** Calls an operation through a handle. *)
Definition on_table {B} (h : Tables) (r : nat) (f : RegionTable -> RegionTable * B) : Tables * B :=
  let '(t, b) := f (table_of h r) in (<[r := t]> h, b).

Definition region_of (h : Tables) (r : nat) (region_id : Z) : option RegionInfo :=
  RegionTable_lookup (table_of h r) region_id.

Lemma table_of_insert h r t r' :
  (r < length h)%nat -> table_of (<[r := t]> h) r' = if decide (r = r') then t else table_of h r'.
Proof.
  intros Hr. unfold table_of. case_decide; [subst|].
  - by rewrite list_lookup_insert_eq.
  - by rewrite list_lookup_insert_ne.
Qed.

Lemma on_table_length {B} h r (f : RegionTable -> RegionTable * B) :
  length (on_table h r f).1 = length h.
Proof. unfold on_table. destruct (f _). apply length_insert. Qed.

Lemma region_of_set_state h r rid state rid' :
  (r < length h)%nat ->
  region_of (on_table h r (fun t => RegionTable_set_state t rid state)).1 r rid'
  = if decide (rid' = rid) then (fun i => i <| ri_state := state |>) <$> region_of h r rid'
    else region_of h r rid'.
Proof.
  intros Hr. unfold region_of, on_table, RegionTable_set_state, RegionTable_lookup.
  destruct (rt_entries (table_of h r) !! rid) as [i|] eqn:E; cbn [fst];
    rewrite table_of_insert, decide_True by done; cbn; case_decide; subst.
  - by rewrite lookup_insert_eq, E.
  - by rewrite lookup_insert_ne.
  - by rewrite E.
  - done.
Qed.

Lemma region_of_set_epoch h r rid epoch rid' :
  (r < length h)%nat ->
  region_of (on_table h r (fun t => RegionTable_set_epoch t rid epoch)).1 r rid'
  = if decide (rid' = rid) then (fun i => i <| ri_epoch := epoch |>) <$> region_of h r rid'
    else region_of h r rid'.
Proof.
  intros Hr. unfold region_of, on_table, RegionTable_set_epoch, RegionTable_lookup.
  destruct (rt_entries (table_of h r) !! rid) as [i|] eqn:E; cbn [fst];
    rewrite table_of_insert, decide_True by done; cbn; case_decide; subst.
  - by rewrite lookup_insert_eq, E.
  - by rewrite lookup_insert_ne.
  - by rewrite E.
  - done.
Qed.

#[export] Hint Rewrite @on_table_length : ub.
