(* ===== verification/CachePool.v ===== *)
(** * CachePool: cached copies of remote regions

    crates/ub-managed/src/cache_pool.rs: a bump-allocated pool with LRU
    eviction. The clock readings are arguments; the order in which [evict_lru]
    meets entries of equal age is that of the [HashMap]. *)

From S2P Require Import Prelude Bytes Types SubAlloc Region.
#[local] Open Scope Z_scope.

(** Source: crates/ub-managed/src/cache_pool.rs:14-20, [CacheEntry]. *)
Record PoolCacheEntry : Type := mkPoolCacheEntry {
  pe_region_id : Z;
  pe_pool_offset : Z;
  pe_len : Z;
  pe_epoch : Z;
  pe_last_access : Z;
}.

(** Source: crates/ub-managed/src/cache_pool.rs:28-36, [CachePool]. *)
Record CachePool : Type := mkCachePool {
  cp_entries : gmap Z PoolCacheEntry;
  cp_allocator : SubAllocator;
  cp_max_bytes : Z;
  cp_used_bytes : Z;
  cp_region_table : option nat;
}.

#[global] Instance PoolCacheEntry_settable : Settable PoolCacheEntry := fun x =>
  mkPoolCacheEntry (pe_region_id x) (pe_pool_offset x) (pe_len x) (pe_epoch x) (pe_last_access x).
#[global] Instance CachePool_settable : Settable CachePool := fun x =>
  mkCachePool (cp_entries x) (cp_allocator x) (cp_max_bytes x) (cp_used_bytes x) (cp_region_table x).

(** Source: crates/ub-managed/src/cache_pool.rs:39-47, [CachePool::new]. *)
Definition CachePool_new (allocator : SubAllocator) (max_bytes : Z) : CachePool :=
  mkCachePool ∅ allocator max_bytes 0 None.

(** Source: crates/ub-managed/src/cache_pool.rs:50-58, [CachePool::with_region_table]. *)
Definition CachePool_with_region_table (allocator : SubAllocator) (max_bytes : Z) (region_table : nat)
  : CachePool :=
  mkCachePool ∅ allocator max_bytes 0 (Some region_table).

(** Source: crates/ub-managed/src/cache_pool.rs:61-68, [CachePool::lookup]. *)
Definition CachePool_lookup (p : CachePool) (now region_id : Z) : CachePool * option PoolCacheEntry :=
  match cp_entries p !! region_id with
  | Some entry =>
    let entry := entry <| pe_last_access := now |> in
    (p <| cp_entries := <[region_id := entry]> (cp_entries p) |>, Some entry)
  | None => (p, None)
  end.

(** Source: crates/ub-managed/src/cache_pool.rs:99-106, [CachePool::remove]. *)
Definition CachePool_remove (p : CachePool) (region_id : Z) : CachePool * option PoolCacheEntry :=
  match cp_entries p !! region_id with
  | None => (p, None)
  | Some entry =>
    (p <| cp_entries := delete region_id (cp_entries p) |>
       <| cp_used_bytes := wrap 64 (cp_used_bytes p - pe_len entry) |>
       <| cp_allocator := SubAllocator_free (cp_allocator p) (pe_pool_offset entry) (pe_len entry) |>,
     Some entry)
  end.

(** Source: crates/ub-managed/src/cache_pool.rs:137-146, [CachePool::update_epoch]. *)
Definition CachePool_update_epoch (p : CachePool) (now region_id epoch : Z) : CachePool * bool :=
  match cp_entries p !! region_id with
  | Some entry =>
    (p <| cp_entries := <[region_id := entry <| pe_epoch := epoch |> <| pe_last_access := now |>]>
                          (cp_entries p) |>, true)
  | None => (p, false)
  end.

(** Source: crates/ub-managed/src/cache_pool.rs:149-151, [CachePool::contains]. *)
Definition CachePool_contains (p : CachePool) (region_id : Z) : bool :=
  bool_decide (is_Some (cp_entries p !! region_id)).

(** Source: crates/ub-managed/src/cache_pool.rs:154-156, [CachePool::len]. *)
Definition CachePool_len (p : CachePool) : Z := Z.of_nat (size (cp_entries p)).

Section Eviction.
Context {iteration : MapOrder Z PoolCacheEntry}.

(** Source: crates/ub-managed/src/cache_pool.rs:110-134, [CachePool::evict_lru]. *)
Definition CachePool_evict_lru (h : Tables) (p : CachePool) : Tables * CachePool * bool :=
  if decide (cp_entries p = ∅) then (h, p, false)
  else
    match fst <$> min_by_key (fun kv => pe_last_access kv.2) (in_order (cp_entries p)) with
    | Some key =>
      match cp_entries p !! key with
      | Some entry =>
        let p := p <| cp_entries := delete key (cp_entries p) |>
                   <| cp_used_bytes := wrap 64 (cp_used_bytes p - pe_len entry) |>
                   <| cp_allocator := SubAllocator_free (cp_allocator p) (pe_pool_offset entry) (pe_len entry) |> in
        let h := match cp_region_table p with
                 | Some r =>
                   (on_table h r (fun t => RegionTable_set_state t (pe_region_id entry) RegionState_Invalid)).1
                 | None => h
                 end in
        (h, p, true)
      | None => (h, p, false)
      end
    | None => (h, p, false)
    end.

(** Source: crates/ub-managed/src/cache_pool.rs:74-78, [CachePool::insert while].
    Each turn removes an entry, so as many turns as there are entries are
    enough ([evict_until_unfold]). *)
Fixpoint evict_until (fuel : nat) (h : Tables) (p : CachePool) (len : Z) : Tables * CachePool * bool :=
  if cp_max_bytes p <? wrap 64 (cp_used_bytes p + len) then
    let '(h, p, evicted) := CachePool_evict_lru h p in
    if evicted then
      match fuel with
      | O => (h, p, false)
      | S fuel => evict_until fuel h p len
      end
    else (h, p, false)
  else (h, p, true).

(** Source: crates/ub-managed/src/cache_pool.rs:72-96, [CachePool::insert]. *)
Definition CachePool_insert (h : Tables) (p : CachePool) (now region_id len epoch : Z)
  : Tables * CachePool * (string + PoolCacheEntry) :=
  let '(h, p, room) := evict_until (size (cp_entries p)) h p len in
  if negb room then (h, p, inl "cache pool full, cannot evict enough space"%string)
  else
    match SubAllocator_alloc (cp_allocator p) len with
    | (a, None) => (h, p <| cp_allocator := a |>, inl "sub-allocator exhausted"%string)
    | (a, Some pool_offset) =>
      let entry := mkPoolCacheEntry region_id pool_offset len epoch now in
      (h, p <| cp_allocator := a |>
            <| cp_used_bytes := wrap 64 (cp_used_bytes p + len) |>
            <| cp_entries := <[region_id := entry]> (cp_entries p) |>, inr entry)
    end.

(** ** Bytes held by the entries *)

Definition sum_len (m : gmap Z PoolCacheEntry) : Z := map_fold (fun _ e acc => pe_len e + acc) 0 m.

Lemma sum_len_insert m k e : m !! k = None -> sum_len (<[k := e]> m) = pe_len e + sum_len m.
Proof.
  intros Hk. unfold sum_len. rewrite map_fold_insert_L; [done| |done].
  intros. lia.
Qed.

Lemma sum_len_delete m k e : m !! k = Some e -> sum_len (delete k m) = sum_len m - pe_len e.
Proof.
  intros Hk. rewrite <- (insert_delete_id m k e Hk) at 2.
  rewrite sum_len_insert by apply lookup_delete_eq. lia.
Qed.

Lemma sum_len_update m k e e' :
  m !! k = Some e -> sum_len (<[k := e']> m) = sum_len m - pe_len e + pe_len e'.
Proof.
  intros Hk. rewrite <- insert_delete_eq, sum_len_insert by apply lookup_delete_eq.
  rewrite (sum_len_delete _ _ _ Hk). lia.
Qed.

Lemma sum_len_nonneg m : (forall k e, m !! k = Some e -> 0 <= pe_len e) -> 0 <= sum_len m.
Proof.
  induction m as [|k e m Hk IH] using map_ind; intros Hm; [done|].
  rewrite sum_len_insert by done. pose proof (Hm k e (lookup_insert_eq _ _ _)).
  assert (0 <= sum_len m); [|lia]. apply IH. intros k' e' Hk'. apply (Hm k').
  rewrite lookup_insert_ne; [done|congruence].
Qed.

Lemma sum_len_mono m1 m2 :
  m1 ⊆ m2 -> (forall k e, m2 !! k = Some e -> 0 <= pe_len e) -> sum_len m1 <= sum_len m2.
Proof.
  revert m2. induction m1 as [|k e m1 Hk IH] using map_ind; intros m2 Hm Hpos.
  - by apply sum_len_nonneg.
  - rewrite sum_len_insert by done.
    assert (Hk2 : m2 !! k = Some e) by (eapply lookup_weaken; [apply lookup_insert_eq|done]).
    pose proof (sum_len_delete _ _ _ Hk2).
    assert (sum_len m1 <= sum_len (delete k m2)); [|lia]. apply IH.
    + rewrite <- (delete_insert_id m1 k e Hk). by apply delete_mono.
    + intros k' e' [_ Hk']%lookup_delete_Some. eauto.
Qed.

(** ** Invariant *)

Definition block (e : PoolCacheEntry) : Z * Z := (pe_pool_offset e, pe_len e).

(** [base], [total] and [max] are those the pool was made with. The bytes of the
    entries are bounded by [used_bytes], which also counts the bytes of entries
    overwritten by a second [insert] of their region. *)
Record pool_ok (base total max : Z) (p : CachePool) : Prop := {
  po_base : sa_base_offset (cp_allocator p) = base;
  po_total : sa_total_len (cp_allocator p) = total;
  po_max : cp_max_bytes p = max;
  po_allocated : 0 <= sa_allocated (cp_allocator p) <= total;
  po_key : forall k e, cp_entries p !! k = Some e -> pe_region_id e = k /\ 0 <= pe_len e;
  po_block : forall k e, cp_entries p !! k = Some e ->
    base <= pe_pool_offset e /\ pe_pool_offset e + pe_len e <= base + sa_allocated (cp_allocator p);
  po_separate : forall k1 k2 e1 e2, k1 <> k2 ->
    cp_entries p !! k1 = Some e1 -> cp_entries p !! k2 = Some e2 -> separate (block e1) (block e2);
  po_used : sum_len (cp_entries p) <= cp_used_bytes p <= max;
}.

Lemma pool_ok_sub base total max p m :
  pool_ok base total max p -> m ⊆ cp_entries p -> 0 <= cp_used_bytes p - (sum_len (cp_entries p) - sum_len m) ->
  sum_len m <= sum_len (cp_entries p) ->
  pool_ok base total max
    (p <| cp_entries := m |> <| cp_used_bytes := cp_used_bytes p - (sum_len (cp_entries p) - sum_len m) |>).
Proof.
  intros [? ? ? ? Hk Hb Hs Hu] Hm H0 Hle. constructor; cbn; try done; try lia.
  - intros k e He. apply (Hk k), (lookup_weaken _ _ _ _ He Hm).
  - intros k e He. apply (Hb k), (lookup_weaken _ _ _ _ He Hm).
  - intros k1 k2 e1 e2 Hne H1 H2. apply (Hs k1 k2); [done| |]; by eapply lookup_weaken.
Qed.

(** Changing the epoch or the access time of an entry. *)
Lemma pool_ok_update base total max p rid e e' :
  pool_ok base total max p -> cp_entries p !! rid = Some e ->
  pe_region_id e' = pe_region_id e -> block e' = block e ->
  pool_ok base total max (p <| cp_entries := <[rid := e']> (cp_entries p) |>).
Proof.
  intros [? ? ? ? Hk Hb Hs Hu] He Hid Hbl. injection Hbl as Hoff Hlen.
  assert (Hlook : forall k x, <[rid := e']> (cp_entries p) !! k = Some x -> exists y,
            cp_entries p !! k = Some y /\ pe_region_id x = pe_region_id y /\ block x = block y).
  { intros k x [[<- <-]|[_ ?]]%lookup_insert_Some; [|eauto].
    exists e. split; [done|]. split; [done|]. unfold block. congruence. }
  constructor; cbn; try done.
  - intros k x (y & Hy & -> & Hxy)%Hlook. injection Hxy as _ ->. eauto.
  - intros k x (y & Hy & _ & Hxy)%Hlook. injection Hxy as -> ->. eauto.
  - intros k1 k2 x1 x2 Hne (y1 & H1 & _ & ->)%Hlook (y2 & H2 & _ & ->)%Hlook. eauto.
  - rewrite (sum_len_update _ _ _ _ He). lia.
Qed.

(** ** One eviction *)

(** The region table after an entry of [rid] was dropped. *)
Definition notified (h : Tables) (p : CachePool) (rid : Z) : Tables :=
  match cp_region_table p with
  | Some r => (on_table h r (fun t => RegionTable_set_state t rid RegionState_Invalid)).1
  | None => h
  end.

Lemma evict_lru_spec h p :
  match CachePool_evict_lru h p with
  | (h', p', true) => exists k e, cp_entries p !! k = Some e
      /\ (forall k' e', cp_entries p !! k' = Some e' -> pe_last_access e <= pe_last_access e')
      /\ p' = p <| cp_entries := delete k (cp_entries p) |>
                <| cp_used_bytes := wrap 64 (cp_used_bytes p - pe_len e) |>
      /\ h' = notified h p (pe_region_id e)
  | (h', p', false) => cp_entries p = ∅ /\ h' = h /\ p' = p
  end.
Proof.
  unfold CachePool_evict_lru. case_decide as Hne; [done|].
  pose proof (min_by_key_spec (fun kv : Z * PoolCacheEntry => pe_last_access kv.2)
                (in_order (cp_entries p))) as H.
  destruct (min_by_key _ _) as [[k e]|]; cbn [fmap option_fmap option_map fst] in *.
  - destruct H as [Hin Hmin]. apply elem_of_in_order in Hin. rewrite Hin.
    exists k, e. split; [done|]. split; [|done].
    intros k' e' Hk'. apply (Hmin (k', e')). by apply elem_of_in_order.
  - by apply in_order_nil in H.
Qed.

(** What a number of evictions leave: [p'] holds a part of [p], the entries gone
    are at least as old as those that stay, and their regions are [Invalid]. *)
Record evicted (h : Tables) (p : CachePool) (h' : Tables) (p' : CachePool) : Prop := {
  ev_sub : cp_entries p' ⊆ cp_entries p;
  ev_age : forall k e k' e', cp_entries p !! k = Some e -> cp_entries p' !! k = None ->
    cp_entries p' !! k' = Some e' -> pe_last_access e <= pe_last_access e';
  ev_pool : p' = p <| cp_entries := cp_entries p' |>
                   <| cp_used_bytes := cp_used_bytes p - (sum_len (cp_entries p) - sum_len (cp_entries p')) |>;
  ev_length : length h' = length h;
  ev_region : forall r rid, cp_region_table p = Some r -> (r < length h)%nat ->
    region_of h' r rid
    = (if decide (is_Some (cp_entries p !! rid) /\ cp_entries p' !! rid = None)
       then (fun i => i <| ri_state := RegionState_Invalid |>) <$> region_of h r rid
       else region_of h r rid);
  ev_unlinked : cp_region_table p = None -> h' = h;
}.

Lemma evicted_refl h p : evicted h p h p.
Proof.
  constructor; [done|intros; congruence| |done| |done].
  - destruct p; cbn. f_equal. lia.
  - intros r rid _ _. rewrite decide_False; [done|]. intros [[? ?] ?]. congruence.
Qed.

Lemma notified_length h p rid : length (notified h p rid) = length h.
Proof. unfold notified. case_match; [apply on_table_length|done]. Qed.

Context (base total max : Z) (Hmax : 0 <= max < 2 ^ 62).

(** Evicting one more entry. *)
Lemma evicted_step h p h1 p1 k e :
  pool_ok base total max p -> evicted h p h1 p1 -> cp_entries p1 !! k = Some e ->
  (forall k' e', cp_entries p1 !! k' = Some e' -> pe_last_access e <= pe_last_access e') ->
  let p2 := p1 <| cp_entries := delete k (cp_entries p1) |>
               <| cp_used_bytes := wrap 64 (cp_used_bytes p1 - pe_len e) |> in
  evicted h p (notified h1 p1 (pe_region_id e)) p2 /\ pool_ok base total max p2.
Proof.
  intros Hp [Hs Ha Hpl Hl Hr Hu] Hk Hmin p2.
  assert (Hkp : cp_entries p !! k = Some e) by (by eapply lookup_weaken).
  destruct (po_key _ _ _ _ Hp k e Hkp) as [Hrid Hlen].
  assert (Hpos : forall m, m ⊆ cp_entries p -> 0 <= sum_len m).
  { intros m Hm. apply sum_len_nonneg. intros k' e' Hk'.
    by apply (po_key _ _ _ _ Hp k' e' (lookup_weaken _ _ _ _ Hk' Hm)). }
  assert (Hs2 : delete k (cp_entries p1) ⊆ cp_entries p) by (etrans; [apply delete_subseteq|done]).
  pose proof (Hpos _ Hs). pose proof (Hpos _ Hs2). pose proof (sum_len_delete _ _ _ Hk) as Hd.
  destruct (po_used _ _ _ _ Hp) as [Hu1 Hu2].
  assert (Hle : sum_len (cp_entries p1) <= sum_len (cp_entries p)).
  { apply sum_len_mono; [done|]. intros k' e' Hk'. by apply (po_key _ _ _ _ Hp k'). }
  assert (Hused1 : cp_used_bytes p1 = cp_used_bytes p - (sum_len (cp_entries p) - sum_len (cp_entries p1)))
    by (rewrite Hpl; done).
  assert (Hused : cp_used_bytes p2
            = cp_used_bytes p - (sum_len (cp_entries p) - sum_len (delete k (cp_entries p1)))).
  { unfold p2. cbn. rewrite wrap_small by (unfold fits; lia). lia. }
  assert (Hp2 : p2 = p <| cp_entries := delete k (cp_entries p1) |>
            <| cp_used_bytes := cp_used_bytes p - (sum_len (cp_entries p) - sum_len (delete k (cp_entries p1))) |>).
  { rewrite <- Hused. unfold p2. rewrite Hpl at 1. done. }
  assert (He2 : cp_entries p2 = delete k (cp_entries p1)) by done.
  split; [constructor; rewrite ?He2|].
  - done.
  - intros k1 e1 k2 e2 H1 Hnone [_ H2]%lookup_delete_Some.
    apply lookup_delete_None in Hnone as [<-|Hnone]; [|by eapply Ha].
    assert (e1 = e) as -> by congruence. by eapply Hmin.
  - done.
  - by rewrite notified_length.
  - intros r rid Hrt Hlt. assert (Hrt1 : cp_region_table p1 = Some r) by (rewrite Hpl; done).
    unfold notified. rewrite Hrt1, region_of_set_state, (Hr r rid Hrt Hlt) by lia.
    rewrite Hrid. destruct (decide (rid = k)) as [->|Hne].
    + rewrite (decide_False (P := _ /\ cp_entries p1 !! k = None)) by (rewrite Hk; by intros [_ ?]).
      rewrite decide_True; [done|]. split; [eauto|apply lookup_delete_eq].
    + rewrite lookup_delete_ne by done. done.
  - intros Hrt. assert (Hrt1 : cp_region_table p1 = None) by (rewrite Hpl; done).
    unfold notified. rewrite Hrt1. by apply Hu.
  - rewrite Hp2. apply pool_ok_sub; [done|done|lia|lia].
Qed.

(** ** The loop *)

Lemma evict_lru_smaller h p h' p' :
  CachePool_evict_lru h p = (h', p', true) -> size (cp_entries p) = S (size (cp_entries p')).
Proof.
  intros E. pose proof (evict_lru_spec h p) as H. rewrite E in H.
  destruct H as (k & e & Hk & _ & -> & _). cbn [cp_entries set_field].
  rewrite map_size_delete_Some by eauto.
  assert (size (cp_entries p) <> 0%nat); [|lia].
  intros Hz%map_size_empty_inv. by rewrite Hz, lookup_empty in Hk.
Qed.

(** More turns than entries change nothing. *)
Lemma evict_until_fuel n m h p len :
  (size (cp_entries p) <= n)%nat -> (size (cp_entries p) <= m)%nat ->
  evict_until n h p len = evict_until m h p len.
Proof.
  revert m h p. induction n as [|n IH]; intros [|m] h p Hn Hm; [done| | |]; cbn [evict_until];
    destruct (_ <? _); try done;
    destruct (CachePool_evict_lru h p) as [[h' p'] []] eqn:E; try done;
    apply evict_lru_smaller in E; try lia. apply IH; lia.
Qed.

(** [evict_until] is the [while] loop of the source. *)
Lemma evict_until_unfold h p len :
  evict_until (size (cp_entries p)) h p len
  = if cp_max_bytes p <? wrap 64 (cp_used_bytes p + len)
    then match CachePool_evict_lru h p with
         | (h', p', true) => evict_until (size (cp_entries p')) h' p' len
         | (h', p', false) => (h', p', false)
         end
    else (h, p, true).
Proof.
  rewrite (evict_until_fuel _ (S (size (cp_entries p)))) by lia. cbn [evict_until].
  destruct (_ <? _); [|done].
  destruct (CachePool_evict_lru h p) as [[h' p'] []] eqn:E; [|done].
  apply evict_lru_smaller in E. apply evict_until_fuel; lia.
Qed.

(** Room is made by dropping the oldest entries, no more of them than needed. *)
Definition made_room (p p' : CachePool) (len : Z) : Prop :=
  cp_used_bytes p' + len <= cp_max_bytes p'
  /\ (cp_entries p' = cp_entries p
      \/ exists k e, cp_entries p !! k = Some e /\ cp_entries p' !! k = None
           /\ cp_max_bytes p' < cp_used_bytes p' + pe_len e + len).

Lemma evict_until_spec fuel h0 p0 h p len :
  pool_ok base total max p0 -> evicted h0 p0 h p -> pool_ok base total max p ->
  (size (cp_entries p) <= fuel)%nat -> 0 <= len < 2 ^ 62 ->
  (cp_entries p = cp_entries p0
   \/ exists k e, cp_entries p0 !! k = Some e /\ cp_entries p !! k = None
        /\ max < cp_used_bytes p + pe_len e + len) ->
  let '(h', p', room) := evict_until fuel h p len in
  evicted h0 p0 h' p' /\ pool_ok base total max p'
  /\ (if room then made_room p0 p' len else cp_entries p' = ∅ /\ max < cp_used_bytes p' + len).
Proof.
  intros Hp0. revert h p. induction fuel as [|fuel IH]; intros h p Hev Hp Hfuel Hlen Hlast;
    cbn [evict_until]; destruct Hp as [? ? Hpm ? Hpk ? ? Hu] eqn:EHp;
    assert (0 <= sum_len (cp_entries p)) by (apply sum_len_nonneg; intros; by eapply Hpk);
    rewrite Hpm, wrap_small by (unfold fits; lia).
  all: destruct (max <? cp_used_bytes p + len) eqn:E; zbool;
    [|split; [done|]; split; [done|]; split; [lia|by rewrite Hpm]].
  all: pose proof (evict_lru_spec h p) as Hspec;
    destruct (CachePool_evict_lru h p) as [[h1 p1] []] eqn:Elru;
    [|destruct Hspec as (? & -> & ->); split_and!; done || lia].
  - apply evict_lru_smaller in Elru. lia.
  - destruct Hspec as (k & e & Hk & Hmin & Hp1 & Hh1).
    destruct (evicted_step h0 p0 h p k e Hp0 Hev Hk Hmin) as [Hev1 Hok1].
    rewrite <- Hp1, <- Hh1 in Hev1. rewrite <- Hp1 in Hok1.
    apply IH; [done|done|apply evict_lru_smaller in Elru; lia|done|].
    right. exists k, e. split; [by eapply lookup_weaken, (ev_sub _ _ _ _ Hev)|].
    rewrite Hp1. cbn [cp_entries cp_used_bytes set_field]. rewrite lookup_delete_eq.
    split; [done|]. pose proof (Hpk _ _ Hk). pose proof (sum_len_delete _ _ _ Hk).
    assert (0 <= sum_len (delete k (cp_entries p))).
    { apply sum_len_nonneg. intros ? ? [_ ?]%lookup_delete_Some. by eapply Hpk. }
    rewrite wrap_small by (unfold fits; lia). lia.
Qed.

(** ** Operations preserve the invariant *)

Context (Hbase : 0 <= base) (Htotal : 0 <= total < 2 ^ 62) (Hfit : base + total < 2 ^ 64).

Lemma pool_ok_insert p rid len epoch now :
  pool_ok base total max p -> 0 <= len -> cp_used_bytes p + len <= max ->
  sa_allocated (cp_allocator p) + len <= total ->
  pool_ok base total max
    (p <| cp_allocator := (cp_allocator p) <| sa_allocated := sa_allocated (cp_allocator p) + len |> |>
       <| cp_used_bytes := cp_used_bytes p + len |>
       <| cp_entries := <[rid := mkPoolCacheEntry rid (base + sa_allocated (cp_allocator p)) len epoch now]>
                          (cp_entries p) |>).
Proof.
  intros [? ? ? ? Hk Hb Hs Hu] Hlen Hroom Hfits. constructor; cbn; try done; try lia.
  - intros k e [[<- <-]|[_ ?]]%lookup_insert_Some; [done|eauto].
  - intros k e [[<- <-]|[_ He]]%lookup_insert_Some; [cbn; lia|]. pose proof (Hb _ _ He). lia.
  - intros k1 k2 e1 e2 Hne [[<- <-]|[_ H1]]%lookup_insert_Some [[<- <-]|[_ H2]]%lookup_insert_Some;
      [done| | |eauto]; unfold separate, block; cbn.
    + pose proof (Hb _ _ H2). lia.
    + pose proof (Hb _ _ H1). lia.
  - destruct (cp_entries p !! rid) as [e|] eqn:E.
    + rewrite (sum_len_update _ _ _ _ E). pose proof (Hk _ _ E). cbn. lia.
    + rewrite sum_len_insert by done. cbn. lia.
Qed.

Lemma insert_cases h p now rid len epoch :
  pool_ok base total max p -> 0 <= len < 2 ^ 62 ->
  let '(h', p', r) := CachePool_insert h p now rid len epoch in
  pool_ok base total max p'
  /\ exists p1, evicted h p h' p1 /\ pool_ok base total max p1 /\
     match r with
     | inr e => made_room p p1 len
         /\ e = mkPoolCacheEntry rid (base + sa_allocated (cp_allocator p)) len epoch now
         /\ cp_entries p' = <[rid := e]> (cp_entries p1)
         /\ cp_used_bytes p' = cp_used_bytes p1 + len
         /\ sa_allocated (cp_allocator p') = sa_allocated (cp_allocator p) + len
         /\ cp_region_table p' = cp_region_table p
     | inl _ => p' = p1
         /\ (cp_entries p1 = ∅ /\ max < cp_used_bytes p1 + len
             \/ total < sa_allocated (cp_allocator p) + len)
     end.
Proof.
  intros Hp Hlen. unfold CachePool_insert.
  pose proof (evict_until_spec (size (cp_entries p)) h p h p len Hp (evicted_refl h p) Hp
                ltac:(lia) Hlen ltac:(by left)) as Hloop.
  destruct (evict_until _ h p len) as [[h1 p1] room]. destruct Hloop as (Hev & Hok & Hroom).
  destruct room; cbn [negb]; [|split; [done|]; exists p1; tauto].
  assert (Ha : cp_allocator p1 = cp_allocator p) by (by rewrite (ev_pool _ _ _ _ Hev)).
  assert (Ht : cp_region_table p1 = cp_region_table p) by (by rewrite (ev_pool _ _ _ _ Hev)).
  pose proof Hok as [Hb1 Ht1 Hm1 Hal1 Hk1 _ _ Hu1].
  assert (0 <= sum_len (cp_entries p1)) by (apply sum_len_nonneg; intros; by eapply Hk1).
  rewrite SubAllocator_alloc_spec by lia. rewrite Ht1. destruct (total <? _) eqn:E; zbool.
  - assert (Hsame : p1 <| cp_allocator := cp_allocator p1 |> = p1) by (by destruct p1).
    rewrite Hsame. split; [done|]. exists p1. split; [done|]. split; [done|]. split; [done|].
    right. by rewrite <- Ha.
  - destruct Hroom as [Hroom Hmin].
    rewrite Hb1, (wrap_small 64 (base + _)), (wrap_small 64 (cp_used_bytes p1 + len)) by (unfold fits; lia).
    split; [apply pool_ok_insert; done || lia|]. exists p1.
    cbn. rewrite <- Ha, <- Ht. split_and!; done.
Qed.

Lemma lookup_preserves p now rid :
  pool_ok base total max p -> pool_ok base total max (CachePool_lookup p now rid).1.
Proof.
  intros Hp. unfold CachePool_lookup. destruct (cp_entries p !! rid) as [e|] eqn:E; [|done].
  by apply (pool_ok_update _ _ _ p rid e).
Qed.

Lemma update_epoch_preserves p now rid epoch :
  pool_ok base total max p -> pool_ok base total max (CachePool_update_epoch p now rid epoch).1.
Proof.
  intros Hp. unfold CachePool_update_epoch. destruct (cp_entries p !! rid) as [e|] eqn:E; [|done].
  by apply (pool_ok_update _ _ _ p rid e).
Qed.

Lemma remove_preserves p rid :
  pool_ok base total max p -> pool_ok base total max (CachePool_remove p rid).1.
Proof.
  intros Hp. unfold CachePool_remove. destruct (cp_entries p !! rid) as [e|] eqn:E; [|done].
  destruct Hp as [? ? ? ? Hk ? ? Hu] eqn:EHp. pose proof (sum_len_delete _ _ _ E) as Hd.
  pose proof (Hk _ _ E).
  assert (0 <= sum_len (delete rid (cp_entries p))).
  { apply sum_len_nonneg. intros ? ? [_ ?]%lookup_delete_Some. by eapply Hk. }
  cbn [fst]. rewrite wrap_small by (unfold fits; lia).
  replace (cp_used_bytes p - pe_len e)
    with (cp_used_bytes p - (sum_len (cp_entries p) - sum_len (delete rid (cp_entries p)))) by lia.
  apply (pool_ok_sub _ _ _ p); [done|apply delete_subseteq|lia|lia].
Qed.

Lemma evict_preserves h p :
  pool_ok base total max p -> pool_ok base total max (CachePool_evict_lru h p).1.2.
Proof.
  intros Hp. pose proof (evict_lru_spec h p) as H.
  destruct (CachePool_evict_lru h p) as [[h' p'] []]; cbn [fst snd].
  - destruct H as (k & e & Hk & Hmin & -> & _).
    by apply (evicted_step h p h p k e Hp (evicted_refl h p) Hk Hmin).
  - by destruct H as (_ & _ & ->).
Qed.

(** A call on the pool. *)
Inductive PoolOp : Type :=
| PoolOp_lookup (now region_id : Z)
| PoolOp_insert (now region_id len epoch : Z)
| PoolOp_remove (region_id : Z)
| PoolOp_evict_lru
| PoolOp_update_epoch (now region_id epoch : Z).

Definition pool_step (s : Tables * CachePool) (op : PoolOp) : Tables * CachePool :=
  let '(h, p) := s in
  match op with
  | PoolOp_lookup now rid => (h, (CachePool_lookup p now rid).1)
  | PoolOp_insert now rid len epoch => (CachePool_insert h p now rid len epoch).1
  | PoolOp_remove rid => (h, (CachePool_remove p rid).1)
  | PoolOp_evict_lru => (CachePool_evict_lru h p).1
  | PoolOp_update_epoch now rid epoch => (h, (CachePool_update_epoch p now rid epoch).1)
  end.

Definition pool_op_ok (op : PoolOp) : Prop :=
  match op with
  | PoolOp_insert _ _ len _ => 0 <= len < 2 ^ 62
  | _ => True
  end.

Lemma pool_step_preserves s op :
  pool_ok base total max s.2 -> pool_op_ok op -> pool_ok base total max (pool_step s op).2.
Proof.
  destruct s as [h p]. intros Hp Hop. destruct op; cbn [pool_step snd] in *;
    auto using lookup_preserves, remove_preserves, update_epoch_preserves, evict_preserves.
  pose proof (insert_cases h p now region_id len epoch Hp Hop) as H.
  destruct (CachePool_insert _ _ _ _ _ _) as [[h' p'] r]. apply H.
Qed.

Lemma pool_run_ok ops s :
  pool_ok base total max s.2 -> Forall pool_op_ok ops ->
  pool_ok base total max (foldl pool_step s ops).2.
Proof.
  revert s. induction ops as [|op ops IH]; intros s Hs Hops; [done|].
  apply Forall_cons in Hops as [? ?]. cbn [foldl]. eauto using pool_step_preserves.
Qed.

Lemma pool_ok_new r : pool_ok base total max (mkCachePool ∅ (SubAllocator_new base total) max 0 r).
Proof.
  assert (sum_len ∅ = 0) by done.
  constructor; cbn [cp_entries cp_allocator cp_max_bytes cp_used_bytes SubAllocator_new sa_base_offset
    sa_total_len sa_allocated]; try done; try lia; try (by intros ? ? ?%lookup_empty_Some).
Qed.

(** ** Properties *)

(** The cache pool never hands out overlapping memory and never exceeds its budget.
    After any sequence of lookups, inserts, removals, evictions and epoch updates: cached copies
    of different regions occupy disjoint blocks inside the pool, and the bytes they hold are at
    most [used_bytes], which is at most [max_bytes]. *)
Theorem cache_pool_safe h ops r :
  Forall pool_op_ok ops ->
  let p := (foldl pool_step (h, CachePool_with_region_table (SubAllocator_new base total) max r) ops).2 in
  (forall k1 k2 e1 e2, k1 <> k2 -> cp_entries p !! k1 = Some e1 -> cp_entries p !! k2 = Some e2 ->
     separate (block e1) (block e2))
  /\ (forall k e, cp_entries p !! k = Some e ->
        base <= pe_pool_offset e /\ pe_pool_offset e + pe_len e <= base + total)
  /\ sum_len (cp_entries p) <= cp_used_bytes p <= max.
Proof.
  intros Hops p. assert (Hp : pool_ok base total max p)
    by (apply pool_run_ok; [apply pool_ok_new|done]).
  destruct Hp as [_ _ _ Ha _ Hb Hs Hu]. split; [done|]. split; [|done].
  intros k e He. pose proof (Hb _ _ He). lia.
Qed.

(** Inserting a cached copy makes room by dropping the least recently used copies.
    The copies that stay were all used at least as recently as any dropped one; nothing is
    dropped when the new copy fits, and no more than necessary otherwise; the region of a dropped
    copy becomes [Invalid] in the region table and no other region changes; the new copy is placed
    in fresh memory. The call fails only when every copy is gone and [used_bytes] still leaves no
    room, or when the bump allocator is exhausted. *)
Theorem cache_pool_insert h p now rid len epoch r :
  pool_ok base total max p -> 0 <= len < 2 ^ 62 ->
  cp_region_table p = Some r -> (r < length h)%nat ->
  let '(h', p', res) := CachePool_insert h p now rid len epoch in
  exists kept, kept ⊆ cp_entries p
  /\ (forall k e k' e', cp_entries p !! k = Some e -> kept !! k = None -> kept !! k' = Some e' ->
        pe_last_access e <= pe_last_access e')
  /\ (forall rid', region_of h' r rid'
        = if decide (is_Some (cp_entries p !! rid') /\ kept !! rid' = None)
          then (fun i => i <| ri_state := RegionState_Invalid |>) <$> region_of h r rid'
          else region_of h r rid')
  /\ match res with
     | inr e =>
       e = mkPoolCacheEntry rid (base + sa_allocated (cp_allocator p)) len epoch now
       /\ cp_entries p' = <[rid := e]> kept
       /\ (kept = cp_entries p
           \/ exists k e0, cp_entries p !! k = Some e0 /\ kept !! k = None
                /\ max < cp_used_bytes p' + pe_len e0)
     | inl _ =>
       cp_entries p' = kept
       /\ (kept = ∅ /\ max < cp_used_bytes p' + len \/ total < sa_allocated (cp_allocator p) + len)
     end.
Proof.
  intros Hp Hlen Hr Hlt. pose proof (insert_cases h p now rid len epoch Hp Hlen) as H.
  destruct (CachePool_insert h p now rid len epoch) as [[h' p'] res].
  destruct H as (_ & p1 & Hev & Hok1 & H). exists (cp_entries p1).
  split; [apply Hev|]. split; [apply (ev_age _ _ _ _ Hev)|]. split; [by intros; apply (ev_region _ _ _ _ Hev)|].
  destruct res as [m|e].
  - destruct H as (-> & H). done.
  - destruct H as ((_ & Hmin) & -> & -> & Hused & _). split; [done|]. split; [done|].
    rewrite (po_max _ _ _ _ Hok1) in Hmin. destruct Hmin as [?|(k & e0 & ? & ? & ?)]; [by left|].
    right. exists k, e0. split; [done|]. split; [done|]. lia.
Qed.
(** The allocator of the pool only moves forward, whatever is evicted or removed. *)
Lemma pool_step_allocated s op :
  pool_ok base total max s.2 -> pool_op_ok op ->
  sa_allocated (cp_allocator s.2) <= sa_allocated (cp_allocator (pool_step s op).2).
Proof.
  destruct s as [h p]. intros Hp Hop. destruct op; cbn [pool_step snd] in *.
  - unfold CachePool_lookup. case_match; cbn; lia.
  - pose proof (insert_cases h p now region_id len epoch Hp Hop) as H.
    destruct (CachePool_insert _ _ _ _ _ _) as [[h' p'] r]. cbn [fst snd].
    destruct H as (_ & p1 & Hev & _ & H). destruct r as [m|e].
    + destruct H as [-> _]. rewrite (ev_pool _ _ _ _ Hev). cbn. lia.
    + destruct H as (_ & _ & _ & _ & -> & _). cbn [pool_op_ok] in Hop. lia.
  - unfold CachePool_remove, SubAllocator_free. destruct (_ !! _); cbn; lia.
  - pose proof (evict_lru_spec h p) as H. destruct (CachePool_evict_lru h p) as [[h' p'] []]; cbn [fst snd].
    + destruct H as (k & e & _ & _ & -> & _). cbn. lia.
    + destruct H as (_ & _ & ->). lia.
  - unfold CachePool_update_epoch. case_match; cbn; lia.
Qed.

(** Evicted space is never used again: once the allocator has handed out so much that a copy
    does not fit behind it, no sequence of evictions and removals makes room for that copy. *)
Theorem cache_wears_out s ops now rid len epoch :
  pool_ok base total max s.2 -> Forall pool_op_ok ops -> 0 <= len < 2 ^ 62 ->
  total < sa_allocated (cp_allocator s.2) + len ->
  let '(h, p) := foldl pool_step s ops in
  exists msg, (CachePool_insert h p now rid len epoch).2 = inl msg.
Proof.
  revert s. induction ops as [|op ops IH]; intros [h p] Hp Hops Hlen Hfull; cbn [foldl snd] in *.
  - pose proof (insert_cases h p now rid len epoch Hp Hlen) as H.
    destruct (CachePool_insert _ _ _ _ _ _) as [[h' p'] [m|e]]; [by exists m|].
    destruct H as (Hok & p1 & _ & _ & _ & _ & _ & _ & Ha & _).
    pose proof (po_allocated _ _ _ _ Hok). lia.
  - apply Forall_cons in Hops as [Hop Hops].
    pose proof (pool_step_allocated (h, p) op Hp Hop) as Hge.
    apply IH; [by apply pool_step_preserves|done|done|]. cbn [snd] in Hge. lia.
Qed.
End Eviction.

(** With a budget of the whole pool, as the daemon has it, the third copy of 40 bytes finds the
    pool empty and is refused. *)
Example cache_worn_out :
  let s := foldl (pool_step (iteration := canonical_order))
             ([], CachePool_new (SubAllocator_new 0 100) 100)
             [PoolOp_insert 1 1 40 0; PoolOp_insert 2 2 40 0; PoolOp_remove 1; PoolOp_remove 2] in
  cp_entries s.2 = ∅ /\ cp_used_bytes s.2 = 0
  /\ (CachePool_insert (iteration := canonical_order) s.1 s.2 3 3 40 0).2 = inl "sub-allocator exhausted"%string.
Proof. repeat split; reflexivity. Qed.

(** A pool of 100 bytes with a budget of 50, two copies of 20 bytes. *)
Definition sample_tables : Tables :=
  [RegionTable_insert (RegionTable_insert RegionTable_new
     (mkRegionInfo 1 2 0 0 0 20 3 (RegionState_Shared 3) None))
     (mkRegionInfo 2 2 0 0 64 20 5 (RegionState_Shared 5) None)].

Definition sample_pool : CachePool :=
  (foldl (pool_step (iteration := canonical_order))
     (sample_tables, CachePool_with_region_table (SubAllocator_new 8 100) 50 0)
     [PoolOp_insert 10 1 20 3; PoolOp_insert 11 2 20 5; PoolOp_lookup 12 1]).2.

Lemma cache_pool_safe_witness : separate (block (mkPoolCacheEntry 1 8 20 3 12)) (block (mkPoolCacheEntry 2 28 20 5 11)).
Proof.
  apply (proj1 (cache_pool_safe (iteration := canonical_order) 8 100 50 ltac:(lia) ltac:(lia) ltac:(lia)
    ltac:(lia) sample_tables [PoolOp_insert 10 1 20 3; PoolOp_insert 11 2 20 5; PoolOp_lookup 12 1] 0
    ltac:(repeat constructor; cbn; lia)) 1 2); reflexivity || discriminate.
Defined.

(** The third copy does not fit: the copy of region 2 goes, being the one used least recently. *)
Example sample_insert :
  CachePool_insert (iteration := canonical_order) sample_tables sample_pool 13 3 20 7
  = ((on_table sample_tables 0 (fun t => RegionTable_set_state t 2 RegionState_Invalid)).1,
     mkCachePool {[1 := mkPoolCacheEntry 1 8 20 3 12; 3 := mkPoolCacheEntry 3 48 20 7 13]}
       (mkSubAllocator 8 100 60) 50 40 (Some 0%nat),
     inr (mkPoolCacheEntry 3 48 20 7 13)).
Proof. reflexivity. Qed.

Lemma sample_pool_ok : pool_ok 8 100 50 sample_pool.
Proof. apply pool_run_ok; [lia..|apply pool_ok_new; lia|]. repeat constructor; cbn; lia. Qed.

Lemma cache_pool_insert_witness : exists kept : gmap Z PoolCacheEntry,
  kept ⊆ cp_entries sample_pool /\ <[3 := mkPoolCacheEntry 3 48 20 7 13]> kept
    = {[1 := mkPoolCacheEntry 1 8 20 3 12; 3 := mkPoolCacheEntry 3 48 20 7 13]}.
Proof.
  pose proof (cache_pool_insert (iteration := canonical_order) 8 100 50 ltac:(lia) ltac:(lia) ltac:(lia)
    ltac:(lia) sample_tables sample_pool 13 3 20 7 0 sample_pool_ok ltac:(lia) eq_refl ltac:(cbn; lia)) as H.
  rewrite sample_insert in H. destruct H as (kept & Hsub & _ & _ & _ & Heq & _).
  exists kept. split; [exact Hsub|]. symmetry. exact Heq.
Defined.

(** A second insert of a cached region leaves the bytes of the first in
    [used_bytes]. *)
Example insert_twice_leaks :
  let s := foldl (pool_step (iteration := canonical_order))
             ([], CachePool_new (SubAllocator_new 0 100) 50) [PoolOp_insert 1 1 20 0; PoolOp_insert 2 1 20 1] in
  cp_used_bytes s.2 = 40 /\ sum_len (cp_entries s.2) = 20.
Proof. split; reflexivity. Qed.
