(* ===== verification/CacheThreads.v ===== *)
(** * CacheThreads: the cache pool under concurrent callers

    crates/ub-managed/src/cache_pool.rs with [insert] cut where it lets go of its locks: other
    calls may come between the test of the budget, the allocation, the update of [used_bytes]
    and the entry in the map. The other operations hold the lock of the map throughout. *)

From S2P Require Import Prelude Bytes Types SubAlloc Region CachePool.
#[local] Open Scope Z_scope.

(** ** Calls *)

(** [insert] before the test of its loop, before the allocation, before [fetch_add], before the
    map; another call; a call that has returned, with the result of an insert. *)
Inductive PoolTask : Type :=
| PTask_insert (region_id len epoch : Z)
| PTask_alloc (region_id len epoch : Z)
| PTask_add (entry : PoolCacheEntry)
| PTask_put (entry : PoolCacheEntry)
| PTask_call (op : PoolOp)
| PTask_done (result : option (string + PoolCacheEntry)).

Section Threads.
Context {iteration : MapOrder Z PoolCacheEntry}.

(** Source: crates/ub-managed/src/cache_pool.rs:72-97, [CachePool::insert].
    One step of a call, at time [now]. *)
Definition pool_task_step (h : Tables) (p : CachePool) (now : Z) (t : PoolTask)
  : option (Tables * CachePool * PoolTask) :=
  match t with
  | PTask_insert region_id len epoch =>
    if cp_max_bytes p <? wrap 64 (cp_used_bytes p + len) then
      let '(h, p, evicted) := CachePool_evict_lru h p in
      Some (h, p, if evicted then PTask_insert region_id len epoch
                  else PTask_done (Some (inl "cache pool full, cannot evict enough space"%string)))
    else Some (h, p, PTask_alloc region_id len epoch)
  | PTask_alloc region_id len epoch =>
    match SubAllocator_alloc (cp_allocator p) len with
    | (a, None) => Some (h, p <| cp_allocator := a |>, PTask_done (Some (inl "sub-allocator exhausted"%string)))
    | (a, Some pool_offset) =>
      Some (h, p <| cp_allocator := a |>, PTask_add (mkPoolCacheEntry region_id pool_offset len epoch now))
    end
  | PTask_add entry =>
    Some (h, p <| cp_used_bytes := wrap 64 (cp_used_bytes p + pe_len entry) |>, PTask_put entry)
  | PTask_put entry =>
    Some (h, p <| cp_entries := <[pe_region_id entry := entry]> (cp_entries p) |>, PTask_done (Some (inr entry)))
  | PTask_call op => Some (pool_step (h, p) op, PTask_done None)
  | PTask_done _ => None
  end.

Record PoolWorld : Type := mkPoolWorld {
  pw_tables : Tables;
  pw_pool : CachePool;
  pw_tasks : list PoolTask;
}.

Definition pool_move (w : PoolWorld) (m : nat * Z) : option PoolWorld :=
  t ← pw_tasks w !! m.1;
  '(h, p, t') ← pool_task_step (pw_tables w) (pw_pool w) m.2 t;
  Some (mkPoolWorld h p (<[m.1 := t']> (pw_tasks w))).

Definition pool_thread_step (w w' : PoolWorld) : Prop := exists m, pool_move w m = Some w'.

Fixpoint pool_moves (w : PoolWorld) (ms : list (nat * Z)) : option PoolWorld :=
  match ms with
  | [] => Some w
  | m :: ms => w ← pool_move w m; pool_moves w ms
  end.

(** A call that has not begun: an insert of a sane length, or another operation. *)
Definition pool_call (t : PoolTask) : Prop :=
  match t with
  | PTask_insert _ len _ => 0 <= len < 2 ^ 62
  | PTask_call (PoolOp_insert _ _ _ _) => False
  | PTask_call _ => True
  | _ => False
  end.

(** ** Run alone, the steps of an insert are the call of CachePool.v *)

(** A task runs until it has returned. *)
Fixpoint run_task (fuel : nat) (h : Tables) (p : CachePool) (now : Z) (t : PoolTask)
  : option (Tables * CachePool * option (string + PoolCacheEntry)) :=
  match t with
  | PTask_done r => Some (h, p, r)
  | _ =>
    match fuel with
    | O => None
    | S fuel =>
      '(h, p, t) ← pool_task_step h p now t;
      run_task fuel h p now t
    end
  end.

(** After the budget is met, three steps are left. *)
Lemma insert_tail n h p now rid len epoch :
  run_task (S (S (S n))) h p now (PTask_alloc rid len epoch)
  = match SubAllocator_alloc (cp_allocator p) len with
    | (a, None) => Some (h, p <| cp_allocator := a |>, Some (inl "sub-allocator exhausted"%string))
    | (a, Some pool_offset) =>
      let entry := mkPoolCacheEntry rid pool_offset len epoch now in
      Some (h, p <| cp_allocator := a |> <| cp_used_bytes := wrap 64 (cp_used_bytes p + len) |>
                 <| cp_entries := <[rid := entry]> (cp_entries p) |>, Some (inr entry))
    end.
Proof.
  cbn [run_task pool_task_step].
  destruct (SubAllocator_alloc (cp_allocator p) len) as [a [off|]]; cbn; [|by destruct n].
  by destruct n.
Qed.

Lemma run_insert n h p now rid len epoch :
  run_task (S n) h p now (PTask_insert rid len epoch)
  = '(h, p, t) ← pool_task_step h p now (PTask_insert rid len epoch); run_task n h p now t.
Proof. reflexivity. Qed.

Lemma insert_alone n h p now rid len epoch :
  (size (cp_entries p) <= n)%nat ->
  run_task (n + 4) h p now (PTask_insert rid len epoch)
  = let '(h, p, r) := CachePool_insert h p now rid len epoch in Some (h, p, Some r).
Proof.
  revert h p. induction n as [|n IH]; intros h p Hn; unfold CachePool_insert; rewrite evict_until_unfold;
    cbn [Nat.add]; rewrite ?Nat.add_succ_r, run_insert; cbn [pool_task_step];
    (destruct (_ <? _); [|cbn [mbind option_bind negb]; rewrite insert_tail;
       destruct (SubAllocator_alloc (cp_allocator p) len) as [a [off|]]; reflexivity]);
    destruct (CachePool_evict_lru h p) as [[h1 p1] []] eqn:Ev; cbn [mbind option_bind negb]; try reflexivity;
    apply evict_lru_smaller in Ev; [lia|].
  specialize (IH h1 p1 ltac:(lia)). rewrite !Nat.add_succ_r in IH. by rewrite IH.
Qed.

(** ** What holds in every interleaving *)

(** The block a call has been given and not yet entered in the map. *)
Definition claim (t : PoolTask) : option PoolCacheEntry :=
  match t with
  | PTask_add e | PTask_put e => Some e
  | _ => None
  end.

(** Bytes allocated and not yet counted, and counted but not yet in the map. *)
Definition uncounted (t : PoolTask) : nat := match t with PTask_add e => Z.to_nat (pe_len e) | _ => 0 end.
Definition counted (t : PoolTask) : nat := match t with PTask_put e => Z.to_nat (pe_len e) | _ => 0 end.

(** The lengths that inserts ask for. *)
Definition task_len_ok (t : PoolTask) : Prop :=
  match t with
  | PTask_insert _ len _ | PTask_alloc _ len _ => 0 <= len < 2 ^ 62
  | PTask_call (PoolOp_insert _ _ _ _) => False
  | _ => True
  end.

Context (base total : Z) (Hbase : 0 <= base) (Htotal : 0 <= total < 2 ^ 62) (Hfit : base + total < 2 ^ 64).

Definition in_pool (p : CachePool) (e : PoolCacheEntry) : Prop :=
  0 <= pe_len e /\ base <= pe_pool_offset e
  /\ pe_pool_offset e + pe_len e <= base + sa_allocated (cp_allocator p).

Record threads_ok (w : PoolWorld) : Prop := {
  to_base : sa_base_offset (cp_allocator (pw_pool w)) = base;
  to_total : sa_total_len (cp_allocator (pw_pool w)) = total;
  to_allocated : 0 <= sa_allocated (cp_allocator (pw_pool w)) <= total;
  to_entry : forall k e, cp_entries (pw_pool w) !! k = Some e -> in_pool (pw_pool w) e;
  to_claim : forall i t e, pw_tasks w !! i = Some t -> claim t = Some e -> in_pool (pw_pool w) e;
  to_entries : forall k1 k2 e1 e2, k1 <> k2 -> cp_entries (pw_pool w) !! k1 = Some e1 ->
    cp_entries (pw_pool w) !! k2 = Some e2 -> separate (block e1) (block e2);
  to_mixed : forall k e i t e', cp_entries (pw_pool w) !! k = Some e -> pw_tasks w !! i = Some t ->
    claim t = Some e' -> separate (block e) (block e');
  to_claims : forall i1 i2 t1 t2 e1 e2, i1 <> i2 -> pw_tasks w !! i1 = Some t1 -> pw_tasks w !! i2 = Some t2 ->
    claim t1 = Some e1 -> claim t2 = Some e2 -> separate (block e1) (block e2);
  to_counted : sum_len (cp_entries (pw_pool w)) + Z.of_nat (sum_list_with counted (pw_tasks w))
    <= cp_used_bytes (pw_pool w);
  to_used : cp_used_bytes (pw_pool w) + Z.of_nat (sum_list_with uncounted (pw_tasks w))
    <= sa_allocated (cp_allocator (pw_pool w));
  to_len : Forall task_len_ok (pw_tasks w);
}.

(** The entries of [m'] are entries of [m], up to epoch and time of access. *)
Definition entries_from (m m' : gmap Z PoolCacheEntry) : Prop :=
  forall k e', m' !! k = Some e' -> exists e, m !! k = Some e /\ block e' = block e.

Lemma in_pool_block p p' e e' :
  block e' = block e -> sa_allocated (cp_allocator p) <= sa_allocated (cp_allocator p') ->
  in_pool p e -> in_pool p' e'.
Proof. unfold in_pool, block. intros [= -> ->]. lia. Qed.

(** A step that claims nothing new: entries go, and [used_bytes] falls by at most their bytes. *)
Lemma threads_ok_shrink w h p i t t' :
  threads_ok w -> pw_tasks w !! i = Some t -> claim t = None -> claim t' = None -> task_len_ok t' ->
  cp_allocator p = cp_allocator (pw_pool w) -> entries_from (cp_entries (pw_pool w)) (cp_entries p) ->
  sum_len (cp_entries p) - sum_len (cp_entries (pw_pool w)) <= cp_used_bytes p - cp_used_bytes (pw_pool w) <= 0 ->
  threads_ok (mkPoolWorld h p (<[i := t']> (pw_tasks w))).
Proof.
  intros [Hb Ht Ha He Hcl Hee Hec Hcc Hcn Hus Hl] Hi Hc Hc' Hl' Hal Hfrom Hsum.
  assert (forall k u e, <[i := t']> (pw_tasks w) !! k = Some u -> claim u = Some e -> pw_tasks w !! k = Some u) as Hold.
  { intros k u e [(_ & <- & _)|[_ Hu]]%list_lookup_insert_Some Hce; [congruence|done]. }
  pose proof (sum_list_with_insert counted _ _ _ t' Hi) as H1.
  pose proof (sum_list_with_insert uncounted _ _ _ t' Hi) as H2.
  assert (counted t = 0 /\ counted t' = 0 /\ uncounted t = 0 /\ uncounted t' = 0)%nat as (E1 & E2 & E3 & E4)
    by (by destruct t, t').
  constructor; cbn [pw_pool pw_tasks]; rewrite ?Hal; try done; try lia.
  - intros k e' (e & Hk & Hbl)%Hfrom. apply (in_pool_block (pw_pool w) p e e' Hbl); [rewrite Hal; lia|by eapply He].
  - intros k u e Hu Hce. apply (in_pool_block (pw_pool w) p e e eq_refl); [rewrite Hal; lia|].
    eapply Hcl; [by eapply Hold|done].
  - intros k1 k2 e1 e2 Hne (f1 & Hf1 & ->)%Hfrom (f2 & Hf2 & ->)%Hfrom. eauto.
  - intros k e j u e' (f & Hf & ->)%Hfrom Hu Hce. eauto.
  - intros i1 i2 t1 t2 e1 e2 Hne Hu1 Hu2 Hc1 Hc2. eapply (Hcc i1 i2); eauto.
  - by apply Forall_insert.
Qed.

Lemma threads_bounds w :
  threads_ok w ->
  (forall k e, cp_entries (pw_pool w) !! k = Some e -> 0 <= pe_len e)
  /\ 0 <= sum_len (cp_entries (pw_pool w)) <= cp_used_bytes (pw_pool w)
  /\ cp_used_bytes (pw_pool w) <= total.
Proof.
  intros [_ _ Ha He _ _ _ _ Hcn Hus _].
  assert (forall k e, cp_entries (pw_pool w) !! k = Some e -> 0 <= pe_len e) as Hpos by (intros; by eapply He).
  pose proof (sum_len_nonneg _ Hpos). split; [done|]. lia.
Qed.

(** Dropping an entry and its bytes. *)
Lemma drop_shrinks w k e :
  threads_ok w -> cp_entries (pw_pool w) !! k = Some e ->
  let m := delete k (cp_entries (pw_pool w)) in
  entries_from (cp_entries (pw_pool w)) m
  /\ sum_len m - sum_len (cp_entries (pw_pool w))
     <= wrap 64 (cp_used_bytes (pw_pool w) - pe_len e) - cp_used_bytes (pw_pool w) <= 0.
Proof.
  intros Hw Hk m. destruct (threads_bounds w Hw) as (Hpos & Hs & Hu). pose proof (Hpos _ _ Hk).
  pose proof (sum_len_delete _ _ _ Hk). assert (0 <= sum_len m).
  { apply sum_len_nonneg. intros ? ? [_ ?]%lookup_delete_Some. by eapply Hpos. }
  split; [intros k' e' [_ ?]%lookup_delete_Some; by exists e'|]. subst m.
  rewrite wrap_small by (unfold fits; lia). lia.
Qed.

Lemma entries_from_refl m : entries_from m m.
Proof. intros k e He. by exists e. Qed.

Lemma entries_from_insert m k e e' : m !! k = Some e -> block e' = block e -> entries_from m (<[k := e']> m).
Proof. intros Hk Hb x y [[<- <-]|[_ Hx]]%lookup_insert_Some; [by exists e|by exists y]. Qed.

Lemma evict_ok w i t t' :
  threads_ok w -> pw_tasks w !! i = Some t -> claim t = None -> claim t' = None -> task_len_ok t' ->
  let '(h, p, _) := CachePool_evict_lru (pw_tables w) (pw_pool w) in
  threads_ok (mkPoolWorld h p (<[i := t']> (pw_tasks w))).
Proof.
  intros Hw Hi Hc Hc' Hl. pose proof (evict_lru_spec (pw_tables w) (pw_pool w)) as H.
  destruct (CachePool_evict_lru _ _) as [[h p] []].
  - destruct H as (k & e & Hk & _ & -> & _). destruct (drop_shrinks w k e Hw Hk).
    by eapply threads_ok_shrink.
  - destruct H as (_ & _ & ->). eapply threads_ok_shrink; [done..|apply entries_from_refl|lia].
Qed.

(** The other operations of the pool. *)
Lemma call_ok w i op :
  threads_ok w -> pw_tasks w !! i = Some (PTask_call op) ->
  let '(h, p) := pool_step (pw_tables w, pw_pool w) op in
  threads_ok (mkPoolWorld h p (<[i := PTask_done None]> (pw_tasks w))).
Proof.
  intros Hw Hi. pose proof (proj1 (Forall_lookup _ _) (to_len _ Hw) _ _ Hi) as Hop.
  assert (forall h p, cp_allocator p = cp_allocator (pw_pool w) ->
    entries_from (cp_entries (pw_pool w)) (cp_entries p) ->
    sum_len (cp_entries p) - sum_len (cp_entries (pw_pool w)) <= cp_used_bytes p - cp_used_bytes (pw_pool w) <= 0 ->
    threads_ok (mkPoolWorld h p (<[i := PTask_done None]> (pw_tasks w)))) as Hgo
    by (intros; by eapply threads_ok_shrink).
  destruct op; cbn [pool_step]; [| | | |].
  - unfold CachePool_lookup. destruct (cp_entries _ !! _) as [e|] eqn:Hk; cbn; apply Hgo; try done; try lia.
    + by eapply entries_from_insert.
    + cbn. rewrite (sum_len_update _ _ _ _ Hk). cbn. lia.
    + apply entries_from_refl.
  - done.
  - unfold CachePool_remove. destruct (cp_entries _ !! _) as [e|] eqn:Hk; cbn; [|apply Hgo; [done|apply entries_from_refl|lia]].
    destruct (drop_shrinks w _ e Hw Hk). by apply Hgo.
  - pose proof (evict_ok w i _ (PTask_done None) Hw Hi eq_refl eq_refl I) as H.
    by destruct (CachePool_evict_lru _ _) as [[h p] b].
  - unfold CachePool_update_epoch. destruct (cp_entries _ !! _) as [e|] eqn:Hk; cbn; apply Hgo; try done; try lia.
    + by eapply entries_from_insert.
    + cbn. rewrite (sum_len_update _ _ _ _ Hk). cbn. lia.
    + apply entries_from_refl.
Qed.

(** A call is given a block: it lies behind all others. *)
Lemma alloc_ok w i rid len epoch now :
  threads_ok w -> pw_tasks w !! i = Some (PTask_alloc rid len epoch) ->
  let a := cp_allocator (pw_pool w) in
  sa_allocated a + len <= total ->
  threads_ok (mkPoolWorld (pw_tables w)
    ((pw_pool w) <| cp_allocator := a <| sa_allocated := sa_allocated a + len |> |>)
    (<[i := PTask_add (mkPoolCacheEntry rid (base + sa_allocated a) len epoch now)]> (pw_tasks w))).
Proof.
  intros Hw Hi a Hroom. pose proof (proj1 (Forall_lookup _ _) (to_len _ Hw) _ _ Hi) as Hlen. cbn in Hlen.
  destruct Hw as [Hb Ht Ha He Hcl Hee Hec Hcc Hcn Hus Hl].
  set (e0 := mkPoolCacheEntry rid (base + sa_allocated a) len epoch now).
  pose proof (sum_list_with_insert counted _ _ _ (PTask_add e0) Hi) as H1.
  pose proof (sum_list_with_insert uncounted _ _ _ (PTask_add e0) Hi) as H2. cbn in H1, H2.
  assert (forall e, in_pool (pw_pool w) e -> separate (block e) (block e0) /\ separate (block e0) (block e)) as Hsep.
  { intros e (? & ? & ?). unfold separate, block, e0, a. cbn. lia. }
  assert (forall e, in_pool (pw_pool w) e -> in_pool ((pw_pool w) <| cp_allocator := a <| sa_allocated := sa_allocated a + len |> |>) e) as Hin.
  { intros e He0. eapply in_pool_block; [reflexivity| |exact He0]. cbn. unfold a. lia. }
  constructor; cbn [pw_pool pw_tasks]; try done; unfold a in *; cbn [cp_allocator cp_entries cp_used_bytes set_field
    sa_allocated sa_total_len sa_base_offset] in *; try done; try lia.
  - intros k e Hk. apply Hin. by eapply He.
  - intros k u e [(_ & <- & _)|[_ Hu]]%list_lookup_insert_Some Hc; [|apply Hin; by eapply Hcl].
    injection Hc as <-. unfold in_pool, e0. cbn. lia.
  - intros k e j u e' Hk [(_ & <- & _)|[_ Hu]]%list_lookup_insert_Some Hc; [|by eapply Hec].
    injection Hc as <-. apply Hsep. by eapply He.
  - intros i1 i2 t1 t2 e1 e2 Hne [(<- & <- & _)|[_ Hu1]]%list_lookup_insert_Some
      [(Hi2 & <- & _)|[_ Hu2]]%list_lookup_insert_Some Hc1 Hc2; [done| | |by eapply (Hcc i1 i2)].
    + injection Hc1 as <-. apply Hsep. by eapply Hcl.
    + injection Hc2 as <-. apply Hsep. by eapply Hcl.
  - by apply Forall_insert.
Qed.

(** The claims of the other tasks, when a task moves on with the claim it has or gives it up. *)
Lemma claim_kept (ts : list PoolTask) i t t' k u e :
  ts !! i = Some t -> (claim t' = claim t \/ claim t' = None) -> <[i := t']> ts !! k = Some u -> claim u = Some e ->
  exists v, ts !! k = Some v /\ claim v = Some e.
Proof.
  intros Hi Hc [(<- & <- & _)|[_ Hu]]%list_lookup_insert_Some He; [|by exists u].
  exists t. split; [done|]. destruct Hc; congruence.
Qed.

(** The bytes of a block are counted. *)
Lemma add_ok w i e :
  threads_ok w -> pw_tasks w !! i = Some (PTask_add e) ->
  threads_ok (mkPoolWorld (pw_tables w)
    ((pw_pool w) <| cp_used_bytes := wrap 64 (cp_used_bytes (pw_pool w) + pe_len e) |>)
    (<[i := PTask_put e]> (pw_tasks w))).
Proof.
  intros Hw Hi. destruct (threads_bounds w Hw) as (_ & Hs & Hu).
  pose proof (to_claim _ Hw _ _ _ Hi eq_refl) as (He0 & _).
  destruct Hw as [Hb Ht Ha He Hcl Hee Hec Hcc Hcn Hus Hl].
  pose proof (sum_list_with_insert counted _ _ _ (PTask_put e) Hi) as H1.
  pose proof (sum_list_with_insert uncounted _ _ _ (PTask_put e) Hi) as H2. cbn in H1, H2.
  assert (forall k u x, <[i := PTask_put e]> (pw_tasks w) !! k = Some u -> claim u = Some x ->
    exists v, pw_tasks w !! k = Some v /\ claim v = Some x) as Hkeep
    by (intros k u x; apply (claim_kept _ i (PTask_add e)); [done|by left]).
  rewrite wrap_small by (unfold fits; lia).
  constructor; cbn [pw_pool pw_tasks]; try done; cbn; try lia.
  - intros k u x Hu' Hx. destruct (Hkeep _ _ _ Hu' Hx) as (v & ? & ?). by eapply Hcl.
  - intros k x j u x' Hk Hu' Hx. destruct (Hkeep _ _ _ Hu' Hx) as (v & ? & ?). by eapply Hec.
  - intros i1 i2 t1 t2 e1 e2 Hne Hu1 Hu2 Hc1 Hc2.
    destruct (Hkeep _ _ _ Hu1 Hc1) as (v1 & ? & ?), (Hkeep _ _ _ Hu2 Hc2) as (v2 & ? & ?).
    by eapply (Hcc i1 i2).
  - by apply Forall_insert.
Qed.

(** The block enters the map, in place of another block of the same region if there is one. *)
Lemma put_ok w i e :
  threads_ok w -> pw_tasks w !! i = Some (PTask_put e) ->
  threads_ok (mkPoolWorld (pw_tables w)
    ((pw_pool w) <| cp_entries := <[pe_region_id e := e]> (cp_entries (pw_pool w)) |>)
    (<[i := PTask_done (Some (inr e))]> (pw_tasks w))).
Proof.
  intros Hw Hi. destruct (threads_bounds w Hw) as (Hpos & _).
  pose proof (to_claim _ Hw _ _ _ Hi eq_refl) as Hin. pose proof Hin as (He0 & _).
  destruct Hw as [Hb Ht Ha He Hcl Hee Hec Hcc Hcn Hus Hl].
  pose proof (sum_list_with_insert counted _ _ _ (PTask_done (Some (inr e))) Hi) as H1.
  pose proof (sum_list_with_insert uncounted _ _ _ (PTask_done (Some (inr e))) Hi) as H2. cbn in H1, H2.
  assert (forall k u x, <[i := PTask_done (Some (inr e))]> (pw_tasks w) !! k = Some u -> claim u = Some x ->
    k <> i /\ pw_tasks w !! k = Some u) as Hkeep
    by (intros k u x [(_ & <- & _)|[Hk Hu]]%list_lookup_insert_Some Hx; done).
  assert (sum_len (<[pe_region_id e := e]> (cp_entries (pw_pool w))) <= sum_len (cp_entries (pw_pool w)) + pe_len e) as Hsum.
  { destruct (cp_entries (pw_pool w) !! pe_region_id e) as [x|] eqn:Hx.
    - rewrite (sum_len_update _ _ _ _ Hx). pose proof (Hpos _ _ Hx). lia.
    - rewrite sum_len_insert by done. lia. }
  constructor; cbn [pw_pool pw_tasks]; try done; cbn; try lia.
  - intros k x [[<- <-]|[_ Hx]]%lookup_insert_Some; [done|by eapply He].
  - intros k u x Hu Hx. destruct (Hkeep _ _ _ Hu Hx). by eapply Hcl.
  - intros k1 k2 e1 e2 Hne [[<- <-]|[_ Hx1]]%lookup_insert_Some [[<- <-]|[_ Hx2]]%lookup_insert_Some;
      [done| | |by eapply Hee].
    + apply or_comm. by eapply Hec.
    + by eapply Hec.
  - intros k x j u x' [[<- <-]|[_ Hx]]%lookup_insert_Some Hu Hc; destruct (Hkeep _ _ _ Hu Hc); [|by eapply Hec].
    by eapply (Hcc i j).
  - intros i1 i2 t1 t2 e1 e2 Hne Hu1 Hu2 Hc1 Hc2.
    destruct (Hkeep _ _ _ Hu1 Hc1), (Hkeep _ _ _ Hu2 Hc2). by eapply (Hcc i1 i2).
  - by apply Forall_insert.
Qed.

Lemma pool_move_ok w m w' : threads_ok w -> pool_move w m = Some w' -> threads_ok w'.
Proof.
  intros Hw. unfold pool_move. destruct m as [i now]. cbn [fst snd].
  destruct (pw_tasks w !! i) as [t|] eqn:Hi; cbn [mbind option_bind]; [|done].
  pose proof (proj1 (Forall_lookup _ _) (to_len _ Hw) _ _ Hi) as Hlen.
  assert (forall p t', pool_task_step (pw_tables w) (pw_pool w) now t = Some (pw_tables w, p, t') ->
    claim t = None -> claim t' = None -> task_len_ok t' ->
    cp_allocator p = cp_allocator (pw_pool w) -> cp_entries p = cp_entries (pw_pool w) ->
    cp_used_bytes p = cp_used_bytes (pw_pool w) ->
    threads_ok (mkPoolWorld (pw_tables w) p (<[i := t']> (pw_tasks w)))) as Hquiet.
  { intros p t' _ ? ? ? ? He Hu. eapply threads_ok_shrink; try done; rewrite He; [apply entries_from_refl|lia]. }
  destruct t as [rid len epoch|rid len epoch|e|e|op|r]; cbn [pool_task_step] in *; [..|done].
  - destruct (_ <? _).
    + pose proof (evict_ok w i _ (PTask_insert rid len epoch) Hw Hi eq_refl eq_refl Hlen) as H1.
      pose proof (evict_ok w i _ (PTask_done (Some (inl "cache pool full, cannot evict enough space"%string)))
        Hw Hi eq_refl eq_refl I) as H2.
      destruct (CachePool_evict_lru _ _) as [[h p] []]; cbn [mbind option_bind]; by intros [= <-].
    + intros [= <-]. by apply Hquiet.
  - pose proof (to_allocated _ Hw). cbn in Hlen.
    rewrite SubAllocator_alloc_spec in * by lia. rewrite (to_total _ Hw) in *.
    destruct (total <? _) eqn:Er; zbool; cbn [mbind option_bind]; intros [= <-].
    + by apply Hquiet.
    + replace (wrap 64 _) with (base + sa_allocated (cp_allocator (pw_pool w)))
        by (rewrite (to_base _ Hw), wrap_small by (unfold fits; lia); done).
      by apply alloc_ok.
  - intros [= <-]. by apply add_ok.
  - intros [= <-]. by apply put_ok.
  - pose proof (call_ok w i op Hw Hi) as H. destruct (pool_step _ op) as [h p]. by intros [= <-].
Qed.

Lemma threads_ok_start h max r calls :
  Forall pool_call calls ->
  threads_ok (mkPoolWorld h (mkCachePool ∅ (SubAllocator_new base total) max 0 r) calls).
Proof.
  intros Hc. assert (forall i t e, calls !! i = Some t -> claim t = Some e -> False) as Hno.
  { intros i t e Hi He. pose proof (proj1 (Forall_lookup _ _) Hc _ _ Hi). by destruct t. }
  assert (sum_list_with counted calls = 0 /\ sum_list_with uncounted calls = 0)%nat as [E1 E2].
  { clear Hno. induction Hc as [|t ts Ht _ [IH1 IH2]]; [done|]. cbn [sum_list_with].
    rewrite IH1, IH2. by destruct t. }
  constructor; cbn [pw_pool pw_tasks cp_entries cp_allocator cp_used_bytes SubAllocator_new sa_base_offset
    sa_total_len sa_allocated]; rewrite ?E1, ?E2; try done; try lia.
  all: try (intros; by exfalso; eapply Hno).
  eapply Forall_impl; [exact Hc|]. intros [| | | |[]|]; done.
Qed.

Lemma pool_moves_ok w ms w' : threads_ok w -> pool_moves w ms = Some w' -> threads_ok w'.
Proof.
  revert w. induction ms as [|m ms IH]; intros w Hw Hm; cbn in Hm; [by simplify_eq|].
  destruct (pool_move w m) as [x|] eqn:Hx; cbn in Hm; [|done]. eauto using pool_move_ok.
Qed.

(** C26 (invariant): Concurrent callers never share memory of the cache pool. Let the allocator and
    every insert be shorter than 2^62 bytes and the pool end below 2^64. Let any number of inserts,
    lookups, removals, evictions and epoch updates interleave, an insert losing its locks
    between the test of the budget, the allocation, the accounting and the map: the copies of
    different regions and the blocks handed out and not yet in the map are, all of them, pairwise
    disjoint and inside the pool, and [used_bytes] covers the copies and stays within the size
    of the allocator. *)
Theorem cache_pool_threads h max r calls ms w :
  Forall pool_call calls ->
  pool_moves (mkPoolWorld h (CachePool_with_region_table (SubAllocator_new base total) max r) calls) ms = Some w ->
  let p := pw_pool w in
  let inside e := base <= pe_pool_offset e /\ pe_pool_offset e + pe_len e <= base + total in
  (forall k1 k2 e1 e2, k1 <> k2 -> cp_entries p !! k1 = Some e1 -> cp_entries p !! k2 = Some e2 ->
     separate (block e1) (block e2))
  /\ (forall k e i t e', cp_entries p !! k = Some e -> pw_tasks w !! i = Some t -> claim t = Some e' ->
        separate (block e) (block e'))
  /\ (forall i1 i2 t1 t2 e1 e2, i1 <> i2 -> pw_tasks w !! i1 = Some t1 -> pw_tasks w !! i2 = Some t2 ->
        claim t1 = Some e1 -> claim t2 = Some e2 -> separate (block e1) (block e2))
  /\ (forall k e, cp_entries p !! k = Some e -> inside e)
  /\ (forall i t e, pw_tasks w !! i = Some t -> claim t = Some e -> inside e)
  /\ sum_len (cp_entries p) <= cp_used_bytes p <= total.
Proof.
  intros Hc Hm p inside. assert (threads_ok w) as Hw by (eapply pool_moves_ok; [by apply threads_ok_start|done]).
  assert (forall e, in_pool (pw_pool w) e -> inside e) as Hin
    by (intros e (? & ? & ?); pose proof (to_allocated _ Hw); unfold inside; lia).
  split; [apply Hw|]. split; [apply Hw|]. split; [apply Hw|].
  split; [intros k e Hk; by apply Hin, (to_entry _ Hw k)|].
  split; [intros i t e Ht He; by apply Hin, (to_claim _ Hw i t)|].
  destruct (threads_bounds w Hw) as (_ & ? & ?). unfold p. lia.
Qed.
End Threads.

(** Two inserts of 30 bytes on a pool with a budget of 50 and an allocator of 100: both pass the
    test of the budget before either is counted. *)
Definition two_inserts : PoolWorld :=
  mkPoolWorld [] (CachePool_with_region_table (SubAllocator_new 8 100) 50 0) [PTask_insert 1 30 0; PTask_insert 2 30 0].

Definition overlapped : list (nat * Z) := map (fun i => (i, 0)) [0; 1; 0; 1; 0; 1; 0; 1]%nat.

Definition overlapped_end : PoolWorld :=
  mkPoolWorld []
    (mkCachePool {[1 := mkPoolCacheEntry 1 8 30 0 0; 2 := mkPoolCacheEntry 2 38 30 0 0]}
       (mkSubAllocator 8 100 60) 50 60 (Some 0%nat))
    [PTask_done (Some (inr (mkPoolCacheEntry 1 8 30 0 0))); PTask_done (Some (inr (mkPoolCacheEntry 2 38 30 0 0)))].

Lemma cache_pool_threads_witness : separate (8, 30) (38, 30).
Proof.
  apply (proj1 (cache_pool_threads (iteration := canonical_order) 8 100 ltac:(lia) ltac:(lia) ltac:(lia)
    [] 50 0 [PTask_insert 1 30 0; PTask_insert 2 30 0] overlapped overlapped_end
    ltac:(repeat constructor; cbn; lia) eq_refl) 1 2 (mkPoolCacheEntry 1 8 30 0 0) (mkPoolCacheEntry 2 38 30 0 0));
    reflexivity || discriminate.
Defined.

(** The budget is not kept by concurrent inserts: here 60 bytes of 50 are in use at the end. *)
Theorem concurrent_inserts_exceed_budget :
  pool_moves (iteration := canonical_order) two_inserts overlapped = Some overlapped_end
  /\ cp_used_bytes (pw_pool overlapped_end) = 60 /\ cp_max_bytes (pw_pool overlapped_end) = 50.
Proof. split_and!; reflexivity. Qed.
