(* ===== verification/FetchAgent.v ===== *)
(** * FetchAgent: reading a region through the cache

    crates/ub-managed/src/fetch_agent.rs together with the calls the daemon makes
    on the region table it shares with the agent and the cache pool
    (crates/unibusd/src/main.rs, [region_alloc], [region_free],
    [region_register_remote]). Metrics are left out. *)

From S2P Require Import Prelude Bytes Types SubAlloc Region CachePool.
#[local] Open Scope Z_scope.

(** Source: crates/ub-managed/src/fetch_agent.rs:15-21, [FetchAgent].
    The agent with what its [Arc]s reach: the store of region tables and the
    cache pool. *)
Record FetchAgent : Type := mkFetchAgent {
  fa_tables : Tables;
  fa_region_table : nat;
  fa_cache_pool : CachePool;
  fa_in_flight : list Z;
}.

#[global] Instance FetchAgent_settable : Settable FetchAgent := fun x =>
  mkFetchAgent (fa_tables x) (fa_region_table x) (fa_cache_pool x) (fa_in_flight x).

(** Source: crates/ub-managed/src/fetch_agent.rs:24-30, [FetchAgent::new]. *)
Definition FetchAgent_new (tables : Tables) (region_table : nat) (cache_pool : CachePool) : FetchAgent :=
  mkFetchAgent tables region_table cache_pool [].

(** Source: crates/ub-managed/src/fetch_agent.rs:182-191, [ReadVaResult]. *)
Inductive ReadVaResult : Type :=
| ReadVaResult_Home (region : RegionInfo)
| ReadVaResult_CacheHit (pool_offset : Z) (region : RegionInfo)
| ReadVaResult_CacheMiss (region : RegionInfo)
| ReadVaResult_UnknownRegion.

Definition agent_region (a : FetchAgent) (region_id : Z) : option RegionInfo :=
  region_of (fa_tables a) (fa_region_table a) region_id.

Definition on_agent_table {B} (a : FetchAgent) (f : RegionTable -> RegionTable * B) : FetchAgent * B :=
  let '(h, b) := on_table (fa_tables a) (fa_region_table a) f in (a <| fa_tables := h |>, b).

(** Source: crates/ub-managed/src/fetch_agent.rs:95-100, [FetchAgent::invalidate_local]. *)
Definition FetchAgent_invalidate_local (a : FetchAgent) (region_id : Z) : FetchAgent * bool :=
  let a := a <| fa_cache_pool := (CachePool_remove (fa_cache_pool a) region_id).1 |> in
  on_agent_table a (fun t => RegionTable_set_state t region_id RegionState_Invalid).

(** Source: crates/ub-managed/src/fetch_agent.rs:41-74, [FetchAgent::read_va]. *)
Definition FetchAgent_read_va (a : FetchAgent) (now region_id : Z) : FetchAgent * Result ReadVaResult :=
  match agent_region a region_id with
  | None => (a, Ok ReadVaResult_UnknownRegion)
  | Some region =>
    match ri_state region with
    | RegionState_Home => (a, Ok (ReadVaResult_Home region))
    | RegionState_Shared region_epoch =>
      match CachePool_lookup (fa_cache_pool a) now region_id with
      | (p, Some entry) =>
        let a := a <| fa_cache_pool := p |> in
        if pe_epoch entry <? region_epoch then
          let a := (FetchAgent_invalidate_local a region_id).1 in
          match agent_region a region_id with
          | Some region => (a, Ok (ReadVaResult_CacheMiss region))
          | None => (a, Panic)
          end
        else (a, Ok (ReadVaResult_CacheHit (pe_pool_offset entry) region))
      | (p, None) => (a <| fa_cache_pool := p |>, Ok (ReadVaResult_CacheMiss region))
      end
    | RegionState_Invalid => (a, Ok (ReadVaResult_CacheMiss region))
    end
  end.

(** Source: crates/ub-managed/src/fetch_agent.rs:128-163, [FetchAgent::receive_invalidate]. *)
Definition FetchAgent_receive_invalidate (a : FetchAgent) (region_id new_epoch : Z) : FetchAgent * bool :=
  match agent_region a region_id with
  | None => (a, false)
  | Some region =>
    match ri_state region with
    | RegionState_Shared current_epoch =>
      if current_epoch <=? new_epoch then
        let a := (FetchAgent_invalidate_local a region_id).1 in
        let a := (on_agent_table a (fun t => RegionTable_set_epoch t region_id new_epoch)).1 in
        (a, true)
      else (a, false)
    | RegionState_Home => (a, false)
    | RegionState_Invalid =>
      if ri_epoch region <? new_epoch
      then ((on_agent_table a (fun t => RegionTable_set_epoch t region_id new_epoch)).1, false)
      else (a, false)
    end
  end.

(** Source: crates/ub-managed/src/fetch_agent.rs:103-106, [FetchAgent::is_fetch_in_flight]. *)
Definition FetchAgent_is_fetch_in_flight (a : FetchAgent) (region_id : Z) : bool :=
  bool_decide (region_id ∈ fa_in_flight a).

(** Source: crates/ub-managed/src/fetch_agent.rs:109-114, [FetchAgent::mark_fetch_in_flight]. *)
Definition FetchAgent_mark_fetch_in_flight (a : FetchAgent) (region_id : Z) : FetchAgent :=
  if negb (FetchAgent_is_fetch_in_flight a region_id)
  then a <| fa_in_flight := fa_in_flight a ++ [region_id] |> else a.

(** Source: crates/ub-managed/src/fetch_agent.rs:167-177, [FetchAgent::is_epoch_stale]. *)
Definition FetchAgent_is_epoch_stale (a : FetchAgent) (region_id latest_epoch : Z) : bool :=
  match agent_region a region_id with
  | None => false
  | Some region =>
    match ri_state region with
    | RegionState_Shared epoch => epoch <? latest_epoch
    | _ => false
    end
  end.

Section Agent.
Context {iteration : MapOrder Z PoolCacheEntry}.

(** Source: crates/ub-managed/src/fetch_agent.rs:78-91, [FetchAgent::complete_fetch]. *)
Definition FetchAgent_complete_fetch (a : FetchAgent) (now region_id len epoch : Z)
  : FetchAgent * (string + Z) :=
  match CachePool_insert (fa_tables a) (fa_cache_pool a) now region_id len epoch with
  | (h, p, inl e) => (a <| fa_tables := h |> <| fa_cache_pool := p |>, inl e)
  | (h, p, inr entry) =>
    let a := a <| fa_tables := h |> <| fa_cache_pool := p |> in
    let a := (on_agent_table a (fun t => RegionTable_set_state t region_id (RegionState_Shared epoch))).1 in
    let a := (on_agent_table a (fun t => RegionTable_set_epoch t region_id epoch)).1 in
    (a <| fa_in_flight := filter (fun id => id <> region_id) (fa_in_flight a) |>,
     inr (pe_pool_offset entry))
  end.

(** ** A node's calls *)

Inductive AgentOp : Type :=
| AgentOp_read_va (now region_id : Z)
| AgentOp_complete_fetch (now region_id len epoch : Z)
| AgentOp_receive_invalidate (region_id new_epoch : Z)
| AgentOp_invalidate_local (region_id : Z)
| AgentOp_mark_fetch_in_flight (region_id : Z)
| AgentOp_evict_lru
| AgentOp_table_insert (info : RegionInfo)
| AgentOp_table_remove (region_id : Z).

Definition agent_step (a : FetchAgent) (op : AgentOp) : FetchAgent :=
  match op with
  | AgentOp_read_va now rid => (FetchAgent_read_va a now rid).1
  | AgentOp_complete_fetch now rid len epoch => (FetchAgent_complete_fetch a now rid len epoch).1
  | AgentOp_receive_invalidate rid new_epoch => (FetchAgent_receive_invalidate a rid new_epoch).1
  | AgentOp_invalidate_local rid => (FetchAgent_invalidate_local a rid).1
  | AgentOp_mark_fetch_in_flight rid => FetchAgent_mark_fetch_in_flight a rid
  | AgentOp_evict_lru =>
    let '(h, p, _) := CachePool_evict_lru (fa_tables a) (fa_cache_pool a) in
    a <| fa_tables := h |> <| fa_cache_pool := p |>
  | AgentOp_table_insert info => (on_agent_table a (fun t => (RegionTable_insert t info, tt))).1
  | AgentOp_table_remove rid => (on_agent_table a (fun t => RegionTable_remove t rid)).1
  end.

(** Lengths are below 2^62, and the daemon enters a region as [Home] or
    [Invalid], never as [Shared]. *)
Definition agent_op_ok (op : AgentOp) : Prop :=
  match op with
  | AgentOp_complete_fetch _ _ len _ => 0 <= len < 2 ^ 62
  | AgentOp_table_insert info => forall e, ri_state info <> RegionState_Shared e
  | _ => True
  end.

(** Calls that end the life of the copy of [rid] fetched at [epoch]. *)
Definition spoils (rid epoch : Z) (op : AgentOp) : Prop :=
  match op with
  | AgentOp_receive_invalidate rid' new_epoch => rid' = rid /\ epoch <= new_epoch
  | AgentOp_invalidate_local rid' | AgentOp_table_remove rid' => rid' = rid
  | AgentOp_table_insert info => ri_region_id info = rid
  | _ => False
  end.

(** ** Invariant *)

Context (base total max : Z).
Context (Hmax : 0 <= max < 2 ^ 62) (Hbase : 0 <= base) (Htotal : 0 <= total < 2 ^ 62)
  (Hfit : base + total < 2 ^ 64).

(** The pool notifies the table the agent reads, and a [Shared] region has a
    copy of its epoch in the pool. *)
Record agent_ok (a : FetchAgent) : Prop := {
  ao_pool : pool_ok base total max (fa_cache_pool a);
  ao_linked : cp_region_table (fa_cache_pool a) = Some (fa_region_table a);
  ao_live : (fa_region_table a < length (fa_tables a))%nat;
  ao_shared : forall rid i e, agent_region a rid = Some i -> ri_state i = RegionState_Shared e ->
    ri_epoch i = e
    /\ exists entry, cp_entries (fa_cache_pool a) !! rid = Some entry /\ pe_epoch entry = e;
}.

(** The copy [rid] is served from, as long as the region is [Shared]. *)
Definition serves (a : FetchAgent) (rid epoch off : Z) : Prop :=
  exists i entry, agent_region a rid = Some i /\ ri_state i = RegionState_Shared epoch
    /\ cp_entries (fa_cache_pool a) !! rid = Some entry
    /\ pe_epoch entry = epoch /\ pe_pool_offset entry = off.

(** What one call leaves of what is served. *)
Definition serves_from (a : FetchAgent) (op : AgentOp) (rid epoch off : Z) : Prop :=
  (serves a rid epoch off /\ ~ spoils rid epoch op)
  \/ exists now len, op = AgentOp_complete_fetch now rid len epoch
       /\ (FetchAgent_complete_fetch a now rid len epoch).2 = inr off.

(** A call that adds no [Shared] region and keeps the copies of those there are. *)
Lemma agent_ok_keep a a' :
  agent_ok a -> pool_ok base total max (fa_cache_pool a') ->
  cp_region_table (fa_cache_pool a') = cp_region_table (fa_cache_pool a) ->
  fa_region_table a' = fa_region_table a -> length (fa_tables a') = length (fa_tables a) ->
  (forall rid i e, agent_region a' rid = Some i -> ri_state i = RegionState_Shared e ->
     agent_region a rid = Some i
     /\ forall entry, cp_entries (fa_cache_pool a) !! rid = Some entry ->
          exists entry', cp_entries (fa_cache_pool a') !! rid = Some entry'
            /\ pe_epoch entry' = pe_epoch entry /\ pe_pool_offset entry' = pe_pool_offset entry) ->
  agent_ok a' /\ forall rid e off, serves a' rid e off -> serves a rid e off.
Proof.
  intros [Hp Hl Hlt Hs] Hp' Hl' Hr' Hlen H. split.
  - constructor; [done|congruence|congruence|].
    intros rid i e Hi He. destruct (H rid i e Hi He) as [Ha Hent].
    destruct (Hs rid i e Ha He) as (Hep & entry & Hen & Hee). split; [done|].
    destruct (Hent _ Hen) as (entry' & ? & ? & ?). exists entry'. split; [done|congruence].
  - intros rid e off (i & entry' & Hi & He & Hen' & Hee & Hoff).
    destruct (H rid i e Hi He) as [Ha Hent].
    destruct (Hs rid i e Ha He) as (Hep & entry & Hen & Hee0).
    destruct (Hent _ Hen) as (entry2 & H2 & ? & ?). assert (entry2 = entry') as -> by congruence.
    exists i, entry. split_and!; congruence.
Qed.

Lemma on_agent_table_fst {B} a (f : RegionTable -> RegionTable * B) :
  (on_agent_table a f).1 = a <| fa_tables := (on_table (fa_tables a) (fa_region_table a) f).1 |>.
Proof. unfold on_agent_table. by destruct (on_table _ _ _). Qed.

Lemma agent_region_set_state a rid st rid' :
  (fa_region_table a < length (fa_tables a))%nat ->
  agent_region (on_agent_table a (fun t => RegionTable_set_state t rid st)).1 rid'
  = if decide (rid' = rid) then (fun i => i <| ri_state := st |>) <$> agent_region a rid'
    else agent_region a rid'.
Proof. intros. rewrite on_agent_table_fst. by apply region_of_set_state. Qed.

Lemma agent_region_set_epoch a rid epoch rid' :
  (fa_region_table a < length (fa_tables a))%nat ->
  agent_region (on_agent_table a (fun t => RegionTable_set_epoch t rid epoch)).1 rid'
  = if decide (rid' = rid) then (fun i => i <| ri_epoch := epoch |>) <$> agent_region a rid'
    else agent_region a rid'.
Proof. intros. rewrite on_agent_table_fst. by apply region_of_set_epoch. Qed.

Lemma fa_live_set a st rid :
  length (fa_tables (on_agent_table a (fun t => RegionTable_set_state t rid st)).1) = length (fa_tables a).
Proof. rewrite on_agent_table_fst. apply on_table_length. Qed.

(** Looking an entry up only refreshes its access time. *)
Lemma lookup_keeps p now rid rid' entry :
  cp_entries p !! rid' = Some entry ->
  exists entry', cp_entries (CachePool_lookup p now rid).1 !! rid' = Some entry'
    /\ pe_epoch entry' = pe_epoch entry /\ pe_pool_offset entry' = pe_pool_offset entry.
Proof.
  intros H. unfold CachePool_lookup. destruct (cp_entries p !! rid) as [e0|] eqn:E; [|eauto].
  cbn. destruct (decide (rid' = rid)) as [->|].
  - rewrite lookup_insert_eq. exists (e0 <| pe_last_access := now |>).
    assert (e0 = entry) as -> by congruence. done.
  - rewrite lookup_insert_ne by done. eauto.
Qed.

Lemma read_va_keeps a now rid :
  agent_ok a ->
  agent_ok (FetchAgent_read_va a now rid).1
  /\ forall rid' e off, serves (FetchAgent_read_va a now rid).1 rid' e off -> serves a rid' e off.
Proof.
  intros Ha. unfold FetchAgent_read_va.
  destruct (agent_region a rid) as [i|] eqn:Ei; [|done].
  destruct (ri_state i) as [|e|] eqn:Es; [done| |done].
  destruct (ao_shared _ Ha rid i e Ei Es) as (_ & entry & Hen & Hee).
  assert (Hk : agent_ok (a <| fa_cache_pool := (CachePool_lookup (fa_cache_pool a) now rid).1 |>)
    /\ forall rid' e off,
         serves (a <| fa_cache_pool := (CachePool_lookup (fa_cache_pool a) now rid).1 |>) rid' e off ->
         serves a rid' e off).
  { apply agent_ok_keep; [done|apply lookup_preserves, (ao_pool _ Ha)| |done|done|].
    - unfold CachePool_lookup. cbn. by rewrite Hen.
    - intros rid' i' e' Hi' _. split; [done|]. intros entry' Hen'. by apply lookup_keeps. }
  revert Hk. unfold CachePool_lookup. rewrite Hen. cbn [fst snd]. intros Hk.
  cbn [pe_epoch set_field]. rewrite (proj2 (Z.ltb_ge _ _)) by lia. done.
Qed.

Lemma invalidate_local_keeps a rid :
  agent_ok a ->
  agent_ok (FetchAgent_invalidate_local a rid).1
  /\ forall rid' e off, serves (FetchAgent_invalidate_local a rid).1 rid' e off ->
       serves a rid' e off /\ rid' <> rid.
Proof.
  intros Ha. pose proof (ao_live _ Ha) as Hlt.
  set (a' := (FetchAgent_invalidate_local a rid).1).
  assert (Hreg : forall rid', agent_region a' rid'
            = if decide (rid' = rid) then (fun i => i <| ri_state := RegionState_Invalid |>) <$> agent_region a rid'
              else agent_region a rid').
  { intros rid'. unfold a', FetchAgent_invalidate_local. by rewrite agent_region_set_state. }
  assert (Hne : forall rid' i e, agent_region a' rid' = Some i -> ri_state i = RegionState_Shared e ->
            rid' <> rid /\ agent_region a rid' = Some i).
  { intros rid' i e Hi He. rewrite Hreg in Hi. case_decide; [|done].
    apply fmap_Some in Hi as (? & _ & ->). done. }
  assert (Hpool : fa_cache_pool a' = (CachePool_remove (fa_cache_pool a) rid).1)
    by (unfold a', FetchAgent_invalidate_local; by rewrite on_agent_table_fst).
  destruct (agent_ok_keep a a') as [Hok Hserves]; [done| | | | | |].
  - rewrite Hpool. by apply remove_preserves, (ao_pool _ Ha).
  - rewrite Hpool. unfold CachePool_remove. by destruct (cp_entries _ !! rid).
  - unfold a', FetchAgent_invalidate_local. by rewrite on_agent_table_fst.
  - unfold a', FetchAgent_invalidate_local. by rewrite fa_live_set.
  - intros rid' i e Hi He. destruct (Hne rid' i e Hi He) as [Hr Hi']. split; [done|].
    intros entry Hen. exists entry. split; [|done]. rewrite Hpool. unfold CachePool_remove.
    destruct (cp_entries (fa_cache_pool a) !! rid); [|done]. cbn. by rewrite lookup_delete_ne.
  - split; [done|]. intros rid' e off Hs. split; [by apply Hserves|].
    destruct Hs as (i & _ & Hi & He & _). by apply (Hne rid' i e).
Qed.

(** Changing the epoch of a region that is not [Shared]. *)
Lemma set_epoch_keeps a rid epoch :
  agent_ok a -> (forall i e, agent_region a rid = Some i -> ri_state i <> RegionState_Shared e) ->
  let a' := (on_agent_table a (fun t => RegionTable_set_epoch t rid epoch)).1 in
  agent_ok a' /\ forall rid' e off, serves a' rid' e off -> serves a rid' e off.
Proof.
  intros Ha Hns. pose proof (ao_live _ Ha) as Hlt. cbv zeta.
  apply agent_ok_keep; [done| | | | |]; try (rewrite on_agent_table_fst; apply on_table_length);
    try (rewrite on_agent_table_fst; done || apply (ao_pool _ Ha)).
  intros rid' i e Hi He. rewrite agent_region_set_epoch in Hi by done. split.
  - case_decide; [subst|done]. apply fmap_Some in Hi as (i0 & Hi0 & ->). by destruct (Hns i0 e Hi0).
  - intros entry Hen. exists entry. by rewrite on_agent_table_fst.
Qed.

Lemma receive_invalidate_keeps a rid new_epoch :
  agent_ok a ->
  agent_ok (FetchAgent_receive_invalidate a rid new_epoch).1
  /\ forall rid' e off, serves (FetchAgent_receive_invalidate a rid new_epoch).1 rid' e off ->
       serves a rid' e off /\ ~ (rid = rid' /\ e <= new_epoch).
Proof.
  intros Ha. unfold FetchAgent_receive_invalidate.
  assert (Hnone : forall (Q : Prop), (forall rid' e off, serves a rid' e off -> ~ (rid = rid' /\ e <= new_epoch)) ->
    agent_ok a /\ forall rid' e off, serves a rid' e off -> serves a rid' e off /\ ~ (rid = rid' /\ e <= new_epoch)).
  { intros _ H. split; [done|]. intros ? ? ? Hs. split; [done|by eapply H]. }
  destruct (agent_region a rid) as [i|] eqn:Ei.
  2: { apply (Hnone True). intros rid' e off (i & _ & Hi & _) [-> _]. congruence. }
  destruct (ri_state i) as [|e0|] eqn:Es.
  - destruct (ri_epoch i <? new_epoch).
    + destruct (set_epoch_keeps a rid new_epoch Ha) as [Hok Hs].
      { intros i' e' Hi'. congruence. }
      cbn [fst]. split; [done|]. intros rid' e off Hsv. apply Hs in Hsv. split; [done|].
      intros [-> _]. destruct Hsv as (i' & _ & Hi' & He' & _). congruence.
    + apply (Hnone True). intros rid' e off (i' & _ & Hi & Hst & _) [-> _]. congruence.
  - destruct (e0 <=? new_epoch) eqn:E; zbool; cbn [fst].
    + destruct (invalidate_local_keeps a rid Ha) as [Hok Hs].
      destruct (set_epoch_keeps (FetchAgent_invalidate_local a rid).1 rid new_epoch Hok) as [Hok' Hs'].
      { intros i' e' Hi' He'. unfold FetchAgent_invalidate_local in Hi'.
        rewrite agent_region_set_state, decide_True in Hi' by (done || apply (ao_live _ Ha)).
        apply fmap_Some in Hi' as (? & _ & ->). done. }
      split; [done|]. intros rid' e off Hsv. apply Hs', Hs in Hsv as [? ?].
      split; [done|]. intros [-> _]. done.
    + apply (Hnone True). intros rid' e off (i' & _ & Hi & Hst & _) [-> Hle].
      assert (e0 = e) as -> by congruence. lia.
  - apply (Hnone True). intros rid' e off (i' & _ & Hi & Hst & _) [-> _]. congruence.
Qed.

(** Evictions take the region of every dropped copy out of [Shared]. *)
Lemma evicted_keeps a h p :
  agent_ok a -> evicted (fa_tables a) (fa_cache_pool a) h p -> pool_ok base total max p ->
  let a' := a <| fa_tables := h |> <| fa_cache_pool := p |> in
  agent_ok a' /\ forall rid e off, serves a' rid e off -> serves a rid e off.
Proof.
  intros Ha Hev Hp. pose proof (ao_linked _ Ha) as Hl. pose proof (ao_live _ Ha) as Hlt. cbv zeta.
  apply agent_ok_keep; [done|done| |done|apply (ev_length _ _ _ _ Hev)|].
  { cbn. by rewrite (ev_pool _ _ _ _ Hev). }
  intros rid i e Hi He. unfold agent_region in Hi. cbn in Hi.
  rewrite (ev_region _ _ _ _ Hev _ rid Hl Hlt) in Hi. case_decide as Hgone.
  { apply fmap_Some in Hi as (? & _ & ->). done. }
  split; [done|]. intros entry Hen. exists entry. split; [|done]. cbn.
  destruct (cp_entries p !! rid) as [entry'|] eqn:E.
  - rewrite (lookup_weaken _ _ _ _ E (ev_sub _ _ _ _ Hev)) in Hen. congruence.
  - destruct Hgone. by rewrite Hen.
Qed.

Lemma evict_keeps a :
  agent_ok a ->
  agent_ok (agent_step a AgentOp_evict_lru)
  /\ forall rid e off, serves (agent_step a AgentOp_evict_lru) rid e off -> serves a rid e off.
Proof.
  intros Ha. cbn [agent_step]. pose proof (evict_lru_spec (fa_tables a) (fa_cache_pool a)) as H.
  destruct (CachePool_evict_lru _ _) as [[h p] []].
  - destruct H as (k & e & Hk & Hmin & -> & ->).
    destruct (evicted_step base total max Hmax (fa_tables a) _ (fa_tables a) _ k e (ao_pool _ Ha)
                (evicted_refl _ _) Hk Hmin).
    by apply evicted_keeps.
  - destruct H as (_ & -> & ->). apply evicted_keeps; [done|apply evicted_refl|apply Ha].
Qed.

Lemma table_insert_keeps a info :
  agent_ok a -> (forall e, ri_state info <> RegionState_Shared e) ->
  agent_ok (agent_step a (AgentOp_table_insert info))
  /\ forall rid e off, serves (agent_step a (AgentOp_table_insert info)) rid e off ->
       serves a rid e off /\ ri_region_id info <> rid.
Proof.
  intros Ha Hns. cbn [agent_step]. rewrite on_agent_table_fst. pose proof (ao_live _ Ha) as Hlt.
  assert (Hreg : forall rid i e,
    agent_region (a <| fa_tables := (on_table (fa_tables a) (fa_region_table a)
                        (fun t => (RegionTable_insert t info, tt))).1 |>) rid = Some i ->
    ri_state i = RegionState_Shared e -> agent_region a rid = Some i /\ ri_region_id info <> rid).
  { intros rid i e Hi He. unfold agent_region, region_of, on_table in Hi. cbn in Hi.
    rewrite table_of_insert, decide_True in Hi by done.
    unfold RegionTable_lookup, RegionTable_insert in Hi. cbn in Hi.
    apply lookup_insert_Some in Hi as [[_ <-]|[? ?]]; [by destruct (Hns e)|done]. }
  destruct (agent_ok_keep a (a <| fa_tables := (on_table (fa_tables a) (fa_region_table a)
                        (fun t => (RegionTable_insert t info, tt))).1 |>)) as [Hok Hs];
    [done|apply Ha|done|done|apply on_table_length| |].
  - intros rid i e Hi He. destruct (Hreg rid i e Hi He). split; [done|]. eauto.
  - split; [done|]. intros rid e off Hsv. split; [by apply Hs|].
    destruct Hsv as (i & _ & Hi & He & _). by apply (Hreg rid i e).
Qed.

Lemma table_remove_keeps a rid0 :
  agent_ok a ->
  agent_ok (agent_step a (AgentOp_table_remove rid0))
  /\ forall rid e off, serves (agent_step a (AgentOp_table_remove rid0)) rid e off ->
       serves a rid e off /\ rid0 <> rid.
Proof.
  intros Ha. cbn [agent_step]. rewrite on_agent_table_fst. pose proof (ao_live _ Ha) as Hlt.
  assert (Hreg : forall rid i,
    agent_region (a <| fa_tables := (on_table (fa_tables a) (fa_region_table a)
                        (fun t => RegionTable_remove t rid0)).1 |>) rid = Some i ->
    agent_region a rid = Some i /\ rid0 <> rid).
  { intros rid i Hi. unfold agent_region, region_of, on_table in Hi. cbn in Hi.
    rewrite table_of_insert, decide_True in Hi by done.
    unfold RegionTable_lookup in Hi. cbn in Hi. by apply lookup_delete_Some in Hi as [? ?]. }
  destruct (agent_ok_keep a (a <| fa_tables := (on_table (fa_tables a) (fa_region_table a)
                        (fun t => RegionTable_remove t rid0)).1 |>)) as [Hok Hs];
    [done|apply Ha|done|done|apply on_table_length| |].
  - intros rid i e Hi He. destruct (Hreg rid i Hi). split; [done|]. eauto.
  - split; [done|]. intros rid e off Hsv. split; [by apply Hs|].
    destruct Hsv as (i & _ & Hi & _). by apply (Hreg rid i).
Qed.

(** A completed fetch: the copy is in the pool and, if the region is known, it
    is [Shared] at the epoch of the fetch. *)
Lemma complete_fetch_keeps a now rid len epoch :
  agent_ok a -> 0 <= len < 2 ^ 62 ->
  agent_ok (FetchAgent_complete_fetch a now rid len epoch).1
  /\ (forall rid' e off, serves (FetchAgent_complete_fetch a now rid len epoch).1 rid' e off ->
        serves a rid' e off
        \/ rid' = rid /\ e = epoch /\ (FetchAgent_complete_fetch a now rid len epoch).2 = inr off)
  /\ (forall off i, (FetchAgent_complete_fetch a now rid len epoch).2 = inr off ->
        agent_region a rid = Some i -> serves (FetchAgent_complete_fetch a now rid len epoch).1 rid epoch off).
Proof.
  intros Ha Hlen. unfold FetchAgent_complete_fetch.
  pose proof (insert_cases base total max Hmax Hbase Htotal Hfit
                (fa_tables a) (fa_cache_pool a) now rid len epoch (ao_pool _ Ha) Hlen) as H.
  destruct (CachePool_insert _ _ _ _ _ _) as [[h p] [m|entry]]; destruct H as (Hp & p1 & Hev & Hp1 & H);
    cbn [fst snd].
  { destruct H as [-> _]. destruct (evicted_keeps a h p1 Ha Hev Hp1) as [? Hs].
    split; [done|]. split; [by left; apply Hs|by intros]. }
  destruct H as (_ & Hentry & Hents & _ & _ & Hrt).
  destruct (evicted_keeps a h p1 Ha Hev Hp1) as [Hok1 Hs1].
  set (a1 := a <| fa_tables := h |> <| fa_cache_pool := p1 |>) in *.
  set (a2 := a <| fa_tables := h |> <| fa_cache_pool := p |>).
  assert (Hlt : (fa_region_table a2 < length (fa_tables a2))%nat) by apply (ao_live _ Hok1).
  match goal with |- agent_ok ?x /\ _ => set (a' := x) end.
  assert (Hreg : forall rid', agent_region a' rid'
            = if decide (rid' = rid)
              then (fun i => i <| ri_state := RegionState_Shared epoch |> <| ri_epoch := epoch |>)
                     <$> agent_region a1 rid'
              else agent_region a1 rid').
  { intros rid'. change (agent_region a' rid') with (agent_region (on_agent_table
      (on_agent_table a2 (fun t => RegionTable_set_state t rid (RegionState_Shared epoch))).1
      (fun t => RegionTable_set_epoch t rid epoch)).1 rid').
    rewrite agent_region_set_epoch by (rewrite fa_live_set, on_agent_table_fst; done).
    rewrite agent_region_set_state by done. case_decide; [|done].
    by rewrite <- option_fmap_compose. }
  assert (Hpool : fa_cache_pool a' = p) by (unfold a'; by rewrite !on_agent_table_fst).
  assert (Hdest : fa_region_table a' = fa_region_table a) by (unfold a'; by rewrite !on_agent_table_fst).
  assert (Hlen' : length (fa_tables a') = length (fa_tables a1)).
  { unfold a'. cbn [fa_tables set_field]. rewrite on_agent_table_fst. cbn [fa_tables set_field].
    rewrite on_table_length, on_agent_table_fst. cbn [fa_tables set_field]. by rewrite on_table_length. }
  clearbody a'.
  assert (Hsv : forall rid' e off, serves a' rid' e off ->
            (rid' <> rid /\ serves a1 rid' e off) \/ (rid' = rid /\ e = epoch /\ pe_pool_offset entry = off)).
  { intros rid' e off (i & en & Hi & He & Hen & Hee & Hoff). rewrite Hreg in Hi.
    rewrite Hpool, Hents in Hen. case_decide; [subst rid'; right|left].
    - rewrite lookup_insert_eq in Hen. apply fmap_Some in Hi as (i0 & Hi0 & ->). cbn in He. simplify_eq. done.
    - rewrite lookup_insert_ne in Hen by done. split; [done|]. by exists i, en. }
  split; [|split].
  - constructor.
    + by rewrite Hpool.
    + rewrite Hpool, Hdest, Hrt. apply (ao_linked _ Ha).
    + rewrite Hlen', Hdest. apply (ao_live _ Hok1).
    + intros rid' i e Hi He. rewrite Hreg in Hi. rewrite Hpool, Hents. case_decide; [subst rid'|].
      * apply fmap_Some in Hi as (i0 & Hi0 & ->). cbn in He. injection He as <-.
        split; [done|]. exists entry. rewrite lookup_insert_eq. by rewrite Hentry.
      * rewrite lookup_insert_ne by done. by apply (ao_shared _ Hok1).
  - intros rid' e off Hs. apply Hsv in Hs as [[_ Hs]|(-> & -> & <-)]; [left; by apply Hs1|by right].
  - intros off i [= <-] Hi.
    assert (Hi1 : is_Some (agent_region a1 rid)).
    { unfold agent_region, a1. cbn. rewrite (ev_region _ _ _ _ Hev _ rid (ao_linked _ Ha) (ao_live _ Ha)).
      unfold agent_region in Hi. rewrite Hi. case_decide; eauto. }
    destruct Hi1 as [i1 Hi1].
    exists (i1 <| ri_state := RegionState_Shared epoch |> <| ri_epoch := epoch |>), entry.
    rewrite Hreg, decide_True, Hi1, Hpool, Hents, lookup_insert_eq by done. by rewrite Hentry.
Qed.

Lemma agent_step_keeps a op :
  agent_ok a -> agent_op_ok op ->
  agent_ok (agent_step a op)
  /\ forall rid e off, serves (agent_step a op) rid e off -> serves_from a op rid e off.
Proof.
  intros Ha Hop. unfold serves_from. destruct op; cbn [agent_op_ok spoils] in *.
  - destruct (read_va_keeps a now region_id Ha). split; [done|]. left. auto.
  - destruct (complete_fetch_keeps a now region_id len epoch Ha Hop) as (? & Hs & _). split; [done|].
    intros rid e off H1. apply Hs in H1 as [?|(-> & -> & ?)]; [left; auto|right; eauto].
  - destruct (receive_invalidate_keeps a region_id new_epoch Ha). split; [done|]. left. auto.
  - destruct (invalidate_local_keeps a region_id Ha) as [? Hs]. split; [done|]. left.
    apply Hs in H0 as [? ?]. split; [done|]. by intros ->.
  - split; [|left; split; [|tauto]]; unfold agent_step, FetchAgent_mark_fetch_in_flight in *.
    + destruct (negb _); [|done]. by destruct Ha.
    + destruct (negb _); done.
  - destruct (evict_keeps a Ha). split; [done|]. left. auto.
  - destruct (table_insert_keeps a info Ha Hop). split; [done|]. left. auto.
  - destruct (table_remove_keeps a region_id Ha). split; [done|]. left. auto.
Qed.

(** A read hits exactly when the region is [Shared], and then at its copy. *)
Lemma read_va_result a now rid :
  agent_ok a ->
  (FetchAgent_read_va a now rid).2 <> Panic
  /\ (forall off region, (FetchAgent_read_va a now rid).2 = Ok (ReadVaResult_CacheHit off region) ->
        exists e, ri_state region = RegionState_Shared e /\ agent_region a rid = Some region
                  /\ serves a rid e off)
  /\ (forall e off, serves a rid e off -> exists region,
        (FetchAgent_read_va a now rid).2 = Ok (ReadVaResult_CacheHit off region)).
Proof.
  intros Ha. unfold FetchAgent_read_va.
  destruct (agent_region a rid) as [i|] eqn:Ei.
  2: { split_and!; [done..|]. intros e off (? & ? & ? & _). congruence. }
  destruct (ri_state i) as [|e|] eqn:Es.
  1, 3: split_and!; [done..|]; intros e off (? & ? & ? & ? & _); congruence.
  destruct (ao_shared _ Ha rid i e Ei Es) as (_ & entry & Hen & Hee).
  unfold CachePool_lookup. rewrite Hen. cbn [pe_epoch set_field].
  rewrite (proj2 (Z.ltb_ge _ _)) by lia. cbn [snd]. split_and!; [done| |].
  - intros off region [= <- <-]. exists e. split; [done|]. split; [done|]. exists i, entry. done.
  - intros e' off (i' & en & Hi & He & Hen' & _ & <-). exists i. do 2 f_equal. cbn. congruence.
Qed.

(** A copy served after a run was fetched in it and not invalidated since. *)
Lemma run_serves a0 ops :
  agent_ok a0 -> (forall rid i e, agent_region a0 rid = Some i -> ri_state i <> RegionState_Shared e) ->
  Forall agent_op_ok ops ->
  agent_ok (foldl agent_step a0 ops)
  /\ forall rid e off, serves (foldl agent_step a0 ops) rid e off ->
     exists ops1 now len ops2, ops = ops1 ++ AgentOp_complete_fetch now rid len e :: ops2
       /\ (FetchAgent_complete_fetch (foldl agent_step a0 ops1) now rid len e).2 = inr off
       /\ Forall (fun op => ~ spoils rid e op) ops2.
Proof.
  intros Ha0 Hns. induction ops as [|op ops IH] using rev_ind; intros Hops.
  - split; [done|]. intros rid e off (i & _ & Hi & He & _). by destruct (Hns rid i e).
  - apply Forall_app in Hops as [Hops [Hop _]%Forall_cons]. destruct (IH Hops) as [Ha Hs].
    rewrite foldl_app. cbn [foldl].
    destruct (agent_step_keeps (foldl agent_step a0 ops) op Ha Hop) as [Hok Hfrom]. split; [done|].
    intros rid e off Hsv. apply Hfrom in Hsv as [[Hsv Hsp]|(now & len & -> & Hres)].
    + apply Hs in Hsv as (ops1 & now & len & ops2 & -> & Hres & Hall).
      exists ops1, now, len, (ops2 ++ [op]). rewrite <- app_assoc. split; [done|]. split; [done|].
      apply Forall_app. split; [done|]. by constructor.
    + exists ops, now, len, []. done.
Qed.

(** ** Properties *)

(** C15 (safety): A cache hit was not invalidated since its fetch was completed. Whatever the
    reads, fetches, invalidations, evictions and changes to the region table before it (lengths
    below 2^62 bytes, regions entered as [Home] or [Invalid]), a read that hits the cache is
    answered from the block that a fetch of that region returned, the region is [Shared] at the
    epoch of that fetch, and since that fetch was completed no invalidation of the region with
    that epoch or a later one was received and the region was not locally invalidated, removed
    or registered again. The read never panics, and a read that follows a completed fetch of a
    known region hits at the block the fetch returned. An invalidation that comes between the
    request of a fetch and its completion is not covered, and is in fact undone by it:
    [late_fetch_undoes_invalidation]. *)
Theorem fetch_hit_valid_since_fetch h r ops now rid :
  (r < length h)%nat ->
  (forall rid i e, region_of h r rid = Some i -> ri_state i <> RegionState_Shared e) ->
  Forall agent_op_ok ops ->
  let a0 := FetchAgent_new h r (CachePool_with_region_table (SubAllocator_new base total) max r) in
  let a := foldl agent_step a0 ops in
  (FetchAgent_read_va a now rid).2 <> Panic
  /\ (forall off region, (FetchAgent_read_va a now rid).2 = Ok (ReadVaResult_CacheHit off region) ->
        exists e ops1 t len ops2,
          ri_state region = RegionState_Shared e /\ ri_epoch region = e
          /\ ops = ops1 ++ AgentOp_complete_fetch t rid len e :: ops2
          /\ (FetchAgent_complete_fetch (foldl agent_step a0 ops1) t rid len e).2 = inr off
          /\ Forall (fun op => ~ spoils rid e op) ops2)
  /\ (forall t len e off, 0 <= len < 2 ^ 62 ->
        let '(a', res) := FetchAgent_complete_fetch a t rid len e in
        res = inr off -> is_Some (agent_region a rid) -> exists region,
        (FetchAgent_read_va a' now rid).2 = Ok (ReadVaResult_CacheHit off region)).
Proof.
  intros Hr Hns Hops a0 a.
  assert (Ha0 : agent_ok a0).
  { constructor; [by apply pool_ok_new|done|done|]. intros rid' i e Hi He. by destruct (Hns rid' i e). }
  destruct (run_serves a0 ops Ha0 Hns Hops) as [Ha Hs]. fold a in Ha, Hs.
  destruct (read_va_result a now rid Ha) as (Hnp & Hhit & _). split; [done|]. split.
  - intros off region Hres. destruct (Hhit off region Hres) as (e & He & Hreg & Hsv).
    destruct (Hs rid e off Hsv) as (ops1 & t & len & ops2 & ? & ? & ?).
    exists e, ops1, t, len, ops2. split; [done|]. split; [|done].
    by apply (ao_shared _ Ha rid region e).
  - intros t len e off Hlen. destruct (complete_fetch_keeps a t rid len e Ha Hlen) as (Hok & _ & Hnew).
    destruct (FetchAgent_complete_fetch a t rid len e) as [a' res]. cbn [fst snd] in *.
    intros -> [i Hi]. by apply (read_va_result a' now rid Hok) with e, (Hnew off i).
Qed.
End Agent.

(** Region 7 is known and not cached. *)
Definition sample_store : Tables :=
  [RegionTable_insert RegionTable_new (mkRegionInfo 7 2 0 0 0 20 4 RegionState_Invalid None)].

Lemma sample_store_ok rid i e :
  region_of sample_store 0 rid = Some i -> ri_state i <> RegionState_Shared e.
Proof.
  intros Hi.
  change ((<[7 := mkRegionInfo 7 2 0 0 0 20 4 RegionState_Invalid None]> (∅ : gmap Z RegionInfo))
            !! rid = Some i) in Hi.
  apply lookup_insert_Some in Hi as [[_ <-]|[_ Hi]]; [done|].
  by apply lookup_empty_Some in Hi.
Qed.

(** Fetched at epoch 4, invalidated at epoch 5, fetched again: the hit is at the
    second block. *)
Definition sample_history : list AgentOp :=
  [AgentOp_complete_fetch 1 7 20 4; AgentOp_receive_invalidate 7 5; AgentOp_read_va 2 7;
   AgentOp_complete_fetch 3 7 20 5; AgentOp_receive_invalidate 7 4].

(** A read misses at epoch 4 and asks the home; before the bytes come, the home invalidates the
    region with epoch 5; then the fetch is completed with the epoch the read had seen. The
    region goes back from epoch 5 to 4, and the old bytes are served from now on. *)
Theorem late_fetch_undoes_invalidation :
  let a0 := FetchAgent_new sample_store 0 (CachePool_with_region_table (SubAllocator_new 8 100) 50 0) in
  let step := agent_step (iteration := canonical_order) in
  let asked := step a0 (AgentOp_read_va 1 7) in
  let told := step asked (AgentOp_receive_invalidate 7 5) in
  let fetched := step told (AgentOp_complete_fetch 2 7 20 4) in
  ri_epoch <$> agent_region told 7 = Some 5
  /\ (FetchAgent_read_va fetched 3 7).2
     = Ok (ReadVaResult_CacheHit 8 (mkRegionInfo 7 2 0 0 0 20 4 (RegionState_Shared 4) None)).
Proof. split; vm_compute; reflexivity. Qed.

Lemma fetch_hit_valid_since_fetch_witness : exists e ops1 t len ops2,
  e = 5 /\ sample_history = ops1 ++ AgentOp_complete_fetch t 7 len e :: ops2
  /\ Forall (fun op => ~ spoils 7 e op) ops2.
Proof.
  pose proof (proj1 (proj2 (fetch_hit_valid_since_fetch (iteration := canonical_order) 8 100 50 ltac:(lia) ltac:(lia)
    ltac:(lia) ltac:(lia) sample_store 0 sample_history 9 7 ltac:(cbn; lia)
    sample_store_ok
    ltac:(repeat constructor; cbn; lia))) 28
    (mkRegionInfo 7 2 0 0 0 20 5 (RegionState_Shared 5) None) eq_refl) as H.
  destruct H as (e & ops1 & t & len & ops2 & _ & He & Hops & _ & Hall).
  exists e, ops1, t, len, ops2. split; [symmetry; exact He|]. split; [exact Hops|exact Hall].
Defined.
