(* ===== verification/Coherence.v ===== *)
(** * Coherence: writer leases and reader sets of home regions

    crates/ub-managed/src/coherence.rs. Instants are nanoseconds; every reading
    of the clock is an argument. The methods run to completion one at a time,
    except that [acquire_writer] is split at the point where it drops the
    writer's read lock, since two calls can meet there ([acquire_writer_race]). *)

From S2P Require Import Prelude Bytes Types.
From stdpp Require Import pretty.
#[local] Open Scope Z_scope.

(** Source: crates/ub-managed/src/coherence.rs:11-14, [WriterInfo]. *)
Record WriterInfo : Type := mkWriterInfo {
  wi_writer_node_id : Z;
  wi_lease_deadline : Z;
}.

(** Source: crates/ub-managed/src/coherence.rs:23-32, [RegionHomeState]. *)
Record RegionHomeState : Type := mkRegionHomeState {
  hs_mr_handle : Z;
  hs_base_offset : Z;
  hs_len : Z;
  hs_epoch : Z;
  hs_readers : gset Z;
  hs_writer : option WriterInfo;
}.

#[global] Instance RegionHomeState_settable : Settable RegionHomeState := fun x =>
  mkRegionHomeState (hs_mr_handle x) (hs_base_offset x) (hs_len x) (hs_epoch x) (hs_readers x) (hs_writer x).

(** Source: crates/ub-managed/src/coherence.rs:35-44, [RegionHomeState::new]. *)
Definition RegionHomeState_new (mr_handle base_offset len epoch : Z) : RegionHomeState :=
  mkRegionHomeState mr_handle base_offset len epoch ∅ None.

(** Source: crates/ub-managed/src/coherence.rs:52-54, [RegionHomeState::bump_epoch].
    The new state and the epoch returned. *)
Definition RegionHomeState_bump_epoch (s : RegionHomeState) : RegionHomeState * Z :=
  (s <| hs_epoch := wrap 64 (hs_epoch s + 1) |>, wrap 64 (hs_epoch s + 1)).

(** Source: crates/ub-managed/src/coherence.rs:57-63, [RegionHomeState::is_writer_lease_expired]. *)
Definition RegionHomeState_is_writer_lease_expired (s : RegionHomeState) (now : Z) : bool :=
  match hs_writer s with
  | Some info => wi_lease_deadline info <? now
  | None => false
  end.

(** Source: crates/ub-managed/src/coherence.rs:66-68, [RegionHomeState::add_reader]. *)
Definition RegionHomeState_add_reader (s : RegionHomeState) (node_id : Z) : RegionHomeState :=
  s <| hs_readers := {[node_id]} ∪ hs_readers s |>.

(** Source: crates/ub-managed/src/coherence.rs:71-73, [RegionHomeState::remove_reader]. *)
Definition RegionHomeState_remove_reader (s : RegionHomeState) (node_id : Z) : RegionHomeState * bool :=
  (s <| hs_readers := hs_readers s ∖ {[node_id]} |>, bool_decide (node_id ∈ hs_readers s)).

(** Source: crates/ub-managed/src/coherence.rs:88-97, [AcquireWriterResult]. *)
Inductive AcquireWriterResult : Type :=
| AcquireWriterResult_Granted (region_id epoch : Z)
| AcquireWriterResult_Denied (region_id : Z) (reason : string)
| AcquireWriterResult_Queued (region_id : Z)
| AcquireWriterResult_NotFound.

(** Source: crates/ub-managed/src/coherence.rs:106-113, [CoherenceManager]. *)
Record CoherenceManager : Type := mkCoherenceManager {
  cm_home_states : gmap Z RegionHomeState;
  cm_writer_lease_ms : Z;
  cm_wait_queues : gmap Z (list Z);
}.

#[global] Instance CoherenceManager_settable : Settable CoherenceManager := fun x =>
  mkCoherenceManager (cm_home_states x) (cm_writer_lease_ms x) (cm_wait_queues x).

(** Source: crates/ub-managed/src/coherence.rs:116-122, [CoherenceManager::new]. *)
Definition CoherenceManager_new (writer_lease_ms : Z) : CoherenceManager :=
  mkCoherenceManager ∅ writer_lease_ms ∅.

(** Source: crates/ub-managed/src/coherence.rs:125-128, [CoherenceManager::register_region]. *)
Definition CoherenceManager_register_region (c : CoherenceManager)
    (region_id mr_handle base_offset len : Z) : CoherenceManager :=
  c <| cm_home_states := <[region_id := RegionHomeState_new mr_handle base_offset len 0]> (cm_home_states c) |>.

(** Source: crates/ub-managed/src/coherence.rs:131-134, [CoherenceManager::unregister_region]. *)
Definition CoherenceManager_unregister_region (c : CoherenceManager) (region_id : Z)
  : CoherenceManager * option RegionHomeState :=
  (c <| cm_home_states := delete region_id (cm_home_states c) |>, cm_home_states c !! region_id).

(** Source: crates/ub-managed/src/coherence.rs:137-141, [CoherenceManager::get_home_state]. *)
Definition CoherenceManager_get_home_state (_c : CoherenceManager) (_region_id : Z)
  : option RegionHomeState := None.

(** Source: crates/ub-managed/src/coherence.rs:144-146, [CoherenceManager::contains_region]. *)
Definition CoherenceManager_contains_region (c : CoherenceManager) (region_id : Z) : bool :=
  bool_decide (is_Some (cm_home_states c !! region_id)).

(** The state of a region through its shared reference. *)
Definition update_home (c : CoherenceManager) (region_id : Z) (s : RegionHomeState) : CoherenceManager :=
  c <| cm_home_states := <[region_id := s]> (cm_home_states c) |>.

Definition lease_ns (c : CoherenceManager) : Z := cm_writer_lease_ms c * 10 ^ 6.

(** Source: crates/ub-managed/src/coherence.rs:161-187, [CoherenceManager::acquire_writer].
    The first half, up to the release of the writer's read lock: an early
    return, or [None] to go on. *)
Definition acquire_check (c : CoherenceManager) (now region_id writer_node_id : Z)
  : CoherenceManager * option AcquireWriterResult :=
  match cm_home_states c !! region_id with
  | None => (c, Some AcquireWriterResult_NotFound)
  | Some state =>
    match hs_writer state with
    | Some info =>
      if (now <=? wi_lease_deadline info) && negb (wi_writer_node_id info =? writer_node_id)
      then (c <| cm_wait_queues :=
                   <[region_id := default [] (cm_wait_queues c !! region_id) ++ [writer_node_id]]>
                     (cm_wait_queues c) |>,
            Some (AcquireWriterResult_Denied region_id
                    ("writer node " +:+ pretty (wi_writer_node_id info) +:+ " holds the lock")))
      else (c, None)
    | None => (c, None)
    end
  end.

(** Source: crates/ub-managed/src/coherence.rs:190-217, [CoherenceManager::acquire_writer].
    The second half: with readers or without, the lock is granted. *)
Definition acquire_grant (c : CoherenceManager) (now region_id writer_node_id : Z)
  : CoherenceManager * AcquireWriterResult :=
  match cm_home_states c !! region_id with
  | None => (c, AcquireWriterResult_NotFound)
  | Some state =>
    if decide (hs_readers state = ∅) then
      let deadline := now + lease_ns c in
      (update_home c region_id (state <| hs_writer := Some (mkWriterInfo writer_node_id deadline) |>),
       AcquireWriterResult_Granted region_id (hs_epoch state))
    else
      let deadline := now + lease_ns c in
      (update_home c region_id (state <| hs_writer := Some (mkWriterInfo writer_node_id deadline) |>),
       AcquireWriterResult_Granted region_id (hs_epoch state))
  end.

(** Source: crates/ub-managed/src/coherence.rs:160-218, [CoherenceManager::acquire_writer].
    [now] is read at the check, [now'] for the deadline. *)
Definition CoherenceManager_acquire_writer (c : CoherenceManager) (now now' region_id writer_node_id : Z)
  : CoherenceManager * AcquireWriterResult :=
  match acquire_check c now region_id writer_node_id with
  | (c, Some r) => (c, r)
  | (c, None) => acquire_grant c now' region_id writer_node_id
  end.

(** Source: crates/ub-managed/src/coherence.rs:223-258, [CoherenceManager::release_writer]. *)
Definition CoherenceManager_release_writer (c : CoherenceManager) (region_id writer_node_id : Z)
  : CoherenceManager * bool :=
  match cm_home_states c !! region_id with
  | None => (c, false)
  | Some state =>
    match hs_writer state with
    | Some info =>
      if wi_writer_node_id info =? writer_node_id then
        let state := state <| hs_writer := None |> in
        let c := update_home c region_id (RegionHomeState_bump_epoch state).1 in
        let c := match cm_wait_queues c !! region_id with
                 | Some [] => c <| cm_wait_queues := delete region_id (cm_wait_queues c) |>
                 | _ => c
                 end in
        (c, true)
      else (c, false)
    | None => (c, false)
    end
  end.

(** Source: crates/ub-managed/src/coherence.rs:264-273, [CoherenceManager::handle_invalidate_ack]. *)
Definition CoherenceManager_handle_invalidate_ack (c : CoherenceManager) (region_id reader_node_id : Z)
  : CoherenceManager * bool :=
  match cm_home_states c !! region_id with
  | Some state => (update_home c region_id (RegionHomeState_remove_reader state reader_node_id).1, true)
  | None => (c, false)
  end.

(** Source: crates/ub-managed/src/coherence.rs:276-285, [CoherenceManager::add_reader]. *)
Definition CoherenceManager_add_reader (c : CoherenceManager) (region_id reader_node_id : Z)
  : CoherenceManager * bool :=
  match cm_home_states c !! region_id with
  | Some state => (update_home c region_id (RegionHomeState_add_reader state reader_node_id), true)
  | None => (c, false)
  end.

(** Source: crates/ub-managed/src/coherence.rs:288-294, [CoherenceManager::remove_reader]. *)
Definition CoherenceManager_remove_reader (c : CoherenceManager) (region_id reader_node_id : Z)
  : CoherenceManager * bool :=
  match cm_home_states c !! region_id with
  | Some state =>
    let '(state, removed) := RegionHomeState_remove_reader state reader_node_id in
    (update_home c region_id state, removed)
  | None => (c, false)
  end.

(** Source: crates/ub-managed/src/coherence.rs:297-300, [CoherenceManager::get_epoch]. *)
Definition CoherenceManager_get_epoch (c : CoherenceManager) (region_id : Z) : option Z :=
  hs_epoch <$> cm_home_states c !! region_id.

(** Source: crates/ub-managed/src/coherence.rs:303-306, [CoherenceManager::bump_epoch]. *)
Definition CoherenceManager_bump_epoch (c : CoherenceManager) (region_id : Z) : CoherenceManager * option Z :=
  match cm_home_states c !! region_id with
  | Some state =>
    let '(state, epoch) := RegionHomeState_bump_epoch state in
    (update_home c region_id state, Some epoch)
  | None => (c, None)
  end.

(** Source: crates/ub-managed/src/coherence.rs:332-335, [CoherenceManager::get_writer]. *)
Definition CoherenceManager_get_writer (c : CoherenceManager) (region_id : Z) : option WriterInfo :=
  state ← cm_home_states c !! region_id; hs_writer state.

(** Source: crates/ub-managed/src/coherence.rs:338-341, [CoherenceManager::get_readers]. *)
Definition CoherenceManager_get_readers (c : CoherenceManager) (region_id : Z) : gset Z :=
  default ∅ (hs_readers <$> cm_home_states c !! region_id).

Section Expiry.
Context {iteration : MapOrder Z RegionHomeState}.

(** Source: crates/ub-managed/src/coherence.rs:315-326, [CoherenceManager::check_lease_expiry].
    One turn of the loop; [clock] gives the reading taken for each region. *)
Definition expiry_turn (clock : Z -> Z) (acc : CoherenceManager * list (Z * Z)) (rs : Z * RegionHomeState)
  : CoherenceManager * list (Z * Z) :=
  let '(c, expired) := acc in
  let '(region_id, state) := rs in
  match hs_writer state with
  | Some info =>
    if wi_lease_deadline info <? clock region_id then
      let state := state <| hs_writer := None |> in
      (update_home c region_id (RegionHomeState_bump_epoch state).1,
       expired ++ [(region_id, wi_writer_node_id info)])
    else acc
  | None => acc
  end.

(** Source: crates/ub-managed/src/coherence.rs:311-329, [CoherenceManager::check_lease_expiry]. *)
Definition CoherenceManager_check_lease_expiry (c : CoherenceManager) (clock : Z -> Z)
  : CoherenceManager * list (Z * Z) :=
  foldl (expiry_turn clock) (c, []) (in_order (cm_home_states c)).

(** Source: crates/ub-managed/src/coherence.rs:349-357, [CoherenceManager::list_regions]. *)
Definition CoherenceManager_list_regions (c : CoherenceManager) : list (Z * Z * option Z * gset Z) :=
  (fun '(rid, state) => (rid, hs_epoch state, wi_writer_node_id <$> hs_writer state, hs_readers state))
    <$> in_order (cm_home_states c).
End Expiry.

(** Source: crates/ub-managed/src/coherence.rs:363-371, [WriterGuard].
    [wg_coherence] tells whether the guard holds a manager. *)
Record WriterGuard : Type := mkWriterGuard {
  wg_va : Z;
  wg_region_id : Z;
  wg_home_node_id : Z;
  wg_writer_node_id : Z;
  wg_epoch : Z;
  wg_released : bool;
  wg_coherence : bool;
}.

#[global] Instance WriterGuard_settable : Settable WriterGuard := fun x =>
  mkWriterGuard (wg_va x) (wg_region_id x) (wg_home_node_id x) (wg_writer_node_id x) (wg_epoch x)
    (wg_released x) (wg_coherence x).

(** Source: crates/ub-managed/src/coherence.rs:374-391, [WriterGuard::new]. *)
Definition WriterGuard_new (va region_id home_node_id writer_node_id epoch : Z) : WriterGuard :=
  mkWriterGuard va region_id home_node_id writer_node_id epoch false true.

(** Source: crates/ub-managed/src/coherence.rs:394-404, [WriterGuard::release]. *)
Definition WriterGuard_release (c : CoherenceManager) (g : WriterGuard)
  : CoherenceManager * WriterGuard * bool :=
  if wg_released g then (c, g, false)
  else
    let g := g <| wg_released := true |> in
    if wg_coherence g then
      let '(c, b) := CoherenceManager_release_writer c (wg_region_id g) (wg_writer_node_id g) in (c, g, b)
    else (c, g, false).

(** Source: crates/ub-managed/src/coherence.rs:412-418, [WriterGuard::drop]. *)
Definition WriterGuard_drop (c : CoherenceManager) (g : WriterGuard) : CoherenceManager :=
  if negb (wg_released g) then (WriterGuard_release c g).1.1 else c.

(** ** Calls on the manager, and what each does to one region *)

Inductive CohOp : Type :=
| CohOp_register_region (region_id mr_handle base_offset len : Z)
| CohOp_unregister_region (region_id : Z)
| CohOp_acquire_writer (now now' region_id writer_node_id : Z)
| CohOp_release_writer (region_id writer_node_id : Z)
| CohOp_handle_invalidate_ack (region_id reader_node_id : Z)
| CohOp_add_reader (region_id reader_node_id : Z)
| CohOp_remove_reader (region_id reader_node_id : Z)
| CohOp_bump_epoch (region_id : Z)
| CohOp_check_lease_expiry (clock : Z -> Z).

(** Whether the lease of [s] keeps node [n] out at [now]. *)
Definition held_by_other (s : RegionHomeState) (now n : Z) : bool :=
  match hs_writer s with
  | Some info => (now <=? wi_lease_deadline info) && negb (wi_writer_node_id info =? n)
  | None => false
  end.

Definition is_writer (s : RegionHomeState) (n : Z) : bool :=
  match hs_writer s with Some info => wi_writer_node_id info =? n | None => false end.

(** The end of a writer's ownership. *)
Definition end_ownership (s : RegionHomeState) : RegionHomeState :=
  (RegionHomeState_bump_epoch (s <| hs_writer := None |>)).1.

(** The home state of one region after a call, as a function of its state before. *)
Definition home_effect (lease : Z) (op : CohOp) (rid : Z) (s : RegionHomeState) : RegionHomeState :=
  match op with
  | CohOp_acquire_writer now now' rid' n =>
    if (rid' =? rid) && negb (held_by_other s now n)
    then s <| hs_writer := Some (mkWriterInfo n (now' + lease)) |> else s
  | CohOp_release_writer rid' n => if (rid' =? rid) && is_writer s n then end_ownership s else s
  | CohOp_handle_invalidate_ack rid' n | CohOp_remove_reader rid' n =>
    if rid' =? rid then s <| hs_readers := hs_readers s ∖ {[n]} |> else s
  | CohOp_add_reader rid' n => if rid' =? rid then s <| hs_readers := {[n]} ∪ hs_readers s |> else s
  | CohOp_bump_epoch rid' => if rid' =? rid then s <| hs_epoch := wrap 64 (hs_epoch s + 1) |> else s
  | CohOp_check_lease_expiry clock =>
    if RegionHomeState_is_writer_lease_expired s (clock rid) then end_ownership s else s
  | CohOp_register_region _ _ _ _ | CohOp_unregister_region _ => s
  end.

(** Calls that create or drop the state of [rid]. *)
Definition resets (rid : Z) (op : CohOp) : bool :=
  match op with
  | CohOp_register_region rid' _ _ _ | CohOp_unregister_region rid' => rid' =? rid
  | _ => false
  end.

Section Runs.
Context {iteration : MapOrder Z RegionHomeState}.

Definition coh_step (c : CoherenceManager) (op : CohOp) : CoherenceManager :=
  match op with
  | CohOp_register_region rid mr base len => CoherenceManager_register_region c rid mr base len
  | CohOp_unregister_region rid => (CoherenceManager_unregister_region c rid).1
  | CohOp_acquire_writer now now' rid n => (CoherenceManager_acquire_writer c now now' rid n).1
  | CohOp_release_writer rid n => (CoherenceManager_release_writer c rid n).1
  | CohOp_handle_invalidate_ack rid n => (CoherenceManager_handle_invalidate_ack c rid n).1
  | CohOp_add_reader rid n => (CoherenceManager_add_reader c rid n).1
  | CohOp_remove_reader rid n => (CoherenceManager_remove_reader c rid n).1
  | CohOp_bump_epoch rid => (CoherenceManager_bump_epoch c rid).1
  | CohOp_check_lease_expiry clock => (CoherenceManager_check_lease_expiry c clock).1
  end.

Lemma update_home_lookup c rid s rid' :
  cm_home_states (update_home c rid s) !! rid'
  = if rid =? rid' then Some s else cm_home_states c !! rid'.
Proof.
  cbn. destruct (rid =? rid') eqn:E; zbool; [subst; apply lookup_insert_eq|by apply lookup_insert_ne].
Qed.

Lemma expiry_loop clock l c expired :
  NoDup l.*1 -> (forall k s, (k, s) ∈ l -> cm_home_states c !! k = Some s) ->
  let r := foldl (expiry_turn clock) (c, expired) l in
  cm_writer_lease_ms r.1 = cm_writer_lease_ms c
  /\ (forall k s, (k, s) ∈ l -> cm_home_states r.1 !! k
        = Some (if RegionHomeState_is_writer_lease_expired s (clock k) then end_ownership s else s))
  /\ (forall k, k ∉ l.*1 -> cm_home_states r.1 !! k = cm_home_states c !! k).
Proof.
  revert c expired. induction l as [|[k0 s0] l IH]; intros c expired Hnd Hin; cbn [foldl].
  { split; [done|]. split; [by intros ? ? ?%elem_of_nil|done]. }
  cbn [fmap list_fmap fst] in Hnd. apply NoDup_cons in Hnd as [Hk0 Hnd].
  assert (Hstep : exists expired', expiry_turn clock (c, expired) (k0, s0)
    = (if RegionHomeState_is_writer_lease_expired s0 (clock k0)
       then (update_home c k0 (end_ownership s0)) else c, expired')).
  { unfold expiry_turn, RegionHomeState_is_writer_lease_expired.
    destruct (hs_writer s0) as [info|]; [|eauto]. destruct (_ <? _); eauto. }
  destruct Hstep as [expired' ->].
  set (c' := if RegionHomeState_is_writer_lease_expired s0 (clock k0) then _ else c).
  assert (Hc' : forall k, k <> k0 -> cm_home_states c' !! k = cm_home_states c !! k).
  { intros k Hk. unfold c'. destruct (RegionHomeState_is_writer_lease_expired _ _); [|done].
    rewrite update_home_lookup, (proj2 (Z.eqb_neq k0 k)) by congruence. done. }
  assert (Hne : forall k s, (k, s) ∈ l -> k <> k0).
  { intros k s Hks ->. apply Hk0, list_elem_of_fmap. by exists (k0, s). }
  destruct (IH c' expired' Hnd) as (Hl & Hi & Ho).
  { intros k s Hks. rewrite Hc' by eauto. apply Hin. by constructor. }
  cbv zeta. split; [|split].
  - rewrite Hl. unfold c'. by destruct (RegionHomeState_is_writer_lease_expired _ _).
  - intros k s [Heq|Hks]%elem_of_cons; [|by apply Hi]. injection Heq as -> ->.
    rewrite Ho by done. unfold c'. destruct (RegionHomeState_is_writer_lease_expired _ _).
    + by rewrite update_home_lookup, Z.eqb_refl.
    + apply Hin. by left.
  - intros k Hk. cbn [fmap list_fmap fst] in Hk. apply not_elem_of_cons in Hk as [Hk Hkl].
    rewrite Ho by done. by apply Hc'.
Qed.

(** A change [f] to the state of one region, if it is registered. *)
Definition act (c : CoherenceManager) (rid : Z) (f : RegionHomeState -> RegionHomeState)
  : gmap Z RegionHomeState :=
  match cm_home_states c !! rid with
  | Some s => <[rid := f s]> (cm_home_states c)
  | None => cm_home_states c
  end.

Lemma act_lookup c rid f rid' :
  act c rid f !! rid' = (fun s => if rid =? rid' then f s else s) <$> cm_home_states c !! rid'.
Proof.
  unfold act. destruct (cm_home_states c !! rid) as [s|] eqn:E; destruct (rid =? rid') eqn:Er; zbool; subst.
  - by rewrite lookup_insert_eq, E.
  - rewrite lookup_insert_ne by done. by destruct (cm_home_states c !! rid').
  - by rewrite E.
  - by destruct (cm_home_states c !! rid').
Qed.

Lemma acquire_act c now now' rid n :
  cm_home_states (CoherenceManager_acquire_writer c now now' rid n).1
  = act c rid (fun s => if held_by_other s now n then s
                        else s <| hs_writer := Some (mkWriterInfo n (now' + lease_ns c)) |>).
Proof.
  unfold CoherenceManager_acquire_writer, acquire_check, acquire_grant, act, held_by_other.
  destruct (cm_home_states c !! rid) as [s|] eqn:E; [|done].
  destruct (hs_writer s) as [info|].
  - destruct (_ && _); [cbn; by rewrite insert_id|]. rewrite E. by case_decide.
  - rewrite E. by case_decide.
Qed.

Lemma release_act c rid n :
  cm_home_states (CoherenceManager_release_writer c rid n).1
  = act c rid (fun s => if is_writer s n then end_ownership s else s).
Proof.
  unfold CoherenceManager_release_writer, act, is_writer.
  destruct (cm_home_states c !! rid) as [s|] eqn:E; [|done].
  destruct (hs_writer s) as [info|]; [|cbn; by rewrite insert_id].
  destruct (_ =? n); [|cbn; by rewrite insert_id]. cbn [fst].
  destruct (cm_wait_queues _ !! rid) as [[|? ?]|]; done.
Qed.

(** Every call acts on each region on its own, by [home_effect]. *)
Lemma coh_step_home c op rid :
  resets rid op = false ->
  cm_home_states (coh_step c op) !! rid = home_effect (lease_ns c) op rid <$> cm_home_states c !! rid.
Proof.
  destruct op; cbn [coh_step resets home_effect]; intros Hr.
  - zbool. cbn. rewrite lookup_insert_ne by done. by destruct (cm_home_states c !! rid).
  - zbool. cbn. rewrite lookup_delete_ne by done. by destruct (cm_home_states c !! rid).
  - rewrite acquire_act, act_lookup. apply option_fmap_ext. intros s.
    cbn [home_effect]. by destruct (region_id =? rid), (held_by_other s now writer_node_id).
  - rewrite release_act, act_lookup. apply option_fmap_ext. intros s.
    cbn [home_effect]. by destruct (region_id =? rid), (is_writer s writer_node_id).
  - etrans; [|exact (act_lookup c region_id (fun s => s <| hs_readers := hs_readers s ∖ {[reader_node_id]} |>) rid)].
    unfold CoherenceManager_handle_invalidate_ack, act. by destruct (cm_home_states c !! region_id).
  - etrans; [|exact (act_lookup c region_id (fun s => s <| hs_readers := {[reader_node_id]} ∪ hs_readers s |>) rid)].
    unfold CoherenceManager_add_reader, act. by destruct (cm_home_states c !! region_id).
  - etrans; [|exact (act_lookup c region_id (fun s => s <| hs_readers := hs_readers s ∖ {[reader_node_id]} |>) rid)].
    unfold CoherenceManager_remove_reader, act. by destruct (cm_home_states c !! region_id).
  - etrans; [|exact (act_lookup c region_id (fun s => s <| hs_epoch := wrap 64 (hs_epoch s + 1) |>) rid)].
    unfold CoherenceManager_bump_epoch, act. by destruct (cm_home_states c !! region_id).
  - unfold CoherenceManager_check_lease_expiry.
    destruct (expiry_loop clock (in_order (cm_home_states c)) c []) as (_ & Hin & Hout).
    + rewrite in_order_perm. apply NoDup_fst_map_to_list.
    + intros k s. apply elem_of_in_order.
    + destruct (cm_home_states c !! rid) as [s|] eqn:E; cbn.
      * apply (Hin rid s). by apply elem_of_in_order.
      * rewrite <- E. apply Hout. rewrite list_elem_of_fmap. intros ([k s] & -> & Hks).
        apply elem_of_in_order in Hks. cbn in *. congruence.
Qed.

Lemma coh_step_lease c op : cm_writer_lease_ms (coh_step c op) = cm_writer_lease_ms c.
Proof.
  destruct op; cbn [coh_step]; try done.
  - unfold CoherenceManager_acquire_writer, acquire_check, acquire_grant.
    destruct (cm_home_states c !! region_id) as [s|] eqn:E; [|done].
    destruct (hs_writer s) as [i|]; [destruct (_ && _); [done|]|]; rewrite E; by case_decide.
  - unfold CoherenceManager_release_writer. destruct (cm_home_states c !! region_id) as [s|]; [|done].
    destruct (hs_writer s) as [i|]; [|done]. destruct (_ =? _); [|done].
    cbn [fst]. by destruct (cm_wait_queues _ !! region_id) as [[|? ?]|].
  - unfold CoherenceManager_handle_invalidate_ack. by case_match.
  - unfold CoherenceManager_add_reader. by case_match.
  - unfold CoherenceManager_remove_reader. by case_match.
  - unfold CoherenceManager_bump_epoch. by case_match.
  - unfold CoherenceManager_check_lease_expiry.
    apply (expiry_loop clock (in_order (cm_home_states c)) c []).
    + rewrite in_order_perm. apply NoDup_fst_map_to_list.
    + intros k s. apply elem_of_in_order.
Qed.

(** Calls made while the lease granted at [t] to [n] runs until [d], with the
    region still registered and not released by [n]. *)
Definition spares_lease (rid n t d : Z) (op : CohOp) : Prop :=
  match op with
  | CohOp_register_region rid' _ _ _ | CohOp_unregister_region rid' => rid' <> rid
  | CohOp_acquire_writer now now' rid' _ => rid' = rid -> now <= d /\ t <= now'
  | CohOp_release_writer rid' m => ~ (rid' = rid /\ m = n)
  | CohOp_check_lease_expiry clock => clock rid <= d
  | _ => True
  end.

Lemma spares_resets rid n t d op : spares_lease rid n t d op -> resets rid op = false.
Proof. destruct op; cbn; try done; intros; by apply Z.eqb_neq. Qed.

(** [n] holds the lease until [d] at least, and the epoch is at least [e]. *)
Definition holds (s : RegionHomeState) (n d e : Z) : Prop :=
  exists d', hs_writer s = Some (mkWriterInfo n d') /\ d <= d' /\ hs_epoch s = e.

(** How often the epoch of [rid] is bumped by hand in [ops]. *)
Definition is_bump (rid : Z) (op : CohOp) : bool :=
  match op with CohOp_bump_epoch rid' => rid' =? rid | _ => false end.

Definition manual_bumps (rid : Z) (ops : list CohOp) : Z :=
  Z.of_nat (length (List.filter (is_bump rid) ops)).

Lemma holds_step lease rid n t e op s :
  holds s n (t + lease) e -> spares_lease rid n t (t + lease) op ->
  holds (home_effect lease op rid s) n (t + lease) (if is_bump rid op then wrap 64 (e + 1) else e).
Proof.
  intros (d' & Hw & Hd & He) Hop. unfold holds.
  destruct op; cbn [home_effect spares_lease is_bump] in *; try (by exists d').
  - destruct (region_id =? rid) eqn:Er; cbn [andb]; zbool; [|by exists d'].
    destruct (Hop Er) as [Hnow Hnow']. unfold held_by_other. rewrite Hw. cbn.
    rewrite (proj2 (Z.leb_le now d')) by lia. cbn.
    destruct (n =? writer_node_id) eqn:En; zbool; cbn; [|by exists d'].
    exists (now' + lease). subst. split; [done|]. split; [lia|done].
  - unfold is_writer. rewrite Hw. cbn. destruct (region_id =? rid) eqn:Er; cbn [andb]; [|by exists d'].
    destruct (n =? writer_node_id) eqn:En; [|by exists d']. zbool. by destruct Hop.
  - destruct (_ =? _); by exists d'.
  - destruct (_ =? _); by exists d'.
  - destruct (_ =? _); by exists d'.
  - destruct (_ =? _); exists d'; cbn; subst; done.
  - unfold RegionHomeState_is_writer_lease_expired. rewrite Hw. cbn.
    rewrite (proj2 (Z.ltb_ge _ _)) by lia. by exists d'.
Qed.

Lemma holds_run ops c rid n t e s :
  cm_home_states c !! rid = Some s -> holds s n (t + lease_ns c) e ->
  Forall (spares_lease rid n t (t + lease_ns c)) ops ->
  0 <= e -> e + manual_bumps rid ops < 2 ^ 64 ->
  lease_ns (foldl coh_step c ops) = lease_ns c
  /\ exists s', cm_home_states (foldl coh_step c ops) !! rid = Some s'
       /\ holds s' n (t + lease_ns c) (e + manual_bumps rid ops).
Proof.
  revert c s e. induction ops as [|op ops IH]; intros c s e Hs Hh Hops He Hb; cbn [foldl].
  { split; [done|]. exists s. split; [done|]. unfold manual_bumps. cbn. by rewrite Z.add_0_r. }
  apply Forall_cons in Hops as [Hop Hops].
  assert (Hl : lease_ns (coh_step c op) = lease_ns c) by (unfold lease_ns; by rewrite coh_step_lease).
  pose proof (coh_step_home c op rid (spares_resets _ _ _ _ _ Hop)) as Hs'. rewrite Hs in Hs'.
  pose proof (holds_step (lease_ns c) rid n t e op s Hh Hop) as Hh'.
  set (e' := if is_bump rid op then wrap 64 (e + 1) else e) in *.
  assert (0 <= manual_bumps rid ops) by (unfold manual_bumps; lia).
  assert (Hcount : 0 <= e' /\ e' + manual_bumps rid ops = e + manual_bumps rid (op :: ops)).
  { unfold e', manual_bumps in *. cbn [List.filter] in *.
    destruct (is_bump rid op); cbn [length] in *; [rewrite wrap_small by (unfold fits; lia)|]; lia. }
  clearbody e'.
  destruct (IH (coh_step c op) _ e' Hs') as (HL & s' & Hs2 & Hh2); rewrite ?Hl in *; [done|done|lia|lia|].
  split; [done|]. exists s'. split; [done|]. by rewrite <- (proj2 Hcount).
Qed.

(** ** Properties *)

End Runs.

(** Node 1 takes region 9 with a lease of 5 ms; node 2 asks, and a sweep runs, before it ends. *)
Definition sample_manager : CoherenceManager :=
  CoherenceManager_register_region (CoherenceManager_new 5) 9 0 0 4096.


(** The lock is dropped between the check and the grant: two nodes that call at
    the same time both pass the check, and both are told they own the region. *)
Theorem acquire_writer_race :
  let '(c1, early1) := acquire_check sample_manager 100 9 1 in
  let '(c2, early2) := acquire_check c1 101 9 2 in
  let '(c3, r1) := acquire_grant c2 102 9 1 in
  let '(c4, r2) := acquire_grant c3 103 9 2 in
  early1 = None /\ early2 = None
  /\ r1 = AcquireWriterResult_Granted 9 0 /\ r2 = AcquireWriterResult_Granted 9 0.
Proof. vm_compute. done. Qed.

(** A reader does not keep a writer out, although the documentation promises
    [Queued]. *)
Theorem acquire_writer_with_readers c t t' rid n s :
  cm_home_states c !! rid = Some s -> hs_writer s = None ->
  (CoherenceManager_acquire_writer c t t' rid n).2 = AcquireWriterResult_Granted rid (hs_epoch s).
Proof.
  intros Hs Hw. unfold CoherenceManager_acquire_writer, acquire_check, acquire_grant.
  rewrite Hs, Hw, Hs. by case_decide.
Qed.

(** A guard releases the lock once, by hand or when it is dropped. *)
Lemma WriterGuard_release_once c g :
  wg_released g = false -> wg_coherence g = true ->
  let '(c', g', b) := WriterGuard_release c g in
  (c', b) = CoherenceManager_release_writer c (wg_region_id g) (wg_writer_node_id g)
  /\ WriterGuard_drop c' g' = c' /\ WriterGuard_release c' g' = (c', g', false)
  /\ WriterGuard_drop c g = c'.
Proof.
  intros Hr Hc. unfold WriterGuard_drop. rewrite Hr. unfold WriterGuard_release. rewrite Hr. cbn. rewrite Hc.
  by destruct (CoherenceManager_release_writer _ _ _).
Qed.
