(* ===== verification/Registry.v ===== *)
(** * Registry: device profiles and the placement cost function

    crates/ub-managed/src/registry.rs. The profiles are a [Vec], searched from
    the front; scores are binary64 numbers, computed with the operations of the
    source in their order. *)

From S2P Require Import Prelude Bytes Types Float Config.
#[local] Open Scope Z_scope.

(** Source: crates/ub-core/src/types.rs:184-190, [DeviceProfile::free_ratio]. *)
Definition DeviceProfile_free_ratio (p : DeviceProfile) : f64 :=
  if dp_capacity_bytes p =? 0 then f64_of_int 0
  else (f64_of_int (DeviceProfile_free_bytes p) / f64_of_int (dp_capacity_bytes p))%f64.

(** Source: crates/ub-managed/src/registry.rs:9-12, [DeviceRegistry].
    Of the configuration only the weights are read. *)
Record DeviceRegistry : Type := mkDeviceRegistry {
  dr_profiles : list DeviceProfile;
  dr_cost_weights : CostWeights;
}.

#[global] Instance DeviceRegistry_settable : Settable DeviceRegistry :=
  fun x => mkDeviceRegistry (dr_profiles x) (dr_cost_weights x).

(** Source: crates/ub-managed/src/registry.rs:15-20, [DeviceRegistry::new]. *)
Definition DeviceRegistry_new (weights : CostWeights) : DeviceRegistry := mkDeviceRegistry [] weights.

(** [iter_mut().find(|p| p.device_key == key)]: the first profile of the key is
    changed by [f]; [None] when there is none. *)
Fixpoint update_first (key : Z * Z) (f : DeviceProfile -> DeviceProfile) (l : list DeviceProfile)
  : option (list DeviceProfile) :=
  match l with
  | [] => None
  | p :: l => if decide (dp_device_key p = key) then Some (f p :: l) else cons p <$> update_first key f l
  end.

(** Source: crates/ub-managed/src/registry.rs:24-31, [DeviceRegistry::register]. *)
Definition DeviceRegistry_register (r : DeviceRegistry) (profile : DeviceProfile) : DeviceRegistry :=
  match update_first (dp_device_key profile) (fun _ => profile) (dr_profiles r) with
  | Some l => r <| dr_profiles := l |>
  | None => r <| dr_profiles := dr_profiles r ++ [profile] |>
  end.

(** Source: crates/ub-managed/src/registry.rs:34-38, [DeviceRegistry::register_all]. *)
Definition DeviceRegistry_register_all (r : DeviceRegistry) (new_profiles : list DeviceProfile)
  : DeviceRegistry :=
  foldl DeviceRegistry_register r new_profiles.

(** Source: crates/ub-managed/src/registry.rs:41-44, [DeviceRegistry::get]. *)
Definition DeviceRegistry_get (r : DeviceRegistry) (node_id device_id : Z) : option DeviceProfile :=
  List.find (fun p => bool_decide (dp_device_key p = (node_id, device_id))) (dr_profiles r).

(** Source: crates/ub-managed/src/registry.rs:52-58, [DeviceRegistry::update_dynamic]. *)
Definition DeviceRegistry_update_dynamic (r : DeviceRegistry) (node_id device_id used_bytes recent_rps : Z)
  : DeviceRegistry :=
  match update_first (node_id, device_id)
          (fun p => p <| dp_used_bytes := used_bytes |> <| dp_recent_rps := recent_rps |>) (dr_profiles r) with
  | Some l => r <| dr_profiles := l |>
  | None => r
  end.

(** Source: crates/ub-managed/src/registry.rs:113-116, [DeviceRegistry::remove_node]. *)
Definition DeviceRegistry_remove_node (r : DeviceRegistry) (node_id : Z) : DeviceRegistry :=
  r <| dr_profiles := filter (fun p => (dp_device_key p).1 <> node_id) (dr_profiles r) |>.

(** Source: crates/ub-managed/src/registry.rs:122-129, [latency_estimate]. *)
Definition latency_estimate (profile : DeviceProfile) (requester_node : Z) : f64 :=
  if (dp_device_key profile).1 =? requester_node then f64_of_int 0
  else ((f64_of_int (dp_read_latency_ns_p50 profile) + f64_of_int 5000) / f64_of_int 1000)%f64.

(** Source: crates/ub-managed/src/registry.rs:133-148, [tier_mismatch]. *)
Definition tier_mismatch (latency_class : LatencyClass) (tier : StorageTier) : f64 :=
  match latency_class, tier with
  | LatencyClass_Critical, StorageTier_Hot => f64_of_int 0
  | LatencyClass_Normal, StorageTier_Warm => f64_of_int 0
  | LatencyClass_Bulk, StorageTier_Cold => f64_of_int 0
  | LatencyClass_Critical, StorageTier_Warm => f64_dec 3 10
  | LatencyClass_Normal, StorageTier_Hot => f64_dec 1 10
  | LatencyClass_Normal, StorageTier_Cold => f64_dec 3 10
  | LatencyClass_Bulk, StorageTier_Warm => f64_dec 1 10
  | LatencyClass_Critical, StorageTier_Cold => f64_of_int 1
  | LatencyClass_Bulk, StorageTier_Hot => f64_dec 5 10
  end.

(** Source: crates/ub-managed/src/registry.rs:84-93, [DeviceRegistry::best_device filters]. *)
Definition suitable (pin : option DeviceKind) (size : Z) (p : DeviceProfile) : bool :=
  negb (DeviceProfile_free_bytes p <? size)
  && match pin with
     | Some kind => bool_decide (dp_kind p = kind)
     | None => true
     end.

(** Source: crates/ub-managed/src/registry.rs:95-98, [DeviceRegistry::best_device score]. *)
Definition device_score (weights : CostWeights) (requester_node : Z) (latency_class : LatencyClass)
    (p : DeviceProfile) : f64 :=
  (cw_latency weights * latency_estimate p requester_node
   + cw_capacity weights * (f64_of_int 1 - DeviceProfile_free_ratio p)
   + cw_tier_match weights * tier_mismatch latency_class (dp_tier p)
   + cw_load weights * (f64_of_int (dp_recent_rps p)
                        / f64_max (f64_of_int (dp_peak_read_bw_mbps p)) (f64_of_int 1)))%f64.

(** Source: crates/ub-managed/src/registry.rs:70-110, [DeviceRegistry::best_device]. *)
Definition DeviceRegistry_best_device (r : DeviceRegistry) (requester_node : Z)
    (latency_class : LatencyClass) (_capacity_class : CapacityClass) (pin : option DeviceKind) (size : Z)
  : option (Z * Z) :=
  fst <$> foldl (fun (best : option (Z * Z * f64)) p =>
    if suitable pin size p then
      let score := device_score (dr_cost_weights r) requester_node latency_class p in
      match best with
      | None => Some (dp_device_key p, score)
      | Some (_, best_score) =>
        if f64_ltb score best_score then Some (dp_device_key p, score) else best
      end
    else best) None (dr_profiles r).

(** ** Unique keys *)

Definition registry_ok (r : DeviceRegistry) : Prop := NoDup (dp_device_key <$> dr_profiles r).

Lemma update_first_keys key f l l' :
  (forall p, dp_device_key p = key -> dp_device_key (f p) = key) ->
  update_first key f l = Some l' -> dp_device_key <$> l' = dp_device_key <$> l.
Proof.
  intros Hf. revert l'. induction l as [|p l IH]; intros l'; cbn; [done|].
  case_decide as Hk; [intros [= <-]; cbn; rewrite Hf; congruence|].
  intros (l1 & Hl1 & ->)%fmap_Some. cbn. f_equal. by apply IH.
Qed.

Lemma update_first_None key f l : update_first key f l = None -> key ∉ (dp_device_key <$> l).
Proof.
  induction l as [|p l IH]; cbn; [intros _; apply not_elem_of_nil|].
  case_decide; [done|]. intros Hn%fmap_None. apply not_elem_of_cons. split; [congruence|by apply IH].
Qed.

Lemma find_update_first key f l l' k :
  (forall p, dp_device_key p = key -> dp_device_key (f p) = key) ->
  update_first key f l = Some l' ->
  List.find (fun p => bool_decide (dp_device_key p = k)) l'
  = (fun p => if decide (k = key) then f p else p)
      <$> List.find (fun p => bool_decide (dp_device_key p = k)) l.
Proof.
  intros Hf. revert l'. induction l as [|p l IH]; intros l'; cbn [update_first List.find]; [done|].
  destruct (decide (dp_device_key p = key)) as [Hk|Hk].
  - intros [= <-]. cbn [List.find]. rewrite (Hf p) by done. rewrite Hk. case_bool_decide; [subst; cbn; by rewrite decide_True|].
    destruct (List.find _ l); [cbn; rewrite decide_False; congruence|done].
  - intros (l1 & Hl1 & ->)%fmap_Some. cbn [List.find]. case_bool_decide; [|by apply IH].
    cbn. rewrite decide_False; congruence.
Qed.

Lemma find_None_keys (l : list DeviceProfile) k :
  k ∉ (dp_device_key <$> l) -> List.find (fun p => bool_decide (dp_device_key p = k)) l = None.
Proof.
  induction l as [|p l IH]; cbn; [done|]. intros [Hne Hl]%not_elem_of_cons.
  rewrite bool_decide_false by congruence. by apply IH.
Qed.

Lemma find_app {A} (f : A -> bool) l1 l2 :
  List.find f (l1 ++ l2) = match List.find f l1 with Some x => Some x | None => List.find f l2 end.
Proof. induction l1; cbn; [done|]. by destruct (f a). Qed.

(** [register] is an upsert: the profile is found under its key, every other key
    keeps what it had, and keys stay unique. *)
Lemma registry_register_spec r profile :
  registry_ok r ->
  registry_ok (DeviceRegistry_register r profile)
  /\ forall node dev, DeviceRegistry_get (DeviceRegistry_register r profile) node dev
       = if decide ((node, dev) = dp_device_key profile) then Some profile else DeviceRegistry_get r node dev.
Proof.
  intros Hr. unfold DeviceRegistry_register, registry_ok, DeviceRegistry_get in *.
  assert (Hf : forall p, dp_device_key p = dp_device_key profile ->
            dp_device_key ((fun _ => profile) p) = dp_device_key profile) by done.
  destruct (update_first _ _ _) as [l|] eqn:E; cbn [dr_profiles set_field].
  - split; [rewrite (update_first_keys _ _ _ _ Hf E); done|]. intros node dev.
    rewrite (find_update_first _ _ _ _ (node, dev) Hf E). case_decide as Hk.
    + destruct (List.find _ (dr_profiles r)) eqn:Ef; [done|]. exfalso.
      revert E Ef. rewrite Hk. generalize (dr_profiles r) as l0. intros l0. revert l.
      induction l0 as [|p l0 IH]; intros l; cbn; [done|].
      case_decide; [by rewrite bool_decide_true|]. rewrite bool_decide_false by done.
      intros (l1 & ? & _)%fmap_Some. by apply (IH l1).
    + by destruct (List.find _ _).
  - apply update_first_None in E. split.
    + rewrite fmap_app. cbn. apply NoDup_app. split; [done|]. split; [|apply NoDup_singleton].
      intros x Hx ->%list_elem_of_singleton. done.
    + intros node dev. rewrite find_app. cbn. case_decide as Hk.
      * rewrite find_None_keys by (by rewrite Hk). by rewrite bool_decide_true by congruence.
      * rewrite bool_decide_false by congruence. by destruct (List.find _ _).
Qed.

(** ** The chosen device *)

Lemma best_device_loop weights req lat pin size (l : list DeviceProfile) best :
  (forall k s, best = Some (k, s) -> exists p, dp_device_key p = k /\ suitable pin size p = true
     /\ s = device_score weights req lat p) ->
  match foldl (fun (best : option (Z * Z * f64)) p =>
    if suitable pin size p then
      let score := device_score weights req lat p in
      match best with
      | None => Some (dp_device_key p, score)
      | Some (_, best_score) =>
        if f64_ltb score best_score then Some (dp_device_key p, score) else best
      end
    else best) best l with
  | Some (k, s) =>
    (best = Some (k, s)
     \/ exists p, p ∈ l /\ dp_device_key p = k /\ suitable pin size p = true /\ s = device_score weights req lat p)
    /\ (forall q, q ∈ l -> suitable pin size q = true -> f64_ltb (device_score weights req lat q) s = false)
    /\ (forall k0 s0, best = Some (k0, s0) -> s = s0 \/ f64_ltb s s0 = true)
  | None => best = None /\ forall q, q ∈ l -> suitable pin size q = false
  end.
Proof.
  assert (Hirr : forall x, f64_ltb x x = false).
  { intros x. unfold f64_ltb, SFltb.
    assert (Hp : forall m, Pos.compare_cont Eq m m = Eq) by (intros; apply Pos.compare_refl).
    destruct x as [[]|[]| |[] m e]; cbn; try done; rewrite Z.compare_refl; by rewrite Hp. }
  revert best. induction l as [|p l IH]; intros best Hb; cbn [foldl].
  { destruct best as [[k s]|].
    - split; [by left|]. split; [by intros ? ?%elem_of_nil|]. intros k0 s0 [= -> ->]. by left.
    - split; [done|]. by intros ? ?%elem_of_nil. }
  destruct (suitable pin size p) eqn:Es.
  2: { specialize (IH best Hb). destruct (foldl _ best l) as [[k s]|].
       - destruct IH as (H1 & H2 & H3). split; [|split; [|done]].
         + destruct H1 as [?|(q & ? & ?)]; [by left|]. right. exists q. split; [by right|done].
         + intros q [->|Hq]%elem_of_cons Hs; [congruence|auto].
       - destruct IH as [-> H2]. split; [done|]. intros q [->|Hq]%elem_of_cons; auto. }
  cbv zeta. set (sp := device_score weights req lat p).
  set (best' := match best with None => Some (dp_device_key p, sp)
                | Some (_, bs) => if f64_ltb sp bs then Some (dp_device_key p, sp) else best end).
  assert (Hb' : forall k s, best' = Some (k, s) -> exists q, dp_device_key q = k
            /\ suitable pin size q = true /\ s = device_score weights req lat q).
  { intros k s. unfold best'. destruct best as [[k0 s0]|]; [destruct (f64_ltb sp s0)|]; intros Heq;
      [|by apply Hb|]; injection Heq as <- <-; by exists p. }
  specialize (IH best' Hb'). destruct (foldl _ best' l) as [[k s]|].
  2: { destruct IH as [IH _]. unfold best' in IH. by destruct best as [[? bs]|]; [destruct (f64_ltb sp bs)|]. }
  destruct IH as (H1 & H2 & H3).
  (* the winner is not worse than [p] nor than the old best *)
  assert (Hp : f64_ltb sp s = false).
  { destruct (f64_ltb sp s) eqn:E; [|done]. exfalso. unfold best' in H3.
    assert (Hsp : ~ (s = sp \/ f64_ltb s sp = true)).
    { intros [->|H]; [by rewrite Hirr in E|]. pose proof (f64_ltb_trans _ _ _ E H) as Hc. by rewrite Hirr in Hc. }
    destruct best as [[k0 s0]|]; [destruct (f64_ltb sp s0) eqn:E0|]; [by apply Hsp, (H3 _ _ eq_refl)| |].
    - destruct (H3 _ _ eq_refl) as [->|H]; [congruence|].
      pose proof (f64_ltb_trans _ _ _ E H). congruence.
    - by apply Hsp, (H3 _ _ eq_refl). }
  split; [|split].
  - destruct H1 as [H1|(q & ? & ?)]; [|right; exists q; split; [by right|done]].
    unfold best' in H1. destruct best as [[k0 s0]|]; [destruct (f64_ltb sp s0)|];
      [| by left |]; injection H1 as <- <-; right; exists p; (split; [by left|done]).
  - intros q [->|Hq]%elem_of_cons Hs; [done|auto].
  - intros k0 s0 ->. unfold best' in H3. destruct (f64_ltb sp s0) eqn:E0; [|by apply (H3 k0)].
    right. destruct (H3 _ _ eq_refl) as [->|H]; [done|]. by apply (f64_ltb_trans _ sp).
Qed.

(** ** Properties *)

(** Placement picks the cheapest suitable device. The device chosen by [best_device]
    is registered, has enough free bytes and the pinned kind, and no other suitable device scores
    lower under the cost function; no device is chosen only when none is suitable. *)
Theorem best_device_cheapest r req lat cap pin size :
  match DeviceRegistry_best_device r req lat cap pin size with
  | Some key => exists p, p ∈ dr_profiles r /\ dp_device_key p = key
      /\ size <= DeviceProfile_free_bytes p
      /\ (forall kind, pin = Some kind -> dp_kind p = kind)
      /\ forall q, q ∈ dr_profiles r -> suitable pin size q = true ->
           f64_ltb (device_score (dr_cost_weights r) req lat q)
                   (device_score (dr_cost_weights r) req lat p) = false
  | None => forall q, q ∈ dr_profiles r -> suitable pin size q = false
  end.
Proof.
  unfold DeviceRegistry_best_device.
  pose proof (best_device_loop (dr_cost_weights r) req lat pin size (dr_profiles r) None) as H.
  destruct (foldl _ None _) as [[k s]|]; cbn [fmap option_fmap option_map fst].
  - destruct H as ([|(p & Hp & Hk & Hs & ->)] & Hmin & _); [by intros|done|].
    exists p. split; [done|]. split; [done|]. unfold suitable in Hs.
    apply andb_true_iff in Hs as [Hfree Hpin]. zbool. split; [done|]. split; [|done].
    intros kind ->. by apply bool_decide_eq_true in Hpin.
  - by apply H.
Qed.
