(* ===== verification/Placer.v ===== *)
(** * Placer: which device hosts a region

    crates/ub-managed/src/placer.rs. The sub-allocators are shared [Arc]s, one
    per device; the registry is the placer's own view of the shared
    [DeviceRegistry]. *)

From S2P Require Import Prelude Bytes Types Addr Float Config SubAlloc Registry.
From stdpp Require Import pretty.
#[local] Open Scope Z_scope.

(** Source: crates/ub-managed/src/placer.rs:16-24, [RegionPlacement]. *)
Record RegionPlacement : Type := mkRegionPlacement {
  rp_region_id : Z;
  rp_home_node_id : Z;
  rp_device_id : Z;
  rp_mr_handle : Z;
  rp_base_offset : Z;
  rp_len : Z;
  rp_requester_node_id : Z;
}.

#[global] Instance RegionPlacement_settable : Settable RegionPlacement := fun x =>
  mkRegionPlacement (rp_region_id x) (rp_home_node_id x) (rp_device_id x) (rp_mr_handle x)
    (rp_base_offset x) (rp_len x) (rp_requester_node_id x).

(** Source: crates/ub-managed/src/placer.rs:32-38, [Placer]. *)
Record Placer : Type := mkPlacer {
  pl_registry : DeviceRegistry;
  pl_regions : gmap Z RegionPlacement;
  pl_next_region_id : Z;
  pl_sub_allocators : gmap (Z * Z) SubAllocator;
}.

#[global] Instance Placer_settable : Settable Placer := fun x =>
  mkPlacer (pl_registry x) (pl_regions x) (pl_next_region_id x) (pl_sub_allocators x).

(** Source: crates/ub-managed/src/placer.rs:41-48, [Placer::new]. *)
Definition Placer_new (registry : DeviceRegistry) : Placer := mkPlacer registry ∅ 1 ∅.

(** Source: crates/ub-managed/src/placer.rs:51-54, [Placer::register_sub_allocator]. *)
Definition Placer_register_sub_allocator (p : Placer) (node_id device_id : Z) (allocator : SubAllocator)
  : Placer :=
  p <| pl_sub_allocators := <[(node_id, device_id) := allocator]> (pl_sub_allocators p) |>.

(** Source: crates/ub-managed/src/placer.rs:75-91, [Placer::place].
    The device and the offset found for [hints]; the same lines appear in
    [place_with_id]. *)
Definition reserve (p : Placer) (hints : AllocHints) (requester_node_id : Z)
  : Placer * (string + Z * Z * Z) :=
  match DeviceRegistry_best_device (pl_registry p) requester_node_id (ah_latency_class hints)
          (ah_capacity_class hints) (ah_pin hints) (ah_size hints) with
  | None => (p, inl "no suitable device found for placement"%string)
  | Some (home_node_id, device_id) =>
    match pl_sub_allocators p !! (home_node_id, device_id) with
    | None =>
      (p, inl ("no sub-allocator for device (" +:+ pretty home_node_id +:+ ", " +:+ pretty device_id +:+ ")")%string)
    | Some allocator =>
      let '(allocator, offset) := SubAllocator_alloc allocator (ah_size hints) in
      let p := p <| pl_sub_allocators := <[(home_node_id, device_id) := allocator]> (pl_sub_allocators p) |> in
      match offset with
      | None => (p, inl "insufficient space in device pool"%string)
      | Some base_offset => (p, inr (home_node_id, device_id, base_offset))
      end
    end
  end.

(** Source: crates/ub-managed/src/placer.rs:151-168, [Placer::place_with_id].
    Records the placement and updates the profile; also the end of [place]. *)
Definition record_placement (p : Placer) (hints : AllocHints) (placement : RegionPlacement) : Placer :=
  p <| pl_regions := <[rp_region_id placement := placement]> (pl_regions p) |>
    <| pl_registry := DeviceRegistry_update_dynamic (pl_registry p) (rp_home_node_id placement)
                        (rp_device_id placement) (ah_size hints) 0 |>.

(** Source: crates/ub-managed/src/placer.rs:63-118, [Placer::place]. *)
Definition Placer_place (p : Placer) (hints : AllocHints) (requester_node_id : Z)
  : Placer * (string + Z * RegionPlacement) :=
  match reserve p hints requester_node_id with
  | (p, inl e) => (p, inl e)
  | (p, inr (home_node_id, device_id, base_offset)) =>
    let region_id := pl_next_region_id p in
    let p := p <| pl_next_region_id := wrap 64 (pl_next_region_id p + 1) |> in
    let placement := mkRegionPlacement region_id home_node_id device_id 0 base_offset (ah_size hints)
                       requester_node_id in
    (record_placement p hints placement, inr (UbVa_new region_id 0, placement))
  end.

(** Source: crates/ub-managed/src/placer.rs:121-169, [Placer::place_with_id]. *)
Definition Placer_place_with_id (p : Placer) (region_id : Z) (hints : AllocHints)
    (requester_node_id mr_handle : Z) : Placer * (string + Z * RegionPlacement) :=
  match reserve p hints requester_node_id with
  | (p, inl e) => (p, inl e)
  | (p, inr (home_node_id, device_id, base_offset)) =>
    let placement := mkRegionPlacement region_id home_node_id device_id mr_handle base_offset
                       (ah_size hints) requester_node_id in
    (record_placement p hints placement, inr (UbVa_new region_id 0, placement))
  end.

(** Source: crates/ub-managed/src/placer.rs:172-191, [Placer::free]. *)
Definition Placer_free (p : Placer) (region_id : Z) : Placer * option RegionPlacement :=
  match pl_regions p !! region_id with
  | None => (p, None)
  | Some placement =>
    let p := p <| pl_regions := delete region_id (pl_regions p) |> in
    let key := (rp_home_node_id placement, rp_device_id placement) in
    let p :=
      match pl_sub_allocators p !! key with
      | Some allocator =>
        p <| pl_sub_allocators :=
               <[key := SubAllocator_free allocator (rp_base_offset placement) (rp_len placement)]>
                 (pl_sub_allocators p) |>
      | None => p
      end in
    (p <| pl_registry := DeviceRegistry_update_dynamic (pl_registry p) (rp_home_node_id placement)
                           (rp_device_id placement) 0 0 |>, Some placement)
  end.

(** Source: crates/ub-managed/src/placer.rs:194-196, [Placer::lookup]. *)
Definition Placer_lookup (p : Placer) (region_id : Z) : option RegionPlacement := pl_regions p !! region_id.

(** Source: crates/ub-managed/src/placer.rs:199-207, [Placer::set_mr_handle]. *)
Definition Placer_set_mr_handle (p : Placer) (region_id mr_handle : Z) : Placer * bool :=
  match pl_regions p !! region_id with
  | Some r => (p <| pl_regions := <[region_id := r <| rp_mr_handle := mr_handle |>]> (pl_regions p) |>, true)
  | None => (p, false)
  end.

(** ** Runs *)

Inductive PlacerOp : Type :=
| PlacerOp_place (hints : AllocHints) (requester_node_id : Z)
| PlacerOp_place_with_id (region_id : Z) (hints : AllocHints) (requester_node_id mr_handle : Z)
| PlacerOp_free (region_id : Z)
| PlacerOp_set_mr_handle (region_id mr_handle : Z)
| PlacerOp_registry (registry : DeviceRegistry).

(** The last one stands for any change other holders of the registry make. *)
Definition placer_step (p : Placer) (op : PlacerOp) : Placer :=
  match op with
  | PlacerOp_place hints req => (Placer_place p hints req).1
  | PlacerOp_place_with_id rid hints req mr => (Placer_place_with_id p rid hints req mr).1
  | PlacerOp_free rid => (Placer_free p rid).1
  | PlacerOp_set_mr_handle rid mr => (Placer_set_mr_handle p rid mr).1
  | PlacerOp_registry registry => p <| pl_registry := registry |>
  end.

Definition placer_op_ok (op : PlacerOp) : Prop :=
  match op with
  | PlacerOp_place hints _ | PlacerOp_place_with_id _ hints _ _ => 0 <= ah_size hints < 2 ^ 62
  | _ => True
  end.

Definition device_of (r : RegionPlacement) : Z * Z := (rp_home_node_id r, rp_device_id r).
Definition extent (r : RegionPlacement) : Z * Z := (rp_base_offset r, rp_len r).

Definition allocator_ok (a : SubAllocator) : Prop :=
  0 <= sa_base_offset a /\ 0 <= sa_total_len a < 2 ^ 62
  /\ sa_base_offset a + sa_total_len a < 2 ^ 64 /\ 0 <= sa_allocated a <= sa_total_len a.

(** Regions lie in the allocated part of their device's pool, apart from each other. *)
Record placer_ok (p : Placer) : Prop := {
  plo_alloc : forall k a, pl_sub_allocators p !! k = Some a -> allocator_ok a;
  plo_inside : forall k r, pl_regions p !! k = Some r -> exists a,
    pl_sub_allocators p !! device_of r = Some a
    /\ sa_base_offset a <= rp_base_offset r
    /\ rp_base_offset r + rp_len r <= sa_base_offset a + sa_allocated a;
  plo_separate : forall k1 k2 r1 r2, k1 <> k2 -> pl_regions p !! k1 = Some r1 ->
    pl_regions p !! k2 = Some r2 -> device_of r1 = device_of r2 -> separate (extent r1) (extent r2);
}.

(** Only the regions and the sub-allocators matter. *)
Lemma placer_ok_ext p p' :
  pl_sub_allocators p' = pl_sub_allocators p -> pl_regions p' = pl_regions p ->
  placer_ok p -> placer_ok p'.
Proof. intros Ha Hr [? ? ?]. constructor; rewrite ?Ha, ?Hr; done. Qed.

(** A successful reservation takes fresh memory of the device. *)
Lemma reserve_spec p hints req :
  placer_ok p -> 0 <= ah_size hints < 2 ^ 62 ->
  match reserve p hints req with
  | (p', inl _) => placer_ok p'
  | (p', inr (node, dev, off)) => exists a,
      pl_sub_allocators p !! (node, dev) = Some a /\ off = sa_base_offset a + sa_allocated a
      /\ sa_allocated a + ah_size hints <= sa_total_len a
      /\ p' = p <| pl_sub_allocators := <[(node, dev) :=
                     a <| sa_allocated := sa_allocated a + ah_size hints |>]> (pl_sub_allocators p) |>
  end.
Proof.
  intros Hp Hs. unfold reserve. destruct (DeviceRegistry_best_device _ _ _ _ _ _) as [[node dev]|]; [|done].
  destruct (pl_sub_allocators p !! (node, dev)) as [a|] eqn:E; [|done].
  destruct (plo_alloc _ Hp _ _ E) as (? & ? & ? & ?).
  rewrite SubAllocator_alloc_spec by lia. destruct (_ <? _) eqn:El; zbool.
  - eapply placer_ok_ext; [..|exact Hp]; [cbn; by rewrite insert_id|done].
  - exists a. rewrite wrap_small by (unfold fits; lia). done.
Qed.

(** Recording a placement in the memory just reserved. *)
Lemma placer_ok_record p p' hints placement a :
  placer_ok p -> 0 <= ah_size hints ->
  pl_sub_allocators p !! device_of placement = Some a ->
  sa_allocated a + ah_size hints <= sa_total_len a ->
  extent placement = (sa_base_offset a + sa_allocated a, ah_size hints) ->
  pl_regions p' = pl_regions p ->
  pl_sub_allocators p' = <[device_of placement := a <| sa_allocated := sa_allocated a + ah_size hints |>]>
                           (pl_sub_allocators p) ->
  placer_ok (record_placement p' hints placement).
Proof.
  intros [Hal Hin Hsep] Hs Ha Hfits Hext Hr Hsub. injection Hext as Hoff Hlen.
  assert (Hbelow : forall k r, pl_regions p !! k = Some r -> device_of r = device_of placement ->
            separate (extent r) (extent placement)).
  { intros k r Hk Hd. destruct (Hin k r Hk) as (a' & Ha' & ? & ?). rewrite Hd, Ha in Ha'.
    injection Ha' as <-. left. cbn. lia. }
  constructor; unfold record_placement; cbn; rewrite ?Hr, ?Hsub.
  - intros k a' [[<- <-]|[_ ?]]%lookup_insert_Some; [|eauto].
    destruct (Hal _ _ Ha) as (? & ? & ? & ?). unfold allocator_ok. cbn. lia.
  - intros k r [[<- <-]|[_ Hk]]%lookup_insert_Some.
    + eexists. split; [apply lookup_insert_eq|]. cbn. destruct (Hal _ _ Ha) as (? & ? & ? & ?). lia.
    + destruct (Hin k r Hk) as (a' & Ha' & ? & ?).
      destruct (decide (device_of r = device_of placement)) as [Hd|Hd].
      * rewrite Hd. eexists. split; [apply lookup_insert_eq|]. cbn.
        assert (a' = a) as -> by congruence. lia.
      * rewrite lookup_insert_ne by congruence. eauto.
  - intros k1 k2 r1 r2 Hne [[<- <-]|[_ H1]]%lookup_insert_Some [[<- <-]|[_ H2]]%lookup_insert_Some Hd;
      [done| | |by eapply Hsep].
    + destruct (Hbelow _ _ H2 (eq_sym Hd)); [by right|by left].
    + by eapply Hbelow.
Qed.

Lemma placer_step_ok p op : placer_ok p -> placer_op_ok op -> placer_ok (placer_step p op).
Proof.
  intros Hp Hop. destruct op; cbn [placer_step placer_op_ok] in *.
  - unfold Placer_place. pose proof (reserve_spec p hints requester_node_id Hp Hop) as H.
    destruct (reserve _ _ _) as [p' [e|[[node dev] off]]]; [done|].
    destruct H as (a & Ha & -> & Hfits & ->). cbn [fst].
    eapply (placer_ok_record p _ hints _ a); [done|lia|done..].
  - unfold Placer_place_with_id. pose proof (reserve_spec p hints requester_node_id Hp Hop) as H.
    destruct (reserve _ _ _) as [p' [e|[[node dev] off]]]; [done|].
    destruct H as (a & Ha & -> & Hfits & ->). cbn [fst].
    eapply (placer_ok_record p _ hints _ a); [done|lia|done..].
  - unfold Placer_free. destruct (pl_regions p !! region_id) as [r|] eqn:E; [|done]. cbn [fst].
    apply (placer_ok_ext (p <| pl_regions := delete region_id (pl_regions p) |>)).
    + cbn. destruct (pl_sub_allocators p !! _) as [a|] eqn:Ea; [cbn; by rewrite insert_id|done].
    + cbn. by destruct (pl_sub_allocators p !! _).
    + destruct Hp as [Hal Hin Hsep]. constructor; cbn; [done| |].
      * intros k x [_ ?]%lookup_delete_Some. eauto.
      * intros k1 k2 r1 r2 Hne [_ ?]%lookup_delete_Some [_ ?]%lookup_delete_Some. eauto.
  - unfold Placer_set_mr_handle. destruct (pl_regions p !! region_id) as [r|] eqn:E; [|done].
    destruct Hp as [Hal Hin Hsep]. constructor; cbn; [done| |].
    + intros k x [[<- <-]|[_ ?]]%lookup_insert_Some; [exact (Hin region_id r E)|eauto].
    + intros k1 k2 r1 r2 Hne [[<- <-]|[_ ?]]%lookup_insert_Some [[<- <-]|[_ ?]]%lookup_insert_Some Hd;
        [done|by apply (Hsep region_id k2 r r2)|by apply (Hsep k1 region_id r1 r)|by apply (Hsep k1 k2)].
  - by apply (placer_ok_ext p).
Qed.

(** A placer with a fresh pool per device, as set up at start. *)
Definition placer_with (registry : DeviceRegistry) (pools : list (Z * Z * Z * Z)) : Placer :=
  foldl (fun p '(node, dev, base, len) => Placer_register_sub_allocator p node dev (SubAllocator_new base len))
    (Placer_new registry) pools.

Definition pool_range_ok (pool : Z * Z * Z * Z) : Prop :=
  let '(_, _, base, len) := pool in 0 <= base /\ 0 <= len < 2 ^ 62 /\ base + len < 2 ^ 64.

Lemma placer_with_ok registry pools : Forall pool_range_ok pools -> placer_ok (placer_with registry pools).
Proof.
  assert (Hgen : forall p, placer_ok p -> pl_regions p = ∅ -> Forall pool_range_ok pools ->
    placer_ok (foldl (fun p '(node, dev, base, len) =>
      Placer_register_sub_allocator p node dev (SubAllocator_new base len)) p pools)).
  { induction pools as [|[[[node dev] base] len] pools IH]; intros p Hp Hr Hok; [done|].
    apply Forall_cons in Hok as [(? & ? & ?) Hok]. cbn [foldl]. apply IH; [|done|done].
    destruct Hp as [Hal _ _]. constructor; cbn; rewrite ?Hr.
    - intros k a [[<- <-]|[_ ?]]%lookup_insert_Some; [|eauto]. unfold allocator_ok. cbn. lia.
    - by intros ? ? ?%lookup_empty_Some.
    - by intros ? ? ? ? _ ?%lookup_empty_Some. }
  apply Hgen; [|done]. constructor; cbn; [by intros ? ? ?%lookup_empty_Some..|by intros ? ? ? ? _ ?%lookup_empty_Some].
Qed.

(** ** Properties *)

(** C27 (invariant): Regions never share memory. Let pools and placements be shorter than 2^62 bytes. After any sequence of placements (with fresh or given
    ids), frees, handle updates and changes to the device registry, two live regions on the same
    device occupy disjoint ranges, and every live region lies inside the pool its device was given. *)
Theorem placer_regions_disjoint registry pools ops :
  Forall pool_range_ok pools -> Forall placer_op_ok ops ->
  let p := foldl placer_step (placer_with registry pools) ops in
  (forall k1 k2 r1 r2, k1 <> k2 -> Placer_lookup p k1 = Some r1 -> Placer_lookup p k2 = Some r2 ->
     device_of r1 = device_of r2 -> separate (extent r1) (extent r2))
  /\ (forall k r, Placer_lookup p k = Some r -> exists a,
        pl_sub_allocators p !! device_of r = Some a
        /\ sa_base_offset a <= rp_base_offset r
        /\ rp_base_offset r + rp_len r <= sa_base_offset a + sa_total_len a).
Proof.
  intros Hpools Hops p.
  assert (Hp : placer_ok p).
  { unfold p. pose proof (placer_with_ok registry pools Hpools) as H. revert H.
    generalize (placer_with registry pools). clear -Hops.
    induction ops as [|op ops IH]; intros p0 H0; [done|].
    apply Forall_cons in Hops as [? ?]. cbn [foldl]. apply IH; [done|by apply placer_step_ok]. }
  destruct Hp as [Hal Hin Hsep]. split; [apply Hsep|].
  intros k r Hk. destruct (Hin k r Hk) as (a & Ha & ? & ?). exists a. split; [done|].
  destruct (Hal _ _ Ha) as (? & ? & ? & ?). lia.
Qed.

Definition sample_registry : DeviceRegistry :=
  DeviceRegistry_register_all (DeviceRegistry_new CostWeights_default)
    [DeviceProfile_memory_default 1 1000; DeviceProfile_npu_default 2 1 1000].

Definition sample_placements : list PlacerOp :=
  [PlacerOp_place (mkAllocHints 100 AccessPattern_Mixed LatencyClass_Normal CapacityClass_Small None 0) 1;
   PlacerOp_place (mkAllocHints 50 AccessPattern_Mixed LatencyClass_Normal CapacityClass_Small None 0) 1].

(** Both go to the local memory device: it is closer than the NPU of node 2. *)
Lemma placer_regions_disjoint_witness : separate (0, 100) (100, 50).
Proof.
  apply (proj1 (placer_regions_disjoint sample_registry [(1, 0, 0, 1000); (2, 1, 0, 1000)] sample_placements
    ltac:(repeat constructor; cbn; lia) ltac:(repeat constructor; cbn; lia)) 1 2
    (mkRegionPlacement 1 1 0 0 0 100 1) (mkRegionPlacement 2 1 0 0 100 50 1));
    [discriminate|vm_compute; reflexivity|vm_compute; reflexivity|reflexivity].
Defined.

(** [update_dynamic] is told the size of the last region, not the bytes in use:
    after placing 100 and then 50 bytes the profile shows 50 bytes used. *)
Example used_bytes_not_accumulated :
  dp_used_bytes <$> DeviceRegistry_get
    (pl_registry (foldl placer_step (placer_with sample_registry [(1, 0, 0, 1000); (2, 1, 0, 1000)])
       sample_placements)) 1 0 = Some 50.
Proof. vm_compute. reflexivity. Qed.
