(* ===== verification/Json.v ===== *)
(** * Json: the values of the admin API

    The part of [serde_json::Value] the daemon and the command-line client
    exchange, with serde's reading of a struct from an object: a field is looked
    up by name, a missing field takes its [#[serde(default)]] or is an error, an
    integer must fit the width of its type, unknown fields are ignored. A number is
    an integer here; the API has no others. A string is its bytes. *)

From S2P Require Import Prelude Bytes Types.
From stdpp Require Import pretty.
#[local] Open Scope Z_scope.

Inductive Json : Type :=
| JNull
| JBool (b : bool)
| JNum (n : Z)
| JStr (s : bytes)
| JArr (l : list Json)
| JObj (fields : list (string * Json)).

(** A field of an object. *)
Notation "k :- v" := (k%string, v) (at level 60, v at next level, no associativity, only parsing) : ub_scope.

(** [body.get(name)]: a key appears once in an object. *)
Definition json_get (j : Json) (name : string) : option Json :=
  match j with
  | JObj fields => snd <$> List.find (fun f => bool_decide (f.1 = name)) fields
  | _ => None
  end.

(** [v.as_u64()], [v.as_str()], [v.as_bool()], [v.as_null()], [v.as_array()] *)
Definition as_u64 (j : Json) : option Z :=
  match j with JNum n => if (0 <=? n) && (n <? 2 ^ 64) then Some n else None | _ => None end.
Definition as_str (j : Json) : option bytes := match j with JStr s => Some s | _ => None end.
Definition as_bool (j : Json) : option bool := match j with JBool b => Some b | _ => None end.
Definition as_null (j : Json) : option unit := match j with JNull => Some tt | _ => None end.
Definition as_array (j : Json) : option (list Json) := match j with JArr l => Some l | _ => None end.

(** [json!(data)] for a [Vec<u8>]. *)
Definition json_bytes (data : bytes) : Json := JArr (map JNum data).

(** [json!(o)] for an [Option]. *)
Definition json_opt {A} (f : A -> Json) (o : option A) : Json :=
  match o with Some a => f a | None => JNull end.

(** A literal, and a decimal integer as text. *)
Definition jstr (s : string) : Json := JStr (str s).
Definition decimal (n : Z) : bytes := str (pretty n).

(** ** Deserialization *)

(** An unsigned integer of [w] bits. *)
Definition from_uint (w : Z) (j : Json) : option Z :=
  match j with
  | JNum n => if (0 <=? n) && (n <? 2 ^ w) then Some n else None
  | _ => None
  end.

Fixpoint all_some {A} (l : list (option A)) : option (list A) :=
  match l with
  | [] => Some []
  | o :: l => a ← o; rest ← all_some l; Some (a :: rest)
  end.

Definition from_vec {A} (f : Json -> option A) (j : Json) : option (list A) :=
  match j with JArr l => all_some (map f l) | _ => None end.

(** [Option<T>]: [null] is [None]. *)
Definition from_option {A} (f : Json -> option A) (j : Json) : option (option A) :=
  match j with JNull => Some None | _ => Some <$> f j end.

(** A required field, and one with a default. *)
Definition field {A} (f : Json -> option A) (j : Json) (name : string) : option A :=
  v ← json_get j name; f v.
Definition field_or {A} (f : Json -> option A) (dflt : A) (j : Json) (name : string) : option A :=
  match json_get j name with Some v => f v | None => Some dflt end.

Lemma from_uint_num w n : fits w n -> from_uint w (JNum n) = Some n.
Proof. intros [H1 H2]. cbn. by rewrite (proj2 (Z.leb_le _ _) H1), (proj2 (Z.ltb_lt _ _) H2). Qed.

Lemma from_vec_bytes data : Forall u8 data -> from_vec (from_uint 8) (json_bytes data) = Some data.
Proof.
  unfold from_vec, json_bytes. induction 1 as [|b data Hb _ IH]; [done|].
  cbn [map all_some]. rewrite from_uint_num by done. cbn. cbn in IH. by rewrite IH.
Qed.

(** ** Errors *)

(** Source: crates/ub-core/src/error.rs:34-68, [Display for UbError].
    Interpolated details are dropped, as in [UbError]. *)
Definition UbError_display (e : UbError) : bytes :=
  str match e with
      | AddrInvalid => "address invalid"
      | PermDenied => "permission denied"
      | Alignment => "alignment error: address must be 8-byte aligned for atomic operations"
      | LinkDown => "link down"
      | NoResources => "no resources"
      | Timeout => "timeout"
      | PayloadTooLarge => "payload too large"
      | Flushed => "flushed"
      | Internal msg => "internal error: " +:+ msg
      | Io msg => "IO error: " +:+ msg
      | Config msg => "config error: " +:+ msg
      end.

(** [json!({"error": ..})] with a literal, and [json!({"error": format!("{}", e)})] *)
Definition json_error (msg : string) : Json := JObj [("error"%string, jstr msg)].
Definition error_reply (e : UbError) : Json := JObj [("error"%string, JStr (UbError_display e))].

(** [json!({"status": "ok"})] *)
Definition status_ok : Json := JObj [("status"%string, jstr "ok")].

(** Source: crates/ub-core/src/types.rs:348-358, [Display for NodeState]. *)
Definition NodeState_display (s : NodeState) : bytes :=
  str match s with
      | NodeState_Joining => "Joining"
      | NodeState_Active => "Active"
      | NodeState_Suspect => "Suspect"
      | NodeState_Leaving => "Leaving"
      | NodeState_Down => "Down"
      end.

(** ** Derived [Debug] texts *)

Definition DeviceKind_debug (k : DeviceKind) : bytes :=
  str match k with DeviceKind_Memory => "Memory" | DeviceKind_Npu => "Npu" end.

Definition StorageTier_debug (t : StorageTier) : bytes :=
  str match t with StorageTier_Hot => "Hot" | StorageTier_Warm => "Warm" | StorageTier_Cold => "Cold" end.

Definition MrState_debug (s : MrState) : bytes :=
  str match s with
      | MrState_Active => "Active"
      | MrState_Revoking => "Revoking"
      | MrState_Released => "Released"
      end.

Definition RegionState_debug (s : RegionState) : bytes :=
  match s with
  | RegionState_Invalid => str "Invalid"
  | RegionState_Shared epoch => str "Shared(" ++ decimal epoch ++ str ")"
  | RegionState_Home => str "Home"
  end.

Definition Verb_debug (v : Verb) : bytes :=
  str match v with
      | Verb_ReadReq => "ReadReq"
      | Verb_ReadResp => "ReadResp"
      | Verb_Write => "Write"
      | Verb_AtomicCas => "AtomicCas"
      | Verb_AtomicFaa => "AtomicFaa"
      | Verb_Send => "Send"
      | Verb_WriteImm => "WriteImm"
      | Verb_AtomicCasResp => "AtomicCasResp"
      | Verb_AtomicFaaResp => "AtomicFaaResp"
      end.
