(* ===== verification/Text.v ===== *)
(** * Text: strings of the admin API

    What the daemon uses of the standard library to read and print text:
    [String::from_utf8_lossy], [trim_end_matches], [trim_start_matches],
    [ParseIntError] and [{:.2}]. A string is its bytes. *)

From S2P Require Import Prelude Bytes Addr Float Json.
#[local] Open Scope Z_scope.

(** ** [String::from_utf8_lossy] *)

(** U+FFFD *)
Definition replacement : bytes := [239; 191; 189].

(** Whether [b1] may follow [b0] in a sequence of three, of four bytes. *)
Definition second_of_3 (b0 b1 : Z) : bool :=
  (b0 =? 224) && in_range 160 191 b1
  || in_range 225 236 b0 && utf8_cont b1
  || (b0 =? 237) && in_range 128 159 b1
  || in_range 238 239 b0 && utf8_cont b1.
Definition second_of_4 (b0 b1 : Z) : bool :=
  (b0 =? 240) && in_range 144 191 b1
  || in_range 241 243 b0 && utf8_cont b1
  || (b0 =? 244) && in_range 128 143 b1.

(** Every maximal prefix of a sequence that breaks off becomes one replacement
    character. *)
Fixpoint from_utf8_lossy (l : bytes) : bytes :=
  match l with
  | [] => []
  | b0 :: r0 =>
    if b0 <? 128 then b0 :: from_utf8_lossy r0
    else
      match r0 with
      | [] => replacement
      | b1 :: r1 =>
        if in_range 194 223 b0
        then if utf8_cont b1 then b0 :: b1 :: from_utf8_lossy r1 else replacement ++ from_utf8_lossy r0
        else if second_of_3 b0 b1 then
          match r1 with
          | [] => replacement
          | b2 :: r2 =>
            if utf8_cont b2 then b0 :: b1 :: b2 :: from_utf8_lossy r2
            else replacement ++ from_utf8_lossy r1
          end
        else if second_of_4 b0 b1 then
          match r1 with
          | [] => replacement
          | b2 :: r2 =>
            if utf8_cont b2 then
              match r2 with
              | [] => replacement
              | b3 :: r3 =>
                if utf8_cont b3 then b0 :: b1 :: b2 :: b3 :: from_utf8_lossy r3
                else replacement ++ from_utf8_lossy r2
              end
            else replacement ++ from_utf8_lossy r1
          end
        else replacement ++ from_utf8_lossy r0
      end
  end.

(** Induction over the characters of a string. *)
Lemma utf8_ind (P : bytes -> Prop) :
  P [] ->
  (forall b0 r, b0 < 128 -> P r -> P (b0 :: r)) ->
  (forall b0 b1 r, 128 <= b0 -> in_range 194 223 b0 = true -> utf8_cont b1 = true -> P r ->
     P (b0 :: b1 :: r)) ->
  (forall b0 b1 b2 r, 128 <= b0 -> in_range 194 223 b0 = false -> second_of_3 b0 b1 = true ->
     utf8_cont b2 = true -> P r -> P (b0 :: b1 :: b2 :: r)) ->
  (forall b0 b1 b2 b3 r, 128 <= b0 -> in_range 194 223 b0 = false -> second_of_3 b0 b1 = false ->
     second_of_4 b0 b1 = true -> utf8_cont b2 = true -> utf8_cont b3 = true -> P r ->
     P (b0 :: b1 :: b2 :: b3 :: r)) ->
  forall l, utf8_valid l = true -> P l.
Proof.
  intros H0 H1 H2 H3 H4 l. remember (length l) as n eqn:Hn. revert l Hn.
  induction (lt_wf n) as [n _ IH]. intros l -> Hv.
  destruct l as [|b0 r0]; [done|]. cbn [utf8_valid] in Hv.
  destruct (b0 <? 128) eqn:E0; zbool.
  { apply H1; [done|]. eapply IH; [|done..]. cbn. lia. }
  destruct r0 as [|b1 r1]; [done|]. destruct (in_range 194 223 b0) eqn:E1.
  { apply andb_true_iff in Hv as [??]. apply H2; [done..|]. eapply IH; [|done..]. cbn. lia. }
  destruct r1 as [|b2 r2]; [done|]. fold (second_of_3 b0 b1) in Hv.
  destruct (second_of_3 b0 b1) eqn:E2.
  { apply andb_true_iff in Hv as [??]. apply H3; [done..|]. eapply IH; [|done..]. cbn. lia. }
  destruct r2 as [|b3 r3]; [done|]. fold (second_of_4 b0 b1) in Hv.
  rewrite !andb_true_iff in Hv. destruct Hv as [[[??]?]?].
  apply H4; [done..|]. eapply IH; [|done..]. cbn. lia.
Qed.

Lemma from_utf8_lossy_valid l : utf8_valid l = true -> from_utf8_lossy l = l.
Proof.
  revert l. apply utf8_ind; [done|..]; intros; cbn [from_utf8_lossy];
    rewrite ?(proj2 (Z.ltb_lt b0 128)), ?(proj2 (Z.ltb_ge b0 128)) by lia;
    by repeat match goal with H : _ = _ |- _ => rewrite H end.
Qed.

Lemma utf8_valid_app l l' : utf8_valid l = true -> utf8_valid l' = true -> utf8_valid (l ++ l') = true.
Proof.
  intros Hl Hl'. revert l Hl. apply utf8_ind; [done|..]; intros; cbn [app utf8_valid];
    rewrite ?(proj2 (Z.ltb_lt b0 128)), ?(proj2 (Z.ltb_ge b0 128)) by lia; [done|..];
    unfold second_of_3, second_of_4 in *; by repeat match goal with H : _ = _ |- _ => rewrite H end.
Qed.

Lemma utf8_valid_zeros n : utf8_valid (repeat 0 n) = true.
Proof. by induction n. Qed.

(** ** Trimming *)

(** [s.trim_end_matches(c)] for a one-byte character. *)
Definition trim_end_matches (c : Z) (s : bytes) : bytes :=
  foldr (fun b acc => match acc with [] => if b =? c then [] else [b] | _ => b :: acc end) [] s.

(** [s.trim_start_matches(p)] *)
Fixpoint trim_start_matches (fuel : nat) (p s : bytes) : bytes :=
  match fuel, strip_prefix p s with
  | S fuel, Some s => trim_start_matches fuel p s
  | _, _ => s
  end.

Lemma trim_end_zeros n : trim_end_matches 0 (repeat 0 n) = [].
Proof. unfold trim_end_matches. induction n as [|n IH]; [done|]. cbn [repeat foldr]. by rewrite IH. Qed.

(** Padding is trimmed off again when the text does not itself end in it. *)
Lemma trim_end_padded s n : last s <> Some 0 -> trim_end_matches 0 (s ++ repeat 0 n) = s.
Proof.
  induction s as [|b s IH]; intros Hl; [apply trim_end_zeros|].
  cbn [app trim_end_matches foldr]. fold (trim_end_matches 0 (s ++ repeat 0 n)).
  destruct s as [|b' s].
  - cbn [app]. rewrite trim_end_zeros. destruct (b =? 0) eqn:E; zbool; [by subst|done].
  - rewrite IH by done. done.
Qed.

(** ** Numbers *)

(** [Display for ParseIntError] of what [from_str_radix(s, 16)] rejects: the first
    digit that is none, or too many of them. *)
Definition digit_error : string := "invalid digit found in string".
Definition overflow_error : string := "number too large to fit in target type".

Fixpoint hex_error (w acc : Z) (s : bytes) : string :=
  match s with
  | [] => overflow_error
  | c :: s =>
    match hex_value c with
    | None => digit_error
    | Some d => if acc * 16 + d <? 2 ^ w then hex_error w (acc * 16 + d) s else overflow_error
    end
  end.

Definition parse_int_error (w : Z) (s : bytes) : bytes :=
  str match s with
      | [] => "cannot parse integer from empty string"
      | [c] => if (c =? 43) || (c =? 45) then digit_error else hex_error w 0 s
      | c :: s' => if c =? 43 then hex_error w 0 s' else hex_error w 0 s
      end.

(** [format!("{:.2}", x)] of a number that is not negative: the exact value
    rounded to the nearest hundredth, ties to even. *)
Definition f64_fixed2 (x : f64) : bytes :=
  match x with
  | S754_nan => str "NaN"
  | S754_infinity _ => str "inf"
  | S754_zero _ => str "0.00"
  | S754_finite _ m e =>
    let n :=
      if 0 <=? e then Zpos m * 2 ^ e * 100
      else
        let d := 2 ^ (- e) in
        let q := Zpos m * 100 / d in
        let r := Zpos m * 100 mod d in
        if 2 * r <? d then q
        else if d <? 2 * r then q + 1
        else q + q mod 2 in
    decimal (n / 100) ++ str "." ++ decimal (n / 10 mod 10) ++ decimal (n mod 10)
  end.

Example f64_fixed2_quarter : f64_fixed2 (f64_lit 3 (-2)) = str "0.75".
Proof. reflexivity. Qed.
Example f64_fixed2_tie : f64_fixed2 (f64_lit 1 (-3)) = str "0.12".
Proof. reflexivity. Qed.
Example from_utf8_lossy_cut : from_utf8_lossy [97; 226; 130; 98; 255] = [97] ++ replacement ++ [98] ++ replacement.
Proof. reflexivity. Qed.
