(* ===== verification/Api.v ===== *)
(** * Api: the requests of the admin API

    crates/unibusd/src/main.rs: the bodies the handlers take and the parsers of
    their text fields. serde reads a body from an object: required fields, fields
    with a default, [Option] fields that may be missing. (serde would also take an
    array of the fields in order; no client sends one.) *)

From S2P Require Import Prelude Bytes Types Addr Float Json Text.
#[local] Open Scope Z_scope.

Definition from_object {A} (f : Json -> option A) (j : Json) : option A :=
  match j with JObj _ => f j | _ => None end.

(** ** Bodies *)

(** Source: crates/unibusd/src/main.rs:49-54, [MrRegisterRequest]. *)
Record MrRegisterRequest : Type := mkMrRegisterRequest {
  mrr_device_kind : bytes;
  mrr_len : Z;
  mrr_perms : bytes;
}.

(** Source: crates/unibusd/src/main.rs:49-54, [Deserialize for MrRegisterRequest]. *)
Definition MrRegisterRequest_deserialize : Json -> option MrRegisterRequest := from_object (fun j =>
  device_kind ← field as_str j "device_kind";
  len ← field (from_uint 64) j "len";
  perms ← field as_str j "perms";
  Some (mkMrRegisterRequest device_kind len perms)).

(** Source: crates/unibusd/src/main.rs:56-59, [MrDeregisterRequest]. *)
Record MrDeregisterRequest : Type := mkMrDeregisterRequest {
  mdr_mr_handle : Z;
}.

(** Source: crates/unibusd/src/main.rs:56-59, [Deserialize for MrDeregisterRequest]. *)
Definition MrDeregisterRequest_deserialize : Json -> option MrDeregisterRequest := from_object (fun j =>
  mr_handle ← field (from_uint 32) j "mr_handle";
  Some (mkMrDeregisterRequest mr_handle)).

(** Source: crates/unibusd/src/main.rs:61-65, [VerbWriteRequest]. *)
Record VerbWriteRequest : Type := mkVerbWriteRequest {
  vwr_ub_addr : bytes;
  vwr_data : bytes;
}.

(** Source: crates/unibusd/src/main.rs:61-65, [Deserialize for VerbWriteRequest]. *)
Definition VerbWriteRequest_deserialize : Json -> option VerbWriteRequest := from_object (fun j =>
  ub_addr ← field as_str j "ub_addr";
  data ← field (from_vec (from_uint 8)) j "data";
  Some (mkVerbWriteRequest ub_addr data)).

(** Source: crates/unibusd/src/main.rs:67-71, [VerbReadRequest]. *)
Record VerbReadRequest : Type := mkVerbReadRequest {
  vrr_ub_addr : bytes;
  vrr_len : Z;
}.

(** Source: crates/unibusd/src/main.rs:67-71, [Deserialize for VerbReadRequest]. *)
Definition VerbReadRequest_deserialize : Json -> option VerbReadRequest := from_object (fun j =>
  ub_addr ← field as_str j "ub_addr";
  len ← field (from_uint 32) j "len";
  Some (mkVerbReadRequest ub_addr len)).

(** Source: crates/unibusd/src/main.rs:73-78, [VerbAtomicCasRequest]. *)
Record VerbAtomicCasRequest : Type := mkVerbAtomicCasRequest {
  vcr_ub_addr : bytes;
  vcr_expect : Z;
  vcr_new : Z;
}.

(** Source: crates/unibusd/src/main.rs:73-78, [Deserialize for VerbAtomicCasRequest]. *)
Definition VerbAtomicCasRequest_deserialize : Json -> option VerbAtomicCasRequest := from_object (fun j =>
  ub_addr ← field as_str j "ub_addr";
  expect ← field (from_uint 64) j "expect";
  new_ ← field (from_uint 64) j "new";
  Some (mkVerbAtomicCasRequest ub_addr expect new_)).

(** Source: crates/unibusd/src/main.rs:80-84, [VerbAtomicFaaRequest]. *)
Record VerbAtomicFaaRequest : Type := mkVerbAtomicFaaRequest {
  vfr_ub_addr : bytes;
  vfr_add : Z;
}.

(** Source: crates/unibusd/src/main.rs:80-84, [Deserialize for VerbAtomicFaaRequest]. *)
Definition VerbAtomicFaaRequest_deserialize : Json -> option VerbAtomicFaaRequest := from_object (fun j =>
  ub_addr ← field as_str j "ub_addr";
  add ← field (from_uint 64) j "add";
  Some (mkVerbAtomicFaaRequest ub_addr add)).

(** Source: crates/unibusd/src/main.rs:86-90, [JettyPostRecvRequest]. *)
Record JettyPostRecvRequest : Type := mkJettyPostRecvRequest {
  jpr_jetty_handle : Z;
  jpr_len : Z;
}.

(** Source: crates/unibusd/src/main.rs:86-90, [Deserialize for JettyPostRecvRequest]. *)
Definition JettyPostRecvRequest_deserialize : Json -> option JettyPostRecvRequest := from_object (fun j =>
  jetty_handle ← field (from_uint 32) j "jetty_handle";
  len ← field (from_uint 32) j "len";
  Some (mkJettyPostRecvRequest jetty_handle len)).

(** Source: crates/unibusd/src/main.rs:92-95, [JettyPollCqeRequest]. *)
Record JettyPollCqeRequest : Type := mkJettyPollCqeRequest {
  jqr_jetty_handle : Z;
}.

(** Source: crates/unibusd/src/main.rs:92-95, [Deserialize for JettyPollCqeRequest]. *)
Definition JettyPollCqeRequest_deserialize : Json -> option JettyPollCqeRequest := from_object (fun j =>
  jetty_handle ← field (from_uint 32) j "jetty_handle";
  Some (mkJettyPollCqeRequest jetty_handle)).

(** Source: crates/unibusd/src/main.rs:97-103, [VerbSendRequest]. *)
Record VerbSendRequest : Type := mkVerbSendRequest {
  vsr_dst_node_id : Z;
  vsr_dst_jetty_id : Z;
  vsr_data : bytes;
  vsr_imm : option Z;
}.

(** Source: crates/unibusd/src/main.rs:97-103, [Deserialize for VerbSendRequest]. *)
Definition VerbSendRequest_deserialize : Json -> option VerbSendRequest := from_object (fun j =>
  dst_node_id ← field (from_uint 16) j "dst_node_id";
  dst_jetty_id ← field (from_uint 32) j "dst_jetty_id";
  data ← field (from_vec (from_uint 8)) j "data";
  imm ← field_or (from_option (from_uint 64)) None j "imm";
  Some (mkVerbSendRequest dst_node_id dst_jetty_id data imm)).

(** Source: crates/unibusd/src/main.rs:105-112, [VerbWriteImmRequest]. *)
Record VerbWriteImmRequest : Type := mkVerbWriteImmRequest {
  vir_ub_addr : bytes;
  vir_data : bytes;
  vir_imm : Z;
  vir_dst_node_id : Z;
  vir_dst_jetty_id : Z;
}.

(** Source: crates/unibusd/src/main.rs:105-112, [Deserialize for VerbWriteImmRequest]. *)
Definition VerbWriteImmRequest_deserialize : Json -> option VerbWriteImmRequest := from_object (fun j =>
  ub_addr ← field as_str j "ub_addr";
  data ← field (from_vec (from_uint 8)) j "data";
  imm ← field (from_uint 64) j "imm";
  dst_node_id ← field (from_uint 16) j "dst_node_id";
  dst_jetty_id ← field (from_uint 32) j "dst_jetty_id";
  Some (mkVerbWriteImmRequest ub_addr data imm dst_node_id dst_jetty_id)).

(** Source: crates/unibusd/src/main.rs:131-132, [default_latency_class], [default_capacity_class]. *)
Definition default_latency_class : bytes := str "normal".
Definition default_capacity_class : bytes := str "small".

(** Source: crates/unibusd/src/main.rs:116-129, [RegionAllocRequest]. *)
Record RegionAllocRequest : Type := mkRegionAllocRequest {
  rar_size : Z;
  rar_latency_class : bytes;
  rar_capacity_class : bytes;
  rar_pin : option bytes;
}.

(** Source: crates/unibusd/src/main.rs:116-129, [Deserialize for RegionAllocRequest]. *)
Definition RegionAllocRequest_deserialize : Json -> option RegionAllocRequest := from_object (fun j =>
  size ← field (from_uint 64) j "size";
  latency_class ← field_or as_str default_latency_class j "latency_class";
  capacity_class ← field_or as_str default_capacity_class j "capacity_class";
  pin ← field_or (from_option as_str) None j "pin";
  Some (mkRegionAllocRequest size latency_class capacity_class pin)).

(** Source: crates/unibusd/src/main.rs:134-138, [RegionFreeRequest]. *)
Record RegionFreeRequest : Type := mkRegionFreeRequest {
  rfr_region_id : Z;
}.

(** Source: crates/unibusd/src/main.rs:134-138, [Deserialize for RegionFreeRequest]. *)
Definition RegionFreeRequest_deserialize : Json -> option RegionFreeRequest := from_object (fun j =>
  region_id ← field (from_uint 64) j "region_id";
  Some (mkRegionFreeRequest region_id)).

(** Source: crates/unibusd/src/main.rs:140-149, [VerbReadVaRequest]. *)
Record VerbReadVaRequest : Type := mkVerbReadVaRequest {
  rvr_va : bytes;
  rvr_offset : Z;
  rvr_len : Z;
}.

(** Source: crates/unibusd/src/main.rs:140-149, [Deserialize for VerbReadVaRequest]. *)
Definition VerbReadVaRequest_deserialize : Json -> option VerbReadVaRequest := from_object (fun j =>
  va ← field as_str j "va";
  offset ← field_or (from_uint 64) 0 j "offset";
  len ← field (from_uint 32) j "len";
  Some (mkVerbReadVaRequest va offset len)).

(** Source: crates/unibusd/src/main.rs:151-160, [VerbWriteVaRequest]. *)
Record VerbWriteVaRequest : Type := mkVerbWriteVaRequest {
  wvr_va : bytes;
  wvr_offset : Z;
  wvr_data : bytes;
}.

(** Source: crates/unibusd/src/main.rs:151-160, [Deserialize for VerbWriteVaRequest]. *)
Definition VerbWriteVaRequest_deserialize : Json -> option VerbWriteVaRequest := from_object (fun j =>
  va ← field as_str j "va";
  offset ← field_or (from_uint 64) 0 j "offset";
  data ← field (from_vec (from_uint 8)) j "data";
  Some (mkVerbWriteVaRequest va offset data)).

(** Source: crates/unibusd/src/main.rs:162-166, [AcquireWriterRequest]. *)
Record AcquireWriterRequest : Type := mkAcquireWriterRequest {
  awr_va : bytes;
}.

(** Source: crates/unibusd/src/main.rs:162-166, [Deserialize for AcquireWriterRequest]. *)
Definition AcquireWriterRequest_deserialize : Json -> option AcquireWriterRequest := from_object (fun j =>
  va ← field as_str j "va";
  Some (mkAcquireWriterRequest va)).

(** Source: crates/unibusd/src/main.rs:168-172, [ReleaseWriterRequest]. *)
Record ReleaseWriterRequest : Type := mkReleaseWriterRequest {
  rwr_va : bytes;
}.

(** Source: crates/unibusd/src/main.rs:168-172, [Deserialize for ReleaseWriterRequest]. *)
Definition ReleaseWriterRequest_deserialize : Json -> option ReleaseWriterRequest := from_object (fun j =>
  va ← field as_str j "va";
  Some (mkReleaseWriterRequest va)).

(** Source: crates/unibusd/src/main.rs:174-180, [RegionInvalidateRequest]. *)
Record RegionInvalidateRequest : Type := mkRegionInvalidateRequest {
  rir_region_id : Z;
  rir_new_epoch : Z;
}.

(** Source: crates/unibusd/src/main.rs:174-180, [Deserialize for RegionInvalidateRequest]. *)
Definition RegionInvalidateRequest_deserialize : Json -> option RegionInvalidateRequest := from_object (fun j =>
  region_id ← field (from_uint 64) j "region_id";
  new_epoch ← field (from_uint 64) j "new_epoch";
  Some (mkRegionInvalidateRequest region_id new_epoch)).

(** Source: crates/unibusd/src/main.rs:182-199, [RegionRegisterRemoteRequest]. *)
Record RegionRegisterRemoteRequest : Type := mkRegionRegisterRemoteRequest {
  rrr_region_id : Z;
  rrr_home_node_id : Z;
  rrr_device_id : Z;
  rrr_mr_handle : Z;
  rrr_base_offset : Z;
  rrr_len : Z;
  rrr_epoch : Z;
}.

(** Source: crates/unibusd/src/main.rs:182-199, [Deserialize for RegionRegisterRemoteRequest]. *)
Definition RegionRegisterRemoteRequest_deserialize : Json -> option RegionRegisterRemoteRequest := from_object (fun j =>
  region_id ← field (from_uint 64) j "region_id";
  home_node_id ← field (from_uint 16) j "home_node_id";
  device_id ← field (from_uint 16) j "device_id";
  mr_handle ← field (from_uint 32) j "mr_handle";
  base_offset ← field (from_uint 64) j "base_offset";
  len ← field (from_uint 64) j "len";
  epoch ← field_or (from_uint 64) 0 j "epoch";
  Some (mkRegionRegisterRemoteRequest region_id home_node_id device_id mr_handle base_offset len epoch)).

(** Source: crates/unibusd/src/main.rs:219-221, [default_device_kind], [default_kv_slots]. *)
Definition default_device_kind : bytes := str "memory".
Definition default_kv_slots : Z := 16.

(** Source: crates/unibusd/src/main.rs:209-217, [KvInitRequest]. *)
Record KvInitRequest : Type := mkKvInitRequest {
  kir_slots : Z;
  kir_device_kind : bytes;
}.

(** Source: crates/unibusd/src/main.rs:209-217, [Deserialize for KvInitRequest]. *)
Definition KvInitRequest_deserialize : Json -> option KvInitRequest := from_object (fun j =>
  slots ← field_or (from_uint 32) default_kv_slots j "slots";
  device_kind ← field_or as_str default_device_kind j "device_kind";
  Some (mkKvInitRequest slots device_kind)).

(** Source: crates/unibusd/src/main.rs:223-235, [KvPutRequest]. *)
Record KvPutRequest : Type := mkKvPutRequest {
  kpr_ub_addr : bytes;
  kpr_slot : Z;
  kpr_key : bytes;
  kpr_value : bytes;
  kpr_replica_node_id : option Z;
  kpr_replica_jetty_id : option Z;
}.

(** Source: crates/unibusd/src/main.rs:223-235, [Deserialize for KvPutRequest]. *)
Definition KvPutRequest_deserialize : Json -> option KvPutRequest := from_object (fun j =>
  ub_addr ← field as_str j "ub_addr";
  slot ← field (from_uint 32) j "slot";
  key ← field as_str j "key";
  value ← field as_str j "value";
  replica_node_id ← field_or (from_option (from_uint 16)) None j "replica_node_id";
  replica_jetty_id ← field_or (from_option (from_uint 32)) None j "replica_jetty_id";
  Some (mkKvPutRequest ub_addr slot key value replica_node_id replica_jetty_id)).

(** Source: crates/unibusd/src/main.rs:237-242, [KvGetRequest]. *)
Record KvGetRequest : Type := mkKvGetRequest {
  kgr_ub_addr : bytes;
  kgr_slot : Z;
  kgr_key : bytes;
}.

(** Source: crates/unibusd/src/main.rs:237-242, [Deserialize for KvGetRequest]. *)
Definition KvGetRequest_deserialize : Json -> option KvGetRequest := from_object (fun j =>
  ub_addr ← field as_str j "ub_addr";
  slot ← field (from_uint 32) j "slot";
  key ← field as_str j "key";
  Some (mkKvGetRequest ub_addr slot key)).

(** Source: crates/unibusd/src/main.rs:244-257, [KvCasRequest]. *)
Record KvCasRequest : Type := mkKvCasRequest {
  kcr_ub_addr : bytes;
  kcr_slot : Z;
  kcr_key : bytes;
  kcr_expect_version : Z;
  kcr_value : bytes;
  kcr_replica_node_id : option Z;
  kcr_replica_jetty_id : option Z;
}.

(** Source: crates/unibusd/src/main.rs:244-257, [Deserialize for KvCasRequest]. *)
Definition KvCasRequest_deserialize : Json -> option KvCasRequest := from_object (fun j =>
  ub_addr ← field as_str j "ub_addr";
  slot ← field (from_uint 32) j "slot";
  key ← field as_str j "key";
  expect_version ← field (from_uint 64) j "expect_version";
  value ← field as_str j "value";
  replica_node_id ← field_or (from_option (from_uint 16)) None j "replica_node_id";
  replica_jetty_id ← field_or (from_option (from_uint 32)) None j "replica_jetty_id";
  Some (mkKvCasRequest ub_addr slot key expect_version value replica_node_id replica_jetty_id)).

(** ** Text fields *)

(** Source: crates/unibusd/src/main.rs:259-261, [parse_ub_addr].
    [from_text] does not panic. *)
Definition parse_ub_addr (s : bytes) : bytes + Z :=
  match UbAddr_from_text s with
  | Ok a => inr a
  | Err e => inl (str "invalid ub_addr: " ++ UbError_display e)
  | Panic => inl []
  end.

(** Source: crates/unibusd/src/main.rs:1546-1551, [parse_va]. *)
Definition parse_va (s : bytes) : bytes + Z :=
  let s := trim_start_matches (length s) (str "0x") s in
  let s := trim_start_matches (length s) (str "0X") s in
  match from_str_radix_16 128 s with
  | Some va => inr va
  | None => inl (str "invalid virtual address: " ++ parse_int_error 128 s)
  end.

(** Source: crates/unibusd/src/main.rs:1609-1620, [parse_perms].
    Only an ASCII letter has [r], [w] or [a] as its lower case. *)
Definition parse_perms (s : bytes) : Z :=
  foldl (fun perms c =>
    if (c =? 114) || (c =? 82) then Z.lor perms MrPerms_READ
    else if (c =? 119) || (c =? 87) then Z.lor perms MrPerms_WRITE
    else if (c =? 97) || (c =? 65) then Z.lor perms MrPerms_ATOMIC
    else perms) 0 s.

(** Source: crates/unibusd/src/main.rs:1570-1575, [pad_string]. *)
Definition pad_string (s : bytes) (len : nat) : bytes :=
  let copy_len := Nat.min (length s) len in
  take copy_len s ++ drop copy_len (repeat 0 len).
