(* ===== verification/Task.v ===== *)
(** * Task: asynchronous handlers and their interleaving

    The daemon's handlers are [async] functions that tokio runs side by side. A
    [Task] is such a function as a finite tree: a [Step] is a stretch of code on the
    shared state that no other task can cut in two (one call of a lock-free
    operation or a critical section), [Lock] and [Unlock] take and drop the guard of
    the one asynchronous mutex, [Wait] suspends the task until a condition holds or
    its time is up. A [Pool] is a set of tasks; a step of the pool is a step of one
    of them, and between two steps the rest of the node may change the state. *)

From S2P Require Import Prelude.
#[local] Open Scope Z_scope.

(** The clock readings a step makes, in order. *)
Abbreviation Clock := (nat -> Z).

Inductive Task (S A : Type) : Type :=
| Done (a : A)
| Crash
| Step {B : Type} (op : Clock -> S -> S * B) (k : B -> Task S A)
| Lock (k : Task S A)
| Unlock (k : Task S A)
| Wait (ready : S -> bool) (k : bool -> Task S A).
Arguments Done {S A} a.
Arguments Crash {S A}.
Arguments Step {S A B} op k.
Arguments Lock {S A} k.
Arguments Unlock {S A} k.
Arguments Wait {S A} ready k.

(** ** The monad *)

Fixpoint task_bind {S A B} (t : Task S A) (f : A -> Task S B) : Task S B :=
  match t with
  | Done a => f a
  | Crash => Crash
  | Step op k => Step op (fun b => task_bind (k b) f)
  | Lock k => Lock (task_bind k f)
  | Unlock k => Unlock (task_bind k f)
  | Wait ready k => Wait ready (fun timed_out => task_bind (k timed_out) f)
  end.

Notation "x <~ t ; k" := (task_bind t (fun x => k))
  (at level 20, t at level 100, k at level 200, right associativity,
   format "x  <~  t ; '/' k") : ub_scope.

Section Monad.
Context {S : Type}.

(** One call on the shared state. *)
Definition step {B} (op : Clock -> S -> S * B) : Task S B := Step op Done.
Definition look {B} (f : S -> B) : Task S B := Step (fun _ s => (s, f s)) Done.

(** A fallible call inside a handler: an error ends it with a reply, a panic
    with a crash. *)
Definition or_else {A B} (r : Result B) (on_err : UbError -> A) (k : B -> Task S A) : Task S A :=
  match r with
  | Ok b => k b
  | Err e => Done (on_err e)
  | Panic => Crash
  end.

(** [let guard = mutex.lock().await; ..] with the guard dropped at the end. *)
Definition locked {A} (t : Task S A) : Task S A :=
  Lock (x <~ t; Unlock (Done x)).

(** ** Running one task

    The whole task with nothing in between, except that at each wait the rest of
    the node runs as [env] says, and reports whether the time ran out. *)
Fixpoint exec {A} (clock : Clock) (env : S -> S * bool) (t : Task S A) (s : S) : S * option A :=
  match t with
  | Done a => (s, Some a)
  | Crash => (s, None)
  | Step op k => let '(s, b) := op clock s in exec clock env (k b) s
  | Lock k | Unlock k => exec clock env k s
  | Wait _ k => let '(s, timed_out) := env s in exec clock env (k timed_out) s
  end.

Lemma exec_bind {A B} clock env (t : Task S A) (f : A -> Task S B) s :
  exec clock env (task_bind t f) s
  = match exec clock env t s with
    | (s, Some a) => exec clock env (f a) s
    | (s, None) => (s, None)
    end.
Proof.
  revert s. induction t as [a| |C op k IH|k IH|k IH|ready k IH]; intros s; cbn; auto.
  - destruct (op clock s) as [s' b]. apply IH.
  - destruct (env s) as [s' timed_out]. apply IH.
Qed.
End Monad.

(** ** Pools of tasks *)

Section Pool.
Context {S A : Type}.

Record Pool : Type := mkPool {
  po_state : S;
  po_holder : option nat;
  po_tasks : list (Task S A);
}.

Inductive pool_step : Pool -> Pool -> Prop :=
| pool_run s l ts i {B} (op : Clock -> S -> S * B) k clock :
    ts !! i = Some (Step op k) ->
    pool_step (mkPool s l ts) (mkPool (op clock s).1 l (<[i := k (op clock s).2]> ts))
| pool_lock s ts i k :
    ts !! i = Some (Lock k) -> pool_step (mkPool s None ts) (mkPool s (Some i) (<[i := k]> ts))
| pool_unlock s l ts i k :
    ts !! i = Some (Unlock k) -> pool_step (mkPool s l ts) (mkPool s None (<[i := k]> ts))
| pool_ready s l ts i ready k :
    ts !! i = Some (Wait ready k) -> ready s = true ->
    pool_step (mkPool s l ts) (mkPool s l (<[i := k false]> ts))
| pool_timeout s l ts i ready k :
    ts !! i = Some (Wait ready k) ->
    pool_step (mkPool s l ts) (mkPool s l (<[i := k true]> ts))
| pool_unwind s ts i :
    ts !! i = Some Crash -> pool_step (mkPool s (Some i) ts) (mkPool s None ts).

(** The rest of the node acts on the state between the steps of the tasks. *)
Inductive pool_run_from (env : S -> S -> Prop) (p : Pool) : Pool -> Prop :=
| pool_start : pool_run_from env p p
| pool_next q r : pool_run_from env p q -> pool_step q r -> pool_run_from env p r
| pool_env q s : pool_run_from env p q -> env (po_state q) s ->
    pool_run_from env p (mkPool s (po_holder q) (po_tasks q)).

Definition finished (t : Task S A) : Prop :=
  match t with Done _ | Crash => True | _ => False end.

(** ** Every run is finite *)

(** What one step may leave of a task. *)
Definition task_child (t' t : Task S A) : Prop :=
  match t with
  | Done _ | Crash => False
  | Step _ k => exists b, t' = k b
  | Lock k | Unlock k => t' = k
  | Wait _ k => exists timed_out, t' = k timed_out
  end.

Lemma task_child_wf t : Acc task_child t.
Proof.
  induction t as [a| |C op k IH|k IH|k IH|ready k IH]; constructor; cbn; intros t' Ht.
  - done.
  - done.
  - destruct Ht as [b ->]. apply IH.
  - by subst.
  - by subst.
  - destruct Ht as [b ->]. apply IH.
Qed.

(** One task of the list moves. *)
Definition tasks_child (ts' ts : list (Task S A)) : Prop :=
  exists i t t', ts !! i = Some t /\ task_child t' t /\ ts' = <[i := t']> ts.

Lemma tasks_child_wf ts : Acc tasks_child ts.
Proof.
  induction ts as [|t ts IH].
  - constructor. intros ts' (i & t & t' & Hi & _). by rewrite lookup_nil in Hi.
  - revert ts IH. induction (task_child_wf t) as [t _ IHt]. intros ts Hts.
    induction Hts as [ts Hts IHts]. constructor. intros ts' (i & u & u' & Hi & Hc & ->).
    destruct i as [|i]; cbn in Hi |- *; simplify_eq.
    + apply IHt; [done|]. by constructor.
    + apply IHts. exists i, u, u'. auto.
Qed.

(** The part of a pool its own steps use up: the tasks, and the guard a crashed
    task still holds. *)
Definition pool_child (q p : Pool) : Prop :=
  tasks_child (po_tasks q) (po_tasks p)
  \/ po_tasks q = po_tasks p /\ po_holder q = None /\ po_holder p <> None.

Lemma pool_child_wf p : Acc pool_child p.
Proof.
  destruct p as [s l ts]. revert s l. induction (tasks_child_wf ts) as [ts _ IH]. intros s l.
  assert (Hnone : forall s, Acc pool_child (mkPool s None ts)).
  { intros s'. constructor. intros [s2 l2 ts2] [Hc|(_ & _ & Hl)]; [by apply IH|done]. }
  constructor. intros [s2 l2 ts2] [Hc|(Ht & Hl & _)]; cbn in *; [by apply IH|]. subst. apply Hnone.
Qed.

Lemma pool_step_child p q : pool_step p q -> pool_child q p.
Proof.
  destruct 1 as [s l ts i B op k c Hi|s ts i k Hi|s l ts i k Hi|s l ts i rd k Hi Hr|s l ts i rd k Hi|];
    [..|right; by cbn]; left; exists i; do 2 eexists; (split; [exact Hi|]); split; cbn; eauto.
Qed.

(** ** The mutex

    [brackets held out t]: started with the guard ([held]) or without, every path of
    [t] that returns ends with it ([out]) or without, and never takes or drops it
    twice. *)
Fixpoint brackets (held out : bool) (t : Task S A) : Prop :=
  match t with
  | Done _ => held = out
  | Crash => True
  | Step _ k => forall b, brackets held out (k b)
  | Lock k => held = false /\ brackets true out k
  | Unlock k => held = true /\ brackets false out k
  | Wait _ k => forall timed_out, brackets held out (k timed_out)
  end.

(** The holder of the guard is in its critical section, the others are not. *)
Record mutex_ok (p : Pool) : Prop := {
  mx_tasks : forall i t, po_tasks p !! i = Some t -> brackets (bool_decide (po_holder p = Some i)) false t;
  mx_holder : forall i, po_holder p = Some i -> is_Some (po_tasks p !! i);
}.

Lemma mutex_step p q : mutex_ok p -> pool_step p q -> mutex_ok q.
Proof.
  intros [Hok Hin] Hs. destruct Hs as [s l ts i B op k c Hi|s ts i k Hi|s l ts i k Hi|s l ts i rd k Hi Hr
    |s l ts i rd k Hi|s ts i Hi]; cbn in *; pose proof (Hok i _ Hi) as Ht; cbn in Ht; (split; cbn;
    [intros j u; try (rewrite list_lookup_insert_Some; intros [(<- & <- & _)|[Hne Hu]])
    |intros j; rewrite ?lookup_lt_is_Some, ?length_insert, <- ?lookup_lt_is_Some]).
  all: try by apply Hin.
  all: try by intros [=].
  all: try by apply Ht.
  all: try by apply (Hok j u).
  - rewrite bool_decide_true by done. by destruct Ht.
  - specialize (Hok j u Hu). by rewrite bool_decide_false in Hok |- * by congruence.
  - intros [= <-]. eauto.
  - specialize (Hok j u Hu). rewrite bool_decide_false; [|done].
    destruct Ht as [Ht _]. apply bool_decide_eq_true in Ht. subst.
    by rewrite bool_decide_false in Hok by congruence.
  - intros Hu. destruct (decide (i = j)) as [<-|Hne]; [by simplify_eq|].
    specialize (Hok j u Hu). by rewrite bool_decide_false in Hok |- * by congruence.
Qed.

Lemma mutex_run env p q : mutex_ok p -> pool_run_from env p q -> mutex_ok q.
Proof. intros Hok. induction 1 as [|q r _ IH Hs|q s _ [] _]; eauto using mutex_step. by constructor. Qed.

Lemma mutex_init s ts : Forall (brackets false false) ts -> mutex_ok (mkPool s None ts).
Proof. intros Hts. constructor; [|done]. intros i t Hi. by eapply Forall_lookup_1 in Hts. Qed.

(** A pool whose tasks have not all finished can take a step. *)
Lemma pool_progress p :
  mutex_ok p -> ~ Forall finished (po_tasks p) -> exists q, pool_step p q.
Proof.
  destruct p as [s l ts]. intros [Hok Hin] Hnf. cbn in *.
  apply not_Forall_Exists in Hnf; [|by intros []; cbn; apply _].
  apply Exists_exists in Hnf as (t & Ht & Hunf). apply list_elem_of_lookup in Ht as [i Hi].
  assert (Hmove : forall i t, ts !! i = Some t -> ~ finished t ->
    (exists q, pool_step (mkPool s l ts) q) \/ exists k, t = Lock k /\ is_Some l).
  { intros j u Hj Hu. destruct u as [| |B op k|k|k|rd k]; cbn in Hu; try done.
    - left. eexists. by apply (pool_run s l ts j op k (fun _ => 0)).
    - destruct l as [j'|]; [right; eauto|]. left. eexists. by eapply pool_lock.
    - left. eexists. by eapply pool_unlock.
    - left. eexists. by eapply pool_timeout. }
  destruct (Hmove i t Hi Hunf) as [|(k & -> & [j ->])]; [done|].
  destruct (Hin j eq_refl) as [u Hj]. pose proof (Hok j u Hj) as Hu.
  rewrite bool_decide_true in Hu by done.
  destruct u as [a| |B op k'|k'|k'|rd k']; cbn in Hu; [done| | |by destruct Hu| |].
  { eexists. by apply pool_unwind. }
  all: destruct (Hmove j _ Hj (fun H => H)) as [|(? & ? & _)]; done.
Qed.
End Pool.
Arguments Pool S A : clear implicits.

Lemma brackets_bind {S A B} (t : Task S A) (f : A -> Task S B) held mid out :
  brackets held mid t -> (forall a, brackets mid out (f a)) -> brackets held out (task_bind t f).
Proof.
  intros Ht Hf. revert held Ht. induction t as [a| |C op k IH|k IH|k IH|ready k IH]; cbn; intros held Ht;
    [by subst|done|intros b; apply IH, Ht|destruct Ht; auto|destruct Ht; auto|intros b; apply IH, Ht].
Qed.

Lemma brackets_locked {S A} (t : Task S A) : brackets true true t -> brackets false false (locked t).
Proof. intros Ht. cbn. split; [done|]. by eapply brackets_bind. Qed.

(** ** Schedules

    Runs for evaluation: at each turn the named task takes a step if it can; a
    wait ends by its timeout. *)

Definition pool_turn {S A} (clock : Clock) (p : Pool S A) (i : nat) : Pool S A :=
  let '(mkPool s l ts) := p in
  match ts !! i with
  | Some (Step op k) => let '(s, b) := op clock s in mkPool s l (<[i := k b]> ts)
  | Some (Lock k) => match l with None => mkPool s (Some i) (<[i := k]> ts) | Some _ => p end
  | Some (Unlock k) => mkPool s None (<[i := k]> ts)
  | Some (Wait _ k) => mkPool s l (<[i := k true]> ts)
  | _ => p
  end.

Definition run_schedule {S A} (clock : Clock) (schedule : list nat) (p : Pool S A) : Pool S A :=
  foldl (pool_turn clock) p schedule.

Lemma pool_turn_run {S A} (env : S -> S -> Prop) clock (p q : Pool S A) i :
  pool_run_from env p q -> pool_run_from env p (pool_turn clock q i).
Proof.
  intros Hq. destruct q as [s l ts]. unfold pool_turn. destruct (ts !! i) as [t|] eqn:Hi; [|done].
  destruct t as [a| |B op k|k|k|rd k]; try done.
  - destruct (op clock s) as [s' b] eqn:Ho. eapply pool_next; [exact Hq|].
    pose proof (pool_run s l ts i op k clock Hi) as Hr. by rewrite Ho in Hr.
  - destruct l as [j|]; [done|]. eapply pool_next; [exact Hq|]. by apply pool_lock.
  - eapply pool_next; [exact Hq|]. by apply pool_unlock.
  - eapply pool_next; [exact Hq|]. by eapply pool_timeout.
Qed.

Lemma run_schedule_run {S A} (env : S -> S -> Prop) clock schedule (p : Pool S A) :
  pool_run_from env p (run_schedule clock schedule p).
Proof.
  unfold run_schedule. generalize (pool_start env p). generalize p at 2 4. revert p.
  induction schedule as [|i schedule IH]; intros p q Hq; cbn; [done|]. apply IH. by apply pool_turn_run.
Qed.

(** [exec] is one of the runs: the pool of a single task whose waits time out. *)
Lemma exec_pool {S A} clock (env : S -> S) (t : Task S A) (held : bool) s s' a (p : Pool S A) :
  pool_run_from (fun s s' => s' = env s) p (mkPool s (if held then Some 0%nat else None) [t]) ->
  brackets held false t -> exec clock (fun s => (env s, true)) t s = (s', Some a) ->
  pool_run_from (fun s s' => s' = env s) p (mkPool s' None [Done a]).
Proof.
  revert held s. induction t as [b| |C op k IH|k IH|k IH|ready k IH]; intros held s Hp Hb He; cbn in *.
  - by simplify_eq.
  - done.
  - destruct (op clock s) as [s1 b] eqn:Ho. apply (IH b held s1); [|done..].
    eapply pool_next; [apply Hp|]. pose proof (pool_run s (if held then Some 0%nat else None)
      [Step op k] 0 op k clock eq_refl) as Hr. by rewrite Ho in Hr.
  - destruct Hb as [-> Hb]. apply (IH true s); [|done..].
    eapply pool_next; [apply Hp|]. by apply (pool_lock s [Lock k] 0 k).
  - destruct Hb as [-> Hb]. apply (IH false s); [|done..].
    eapply pool_next; [apply Hp|]. by apply (pool_unlock s (Some 0%nat) [Unlock k] 0 k).
  - apply (IH true held (env s)); [|done..].
    pose proof (pool_env _ _ _ (env s) Hp eq_refl) as He'. cbn in He'.
    eapply pool_next; [apply He'|]. by apply (pool_timeout _ _ [Wait ready k] 0 ready k).
Qed.

#[export] Hint Resolve brackets_locked : ub.

(** ** Tickets

    Tasks that draw numbers from a counter of the shared state: a task first works
    without touching the counter, may add one to it in a single step, and from then
    on leaves it alone and returns, if it reports a number at all, the one it
    reached. *)

Section Tickets.
Context {S : Type} (inv : S -> Prop) (counter : S -> Z) (limit : Z).

(** [t] keeps the invariant and the counter, and returns something in [P]. *)
Fixpoint keeps {A} (P : A -> Prop) (t : Task S A) : Prop :=
  match t with
  | Done a => P a
  | Crash => True
  | Step op k => forall clock s, inv s ->
      inv (op clock s).1 /\ counter (op clock s).1 = counter s /\ keeps P (k (op clock s).2)
  | Lock k | Unlock k => keeps P k
  | Wait _ k => forall timed_out, keeps P (k timed_out)
  end.

Lemma keeps_bind {A B} (P : A -> Prop) (Q : B -> Prop) (t : Task S A) (f : A -> Task S B) :
  keeps P t -> (forall a, P a -> keeps Q (f a)) -> keeps Q (task_bind t f).
Proof.
  intros Ht Hf. induction t as [a| |C op k IH|k IH|k IH|ready k IH]; cbn in *; auto.
  intros clock s Hs. destruct (Ht clock s Hs) as (? & ? & ?). auto.
Qed.

Lemma keeps_impl {A} (P Q : A -> Prop) (t : Task S A) :
  (forall a, P a -> Q a) -> keeps P t -> keeps Q t.
Proof.
  intros HPQ. induction t as [a| |C op k IH|k IH|k IH|ready k IH]; cbn; auto.
  intros Ht clock s Hs. destruct (Ht clock s Hs) as (? & ? & ?). auto.
Qed.

Lemma keeps_locked {A} (P : A -> Prop) (t : Task S A) : keeps P t -> keeps P (locked t).
Proof. intros Ht. cbn. by eapply keeps_bind. Qed.

Lemma exec_keeps {A} (P : A -> Prop) (t : Task S A) clock env s :
  keeps P t -> inv s -> (forall s, inv s -> inv (env s).1 /\ counter (env s).1 = counter s) ->
  match exec clock env t s with
  | (s', r) => inv s' /\ counter s' = counter s /\ forall a, r = Some a -> P a
  end.
Proof.
  intros Ht Hs Henv. revert s Hs. induction t as [a| |C op k IH|k IH|k IH|ready k IH]; intros s Hs; cbn in *.
  - split_and!; [done..|]. by intros ? [= <-].
  - done.
  - destruct (Ht clock s Hs) as (Hs' & Hc & Hk). destruct (op clock s) as [s' b]. cbn in *.
    specialize (IH b Hk s' Hs'). destruct (exec clock env (k b) s') as [s'' r].
    destruct IH as (? & ? & ?). split_and!; congruence || done.
  - by apply IH.
  - by apply IH.
  - destruct (Henv s Hs) as [Hs' Hc]. destruct (env s) as [s' timed_out]. cbn in *.
    specialize (IH timed_out (Ht timed_out) s' Hs'). destruct (exec clock env (k timed_out) s') as [s'' r].
    destruct IH as (? & ? & ?). split_and!; congruence || done.
Qed.

Context {A : Type} (claim : A -> option Z).

Definition holding (n : Z) : Task S A -> Prop := keeps (fun a => claim a = None \/ claim a = Some n).

Fixpoint drawing (t : Task S A) : Prop :=
  match t with
  | Done a => claim a = None
  | Crash => True
  | Step op k => forall clock s, inv s -> counter s < limit ->
      inv (op clock s).1
      /\ (counter (op clock s).1 = counter s /\ drawing (k (op clock s).2)
          \/ counter (op clock s).1 = counter s + 1 /\ holding (counter s + 1) (k (op clock s).2))
  | Lock k | Unlock k => drawing k
  | Wait _ k => forall timed_out, drawing (k timed_out)
  end.

Lemma drawing_keeps (t : Task S A) : keeps (fun a => claim a = None) t -> drawing t.
Proof.
  induction t as [a| |C op k IH|k IH|k IH|ready k IH]; cbn; auto.
  intros Ht clock s Hs _. destruct (Ht clock s Hs) as (? & ? & ?). auto.
Qed.

Lemma drawing_bind {B} (P : B -> Prop) (t : Task S B) (f : B -> Task S A) :
  keeps P t -> (forall b, P b -> drawing (f b)) -> drawing (task_bind t f).
Proof.
  intros Ht Hf. induction t as [a| |C op k IH|k IH|k IH|ready k IH]; cbn in *; auto.
  intros clock s Hs _. destruct (Ht clock s Hs) as (? & ? & ?). auto.
Qed.

Definition ticket_state (t : Task S A) (n : option Z) : Prop :=
  match n with None => drawing t | Some n => holding n t end.

(** Numbers drawn so far: each once, all of them between the start and now. *)
Definition drawn (start now : Z) (ns : list (option Z)) : Prop :=
  omap id ns ≡ₚ seqZ (start + 1) (now - start) /\ start <= now.

Lemma omap_insert_Some (ns : list (option Z)) i n :
  ns !! i = Some None -> omap id (<[i := Some n]> ns) ≡ₚ n :: omap id ns.
Proof.
  revert i. induction ns as [|m ns IH]; intros [|i] Hi; cbn in *; simplify_eq; [done|].
  destruct m as [m|]; rewrite (IH _ Hi); [apply Permutation_swap|done].
Qed.

Lemma drawn_next start now ns i :
  drawn start now ns -> ns !! i = Some None -> drawn start (now + 1) (<[i := Some (now + 1)]> ns).
Proof.
  intros [Hp Hle] Hi. split; [|lia]. rewrite omap_insert_Some, Hp by done.
  replace (now + 1 - start) with ((now - start) + 1) by lia.
  rewrite seqZ_app by lia. replace (start + 1 + (now - start)) with (now + 1) by lia.
  by rewrite Permutation_app_comm, (seqZ_cons (now + 1) 1).
Qed.

Lemma drawn_length start now ns : drawn start now ns -> now - start <= Z.of_nat (length ns).
Proof.
  intros [Hp Hle]. apply Permutation_length in Hp. rewrite length_seqZ in Hp.
  assert (length (omap id ns) <= length ns)%nat; [|lia].
  clear. induction ns as [|[n|] ns IH]; cbn; lia.
Qed.

Lemma drawn_room start now ns i :
  drawn start now ns -> ns !! i = Some None -> now - start < Z.of_nat (length ns).
Proof.
  intros Hd Hi. pose proof (drawn_length _ _ _ (drawn_next _ _ _ _ Hd Hi)) as Hl.
  rewrite length_insert in Hl. lia.
Qed.

Definition tickets_ok (start : Z) (p : Pool S A) : Prop :=
  inv (po_state p) /\
  exists ns, Forall2 ticket_state (po_tasks p) ns /\ drawn start (counter (po_state p)) ns.

(** Steps that leave the state alone. *)
Lemma tickets_move start s l l' ts i t t' :
  tickets_ok start (mkPool s l ts) -> ts !! i = Some t ->
  (forall n, ticket_state t n -> ticket_state t' n) ->
  tickets_ok start (mkPool s l' (<[i := t']> ts)).
Proof.
  intros (Hinv & ns & Hts & Hd) Hi Hn. split; [done|]. exists ns. split; [|done]. cbn in *.
  destruct (Forall2_lookup_l _ _ _ _ _ Hts Hi) as (n & Hni & Hn').
  rewrite <- (list_insert_id ns i n Hni). apply Forall2_insert; auto.
Qed.

Lemma tickets_step start p q :
  start + Z.of_nat (length (po_tasks p)) <= limit ->
  tickets_ok start p -> pool_step p q -> tickets_ok start q.
Proof.
  intros Hlim Hok Hs. destruct Hs as [s l ts i B op k c Hi|s ts i k Hi|s l ts i k Hi
    |s l ts i rd k Hi Hr|s l ts i rd k Hi|s ts i Hi];
    try (eapply tickets_move; [done..|]; intros [n|] Hn; cbn in *; by auto); [|by destruct Hok].
  destruct Hok as (Hinv & ns & Hts & Hd). cbn in *.
  destruct (Forall2_lookup_l _ _ _ _ _ Hts Hi) as (n & Hni & Hn). destruct n as [n|]; cbn in Hn.
  - destruct (Hn c s Hinv) as (Hinv' & Hc & Hk). split; [done|]. exists ns. cbn.
    rewrite Hc. split; [|done]. rewrite <- (list_insert_id ns i _ Hni). by apply Forall2_insert.
  - pose proof (drawn_room _ _ _ _ Hd Hni). rewrite <- (Forall2_length _ _ _ Hts) in *.
    destruct (Hn c s Hinv ltac:(lia)) as (Hinv' & [[Hc Hk]|[Hc Hk]]); (split; [done|]); cbn; rewrite Hc.
    + exists ns. split; [|done]. rewrite <- (list_insert_id ns i _ Hni). by apply Forall2_insert.
    + exists (<[i := Some (counter s + 1)]> ns). split; [by apply Forall2_insert|by apply drawn_next].
Qed.

Lemma pool_step_length (p q : Pool S A) : pool_step p q -> length (po_tasks q) = length (po_tasks p).
Proof. destruct 1; cbn; by rewrite ?length_insert. Qed.

(** The numbers the finished tasks report are distinct and follow the counter's
    first value without a gap in the run as a whole. *)
Lemma tickets_run env s ts q :
  inv s -> Forall drawing ts -> counter s + Z.of_nat (length ts) <= limit ->
  (forall s s', inv s -> env s s' -> inv s' /\ counter s' = counter s) ->
  pool_run_from env (mkPool s None ts) q ->
  tickets_ok (counter s) q /\ length (po_tasks q) = length ts.
Proof.
  intros Hinv Hts Hlim Henv. induction 1 as [|q r _ [IH Hlen] Hs|q s' _ [IH Hlen] He].
  - split; [|done]. split; [done|]. exists (replicate (length ts) None). cbn. split.
    + apply Forall2_replicate_r; [done|]. by eapply Forall_impl.
    + split; [|lia]. rewrite Z.sub_diag. cbn. clear. by induction (length ts).
  - rewrite (pool_step_length _ _ Hs). split; [|done]. eapply tickets_step; [|done..]. lia.
  - split; [|done]. destruct IH as (Hi & ns & Hf & Hd). destruct (Henv _ _ Hi He) as [Hi' Hc].
    split; [done|]. exists ns. cbn. by rewrite Hc.
Qed.

Lemma tickets_claims start p i j a b n m :
  tickets_ok start p -> po_tasks p !! i = Some (Done a) -> po_tasks p !! j = Some (Done b) ->
  claim a = Some n -> claim b = Some m ->
  start < n <= counter (po_state p) /\ (n = m -> i = j).
Proof.
  intros (_ & ns & Hts & [Hp Hle]) Hi Hj Ha Hb.
  destruct (Forall2_lookup_l _ _ _ _ _ Hts Hi) as (x & Hxi & Hx).
  destruct (Forall2_lookup_l _ _ _ _ _ Hts Hj) as (y & Hyj & Hy).
  destruct x as [x|], y as [y|]; cbn in Hx, Hy; try congruence.
  assert (x = n) as -> by (destruct Hx; congruence).
  assert (y = m) as -> by (destruct Hy; congruence).
  assert (Hin : n ∈ omap id ns).
  { apply list_elem_of_omap. exists (Some n). split; [|done]. by eapply list_elem_of_lookup_2. }
  rewrite Hp in Hin. apply elem_of_seqZ in Hin. split; [lia|]. intros ->.
  assert (Hnd : NoDup (omap id ns)) by (rewrite Hp; apply NoDup_seqZ).
  clear -Hnd Hxi Hyj. revert i j Hxi Hyj. induction ns as [|o ns IH]; [done|].
  intros [|i] [|j] Hi Hj; cbn in Hi, Hj; simplify_eq; [done|..].
  - cbn in Hnd. apply NoDup_cons in Hnd as [Hn _]. destruct Hn. apply list_elem_of_omap.
    exists (Some m). split; [|done]. by eapply list_elem_of_lookup_2.
  - cbn in Hnd. apply NoDup_cons in Hnd as [Hn _]. destruct Hn. apply list_elem_of_omap.
    exists (Some m). split; [|done]. by eapply list_elem_of_lookup_2.
  - f_equal. apply IH; [|done..]. destruct o; cbn in Hnd; [by apply NoDup_cons in Hnd as [_ ?]|done].
Qed.
End Tickets.
