(* ===== verification/Daemon.v ===== *)
(** * Daemon: the node's process and its admin API

    crates/unibusd/src/main.rs: how [main] puts the components together, the task
    that connects the data plane to peers, and the handlers of memory regions,
    jettys and verbs. Kv.v and Managed.v hold the other handlers. A handler is a
    task (Task.v) on [AppState]; each call it makes on a shared table is a step of
    its own, so that handlers interleave as they do under tokio. Allocating a
    buffer succeeds. *)

From S2P Require Import Control.
From S2P Require Import Prelude Bytes Types Addr Net Device Mr Verbs.
From S2P Require Import Jetty Frame Float Config Session Manager Dataplane Member.
From S2P Require Import SubAlloc Region CachePool FetchAgent Coherence Registry Placer Json.
From S2P Require Import Text Api Task.
#[local] Open Scope Z_scope.

(** ** State *)

(** Source: crates/unibusd/src/main.rs:32-47, [AppState].
    The engine holds the region table, the cache of remote regions and the jetty
    table it shares with the handlers; the placer holds the device registry, the
    fetch agent the region table and the cache pool. *)
Record AppState : Type := mkAppState {
  as_members : MemberTable;
  as_config : NodeConfig;
  as_engine : Engine;
  as_placer : Placer;
  as_agent : FetchAgent;
  as_coherence : CoherenceManager;
  as_pool_mr_handle : option Z;
}.

#[global] Instance AppState_settable : Settable AppState := fun x =>
  mkAppState (as_members x) (as_config x) (as_engine x) (as_placer x) (as_agent x) (as_coherence x)
    (as_pool_mr_handle x).

Abbreviation Handler := (Task AppState Json).

(** One call on a component. *)
Definition on_engine {B} (op : Clock -> Engine -> Engine * B) : Task AppState B :=
  step (fun clock s => let '(e, b) := op clock (as_engine s) in (s <| as_engine := e |>, b)).
Definition on_agent {B} (op : Clock -> FetchAgent -> FetchAgent * B) : Task AppState B :=
  step (fun clock s => let '(a, b) := op clock (as_agent s) in (s <| as_agent := a |>, b)).
Definition on_placer {B} (op : Placer -> Placer * B) : Task AppState B :=
  step (fun _ s => let '(p, b) := op (as_placer s) in (s <| as_placer := p |>, b)).
Definition on_coherence {B} (op : Clock -> CoherenceManager -> CoherenceManager * B) : Task AppState B :=
  step (fun clock s => let '(c, b) := op clock (as_coherence s) in (s <| as_coherence := c |>, b)).

(** [match r { Ok(a) => Json(f(a)), Err(e) => Json(json!({"error": format!("{}", e)})) }] *)
Definition respond {A} (r : Result A) (f : A -> Json) : Handler :=
  or_else r error_reply (fun a => Done (f a)).

(** [let a = match r { Ok(a) => a, Err(e) => return Json(json!({"error": e})) };] *)
Definition or_return {A} (r : bytes + A) (k : A -> Handler) : Handler :=
  match r with
  | inl e => Done (JObj ["error" :- JStr e])
  | inr a => k a
  end.

(** The region an [Arc<MrEntry>] points to. *)
Definition entry_at (s : AppState) (arc : nat) : option MrEntry :=
  mt_heap (en_mr_table (as_engine s)) !! arc.

(** ** Registering memory *)

(** [mr_table.register(dev, len, perms)] with a device of its own. *)
Definition register_device (e : Engine) (dev : DynDevice) (len perms : Z) : Engine * Result (Z * Z) :=
  let devices := en_devices e ++ [dev] in
  match MrTable_register (en_mr_table e) devices (length (en_devices e)) len perms with
  | Ok (t, r) => (e <| en_mr_table := t |> <| en_devices := devices |>, Ok r)
  | Err err => (e, Err err)
  | Panic => (e, Panic)
  end.

(** The device behind a new region: ["npu"] asks for simulated NPU memory, in
    whole MiB. *)
Definition new_device (device_kind : bytes) (len : Z) : DynDevice :=
  if decide (device_kind = str "npu") then
    let size_mib := wrap 64 (len + 1024 * 1024 - 1) / (1024 * 1024) in
    DynNpu (NpuDevice_new 1 (Z.max size_mib 1))
  else DynMemory (MemoryDevice_new len).

Definition all_perms : Z := Z.lor (Z.lor MrPerms_READ MrPerms_WRITE) MrPerms_ATOMIC.

(** ** Startup *)

(** Source: crates/unibusd/src/main.rs:330-351, [main].
    The profiles of the regions registered before, numbered from zero, and the
    next number. *)
Definition register_local_devices (config : NodeConfig) (e : Engine) (registry : DeviceRegistry)
  : DeviceRegistry * Z :=
  foldl (fun '(registry, next_device_id) arc =>
    match mt_heap (en_mr_table e) !! arc with
    | Some mr =>
      match en_devices e !! me_device mr with
      | Some d =>
        let '(rbw, wbw, rlat, wlat) := dev_figures d in
        (DeviceRegistry_register registry
           (mkDeviceProfile (cfg_node_id config, next_device_id) (dev_kind d) (dev_tier d) (me_len mr)
              rbw wbw rlat wlat 0 0), wrap 16 (next_device_id + 1))
      | None => (registry, next_device_id)
      end
    | None => (registry, next_device_id)
    end) (registry, 0) (MrTable_list (en_mr_table e)).

Definition memory_pool_size : Z := 1024 * 1024 * 256.

(** Source: crates/unibusd/src/main.rs:357-394, [main].
    The pool of the managed layer: its region, its sub-allocator and its profile. *)
Definition register_pool (config : NodeConfig) (e : Engine) (placer : Placer) (next_device_id : Z)
  : Engine * Placer * option Z :=
  if mg_enabled (cfg_managed config) then
    let memory_pool_reserve :=
      f64_as_u64 (f64_of_int memory_pool_size * po_memory_reserve_ratio (mg_pool (cfg_managed config)))%f64 in
    let memory_pool_usable := wrap 64 (memory_pool_size - memory_pool_reserve) in
    match register_device e (DynMemory (MemoryDevice_new memory_pool_size)) memory_pool_size all_perms with
    | (e, Ok (_, handle)) =>
      let placer := Placer_register_sub_allocator placer (cfg_node_id config) next_device_id
                      (SubAllocator_new 0 memory_pool_usable) in
      let profile := mkDeviceProfile (cfg_node_id config, next_device_id) DeviceKind_Memory
                       StorageTier_Warm memory_pool_usable 10000 10000 200 200 0 0 in
      (e, placer <| pl_registry := DeviceRegistry_register (pl_registry placer) profile |>, Some handle)
    | (e, _) => (e, placer, None)
    end
  else (e, placer, None).

(** [expect]: a failure is a panic. *)
Definition result_option {A} (r : Result A) : option A :=
  match r with
  | Ok a => Some a
  | _ => None
  end.

(** Source: crates/unibusd/src/main.rs:288-405, [main].
    From the configuration to the shared state. [epoch] is the random number of
    this run, [now] the time; [None] is a panic on a malformed address. The
    sockets are assumed to bind. *)
Definition startup (config : NodeConfig) (epoch now : Z) : option AppState :=
  let mr_cache := MrCacheTable_new in
  let mr_table := MrTable_new_with_channel 1 (cfg_node_id config) in
  let control := Control.ControlPlane_new config (MemberTable_new (cfg_node_id config)) mr_cache [] epoch in
  let control := Control.ControlPlane_set_mr_table control mr_table in
  control ← result_option (Control.ControlPlane_start control (Ok tt) now);
  data_listen ← parse_socket_addr (dc_listen (cfg_data config));
  let jetty_table := JettyTable_new (cfg_node_id config) (cfg_jetty config) in
  let transport := TransportManager_new (cfg_node_id config) (tc_rto_ms (cfg_transport config))
                     (tc_max_retries (cfg_transport config)) in
  let engine := DataPlaneEngine_new (cfg_node_id config) mr_table [] mr_cache jetty_table transport in
  let '(registry, next_device_id) :=
    register_local_devices config engine (DeviceRegistry_new (mg_cost_weights (cfg_managed config))) in
  let '(engine, placer, pool_mr_handle) :=
    register_pool config engine (Placer_new registry) next_device_id in
  let max_bytes := ca_max_bytes (mg_cache (cfg_managed config)) in
  let cache_pool := CachePool_with_region_table (SubAllocator_new 0 max_bytes) max_bytes 0 in
  let agent := FetchAgent_new [RegionTable_new] 0 cache_pool in
  let coherence := CoherenceManager_new (mg_writer_lease_ms (cfg_managed config)) in
  metrics_addr ← parse_socket_addr (ob_metrics_listen (cfg_obs config));
  Some (mkAppState (Control.cp_members control) config engine placer agent coherence pool_mr_handle).

(** ** Background tasks *)

(** Source: crates/unibusd/src/main.rs:409-421, [main].
    One tick of the lease timer; the clock is read once per region. *)
Definition lease_timer_tick {iteration : MapOrder Z RegionHomeState} : Task AppState (list (Z * Z)) :=
  on_coherence (fun clock c => CoherenceManager_check_lease_expiry c (fun rid => clock (Z.to_nat rid))).

(** Connecting the data plane to a peer, under the engine's mutex. *)
Definition connect_data_plane (node_id : Z) : Task AppState unit :=
  locked (on_engine (fun _ e => (connect_peer e node_id, tt))).

(** Source: crates/unibusd/src/main.rs:430-472, [main].
    What the task does with one change of the peers. *)
Definition handle_peer_change (event : PeerChangeEvent) : Task AppState unit :=
  match event with
  | PeerChangeEvent_Joined node_id epoch =>
    if node_id =? 0 then Done tt
    else
      node <~ look (fun s => MemberTable_get (as_members s) node_id);
      match node with
      | None => Done tt
      | Some node =>
        match parse_socket_addr (ni_data_addr node) with
        | None => Done tt
        | Some _ =>
          _ <~ on_engine (fun _ e =>
            match TransportManager_create_session (en_transport e) node_id epoch (ni_initial_credits node) with
            | Ok m => (e <| en_transport := m |>, tt)
            | _ => (e, tt)
            end);
          connect_data_plane node_id
        end
      end
  | PeerChangeEvent_Recovered node_id =>
    node <~ look (fun s => MemberTable_get (as_members s) node_id);
    match node with
    | None => Done tt
    | Some node =>
      match parse_socket_addr (ni_data_addr node) with
      | None => Done tt
      | Some _ => connect_data_plane node_id
      end
    end
  | PeerChangeEvent_Suspect _ => Done tt
  | PeerChangeEvent_Down node_id _ => locked (on_engine (fun _ e => (disconnect_peer e node_id, tt)))
  end.

(** ** Remote verbs inside a handler *)

(** The request is no longer pending: it was answered, or its sender is gone. *)
Definition answered (opaque : Z) (s : AppState) : bool :=
  bool_decide (opaque ∉ en_pending (as_engine s)).

(** [dp.ub_*_remote(..).await]: send, wait for the answer or the timeout, finish. *)
Definition await_verb {A} (start : Clock -> Engine -> Engine * Result Z)
    (finish : Engine -> Z -> Engine * Result A) : Task AppState (Result A) :=
  r <~ on_engine start;
  match r with
  | Ok opaque => Wait (answered opaque) (fun _ => on_engine (fun _ e => finish e opaque))
  | Err e => Done (Err e)
  | Panic => Done Panic
  end.

Definition dp_read (addr len : Z) : Task AppState (Result bytes) :=
  await_verb (fun c e => ub_read_remote_start e (c 0%nat) (c 1%nat) addr len) ub_read_remote_finish.
Definition dp_cas (addr expect new : Z) : Task AppState (Result Z) :=
  await_verb (fun c e => ub_atomic_cas_remote_start e (c 0%nat) (c 1%nat) addr expect new)
    ub_atomic_cas_remote_finish.
Definition dp_faa (addr add : Z) : Task AppState (Result Z) :=
  await_verb (fun c e => ub_atomic_faa_remote_start e (c 0%nat) (c 1%nat) addr add)
    ub_atomic_faa_remote_finish.
Definition dp_write (addr : Z) (data : bytes) : Task AppState (Result unit) :=
  on_engine (fun c e => ub_write_remote e (c 0%nat) (c 1%nat) addr data).

(** [state.jetty_table.default_jetty().map(|h| h.0).unwrap_or(0)] *)
Definition src_jetty_id : Task AppState Z :=
  look (fun s => default 0 (JettyTable_default_jetty (en_jetty_table (as_engine s)))).

(** ** Handlers *)

Section Handlers.
(** The text bitflags derives for a set of permissions. *)
Context (perms_debug : Z -> bytes).

(** Source: crates/unibusd/src/main.rs:547-559, [node_list]. *)
Definition node_list : Handler :=
  nodes <~ look (fun s => MemberTable_list (as_members s));
  Done (JObj ["nodes" :- JArr (map (fun n => JObj [
    "node_id" :- JNum (ni_node_id n);
    "state" :- JStr (NodeState_display (ni_state n));
    "data_addr" :- JStr (ni_data_addr n);
    "epoch" :- JNum (ni_epoch n);
    "initial_credits" :- JNum (ni_initial_credits n)]) nodes)]).

(** Source: crates/unibusd/src/main.rs:561-574, [node_info]. *)
Definition node_info : Handler :=
  node <~ look (fun s => MemberTable_get (as_members s) (mb_local_node_id (as_members s)));
  Done match node with
       | Some n => JObj [
           "node_id" :- JNum (ni_node_id n);
           "state" :- JStr (NodeState_display (ni_state n));
           "control_addr" :- JStr (ni_control_addr n);
           "data_addr" :- JStr (ni_data_addr n);
           "epoch" :- JNum (ni_epoch n);
           "initial_credits" :- JNum (ni_initial_credits n)]
       | None => json_error "node not found"
       end.

(** What [mr_list] prints of a region. *)
Definition mr_json (s : AppState) (arc : nat) : option Json :=
  e ← entry_at s arc;
  d ← en_devices (as_engine s) !! me_device e;
  Some (JObj [
    "handle" :- JNum (me_handle e);
    "ub_addr" :- JStr (UbAddr_to_text (me_base_ub_addr e));
    "len" :- JNum (me_len e);
    "perms" :- JStr (perms_debug (me_perms e));
    "device_kind" :- JStr (DeviceKind_debug (dev_kind d));
    "state" :- JStr (MrState_debug (me_state e))]).

(** Source: crates/unibusd/src/main.rs:576-589, [mr_list]. *)
Definition mr_list : Handler :=
  arcs <~ look (fun s => MrTable_list (en_mr_table (as_engine s)));
  mrs <~ look (fun s => omap (M := list) (mr_json s) arcs);
  Done (JObj ["mrs" :- JArr mrs]).

(** Source: crates/unibusd/src/main.rs:591-604, [mr_cache_list]. *)
Definition mr_cache_list : Handler :=
  entries <~ look (fun s => MrCacheTable_list (en_mr_cache (as_engine s)));
  Done (JObj ["cache" :- JArr (map (fun e => JObj [
    "owner_node" :- JNum (mc_owner_node e);
    "mr_handle" :- JNum (mc_remote_mr_handle e);
    "ub_addr" :- JStr (UbAddr_to_text (mc_base_ub_addr e));
    "len" :- JNum (mc_len e);
    "perms" :- JStr (perms_debug (mc_perms e));
    "device_kind" :- JStr (DeviceKind_debug (mc_device_kind e))]) entries)]).

(** Source: crates/unibusd/src/main.rs:606-627, [mr_register]. *)
Definition mr_register (req : MrRegisterRequest) : Handler :=
  let perms := parse_perms (mrr_perms req) in
  let dev := new_device (mrr_device_kind req) (mrr_len req) in
  r <~ on_engine (fun _ e => register_device e dev (mrr_len req) perms);
  respond r (fun '(addr, handle) => JObj [
    "mr_handle" :- JNum handle;
    "ub_addr" :- JStr (UbAddr_to_text addr)]).

(** No operation is in flight on the region. *)
Definition drained (arc : nat) (s : AppState) : bool :=
  match entry_at s arc with
  | Some e => me_inflight_refs e <=? 0
  | None => true
  end.

(** Source: crates/unibusd/src/main.rs:629-638, [mr_deregister]. *)
Definition mr_deregister (req : MrDeregisterRequest) : Handler :=
  let handle := mdr_mr_handle req in
  r <~ on_engine (fun _ e =>
    match MrTable_deregister_async_start (en_mr_table e) handle with
    | Ok (t, waiting) => (e <| en_mr_table := t |>, Ok waiting)
    | Err err => (e, Err err)
    | Panic => (e, Panic)
    end);
  or_else r error_reply (fun waiting =>
    match waiting with
    | None => Done status_ok
    | Some arc =>
      Wait (drained arc) (fun timed_out =>
        r <~ on_engine (fun _ e =>
          let '(t, r) := MrTable_deregister_async_finish (en_mr_table e) handle arc timed_out in
          (e <| en_mr_table := t |>, r));
        respond r (fun _ => status_ok))
    end).

(** Source: crates/unibusd/src/main.rs:640-654, [verb_write]. *)
Definition verb_write (req : VerbWriteRequest) : Handler :=
  or_return (parse_ub_addr (vwr_ub_addr req)) (fun addr =>
    locked (r <~ dp_write addr (vwr_data req); respond r (fun _ => status_ok))).

(** Source: crates/unibusd/src/main.rs:656-670, [verb_read]. *)
Definition verb_read (req : VerbReadRequest) : Handler :=
  or_return (parse_ub_addr (vrr_ub_addr req)) (fun addr =>
    locked (r <~ dp_read addr (vrr_len req);
            respond r (fun data => JObj [
              "data" :- json_bytes data;
              "len" :- JNum (Z.of_nat (length data))]))).

(** Source: crates/unibusd/src/main.rs:672-686, [verb_atomic_cas]. *)
Definition verb_atomic_cas (req : VerbAtomicCasRequest) : Handler :=
  or_return (parse_ub_addr (vcr_ub_addr req)) (fun addr =>
    locked (r <~ dp_cas addr (vcr_expect req) (vcr_new req);
            respond r (fun old_value => JObj ["old_value" :- JNum old_value]))).

(** Source: crates/unibusd/src/main.rs:688-702, [verb_atomic_faa]. *)
Definition verb_atomic_faa (req : VerbAtomicFaaRequest) : Handler :=
  or_return (parse_ub_addr (vfr_ub_addr req)) (fun addr =>
    locked (r <~ dp_faa addr (vfr_add req);
            respond r (fun old_value => JObj ["old_value" :- JNum old_value]))).

(** Source: crates/unibusd/src/main.rs:704-709, [jetty_create]. *)
Definition jetty_create : Handler :=
  handle <~ on_engine (fun _ e =>
    let '(t, handle) := JettyTable_create (en_jetty_table e) in
    (e <| en_jetty_table := t |>, handle));
  Done (JObj ["jetty_handle" :- JNum handle]).

(** Source: crates/unibusd/src/main.rs:711-727, [jetty_list]. *)
Definition jetty_list : Handler :=
  infos <~ look (fun s => JettyTable_list (en_jetty_table (as_engine s)));
  Done (JObj ["jettys" :- JArr (map (fun j => JObj [
    "handle" :- JNum (jn_handle j);
    "node_id" :- JNum (jn_node_id j);
    "jfs_depth" :- JNum (jc_jfs_depth (jn_config j));
    "jfr_depth" :- JNum (jc_jfr_depth (jn_config j));
    "jfc_depth" :- JNum (jc_jfc_depth (jn_config j));
    "jfc_high_watermark" :- JNum (jc_jfc_high_watermark (jn_config j));
    "cqe_count" :- JNum (jn_cqe_count j);
    "jfs_count" :- JNum (jn_jfs_count j);
    "jfr_count" :- JNum (jn_jfr_count j)]) infos)]).

(** [state.jetty_table.lookup(handle)], or the reply when there is none. *)
Definition with_jetty (handle : Z) (k : nat -> Handler) : Handler :=
  jetty <~ look (fun s => JettyTable_lookup (en_jetty_table (as_engine s)) handle);
  match jetty with
  | Some arc => k arc
  | None => Done (json_error "jetty not found")
  end.

(** One call on a jetty. *)
Definition on_jetty {B} (arc : nat) (op : Jetty -> Jetty * B) : Task AppState (option B) :=
  on_engine (fun _ e =>
    match jb_heap (en_jetty_table e) !! arc with
    | Some j => let '(j, b) := op j in (put_jetty e arc j, Some b)
    | None => (e, None)
    end).

(** Source: crates/unibusd/src/main.rs:729-744, [jetty_post_recv]. *)
Definition jetty_post_recv (req : JettyPostRecvRequest) : Handler :=
  with_jetty (jpr_jetty_handle req) (fun arc =>
    let buf := repeat 0 (Z.to_nat (jpr_len req)) in
    let wr_id := jpr_jetty_handle req in
    r <~ on_jetty arc (fun j =>
      match Jetty_post_recv j buf wr_id with
      | Ok j => (j, Ok tt)
      | Err e => (j, Err e)
      | Panic => (j, Panic)
      end);
    respond (default Panic r) (fun _ => status_ok)).

(** Source: crates/unibusd/src/main.rs:746-766, [jetty_poll_cqe]. *)
Definition jetty_poll_cqe (req : JettyPollCqeRequest) : Handler :=
  with_jetty (jqr_jetty_handle req) (fun arc =>
    r <~ on_jetty arc (fun j => let '(cqe, j) := Jetty_poll_cqe j in (j, cqe));
    Done match mjoin r with
         | Some cqe => JObj [
             "wr_id" :- JNum (cqe_wr_id cqe);
             "status" :- JNum (cqe_status cqe);
             "imm" :- json_opt JNum (cqe_imm cqe);
             "byte_len" :- JNum (cqe_byte_len cqe);
             "jetty_id" :- JNum (cqe_jetty_id cqe);
             "verb" :- JStr (Verb_debug (cqe_verb cqe))]
         | None => JObj ["cqe" :- JNull]
         end).

(** Source: crates/unibusd/src/main.rs:768-787, [verb_send]. *)
Definition verb_send (req : VerbSendRequest) : Handler :=
  let dst_jetty := mkJettyAddr (vsr_dst_node_id req) (vsr_dst_jetty_id req) in
  src <~ src_jetty_id;
  locked (r <~ on_engine (fun c e => ub_send_remote e (c 0%nat) (c 1%nat) src dst_jetty (vsr_data req));
          respond r (fun _ => status_ok)).

(** Source: crates/unibusd/src/main.rs:789-809, [verb_send_with_imm]. *)
Definition verb_send_with_imm (req : VerbSendRequest) : Handler :=
  let dst_jetty := mkJettyAddr (vsr_dst_node_id req) (vsr_dst_jetty_id req) in
  let imm := default 0 (vsr_imm req) in
  src <~ src_jetty_id;
  locked (r <~ on_engine (fun c e =>
            ub_send_with_imm_remote e (c 0%nat) (c 1%nat) src dst_jetty (vsr_data req) imm);
          respond r (fun _ => status_ok)).

(** Source: crates/unibusd/src/main.rs:811-834, [verb_write_imm]. *)
Definition verb_write_imm (req : VerbWriteImmRequest) : Handler :=
  or_return (parse_ub_addr (vir_ub_addr req)) (fun addr =>
    let dst_jetty := mkJettyAddr (vir_dst_node_id req) (vir_dst_jetty_id req) in
    src <~ src_jetty_id;
    locked (r <~ on_engine (fun c e =>
              ub_write_imm_remote e (c 0%nat) (c 1%nat) addr (vir_data req) (vir_imm req) src dst_jetty);
            respond r (fun _ => status_ok))).

(** Source: crates/unibusd/src/main.rs:1117-1137, [device_list]. *)
Definition device_list : Handler :=
  profiles <~ look (fun s => dr_profiles (pl_registry (as_placer s)));
  Done (JObj ["devices" :- JArr (map (fun p => JObj [
    "node_id" :- JNum (dp_device_key p).1;
    "device_id" :- JNum (dp_device_key p).2;
    "kind" :- JStr (DeviceKind_debug (dp_kind p));
    "tier" :- JStr (StorageTier_debug (dp_tier p));
    "capacity_bytes" :- JNum (dp_capacity_bytes p);
    "used_bytes" :- JNum (dp_used_bytes p);
    "free_bytes" :- JNum (DeviceProfile_free_bytes p);
    "free_ratio" :- JStr (f64_fixed2 (DeviceProfile_free_ratio p));
    "peak_read_bw_mbps" :- JNum (dp_peak_read_bw_mbps p);
    "peak_write_bw_mbps" :- JNum (dp_peak_write_bw_mbps p);
    "read_latency_ns_p50" :- JNum (dp_read_latency_ns_p50 p);
    "write_latency_ns_p50" :- JNum (dp_write_latency_ns_p50 p);
    "recent_rps" :- JNum (dp_recent_rps p)]) profiles)]).
End Handlers.

(** ** Gauges *)

(** A gauge with its label. *)
Definition Gauge : Type := string * option (string * string) * Z.

(** Source: crates/unibusd/src/main.rs:1577-1599, [metrics_endpoint].
    The gauges set before the registry is rendered. *)
Definition metrics_endpoint {iteration : MapOrder Z RegionInfo} : Task AppState (list Gauge) :=
  arcs <~ look (fun s => MrTable_list (en_mr_table (as_engine s)));
  kinds <~ look (fun s => omap (M := list) (fun arc =>
    e ← entry_at s arc; d ← en_devices (as_engine s) !! me_device e; Some (dev_kind d)) arcs);
  let count kind := Z.of_nat (length (filter (fun k => k = kind) kinds)) in
  jetty_count <~ look (fun s => Z.of_nat (length (JettyTable_list (en_jetty_table (as_engine s)))));
  regions <~ look (fun s => RegionTable_count_by_state
                             (table_of (fa_tables (as_agent s)) (fa_region_table (as_agent s))));
  let '(home, shared, invalid) := regions in
  Done [("unibus_mr_count", None, count DeviceKind_Memory);
        ("unibus_mr_count", Some ("device", "memory"), count DeviceKind_Memory);
        ("unibus_mr_count", Some ("device", "npu"), count DeviceKind_Npu);
        ("unibus_jetty_count", None, jetty_count);
        ("unibus_region_count", Some ("state", "home"), Z.of_nat home);
        ("unibus_region_count", Some ("state", "shared"), Z.of_nat shared);
        ("unibus_region_count", Some ("state", "invalid"), Z.of_nat invalid)]%string.

(** ** A freshly registered region *)

Lemma zeros_wf n : 0 <= n < 2 ^ 63 -> raw_wf (repeat 0 (Z.to_nat n)) n.
Proof.
  intros Hn. split; [rewrite repeat_length; lia|]. split; [lia|]. apply Forall_forall. intros x Hx.
  apply list_elem_of_In, repeat_spec in Hx. by subst.
Qed.

Lemma new_device_wf kind len :
  0 <= len < 2 ^ 62 ->
  dev_wf (new_device kind len)
  /\ exists n, dev_mem (new_device kind len) = repeat 0 n /\ len <= Z.of_nat n < 2 ^ 63.
Proof.
  intros Hlen. unfold new_device. case_decide.
  - rewrite wrap_small by ulia.
    pose proof (Z.div_mod (len + 1024 * 1024 - 1) (1024 * 1024) ltac:(lia)).
    pose proof (Z.mod_pos_bound (len + 1024 * 1024 - 1) (1024 * 1024) ltac:(lia)).
    set (mib := Z.max _ 1) in *.
    assert (Hm : len <= mib * 1024 * 1024 < 2 ^ 63) by lia.
    unfold NpuDevice_new. rewrite (wrap_small 64 (mib * 1024 * 1024)) by ulia.
    split; [exact (zeros_wf (mib * 1024 * 1024) ltac:(lia))|]. exists (Z.to_nat (mib * 1024 * 1024)). split; [done|lia].
  - split; [exact (zeros_wf len ltac:(lia))|]. exists (Z.to_nat len). split; [done|lia].
Qed.

(** Registering a device of its own for a region: the region is found under its
    handle and under its address, at the start of the new device. *)
Lemma register_device_spec e dev len perms :
  mr_ok (en_mr_table e) -> 0 < len ->
  mr_op_ok (en_devices e ++ [dev]) (en_mr_table e) (MrOp_register (length (en_devices e)) len perms) ->
  exists e' addr handle arc entry,
    register_device e dev len perms = (e', Ok (addr, handle))
    /\ en_devices e' = en_devices e ++ [dev] /\ mr_ok (en_mr_table e')
    /\ mt_entries (en_mr_table e') !! handle = Some arc /\ mt_heap (en_mr_table e') !! arc = Some entry
    /\ me_device entry = length (en_devices e) /\ u128 addr
    /\ MrTable_lookup_by_addr (en_mr_table e') addr = Some (arc, 0).
Proof.
  intros Hok Hlen Hop. unfold register_device.
  pose proof (register_ok _ _ _ _ _ Hok Hop) as Hok'. cbn [mr_step] in Hok'.
  assert (Hd : (en_devices e ++ [dev]) !! length (en_devices e) = Some dev).
  { by apply list_lookup_middle. }
  destruct (register_spec _ _ _ _ _ dev Hok Hop Hlen Hd)
    as (t' & base & Hreg & Hnext & Hend & Hal & Hheap & Hent & _ & _ & Hpod & Hnode).
  rewrite Hreg in Hok' |- *. eexists _, _, _, _, _. split; [reflexivity|]. cbn [en_devices en_mr_table set_field].
  rewrite Hent, lookup_insert_eq, Hheap, list_lookup_middle by done.
  pose proof (next_nonneg (en_mr_table e) (dev_device_id dev) Hok) as Hnn.
  destruct Hop as (_ & _ & Hroom). destruct (Hroom dev Hd) as [Hid _].
  destruct (mo_ids _ Hok) as [Hp Hn].
  destruct (UbAddr_accessors_new (mt_pod_id (en_mr_table e)) (mt_node_id (en_mr_table e))
    (dev_device_id dev) base 0) as (_ & Hni & Hdi & Hoff & _); [done..|ulia|ulia|].
  split_and!; try done.
  - rewrite UbAddr_new_sum by (done || ulia). ulia.
  - apply lookup_by_addr_spec; [done|]. eexists _, _. rewrite Hent, lookup_insert_eq, Hheap.
    split; [done|]. rewrite list_lookup_middle by done. split; [done|].
    unfold me_device_id. cbn [me_base_ub_addr me_base_offset me_len].
    rewrite Hnode, Hni, Hoff, Z.sub_diag. split_and!; done || lia.
Qed.
