(* ===== verification/Kv.v ===== *)
(** * Kv: the key-value store on a memory region

    crates/unibusd/src/main.rs, the KV handlers. A slot is a key of 32 bytes, a
    value of 64 and a version counter; an update first moves the counter with an
    atomic operation and then writes key and value. A region of this node is
    reached through its device, a remote one through the data plane. *)

From S2P Require Import Prelude Bytes Types Addr Device Mr Verbs Jetty.
From S2P Require Import Frame Float Config Session Manager Dataplane Member Json.
From S2P Require Import Text Api Task Daemon.
#[local] Open Scope Z_scope.

(** Source: crates/unibusd/src/main.rs:203-207, [KV_SLOT_SIZE], [KV_KEY_LEN], [KV_VALUE_LEN],
    [KV_VERSION_OFFSET]. *)
Definition KV_SLOT_SIZE : Z := 104.
Definition KV_KEY_LEN : Z := 32.
Definition KV_VALUE_LEN : Z := 64.
Definition KV_VERSION_OFFSET : Z := 96.

(** ** Access to the region's device *)

Definition device_write (entry : MrEntry) (off : Z) (buf : bytes) : Task AppState (Result unit) :=
  on_engine (fun _ e => entry_write e entry off buf).
Definition device_read (entry : MrEntry) (off len : Z) : Task AppState (Result bytes) :=
  look (fun s => devices_read (as_engine s) entry off len).
Definition device_faa (entry : MrEntry) (off add : Z) : Task AppState (Result Z) :=
  on_engine (fun _ e => entry_device e entry (fun d => dev_atomic_faa d off add)).
Definition device_cas (entry : MrEntry) (off expect new : Z) : Task AppState (Result Z) :=
  on_engine (fun _ e => entry_device e entry (fun d => dev_atomic_cas d off expect new)).

(** [state.mr_table.lookup_by_addr(addr)] *)
Definition local_region (s : AppState) (addr : Z) : option (MrEntry * Z) :=
  '(arc, offset_in_mr) ← MrTable_lookup_by_addr (en_mr_table (as_engine s)) addr;
  entry ← entry_at s arc;
  Some (entry, offset_in_mr).

(** [state.mr_table.lookup(handle)] *)
Definition region_of_handle (s : AppState) (handle : Z) : option MrEntry :=
  arc ← MrTable_lookup (en_mr_table (as_engine s)) handle; entry_at s arc.

(** [UbAddr::new(addr.pod_id(), .., addr.offset() + by, addr.reserved())] *)
Definition addr_plus (addr by_ : Z) : Z :=
  UbAddr_new (UbAddr_pod_id addr) (UbAddr_node_id addr) (UbAddr_device_id addr)
    (wrap 64 (UbAddr_offset addr + by_)) (UbAddr_reserved addr).

Definition slot_offset (slot : Z) : Z := wrap 64 (slot * KV_SLOT_SIZE).

(** The buffer of key and value: both are cut or padded with zeros. *)
Definition kv_data (key value : bytes) : bytes :=
  pad_string key (Z.to_nat KV_KEY_LEN) ++ pad_string value (Z.to_nat KV_VALUE_LEN).

(** ** Handlers *)

(** Source: crates/unibusd/src/main.rs:1554-1567, [notify_replica]. *)
Definition notify_replica (replica_node_id replica_jetty_id slot : Z) : Task AppState unit :=
  src <~ src_jetty_id;
  let dst_jetty := mkJettyAddr replica_node_id replica_jetty_id in
  locked (_ <~ on_engine (fun c e => ub_send_with_imm_remote e (c 0%nat) (c 1%nat) src dst_jetty [] slot);
          Done tt).

(** [if let (Some(..), Some(..)) = (replica_node_id, replica_jetty_id) { notify_replica(..).await }] *)
Definition notify_if_configured (node jetty : option Z) (slot : Z) : Task AppState unit :=
  match node, jetty with
  | Some node, Some jetty => notify_replica node jetty slot
  | _, _ => Done tt
  end.

(** Source: crates/unibusd/src/main.rs:855-860, [kv_init].
    The loop over the slots from [i] on; errors are ignored. *)
Fixpoint init_slots (entry : MrEntry) (n : nat) (i : Z) : Task AppState unit :=
  match n with
  | O => Done tt
  | S n =>
    let slot_base := slot_offset i in
    _ <~ device_write entry (wrap 64 (slot_base + KV_VERSION_OFFSET)) (le_bytes 0);
    _ <~ device_write entry slot_base (repeat 0 (Z.to_nat KV_SLOT_SIZE));
    init_slots entry n (i + 1)
  end.

(** Source: crates/unibusd/src/main.rs:838-871, [kv_init]. *)
Definition kv_init (req : KvInitRequest) : Handler :=
  let total_len := wrap 64 (kir_slots req * KV_SLOT_SIZE) in
  let dev := new_device (kir_device_kind req) total_len in
  r <~ on_engine (fun _ e => register_device e dev total_len all_perms);
  or_else r error_reply (fun '(addr, handle) =>
    entry <~ look (fun s => region_of_handle s handle);
    match entry with
    | None => Crash
    | Some entry =>
      _ <~ init_slots entry (Z.to_nat (kir_slots req)) 0;
      Done (JObj [
        "status" :- jstr "ok";
        "mr_handle" :- JNum handle;
        "ub_addr" :- JStr (UbAddr_to_text addr);
        "slots" :- JNum (kir_slots req);
        "slot_size" :- JNum KV_SLOT_SIZE])
    end).

Definition put_reply (version : Z) : Json :=
  JObj ["status" :- jstr "ok"; "version" :- JNum version].

(** Source: crates/unibusd/src/main.rs:885-913, [kv_put].
    On a region of this node. *)
Definition kv_put_local (req : KvPutRequest) (entry : MrEntry) (offset_in_mr : Z) : Handler :=
  let slot_off := slot_offset (kpr_slot req) in
  let version_offset := wrap 64 (offset_in_mr + slot_off + KV_VERSION_OFFSET) in
  r <~ device_faa entry version_offset 1;
  or_else r error_reply (fun old_version =>
    let new_version := wrap 64 (old_version + 1) in
    let data_offset := wrap 64 (offset_in_mr + slot_off) in
    w <~ device_write entry data_offset (kv_data (kpr_key req) (kpr_value req));
    or_else w error_reply (fun _ =>
      _ <~ notify_if_configured (kpr_replica_node_id req) (kpr_replica_jetty_id req) (kpr_slot req);
      Done (put_reply new_version))).

(** Source: crates/unibusd/src/main.rs:914-959, [kv_put].
    On a remote region; the guard is dropped before the replica is told. *)
Definition kv_put_remote (req : KvPutRequest) (addr : Z) : Handler :=
  let slot_off := slot_offset (kpr_slot req) in
  r <~ locked (
    r <~ dp_faa (addr_plus addr (slot_off + KV_VERSION_OFFSET)) 1;
    match r with
    | Ok old_version =>
      w <~ dp_write (addr_plus addr slot_off) (kv_data (kpr_key req) (kpr_value req));
      Done (match w with Ok _ => Ok (wrap 64 (old_version + 1)) | Err e => Err e | Panic => Panic end)
    | Err e => Done (Err e)
    | Panic => Done Panic
    end);
  or_else r error_reply (fun new_version =>
    _ <~ notify_if_configured (kpr_replica_node_id req) (kpr_replica_jetty_id req) (kpr_slot req);
    Done (put_reply new_version)).

(** Source: crates/unibusd/src/main.rs:873-960, [kv_put]. *)
Definition kv_put (req : KvPutRequest) : Handler :=
  or_return (parse_ub_addr (kpr_ub_addr req)) (fun addr =>
    region <~ look (fun s => local_region s addr);
    match region with
    | Some (entry, offset_in_mr) => kv_put_local req entry offset_in_mr
    | None => kv_put_remote req addr
    end).

(** Source: crates/unibusd/src/main.rs:995-1023, [kv_get].
    The reply for the bytes that were read. *)
Definition kv_get_reply (req : KvGetRequest) (data : bytes) : Json :=
  if (length data <? Z.to_nat KV_SLOT_SIZE)%nat then
    JObj ["error" :- JStr (str "read returned " ++ decimal (Z.of_nat (length data))
                           ++ str " bytes, expected " ++ decimal KV_SLOT_SIZE)]
  else
    let key_bytes := mem_read data 0 KV_KEY_LEN in
    let value_bytes := mem_read data KV_KEY_LEN KV_VALUE_LEN in
    let version := le_value (mem_read data KV_VERSION_OFFSET 8) in
    let key_str := trim_end_matches 0 (from_utf8_lossy key_bytes) in
    let value_str := trim_end_matches 0 (from_utf8_lossy value_bytes) in
    let key_matches := bool_decide (key_bytes = pad_string (kgr_key req) (Z.to_nat KV_KEY_LEN)) in
    if negb key_matches && (0 <? version) then
      JObj ["error" :- jstr "key mismatch"; "expected_key" :- JStr (kgr_key req); "found_key" :- JStr key_str]
    else JObj ["key" :- JStr key_str; "value" :- JStr value_str; "version" :- JNum version].

(** Source: crates/unibusd/src/main.rs:962-1024, [kv_get]. *)
Definition kv_get (req : KvGetRequest) : Handler :=
  or_return (parse_ub_addr (kgr_ub_addr req)) (fun addr =>
    let slot_off := slot_offset (kgr_slot req) in
    region <~ look (fun s => local_region s addr);
    r <~ match region with
         | Some (entry, offset_in_mr) =>
           device_read entry (wrap 64 (offset_in_mr + slot_off)) KV_SLOT_SIZE
         | None => locked (dp_read (addr_plus addr slot_off) KV_SLOT_SIZE)
         end;
    respond r (kv_get_reply req)).

Definition cas_reply (old_value new_version : Z) : Json :=
  JObj ["status" :- jstr "ok"; "old_version" :- JNum old_value; "new_version" :- JNum new_version].
Definition cas_failed_reply (old_value expected : Z) : Json :=
  JObj ["status" :- jstr "cas_failed"; "current_version" :- JNum old_value; "expected_version" :- JNum expected].

(** Source: crates/unibusd/src/main.rs:1038-1067, [kv_cas].
    On a region of this node; the result of the write is ignored. *)
Definition kv_cas_local (req : KvCasRequest) (entry : MrEntry) (offset_in_mr : Z) : Handler :=
  let slot_off := slot_offset (kcr_slot req) in
  let new_version := wrap 64 (kcr_expect_version req + 1) in
  let version_offset := wrap 64 (offset_in_mr + slot_off + KV_VERSION_OFFSET) in
  r <~ device_cas entry version_offset (kcr_expect_version req) new_version;
  or_else r error_reply (fun old_value =>
    if old_value =? kcr_expect_version req then
      let data_offset := wrap 64 (offset_in_mr + slot_off) in
      w <~ device_write entry data_offset (kv_data (kcr_key req) (kcr_value req));
      match w with
      | Panic => Crash
      | _ =>
        _ <~ notify_if_configured (kcr_replica_node_id req) (kcr_replica_jetty_id req) (kcr_slot req);
        Done (cas_reply old_value new_version)
      end
    else Done (cas_failed_reply old_value (kcr_expect_version req))).

(** Source: crates/unibusd/src/main.rs:1068-1114, [kv_cas].
    On a remote region. *)
Definition kv_cas_remote (req : KvCasRequest) (addr : Z) : Handler :=
  let slot_off := slot_offset (kcr_slot req) in
  let new_version := wrap 64 (kcr_expect_version req + 1) in
  r <~ locked (
    r <~ dp_cas (addr_plus addr (slot_off + KV_VERSION_OFFSET)) (kcr_expect_version req) new_version;
    match r with
    | Ok old_value =>
      if old_value =? kcr_expect_version req then
        w <~ dp_write (addr_plus addr slot_off) (kv_data (kcr_key req) (kcr_value req));
        Done (match w with Panic => Panic | _ => Ok old_value end)
      else Done (Ok old_value)
    | Err e => Done (Err e)
    | Panic => Done Panic
    end);
  or_else r error_reply (fun old_value =>
    if old_value =? kcr_expect_version req then
      _ <~ notify_if_configured (kcr_replica_node_id req) (kcr_replica_jetty_id req) (kcr_slot req);
      Done (cas_reply old_value new_version)
    else Done (cas_failed_reply old_value (kcr_expect_version req))).

(** Source: crates/unibusd/src/main.rs:1026-1115, [kv_cas]. *)
Definition kv_cas (req : KvCasRequest) : Handler :=
  or_return (parse_ub_addr (kcr_ub_addr req)) (fun addr =>
    region <~ look (fun s => local_region s addr);
    match region with
    | Some (entry, offset_in_mr) => kv_cas_local req entry offset_in_mr
    | None => kv_cas_remote req addr
    end).

(** ** Requests *)

Inductive KvRequest : Type :=
| KvRequest_Put (req : KvPutRequest)
| KvRequest_Get (req : KvGetRequest)
| KvRequest_Cas (req : KvCasRequest).

Definition kv_handle (r : KvRequest) : Handler :=
  match r with
  | KvRequest_Put req => kv_put req
  | KvRequest_Get req => kv_get req
  | KvRequest_Cas req => kv_cas req
  end.

Definition kv_slot (r : KvRequest) : Z :=
  match r with
  | KvRequest_Put req => kpr_slot req
  | KvRequest_Get req => kgr_slot req
  | KvRequest_Cas req => kcr_slot req
  end.

(** The fields are in the range of their types and the address is [addr]. *)
Definition kv_request_ok (addr : Z) (r : KvRequest) : Prop :=
  match r with
  | KvRequest_Put req =>
    parse_ub_addr (kpr_ub_addr req) = inr addr /\ u32 (kpr_slot req)
    /\ Forall u8 (kpr_key req) /\ Forall u8 (kpr_value req)
  | KvRequest_Get req => parse_ub_addr (kgr_ub_addr req) = inr addr /\ u32 (kgr_slot req)
  | KvRequest_Cas req =>
    parse_ub_addr (kcr_ub_addr req) = inr addr /\ u32 (kcr_slot req)
    /\ Forall u8 (kcr_key req) /\ Forall u8 (kcr_value req) /\ u64 (kcr_expect_version req)
  end.

(** The version a reply reports for a successful update. *)
Definition version_of (j : Json) : option Z :=
  match json_get j "status" with
  | Some (JStr st) =>
    if decide (st = str "ok") then
      match json_get j "version", json_get j "new_version" with
      | Some (JNum v), _ | None, Some (JNum v) => Some v
      | _, _ => None
      end
    else None
  | _ => None
  end.

(** A handler tagged with the slot it works on. *)
Definition kv_task (r : KvRequest) : Task AppState (Z * Json) :=
  j <~ kv_handle r; Done (kv_slot r, j).

(** ** A slot of a region of this node *)

(** Devices are used through their laws only. *)
#[local] Arguments dev_mem : simpl never.
#[local] Arguments dev_wf : simpl never.
#[local] Arguments dev_read : simpl never.
#[local] Arguments dev_write : simpl never.
#[local] Arguments dev_atomic_cas : simpl never.
#[local] Arguments dev_atomic_faa : simpl never.

Lemma dyn_mem_u8 (d : DynDevice) : dev_wf d -> Forall u8 (dev_mem d).
Proof. by destruct d; intros (_ & _ & H). Qed.

Section Slot.
Context (addr off slot : Z) (dv : nat).

(** [addr] lies [off] bytes into a region of this node on the device [dv], and the
    slot is inside the device. *)
Record kv_ready (s : AppState) : Prop := {
  kr_off : 0 <= off;
  kr_slot : u32 slot;
  kr_region : exists entry, local_region s addr = Some (entry, off) /\ me_device entry = dv;
  kr_device : exists d, en_devices (as_engine s) !! dv = Some d /\ dev_wf d
    /\ off + slot * 104 + 104 <= Z.of_nat (length (dev_mem d)) < 2 ^ 63;
}.

Definition device_mem (s : AppState) : bytes :=
  match en_devices (as_engine s) !! dv with Some d => dev_mem d | None => [] end.

Definition version_at (i : Z) (s : AppState) : Z :=
  le_value (mem_read (device_mem s) (off + i * 104 + 96) 8).

Lemma local_region_same s e :
  en_mr_table e = en_mr_table (as_engine s) -> forall a, local_region (s <| as_engine := e |>) a = local_region s a.
Proof. intros He a. unfold local_region, entry_at. cbn. by rewrite He. Qed.

(** Steps that leave the regions and the devices alone. *)
Lemma ready_same s e :
  en_mr_table e = en_mr_table (as_engine s) -> en_devices e = en_devices (as_engine s) ->
  kv_ready s ->
  kv_ready (s <| as_engine := e |>) /\ forall i, version_at i (s <| as_engine := e |>) = version_at i s.
Proof.
  intros Ht Hd [? ? Hr Hdev]. split.
  - split; [done..| |cbn; by rewrite Hd]. by rewrite local_region_same.
  - intros i. unfold version_at, device_mem. cbn. by rewrite Hd.
Qed.

(** The device changes its content and nothing else. *)
Lemma ready_device s s' d d' :
  kv_ready s -> en_devices (as_engine s) !! dv = Some d -> dev_same d d' ->
  en_mr_table (as_engine s') = en_mr_table (as_engine s) ->
  en_devices (as_engine s') = <[dv := d']> (en_devices (as_engine s)) ->
  kv_ready s' /\ device_mem s' = dev_mem d'.
Proof.
  intros [? ? Hr (d0 & Hd0 & Hwf & Hlen)] Hd (Hwf' & _ & _ & Hcap) Ht Hds.
  rewrite Hd in Hd0. injection Hd0 as <-.
  assert (Hl : length (dev_mem d') = length (dev_mem d)).
  { rewrite !dev_capacity_spec in Hcap by done. lia. }
  assert (Hd' : en_devices (as_engine s') !! dv = Some d').
  { rewrite Hds. apply list_lookup_insert_eq. by eapply lookup_lt_Some. }
  split; [split; [done..| |]|].
  - unfold local_region, entry_at. by rewrite Ht.
  - exists d'. by rewrite Hl.
  - unfold device_mem. by rewrite Hd'.
Qed.

Section Ready.
Context (s : AppState) (Hs : kv_ready s).

Lemma ready_mem : exists d, en_devices (as_engine s) !! dv = Some d /\ dev_wf d /\ device_mem s = dev_mem d
  /\ off + slot * 104 + 104 <= Z.of_nat (length (dev_mem d)) < 2 ^ 63.
Proof. destruct Hs as [_ _ _ (d & Hd & Hwf & Hl)]. exists d. unfold device_mem. by rewrite Hd. Qed.

(** The offsets the handlers compute do not wrap. *)
Lemma slot_offsets i : u32 i ->
  wrap 64 (off + slot_offset i) = off + i * 104
  /\ wrap 64 (off + slot_offset i + KV_VERSION_OFFSET) = off + i * 104 + 96.
Proof.
  destruct ready_mem as (d & _ & _ & _ & Hl). destruct Hs as [Hoff Hslot _ _]. intros Hi.
  assert (slot_offset i = i * 104) as ->.
  { unfold slot_offset, KV_SLOT_SIZE. apply wrap_small. ulia. }
  unfold KV_VERSION_OFFSET. split; apply wrap_small; ulia.
Qed.
End Ready.

(** A write to the key and value of a slot keeps every version. *)
Lemma kv_write_step s entry i buf :
  kv_ready s -> me_device entry = dv -> u32 i -> Forall u8 buf -> Z.of_nat (length buf) = 96 ->
  match entry_write (as_engine s) entry (off + i * 104) buf with
  | (e, r) => r <> Panic /\ kv_ready (s <| as_engine := e |>)
              /\ version_at slot (s <| as_engine := e |>) = version_at slot s
              /\ (i = slot -> r = Ok tt
                  /\ device_mem (s <| as_engine := e |>) = mem_write (device_mem s) (off + i * 104) buf)
  end.
Proof.
  intros Hs He Hi Hbuf Hlen. destruct (ready_mem s Hs) as (d & Hd & Hwf & Hm & Hl).
  assert (Hoff : 0 <= off) by apply Hs. assert (Hslot : u32 slot) by apply Hs.
  unfold entry_write, entry_device, with_device. rewrite He, Hd.
  pose proof (dev_write_spec d (off + i * 104) buf Hwf ltac:(ulia) Hbuf ltac:(lia)) as Hw.
  destruct (in_bounds (dev_mem d) (off + i * 104) (Z.of_nat (length buf))) eqn:Hin.
  - destruct Hw as (d' & -> & Hsame & Hmem). cbn [rbind]. cbv beta iota.
    set (s' := set_field as_engine _ s).
    destruct (ready_device s s' d d' Hs Hd Hsame) as [Hr Hdm]; [done..|].
    split_and!; [done|exact Hr|..].
    + unfold version_at. rewrite Hdm, Hmem, Hm. f_equal. unfold fits in *.
      apply mem_read_write_disjoint; [lia..|done|]. lia.
    + intros ->. rewrite Hdm, Hm. by split.
  - rewrite Hw. cbn [rbind]. cbv beta iota. replace (s <| as_engine := as_engine s |>) with s by by destruct s.
    split_and!; [done..|]. intros ->. unfold in_bounds in Hin. zbool. lia.
Qed.

(** An atomic on the version of a slot: [f] is what it stores. *)
Lemma kv_atomic_step s entry i (op : DynDevice -> Result (Z * DynDevice)) (f : Z -> Z) :
  kv_ready s -> me_device entry = dv -> u32 i -> (forall v, u64 v -> u64 (f v)) ->
  (forall d, dev_wf d ->
     op d = Err Alignment \/ op d = Err AddrInvalid
     \/ in_bounds (dev_mem d) (off + i * 104 + 96) 8 = true
        /\ let old := le_value (mem_read (dev_mem d) (off + i * 104 + 96) 8) in
           exists d', op d = Ok (old, d') /\ dev_same d d'
             /\ dev_mem d' = (if f old =? old then dev_mem d
                              else mem_write (dev_mem d) (off + i * 104 + 96) (le_bytes (f old)))) ->
  match entry_device (as_engine s) entry op with
  | (e, r) => r <> Panic /\ kv_ready (s <| as_engine := e |>)
      /\ match r with
         | Ok old => old = version_at i s /\ version_at i (s <| as_engine := e |>) = f old
                     /\ (i <> slot -> version_at slot (s <| as_engine := e |>) = version_at slot s)
         | _ => version_at slot (s <| as_engine := e |>) = version_at slot s
         end
  end.
Proof.
  intros Hs He Hi Hf Hop. destruct (ready_mem s Hs) as (d & Hd & Hwf & Hm & Hl).
  assert (Hoff : 0 <= off) by apply Hs. assert (Hslot : u32 slot) by apply Hs.
  unfold entry_device, with_device. rewrite He, Hd.
  assert (Heta : s <| as_engine := as_engine s |> = s) by by destruct s.
  destruct (Hop d Hwf) as [->|[->|(Hin & d' & -> & Hsame & Hmem)]]; cbn [rbind]; cbv beta iota;
    rewrite ?Heta; [done..|].
  set (s' := set_field as_engine _ s).
    destruct (ready_device s s' d d' Hs Hd Hsame) as [Hr Hdm]; [done..|].
  split_and!; [done|exact Hr|..].
  - unfold version_at. by rewrite Hm.
  - unfold version_at. rewrite Hdm, Hmem. clear Hmem.
    set (old := le_value (mem_read (dev_mem d) (off + i * 104 + 96) 8)).
    destruct (f old =? old) eqn:E; zbool; [done|].
    pose proof (mem_read_write_same (dev_mem d) (off + i * 104 + 96) (le_bytes (f old))) as Hrw.
    rewrite length_le_bytes in Hrw. change (Z.of_nat 8) with 8 in Hrw. rewrite Hrw by (done || ulia). apply le_value_le_bytes, Hf.
    apply le_value_fits; [by apply mem_read_u8, dyn_mem_u8|].
    pose proof (length_mem_read (dev_mem d) (off + i * 104 + 96) 8 ltac:(ulia) ltac:(lia) Hin). lia.
  - intros Hne. unfold version_at. rewrite Hdm, Hmem, Hm. case_match; [done|]. f_equal.
    apply mem_read_write_disjoint; rewrite ?length_le_bytes; [ulia..|done|]. ulia.
Qed.

Lemma version_u64 i s : kv_ready s -> 0 <= i ->
  in_bounds (device_mem s) (off + i * 104 + 96) 8 = true -> u64 (version_at i s).
Proof.
  intros Hs Hi Hin. destruct (ready_mem s Hs) as (d & _ & Hwf & Hm & _). unfold version_at.
  assert (0 <= off) by apply Hs. apply le_value_fits.
  - rewrite Hm. by apply mem_read_u8, dyn_mem_u8.
  - pose proof (length_mem_read (device_mem s) (off + i * 104 + 96) 8 ltac:(lia) ltac:(lia) Hin). lia.
Qed.

Lemma slot_in_bounds s : kv_ready s -> in_bounds (device_mem s) (off + slot * 104 + 96) 8 = true.
Proof.
  intros Hs. destruct (ready_mem s Hs) as (d & _ & _ & Hm & Hl). unfold in_bounds.
  rewrite Hm. apply Z.leb_le. lia.
Qed.

Definition bumped (v : Z) : Z := wrap 64 (v + 1).
Definition swapped (expect v : Z) : Z := if v =? expect then bumped expect else v.

Lemma bumped_neq v : u64 v -> bumped v <> v.
Proof.
  intros Hv. unfold bumped, wrap. destruct (decide (v + 1 = 2 ^ 64)) as [E|E].
  - rewrite E, Z.mod_same by lia. ulia.
  - rewrite Z.mod_small by ulia. lia.
Qed.

(** What [fetch_add] and [compare_exchange] do to the version of a slot. *)
Lemma kv_faa_step s entry i : kv_ready s -> me_device entry = dv -> u32 i ->
  match entry_device (as_engine s) entry (fun d => dev_atomic_faa d (off + i * 104 + 96) 1) with
  | (e, r) => r <> Panic /\ kv_ready (s <| as_engine := e |>)
      /\ match r with
         | Ok old => old = version_at i s /\ version_at i (s <| as_engine := e |>) = bumped old
                     /\ (i <> slot -> version_at slot (s <| as_engine := e |>) = version_at slot s)
         | _ => version_at slot (s <| as_engine := e |>) = version_at slot s
         end
  end.
Proof.
  intros Hs He Hi. destruct (ready_mem s Hs) as (d0 & _ & _ & _ & Hl).
  assert (Hoff : 0 <= off < 2 ^ 63) by (split; [apply Hs|unfold fits in *; destruct Hs; ulia]).
  apply kv_atomic_step; [done..|intros; by apply wrap_fits|]. intros d Hwf.
  pose proof (dev_faa_spec d (off + i * 104 + 96) 1 Hwf ltac:(ulia)) as Hf.
  destruct (negb _); [by left|]. destruct (in_bounds _ _ _) eqn:Hin; [|by right; left].
  right. right. split; [done|]. destruct Hf as (d' & Hop & Hsame & Hmem). exists d'. split; [done|].
  split; [done|]. rewrite (proj2 (Z.eqb_neq _ _)); [done|]. apply bumped_neq, le_value_fits.
  - by apply mem_read_u8, dyn_mem_u8.
  - pose proof (length_mem_read (dev_mem d) (off + i * 104 + 96) 8 ltac:(ulia) ltac:(lia) Hin). lia.
Qed.

Lemma kv_cas_step s entry i expect : kv_ready s -> me_device entry = dv -> u32 i -> u64 expect ->
  match entry_device (as_engine s) entry
          (fun d => dev_atomic_cas d (off + i * 104 + 96) expect (bumped expect)) with
  | (e, r) => r <> Panic /\ kv_ready (s <| as_engine := e |>)
      /\ match r with
         | Ok old => old = version_at i s /\ version_at i (s <| as_engine := e |>) = swapped expect old
                     /\ (i <> slot -> version_at slot (s <| as_engine := e |>) = version_at slot s)
         | _ => version_at slot (s <| as_engine := e |>) = version_at slot s
         end
  end.
Proof.
  intros Hs He Hi Hx. destruct (ready_mem s Hs) as (d0 & _ & _ & _ & Hl).
  assert (Hoff : 0 <= off < 2 ^ 63) by (split; [apply Hs|unfold fits in *; destruct Hs; ulia]).
  apply kv_atomic_step; [done..| |].
  { intros v Hv. unfold swapped. case_match; [by apply wrap_fits|done]. }
  intros d Hwf. pose proof (dev_cas_spec d (off + i * 104 + 96) expect (bumped expect) Hwf ltac:(ulia)
    (wrap_fits 64 _ ltac:(lia))) as Hf.
  destruct (negb _); [by left|]. destruct (in_bounds _ _ _) eqn:Hin; [|by right; left].
  right. right. split; [done|]. destruct Hf as (d' & Hop & Hsame & Hmem). exists d'. split; [done|].
  split; [done|]. rewrite Hmem. unfold swapped.
  destruct (_ =? expect) eqn:E; zbool.
  - rewrite E. by rewrite (proj2 (Z.eqb_neq _ _)) by by apply bumped_neq.
  - by rewrite Z.eqb_refl.
Qed.

(** ** Handlers that leave the version alone *)

Abbreviation keeps_version := (keeps kv_ready (version_at slot)).

Lemma keeps_look {B} (f : AppState -> B) (P : B -> Prop) :
  (forall s, kv_ready s -> P (f s)) -> keeps_version P (look f).
Proof. intros Hf clock s Hs. cbn. auto. Qed.

Lemma keeps_on_engine {B} (op : Clock -> Engine -> Engine * B) :
  (forall c e, en_mr_table (op c e).1 = en_mr_table e /\ en_devices (op c e).1 = en_devices e) ->
  keeps_version (fun _ => True) (on_engine op).
Proof.
  intros Hop clock s Hs. destruct (Hop clock (as_engine s)) as [Ht Hd].
  destruct (op clock (as_engine s)) as [e b]. destruct (ready_same s e Ht Hd Hs). cbn. auto.
Qed.

Lemma engine_send_same e t1 t2 node frame ff opaque :
  en_mr_table (engine_send e t1 t2 node frame ff opaque).1 = en_mr_table e
  /\ en_devices (engine_send e t1 t2 node frame ff opaque).1 = en_devices e.
Proof. unfold engine_send. by destruct (TransportManager_send _ _ _ _ _ _ _) as [[m ?] r]. Qed.

Lemma send_with_imm_same e t1 t2 src dst data imm :
  en_mr_table (ub_send_with_imm_remote e t1 t2 src dst data imm).1 = en_mr_table e
  /\ en_devices (ub_send_with_imm_remote e t1 t2 src dst data imm).1 = en_devices e.
Proof.
  unfold ub_send_with_imm_remote. case_match; [done|].
  pose proof (engine_send_same e t1 t2 (ja_node_id dst)) as H1.
  destruct (engine_send _ _ _ _ _ _ _) as [e' r] eqn:E. cbn.
  match type of E with engine_send _ _ _ _ ?f ?ff ?o = _ => specialize (H1 f ff o) end.
  by rewrite E in H1.
Qed.

Lemma keeps_notify node jetty i : keeps_version (fun _ => True) (notify_if_configured node jetty i).
Proof.
  destruct node as [node|], jetty as [jetty|]; try done.
  apply (keeps_bind _ _ (fun _ => True)); [by apply keeps_look|].
  intros src _. apply keeps_locked. apply (keeps_bind _ _ (fun _ => True)); [|done].
  apply keeps_on_engine. intros. apply send_with_imm_same.
Qed.

Lemma kv_data_ok key value : Forall u8 key -> Forall u8 value ->
  Forall u8 (kv_data key value) /\ Z.of_nat (length (kv_data key value)) = 96.
Proof.
  intros Hk Hv. unfold kv_data, pad_string. split.
  - repeat apply Forall_app_2; auto using Forall_take, Forall_drop; apply Forall_drop, Forall_forall;
      intros x Hx; apply list_elem_of_In, repeat_spec in Hx; subst; done.
  - rewrite !length_app, !length_take, !length_drop, !repeat_length.
    change (Z.to_nat KV_KEY_LEN) with 32%nat. change (Z.to_nat KV_VALUE_LEN) with 64%nat. lia.
Qed.

Lemma keeps_data_write entry i key value :
  me_device entry = dv -> u32 i -> Forall u8 key -> Forall u8 value ->
  keeps_version (fun r => r <> Panic)
    (device_write entry (wrap 64 (off + slot_offset i)) (kv_data key value)).
Proof.
  intros He Hi Hk Hv clock s Hs. destruct (kv_data_ok key value Hk Hv) as [Hu Hlen].
  rewrite (proj1 (slot_offsets s Hs i Hi)).
  pose proof (kv_write_step s entry i _ Hs He Hi Hu Hlen) as Hw.
  destruct (entry_write _ _ _ _) as [e r]. destruct Hw as (? & ? & ? & _). by cbn.
Qed.

(** ** One request alone *)

(** The atomic goes through on an aligned region. *)
Lemma kv_faa_ok s entry : kv_ready s -> me_device entry = dv -> off mod 8 = 0 ->
  exists e, entry_device (as_engine s) entry (fun d => dev_atomic_faa d (off + slot * 104 + 96) 1)
            = (e, Ok (version_at slot s)).
Proof.
  intros Hs He Hal. destruct (ready_mem s Hs) as (d & Hd & Hwf & Hm & Hl).
  assert (Hoff : 0 <= off) by apply Hs. assert (Hslot : u32 slot) by apply Hs.
  unfold entry_device, with_device. rewrite He, Hd.
  pose proof (dev_faa_spec d (off + slot * 104 + 96) 1 Hwf ltac:(ulia)) as Hf.
  replace ((off + slot * 104 + 96) mod 8) with 0 in Hf.
  2: { replace (off + slot * 104 + 96) with (off + (slot * 13 + 12) * 8) by lia. by rewrite Z_mod_plus_full. }
  cbn [Z.eqb negb] in Hf. pose proof (slot_in_bounds s Hs) as Hin. rewrite Hm in Hin. rewrite Hin in Hf.
  destruct Hf as (d' & -> & _). unfold version_at. rewrite Hm. cbn [rbind]. eauto.
Qed.

Lemma exec_notify clock env node jetty i s : exists e,
  exec clock env (notify_if_configured node jetty i) s = (s <| as_engine := e |>, Some tt)
  /\ en_mr_table e = en_mr_table (as_engine s) /\ en_devices e = en_devices (as_engine s).
Proof.
  assert (Heta : s <| as_engine := as_engine s |> = s) by by destruct s.
  destruct node as [node|], jetty as [jetty|]; try by (exists (as_engine s); rewrite Heta).
  unfold notify_if_configured, notify_replica. rewrite exec_bind. cbn.
  set (src := default 0 _).
  pose proof (send_with_imm_same (as_engine s) (clock 0%nat) (clock 1%nat) src (mkJettyAddr node jetty) [] i) as Hs.
  destruct (ub_send_with_imm_remote _ _ _ _ _ _ _) as [e r]. cbn in *. eauto.
Qed.

(** A put leaves key, value and the next version in its slot. *)
Lemma exec_put clock env s req :
  kv_ready s -> off mod 8 = 0 -> kv_request_ok addr (KvRequest_Put req) -> kpr_slot req = slot ->
  exists s', exec clock env (kv_put req) s = (s', Some (put_reply (bumped (version_at slot s))))
    /\ kv_ready s' /\ version_at slot s' = bumped (version_at slot s)
    /\ mem_read (device_mem s') (off + slot * 104) 96 = kv_data (kpr_key req) (kpr_value req).
Proof.
  intros Hs Hal (Ha & Hi & Hk & Hv) Hslot. destruct (kr_region s Hs) as (entry & Hr & He).
  unfold kv_put. rewrite Ha. cbn [or_return]. rewrite exec_bind. cbn [exec look]. rewrite Hr.
  unfold kv_put_local. rewrite Hslot in *. rewrite (proj2 (slot_offsets s Hs _ Hi)), (proj1 (slot_offsets s Hs _ Hi)).
  rewrite exec_bind. cbn [exec device_faa on_engine step].
  destruct (kv_faa_ok s entry Hs He Hal) as [e1 Hf].
  pose proof (kv_faa_step s entry slot Hs He Hi) as Hstep. rewrite Hf in Hstep |- *.
  destruct Hstep as (_ & Hs1 & _ & Hv1 & _). cbn [or_else]. set (s1 := s <| as_engine := e1 |>) in *.
  rewrite exec_bind. cbn [exec device_write on_engine step].
  destruct (kv_data_ok _ _ Hk Hv) as [Hu Hlen].
  pose proof (kv_write_step s1 entry slot _ Hs1 He Hi Hu Hlen) as Hw.
  destruct (entry_write _ _ _ _) as [e2 r2]. destruct Hw as (_ & Hs2 & Hv2 & Hmem).
  destruct (Hmem eq_refl) as [-> Hm2]. cbn [or_else]. set (s2 := s1 <| as_engine := e2 |>) in *.
  rewrite exec_bind. destruct (exec_notify clock env (kpr_replica_node_id req) (kpr_replica_jetty_id req) slot s2)
    as (e3 & -> & Ht3 & Hd3). destruct (ready_same s2 e3 Ht3 Hd3 Hs2) as [Hs3 Hv3].
  cbn [exec]. eexists. split_and!; [reflexivity|exact Hs3|rewrite Hv3; congruence|].
  assert (device_mem (s2 <| as_engine := e3 |>) = device_mem s2) as ->.
  { unfold device_mem. cbn [as_engine set_field]. change (as_engine (s2 <| as_engine := e3 |>)) with e3. by rewrite Hd3. }
  rewrite Hm2, <- Hlen. destruct (ready_mem s1 Hs1) as (d & _ & _ & Hm & Hl).
  assert (0 <= off) by apply Hs. apply mem_read_write_same; [ulia|]. unfold in_bounds. rewrite Hm.
  apply Z.leb_le. lia.
Qed.

Lemma mem_read_read m o n a b : 0 <= o -> 0 <= a -> 0 <= b -> a + b <= n ->
  mem_read (mem_read m o n) a b = mem_read m (o + a) b.
Proof.
  intros. apply list_eq. intros i. rewrite !lookup_mem_read.
  repeat case_decide; try done; [|lia]. f_equal. lia.
Qed.

(** A get reads the bytes of its slot. *)
Lemma exec_get clock env s req :
  kv_ready s -> kv_request_ok addr (KvRequest_Get req) -> kgr_slot req = slot ->
  exec clock env (kv_get req) s
  = (s, Some (kv_get_reply req (mem_read (device_mem s) (off + slot * 104) 104))).
Proof.
  intros Hs (Ha & Hi) Hslot. destruct (kr_region s Hs) as (entry & Hr & He).
  unfold kv_get. rewrite Ha. cbn [or_return]. rewrite exec_bind. cbn [exec look]. rewrite Hr.
  rewrite Hslot in *. rewrite (proj1 (slot_offsets s Hs _ Hi)), exec_bind. cbn [exec device_read look].
  destruct (ready_mem s Hs) as (d & Hd & Hwf & Hm & Hl). assert (0 <= off) by apply Hs.
  unfold devices_read. rewrite He, Hd, dev_read_spec by (done || ulia).
  rewrite Hm. unfold in_bounds, KV_SLOT_SIZE. by rewrite (proj2 (Z.leb_le _ _)) by lia.
Qed.

(** ** Drawing versions *)

Definition claim (r : Z * Json) : option Z := if r.1 =? slot then version_of r.2 else None.

Abbreviation draws := (drawing kv_ready (version_at slot) (2 ^ 64 - 1) claim).

Lemma claim_none i j : version_of j = None -> claim (i, j) = None.
Proof. unfold claim. cbn. by case_match. Qed.

Lemma kv_get_reply_none req data : version_of (kv_get_reply req data) = None.
Proof. unfold kv_get_reply. by repeat case_match. Qed.

(** The replies of the rest of an update of slot [i], once its version is [v]. *)
Definition reports (i v : Z) (a : Z * Json) : Prop :=
  a.1 = i /\ (version_of a.2 = None \/ version_of a.2 = Some v).

Lemma reports_other i v a : reports i v a -> i <> slot -> claim a = None.
Proof. destruct a as [k j]. intros [Hk _] Hne. cbn in Hk. subst k. unfold claim. cbn.
  by rewrite (proj2 (Z.eqb_neq i slot)). Qed.

Lemma reports_claim i v a : reports i v a -> claim a = None \/ claim a = Some v.
Proof. intros [_ H]. unfold claim. case_match; auto. Qed.

Lemma keeps_reply node jetty i j v :
  version_of j = Some v ->
  keeps_version (reports i v) (task_bind (_ <~ notify_if_configured node jetty i; Done j) (fun j => Done (i, j))).
Proof.
  intros Hj. apply (keeps_bind _ _ (fun r => r = j)).
  - apply (keeps_bind _ _ (fun _ => True)); [apply keeps_notify|done].
  - intros ? ->. split; [done|by right].
Qed.

(** The outcome of an atomic on the version of slot [i] that stores [f old]. *)
Definition atomic_outcome (i : Z) (f : Z -> Z) (s : AppState) (out : Engine * Result Z) : Prop :=
  match out with
  | (e, r) => r <> Panic /\ kv_ready (s <| as_engine := e |>)
      /\ match r with
         | Ok old => old = version_at i s /\ version_at i (s <| as_engine := e |>) = f old
                     /\ (i <> slot -> version_at slot (s <| as_engine := e |>) = version_at slot s)
         | _ => version_at slot (s <| as_engine := e |>) = version_at slot s
         end
  end.

(** An update is an atomic on the version and a rest that reports it; [went old]
    says whether the update goes through. *)
Lemma draws_update i entry (op : DynDevice -> Result (Z * DynDevice)) (f : Z -> Z) (went : Z -> bool)
    (rest : Z -> Handler) :
  u32 i -> (forall s, kv_ready s -> atomic_outcome i f s (entry_device (as_engine s) entry op)) ->
  (forall old, f old = if went old then bumped old else old) ->
  (forall old, went old = true ->
     keeps_version (reports i (bumped old)) (j <~ rest old; Done (i, j))) ->
  (forall old, went old = false -> keeps_version (fun a => claim a = None) (j <~ rest old; Done (i, j))) ->
  draws (j <~ (r <~ on_engine (fun _ e => entry_device e entry op); or_else r error_reply rest); Done (i, j)).
Proof.
  intros Hi Hop Hf Hyes Hno clock s Hs Hlim. specialize (Hop s Hs). cbn.
  destruct (entry_device (as_engine s) entry op) as [e r]. destruct Hop as (Hr & Hs' & Hcases).
  cbn [fst snd]. split; [exact Hs'|]. destruct r as [old|err|]; [|left; split; [exact Hcases|by apply claim_none]|done].
  destruct Hcases as (-> & Hnew & Hother). cbn [or_else]. rewrite Hf in Hnew.
  destruct (went (version_at i s)) eqn:Ew.
  - specialize (Hyes _ Ew). destruct (decide (i = slot)) as [->|Hne].
    + right. assert (Hb : bumped (version_at slot s) = version_at slot s + 1).
      { apply wrap_small. pose proof (version_u64 slot s Hs ltac:(ulia) (slot_in_bounds s Hs)). ulia. }
      rewrite Hb in *. split; [exact Hnew|]. eapply keeps_impl; [|exact Hyes]. intros a. apply reports_claim.
    + left. split; [exact (Hother Hne)|]. apply drawing_keeps. eapply keeps_impl; [|exact Hyes].
      intros a Ha. by eapply reports_other.
  - left. split; [|by apply drawing_keeps, Hno].
    destruct (decide (i = slot)) as [->|Hne]; [exact Hnew|exact (Hother Hne)].
Qed.

Lemma draws_put req entry :
  me_device entry = dv -> u32 (kpr_slot req) -> Forall u8 (kpr_key req) -> Forall u8 (kpr_value req) ->
  draws (j <~ kv_put_local req entry off; Done (kpr_slot req, j)).
Proof.
  intros He Hi Hk Hv. apply (draws_update _ _ _ bumped (fun _ => true)); [done| |done| |done].
  - intros s Hs. rewrite (proj2 (slot_offsets s Hs _ Hi)). by apply kv_faa_step.
  - intros old _. apply (keeps_bind _ _ (fun j => version_of j = None \/ version_of j = Some (bumped old)));
      [|by intros j Hj].
    apply (keeps_bind _ _ (fun r => r <> Panic)); [by apply keeps_data_write|].
    intros [[]|e|] Hr; [|by left|done]. apply (keeps_bind _ _ (fun _ => True)); [apply keeps_notify|].
    by right.
Qed.

Lemma draws_cas req entry :
  me_device entry = dv -> u32 (kcr_slot req) -> Forall u8 (kcr_key req) -> Forall u8 (kcr_value req) ->
  u64 (kcr_expect_version req) ->
  draws (j <~ kv_cas_local req entry off; Done (kcr_slot req, j)).
Proof.
  intros He Hi Hk Hv Hx. unfold kv_cas_local. generalize dependent (kcr_expect_version req). intros x Hx.
  apply (draws_update _ _ _ (swapped x) (fun old => old =? x)); [done|..].
  - intros s Hs. rewrite (proj2 (slot_offsets s Hs _ Hi)). by apply kv_cas_step.
  - intros old. unfold swapped. destruct (old =? x) eqn:E; zbool; by subst.
  - intros old Ho. rewrite Ho. apply Z.eqb_eq in Ho as ->.
    apply (keeps_bind _ _ (fun j => version_of j = None \/ version_of j = Some (bumped x))); [|by intros j Hj].
    apply (keeps_bind _ _ (fun r => r <> Panic)); [by apply keeps_data_write|].
    intros r Hr. destruct r as [[]|e|]; [| |done]; (apply (keeps_bind _ _ (fun _ => True)); [apply keeps_notify|by right]).
  - intros old Ho. rewrite Ho. by apply claim_none.
Qed.

Lemma draws_request r : kv_request_ok addr r -> draws (kv_task r).
Proof.
  destruct r as [req|req|req]; intros [Ha Hr]; unfold kv_task; cbn [kv_handle kv_slot];
    unfold kv_put, kv_get, kv_cas; rewrite Ha; cbn [or_return task_bind look drawing];
    intros clock s Hs _; cbn [fst snd]; destruct (kr_region s Hs) as (entry & -> & He);
    (split; [done|]); left; (split; [done|]).
  - by apply draws_put; destruct Hr as (? & ? & ?).
  - apply drawing_keeps. intros clock' s' Hs'. cbn. split; [done|]. split; [done|].
    destruct (devices_read _ _ _ _); cbn; [|by apply claim_none|done].
    apply claim_none, kv_get_reply_none.
  - by apply draws_cas; destruct Hr as (? & ? & ? & ?).
Qed.
End Slot.

(** ** Properties *)

(** C9 (safety): Versions are handed out once. Any number of [kv_put], [kv_get] and
    [kv_cas] requests on a local key-value region run side by side, in any
    interleaving of their steps and with the rest of the node active in between
    (as long as it leaves the region alone): the versions reported by the updates
    of one slot that succeed are pairwise different, newer than the version at the
    start and not newer than the slot's version. In particular of several
    [kv_cas] that expect the same version at most one succeeds. The counter may not
    wrap around. *)
Theorem kv_versions_unique addr off slot dv (s : AppState) (reqs : list KvRequest)
    (env : AppState -> AppState -> Prop) (q : Pool AppState (Z * Json)) :
  kv_ready addr off slot dv s ->
  Forall (kv_request_ok addr) reqs ->
  version_at off dv slot s + Z.of_nat (length reqs) < 2 ^ 64 ->
  (forall s s', kv_ready addr off slot dv s -> env s s' ->
     kv_ready addr off slot dv s' /\ version_at off dv slot s' = version_at off dv slot s) ->
  pool_run_from env (mkPool s None (map kv_task reqs)) q ->
  forall i j ri rj vi vj,
    po_tasks q !! i = Some (Done (slot, ri)) -> version_of ri = Some vi ->
    po_tasks q !! j = Some (Done (slot, rj)) -> version_of rj = Some vj ->
    version_at off dv slot s < vi <= version_at off dv slot (po_state q) /\ (vi = vj -> i = j).
Proof.
  intros Hs Hreqs Hlim Henv Hrun i j ri rj vi vj Hi Hri Hj Hrj.
  eapply (tickets_run _ (version_at off dv slot) (2 ^ 64 - 1) (claim slot)) in Hrun as [Hok _];
    [|done| |by rewrite length_map; lia|done].
  - eapply tickets_claims; [done|exact Hi|exact Hj|..]; unfold claim; cbn; by rewrite Z.eqb_refl.
  - apply Forall_map. eapply Forall_impl; [done|]. intros r. apply draws_request.
Qed.

(** A short text that does not end in a zero byte. *)
Definition kv_text (n : nat) (s : bytes) : Prop :=
  Forall u8 s /\ utf8_valid s = true /\ last s <> Some 0 /\ (length s <= n)%nat.

Lemma pad_string_short s n : (length s <= n)%nat -> pad_string s n = s ++ repeat 0 (n - length s).
Proof.
  intros Hn. unfold pad_string. rewrite Nat.min_l, firstn_all by lia. f_equal.
  replace n with (length s + (n - length s))%nat at 1 by lia. rewrite repeat_app.
  apply drop_app_length'. by rewrite repeat_length.
Qed.

Lemma kv_text_shown n s : kv_text n s -> trim_end_matches 0 (from_utf8_lossy (pad_string s n)) = s.
Proof.
  intros (_ & Hv & Hl & Hn). rewrite pad_string_short by done.
  rewrite from_utf8_lossy_valid by auto using utf8_valid_app, utf8_valid_zeros. by apply trim_end_padded.
Qed.

Lemma length_pad_string s n : length (pad_string s n) = n.
Proof. unfold pad_string. rewrite length_app, length_take, length_drop, repeat_length. lia. Qed.

Lemma kv_data_key key value : mem_read (kv_data key value) 0 32 = pad_string key 32.
Proof.
  unfold mem_read, kv_data. rewrite drop_0. apply take_app_length'. by rewrite length_pad_string.
Qed.

Lemma kv_data_value key value : mem_read (kv_data key value) 32 64 = pad_string value 64.
Proof.
  unfold mem_read, kv_data. rewrite drop_app_length' by (by rewrite length_pad_string).
  apply firstn_all2. by rewrite length_pad_string.
Qed.

(** C20 (roundtrip): What [kv_put] stores [kv_get] returns. On a slot of a local
    region that starts at a multiple of 8 on its device and has the whole slot, a put answers with the next version, and a get of the same key that
    follows answers with the key, the value and that version, whatever the slot
    held before and whether or not a replica is told; key and value fit their
    fields and do not end in a zero byte. *)
Theorem kv_put_get addr off slot dv (s : AppState) (put : KvPutRequest) (get : KvGetRequest) clock env :
  kv_ready addr off slot dv s -> off mod 8 = 0 ->
  kv_request_ok addr (KvRequest_Put put) -> kpr_slot put = slot ->
  kv_request_ok addr (KvRequest_Get get) -> kgr_slot get = slot ->
  kgr_key get = kpr_key put -> kv_text 32 (kpr_key put) -> kv_text 64 (kpr_value put) ->
  let version := wrap 64 (version_at off dv slot s + 1) in
  exists s', exec clock env (kv_put put) s = (s', Some (put_reply version))
    /\ exec clock env (kv_get get) s'
       = (s', Some (JObj ["key" :- JStr (kpr_key put); "value" :- JStr (kpr_value put);
                          "version" :- JNum version])).
Proof.
  intros Hs Hal Hput Hps Hget Hgs Hkey Hk Hv version.
  destruct (exec_put _ _ _ _ clock env s put Hs Hal Hput Hps) as (s' & Hexec & Hs' & Hver & Hdata).
  exists s'. split; [exact Hexec|]. rewrite (exec_get _ _ _ _ clock env s' get Hs' Hget Hgs). do 2 f_equal.
  destruct (ready_mem _ _ _ _ s' Hs') as (d & _ & _ & Hm & Hl). assert (0 <= off /\ u32 slot) by by destruct Hs.
  unfold kv_get_reply, KV_SLOT_SIZE, KV_KEY_LEN, KV_VALUE_LEN, KV_VERSION_OFFSET.
  assert (Hlen : Z.of_nat (length (mem_read (device_mem dv s') (off + slot * 104) 104)) = 104).
  { apply length_mem_read; [ulia..|]. unfold in_bounds. rewrite Hm. apply Z.leb_le. lia. }
  rewrite (proj2 (Nat.ltb_ge _ _)) by lia. rewrite !mem_read_read by ulia. rewrite Z.add_0_r.
  assert (Hpart : forall a b, 0 <= a -> 0 <= b -> a + b <= 96 ->
    mem_read (device_mem dv s') (off + slot * 104 + a) b = mem_read (kv_data (kpr_key put) (kpr_value put)) a b).
  { intros a b ???. rewrite <- Hdata. rewrite mem_read_read by ulia. done. }
  pose proof (Hpart 0 32 ltac:(lia) ltac:(lia) ltac:(lia)) as Hkb. rewrite Z.add_0_r in Hkb.
  rewrite Hkb, (Hpart 32 64) by lia.
  rewrite kv_data_key, kv_data_value.
  rewrite Hkey, bool_decide_true by done. cbn [negb andb].
  rewrite !kv_text_shown by done. unfold version_at in Hver. by rewrite Hver.
Qed.

(** ** A fresh region *)

(** The device holds zeros only. *)
Definition zeroed (dv N : nat) (s : AppState) : Prop :=
  exists d, en_devices (as_engine s) !! dv = Some d /\ dev_wf d /\ dev_mem d = repeat 0 N.

Lemma mem_write_zeros N off k :
  0 <= off -> in_bounds (repeat 0 N) off (Z.of_nat k) = true -> mem_write (repeat 0 N) off (repeat 0 k) = repeat 0 N.
Proof.
  intros Hoff Hin.
  pose proof (length_mem_write (repeat 0 N) off (repeat 0 k) Hoff) as Hl. rewrite !repeat_length in Hl.
  rewrite <- (Hl Hin) at 2. apply Forall_eq_repeat. unfold mem_write.
  assert (Hz : forall n, Forall (eq 0) (repeat 0 n)).
  { intros n. apply Forall_forall. intros x Hx. by apply list_elem_of_In, repeat_spec in Hx. }
  repeat apply Forall_app_2; auto using Forall_take, Forall_drop.
Qed.

Lemma exec_zero_write clock env entry off k N dv s :
  zeroed dv N s -> me_device entry = dv -> u64 off -> Z.of_nat k < 2 ^ 63 ->
  exists s' r, exec clock env (device_write entry off (repeat 0 k)) s = (s', Some r)
    /\ zeroed dv N s' /\ en_mr_table (as_engine s') = en_mr_table (as_engine s).
Proof.
  intros (d & Hd & Hwf & Hm) He Hoff Hk. cbn [exec device_write on_engine step].
  unfold entry_write, entry_device, with_device. rewrite He, Hd.
  assert (Hu : Forall u8 (repeat 0 k)).
  { apply Forall_forall. intros x Hx. apply list_elem_of_In, repeat_spec in Hx. by subst. }
  pose proof (dev_write_spec d off (repeat 0 k) Hwf Hoff Hu) as Hw. rewrite repeat_length in Hw.
  specialize (Hw Hk). destruct (in_bounds _ _ _) eqn:Hin.
  - destruct Hw as (d' & -> & [Hwf' _] & Hm'). cbn [rbind]. eexists _, _. split; [reflexivity|].
    split; [|done]. exists d'. split; [apply list_lookup_insert_eq; by eapply lookup_lt_Some|].
    split; [done|]. rewrite Hm', Hm in *. apply mem_write_zeros; [ulia|done].
  - rewrite Hw. cbn [rbind]. eexists _, _. split; [reflexivity|]. split; [|done]. by exists d.
Qed.

Lemma exec_init_slots clock env entry n i N dv s :
  zeroed dv N s -> me_device entry = dv ->
  exists s', exec clock env (init_slots entry n i) s = (s', Some tt)
    /\ zeroed dv N s' /\ en_mr_table (as_engine s') = en_mr_table (as_engine s).
Proof.
  intros Hz He. revert i s Hz. induction n as [|n IH]; intros i s Hz; [by exists s|]. cbn [init_slots].
  rewrite exec_bind. change (le_bytes 0) with (repeat 0 8).
  destruct (exec_zero_write clock env entry (wrap 64 (slot_offset i + KV_VERSION_OFFSET)) 8 N dv s)
    as (s1 & r1 & -> & Hz1 & Ht1); [done..|by apply wrap_fits|done|].
  rewrite exec_bind.
  destruct (exec_zero_write clock env entry (slot_offset i) (Z.to_nat KV_SLOT_SIZE) N dv s1)
    as (s2 & r2 & -> & Hz2 & Ht2); [done..|by apply wrap_fits|done|].
  destruct (IH (i + 1) s2 Hz2) as (s3 & -> & Hz3 & Ht3). exists s3. split_and!; congruence || done.
Qed.

Lemma zeroed_ready addr arc entry slot dv N s :
  zeroed dv N s -> MrTable_lookup_by_addr (en_mr_table (as_engine s)) addr = Some (arc, 0) ->
  mt_heap (en_mr_table (as_engine s)) !! arc = Some entry -> me_device entry = dv ->
  u32 slot -> slot * 104 + 104 <= Z.of_nat N < 2 ^ 63 ->
  kv_ready addr 0 slot dv s /\ version_at 0 dv slot s = 0.
Proof.
  intros (d & Hd & Hwf & Hm) Hl Hh He Hslot HN. split.
  - split; [done|done| |].
    + exists entry. unfold local_region, entry_at. rewrite Hl. cbn. by rewrite Hh.
    + exists d. rewrite Hm, repeat_length. split_and!; done || lia.
  - unfold version_at, device_mem. rewrite Hd, Hm.
    assert (mem_read (repeat 0 N) (0 + slot * 104 + 96) 8 = repeat 0 8) as ->; [|done].
    unfold mem_read. replace N with (Z.to_nat (0 + slot * 104 + 96) + (N - Z.to_nat (0 + slot * 104 + 96)))%nat
      at 1 by ulia.
    rewrite repeat_app, drop_app_length' by (by rewrite repeat_length).
    replace (N - _)%nat with (Z.to_nat 8 + (N - Z.to_nat (0 + slot * 104 + 96) - 8))%nat by ulia.
    rewrite repeat_app. by apply take_app_length'.
Qed.

(** [kv_init] makes an empty store. It answers with the handle, the
    address and the number of slots; the address parses back, and every slot of
    the new region can be used at version 0 ([kv_ready], the premise of
    [kv_put_get] and [kv_versions_unique]). The node still has handles and
    addresses to give. *)
Theorem kv_init_fresh (s : AppState) (req : KvInitRequest) clock env :
  let e := as_engine s in
  let total_len := kir_slots req * 104 in
  let dev := new_device (kir_device_kind req) total_len in
  mr_ok (en_mr_table e) -> u32 (kir_slots req) -> 0 < kir_slots req ->
  mr_op_ok (en_devices e ++ [dev]) (en_mr_table e)
    (MrOp_register (length (en_devices e)) total_len all_perms) ->
  exists s' addr handle,
    exec clock env (kv_init req) s
    = (s', Some (JObj ["status" :- jstr "ok"; "mr_handle" :- JNum handle;
                       "ub_addr" :- JStr (UbAddr_to_text addr); "slots" :- JNum (kir_slots req);
                       "slot_size" :- JNum 104]))
    /\ parse_ub_addr (UbAddr_to_text addr) = inr addr
    /\ forall slot, 0 <= slot < kir_slots req ->
         kv_ready addr 0 slot (length (en_devices e)) s'
         /\ version_at 0 (length (en_devices e)) slot s' = 0.
Proof.
  intros e total_len dev Hok Hslots Hpos Hop.
  assert (Htl : wrap 64 (kir_slots req * KV_SLOT_SIZE) = total_len) by (apply wrap_small; unfold KV_SLOT_SIZE; ulia).
  destruct (register_device_spec e dev total_len all_perms Hok ltac:(lia) Hop)
    as (e' & addr & handle & arc & entry & Hreg & Hdev & Hok' & Hent & Hheap & Hed & Ha & Hlook).
  destruct (new_device_wf (kir_device_kind req) total_len ltac:(ulia)) as (Hwf & N & Hm & HN).
  unfold kv_init. rewrite Htl. rewrite exec_bind. cbn [exec on_engine step]. fold dev e. rewrite Hreg.
  cbn [or_else]. rewrite exec_bind. cbn [exec look].
  set (s1 := set_field as_engine _ s).
  assert (region_of_handle s1 handle = Some entry) as ->.
  { unfold region_of_handle, MrTable_lookup, entry_at. cbn. rewrite Hent. cbn. done. }
  rewrite exec_bind.
  destruct (exec_init_slots clock env entry (Z.to_nat (kir_slots req)) 0 N (length (en_devices e)) s1)
    as (s2 & -> & Hz2 & Ht2); [|done|].
  { exists dev. split; [|done]. change (en_devices (as_engine s1)) with (en_devices e').
    rewrite Hdev. by apply list_lookup_middle. }
  exists s2, addr, handle. cbn [exec]. split; [done|]. split.
  { unfold parse_ub_addr. by rewrite UbAddr_from_to_text. }
  intros slot Hslot. change (en_mr_table (as_engine s1)) with (en_mr_table e') in Ht2.
  eapply zeroed_ready; rewrite ?Ht2; done || ulia.
Qed.

(** ** Examples *)

(** A node with the default configuration, and a store of two slots on it. *)
Definition sample_config : NodeConfig := NodeConfig_default <| cfg_node_id := 42 |>.

Lemma sample_starts : is_Some (startup sample_config 7 0).
Proof. vm_compute. eauto. Qed.

Definition sample_node : AppState := is_Some_proj sample_starts.

Definition no_clock : Clock := fun _ => 0.
Definition quiet_env (s : AppState) : AppState * bool := (s, true).

Definition init_request : KvInitRequest := mkKvInitRequest 2 (str "memory").
Definition sample_store : AppState := (exec no_clock quiet_env (kv_init init_request) sample_node).1.
Definition store_addr : Z := UbAddr_new 1 42 0 0 0.

Definition put_request (slot : Z) (key value : string) : KvPutRequest :=
  mkKvPutRequest (UbAddr_to_text store_addr) slot (str key) (str value) None None.
Definition get_request (slot : Z) (key : string) : KvGetRequest :=
  mkKvGetRequest (UbAddr_to_text store_addr) slot (str key).
Definition cas_request (slot : Z) (key value : string) (expect : Z) : KvCasRequest :=
  mkKvCasRequest (UbAddr_to_text store_addr) slot (str key) expect (str value) None None.

Lemma sample_store_ready : kv_ready store_addr 0 1 0 sample_store.
Proof.
  split; [done|done| |].
  - eexists. split; vm_compute; reflexivity.
  - eexists. split; [vm_compute; reflexivity|]. split; [|vm_compute; split; done].
    split; [vm_compute; reflexivity|]. split; [done|]. by_decide.
Qed.

Lemma kv_init_fresh_witness : exists s' addr handle,
  exec no_clock quiet_env (kv_init init_request) sample_node
  = (s', Some (JObj ["status" :- jstr "ok"; "mr_handle" :- JNum handle;
                     "ub_addr" :- JStr (UbAddr_to_text addr); "slots" :- JNum 2; "slot_size" :- JNum 104]))
  /\ parse_ub_addr (UbAddr_to_text addr) = inr addr
  /\ forall slot, 0 <= slot < 2 -> kv_ready addr 0 slot 0 s' /\ version_at 0 0 slot s' = 0.
Proof.
  apply (kv_init_fresh sample_node init_request no_clock quiet_env).
  - assert (mr_reachable [] 1 42 (en_mr_table (as_engine sample_node))) as Hr.
    { replace (en_mr_table (as_engine sample_node)) with (MrTable_new_with_channel 1 42) by (vm_compute; reflexivity).
      constructor. }
    by apply mr_reachable_ok in Hr.
  - done.
  - done.
  - split; [done|]. split; [vm_compute; done|]. intros d Hd. vm_compute in Hd. injection Hd as <-. vm_compute. by split.
Defined.

Lemma kv_put_get_witness : exists s',
  exec no_clock quiet_env (kv_put (put_request 1 "colour" "blue")) sample_store = (s', Some (put_reply 1))
  /\ exec no_clock quiet_env (kv_get (get_request 1 "colour")) s'
     = (s', Some (JObj ["key" :- jstr "colour"; "value" :- jstr "blue"; "version" :- JNum 1])).
Proof.
  refine (kv_put_get store_addr 0 1 0 sample_store (put_request 1 "colour" "blue") (get_request 1 "colour")
    no_clock quiet_env sample_store_ready eq_refl _ eq_refl _ eq_refl eq_refl _ _).
  - split; [vm_compute; reflexivity|]. split; [done|]. split; by_decide.
  - split; [vm_compute; reflexivity|done].
  - split; [by_decide|]. split; [done|]. split; [done|]. vm_compute. lia.
  - split; [by_decide|]. split; [done|]. split; [done|]. vm_compute. lia.
Defined.

(** Two updates of one slot that both expect version 0, run side by side. *)
Definition racing : list KvRequest :=
  [KvRequest_Cas (cas_request 1 "k" "a" 0); KvRequest_Cas (cas_request 1 "k" "b" 0);
   KvRequest_Put (put_request 1 "k" "c")].
Definition race : Pool AppState (Z * Json) :=
  run_schedule no_clock [0; 1; 2; 1; 2; 0; 2; 1; 0]%nat (mkPool sample_store None (map kv_task racing)).

Lemma kv_versions_unique_witness :
  po_tasks race !! 1%nat = Some (Done (1, cas_reply 0 1)) /\ po_tasks race !! 2%nat = Some (Done (1, put_reply 2))
  /\ 0 < 1 <= version_at 0 0 1 (po_state race) /\ (1 = 2 -> 1%nat = 2%nat).
Proof.
  assert (H1 : po_tasks race !! 1%nat = Some (Done (1, cas_reply 0 1))) by (vm_compute; reflexivity).
  assert (H2 : po_tasks race !! 2%nat = Some (Done (1, put_reply 2))) by (vm_compute; reflexivity).
  split; [done|]. split; [done|].
  refine (kv_versions_unique store_addr 0 1 0 sample_store racing (fun _ _ => False) race
    sample_store_ready _ _ _ _ 1%nat 2%nat _ _ 1 2 H1 eq_refl H2 eq_refl).
  - repeat constructor; try (vm_compute; reflexivity || done); by_decide.
  - vm_compute. reflexivity.
  - intros ? ? _ [].
  - apply run_schedule_run.
Defined.

(** The version moves before key and value are written. Two puts that overlap both
    succeed, with versions 1 and 2; the slot ends with version 2 and the value of
    the put that was told version 1. *)
Theorem kv_put_not_atomic :
  let q := run_schedule no_clock [0; 0; 1; 1; 1; 0]%nat
             (mkPool sample_store None (map kv_task [KvRequest_Put (put_request 1 "k" "first");
                                                     KvRequest_Put (put_request 1 "k" "second")])) in
  po_tasks q = [Done (1, put_reply 1); Done (1, put_reply 2)]
  /\ (exec no_clock quiet_env (kv_get (get_request 1 "k")) (po_state q)).2
     = Some (JObj ["key" :- jstr "k"; "value" :- jstr "first"; "version" :- JNum 2]).
Proof. vm_compute. split; reflexivity. Qed.

(** Every region made through the API has a device of its own, but its offset on
    that device is allocated as if all devices of a kind were one. The second
    region therefore starts past the end of its device: local key-value requests,
    which do not add the offset, work on it, while every verb fails. *)
Definition two_stores : AppState := (exec no_clock quiet_env (kv_init init_request) sample_store).1.
Definition second_addr : Z := UbAddr_new 1 42 0 208 0.

Theorem second_region_out_of_reach :
  (exec no_clock quiet_env
     (kv_put (mkKvPutRequest (UbAddr_to_text second_addr) 0 (str "k") (str "v") None None)) two_stores).2
  = Some (put_reply 1)
  /\ ub_read_sync (en_mr_table (as_engine two_stores)) (en_devices (as_engine two_stores)) second_addr 104
     = Err AddrInvalid
  /\ ub_write_sync (en_mr_table (as_engine two_stores)) (en_devices (as_engine two_stores)) second_addr [1]
     = Err AddrInvalid.
Proof. vm_compute. split_and!; reflexivity. Qed.
