(* ===== verification/Obs.v ===== *)
(** * Obs: metrics

    crates/ub-obs: the names of the metrics, the helpers that change them, the
    recorder installed once, the handler of [GET /metrics]; and the code of the other crates
    with the calls of these helpers in it. The registry behind the helpers is the library
    [metrics] with its Prometheus exporter: the class [Recorder] has what they document. *)

From S2P Require Import Prelude Bytes Types Net Float Jetty Manager Session Fabric Region CachePool FetchAgent.
From S2P Require Import SubAlloc Device Mr Frame Dataplane Task Daemon.
#[local] Open Scope Z_scope.

(** ** The registry *)

(** A metric is a name with at most one label. *)
Definition MetricKey : Type := string * option (string * string).

Inductive MetricKind : Type := Counter | GaugeMetric | Histogram.

#[global] Instance MetricKind_eq_dec : EqDecision MetricKind.
Proof. solve_decision. Defined.

(** The calls of the library's macros and handles. *)
Inductive MetricOp : Type :=
| Describe (kind : MetricKind) (name text : string)
| Increment (key : MetricKey) (delta : Z)
| GaugeSet (key : MetricKey) (value : f64)
| GaugeIncrement (key : MetricKey) (value : f64)
| GaugeDecrement (key : MetricKey) (value : f64)
| Record_ (key : MetricKey) (value : f64).

(** What a call does to one counter, a [u64] that wraps, and to one gauge. *)
Definition counter_after (op : MetricOp) (key : MetricKey) (n : Z) : Z :=
  match op with
  | Increment key' delta => if decide (key = key') then wrap 64 (n + delta) else n
  | _ => n
  end.

Definition gauge_after (op : MetricOp) (key : MetricKey) (v : f64) : f64 :=
  match op with
  | GaugeSet key' value => if decide (key = key') then value else v
  | GaugeIncrement key' value => if decide (key = key') then f64_add v value else v
  | GaugeDecrement key' value => if decide (key = key') then f64_sub v value else v
  | _ => v
  end.

Definition op_kind (op : MetricOp) : MetricKind :=
  match op with
  | Describe kind _ _ => kind
  | Increment _ _ => Counter
  | GaugeSet _ _ | GaugeIncrement _ _ | GaugeDecrement _ _ => GaugeMetric
  | Record_ _ _ => Histogram
  end.

Definition op_name (op : MetricOp) : string :=
  match op with
  | Describe _ name _ => name
  | Increment key _ | GaugeSet key _ | GaugeIncrement key _ | GaugeDecrement key _
  | Record_ key _ => key.1
  end.

Class Recorder (R : Type) : Type := {
  rec_new : R;
  rec_apply : R -> MetricOp -> R;
  rec_counter : R -> MetricKey -> Z;
  rec_gauge : R -> MetricKey -> f64;
  (** the text of [PrometheusHandle::render] *)
  rec_render : R -> string;
}.

Class RecorderLaws (R : Type) `{Recorder R} : Prop := {
  rec_counter_new k : rec_counter rec_new k = 0;
  rec_gauge_new k : rec_gauge rec_new k = f64_of_int 0;
  rec_counter_apply r op k : rec_counter (rec_apply r op) k = counter_after op k (rec_counter r k);
  rec_gauge_apply r op k : rec_gauge (rec_apply r op) k = gauge_after op k (rec_gauge r k);
}.

(** ** The helpers *)

Section Helpers.
Context {R : Type} `{Recorder R}.

(** The process-wide recorder of the library, and whether [PROM_HANDLE] is set.
    Without a recorder the macros do nothing. *)
Record Obs : Type := mkObs {
  ob_recorder : option R;
  ob_handle : bool;
}.

Definition emit (o : Obs) (op : MetricOp) : Obs :=
  mkObs ((fun r => rec_apply r op) <$> ob_recorder o) (ob_handle o).

(** Source: crates/ub-obs/src/metrics.rs:13-42, [TX_PKTS ... REGION_COUNT]. *)
Inductive MetricName : Type :=
| TX_PKTS | RX_PKTS | RETRANS | DROPS | CQE_OK | CQE_ERR | MR_COUNT | JETTY_COUNT | PEER_RTT_MS
| PLACEMENT_DECISION | REGION_CACHE_HIT | REGION_CACHE_MISS | INVALIDATE_SENT
| WRITE_LOCK_WAIT_MS | REGION_COUNT.

#[local] Open Scope string_scope.

(** Source: crates/ub-obs/src/metrics.rs:13-42, [TX_PKTS ... REGION_COUNT].
    The texts of the constants. *)
Definition name_text (n : MetricName) : string :=
  match n with
  | TX_PKTS => "unibus_tx_pkts_total"
  | RX_PKTS => "unibus_rx_pkts_total"
  | RETRANS => "unibus_retrans_total"
  | DROPS => "unibus_drops_total"
  | CQE_OK => "unibus_cqe_ok_total"
  | CQE_ERR => "unibus_cqe_err_total"
  | MR_COUNT => "unibus_mr_count"
  | JETTY_COUNT => "unibus_jetty_count"
  | PEER_RTT_MS => "unibus_peer_rtt_ms"
  | PLACEMENT_DECISION => "unibus_placement_decision_total"
  | REGION_CACHE_HIT => "unibus_region_cache_hit_total"
  | REGION_CACHE_MISS => "unibus_region_cache_miss_total"
  | INVALIDATE_SENT => "unibus_invalidate_sent_total"
  | WRITE_LOCK_WAIT_MS => "unibus_write_lock_wait_ms"
  | REGION_COUNT => "unibus_region_count"
  end.

(** Source: crates/ub-obs/src/metrics.rs:48-64, [describe_metrics]. *)
Definition describe_metrics (o : Obs) : Obs :=
  foldl emit o
    [Describe Counter (name_text TX_PKTS) "Total transmitted packets";
     Describe Counter (name_text RX_PKTS) "Total received packets";
     Describe Counter (name_text RETRANS) "Total retransmitted packets";
     Describe Counter (name_text DROPS) "Total dropped packets";
     Describe Counter (name_text CQE_OK) "Total successful CQE completions";
     Describe Counter (name_text CQE_ERR) "Total failed CQE completions";
     Describe GaugeMetric (name_text MR_COUNT) "Current MR count";
     Describe GaugeMetric (name_text JETTY_COUNT) "Current Jetty count";
     Describe Histogram (name_text PEER_RTT_MS) "Peer RTT in milliseconds";
     Describe Counter (name_text PLACEMENT_DECISION) "Total placement decisions by tier";
     Describe Counter (name_text REGION_CACHE_HIT) "Region cache hit count";
     Describe Counter (name_text REGION_CACHE_MISS) "Region cache miss count";
     Describe Counter (name_text INVALIDATE_SENT) "Total invalidation messages sent";
     Describe Histogram (name_text WRITE_LOCK_WAIT_MS) "Writer lock wait time in ms";
     Describe GaugeMetric (name_text REGION_COUNT) "Current region count by state"].

(** Source: crates/ub-obs/src/metrics.rs:70-72, [incr]. *)
Definition incr (o : Obs) (name : string) : Obs := emit o (Increment (name, None) 1).

(** Source: crates/ub-obs/src/metrics.rs:76-78, [incr_by]. *)
Definition incr_by (o : Obs) (name : string) (delta : Z) : Obs := emit o (Increment (name, None) delta).

(** Source: crates/ub-obs/src/metrics.rs:82-84, [incr_label]. *)
Definition incr_label (o : Obs) (name label_key label_val : string) : Obs :=
  emit o (Increment (name, Some (label_key, label_val)) 1).

(** Source: crates/ub-obs/src/metrics.rs:88-90, [set_gauge]. *)
Definition set_gauge (o : Obs) (name : string) (value : f64) : Obs := emit o (GaugeSet (name, None) value).

(** Source: crates/ub-obs/src/metrics.rs:94-96, [gauge_up]. *)
Definition gauge_up (o : Obs) (name : string) : Obs := emit o (GaugeIncrement (name, None) (f64_of_int 1)).

(** Source: crates/ub-obs/src/metrics.rs:100-102, [gauge_down]. *)
Definition gauge_down (o : Obs) (name : string) : Obs := emit o (GaugeDecrement (name, None) (f64_of_int 1)).

(** Source: crates/ub-obs/src/metrics.rs:106-108, [set_gauge_label]. *)
Definition set_gauge_label (o : Obs) (name label_key label_val : string) (value : f64) : Obs :=
  emit o (GaugeSet (name, Some (label_key, label_val)) value).

(** Source: crates/ub-obs/src/metrics.rs:112-114, [observe]. *)
Definition observe (o : Obs) (name : string) (value : f64) : Obs := emit o (Record_ (name, None) value).

(** Source: crates/ub-obs/src/metrics.rs:125-131, [install_recorder].
    The library refuses a second recorder, and [expect] panics. *)
Definition install_recorder (o : Obs) : Result Obs :=
  if ob_handle o then Ok o
  else match ob_recorder o with
       | Some _ => Panic
       | None => Ok (mkObs (Some rec_new) true)
       end.

(** Source: crates/ub-obs/src/server.rs:15-22, [metrics_handler]. *)
Definition metrics_handler (r : R) : Z * list (string * string) * string :=
  (200, [("content-type", "text/plain; version=0.0.4; charset=utf-8")], rec_render r).

(** Source: crates/unibusd/src/main.rs:276-277, [main]. *)
Definition start_metrics (o : Obs) : Result Obs :=
  let? o := install_recorder o in Ok (describe_metrics o).

(** ** Code with its metrics *)

(** Source: crates/ub-managed/src/fetch_agent.rs:41-74, [FetchAgent::read_va]. *)
Definition read_va_counted (o : Obs) (a : FetchAgent) (now region_id : Z) : Obs * FetchAgent * Result ReadVaResult :=
  match agent_region a region_id with
  | None => (o, a, Ok ReadVaResult_UnknownRegion)
  | Some region =>
    match ri_state region with
    | RegionState_Home => (o, a, Ok (ReadVaResult_Home region))
    | RegionState_Shared region_epoch =>
      match CachePool_lookup (fa_cache_pool a) now region_id with
      | (p, Some entry) =>
        let a := a <| fa_cache_pool := p |> in
        if (pe_epoch entry <? region_epoch)%Z then
          let o := incr o (name_text REGION_CACHE_MISS) in
          let a := (FetchAgent_invalidate_local a region_id).1 in
          match agent_region a region_id with
          | Some region => (o, a, Ok (ReadVaResult_CacheMiss region))
          | None => (o, a, Panic)
          end
        else (incr o (name_text REGION_CACHE_HIT), a, Ok (ReadVaResult_CacheHit (pe_pool_offset entry) region))
      | (p, None) =>
        (incr o (name_text REGION_CACHE_MISS), a <| fa_cache_pool := p |>, Ok (ReadVaResult_CacheMiss region))
      end
    | RegionState_Invalid => (incr o (name_text REGION_CACHE_MISS), a, Ok (ReadVaResult_CacheMiss region))
    end
  end.

(** Source: crates/ub-managed/src/fetch_agent.rs:128-163, [FetchAgent::receive_invalidate]. *)
Definition receive_invalidate_counted (o : Obs) (a : FetchAgent) (region_id new_epoch : Z) : Obs * FetchAgent * bool :=
  match agent_region a region_id with
  | None => (o, a, false)
  | Some region =>
    match ri_state region with
    | RegionState_Shared current_epoch =>
      if (current_epoch <=? new_epoch)%Z then
        let a := (FetchAgent_invalidate_local a region_id).1 in
        let a := (on_agent_table a (fun t => RegionTable_set_epoch t region_id new_epoch)).1 in
        (incr o (name_text INVALIDATE_SENT), a, true)
      else (o, a, false)
    | RegionState_Home => (o, a, false)
    | RegionState_Invalid =>
      if (ri_epoch region <? new_epoch)%Z
      then (o, (on_agent_table a (fun t => RegionTable_set_epoch t region_id new_epoch)).1, false)
      else (o, a, false)
    end
  end.

(** Source: crates/ub-fabric/src/udp.rs:52-61, [UdpFabric::bind_with_loss].
    A datagram arrives; [draw] is the random number of the loss injection. *)
Definition arrive_counted (o : Obs) (f : UdpFabric) (loss_rate draw : f64) (src : SocketAddr) (pkt : bytes)
  : Obs * option UdpFabric :=
  let inject_loss := f64_ltb (f64_of_int 0) loss_rate in
  if inject_loss && f64_ltb draw loss_rate then (incr o (name_text DROPS), recv_arrive f src pkt true)
  else (incr o (name_text RX_PKTS), recv_arrive f src pkt false).

(** Source: crates/ub-fabric/src/udp.rs:99-103, [UdpFabric::send_to].
    [sent] is the outcome at the socket. *)
Definition UdpFabric_send_to (o : Obs) (sent : Result unit) : Obs * Result unit :=
  match sent with
  | Ok _ => (incr o (name_text TX_PKTS), Ok tt)
  | r => (o, r)
  end.

(** Source: crates/ub-fabric/src/udp.rs:160-163, [UdpSession::send]. *)
Definition UdpSession_send_counted (o : Obs) (sent : Result unit) : Obs * Result unit :=
  match sent with
  | Ok _ => (o, Ok tt)
  | r => (o, r)
  end.

(** Source: crates/ub-transport/src/manager.rs:489-528, [TransportManager::handle_ack_frame].
    A fast retransmission is counted. *)
Definition handle_ack_counted (o : Obs) (m : TransportManager) (clock : Z -> Z) (header : FrameHeader)
    (payload : bytes) : Obs * TransportManager :=
  let remote_node := fh_src_node header in
  let has_sack := flags_contains (fh_flags header) FrameFlags_HAS_SACK in
  match decode_ack_payload payload has_sack with
  | Ok ack =>
    let key := handler_key m remote_node in
    match tm_sessions m !! key with
    | Some session =>
      let '(session, retransmit) := ReliableSession_process_ack_for_fast_retransmit session ack in
      let '(o, m) :=
        match retransmit with
        | Some retransmit_seq =>
          match ReliableSession_get_retransmit_entry session retransmit_seq with
          | Some re_entry =>
            (incr o (name_text RETRANS),
             TransportManager_send_frame_to_peer m (sk_remote_node (rs_key session)) (re_frame re_entry))
          | None => (o, m)
          end
        | None => (o, m)
        end in
      (o, put_session m key (ReliableSession_process_ack session clock ack).1)
    | None => (o, m)
    end
  | _ => (o, m)
  end.

(** Source: crates/ub-transport/src/manager.rs:110-116, [TransportManager::start_rto_task].
    The frames of one tick leave, each counted. *)
Definition rto_counted (o : Obs) (m : TransportManager) (now : Z) : Obs * TransportManager :=
  let retransmit_frames :=
    concat (map (fun kv => (rto_session now kv.2).2) (map_to_list (tm_sessions m))) in
  let m := m <| tm_sessions := (fun s => (rto_session now s).1) <$> tm_sessions m |> in
  foldl (fun '(o, m) '(remote_node, frame) =>
    let o := incr o (name_text RETRANS) in
    match tm_peer_senders m !! remote_node with
    | Some sender =>
      (o, m <| tm_peer_senders := <[remote_node := send_await sender frame]> (tm_peer_senders m) |>)
    | None => (o, m)
    end) (o, m) retransmit_frames.

(** Source: crates/ub-dataplane/src/lib.rs:889-894, [handle_send].
    Pushing the completion, as in [handle_write_imm] at 955-960. *)
Definition push_counted (o : Obs) (j : Jetty) (cqe : Cqe) : Obs * Jetty :=
  match Jetty_push_cqe j cqe with
  | Ok j => (incr o (name_text CQE_OK), j)
  | _ => (incr o (name_text CQE_ERR), j)
  end.

(** Source: crates/unibusd/src/main.rs:1207-1210, [region_alloc]. *)
Definition alloc_counted (o : Obs) : Obs :=
  let o := incr o (name_text PLACEMENT_DECISION) in
  incr_label o (name_text PLACEMENT_DECISION) "tier" "warm".

(** Source: crates/unibusd/src/main.rs:1588-1605, [metrics_endpoint].
    The gauges are set in order, then the registry is rendered. *)
Definition show_gauges (o : Obs) (gauges : list Gauge) : Obs :=
  foldl (fun o '(name, label, value) =>
    match label with
    | None => set_gauge o name (f64_of_int value)
    | Some (key, val) => set_gauge_label o name key val (f64_of_int value)
    end) o gauges.
End Helpers.
Arguments Obs R : clear implicits.

#[global] Instance MetricName_eq_dec : EqDecision MetricName.
Proof. solve_decision. Defined.

(** Each name is used for one metric, and all have the prefix of the program. *)
Lemma name_text_inj m n : name_text m = name_text n -> m = n.
Proof. destruct m, n; vm_compute; congruence. Qed.

Lemma name_text_prefix n : String.prefix "unibus_" (name_text n) = true.
Proof. by destruct n. Qed.

(** A recorder that keeps every call: the laws can hold. *)
#[global] Instance Trace_recorder : Recorder (list MetricOp) := {|
  rec_new := [];
  rec_apply r op := r ++ [op];
  rec_counter r k := foldl (fun n op => counter_after op k n) 0 r;
  rec_gauge r k := foldl (fun v op => gauge_after op k v) (f64_of_int 0) r;
  rec_render r := String.concat "" (map op_name r);
|}.

#[global] Instance Trace_laws : RecorderLaws (list MetricOp).
Proof. split; [done|done|..]; intros; cbn; by rewrite foldl_app. Qed.

(** ** A node and what it counts *)

(** The components that report, without their metrics. *)
Record Plain : Type := mkPlain {
  pl_agent : FetchAgent;
  pl_fabric : UdpFabric;
  pl_manager : TransportManager;
  pl_jetty : Jetty;
}.

Inductive NodeEvent : Type :=
| Ev_read (now region_id : Z)
| Ev_invalidate (region_id new_epoch : Z)
| Ev_arrive (loss_rate draw : f64) (src : SocketAddr) (pkt : bytes)
| Ev_send (sent : Result unit)
| Ev_session_send (sent : Result unit)
| Ev_ack (clock : Z -> Z) (header : FrameHeader) (payload : bytes)
| Ev_rto (now : Z)
| Ev_complete (cqe : Cqe).

(** What happened, read off the outcome: the metrics that should have been
    counted. *)
Definition read_outcome (r : Result ReadVaResult) : list MetricName :=
  match r with
  | Ok (ReadVaResult_CacheHit _ _) => [REGION_CACHE_HIT]
  | Ok (ReadVaResult_CacheMiss _) | Panic => [REGION_CACHE_MISS]
  | _ => []
  end.

(** The frames a tick resends. *)
Definition resent (m : TransportManager) (now : Z) : list (Z * bytes) :=
  concat (map (fun kv => (rto_session now kv.2).2) (map_to_list (tm_sessions m))).

(** The frame an ACK makes the sender resend at once. *)
Definition fast_resent (m : TransportManager) (header : FrameHeader) (payload : bytes) : option RetransmitEntry :=
  match decode_ack_payload payload (flags_contains (fh_flags header) FrameFlags_HAS_SACK) with
  | Ok ack =>
    session ← tm_sessions m !! handler_key m (fh_src_node header);
    let '(session, retransmit) := ReliableSession_process_ack_for_fast_retransmit session ack in
    retransmit ≫= ReliableSession_get_retransmit_entry session
  | _ => None
  end.

Definition plain_step (p : Plain) (ev : NodeEvent) : Plain * list MetricName :=
  let '(mkPlain a f m j) := p in
  match ev with
  | Ev_read now rid => let '(a, r) := FetchAgent_read_va a now rid in (mkPlain a f m j, read_outcome r)
  | Ev_invalidate rid epoch =>
    let '(a, invalidated) := FetchAgent_receive_invalidate a rid epoch in
    (mkPlain a f m j, if invalidated : bool then [INVALIDATE_SENT] else [])
  | Ev_arrive rate draw src pkt =>
    let lost := f64_ltb (f64_of_int 0) rate && f64_ltb draw rate in
    match recv_arrive f src pkt lost with
    | Some f => (mkPlain a f m j, [if lost then DROPS else RX_PKTS])
    | None => (p, [])
    end
  | Ev_send sent => (p, if is_ok sent then [TX_PKTS] else [])
  | Ev_session_send sent => (p, [])
  | Ev_ack clock header payload =>
    (mkPlain a f (TransportManager_handle_ack_frame m clock header payload) j,
     match fast_resent m header payload with Some _ => [RETRANS] | None => [] end)
  | Ev_rto now => (mkPlain a f (rto_tick m now) j, repeat RETRANS (length (resent m now)))
  | Ev_complete cqe =>
    match Jetty_push_cqe j cqe with
    | Ok j => (mkPlain a f m j, [CQE_OK])
    | _ => (p, [CQE_ERR])
    end
  end.

Fixpoint plain_run (p : Plain) (evs : list NodeEvent) : Plain * list MetricName :=
  match evs with
  | [] => (p, [])
  | ev :: evs =>
    let '(p, names) := plain_step p ev in
    let '(p, more) := plain_run p evs in (p, names ++ more)
  end.

Definition count (n : MetricName) (names : list MetricName) : Z :=
  Z.of_nat (length (filter (fun m => m = n) names)).

Section Counting.
Context {R : Type} `{RecorderLaws R}.

(** The same, running the code that has the calls in it. *)
Definition counted_step (op : Obs R * Plain) (ev : NodeEvent) : Obs R * Plain :=
  let '(o, p) := op in
  let '(mkPlain a f m j) := p in
  match ev with
  | Ev_read now rid => let '(o, a, _) := read_va_counted o a now rid in (o, mkPlain a f m j)
  | Ev_invalidate rid epoch => let '(o, a, _) := receive_invalidate_counted o a rid epoch in (o, mkPlain a f m j)
  | Ev_arrive rate draw src pkt =>
    match arrive_counted o f rate draw src pkt with
    | (o, Some f) => (o, mkPlain a f m j)
    | (_, None) => op
    end
  | Ev_send sent => ((UdpFabric_send_to o sent).1, p)
  | Ev_session_send sent => ((UdpSession_send_counted o sent).1, p)
  | Ev_ack clock header payload =>
    let '(o, m) := handle_ack_counted o m clock header payload in (o, mkPlain a f m j)
  | Ev_rto now => let '(o, m) := rto_counted o m now in (o, mkPlain a f m j)
  | Ev_complete cqe => let '(o, j) := push_counted o j cqe in (o, mkPlain a f m j)
  end.

Definition report (o : Obs R) (names : list MetricName) : Obs R :=
  foldl (fun o n => incr o (name_text n)) o names.

Lemma read_va_reports o a now rid :
  read_va_counted o a now rid
  = let '(a', r) := FetchAgent_read_va a now rid in (report o (read_outcome r), a', r).
Proof.
  unfold read_va_counted, FetchAgent_read_va. repeat (case_match; try done; simplify_eq).
Qed.

Lemma receive_invalidate_reports o a rid epoch :
  receive_invalidate_counted o a rid epoch
  = let '(a', b) := FetchAgent_receive_invalidate a rid epoch in
    (report o (if b : bool then [INVALIDATE_SENT] else []), a', b).
Proof. unfold receive_invalidate_counted, FetchAgent_receive_invalidate. repeat (case_match; try done; simplify_eq). Qed.

Lemma rto_reports o m now :
  rto_counted o m now = (report o (repeat RETRANS (length (resent m now))), rto_tick m now).
Proof.
  unfold rto_counted, rto_tick. fold (resent m now). cbv zeta.
  match goal with |- context [foldl _ (o, ?s) _] => generalize s end.
  induction (resent m now) as [|[r fr] fs IH] in o |- *; intros m'; [done|]. cbn.
  destruct (tm_peer_senders m' !! r); apply IH.
Qed.

Lemma ack_reports o m clock header payload :
  handle_ack_counted o m clock header payload
  = (report o match fast_resent m header payload with Some _ => [RETRANS] | None => [] end,
     TransportManager_handle_ack_frame m clock header payload).
Proof.
  unfold handle_ack_counted, TransportManager_handle_ack_frame, fast_resent.
  destruct (decode_ack_payload _ _) as [ack| |]; [|done|done].
  destruct (tm_sessions m !! _) as [session|]; [|done]. cbn [mbind option_bind].
  destruct (ReliableSession_process_ack_for_fast_retransmit session ack) as [s1 [q|]]; [|done].
  cbn [mbind option_bind]. by destruct (ReliableSession_get_retransmit_entry s1 q).
Qed.

Lemma counted_step_reports o p ev :
  counted_step (o, p) ev = (report o (plain_step p ev).2, (plain_step p ev).1).
Proof.
  destruct p as [a f m j], ev; cbn.
  - rewrite read_va_reports. by destruct (FetchAgent_read_va a now region_id).
  - rewrite receive_invalidate_reports. by destruct (FetchAgent_receive_invalidate a region_id new_epoch).
  - unfold arrive_counted. destruct (_ && _); by destruct (recv_arrive _ _ _ _).
  - by destruct sent.
  - by destruct sent.
  - by rewrite ack_reports.
  - by rewrite rto_reports.
  - unfold push_counted. by destruct (Jetty_push_cqe j cqe).
Qed.

Lemma counted_run_reports o p evs :
  foldl counted_step (o, p) evs = (report o (plain_run p evs).2, (plain_run p evs).1).
Proof.
  induction evs as [|ev evs IH] in o, p |- *; [done|]. cbn [foldl plain_run].
  rewrite counted_step_reports, IH. destruct (plain_step p ev) as [p1 n1], (plain_run p1 evs) as [p2 n2] eqn:E.
  cbn. rewrite E. cbn. unfold report. by rewrite foldl_app.
Qed.

Lemma counter_incr r m n :
  rec_counter (rec_apply r (Increment (name_text m, None) 1)) (name_text n, None)
  = if decide (m = n) then wrap 64 (rec_counter r (name_text n, None) + 1) else rec_counter r (name_text n, None).
Proof.
  rewrite rec_counter_apply. cbn. repeat case_decide; try done; simplify_eq.
  by exfalso; eauto using name_text_inj.
Qed.

Lemma report_counter o r names n :
  ob_recorder o = Some r -> fits 64 (rec_counter r (name_text n, None)) ->
  exists r', ob_recorder (report o names) = Some r'
  /\ rec_counter r' (name_text n, None) = wrap 64 (rec_counter r (name_text n, None) + count n names).
Proof.
  induction names as [|m names IH] in o, r |- *; intros Ho Hr.
  - exists r. split; [done|]. unfold count. cbn. rewrite Z.add_0_r. by rewrite wrap_small.
  - destruct (IH (incr o (name_text m)) (rec_apply r (Increment (name_text m, None) 1))) as (r' & Hr' & Hc).
    { unfold incr, emit. cbn. by rewrite Ho. }
    { rewrite counter_incr. case_decide; [apply wrap_fits; lia|done]. }
    exists r'. split; [exact Hr'|]. rewrite Hc, counter_incr. unfold count. rewrite filter_cons.
    repeat case_decide; try done. cbn [length]. rewrite Nat2Z.inj_succ. unfold wrap.
    rewrite Zplus_mod_idemp_l. f_equal. lia.
Qed.

Lemma start_metrics_fresh :
  exists o r, start_metrics (mkObs None false) = Ok o /\ ob_recorder o = Some r /\ ob_handle o = true
  /\ forall k, rec_counter r k = 0.
Proof.
  do 2 eexists. split_and!; [reflexivity..|]. intros k. rewrite !rec_counter_apply. apply rec_counter_new.
Qed.


(** Installing again keeps the recorder and what it has counted. *)
Lemma install_recorder_again (o o' : Obs R) : install_recorder o = Ok o' -> install_recorder o' = Ok o'.
Proof. unfold install_recorder. destruct o as [[r|] []]; cbn; intros; simplify_eq; done. Qed.

(** What a list of gauges leaves in each. *)
Lemma show_gauges_value o r gs :
  ob_recorder o = Some r ->
  exists r', ob_recorder (show_gauges o gs) = Some r'
  /\ forall key, rec_gauge r' key = foldl (fun v '(name, label, value) =>
       if decide (key = (name, label)) then f64_of_int value else v) (rec_gauge r key) gs.
Proof.
  induction gs as [|[[name label] v] gs IH] in o, r |- *; intros Ho; [by exists r|].
  destruct (IH (emit o (GaugeSet (name, label) (f64_of_int v)))
              (rec_apply r (GaugeSet (name, label) (f64_of_int v)))) as (r' & Hr' & Hg).
  { cbn. by rewrite Ho. }
  exists r'. split; [by destruct label as [[]|]|]. intros key. by rewrite Hg, rec_gauge_apply.
Qed.

(** The kind of device a region lies on. *)
Definition kind_at (s : AppState) (arc : nat) : option DeviceKind :=
  e ← entry_at s arc; d ← en_devices (as_engine s) !! me_device e; Some (dev_kind d).

Lemma filter_omap {A B} `{EqDecision B} (f : A -> option B) (b : B) l :
  length (filter (fun x => x = b) (omap f l)) = length (filter (fun a => f a = Some b) l).
Proof.
  induction l as [|a l IH]; [done|]. cbn [omap list_omap]. rewrite (filter_cons _ a).
  destruct (f a) as [x|]; [rewrite filter_cons|].
  - repeat case_decide; simplify_eq; cbn [length]; by f_equal.
  - case_decide; [done|exact IH].
Qed.

(** The page of [GET /metrics] shows the node as it is: the regions on memory and on
    NPU devices, the jettys, and the managed regions by state. *)
Theorem gauges_current {iteration : MapOrder Z RegionInfo} (o : Obs R) r clock env s :
  ob_recorder o = Some r ->
  exists gs r', exec clock env metrics_endpoint s = (s, Some gs)
  /\ ob_recorder (show_gauges o gs) = Some r'
  /\ (forall kind label, (kind, label) ∈ [(DeviceKind_Memory, "memory"); (DeviceKind_Npu, "npu")]%string ->
       rec_gauge r' (name_text MR_COUNT, Some ("device", label)%string)
       = f64_of_int (Z.of_nat (length (filter (fun arc => kind_at s arc = Some kind)
                                         (MrTable_list (en_mr_table (as_engine s)))))))
  /\ rec_gauge r' (name_text JETTY_COUNT, None)
     = f64_of_int (Z.of_nat (length (JettyTable_list (en_jetty_table (as_engine s)))))
  /\ (let '(home, shared, invalid) := RegionTable_count_by_state
          (table_of (fa_tables (as_agent s)) (fa_region_table (as_agent s))) in
      forall n label, (n, label) ∈ [(home, "home"); (shared, "shared"); (invalid, "invalid")]%string ->
      rec_gauge r' (name_text REGION_COUNT, Some ("state", label)%string) = f64_of_int (Z.of_nat n)).
Proof.
  intros Ho. unfold metrics_endpoint, look. cbn [exec task_bind].
  destruct (RegionTable_count_by_state _) as [[home shared] invalid] eqn:Ec. cbn [exec task_bind].
  match goal with |- context [Some ?l] =>
    destruct (show_gauges_value o r l Ho) as (r' & Hr' & Hg); exists l, r' end.
  split; [reflexivity|]. split; [exact Hr'|]. split_and!.
  - intros kind label. rewrite !elem_of_cons, elem_of_nil, Hg, <- filter_omap.
    intros [[= -> ->]|[[= -> ->]|[]]]; reflexivity.
  - by rewrite Hg.
  - intros n label. rewrite !elem_of_cons, elem_of_nil, Hg.
    intros [[= -> ->]|[[= -> ->]|[[= -> ->]|[]]]]; reflexivity.
Qed.
End Counting.

(** One allocation is counted twice: in the metric without a label and in the one
    labelled [tier], which is [warm] whatever the tier. Summed over its labels, as the metric
    is read, it shows two decisions. *)
Theorem placement_counted_twice {R} `{RecorderLaws R} (o : Obs R) r :
  ob_recorder o = Some r ->
  exists r', ob_recorder (alloc_counted o) = Some r'
  /\ forall label, label = None \/ label = Some ("tier", "warm")%string ->
     rec_counter r' (name_text PLACEMENT_DECISION, label)
     = wrap 64 (rec_counter r (name_text PLACEMENT_DECISION, label) + 1).
Proof.
  intros Ho. eexists. split; [cbn; by rewrite Ho|].
  intros label [-> | ->]; by rewrite !rec_counter_apply.
Qed.

(** ** A run *)

(** A node that fetched a region, and whose completion queue holds one entry. *)
Definition sample_plain : Plain :=
  mkPlain (foldl (agent_step (iteration := canonical_order))
             (FetchAgent_new sample_store 0 (CachePool_new (SubAllocator_new 8 100) 50)) sample_history)
          UdpFabric_new (TransportManager_new 42 200 8)
          (Jetty_new 1 42 (mkJettyConfig 4 4 1 1)).

Definition sample_cqe : Cqe := mkCqe 1 UB_OK None 0 1 Verb_Send.

(** The region is read, invalidated by its home and read again; a datagram is lost and
    one arrives; one of two completions fits. *)
Definition sample_run : list NodeEvent :=
  [Ev_read 9 7; Ev_invalidate 7 6; Ev_read 10 7; Ev_read 11 8;
   Ev_arrive (f64_lit 1 (-1)) (f64_lit 1 (-2)) peer_a [1]; Ev_arrive (f64_lit 1 (-1)) (f64_lit 3 (-2)) peer_a [2];
   Ev_send (Ok tt); Ev_session_send (Ok tt); Ev_complete sample_cqe; Ev_complete sample_cqe; Ev_rto 5].

