(* ===== verification/Managed.v ===== *)
(** * Managed: regions with virtual addresses

    crates/unibusd/src/main.rs, the handlers of the managed layer: allocating and
    freeing regions (Placer.v, Region.v, Coherence.v), reading and writing them by
    virtual address, at home, from the cache or over the data plane (FetchAgent.v),
    and the writer lease. Metrics are left out. *)

From S2P Require Import Prelude Bytes Types Addr Device Mr Verbs Jetty.
From S2P Require Import Frame Float Config Session Manager Dataplane Member SubAlloc.
From S2P Require Import Region CachePool FetchAgent Coherence Registry Placer Json Text.
From S2P Require Import Api Task Daemon Kv.
#[local] Open Scope Z_scope.

(** ** Shared pieces *)

Definition not_enabled : Json := json_error "managed layer not enabled".

(** [if !state.config.managed.enabled { return .. }] *)
Definition when_enabled (k : Handler) : Handler :=
  enabled <~ look (fun s => mg_enabled (cfg_managed (as_config s)));
  if enabled : bool then k else Done not_enabled.

(** [state.region_table.insert(..)], [remove(..)], [lookup(..)] *)
Definition table_insert (info : RegionInfo) : Task AppState unit :=
  on_agent (fun _ a => on_agent_table a (fun t => (RegionTable_insert t info, tt))).
Definition table_remove (region_id : Z) : Task AppState (option RegionInfo) :=
  on_agent (fun _ a => on_agent_table a (fun t => RegionTable_remove t region_id)).
Definition table_lookup (region_id : Z) : Task AppState (option RegionInfo) :=
  look (fun s => agent_region (as_agent s) region_id).

(** [format!("{:032x}", va.0)] *)
Definition va_text (va : Z) : bytes := hex_fixed 32 va.

(** ** Allocation *)

Definition parse_latency_class (s : bytes) : LatencyClass :=
  if decide (s = str "critical") then LatencyClass_Critical
  else if decide (s = str "bulk") then LatencyClass_Bulk else LatencyClass_Normal.
Definition parse_capacity_class (s : bytes) : CapacityClass :=
  if decide (s = str "large") then CapacityClass_Large
  else if decide (s = str "huge") then CapacityClass_Huge else CapacityClass_Small.
Definition parse_pin (pin : option bytes) : option DeviceKind :=
  if decide (pin = Some (str "memory")) then Some DeviceKind_Memory
  else if decide (pin = Some (str "npu")) then Some DeviceKind_Npu else None.

(** Source: crates/unibusd/src/main.rs:1149-1172, [region_alloc]. *)
Definition alloc_hints (req : RegionAllocRequest) : AllocHints :=
  mkAllocHints (rar_size req) AccessPattern_Mixed (parse_latency_class (rar_latency_class req))
    (parse_capacity_class (rar_capacity_class req)) (parse_pin (rar_pin req)) 0.

(** Source: crates/unibusd/src/main.rs:1176-1196, [region_alloc].
    The region at home, on the pool's region when this node is the home. *)
Definition home_info (s : AppState) (va : Z) (placement : RegionPlacement) : RegionInfo :=
  let mr_handle :=
    if rp_home_node_id placement =? cfg_node_id (as_config s)
    then default (rp_mr_handle placement) (as_pool_mr_handle s) else rp_mr_handle placement in
  mkRegionInfo (UbVa_region_id va) (rp_home_node_id placement) (rp_device_id placement) mr_handle
    (rp_base_offset placement) (rp_len placement) 0 RegionState_Home None.

Definition alloc_reply (va : Z) (placement : RegionPlacement) : Json :=
  JObj ["status" :- jstr "ok";
        "va" :- JStr (va_text va);
        "region_id" :- JNum (UbVa_region_id va);
        "home_node_id" :- JNum (rp_home_node_id placement);
        "device_id" :- JNum (rp_device_id placement);
        "mr_handle" :- JNum (rp_mr_handle placement);
        "base_offset" :- JNum (rp_base_offset placement);
        "len" :- JNum (rp_len placement)].

(** Source: crates/unibusd/src/main.rs:1141-1225, [region_alloc]. *)
Definition region_alloc (req : RegionAllocRequest) : Handler :=
  when_enabled (
    node_id <~ look (fun s => cfg_node_id (as_config s));
    r <~ on_placer (fun p => Placer_place p (alloc_hints req) node_id);
    match r with
    | inl e => Done (json_error e)
    | inr (va, placement) =>
      info <~ look (fun s => home_info s va placement);
      _ <~ on_placer (fun p => Placer_set_mr_handle p (UbVa_region_id va) (ri_mr_handle info));
      _ <~ table_insert info;
      _ <~ on_coherence (fun _ c => (CoherenceManager_register_region c (UbVa_region_id va)
             (rp_mr_handle placement) (rp_base_offset placement) (rp_len placement), tt));
      Done (alloc_reply va placement)
    end).

(** Source: crates/unibusd/src/main.rs:1227-1244, [region_free]. *)
Definition region_free (req : RegionFreeRequest) : Handler :=
  when_enabled (
    let region_id := rfr_region_id req in
    placement <~ on_placer (fun p => Placer_free p region_id);
    match placement with
    | Some _ =>
      _ <~ table_remove region_id;
      _ <~ on_coherence (fun _ c => CoherenceManager_unregister_region c region_id);
      Done status_ok
    | None => Done (json_error "region not found")
    end).

(** Source: crates/unibusd/src/main.rs:1250-1276, [region_register_remote]. *)
Definition region_register_remote (req : RegionRegisterRemoteRequest) : Handler :=
  when_enabled (
    _ <~ table_insert (mkRegionInfo (rrr_region_id req) (rrr_home_node_id req) (rrr_device_id req)
           (rrr_mr_handle req) (rrr_base_offset req) (rrr_len req) (rrr_epoch req)
           RegionState_Invalid None);
    Done (JObj ["status" :- jstr "ok"; "region_id" :- JNum (rrr_region_id req); "state" :- jstr "Invalid"])).

(** Source: crates/unibusd/src/main.rs:1280-1295, [region_invalidate]. *)
Definition region_invalidate (req : RegionInvalidateRequest) : Handler :=
  when_enabled (
    invalidated <~ on_agent (fun _ a => FetchAgent_receive_invalidate a (rir_region_id req) (rir_new_epoch req));
    Done (if invalidated : bool then
            JObj ["status" :- jstr "ok"; "region_id" :- JNum (rir_region_id req);
                  "new_epoch" :- JNum (rir_new_epoch req); "invalidated" :- JBool true]
          else
            JObj ["status" :- jstr "ok"; "region_id" :- JNum (rir_region_id req);
                  "new_epoch" :- JNum (rir_new_epoch req); "invalidated" :- JBool false;
                  "reason" :- jstr "not cached or stale"])).

(** What [region_list] prints of a region, with the lease of a home region. *)
Definition region_json (s : AppState) (r : RegionInfo) : Json :=
  let '(writer, readers) :=
    if bool_decide (ri_state r = RegionState_Home)
       && CoherenceManager_contains_region (as_coherence s) (ri_region_id r)
    then (wi_writer_node_id <$> CoherenceManager_get_writer (as_coherence s) (ri_region_id r),
          elements (CoherenceManager_get_readers (as_coherence s) (ri_region_id r)))
    else (None, []) in
  JObj ["region_id" :- JNum (ri_region_id r);
        "home_node_id" :- JNum (ri_home_node_id r);
        "device_id" :- JNum (ri_device_id r);
        "mr_handle" :- JNum (ri_mr_handle r);
        "base_offset" :- JNum (ri_base_offset r);
        "len" :- JNum (ri_len r);
        "epoch" :- JNum (ri_epoch r);
        "state" :- JStr (RegionState_debug (ri_state r));
        "local_mr_handle" :- json_opt JNum (ri_local_mr_handle r);
        "writer_node_id" :- json_opt JNum writer;
        "readers" :- JArr (map JNum readers)].

(** Source: crates/unibusd/src/main.rs:1297-1323, [region_list]. *)
Definition region_list {iteration : MapOrder Z RegionInfo} : Handler :=
  regions <~ look (fun s => RegionTable_list (table_of (fa_tables (as_agent s)) (fa_region_table (as_agent s))));
  rows <~ look (fun s => map (region_json s) regions);
  Done (JObj ["regions" :- JArr rows]).

(** ** Reading *)

Definition read_reply (source : string) (data : bytes) : Json :=
  JObj ["data" :- json_bytes data; "len" :- JNum (Z.of_nat (length data)); "source" :- jstr source].

(** Reads from the device of a region of this node. *)
Definition read_from (handle off len : Z) (source missing : string) : Handler :=
  entry <~ look (fun s => region_of_handle s handle);
  match entry with
  | Some entry =>
    r <~ device_read entry off len;
    respond r (read_reply source)
  | None => Done (json_error missing)
  end.

(** Source: crates/unibusd/src/main.rs:1404-1411, [verb_read_va].
    The part of the fetched region that was asked for. *)
Definition fetched_part (full_data : bytes) (offset_in_region len : Z) : Result bytes :=
  let start := offset_in_region in
  let end_ := Z.min (wrap 64 (start + len)) (Z.of_nat (length full_data)) in
  if start <? Z.of_nat (length full_data) then slice full_data start end_
  else Ok (repeat 0 (Z.to_nat len)).

Section Reading.
Context {iteration : MapOrder Z PoolCacheEntry}.

(** Source: crates/unibusd/src/main.rs:1388-1403, [verb_read_va].
    Caching what was fetched: the copy lands in the pool's region. *)
Definition cache_fetched (region : RegionInfo) (region_id : Z) (full_data : bytes) : Task AppState unit :=
  r <~ on_agent (fun c a => FetchAgent_complete_fetch a (c 0%nat) region_id (ri_len region) (ri_epoch region));
  match r with
  | inr pool_offset =>
    pool <~ look as_pool_mr_handle;
    match pool with
    | Some pool_handle =>
      entry <~ look (fun s => region_of_handle s pool_handle);
      match entry with
      | Some entry => _ <~ device_write entry pool_offset full_data; Done tt
      | None => Done tt
      end
    | None => Done tt
    end
  | inl _ => Done tt
  end.

(** Source: crates/unibusd/src/main.rs:1375-1416, [verb_read_va].
    A miss: fetch the whole region from its home, cache it, answer. *)
Definition read_va_miss (req : VerbReadVaRequest) (region_id offset_in_region : Z) (region : RegionInfo)
  : Handler :=
  pod_id <~ look (fun s => cfg_pod_id (as_config s));
  let ub_addr := UbAddr_new pod_id (ri_home_node_id region) (ri_device_id region) (ri_base_offset region) 0 in
  r <~ locked (dp_read ub_addr (wrap 32 (ri_len region)));
  or_else r error_reply (fun full_data =>
    _ <~ cache_fetched region region_id full_data;
    respond (fetched_part full_data offset_in_region (rvr_len req)) (read_reply "fetch")).

(** Source: crates/unibusd/src/main.rs:1356-1374, [verb_read_va].
    A hit: the entry is looked up a second time. *)
Definition read_va_hit (req : VerbReadVaRequest) (region_id offset_in_region : Z) : Handler :=
  cache_entry <~ on_agent (fun c a =>
    let '(p, entry) := CachePool_lookup (fa_cache_pool a) (c 0%nat) region_id in
    (a <| fa_cache_pool := p |>, entry));
  match cache_entry with
  | None => Crash
  | Some cache_entry =>
    let read_offset := wrap 64 (pe_pool_offset cache_entry + offset_in_region) in
    if wrap 64 (pe_pool_offset cache_entry + pe_len cache_entry) <? wrap 64 (read_offset + rvr_len req)
    then Done (json_error "read beyond cached region bounds")
    else
      pool <~ look as_pool_mr_handle;
      read_from (default 0 pool) read_offset (rvr_len req) "cache" "pool MR not found"
  end.

(** Source: crates/unibusd/src/main.rs:1325-1421, [verb_read_va]. *)
Definition verb_read_va (req : VerbReadVaRequest) : Handler :=
  when_enabled (or_return (parse_va (rvr_va req)) (fun va =>
    let region_id := UbVa_region_id va in
    let offset_in_region := wrap 64 (UbVa_offset va + rvr_offset req) in
    r <~ on_agent (fun c a => FetchAgent_read_va a (c 0%nat) region_id);
    or_else r error_reply (fun found =>
      match found with
      | ReadVaResult_Home region =>
        read_from (ri_mr_handle region) (wrap 64 (ri_base_offset region + offset_in_region)) (rvr_len req)
          "home" "home MR not found"
      | ReadVaResult_CacheHit _ _ => read_va_hit req region_id offset_in_region
      | ReadVaResult_CacheMiss region => read_va_miss req region_id offset_in_region region
      | ReadVaResult_UnknownRegion => Done (json_error "region not found")
      end))).
End Reading.

(** ** Writing *)

(** Source: crates/unibusd/src/main.rs:1530-1543, [write_va_remote]. *)
Definition write_va_remote (region : RegionInfo) (offset : Z) (data : bytes) : Handler :=
  pod_id <~ look (fun s => cfg_pod_id (as_config s));
  let ub_addr := UbAddr_new pod_id (ri_home_node_id region) (ri_device_id region) offset 0 in
  locked (r <~ dp_write ub_addr data; respond r (fun _ => status_ok)).

(** Source: crates/unibusd/src/main.rs:1423-1461, [verb_write_va]. *)
Definition verb_write_va (req : VerbWriteVaRequest) : Handler :=
  when_enabled (or_return (parse_va (wvr_va req)) (fun va =>
    let region_id := UbVa_region_id va in
    region <~ table_lookup region_id;
    match region with
    | None => Done (json_error "region not found")
    | Some region =>
      let offset := wrap 64 (ri_base_offset region + UbVa_offset va + wvr_offset req) in
      match ri_state region with
      | RegionState_Home =>
        entry <~ look (fun s => region_of_handle s (ri_mr_handle region));
        match entry with
        | Some entry => r <~ device_write entry offset (wvr_data req); respond r (fun _ => status_ok)
        | None => Done (json_error "home MR not found")
        end
      | RegionState_Shared _ | RegionState_Invalid => write_va_remote region offset (wvr_data req)
      end
    end)).

(** ** The writer lease *)

(** Source: crates/unibusd/src/main.rs:1463-1499, [acquire_writer].
    The manager drops its lock between the check and the grant. *)
Definition acquire_writer (req : AcquireWriterRequest) : Handler :=
  when_enabled (or_return (parse_va (awr_va req)) (fun va =>
    let region_id := UbVa_region_id va in
    node_id <~ look (fun s => cfg_node_id (as_config s));
    checked <~ on_coherence (fun c m => acquire_check m (c 0%nat) region_id node_id);
    result <~ match checked with
              | Some result => Done result
              | None => on_coherence (fun c m => acquire_grant m (c 0%nat) region_id node_id)
              end;
    Done match result with
         | AcquireWriterResult_Granted _ epoch =>
           JObj ["status" :- jstr "granted"; "va" :- JStr (va_text va);
                 "region_id" :- JNum region_id; "epoch" :- JNum epoch]
         | AcquireWriterResult_Denied _ reason =>
           JObj ["status" :- jstr "denied"; "reason" :- jstr reason]
         | AcquireWriterResult_Queued _ => JObj ["status" :- jstr "queued"]
         | AcquireWriterResult_NotFound => json_error "region not found in coherence manager"
         end)).

(** Source: crates/unibusd/src/main.rs:1501-1527, [release_writer]. *)
Definition release_writer (req : ReleaseWriterRequest) : Handler :=
  when_enabled (or_return (parse_va (rwr_va req)) (fun va =>
    let region_id := UbVa_region_id va in
    node_id <~ look (fun s => cfg_node_id (as_config s));
    released <~ on_coherence (fun _ m => CoherenceManager_release_writer m region_id node_id);
    if released : bool then
      epoch <~ look (fun s => default 0 (CoherenceManager_get_epoch (as_coherence s) region_id));
      Done (JObj ["status" :- jstr "ok"; "region_id" :- JNum region_id; "epoch" :- JNum epoch])
    else Done (json_error "failed to release writer (not the current writer or region not found)"))).
