(* ===== verification/Agreement.v ===== *)
(** * Agreement: the tables of the managed layer

    The placer, the region table and the coherence manager each know the regions
    allocated on this node. They agree after any sequence of requests, starting
    from [startup]. *)

From S2P Require Import Prelude Bytes Types Addr Net Device Mr Verbs.
From S2P Require Import Jetty Frame Float Config Session Manager Dataplane Member.
From S2P Require Import SubAlloc Region CachePool FetchAgent Coherence Registry Placer Json.
From S2P Require Import Text Api Task Daemon Kv Managed.
#[local] Open Scope Z_scope.

(** ** Agreement

    Identifiers below [limit] are this node's own; regions that were registered as
    remote have larger ones. *)

Section Agreement.
Context {iteration : MapOrder Z PoolCacheEntry}.
Context (limit max : Z) (Hlimit : limit < 2 ^ 64) (Hmax : 0 <= max < 2 ^ 62).

Abbreviation daemon_agent_ok := (agent_ok 0 max max).

Definition placed_as (p : RegionPlacement) (i : RegionInfo) : Prop :=
  ri_home_node_id i = rp_home_node_id p /\ ri_device_id i = rp_device_id p
  /\ ri_mr_handle i = rp_mr_handle p /\ ri_base_offset i = rp_base_offset p /\ ri_len i = rp_len p.

Definition tracked_as (p : RegionPlacement) (h : RegionHomeState) : Prop :=
  hs_base_offset h = rp_base_offset p /\ hs_len h = rp_len p.

(** What the cache and the remote entries of the region table look like. *)
Record agent_split (a : FetchAgent) : Prop := {
  sp_agent : daemon_agent_ok a;
  sp_len : forall rid i, agent_region a rid = Some i -> 0 <= ri_len i < 2 ^ 62;
  sp_remote : forall rid i, agent_region a rid = Some i -> (ri_state i = RegionState_Home <-> rid < limit);
  sp_cached : forall rid, is_Some (cp_entries (fa_cache_pool a) !! rid) -> limit <= rid;
}.

(** A change of the agent that leaves the regions of this node alone. *)
Definition touches_remote (a a' : FetchAgent) : Prop := forall rid,
  agent_region a' rid = agent_region a rid
  \/ limit <= rid /\ exists i i', agent_region a rid = Some i /\ agent_region a' rid = Some i'
       /\ ri_len i' = ri_len i /\ ri_state i' <> RegionState_Home.

Lemma touches_refl a a' : (forall rid, agent_region a' rid = agent_region a rid) -> touches_remote a a'.
Proof. intros H rid. by left. Qed.

Lemma touches_trans a1 a2 a3 : touches_remote a1 a2 -> touches_remote a2 a3 -> touches_remote a1 a3.
Proof.
  intros H12 H23 rid. destruct (H23 rid) as [E|(Hl & i & i' & Hi & Hi' & Hlen & Hs)].
  - rewrite E. apply H12.
  - right. split; [done|]. destruct (H12 rid) as [E|(_ & j & j' & Hj & Hj' & Hlen' & _)].
    + exists i, i'. rewrite <- E. done.
    + exists j, i'. assert (j' = i) as -> by congruence. split_and!; congruence || done.
Qed.

Lemma touches_state a rid st : (fa_region_table a < length (fa_tables a))%nat -> limit <= rid ->
  st <> RegionState_Home ->
  touches_remote a (on_agent_table a (fun t => RegionTable_set_state t rid st)).1.
Proof.
  intros Hlt Hr Hst rid'. rewrite agent_region_set_state by done. case_decide; [subst|by left].
  destruct (agent_region a rid) as [i|]; [|by left]. right. split; [done|]. by eexists _, _.
Qed.

Lemma touches_epoch a rid epoch : (fa_region_table a < length (fa_tables a))%nat -> limit <= rid ->
  (forall i, agent_region a rid = Some i -> ri_state i <> RegionState_Home) ->
  touches_remote a (on_agent_table a (fun t => RegionTable_set_epoch t rid epoch)).1.
Proof.
  intros Hlt Hr Hst rid'. rewrite agent_region_set_epoch by done. case_decide; [subst|by left].
  destruct (agent_region a rid) as [i|]; [|by left]. right. split; [done|].
  eexists _, _. split_and!; [done..|]. by apply (Hst i).
Qed.

(** Such a change keeps the split. *)
Lemma split_touches a a' :
  agent_split a -> daemon_agent_ok a' -> touches_remote a a' ->
  (forall rid, is_Some (cp_entries (fa_cache_pool a') !! rid) -> limit <= rid) -> agent_split a'.
Proof.
  intros [_ Hlen Hrem _] Hok Ht Hc. constructor; [done| | |done]; intros rid i Hi;
    destruct (Ht rid) as [E|(Hl & j & j' & Hj & Hj' & Hlj & Hs)].
  - rewrite E in Hi. eauto.
  - assert (j' = i) as -> by congruence. rewrite Hlj. eauto.
  - rewrite E in Hi. eauto.
  - assert (j' = i) as -> by congruence. split; [done|lia].
Qed.

Lemma not_home a rid i : agent_split a -> agent_region a rid = Some i -> limit <= rid ->
  ri_state i <> RegionState_Home.
Proof. intros Hs Hi Hr Hh. apply (sp_remote _ Hs _ _ Hi) in Hh. lia. Qed.

Lemma remote_id a rid i : agent_split a -> agent_region a rid = Some i -> ri_state i <> RegionState_Home ->
  limit <= rid.
Proof. intros Hs Hi Hh. destruct (decide (rid < limit)) as [Hr|]; [|lia]. by apply (sp_remote _ Hs _ _ Hi) in Hr. Qed.

(** *** The calls on the agent *)

Lemma invalidate_local_split a rid : agent_split a -> limit <= rid ->
  agent_split (FetchAgent_invalidate_local a rid).1
  /\ touches_remote a (FetchAgent_invalidate_local a rid).1.
Proof.
  intros Hs Hr. pose proof (ao_live _ _ _ _ (sp_agent _ Hs)) as Hlt.
  assert (Ht : touches_remote a (FetchAgent_invalidate_local a rid).1).
  { eapply touches_trans; [|by apply touches_state]. by apply touches_refl. }
  split; [|done]. eapply split_touches; [done| |done|].
  - eapply invalidate_local_keeps, Hs; lia.
  - unfold FetchAgent_invalidate_local. rewrite on_agent_table_fst. cbn. intros rid' Hc.
    apply (sp_cached _ Hs). revert Hc. unfold CachePool_remove.
    destruct (cp_entries (fa_cache_pool a) !! rid); [|done]. cbn. intros [e [_ He]%lookup_delete_Some]. eauto.
Qed.

Lemma lookup_entries p now rid rid' :
  is_Some (cp_entries (CachePool_lookup p now rid).1 !! rid') -> is_Some (cp_entries p !! rid').
Proof.
  unfold CachePool_lookup. destruct (cp_entries p !! rid) as [e|] eqn:E; [|done]. cbn.
  destruct (decide (rid' = rid)) as [->|]; [by rewrite E|by rewrite lookup_insert_ne].
Qed.

Lemma lookup_split a now rid : agent_split a ->
  let a' := a <| fa_cache_pool := (CachePool_lookup (fa_cache_pool a) now rid).1 |> in
  agent_split a' /\ touches_remote a a'.
Proof.
  intros Hs a'. assert (Ht : touches_remote a a') by (by apply touches_refl). split; [|done].
  pose proof (sp_agent _ Hs) as Ha. eapply split_touches; [done| |done|].
  - destruct (agent_ok_keep 0 max max a a' Ha) as [Hok _]; [| |done|done| |done].
    + by apply lookup_preserves, (ao_pool _ _ _ _ Ha).
    + unfold a', CachePool_lookup. cbn. by case_match.
    + intros rid' i e Hi _. split; [done|]. intros entry He. by apply lookup_keeps.
  - intros rid' Hc. apply (sp_cached _ Hs). exact (lookup_entries _ now rid _ Hc).
Qed.

(** A read; a miss is of a remote region. *)
Lemma read_va_split a now rid : agent_split a ->
  agent_split (FetchAgent_read_va a now rid).1 /\ touches_remote a (FetchAgent_read_va a now rid).1
  /\ forall region, (FetchAgent_read_va a now rid).2 = Ok (ReadVaResult_CacheMiss region) ->
       limit <= rid /\ 0 <= ri_len region < 2 ^ 62.
Proof.
  intros Hs. pose proof (lookup_split a now rid Hs) as Hl. unfold FetchAgent_read_va.
  assert (Hsame : agent_split a /\ touches_remote a a) by (split; [done|by apply touches_refl]).
  destruct (agent_region a rid) as [i|] eqn:Ei; [|by destruct Hsame].
  pose proof (sp_len _ Hs _ _ Ei) as Hlen.
  destruct (ri_state i) as [|e|] eqn:Es; [|clear Hsame|by destruct Hsame].
  - destruct Hsame. split_and!; [done..|]. intros region [= <-]. split; [|done].
    eapply remote_id; [done..|]. by rewrite Es.
  - assert (Hr : limit <= rid) by (eapply remote_id; [done..|]; by rewrite Es).
    destruct (CachePool_lookup (fa_cache_pool a) now rid) as [p o]. cbn [fst] in Hl. destruct Hl as [Hs1 Ht1].
    destruct o as [entry|]; cbn [fst snd].
    + case_match; [|by split_and!].
      destruct (invalidate_local_split (a <| fa_cache_pool := p |>) rid Hs1 Hr) as [Hs2 Ht2].
      destruct (agent_region (FetchAgent_invalidate_local _ rid).1 rid) as [i2|] eqn:Ei2; cbn [fst snd];
        (split_and!; [done|exact (touches_trans _ _ _ Ht1 Ht2)|]); [|done].
      intros region [= <-]. split; [done|]. by eapply (sp_len _ Hs2).
    + split_and!; [done..|]. intros region [= <-]. done.
Qed.

Lemma receive_invalidate_split a rid epoch : agent_split a ->
  agent_split (FetchAgent_receive_invalidate a rid epoch).1
  /\ touches_remote a (FetchAgent_receive_invalidate a rid epoch).1.
Proof.
  intros Hs. pose proof (sp_agent _ Hs) as Ha.
  assert (Hep : forall a1, agent_split a1 -> limit <= rid ->
    touches_remote a1 (on_agent_table a1 (fun t => RegionTable_set_epoch t rid epoch)).1).
  { intros a1 Hs1 Hr. apply touches_epoch; [apply (sp_agent _ Hs1)|done|]. intros i Hi. by eapply not_home. }
  assert (Ht : touches_remote a (FetchAgent_receive_invalidate a rid epoch).1
    /\ forall rid', is_Some (cp_entries (fa_cache_pool (FetchAgent_receive_invalidate a rid epoch).1) !! rid') ->
         limit <= rid').
  { pose proof (sp_cached _ Hs) as Hc. unfold FetchAgent_receive_invalidate.
    destruct (agent_region a rid) as [i|] eqn:Ei; [|split; [by apply touches_refl|done]].
    destruct (ri_state i) as [|e|] eqn:Es; [| |split; [by apply touches_refl|done]].
    - assert (Hr : limit <= rid) by (eapply remote_id; [done..|]; by rewrite Es).
      case_match; cbn [fst]; [|split; [by apply touches_refl|done]].
      split; [by apply Hep|]. by rewrite on_agent_table_fst.
    - assert (Hr : limit <= rid) by (eapply remote_id; [done..|]; by rewrite Es).
      case_match; cbn [fst]; [|split; [by apply touches_refl|done]].
      destruct (invalidate_local_split a rid Hs Hr) as [Hs1 Ht1].
      split; [eapply touches_trans; [done|by apply Hep]|]. rewrite on_agent_table_fst. apply (sp_cached _ Hs1). }
  destruct Ht as [Ht Hc]. split; [|done]. eapply split_touches; [done| |done|done].
  by eapply receive_invalidate_keeps.
Qed.

Lemma complete_fetch_split a now rid len epoch : agent_split a -> limit <= rid -> 0 <= len < 2 ^ 62 ->
  agent_split (FetchAgent_complete_fetch a now rid len epoch).1
  /\ touches_remote a (FetchAgent_complete_fetch a now rid len epoch).1.
Proof.
  intros Hs Hr Hlen. pose proof (sp_agent _ Hs) as Ha.
  assert (Ht : touches_remote a (FetchAgent_complete_fetch a now rid len epoch).1
    /\ forall rid', is_Some (cp_entries (fa_cache_pool (FetchAgent_complete_fetch a now rid len epoch).1) !! rid') ->
         limit <= rid').
  { unfold FetchAgent_complete_fetch.
    pose proof (insert_cases 0 max max ltac:(lia) ltac:(lia) ltac:(lia) ltac:(lia)
      (fa_tables a) (fa_cache_pool a) now rid len epoch (ao_pool _ _ _ _ Ha) Hlen) as H.
    destruct (CachePool_insert _ _ _ _ _ _) as [[h p] res]. destruct H as (_ & p1 & Hev & _ & Hres).
    assert (Hsub : forall rid', is_Some (cp_entries p1 !! rid') -> limit <= rid').
    { intros rid' [e He]. apply (sp_cached _ Hs). exists e. by apply (lookup_weaken _ _ _ _ He), (ev_sub _ _ _ _ Hev). }
    assert (Hte : forall p, touches_remote a (a <| fa_tables := h |> <| fa_cache_pool := p |>)).
    { intros p' rid'. unfold agent_region. cbn.
      rewrite (ev_region _ _ _ _ Hev _ rid' (ao_linked _ _ _ _ Ha) (ao_live _ _ _ _ Ha)).
      case_decide as Hd; [|by left]. destruct Hd as [Hd _].
      destruct (region_of (fa_tables a) (fa_region_table a) rid') as [i|]; [|by left].
      right. split; [by apply (sp_cached _ Hs)|]. by eexists _, _. }
    destruct res as [m|entry]; cbn [fst].
    - destruct Hres as [-> _]. done.
    - destruct Hres as (_ & _ & Hents & _).
      set (a2 := a <| fa_tables := h |> <| fa_cache_pool := p |>).
      assert (Hlt : (fa_region_table a2 < length (fa_tables a2))%nat).
      { cbn. rewrite (ev_length _ _ _ _ Hev). apply Ha. }
      pose proof (touches_state a2 rid (RegionState_Shared epoch) Hlt Hr ltac:(done)) as Ht2. split.
      + eapply touches_trans; [by apply Hte|]. eapply touches_trans; [exact Ht2|].
        match goal with |- touches_remote ?x _ => set (a3 := x) in * end.
        assert (Hst : forall i, agent_region a3 rid = Some i -> ri_state i <> RegionState_Home).
        { intros i Hi. unfold a3 in Hi. rewrite agent_region_set_state, decide_True in Hi by done.
          by apply fmap_Some in Hi as (? & _ & ->). }
        eapply touches_trans; [apply (touches_epoch a3 rid epoch); [|done|done]|by apply touches_refl].
        unfold a3. rewrite on_agent_table_fst. cbn. rewrite on_table_length. exact Hlt.
      + rewrite !on_agent_table_fst. cbn. rewrite Hents. intros rid' Hc.
        destruct (decide (rid' = rid)) as [->|]; [done|]. rewrite lookup_insert_ne in Hc by done. eauto. }
  destruct Ht as [Ht Hc]. split; [|done]. eapply split_touches; [done| |done|done].
  eapply (complete_fetch_keeps 0 max max); [lia|lia|lia|lia|done|done].
Qed.

(** The regions placed are [regions], and everybody agrees on them. *)
Record agree (regions : gmap Z RegionPlacement) (s : AppState) : Prop := {
  ag_placer : pl_regions (as_placer s) = regions;
  ag_extents : placer_ok (as_placer s);
  ag_ids : forall rid, is_Some (regions !! rid) -> rid < pl_next_region_id (as_placer s);
  ag_next : 1 <= pl_next_region_id (as_placer s) <= limit;
  ag_split : agent_split (as_agent s);
  ag_table : forall rid, rid < limit -> agent_region (as_agent s) rid = None <-> regions !! rid = None;
  ag_placed : forall rid p i, regions !! rid = Some p -> agent_region (as_agent s) rid = Some i -> placed_as p i;
  ag_tracked : forall rid, cm_home_states (as_coherence s) !! rid = None <-> regions !! rid = None;
  ag_homes : forall rid p h, regions !! rid = Some p -> cm_home_states (as_coherence s) !! rid = Some h ->
    tracked_as p h;
}.

Lemma agree_agent regions s s' :
  agree regions s -> as_placer s' = as_placer s -> as_coherence s' = as_coherence s ->
  agent_split (as_agent s') ->
  (forall rid, rid < limit -> agent_region (as_agent s') rid = agent_region (as_agent s) rid) ->
  agree regions s'.
Proof.
  intros [Hp He Hid Hn Hs Ht Hpl Htr Hh] Ep Ec Hs' Hsame. constructor; rewrite ?Ep, ?Ec; try done.
  - intros rid Hr. rewrite Hsame by done. auto.
  - intros rid p i Hi Hi'. assert (Hr : rid < limit) by (specialize (Hid rid (mk_is_Some _ _ Hi)); lia).
    rewrite Hsame in Hi' by done. eauto.
Qed.

Lemma touches_below a a' : touches_remote a a' ->
  forall rid, rid < limit -> agent_region a' rid = agent_region a rid.
Proof. intros Ht rid Hr. destruct (Ht rid) as [|[? _]]; [done|lia]. Qed.

Lemma agree_coherence regions s c :
  agree regions s ->
  (forall rid, match cm_home_states (as_coherence s) !! rid, cm_home_states c !! rid with
               | Some h, Some h' => hs_base_offset h' = hs_base_offset h /\ hs_len h' = hs_len h
               | None, None => True
               | _, _ => False
               end) ->
  agree regions (s <| as_coherence := c |>).
Proof.
  intros [Hp He Hid Hn Hs Ht Hpl Htr Hh] Hc. constructor; cbn; try done.
  - intros rid. rewrite <- Htr. specialize (Hc rid). by repeat case_match.
  - intros rid p h Hr Hi. specialize (Hc rid). rewrite Hi in Hc. case_match eqn:E; [|done].
    destruct (Hh _ _ _ Hr E), Hc. split; congruence.
Qed.

Lemma update_home_same c rid st st' :
  cm_home_states c !! rid = Some st -> hs_base_offset st' = hs_base_offset st -> hs_len st' = hs_len st ->
  forall rid', match cm_home_states c !! rid', cm_home_states (update_home c rid st') !! rid' with
               | Some h, Some h' => hs_base_offset h' = hs_base_offset h /\ hs_len h' = hs_len h
               | None, None => True
               | _, _ => False
               end.
Proof.
  intros Hc Hb Hl rid'. cbn. destruct (decide (rid' = rid)) as [->|].
  - by rewrite lookup_insert_eq, Hc.
  - rewrite lookup_insert_ne by done. by case_match.
Qed.

(** Entering a region in the table. *)
Lemma insert_region a info : daemon_agent_ok a -> (forall e, ri_state info <> RegionState_Shared e) ->
  let a' := (on_agent_table a (fun t => (RegionTable_insert t info, tt))).1 in
  daemon_agent_ok a' /\ fa_cache_pool a' = fa_cache_pool a
  /\ forall rid, agent_region a' rid = if decide (rid = ri_region_id info) then Some info else agent_region a rid.
Proof.
  intros Ha Hns a'. split; [by apply (table_insert_keeps 0 max max a info)|].
  unfold a'. rewrite on_agent_table_fst. split; [done|]. intros rid.
  unfold agent_region, region_of, on_table. cbn.
  rewrite table_of_insert, decide_True by (done || apply Ha). unfold RegionTable_lookup, RegionTable_insert. cbn.
  case_decide; [subst; by rewrite lookup_insert_eq|by rewrite lookup_insert_ne].
Qed.

(** *** Handlers that allocate nothing *)

Section Quiet.
Context (regions : gmap Z RegionPlacement).

(** Agreement stays as it is, and so does the next identifier. *)
Abbreviation stays := (keeps (agree regions) (fun s => pl_next_region_id (as_placer s))).
Abbreviation any := (fun _ => True).

Lemma stays_look {B} (f : AppState -> B) (P : B -> Prop) :
  (forall s, agree regions s -> P (f s)) -> stays P (look f).
Proof. intros Hf clock s Hs. cbn. auto. Qed.

Lemma stays_engine {B} (op : Clock -> Engine -> Engine * B) : stays any (on_engine op).
Proof.
  intros clock s Hs. cbn. destruct (op clock (as_engine s)) as [e b]. split; [|done].
  by apply (agree_agent regions s); [..|apply (ag_split _ _ Hs)|].
Qed.

Lemma stays_agent_below {B} (op : Clock -> FetchAgent -> FetchAgent * B) (P : B -> Prop) :
  (forall clock a, agent_split a ->
     agent_split (op clock a).1
     /\ (forall rid, rid < limit -> agent_region (op clock a).1 rid = agent_region a rid)
     /\ P (op clock a).2) ->
  stays P (on_agent op).
Proof.
  intros Hop clock s Hs. destruct (Hop clock (as_agent s) (ag_split _ _ Hs)) as (Hsp & Ht & HP). cbn.
  destruct (op clock (as_agent s)) as [a b]. split; [|done].
  by apply (agree_agent regions s).
Qed.

Lemma stays_agent {B} (op : Clock -> FetchAgent -> FetchAgent * B) (P : B -> Prop) :
  (forall clock a, agent_split a ->
     agent_split (op clock a).1 /\ touches_remote a (op clock a).1 /\ P (op clock a).2) ->
  stays P (on_agent op).
Proof.
  intros Hop. apply stays_agent_below. intros clock a Ha. destruct (Hop clock a Ha) as (? & ? & ?).
  auto using touches_below.
Qed.

Lemma stays_when_enabled k : stays any k -> stays any (when_enabled k).
Proof.
  intros Hk. apply (keeps_bind _ _ any); [by apply stays_look|]. intros []; done.
Qed.

Lemma stays_respond {A} (r : Result A) f : stays any (respond r f).
Proof. by destruct r. Qed.

Lemma stays_locked {A} (t : Task AppState A) : stays any t -> stays any (locked t).
Proof. apply keeps_locked. Qed.

Lemma stays_await {A} start (finish : Engine -> Z -> Engine * Result A) : stays any (await_verb start finish).
Proof.
  apply (keeps_bind _ _ any); [apply stays_engine|]. intros [opaque|e|] _; [|done..].
  intros _. apply stays_engine.
Qed.

Lemma stays_read_from handle off len source missing : stays any (read_from handle off len source missing).
Proof.
  apply (keeps_bind _ _ any); [by apply stays_look|]. intros [entry|] _; [|done].
  apply (keeps_bind _ _ any); [by apply stays_look|]. intros r _. apply stays_respond.
Qed.

Lemma stays_cache_fetched region rid data : limit <= rid -> 0 <= ri_len region < 2 ^ 62 ->
  stays any (cache_fetched region rid data).
Proof.
  intros Hr Hlen. apply (keeps_bind _ _ any).
  { apply stays_agent. intros clock a Ha. by destruct (complete_fetch_split a (clock 0%nat) rid
      (ri_len region) (ri_epoch region) Ha Hr Hlen). }
  intros [e|off] _; [done|]. apply (keeps_bind _ _ any); [by apply stays_look|].
  intros [h|] _; [|done]. apply (keeps_bind _ _ any); [by apply stays_look|].
  intros [entry|] _; [|done]. apply (keeps_bind _ _ any); [apply stays_engine|done].
Qed.

Lemma stays_read_va req : stays any (verb_read_va req).
Proof.
  apply stays_when_enabled. destruct (parse_va _) as [e|va]; [done|]. cbn [or_return].
  set (rid := UbVa_region_id va).
  apply (keeps_bind _ _ (fun r => forall region, r = Ok (ReadVaResult_CacheMiss region) ->
    limit <= rid /\ 0 <= ri_len region < 2 ^ 62)).
  { apply stays_agent. intros clock a Ha. by apply read_va_split. }
  intros [[region|off region|region|]|e|] Hmiss; cbn [or_else]; try done.
  - apply stays_read_from.
  - apply (keeps_bind _ _ any).
    { apply stays_agent. intros clock a Ha. pose proof (lookup_split a (clock 0%nat) rid Ha) as H1.
      cbn. destruct (CachePool_lookup _ _ _) as [p o]. by destruct H1. }
    intros [entry|] _; [|done]. cbv zeta. destruct (_ <? _); [done|].
    apply (keeps_bind _ _ any); [by apply stays_look|]. intros pool _. apply stays_read_from.
  - destruct (Hmiss region eq_refl) as [Hr Hlen].
    apply (keeps_bind _ _ any); [by apply stays_look|]. intros pod _.
    apply (keeps_bind _ _ any); [apply stays_locked, stays_await|]. intros [data|e|] _; [|done..].
    apply (keeps_bind _ _ any); [by apply stays_cache_fetched|]. intros _ _. apply stays_respond.
Qed.

Lemma stays_write_va req : stays any (verb_write_va req).
Proof.
  apply stays_when_enabled. destruct (parse_va _) as [e|va]; [done|]. cbn [or_return].
  apply (keeps_bind _ _ any); [by apply stays_look|]. intros [region|] _; [|done].
  destruct (ri_state region).
  1, 2: apply (keeps_bind _ _ any); [by apply stays_look|]; intros pod _; apply stays_locked;
    apply (keeps_bind _ _ any); [apply stays_engine|]; intros r _; apply stays_respond.
  apply (keeps_bind _ _ any); [by apply stays_look|]. intros [entry|] _; [|done].
  apply (keeps_bind _ _ any); [apply stays_engine|]. intros r _. apply stays_respond.
Qed.

Lemma stays_invalidate req : stays any (region_invalidate req).
Proof.
  apply stays_when_enabled. apply (keeps_bind _ _ any); [|by intros []].
  apply stays_agent. intros clock a Ha. by destruct (receive_invalidate_split a (rir_region_id req) (rir_new_epoch req) Ha).
Qed.

Lemma stays_coherence {B} (op : Clock -> CoherenceManager -> CoherenceManager * B) :
  (forall clock c rid, match cm_home_states c !! rid, cm_home_states (op clock c).1 !! rid with
                       | Some h, Some h' => hs_base_offset h' = hs_base_offset h /\ hs_len h' = hs_len h
                       | None, None => True
                       | _, _ => False
                       end) -> stays any (on_coherence op).
Proof.
  intros Hop clock s Hs. specialize (Hop clock (as_coherence s)). cbn.
  destruct (op clock (as_coherence s)) as [c b]. split; [|done]. by apply agree_coherence.
Qed.

Lemma home_same_refl c rid :
  match cm_home_states c !! rid, cm_home_states c !! rid with
  | Some h, Some h' => hs_base_offset h' = hs_base_offset h /\ hs_len h' = hs_len h
  | None, None => True
  | _, _ => False
  end.
Proof. by case_match. Qed.

Lemma stays_acquire req : stays any (acquire_writer req).
Proof.
  apply stays_when_enabled. destruct (parse_va _) as [e|va]; [done|]. cbn [or_return].
  apply (keeps_bind _ _ any); [by apply stays_look|]. intros node _.
  apply (keeps_bind _ _ any).
  { apply stays_coherence. intros clock c rid.
    assert (cm_home_states (acquire_check c (clock 0%nat) (UbVa_region_id va) node).1 = cm_home_states c) as ->
      by (unfold acquire_check; by repeat case_match). apply home_same_refl. }
  intros checked _. apply (keeps_bind _ _ any); [|done]. destruct checked as [r|]; [done|].
  apply stays_coherence. intros clock c rid. unfold acquire_grant.
  destruct (cm_home_states c !! UbVa_region_id va) as [st|] eqn:E; [|apply home_same_refl].
  case_decide; by apply (update_home_same c _ st).
Qed.

Lemma release_homes c rid node :
  cm_home_states (CoherenceManager_release_writer c rid node).1 = cm_home_states c
  \/ exists st, cm_home_states c !! rid = Some st
     /\ cm_home_states (CoherenceManager_release_writer c rid node).1
        = cm_home_states (update_home c rid (RegionHomeState_bump_epoch (st <| hs_writer := None |>)).1).
Proof.
  unfold CoherenceManager_release_writer. destruct (cm_home_states c !! rid) as [st|]; [|by left].
  destruct (hs_writer st); [|by left]. case_match; [|by left]. right. exists st. split; [done|].
  by repeat case_match.
Qed.

Lemma stays_release req : stays any (release_writer req).
Proof.
  apply stays_when_enabled. destruct (parse_va _) as [e|va]; [done|]. cbn [or_return].
  apply (keeps_bind _ _ any); [by apply stays_look|]. intros node _.
  apply (keeps_bind _ _ any); [|intros []; [|done]; intros _; apply (keeps_bind _ _ any); [by apply stays_look|done]].
  apply stays_coherence. intros clock c rid.
  destruct (release_homes c (UbVa_region_id va) node) as [->|(st & E & ->)]; [apply home_same_refl|].
  by apply (update_home_same c _ st).
Qed.

Lemma stays_register_remote req : limit <= rrr_region_id req -> 0 <= rrr_len req < 2 ^ 62 ->
  stays any (region_register_remote req).
Proof.
  intros Hr Hlen. apply stays_when_enabled. apply (keeps_bind _ _ any); [|done].
  apply stays_agent_below. intros clock a Hsp.
  match goal with |- context [RegionTable_insert _ ?i] => set (info := i) end.
  destruct (insert_region a info (sp_agent _ Hsp) ltac:(done)) as (Hok & Hpool & Hreg). split_and!; [|..|done].
  - constructor.
    + done.
    + intros rid i. rewrite Hreg. case_decide; [intros [= <-]; done|apply (sp_len _ Hsp)].
    + intros rid i. rewrite Hreg. case_decide; [|apply (sp_remote _ Hsp)]. subst rid. intros [= <-]. cbn.
      split; [done|lia].
    + rewrite Hpool. apply (sp_cached _ Hsp).
  - intros rid Hlt. rewrite Hreg, decide_False; [done|]. cbn. lia.
Qed.
End Quiet.

(** *** Allocating and freeing *)

Lemma reserve_regions p hints req :
  pl_regions (reserve p hints req).1 = pl_regions p
  /\ pl_next_region_id (reserve p hints req).1 = pl_next_region_id p.
Proof.
  unfold reserve. destruct (DeviceRegistry_best_device _ _ _ _ _ _) as [[node dev]|]; [|done].
  destruct (pl_sub_allocators p !! (node, dev)); [|done].
  by destruct (SubAllocator_alloc _ _) as [? [|]].
Qed.

Lemma place_spec p hints req :
  placer_ok p -> 0 <= ah_size hints < 2 ^ 62 -> 1 <= pl_next_region_id p -> pl_next_region_id p + 1 < 2 ^ 64 ->
  placer_ok (Placer_place p hints req).1 /\
  match Placer_place p hints req with
  | (p', inl _) => pl_regions p' = pl_regions p /\ pl_next_region_id p' = pl_next_region_id p
  | (p', inr (va, pl)) =>
    va = UbVa_new (pl_next_region_id p) 0 /\ rp_len pl = ah_size hints
    /\ pl_regions p' = <[pl_next_region_id p := pl]> (pl_regions p)
    /\ pl_next_region_id p' = pl_next_region_id p + 1
  end.
Proof.
  intros Hp Hsize Hn1 Hn2. split; [by apply (placer_step_ok p (PlacerOp_place hints req))|].
  unfold Placer_place. pose proof (reserve_regions p hints req) as [Hr Hn].
  destruct (reserve p hints req) as [p' [e|[[node dev] off]]]; cbn in *; [done|].
  rewrite Hr, Hn. rewrite wrap_small by ulia. done.
Qed.

Lemma agree_placer regions s p :
  agree regions s -> placer_ok p -> pl_regions p = regions ->
  pl_next_region_id p = pl_next_region_id (as_placer s) -> agree regions (s <| as_placer := p |>).
Proof. intros [Hp He Hid Hn Hs Ht Hpl Htr Hh] Hok Hr Hnext. by constructor; cbn; rewrite ?Hnext. Qed.

Lemma va_region_id rid : 0 <= rid < 2 ^ 64 -> UbVa_region_id (UbVa_new rid 0) = rid.
Proof. intros H. by apply UbVa_fields. Qed.

(** The region is entered in the three tables one after the other. *)
Lemma agree_alloc regions s placer' pl i a c handle :
  agree regions s -> let rid := pl_next_region_id (as_placer s) in rid < limit ->
  placer_ok placer' -> pl_next_region_id placer' = rid + 1 ->
  pl_regions placer' = <[rid := pl]> regions -> 0 <= rp_len pl < 2 ^ 62 ->
  daemon_agent_ok a -> fa_cache_pool a = fa_cache_pool (as_agent s) ->
  (forall r, agent_region a r = if decide (r = rid) then Some i else agent_region (as_agent s) r) ->
  ri_state i = RegionState_Home -> placed_as pl i ->
  c = CoherenceManager_register_region (as_coherence s) rid handle (rp_base_offset pl) (rp_len pl) ->
  agree (<[rid := pl]> regions) (s <| as_placer := placer' |> <| as_agent := a |> <| as_coherence := c |>).
Proof.
  intros [Hp He Hid Hn Hs Ht Hpl Htr Hh] rid Hlt Hok Hnext Hreg Hlen Ha Hpool Har Hhome Has ->.
  constructor; cbn; [done|done| |lia| | | | |].
  - intros r [x Hx]. rewrite Hnext. apply lookup_insert_Some in Hx as [[<- _]|[_ Hx]]; [lia|].
    specialize (Hid r (mk_is_Some _ _ Hx)). fold rid in Hid. lia.
  - constructor; [done|..].
    + intros r j. rewrite Har. case_decide; [|apply (sp_len _ Hs)]. intros [= <-].
      destruct Has as (_ & _ & _ & _ & ->). done.
    + intros r j. rewrite Har. case_decide; [|apply (sp_remote _ Hs)]. intros [= <-]. subst. done.
    + rewrite Hpool. apply (sp_cached _ Hs).
  - intros r Hr. rewrite Har. case_decide; [subst; by rewrite lookup_insert_eq|].
    rewrite lookup_insert_ne by done. auto.
  - intros r p j. rewrite Har. case_decide as Hd.
    + subst r. rewrite lookup_insert_eq. by intros [= <-] [= <-].
    + rewrite lookup_insert_ne by done. eauto.
  - intros r. destruct (decide (r = rid)) as [->|Hd]; [by rewrite !lookup_insert_eq|].
    by rewrite !lookup_insert_ne by done.
  - intros r p h. destruct (decide (r = rid)) as [->|Hd].
    + rewrite !lookup_insert_eq. by intros [= <-] [= <-].
    + rewrite !lookup_insert_ne by done. eauto.
Qed.

Lemma exec_alloc clock env regions s req :
  agree regions s -> 0 <= rar_size req < 2 ^ 62 -> pl_next_region_id (as_placer s) < limit ->
  exists regions' s' reply, exec clock env (region_alloc req) s = (s', Some reply)
    /\ agree regions' s' /\ pl_next_region_id (as_placer s') <= pl_next_region_id (as_placer s) + 1.
Proof.
  intros Hs Hsize Hlt. pose proof (ag_next _ _ Hs) as Hn. unfold region_alloc, when_enabled.
  rewrite exec_bind. cbn [exec look]. destruct (mg_enabled _); [|eexists _, _, _; split; [reflexivity|]; split; [done|lia]].
  rewrite !exec_bind. cbn [exec look]. rewrite exec_bind. cbn [exec on_placer step].
  destruct (place_spec (as_placer s) (alloc_hints req) (cfg_node_id (as_config s)) (ag_extents _ _ Hs) Hsize
    ltac:(lia) ltac:(lia)) as [Hok Hpl].
  destruct (Placer_place _ _ _) as [p' [e|[va pl]]].
  - destruct Hpl as [Hr Hnx]. cbn [exec]. eexists _, _, _. split; [reflexivity|]. split; [|cbn; lia].
    apply agree_placer; [done|done| |done]. rewrite Hr. apply Hs.
  - destruct Hpl as (-> & Hlen & Hr & Hnx). cbn [fst] in Hok.
    set (rid := pl_next_region_id (as_placer s)) in *.
    rewrite exec_bind. cbn [exec look].
    set (s1 := set_field as_placer _ s). set (info := home_info s1 _ pl).
    assert (Hid : UbVa_region_id (UbVa_new rid 0) = rid) by (apply va_region_id; ulia).
    rewrite Hid, exec_bind. cbn [exec on_placer step]. unfold Placer_set_mr_handle.
    assert (pl_regions (as_placer s1) !! rid = Some pl) as -> by (cbn; rewrite Hr; apply lookup_insert_eq).
    set (pl' := pl <| rp_mr_handle := ri_mr_handle info |>).
    set (p2 := (as_placer s1) <| pl_regions := <[rid := pl']> (pl_regions (as_placer s1)) |>).
    rewrite exec_bind. cbn [exec table_insert on_agent step].
    destruct (insert_region (as_agent s) info (sp_agent _ (ag_split _ _ Hs)) ltac:(done)) as (Ha & Hcp & Hreg).
    change (as_agent (s1 <| as_placer := p2 |>)) with (as_agent s).
    destruct (on_agent_table (as_agent s) _) as [a []]. cbn [fst] in Ha, Hcp, Hreg.
    rewrite exec_bind. cbn [exec on_coherence step].
    eexists _, _, _. split; [reflexivity|]. split; [|cbn; lia].
    apply (agree_alloc regions s p2 pl' info a _ (rp_mr_handle pl)); try done.
    + assert (placer_step p' (PlacerOp_set_mr_handle rid (ri_mr_handle info)) = p2) as <-.
      { cbn. unfold Placer_set_mr_handle. rewrite Hr, lookup_insert_eq. unfold p2. cbn. by rewrite Hr. }
      by apply placer_step_ok.
    + cbn. rewrite Hr, insert_insert_eq. by rewrite (ag_placer _ _ Hs).
    + cbn. by rewrite Hlen.
    + intros r. rewrite Hreg. cbn. by rewrite Hid.
Qed.

(** Freeing removes the region from all three. *)
Lemma free_regions p rid : 
  pl_regions (Placer_free p rid).1 = delete rid (pl_regions p)
  /\ pl_next_region_id (Placer_free p rid).1 = pl_next_region_id p
  /\ ((Placer_free p rid).2 = None <-> pl_regions p !! rid = None).
Proof.
  unfold Placer_free. destruct (pl_regions p !! rid) eqn:E; cbn.
  - by case_match.
  - by rewrite delete_id.
Qed.

Lemma agree_free regions s p a rid c :
  agree regions s -> is_Some (regions !! rid) -> placer_ok p ->
  pl_regions p = delete rid regions -> pl_next_region_id p = pl_next_region_id (as_placer s) ->
  daemon_agent_ok a -> fa_cache_pool a = fa_cache_pool (as_agent s) ->
  (forall r, agent_region a r = if decide (r = rid) then None else agent_region (as_agent s) r) ->
  cm_home_states c = delete rid (cm_home_states (as_coherence s)) ->
  agree (delete rid regions) (s <| as_placer := p |> <| as_agent := a |> <| as_coherence := c |>).
Proof.
  intros [Hp He Hid Hn Hs Ht Hpl Htr Hh] Hrid Hok Hr Hnx Ha Hcp Har Hc.
  constructor; cbn; rewrite ?Hnx, ?Hc; [done|done| |done| | | | |].
  - intros r [x [_ Hx]%lookup_delete_Some]. eauto.
  - constructor; [done|..].
    + intros r j. rewrite Har. case_decide; [done|apply (sp_len _ Hs)].
    + intros r j. rewrite Har. case_decide; [done|apply (sp_remote _ Hs)].
    + rewrite Hcp. apply (sp_cached _ Hs).
  - intros r Hr'. rewrite Har. case_decide; [subst; by rewrite lookup_delete_eq|].
    rewrite lookup_delete_ne by done. auto.
  - intros r q j [_ Hx]%lookup_delete_Some. rewrite Har. case_decide; [done|eauto].
  - intros r. destruct (decide (r = rid)) as [->|Hd]; [by rewrite !lookup_delete_eq|].
    by rewrite !lookup_delete_ne by done.
  - intros r q h [_ Hx]%lookup_delete_Some [_ Hy]%lookup_delete_Some. eauto.
Qed.


Lemma remove_region a rid : daemon_agent_ok a ->
  let a' := (on_agent_table a (fun t => RegionTable_remove t rid)).1 in
  daemon_agent_ok a' /\ fa_cache_pool a' = fa_cache_pool a
  /\ forall r, agent_region a' r = if decide (r = rid) then None else agent_region a r.
Proof.
  intros Ha a'. split; [by apply (table_remove_keeps 0 max max a rid)|].
  unfold a'. rewrite on_agent_table_fst. split; [done|]. intros r.
  unfold agent_region, region_of, on_table. cbn.
  rewrite table_of_insert, decide_True by (done || apply Ha). unfold RegionTable_lookup. cbn.
  case_decide; [subst; by rewrite lookup_delete_eq|by rewrite lookup_delete_ne].
Qed.

Lemma exec_free clock env regions s req : agree regions s ->
  exists regions' s' reply, exec clock env (region_free req) s = (s', Some reply)
    /\ agree regions' s' /\ pl_next_region_id (as_placer s') = pl_next_region_id (as_placer s).
Proof.
  intros Hs. unfold region_free, when_enabled. rewrite exec_bind. cbn [exec look].
  destruct (mg_enabled _); [|by eexists _, _, _].
  rewrite exec_bind. cbn [exec on_placer step]. set (rid := rfr_region_id req).
  destruct (free_regions (as_placer s) rid) as (Hr & Hnx & Hres).
  pose proof (placer_step_ok _ (PlacerOp_free rid) (ag_extents _ _ Hs) I) as Hok. cbn [placer_step] in Hok.
  rewrite (ag_placer _ _ Hs) in Hr, Hres.
  destruct (Placer_free (as_placer s) rid) as [p [pl|]]; cbn [fst snd] in *.
  - assert (Hin : is_Some (regions !! rid)) by (destruct (regions !! rid); [done|by destruct Hres as [_ ?]; naive_solver]).
    rewrite exec_bind. cbn [exec table_remove on_agent step].
    set (s1 := set_field as_placer _ s).
    destruct (remove_region (as_agent s) rid (sp_agent _ (ag_split _ _ Hs))) as (Ha & Hcp & Hreg).
    change (as_agent s1) with (as_agent s).
    destruct (on_agent_table (as_agent s) _) as [a o]. cbn [fst] in Ha, Hcp, Hreg.
    rewrite exec_bind. cbn [exec on_coherence step CoherenceManager_unregister_region].
    eexists _, _, _. split; [reflexivity|]. split; [|exact Hnx]. by apply (agree_free regions s p a rid).
  - assert (Hnone : regions !! rid = None) by by apply Hres. rewrite delete_id in Hr by done.
    cbn [exec]. eexists _, _, _. split; [reflexivity|]. split; [by apply agree_placer|done].
Qed.

(** *** Requests to the managed layer *)

Inductive ManagedRequest : Type :=
| ManagedRequest_Alloc (req : RegionAllocRequest)
| ManagedRequest_Free (req : RegionFreeRequest)
| ManagedRequest_RegisterRemote (req : RegionRegisterRemoteRequest)
| ManagedRequest_Invalidate (req : RegionInvalidateRequest)
| ManagedRequest_ReadVa (req : VerbReadVaRequest)
| ManagedRequest_WriteVa (req : VerbWriteVaRequest)
| ManagedRequest_AcquireWriter (req : AcquireWriterRequest)
| ManagedRequest_ReleaseWriter (req : ReleaseWriterRequest).

Definition managed_handle (r : ManagedRequest) : Handler :=
  match r with
  | ManagedRequest_Alloc req => region_alloc req
  | ManagedRequest_Free req => region_free req
  | ManagedRequest_RegisterRemote req => region_register_remote req
  | ManagedRequest_Invalidate req => region_invalidate req
  | ManagedRequest_ReadVa req => verb_read_va req
  | ManagedRequest_WriteVa req => verb_write_va req
  | ManagedRequest_AcquireWriter req => acquire_writer req
  | ManagedRequest_ReleaseWriter req => release_writer req
  end.

(** Sizes are far from the word size, and remote identifiers from our own. *)
Definition managed_request_ok (r : ManagedRequest) : Prop :=
  match r with
  | ManagedRequest_Alloc req => 0 <= rar_size req < 2 ^ 62
  | ManagedRequest_RegisterRemote req => limit <= rrr_region_id req /\ 0 <= rrr_len req < 2 ^ 62
  | _ => True
  end.

(** The regions that may be added. *)
Definition allocates (r : ManagedRequest) : Z :=
  match r with ManagedRequest_Alloc _ => 1 | _ => 0 end.
Definition allocations (reqs : list ManagedRequest) : Z := foldr (fun r n => allocates r + n) 0 reqs.

(** One request after the other, each with its own clock; [env] is what the rest
    of the node does while a request waits for a peer. *)
Fixpoint managed_run (env : AppState -> AppState * bool) (s : AppState) (reqs : list (Clock * ManagedRequest))
  : AppState :=
  match reqs with
  | [] => s
  | (clock, r) :: reqs => managed_run env (exec clock env (managed_handle r) s).1 reqs
  end.

Definition engine_only (env : AppState -> AppState * bool) : Prop :=
  forall s, exists e, (env s).1 = s <| as_engine := e |>.

Lemma agree_engine regions s e : agree regions s -> agree regions (s <| as_engine := e |>).
Proof. intros Hs. by apply (agree_agent regions s); [..|apply (ag_split _ _ Hs)|]. Qed.

Lemma exec_quiet clock env regions s t :
  engine_only env -> agree regions s ->
  keeps (agree regions) (fun s => pl_next_region_id (as_placer s)) (fun _ => True) t ->
  exists regions', agree regions' (exec clock env t s).1
    /\ pl_next_region_id (as_placer (exec (A := Json) clock env t s).1) = pl_next_region_id (as_placer s).
Proof.
  intros Henv Hs Ht. exists regions.
  pose proof (exec_keeps _ _ _ t clock env s Ht Hs) as Hk.
  destruct (exec clock env t s) as [s' r]. destruct Hk as (? & ? & _); [|done].
  intros s0 Hs0. destruct (Henv s0) as [e ->]. split; [by apply agree_engine|done].
Qed.

Lemma exec_managed clock env regions s r :
  engine_only env -> agree regions s -> managed_request_ok r ->
  pl_next_region_id (as_placer s) + allocates r <= limit ->
  exists regions', agree regions' (exec clock env (managed_handle r) s).1
    /\ pl_next_region_id (as_placer (exec clock env (managed_handle r) s).1)
       <= pl_next_region_id (as_placer s) + allocates r.
Proof.
  intros Henv Hs Hok Hroom.
  assert (Hquiet : forall t, keeps (agree regions) (fun s => pl_next_region_id (as_placer s)) (fun _ => True) t ->
    exists regions', agree regions' (exec clock env t s).1
    /\ pl_next_region_id (as_placer (exec (A := Json) clock env t s).1) <= pl_next_region_id (as_placer s) + 0).
  { intros t Ht. destruct (exec_quiet clock env regions s t Henv Hs Ht) as (regions' & ? & ->).
    exists regions'. split; [done|lia]. }
  destruct r as [req|req|req|req|req|req|req|req]; cbn [managed_handle allocates managed_request_ok] in *.
  - destruct (exec_alloc clock env regions s req Hs Hok ltac:(lia)) as (regions' & s' & j & -> & ? & ?). eauto.
  - destruct (exec_free clock env regions s req Hs) as (regions' & s' & j & -> & ? & Hn).
    exists regions'. split; [done|]. cbn [fst]. lia.
  - destruct Hok. by apply Hquiet, stays_register_remote.
  - apply Hquiet, stays_invalidate.
  - apply Hquiet, stays_read_va.
  - apply Hquiet, stays_write_va.
  - apply Hquiet, stays_acquire.
  - apply Hquiet, stays_release.
Qed.

Lemma allocations_nonneg reqs : 0 <= allocations reqs.
Proof. unfold allocations. induction reqs as [|[] reqs IH]; cbn [foldr allocates]; lia. Qed.

Lemma managed_run_agree env s reqs regions :
  engine_only env -> agree regions s -> Forall managed_request_ok reqs.*2 ->
  pl_next_region_id (as_placer s) + allocations reqs.*2 <= limit ->
  exists regions', agree regions' (managed_run env s reqs).
Proof.
  intros Henv. revert s regions. induction reqs as [|[clock r] reqs IH]; intros s regions Hs Hok Hroom; [by exists regions|].
  apply Forall_cons in Hok as [Hr Hok]. pose proof (allocations_nonneg reqs.*2).
  assert (allocations ((clock, r) :: reqs).*2 = allocates r + allocations reqs.*2) as Hc by done. rewrite Hc in Hroom.
  destruct (exec_managed clock env regions s r Henv Hs Hr ltac:(lia)) as (regions' & Hs' & Hn).
  cbn [managed_run]. apply (IH _ regions'); [done..|]. lia.
Qed.
End Agreement.

(** ** The state at start *)

Definition pool_reserve (config : NodeConfig) : Z :=
  f64_as_u64 (f64_of_int memory_pool_size * po_memory_reserve_ratio (mg_pool (cfg_managed config)))%f64.

Lemma register_pool_placer config e registry dev :
  0 <= pool_reserve config <= memory_pool_size ->
  let p := (register_pool config e (Placer_new registry) dev).1.2 in
  placer_ok p /\ pl_regions p = ∅ /\ pl_next_region_id p = 1.
Proof.
  intros Hres p. assert (Hplain : placer_ok (Placer_new registry)) by by apply (placer_with_ok registry []).
  unfold p, register_pool. destruct (mg_enabled _); [|done].
  destruct (register_device _ _ _ _) as [e' [[a h]|err|]]; [|done..]. cbn [fst snd].
  split; [|done]. eapply placer_ok_ext; cycle 2.
  - apply (placer_with_ok registry [(cfg_node_id config, dev, 0, memory_pool_size - pool_reserve config)]).
    repeat constructor; unfold memory_pool_size in *; lia.
  - cbn [pl_sub_allocators set_field placer_with foldl]. cbn. fold (pool_reserve config).
    by rewrite wrap_small by (unfold memory_pool_size in *; ulia).
  - done.
Qed.

(** A node that has just started has no regions. *)
Lemma startup_agree limit config epoch now s :
  startup config epoch now = Some s -> 1 <= limit ->
  0 <= pool_reserve config <= memory_pool_size ->
  0 <= ca_max_bytes (mg_cache (cfg_managed config)) < 2 ^ 62 ->
  agree limit (ca_max_bytes (mg_cache (cfg_managed config))) ∅ s /\ pl_next_region_id (as_placer s) = 1.
Proof.
  unfold startup. intros Hs Hl Hres Hmax.
  apply bind_Some in Hs as (cp & _ & Hs). apply bind_Some in Hs as (d & _ & Hs). set (engine := DataPlaneEngine_new _ _ _ _ _ _) in Hs.
 
  destruct (register_local_devices _ _ _) as [registry dev].
  pose proof (register_pool_placer config engine registry dev Hres) as Hp.
  destruct (register_pool _ _ _ _) as [[e p] h]. cbn [fst snd] in Hp. destruct Hp as (Hok & Hr & Hn).
  apply bind_Some in Hs as (m & _ & Hs). injection Hs as <-.
  split; [|done]. constructor; cbn [as_placer as_agent as_coherence]; rewrite ?Hn; try done.
  - by intros rid [x Hx].
  - constructor; [|by intros ? ? ?..|].
    + constructor; [apply pool_ok_new; lia|done|cbn; lia|done].
    + by intros rid [x Hx].
Qed.

Lemma startup_some config epoch now :
  is_Some (parse_socket_addr (cfg_control_listen config)) ->
  is_Some (parse_socket_addr (dc_listen (cfg_data config))) ->
  is_Some (parse_socket_addr (ob_metrics_listen (cfg_obs config))) ->
  is_Some (startup config epoch now).
Proof.
  intros [c Hc] [d Hd] [m Hm]. unfold startup, Control.ControlPlane_start.
  cbn [Control.ControlPlane_set_mr_table set_field Control.ControlPlane_new Control.cp_config].
  rewrite Hc. cbn [ok_or rbind result_option mbind option_bind]. rewrite Hd. cbn [mbind option_bind].
  destruct (register_local_devices _ _ _) as [registry dev].
  destruct (register_pool _ _ _ _) as [[e p] h]. rewrite Hm. by eexists.
Qed.

(** ** Properties *)

(** C10 (invariant): The tables of the managed layer agree. From the start of the
    node, after any sequence of requests to allocate, free, register, invalidate,
    read, write, acquire and release, whatever the peers do meanwhile: a region the
    placer has placed is in the region table, at home, with the same node, device,
    handle, offset and length, and the coherence manager tracks it with the same
    offset and length; the coherence manager tracks no other region, and every
    region at home is one the placer placed; two placed regions on one device do
    not overlap. Regions registered as remote carry identifiers this node has not
    reached; the pool reserve of the configuration fits the pool, its cache is smaller
    than 2^62 bytes, and fewer than 2^64 regions are ever allocated. *)
Theorem managed_tables_agree {iteration : MapOrder Z PoolCacheEntry} limit config epoch now s0 env reqs :
  startup config epoch now = Some s0 ->
  0 <= pool_reserve config <= memory_pool_size ->
  0 <= ca_max_bytes (mg_cache (cfg_managed config)) < 2 ^ 62 ->
  engine_only env -> Forall (managed_request_ok limit) reqs.*2 ->
  1 + allocations reqs.*2 <= limit < 2 ^ 64 ->
  let s := managed_run env s0 reqs in
  (forall rid p, Placer_lookup (as_placer s) rid = Some p -> exists i h,
     agent_region (as_agent s) rid = Some i /\ ri_state i = RegionState_Home /\ placed_as p i
     /\ cm_home_states (as_coherence s) !! rid = Some h /\ tracked_as p h)
  /\ (forall rid, CoherenceManager_contains_region (as_coherence s) rid = true ->
        is_Some (Placer_lookup (as_placer s) rid))
  /\ (forall rid i, agent_region (as_agent s) rid = Some i -> ri_state i = RegionState_Home ->
        is_Some (Placer_lookup (as_placer s) rid))
  /\ (forall rid1 rid2 p1 p2, rid1 <> rid2 ->
        Placer_lookup (as_placer s) rid1 = Some p1 -> Placer_lookup (as_placer s) rid2 = Some p2 ->
        device_of p1 = device_of p2 -> separate (extent p1) (extent p2)).
Proof.
  intros Hstart Hres Hmax Henv Hreqs Hlimit s. pose proof (allocations_nonneg reqs.*2).
  destruct (startup_agree limit config epoch now s0 Hstart ltac:(lia) Hres Hmax) as [H0 Hn].
  destruct (managed_run_agree limit _ ltac:(lia) Hmax env s0 reqs _ Henv H0 Hreqs ltac:(lia)) as [regions Hs].
  fold s in Hs. destruct Hs as [<- He Hid Hnx Hsp Ht Hpl Htr Hh]. unfold Placer_lookup.
  split_and!.
  - intros rid p Hp. assert (Hlt : rid < limit) by (specialize (Hid rid (mk_is_Some _ _ Hp)); lia).
    destruct (agent_region (as_agent s) rid) as [i|] eqn:Ei; [|apply Ht in Ei; [congruence|done]].
    destruct (cm_home_states (as_coherence s) !! rid) as [h|] eqn:Eh; [|apply Htr in Eh; congruence].
    exists i, h. split_and!; [done|by apply (sp_remote _ _ _ Hsp _ _ Ei)|eauto|done|eauto].
  - intros rid Hc. unfold CoherenceManager_contains_region in Hc.
    destruct (pl_regions (as_placer s) !! rid) eqn:E; [done|]. apply Htr in E. by rewrite E in Hc.
  - intros rid i Hi Hhome. assert (Hlt : rid < limit) by by apply (sp_remote _ _ _ Hsp _ _ Hi).
    destruct (pl_regions (as_placer s) !! rid) eqn:E; [done|]. apply Ht in E; [congruence|done].
  - intros rid1 rid2 p1 p2. apply (plo_separate _ He).
Qed.

(** ** Examples *)

Definition managed_config : NodeConfig :=
  sample_config <| cfg_managed := mkManagedConfig true 0 PoolConfig_default default_writer_lease_ms true
                                    CacheConfig_default CostWeights_default |>.

(** Two regions are allocated, one of another node is announced and read, the
    first is freed. *)
Definition managed_requests : list (Clock * ManagedRequest) := map (pair no_clock)
  [ManagedRequest_Alloc (mkRegionAllocRequest 64 (str "normal") (str "small") None);
   ManagedRequest_Alloc (mkRegionAllocRequest 100 (str "bulk") (str "large") (Some (str "memory")));
   ManagedRequest_RegisterRemote (mkRegionRegisterRemoteRequest 1000 7 0 1 0 4096 1);
   ManagedRequest_ReadVa (mkVerbReadVaRequest (va_text (UbVa_new 1000 0)) 8 16);
   ManagedRequest_AcquireWriter (mkAcquireWriterRequest (va_text (UbVa_new 2 0)));
   ManagedRequest_Free (mkRegionFreeRequest 1)].

Lemma managed_tables_agree_witness : exists s0,
  startup managed_config 7 0 = Some s0 /\
  let s := managed_run (iteration := canonical_order) quiet_env s0 managed_requests in
  forall rid1 rid2 p1 p2, rid1 <> rid2 ->
    Placer_lookup (as_placer s) rid1 = Some p1 -> Placer_lookup (as_placer s) rid2 = Some p2 ->
    device_of p1 = device_of p2 -> separate (extent p1) (extent p2).
Proof.
  destruct (startup_some managed_config 7 0) as [s0 Hs0]; [vm_compute; eauto..|].
  exists s0. split; [exact Hs0|].
  refine (proj2 (proj2 (proj2 (managed_tables_agree (iteration := canonical_order) 1000 managed_config 7 0 s0
    quiet_env managed_requests Hs0 _ _ _ _ _)))).
  - vm_compute. split; discriminate.
  - vm_compute. split; congruence.
  - intros s. exists (as_engine s). by destruct s.
  - repeat constructor; cbn; lia.
  - cbn. lia.
Defined.
