(* ===== verification/RegionData.v ===== *)
(** * RegionData: the bytes of managed regions

    What reads and writes by virtual address return (Managed.v): a region at home
    is memory, and a read answered from the cache returns what a fetch from the
    home would have returned. *)

From S2P Require Import Prelude Bytes Types Addr Net Device Mr Verbs.
From S2P Require Import Jetty Frame Float Config Session Manager Dataplane Member.
From S2P Require Import SubAlloc Region CachePool FetchAgent Coherence Registry Placer Json.
From S2P Require Import Text Api Task Daemon Kv Managed Agreement.
#[local] Open Scope Z_scope.
#[local] Arguments dev_mem : simpl never.

(** ** Virtual addresses as text *)

Lemma hex_digit_not_x v : 0 <= v < 16 -> hex_digit v <> 120 /\ hex_digit v <> 88.
Proof. intros Hv. unfold hex_digit. case_match; lia. Qed.

Lemma trim_start_other fuel c x y s : y <> c -> trim_start_matches fuel [48; c] (x :: y :: s) = x :: y :: s.
Proof.
  intros Hy. destruct fuel; [done|]. cbn [trim_start_matches strip_prefix]. destruct (48 =? x); [|done].
  by rewrite (proj2 (Z.eqb_neq c y)) by congruence.
Qed.

(** The texts [region_alloc] answers with are read back by the verbs. *)
Lemma parse_va_text va : 0 <= va < 2 ^ 128 -> parse_va (va_text va) = inr va.
Proof.
  intros Hva. unfold parse_va, va_text.
  assert (Hx : forall c fuel, c = 120 \/ c = 88 -> trim_start_matches fuel [48; c] (hex_fixed 32 va) = hex_fixed 32 va).
  { intros c fuel Hc. change (hex_fixed 32 va) with (hex_digit ((va / 16 ^ 31) mod 16)
      :: hex_digit ((va / 16 ^ 30) mod 16) :: hex_fixed 30 va). apply trim_start_other.
    destruct (hex_digit_not_x ((va / 16 ^ 30) mod 16)); [by apply Z.mod_pos_bound|lia]. }
  change (str "0x") with [48; 120]. change (str "0X") with [48; 88]. rewrite !Hx by lia.
  by rewrite from_str_radix_hex_fixed by ulia.
Qed.

(** ** Regions on a device *)

Record backed (s : AppState) (handle : Z) (entry : MrEntry) (d : DynDevice) : Prop := {
  bk_region : region_of_handle s handle = Some entry;
  bk_device : en_devices (as_engine s) !! me_device entry = Some d;
  bk_wf : dev_wf d;
  bk_len : Z.of_nat (length (dev_mem d)) < 2 ^ 63;
}.

Lemma backed_same s s' handle entry d :
  as_engine s' = as_engine s -> backed s handle entry d -> backed s' handle entry d.
Proof.
  intros He [Hr Hd Hwf Hl]. constructor; [|by rewrite He|done|done].
  unfold region_of_handle, entry_at in *. by rewrite He.
Qed.

Lemma exec_device_write clock env s handle entry d off buf :
  backed s handle entry d -> 0 <= off -> Forall u8 buf ->
  off + Z.of_nat (length buf) <= Z.of_nat (length (dev_mem d)) ->
  exists e d', exec clock env (device_write entry off buf) s = (s <| as_engine := e |>, Some (Ok tt))
    /\ backed (s <| as_engine := e |>) handle entry d' /\ en_mr_table e = en_mr_table (as_engine s)
    /\ dev_mem d' = mem_write (dev_mem d) off buf.
Proof.
  intros [Hr Hd Hwf Hl] Hoff Hu Hin. cbn [exec device_write on_engine step].
  unfold entry_write, entry_device, with_device. rewrite Hd.
  pose proof (dev_write_spec d off buf Hwf ltac:(ulia) Hu ltac:(lia)) as Hw.
  assert (Hib : in_bounds (dev_mem d) off (Z.of_nat (length buf)) = true) by (by apply Z.leb_le).
  rewrite Hib in Hw. destruct Hw as (d' & -> & [Hwf' _] & Hm'). cbn [rbind].
  eexists _, d'. split; [reflexivity|]. split_and!; [|done|done]. constructor.
  - exact Hr.
  - apply list_lookup_insert_eq. by eapply lookup_lt_Some.
  - done.
  - by rewrite Hm', length_mem_write.
Qed.

Lemma exec_read_from clock env s handle entry d off len source missing :
  backed s handle entry d -> 0 <= off -> 0 <= len -> off + len <= Z.of_nat (length (dev_mem d)) ->
  exec clock env (read_from handle off len source missing) s
  = (s, Some (read_reply source (mem_read (dev_mem d) off len))).
Proof.
  intros [Hr Hd Hwf Hl] Hoff Hlen Hin. unfold read_from. rewrite exec_bind. cbn [exec look]. rewrite Hr.
  rewrite exec_bind. cbn [exec device_read look]. unfold devices_read. rewrite Hd.
  rewrite dev_read_spec by (done || ulia). unfold in_bounds. by rewrite (proj2 (Z.leb_le _ _)) by lia.
Qed.

Lemma exec_enabled clock env s k : mg_enabled (cfg_managed (as_config s)) = true ->
  exec clock env (when_enabled k) s = exec clock env k s.
Proof. intros He. unfold when_enabled. rewrite exec_bind. cbn [exec look]. by rewrite He. Qed.

(** ** At home *)

Section Home.
Context {iteration : MapOrder Z PoolCacheEntry}.

Lemma exec_home_read clock env s req va i entry d :
  mg_enabled (cfg_managed (as_config s)) = true -> parse_va (rvr_va req) = inr va ->
  agent_region (as_agent s) (UbVa_region_id va) = Some i -> ri_state i = RegionState_Home ->
  backed s (ri_mr_handle i) entry d ->
  let off := ri_base_offset i + (UbVa_offset va + rvr_offset req) in
  0 <= ri_base_offset i -> 0 <= UbVa_offset va -> 0 <= rvr_offset req -> 0 <= rvr_len req ->
  off + rvr_len req <= Z.of_nat (length (dev_mem d)) ->
  exec clock env (verb_read_va req) s = (s, Some (read_reply "home" (mem_read (dev_mem d) off (rvr_len req)))).
Proof.
  intros Hen Hva Hi Hh Hb off ? ? ? ? Hin. subst off. unfold verb_read_va. rewrite exec_enabled by done.
  rewrite Hva. cbn [or_return]. rewrite exec_bind. cbn [exec on_agent step].
  unfold FetchAgent_read_va. rewrite Hi, Hh.
  assert (s <| as_agent := as_agent s |> = s) as -> by by destruct s. cbn [or_else].
  pose proof (bk_len _ _ _ _ Hb). rewrite (wrap_small 64 (UbVa_offset va + rvr_offset req)), wrap_small by ulia.
  apply (exec_read_from clock env s _ entry d); done || lia.
Qed.

Lemma exec_home_write clock env s req va i entry d :
  mg_enabled (cfg_managed (as_config s)) = true -> parse_va (wvr_va req) = inr va ->
  agent_region (as_agent s) (UbVa_region_id va) = Some i -> ri_state i = RegionState_Home ->
  backed s (ri_mr_handle i) entry d -> Forall u8 (wvr_data req) ->
  let off := ri_base_offset i + (UbVa_offset va + wvr_offset req) in
  0 <= ri_base_offset i -> 0 <= UbVa_offset va -> 0 <= wvr_offset req ->
  off + Z.of_nat (length (wvr_data req)) <= Z.of_nat (length (dev_mem d)) ->
  exists e d', exec clock env (verb_write_va req) s = (s <| as_engine := e |>, Some status_ok)
    /\ backed (s <| as_engine := e |>) (ri_mr_handle i) entry d'
    /\ dev_mem d' = mem_write (dev_mem d) off (wvr_data req).
Proof.
  intros Hen Hva Hi Hh Hb Hu off ? ? ? Hin. subst off. unfold verb_write_va. rewrite exec_enabled by done.
  rewrite Hva. cbn [or_return]. rewrite exec_bind. cbn [exec table_lookup look]. rewrite Hi, Hh.
  rewrite exec_bind. cbn [exec look]. rewrite (bk_region _ _ _ _ Hb). rewrite exec_bind.
  pose proof (bk_len _ _ _ _ Hb). rewrite <- Z.add_assoc, wrap_small by ulia.
  destruct (exec_device_write clock env s _ _ _ (ri_base_offset i + (UbVa_offset va + wvr_offset req)) _ Hb ltac:(lia) Hu Hin) as (e & d' & -> & Hb' & _ & Hm).
  exists e, d'. done.
Qed.

(** C19 (roundtrip): A region at home is memory. A write by virtual address to a
    region of this node succeeds when it stays inside the device of the region; a
    read of the same range returns the bytes written, and a read of a range of this
    or another region on the device that the write does not meet returns what it
    returned before. No writer lease is asked for: the write succeeds whoever holds
    the region, which the requirement on managed writes (FR-GVA-4) forbids; see
    [write_va_ignores_lease]. *)
Theorem home_write_read (s : AppState) (w : VerbWriteVaRequest) (va : Z) (i : RegionInfo)
    (entry : MrEntry) (d : DynDevice) clock env :
  mg_enabled (cfg_managed (as_config s)) = true -> parse_va (wvr_va w) = inr va ->
  agent_region (as_agent s) (UbVa_region_id va) = Some i -> ri_state i = RegionState_Home ->
  backed s (ri_mr_handle i) entry d -> Forall u8 (wvr_data w) ->
  0 <= ri_base_offset i -> 0 <= wvr_offset w ->
  let off := ri_base_offset i + (UbVa_offset va + wvr_offset w) in
  let len := Z.of_nat (length (wvr_data w)) in
  off + len <= Z.of_nat (length (dev_mem d)) ->
  exists s', exec clock env (verb_write_va w) s = (s', Some status_ok)
  /\ exec clock env (verb_read_va (mkVerbReadVaRequest (wvr_va w) (wvr_offset w) len)) s'
     = (s', Some (read_reply "home" (wvr_data w)))
  /\ (forall r va' i', parse_va (rvr_va r) = inr va' ->
        agent_region (as_agent s) (UbVa_region_id va') = Some i' -> ri_state i' = RegionState_Home ->
        ri_mr_handle i' = ri_mr_handle i ->
        0 <= ri_base_offset i' -> 0 <= rvr_offset r -> 0 <= rvr_len r ->
        let off' := ri_base_offset i' + (UbVa_offset va' + rvr_offset r) in
        off' + rvr_len r <= Z.of_nat (length (dev_mem d)) ->
        separate (off', rvr_len r) (off, len) ->
        exists j, exec clock env (verb_read_va r) s = (s, Some j) /\ exec clock env (verb_read_va r) s' = (s', Some j)).
Proof.
  intros Hen Hva Hi Hh Hb Hu Hbase Hoff off len Hin.
  assert (Hvo : forall v, 0 <= UbVa_offset v) by (intros v; by apply (wrap_fits 64 v)).
  pose proof (Hvo va).
  destruct (exec_home_write clock env s w va i entry d Hen Hva Hi Hh Hb Hu Hbase ltac:(lia) Hoff Hin)
    as (e & d' & Hw & Hb' & Hm). fold off in Hm.
  assert (Hib : in_bounds (dev_mem d) off len = true) by (by apply Z.leb_le).
  assert (Hlen : length (dev_mem d') = length (dev_mem d)) by (rewrite Hm; apply length_mem_write; done || lia).
  eexists. split; [exact Hw|]. split.
  - rewrite (exec_home_read clock env _ _ va i entry d') by (cbn [rvr_offset rvr_len]; rewrite ?Hlen; done || lia).
    cbn [rvr_offset rvr_len]. fold off. by rewrite Hm, mem_read_write_same by (done || lia).
  - intros r va' i' Hva' Hi' Hh' Hhd Hb1 Ho1 Hl1 off' Hin' Hsep. pose proof (Hvo va').
    rewrite <- Hhd in Hb, Hb'. eexists. split.
    + by apply (exec_home_read clock env s r va' i' entry d).
    + rewrite (exec_home_read clock env _ r va' i' entry d') by (cbn [rvr_offset rvr_len]; rewrite ?Hlen; done || lia).
      fold off'. do 3 f_equal. rewrite Hm. apply mem_read_write_disjoint; try done; try lia.
Qed.
End Home.

(** ** From the cache *)

Section Cached.
Context {iteration : MapOrder Z PoolCacheEntry}.
Context (max : Z) (Hmax : 0 <= max < 2 ^ 62).

Abbreviation daemon_agent_ok := (agent_ok 0 max max).

(** What a completed fetch leaves in the pool. *)
Lemma complete_fetch_entry a now rid len epoch off :
  daemon_agent_ok a -> 0 <= len < 2 ^ 62 ->
  let a' := (FetchAgent_complete_fetch a now rid len epoch).1 in
  (FetchAgent_complete_fetch a now rid len epoch).2 = inr off ->
  exists entry, cp_entries (fa_cache_pool a') !! rid = Some entry
    /\ pe_pool_offset entry = off /\ pe_len entry = len.
Proof.
  intros Ha Hlen a'. subst a'. unfold FetchAgent_complete_fetch.
  pose proof (insert_cases 0 max max ltac:(lia) ltac:(lia) ltac:(lia) ltac:(lia)
    (fa_tables a) (fa_cache_pool a) now rid len epoch (ao_pool _ _ _ _ Ha) Hlen) as H.
  destruct (CachePool_insert _ _ _ _ _ _) as [[h p] [m|entry]]; [done|].
  destruct H as (_ & p1 & _ & _ & _ & He & Hents & _). cbn [snd fst]. intros [= <-].
  rewrite !on_agent_table_fst. cbn. rewrite Hents, lookup_insert_eq. exists entry. by rewrite He.
Qed.

(** A hit, and the entry [verb_read_va] looks up again. *)
Lemma lookup_hit p now rid pe : cp_entries p !! rid = Some pe -> exists p' pe',
  CachePool_lookup p now rid = (p', Some pe') /\ cp_entries p' !! rid = Some pe'
  /\ pe_pool_offset pe' = pe_pool_offset pe /\ pe_len pe' = pe_len pe /\ pe_epoch pe' = pe_epoch pe.
Proof.
  intros Hp. unfold CachePool_lookup. rewrite Hp. eexists _, _. split; [reflexivity|].
  split; [apply lookup_insert_eq|done].
Qed.

Lemma read_va_hits a now rid i epoch pe :
  agent_region a rid = Some i -> ri_state i = RegionState_Shared epoch ->
  cp_entries (fa_cache_pool a) !! rid = Some pe -> pe_epoch pe = epoch -> exists p' pe',
  FetchAgent_read_va a now rid
  = (a <| fa_cache_pool := p' |>, Ok (ReadVaResult_CacheHit (pe_pool_offset pe) i))
  /\ cp_entries p' !! rid = Some pe'
  /\ pe_pool_offset pe' = pe_pool_offset pe /\ pe_len pe' = pe_len pe /\ pe_epoch pe' = pe_epoch pe.
Proof.
  intros Hi Hst Hpe Hep. unfold FetchAgent_read_va. rewrite Hi, Hst.
  destruct (lookup_hit _ now _ _ Hpe) as (p' & pe' & -> & Hpe' & Ho & Hl & He).
  rewrite He, Hep, Z.ltb_irrefl, Ho. exists p', pe'. by rewrite He.
Qed.

(** ** Live copies

    Region [rid] has a live copy of [data] in the pool, which is the region [handle] of this node. *)
Record copy_of (s : AppState) (rid handle off : Z) (data : bytes) : Prop := {
  cy_enabled : mg_enabled (cfg_managed (as_config s)) = true;
  cy_pool : as_pool_mr_handle s = Some handle;
  cy_len : Z.of_nat (length data) < 2 ^ 62;
  cy_copy : exists i pe entry d,
    agent_region (as_agent s) rid = Some i /\ ri_state i = RegionState_Shared (pe_epoch pe)
    /\ cp_entries (fa_cache_pool (as_agent s)) !! rid = Some pe
    /\ pe_pool_offset pe = off /\ pe_len pe = Z.of_nat (length data)
    /\ backed s handle entry d /\ 0 <= off /\ off + pe_len pe <= Z.of_nat (length (dev_mem d))
    /\ mem_read (dev_mem d) off (pe_len pe) = data;
}.

(** The range of a region a read asks for. *)
Definition read_start (r : VerbReadVaRequest) (va : Z) : Z := UbVa_offset va + rvr_offset r.
Definition read_inside (r : VerbReadVaRequest) (va len : Z) : Prop :=
  0 <= rvr_offset r /\ 0 <= rvr_len r /\ read_start r va + rvr_len r <= len.

(** A read of a region with a live copy is a read of the copy, and leaves it alive. *)
Lemma exec_cached_read clock env s req va handle off data :
  copy_of s (UbVa_region_id va) handle off data -> parse_va (rvr_va req) = inr va ->
  read_inside req va (Z.of_nat (length data)) ->
  exists s', exec clock env (verb_read_va req) s
    = (s', Some (read_reply "cache" (mem_read data (read_start req va) (rvr_len req))))
    /\ copy_of s' (UbVa_region_id va) handle off data.
Proof.
  intros [Hen Hpool Hdl (i & pe & entry & d & Hi & Hst & Hpe & Ho & Hpl & Hb & Hp0 & Hp1 & Hdata)] Hva (Hr1 & Hr2 & Hr3).
  unfold read_start in *. assert (0 <= UbVa_offset va) as Ho1 by (by apply (wrap_fits 64 va)).
  pose proof (bk_len _ _ _ _ Hb) as Hlen. unfold verb_read_va. rewrite exec_enabled by done.
  rewrite Hva. cbn [or_return]. set (rid := UbVa_region_id va) in *. rewrite exec_bind. cbn [exec on_agent step].
  destruct (read_va_hits (as_agent s) (clock 0%nat) rid i (pe_epoch pe) pe Hi Hst Hpe eq_refl)
    as (p1 & pe1 & -> & Hpe1 & Hoff1 & Hlen1 & Hep1). cbn [or_else].
  unfold read_va_hit. rewrite exec_bind. cbn [exec on_agent step].
  set (s1 := set_field as_agent _ s).
  destruct (lookup_hit p1 (clock 0%nat) rid pe1 Hpe1) as (p2 & pe2 & Hl2 & Hpe2 & Hoff2 & Hlen2 & Hep2).
  change (fa_cache_pool (as_agent s1)) with p1. rewrite Hl2. rewrite Hoff2, Hlen2, Hoff1, Hlen1.
  set (s2 := set_field as_agent _ s1). rewrite Ho.
  rewrite (wrap_small 64 (UbVa_offset va + rvr_offset req)) by ulia.
  rewrite (wrap_small 64 (off + (UbVa_offset va + rvr_offset req))) by ulia.
  rewrite !wrap_small by ulia. rewrite (proj2 (Z.ltb_ge _ _)) by lia.
  rewrite exec_bind. cbn [exec look]. change (as_pool_mr_handle s2) with (as_pool_mr_handle s). rewrite Hpool.
  cbn [default]. exists s2. assert (Hb2 : backed s2 handle entry d) by (by apply (backed_same s)). split.
  - rewrite (exec_read_from clock env s2 handle entry d) by (done || lia).
    do 3 f_equal. rewrite <- Hdata. symmetry. apply mem_read_read; lia.
  - constructor; try done. exists i, pe2, entry, d. rewrite Hep2, Hep1, Hoff2, Hoff1, Hlen2, Hlen1. done.
Qed.

(** What may happen to a node without disturbing the copy of [rid] at [block] of the pool: reads of
    the region, reads of regions at home, and writes of regions at home that keep clear of the
    block. *)
Inductive undisturbed (rid handle : Z) (block : Z * Z) (len : Z) : AppState -> AppState -> Prop :=
| undisturbed_read clock env s r va :
    parse_va (rvr_va r) = inr va -> UbVa_region_id va = rid -> read_inside r va len ->
    undisturbed rid handle block len s (exec clock env (verb_read_va r) s).1
| undisturbed_home_read clock env s r va i entry d :
    parse_va (rvr_va r) = inr va -> agent_region (as_agent s) (UbVa_region_id va) = Some i ->
    ri_state i = RegionState_Home -> backed s (ri_mr_handle i) entry d ->
    0 <= ri_base_offset i -> 0 <= rvr_offset r -> 0 <= rvr_len r ->
    ri_base_offset i + (UbVa_offset va + rvr_offset r) + rvr_len r <= Z.of_nat (length (dev_mem d)) ->
    undisturbed rid handle block len s (exec clock env (verb_read_va r) s).1
| undisturbed_home_write clock env s w va i entry d :
    parse_va (wvr_va w) = inr va -> agent_region (as_agent s) (UbVa_region_id va) = Some i ->
    ri_state i = RegionState_Home -> ri_mr_handle i = handle -> backed s handle entry d ->
    Forall u8 (wvr_data w) -> 0 <= ri_base_offset i -> 0 <= wvr_offset w ->
    let off := ri_base_offset i + (UbVa_offset va + wvr_offset w) in
    off + Z.of_nat (length (wvr_data w)) <= Z.of_nat (length (dev_mem d)) ->
    separate block (off, Z.of_nat (length (wvr_data w))) ->
    undisturbed rid handle block len s (exec clock env (verb_write_va w) s).1.

Lemma copy_undisturbed rid handle off data s s' :
  undisturbed rid handle (off, Z.of_nat (length data)) (Z.of_nat (length data)) s s' ->
  copy_of s rid handle off data -> copy_of s' rid handle off data.
Proof.
  intros [clock env t r va Hva <- Hin|clock env t r va i entry d Hva Hi Hh Hb H1 H2 H3 H4
    |clock env t w va i entry d Hva Hi Hh Hhd Hb Hu H1 H2 woff H3 Hsep] Hc.
  - destruct (exec_cached_read clock env t r va handle off data Hc Hva Hin) as (t' & -> & Hc'). exact Hc'.
  - assert (0 <= UbVa_offset va) by (by apply (wrap_fits 64 va)).
    by rewrite (exec_home_read clock env t r va i entry d) by (apply Hc || done || lia).
  - assert (0 <= UbVa_offset va) by (by apply (wrap_fits 64 va)). subst handle.
    destruct Hc as [Hen Hpool Hdl (i' & pe & entry' & d' & Hi' & Hst & Hpe & Ho & Hpl & Hb' & Hp0 & Hp1 & Hdata)].
    assert (entry' = entry) as -> by (pose proof (bk_region _ _ _ _ Hb); pose proof (bk_region _ _ _ _ Hb'); congruence).
    assert (d' = d) as -> by (pose proof (bk_device _ _ _ _ Hb); pose proof (bk_device _ _ _ _ Hb'); congruence).
    destruct (exec_home_write clock env t w va i entry d Hen Hva Hi Hh Hb Hu) as (e & d2 & -> & Hb2 & Hm); try done.
    fold woff in Hm. cbn [fst].
    assert (Hlen : length (dev_mem d2) = length (dev_mem d)).
    { rewrite Hm. apply length_mem_write; [lia|]. by apply Z.leb_le. }
    constructor; try done. exists i', pe, entry, d2. rewrite Hlen. split_and!; try done.
    rewrite <- Hdata, Hm. unfold separate in Hsep. cbn [fst snd] in Hsep.
    apply mem_read_write_disjoint; try done; try lia. by apply Z.leb_le.
Qed.

(** A fetched region is entered in the cache, and its bytes in the pool. *)
Lemma exec_cache_fetched clock env s region rid data off handle entry d :
  daemon_agent_ok (as_agent s) -> agent_region (as_agent s) rid = Some region ->
  Z.of_nat (length data) = ri_len region -> ri_len region < 2 ^ 62 -> Forall u8 data ->
  (FetchAgent_complete_fetch (as_agent s) (clock 0%nat) rid (ri_len region) (ri_epoch region)).2 = inr off ->
  as_pool_mr_handle s = Some handle -> backed s handle entry d ->
  max <= Z.of_nat (length (dev_mem d)) -> mg_enabled (cfg_managed (as_config s)) = true ->
  exists s', exec clock env (cache_fetched region rid data) s = (s', Some tt) /\ copy_of s' rid handle off data.
Proof.
  intros Ha Hi Hdl Hlen Hu Hfetch Hpool Hb Hroom Hen.
  destruct (complete_fetch_keeps 0 max max ltac:(lia) ltac:(lia) ltac:(lia) ltac:(lia)
    (as_agent s) (clock 0%nat) rid (ri_len region) (ri_epoch region) Ha ltac:(lia)) as (Ha' & _ & Hnew).
  destruct (Hnew off region Hfetch Hi) as (i' & pe' & Hi' & Hst' & Hpe' & Hep' & Hoff').
  destruct (complete_fetch_entry (as_agent s) (clock 0%nat) rid (ri_len region) (ri_epoch region) off Ha ltac:(lia) Hfetch)
    as (pe & Hpe & Hoff & Hpl).
  assert (pe' = pe) as -> by congruence.
  pose proof (po_block _ _ _ _ (ao_pool _ _ _ _ Ha') _ _ Hpe) as Hblock.
  pose proof (po_allocated _ _ _ _ (ao_pool _ _ _ _ Ha')) as Hal.
  unfold cache_fetched. rewrite exec_bind. cbn [exec on_agent step].
  destruct (FetchAgent_complete_fetch _ _ _ _ _) as [a1 r1]. cbn [fst snd] in *. subst r1.
  rewrite exec_bind. cbn [exec look]. set (s1 := set_field as_agent _ s).
  change (as_pool_mr_handle s1) with (as_pool_mr_handle s). rewrite Hpool.
  rewrite exec_bind. cbn [exec look]. assert (Hb1 : backed s1 handle entry d) by (by apply (backed_same s)).
  rewrite (bk_region _ _ _ _ Hb1). rewrite exec_bind.
  destruct (exec_device_write clock env s1 handle entry d off data Hb1 ltac:(lia) Hu ltac:(lia))
    as (e & d' & -> & Hb' & _ & Hm).
  assert (Hib : in_bounds (dev_mem d) off (Z.of_nat (length data)) = true) by (apply Z.leb_le; lia).
  eexists. split; [reflexivity|].
  assert (length (dev_mem d') = length (dev_mem d)) as Hl by (rewrite Hm; apply length_mem_write; done || lia).
  constructor; [done|done|lia|]. exists i', pe, entry, d'. rewrite Hl, Hep'. split_and!; try done; try lia.
  rewrite Hm, Hpl, <- Hdl. apply mem_read_write_same; done || lia.
Qed.

(** Waiting for a peer changes the engine only. *)
Lemma exec_await_engine {A} clock env (start : Clock -> Engine -> Engine * Result Z)
    (finish : Engine -> Z -> Engine * Result A) s :
  engine_only env -> exists e, (exec clock env (locked (await_verb start finish)) s).1 = s <| as_engine := e |>.
Proof.
  intros Henv. cbn [locked exec]. rewrite exec_bind. unfold await_verb. rewrite exec_bind.
  cbn [exec on_engine step]. destruct (start clock (as_engine s)) as [e1 [opaque|err|]]; cbn [exec]; [|by eexists..].
  destruct (Henv (s <| as_engine := e1 |>)) as [e2 He2]. destruct (env _) as [s2 timed_out]. cbn [fst] in He2. subst s2.
  cbn [exec on_engine step].
  match goal with |- context [finish ?e ?o] => destruct (finish e o) as [e3 r] end.
  cbn [exec]. by exists e3.
Qed.

Lemma fetched_part_inside data off len : 0 <= off -> 0 <= len -> off + len <= Z.of_nat (length data) ->
  Z.of_nat (length data) < 2 ^ 62 -> fetched_part data off len = Ok (mem_read data off len).
Proof.
  intros Hoff Hlen Hin Hl. unfold fetched_part. rewrite wrap_small by ulia. rewrite Z.min_l by lia.
  case_match eqn:E; zbool.
  - unfold slice. rewrite !(proj2 (Z.leb_le _ _)) by lia. cbn [andb]. unfold mem_read. do 3 f_equal. lia.
  - replace len with 0 by lia. done.
Qed.

(** C11 (equivalence): The cache answers what the fetch returned. When a read of a remote region
    misses, the region is fetched from its home, whole, and its copy goes to the pool at [off];
    the reply is the part of the fetched bytes that was asked for. Let then, in any order and
    number, the region be read, regions at home be read, and regions at home be written, as long
    as no write meets the block of the copy: every read inside the region is answered from the
    cache, with exactly the part of the fetched bytes that a fetch would have returned. Assumed:
    the pool's memory is as large as its budget, the fetched bytes are as many as the region has
    (below 2^62), and the pool has room. (Regions at home and copies can be given the same bytes
    of the pool, and then a write to one changes the other: [fetch_overwrites_home].) *)
Theorem cached_read_equals_fetch (s s1 : AppState) (req : VerbReadVaRequest) (va : Z)
    (region : RegionInfo) (full_data : bytes) (off handle : Z) (entry : MrEntry) (d : DynDevice) clock env :
  let rid := UbVa_region_id va in
  let home := UbAddr_new (cfg_pod_id (as_config s)) (ri_home_node_id region) (ri_device_id region)
                (ri_base_offset region) 0 in
  mg_enabled (cfg_managed (as_config s)) = true -> parse_va (rvr_va req) = inr va ->
  daemon_agent_ok (as_agent s) ->
  agent_region (as_agent s) rid = Some region -> ri_state region = RegionState_Invalid ->
  engine_only env ->
  exec clock env (locked (dp_read home (wrap 32 (ri_len region)))) s = (s1, Some (Ok full_data)) ->
  Z.of_nat (length full_data) = ri_len region -> ri_len region < 2 ^ 62 -> Forall u8 full_data ->
  (FetchAgent_complete_fetch (as_agent s) (clock 0%nat) rid (ri_len region) (ri_epoch region)).2 = inr off ->
  as_pool_mr_handle s = Some handle -> backed s1 handle entry d ->
  max <= Z.of_nat (length (dev_mem d)) -> read_inside req va (ri_len region) ->
  exists s2,
    exec clock env (verb_read_va req) s
    = (s2, Some (read_reply "fetch" (mem_read full_data (read_start req va) (rvr_len req))))
    /\ forall s3, rtc (undisturbed rid handle (off, ri_len region) (ri_len region)) s2 s3 ->
       forall again va' clock' env', parse_va (rvr_va again) = inr va' -> UbVa_region_id va' = rid ->
         read_inside again va' (ri_len region) ->
         (exec clock' env' (verb_read_va again) s3).2
         = Some (read_reply "cache" (mem_read full_data (read_start again va') (rvr_len again))).
Proof.
  intros rid home Hen Hva Ha Hi Hst Henv Hread Hdl Hlen Hu Hfetch Hpool Hb Hroom Hin.
  destruct (exec_await_engine clock env
    (fun c e => ub_read_remote_start e (c 0%nat) (c 1%nat) home (wrap 32 (ri_len region))) ub_read_remote_finish s Henv)
    as [e1 He1].
  fold (dp_read home (wrap 32 (ri_len region))) in He1. rewrite Hread in He1. cbn [fst] in He1.
  assert (as_agent s1 = as_agent s /\ as_config s1 = as_config s /\ as_pool_mr_handle s1 = as_pool_mr_handle s)
    as (Hag & Hcg & Hph) by (by rewrite He1). clear He1. rewrite <- Hag in Ha, Hi, Hfetch. rewrite <- Hph in Hpool.
  destruct (exec_cache_fetched clock env s1 region rid full_data off handle entry d
    Ha Hi Hdl Hlen Hu Hfetch Hpool Hb Hroom) as (s2 & Hcf & Hcopy); [by rewrite Hcg|].
  exists s2. split.
  - unfold verb_read_va. rewrite exec_enabled by done. rewrite Hva. cbn [or_return]. fold rid.
    rewrite exec_bind. cbn [exec on_agent step]. unfold FetchAgent_read_va. rewrite <- Hag, Hi, Hst.
    assert (s <| as_agent := as_agent s1 |> = s) as -> by (rewrite Hag; by destruct s). cbn [or_else].
    unfold read_va_miss. rewrite exec_bind. cbn [exec look]. fold home. rewrite exec_bind, Hread. cbn [or_else].
    assert (0 <= UbVa_offset va) by (by apply (wrap_fits 64 va)). destruct Hin as (? & ? & ?). unfold read_start in *.
    rewrite exec_bind, Hcf. rewrite wrap_small by ulia. by rewrite fetched_part_inside by lia.
  - intros s3 Hrun again va' clock' env' Hva' Hrid' Hin'. rewrite <- Hdl in Hrun, Hin'.
    assert (Hc3 : copy_of s3 rid handle off full_data).
    { clear -Hrun Hcopy Hmax. induction Hrun as [|s2 s4 s5 Hstep _ IH]; [done|].
      by apply IH, (copy_undisturbed _ _ _ _ _ _ Hstep). }
    rewrite <- Hrid' in Hc3.
    by destruct (exec_cached_read clock' env' s3 again va' handle off full_data Hc3 Hva' Hin') as (s4 & -> & _).
Qed.
End Cached.

(** ** Requests that are refused *)

Section Refused.
Context {iteration : MapOrder Z PoolCacheEntry}.
Context (s : AppState).
Let enabled : Prop := mg_enabled (cfg_managed (as_config s)) = true.

Definition bad_va (e : bytes) : Json := JObj ["error" :- JStr e].

(** The range lies beyond the device of a region at home. *)
Definition beyond_device (i : RegionInfo) (off len : Z) : Prop :=
  ri_state i = RegionState_Home /\ exists entry d, backed s (ri_mr_handle i) entry d
    /\ 0 <= ri_base_offset i /\ 0 <= off /\ ri_base_offset i + off < 2 ^ 64 /\ 0 <= len < 2 ^ 63
    /\ Z.of_nat (length (dev_mem d)) < ri_base_offset i + off + len.

Inductive refused : ManagedRequest -> Json -> Prop :=
| refused_disabled r : mg_enabled (cfg_managed (as_config s)) = false -> refused r not_enabled
| refused_read_va req e : enabled -> parse_va (rvr_va req) = inl e -> refused (ManagedRequest_ReadVa req) (bad_va e)
| refused_write_va req e : enabled -> parse_va (wvr_va req) = inl e -> refused (ManagedRequest_WriteVa req) (bad_va e)
| refused_acquire_va req e : enabled -> parse_va (awr_va req) = inl e ->
    refused (ManagedRequest_AcquireWriter req) (bad_va e)
| refused_release_va req e : enabled -> parse_va (rwr_va req) = inl e ->
    refused (ManagedRequest_ReleaseWriter req) (bad_va e)
| refused_read_unknown req va : enabled -> parse_va (rvr_va req) = inr va ->
    agent_region (as_agent s) (UbVa_region_id va) = None ->
    refused (ManagedRequest_ReadVa req) (json_error "region not found")
| refused_write_unknown req va : enabled -> parse_va (wvr_va req) = inr va ->
    agent_region (as_agent s) (UbVa_region_id va) = None ->
    refused (ManagedRequest_WriteVa req) (json_error "region not found")
| refused_free_unknown req : enabled -> Placer_lookup (as_placer s) (rfr_region_id req) = None ->
    refused (ManagedRequest_Free req) (json_error "region not found")
| refused_acquire_untracked req va : enabled -> parse_va (awr_va req) = inr va ->
    cm_home_states (as_coherence s) !! UbVa_region_id va = None ->
    refused (ManagedRequest_AcquireWriter req) (json_error "region not found in coherence manager")
| refused_release_not_writer req va : enabled -> parse_va (rwr_va req) = inr va ->
    (forall st info, cm_home_states (as_coherence s) !! UbVa_region_id va = Some st -> hs_writer st = Some info ->
       wi_writer_node_id info <> cfg_node_id (as_config s)) ->
    refused (ManagedRequest_ReleaseWriter req)
      (json_error "failed to release writer (not the current writer or region not found)")
| refused_read_beyond req va i : enabled -> parse_va (rvr_va req) = inr va ->
    agent_region (as_agent s) (UbVa_region_id va) = Some i ->
    0 <= rvr_offset req -> beyond_device i (UbVa_offset va + rvr_offset req) (rvr_len req) ->
    refused (ManagedRequest_ReadVa req) (error_reply AddrInvalid)
| refused_write_beyond req va i : enabled -> parse_va (wvr_va req) = inr va -> Forall u8 (wvr_data req) ->
    agent_region (as_agent s) (UbVa_region_id va) = Some i ->
    0 <= wvr_offset req -> beyond_device i (UbVa_offset va + wvr_offset req) (Z.of_nat (length (wvr_data req))) ->
    refused (ManagedRequest_WriteVa req) (error_reply AddrInvalid).

Lemma same_agent : s <| as_agent := as_agent s |> = s.
Proof. by destruct s. Qed.
Lemma same_placer : s <| as_placer := as_placer s |> = s.
Proof. by destruct s. Qed.
Lemma same_coherence : s <| as_coherence := as_coherence s |> = s.
Proof. by destruct s. Qed.
Lemma same_engine : s <| as_engine := as_engine s |> = s.
Proof. by destruct s. Qed.

Lemma release_refused rid node :
  (forall st info, cm_home_states (as_coherence s) !! rid = Some st -> hs_writer st = Some info ->
     wi_writer_node_id info <> node) ->
  CoherenceManager_release_writer (as_coherence s) rid node = (as_coherence s, false).
Proof.
  intros Hw. unfold CoherenceManager_release_writer.
  destruct (cm_home_states (as_coherence s) !! rid) as [st|]; [|done].
  destruct (hs_writer st) as [info|] eqn:E; [|done].
  by rewrite (proj2 (Z.eqb_neq _ _)) by by apply (Hw st).
Qed.

(** C22 (error): A refused request changes nothing. With the managed layer off every
    request of it is refused; with it on: an address that does not parse, a region
    that is not in the region table, with the placer or with the coherence manager,
    a release by a node that is not the writer, and a range that starts at a device
    offset below 2^64 and ends beyond the device of a region at home (the offset is
    the base of the region, the offset of the address and that of the request added;
    a sum of 2^64 or more wraps and may be accepted, [va_offset_wraps]). The reply
    names the error and the state of the node is the one before the request. *)
Theorem refused_changes_nothing (r : ManagedRequest) (j : Json) clock env :
  refused r j -> exec clock env (managed_handle r) s = (s, Some j).
Proof.
  intros Hr. destruct Hr as [r Hd|req e He Hv|req e He Hv|req e He Hv|req e He Hv|req va He Hv Hn|req va He Hv Hn
    |req He Hn|req va He Hv Hn|req va He Hv Hn|req va i He Hv Hi Ho Hb|req va i He Hv Hu Hi Ho Hb]; cbn [managed_handle].
  - destruct r; cbn; by rewrite Hd.
  - unfold verb_read_va. rewrite exec_enabled by done. by rewrite Hv.
  - unfold verb_write_va. rewrite exec_enabled by done. by rewrite Hv.
  - unfold acquire_writer. rewrite exec_enabled by done. by rewrite Hv.
  - unfold release_writer. rewrite exec_enabled by done. by rewrite Hv.
  - unfold verb_read_va. rewrite exec_enabled by done. rewrite Hv. cbn [or_return]. rewrite exec_bind.
    cbn [exec on_agent step]. unfold FetchAgent_read_va. rewrite Hn. by rewrite same_agent.
  - unfold verb_write_va. rewrite exec_enabled by done. rewrite Hv. cbn [or_return]. rewrite exec_bind.
    cbn [exec table_lookup look]. by rewrite Hn.
  - unfold region_free. rewrite exec_enabled by done. rewrite exec_bind. cbn [exec on_placer step].
    unfold Placer_free. unfold Placer_lookup in Hn. rewrite Hn. by rewrite same_placer.
  - unfold acquire_writer. rewrite exec_enabled by done. rewrite Hv. cbn [or_return]. rewrite exec_bind.
    cbn [exec look]. rewrite exec_bind. cbn [exec on_coherence step]. unfold acquire_check. rewrite Hn.
    rewrite same_coherence. done.
  - unfold release_writer. rewrite exec_enabled by done. rewrite Hv. cbn [or_return]. rewrite exec_bind.
    cbn [exec look]. rewrite exec_bind. cbn [exec on_coherence step]. rewrite release_refused by done.
    by rewrite same_coherence.
  - destruct Hb as (Hh & entry & d & [Hr Hd Hwf Hl] & Hb0 & Ho0 & Hfit & Hlen & Hout).
    unfold verb_read_va. rewrite exec_enabled by done. rewrite Hv. cbn [or_return]. rewrite exec_bind.
    cbn [exec on_agent step]. unfold FetchAgent_read_va. rewrite Hi, Hh, same_agent. cbn [or_else].
    unfold read_from. rewrite exec_bind. cbn [exec look]. rewrite Hr, exec_bind. cbn [exec device_read look].
    rewrite (wrap_small 64 (UbVa_offset va + rvr_offset req)), wrap_small by ulia.
    unfold devices_read. rewrite Hd, dev_read_spec by (done || ulia).
    unfold in_bounds. by rewrite (proj2 (Z.leb_gt _ _)) by lia.
  - destruct Hb as (Hh & entry & d & [Hr Hd Hwf Hl] & Hb0 & Ho0 & Hfit & Hlen & Hout).
    unfold verb_write_va. rewrite exec_enabled by done. rewrite Hv. cbn [or_return]. rewrite exec_bind.
    cbn [exec table_lookup look]. rewrite Hi, Hh, exec_bind. cbn [exec look]. rewrite Hr, exec_bind.
    cbn [exec device_write on_engine step]. rewrite <- Z.add_assoc, wrap_small by ulia.
    unfold entry_write, entry_device, with_device. rewrite Hd.
    pose proof (dev_write_spec d (ri_base_offset i + (UbVa_offset va + wvr_offset req)) (wvr_data req) Hwf
      ltac:(ulia) Hu ltac:(lia)) as Hw.
    unfold in_bounds in Hw. rewrite (proj2 (Z.leb_gt _ _)) in Hw by lia. rewrite Hw. cbn [rbind].
    by rewrite same_engine.
Qed.
End Refused.

(** ** Examples *)

(** Node 42 with the managed layer on a pool of 64 bytes, set up as [startup] does
    it, a session to node 7 and a remote region known there. *)
Definition pool_node : AppState :=
  let engine := DataPlaneEngine_new 42 (MrTable_new 1 42) []
    (MrCacheTable_insert ∅ (mkMrCacheEntry 5 7 (UbAddr_new 1 7 0 0 0) 64 7 DeviceKind_Memory))
    (JettyTable_new 42 JettyConfig_default) (transport_to 42 7) in
  let '(engine, r) := register_device engine (DynMemory (MemoryDevice_new 64)) 64 all_perms in
  let registry := DeviceRegistry_register (DeviceRegistry_new CostWeights_default)
    (mkDeviceProfile (42, 0) DeviceKind_Memory StorageTier_Warm 64 10000 10000 200 200 0 0) in
  let placer := Placer_register_sub_allocator (Placer_new registry) 42 0 (SubAllocator_new 0 64) in
  let agent := FetchAgent_new [RegionTable_new] 0 (CachePool_with_region_table (SubAllocator_new 0 64) 64 0) in
  mkAppState (MemberTable_new 42) managed_config engine placer agent (CoherenceManager_new 5000)
    match r with Ok (_, handle) => Some handle | _ => None end.

Definition run_request (t : Handler) (s : AppState) : AppState := (exec no_clock quiet_env t s).1.
Definition reply_of (t : Handler) (s : AppState) : option Json := (exec no_clock quiet_env t s).2.

#[local] Existing Instance canonical_order.

(** Two regions of 16 bytes at home, at offsets 0 and 16. *)
Definition two_homes : AppState :=
  let alloc := region_alloc (mkRegionAllocRequest 16 (str "normal") (str "small") None) in
  run_request alloc (run_request alloc pool_node).

Definition write_second : VerbWriteVaRequest := mkVerbWriteVaRequest (va_text (UbVa_new 2 0)) 4 [1; 2; 3].

Definition pool_entry : MrEntry := mkMrEntry 1 0 0 64 7 (UbAddr_new 1 42 0 0 0) MrState_Active 0.

Lemma fresh_pool_backed s : region_of_handle s 1 = Some pool_entry ->
  en_devices (as_engine s) = [DynMemory (MemoryDevice_new 64)] ->
  backed s 1 pool_entry (DynMemory (MemoryDevice_new 64)).
Proof.
  intros Hr Hd. constructor; [done|by rewrite Hd|exact (zeros_wf 64 ltac:(done))|vm_compute; reflexivity].
Qed.

Lemma home_write_read_witness : exists s',
  exec no_clock quiet_env (verb_write_va write_second) two_homes = (s', Some status_ok)
  /\ exec no_clock quiet_env (verb_read_va (mkVerbReadVaRequest (wvr_va write_second) (wvr_offset write_second)
                                              (Z.of_nat (length (wvr_data write_second))))) s'
     = (s', Some (read_reply "home" (wvr_data write_second))).
Proof.
  destruct (home_write_read two_homes write_second (UbVa_new 2 0)
    (mkRegionInfo 2 42 0 1 16 16 0 RegionState_Home None) pool_entry (DynMemory (MemoryDevice_new 64))
    no_clock quiet_env) as (s' & H1 & H2 & _);
    [vm_compute; reflexivity|vm_compute; reflexivity|vm_compute; reflexivity|reflexivity
    |apply fresh_pool_backed; vm_compute; reflexivity|by_decide|vm_compute; discriminate|vm_compute; discriminate
    |vm_compute; discriminate|].
  exists s'. split; [exact H1|exact H2].
Defined.

(** A region of 8 bytes of node 7, and node 7 answering with its bytes. *)
Definition announce (region_id : Z) : Handler :=
  region_register_remote (mkRegionRegisterRemoteRequest region_id 7 0 5 0 8 1).
Definition remote_bytes : bytes := [10; 11; 12; 13; 14; 15; 16; 17].
Definition answering (s : AppState) : AppState * bool :=
  (s <| as_engine := answer (as_engine s) 1 (mkVerbResponse 0 remote_bytes) |>, false).
Definition remote_known : AppState := run_request (announce 1000) pool_node.
Definition remote_region : RegionInfo := mkRegionInfo 1000 7 0 5 0 8 1 RegionState_Invalid None.

Definition read_remote (offset len : Z) : VerbReadVaRequest :=
  mkVerbReadVaRequest (va_text (UbVa_new 1000 0)) offset len.

Lemma agent_ok_empty_pool a : fa_tables a = [RegionTable_insert RegionTable_new remote_region] ->
  fa_region_table a = 0%nat ->
  fa_cache_pool a = CachePool_with_region_table (SubAllocator_new 0 64) 64 0 -> agent_ok 0 64 64 a.
Proof.
  intros Ht Hr Hp. constructor; rewrite ?Ht, ?Hr, ?Hp; [apply pool_ok_new; lia|done|cbn; lia|].
  intros rid i e Hi He. unfold agent_region in Hi. rewrite Ht, Hr in Hi.
  change ((<[1000 := remote_region]> (∅ : gmap Z RegionInfo)) !! rid = Some i) in Hi.
  apply lookup_insert_Some in Hi as [[_ <-]|[_ Hi]]; [done|]. by apply lookup_empty_Some in Hi.
Qed.

Definition fetched_state : AppState :=
  (exec no_clock answering (locked (dp_read (UbAddr_new 1 7 0 0 0) 8)) remote_known).1.

Lemma cached_read_equals_fetch_witness : exists s2,
  exec no_clock answering (verb_read_va (read_remote 0 4)) remote_known
  = (s2, Some (read_reply "fetch" (mem_read remote_bytes (read_start (read_remote 0 4) (UbVa_new 1000 0)) 4)))
  /\ let s3 := (exec no_clock answering (verb_read_va (read_remote 2 5)) s2).1 in
     (exec no_clock answering (verb_read_va (read_remote 1 3)) s3).2
     = Some (read_reply "cache" (mem_read remote_bytes (read_start (read_remote 1 3) (UbVa_new 1000 0)) 3)).
Proof.
  destruct (cached_read_equals_fetch 64 ltac:(lia) remote_known fetched_state (read_remote 0 4)
    (UbVa_new 1000 0) remote_region remote_bytes 0 1 pool_entry (DynMemory (MemoryDevice_new 64))
    no_clock answering) as (s2 & Hr & Hlater).
  - vm_compute. reflexivity.
  - vm_compute. reflexivity.
  - apply agent_ok_empty_pool; vm_compute; reflexivity.
  - vm_compute. reflexivity.
  - reflexivity.
  - intros s. by eexists.
  - vm_compute. reflexivity.
  - reflexivity.
  - reflexivity.
  - by_decide.
  - vm_compute. reflexivity.
  - vm_compute. reflexivity.
  - apply fresh_pool_backed; vm_compute; reflexivity.
  - vm_compute. discriminate.
  - vm_compute. split_and!; discriminate.
  - exists s2. split; [exact Hr|]. cbv zeta.
    apply (fun s3 Hs => Hlater s3 Hs (read_remote 1 3) (UbVa_new 1000 0) no_clock answering);
      [|vm_compute; reflexivity|vm_compute; reflexivity|vm_compute; split_and!; discriminate].
    apply rtc_once, (undisturbed_read _ _ _ _ _ _ _ _ (UbVa_new 1000 0));
      [vm_compute; reflexivity|vm_compute; reflexivity|vm_compute; split_and!; discriminate].
Defined.

Definition read_first (offset len : Z) : Handler :=
  verb_read_va (mkVerbReadVaRequest (va_text (UbVa_new 1 0)) offset len).
Definition write_first (offset : Z) (data : bytes) : Handler :=
  verb_write_va (mkVerbWriteVaRequest (va_text (UbVa_new 1 0)) offset data).

Lemma refused_changes_nothing_witness :
  exec no_clock quiet_env (read_first 60 8) two_homes = (two_homes, Some (error_reply AddrInvalid))
  /\ exec no_clock quiet_env (managed_handle (ManagedRequest_Free (mkRegionFreeRequest 9))) two_homes
     = (two_homes, Some (json_error "region not found")).
Proof.
  split.
  - refine (refused_changes_nothing two_homes (ManagedRequest_ReadVa (mkVerbReadVaRequest (va_text (UbVa_new 1 0)) 60 8))
      _ no_clock quiet_env _).
    apply (refused_read_beyond two_homes _ (UbVa_new 1 0) (mkRegionInfo 1 42 0 1 0 16 0 RegionState_Home None));
      [vm_compute; reflexivity|vm_compute; reflexivity|vm_compute; reflexivity|done|].
    split; [done|]. exists pool_entry, (DynMemory (MemoryDevice_new 64)).
    split; [apply fresh_pool_backed; vm_compute; reflexivity|].
    vm_compute. split_and!; reflexivity || discriminate.
  - refine (refused_changes_nothing two_homes _ _ no_clock quiet_env _).
    apply refused_free_unknown; vm_compute; reflexivity.
Defined.

(** ** What the handlers get wrong *)

(** The placer and the cache both hand out the memory of the pool's region from
    offset 0: fetching a remote region overwrites a region at home. *)
Theorem fetch_overwrites_home :
  let written := run_request (write_first 0 [1; 2; 3; 4]) (run_request (announce 1000) two_homes) in
  reply_of (read_first 0 4) written = Some (read_reply "home" [1; 2; 3; 4])
  /\ let fetched := (exec no_clock answering (verb_read_va (read_remote 0 8)) written).1 in
     reply_of (read_first 0 4) fetched = Some (read_reply "home" [10; 11; 12; 13]).
Proof. vm_compute. split; reflexivity. Qed.

(** Every node numbers its regions from 1, and announcing a region of another node
    replaces the entry of the region at home with the same number. *)
Theorem announce_replaces_home :
  let written := run_request (write_first 0 [1; 2; 3; 4]) two_homes in
  let announced := run_request (announce 1) written in
  (exec no_clock answering (read_first 0 4) written).2 = Some (read_reply "home" [1; 2; 3; 4])
  /\ (exec no_clock answering (read_first 0 4) announced).2 = Some (read_reply "fetch" [10; 11; 12; 13]).
Proof. vm_compute. split; reflexivity. Qed.

(** A write at home is checked against the device, not against the region: past
    the end of region 1 it lands in region 2. *)
Theorem home_write_past_end :
  let s := run_request (write_first 16 [9; 9]) two_homes in
  reply_of (write_first 16 [9; 9]) two_homes = Some status_ok
  /\ reply_of (verb_read_va (mkVerbReadVaRequest (va_text (UbVa_new 2 0)) 0 2)) s = Some (read_reply "home" [9; 9]).
Proof. vm_compute. split; reflexivity. Qed.

(** A write by virtual address needs no writer lease: node 42 writes region 2 while node 7 holds
    it, and while it would be denied the lease itself. *)
Theorem write_va_ignores_lease :
  let held := two_homes <| as_coherence :=
                (CoherenceManager_acquire_writer (as_coherence two_homes) 0 0 2 7).1 |> in
  option_map wi_writer_node_id (CoherenceManager_get_writer (as_coherence held) 2) = Some 7
  /\ reply_of (acquire_writer (mkAcquireWriterRequest (va_text (UbVa_new 2 0)))) held
     = Some (JObj ["status" :- jstr "denied"; "reason" :- jstr "writer node 7 holds the lock"])
  /\ reply_of (verb_write_va write_second) held = Some status_ok
  /\ reply_of (verb_read_va (mkVerbReadVaRequest (va_text (UbVa_new 2 0)) 4 3)) (run_request (verb_write_va write_second) held)
     = Some (read_reply "home" [1; 2; 3]).
Proof. vm_compute. split_and!; reflexivity. Qed.

(** The sum of the offsets wraps: a write to region 2, which lies at 16, with an offset of
    2^64 - 16, overwrites the first bytes of region 1. *)
Theorem va_offset_wraps :
  let write := verb_write_va (mkVerbWriteVaRequest (va_text (UbVa_new 2 0)) (2 ^ 64 - 16) [9; 9]) in
  reply_of write two_homes = Some status_ok
  /\ reply_of (read_first 0 4) (run_request write two_homes) = Some (read_reply "home" [9; 9; 0; 0]).
Proof. vm_compute. split; reflexivity. Qed.

(** A read past the end of a remote region returns zeros when it misses and an
    error when it hits. *)
Theorem read_past_end_differs :
  let req := read_remote 8 4 in
  (exec no_clock answering (verb_read_va req) remote_known).2 = Some (read_reply "fetch" [0; 0; 0; 0])
  /\ (exec no_clock answering (verb_read_va req) (exec no_clock answering (verb_read_va req) remote_known).1).2
     = Some (json_error "read beyond cached region bounds").
Proof. vm_compute. split; reflexivity. Qed.

(** A hit looks the entry up twice; an invalidation in between makes the second
    [unwrap] panic. *)
Theorem cache_hit_race_panics :
  let cached := (exec no_clock answering (verb_read_va (read_remote 0 8)) remote_known).1 in
  po_tasks (run_schedule no_clock [0; 0; 1; 1; 0]%nat
    (mkPool cached None [verb_read_va (read_remote 0 8);
                         region_invalidate (mkRegionInvalidateRequest 1000 2)])) !! 0%nat = Some Crash.
Proof. vm_compute. reflexivity. Qed.

(** The reply of [region_alloc] and the coherence manager carry the handle 0 of the
    placement, not the handle of the pool's region the table entry is given. *)
Theorem alloc_reports_no_handle :
  let alloc := region_alloc (mkRegionAllocRequest 16 (str "normal") (str "small") None) in
  (exists r, reply_of alloc pool_node = Some r /\ r = JObj
    ["status" :- jstr "ok"; "va" :- JStr (va_text (UbVa_new 1 0)); "region_id" :- JNum 1;
     "home_node_id" :- JNum 42; "device_id" :- JNum 0; "mr_handle" :- JNum 0; "base_offset" :- JNum 0;
     "len" :- JNum 16])
  /\ ri_mr_handle <$> agent_region (as_agent (run_request alloc pool_node)) 1 = Some 1.
Proof. split; [eexists; split|]; vm_compute; reflexivity. Qed.

(** Freeing a region while it is being allocated leaves its table entry behind. *)
Theorem free_during_alloc_leaks :
  let alloc := region_alloc (mkRegionAllocRequest 16 (str "normal") (str "small") None) in
  let q := run_schedule no_clock [0; 0; 0; 1; 1; 1; 1; 0; 0; 0; 0]%nat
             (mkPool pool_node None [alloc; region_free (mkRegionFreeRequest 1)]) in
  po_tasks q !! 1%nat = Some (Done status_ok) /\ is_Some (agent_region (as_agent (po_state q)) 1)
  /\ Placer_lookup (as_placer (po_state q)) 1 = None.
Proof. vm_compute. split_and!; eauto. Qed.
