(* ===== verification/Router.v ===== *)
(** * Router: the admin API as a whole

    crates/unibusd/src/main.rs, the table of routes, and what holds of every
    request: it comes to an end, and requests never block each other for good.
    Matching a path, checking the method and reading the JSON body are axum's; a
    request that fails there is answered without a handler. *)

From S2P Require Import Prelude Bytes Types Addr Net Device Mr Verbs.
From S2P Require Import Jetty Frame Float Config Session Manager Dataplane Member.
From S2P Require Import SubAlloc Region CachePool FetchAgent Coherence Registry Placer Json.
From S2P Require Import Text Api Task Daemon Kv Managed.
#[local] Open Scope Z_scope.

(** ** Requests *)

Inductive Method : Type := Method_Get | Method_Post.

(** A request as the router sees it; [None] is a body that is not JSON, or no body. *)
Record Request : Type := mkRequest {
  rq_method : Method;
  rq_path : string;
  rq_body : option Json;
}.

Inductive Body : Type :=
| Body_Json (j : Json)
| Body_Metrics (gauges : list Gauge).

(** The handler of a route: it reads nothing from the request, or a JSON body. *)
Inductive Endpoint : Type :=
| Endpoint_plain (t : Task AppState Body)
| Endpoint_json (decode : Json -> option (Task AppState Body)).

Inductive Outcome : Type :=
| Outcome_NotFound
| Outcome_MethodNotAllowed
| Outcome_Unprocessable
| Outcome_Handled (t : Task AppState Body).

Definition answer_json (h : Handler) : Task AppState Body := j <~ h; Done (Body_Json j).

Definition get (h : Handler) : Method * Endpoint := (Method_Get, Endpoint_plain (answer_json h)).
Definition post0 (h : Handler) : Method * Endpoint := (Method_Post, Endpoint_plain (answer_json h)).
Definition post {A} (decode : Json -> option A) (h : A -> Handler) : Method * Endpoint :=
  (Method_Post, Endpoint_json (fun j => answer_json ∘ h <$> decode j)).

Section Router.
Context (perms_debug : Z -> bytes).
Context {entries : MapOrder Z PoolCacheEntry} {regions : MapOrder Z RegionInfo}.

(** Source: crates/unibusd/src/main.rs:492-525, [main]. *)
Definition routes : list (string * (Method * Endpoint)) := [
  ("/admin/node/list", get node_list);
  ("/admin/node/info", get node_info);
  ("/admin/mr/list", get (mr_list perms_debug));
  ("/admin/mr/cache", get (mr_cache_list perms_debug));
  ("/admin/mr/register", post MrRegisterRequest_deserialize mr_register);
  ("/admin/mr/deregister", post MrDeregisterRequest_deserialize mr_deregister);
  ("/admin/jetty/create", post0 jetty_create);
  ("/admin/jetty/list", get jetty_list);
  ("/admin/jetty/post-recv", post JettyPostRecvRequest_deserialize jetty_post_recv);
  ("/admin/jetty/poll-cqe", post JettyPollCqeRequest_deserialize jetty_poll_cqe);
  ("/admin/verb/write", post VerbWriteRequest_deserialize verb_write);
  ("/admin/verb/read", post VerbReadRequest_deserialize verb_read);
  ("/admin/verb/atomic-cas", post VerbAtomicCasRequest_deserialize verb_atomic_cas);
  ("/admin/verb/atomic-faa", post VerbAtomicFaaRequest_deserialize verb_atomic_faa);
  ("/admin/verb/send", post VerbSendRequest_deserialize verb_send);
  ("/admin/verb/send-with-imm", post VerbSendRequest_deserialize verb_send_with_imm);
  ("/admin/verb/write-imm", post VerbWriteImmRequest_deserialize verb_write_imm);
  ("/admin/kv/init", post KvInitRequest_deserialize kv_init);
  ("/admin/kv/put", post KvPutRequest_deserialize kv_put);
  ("/admin/kv/get", post KvGetRequest_deserialize kv_get);
  ("/admin/kv/cas", post KvCasRequest_deserialize kv_cas);
  ("/admin/device/list", get device_list);
  ("/admin/region/alloc", post RegionAllocRequest_deserialize region_alloc);
  ("/admin/region/free", post RegionFreeRequest_deserialize region_free);
  ("/admin/region/list", get region_list);
  ("/admin/region/register-remote", post RegionRegisterRemoteRequest_deserialize region_register_remote);
  ("/admin/region/invalidate", post RegionInvalidateRequest_deserialize region_invalidate);
  ("/admin/verb/read-va", post VerbReadVaRequest_deserialize verb_read_va);
  ("/admin/verb/write-va", post VerbWriteVaRequest_deserialize verb_write_va);
  ("/admin/verb/acquire-writer", post AcquireWriterRequest_deserialize acquire_writer);
  ("/admin/verb/release-writer", post ReleaseWriterRequest_deserialize release_writer);
  ("/metrics", (Method_Get, Endpoint_plain (gauges <~ metrics_endpoint; Done (Body_Metrics gauges))))
  ]%string.

(** What axum makes of a request: the route of its path, its method, its body. *)
Definition serve (r : Request) : Outcome :=
  match list_find (fun route => route.1 = rq_path r) routes with
  | None => Outcome_NotFound
  | Some (_, (_, (Method_Get, endpoint))) =>
    match rq_method r, endpoint with
    | Method_Get, Endpoint_plain t => Outcome_Handled t
    | Method_Get, Endpoint_json decode => Outcome_Unprocessable
    | Method_Post, _ => Outcome_MethodNotAllowed
    end
  | Some (_, (_, (Method_Post, endpoint))) =>
    match rq_method r, endpoint with
    | Method_Get, _ => Outcome_MethodNotAllowed
    | Method_Post, Endpoint_plain t => Outcome_Handled t
    | Method_Post, Endpoint_json decode =>
      match rq_body r ≫= decode with
      | Some t => Outcome_Handled t
      | None => Outcome_Unprocessable
      end
    end
  end.

(** ** Handlers and the mutex of the data plane *)

Abbreviation balanced := (brackets false false).

Lemma balanced_locked {A} (t : Task AppState A) : brackets true true t -> balanced (locked t).
Proof. apply brackets_locked. Qed.

Lemma balanced_init_slots entry n i : balanced (init_slots entry n i).
Proof. revert i. induction n as [|n IH]; intros i; cbn; [done|]. intros _ _. apply IH. Qed.

Ltac head_of t := match t with ?f _ => head_of f | _ => t end.

(** Goes through the binds and the branches of a handler. *)
Ltac balance :=
  repeat match goal with
  | |- forall _, _ => intro
  | |- brackets false _ (locked _) => apply balanced_locked
  | |- brackets _ _ (init_slots _ _ _) => solve [auto using balanced_init_slots]
  | |- brackets ?h ?o (task_bind ?t ?f) => apply (brackets_bind t f h h o)
  | |- brackets _ _ (Done _) => reflexivity
  | |- brackets _ _ Crash => exact I
  | |- brackets _ _ (step _) => intro; reflexivity
  | |- brackets _ _ (look _) => intro; reflexivity
  | |- brackets _ _ (Wait _ _) => intro
  | |- brackets _ _ (on_engine _) => intro; reflexivity
  | |- brackets _ _ (on_agent _) => intro; reflexivity
  | |- brackets _ _ (on_placer _) => intro; reflexivity
  | |- brackets _ _ (on_coherence _) => intro; reflexivity
  | |- brackets _ _ (match ?x with _ => _ end) => destruct x
  | |- brackets _ _ ?t => let h := head_of t in progress unfold h
  end.

Definition endpoint_balanced (e : Endpoint) : Prop :=
  match e with
  | Endpoint_plain t => balanced t
  | Endpoint_json decode => forall j t, decode j = Some t -> balanced t
  end.

Lemma balanced_get h : balanced h -> endpoint_balanced (get h).2.
Proof. intros Hh. by apply (brackets_bind _ _ false false). Qed.
Lemma balanced_post0 h : balanced h -> endpoint_balanced (post0 h).2.
Proof. apply balanced_get. Qed.
Lemma balanced_post {A} decode (h : A -> Handler) : (forall req, balanced (h req)) -> endpoint_balanced (post decode h).2.
Proof.
  intros Hh j t Ht. cbn in Ht. apply fmap_Some in Ht as (req & _ & ->). by apply (balanced_get (h req)).
Qed.

Lemma routes_balanced : Forall (fun route => endpoint_balanced route.2.2) routes.
Proof.
  unfold routes. repeat (apply Forall_cons; split; [cbn [snd]|]); [..|apply Forall_nil; exact I].
  all: first [apply balanced_get|apply balanced_post; intros req|cbn [endpoint_balanced]]; balance.
Qed.

Lemma serve_balanced r t : serve r = Outcome_Handled t -> balanced t.
Proof.
  unfold serve. destruct (list_find _ _) as [[i [path [method endpoint]]]|] eqn:E; [|done].
  apply list_find_Some in E as (E & _ & _).
  pose proof (Forall_lookup_1 _ _ _ _ routes_balanced E) as He. cbn [snd] in He.
  destruct method, (rq_method r), endpoint as [t'|decode]; try done; cbn in He.
  1, 2: by intros [= <-].
  destruct (rq_body r) as [j|]; cbn; [|done]. destruct (decode j) eqn:Ed; [|done]. intros [= <-]. eauto.
Qed.

(** The requests that reach a handler, as tasks. *)
Definition handled (requests : list Request) : list (Task AppState Body) :=
  omap (fun r => match serve r with Outcome_Handled t => Some t | _ => None end) requests.

Lemma handled_balanced requests : Forall balanced (handled requests).
Proof.
  apply Forall_forall. intros t Ht. apply list_elem_of_omap in Ht as (r & _ & Hr).
  destruct (serve r) eqn:E; simplify_eq. by eapply serve_balanced.
Qed.

(** ** Properties *)

#[local] Instance finished_dec {S A} (t : Task S A) : Decision (finished t).
Proof. destruct t; cbn; apply _. Defined.

(** A step of the tasks, whatever the rest of the node did to the state before it. *)
Definition task_step (q p : Pool AppState Body) : Prop :=
  exists s, pool_step (mkPool s (po_holder p) (po_tasks p)) q.

(** C12 (termination): Every request to the admin API comes to an end. Any number of
    requests are served side by side, in any interleaving and with any activity of
    the rest of the node in between: there is no infinite run, since every step of a
    handler uses the handler up; and no deadlock, since from every state they can
    reach all handlers can still run to their end, each with a reply or a panic.
    That holds although handlers wait for peers while they hold the mutex of the
    data plane. *)
Theorem admin_requests_finish (requests : list Request) (s : AppState) (env : AppState -> AppState -> Prop)
    (q : Pool AppState Body) :
  pool_run_from env (mkPool s None (handled requests)) q ->
  Acc task_step q /\ exists r, pool_run_from env q r /\ Forall finished (po_tasks r).
Proof.
  intros Hrun. split.
  - clear Hrun. induction (pool_child_wf q) as [q _ IH]. constructor. intros r [s' Hs]. apply IH.
    apply pool_step_child in Hs. exact Hs.
  - assert (Hok : mutex_ok q) by (eapply mutex_run; [|exact Hrun]; apply mutex_init, handled_balanced).
    clear Hrun. induction (pool_child_wf q) as [q _ IH].
    destruct (decide (Forall finished (po_tasks q))) as [Hf|Hf]; [by exists q; split; [constructor|]|].
    destruct (pool_progress q Hok Hf) as [q' Hs].
    destruct (IH q' (pool_step_child _ _ Hs) (mutex_step _ _ Hok Hs)) as (r & Hr & Hf').
    exists r. split; [|done].
    assert (Hq : pool_run_from env q q') by (eapply pool_next; [constructor|done]).
    clear - Hr Hq. induction Hr; [done|by eapply pool_next|by apply pool_env].
Qed.
End Router.

(** ** Examples *)

(** Two requests and one with a body that is not what the handler reads. *)
Definition sample_requests : list Request :=
  [mkRequest Method_Post "/admin/verb/read"
     (Some (JObj ["ub_addr" :- JStr (UbAddr_to_text store_addr); "len" :- JNum 8]));
   mkRequest Method_Post "/admin/verb/read" (Some (JObj ["len" :- JNum 8]));
   mkRequest Method_Get "/admin/node/list" None].

Definition sample_pool : Pool AppState Body :=
  mkPool sample_node None (handled (entries := canonical_order) (regions := canonical_order) (fun _ => []) sample_requests).

Lemma admin_requests_finish_witness : exists r,
  length (po_tasks (run_schedule no_clock [0; 0; 1]%nat sample_pool)) = 2%nat
  /\ pool_run_from (fun _ _ => False) (run_schedule no_clock [0; 0; 1]%nat sample_pool) r
  /\ Forall finished (po_tasks r).
Proof.
  destruct (admin_requests_finish (entries := canonical_order) (regions := canonical_order) (fun _ => [])
    sample_requests sample_node (fun _ _ => False) (run_schedule no_clock [0; 0; 1]%nat sample_pool)
    (run_schedule_run _ _ _ _)) as (_ & r & Hr & Hf).
  exists r. split; [vm_compute; reflexivity|]. split; [exact Hr|exact Hf].
Defined.
