(* ===== verification/Ctl.v ===== *)
(** * Ctl: the command-line client

    crates/unibusctl/src/main.rs. Each command is a request to the admin API and
    what the client prints of the reply. Reading the arguments is clap's, the HTTP
    exchange reqwest's. A line of output is the list of the values [println!] puts
    together; rendering them is left out. *)

From S2P Require Import Prelude Bytes Types Addr Net Device Mr Verbs.
From S2P Require Import Jetty Frame Float Config Session Manager Dataplane Member.
From S2P Require Import SubAlloc Region CachePool FetchAgent Coherence Registry Placer Json.
From S2P Require Import Text Api Task Daemon Kv Managed Router.
#[local] Open Scope Z_scope.

(** ** Commands *)

(** Source: crates/unibusctl/src/main.rs:16-196, [Commands]. *)
Inductive Commands : Type :=
| Commands_NodeStart (config : bytes)
| Commands_NodeList
| Commands_NodeInfo
| Commands_MrList
| Commands_MrCache
| Commands_JettyCreate
| Commands_JettyList
| Commands_JettyPostRecv (jetty_handle len : Z)
| Commands_JettyPollCqe (jetty_handle : Z)
| Commands_Bench (ub_addr : bytes) (iterations size : Z)
| Commands_KvInit (slots : Z) (device_kind : bytes)
| Commands_KvPut (ub_addr : bytes) (slot : Z) (key value : bytes) (replica_node_id replica_jetty_id : option Z)
| Commands_KvGet (ub_addr : bytes) (slot : Z) (key : bytes)
| Commands_KvCas (ub_addr : bytes) (slot : Z) (key : bytes) (expect_version : Z) (value : bytes)
    (replica_node_id replica_jetty_id : option Z)
| Commands_DeviceList
| Commands_RegionAlloc (size : Z) (latency_class capacity_class : bytes) (pin : option bytes)
| Commands_RegionFree (region_id : Z)
| Commands_RegionList
| Commands_VaRead (va : bytes) (len offset : Z)
| Commands_VaWrite (va data : bytes) (offset : Z)
| Commands_AcquireWriter (va : bytes)
| Commands_ReleaseWriter (va : bytes)
| Commands_RegionRegisterRemote (region_id home_node_id device_id mr_handle base_offset len epoch : Z)
| Commands_RegionInvalidate (region_id new_epoch : Z).

(** ** Output *)

(** What is printed: a literal, a string, an integer, a JSON value, their [{:?}]
    forms, a float with a number of decimals, and something left-aligned in a
    column. *)
Inductive Piece : Type :=
| Lit (s : string)
| Txt (s : bytes)
| Dec (n : Z)
| Val (j : Json)
| DebugStr (s : bytes)
| DebugVal (o : option Json)
| Fixed (decimals : Z) (x : f64)
| Col (width : Z) (p : Piece).

Abbreviation Line := (list Piece).

(** The columns of a line, a blank between two of them. *)
Fixpoint columns (cells : list (Z * Piece)) : Line :=
  match cells with
  | [] => []
  | [(w, p)] => [Col w p]
  | (w, p) :: cells => Col w p :: Lit " " :: columns cells
  end.

(** [body.get(name).and_then(|v| v.as_u64()).unwrap_or(0)] and
    [body.get(name).and_then(|v| v.as_str()).unwrap_or("?")] *)
Definition u64_or_0 (j : Json) (name : string) : Piece := Dec (default 0 (json_get j name ≫= as_u64)).
Definition str_or (dflt : string) (j : Json) (name : string) : Piece := Txt (default (str dflt) (json_get j name ≫= as_str)).

Definition has (j : Json) (name : string) : bool := bool_decide (is_Some (json_get j name)).

(** A list in the reply as a table: its name, what to print when it is empty, the
    widths and titles, and the cells of a row. *)
Definition show_table (name empty : string) (header : list (Z * string)) (cells : Json -> list Piece) (body : Json)
  : list Line :=
  match json_get body name ≫= as_array with
  | Some [] => [[Lit empty]]
  | Some items =>
    columns (map (fun '(w, title) => (w, Lit title)) header)
    :: map (fun item => columns (zip header.*1 (cells item))) items
  | None => [[Lit "Unexpected response: "; Val body]]
  end.

(** [else if let Some(err) = body.get("error").and_then(|v| v.as_str()) { .. } else { .. }] *)
Definition show_error (body : Json) : list Line :=
  match json_get body "error" ≫= as_str with
  | Some err => [[Lit "Error: "; Txt err]]
  | None => [[Val body]]
  end.

(** [if body.get(key).is_some() { println!(line) } else ..] *)
Definition show_if (key : string) (line : Json -> Line) (body : Json) : list Line :=
  if has body key then [line body] else show_error body.

(** A command that makes one request. *)
Record Call : Type := mkCall {
  call_request : Request;
  call_show : Json -> Result (list Line);
}.

Definition ctl_get (path : string) (show : Json -> list Line) : Call :=
  mkCall (mkRequest Method_Get path None) (fun body => Ok (show body)).
Definition ctl_post (path : string) (body : Json) (show : Json -> list Line) : Call :=
  mkCall (mkRequest Method_Post path (Some body)) (fun body => Ok (show body)).

(** [texts.join(sep)] *)
Fixpoint join_with (sep : bytes) (texts : list bytes) : bytes :=
  match texts with
  | [] => []
  | [t] => t
  | t :: texts => t ++ sep ++ join_with sep texts
  end.

(** [body[name] = json!(v)] when there is a value. *)
Definition add_field (fields : list (string * Json)) (name : string) (v : option Json) : list (string * Json) :=
  match v with Some v => fields ++ [(name, v)] | None => fields end.

(** ** Commands of one request *)

(** Source: crates/unibusctl/src/main.rs:221-243, [Commands::NodeList]. *)
Definition ctl_node_list : Call := ctl_get "/admin/node/list"
  (show_table "nodes" "No nodes found."
     [(10, "NodeID"); (12, "State"); (25, "DataAddr"); (8, "Epoch"); (10, "Credits")]%string
     (fun node => [u64_or_0 node "node_id"; str_or "?" node "state"; str_or "?" node "data_addr";
                   u64_or_0 node "epoch"; u64_or_0 node "initial_credits"])).

(** Source: crates/unibusctl/src/main.rs:244-249, [Commands::NodeInfo]. *)
Definition ctl_node_info : Call := ctl_get "/admin/node/info" (fun body => [[Val body]]).

(** Source: crates/unibusctl/src/main.rs:250-273, [Commands::MrList]. *)
Definition ctl_mr_list : Call := ctl_get "/admin/mr/list"
  (show_table "mrs" "No MRs registered."
     [(10, "Handle"); (12, "DeviceKind"); (40, "UbAddr"); (10, "Len"); (12, "Perms"); (10, "State")]%string
     (fun mr => [u64_or_0 mr "handle"; str_or "?" mr "device_kind"; str_or "?" mr "ub_addr";
                 u64_or_0 mr "len"; str_or "?" mr "perms"; str_or "?" mr "state"])).

(** Source: crates/unibusctl/src/main.rs:274-296, [Commands::MrCache]. *)
Definition ctl_mr_cache : Call := ctl_get "/admin/mr/cache"
  (show_table "cache" "No remote MRs cached."
     [(12, "OwnerNode"); (10, "Handle"); (40, "UbAddr"); (10, "Len"); (12, "DeviceKind")]%string
     (fun entry => [u64_or_0 entry "owner_node"; u64_or_0 entry "mr_handle"; str_or "?" entry "ub_addr";
                    u64_or_0 entry "len"; str_or "?" entry "device_kind"])).

(** Source: crates/unibusctl/src/main.rs:297-308, [Commands::JettyCreate]. *)
Definition ctl_jetty_create : Call :=
  mkCall (mkRequest Method_Post "/admin/jetty/create" None) (fun body => Ok
    match json_get body "jetty_handle" ≫= as_u64 with
    | Some handle => [[Lit "Jetty created: handle="; Dec handle]]
    | None => show_error body
    end).

(** Source: crates/unibusctl/src/main.rs:309-337, [Commands::JettyList]. *)
Definition ctl_jetty_list : Call := ctl_get "/admin/jetty/list"
  (show_table "jettys" "No Jettys created."
     [(10, "Handle"); (10, "NodeID"); (10, "JFSDepth"); (10, "JFRDepth"); (10, "JFCDepth"); (15, "JFCHWM");
      (10, "CQECount"); (10, "JFSCount"); (10, "JFRCount")]%string
     (fun j => [u64_or_0 j "handle"; u64_or_0 j "node_id"; u64_or_0 j "jfs_depth"; u64_or_0 j "jfr_depth";
                u64_or_0 j "jfc_depth"; u64_or_0 j "jfc_high_watermark"; u64_or_0 j "cqe_count";
                u64_or_0 j "jfs_count"; u64_or_0 j "jfr_count"])).

(** Source: crates/unibusctl/src/main.rs:338-351, [Commands::JettyPostRecv]. *)
Definition ctl_jetty_post_recv (jetty_handle len : Z) : Call := ctl_post "/admin/jetty/post-recv"
  (JObj ["jetty_handle" :- JNum jetty_handle; "len" :- JNum len])
  (show_if "status" (fun _ =>
     [Lit "Recv buffer posted to jetty "; Dec jetty_handle; Lit " (len="; Dec len; Lit ")"])).

(** Source: crates/unibusctl/src/main.rs:352-372, [Commands::JettyPollCqe]. *)
Definition ctl_jetty_poll_cqe (jetty_handle : Z) : Call := ctl_post "/admin/jetty/poll-cqe"
  (JObj ["jetty_handle" :- JNum jetty_handle])
  (fun body =>
     match json_get body "cqe" ≫= as_null with
     | Some _ => [[Lit "No CQE available."]]
     | None => show_if "wr_id" (fun body =>
         [Lit "CQE: wr_id="; u64_or_0 body "wr_id"; Lit ", status="; u64_or_0 body "status";
          Lit ", imm="; DebugVal (json_get body "imm"); Lit ", byte_len="; u64_or_0 body "byte_len";
          Lit ", verb="; str_or "?" body "verb"]) body
     end).

(** Source: crates/unibusctl/src/main.rs:444-460, [Commands::KvInit]. *)
Definition ctl_kv_init (slots : Z) (device_kind : bytes) : Call := ctl_post "/admin/kv/init"
  (JObj ["slots" :- JNum slots; "device_kind" :- JStr device_kind])
  (show_if "status" (fun body =>
     [Lit "KV store initialized: slots="; Dec slots; Lit " handle="; u64_or_0 body "mr_handle";
      Lit " addr="; str_or "?" body "ub_addr"; Lit " slot_size="; u64_or_0 body "slot_size"])).

(** Source: crates/unibusctl/src/main.rs:461-482, [Commands::KvPut]. *)
Definition ctl_kv_put (ub_addr : bytes) (slot : Z) (key value : bytes)
    (replica_node_id replica_jetty_id : option Z) : Call := ctl_post "/admin/kv/put"
  (JObj (add_field (add_field
     ["ub_addr" :- JStr ub_addr; "slot" :- JNum slot; "key" :- JStr key; "value" :- JStr value]
     "replica_node_id" (JNum <$> replica_node_id)) "replica_jetty_id" (JNum <$> replica_jetty_id)))
  (show_if "status" (fun body =>
     [Lit "PUT slot="; Dec slot; Lit " key="; Txt key; Lit " version="; u64_or_0 body "version"])).

(** Source: crates/unibusctl/src/main.rs:483-499, [Commands::KvGet]. *)
Definition ctl_kv_get (ub_addr : bytes) (slot : Z) (key : bytes) : Call := ctl_post "/admin/kv/get"
  (JObj ["ub_addr" :- JStr ub_addr; "slot" :- JNum slot; "key" :- JStr key])
  (show_if "key" (fun body =>
     [Lit "GET slot="; Dec slot; Lit " key="; str_or "?" body "key"; Lit " value="; str_or "?" body "value";
      Lit " version="; u64_or_0 body "version"])).

(** Source: crates/unibusctl/src/main.rs:500-524, [Commands::KvCas]. *)
Definition ctl_kv_cas (ub_addr : bytes) (slot : Z) (key : bytes) (expect_version : Z) (value : bytes)
    (replica_node_id replica_jetty_id : option Z) : Call := ctl_post "/admin/kv/cas"
  (JObj (add_field (add_field
     ["ub_addr" :- JStr ub_addr; "slot" :- JNum slot; "key" :- JStr key;
      "expect_version" :- JNum expect_version; "value" :- JStr value]
     "replica_node_id" (JNum <$> replica_node_id)) "replica_jetty_id" (JNum <$> replica_jetty_id)))
  (fun body =>
     let status := json_get body "status" ≫= as_str in
     if decide (status = Some (str "ok")) then
       [[Lit "CAS slot="; Dec slot; Lit " key="; Txt key; Lit " succeeded: version "; Dec expect_version;
         Lit " -> "; u64_or_0 body "new_version"]]
     else if decide (status = Some (str "cas_failed")) then
       [[Lit "CAS slot="; Dec slot; Lit " key="; Txt key; Lit " failed: expected version "; Dec expect_version;
         Lit ", current is "; u64_or_0 body "current_version"]]
     else show_error body).

(** Source: crates/unibusctl/src/main.rs:525-557, [Commands::DeviceList]. *)
Definition ctl_device_list : Call := ctl_get "/admin/device/list"
  (show_table "devices" "No devices registered."
     [(8, "NodeID"); (10, "DevID"); (8, "Kind"); (6, "Tier"); (14, "Capacity"); (10, "Used"); (10, "Free");
      (10, "FreeRatio"); (16, "ReadBW(Mbps)"); (16, "WriteBW(Mbps)"); (14, "ReadLat(ns)"); (14, "WriteLat(ns)");
      (10, "RPS")]%string
     (fun d => [u64_or_0 d "node_id"; u64_or_0 d "device_id"; str_or "?" d "kind"; str_or "?" d "tier";
                u64_or_0 d "capacity_bytes"; u64_or_0 d "used_bytes"; u64_or_0 d "free_bytes";
                str_or "?" d "free_ratio"; u64_or_0 d "peak_read_bw_mbps"; u64_or_0 d "peak_write_bw_mbps";
                u64_or_0 d "read_latency_ns_p50"; u64_or_0 d "write_latency_ns_p50"; u64_or_0 d "recent_rps"])).

(** Source: crates/unibusctl/src/main.rs:558-581, [Commands::RegionAlloc]. *)
Definition ctl_region_alloc (size : Z) (latency_class capacity_class : bytes) (pin : option bytes) : Call :=
  ctl_post "/admin/region/alloc"
  (JObj (add_field ["size" :- JNum size; "latency_class" :- JStr latency_class;
                    "capacity_class" :- JStr capacity_class] "pin" (JStr <$> pin)))
  (show_if "status" (fun body =>
     [Lit "Region allocated: region_id="; u64_or_0 body "region_id"; Lit " va=0x"; str_or "?" body "va";
      Lit " home_node="; u64_or_0 body "home_node_id"; Lit " len="; u64_or_0 body "len"])).

(** Source: crates/unibusctl/src/main.rs:582-595, [Commands::RegionFree]. *)
Definition ctl_region_free (region_id : Z) : Call := ctl_post "/admin/region/free"
  (JObj ["region_id" :- JNum region_id])
  (show_if "status" (fun _ => [Lit "Region "; Dec region_id; Lit " freed"])).

(** Source: crates/unibusctl/src/main.rs:596-627, [Commands::RegionList]. *)
Definition ctl_region_list : Call :=
  let number_or_dash r name :=
    match json_get r name ≫= as_u64 with Some n => Dec n | None => Lit "-" end in
  let readers r :=
    match json_get r "readers" ≫= as_array with
    | Some l => Txt (join_with (str ",") (omap (fun v => decimal <$> as_u64 v) l))
    | None => Lit "-"
    end in
  ctl_get "/admin/region/list"
  (show_table "regions" "No regions allocated."
     [(12, "RegionID"); (12, "HomeNode"); (10, "DeviceID"); (10, "MRHandle"); (12, "BaseOffset"); (10, "Len");
      (8, "Epoch"); (10, "State"); (14, "LocalMR"); (8, "Writer"); (12, "Readers")]%string
     (fun r => [u64_or_0 r "region_id"; u64_or_0 r "home_node_id"; u64_or_0 r "device_id"; u64_or_0 r "mr_handle";
                u64_or_0 r "base_offset"; u64_or_0 r "len"; u64_or_0 r "epoch"; str_or "?" r "state";
                number_or_dash r "local_mr_handle"; number_or_dash r "writer_node_id"; readers r])).

(** Source: crates/unibusctl/src/main.rs:628-645, [Commands::VaRead]. *)
Definition ctl_va_read (va : bytes) (len offset : Z) : Call :=
  mkCall (mkRequest Method_Post "/admin/verb/read-va"
            (Some (JObj ["va" :- JStr va; "offset" :- JNum offset; "len" :- JNum len])))
  (fun body =>
     match json_get body "data" with
     | Some (JArr data) =>
       let text_bytes := omap (fun v => wrap 8 <$> as_u64 v) data in
       let data_len := default (Z.of_nat (length text_bytes)) (json_get body "len" ≫= as_u64) in
       Ok [[Lit "Read "; Dec data_len; Lit " bytes from va="; Txt va; Lit " offset="; Dec offset; Lit ": ";
            DebugStr (from_utf8_lossy text_bytes)]]
     | Some _ => Panic
     | None => Ok (show_error body)
     end).

(** Source: crates/unibusctl/src/main.rs:646-660, [Commands::VaWrite]. *)
Definition ctl_va_write (va data : bytes) (offset : Z) : Call := ctl_post "/admin/verb/write-va"
  (JObj ["va" :- JStr va; "offset" :- JNum offset; "data" :- json_bytes data])
  (show_if "status" (fun _ =>
     [Lit "Write "; Dec (Z.of_nat (length data)); Lit " bytes to va="; Txt va; Lit " offset="; Dec offset])).

(** Source: crates/unibusctl/src/main.rs:661-682, [Commands::AcquireWriter]. *)
Definition ctl_acquire_writer (va : bytes) : Call := ctl_post "/admin/verb/acquire-writer"
  (JObj ["va" :- JStr va])
  (fun body =>
     let status := default (str "?") (json_get body "status" ≫= as_str) in
     if decide (status = str "granted") then
       [[Lit "Writer lock acquired: va="; Txt va; Lit " region_id="; u64_or_0 body "region_id";
         Lit " epoch="; u64_or_0 body "epoch"]]
     else if decide (status = str "denied") then [[Lit "Writer lock denied: "; str_or "unknown" body "reason"]]
     else if decide (status = str "queued") then
       [[Lit "Writer lock queued (waiting for current writer to release)"]]
     else show_error body).

(** Source: crates/unibusctl/src/main.rs:683-698, [Commands::ReleaseWriter]. *)
Definition ctl_release_writer (va : bytes) : Call := ctl_post "/admin/verb/release-writer"
  (JObj ["va" :- JStr va])
  (show_if "status" (fun body =>
     [Lit "Writer lock released: region_id="; u64_or_0 body "region_id"; Lit " epoch="; u64_or_0 body "epoch"])).

(** Source: crates/unibusctl/src/main.rs:699-720, [Commands::RegionRegisterRemote]. *)
Definition ctl_region_register_remote (region_id home_node_id device_id mr_handle base_offset len epoch : Z)
  : Call := ctl_post "/admin/region/register-remote"
  (JObj ["region_id" :- JNum region_id; "home_node_id" :- JNum home_node_id; "device_id" :- JNum device_id;
         "mr_handle" :- JNum mr_handle; "base_offset" :- JNum base_offset; "len" :- JNum len;
         "epoch" :- JNum epoch])
  (show_if "status" (fun _ =>
     [Lit "Remote region registered: region_id="; Dec region_id; Lit " home_node="; Dec home_node_id])).

(** Source: crates/unibusctl/src/main.rs:721-733, [Commands::RegionInvalidate]. *)
Definition ctl_region_invalidate (region_id new_epoch : Z) : Call := ctl_post "/admin/region/invalidate"
  (JObj ["region_id" :- JNum region_id; "new_epoch" :- JNum new_epoch])
  (fun body =>
     if default false (json_get body "invalidated" ≫= as_bool) then
       [[Lit "Region "; Dec region_id; Lit " invalidated (new_epoch="; Dec new_epoch; Lit ")"]]
     else [[Lit "Region "; Dec region_id; Lit " not invalidated (not cached or stale)"]]).

(** Source: crates/unibusctl/src/main.rs:198-203, [main].
    The arm of a command that makes one request. *)
Definition call_of (c : Commands) : option Call :=
  match c with
  | Commands_NodeStart _ | Commands_Bench _ _ _ => None
  | Commands_NodeList => Some ctl_node_list
  | Commands_NodeInfo => Some ctl_node_info
  | Commands_MrList => Some ctl_mr_list
  | Commands_MrCache => Some ctl_mr_cache
  | Commands_JettyCreate => Some ctl_jetty_create
  | Commands_JettyList => Some ctl_jetty_list
  | Commands_JettyPostRecv h len => Some (ctl_jetty_post_recv h len)
  | Commands_JettyPollCqe h => Some (ctl_jetty_poll_cqe h)
  | Commands_KvInit slots kind => Some (ctl_kv_init slots kind)
  | Commands_KvPut a slot key value node jetty => Some (ctl_kv_put a slot key value node jetty)
  | Commands_KvGet a slot key => Some (ctl_kv_get a slot key)
  | Commands_KvCas a slot key expect value node jetty => Some (ctl_kv_cas a slot key expect value node jetty)
  | Commands_DeviceList => Some ctl_device_list
  | Commands_RegionAlloc size lat cap pin => Some (ctl_region_alloc size lat cap pin)
  | Commands_RegionFree rid => Some (ctl_region_free rid)
  | Commands_RegionList => Some ctl_region_list
  | Commands_VaRead va len off => Some (ctl_va_read va len off)
  | Commands_VaWrite va data off => Some (ctl_va_write va data off)
  | Commands_AcquireWriter va => Some (ctl_acquire_writer va)
  | Commands_ReleaseWriter va => Some (ctl_release_writer va)
  | Commands_RegionRegisterRemote rid node dev mr base len epoch =>
    Some (ctl_region_register_remote rid node dev mr base len epoch)
  | Commands_RegionInvalidate rid epoch => Some (ctl_region_invalidate rid epoch)
  end.

(** ** Starting a node *)

(** Source: crates/unibusctl/src/main.rs:204-220, [Commands::NodeStart].
    [spawned] is the process identifier or the error; the lines and the exit code. *)
Definition ctl_node_start (config : bytes) (spawned : bytes + Z) : list Line * Z :=
  match spawned with
  | inr pid => ([[Lit "unibusd started: PID="; Dec pid; Lit ", config="; Txt config]], 0)
  | inl e => ([[Lit "Failed to start unibusd: "; Txt e]], 1)
  end.

(** ** The benchmark *)

(** [sorted.sort_by(|a, b| a.partial_cmp(b).unwrap())]; latencies are numbers. *)
Fixpoint insert_f64 (x : f64) (l : list f64) : list f64 :=
  match l with
  | [] => [x]
  | y :: l' => if f64_leb x y then x :: l else y :: insert_f64 x l'
  end.
Definition sort_f64 (l : list f64) : list f64 := foldr insert_f64 [] l.

Definition sum_f64 (l : list f64) : f64 := foldl f64_add (f64_of_int 0) l.

(** [v[i]] *)
Definition index {A} (l : list A) (i : Z) : Result A :=
  match l !! Z.to_nat i with Some a => Ok a | None => Panic end.

(** Source: crates/unibusctl/src/main.rs:739-760, [print_stats]. *)
Definition print_stats (verb : string) (latencies : list f64) (ok err size_bytes : Z) : Result (list Line) :=
  let sorted := sort_f64 latencies in
  let n := Z.of_nat (length sorted) in
  let? p50 := index sorted (n / 2) in
  let? p90 := index sorted (f64_as_u64 (f64_of_int n * (f64_of_int 9 / f64_of_int 10))%f64) in
  let? p99 := index sorted (f64_as_u64 (f64_of_int n * (f64_of_int 99 / f64_of_int 100))%f64) in
  let avg := (sum_f64 sorted / f64_of_int n)%f64 in
  let total_time_s := (sum_f64 sorted / f64_of_int 1000000)%f64 in
  let busy := f64_ltb (f64_of_int 0) total_time_s in
  let ops_per_s := if busy then (f64_of_int ok / total_time_s)%f64 else f64_of_int 0 in
  let throughput_mib :=
    if busy then (f64_of_int ok * f64_of_int size_bytes / (f64_of_int 1024 * f64_of_int 1024) / total_time_s)%f64
    else f64_of_int 0 in
  Ok [[]; [Lit "  "; Lit verb; Lit ":"];
      [Lit "    ok="; Dec ok; Lit " err="; Dec err];
      [Lit "    latency (µs): avg="; Fixed 1 avg; Lit " p50="; Fixed 1 p50; Lit " p90="; Fixed 1 p90;
       Lit " p99="; Fixed 1 p99];
      [Lit "    throughput:    "; Fixed 0 ops_per_s; Lit " ops/s  "; Fixed 2 throughput_mib; Lit " MiB/s"]].

Section Bench.
(** The reply to the [i]-th request of the run and the microseconds it took;
    [None] when the exchange fails. *)
Context (ask : Z -> Request -> option (Json * Z)).

(** One loop over a verb: latencies, replies with [key] and replies without. *)
Fixpoint bench_loop (n : nat) (i : Z) (request : Request) (key : string) (latencies : list f64) (ok err : Z)
  : option (list f64 * Z * Z) :=
  match n with
  | O => Some (latencies, ok, err)
  | S n =>
    '(body, micros) ← ask i request;
    let latencies := latencies ++ [f64_of_int micros] in
    if has body key then bench_loop n (i + 1) request key latencies (wrap 32 (ok + 1)) err
    else bench_loop n (i + 1) request key latencies ok (wrap 32 (err + 1))
  end.

Definition bench_write (ub_addr : bytes) (size : Z) : Request :=
  mkRequest Method_Post "/admin/verb/write"
    (Some (JObj ["ub_addr" :- JStr ub_addr; "data" :- json_bytes (repeat 171 (Z.to_nat size))])).
Definition bench_read (ub_addr : bytes) (size : Z) : Request :=
  mkRequest Method_Post "/admin/verb/read" (Some (JObj ["ub_addr" :- JStr ub_addr; "len" :- JNum size])).
Definition bench_faa (ub_addr : bytes) : Request :=
  mkRequest Method_Post "/admin/verb/atomic-faa" (Some (JObj ["ub_addr" :- JStr ub_addr; "add" :- JNum 1])).

(** Source: crates/unibusctl/src/main.rs:373-443, [Commands::Bench].
    [None] is an exchange that failed, [Some Panic] an abort. *)
Definition ctl_bench (ub_addr : bytes) (iterations size : Z) : option (Result (list Line)) :=
  let n := Z.to_nat iterations in
  '(write_latencies, ok1, err1) ← bench_loop n 0 (bench_write ub_addr size) "status" [] 0 0;
  match print_stats "write" write_latencies ok1 err1 size with
  | Ok write_lines =>
    '(read_latencies, ok2, err2) ← bench_loop n iterations (bench_read ub_addr size) "data" [] 0 0;
    match print_stats "read" read_latencies ok2 err2 size with
    | Ok read_lines =>
      '(faa_latencies, ok3, err3) ← bench_loop n (2 * iterations) (bench_faa ub_addr) "old_value" [] 0 0;
      Some (let? faa_lines := print_stats "atomic_faa" faa_latencies ok3 err3 8 in
            Ok ([[Lit "UniBus Verb Benchmark"]; [Lit "  target: "; Txt ub_addr];
                 [Lit "  iterations: "; Dec iterations]; [Lit "  data size: "; Dec size; Lit " bytes"]]
                ++ write_lines ++ read_lines ++ faa_lines))
    | r => Some r
    end
  | r => Some r
  end.
End Bench.

(** ** The client and the daemon *)

Section Agreement.
Context (perms_debug : Z -> bytes).
Context {entries : MapOrder Z PoolCacheEntry} {regions : MapOrder Z RegionInfo}.

Abbreviation routes := (routes perms_debug).
Abbreviation serve := (serve perms_debug).

(** The handler each command is meant for, with its arguments. *)
Definition handler_of (c : Commands) : option Handler :=
  match c with
  | Commands_NodeStart _ | Commands_Bench _ _ _ => None
  | Commands_NodeList => Some node_list
  | Commands_NodeInfo => Some node_info
  | Commands_MrList => Some (mr_list perms_debug)
  | Commands_MrCache => Some (mr_cache_list perms_debug)
  | Commands_JettyCreate => Some jetty_create
  | Commands_JettyList => Some jetty_list
  | Commands_JettyPostRecv h len => Some (jetty_post_recv (mkJettyPostRecvRequest h len))
  | Commands_JettyPollCqe h => Some (jetty_poll_cqe (mkJettyPollCqeRequest h))
  | Commands_KvInit slots kind => Some (kv_init (mkKvInitRequest slots kind))
  | Commands_KvPut a slot key value node jetty => Some (kv_put (mkKvPutRequest a slot key value node jetty))
  | Commands_KvGet a slot key => Some (kv_get (mkKvGetRequest a slot key))
  | Commands_KvCas a slot key expect value node jetty =>
    Some (kv_cas (mkKvCasRequest a slot key expect value node jetty))
  | Commands_DeviceList => Some device_list
  | Commands_RegionAlloc size lat cap pin => Some (region_alloc (mkRegionAllocRequest size lat cap pin))
  | Commands_RegionFree rid => Some (region_free (mkRegionFreeRequest rid))
  | Commands_RegionList => Some region_list
  | Commands_VaRead va len off => Some (verb_read_va (mkVerbReadVaRequest va off len))
  | Commands_VaWrite va data off => Some (verb_write_va (mkVerbWriteVaRequest va off data))
  | Commands_AcquireWriter va => Some (acquire_writer (mkAcquireWriterRequest va))
  | Commands_ReleaseWriter va => Some (release_writer (mkReleaseWriterRequest va))
  | Commands_RegionRegisterRemote rid node dev mr base len epoch =>
    Some (region_register_remote (mkRegionRegisterRemoteRequest rid node dev mr base len epoch))
  | Commands_RegionInvalidate rid epoch => Some (region_invalidate (mkRegionInvalidateRequest rid epoch))
  end.

(** Arguments as clap reads them: integers of their type, texts as bytes. *)
Definition command_ok (c : Commands) : Prop :=
  match c with
  | Commands_JettyPostRecv h len => u32 h /\ u32 len
  | Commands_JettyPollCqe h => u32 h
  | Commands_KvInit slots _ => u32 slots
  | Commands_KvPut _ slot _ _ node jetty =>
    u32 slot /\ (forall n, node = Some n -> u16 n) /\ (forall n, jetty = Some n -> u32 n)
  | Commands_KvGet _ slot _ => u32 slot
  | Commands_KvCas _ slot _ expect _ node jetty =>
    u32 slot /\ u64 expect /\ (forall n, node = Some n -> u16 n) /\ (forall n, jetty = Some n -> u32 n)
  | Commands_RegionAlloc size _ _ _ => u64 size
  | Commands_RegionFree rid => u64 rid
  | Commands_VaRead _ len off => u32 len /\ u64 off
  | Commands_VaWrite _ data off => Forall u8 data /\ u64 off
  | Commands_RegionRegisterRemote rid node dev mr base len epoch =>
    u64 rid /\ u16 node /\ u16 dev /\ u32 mr /\ u64 base /\ u64 len /\ u64 epoch
  | Commands_RegionInvalidate rid epoch => u64 rid /\ u64 epoch
  | _ => True
  end.

Lemma routes_distinct : NoDup routes.*1.
Proof. apply (bool_decide_unpack _). vm_compute. exact I. Qed.

Lemma serve_route path method endpoint :
  (path, (method, endpoint)) ∈ routes ->
  exists i, list_find (fun route => route.1 = path) routes = Some (i, (path, (method, endpoint))).
Proof.
  intros Hin. apply list_elem_of_lookup in Hin as [i Hi].
  exists i. apply list_find_Some. split; [done|]. split; [done|].
  intros j y Hj Hlt Hy. pose proof routes_distinct as Hnd.
  assert (j = i); [|lia]. apply (NoDup_lookup _ _ _ path Hnd).
  - rewrite list_lookup_fmap, Hj. cbn [fmap option_fmap option_map]. by rewrite Hy.
  - by rewrite list_lookup_fmap, Hi.
Qed.

Lemma serve_get path h : (path, get h) ∈ routes ->
  serve (mkRequest Method_Get path None) = Outcome_Handled (answer_json h).
Proof. intros Hin. unfold Router.serve. cbn [rq_path]. by destruct (serve_route _ _ _ Hin) as [i ->]. Qed.

Lemma serve_post0 path h : (path, post0 h) ∈ routes ->
  serve (mkRequest Method_Post path None) = Outcome_Handled (answer_json h).
Proof. intros Hin. unfold Router.serve. cbn [rq_path]. by destruct (serve_route _ _ _ Hin) as [i ->]. Qed.

Lemma serve_post {A} path decode (h : A -> Handler) body a : (path, post decode h) ∈ routes -> decode body = Some a ->
  serve (mkRequest Method_Post path (Some body)) = Outcome_Handled (answer_json (h a)).
Proof. intros Hin Hd. unfold Router.serve. cbn [rq_path]. destruct (serve_route _ _ _ Hin) as [i ->]. cbn. by rewrite Hd. Qed.

Ltac find_route := repeat first [apply list_elem_of_here | apply list_elem_of_further].

(** Evaluates the reading of a request up to its integers and bytes. *)
Ltac decode := cbv -[from_uint from_vec json_bytes]; rewrite ?from_uint_num, ?from_vec_bytes by (done || auto); reflexivity.

(** C18 (type): The client and the daemon agree on the API. Every command of the
    client that makes a request sends a method, a path and a body that the daemon
    routes to the handler the command is meant for and that the handler reads as
    exactly the arguments the command was given, whatever optional arguments are
    present. ([bench] runs requests of other commands and is not one of them.) *)
Theorem ctl_requests_accepted (c : Commands) (call : Call) :
  command_ok c -> call_of c = Some call ->
  exists h, handler_of c = Some h /\ serve (call_request call) = Outcome_Handled (answer_json h).
Proof.
  intros Hok Hcall. destruct c; cbn in Hcall, Hok; try discriminate Hcall; injection Hcall as <-;
    cbn [handler_of]; (eexists; split; [reflexivity|]);
    first [solve [apply serve_get; find_route] | solve [apply serve_post0; find_route] | eapply serve_post; [find_route|]].
  all: try (destruct replica_node_id, replica_jetty_id). all: try destruct pin.
  all: destruct_and?; decode.
Qed.
End Agreement.

(** Commands that report an error of the daemon as such. *)
Definition reports_errors (c : Commands) : bool :=
  match c with
  | Commands_NodeStart _ | Commands_Bench _ _ _ | Commands_NodeList | Commands_NodeInfo | Commands_MrList
  | Commands_MrCache | Commands_JettyList | Commands_DeviceList | Commands_RegionList
  | Commands_RegionInvalidate _ _ => false
  | _ => true
  end.

Lemma ctl_error_shown c call e :
  reports_errors c = true -> call_of c = Some call ->
  call_show call (JObj ["error" :- JStr e]) = Ok [[Lit "Error: "; Txt e]].
Proof. intros Hc Hcall. destruct c; cbn in Hc; try discriminate Hc; injection Hcall as <-; reflexivity. Qed.

(** ** Examples *)

Definition put_command : Commands :=
  Commands_KvPut (str "0x0001:002a:0000:0000000000000000:0000") 1 (str "k") (str "v") None (Some 7).

Lemma ctl_requests_accepted_witness : exists h,
  handler_of (entries := canonical_order) (regions := canonical_order) (fun _ => []) put_command = Some h
  /\ serve (entries := canonical_order) (regions := canonical_order) (fun _ => [])
       (call_request (ctl_kv_put (str "0x0001:002a:0000:0000000000000000:0000") 1 (str "k") (str "v") None (Some 7)))
     = Outcome_Handled (answer_json h).
Proof.
  apply (ctl_requests_accepted (entries := canonical_order) (regions := canonical_order) (fun _ => []) put_command).
  - cbn. split; [done|]. split; [done|]. by intros n [= <-].
  - reflexivity.
Defined.

(** ** What the client gets wrong *)

(** An error of the daemon is shown as a region that was not cached. *)
Theorem invalidate_hides_error e :
  call_show (ctl_region_invalidate 5 1) (JObj ["error" :- JStr e])
  = Ok [[Lit "Region "; Dec 5; Lit " not invalidated (not cached or stale)"]].
Proof. reflexivity. Qed.

(** With no iterations the benchmark aborts at the median of an empty list. *)
Theorem bench_without_iterations ask ub_addr size : ctl_bench ask ub_addr 0 size = Some Panic.
Proof. reflexivity. Qed.

(** Ten latencies: the percentiles are the sixth and the last one. *)
Example bench_statistics :
  exists avg rest, print_stats "write" (map f64_of_int [70; 20; 30; 100; 50; 60; 10; 80; 90; 40]) 10 0 1024
  = Ok ([] :: [Lit "  "; Lit "write"; Lit ":"] :: [Lit "    ok="; Dec 10; Lit " err="; Dec 0]
        :: [Lit "    latency (µs): avg="; Fixed 1 avg; Lit " p50="; Fixed 1 (f64_of_int 60);
            Lit " p90="; Fixed 1 (f64_of_int 100); Lit " p99="; Fixed 1 (f64_of_int 100)] :: rest).
Proof. vm_compute. eauto. Qed.
