(* ===== verification/Testing.v ===== *)
(** * Testing: running the repository's own tests on the model

    A unit test of the repository is a program over the component it tests. [Test S A] is such a
    program: it changes the component's state and stops where an assertion fails, an
    [unwrap] meets an error or a call panics. A test is translated call by call, and
    [passes] runs it; that it passes is decided by computation. *)

From S2P Require Import Prelude Bytes.
#[local] Open Scope Z_scope.

Declare Scope test_scope.
Delimit Scope test_scope with test.

Definition Test (S A : Type) : Type := S -> option (A * S).

Section Programs.
Context {S : Type}.

Definition test_ret {A} (a : A) : Test S A := fun s => Some (a, s).
Definition test_bind {A B} (t : Test S A) (k : A -> Test S B) : Test S B := fun s =>
  match t s with
  | Some (a, s) => k a s
  | None => None
  end.

(** [assert!], [assert_eq!], [assert_ne!]. *)
Definition assert (b : bool) : Test S unit := fun s => if b then Some (tt, s) else None.
Definition assert_eq {A} `{EqDecision A} (a b : A) : Test S unit := assert (bool_decide (a = b)).
Definition assert_ne {A} `{EqDecision A} (a b : A) : Test S unit := assert (bool_decide (a <> b)).

(** Looking at the state, and calls of the four shapes the operations have. *)
Definition query {A} (f : S -> A) : Test S A := fun s => Some (f s, s).
Definition update (f : S -> S) : Test S unit := fun s => Some (tt, f s).
Definition call {A} (f : S -> S * A) : Test S A := fun s => let '(s, a) := f s in Some (a, s).
Definition pop {A} (f : S -> A * S) : Test S A := fun s => Some (f s).

(** [unwrap] on a value and on the result of a call. *)
Definition unwrap {A} (o : option A) : Test S A := fun s => a ← o; Some (a, s).
Definition unwrap_ok {A} (r : Result A) : Test S A := fun s =>
  match r with
  | Ok a => Some (a, s)
  | _ => None
  end.
Definition succeeds (f : S -> Result S) : Test S unit := fun s =>
  match f s with
  | Ok s => Some (tt, s)
  | _ => None
  end.
Definition yields {A} (f : S -> Result (S * A)) : Test S A := fun s =>
  match f s with
  | Ok (s, a) => Some (a, s)
  | _ => None
  end.

Definition yields_swapped {A} (f : S -> Result (A * S)) : Test S A := fun s =>
  match f s with
  | Ok (a, s) => Some (a, s)
  | _ => None
  end.

(** [unwrap] on a call that only reads. *)
Definition ask {A} (f : S -> Result A) : Test S A := fun s =>
  match f s with
  | Ok a => Some (a, s)
  | _ => None
  end.

(** [is_err] of a call that would change the state. *)
Definition is_err {A} (r : Result A) : bool := match r with Err _ => true | _ => false end.
Definition fails_with {A} (r : Result A) (e : UbError) : bool :=
  match r with
  | Err e' => bool_decide (e' = e)
  | _ => false
  end.

Definition expect {A} (f : S -> A) (p : A -> bool) : Test S unit := fun s =>
  if p (f s) then Some (tt, s) else None.

Definition passes {A} (t : Test S A) (s : S) : bool :=
  match t s with
  | Some _ => true
  | None => false
  end.
End Programs.

Notation "x <- t ;; k" := (test_bind t (fun x => k))
  (at level 100, t at next level, right associativity) : test_scope.
Notation "'let!' x ':=' t 'in' k" := (test_bind t (fun x => k))
  (at level 100, x pattern, t at level 99, k at level 100, right associativity) : test_scope.
Notation "t ;; k" := (test_bind t (fun _ => k)) (at level 100, right associativity) : test_scope.

Fixpoint for_each {S A} (l : list A) (f : A -> Test S unit) : Test S unit :=
  match l with
  | [] => test_ret tt
  | x :: l => test_bind (f x) (fun _ => for_each l f)
  end.

(** The numbers of [for i in from..to]. *)
Definition range (from to : Z) : list Z := seqZ from (to - from).

(** [vec![0; n]]. *)
Definition zeros (n : Z) : bytes := repeat 0 (Z.to_nat n).

(** All tests of a list pass. *)
Definition all_pass (tests : list bool) : bool := forallb (fun b => b) tests.
