(* ===== verification/TestCore.v ===== *)
(** * TestCore: the tests of ub-core

    The unit tests of addr.rs, types.rs, device/memory.rs, mr.rs, verbs.rs and jetty.rs, run
    on the model. *)

From S2P Require Import Prelude Bytes Types Float Addr Device Mr Verbs Jetty Registry.
From S2P Require Import Testing.
#[local] Open Scope Z_scope.
#[local] Open Scope test_scope.

(** ** Addresses *)

(** Source: crates/ub-core/src/addr.rs:108-115, [tests::test_ub_addr_roundtrip]. *)
Definition test_ub_addr_roundtrip : bool :=
  let addr := UbAddr_new 1 42 0 0xDEADBEEF 0 in
  passes (
    assert_eq (UbAddr_pod_id addr) 1;;
    assert_eq (UbAddr_node_id addr) 42;;
    assert_eq (UbAddr_device_id addr) 0;;
    assert_eq (UbAddr_offset addr) 0xDEADBEEF;;
    assert_eq (UbAddr_reserved addr) 0) tt.

(** Source: crates/ub-core/src/addr.rs:118-124, [tests::test_ub_addr_text_roundtrip]. *)
Definition test_ub_addr_text_roundtrip : bool :=
  let addr := UbAddr_new 1 0x42 0 0xDEADBEEF 0 in
  let text := UbAddr_to_text addr in
  passes (
    assert_eq text (str "0x0001:0042:0000:00000000deadbeef:0000");;
    parsed <- unwrap_ok (UbAddr_from_text text);;
    assert_eq addr parsed) tt.

(** Source: crates/ub-core/src/addr.rs:127-132, [tests::test_ub_addr_bytes_roundtrip]. *)
Definition test_ub_addr_bytes_roundtrip : bool :=
  let addr := UbAddr_new 1 66 1 0x123456789ABCDEF0 0 in
  passes (assert_eq addr (UbAddr_from_bytes (UbAddr_to_bytes addr))) tt.

(** Source: crates/ub-core/src/addr.rs:135-141, [tests::test_ub_addr_with_offset]. *)
Definition test_ub_addr_with_offset : bool :=
  let addr2 := UbAddr_with_offset (UbAddr_new 1 42 0 0 0) 1024 in
  passes (
    assert_eq (UbAddr_offset addr2) 1024;;
    assert_eq (UbAddr_pod_id addr2) 1;;
    assert_eq (UbAddr_node_id addr2) 42) tt.

(** Source: crates/ub-core/src/addr.rs:144-148, [tests::test_ub_addr_example]. *)
Definition test_ub_addr_example : bool :=
  let text := UbAddr_to_text (UbAddr_new 1 66 0 0xDEADBEEF 0) in
  passes (assert_eq (take 17 text) (str "0x0001:0042:0000:")) tt.

(** Source: crates/ub-core/src/addr.rs:151-156, [tests::test_ub_addr_parse_errors]. *)
Definition test_ub_addr_parse_errors : bool :=
  passes (for_each ["invalid"; "0x1:2:3"; "1:2:3:4:5"; "0x1:2:3:4:5:6"]%string
    (fun s => assert (is_err (UbAddr_from_text (str s))))) tt.

(** ** Shared types *)

(** Source: crates/ub-core/src/types.rs:365-373, [tests::test_mr_perms_bits]. *)
Definition test_mr_perms_bits : bool :=
  let rw := Z.lor MrPerms_READ MrPerms_WRITE in
  passes (
    assert_eq MrPerms_READ 1;;
    assert_eq MrPerms_WRITE 2;;
    assert_eq MrPerms_ATOMIC 4;;
    assert (flags_contains rw MrPerms_READ);;
    assert (flags_contains rw MrPerms_WRITE);;
    assert (negb (flags_contains rw MrPerms_ATOMIC))) tt.

(** Source: crates/ub-core/src/types.rs:376-383, [tests::test_verb_roundtrip]. *)
Definition test_verb_roundtrip : bool :=
  passes (
    for_each (range 1 10) (fun v => verb <- unwrap (Verb_from_u8 v);; assert_eq (Verb_as_u8 verb) v);;
    assert_eq (Verb_from_u8 0) None;;
    assert_eq (Verb_from_u8 10) None) tt.

(** Source: crates/ub-core/src/types.rs:386-390, [tests::test_device_kind_roundtrip]. *)
Definition test_device_kind_roundtrip : bool :=
  passes (
    assert_eq (DeviceKind_from_u8 0) (Some DeviceKind_Memory);;
    assert_eq (DeviceKind_from_u8 1) (Some DeviceKind_Npu);;
    assert_eq (DeviceKind_from_u8 2) None) tt.

(** Source: crates/ub-core/src/types.rs:393-405, [tests::test_error_code_values]. *)
Definition test_error_code_values : bool :=
  passes (assert_eq
    [UB_OK; UB_ERR_ADDR_INVALID; UB_ERR_PERM_DENIED; UB_ERR_ALIGNMENT; UB_ERR_LINK_DOWN; UB_ERR_NO_RESOURCES;
     UB_ERR_TIMEOUT; UB_ERR_PAYLOAD_TOO_LARGE; UB_ERR_FLUSHED; UB_ERR_INTERNAL] (range 0 10)) tt.

(** Source: crates/ub-core/src/types.rs:434-442, [tests::test_storage_tier_roundtrip]. *)
Definition test_storage_tier_roundtrip : bool :=
  passes (
    assert_eq (StorageTier_from_u8 0) (Some StorageTier_Hot);;
    assert_eq (StorageTier_from_u8 1) (Some StorageTier_Warm);;
    assert_eq (StorageTier_from_u8 2) (Some StorageTier_Cold);;
    assert_eq (StorageTier_from_u8 3) None;;
    assert_eq (StorageTier_as_u8 StorageTier_Hot) 0;;
    assert_eq (StorageTier_as_u8 StorageTier_Warm) 1;;
    assert_eq (StorageTier_as_u8 StorageTier_Cold) 2) tt.

(** [(a - b).abs() < f64::EPSILON]. *)
Definition close (a b : f64) : bool := f64_ltb (f64_abs (f64_sub a b)) (f64_lit 1 (-52)).

(** Source: crates/ub-core/src/types.rs:445-453, [tests::test_device_profile_memory_default]. *)
Definition test_device_profile_memory_default : bool :=
  let p := DeviceProfile_memory_default 1 (1024 * 1024 * 256) in
  passes (
    assert_eq (dp_device_key p) (1, 0);;
    assert_eq (dp_kind p) DeviceKind_Memory;;
    assert_eq (dp_tier p) StorageTier_Warm;;
    assert_eq (dp_peak_read_bw_mbps p) 10000;;
    assert_eq (dp_read_latency_ns_p50 p) 200;;
    assert (SFeqb (DeviceProfile_free_ratio p) (f64_of_int 1))) tt.

(** Source: crates/ub-core/src/types.rs:456-463, [tests::test_device_profile_npu_default]. *)
Definition test_device_profile_npu_default : bool :=
  let p := DeviceProfile_npu_default 1 1 (1024 * 1024 * 256) in
  passes (
    assert_eq (dp_device_key p) (1, 1);;
    assert_eq (dp_kind p) DeviceKind_Npu;;
    assert_eq (dp_tier p) StorageTier_Hot;;
    assert_eq (dp_peak_read_bw_mbps p) 50000;;
    assert_eq (dp_read_latency_ns_p50 p) 50) tt.

(** Source: crates/ub-core/src/types.rs:466-479, [tests::test_device_profile_free_ratio].
    0.7 is the double nearest to it. *)
Definition test_device_profile_free_ratio : bool :=
  passes (
    expect DeviceProfile_free_bytes (Z.eqb 1000);;
    expect DeviceProfile_free_ratio (close (f64_of_int 1));;
    update (fun p => p <| dp_used_bytes := 300 |>);;
    expect DeviceProfile_free_bytes (Z.eqb 700);;
    expect DeviceProfile_free_ratio (close (f64_lit 0x16666666666666 (-53)));;
    update (fun p => p <| dp_used_bytes := 1000 |>);;
    expect DeviceProfile_free_bytes (Z.eqb 0);;
    expect DeviceProfile_free_ratio (close (f64_of_int 0));;
    update (fun p => p <| dp_used_bytes := 2000 |>);;
    expect DeviceProfile_free_bytes (Z.eqb 0)) (DeviceProfile_memory_default 1 1000).

(** Source: crates/ub-core/src/types.rs:482-502, [tests::test_ub_va_encoding]. *)
Definition test_ub_va_encoding : bool :=
  passes (
    for_each [(42, 1024); (1, 0); (2 ^ 64 - 1, 2 ^ 64 - 1)] (fun '(region, offset) =>
      let va := UbVa_new region offset in
      assert_eq (UbVa_region_id va) region;;
      assert_eq (UbVa_offset va) offset)) tt.

(** Source: crates/ub-core/src/types.rs:505-513, [tests::test_alloc_hints_default]. *)
Definition test_alloc_hints_default : bool :=
  match AllocHints_default with
  | mkAllocHints 4096 AccessPattern_Mixed LatencyClass_Normal CapacityClass_Small None 0 => true
  | _ => false
  end.

(** Source: crates/ub-core/src/types.rs:516-521, [tests::test_latency_class_roundtrip]. *)
Definition test_latency_class_roundtrip : bool :=
  match map LatencyClass_from_u8 (range 0 4) with
  | [Some LatencyClass_Critical; Some LatencyClass_Normal; Some LatencyClass_Bulk; None] => true
  | _ => false
  end.

(** Source: crates/ub-core/src/types.rs:524-529, [tests::test_capacity_class_roundtrip]. *)
Definition test_capacity_class_roundtrip : bool :=
  match map CapacityClass_from_u8 (range 0 4) with
  | [Some CapacityClass_Small; Some CapacityClass_Large; Some CapacityClass_Huge; None] => true
  | _ => false
  end.

(** Source: crates/ub-core/src/types.rs:532-537, [tests::test_access_pattern_roundtrip]. *)
Definition test_access_pattern_roundtrip : bool :=
  match map AccessPattern_from_u8 (range 0 4) with
  | [Some AccessPattern_ReadHeavy; Some AccessPattern_WriteHeavy; Some AccessPattern_Mixed; None] => true
  | _ => false
  end.

Lemma address_and_type_tests : all_pass
  [test_ub_addr_roundtrip; test_ub_addr_text_roundtrip; test_ub_addr_bytes_roundtrip;
   test_ub_addr_with_offset;    test_ub_addr_example; test_ub_addr_parse_errors; test_mr_perms_bits;
   test_verb_roundtrip;    test_device_kind_roundtrip; test_error_code_values; test_storage_tier_roundtrip;
   test_device_profile_memory_default; test_device_profile_npu_default; test_device_profile_free_ratio;
   test_ub_va_encoding; test_alloc_hints_default; test_latency_class_roundtrip;
   test_capacity_class_roundtrip;    test_access_pattern_roundtrip] = true.
Proof. vm_compute. reflexivity. Qed.

(** ** Devices *)

(** Source: crates/ub-core/src/device/memory.rs:103-105, [tests::write_u64_native]. *)
Definition write_u64_native (offset val : Z) : Test MemoryDevice unit :=
  succeeds (fun dev => MemoryDevice_write dev offset (le_bytes val)).

(** Source: crates/ub-core/src/device/memory.rs:108-112, [tests::read_u64_native]. *)
Definition read_u64_native (offset : Z) : Test MemoryDevice Z :=
  buf <- ask (fun dev => MemoryDevice_read dev offset 8);; test_ret (le_value buf).

(** Source: crates/ub-core/src/device/memory.rs:115-121, [tests::test_memory_device_read_write]. *)
Definition test_memory_device_read_write : bool :=
  passes (
    succeeds (fun dev => MemoryDevice_write dev 0 [1; 2; 3; 4]);;
    buf <- ask (fun dev => MemoryDevice_read dev 0 4);;
    assert_eq buf [1; 2; 3; 4]) (MemoryDevice_new 4096).

(** Source: crates/ub-core/src/device/memory.rs:124-128, [tests::test_memory_device_out_of_bounds]. *)
Definition test_memory_device_out_of_bounds : bool :=
  passes (
    expect (fun dev => MemoryDevice_read dev 0 17) is_err;;
    expect (fun dev => MemoryDevice_write dev 8 (zeros 9)) is_err) (MemoryDevice_new 16).

(** Source: crates/ub-core/src/device/memory.rs:131-140, [tests::test_memory_device_atomic_cas_success]. *)
Definition test_memory_device_atomic_cas_success : bool :=
  passes (
    write_u64_native 0 0;;
    old <- yields_swapped (fun dev => MemoryDevice_atomic_cas dev 0 0 42);;
    assert_eq old 0;;
    v <- read_u64_native 0;;
    assert_eq v 42) (MemoryDevice_new 4096).

(** Source: crates/ub-core/src/device/memory.rs:143-152, [tests::test_memory_device_atomic_cas_failure]. *)
Definition test_memory_device_atomic_cas_failure : bool :=
  passes (
    write_u64_native 0 42;;
    old <- yields_swapped (fun dev => MemoryDevice_atomic_cas dev 0 0 99);;
    assert_eq old 42;;
    v <- read_u64_native 0;;
    assert_eq v 42) (MemoryDevice_new 4096).

(** Source: crates/ub-core/src/device/memory.rs:155-163, [tests::test_memory_device_atomic_faa]. *)
Definition test_memory_device_atomic_faa : bool :=
  passes (
    write_u64_native 0 42;;
    old <- yields_swapped (fun dev => MemoryDevice_atomic_faa dev 0 10);;
    assert_eq old 42;;
    v <- read_u64_native 0;;
    assert_eq v 52) (MemoryDevice_new 4096).

(** Source: crates/ub-core/src/device/memory.rs:166-170, [tests::test_memory_device_atomic_alignment_error]. *)
Definition test_memory_device_atomic_alignment_error : bool :=
  passes (
    expect (fun dev => MemoryDevice_atomic_cas dev 1 0 42) is_err;;
    expect (fun dev => MemoryDevice_atomic_faa dev 3 10) is_err) (MemoryDevice_new 4096).

(** Source: crates/ub-core/src/device/memory.rs:173-176, [tests::test_memory_device_atomic_out_of_bounds]. *)
Definition test_memory_device_atomic_out_of_bounds : bool :=
  passes (expect (fun dev => MemoryDevice_atomic_cas dev 8 0 1) is_err) (MemoryDevice_new 8).

(** Source: crates/ub-core/src/device/memory.rs:179-184, [tests::test_memory_device_kind_and_id]. *)
Definition test_memory_device_kind_and_id : bool :=
  let dev := MemoryDevice_new 1024 in
  passes (
    assert_eq (dev_kind dev) DeviceKind_Memory;;
    assert_eq (dev_device_id dev) 0;;
    assert_eq (dev_capacity dev) 1024) tt.

(** Source: crates/ub-core/src/device/memory.rs:187-190, [tests::test_memory_device_tier_is_warm]. *)
Definition test_memory_device_tier_is_warm : bool :=
  passes (assert_eq (dev_tier (MemoryDevice_new 1024)) StorageTier_Warm) tt.

(** Source: crates/ub-core/src/device/npu.rs:181-187, [tests::test_npu_alloc_no_overlap]. *)
Definition test_npu_alloc_no_overlap : bool :=
  passes (
    r1 <- pop (fun dev => NpuDevice_alloc dev 1024 8);;
    r2 <- pop (fun dev => NpuDevice_alloc dev 1024 8);;
    let! (off1, _) := unwrap_ok r1 in
    let! (off2, _) := unwrap_ok r2 in
    assert_eq off1 0;;
    assert_eq off2 1024) (NpuDevice_new 1 1).

(** Source: crates/ub-core/src/device/npu.rs:190-194, [tests::test_npu_alloc_alignment]. *)
Definition test_npu_alloc_alignment : bool :=
  passes (
    r <- pop (fun dev => NpuDevice_alloc dev 100 64);;
    let! (off, _) := unwrap_ok r in
    assert_eq (off mod 64) 0) (NpuDevice_new 1 1).

(** Source: crates/ub-core/src/device/npu.rs:197-201, [tests::test_npu_device_kind_and_id]. *)
Definition test_npu_device_kind_and_id : bool :=
  let dev := NpuDevice_new 1 1 in
  passes (
    assert_eq (dev_kind dev) DeviceKind_Npu;;
    assert (1 <=? dev_device_id dev)) tt.

(** Source: crates/ub-core/src/device/npu.rs:150-156, [tests::test_npu_device_read_write]. *)
Definition test_npu_device_read_write : bool :=
  passes (
    succeeds (fun dev => NpuDevice_write dev 0 [1; 2; 3; 4]);;
    buf <- ask (fun dev => NpuDevice_read dev 0 4);;
    assert_eq buf [1; 2; 3; 4]) (NpuDevice_new 1 1).

(** Source: crates/ub-core/src/device/npu.rs:159-167, [tests::test_npu_device_atomic_cas]. *)
Definition test_npu_device_atomic_cas : bool :=
  passes (
    succeeds (fun dev => NpuDevice_write dev 0 (le_bytes 0));;
    old <- yields_swapped (fun dev => NpuDevice_atomic_cas dev 0 0 42);;
    assert_eq old 0;;
    buf <- ask (fun dev => NpuDevice_read dev 0 8);;
    assert_eq (le_value buf) 42) (NpuDevice_new 1 1).

(** Source: crates/ub-core/src/device/npu.rs:170-178, [tests::test_npu_device_atomic_faa]. *)
Definition test_npu_device_atomic_faa : bool :=
  passes (
    succeeds (fun dev => NpuDevice_write dev 0 (le_bytes 10));;
    old <- yields_swapped (fun dev => NpuDevice_atomic_faa dev 0 5);;
    assert_eq old 10;;
    buf <- ask (fun dev => NpuDevice_read dev 0 8);;
    assert_eq (le_value buf) 15) (NpuDevice_new 1 1).

(** Source: crates/ub-core/src/device/npu.rs:204-209, [tests::test_npu_device_tier_is_hot]. *)
Definition test_npu_device_tier_is_hot : bool :=
  let dev := NpuDevice_new 1 1 in
  let '(peak_read_bw_mbps, _, read_latency_ns_p50, _) := dev_figures dev in
  passes (
    assert_eq (dev_tier dev) StorageTier_Hot;;
    assert_eq peak_read_bw_mbps 50000;;
    assert_eq read_latency_ns_p50 50) tt.

(** Source: crates/ub-core/src/device/npu.rs:212-216, [tests::test_ub_npu_open]. *)
Definition test_ub_npu_open : bool :=
  let '(_, npu) := ub_npu_open 1 1 in
  passes (
    assert_eq (dev_kind npu) DeviceKind_Npu;;
    assert (1 <=? dev_device_id npu)) tt.

Lemma npu_tests : all_pass
  [test_npu_device_read_write; test_npu_device_atomic_cas; test_npu_device_atomic_faa;
   test_npu_device_tier_is_hot; test_ub_npu_open] = true.
Proof. vm_compute. reflexivity. Qed.

Lemma device_tests : all_pass
  [test_memory_device_read_write; test_memory_device_out_of_bounds; test_memory_device_atomic_cas_success;
   test_memory_device_atomic_cas_failure; test_memory_device_atomic_faa;
   test_memory_device_atomic_alignment_error; test_memory_device_atomic_out_of_bounds;
   test_memory_device_kind_and_id; test_memory_device_tier_is_warm; test_npu_alloc_no_overlap;
   test_npu_alloc_alignment; test_npu_device_kind_and_id] = true.
Proof. vm_compute. reflexivity. Qed.

(** ** Memory regions *)

(** [Arc::new(MemoryDevice::new(4096))]: the devices of a test, by index. *)
Definition devs : list DynDevice := [DynMemory (MemoryDevice_new 4096); DynMemory (MemoryDevice_new 4096)].

Definition RW : Z := Z.lor MrPerms_READ MrPerms_WRITE.
Definition RWA : Z := Z.lor RW MrPerms_ATOMIC.

(** [table.register(dev, len, perms).unwrap()]. *)
Definition register (device : nat) (len perms : Z) : Test MrTable (Z * Z) :=
  yields (fun t => MrTable_register t devs device len perms).

(** [table.lookup(handle).unwrap()]: the shared entry, and reading it. *)
Definition lookup (handle : Z) : Test MrTable nat :=
  arc <- query (fun t => MrTable_lookup t handle);; unwrap arc.
Definition entry (arc : nat) : Test MrTable MrEntry :=
  e <- query (fun t => mt_heap t !! arc);; unwrap e.

(** [entry.try_inflight_inc()], [entry.inflight_dec()], [entry.set_state(..)] through the [Arc]. *)
Definition try_inflight_inc (arc : nat) : Test MrTable bool :=
  e <- entry arc;;
  update (fun t => arc_update t arc (fun e => (MrEntry_try_inflight_inc e).1));;
  test_ret (MrEntry_try_inflight_inc e).2.
Definition inflight_dec (arc : nat) : Test MrTable unit :=
  update (fun t => arc_update t arc (fun e => (MrEntry_inflight_dec e).1)).
Definition set_state (arc : nat) (st : MrState) : Test MrTable unit :=
  update (fun t => arc_set_state t arc st).

(** Source: crates/ub-core/src/mr.rs:395-397, [tests::make_table]. *)
Definition make_table : MrTable :=
  MrTable_new 1 42.

(** Source: crates/ub-core/src/mr.rs:400-411, [tests::test_mr_register_and_lookup]. *)
Definition test_mr_register_and_lookup : bool :=
  passes (
    let! (_, handle) := register 0 1024 RW in
    arc <- lookup handle;; e <- entry arc;;
    assert_eq (me_handle e) handle;;
    assert_eq (me_perms e) RW;;
    assert_eq (UbAddr_pod_id (me_base_ub_addr e)) 1;;
    assert_eq (UbAddr_node_id (me_base_ub_addr e)) 42;;
    assert_eq (UbAddr_device_id (me_base_ub_addr e)) 0) make_table.

(** Source: crates/ub-core/src/mr.rs:414-422, [tests::test_mr_two_registrations_no_overlap]. *)
Definition test_mr_two_registrations_no_overlap : bool :=
  passes (
    let! (addr1, _) := register 0 1024 MrPerms_READ in
    let! (addr2, _) := register 0 1024 MrPerms_WRITE in
    assert_ne (UbAddr_offset addr1) (UbAddr_offset addr2);;
    assert (UbAddr_offset addr1 + 1024 <=? UbAddr_offset addr2)) make_table.

(** Source: crates/ub-core/src/mr.rs:425-431, [tests::test_mr_deregister]. *)
Definition test_mr_deregister : bool :=
  passes (
    let! (_, handle) := register 0 1024 MrPerms_READ in
    succeeds (fun t => MrTable_deregister t handle);;
    found <- query (fun t => MrTable_lookup t handle);;
    assert_eq found None) make_table.

(** Source: crates/ub-core/src/mr.rs:434-437, [tests::test_mr_deregister_nonexistent]. *)
Definition test_mr_deregister_nonexistent : bool :=
  passes (expect (fun t => MrTable_deregister t 999) is_err) make_table.

(** Source: crates/ub-core/src/mr.rs:440-450, [tests::test_mr_lookup_by_addr]. *)
Definition test_mr_lookup_by_addr : bool :=
  passes (
    let! (base_addr, _) := register 0 1024 RW in
    let access_addr := UbAddr_with_offset base_addr (UbAddr_offset base_addr + 100) in
    found <- query (fun t => MrTable_lookup_by_addr t access_addr);;
    let! (arc, offset_in_mr) := unwrap found in
    assert_eq offset_in_mr 100;;
    e <- entry arc;;
    assert_eq (me_len e) 1024) make_table.

(** Source: crates/ub-core/src/mr.rs:453-461, [tests::test_mr_lookup_by_addr_out_of_range]. *)
Definition test_mr_lookup_by_addr_out_of_range : bool :=
  passes (
    let! (base_addr, _) := register 0 1024 MrPerms_READ in
    let access_addr := UbAddr_with_offset base_addr (UbAddr_offset base_addr + 2000) in
    found <- query (fun t => MrTable_lookup_by_addr t access_addr);;
    assert_eq found None) make_table.

(** Source: crates/ub-core/src/mr.rs:464-476, [tests::test_mr_inflight_refcount]. *)
Definition test_mr_inflight_refcount : bool :=
  passes (
    let! (_, handle) := register 0 1024 MrPerms_READ in
    arc <- lookup handle;;
    ok1 <- try_inflight_inc arc;; ok2 <- try_inflight_inc arc;;
    assert ok1;; assert ok2;;
    e <- entry arc;; assert_eq (me_inflight_refs e) 2;;
    inflight_dec arc;; inflight_dec arc;;
    e <- entry arc;; assert_eq (me_inflight_refs e) 0) make_table.

(** Source: crates/ub-core/src/mr.rs:479-487, [tests::test_mr_inflight_blocked_when_revoking]. *)
Definition test_mr_inflight_blocked_when_revoking : bool :=
  passes (
    let! (_, handle) := register 0 1024 MrPerms_READ in
    arc <- lookup handle;;
    set_state arc MrState_Revoking;;
    ok <- try_inflight_inc arc;; assert (negb ok)) make_table.

(** Source: crates/ub-core/src/mr.rs:490-508, [tests::test_mr_check_perms]. *)
Definition test_mr_check_perms : bool :=
  let allowed e verb := is_ok (MrEntry_check_perms e verb) in
  passes (
    let! (_, handle) := register 0 1024 MrPerms_READ in
    arc <- lookup handle;; e <- entry arc;;
    assert (allowed e Verb_ReadReq);;
    assert (negb (allowed e Verb_Write));;
    assert (negb (allowed e Verb_AtomicCas));;
    let! (_, handle2) := register 1 1024 RWA in
    arc2 <- lookup handle2;; e2 <- entry arc2;;
    for_each [Verb_ReadReq; Verb_Write; Verb_AtomicCas; Verb_AtomicFaa] (fun verb => assert (allowed e2 verb)))
    make_table.

(** Source: crates/ub-core/src/mr.rs:511-529, [tests::test_mr_cache_table]. *)
Definition test_mr_cache_table : bool :=
  let addr := UbAddr_new 1 10 0 0 0 in
  passes (
    update (fun c => MrCacheTable_insert c (mkMrCacheEntry 1 10 addr 1024 MrPerms_READ DeviceKind_Memory));;
    found <- query (fun c => MrCacheTable_lookup_by_addr c (UbAddr_with_offset addr 100));;
    found <- unwrap found;;
    assert_eq (mc_remote_mr_handle found) 1;;
    update (fun c => MrCacheTable_remove c 10 1);;
    expect (fun c => MrCacheTable_lookup_by_addr c (UbAddr_with_offset addr 100))
      (fun found => match found with None => true | _ => false end)) MrCacheTable_new.

(** [rx.try_recv().unwrap()]: the next event of the channel. *)
Definition try_recv : Test MrTable MrPublishEvent := fun t =>
  match mt_publish t with
  | Some (ev :: evs) => Some (ev, t <| mt_publish := Some evs |>)
  | _ => None
  end.

(** Source: crates/ub-core/src/mr.rs:532-549, [tests::test_mr_publish_event_on_register]. *)
Definition test_mr_publish_event_on_register : bool :=
  passes (
    let! (addr, handle) := register 0 1024 RW in
    event <- try_recv;;
    match event with
    | MrPublishEvent_Publish info =>
      assert_eq (pi_mr_handle info) handle;;
      assert_eq (pi_owner_node info) 42;;
      assert_eq (pi_base_ub_addr info) addr;;
      assert_eq (pi_len info) 1024;;
      assert_eq (pi_perms info) RW;;
      assert_eq (pi_device_kind info) DeviceKind_Memory
    | MrPublishEvent_Revoke _ _ => assert false
    end) (MrTable_new_with_channel 1 42).

(** Source: crates/ub-core/src/mr.rs:552-569, [tests::test_mr_publish_event_on_deregister]. *)
Definition test_mr_publish_event_on_deregister : bool :=
  passes (
    let! (_, handle) := register 0 1024 MrPerms_READ in
    try_recv;;
    succeeds (fun t => MrTable_deregister t handle);;
    event <- try_recv;;
    match event with
    | MrPublishEvent_Revoke owner_node mr_handle =>
      assert_eq owner_node 42;;
      assert_eq mr_handle handle
    | MrPublishEvent_Publish _ => assert false
    end) (MrTable_new_with_channel 1 42).

(** Source: crates/ub-core/src/mr.rs:572-580, [tests::test_mr_table_without_channel_works]. *)
Definition test_mr_table_without_channel_works : bool :=
  passes (
    let! (_, handle) := register 0 1024 MrPerms_READ in
    lookup handle;;
    succeeds (fun t => MrTable_deregister t handle);;
    found <- query (fun t => MrTable_lookup t handle);;
    assert_eq found None) (MrTable_new 1 42).

(** Source: crates/ub-core/src/mr.rs:583-600, [tests::test_mr_deregister_revoking_state]. *)
Definition test_mr_deregister_revoking_state : bool :=
  passes (
    let! (_, handle) := register 0 1024 MrPerms_READ in
    succeeds (fun t => MrTable_deregister t handle);;
    found <- query (fun t => MrTable_lookup t handle);;
    assert_eq found None;;
    let! (_, handle2) := register 1 1024 MrPerms_READ in
    arc <- lookup handle2;;
    set_state arc MrState_Revoking;;
    ok <- try_inflight_inc arc;; assert (negb ok)) (MrTable_new 1 42).

(** Source: crates/ub-core/src/mr.rs:603-632, [tests::test_mr_deregister_waits_inflight].
    The waiting task wakes when the count is 0. *)
Definition test_mr_deregister_waits_inflight : bool :=
  passes (
    let! (_, handle) := register 0 1024 MrPerms_READ in
    arc <- lookup handle;;
    ok <- try_inflight_inc arc;; assert ok;;
    e <- entry arc;; assert_eq (me_inflight_refs e) 1;;
    set_state arc MrState_Revoking;;
    inflight_dec arc;;
    e <- entry arc;; assert_eq (me_inflight_refs e) 0) (MrTable_new 1 42).

(** Source: crates/ub-core/src/mr.rs:635-654, [tests::test_mr_deregister_timeout]. *)
Definition test_mr_deregister_timeout : bool :=
  passes (
    let! (_, handle) := register 0 1024 MrPerms_READ in
    arc <- lookup handle;;
    ok <- try_inflight_inc arc;; assert ok;;
    waiting <- yields (fun t => MrTable_deregister_async_start t handle);;
    waiting <- unwrap waiting;;
    result <- call (fun t => MrTable_deregister_async_finish t handle waiting true);;
    assert (fails_with result Timeout);;
    inflight_dec arc) (MrTable_new_with_channel 1 42).

(** Source: crates/ub-core/src/mr.rs:657-668, [tests::test_mr_deregister_already_revoking]. *)
Definition test_mr_deregister_already_revoking : bool :=
  passes (
    let! (_, handle) := register 0 1024 MrPerms_READ in
    succeeds (fun t => MrTable_deregister t handle);;
    expect (fun t => MrTable_deregister t handle) is_err) (MrTable_new 1 42).

(** ** Local verbs *)

(** A table and its devices, and a verb on them. *)
Definition Node : Type := MrTable * list DynDevice.

Definition on_devices {A} (verb : MrTable -> list DynDevice -> Result (A * list DynDevice)) : Test Node A :=
  yields_swapped (fun '(t, ds) => let? (a, ds) := verb t ds in Ok (a, (t, ds))).
Definition write_sync (addr : Z) (buf : bytes) : Test Node unit :=
  on_devices (fun t ds => let? ds := ub_write_sync t ds addr buf in Ok (tt, ds)).

(** What a failed verb returns. *)
Definition refused {A} (verb : MrTable -> list DynDevice -> Result A) (e : UbError) : Test Node unit :=
  expect (fun '(t, ds) => verb t ds) (fun r => fails_with r e).

(** Source: crates/ub-core/src/verbs.rs:70-75, [tests::make_table_with_mr]. *)
Definition make_table_with_mr (perms len : Z) (body : Z -> Test Node unit) : bool :=
  match MrTable_register (MrTable_new 1 42) devs 0 len perms with
  | Ok (table, (addr, _)) => passes (body addr) (table, devs)
  | _ => false
  end.

(** Source: crates/ub-core/src/verbs.rs:78-85, [tests::test_ub_read_sync_ok]. *)
Definition test_ub_read_sync_ok : bool :=
  make_table_with_mr RW 1024 (fun addr =>
    write_sync addr [1; 2; 3; 4];;
    buf <- ask (fun '(t, ds) => ub_read_sync t ds addr 4);;
    assert_eq buf [1; 2; 3; 4]).

(** Source: crates/ub-core/src/verbs.rs:88-92, [tests::test_ub_read_sync_perm_denied]. *)
Definition test_ub_read_sync_perm_denied : bool :=
  make_table_with_mr MrPerms_WRITE 1024 (fun addr => refused (fun t ds => ub_read_sync t ds addr 4) PermDenied).

(** Source: crates/ub-core/src/verbs.rs:95-98, [tests::test_ub_write_sync_perm_denied]. *)
Definition test_ub_write_sync_perm_denied : bool :=
  make_table_with_mr MrPerms_READ 1024 (fun addr => refused (fun t ds => ub_write_sync t ds addr [1; 2; 3]) PermDenied).

(** Source: crates/ub-core/src/verbs.rs:110-116, [tests::test_ub_atomic_cas_sync_perm_denied]. *)
Definition test_ub_atomic_cas_sync_perm_denied : bool :=
  make_table_with_mr RW 1024 (fun addr => refused (fun t ds => ub_atomic_cas_sync t ds addr 0 42) PermDenied).

(** Source: crates/ub-core/src/verbs.rs:137-143, [tests::test_ub_atomic_faa_sync_perm_denied]. *)
Definition test_ub_atomic_faa_sync_perm_denied : bool :=
  make_table_with_mr MrPerms_READ 1024 (fun addr => refused (fun t ds => ub_atomic_faa_sync t ds addr 5) PermDenied).

(** Source: crates/ub-core/src/verbs.rs:119-126, [tests::test_ub_atomic_cas_sync_alignment]. *)
Definition test_ub_atomic_cas_sync_alignment : bool :=
  make_table_with_mr MrPerms_ATOMIC 1024 (fun addr => refused (fun t ds => ub_atomic_cas_sync t ds (UbAddr_with_offset addr (UbAddr_offset addr + 3)) 0 42) Alignment).

(** Source: crates/ub-core/src/verbs.rs:101-107, [tests::test_ub_atomic_cas_sync_ok]. *)
Definition test_ub_atomic_cas_sync_ok : bool :=
  make_table_with_mr (Z.lor MrPerms_WRITE MrPerms_ATOMIC) 1024 (fun addr =>
    write_sync addr (le_bytes 0);;
    old <- on_devices (fun t ds => ub_atomic_cas_sync t ds addr 0 42);;
    assert_eq old 0).

(** Source: crates/ub-core/src/verbs.rs:129-134, [tests::test_ub_atomic_faa_sync_ok]. *)
Definition test_ub_atomic_faa_sync_ok : bool :=
  make_table_with_mr (Z.lor MrPerms_WRITE MrPerms_ATOMIC) 1024 (fun addr =>
    write_sync addr (le_bytes 10);;
    old <- on_devices (fun t ds => ub_atomic_faa_sync t ds addr 5);;
    assert_eq old 10).

(** Source: crates/ub-core/src/verbs.rs:146-151, [tests::test_ub_read_sync_addr_invalid]. *)
Definition test_ub_read_sync_addr_invalid : bool :=
  passes (refused (fun t ds => ub_read_sync t ds (UbAddr_new 99 99 99 0 0) 4) AddrInvalid) (MrTable_new 1 42, devs).

Lemma region_and_verb_tests : all_pass
  [test_mr_register_and_lookup; test_mr_two_registrations_no_overlap; test_mr_deregister;
   test_mr_deregister_nonexistent; test_mr_lookup_by_addr; test_mr_lookup_by_addr_out_of_range;
   test_mr_inflight_refcount; test_mr_inflight_blocked_when_revoking; test_mr_check_perms;
   test_mr_cache_table; test_mr_publish_event_on_register; test_mr_publish_event_on_deregister;
   test_mr_table_without_channel_works; test_mr_deregister_revoking_state;
   test_mr_deregister_waits_inflight; test_mr_deregister_timeout; test_mr_deregister_already_revoking;
   test_ub_read_sync_ok; test_ub_read_sync_perm_denied; test_ub_write_sync_perm_denied;
   test_ub_atomic_cas_sync_perm_denied; test_ub_atomic_faa_sync_perm_denied;
   test_ub_atomic_cas_sync_alignment; test_ub_atomic_cas_sync_ok; test_ub_atomic_faa_sync_ok;
   test_ub_read_sync_addr_invalid] = true.
Proof. vm_compute. reflexivity. Qed.

(** ** Jetty *)

(** The work requests, completions and buffers the tests build. *)
Definition send_wr (wr_id : Z) (data : bytes) (imm : option Z) : WorkRequest :=
  mkWorkRequest wr_id (mkJettyAddr 2 1) data imm Verb_Send None None.
Definition ok_cqe (wr_id : Z) (imm : option Z) (byte_len : Z) : Cqe := mkCqe wr_id UB_OK imm byte_len 1 Verb_Send.

Definition post_recv (len wr_id : Z) : Test Jetty unit := succeeds (fun j => Jetty_post_recv j (zeros len) wr_id).
Definition post_send (wr : WorkRequest) : Test Jetty unit := succeeds (fun j => Jetty_post_send j wr).
Definition push_cqe (cqe : Cqe) : Test Jetty unit := succeeds (fun j => Jetty_push_cqe j cqe).
Definition pop_recv : Test Jetty RecvBuffer := o <- pop Jetty_pop_recv;; unwrap o.
Definition pop_send : Test Jetty WorkRequest := o <- pop Jetty_pop_send;; unwrap o.
Definition poll_cqe : Test Jetty Cqe := o <- pop Jetty_poll_cqe;; unwrap o.

(** Source: crates/ub-core/src/jetty.rs:316-323, [tests::default_config]. *)
Definition default_config : JettyConfig := mkJettyConfig 16 16 16 12.

(** Source: crates/ub-core/src/jetty.rs:326-344, [tests::test_jetty_post_recv_and_pop]. *)
Definition test_jetty_post_recv_and_pop : bool :=
  passes (
    post_recv 64 100;; post_recv 128 101;; post_recv 256 102;;
    buf1 <- pop_recv;;
    assert_eq (rb_wr_id buf1) 100;; assert_eq (length (rb_buf buf1)) 64%nat;;
    buf2 <- pop_recv;;
    assert_eq (rb_wr_id buf2) 101;; assert_eq (length (rb_buf buf2)) 128%nat;;
    buf3 <- pop_recv;;
    assert_eq (rb_wr_id buf3) 102) (Jetty_new 1 1 default_config).

(** Source: crates/ub-core/src/jetty.rs:347-379, [tests::test_jetty_post_send_and_pop]. *)
Definition test_jetty_post_send_and_pop : bool :=
  passes (
    post_send (send_wr 200 [1; 2; 3] None);;
    post_send (send_wr 201 [4; 5; 6] (Some 42));;
    popped1 <- pop_send;;
    assert_eq (wr_wr_id popped1) 200;;
    popped2 <- pop_send;;
    assert_eq (wr_wr_id popped2) 201;;
    assert_eq (wr_imm popped2) (Some 42)) (Jetty_new 1 1 default_config).

(** Source: crates/ub-core/src/jetty.rs:382-415, [tests::test_jetty_cqe_push_and_poll]. *)
Definition test_jetty_cqe_push_and_poll : bool :=
  passes (
    push_cqe (ok_cqe 300 None 3);;
    push_cqe (ok_cqe 301 (Some 99) 5);;
    polled1 <- poll_cqe;;
    assert_eq (cqe_wr_id polled1) 300;; assert_eq (cqe_imm polled1) None;;
    polled2 <- poll_cqe;;
    assert_eq (cqe_wr_id polled2) 301;; assert_eq (cqe_imm polled2) (Some 99);;
    expect Jetty_poll_cqe (fun '(o, _) => match o with None => true | _ => false end)) (Jetty_new 1 1 default_config).

(** Source: crates/ub-core/src/jetty.rs:418-462, [tests::test_jetty_jfc_high_watermark_backpressure]. *)
Definition test_jetty_jfc_high_watermark_backpressure : bool :=
  passes (
    for_each (range 0 12) (fun i => push_cqe (ok_cqe i None 0));;
    expect (fun j => Jetty_post_send j (send_wr 999 [1] None)) (fun r => fails_with r NoResources);;
    poll_cqe;;
    post_send (send_wr 1000 [2] None)) (Jetty_new 1 1 default_config).

(** Source: crates/ub-core/src/jetty.rs:578-622, [tests::test_jetty_jfc_backpressure_recovery]. *)
Definition test_jetty_jfc_backpressure_recovery : bool :=
  passes (
    for_each (range 0 12) (fun i => push_cqe (ok_cqe i None 0));;
    expect (fun j => Jetty_post_send j (send_wr 999 [] None)) (fun r => fails_with r NoResources);;
    poll_cqe;;
    post_send (send_wr 1000 [1] None)) (Jetty_new 1 1 default_config).

(** [while let Some(cqe) = jetty.poll_cqe()], at most [n] times. *)
Fixpoint poll_flushed (n : nat) : Test Jetty nat :=
  match n with
  | O => test_ret 0%nat
  | S n =>
    o <- pop Jetty_poll_cqe;;
    match o with
    | None => test_ret 0%nat
    | Some cqe => assert_eq (cqe_status cqe) UB_ERR_FLUSHED;; count <- poll_flushed n;; test_ret (S count)
    end
  end.

(** Source: crates/ub-core/src/jetty.rs:465-501, [tests::test_jetty_close_flushes_pending]. *)
Definition test_jetty_close_flushes_pending : bool :=
  passes (
    for_each (range 0 3) (fun i => post_send (send_wr i [] None));;
    for_each (range 100 103) (fun i => post_recv 64 i);;
    update Jetty_close;;
    sent <- pop Jetty_pop_send;; assert (match sent with None => true | _ => false end);;
    posted <- pop Jetty_pop_recv;; assert (match posted with None => true | _ => false end);;
    flushed_count <- poll_flushed 100;;
    assert_eq flushed_count 6%nat) (Jetty_new 1 1 default_config).

(** [table.create().unwrap()]; handle [h] of the table. *)
Definition create : Test JettyTable Z := call JettyTable_create.
Definition jetty_found (h : Z) : Test JettyTable bool :=
  query (fun t => bool_decide (is_Some (JettyTable_lookup t h))).

(** Source: crates/ub-core/src/jetty.rs:504-524, [tests::test_jetty_table_create_lookup_deregister]. *)
Definition test_jetty_table_create_lookup_deregister : bool :=
  passes (
    h1 <- create;; h2 <- create;;
    assert_ne h1 h2;;
    j1 <- query (fun t => arc ← JettyTable_lookup t h1; jb_heap t !! arc);;
    j1 <- unwrap j1;;
    assert_eq (jt_handle j1) h1;;
    info <- query JettyTable_list;;
    assert_eq (length info) 2%nat;;
    succeeds (fun t => JettyTable_deregister t h1);;
    found <- jetty_found h1;; assert (negb found);;
    found <- jetty_found h2;; assert found;;
    expect (fun t => JettyTable_deregister t 9999) (fun r => fails_with r AddrInvalid)) (JettyTable_new 1 default_config).

(** Source: crates/ub-core/src/jetty.rs:527-540, [tests::test_jetty_jfr_depth_limit]. *)
Definition test_jetty_jfr_depth_limit : bool :=
  passes (
    post_recv 64 1;; post_recv 64 2;;
    expect (fun j => Jetty_post_recv j (zeros 64) 3) (fun r => fails_with r NoResources))
    (Jetty_new 1 1 (mkJettyConfig 16 2 16 12)).

(** Source: crates/ub-core/src/jetty.rs:543-575, [tests::test_jetty_jfs_depth_limit]. *)
Definition test_jetty_jfs_depth_limit : bool :=
  passes (
    for_each (range 0 2) (fun i => post_send (send_wr i [] None));;
    expect (fun j => Jetty_post_send j (send_wr 2 [] None)) (fun r => fails_with r NoResources))
    (Jetty_new 1 1 (mkJettyConfig 2 16 16 12)).

(** Source: crates/ub-core/src/jetty.rs:625-640, [tests::test_default_jetty_first_create]. *)
Definition test_default_jetty_first_create : bool :=
  passes (
    none <- query JettyTable_default_jetty;; assert_eq none None;;
    h1 <- create;;
    default <- query JettyTable_default_jetty;; assert_eq default (Some h1);;
    h2 <- create;;
    default <- query JettyTable_default_jetty;; assert_eq default (Some h1);;
    assert_ne h1 h2) (JettyTable_new 1 default_config).

(** Source: crates/ub-core/src/jetty.rs:643-650, [tests::test_default_jetty_not_changed_on_second_create]. *)
Definition test_default_jetty_not_changed_on_second_create : bool :=
  passes (
    h1 <- create;; create;; create;;
    default <- query JettyTable_default_jetty;; assert_eq default (Some h1)) (JettyTable_new 1 default_config).

(** Source: crates/ub-core/src/jetty.rs:653-666, [tests::test_default_jetty_close_clears]. *)
Definition test_default_jetty_close_clears : bool :=
  passes (
    h1 <- create;;
    default <- query JettyTable_default_jetty;; assert_eq default (Some h1);;
    succeeds (fun t => JettyTable_deregister t h1);;
    default <- query JettyTable_default_jetty;; assert_eq default None;;
    h2 <- create;;
    default <- query JettyTable_default_jetty;; assert_eq default (Some h2)) (JettyTable_new 1 default_config).

Lemma jetty_tests : all_pass
  [test_jetty_post_recv_and_pop; test_jetty_post_send_and_pop; test_jetty_cqe_push_and_poll;
   test_jetty_jfc_high_watermark_backpressure; test_jetty_jfc_backpressure_recovery;
   test_jetty_close_flushes_pending; test_jetty_table_create_lookup_deregister; test_jetty_jfr_depth_limit;
   test_jetty_jfs_depth_limit; test_default_jetty_first_create;
   test_default_jetty_not_changed_on_second_create; test_default_jetty_close_clears] = true.
Proof. vm_compute. reflexivity. Qed.
