(* ===== verification/TestTransport.v ===== *)
(** * TestTransport: the tests of ub-wire, ub-transport and ub-fabric

    The unit tests of frame.rs, codec.rs, dedup.rs, read_cache.rs, session.rs, manager.rs and
    udp.rs, run on the model. Instants are nanoseconds. *)

From S2P Require Import Prelude Bytes Types Float Addr Frame Dedup ReadCache.
From S2P Require Import Net Fabric Session Manager Testing.
#[local] Open Scope Z_scope.
#[local] Open Scope test_scope.

#[global] Instance FrameHeader_eq_dec : EqDecision FrameHeader.
Proof. solve_decision. Defined.
#[global] Instance DataExtHeader_eq_dec : EqDecision DataExtHeader.
Proof. solve_decision. Defined.

(** ** Frames *)

(** Source: crates/ub-wire/src/frame.rs:105-110, [tests::test_frame_type_roundtrip]. *)
Definition test_frame_type_roundtrip : bool :=
  passes (
    assert_eq (FrameType_from_u8 1) (Some FrameType_Data);;
    assert_eq (FrameType_from_u8 2) (Some FrameType_Ack);;
    assert_eq (FrameType_from_u8 3) (Some FrameType_Credit);;
    assert_eq (FrameType_from_u8 0) None) tt.

(** Source: crates/ub-wire/src/frame.rs:113-118, [tests::test_frame_flags]. *)
Definition test_frame_flags : bool :=
  let flags := Z.lor FrameFlags_ACK_REQ FrameFlags_HAS_IMM in
  passes (
    assert (flags_contains flags FrameFlags_ACK_REQ);;
    assert (flags_contains flags FrameFlags_HAS_IMM);;
    assert (negb (flags_contains flags FrameFlags_HAS_SACK))) tt.

(** Source: crates/ub-wire/src/frame.rs:121-126, [tests::test_ext_flags]. *)
Definition test_ext_flags : bool :=
  let flags := Z.lor ExtFlags_HAS_IMM ExtFlags_FRAG in
  passes (
    assert (flags_contains flags ExtFlags_HAS_IMM);;
    assert (flags_contains flags ExtFlags_FRAG);;
    assert (negb (flags_contains flags ExtFlags_ERR_RESP))) tt.

(** Source: crates/ub-wire/src/codec.rs:243-256, [tests::make_test_header]. *)
Definition make_test_header : FrameHeader :=
  mkFrameHeader MAGIC VERSION FrameType_Data FrameFlags_ACK_REQ 1 2 0 42 4 0.

(** Source: crates/ub-wire/src/codec.rs:258-272, [tests::make_test_ext]. *)
Definition make_test_ext : DataExtHeader :=
  mkDataExtHeader Verb_Write 0 1 0 0 100 100 0 1 (UbAddr_new 1 2 0 0 0) None.

(** Encoding and decoding a frame. *)
Definition recoded (header : FrameHeader) (ext : option DataExtHeader) (payload : bytes)
  : Test unit (FrameHeader * option DataExtHeader * bytes) :=
  unwrap_ok (decode_frame (encode_frame header ext payload)).

(** Source: crates/ub-wire/src/codec.rs:275-286, [tests::test_data_frame_roundtrip]. *)
Definition test_data_frame_roundtrip : bool :=
  passes (
    let! (h, e, p) := recoded make_test_header (Some make_test_ext) [1; 2; 3; 4] in
    assert_eq h make_test_header;;
    assert_eq e (Some make_test_ext);;
    assert_eq p [1; 2; 3; 4]) tt.

(** Source: crates/ub-wire/src/codec.rs:289-299, [tests::test_data_frame_with_imm]. *)
Definition test_data_frame_with_imm : bool :=
  let ext := mkDataExtHeader Verb_Write ExtFlags_HAS_IMM 1 0 0 100 100 0 1 (UbAddr_new 1 2 0 0 0) (Some 0x12345678) in
  passes (
    let! (_, e, _) := recoded make_test_header (Some ext) (zeros 4) in
    e <- unwrap e;;
    assert_eq (de_imm e) (Some 0x12345678)) tt.

(** Source: crates/ub-wire/src/codec.rs:302-314, [tests::test_fragment_frame]. *)
Definition test_fragment_frame : bool :=
  let ext := mkDataExtHeader Verb_Write ExtFlags_FRAG 1 0 0 100 100 1 3 (UbAddr_new 1 2 0 0 0) None in
  passes (
    let! (_, e, _) := recoded make_test_header (Some ext) [] in
    decoded_ext <- unwrap e;;
    assert_eq (de_frag_index decoded_ext) 1;;
    assert_eq (de_frag_total decoded_ext) 3) tt.

(** Source: crates/ub-wire/src/codec.rs:317-322, [tests::test_invalid_magic]. *)
Definition test_invalid_magic : bool :=
  let header := mkFrameHeader 0xDEADBEEF VERSION FrameType_Data FrameFlags_ACK_REQ 1 2 0 42 4 0 in
  is_err (decode_frame (encode_frame header None [])).

(** Source: crates/ub-wire/src/codec.rs:325-341, [tests::test_version_mismatch]. *)
Definition test_version_mismatch : bool :=
  is_err (decode_frame (put_u32 MAGIC ++ put_u8 99 ++ put_u8 1 ++ put_u16 0 ++ put_u16 1 ++ put_u16 2
    ++ put_u32 0 ++ put_u64 0 ++ put_u32 0 ++ put_u32 0)).

(** Source: crates/ub-wire/src/codec.rs:344-356, [tests::test_ack_payload_roundtrip]. *)
Definition test_ack_payload_roundtrip : bool :=
  passes (
    decoded <- unwrap_ok (decode_ack_payload (encode_ack_payload (mkAckPayload 100 5 0 (Some (repeat 0xAA 32)))) true);;
    assert_eq (ack_ack_seq decoded) 100;;
    assert_eq (ack_credit_grant decoded) 5;;
    assert_eq (ack_sack_bitmap decoded) (Some (repeat 0xAA 32))) tt.

(** Source: crates/ub-wire/src/codec.rs:359-370, [tests::test_ack_payload_no_sack]. *)
Definition test_ack_payload_no_sack : bool :=
  passes (
    decoded <- unwrap_ok (decode_ack_payload (encode_ack_payload (mkAckPayload 50 3 0 None)) false);;
    assert_eq (ack_ack_seq decoded) 50;;
    assert_eq (ack_sack_bitmap decoded) None) tt.

(** Source: crates/ub-wire/src/codec.rs:373-381, [tests::test_credit_payload_roundtrip]. *)
Definition test_credit_payload_roundtrip : bool :=
  passes (
    decoded <- unwrap_ok (decode_credit_payload (encode_credit_payload (mkCreditPayload 64 0)));;
    assert_eq (cp_credits decoded) 64) tt.

Lemma frame_tests : all_pass
  [test_frame_type_roundtrip; test_frame_flags; test_ext_flags; test_data_frame_roundtrip;
   test_data_frame_with_imm; test_fragment_frame; test_invalid_magic; test_version_mismatch;
   test_ack_payload_roundtrip; test_ack_payload_no_sack; test_credit_payload_roundtrip] = true.
Proof. vm_compute. reflexivity. Qed.

(** ** Duplicate detection *)

Definition checks (seq : Z) (r : DedupResult) : Test DedupWindow unit :=
  expect (fun dw => DedupWindow_check dw seq) (fun r' => bool_decide (r' = r)).
Definition mark (seq : Z) : Test DedupWindow unit := update (fun dw => DedupWindow_mark_and_advance dw seq).
Definition next_is (n : Z) : Test DedupWindow unit := expect dw_next_expected (Z.eqb n).

(** Source: crates/ub-transport/src/dedup.rs:161-169, [tests::test_in_order_reception]. *)
Definition test_in_order_reception : bool :=
  passes (
    checks 0 DedupResult_InOrder;;
    mark 0;;
    next_is 1;;
    checks 1 DedupResult_InOrder;;
    mark 1;;
    next_is 2) (DedupWindow_new 0).

(** Source: crates/ub-transport/src/dedup.rs:172-180, [tests::test_duplicate_detection]. *)
Definition test_duplicate_detection : bool :=
  passes (
    mark 0;;
    checks 0 DedupResult_AlreadySeen;;
    mark 1;;
    checks 0 DedupResult_AlreadySeen;;
    checks 1 DedupResult_AlreadySeen) (DedupWindow_new 0).

(** Source: crates/ub-transport/src/dedup.rs:183-192, [tests::test_out_of_order]. *)
Definition test_out_of_order : bool :=
  passes (
    checks 5 DedupResult_OutOfOrder;;
    mark 5;;
    checks 0 DedupResult_InOrder;;
    checks 5 DedupResult_AlreadySeen) (DedupWindow_new 0).

(** Source: crates/ub-transport/src/dedup.rs:195-201, [tests::test_beyond_window]. *)
Definition test_beyond_window : bool :=
  passes (
    checks 1024 DedupResult_BeyondWindow;;
    checks 2000 DedupResult_BeyondWindow) (DedupWindow_new 0).

(** Source: crates/ub-transport/src/dedup.rs:204-218, [tests::test_window_slide_old_seqs_already_seen]. *)
Definition test_window_slide_old_seqs_already_seen : bool :=
  passes (
    for_each (range 0 1024) (fun seq => checks seq DedupResult_InOrder;; mark seq);;
    next_is 1024;;
    checks 0 DedupResult_AlreadySeen;;
    checks 1024 DedupResult_InOrder) (DedupWindow_new 0).

(** Source: crates/ub-transport/src/dedup.rs:221-239, [tests::test_gap_fill_advances_next_expected]. *)
Definition test_gap_fill_advances_next_expected : bool :=
  passes (
    checks 2 DedupResult_OutOfOrder;;
    mark 2;;
    next_is 0;;
    checks 0 DedupResult_InOrder;;
    mark 0;;
    next_is 1;;
    mark 1;;
    next_is 3) (DedupWindow_new 0).

(** Source: crates/ub-transport/src/dedup.rs:242-251, [tests::test_reset]. *)
Definition test_reset : bool :=
  passes (
    mark 100;;
    mark 101;;
    next_is 102;;
    update DedupWindow_reset;;
    next_is 0;;
    checks 0 DedupResult_InOrder) (DedupWindow_new 100).

(** Source: crates/ub-transport/src/dedup.rs:254-261, [tests::test_reset_to]. *)
Definition test_reset_to : bool :=
  passes (
    mark 0;;
    mark 1;;
    update (fun dw => DedupWindow_reset_to dw 1000);;
    next_is 1000;;
    checks 1000 DedupResult_InOrder) (DedupWindow_new 0).

(** Source: crates/ub-transport/src/dedup.rs:264-270, [tests::test_custom_window_size]. *)
Definition test_custom_window_size : bool :=
  passes (
    dw <- unwrap_ok (DedupWindow_with_window_size 0 64);;
    assert_eq (DedupWindow_check dw 64) DedupResult_BeyondWindow;;
    assert_eq (DedupWindow_check dw 63) DedupResult_OutOfOrder) tt.

(** Source: crates/ub-transport/src/dedup.rs:273-281, [tests::test_is_seen]. *)
Definition test_is_seen : bool :=
  passes (
    expect (fun dw => DedupWindow_is_seen dw 0) negb;;
    mark 0;;
    expect (fun dw => DedupWindow_is_seen dw 0) (fun b => b);;
    expect (fun dw => DedupWindow_is_seen dw 1) negb;;
    expect (fun dw => DedupWindow_is_seen dw 0) (fun b => b)) (DedupWindow_new 0).

Lemma dedup_tests : all_pass
  [test_in_order_reception; test_duplicate_detection; test_out_of_order; test_beyond_window;
   test_window_slide_old_seqs_already_seen; test_gap_fill_advances_next_expected; test_reset; test_reset_to;
   test_custom_window_size; test_is_seen] = true.
Proof. vm_compute. reflexivity. Qed.

(** ** Read response cache *)

Definition insert_at (now : Z) (key : Z * Z) (response : bytes) : Test ReadResponseCache unit :=
  update (fun c => ReadResponseCache_insert c now now key response).
Definition get_at (now : Z) (key : Z * Z) : Test ReadResponseCache (option bytes) :=
  call (fun c => ReadResponseCache_get c now key).
Definition present_at (now : Z) (key : Z * Z) (present : bool) : Test ReadResponseCache unit :=
  r <- get_at now key;; assert_eq (bool_decide (is_Some r)) present.
Definition cache_len (n : Z) : Test ReadResponseCache unit := expect ReadResponseCache_len (Z.eqb n).

(** Source: crates/ub-transport/src/read_cache.rs:121-133, [tests::test_insert_and_get]. *)
Definition test_insert_and_get : bool :=
  passes (
    insert_at 0 (1, 42) [1; 2; 3; 4];;
    result <- get_at 1 (1, 42);;
    assert_eq result (Some [1; 2; 3; 4]);;
    present_at 2 (2, 99) false) (ReadResponseCache_new 10 (5 * 10 ^ 9)).

(** Source: crates/ub-transport/src/read_cache.rs:136-155, [tests::test_capacity_eviction]. *)
Definition test_capacity_eviction : bool :=
  passes (
    insert_at 0 (1, 1) [1];;
    insert_at 1 (1, 2) [2];;
    insert_at 2 (1, 3) [3];;
    cache_len 3;;
    get_at 3 (1, 1);;
    insert_at 4 (1, 4) [4];;
    cache_len 3;;
    present_at 5 (1, 2) false;;
    present_at 6 (1, 1) true;;
    present_at 7 (1, 3) true;;
    present_at 8 (1, 4) true) (ReadResponseCache_new 3 (60 * 10 ^ 9)).

(** Source: crates/ub-transport/src/read_cache.rs:158-170, [tests::test_expired_entries]. *)
Definition test_expired_entries : bool :=
  passes (
    insert_at 0 (1, 1) [1];;
    present_at 1 (1, 1) true;;
    present_at (from_millis 60) (1, 1) false) (ReadResponseCache_new 10 (from_millis 50)).

(** Source: crates/ub-transport/src/read_cache.rs:173-182, [tests::test_remove_expired]. *)
Definition test_remove_expired : bool :=
  passes (
    insert_at 0 (1, 1) [1];;
    insert_at 0 (1, 2) [2];;
    update (fun c => ReadResponseCache_remove_expired c (from_millis 60));;
    cache_len 0) (ReadResponseCache_new 10 (from_millis 50)).

(** Source: crates/ub-transport/src/read_cache.rs:185-192, [tests::test_clear]. *)
Definition test_clear : bool :=
  passes (
    insert_at 0 (1, 1) [1];;
    insert_at 0 (1, 2) [2];;
    cache_len 2;;
    update ReadResponseCache_clear;;
    expect ReadResponseCache_is_empty (fun b => b)) (ReadResponseCache_new 10 (5 * 10 ^ 9)).

Lemma read_cache_tests : all_pass
  [test_insert_and_get; test_capacity_eviction; test_expired_entries; test_remove_expired; test_clear] = true.
Proof. vm_compute. reflexivity. Qed.

(** ** Session *)

(** The frame of the tests, and the calls on the session they make. *)
Definition frame_64 : bytes := zeros 64.
Definition assign (is_fire_and_forget : bool) (opaque : Z) : Test ReliableSession Z :=
  call (fun s => let '(s, _, seq) := ReliableSession_assign_seq s 0 0 frame_64 is_fire_and_forget opaque in (s, seq)).
Definition queue_len (n : Z) : Test ReliableSession unit := expect ReliableSession_pending_count (Z.eqb n).
Definition credits_are (n : Z) : Test ReliableSession unit := expect rs_available_credits (Z.eqb n).
Definition receives (seq : Z) (action : ReceiveAction) : Test ReliableSession unit :=
  a <- call (fun s => ReliableSession_receive_frame s seq);; assert_eq a action.
Definition acks (ack : AckPayload) : Test ReliableSession (list RetransmitEntry) :=
  call (fun s => ReliableSession_process_ack s (fun _ => 0) ack).
Definition front : Test ReliableSession RetransmitEntry := e <- query (fun s => head (rs_retransmit_queue s));; unwrap e.
(** [session.retransmit_queue.front_mut().unwrap().retry_count = n]. *)
Definition set_front_retries (n : Z) : Test ReliableSession unit :=
  front;;
  update (fun s => s <| rs_retransmit_queue := alter (fun e => e <| re_retry_count := n |>) 0%nat (rs_retransmit_queue s) |>).
Definition executed (seq : Z) (b : bool) : Test ReliableSession unit :=
  expect (fun s => ReliableSession_is_executed s seq) (Bool.eqb b).
Definition cwnd_is (n : Z) : Test ReliableSession unit := expect rs_cwnd (Z.eqb n).

(** Source: crates/ub-transport/src/session.rs:460-462, [tests::make_session]. *)
Definition make_session : ReliableSession :=
  ReliableSession_new 1 2 100 200 8 64.

(** Source: crates/ub-transport/src/session.rs:465-477, [tests::test_assign_seq_increments]. *)
Definition test_assign_seq_increments : bool :=
  passes (
    seq1 <- assign false 0;;
    seq2 <- assign false 1;;
    assert_eq seq1 1;;
    assert_eq seq2 2;;
    expect rs_next_seq (Z.eqb 3);;
    queue_len 2) make_session.

(** Source: crates/ub-transport/src/session.rs:480-503, [tests::test_process_ack_removes_entries]. *)
Definition test_process_ack_removes_entries : bool :=
  passes (
    assign true 0;;
    assign true 1;;
    assign false 2;;
    queue_len 3;;
    removed <- acks (mkAckPayload 2 0 0 None);;
    assert_eq (length removed) 2%nat;;
    queue_len 1;;
    e <- front;;
    assert_eq (re_seq e) 3;;
    assert_eq (re_opaque e) 2) make_session.

(** Source: crates/ub-transport/src/session.rs:506-527, [tests::test_complete_request_removes_entry]. *)
Definition test_complete_request_removes_entry : bool :=
  passes (
    assign false 42;;
    queue_len 1;;
    acks (mkAckPayload 1 0 0 None);;
    queue_len 1;;
    found <- call (fun s => ReliableSession_complete_request s 42);;
    assert found;;
    queue_len 0) make_session.

(** Source: crates/ub-transport/src/session.rs:530-540, [tests::test_credit_consume_and_add]. *)
Definition test_credit_consume_and_add : bool :=
  passes (
    credits_are 64;;
    succeeds ReliableSession_consume_credit;;
    succeeds ReliableSession_consume_credit;;
    credits_are 62;;
    update (fun s => ReliableSession_add_credits s 10);;
    credits_are 72) make_session.

(** Source: crates/ub-transport/src/session.rs:543-548, [tests::test_credit_exhausted]. *)
Definition test_credit_exhausted : bool :=
  passes (
    succeeds ReliableSession_consume_credit;;
    succeeds ReliableSession_consume_credit;;
    expect ReliableSession_consume_credit (fun r => fails_with r NoResources)) (ReliableSession_new 1 2 100 200 8 2).

(** Source: crates/ub-transport/src/session.rs:551-555, [tests::test_receive_frame_in_order]. *)
Definition test_receive_frame_in_order : bool :=
  passes (
    receives 1 ReceiveAction_Deliver;;
    receives 2 ReceiveAction_Deliver) make_session.

(** Source: crates/ub-transport/src/session.rs:558-562, [tests::test_receive_frame_duplicate]. *)
Definition test_receive_frame_duplicate : bool :=
  passes (
    receives 1 ReceiveAction_Deliver;;
    receives 1 ReceiveAction_Duplicate) make_session.

(** Source: crates/ub-transport/src/session.rs:565-568, [tests::test_receive_frame_out_of_order]. *)
Definition test_receive_frame_out_of_order : bool :=
  passes (
    receives 5 ReceiveAction_OutOfOrder) make_session.

(** Source: crates/ub-transport/src/session.rs:571-574, [tests::test_receive_frame_beyond_window]. *)
Definition test_receive_frame_beyond_window : bool :=
  passes (
    receives 1025 ReceiveAction_BeyondWindow) make_session.

(** Source: crates/ub-transport/src/session.rs:577-587, [tests::test_mark_executed_idempotency]. *)
Definition test_mark_executed_idempotency : bool :=
  passes (
    executed 1 false;;
    update (fun s => ReliableSession_mark_executed s 1);;
    executed 1 true;;
    update (fun s => ReliableSession_mark_executed s 1);;
    executed 1 true;;
    executed 2 false) make_session.

(** Source: crates/ub-transport/src/session.rs:590-600, [tests::test_kill_returns_all_entries]. *)
Definition test_kill_returns_all_entries : bool :=
  passes (
    assign false 0;;
    assign false 1;;
    killed <- call ReliableSession_kill;;
    assert_eq (length killed) 2%nat;;
    expect rs_state (fun st => bool_decide (st = SessionState_Dead));;
    queue_len 0) make_session.

(** Source: crates/ub-transport/src/session.rs:603-615, [tests::test_build_ack_payload]. *)
Definition test_build_ack_payload : bool :=
  passes (
    receives 1 ReceiveAction_Deliver;;
    receives 2 ReceiveAction_Deliver;;
    ack <- call (fun s => ReliableSession_build_ack_payload s false);;
    assert_eq (ack_ack_seq ack) 2;;
    assert_eq (ack_credit_grant ack) 2;;
    expect rs_frames_since_last_ack (Z.eqb 0)) make_session.

(** Source: crates/ub-transport/src/session.rs:618-636, [tests::test_build_ack_payload_with_sack]. *)
Definition test_build_ack_payload_with_sack : bool :=
  passes (
    receives 1 ReceiveAction_Deliver;;
    receives 3 ReceiveAction_OutOfOrder;;
    ack <- call (fun s => ReliableSession_build_ack_payload s true);;
    assert_eq (ack_ack_seq ack) 1;;
    bitmap <- unwrap (ack_sack_bitmap ack);;
    assert_eq (Z.land (nth 0 bitmap 0) 2) 2;;
    assert_eq (Z.land (nth 0 bitmap 0) 1) 0) make_session.

(** Source: crates/ub-transport/src/session.rs:639-653, [tests::test_check_rto_detects_timeout]. *)
Definition test_check_rto_detects_timeout : bool :=
  passes (
    assign false 0;;
    timeouts <- call (fun s => ReliableSession_check_rto s 1);;
    assert_eq timeouts [];;
    timeouts <- call (fun s => ReliableSession_check_rto s (from_millis 200));;
    assert_eq timeouts [1]) (ReliableSession_new 1 2 100 100 8 64).

(** Source: crates/ub-transport/src/session.rs:656-670, [tests::test_check_rto_max_retries_kills_session]. *)
Definition test_check_rto_max_retries_kills_session : bool :=
  passes (
    assign false 0;;
    set_front_retries 2;;
    timeouts <- call (fun s => ReliableSession_check_rto s (from_millis 200));;
    assert_eq timeouts [];;
    expect rs_state (fun st => bool_decide (st = SessionState_Dead))) (ReliableSession_new 1 2 100 50 2 64).

(** Source: crates/ub-transport/src/session.rs:673-680, [tests::test_should_send_ack]. *)
Definition test_should_send_ack : bool :=
  passes (
    expect ReliableSession_should_send_ack negb;;
    for_each (range 0 8) (fun _ => update (fun s => s <| rs_frames_since_last_ack := rs_frames_since_last_ack s + 1 |>));;
    expect ReliableSession_should_send_ack (fun b => b)) make_session.

(** Source: crates/ub-transport/src/session.rs:683-694, [tests::test_aimd_slow_start]. *)
Definition test_aimd_slow_start : bool :=
  passes (
    cwnd_is 4;;
    update ReliableSession_on_new_ack;;
    cwnd_is 8;;
    update ReliableSession_on_new_ack;;
    cwnd_is 16) (ReliableSession_new 1 2 100 200 8 4).

(** Source: crates/ub-transport/src/session.rs:697-709, [tests::test_aimd_congestion_avoidance]. *)
Definition test_aimd_congestion_avoidance : bool :=
  passes (
    update (fun s => s <| rs_ssthresh := 8 |> <| rs_cwnd := 8 |>);;
    update ReliableSession_on_new_ack;;
    cwnd_is 9;;
    update ReliableSession_on_new_ack;;
    cwnd_is 10) (ReliableSession_new 1 2 100 200 8 4).

(** Source: crates/ub-transport/src/session.rs:712-720, [tests::test_aimd_multiplicative_decrease]. *)
Definition test_aimd_multiplicative_decrease : bool :=
  passes (
    update (fun s => s <| rs_cwnd := 32 |>);;
    update ReliableSession_on_loss;;
    expect rs_ssthresh (Z.eqb 16);;
    cwnd_is 1) (ReliableSession_new 1 2 100 200 8 64).

(** Source: crates/ub-transport/src/session.rs:723-737, [tests::test_rtt_estimation]. *)
Definition test_rtt_estimation : bool :=
  let expected_srtt := (f64_lit 7 (-3) * f64_of_int 200 + f64_lit 1 (-3) * f64_of_int 50)%f64 in
  passes (
    update (fun s => ReliableSession_update_rtt s (f64_of_int 50));;
    expect rs_srtt (fun srtt => f64_ltb (f64_abs (srtt - expected_srtt)%f64) (f64_div (f64_of_int 1) (f64_of_int 100)));;
    clamped <- query (fun s => f64_round_u64 (rs_srtt s + f64_lit 4 0 * rs_rttvar s)%f64);;
    expect rs_rto (Z.eqb (Z.min (Z.max clamped 200) 60000))) (ReliableSession_new 1 2 100 200 8 64).

(** Source: crates/ub-transport/src/session.rs:740-762, [tests::test_rtt_karn_skip_retransmit]. *)
Definition test_rtt_karn_skip_retransmit : bool :=
  passes (
    assign true 0;;
    set_front_retries 1;;
    initial_srtt <- query rs_srtt;;
    acks (mkAckPayload 1 1 0 None);;
    expect rs_srtt (SFeqb initial_srtt)) make_session.

(** Source: crates/ub-transport/src/session.rs:765-790, [tests::test_sack_fast_retransmit]. *)
Definition test_sack_fast_retransmit : bool :=
  let ack := mkAckPayload 1 0 0 (Some (2 :: zeros 31)) in
  passes (
    update (fun s => s <| rs_last_ack_seq := 1 |>);;
    r1 <- call (fun s => ReliableSession_process_ack_for_fast_retransmit s ack);; assert_eq r1 None;;
    r2 <- call (fun s => ReliableSession_process_ack_for_fast_retransmit s ack);; assert_eq r2 None;;
    r3 <- call (fun s => ReliableSession_process_ack_for_fast_retransmit s ack);; assert_eq r3 (Some 2)) make_session.

(** Source: crates/ub-transport/src/session.rs:793-807, [tests::test_send_available]. *)
Definition test_send_available : bool :=
  passes (
    expect ReliableSession_send_available (Z.eqb 64);;
    assign false 0;;
    assign false 1;;
    assign false 2;;
    expect ReliableSession_send_available (Z.eqb 61)) (ReliableSession_new 1 2 100 200 8 64).

Lemma session_tests : all_pass
  [test_assign_seq_increments; test_process_ack_removes_entries; test_complete_request_removes_entry;
   test_credit_consume_and_add; test_credit_exhausted; test_receive_frame_in_order;
   test_receive_frame_duplicate; test_receive_frame_out_of_order; test_receive_frame_beyond_window;
   test_mark_executed_idempotency; test_kill_returns_all_entries; test_build_ack_payload;
   test_build_ack_payload_with_sack; test_check_rto_detects_timeout;
   test_check_rto_max_retries_kills_session; test_should_send_ack; test_aimd_slow_start;
   test_aimd_congestion_avoidance; test_aimd_multiplicative_decrease; test_rtt_estimation;
   test_rtt_karn_skip_retransmit; test_sack_fast_retransmit; test_send_available] = true.
Proof. vm_compute. reflexivity. Qed.

(** ** Transport manager *)

(** [TransportManager::new(node, config, flow_config, tx)] with the tests' configuration. *)
Definition manager (node : Z) : TransportManager := TransportManager_new node 200 8.
Definition create_session (remote epoch credits : Z) : Test TransportManager unit :=
  succeeds (fun m => TransportManager_create_session m remote epoch credits).
Definition register_peer (remote : Z) : Test TransportManager unit :=
  update (fun m => TransportManager_register_peer_sender m remote (mkChan 256 [] true)).

(** The frame of the tests: 64 bytes that start with the magic number. *)
Definition magic_frame : bytes := put_u32 MAGIC ++ zeros 60.
Definition send_frame (is_fire_and_forget : bool) (opaque : Z) : Test TransportManager Z :=
  r <- call (fun m => let '(m, _, r) := TransportManager_send m 0 0 2 magic_frame is_fire_and_forget opaque in (m, r));;
  unwrap_ok r.
Definition has_session (key : SessionKey) (b : bool) : Test TransportManager unit :=
  expect (fun m => bool_decide (is_Some (tm_sessions m !! key))) (Bool.eqb b).
Definition on_session {A} (key : SessionKey) (f : ReliableSession -> A) : Test TransportManager A :=
  s <- query (fun m => tm_sessions m !! key);; s <- unwrap s;; test_ret (f s).
Definition incoming (raw : bytes) : Test TransportManager unit :=
  update (fun m => TransportManager_handle_incoming m (fun _ => 0) raw).
Definition key_100 : SessionKey := mkSessionKey 1 2 100.

(** The acknowledgement of frame 1 from node 2. *)
Definition ack_of_1 : bytes :=
  encode_frame (mkFrameHeader MAGIC VERSION FrameType_Ack 0 2 1 0 0 0 0) None (put_u64 1 ++ put_u32 1 ++ put_u32 0).

(** Source: crates/ub-transport/src/manager.rs:639-648, [tests::test_create_session_and_find]. *)
Definition test_create_session_and_find : bool :=
  passes (
    create_session 2 100 64;;
    has_session key_100 true) (manager 1).

(** Source: crates/ub-transport/src/manager.rs:651-668, [tests::test_send_assigns_seq]. *)
Definition test_send_assigns_seq : bool :=
  passes (
    create_session 2 100 64;;
    register_peer 2;;
    seq <- send_frame false 0;;
    assert_eq seq 1) (manager 1).

(** Source: crates/ub-transport/src/manager.rs:671-687, [tests::test_notify_peer_down_kills_sessions]. *)
Definition test_notify_peer_down_kills_sessions : bool :=
  passes (
    create_session 2 100 64;;
    register_peer 2;;
    entries <- call (fun m => TransportManager_notify_peer_down m 2);;
    assert_eq (length entries) 0%nat;;
    has_session key_100 false) (manager 1).

(** Source: crates/ub-transport/src/manager.rs:690-709, [tests::test_credit_exhaustion]. *)
Definition test_credit_exhaustion : bool :=
  passes (
    create_session 2 100 2;;
    register_peer 2;;
    send_frame false 0;;
    send_frame false 1;;
    expect (fun m => (TransportManager_send m 0 0 2 magic_frame false 2).2) (fun r => fails_with r NoResources)) (manager 1).

(** Source: crates/ub-transport/src/manager.rs:712-755, [tests::test_handle_data_frame_delivers]. *)
Definition test_handle_data_frame_delivers : bool :=
  let header := mkFrameHeader MAGIC VERSION FrameType_Data FrameFlags_ACK_REQ 1 2 0 1 4 0 in
  let ext := mkDataExtHeader Verb_Write 0 1 0 0 0 0 0 1 (UbAddr_new 1 1 0 0 0) None in
  passes (
    create_session 1 100 64;;
    incoming (encode_frame header (Some ext) [1; 2; 3; 4]);;
    inbound <- query (fun m => head (tm_inbound m));;
    inbound <- unwrap inbound;;
    assert_eq (if_seq inbound) 1;;
    assert_eq (if_payload inbound) [1; 2; 3; 4]) (manager 2).

(** Source: crates/ub-transport/src/manager.rs:758-807, [tests::test_handle_ack_clears_retransmit]. *)
Definition test_handle_ack_clears_retransmit : bool :=
  passes (
    create_session 2 100 64;;
    register_peer 2;;
    send_frame true 0;;
    n <- on_session key_100 ReliableSession_pending_count;; assert_eq n 1;;
    incoming ack_of_1;;
    n <- on_session key_100 ReliableSession_pending_count;; assert_eq n 0) (manager 1).

(** Source: crates/ub-transport/src/manager.rs:810-861, [tests::test_handle_ack_keeps_request_response]. *)
Definition test_handle_ack_keeps_request_response : bool :=
  passes (
    create_session 2 100 64;;
    register_peer 2;;
    send_frame false 42;;
    incoming ack_of_1;;
    n <- on_session key_100 ReliableSession_pending_count;; assert_eq n 1;;
    update (fun m => TransportManager_complete_request m 2 42);;
    n <- on_session key_100 ReliableSession_pending_count;; assert_eq n 0) (manager 1).

(** Source: crates/ub-transport/src/manager.rs:864-874, [tests::test_mark_executed]. *)
Definition test_mark_executed : bool :=
  passes (
    create_session 2 100 64;;
    expect (fun m => TransportManager_is_executed m 2 1) negb;;
    update (fun m => TransportManager_mark_executed m 2 1);;
    expect (fun m => TransportManager_is_executed m 2 1) (fun b => b)) (manager 1).

(** Source: crates/ub-transport/src/manager.rs:877-899, [tests::test_grant_credits]. *)
Definition test_grant_credits : bool :=
  passes (
    create_session 2 100 2;;
    n <- on_session key_100 rs_available_credits;;
    assert_eq n 2;;
    update (fun m => TransportManager_grant_credits m 2 10);;
    n <- on_session key_100 rs_available_credits;;
    assert (2 <=? n)) (manager 1).

(** Source: crates/ub-transport/src/manager.rs:902-911, [tests::test_build_ack_frame]. *)
Definition test_build_ack_frame : bool :=
  (32 <? length (build_ack_frame 1 2 (mkAckPayload 5 3 0 None)))%nat.

(** Source: crates/ub-transport/src/manager.rs:914-917, [tests::test_build_credit_frame]. *)
Definition test_build_credit_frame : bool :=
  (32 <? length (build_credit_frame 1 2 10))%nat.

Lemma manager_tests : all_pass
  [test_create_session_and_find; test_send_assigns_seq; test_notify_peer_down_kills_sessions;
   test_credit_exhaustion; test_handle_data_frame_delivers; test_handle_ack_clears_retransmit;
   test_handle_ack_keeps_request_response; test_mark_executed; test_grant_credits; test_build_ack_frame;
   test_build_credit_frame] = true.
Proof. vm_compute. reflexivity. Qed.

(** ** Fabric *)

(** Source: crates/ub-fabric/src/udp.rs:210-213, [tests::test_udp_fabric_kind]. *)
Definition test_udp_fabric_kind : bool :=
  passes (assert_eq (UdpFabric_kind UdpFabric_new) (str "udp")) tt.

(** [listener.accept().await]: its steps until it returns. *)
Fixpoint accept (fuel : nat) : Test UdpFabric nat := fun f =>
  match fuel with
  | O => None
  | S fuel =>
    '(f, session) ← accept_step f;
    match session with Some session => Some (session, f) | None => accept fuel f end
  end.

(** Source: crates/ub-fabric/src/udp.rs:216-238, [tests::test_udp_fabric_send_recv].
    The sockets are bound to [peer_a] and [peer_b]; the datagram arrives. *)
Definition test_udp_fabric_send_recv : bool :=
  let fabric_a := UdpFabric_new in
  passes (
    let! (fabric_b, session_b) := unwrap (UdpFabric_dial UdpFabric_new (PeerAddr_Inet peer_a)) in
    session_b <- unwrap_ok session_b;;
    session_b <- unwrap (uf_sessions fabric_b !! session_b);;
    datagram <- unwrap (UdpSession_send session_b [1; 2; 3] (Ok tt)).1;;
    assert_eq datagram.1 peer_a;;
    (fun f => f ← recv_arrive f peer_b datagram.2 false; Some (tt, f));;
    (fun f => f ← recv_step f; Some (tt, f));;
    (fun f => f ← recv_step f; Some (tt, f));;
    session_a <- accept 5;;
    pkt <- (fun f => '(f, r) ← UdpSession_recv f session_a; Some (r, f));;
    pkt <- unwrap_ok pkt;;
    assert_eq pkt [1; 2; 3]) (UdpFabric_listen fabric_a (PeerAddr_Inet peer_a)).

Lemma fabric_tests : all_pass [test_udp_fabric_kind; test_udp_fabric_send_recv] = true.
Proof. vm_compute. reflexivity. Qed.
