(* ===== verification/TestControl.v ===== *)
(** * TestControl: the tests of ub-control

    The unit tests of message.rs, member.rs and control.rs, run on the model. A test of a message checks its
    fields after encoding and decoding; here the whole message is compared. *)

From S2P Require Import Prelude Bytes Types Addr Message Member Control Json Testing.
#[local] Open Scope Z_scope.
#[local] Open Scope test_scope.

(** ** Comparing messages *)

#[global] Instance LatencyClass_eq_dec : EqDecision LatencyClass.
Proof. solve_decision. Defined.
#[global] Instance CapacityClass_eq_dec : EqDecision CapacityClass.
Proof. solve_decision. Defined.
#[global] Instance AccessPattern_eq_dec : EqDecision AccessPattern.
Proof. solve_decision. Defined.
#[global] Instance HelloPayload_eq_dec : EqDecision HelloPayload.
Proof. solve_decision. Defined.
#[global] Instance HeartbeatPayload_eq_dec : EqDecision HeartbeatPayload.
Proof. solve_decision. Defined.
#[global] Instance MrPublishPayload_eq_dec : EqDecision MrPublishPayload.
Proof. solve_decision. Defined.
#[global] Instance MrRevokePayload_eq_dec : EqDecision MrRevokePayload.
Proof. solve_decision. Defined.
#[global] Instance MemberDownPayload_eq_dec : EqDecision MemberDownPayload.
Proof. solve_decision. Defined.
#[global] Instance JoinPayload_eq_dec : EqDecision JoinPayload.
Proof. solve_decision. Defined.
#[global] Instance SnapshotNodeInfo_eq_dec : EqDecision SnapshotNodeInfo.
Proof. solve_decision. Defined.
#[global] Instance MemberSnapshotPayload_eq_dec : EqDecision MemberSnapshotPayload.
Proof. solve_decision. Defined.
#[global] Instance DeviceProfileEntry_eq_dec : EqDecision DeviceProfileEntry.
Proof. solve_decision. Defined.
#[global] Instance DeviceProfilePublishPayload_eq_dec : EqDecision DeviceProfilePublishPayload.
Proof. solve_decision. Defined.
#[global] Instance AllocReqPayload_eq_dec : EqDecision AllocReqPayload.
Proof. solve_decision. Defined.
#[global] Instance AllocRespPayload_eq_dec : EqDecision AllocRespPayload.
Proof. solve_decision. Defined.
#[global] Instance RegionCreatePayload_eq_dec : EqDecision RegionCreatePayload.
Proof. solve_decision. Defined.
#[global] Instance RegionCreateOkPayload_eq_dec : EqDecision RegionCreateOkPayload.
Proof. solve_decision. Defined.
#[global] Instance RegionDeletePayload_eq_dec : EqDecision RegionDeletePayload.
Proof. solve_decision. Defined.
#[global] Instance FetchPayload_eq_dec : EqDecision FetchPayload.
Proof. solve_decision. Defined.
#[global] Instance FetchRespPayload_eq_dec : EqDecision FetchRespPayload.
Proof. solve_decision. Defined.
#[global] Instance WriteLockReqPayload_eq_dec : EqDecision WriteLockReqPayload.
Proof. solve_decision. Defined.
#[global] Instance WriteLockGrantedPayload_eq_dec : EqDecision WriteLockGrantedPayload.
Proof. solve_decision. Defined.
#[global] Instance WriteUnlockPayload_eq_dec : EqDecision WriteUnlockPayload.
Proof. solve_decision. Defined.
#[global] Instance InvalidatePayload_eq_dec : EqDecision InvalidatePayload.
Proof. solve_decision. Defined.
#[global] Instance InvalidateAckPayload_eq_dec : EqDecision InvalidateAckPayload.
Proof. solve_decision. Defined.
#[global] Instance ControlMsg_eq_dec : EqDecision ControlMsg.
Proof. solve_decision. Defined.

(** A payload, and a whole message, after encoding and decoding. *)
Definition payload_recoded {P} `{Payload P} `{EqDecision P} (p : P) : bool :=
  passes (decoded <- unwrap_ok (p_decode (p_encode p));; assert_eq decoded p) tt.
Definition msg_recoded (msg : ControlMsg) : bool :=
  passes (decoded <- unwrap_ok (ControlMsg_decode (ControlMsg_encode msg));; assert_eq decoded msg) tt.

(** ** Messages *)

(** Source: crates/ub-control/src/message.rs:939-945, [tests::test_ctrl_framing_roundtrip]. *)
Definition test_ctrl_framing_roundtrip : bool :=
  passes (
    let! (msg_type, decoded_payload) := unwrap_ok (decode_ctrl_message (encode_ctrl_message CtrlMsgType_Hello [1; 2; 3; 4])) in
    assert_eq msg_type CtrlMsgType_Hello;;
    assert_eq decoded_payload [1; 2; 3; 4]) tt.

(** Source: crates/ub-control/src/message.rs:948-963, [tests::test_hello_roundtrip]. *)
Definition test_hello_roundtrip : bool :=
  payload_recoded (mkHelloPayload 42 1 12345 64 (str "10.0.0.1:7901")).

(** Source: crates/ub-control/src/message.rs:966-972, [tests::test_heartbeat_roundtrip]. *)
Definition test_heartbeat_roundtrip : bool :=
  payload_recoded (mkHeartbeatPayload 42 1234567890).

(** Source: crates/ub-control/src/message.rs:975-991, [tests::test_mr_publish_roundtrip]. *)
Definition test_mr_publish_roundtrip : bool :=
  payload_recoded (mkMrPublishPayload 1 5 (UbAddr_new 1 1 0 0 0) 1024 (Z.lor MrPerms_READ MrPerms_WRITE) DeviceKind_Memory).

(** Source: crates/ub-control/src/message.rs:994-1003, [tests::test_mr_revoke_roundtrip]. *)
Definition test_mr_revoke_roundtrip : bool :=
  payload_recoded (mkMrRevokePayload 1 5).

(** Source: crates/ub-control/src/message.rs:1042-1057, [tests::test_join_payload_roundtrip]. *)
Definition test_join_payload_roundtrip : bool :=
  payload_recoded (mkJoinPayload 10 555 (str "10.0.0.10:7901") (str "10.0.0.10:7900") 32).

(** Source: crates/ub-control/src/message.rs:1060-1089, [tests::test_member_snapshot_roundtrip]. *)
Definition test_member_snapshot_roundtrip : bool :=
  payload_recoded (mkMemberSnapshotPayload
    [mkSnapshotNodeInfo 1 1 (str "10.0.0.1:7901") (str "10.0.0.1:7900") 100;
     mkSnapshotNodeInfo 2 1 (str "10.0.0.2:7901") (str "10.0.0.2:7900") 200]).

(** Source: crates/ub-control/src/message.rs:1135-1160, [tests::test_device_profile_entry_roundtrip]. *)
Definition test_device_profile_entry_roundtrip : bool :=
  payload_recoded (mkDeviceProfileEntry 1 0 DeviceKind_Memory StorageTier_Warm (1024 * 1024 * 256) 10000 10000 200 200
    (1024 * 1024 * 50) 1234).

(** Source: crates/ub-control/src/message.rs:1006-1023, [tests::test_control_msg_full_roundtrip]. *)
Definition test_control_msg_full_roundtrip : bool :=
  msg_recoded (ControlMsg_Hello (mkHelloPayload 42 1 999 32 (str "192.168.1.1:7901"))).

(** Source: crates/ub-control/src/message.rs:1026-1039, [tests::test_member_down_roundtrip]. *)
Definition test_member_down_roundtrip : bool :=
  msg_recoded (ControlMsg_MemberDown (mkMemberDownPayload 5 1)).

(** Source: crates/ub-control/src/message.rs:1092-1111, [tests::test_join_control_msg_roundtrip]. *)
Definition test_join_control_msg_roundtrip : bool :=
  msg_recoded (ControlMsg_Join (mkJoinPayload 5 42 (str "192.168.1.5:7901") (str "192.168.1.5:7900") 64)).

(** Source: crates/ub-control/src/message.rs:1114-1132, [tests::test_member_snapshot_control_msg_roundtrip]. *)
Definition test_member_snapshot_control_msg_roundtrip : bool :=
  msg_recoded (ControlMsg_MemberSnapshot (mkMemberSnapshotPayload
    [mkSnapshotNodeInfo 3 1 (str "10.0.0.3:7901") (str "10.0.0.3:7900") 300])).

(** Source: crates/ub-control/src/message.rs:1163-1206, [tests::test_device_profile_publish_roundtrip]. *)
Definition test_device_profile_publish_roundtrip : bool :=
  msg_recoded (ControlMsg_DeviceProfilePublish (mkDeviceProfilePublishPayload
    [mkDeviceProfileEntry 1 0 DeviceKind_Memory StorageTier_Warm (1024 * 1024 * 512) 10000 10000 200 200 0 0;
     mkDeviceProfileEntry 1 1 DeviceKind_Npu StorageTier_Hot (1024 * 1024 * 256) 50000 50000 50 50
       (1024 * 1024 * 10) 500])).

(** Source: crates/ub-control/src/message.rs:1209-1234, [tests::test_alloc_req_roundtrip]. *)
Definition test_alloc_req_roundtrip : bool :=
  msg_recoded (ControlMsg_AllocReq (mkAllocReqPayload 42 4096 AccessPattern_ReadHeavy LatencyClass_Critical CapacityClass_Small 1 5 3)).

(** Source: crates/ub-control/src/message.rs:1237-1258, [tests::test_alloc_resp_roundtrip]. *)
Definition test_alloc_resp_roundtrip : bool :=
  msg_recoded (ControlMsg_AllocResp (mkAllocRespPayload 42 (UbVa_new 42 0) 1 0 5 1024 0)).

(** Source: crates/ub-control/src/message.rs:1261-1276, [tests::test_region_create_roundtrip]. *)
Definition test_region_create_roundtrip : bool :=
  msg_recoded (ControlMsg_RegionCreate (mkRegionCreatePayload 100 8192 DeviceKind_Memory)).

(** Source: crates/ub-control/src/message.rs:1279-1296, [tests::test_region_create_ok_roundtrip]. *)
Definition test_region_create_ok_roundtrip : bool :=
  msg_recoded (ControlMsg_RegionCreateOk (mkRegionCreateOkPayload 100 7 2048 0)).

(** Source: crates/ub-control/src/message.rs:1299-1310, [tests::test_region_delete_roundtrip]. *)
Definition test_region_delete_roundtrip : bool :=
  msg_recoded (ControlMsg_RegionDelete (mkRegionDeletePayload 100)).

(** Source: crates/ub-control/src/message.rs:1313-1330, [tests::test_fetch_roundtrip]. *)
Definition test_fetch_roundtrip : bool :=
  msg_recoded (ControlMsg_Fetch (mkFetchPayload 42 1024 4096 3)).

(** Source: crates/ub-control/src/message.rs:1333-1350, [tests::test_fetch_resp_roundtrip]. *)
Definition test_fetch_resp_roundtrip : bool :=
  msg_recoded (ControlMsg_FetchResp (mkFetchRespPayload 42 7 [0xAB; 0xCD; 0xEF; 0x01; 0x23] 0)).

(** Source: crates/ub-control/src/message.rs:1353-1366, [tests::test_write_lock_req_roundtrip]. *)
Definition test_write_lock_req_roundtrip : bool :=
  msg_recoded (ControlMsg_WriteLockReq (mkWriteLockReqPayload 42 3)).

(** Source: crates/ub-control/src/message.rs:1369-1384, [tests::test_write_lock_granted_roundtrip]. *)
Definition test_write_lock_granted_roundtrip : bool :=
  msg_recoded (ControlMsg_WriteLockGranted (mkWriteLockGrantedPayload 42 7 0)).

(** Source: crates/ub-control/src/message.rs:1387-1400, [tests::test_write_unlock_roundtrip]. *)
Definition test_write_unlock_roundtrip : bool :=
  msg_recoded (ControlMsg_WriteUnlock (mkWriteUnlockPayload 42 3)).

(** Source: crates/ub-control/src/message.rs:1403-1416, [tests::test_invalidate_roundtrip]. *)
Definition test_invalidate_roundtrip : bool :=
  msg_recoded (ControlMsg_Invalidate (mkInvalidatePayload 42 8)).

(** Source: crates/ub-control/src/message.rs:1419-1430, [tests::test_invalidate_ack_roundtrip]. *)
Definition test_invalidate_ack_roundtrip : bool :=
  msg_recoded (ControlMsg_InvalidateAck (mkInvalidateAckPayload 42)).

Lemma message_tests : all_pass
  [test_ctrl_framing_roundtrip; test_hello_roundtrip; test_heartbeat_roundtrip; test_mr_publish_roundtrip;
   test_mr_revoke_roundtrip; test_join_payload_roundtrip; test_member_snapshot_roundtrip;
   test_device_profile_entry_roundtrip; test_control_msg_full_roundtrip; test_member_down_roundtrip;
   test_join_control_msg_roundtrip; test_member_snapshot_control_msg_roundtrip;
   test_device_profile_publish_roundtrip; test_alloc_req_roundtrip; test_alloc_resp_roundtrip;
   test_region_create_roundtrip; test_region_create_ok_roundtrip; test_region_delete_roundtrip;
   test_fetch_roundtrip; test_fetch_resp_roundtrip; test_write_lock_req_roundtrip;
   test_write_lock_granted_roundtrip; test_write_unlock_roundtrip; test_invalidate_roundtrip;
   test_invalidate_ack_roundtrip] = true.
Proof. vm_compute. reflexivity. Qed.

(** ** Member table *)

Definition node (node_id : Z) (state : NodeState) (control_addr data_addr : string) (epoch credits : Z) : NodeInfo :=
  mkNodeInfo node_id state (str control_addr) (str data_addr) epoch credits None None.
Definition upserts (info : NodeInfo) : Test MemberTable unit := update (fun t => MemberTable_upsert t info).
Definition state_is (node_id : Z) (state : NodeState) : Test MemberTable unit :=
  info <- query (fun t => MemberTable_get t node_id);; info <- unwrap info;; assert_eq (ni_state info) state.

(** Source: crates/ub-control/src/member.rs:156-171, [tests::test_member_table_upsert]. *)
Definition test_member_table_upsert : bool :=
  passes (
    upserts (node 2 NodeState_Active "10.0.0.2:7900" "10.0.0.2:7901" 100 64);;
    info <- query (fun t => MemberTable_get t 2);;
    info <- unwrap info;;
    assert_eq (ni_node_id info) 2;;
    state_is 2 NodeState_Active) (MemberTable_new 1).

(** Source: crates/ub-control/src/member.rs:174-189, [tests::test_member_table_mark_down]. *)
Definition test_member_table_mark_down : bool :=
  passes (
    upserts (node 2 NodeState_Active "10.0.0.2:7900" "10.0.0.2:7901" 100 64);;
    update (fun t => MemberTable_mark_down t 2);;
    state_is 2 NodeState_Down) (MemberTable_new 1).

(** Source: crates/ub-control/src/member.rs:192-208, [tests::test_member_table_mark_suspect_then_active]. *)
Definition test_member_table_mark_suspect_then_active : bool :=
  passes (
    upserts (node 2 NodeState_Active "" "" 0 0);;
    update (fun t => MemberTable_mark_suspect t 2);;
    state_is 2 NodeState_Suspect;;
    update (fun t => MemberTable_mark_active t 2);;
    state_is 2 NodeState_Active) (MemberTable_new 1).

(** Source: crates/ub-control/src/member.rs:211-226, [tests::test_member_table_mark_suspect_only_from_active]. *)
Definition test_member_table_mark_suspect_only_from_active : bool :=
  passes (
    upserts (node 2 NodeState_Down "" "" 0 0);;
    update (fun t => MemberTable_mark_suspect t 2);;
    state_is 2 NodeState_Down) (MemberTable_new 1).

(** Source: crates/ub-control/src/member.rs:229-241, [tests::test_member_table_active_peers]. *)
Definition test_member_table_active_peers : bool :=
  passes (
    upserts (node 2 NodeState_Active "" "" 0 0);;
    upserts (node 3 NodeState_Down "" "" 0 0);;
    peers <- query MemberTable_active_peer_ids;;
    assert_eq peers [2]) (MemberTable_new 1).

Lemma member_tests : all_pass
  [test_member_table_upsert; test_member_table_mark_down; test_member_table_mark_suspect_then_active;
   test_member_table_mark_suspect_only_from_active; test_member_table_active_peers] = true.
Proof. vm_compute. reflexivity. Qed.

(** ** Peer changes *)

#[global] Instance PeerChangeEvent_eq_dec : EqDecision PeerChangeEvent.
Proof. solve_decision. Defined.

(** Source: crates/ub-core/src/types.rs:414-431, [tests::test_peer_change_event_equality]. *)
Definition test_peer_change_event_equality : bool :=
  let joined := PeerChangeEvent_Joined in let down := PeerChangeEvent_Down in
  passes (
    assert_eq (joined 2 100) (joined 2 100);;
    assert_ne (joined 2 100) (joined 2 99);;
    assert_ne (PeerChangeEvent_Suspect 2) (PeerChangeEvent_Suspect 3);;
    assert_ne (PeerChangeEvent_Suspect 2) (PeerChangeEvent_Recovered 2);;
    assert_ne (down 2 100) (down 2 101)) tt.

(** Source: crates/ub-control/src/control.rs:799-821, [tests::test_peer_change_event_channel].
    [rx.changed()] returns once the version is past the one seen. *)
Definition test_peer_change_event_channel : bool :=
  passes (
    for_each [PeerChangeEvent_Joined 2 100; PeerChangeEvent_Suspect 2; PeerChangeEvent_Recovered 2;
              PeerChangeEvent_Down 2 100] (fun ev =>
      seen <- query w_version;;
      update (fun w => watch_send w ev);;
      version <- query w_version;; assert (seen <? version);;
      value <- query w_value;; assert_eq value ev)) (mkWatch (PeerChangeEvent_Joined 0 0) 0).

(** Source: crates/ub-core/src/types.rs:408-411, [tests::test_node_state_display]. *)
Definition test_node_state_display : bool :=
  passes (
    assert_eq (NodeState_display NodeState_Active) (str "Active");;
    assert_eq (NodeState_display NodeState_Suspect) (str "Suspect")) tt.

Lemma peer_change_tests : all_pass
  [test_peer_change_event_equality; test_peer_change_event_channel; test_node_state_display] = true.
Proof. vm_compute. reflexivity. Qed.
