(* ===== verification/TestManaged.v ===== *)
(** * TestManaged: the tests of ub-managed

    The unit tests of sub_alloc.rs, region.rs, cache_pool.rs, fetch_agent.rs, coherence.rs,
    registry.rs and placer.rs, run on the model. Where a test reads the clock, the calls are one
    nanosecond apart. *)

From S2P Require Import Prelude Bytes Types Float Addr Config SubAlloc Region CachePool.
From S2P Require Import FetchAgent Coherence Registry Placer Testing.
#[local] Open Scope Z_scope.
#[local] Open Scope test_scope.
#[local] Existing Instance canonical_order.

(** ** Sub-allocator *)

Definition sub_alloc (size : Z) : Test SubAllocator Z := r <- call (fun a => SubAllocator_alloc a size);; unwrap r.
Definition sub_full (size : Z) : Test SubAllocator unit :=
  expect (fun a => (SubAllocator_alloc a size).2) (fun r => bool_decide (r = None)).

(** Source: crates/ub-managed/src/sub_alloc.rs:66-79, [tests::test_sub_allocator_bump]. *)
Definition test_sub_allocator_bump : bool :=
  passes (
    off1 <- sub_alloc 512;; assert_eq off1 1024;;
    off2 <- sub_alloc 256;; assert_eq off2 (1024 + 512);;
    off3 <- sub_alloc 1024;; assert_eq off3 (1024 + 512 + 256);;
    expect SubAllocator_allocated_bytes (Z.eqb (512 + 256 + 1024));;
    expect SubAllocator_free_bytes (Z.eqb (4096 - 512 - 256 - 1024))) (SubAllocator_new 1024 4096).

(** Source: crates/ub-managed/src/sub_alloc.rs:82-87, [tests::test_sub_allocator_exhaustion]. *)
Definition test_sub_allocator_exhaustion : bool :=
  passes (
    sub_alloc 512;;
    sub_alloc 512;;
    sub_full 1) (SubAllocator_new 0 1024).

(** Source: crates/ub-managed/src/sub_alloc.rs:90-94, [tests::test_sub_allocator_exact_fit]. *)
Definition test_sub_allocator_exact_fit : bool :=
  passes (
    sub_alloc 100;;
    sub_full 1) (SubAllocator_new 0 100).

(** Source: crates/ub-managed/src/sub_alloc.rs:97-104, [tests::test_sub_allocator_free_is_noop]. *)
Definition test_sub_allocator_free_is_noop : bool :=
  passes (
    off <- sub_alloc 256;;
    update (fun a => SubAllocator_free a off 256);;
    sub_alloc 768;;
    sub_full 1) (SubAllocator_new 0 1024).

Lemma sub_alloc_tests : all_pass
  [test_sub_allocator_bump; test_sub_allocator_exhaustion; test_sub_allocator_exact_fit;
   test_sub_allocator_free_is_noop] = true.
Proof. vm_compute. reflexivity. Qed.

(** ** Region table *)

(** Source: crates/ub-managed/src/region.rs:94-106, [tests::make_region]. *)
Definition make_region (region_id home_node_id : Z) (state : RegionState) : RegionInfo :=
  mkRegionInfo region_id home_node_id 0 1 0 4096 0 state None.

Definition insert_region (info : RegionInfo) : Test RegionTable unit := update (fun t => RegionTable_insert t info).
Definition find_region (region_id : Z) : Test RegionTable RegionInfo :=
  r <- query (fun t => RegionTable_lookup t region_id);; unwrap r.
Definition region_state_is (region_id : Z) (state : RegionState) : Test RegionTable unit :=
  r <- find_region region_id;; assert_eq (ri_state r) state.
Definition set_region_state (region_id : Z) (state : RegionState) (found : bool) : Test RegionTable unit :=
  r <- call (fun t => RegionTable_set_state t region_id state);; assert_eq r found.
Definition set_region_epoch (region_id epoch : Z) (found : bool) : Test RegionTable unit :=
  r <- call (fun t => RegionTable_set_epoch t region_id epoch);; assert_eq r found.
Definition listed (state : RegionState) (n : nat) : Test RegionTable unit :=
  l <- query (fun t => RegionTable_list_by_state t state);; assert_eq (length l) n.

(** Source: crates/ub-managed/src/region.rs:109-122, [tests::test_region_table_insert_lookup_remove]. *)
Definition test_region_table_insert_lookup_remove : bool :=
  passes (
    insert_region (make_region 1 1 RegionState_Home);;
    found <- find_region 1;;
    assert_eq (ri_region_id found) 1;; assert_eq (ri_home_node_id found) 1;; assert_eq (ri_state found) RegionState_Home;;
    removed <- call (fun t => RegionTable_remove t 1);;
    removed <- unwrap removed;;
    assert_eq (ri_region_id removed) 1;;
    gone <- query (fun t => RegionTable_lookup t 1);;
    assert (match gone with None => true | _ => false end)) RegionTable_new.

(** Source: crates/ub-managed/src/region.rs:125-139, [tests::test_region_table_set_state]. *)
Definition test_region_table_set_state : bool :=
  passes (
    insert_region (make_region 1 1 RegionState_Home);;
    set_region_state 1 (RegionState_Shared 1) true;;
    region_state_is 1 (RegionState_Shared 1);;
    set_region_state 1 RegionState_Invalid true;;
    region_state_is 1 RegionState_Invalid;;
    set_region_state 999 RegionState_Home false) RegionTable_new.

(** Source: crates/ub-managed/src/region.rs:142-150, [tests::test_region_table_set_epoch]. *)
Definition test_region_table_set_epoch : bool :=
  passes (
    insert_region (make_region 1 1 (RegionState_Shared 0));;
    set_region_epoch 1 5 true;;
    r <- find_region 1;; assert_eq (ri_epoch r) 5;;
    set_region_epoch 999 1 false) RegionTable_new.

(** Source: crates/ub-managed/src/region.rs:153-168, [tests::test_region_table_list_by_state]. *)
Definition test_region_table_list_by_state : bool :=
  passes (
    insert_region (make_region 1 1 RegionState_Home);;
    insert_region (make_region 2 2 (RegionState_Shared 1));;
    insert_region (make_region 3 1 RegionState_Invalid);;
    insert_region (make_region 4 2 RegionState_Home);;
    listed RegionState_Home 2;;
    listed (RegionState_Shared 1) 1;;
    listed RegionState_Invalid 1) RegionTable_new.

(** Source: crates/ub-managed/src/region.rs:171-183, [tests::test_region_table_count_by_state]. *)
Definition test_region_table_count_by_state : bool :=
  passes (
    insert_region (make_region 1 1 RegionState_Home);;
    insert_region (make_region 2 2 (RegionState_Shared 1));;
    insert_region (make_region 3 1 RegionState_Invalid);;
    insert_region (make_region 4 2 RegionState_Home);;
    insert_region (make_region 5 2 (RegionState_Shared 2));;
    counts <- query RegionTable_count_by_state;;
    assert_eq counts (2, 2, 1)%nat) RegionTable_new.

(** Source: crates/ub-managed/src/region.rs:186-204, [tests::test_region_state_transitions].
    The variable is the state of the test. *)
Definition test_region_state_transitions : bool :=
  let becomes (state : RegionState) :=
    update (fun _ => state);; current <- query (fun state => state);; assert_eq current state in
  passes (
    update (fun _ => RegionState_Invalid);;
    becomes RegionState_Home;;
    becomes RegionState_Invalid;;
    becomes (RegionState_Shared 1);;
    becomes RegionState_Invalid) RegionState_Invalid.

Lemma region_table_tests : all_pass
  [test_region_table_insert_lookup_remove; test_region_table_set_state; test_region_table_set_epoch;
   test_region_table_list_by_state; test_region_table_count_by_state;
   test_region_state_transitions] = true.
Proof. vm_compute. reflexivity. Qed.

(** ** Cache pool *)

(** The region tables, the pool and the clock. *)
Definition PoolTest (A : Type) : Type := Test (Tables * CachePool * Z) A.

Definition pool_insert (region_id len epoch : Z) : PoolTest (string + PoolCacheEntry) :=
  call (fun '(h, p, now) => let '(h, p, r) := CachePool_insert h p now region_id len epoch in (h, p, now + 1, r)).
Definition inserted (region_id len epoch : Z) : PoolTest PoolCacheEntry :=
  r <- pool_insert region_id len epoch;;
  match r with
  | inr e => test_ret e
  | inl _ => fun _ => None
  end.
Definition pool_lookup (region_id : Z) : PoolTest (option PoolCacheEntry) :=
  call (fun '(h, p, now) => let '(p, r) := CachePool_lookup p now region_id in (h, p, now + 1, r)).
Definition cached (region_id : Z) (b : bool) : PoolTest unit :=
  r <- pool_lookup region_id;; assert_eq (bool_decide (is_Some r)) b.
Definition pool_used (n : Z) : PoolTest unit := expect (fun '(_, p, _) => cp_used_bytes p) (Z.eqb n).

(** Source: crates/ub-managed/src/cache_pool.rs:175-177, [tests::make_pool]. *)
Definition make_pool (max_bytes : Z) : Tables * CachePool * Z :=
  ([], CachePool_new (SubAllocator_new 0 (max_bytes * 2)) max_bytes, 0).

(** Source: crates/ub-managed/src/cache_pool.rs:179-187, [tests::make_pool_with_region_table]. *)
Definition make_pool_with_region_table (max_bytes : Z) : Tables * CachePool * Z :=
  ([RegionTable_new], CachePool_with_region_table (SubAllocator_new 0 (max_bytes * 2)) max_bytes 0, 0).

(** Source: crates/ub-managed/src/cache_pool.rs:189-201, [tests::make_region_info]. *)
Definition make_region_info (region_id : Z) (state : RegionState) : RegionInfo :=
  mkRegionInfo region_id 1 0 0 0 1024 0 state None.

Definition on_rt {A} (f : RegionTable -> RegionTable * A) : PoolTest A :=
  call (fun '(h, p, now) => let '(h, a) := on_table h 0 f in (h, p, now, a)).
Definition rt_state_is (region_id : Z) (state : RegionState) : PoolTest unit :=
  r <- query (fun '(h, _, _) => region_of h 0 region_id);; r <- unwrap r;; assert_eq (ri_state r) state.

(** Source: crates/ub-managed/src/cache_pool.rs:204-213, [tests::test_cache_pool_insert_and_lookup]. *)
Definition test_cache_pool_insert_and_lookup : bool :=
  passes (
    entry <- inserted 1 1024 0;;
    assert_eq (pe_region_id entry) 1;; assert_eq (pe_epoch entry) 0;;
    found <- pool_lookup 1;; found <- unwrap found;;
    assert_eq (pe_region_id found) 1;; assert_eq (pe_pool_offset found) (pe_pool_offset entry)) (make_pool 4096).

(** Source: crates/ub-managed/src/cache_pool.rs:216-219, [tests::test_cache_pool_miss]. *)
Definition test_cache_pool_miss : bool :=
  passes (
    cached 99 false) (make_pool 4096).

(** Source: crates/ub-managed/src/cache_pool.rs:222-234, [tests::test_cache_pool_eviction]. *)
Definition test_cache_pool_eviction : bool :=
  passes (
    inserted 1 1024 0;;
    inserted 2 1024 0;;
    inserted 3 1024 0;;
    cached 1 false;;
    cached 2 true;;
    cached 3 true) (make_pool 2048).

(** Source: crates/ub-managed/src/cache_pool.rs:237-243, [tests::test_cache_pool_remove]. *)
Definition test_cache_pool_remove : bool :=
  passes (
    inserted 1 1024 0;;
    removed <- call (fun '(h, p, now) => let '(p, r) := CachePool_remove p 1 in (h, p, now, r));;
    removed <- unwrap removed;;
    assert_eq (pe_region_id removed) 1;;
    cached 1 false) (make_pool 4096).

(** Source: crates/ub-managed/src/cache_pool.rs:246-253, [tests::test_cache_pool_update_epoch]. *)
Definition test_cache_pool_update_epoch : bool :=
  passes (
    inserted 1 1024 0;;
    ok <- call (fun '(h, p, now) => let '(p, r) := CachePool_update_epoch p now 1 5 in (h, p, now + 1, r));; assert_eq ok true;;
    found <- pool_lookup 1;; found <- unwrap found;; assert_eq (pe_epoch found) 5;;
    ok <- call (fun '(h, p, now) => let '(p, r) := CachePool_update_epoch p now 99 1 in (h, p, now + 1, r));; assert_eq ok false) (make_pool 4096).

(** Source: crates/ub-managed/src/cache_pool.rs:256-271, [tests::test_cache_pool_access_updates_lru]. *)
Definition test_cache_pool_access_updates_lru : bool :=
  passes (
    inserted 1 1024 0;;
    inserted 2 1024 0;;
    pool_lookup 1;;
    inserted 3 1024 0;;
    cached 1 true;;
    cached 2 false;;
    cached 3 true) (make_pool 2048).

(** Source: crates/ub-managed/src/cache_pool.rs:276-297, [tests::test_lru_eviction_order]. *)
Definition test_lru_eviction_order : bool :=
  passes (
    inserted 1 1024 0;;
    inserted 2 1024 0;;
    inserted 3 1024 0;;
    inserted 4 1024 0;;
    cached 1 false;;
    cached 2 true;;
    cached 3 true;;
    cached 4 true;;
    inserted 5 1024 0;;
    cached 2 false;;
    cached 3 true;;
    cached 4 true;;
    cached 5 true) (make_pool 3072).

(** Source: crates/ub-managed/src/cache_pool.rs:300-326, [tests::test_lru_access_updates_order]. *)
Definition test_lru_access_updates_order : bool :=
  passes (
    inserted 1 1024 0;;
    inserted 2 1024 0;;
    pool_lookup 1;;
    inserted 3 1024 0;;
    cached 1 true;;
    cached 2 false;;
    pool_lookup 3;;
    pool_lookup 1;;
    inserted 4 1024 0;;
    cached 1 true;;
    cached 3 false;;
    cached 4 true) (make_pool 2048).

(** Source: crates/ub-managed/src/cache_pool.rs:329-347, [tests::test_cache_pool_capacity_enforcement]. *)
Definition test_cache_pool_capacity_enforcement : bool :=
  passes (
    inserted 1 1024 0;;
    inserted 2 1024 0;;
    pool_used 2048;;
    expect (fun '(_, p, _) => cp_max_bytes p) (Z.eqb 2048);;
    entry <- inserted 3 2048 0;;
    assert_eq (pe_len entry) 2048;;
    pool_used 2048;;
    cached 1 false;;
    cached 2 false;;
    cached 3 true) (make_pool 2048).

(** Source: crates/ub-managed/src/cache_pool.rs:350-373, [tests::test_cache_pool_eviction_invalidates_region]. *)
Definition test_cache_pool_eviction_invalidates_region : bool :=
  passes (
    on_rt (fun t => (RegionTable_insert t (make_region_info 1 (RegionState_Shared 0)), tt));;
    on_rt (fun t => (RegionTable_insert t (make_region_info 2 (RegionState_Shared 0)), tt));;
    inserted 1 1024 0;;
    inserted 2 1024 0;;
    rt_state_is 1 (RegionState_Shared 0);;
    rt_state_is 2 (RegionState_Shared 0);;
    inserted 3 1024 0;;
    rt_state_is 1 RegionState_Invalid;;
    rt_state_is 2 (RegionState_Shared 0)) (make_pool_with_region_table 2048).

(** Source: crates/ub-managed/src/cache_pool.rs:376-384, [tests::test_cache_pool_zero_max_bytes]. *)
Definition test_cache_pool_zero_max_bytes : bool :=
  passes (
    r <- pool_insert 1 1024 0;;
    assert (match r with inl _ => true | inr _ => false end);;
    cached 1 false;;
    pool_used 0;;
    expect (fun '(_, p, _) => CachePool_len p) (Z.eqb 0)) (make_pool 0).

Lemma cache_pool_tests : all_pass
  [test_cache_pool_insert_and_lookup; test_cache_pool_miss; test_cache_pool_eviction;
   test_cache_pool_remove; test_cache_pool_update_epoch; test_cache_pool_access_updates_lru;
   test_lru_eviction_order; test_lru_access_updates_order; test_cache_pool_capacity_enforcement;
   test_cache_pool_eviction_invalidates_region; test_cache_pool_zero_max_bytes] = true.
Proof. vm_compute. reflexivity. Qed.

(** ** Fetch agent *)

(** The agent and the clock; its region table is table 0. *)
Definition AgentTest (A : Type) : Type := Test (FetchAgent * Z) A.

Definition on_agent {A} (f : FetchAgent -> Z -> FetchAgent * A) : AgentTest A :=
  call (fun '(a, now) => let '(a, r) := f a now in (a, now + 1, r)).
Definition table_insert (info : RegionInfo) : AgentTest unit :=
  on_agent (fun a _ => on_agent_table a (fun t => (RegionTable_insert t info, tt))).
Definition read_va (region_id : Z) : AgentTest ReadVaResult :=
  r <- on_agent (fun a now => FetchAgent_read_va a now region_id);; unwrap_ok r.
Definition complete_fetch (region_id len epoch : Z) : AgentTest Z :=
  r <- on_agent (fun a now => FetchAgent_complete_fetch a now region_id len epoch);;
  match r with
  | inr offset => test_ret offset
  | inl _ => fun _ => None
  end.
Definition receive_invalidate (region_id epoch : Z) (expected : bool) : AgentTest unit :=
  r <- on_agent (fun a _ => FetchAgent_receive_invalidate a region_id epoch);; assert_eq r expected.
Definition agent_region_is (region_id : Z) (state : RegionState) : AgentTest unit :=
  r <- query (fun '(a, _) => agent_region a region_id);; r <- unwrap r;; assert_eq (ri_state r) state.
Definition agent_epoch_is (region_id epoch : Z) : AgentTest unit :=
  r <- query (fun '(a, _) => agent_region a region_id);; r <- unwrap r;; assert_eq (ri_epoch r) epoch.
Definition misses (region_id : Z) : AgentTest unit :=
  r <- read_va region_id;;
  match r with
  | ReadVaResult_CacheMiss info => assert_eq (ri_region_id info) region_id
  | _ => assert false
  end.
Definition hits (region_id : Z) : AgentTest (Z * RegionInfo) :=
  r <- read_va region_id;;
  match r with
  | ReadVaResult_CacheHit off info => test_ret (off, info)
  | _ => fun _ => None
  end.
Definition in_flight (region_id : Z) (b : bool) : AgentTest unit :=
  expect (fun '(a, _) => FetchAgent_is_fetch_in_flight a region_id) (Bool.eqb b).
Definition stale (region_id latest : Z) (b : bool) : AgentTest unit :=
  expect (fun '(a, _) => FetchAgent_is_epoch_stale a region_id latest) (Bool.eqb b).

(** Source: crates/ub-managed/src/fetch_agent.rs:199-203, [tests::make_fetch_agent]. *)
Definition make_fetch_agent : FetchAgent * Z :=
  (FetchAgent_new [RegionTable_new] 0 (CachePool_new (SubAllocator_new 0 (1024 * 1024)) (1024 * 1024)), 0).

(** Source: crates/ub-managed/src/fetch_agent.rs:209-221, [tests::make_region_with_epoch]. *)
Definition make_region_with_epoch (region_id : Z) (state : RegionState) (epoch : Z) : RegionInfo :=
  mkRegionInfo region_id 1 0 1 0 4096 epoch state None.

(** Source: crates/ub-managed/src/fetch_agent.rs:224-233, [tests::test_fetch_agent_home_read]. *)
Definition test_fetch_agent_home_read : bool :=
  passes (
    table_insert (make_region_with_epoch 1 RegionState_Home 0);;
    r <- read_va 1;;
    match r with
    | ReadVaResult_Home info => assert_eq (ri_region_id info) 1
    | _ => assert false
    end) make_fetch_agent.

(** Source: crates/ub-managed/src/fetch_agent.rs:236-245, [tests::test_fetch_agent_cache_miss]. *)
Definition test_fetch_agent_cache_miss : bool :=
  passes (
    table_insert (make_region_with_epoch 1 RegionState_Invalid 0);;
    misses 1) make_fetch_agent.

(** Source: crates/ub-managed/src/fetch_agent.rs:248-273, [tests::test_fetch_agent_complete_fetch_then_hit]. *)
Definition test_fetch_agent_complete_fetch_then_hit : bool :=
  passes (
    table_insert (make_region_with_epoch 1 RegionState_Invalid 0);;
    misses 1;;
    offset <- complete_fetch 1 4096 1;;
    assert (offset <? 2 ^ 64 - 1);;
    let! (off, info) := hits 1 in
    assert_eq off offset;;
    assert_eq (ri_region_id info) 1;;
    agent_region_is 1 (RegionState_Shared 1)) make_fetch_agent.

(** Source: crates/ub-managed/src/fetch_agent.rs:276-291, [tests::test_fetch_agent_invalidate_local]. *)
Definition test_fetch_agent_invalidate_local : bool :=
  passes (
    table_insert (make_region_with_epoch 1 (RegionState_Shared 1) 0);;
    complete_fetch 1 4096 1;;
    ok <- on_agent (fun a _ => FetchAgent_invalidate_local a 1);; assert ok;;
    misses 1;;
    agent_region_is 1 RegionState_Invalid) make_fetch_agent.

(** Source: crates/ub-managed/src/fetch_agent.rs:294-298, [tests::test_fetch_agent_unknown_region]. *)
Definition test_fetch_agent_unknown_region : bool :=
  passes (
    r <- read_va 999;;
    assert (match r with ReadVaResult_UnknownRegion => true | _ => false end)) make_fetch_agent.

(** Source: crates/ub-managed/src/fetch_agent.rs:301-316, [tests::test_fetch_agent_in_flight_tracking]. *)
Definition test_fetch_agent_in_flight_tracking : bool :=
  passes (
    in_flight 1 false;;
    on_agent (fun a _ => (FetchAgent_mark_fetch_in_flight a 1, tt));;
    in_flight 1 true;;
    on_agent (fun a _ => (FetchAgent_mark_fetch_in_flight a 1, tt));;
    in_flight 1 true;;
    table_insert (make_region_with_epoch 1 RegionState_Invalid 0);;
    complete_fetch 1 4096 1;;
    in_flight 1 false) make_fetch_agent.

(** Source: crates/ub-managed/src/fetch_agent.rs:319-341, [tests::test_fetch_agent_epoch_stale_auto_invalidate]. *)
Definition test_fetch_agent_epoch_stale_auto_invalidate : bool :=
  passes (
    table_insert (make_region_with_epoch 1 (RegionState_Shared 1) 0);;
    complete_fetch 1 4096 1;;
    on_agent (fun a _ => on_agent_table a (fun t => RegionTable_set_epoch t 1 5));;
    on_agent (fun a _ => on_agent_table a (fun t => RegionTable_set_state t 1 (RegionState_Shared 5)));;
    misses 1;;
    agent_region_is 1 RegionState_Invalid) make_fetch_agent.

(** Source: crates/ub-managed/src/fetch_agent.rs:344-358, [tests::test_fetch_agent_receive_invalidate]. *)
Definition test_fetch_agent_receive_invalidate : bool :=
  passes (
    table_insert (make_region_with_epoch 1 (RegionState_Shared 1) 0);;
    complete_fetch 1 4096 1;;
    receive_invalidate 1 3 true;;
    agent_region_is 1 RegionState_Invalid;;
    agent_epoch_is 1 3) make_fetch_agent.

(** Source: crates/ub-managed/src/fetch_agent.rs:361-373, [tests::test_fetch_agent_receive_invalidate_stale]. *)
Definition test_fetch_agent_receive_invalidate_stale : bool :=
  passes (
    table_insert (make_region_with_epoch 1 (RegionState_Shared 5) 0);;
    complete_fetch 1 4096 5;;
    receive_invalidate 1 2 false;;
    agent_region_is 1 (RegionState_Shared 5)) make_fetch_agent.

(** Source: crates/ub-managed/src/fetch_agent.rs:376-387, [tests::test_fetch_agent_receive_invalidate_home_region]. *)
Definition test_fetch_agent_receive_invalidate_home_region : bool :=
  passes (
    table_insert (make_region_with_epoch 1 RegionState_Home 0);;
    receive_invalidate 1 10 false;;
    agent_region_is 1 RegionState_Home) make_fetch_agent.

(** Source: crates/ub-managed/src/fetch_agent.rs:390-395, [tests::test_fetch_agent_receive_invalidate_unknown_region]. *)
Definition test_fetch_agent_receive_invalidate_unknown_region : bool :=
  passes (
    receive_invalidate 999 1 false) make_fetch_agent.

(** Source: crates/ub-managed/src/fetch_agent.rs:398-412, [tests::test_fetch_agent_receive_invalidate_same_epoch]. *)
Definition test_fetch_agent_receive_invalidate_same_epoch : bool :=
  passes (
    table_insert (make_region_with_epoch 1 (RegionState_Shared 1) 0);;
    complete_fetch 1 4096 1;;
    receive_invalidate 1 1 true;;
    agent_region_is 1 RegionState_Invalid) make_fetch_agent.

(** Source: crates/ub-managed/src/fetch_agent.rs:415-427, [tests::test_fetch_agent_receive_invalidate_already_invalid]. *)
Definition test_fetch_agent_receive_invalidate_already_invalid : bool :=
  passes (
    table_insert (make_region_with_epoch 1 RegionState_Invalid 2);;
    receive_invalidate 1 5 false;;
    agent_epoch_is 1 5;;
    agent_region_is 1 RegionState_Invalid) make_fetch_agent.

(** Source: crates/ub-managed/src/fetch_agent.rs:430-438, [tests::test_fetch_agent_is_epoch_stale]. *)
Definition test_fetch_agent_is_epoch_stale : bool :=
  passes (
    table_insert (make_region_with_epoch 1 (RegionState_Shared 3) 3);;
    stale 1 5 true;;
    stale 1 3 false;;
    stale 1 1 false;;
    stale 999 1 false) make_fetch_agent.

(** Source: crates/ub-managed/src/fetch_agent.rs:441-457, [tests::test_fetch_agent_complete_fetch_updates_epoch]. *)
Definition test_fetch_agent_complete_fetch_updates_epoch : bool :=
  passes (
    table_insert (make_region_with_epoch 1 RegionState_Invalid 0);;
    offset <- complete_fetch 1 4096 5;;
    agent_region_is 1 (RegionState_Shared 5);;
    agent_epoch_is 1 5;;
    entry <- on_agent (fun a now => let '(p, r) := CachePool_lookup (fa_cache_pool a) now 1 in (a <| fa_cache_pool := p |>, r));;
    entry <- unwrap entry;;
    assert_eq (pe_epoch entry) 5;; assert_eq (pe_pool_offset entry) offset) make_fetch_agent.

(** Source: crates/ub-managed/src/fetch_agent.rs:460-488, [tests::test_fetch_agent_cache_miss_then_fetch_then_hit_then_invalidate_then_miss]. *)
Definition test_fetch_agent_cache_miss_then_fetch_then_hit_then_invalidate_then_miss : bool :=
  passes (
    table_insert (make_region_with_epoch 1 RegionState_Invalid 0);;
    misses 1;;
    complete_fetch 1 4096 1;;
    hits 1;;
    receive_invalidate 1 2 true;;
    misses 1;;
    complete_fetch 1 4096 2;;
    let! (_, info) := hits 1 in
    assert_eq (ri_epoch info) 2) make_fetch_agent.

Lemma fetch_agent_tests : all_pass
  [test_fetch_agent_home_read; test_fetch_agent_cache_miss; test_fetch_agent_complete_fetch_then_hit;
   test_fetch_agent_invalidate_local; test_fetch_agent_unknown_region; test_fetch_agent_in_flight_tracking;
   test_fetch_agent_epoch_stale_auto_invalidate; test_fetch_agent_receive_invalidate;
   test_fetch_agent_receive_invalidate_stale; test_fetch_agent_receive_invalidate_home_region;
   test_fetch_agent_receive_invalidate_unknown_region; test_fetch_agent_receive_invalidate_same_epoch;
   test_fetch_agent_receive_invalidate_already_invalid; test_fetch_agent_is_epoch_stale;
   test_fetch_agent_complete_fetch_updates_epoch;
   test_fetch_agent_cache_miss_then_fetch_then_hit_then_invalidate_then_miss] = true.
Proof. vm_compute. reflexivity. Qed.

(** ** Coherence *)

(** The manager and the clock in nanoseconds. *)
Definition CoherenceTest (A : Type) : Type := Test (CoherenceManager * Z) A.

Definition on_cm {A} (f : CoherenceManager -> Z -> CoherenceManager * A) : CoherenceTest A :=
  call (fun '(c, now) => let '(c, r) := f c now in (c, now + 1, r)).
Definition register_1 : CoherenceTest unit := on_cm (fun c _ => (CoherenceManager_register_region c 1 1 0 4096, tt)).
Definition acquire (region_id node : Z) : CoherenceTest AcquireWriterResult :=
  on_cm (fun c now => CoherenceManager_acquire_writer c now now region_id node).
Definition granted (node : Z) : CoherenceTest Z :=
  r <- acquire 1 node;;
  match r with
  | AcquireWriterResult_Granted 1 epoch => test_ret epoch
  | _ => fun _ => None
  end.
Definition release (node : Z) (expected : bool) : CoherenceTest unit :=
  r <- on_cm (fun c _ => CoherenceManager_release_writer c 1 node);; assert_eq r expected.
Definition writer_is (node : option Z) : CoherenceTest unit :=
  expect (fun '(c, _) => wi_writer_node_id <$> CoherenceManager_get_writer c 1) (fun w => bool_decide (w = node)).
Definition epoch_is (epoch : option Z) : CoherenceTest unit :=
  expect (fun '(c, _) => CoherenceManager_get_epoch c 1) (fun e => bool_decide (e = epoch)).
Definition epoch_bumped : CoherenceTest unit :=
  e <- query (fun '(c, _) => CoherenceManager_get_epoch c 1);; e <- unwrap e;; assert (0 <? e).
Definition reads (node : Z) (b : bool) : CoherenceTest unit :=
  expect (fun '(c, _) => bool_decide (node ∈ CoherenceManager_get_readers c 1)) (Bool.eqb b).
Definition add_reader (node : Z) : CoherenceTest unit :=
  ok <- on_cm (fun c _ => CoherenceManager_add_reader c 1 node);; assert ok.
Definition remove_reader (node : Z) (expected : bool) : CoherenceTest unit :=
  ok <- on_cm (fun c _ => CoherenceManager_remove_reader c 1 node);; assert_eq ok expected.
Definition ack_invalidate (node : Z) : CoherenceTest unit :=
  ok <- on_cm (fun c _ => CoherenceManager_handle_invalidate_ack c 1 node);; assert ok.
Definition sleep (ms : Z) : CoherenceTest unit := update (fun '(c, now) => (c, now + ms * 10 ^ 6)).

(** Source: crates/ub-managed/src/coherence.rs:428-430, [tests::make_coherence]. *)
Definition make_coherence : CoherenceManager * Z :=
  (CoherenceManager_new 5000, 0).

(** Source: crates/ub-managed/src/coherence.rs:433-449, [tests::test_coherence_acquire_writer_no_readers]. *)
Definition test_coherence_acquire_writer_no_readers : bool :=
  passes (
    register_1;;
    epoch <- granted 1;; assert_eq epoch 0;;
    writer_is (Some 1)) make_coherence.

(** Source: crates/ub-managed/src/coherence.rs:452-473, [tests::test_coherence_acquire_writer_with_readers]. *)
Definition test_coherence_acquire_writer_with_readers : bool :=
  passes (
    register_1;;
    add_reader 2;; add_reader 3;;
    granted 1;;
    reads 2 true;; reads 3 true) make_coherence.

(** Source: crates/ub-managed/src/coherence.rs:476-490, [tests::test_coherence_invalidate_state_transition]. *)
Definition test_coherence_invalidate_state_transition : bool :=
  passes (
    register_1;;
    add_reader 2;;
    ack_invalidate 2;;
    reads 2 false) make_coherence.

(** Source: crates/ub-managed/src/coherence.rs:493-516, [tests::test_coherence_writer_lease_expiry]. *)
Definition test_coherence_writer_lease_expiry : bool :=
  passes (
    register_1;;
    granted 1;;
    sleep 10;;
    expired <- on_cm (fun c now => CoherenceManager_check_lease_expiry c (fun _ => now));;
    assert_eq expired [(1, 1)];;
    writer_is None;;
    epoch_bumped) (CoherenceManager_new 1, 0).

(** Source: crates/ub-managed/src/coherence.rs:555-580, [tests::test_concurrent_acquire_queues]. *)
Definition test_concurrent_acquire_queues : bool :=
  passes (
    register_1;;
    granted 1;;
    r <- acquire 1 2;;
    match r with
    | AcquireWriterResult_Denied region_id reason =>
      assert_eq region_id 1;; assert_eq reason "writer node 1 holds the lock"%string
    | _ => assert false
    end;;
    release 1 true;;
    granted 2) make_coherence.

(** Source: crates/ub-managed/src/coherence.rs:583-588, [tests::test_coherence_region_not_found]. *)
Definition test_coherence_region_not_found : bool :=
  passes (
    r <- acquire 999 1;;
    assert (match r with AcquireWriterResult_NotFound => true | _ => false end)) make_coherence.

(** Source: crates/ub-managed/src/coherence.rs:591-606, [tests::test_coherence_release_wrong_writer]. *)
Definition test_coherence_release_wrong_writer : bool :=
  passes (
    register_1;;
    granted 1;;
    release 2 false;;
    writer_is (Some 1)) make_coherence.

(** Source: crates/ub-managed/src/coherence.rs:645-664, [tests::test_coherence_add_remove_reader]. *)
Definition test_coherence_add_remove_reader : bool :=
  passes (
    register_1;;
    add_reader 2;; add_reader 3;;
    expect (fun '(c, _) => size (CoherenceManager_get_readers c 1)) (Nat.eqb 2);;
    reads 2 true;; reads 3 true;;
    remove_reader 2 true;;
    expect (fun '(c, _) => size (CoherenceManager_get_readers c 1)) (Nat.eqb 1);;
    reads 2 false;;
    remove_reader 99 false) make_coherence.

(** Source: crates/ub-managed/src/coherence.rs:667-680, [tests::test_coherence_epoch_bumping]. *)
Definition test_coherence_epoch_bumping : bool :=
  passes (
    register_1;;
    epoch_is (Some 0);;
    e1 <- on_cm (fun c _ => CoherenceManager_bump_epoch c 1);;
    assert_eq e1 (Some 1);; epoch_is (Some 1);;
    e2 <- on_cm (fun c _ => CoherenceManager_bump_epoch c 1);;
    assert_eq e2 (Some 2);; epoch_is (Some 2)) make_coherence.

(** Source: crates/ub-managed/src/coherence.rs:683-695, [tests::test_coherence_unregister_region]. *)
Definition test_coherence_unregister_region : bool :=
  passes (
    register_1;;
    expect (fun '(c, _) => CoherenceManager_contains_region c 1) (fun b => b);;
    state <- on_cm (fun c _ => CoherenceManager_unregister_region c 1);;
    unwrap state;;
    expect (fun '(c, _) => CoherenceManager_contains_region c 1) negb;;
    state2 <- on_cm (fun c _ => CoherenceManager_unregister_region c 1);;
    assert (match state2 with None => true | _ => false end)) make_coherence.

(** Source: crates/ub-managed/src/coherence.rs:698-713, [tests::test_coherence_same_writer_reacquire]. *)
Definition test_coherence_same_writer_reacquire : bool :=
  passes (
    register_1;;
    granted 1;;
    granted 1;;
    release 1 true;;
    writer_is None) make_coherence.

(** Source: crates/ub-managed/src/coherence.rs:519-552, [tests::test_writer_guard_drop_sends_unlock]. *)
Definition test_writer_guard_drop_sends_unlock : bool :=
  passes (
    register_1;;
    epoch <- granted 1;;
    let guard := WriterGuard_new (UbVa_new 1 0) 1 1 1 epoch in
    writer_is (Some 1);;
    on_cm (fun c _ => (WriterGuard_drop c guard, tt));;
    writer_is None;;
    epoch_bumped) make_coherence.

(** [guard.release()]: the guard after it, and the result. *)
Definition guard_release (g : WriterGuard) : CoherenceTest (WriterGuard * bool) :=
  on_cm (fun c _ => let '(c, g, ok) := WriterGuard_release c g in (c, (g, ok))).

(** Source: crates/ub-managed/src/coherence.rs:609-642, [tests::test_writer_guard_manual_release]. *)
Definition test_writer_guard_manual_release : bool :=
  passes (
    register_1;;
    epoch <- granted 1;;
    let guard := WriterGuard_new (UbVa_new 1 0) 1 1 1 epoch in
    assert (negb (wg_released guard));;
    writer_is (Some 1);;
    let! (guard, ok) := guard_release guard in
    assert ok;; assert (wg_released guard);;
    writer_is None;;
    let! (_, ok2) := guard_release guard in
    assert (negb ok2)) make_coherence.

(** The home's manager and a reader's agent side by side. *)
Definition at_home {A} (t : CoherenceTest A) : Test (CoherenceManager * FetchAgent * Z) A := fun '(c, a, now) =>
  match t (c, now) with
  | Some (r, (c, now)) => Some (r, (c, a, now))
  | None => None
  end.
Definition at_reader {A} (t : AgentTest A) : Test (CoherenceManager * FetchAgent * Z) A := fun '(c, a, now) =>
  match t (a, now) with
  | Some (r, (a, now)) => Some (r, (c, a, now))
  | None => None
  end.

(** Source: crates/ub-managed/src/coherence.rs:716-792, [tests::test_swmr_full_lifecycle]. *)
Definition test_swmr_full_lifecycle : bool :=
  passes (
    at_home register_1;;
    at_home (add_reader 2);;
    at_reader (table_insert (mkRegionInfo 1 1 0 1 0 4096 0 (RegionState_Shared 0) (Some 2)));;
    at_reader (complete_fetch 1 4096 0);;
    at_reader (hits 1);;
    at_home (granted 1);;
    at_reader (receive_invalidate 1 1 true);;
    at_home (ack_invalidate 2);;
    at_home (reads 2 false);;
    at_reader (agent_region_is 1 RegionState_Invalid);;
    at_home (release 1 true);;
    at_home epoch_bumped;;
    epoch <- query (fun '(c, _, _) => CoherenceManager_get_epoch c 1);;
    epoch <- unwrap epoch;;
    at_reader (on_agent (fun a _ => on_agent_table a (fun t => RegionTable_set_epoch t 1 epoch)));;
    at_reader (misses 1);;
    at_reader (complete_fetch 1 4096 epoch);;
    at_reader (agent_region_is 1 (RegionState_Shared epoch));;
    at_reader (hits 1)) (CoherenceManager_new 5000, make_fetch_agent.1, 0).

Lemma coherence_tests : all_pass
  [test_coherence_acquire_writer_no_readers; test_coherence_acquire_writer_with_readers;
   test_coherence_invalidate_state_transition; test_coherence_writer_lease_expiry;
   test_concurrent_acquire_queues; test_coherence_region_not_found; test_coherence_release_wrong_writer;
   test_coherence_add_remove_reader; test_coherence_epoch_bumping; test_coherence_unregister_region;
   test_coherence_same_writer_reacquire; test_writer_guard_drop_sends_unlock;
   test_writer_guard_manual_release; test_swmr_full_lifecycle] = true.
Proof. vm_compute. reflexivity. Qed.

(** ** Device registry *)

Definition reg (p : DeviceProfile) : Test DeviceRegistry unit := update (fun r => DeviceRegistry_register r p).
Definition get_device (node dev : Z) : Test DeviceRegistry DeviceProfile :=
  p <- query (fun r => DeviceRegistry_get r node dev);; unwrap p.
Definition devices_are (n : nat) : Test DeviceRegistry unit := expect (fun r => length (dr_profiles r)) (Nat.eqb n).
Definition best (node : Z) (latency : LatencyClass) (pin : option DeviceKind) (size : Z) : Test DeviceRegistry (option (Z * Z)) :=
  query (fun r => DeviceRegistry_best_device r node latency CapacityClass_Small pin size).

(** Source: crates/ub-managed/src/registry.rs:160-175, [tests::test_device_registry_register_and_list]. *)
Definition test_device_registry_register_and_list : bool :=
  passes (
    reg (DeviceProfile_memory_default 1 1024);;
    reg (DeviceProfile_npu_default 1 1 2048);;
    devices_are 2;;
    found <- get_device 1 0;; assert_eq (dp_kind found) DeviceKind_Memory;;
    found_npu <- get_device 1 1;; assert_eq (dp_kind found_npu) DeviceKind_Npu) (DeviceRegistry_new CostWeights_default).

(** Source: crates/ub-managed/src/registry.rs:178-187, [tests::test_device_registry_update_dynamic]. *)
Definition test_device_registry_update_dynamic : bool :=
  passes (
    reg (DeviceProfile_memory_default 1 1000);;
    p <- get_device 1 0;; assert_eq (dp_used_bytes p) 0;;
    update (fun r => DeviceRegistry_update_dynamic r 1 0 500 100);;
    p <- get_device 1 0;;
    assert_eq (dp_used_bytes p) 500;; assert_eq (dp_recent_rps p) 100) (DeviceRegistry_new CostWeights_default).

(** Source: crates/ub-managed/src/registry.rs:190-200, [tests::test_device_registry_register_replaces_existing]. *)
Definition test_device_registry_register_replaces_existing : bool :=
  passes (
    reg (DeviceProfile_memory_default 1 1000);;
    devices_are 1;;
    p <- get_device 1 0;; assert_eq (dp_capacity_bytes p) 1000;;
    reg (DeviceProfile_memory_default 1 2000);;
    devices_are 1;;
    p <- get_device 1 0;; assert_eq (dp_capacity_bytes p) 2000) (DeviceRegistry_new CostWeights_default).

(** Source: crates/ub-managed/src/registry.rs:203-214, [tests::test_device_registry_remove_node]. *)
Definition test_device_registry_remove_node : bool :=
  passes (
    reg (DeviceProfile_memory_default 1 1000);;
    reg (DeviceProfile_npu_default 1 1 2000);;
    reg (DeviceProfile_memory_default 2 3000);;
    devices_are 3;;
    update (fun r => DeviceRegistry_remove_node r 1);;
    devices_are 1;;
    list <- query dr_profiles;;
    assert_eq ((fun p => (dp_device_key p).1) <$> list) [2]) (DeviceRegistry_new CostWeights_default).

(** Source: crates/ub-managed/src/registry.rs:217-248, [tests::test_device_registry_best_device_selection]. *)
Definition test_device_registry_best_device_selection : bool :=
  passes (
    reg (DeviceProfile_memory_default 1 (1024 * 1024 * 256));;
    reg (DeviceProfile_npu_default 1 1 (1024 * 1024 * 256));;
    reg (DeviceProfile_memory_default 2 (1024 * 1024 * 256));;
    best1 <- best 1 LatencyClass_Critical None 1024;;
    assert_eq best1 (Some (1, 1));;
    best2 <- best 1 LatencyClass_Normal None 1024;;
    assert_eq best2 (Some (1, 0));;
    best3 <- best 2 LatencyClass_Normal (Some DeviceKind_Npu) 1024;;
    assert_eq (snd <$> best3) (Some 1);;
    best4 <- best 1 LatencyClass_Normal None (1024 * 1024 * 1024);;
    assert_eq best4 None) (DeviceRegistry_new CostWeights_default).

(** Source: crates/ub-managed/src/registry.rs:251-264, [tests::test_device_registry_best_device_prefers_local]. *)
Definition test_device_registry_best_device_prefers_local : bool :=
  passes (
    reg (DeviceProfile_memory_default 1 (1024 * 1024 * 256));;
    reg (DeviceProfile_memory_default 2 (1024 * 1024 * 256));;
    best1 <- best 1 LatencyClass_Normal None 1024;;
    assert_eq (fst <$> best1) (Some 1);;
    best2 <- best 2 LatencyClass_Normal None 1024;;
    assert_eq (fst <$> best2) (Some 2)) (DeviceRegistry_new CostWeights_default).

(** Source: crates/ub-managed/src/registry.rs:267-277, [tests::test_tier_mismatch_values]. *)
Definition test_tier_mismatch_values : bool :=
  passes (
    assert (SFeqb (tier_mismatch LatencyClass_Critical StorageTier_Hot) (f64_of_int 0));;
    assert (SFeqb (tier_mismatch LatencyClass_Normal StorageTier_Warm) (f64_of_int 0));;
    assert (SFeqb (tier_mismatch LatencyClass_Bulk StorageTier_Cold) (f64_of_int 0));;
    assert (SFeqb (tier_mismatch LatencyClass_Critical StorageTier_Cold) (f64_of_int 1));;
    assert (f64_ltb (f64_of_int 0) (tier_mismatch LatencyClass_Critical StorageTier_Warm));;
    assert (f64_ltb (tier_mismatch LatencyClass_Critical StorageTier_Warm) (f64_of_int 1))) tt.

Lemma registry_tests : all_pass
  [test_device_registry_register_and_list; test_device_registry_update_dynamic;
   test_device_registry_register_replaces_existing; test_device_registry_remove_node;
   test_device_registry_best_device_selection; test_device_registry_best_device_prefers_local;
   test_tier_mismatch_values] = true.
Proof. vm_compute. reflexivity. Qed.

(** ** Placer *)

Definition hints (size : Z) (latency : LatencyClass) (pin : option DeviceKind) : AllocHints :=
  mkAllocHints size AccessPattern_Mixed latency CapacityClass_Small pin 0.
Definition placed (h : AllocHints) (node : Z) : Test Placer (Z * RegionPlacement) :=
  r <- call (fun p => Placer_place p h node);;
  match r with
  | inr vp => test_ret vp
  | inl _ => fun _ => None
  end.
Definition not_placed (h : AllocHints) (node : Z) : Test Placer unit :=
  expect (fun p => (Placer_place p h node).2) (fun r => match r with inl _ => true | inr _ => false end).

(** A placer with some devices and sub-allocators. *)
Definition placer_of (profiles : list DeviceProfile) (pools : list (Z * Z * Z)) : Placer :=
  foldl (fun p '(node, dev, len) => Placer_register_sub_allocator p node dev (SubAllocator_new 0 len))
    (Placer_new (DeviceRegistry_register_all (DeviceRegistry_new CostWeights_default) profiles)) pools.
Definition mib_256 : Z := 1024 * 1024 * 256.

(** Source: crates/ub-managed/src/placer.rs:220-234, [tests::setup_registry_and_placer]. *)
Definition setup_registry_and_placer : Placer :=
  placer_of [DeviceProfile_memory_default 1 mib_256; DeviceProfile_npu_default 1 1 mib_256]
    [(1, 0, mib_256); (1, 1, mib_256)].

(** Source: crates/ub-managed/src/placer.rs:237-265, [tests::test_placement_cost_function]. *)
Definition test_placement_cost_function : bool :=
  passes (
    let! (_, placement) := placed (hints 4096 LatencyClass_Critical None) 1 in
    assert_eq (rp_device_id placement) 1;; assert_eq (rp_home_node_id placement) 1;;
    let! (_, placement) := placed (hints 4096 LatencyClass_Normal None) 1 in
    assert_eq (rp_device_id placement) 0;; assert_eq (rp_home_node_id placement) 1) setup_registry_and_placer.

(** Source: crates/ub-managed/src/placer.rs:268-287, [tests::test_placement_prefers_local_device]. *)
Definition test_placement_prefers_local_device : bool :=
  passes (
    let! (_, placement) := placed (hints 4096 LatencyClass_Normal None) 1 in
    assert_eq (rp_home_node_id placement) 1) (placer_of [DeviceProfile_memory_default 1 mib_256; DeviceProfile_memory_default 2 mib_256]
      [(1, 0, mib_256); (2, 0, mib_256)]).

(** Source: crates/ub-managed/src/placer.rs:290-301, [tests::test_placement_respects_pin_hint]. *)
Definition test_placement_respects_pin_hint : bool :=
  passes (
    let! (_, placement) := placed (hints 4096 LatencyClass_Normal (Some DeviceKind_Npu)) 1 in
    assert_eq (rp_device_id placement) 1) setup_registry_and_placer.

(** Source: crates/ub-managed/src/placer.rs:304-326, [tests::test_placement_and_free]. *)
Definition test_placement_and_free : bool :=
  passes (
    let! (va, _) := placed (hints 4096 LatencyClass_Normal None) 1 in
    let region_id := UbVa_region_id va in
    found <- query (fun p => Placer_lookup p region_id);;
    found <- unwrap found;; assert_eq (rp_region_id found) region_id;;
    freed <- call (fun p => Placer_free p region_id);;
    freed <- unwrap freed;; assert_eq (rp_region_id freed) region_id;;
    expect (fun p => Placer_lookup p region_id) (fun o => match o with None => true | _ => false end)) setup_registry_and_placer.

(** Source: crates/ub-managed/src/placer.rs:329-345, [tests::test_placement_insufficient_space]. *)
Definition test_placement_insufficient_space : bool :=
  passes (
    not_placed (hints 2048 LatencyClass_Normal None) 1) (placer_of [DeviceProfile_memory_default 1 1024] [(1, 0, 1024)]).

(** Source: crates/ub-managed/src/placer.rs:348-359, [tests::test_placement_no_sub_allocator]. *)
Definition test_placement_no_sub_allocator : bool :=
  passes (
    not_placed AllocHints_default 1) (placer_of [DeviceProfile_memory_default 1 mib_256] []).

(** Source: crates/ub-managed/src/placer.rs:362-377, [tests::test_placement_set_mr_handle]. *)
Definition test_placement_set_mr_handle : bool :=
  passes (
    let! (va, _) := placed (hints 4096 LatencyClass_Normal None) 1 in
    let region_id := UbVa_region_id va in
    ok <- call (fun p => Placer_set_mr_handle p region_id 42);; assert ok;;
    found <- query (fun p => Placer_lookup p region_id);;
    found <- unwrap found;; assert_eq (rp_mr_handle found) 42;;
    ok <- call (fun p => Placer_set_mr_handle p 9999 1);; assert (negb ok)) setup_registry_and_placer.

Lemma placer_tests : all_pass
  [test_placement_cost_function; test_placement_prefers_local_device; test_placement_respects_pin_hint;
   test_placement_and_free; test_placement_insufficient_space; test_placement_no_sub_allocator;
   test_placement_set_mr_handle] = true.
Proof. vm_compute. reflexivity. Qed.
