(* ===== verification/TestDataplane.v ===== *)
(** * TestDataplane: the tests of ub-dataplane

    The unit tests of lib.rs, run on the model: two engines joined by a network that delivers
    everything. A pause in a test is the background tasks running until nothing is left to do
    ([settle]). The test of loss resilience has a network that loses the datagrams it is told
    to, a clock, and the retransmission task. *)

From S2P Require Import Prelude Bytes Types Addr Device Mr Jetty Frame Session.
From S2P Require Import Manager Dataplane Testing.
#[local] Open Scope Z_scope.
#[local] Open Scope test_scope.

(** ** Two engines *)

(** Source: crates/ub-dataplane/src/lib.rs:1112-1119, [tests::test_jetty_config]. *)
Definition test_jetty_config : JettyConfig :=
  mkJettyConfig 16 16 16 12.

(** Source: crates/ub-dataplane/src/lib.rs:1136-1147, [tests::make_engine]. *)
Definition make_engine (node_id : Z) (mr_table : MrTable) (devices : list DynDevice)
    (mr_cache : gmap (Z * Z) MrCacheEntry) : Engine :=
  DataPlaneEngine_new node_id mr_table devices mr_cache (JettyTable_new node_id test_jetty_config)
    (TransportManager_new node_id 200 8).

(** Source: crates/ub-dataplane/src/lib.rs:1150-1163, [tests::make_engine_with_rto].
    The retransmission task it starts is the ticks of [pause] below. *)
Definition make_engine_with_rto (node_id : Z) (mr_table : MrTable) (devices : list DynDevice)
    (mr_cache : gmap (Z * Z) MrCacheEntry) : Engine := make_engine node_id mr_table devices mr_cache.

(** Source: crates/ub-dataplane/src/lib.rs:1166-1174, [tests::connect_bidir]. *)
Definition connect_bidir (engine_a engine_b : Engine) : Engine * Engine :=
  (connect_peer engine_a (en_local_node_id engine_b), connect_peer engine_b (en_local_node_id engine_a)).

(** [engine.transport().create_session(peer, 1, 64).unwrap()]. *)
Definition with_session (e : Engine) (peer : Z) : Engine :=
  match TransportManager_create_session (en_transport e) peer 1 64 with
  | Ok m => e <| en_transport := m |>
  | _ => e
  end.

(** One datagram arrives at an engine and is dispatched. *)
Definition receive (e : Engine) (raw : bytes) : option Engine :=
  match dispatch_one (receive_datagram e (fun _ => 0) raw) (fun _ => 0) with
  | Ok e => Some e
  | _ => None
  end.

Fixpoint receive_all (e : Engine) (raws : list bytes) : option Engine :=
  match raws with
  | [] => Some e
  | raw :: raws => e ← receive e raw; receive_all e raws
  end.

(** What the engine has handed to the channel of a peer, and the engine without it. *)
Definition outgoing (e : Engine) (peer : Z) : list bytes := default [] (ch_queue <$> tm_peer_senders (en_transport e) !! peer).
Definition emptied (e : Engine) (peer : Z) : Engine :=
  e <| en_transport := (en_transport e) <| tm_peer_senders :=
         alter (fun ch => ch <| ch_queue := [] |>) peer (tm_peer_senders (en_transport e)) |> |>.

(** Node 1 and node 2 exchange datagrams until none is left, at most [n] times. *)
Fixpoint exchange (n : nat) (a b : Engine) : option (Engine * Engine) :=
  match n, outgoing a 2, outgoing b 1 with
  | _, [], [] => Some (a, b)
  | O, _, _ => None
  | S n, to_b, to_a => a ← receive_all (emptied a 2) to_a; b ← receive_all (emptied b 1) to_b; exchange n a b
  end.

Definition PairTest (A : Type) : Type := Test (Engine * Engine) A.
Definition settle : PairTest unit := fun '(a, b) => ab ← exchange 20 a b; Some (tt, ab).

(** A call on node 2 that answers at once, and one that waits. *)
Definition on_b {A} (f : Engine -> Engine * Result A) : PairTest A := fun '(a, b) =>
  match f b with
  | (b, Ok r) => Some (r, (a, b))
  | _ => None
  end.
Definition awaited {A} (start : Engine -> Engine * Result Z) (finish : Engine -> Z -> Engine * Result A) : PairTest A :=
  opaque <- on_b start;; settle;; on_b (fun e => finish e opaque).

Definition write_remote (addr : Z) (data : bytes) : PairTest unit := on_b (fun e => ub_write_remote e 0 0 addr data).
Definition read_remote (addr len : Z) : PairTest bytes :=
  awaited (fun e => ub_read_remote_start e 0 0 addr len) ub_read_remote_finish.
Definition cas_remote (addr expect new : Z) : PairTest Z :=
  awaited (fun e => ub_atomic_cas_remote_start e 0 0 addr expect new) ub_atomic_cas_remote_finish.
Definition faa_remote (addr add : Z) : PairTest Z :=
  awaited (fun e => ub_atomic_faa_remote_start e 0 0 addr add) ub_atomic_faa_remote_finish.

(** Jettys of node 1 ([jetty_table_a]). *)
Definition create_jetty_a : PairTest Z :=
  call (fun '(a, b) => let '(t, h) := JettyTable_create (en_jetty_table a) in ((a <| en_jetty_table := t |>, b), h)).
Definition on_jetty_a {A} (h : Z) (f : Jetty -> option (A * Jetty)) : PairTest A := fun '(a, b) =>
  arc ← JettyTable_lookup (en_jetty_table a) h;
  j ← jb_heap (en_jetty_table a) !! arc;
  '(r, j) ← f j;
  Some (r, (put_jetty a arc j, b)).
Definition post_recv_a (h len wr_id : Z) : PairTest unit :=
  on_jetty_a h (fun j => match Jetty_post_recv j (zeros len) wr_id with Ok j => Some (tt, j) | _ => None end).
Definition poll_a (h : Z) : PairTest (option Cqe) := on_jetty_a h (fun j => Some (Jetty_poll_cqe j)).
Definition polled_a (h : Z) : PairTest Cqe := cqe <- poll_a h;; unwrap cqe.
Definition send_to_a (h : Z) (data : bytes) : PairTest unit :=
  on_b (fun e => ub_send_remote e 0 0 1 (mkJettyAddr 1 h) data).

(** The two nodes of the tests: node 1 has one region of [len] bytes, which node 2
    knows; the test gets its address and handle. *)
Definition two_nodes (len perms : Z) (body : Z -> Z -> PairTest unit) : bool :=
  let devices := [DynMemory (MemoryDevice_new 4096)] in
  match MrTable_register (MrTable_new 1 1) devices 0 len perms with
  | Ok (mr_table_a, (addr_a, handle_a)) =>
    let mr_cache_b := MrCacheTable_insert ∅ (mkMrCacheEntry handle_a 1 addr_a len perms DeviceKind_Memory) in
    let engine_a := with_session (make_engine 1 mr_table_a devices ∅) 2 in
    let engine_b := with_session (make_engine 2 (MrTable_new 1 2) [] mr_cache_b) 1 in
    passes (body addr_a handle_a) (connect_bidir engine_a engine_b)
  | _ => false
  end.

(** [entry.device.read(entry.base_offset, ..)] at node 1. *)
Definition device_bytes_a (handle len : Z) : PairTest bytes := fun '(a, b) =>
  arc ← MrTable_lookup (en_mr_table a) handle;
  e ← mt_heap (en_mr_table a) !! arc;
  dev ← en_devices a !! me_device e;
  match dev_read dev (me_base_offset e) len with
  | Ok buf => Some (buf, (a, b))
  | _ => None
  end.

(** ** The tests *)

(** Source: crates/ub-dataplane/src/lib.rs:1177-1189, [tests::test_build_data_frame]. *)
Definition test_build_data_frame : bool :=
  passes (
    let! (header, ext, payload) := unwrap_ok (decode_frame
      (build_data_frame 1 2 Verb_Write 5 (UbAddr_new 1 2 0 0 0) 42 [1; 2; 3; 4])) in
    assert_eq (fh_src_node header) 1;;
    assert_eq (fh_dst_node header) 2;;
    ext <- unwrap ext;;
    assert_eq (de_verb ext) Verb_Write;;
    assert_eq (de_mr_handle ext) 5;;
    assert_eq (de_opaque ext) 42;;
    assert_eq payload [1; 2; 3; 4]) tt.

(** Source: crates/ub-dataplane/src/lib.rs:1192-1196, [tests::test_status_to_error]. *)
Definition test_status_to_error : bool :=
  passes (assert_eq (map status_to_error [1; 2; 3]) [AddrInvalid; PermDenied; Alignment]) tt.

(** Source: crates/ub-dataplane/src/lib.rs:1199-1243, [tests::test_dataplane_write_and_read]. *)
Definition test_dataplane_write_and_read : bool :=
  two_nodes 1024 7 (fun addr_a handle_a =>
    write_remote addr_a [0xDE; 0xAD; 0xBE; 0xEF];;
    settle;;
    read_buf <- device_bytes_a handle_a 4;;
    assert_eq read_buf [0xDE; 0xAD; 0xBE; 0xEF]).

(** Source: crates/ub-dataplane/src/lib.rs:1247-1296, [tests::test_dataplane_atomic_cas_and_faa]. *)
Definition test_dataplane_atomic_cas_and_faa : bool :=
  two_nodes 4096 7 (fun addr_a _ =>
    write_remote addr_a (le_bytes 0);; settle;;
    old <- cas_remote addr_a 0 42;; assert_eq old 0;;
    old <- cas_remote addr_a 0 99;; assert_eq old 42;;
    old <- faa_remote addr_a 1;; assert_eq old 42).

(** The eight calls are started one after the other before any is answered. *)
Fixpoint start_all (addr : Z) (ids : list Z) : PairTest (list Z) :=
  match ids with
  | [] => test_ret []
  | id :: ids =>
    opaque <- on_b (fun e => ub_atomic_cas_remote_start e 0 0 addr 0 id);;
    opaques <- start_all addr ids;;
    test_ret (opaque :: opaques)
  end.
Fixpoint finish_all (opaques : list Z) : PairTest (list Z) :=
  match opaques with
  | [] => test_ret []
  | opaque :: opaques =>
    old <- on_b (fun e => ub_atomic_cas_remote_finish e opaque);;
    olds <- finish_all opaques;;
    test_ret (old :: olds)
  end.

(** Source: crates/ub-dataplane/src/lib.rs:1301-1379, [tests::test_concurrent_cas_serialization]. *)
Definition test_concurrent_cas_serialization : bool :=
  two_nodes 4096 7 (fun addr_a _ =>
    write_remote addr_a (le_bytes 0);; settle;;
    opaques <- start_all addr_a (range 1 9);;
    settle;;
    olds <- finish_all opaques;;
    read_data <- read_remote addr_a 8;;
    let final_value := le_value (take 8 read_data) in
    assert ((1 <=? final_value) && (final_value <=? 8));;
    assert_eq (length (filter (fun old => old = 0) olds)) 1%nat).

(** Source: crates/ub-dataplane/src/lib.rs:1382-1397, [tests::test_build_data_frame_ex_with_imm]. *)
Definition test_build_data_frame_ex_with_imm : bool :=
  passes (
    let! (header, ext, payload) := unwrap_ok (decode_frame
      (build_data_frame_ex 1 2 Verb_Send 0 (UbAddr_new 0 0 0 0 0) 0 10 20 (Some 42) [1; 2; 3])) in
    assert_eq (fh_src_node header) 1;;
    assert (flags_contains (fh_flags header) FrameFlags_HAS_IMM);;
    ext <- unwrap ext;;
    assert_eq (de_verb ext) Verb_Send;;
    assert (flags_contains (de_ext_flags ext) ExtFlags_HAS_IMM);;
    assert_eq (de_jetty_src ext) 10;;
    assert_eq (de_jetty_dst ext) 20;;
    assert_eq (de_imm ext) (Some 42);;
    assert_eq payload [1; 2; 3]) tt.

(** Source: crates/ub-dataplane/src/lib.rs:1400-1446, [tests::test_dataplane_send_and_recv]. *)
Definition test_dataplane_send_and_recv : bool :=
  two_nodes 4096 7 (fun _ _ =>
    h <- create_jetty_a;;
    post_recv_a h 256 100;;
    send_to_a h [72; 101; 108; 108; 111];;
    settle;;
    cqe <- polled_a h;;
    assert_eq (cqe_wr_id cqe) 100;;
    assert_eq (cqe_byte_len cqe) 5;;
    assert_eq (cqe_verb cqe) Verb_Send;;
    assert_eq (cqe_imm cqe) None).

(** Source: crates/ub-dataplane/src/lib.rs:1449-1487, [tests::test_dataplane_send_with_imm]. *)
Definition test_dataplane_send_with_imm : bool :=
  two_nodes 4096 7 (fun _ _ =>
    h <- create_jetty_a;;
    post_recv_a h 256 200;;
    on_b (fun e => ub_send_with_imm_remote e 0 0 1 (mkJettyAddr 1 h) [1; 2; 3] 42);;
    settle;;
    cqe <- polled_a h;;
    assert_eq (cqe_wr_id cqe) 200;;
    assert_eq (cqe_imm cqe) (Some 42);;
    assert_eq (cqe_byte_len cqe) 3).

(** Source: crates/ub-dataplane/src/lib.rs:1490-1548, [tests::test_dataplane_write_imm]. *)
Definition test_dataplane_write_imm : bool :=
  two_nodes 4096 3 (fun addr_a handle_a =>
    h <- create_jetty_a;;
    on_b (fun e => ub_write_imm_remote e 0 0 addr_a [0xDE; 0xAD; 0xBE; 0xEF] 42 1 (mkJettyAddr 1 h));;
    settle;;
    buf <- device_bytes_a handle_a 4;;
    assert_eq buf [0xDE; 0xAD; 0xBE; 0xEF];;
    cqe <- polled_a h;;
    assert_eq (cqe_imm cqe) (Some 42);;
    assert_eq (cqe_verb cqe) Verb_WriteImm;;
    assert_eq (cqe_byte_len cqe) 4).

(** Source: crates/ub-dataplane/src/lib.rs:1552-1598, [tests::test_message_ordering_same_jetty_pair]. *)
Definition test_message_ordering_same_jetty_pair : bool :=
  two_nodes 4096 7 (fun _ _ =>
    h <- create_jetty_a;;
    post_recv_a h 64 100;; post_recv_a h 64 101;;
    send_to_a h [1];; send_to_a h [2];;
    settle;;
    cqe1 <- polled_a h;; cqe2 <- polled_a h;;
    assert_eq (cqe_wr_id cqe1) 100;;
    assert_eq (cqe_wr_id cqe2) 101).

(** Source: crates/ub-dataplane/src/lib.rs:1602-1656, [tests::test_concurrent_sends_same_jetty]. *)
Definition test_concurrent_sends_same_jetty : bool :=
  two_nodes 4096 7 (fun _ _ =>
    h <- create_jetty_a;;
    for_each (range 0 4) (fun i => post_recv_a h 64 (200 + i));;
    for_each (range 0 4) (fun i => send_to_a h [i]);;
    settle;;
    for_each (range 0 4) (fun _ => polled_a h;; test_ret tt);;
    none <- poll_a h;; assert (match none with None => true | _ => false end)).

(** ** Loss *)

(** The two engines, the time in nanoseconds and the number of datagrams sent so far. *)
Record Lossy : Type := mkLossy {
  ly_a : Engine;
  ly_b : Engine;
  ly_now : Z;
  ly_sent : nat;
}.

Section lossy.
Context (lost : nat -> bool).

(** What of the datagrams from number [i] on gets through. *)
Fixpoint surviving (i : nat) (raws : list bytes) : list bytes :=
  match raws with
  | [] => []
  | raw :: raws => if lost i then surviving (S i) raws else raw :: surviving (S i) raws
  end.

Definition receive_at (now : Z) (e : Engine) (raws : list bytes) : option Engine :=
  foldl (fun e raw =>
    e ← e;
    match dispatch_one (receive_datagram e (fun _ => now) raw) (fun _ => now) with
    | Ok e => Some e
    | _ => None
    end) (Some e) raws.

(** The engines exchange datagrams until none is left, at most [n] times. *)
Fixpoint exchange_lossy (n : nat) (s : Lossy) : option Lossy :=
  match n, outgoing (ly_a s) 2, outgoing (ly_b s) 1 with
  | _, [], [] => Some s
  | O, _, _ => None
  | S n, to_b, to_a =>
    let i := ly_sent s in
    a ← receive_at (ly_now s) (emptied (ly_a s) 2) (surviving i to_a);
    b ← receive_at (ly_now s) (emptied (ly_b s) 1) (surviving (i + length to_a) to_b);
    exchange_lossy n (mkLossy a b (ly_now s) (i + length to_a + length to_b))
  end.

Definition LossyTest (A : Type) : Type := Test Lossy A.

(** The background tasks run; at the end of a pause of [ms] the retransmission task
    of either engine has had a turn. *)
Definition tasks : LossyTest unit := fun s => s ← exchange_lossy 40 s; Some (tt, s).
Definition pause (ms : Z) : LossyTest unit :=
  tasks;;
  update (fun s =>
    let now := ly_now s + ms * 10 ^ 6 in
    let tick e := e <| en_transport := rto_tick (en_transport e) now |> in
    mkLossy (tick (ly_a s)) (tick (ly_b s)) now (ly_sent s));;
  tasks.

Definition lossy_write (addr : Z) (data : bytes) : LossyTest unit :=
  (fun s => match ub_write_remote (ly_b s) (ly_now s) (ly_now s) addr data with
            | (b, Ok _) => Some (tt, mkLossy (ly_a s) b (ly_now s) (ly_sent s))
            | _ => None
            end);;
  tasks.

(** The answer, which may take [n] quarters of a second. *)
Fixpoint lossy_answer {A} (n : nat) (finish : Engine -> Engine * Result A) : LossyTest A := fun s =>
  match finish (ly_b s), n with
  | (b, Ok r), _ => Some (r, mkLossy (ly_a s) b (ly_now s) (ly_sent s))
  | _, S n => '(_, s) ← pause 250 s; lossy_answer n finish s
  | _, O => None
  end.

Definition lossy_call {A} (start : Engine -> Z -> Engine * Result Z) (finish : Engine -> Z -> Engine * Result A)
  : LossyTest A :=
  opaque <- (fun s => match start (ly_b s) (ly_now s) with
                      | (b, Ok opaque) => Some (opaque, mkLossy (ly_a s) b (ly_now s) (ly_sent s))
                      | _ => None
                      end);;
  tasks;; lossy_answer 8 (fun e => finish e opaque).

Definition lossy_read (addr len : Z) : LossyTest bytes :=
  lossy_call (fun e now => ub_read_remote_start e now now addr len) ub_read_remote_finish.
Definition lossy_faa (addr add : Z) : LossyTest Z :=
  lossy_call (fun e now => ub_atomic_faa_remote_start e now now addr add) ub_atomic_faa_remote_finish.

(** [results.push(..)] for each number. *)
Fixpoint collect {A} (l : list Z) (f : Z -> LossyTest A) : LossyTest (list A) :=
  match l with
  | [] => test_ret []
  | i :: l => r <- f i;; rs <- collect l f;; test_ret (r :: rs)
  end.

(** Source: crates/ub-dataplane/src/lib.rs:1663-1789, [tests::test_loss_resilience_write_read_and_atomic].
    The random losses are the pattern [lost]. *)
Definition test_loss_resilience_write_read_and_atomic : bool :=
  let devices := [DynMemory (MemoryDevice_new 65536)] in
  match MrTable_register (MrTable_new 1 1) devices 0 65536 7 with
  | Ok (mr_table_a, (addr_a, handle_a)) =>
    let mr_cache_b := MrCacheTable_insert ∅ (mkMrCacheEntry handle_a 1 addr_a 65536 7 DeviceKind_Memory) in
    let engine_a := with_session (make_engine_with_rto 1 mr_table_a devices ∅) 2 in
    let engine_b := with_session (make_engine_with_rto 2 (MrTable_new 1 2) [] mr_cache_b) 1 in
    let '(engine_a, engine_b) := connect_bidir engine_a engine_b in
    passes (
      pause 200;;
      for_each (range 0 100) (fun i =>
        lossy_write addr_a (repeat i 4);;
        if i mod 10 =? 9 then
          read_data <- lossy_read addr_a 4;; assert_eq (length read_data) 4%nat;; pause 10
        else test_ret tt);;
      pause 500;;
      lossy_write addr_a (le_bytes 0);;
      pause 200;;
      faa_results <- collect (range 0 50) (fun i =>
        old <- lossy_faa addr_a 1;;
        (if i mod 10 =? 9 then pause 20 else test_ret tt);;
        test_ret old);;
      assert (bool_decide (faa_results ≡ₚ range 0 50));;
      final_read <- lossy_read addr_a 8;;
      assert_eq (le_value (take 8 final_read)) 50) (mkLossy engine_a engine_b 0 0)
  | _ => false
  end.
End lossy.

(** Losses of five in a hundred and of one in a hundred. *)
Lemma loss_tests : all_pass
  (map test_loss_resilience_write_read_and_atomic
     [(fun i => i mod 20 =? 7)%nat; (fun i => i mod 100 =? 3)%nat]) = true.
Proof. vm_compute. reflexivity. Qed.

Lemma dataplane_tests : all_pass
  [test_build_data_frame; test_status_to_error; test_dataplane_write_and_read;
   test_dataplane_atomic_cas_and_faa; test_concurrent_cas_serialization; test_build_data_frame_ex_with_imm;
   test_dataplane_send_and_recv; test_dataplane_send_with_imm; test_dataplane_write_imm;
   test_message_ordering_same_jetty_pair; test_concurrent_sends_same_jetty] = true.
Proof. vm_compute. reflexivity. Qed.
